(* ===== verification/_CoqProject ===== *)
-Q . S2P
Prelude.v
Mem.v
ByteOrder.v
MachineFormat.v
Psi.v
Effects.v
Thread.v
FileIO.v
ErrorCodes.v
ErrorNames.v
SqlState.v
Errors.v
Macros.v
Doubles.v
FloatClass.v
Strings.v
Ctype.v
IoCache.v
Pthread.v
Protocol.v
Containers.v
PluginVars.v
Dbug.v
Locks.v
LockClients.v
InstrumentedLocks.v
ThreadData.v
Conditions.v
MonitorClients.v
InstrumentedMonitors.v
Layout.v
Structs.v
Preprocessor.v
HeaderConfig.v
HeaderGlobal.v
HeaderPthread.v
HeaderMysql.v
Configuration.v
LockConfiguration.v
ClientTypes.v
FunctionTypes.v
DeclaredTypes.v
DeclaredFunctions.v
Slots.v
Interfaces.v
DeclaredVariables.v
Plugins.v
Enumerations.v
Flags.v
Compiler.v
InlineFunctions.v
MacroExpansion.v
MacrosGlobal.v
MacrosThreads.v
MacrosLibrary.v
MacroCalls.v
MacroUses.v
DynamicArrays.v
Decimals.v
SslOptions.v
FileModes.v
MemoryRoots.v
