(* ===== verification/Prelude.v ===== *)
(** * MySQL 5.5 headers: a verification library

    ** The program

    The C code of the repository is the set of headers of MySQL 5.5.25a in
    src/softwares/xampp/mysql/include/.  They are not only declarations: macros and inline
    functions do the storage of integers and floating point numbers, wrap every mutex, rwlock,
    condition and file operation of the server for the performance schema, run the fast path of
    buffered files, convert and round numbers, count with or without locks, and the tables of error
    codes, messages and SQL states are data of the headers.  This library models that code and
    proves what it promises.  The rest of the repository (ActionScript, JavaScript,
    binaries, tests of the database) is not C and is not modelled.

    ** How it is modelled

    - A C integer is a [Z]; each conversion is written out ([uwrap], [swrap] of this file,
      abbreviated [u8] to [s64]).  Addresses are [Z], memory is a finite map from addresses to
      bytes (Mem.v), an access outside of it is a fault, the [None] of an option.
    - Code that calls the system or the performance schema is a program of the free monad of
      Effects.v: its calls are recorded, their results come from an environment about which
      nothing is assumed but what a theorem names.
    - Code that depends on a conditional of the preprocessor takes it as an argument, or is two
      modules: [X86] and [Generic] in ByteOrder.v, [I386] and [Portable] in Ctype.v.
    - A function that is declared in the headers and implemented elsewhere is a parameter: the
      server of the performance schema, the functions of mf_iocache.c ([IoFunctions]), the
      system.  Its documented behaviour is a class of laws ([ReadLaws], [WriteLaws], [KeyLaws],
      [CondLaws]) with an instance that satisfies it.
    - A lock of the system and the functions of thr_mutex.c, thr_rwlock.c and my_wincond.c behind the
      lock macros are a class of laws (Locks.v, Conditions.v); programs on locks are step relations, and what a
      client sees is compared with a table of locks.
    - Structures are data (Layout.v): a type describes its fields in order, and one function computes
      offsets, sizes and alignments from the sizes of the scalar types and the defined macros of a
      platform ([Platform], with the laws [PlatformLaws]).
    - Directives of the preprocessor are data too (Preprocessor.v): a tree for each header, the
      function that runs it on the defined macros, and an analyser that runs it when
      only some of the macros are known.  What a header of the system does to the macros is a
      parameter that leaves the names reserved for MySQL alone.
    - Macros are modelled twice where they compute: by what they do, in the file of their component, and by their
      text, as terms under their conditionals (MacroExpansion.v), with the expansion of C that paints a macro
      met in its own replacement.  The outcome of a conditional is then an arbitrary boolean.
    - Types of declared functions are data (FunctionTypes.v), equal when C says so, whatever the conditionals choose.
    - Loops take fuel, and a theorem says how much is enough: one more than the length of the
      string for [skip_trailing_space] and for the loop of [DLERROR_GENERATE].  A chain of macros
      that stand for each other in [#if] has the fuel 8; a longer chain is no value, and the theorems
      about my_global.h show that none is met.  The expansion of macros takes fuel that every term has
      enough of from some number on, because each step leaves fewer macros to replace.  All other recursion is
      structural.

    ** Files

    - Prelude.v: integers, notations, hints.  Mem.v: memory, loads and stores.
    - ByteOrder.v (my_global.h, lines 1054 to 1279): intNstore, uintNkorr, sintNkorr and
      int4net.  The theorems: what is stored is read back on every pair of platforms, the two
      variants agree, the IA-32 uint3korr reads one byte too many.
    - MachineFormat.v (my_global.h, lines 1112 to 1310): float4, float8, short and long storage
      on the three hosts of the conditionals.
    - Psi.v (mysql/psi/psi.h): the operations, events and documented protocol of the
      performance schema.  Effects.v: programs, environments, runs, configurations.
    - Thread.v (mysql/psi/mysql_thread.h): each [inline_mysql_*] function and [mysql_*] macro,
      an abstract specification of each operation, scripts of operations.  The theorems:
      refinement of the specification, the same results in every configuration, no use of a
      dead handle, matched events.
    - FileIO.v (mysql/psi/mysql_file.h): the same for the file operations, whose clients choose
      the next operation from the earlier results; what fopen and fclose allocate and release;
      which byte counts are reported.
    - ErrorCodes.v, ErrorNames.v, SqlState.v (mysqld_error.h, mysqld_ername.h, sql_state.h): the
      tables.  Errors.v: the lookups, errmsg.h, and what the tables satisfy together.
    - Macros.v (my_global.h): alignment, limits, small macros.
    - Doubles.v (my_global.h): rint, my_double2ulonglong, my_ulonglong2double on the executable
      IEEE 754 doubles of the Standard Library; the file proves that its addition and comparison
      are those of exact values with one rounding.
    - Strings.v (m_string.h, my_global.h): skip_trailing_space, lex_string_set, DLERROR_GENERATE.
    - Ctype.v (m_ctype.h): two-byte stores, contraction tables, classification.
    - IoCache.v (my_sys.h): the IO_CACHE macros as operations on a stream.  Writers are followed up to the first failure
      that is reported to them or that my_b_write_byte hides.
    - Pthread.v (my_pthread.h): shared counters under all interleavings ([Counter]), deadlines of
      timed waits ([Deadline]).
    - Protocol.v (mysql_com.h, mysql.h): capabilities, flags, types, widths.
    - Containers.v (my_list.h): the list macros on a heap of cells, over functions that are not in the headers.
    - PluginVars.v (mysql/plugin.h): the macros that declare system variables of plugins.
    - Dbug.v (my_dbug.h): the DBUG macros of both builds, as computations that go on, return or
      end the process; clients that use them, arguments of macros with effects and the crash macros included.
    - Locks.v (my_pthread.h): the mutex and read-write lock macros of every build over the laws of the
      system.  LockClients.v: clients of any number of locks.  The theorems: refinement of a table of locks
      for clients that release only what they hold and ask for nothing that they hold; progress and termination if they
      also ask in ascending order.
      InstrumentedLocks.v: the same for clients of the macros of mysql_thread.h, by composing the theorems on
      programs (Thread.v) and on clients of locks under interleavings; the instrumentation does not show.
    - ThreadData.v (my_pthread.h): keys and thread-specific data of every build, a table of values.
    - Conditions.v (my_pthread.h): conditions with their mutex, the initialisation and destruction of locks.  A wait is
      two actions, to fall asleep until a deadline and to return.  MonitorClients.v: threads that wait for predicates on shared
      data, against the interface of Conditions.v; no wakeup is lost if every change is announced by a broadcast, or by a
      signal when only one thread may wait, and none sleeps past its deadline.  InstrumentedMonitors.v: the same for threads that run the
      programs of mysql_thread.h, each call a step of its own.
    - Layout.v: types, offsets, sizes.  Structs.v: the structures of all headers.  The theorems: every
      structure is laid out soundly, casts between an object and its header are right, and which macros
      layouts depend on.
    - FloatClass.v (my_global.h): finite, isnan, my_isinf and the limits of doubles.
    - Preprocessor.v: directives and their analyser.  HeaderConfig.v, HeaderGlobal.v, HeaderPthread.v: the
      directives of my_config.h, my_global.h and my_pthread.h, in the order of the files.
      Configuration.v: what the distribution for Windows gets of them, and the types of
      my_global.h.  LockConfiguration.v: the locks that my_pthread.h chooses.
      HeaderMysql.v: the directives of mysql.h.  ClientTypes.v: what clients and the library get of
      mysql.h and my_global.h.
    - FunctionTypes.v: types of functions and their equality.  DeclaredTypes.v, DeclaredFunctions.v: the typedefs and
      declared functions of all headers.  DeclaredVariables.v: the types of the declared variables.  Slots.v: the pointers to functions in their structures.
      Interfaces.v: the macros that call through these pointers, and plugins that use the services.
    - Enumerations.v, Flags.v: the numbers of the enumerations, and the flags by the argument they are for.
      Compiler.v (my_compiler.h, my_attribute.h): versions, attributes, alignment.
    - Smaller parts, a file each.  DynamicArrays.v (my_sys.h): the macros on dynamic arrays.  Decimals.v (decimal.h,
      m_string.h): signs, sizes and error masks of decimals.  MemoryRoots.v (my_alloc.h, my_sys.h): the macros on roots.
      SslOptions.v (sslopt-*.h): the options of secure connections, from their declarations to the call of
      mysql_ssl_set.  FileModes.v (my_dir.h): types and permissions of files.  Plugins.v (plugin.h, client_plugin.h):
      what the declaration of a library of plugins defines.
    - MacroExpansion.v: terms and expansion.  MacrosGlobal.v, MacrosThreads.v, MacrosLibrary.v: the macros of 22
      headers as terms.  InlineFunctions.v: the parameters of the instrumented functions.  MacroCalls.v: that the
      expansion of every call ends and fits what it calls.  MacroUses.v: copies, fills, allocations,
      the release build.

    ** What the theorems show

    Refinement and transparency: the instrumented operations do exactly the calls of their
    specification, and the instrumentation changes no result; the debug package changes no result
    and its trace is well bracketed; a plugin sees no difference between the two ways to the services; every build of the lock macros refines a
    table in which a writer is alone, with and without the instrumentation; thread-specific data are a table of the
    values of each thread.  Safety: shared data change under their mutex only and no wakeup of a condition is lost; handles are not used after
    their destruction, structures are released on every path, counters lose no update (on Windows in their low 32 bits), strings
    and buffers are not read or written outside of their bounds.  Liveness and termination: ordered clients of locks
    end, the expansion of macros ends.
    Round trips: integers and
    floating point numbers come back from memory across platforms.  Data: the error tables are
    dense, sorted, consistent with each other and fit their buffers.  Types and configurations:
    objects begin with the headers they are cast to, clients and library get the same
    types, the types and locks that the directives choose
    are those of the structures, the shipped configuration meets no [#error], functions have the types of the slots
    they are for, and macros pass as many arguments as what they call takes.  Errors and limits of
    the code are theorems too: file_stat mixes events, a failed vfprintf is reported as a byte count,
    my_b_write_byte ignores a failed flush, wide interlocked counters lose carries, the limit of set_timespec wraps, contraction flags
    overlap the weights, my_ulonglong2double rounds twice, DLERROR_GENERATE keeps spaces, two limits
    of doubles are wrong.

    ** What is not modelled

    What functions do that are only declared: they are most of mysql.h, my_sys.h, m_string.h, m_ctype.h,
    decimal.h and the option parser, of which structures, types and macros are modelled.  Of
    my_pthread.h: what the creation of threads, their attributes, signals, once and yield do (these macros
    rename functions of the system, and are modelled as text).  What setjmp, longjmp and sync points of my_dbug.h do; volatile and the calling conventions in types; includes of other
    headers.  The conditionals around declarations and macros are texts without an interpretation there, their meaning is
    modelled in Preprocessor.v for the four headers named above.  The headers of the system and of
    compilers, my_compiler.h and my_dbug.h included in my_global.h, are the parameter of the preprocessor
    model. *)
From Stdlib Require Export ZArith Lia.
From stdpp Require Export base numbers list gmap strings.

(** ** Notations of the development *)

Declare Scope mysql_scope.
Delimit Scope mysql_scope with mysql.
Open Scope Z_scope.

(** ** Machine integers

    A C integer of width [w] is a [Z]; the conversions of C are written out as
    the functions below.  [uN] is the conversion to the unsigned type of
    width N, [sN] the conversion to the signed one (two's complement). *)

Definition uwrap (w z : Z) : Z := z mod 2 ^ w.
Definition swrap (w z : Z) : Z := (z + 2 ^ (w - 1)) mod 2 ^ w - 2 ^ (w - 1).

Abbreviation u8 := (uwrap 8).
Abbreviation u16 := (uwrap 16).
Abbreviation u32 := (uwrap 32).
Abbreviation u64 := (uwrap 64).
Abbreviation s8 := (swrap 8).
Abbreviation s16 := (swrap 16).
Abbreviation s32 := (swrap 32).
Abbreviation s64 := (swrap 64).

Definition is_byte (b : Z) : Prop := 0 <= b < 256.

Create HintDb mysql.
Create Rewrite HintDb mysql_wrap.

Lemma uwrap_range (w z : Z) : 0 <= w -> 0 <= uwrap w z < 2 ^ w.
Proof. intros. unfold uwrap. apply Z.mod_pos_bound. lia. Qed.

Lemma uwrap_small (w z : Z) : 0 <= z < 2 ^ w -> uwrap w z = z.
Proof. intros. unfold uwrap. by apply Z.mod_small. Qed.

Lemma swrap_range (w z : Z) : 0 < w -> - 2 ^ (w - 1) <= swrap w z < 2 ^ (w - 1).
Proof.
  intros Hw. unfold swrap.
  assert (Hp : 2 ^ w = 2 * 2 ^ (w - 1)).
  { rewrite <- Z.pow_succ_r by lia. f_equal. lia. }
  pose proof (Z.mod_pos_bound (z + 2 ^ (w - 1)) (2 ^ w)) as Hm.
  assert (0 < 2 ^ (w - 1)) by (apply Z.pow_pos_nonneg; lia). lia.
Qed.

Lemma swrap_small (w z : Z) :
  0 < w -> - 2 ^ (w - 1) <= z < 2 ^ (w - 1) -> swrap w z = z.
Proof.
  intros Hw Hz. unfold swrap.
  assert (Hp : 2 ^ w = 2 * 2 ^ (w - 1)).
  { rewrite <- Z.pow_succ_r by lia. f_equal. lia. }
  rewrite Z.mod_small by lia. lia.
Qed.

(** A signed conversion only depends on the value modulo [2^w]. *)
Lemma swrap_uwrap (w z : Z) : swrap w (uwrap w z) = swrap w z.
Proof. unfold swrap, uwrap. by rewrite Zplus_mod_idemp_l. Qed.

Lemma uwrap_swrap (w z : Z) : 0 < w -> uwrap w (swrap w z) = uwrap w z.
Proof.
  intros Hw. unfold swrap, uwrap.
  rewrite Zminus_mod_idemp_l. f_equal. lia.
Qed.

Lemma uwrap_uwrap (w z : Z) : uwrap w (uwrap w z) = uwrap w z.
Proof. unfold uwrap. apply Zmod_mod. Qed.

Lemma is_byte_u8 (z : Z) : is_byte (u8 z).
Proof. unfold is_byte. apply (uwrap_range 8). lia. Qed.

Lemma u8_byte (b : Z) : is_byte b -> u8 b = b.
Proof. unfold is_byte. intros. apply uwrap_small. lia. Qed.

#[export] Hint Resolve is_byte_u8 uwrap_range swrap_range : mysql.
#[export] Hint Rewrite uwrap_uwrap swrap_uwrap : mysql_wrap.

(** ** Facts about bytes, checked on all 256 values *)

Lemma byte_forall (f : Z -> bool) :
  forallb f (seqZ 0 256) = true -> forall b, is_byte b -> f b = true.
Proof.
  intros Hf b Hb. rewrite forallb_forall in Hf. apply Hf.
  apply list_elem_of_In, elem_of_seqZ. unfold is_byte in Hb. lia.
Qed.

(** ** Disjunction of disjoint bit fields is addition *)

Lemma lor_add (a b k : Z) : 0 <= k -> 0 <= b < 2 ^ k -> Z.lor (a * 2 ^ k) b = a * 2 ^ k + b.
Proof.
  intros Hk Hb. assert (Hl : Z.land (a * 2 ^ k) b = 0).
  { apply Z.bits_inj'. intros n Hn. rewrite Z.land_spec, Z.bits_0.
    destruct (Z.lt_ge_cases n k).
    - by rewrite Z.mul_pow2_bits_low.
    - rewrite <- (Z.mod_small b (2 ^ k)) by done.
      by rewrite Z.mod_pow2_bits_high, andb_false_r by lia. }
  rewrite <- Z.lxor_lor by done. by rewrite <- Z.add_nocarry_lxor.
Qed.

(** ** Steps that decrease a measure

    [I x n]: an invariant of [x], with [n] the steps it may still make. *)

Section Measure.
Context {A : Type} (R : relation A) (I : A -> nat -> Prop).
Context (measure_step : forall x n y, I x n -> R x y -> exists m, (m < n)%nat /\ I y m).

Lemma measure_sn (x : A) (n : nat) : I x n -> sn R x.
Proof.
  revert x. induction (lt_wf n) as [n _ IH]. intros x Hx. constructor. intros y Hy.
  destruct (measure_step x n y Hx Hy) as (m & Hm & Hi). by apply (IH m Hm).
Qed.

Lemma measure_ends (fin : A -> Prop) : (forall x n, I x n -> fin x \/ exists y, R x y) ->
  forall x n, I x n -> exists y, rtc R x y /\ fin y.
Proof.
  intros Hp x n. revert x. induction (lt_wf n) as [n _ IH]. intros x Hx.
  destruct (Hp x n Hx) as [Hf|[y Hy]]; [by exists x|]. destruct (measure_step x n y Hx Hy) as (m & Hm & Hi).
  destruct (IH m Hm y Hi) as (z & Hz & Hf). exists z. split; [by eapply rtc_l|done].
Qed.
End Measure.
