(* ===== verification/Mem.v ===== *)
(** * Byte-addressed memory

    The memory that pointer-level macros of the headers read and write: a
    finite map from addresses to byte values.  An access outside of the mapped
    addresses is a fault ([None]).  Multi-byte accesses are the little-endian
    ones of the IA-32 machine on which the optimised macros run. *)
From S2P Require Import Prelude.

Abbreviation mem := (gmap Z Z).

(** ** Accesses *)

Definition load8 (m : mem) (p : Z) : option Z := m !! p.

Definition store8 (m : mem) (p v : Z) : option mem :=
  match m !! p with Some _ => Some (<[p := u8 v]> m) | None => None end.

Fixpoint store_bytes (m : mem) (p : Z) (l : list Z) : option mem :=
  match l with
  | [] => Some m
  | b :: l => m' ← store8 m p b; store_bytes m' (p + 1) l
  end.

Fixpoint load_bytes (n : nat) (m : mem) (p : Z) : option (list Z) :=
  match n with
  | O => Some []
  | S n => b ← load8 m p; l ← load_bytes n m (p + 1); Some (b :: l)
  end.

#[global] Arguments load_bytes : simpl never.

(** ** Little-endian integers *)

Fixpoint le_bytes (n : nat) (v : Z) : list Z :=
  match n with
  | O => []
  | S n => u8 v :: le_bytes n (Z.shiftr v 8)
  end.

Fixpoint le_combine (l : list Z) : Z :=
  match l with [] => 0 | b :: l => b + 256 * le_combine l end.

Definition store_le (n : nat) (m : mem) (p v : Z) : option mem :=
  store_bytes m p (le_bytes n v).

Definition load_le (n : nat) (m : mem) (p : Z) : option Z :=
  le_combine <$> load_bytes n m p.

(** ** Well-formedness *)

Definition mapped (m : mem) (p n : Z) : Prop :=
  forall i, 0 <= i < n -> is_Some (m !! (p + i)).

Definition bytes_ok (m : mem) : Prop := forall a b, m !! a = Some b -> is_byte b.

(** [only_changes m m' p n]: [m'] differs from [m] at most on the [n] bytes from [p]. *)
Definition only_changes (m m' : mem) (p n : Z) : Prop :=
  forall a, a < p \/ p + n <= a -> m' !! a = m !! a.

(** ** Lemmas *)

Lemma mapped_head (m : mem) (p n : Z) : mapped m p n -> 0 < n -> is_Some (m !! p).
Proof. intros Hm Hn. rewrite <- (Z.add_0_r p). apply Hm. lia. Qed.

Lemma mapped_tail (m : mem) (p n : Z) : mapped m p n -> mapped m (p + 1) (n - 1).
Proof. intros Hm i Hi. replace (p + 1 + i) with (p + (1 + i)) by lia. apply Hm. lia. Qed.

Lemma mapped_le (m : mem) (p n k : Z) : mapped m p n -> k <= n -> mapped m p k.
Proof. intros Hm Hk i Hi. apply Hm. lia. Qed.

Lemma mapped_insert (m : mem) (p n a v : Z) : mapped m p n -> mapped (<[a := v]> m) p n.
Proof.
  intros Hm i Hi. destruct (decide (a = p + i)) as [->|Hne].
  - rewrite lookup_insert_eq. eauto.
  - rewrite lookup_insert_ne by done. by apply Hm.
Qed.

Lemma bytes_ok_insert (m : mem) (a v : Z) : bytes_ok m -> bytes_ok (<[a := u8 v]> m).
Proof.
  intros Hm q b. destruct (decide (a = q)) as [->|Hne].
  - rewrite lookup_insert_eq. intros [= <-]. apply is_byte_u8.
  - rewrite lookup_insert_ne by done. apply Hm.
Qed.

Lemma store8_mapped (m : mem) (p v : Z) :
  is_Some (m !! p) -> store8 m p v = Some (<[p := u8 v]> m).
Proof. intros [b Hb]. unfold store8. by rewrite Hb. Qed.

Lemma load_bytes_0 (m : mem) (p : Z) : load_bytes 0 m p = Some [].
Proof. reflexivity. Qed.

Lemma load_bytes_S (n : nat) (m : mem) (p : Z) :
  load_bytes (S n) m p = (b ← load8 m p; l ← load_bytes n m (p + 1); Some (b :: l)).
Proof. reflexivity. Qed.

Lemma load_bytes_length (n : nat) : forall (m : mem) (p : Z) (l : list Z),
  load_bytes n m p = Some l -> length l = n.
Proof.
  induction n as [|n IH]; intros m p l; [by intros [= <-]|]. rewrite load_bytes_S.
  destruct (load8 m p); [|done]. cbn [mbind option_bind].
  destruct (load_bytes n m (p + 1)) eqn:Hl; [|done]. intros [= <-]. cbn. by rewrite (IH _ _ _ Hl).
Qed.

(** A load of two areas that follow each other. *)
Lemma load_bytes_app (a b : nat) : forall (m : mem) (p : Z),
  load_bytes (a + b) m p
  = (l ← load_bytes a m p; l' ← load_bytes b m (p + Z.of_nat a); Some (l ++ l')%list).
Proof.
  induction a as [|a IH]; intros m p.
  { rewrite load_bytes_0, Z.add_0_r. cbn [plus mbind option_bind app]. by destruct (load_bytes b m p). }
  cbn [plus]. rewrite !load_bytes_S. destruct (load8 m p) as [x|]; [|done]. cbn [mbind option_bind].
  rewrite IH. replace (p + 1 + Z.of_nat a) with (p + Z.of_nat (S a)) by lia.
  destruct (load_bytes a m (p + 1)); [|done]. cbn [mbind option_bind].
  by destruct (load_bytes b m _).
Qed.

(** A load only looks at the bytes it covers. *)
Lemma load_bytes_agree (n : nat) (m m' : mem) (p : Z) :
  (forall a, p <= a < p + Z.of_nat n -> m' !! a = m !! a) ->
  load_bytes n m' p = load_bytes n m p.
Proof.
  revert p. induction n as [|n IH]; intros p Hag; [done|].
  rewrite !load_bytes_S. unfold load8. rewrite Hag by lia.
  destruct (m !! p); [|done]. simpl. rewrite IH; [done|]. intros; apply Hag; lia.
Qed.

(** A load that covers an unmapped address faults. *)
Lemma load_bytes_fault (n : nat) : forall (m : mem) (p i : Z),
  0 <= i < Z.of_nat n -> m !! (p + i) = None -> load_bytes n m p = None.
Proof.
  induction n as [|n IH]; intros m p i Hi Hn; [lia|].
  rewrite load_bytes_S. unfold load8. destruct (decide (i = 0)) as [->|Hne].
  - rewrite Z.add_0_r in Hn. by rewrite Hn.
  - destruct (m !! p); [|done]. cbn. rewrite (IH m (p + 1) (i - 1)); [done|lia|].
    by replace (p + 1 + (i - 1)) with (p + i) by lia.
Qed.

(** The functional behaviour of a store: it succeeds on mapped addresses, the
    bytes read back are those written, and no other byte changes. *)
Lemma store_bytes_spec (l : list Z) : forall (m : mem) (p : Z),
  mapped m p (Z.of_nat (length l)) ->
  exists m', store_bytes m p l = Some m'
    /\ load_bytes (length l) m' p = Some (uwrap 8 <$> l)
    /\ only_changes m m' p (Z.of_nat (length l))
    /\ (forall q n, mapped m q n -> mapped m' q n)
    /\ (bytes_ok m -> bytes_ok m').
Proof.
  induction l as [|b l IH]; intros m p Hm.
  { exists m. simpl. unfold only_changes. auto. }
  simpl length in Hm. simpl store_bytes.
  rewrite store8_mapped by (eapply mapped_head; [done|lia]). simpl.
  destruct (IH (<[p := u8 b]> m) (p + 1)) as (m' & Hst & Hld & Hoc & Hmp & Hok).
  { apply mapped_insert. apply mapped_tail in Hm.
    eapply mapped_le; [done|]. lia. }
  exists m'. split_and!; [done| | | |].
  - simpl length. rewrite load_bytes_S, Hld. unfold load8.
    rewrite (Hoc p) by lia. by rewrite lookup_insert_eq.
  - intros a Ha. simpl length in Ha. rewrite Hoc by lia.
    rewrite lookup_insert_ne by lia. done.
  - intros q n Hq. by apply Hmp, mapped_insert.
  - intros Hb. by apply Hok, bytes_ok_insert.
Qed.

Lemma le_bytes_length (n : nat) (v : Z) : length (le_bytes n v) = n.
Proof. revert v. induction n as [|n IH]; intros v; simpl; [done|]. by rewrite IH. Qed.

Lemma le_bytes_u8 (n : nat) (v : Z) : uwrap 8 <$> le_bytes n v = le_bytes n v.
Proof.
  revert v. induction n as [|n IH]; intros v; [done|].
  simpl. by rewrite uwrap_uwrap, IH.
Qed.

(** Recombining the bytes of [v] gives [v] modulo the width. *)
Lemma le_combine_le_bytes (n : nat) (v : Z) :
  le_combine (le_bytes n v) = uwrap (8 * Z.of_nat n) v.
Proof.
  revert v. induction n as [|n IH]; intros v.
  { unfold uwrap. simpl. by rewrite Z.mod_1_r. }
  cbn [le_bytes le_combine]. rewrite IH. unfold uwrap.
  rewrite Z.shiftr_div_pow2 by lia.
  replace (8 * Z.of_nat (S n)) with (8 + 8 * Z.of_nat n) by lia.
  rewrite Z.pow_add_r by lia. change (2 ^ 8) with 256.
  rewrite Z.rem_mul_r by lia. lia.
Qed.

(** Two values congruent modulo the width have the same bytes. *)
Lemma le_bytes_congr (n : nat) : forall v w,
  uwrap (8 * Z.of_nat n) v = uwrap (8 * Z.of_nat n) w -> le_bytes n v = le_bytes n w.
Proof.
  induction n as [|n IH]; intros v w H; [done|].
  unfold uwrap in *. revert H.
  replace (8 * Z.of_nat (S n)) with (8 + 8 * Z.of_nat n) by lia.
  rewrite Z.pow_add_r by lia. rewrite !Z.rem_mul_r by lia. intros H.
  pose proof (Z.mod_pos_bound v (2 ^ 8)). pose proof (Z.mod_pos_bound w (2 ^ 8)).
  change (2 ^ 8) with 256 in *. cbn [le_bytes]. f_equal.
  - unfold uwrap. change (2 ^ 8) with 256. lia.
  - apply IH. rewrite !Z.shiftr_div_pow2 by lia. change (2 ^ 8) with 256. lia.
Qed.

Lemma le_combine_range (l : list Z) :
  Forall is_byte l -> 0 <= le_combine l < 2 ^ (8 * Z.of_nat (length l)).
Proof.
  induction 1 as [|b l Hb _ IH]; [simpl; lia|].
  simpl length. unfold is_byte in Hb. cbn [le_combine].
  replace (8 * Z.of_nat (S (length l))) with (8 + 8 * Z.of_nat (length l)) by lia.
  rewrite Z.pow_add_r by lia. change (2 ^ 8) with 256. lia.
Qed.

Lemma load_bytes_mapped (n : nat) : forall (m : mem) (p : Z),
  mapped m p (Z.of_nat n) -> bytes_ok m ->
  exists l, load_bytes n m p = Some l /\ length l = n /\ Forall is_byte l.
Proof.
  induction n as [|n IH]; intros m p Hm Hok; [by exists []|].
  destruct (mapped_head m p (Z.of_nat (S n))) as [b Hb]; [done|lia|].
  destruct (IH m (p + 1)) as (l & Hl & Hlen & Hbs); [|done|].
  { apply mapped_tail in Hm. eapply mapped_le; [done|lia]. }
  exists (b :: l). rewrite load_bytes_S. unfold load8. rewrite Hb. simpl.
  rewrite Hl. simpl. split_and!; [done|lia|]. constructor; [by apply (Hok p)|done].
Qed.

(** Store then load of the same width: the value modulo the width comes back. *)
Lemma store_le_load_le (n : nat) (m : mem) (p v : Z) :
  mapped m p (Z.of_nat n) ->
  exists m', store_le n m p v = Some m'
    /\ load_le n m' p = Some (uwrap (8 * Z.of_nat n) v)
    /\ only_changes m m' p (Z.of_nat n)
    /\ (forall q k, mapped m q k -> mapped m' q k)
    /\ (bytes_ok m -> bytes_ok m').
Proof.
  intros Hm. unfold store_le, load_le.
  destruct (store_bytes_spec (le_bytes n v) m p) as (m' & Hs & Hl & Hrest).
  { by rewrite le_bytes_length. }
  rewrite le_bytes_length, le_bytes_u8 in *. exists m'.
  rewrite Hl. simpl. rewrite le_combine_le_bytes. tauto.
Qed.

Lemma load_le_range (n : nat) (m : mem) (p v : Z) :
  bytes_ok m -> load_le n m p = Some v -> 0 <= v < 2 ^ (8 * Z.of_nat n).
Proof.
  intros Hok. unfold load_le.
  destruct (load_bytes n m p) as [l|] eqn:Hl; [|done]. simpl. intros [= <-].
  assert (length l = n /\ Forall is_byte l) as [<- Hf]; [|by apply le_combine_range].
  revert p l Hl. induction n as [|n IH]; intros p l.
  - simpl. intros [= <-]. done.
  - rewrite load_bytes_S. unfold load8. destruct (m !! p) as [b|] eqn:Hb; [|done]. simpl.
    destruct (load_bytes n m (p + 1)) as [l'|] eqn:Hl'; [|done]. simpl. intros [= <-].
    destruct (IH _ _ Hl') as [? ?]. simpl. split; [lia|].
    constructor; [by apply (Hok p)|done].
Qed.

#[export] Hint Resolve mapped_insert bytes_ok_insert : mysql.

(** [zeroed p n]: a memory where exactly the [n] bytes from [p] are mapped. *)
Fixpoint zeroed (p : Z) (n : nat) : mem :=
  match n with O => ∅ | S n => <[p := 0]> (zeroed (p + 1) n) end.

Lemma zeroed_lookup (n : nat) : forall p a,
  zeroed p n !! a = if decide (p <= a < p + Z.of_nat n) then Some 0 else None.
Proof.
  induction n as [|n IH]; intros p a.
  { simpl. rewrite lookup_empty. case_decide; [lia|done]. }
  cbn [zeroed]. destruct (decide (p = a)) as [->|Hne].
  - rewrite lookup_insert_eq. case_decide; [done|lia].
  - rewrite lookup_insert_ne, IH by done. repeat case_decide; try done; lia.
Qed.

Lemma mapped_zeroed (p n : Z) (k : nat) : n <= Z.of_nat k -> mapped (zeroed p k) p n.
Proof. intros H i Hi. rewrite zeroed_lookup. case_decide; [eauto|lia]. Qed.

Lemma bytes_ok_zeroed (p : Z) (n : nat) : bytes_ok (zeroed p n).
Proof.
  intros a b. rewrite zeroed_lookup. case_decide; [|done].
  intros [= <-]. unfold is_byte. lia.
Qed.
