(* ===== verification/ByteOrder.v ===== *)
(** * Machine-independent integer storage (my_global.h)

    The [intNstore]/[uintNkorr] macros, in the variant optimised for IA-32
    (module [X86]) and in the portable one (module [Generic]), the network
    order read [int4net] and the floating point copies.  The optimised macros
    dereference a wider pointer; the portable ones work byte by byte. *)
From S2P Require Import Prelude Mem.

(** Left shift of the 32-bit signed, 32-bit unsigned and 64-bit unsigned types. *)
Definition shl_s32 (x k : Z) : Z := s32 (Z.shiftl x k).
Definition shl_u32 (x k : Z) : Z := u32 (Z.shiftl x k).
Definition shl_u64 (x k : Z) : Z := u64 (Z.shiftl x k).

(** ** Macros with the same text in both variants *)

Definition sint3korr (m : mem) (A : Z) : option Z :=
  b0 ← load8 m A; b1 ← load8 m (A + 1); b2 ← load8 m (A + 2);
  Some (s32 (if negb (Z.land b2 128 =? 0)
             then Z.lor (Z.lor (Z.lor (shl_u32 255 24) (shl_u32 b2 16)) (shl_u32 b1 8)) b0
             else Z.lor (Z.lor (shl_u32 b2 16) (shl_u32 b1 8)) b0)).

Definition uint5korr (m : mem) (A : Z) : option Z :=
  b0 ← load8 m A; b1 ← load8 m (A + 1); b2 ← load8 m (A + 2); b3 ← load8 m (A + 3);
  b4 ← load8 m (A + 4);
  Some (u64 (u32 (b0 + shl_u32 b1 8 + shl_u32 b2 16 + shl_u32 b3 24) + shl_u64 b4 32)).

Definition uint6korr (m : mem) (A : Z) : option Z :=
  b0 ← load8 m A; b1 ← load8 m (A + 1); b2 ← load8 m (A + 2); b3 ← load8 m (A + 3);
  b4 ← load8 m (A + 4); b5 ← load8 m (A + 5);
  Some (u64 (u32 (b0 + shl_u32 b1 8 + shl_u32 b2 16 + shl_u32 b3 24)
             + shl_u64 b4 32 + shl_u64 b5 40)).

(** ** Optimised macros for IA-32 and Windows, where [long] has four bytes *)
Module X86.

Definition sint2korr (m : mem) (A : Z) : option Z := swrap 16 <$> load_le 2 m A.
Definition sint4korr (m : mem) (A : Z) : option Z := swrap 32 <$> load_le 4 m A.
Definition uint2korr (m : mem) (A : Z) : option Z := load_le 2 m A.

(** Reads a whole [unsigned int], four bytes, and masks the last one away. *)
Definition uint3korr (m : mem) (A : Z) : option Z :=
  v ← load_le 4 m A; Some (s32 (Z.land v 0xFFFFFF)).

Definition uint4korr (m : mem) (A : Z) : option Z := load_le 4 m A.
Definition uint8korr (m : mem) (A : Z) : option Z := load_le 8 m A.
Definition sint8korr (m : mem) (A : Z) : option Z := swrap 64 <$> load_le 8 m A.

Definition int2store (m : mem) (T A : Z) : option mem := store_le 2 m T (u16 A).

Definition int3store (m : mem) (T A : Z) : option mem :=
  m ← store8 m T (u8 A);
  m ← store8 m (T + 1) (u8 (Z.shiftr (u32 A) 8));
  store8 m (T + 2) (u8 (Z.shiftr A 16)).

Definition int4store (m : mem) (T A : Z) : option mem := store_le 4 m T (s32 A).

Definition int5store (m : mem) (T A : Z) : option mem :=
  m ← store8 m T (u8 A);
  m ← store8 m (T + 1) (u8 (Z.shiftr A 8));
  m ← store8 m (T + 2) (u8 (Z.shiftr A 16));
  m ← store8 m (T + 3) (u8 (Z.shiftr A 24));
  store8 m (T + 4) (u8 (Z.shiftr A 32)).

Definition int6store (m : mem) (T A : Z) : option mem :=
  m ← store8 m T (u8 A);
  m ← store8 m (T + 1) (u8 (Z.shiftr A 8));
  m ← store8 m (T + 2) (u8 (Z.shiftr A 16));
  m ← store8 m (T + 3) (u8 (Z.shiftr A 24));
  m ← store8 m (T + 4) (u8 (Z.shiftr A 32));
  store8 m (T + 5) (u8 (Z.shiftr A 40)).

Definition int8store (m : mem) (T A : Z) : option mem := store_le 8 m T (u64 A).

End X86.

(** ** Portable macros *)
Module Generic.

Definition sint2korr (m : mem) (A : Z) : option Z :=
  b0 ← load8 m A; b1 ← load8 m (A + 1);
  Some (s16 (s16 b0 + shl_s32 (s16 (s16 b1)) 8)).

Definition sint4korr (m : mem) (A : Z) : option Z :=
  b0 ← load8 m A; b1 ← load8 m (A + 1); b2 ← load8 m (A + 2); b3 ← load8 m (A + 3);
  Some (s32 (s32 b0 + shl_s32 (s32 b1) 8 + shl_s32 (s32 b2) 16
             + shl_s32 (s32 (s16 b3)) 24)).

Definition uint2korr (m : mem) (A : Z) : option Z :=
  b0 ← load8 m A; b1 ← load8 m (A + 1);
  Some (u16 (u16 b0 + shl_s32 (u16 b1) 8)).

Definition uint3korr (m : mem) (A : Z) : option Z :=
  b0 ← load8 m A; b1 ← load8 m (A + 1); b2 ← load8 m (A + 2);
  Some (u32 (b0 + shl_u32 b1 8 + shl_u32 b2 16)).

Definition uint4korr (m : mem) (A : Z) : option Z :=
  b0 ← load8 m A; b1 ← load8 m (A + 1); b2 ← load8 m (A + 2); b3 ← load8 m (A + 3);
  Some (u32 (b0 + shl_u32 b1 8 + shl_u32 b2 16 + shl_u32 b3 24)).

Definition uint8korr (m : mem) (A : Z) : option Z :=
  b0 ← load8 m A; b1 ← load8 m (A + 1); b2 ← load8 m (A + 2); b3 ← load8 m (A + 3);
  b4 ← load8 m (A + 4); b5 ← load8 m (A + 5); b6 ← load8 m (A + 6); b7 ← load8 m (A + 7);
  Some (u64 (u32 (b0 + shl_u32 b1 8 + shl_u32 b2 16 + shl_u32 b3 24)
             + shl_u64 (u32 (b4 + shl_u32 b5 8 + shl_u32 b6 16 + shl_u32 b7 24)) 32)).

Definition sint8korr (m : mem) (A : Z) : option Z := swrap 64 <$> uint8korr m A.

Definition int2store (m : mem) (T A : Z) : option mem :=
  let def_temp := u32 A in
  m ← store8 m T (u8 def_temp);
  store8 m (T + 1) (u8 (Z.shiftr def_temp 8)).

Definition int3store (m : mem) (T A : Z) : option mem :=
  m ← store8 m T (u8 A);
  m ← store8 m (T + 1) (u8 (Z.shiftr A 8));
  store8 m (T + 2) (u8 (Z.shiftr A 16)).

(** [char] is signed; storing it writes its bit pattern. *)
Definition int4store (m : mem) (T A : Z) : option mem :=
  m ← store8 m T (s8 A);
  m ← store8 m (T + 1) (s8 (Z.shiftr A 8));
  m ← store8 m (T + 2) (s8 (Z.shiftr A 16));
  store8 m (T + 3) (s8 (Z.shiftr A 24)).

Definition int5store (m : mem) (T A : Z) : option mem :=
  m ← store8 m T (s8 A);
  m ← store8 m (T + 1) (s8 (Z.shiftr A 8));
  m ← store8 m (T + 2) (s8 (Z.shiftr A 16));
  m ← store8 m (T + 3) (s8 (Z.shiftr A 24));
  store8 m (T + 4) (s8 (Z.shiftr A 32)).

Definition int6store (m : mem) (T A : Z) : option mem :=
  m ← store8 m T (s8 A);
  m ← store8 m (T + 1) (s8 (Z.shiftr A 8));
  m ← store8 m (T + 2) (s8 (Z.shiftr A 16));
  m ← store8 m (T + 3) (s8 (Z.shiftr A 24));
  m ← store8 m (T + 4) (s8 (Z.shiftr A 32));
  store8 m (T + 5) (s8 (Z.shiftr A 40)).

Definition int8store (m : mem) (T A : Z) : option mem :=
  let def_temp := u32 A in
  let def_temp2 := u32 (Z.shiftr A 32) in
  m ← int4store m T def_temp;
  int4store m (T + 4) def_temp2.

End Generic.

(** ** The macro families, selected by platform and width *)

Inductive platform := IA32 | Portable.
Inductive width := W2 | W3 | W4 | W5 | W6 | W8.

#[global] Instance platform_eq_dec : EqDecision platform.
Proof. solve_decision. Defined.
#[global] Instance width_eq_dec : EqDecision width.
Proof. solve_decision. Defined.

Definition width_bytes (w : width) : nat :=
  match w with W2 => 2 | W3 => 3 | W4 => 4 | W5 => 5 | W6 => 6 | W8 => 8 end.

Definition width_bits (w : width) : Z := 8 * Z.of_nat (width_bytes w).

Definition int_store (pl : platform) (w : width) : mem -> Z -> Z -> option mem :=
  match pl, w with
  | IA32, W2 => X86.int2store | IA32, W3 => X86.int3store | IA32, W4 => X86.int4store
  | IA32, W5 => X86.int5store | IA32, W6 => X86.int6store | IA32, W8 => X86.int8store
  | Portable, W2 => Generic.int2store | Portable, W3 => Generic.int3store
  | Portable, W4 => Generic.int4store | Portable, W5 => Generic.int5store
  | Portable, W6 => Generic.int6store | Portable, W8 => Generic.int8store
  end.

Definition uint_korr (pl : platform) (w : width) : mem -> Z -> option Z :=
  match pl, w with
  | IA32, W2 => X86.uint2korr | IA32, W3 => X86.uint3korr | IA32, W4 => X86.uint4korr
  | _, W5 => uint5korr | _, W6 => uint6korr | IA32, W8 => X86.uint8korr
  | Portable, W2 => Generic.uint2korr | Portable, W3 => Generic.uint3korr
  | Portable, W4 => Generic.uint4korr | Portable, W8 => Generic.uint8korr
  end.

(** Signed reads exist for the widths 2, 3, 4 and 8. *)
Definition sint_korr (pl : platform) (w : width) : option (mem -> Z -> option Z) :=
  match pl, w with
  | IA32, W2 => Some X86.sint2korr | IA32, W4 => Some X86.sint4korr
  | IA32, W8 => Some X86.sint8korr
  | _, W3 => Some sint3korr
  | Portable, W2 => Some Generic.sint2korr | Portable, W4 => Some Generic.sint4korr
  | Portable, W8 => Some Generic.sint8korr
  | _, _ => None
  end.

(** The number of bytes a read touches: one too many for [X86.uint3korr]. *)
Definition read_footprint (pl : platform) (w : width) : Z :=
  match pl, w with IA32, W3 => 4 | _, _ => Z.of_nat (width_bytes w) end.

(** ** Network order *)

Definition int4net (m : mem) (A : Z) : option Z :=
  b3 ← load8 m (A + 3); b2 ← load8 m (A + 2); b1 ← load8 m (A + 1); b0 ← load8 m A;
  Some (s32 (Z.lor (Z.lor (Z.lor b3 (shl_u32 b2 8)) (shl_u32 b1 16)) (shl_u32 b0 24))).

(** ** Lemmas *)

Lemma u8_s8 (z : Z) : u8 (s8 z) = u8 z.
Proof. by apply uwrap_swrap. Qed.

Lemma u8_u32_shiftr (z k : Z) : 0 <= k <= 24 -> u8 (Z.shiftr (u32 z) k) = u8 (Z.shiftr z k).
Proof.
  intros Hk. apply Z.bits_inj'. intros n Hn. unfold uwrap.
  destruct (Z.lt_ge_cases n 8).
  - rewrite !Z.mod_pow2_bits_low, !Z.shiftr_spec by lia.
    rewrite Z.mod_pow2_bits_low by lia. done.
  - by rewrite !Z.mod_pow2_bits_high by lia.
Qed.

Lemma store8_u8 (m : mem) (p v : Z) : store8 m p (u8 v) = store8 m p v.
Proof. unfold store8. by rewrite uwrap_uwrap. Qed.

Lemma store8_s8 (m : mem) (p v : Z) : store8 m p (s8 v) = store8 m p v.
Proof. unfold store8. by rewrite u8_s8. Qed.

Lemma store_le_S (n : nat) (m : mem) (p v : Z) :
  store_le (S n) m p v = (m' ← store8 m p v; store_le n m' (p + 1) (Z.shiftr v 8)).
Proof. unfold store_le. cbn [le_bytes store_bytes]. by rewrite store8_u8. Qed.

Lemma store_le_1 (m : mem) (p v : Z) : store_le 1 m p v = store8 m p v.
Proof. rewrite store_le_S. by destruct (store8 m p v). Qed.

Lemma store_le_congr (n : nat) (m : mem) (p v w : Z) :
  uwrap (8 * Z.of_nat n) v = uwrap (8 * Z.of_nat n) w -> store_le n m p v = store_le n m p w.
Proof. intros H. unfold store_le. by rewrite (le_bytes_congr n v w H). Qed.

Lemma store_bytes_app (l1 l2 : list Z) : forall (m : mem) (p : Z),
  store_bytes m p (l1 ++ l2)
  = (m' ← store_bytes m p l1; store_bytes m' (p + Z.of_nat (length l1)) l2).
Proof.
  induction l1 as [|b l1 IH]; intros m p; simpl.
  - by rewrite Z.add_0_r.
  - destruct (store8 m p b) as [m'|]; simpl; [|done]. rewrite IH.
    replace (p + 1 + Z.of_nat (length l1)) with (p + Z.of_nat (S (length l1))) by lia. done.
Qed.

Lemma le_bytes_app (n k : nat) : forall v,
  le_bytes (n + k) v = le_bytes n v ++ le_bytes k (Z.shiftr v (8 * Z.of_nat n)).
Proof.
  induction n as [|n IH]; intros v; [by rewrite Z.shiftr_0_r|].
  cbn [Nat.add le_bytes app]. rewrite IH, Z.shiftr_shiftr by lia.
  by replace (8 + 8 * Z.of_nat n) with (8 * Z.of_nat (S n)) by lia.
Qed.

(** Unfold one byte store after the other on both sides. *)
Ltac norm_store :=
  rewrite ?store_le_S, ?store_le_1, ?store8_u8, ?store8_s8, ?Z.shiftr_shiftr, <- ?Z.add_assoc by lia;
  repeat match goal with
  | |- context [Z.pos ?a + Z.pos ?b] =>
    let c := eval cbv in (Z.pos a + Z.pos b) in change (Z.pos a + Z.pos b) with c
  end.
Ltac solve_store :=
  repeat (norm_store;
    match goal with
    | |- context [store8 ?m ?p ?v ≫= _] =>
      destruct (store8 m p v) as [?|]; cbn [mbind option_bind]; [|done]
    end);
  norm_store; done.

Lemma generic_int4store_le (m : mem) (p v : Z) : Generic.int4store m p v = store_le 4 m p v.
Proof. unfold Generic.int4store. solve_store. Qed.

Lemma generic_int8store_le (m : mem) (p v : Z) : Generic.int8store m p v = store_le 8 m p v.
Proof.
  unfold Generic.int8store, store_le. change 8%nat with (4 + 4)%nat at 1.
  rewrite le_bytes_app, store_bytes_app, le_bytes_length.
  rewrite generic_int4store_le. unfold store_le. rewrite (le_bytes_congr 4 _ v).
  2: { apply uwrap_uwrap. }
  destruct (store_bytes m p (le_bytes 4 v)) as [m'|]; [|done]. cbn [mbind option_bind].
  rewrite generic_int4store_le. apply store_le_congr. apply uwrap_uwrap.
Qed.

(** Every store macro, on either platform, is the little-endian store of its width. *)
Lemma int_store_le (pl : platform) (w : width) (m : mem) (p v : Z) :
  int_store pl w m p v = store_le (width_bytes w) m p v.
Proof.
  destruct pl, w; cbn [int_store width_bytes];
    try (unfold X86.int2store, X86.int8store; apply store_le_congr, uwrap_uwrap).
  - unfold X86.int3store. rewrite u8_u32_shiftr by lia. solve_store.
  - unfold X86.int4store. apply store_le_congr. by apply uwrap_swrap.
  - unfold X86.int5store. solve_store.
  - unfold X86.int6store. solve_store.
  - unfold Generic.int2store. rewrite u8_u32_shiftr by lia.
    rewrite store8_u8. rewrite <- (store8_u8 m p (u32 v)).
    change (u32 v) with (uwrap (8 + 24) v).
    replace (u8 (uwrap (8 + 24) v)) with (u8 v); [solve_store|].
    pose proof (u8_u32_shiftr v 0) as H0. rewrite !Z.shiftr_0_r in H0.
    symmetry. apply H0. lia.
  - unfold Generic.int3store. solve_store.
  - apply generic_int4store_le.
  - unfold Generic.int5store. solve_store.
  - unfold Generic.int6store. solve_store.
  - apply generic_int8store_le.
Qed.

Lemma load_le_S (n : nat) (m : mem) (p : Z) :
  load_le (S n) m p = (b ← load8 m p; r ← load_le n m (p + 1); Some (b + 256 * r)).
Proof.
  unfold load_le. rewrite load_bytes_S. destruct (load8 m p) as [b|]; [|done].
  cbn [mbind option_bind]. by destruct (load_bytes n m (p + 1)).
Qed.

Lemma load_le_0 (m : mem) (p : Z) : load_le 0 m p = Some 0.
Proof. reflexivity. Qed.

Lemma shl_u32_byte (b k : Z) : is_byte b -> 0 <= k <= 24 -> shl_u32 b k = b * 2 ^ k.
Proof.
  unfold is_byte. intros Hb Hk. unfold shl_u32. rewrite Z.shiftl_mul_pow2 by lia.
  apply uwrap_small. pose proof (Z.pow_le_mono_r 2 k 24).
  assert (0 < 2 ^ k) by (apply Z.pow_pos_nonneg; lia). nia.
Qed.

Lemma shl_u64_small (b k : Z) : 0 <= k -> 0 <= b * 2 ^ k < 2 ^ 64 -> shl_u64 b k = b * 2 ^ k.
Proof. intros. unfold shl_u64. rewrite Z.shiftl_mul_pow2 by lia. by apply uwrap_small. Qed.

Lemma shl_s32_byte (b k : Z) : is_byte b -> 0 <= k <= 16 -> shl_s32 b k = b * 2 ^ k.
Proof.
  unfold is_byte. intros Hb Hk. unfold shl_s32. rewrite Z.shiftl_mul_pow2 by lia.
  apply swrap_small; [lia|]. pose proof (Z.pow_le_mono_r 2 k 16).
  assert (0 < 2 ^ k) by (apply Z.pow_pos_nonneg; lia). nia.
Qed.

Lemma byte_wraps (b : Z) :
  is_byte b -> u16 b = b /\ u32 b = b /\ s16 b = b /\ s32 b = b.
Proof.
  unfold is_byte. intros Hb.
  split_and!; first [apply uwrap_small | apply swrap_small]; lia.
Qed.

(** Run the byte loads of a macro, keeping the fact that each result is a byte. *)
Ltac run_loads Hok :=
  repeat (rewrite ?load_le_S, ?load_le_0, <- ?Z.add_assoc;
    repeat match goal with
    | |- context [Z.pos ?a + Z.pos ?b] =>
      let c := eval cbv in (Z.pos a + Z.pos b) in change (Z.pos a + Z.pos b) with c
    end;
    match goal with
    | |- context [load8 ?m ?p ≫= _] =>
      let b := fresh "b" in let E := fresh "E" in
      destruct (load8 m p) as [b|] eqn:E; cbn [mbind option_bind];
      [apply Hok in E | done]
    end);
  rewrite ?load_le_S, ?load_le_0; cbn [mbind option_bind].

Ltac byte_arith :=
  rewrite ?shl_u32_byte by first [assumption | lia];
  repeat match goal with
  | H : is_byte ?b |- context [uwrap _ ?b] =>
    destruct (byte_wraps b H) as (-> & _) || destruct (byte_wraps b H) as (_ & -> & _)
  | H : is_byte ?b |- context [swrap _ ?b] =>
    destruct (byte_wraps b H) as (_ & _ & -> & _) || destruct (byte_wraps b H) as (_ & _ & _ & ->)
  end;
  rewrite ?shl_s32_byte by first [assumption | lia];
  change (2 ^ 8) with 256 in *; change (2 ^ 16) with 65536 in *;
  change (2 ^ 24) with 16777216 in *; unfold is_byte in *.

(** A read that touches exactly its own bytes is the little-endian load. *)
Lemma uint_korr_le (pl : platform) (w : width) (m : mem) (p : Z) :
  bytes_ok m -> read_footprint pl w = Z.of_nat (width_bytes w) ->
  uint_korr pl w m p = load_le (width_bytes w) m p.
Proof.
  intros Hok Hfp.
  destruct pl, w; try done; clear Hfp; cbn [uint_korr width_bytes];
    unfold uint5korr, uint6korr, Generic.uint2korr, Generic.uint3korr,
      Generic.uint4korr, Generic.uint8korr;
    run_loads Hok; byte_arith; f_equal.
  all: rewrite ?shl_u64_small by (change (2 ^ 64) with 18446744073709551616;
         rewrite ?(uwrap_small 32) by lia; lia).
  all: rewrite ?(uwrap_small 16), ?(uwrap_small 32), ?(uwrap_small 64) by lia; lia.
Qed.

(** The four-byte read of [X86.uint3korr] agrees with the three-byte load. *)
Lemma x86_uint3korr_le (m : mem) (p : Z) :
  bytes_ok m -> is_Some (m !! (p + 3)) -> X86.uint3korr m p = load_le 3 m p.
Proof.
  intros Hok [b3 Hb3]. unfold X86.uint3korr. run_loads Hok.
  unfold load8. rewrite Hb3. apply Hok in Hb3.
  cbn [mbind option_bind]. byte_arith. f_equal.
  change 0xFFFFFF with (Z.ones 24). rewrite Z.land_ones by lia.
  change (2 ^ 24) with 16777216.
  replace (b + _) with (b + 256 * (b0 + 256 * b1) + b3 * 16777216) by lia.
  rewrite Z_mod_plus_full, Z.mod_small by lia.
  rewrite swrap_small by lia. lia.
Qed.


(** ** Signed reads *)

Lemma byte_top_bit (b : Z) : is_byte b -> (Z.land b 128 =? 0) = (b <? 128).
Proof.
  intros Hb. apply eqb_prop.
  by apply (byte_forall (fun b => eqb (Z.land b 128 =? 0) (b <? 128))).
Qed.

Lemma sint3korr_le (m : mem) (p : Z) :
  bytes_ok m -> sint3korr m p = swrap 24 <$> load_le 3 m p.
Proof.
  intros Hok. unfold sint3korr. run_loads Hok. rewrite byte_top_bit by done.
  change (shl_u32 255 24) with (255 * 2 ^ 24). byte_arith. simpl. f_equal.
  rewrite <- Z.lor_assoc. unfold swrap.
  change (2 ^ (24 - 1)) with 8388608. change (2 ^ (32 - 1)) with 2147483648.
  change (2 ^ 32) with 4294967296. change (2 ^ 24) with 16777216.
  assert (H1 : Z.lor (b0 * 256) b = b0 * 256 + b) by (apply (lor_add b0 b 8); lia).
  assert (H2 : Z.lor (b1 * 65536) (b0 * 256 + b) = b1 * 65536 + (b0 * 256 + b))
    by (apply (lor_add b1 _ 16); lia).
  destruct (Z.ltb_spec b1 128); simpl negb; cbv iota.
  - rewrite <- Z.lor_assoc, H1, H2. rewrite !Z.mod_small by lia. lia.
  - rewrite <- Z.lor_assoc, H1, H2.
    change 4278190080 with (255 * 2 ^ 24). rewrite (lor_add 255 _ 24) by lia.
    change (255 * 2 ^ 24) with (4294967296 - 16777216).
    replace (4294967296 - 16777216 + (b1 * 65536 + (b0 * 256 + b)) + 2147483648)
      with ((b1 * 65536 + (b0 * 256 + b) - 16777216 + 2147483648) + 1 * 4294967296) by lia.
    rewrite Z_mod_plus_full, Z.mod_small by lia.
    replace (b + 256 * (b0 + 256 * (b1 + 256 * 0)) + 8388608)
      with (b1 * 65536 + (b0 * 256 + b) - 8388608 + 1 * 16777216) by lia.
    rewrite Z_mod_plus_full, Z.mod_small by lia. lia.
Qed.

Lemma generic_sint4korr_le (m : mem) (p : Z) :
  bytes_ok m -> Generic.sint4korr m p = swrap 32 <$> load_le 4 m p.
Proof.
  intros Hok. unfold Generic.sint4korr. run_loads Hok. byte_arith. simpl. f_equal.
  rewrite <- (swrap_uwrap 32), <- (swrap_uwrap 32 (b + _)). f_equal.
  unfold shl_s32. rewrite Z.shiftl_mul_pow2 by lia.
  rewrite <- (uwrap_uwrap 32 (_ + _)). unfold uwrap.
  rewrite <- Zplus_mod_idemp_r. fold (u32 (s32 (b2 * 2 ^ 24))).
  rewrite uwrap_swrap by lia. unfold uwrap.
  rewrite Zplus_mod_idemp_r, Zmod_mod. f_equal. lia.
Qed.

(** Every signed read is the two's complement reading of the little-endian load. *)
Lemma sint_korr_le (pl : platform) (w : width) (f : mem -> Z -> option Z) (m : mem) (p : Z) :
  sint_korr pl w = Some f -> bytes_ok m ->
  f m p = swrap (width_bits w) <$> load_le (width_bytes w) m p.
Proof.
  intros Hf Hok.
  destruct pl, w; try discriminate; injection Hf as <-; unfold width_bits;
    cbn [width_bytes]; try reflexivity.
  - by apply sint3korr_le.
  - unfold Generic.sint2korr. run_loads Hok. byte_arith. simpl. do 2 f_equal. lia.
  - by apply sint3korr_le.
  - by apply generic_sint4korr_le.
  - unfold Generic.sint8korr. change (Generic.uint8korr m p) with (uint_korr Portable W8 m p).
    by rewrite uint_korr_le.
Qed.

(** A read agrees with the load of its width as soon as its footprint is mapped. *)
Lemma uint_korr_load (pl : platform) (w : width) (m : mem) (p : Z) :
  bytes_ok m -> mapped m p (read_footprint pl w) ->
  uint_korr pl w m p = load_le (width_bytes w) m p.
Proof.
  intros Hok Hm.
  destruct (decide (pl = IA32 /\ w = W3)) as [[-> ->]|Hne].
  - apply x86_uint3korr_le; [done|]. apply Hm. cbn. lia.
  - apply uint_korr_le; [done|]. destruct pl, w; try done. naive_solver.
Qed.

Lemma footprint_covers (pl : platform) (w : width) :
  Z.of_nat (width_bytes w) <= read_footprint pl w.
Proof. destruct pl, w; cbn; lia. Qed.

Lemma footprint_load (w : width) (pl : platform) (m : mem) (p : Z) :
  bytes_ok m -> mapped m p (read_footprint pl w) ->
  exists v, load_le (width_bytes w) m p = Some v /\ 0 <= v < 2 ^ width_bits w.
Proof.
  intros Hok Hm. destruct (load_bytes_mapped (width_bytes w) m p) as (l & Hl & Hn & Hb).
  - eapply mapped_le; [done|apply footprint_covers].
  - done.
  - exists (le_combine l). unfold load_le. rewrite Hl. split; [done|].
    unfold width_bits. rewrite <- Hn. by apply le_combine_range.
Qed.

(** The common core of the round trips: after a store, the load of the width
    gives the stored value modulo the width. *)
Lemma int_store_load (pl pl' : platform) (w : width) (m : mem) (p a : Z) :
  bytes_ok m -> mapped m p (read_footprint pl' w) ->
  exists m', int_store pl w m p a = Some m'
    /\ load_le (width_bytes w) m' p = Some (uwrap (width_bits w) a)
    /\ only_changes m m' p (Z.of_nat (width_bytes w))
    /\ bytes_ok m' /\ mapped m' p (read_footprint pl' w).
Proof.
  intros Hok Hm. rewrite int_store_le.
  destruct (store_le_load_le (width_bytes w) m p a) as (m' & Hs & Hl & Hoc & Hmp & Hb).
  { eapply mapped_le; [done|apply footprint_covers]. }
  exists m'. split_and!; auto.
Qed.

(** ** Properties *)

(** C15.  A value written with the [intNstore] macro of either platform
    is read back, modulo its width, by the [uintNkorr] macro of either
    platform; the store succeeds on mapped memory and changes no byte outside of
    its N bytes. *)
Theorem int_store_korr_roundtrip (pl pl' : platform) (w : width) (m : mem) (p a : Z) :
  bytes_ok m -> mapped m p (read_footprint pl' w) ->
  exists m', int_store pl w m p a = Some m'
    /\ uint_korr pl' w m' p = Some (uwrap (width_bits w) a)
    /\ only_changes m m' p (Z.of_nat (width_bytes w)).
Proof.
  intros Hok Hm.
  destruct (int_store_load pl pl' w m p a) as (m' & Hs & Hl & Hoc & Hok' & Hm'); [done..|].
  exists m'. split_and!; [done| |done]. by rewrite uint_korr_load.
Qed.

Lemma int_store_korr_roundtrip_witness :
  exists m', int_store Portable W6 (zeroed 16 8) 16 (-2) = Some m'
    /\ uint_korr IA32 W6 m' 16 = Some (uwrap (width_bits W6) (-2))
    /\ only_changes (zeroed 16 8) m' 16 (Z.of_nat (width_bytes W6)).
Proof.
  apply (int_store_korr_roundtrip Portable IA32 W6 (zeroed 16 8) 16 (-2)).
  - apply bytes_ok_zeroed.
  - apply mapped_zeroed. vm_compute. discriminate.
Defined.

(** A value in the signed range of its width is read back
    unchanged, sign included, by the [sintNkorr] macro, whichever platform
    wrote it and whichever reads it. *)
Theorem int_store_sint_korr_roundtrip (pl pl' : platform) (w : width)
    (f : mem -> Z -> option Z) (m : mem) (p a : Z) :
  sint_korr pl' w = Some f -> bytes_ok m -> mapped m p (Z.of_nat (width_bytes w)) ->
  - 2 ^ (width_bits w - 1) <= a < 2 ^ (width_bits w - 1) ->
  exists m', int_store pl w m p a = Some m' /\ f m' p = Some a.
Proof.
  intros Hf Hok Hm Ha.
  assert (Hfp : exists pl0, read_footprint pl0 w = Z.of_nat (width_bytes w)).
  { exists Portable. by destruct w. }
  destruct Hfp as [pl0 Hfp]. rewrite <- Hfp in Hm.
  destruct (int_store_load pl pl0 w m p a) as (m' & Hs & Hl & _ & Hok' & _); [done..|].
  exists m'. split; [done|]. rewrite (sint_korr_le pl' w f) by done. rewrite Hl. cbn.
  rewrite swrap_uwrap, swrap_small; [done| |done]. by destruct w.
Qed.

Lemma int_store_sint_korr_roundtrip_witness :
  exists m', int_store IA32 W3 (zeroed 0 3) 0 (-8388608) = Some m'
    /\ sint3korr m' 0 = Some (-8388608).
Proof.
  apply (int_store_sint_korr_roundtrip IA32 Portable W3 sint3korr (zeroed 0 3) 0 (-8388608)).
  - reflexivity.
  - apply bytes_ok_zeroed.
  - apply mapped_zeroed. vm_compute. discriminate.
  - vm_compute. split; [discriminate|reflexivity].
Defined.

(** C16.  The optimised and the portable macros are interchangeable: the
    stores are equal on every memory, faults included; the unsigned reads agree
    whenever the bytes the optimised read touches are mapped; the signed reads
    agree on every memory. *)
Theorem platforms_agree (w : width) (m : mem) (p a : Z) :
  bytes_ok m ->
  int_store IA32 w m p a = int_store Portable w m p a
  /\ (mapped m p (read_footprint IA32 w) -> uint_korr IA32 w m p = uint_korr Portable w m p)
  /\ match sint_korr IA32 w, sint_korr Portable w with
     | Some f, Some g => f m p = g m p
     | None, None => True
     | _, _ => False
     end.
Proof.
  intros Hok. split_and!.
  - by rewrite !int_store_le.
  - intros Hm. rewrite !uint_korr_load; try done.
    eapply mapped_le; [done|]. transitivity (Z.of_nat (width_bytes w)).
    + by destruct w.
    + apply footprint_covers.
  - destruct (sint_korr IA32 w) as [f|] eqn:Hf, (sint_korr Portable w) as [g|] eqn:Hg.
    + by rewrite (sint_korr_le IA32 w f), (sint_korr_le Portable w g).
    + by destruct w.
    + by destruct w.
    + done.
Qed.

Lemma platforms_agree_witness :
  bytes_ok (zeroed 0 4) /\
  (int_store IA32 W3 (zeroed 0 4) 0 77 = int_store Portable W3 (zeroed 0 4) 0 77
  /\ (mapped (zeroed 0 4) 0 (read_footprint IA32 W3) ->
      uint_korr IA32 W3 (zeroed 0 4) 0 = uint_korr Portable W3 (zeroed 0 4) 0)
  /\ sint3korr (zeroed 0 4) 0 = sint3korr (zeroed 0 4) 0).
Proof.
  split; [apply bytes_ok_zeroed|].
  apply (platforms_agree W3 (zeroed 0 4) 0 77 (bytes_ok_zeroed 0 4)).
Defined.

(** The documented hazard of the optimised [uint3korr]: with exactly three
    bytes mapped it faults, where the portable macro returns the value; it
    faults on every memory whose fourth byte is not mapped. *)
Theorem uint3korr_overread (m : mem) (p : Z) :
  bytes_ok m -> mapped m p 3 ->
  (exists v, Generic.uint3korr m p = Some v /\ 0 <= v < 2 ^ 24)
  /\ (m !! (p + 3) = None -> X86.uint3korr m p = None)
  /\ (is_Some (m !! (p + 3)) -> X86.uint3korr m p = Generic.uint3korr m p).
Proof.
  intros Hok Hm. change (Generic.uint3korr m p) with (uint_korr Portable W3 m p).
  rewrite uint_korr_load by done. split_and!.
  - apply (footprint_load W3 Portable); done.
  - intros Hn. unfold X86.uint3korr, load_le. by rewrite (load_bytes_fault 4 m p 3) by (lia || done).
  - by apply x86_uint3korr_le.
Qed.

Lemma uint3korr_overread_witness :
  zeroed 5 3 !! (5 + 3) = None /\
  ((exists v, Generic.uint3korr (zeroed 5 3) 5 = Some v /\ 0 <= v < 2 ^ 24)
  /\ (zeroed 5 3 !! (5 + 3) = None -> X86.uint3korr (zeroed 5 3) 5 = None)
  /\ (is_Some (zeroed 5 3 !! (5 + 3)) ->
      X86.uint3korr (zeroed 5 3) 5 = Generic.uint3korr (zeroed 5 3) 5)).
Proof.
  split; [reflexivity|].
  apply (uint3korr_overread (zeroed 5 3) 5 (bytes_ok_zeroed 5 3)).
  apply mapped_zeroed. lia.
Defined.
