(* ===== verification/MachineFormat.v ===== *)
(** * Floating point copies, network order and machine format (my_global.h)

    The header stores [float] and [double] values in a machine independent
    format, and [short]/[long] values in the format of the host.  The three
    cases of its conditionals are the three hosts below.  A [float] (a
    [double]) is represented by its 32 (64) bits, a [Z]. *)
From S2P Require Import Prelude Mem ByteOrder.

(** The hosts of the conditionals: little-endian, [WORDS_BIGENDIAN], and
    little-endian integers with [__FLOAT_WORD_ORDER == __BIG_ENDIAN]. *)
Inductive host := LittleEndian | BigEndian | MixedDouble.

#[global] Instance host_eq_dec : EqDecision host.
Proof. solve_decision. Defined.

(** The bytes of an object in the memory of a host. *)
Definition host_bytes (h : host) (n : nat) (v : Z) : list Z :=
  match h with BigEndian => rev (le_bytes n v) | _ => le_bytes n v end.

Definition host_value (h : host) (l : list Z) : Z :=
  match h with BigEndian => le_combine (rev l) | _ => le_combine l end.

Definition double_bytes (h : host) (v : Z) : list Z :=
  match h with
  | MixedDouble => le_bytes 4 (Z.shiftr v 32) ++ le_bytes 4 v
  | _ => host_bytes h 8 v
  end.

Definition double_value (h : host) (l : list Z) : Z :=
  match h with
  | MixedDouble => le_combine (drop 4 l ++ take 4 l)
  | _ => host_value h l
  end.

(** The byte of index [i] of the object, seen as an array of [uchar]. *)
Definition nth_byte (l : list Z) (i : nat) : Z := nth i l 0.

(** ** Machine independent floating point *)

Definition float4store (h : host) (m : mem) (T A : Z) : option mem :=
  let V := host_bytes h 4 A in
  match h with
  | BigEndian =>
    m ← store8 m T (nth_byte V 3);
    m ← store8 m (T + 1) (s8 (nth_byte V 2));
    m ← store8 m (T + 2) (s8 (nth_byte V 1));
    store8 m (T + 3) (s8 (nth_byte V 0))
  | _ => store_bytes m T V
  end.

Definition float4get (h : host) (m : mem) (M : Z) : option Z :=
  match h with
  | BigEndian =>
    b0 ← load8 m (M + 3); b1 ← load8 m (M + 2); b2 ← load8 m (M + 1); b3 ← load8 m M;
    Some (host_value h [b0; b1; b2; b3])
  | _ => host_value h <$> load_bytes 4 m M
  end.

(** [doublestore] where it is not a plain copy. *)
Definition mixed_doublestore (m : mem) (T A : Z) : option mem :=
  let V := double_bytes MixedDouble A in
  m ← store8 m (T + 0) (s8 (nth_byte V 4));
  m ← store8 m (T + 1) (s8 (nth_byte V 5));
  m ← store8 m (T + 2) (s8 (nth_byte V 6));
  m ← store8 m (T + 3) (s8 (nth_byte V 7));
  m ← store8 m (T + 4) (s8 (nth_byte V 0));
  m ← store8 m (T + 5) (s8 (nth_byte V 1));
  m ← store8 m (T + 6) (s8 (nth_byte V 2));
  store8 m (T + 7) (s8 (nth_byte V 3)).

Definition mixed_doubleget (m : mem) (M : Z) : option Z :=
  b0 ← load8 m (M + 4); b1 ← load8 m (M + 5); b2 ← load8 m (M + 6); b3 ← load8 m (M + 7);
  b4 ← load8 m M; b5 ← load8 m (M + 1); b6 ← load8 m (M + 2); b7 ← load8 m (M + 3);
  Some (double_value MixedDouble [b0; b1; b2; b3; b4; b5; b6; b7]).

Definition float8store (h : host) (m : mem) (T A : Z) : option mem :=
  let V := double_bytes h A in
  match h with
  | BigEndian =>
    m ← store8 m T (nth_byte V 7);
    m ← store8 m (T + 1) (s8 (nth_byte V 6));
    m ← store8 m (T + 2) (s8 (nth_byte V 5));
    m ← store8 m (T + 3) (s8 (nth_byte V 4));
    m ← store8 m (T + 4) (s8 (nth_byte V 3));
    m ← store8 m (T + 5) (s8 (nth_byte V 2));
    m ← store8 m (T + 6) (s8 (nth_byte V 1));
    store8 m (T + 7) (s8 (nth_byte V 0))
  | MixedDouble => mixed_doublestore m T A
  | LittleEndian => store_bytes m T V
  end.

Definition float8get (h : host) (m : mem) (M : Z) : option Z :=
  match h with
  | BigEndian =>
    b0 ← load8 m (M + 7); b1 ← load8 m (M + 6); b2 ← load8 m (M + 5); b3 ← load8 m (M + 4);
    b4 ← load8 m (M + 3); b5 ← load8 m (M + 2); b6 ← load8 m (M + 1); b7 ← load8 m M;
    Some (double_value h [b0; b1; b2; b3; b4; b5; b6; b7])
  | MixedDouble => mixed_doubleget m M
  | LittleEndian => double_value h <$> load_bytes 8 m M
  end.

(** The IA-32 variant copies a double as two [long]s through a union. *)
Definition x86_doublestore (m : mem) (T A : Z) : option mem :=
  let V := double_bytes LittleEndian A in
  m ← store_le 4 m T (le_combine (take 4 V));
  store_le 4 m (T + 4) (le_combine (drop 4 V)).

Definition x86_doubleget (m : mem) (M : Z) : option Z :=
  m0 ← load_le 4 m M; m1 ← load_le 4 m (M + 4);
  Some (double_value LittleEndian (le_bytes 4 m0 ++ le_bytes 4 m1)).

(** ** Machine format *)

Definition shortstore (h : host) (pl : platform) (m : mem) (T A : Z) : option mem :=
  match h with
  | BigEndian =>
    let def_temp := u32 A in
    m ← store8 m (T + 1) (s8 def_temp);
    store8 m (T + 0) (s8 (Z.shiftr def_temp 8))
  | _ => int_store pl W2 m T A
  end.

Definition longstore (h : host) (pl : platform) (m : mem) (T A : Z) : option mem :=
  match h with
  | BigEndian =>
    m ← store8 m (T + 3) (s8 A);
    m ← store8 m (T + 2) (s8 (Z.shiftr A 8));
    m ← store8 m (T + 1) (s8 (Z.shiftr A 16));
    store8 m (T + 0) (s8 (Z.shiftr A 24))
  | _ => int_store pl W4 m T A
  end.

Definition ushortget (h : host) (pl : platform) (m : mem) (M : Z) : option Z :=
  match h with
  | BigEndian =>
    b1 ← load8 m (M + 1); b0 ← load8 m M;
    Some (u16 (u16 b1 + u16 (shl_s32 (u16 b0) 8)))
  | _ => uint_korr pl W2 m M
  end.

Definition shortget (h : host) (pl : platform) (m : mem) (M : Z) : option Z :=
  match h with
  | BigEndian =>
    b1 ← load8 m (M + 1); b0 ← load8 m M;
    Some (s16 (s16 b1 + s16 (shl_s32 (s16 b0) 8)))
  | _ => match sint_korr pl W2 with Some f => f m M | None => None end
  end.

(** [def_temp] is a host integer whose bytes are copied one by one. *)
Definition ulongget (h : host) (pl : platform) (m : mem) (M : Z) : option Z :=
  match h with
  | BigEndian =>
    b0 ← load8 m M; b1 ← load8 m (M + 1); b2 ← load8 m (M + 2); b3 ← load8 m (M + 3);
    Some (host_value h [b0; b1; b2; b3])
  | _ => uint_korr pl W4 m M
  end.

Definition longget (h : host) (pl : platform) (m : mem) (M : Z) : option Z :=
  match h with
  | BigEndian =>
    b0 ← load8 m M; b1 ← load8 m (M + 1); b2 ← load8 m (M + 2); b3 ← load8 m (M + 3);
    Some (s32 (host_value h [b0; b1; b2; b3]))
  | _ => match sint_korr pl W4 with Some f => f m M | None => None end
  end.

(** ** Lemmas *)

Lemma store8_comm (m : mem) (p q v w : Z) :
  p <> q ->
  (m' ← store8 m p v; store8 m' q w) = (m' ← store8 m q w; store8 m' p v).
Proof.
  intros Hne. unfold store8.
  destruct (m !! p) eqn:Hp, (m !! q) eqn:Hq; cbn [mbind option_bind].
  - rewrite !lookup_insert_ne by done. rewrite Hp, Hq. f_equal. by apply insert_insert_ne.
  - rewrite lookup_insert_ne by done. by rewrite Hq.
  - rewrite lookup_insert_ne by done. by rewrite Hp.
  - done.
Qed.

(** The bytes of a store may be written in descending order. *)
Lemma store_bytes_snoc (l : list Z) (m : mem) (p b : Z) :
  store_bytes m p (l ++ [b])
  = (m' ← store8 m (p + Z.of_nat (length l)) b; store_bytes m' p l).
Proof.
  revert m p. induction l as [|a l IH]; intros m p; simpl.
  - rewrite Z.add_0_r. by destruct (store8 m p b).
  - pose proof (store8_comm m p (p + Z.of_nat (S (length l))) a b) as Hc.
    replace (p + Z.of_nat (S (length l))) with (p + 1 + Z.of_nat (length l)) in * by lia.
    transitivity (m' ← (m' ← store8 m p a; store8 m' (p + 1 + Z.of_nat (length l)) b);
                  store_bytes m' (p + 1) l).
    + destruct (store8 m p a); [|done]. cbn. apply IH.
    + rewrite Hc by lia.
      by destruct (store8 m (p + 1 + Z.of_nat (length l)) b).
Qed.

Lemma le_bytes_bytes (n : nat) (v : Z) : Forall is_byte (le_bytes n v).
Proof. revert v. induction n; intros v; constructor; auto with mysql. Qed.

Lemma store8_byte_s8 (m : mem) (p b : Z) : store8 m p (s8 b) = store8 m p b.
Proof. apply store8_s8. Qed.

(** Evaluate the sums of constants. *)
Ltac fold_offsets :=
  repeat match goal with
  | |- context [Z.pos ?a + Z.pos ?b] =>
    let c := eval cbv in (Z.pos a + Z.pos b) in change (Z.pos a + Z.pos b) with c
  end.

(** Evaluate the lengths of concrete lists. *)
Ltac fold_lengths :=
  repeat match goal with
  | |- context [Z.of_nat (length ?l)] =>
    let c := eval cbv in (Z.of_nat (length l)) in change (Z.of_nat (length l)) with c
  end; cbn [app].

(** Run two sequences of byte stores side by side. *)
Ltac run_stores :=
  rewrite ?Z.add_0_r;
  repeat match goal with
  | |- context [store8 ?m ?p ?v ≫= _] =>
    destruct (store8 m p v) as [?|]; cbn [mbind option_bind]; [|done]
  | |- store8 ?m ?p ?v = Some _ => idtac
  | |- _ => progress (rewrite ?store8_s8, ?store8_u8, ?Z.shiftr_shiftr, <- ?Z.add_assoc by lia;
      fold_offsets)
  end;
  try match goal with |- ?x = match ?x with _ => _ end => by destruct x end; try done.

(** The canonical format: the bits of the value, least significant byte first. *)
Lemma float8store_le (h : host) (m : mem) (p d : Z) :
  float8store h m p d = store_le 8 m p d.
Proof.
  destruct h; [done| |]; unfold float8store, mixed_doublestore, store_le, double_bytes;
    cbn -[store8 u8 Z.shiftr]; run_stores.
Qed.

Lemma float4store_le (h : host) (m : mem) (p d : Z) :
  float4store h m p d = store_le 4 m p d.
Proof.
  destruct h; [done| |done]. unfold float4store, store_le, host_bytes;
    cbn -[store8 u8 Z.shiftr]. run_stores.
Qed.

(** Case analysis on every byte load of the goal. *)
Ltac run_byte_loads :=
  rewrite <- ?Z.add_assoc, ?Z.add_0_r; fold_offsets;
  repeat match goal with
  | |- context [load8 ?m ?p] =>
    let b := fresh "b" in destruct (load8 m p) as [b|]; cbn [mbind option_bind fmap option_fmap option_map]
  end; try done.

Lemma float8get_le (h : host) (m : mem) (p : Z) : float8get h m p = load_le 8 m p.
Proof.
  destruct h; [done| |]; unfold float8get, mixed_doubleget, load_le;
    rewrite !load_bytes_S; run_byte_loads.
Qed.

Lemma float4get_le (h : host) (m : mem) (p : Z) : float4get h m p = load_le 4 m p.
Proof.
  destruct h; [done| |done]. unfold float4get, load_le. rewrite !load_bytes_S. run_byte_loads.
Qed.

Lemma le_combine_split (v : Z) :
  le_combine (take 4 (le_bytes 8 v)) = u32 v
  /\ le_combine (drop 4 (le_bytes 8 v)) = u32 (Z.shiftr v 32).
Proof.
  rewrite (le_bytes_app 4 4). split.
  - rewrite take_app_length'; [|done]. apply (le_combine_le_bytes 4).
  - rewrite drop_app_length'; [|done]. apply (le_combine_le_bytes 4).
Qed.

Lemma x86_doublestore_le (m : mem) (p d : Z) : x86_doublestore m p d = store_le 8 m p d.
Proof.
  unfold x86_doublestore, double_bytes, host_bytes.
  destruct (le_combine_split d) as [-> ->]. unfold store_le at 3.
  rewrite (le_bytes_app 4 4), store_bytes_app, le_bytes_length.
  rewrite (store_le_congr 4 m p (u32 d) d) by apply uwrap_uwrap.
  fold (store_le 4 m p d). destruct (store_le 4 m p d) as [m'|]; [|done].
  cbn [mbind option_bind]. apply store_le_congr, uwrap_uwrap.
Qed.

Lemma load_le_app (n k : nat) : forall (m : mem) (p : Z),
  load_le (n + k) m p
  = (a ← load_le n m p; b ← load_le k m (p + Z.of_nat n); Some (a + 2 ^ (8 * Z.of_nat n) * b)).
Proof.
  induction n as [|n IH]; intros m p.
  - rewrite Z.add_0_r. change (load_le (0 + k) m p) with (load_le k m p).
    rewrite load_le_0. cbn [mbind option_bind]. destruct (load_le k m p) as [b|]; [|done].
    cbn [mbind option_bind]. f_equal. change (2 ^ (8 * Z.of_nat 0)) with 1. lia.
  - cbn [Nat.add]. rewrite !load_le_S. destruct (load8 m p) as [b|]; [|done].
    cbn [mbind option_bind]. rewrite IH.
    destruct (load_le n m (p + 1)) as [a|]; [|done]. cbn [mbind option_bind].
    replace (p + 1 + Z.of_nat n) with (p + Z.of_nat (S n)) by lia.
    destruct (load_le k m (p + Z.of_nat (S n))) as [c|]; [|done]. cbn [mbind option_bind].
    f_equal. replace (8 * Z.of_nat (S n)) with (8 + 8 * Z.of_nat n) by lia.
    rewrite Z.pow_add_r by lia. change (2 ^ 8) with 256. lia.
Qed.

Lemma le_combine_app (l k : list Z) :
  le_combine (l ++ k) = le_combine l + 2 ^ (8 * Z.of_nat (length l)) * le_combine k.
Proof.
  induction l as [|b l IH]; [cbn; lia|]. cbn [app le_combine length]. rewrite IH.
  replace (8 * Z.of_nat (S (length l))) with (8 + 8 * Z.of_nat (length l)) by lia.
  rewrite Z.pow_add_r by lia. change (2 ^ 8) with 256. lia.
Qed.

Lemma x86_doubleget_le (m : mem) (p : Z) :
  bytes_ok m -> x86_doubleget m p = load_le 8 m p.
Proof.
  intros Hok. rewrite (load_le_app 4 4). unfold x86_doubleget.
  change (p + Z.of_nat 4) with (p + 4).
  destruct (load_le 4 m p) as [a|] eqn:Ha; [|done]. cbn [mbind option_bind].
  destruct (load_le 4 m (p + 4)) as [b|] eqn:Hb; [|done]. cbn [mbind option_bind].
  apply load_le_range in Ha, Hb; try done. unfold double_value, host_value.
  rewrite le_combine_app, le_bytes_length, !le_combine_le_bytes, !uwrap_small by lia. done.
Qed.

(** A big-endian integer is stored by its reversed bytes. *)
Lemma shortstore_host (h : host) (pl : platform) (m : mem) (p a : Z) :
  shortstore h pl m p a = store_bytes m p (host_bytes h 2 a).
Proof.
  destruct h; try apply int_store_le. unfold shortstore, host_bytes.
  change (rev (le_bytes 2 a)) with ([u8 (Z.shiftr a 8)] ++ [u8 a]).
  rewrite store_bytes_snoc. cbn [store_bytes]. fold_lengths.
  rewrite store8_s8, <- (store8_u8 _ _ (u32 a)).
  assert (H0 : u8 (u32 a) = u8 a).
  { pose proof (u8_u32_shiftr a 0) as H0. rewrite !Z.shiftr_0_r in H0. apply H0. lia. }
  rewrite H0. fold_lengths.
  destruct (store8 m (p + 1) (u8 a)) as [m'|]; [|done]. cbn [mbind option_bind].
  rewrite store8_s8, <- (store8_u8 _ _ (Z.shiftr (u32 a) 8)), u8_u32_shiftr, Z.add_0_r by lia.
  by destruct (store8 m' p (u8 (Z.shiftr a 8))).
Qed.

Lemma longstore_host (h : host) (pl : platform) (m : mem) (p a : Z) :
  longstore h pl m p a = store_bytes m p (host_bytes h 4 a).
Proof.
  destruct h; try apply int_store_le. unfold longstore, host_bytes.
  cbn [le_bytes rev app]. rewrite !Z.shiftr_shiftr by lia. fold_offsets.
  set (x0 := u8 a). set (x1 := u8 (Z.shiftr a 8)).
  set (x2 := u8 (Z.shiftr a 16)). set (x3 := u8 (Z.shiftr a 24)).
  change [x3; x2; x1; x0] with ([x3; x2; x1] ++ [x0]). rewrite store_bytes_snoc. unfold x0.
  rewrite store8_s8, store8_u8. fold_lengths.
  destruct (store8 m (p + 3) a) as [m1|]; [|done]. cbn [mbind option_bind].
  change [x3; x2; x1] with ([x3; x2] ++ [x1]). rewrite store_bytes_snoc. unfold x1.
  rewrite store8_s8, store8_u8. fold_lengths.
  destruct (store8 m1 (p + 2) _) as [m2|]; [|done]. cbn [mbind option_bind].
  change [x3; x2] with ([x3] ++ [x2]). rewrite store_bytes_snoc. unfold x2.
  rewrite store8_s8, store8_u8. fold_lengths.
  destruct (store8 m2 (p + 1) _) as [m3|]; [|done]. cbn [mbind option_bind store_bytes].
  unfold x3. rewrite store8_s8, store8_u8, Z.add_0_r. by destruct (store8 m3 p _).
Qed.

Lemma ulongget_host (h : host) (pl : platform) (m : mem) (p : Z) :
  bytes_ok m -> ulongget h pl m p = host_value h <$> load_bytes 4 m p.
Proof.
  intros Hok. destruct h; try (by apply (uint_korr_le pl W4); [|destruct pl]).
  unfold ulongget. rewrite !load_bytes_S. run_byte_loads.
Qed.

Lemma longget_host (h : host) (pl : platform) (m : mem) (p : Z) :
  bytes_ok m -> longget h pl m p = s32 ∘ host_value h <$> load_bytes 4 m p.
Proof.
  intros Hok. destruct h.
  1, 3: unfold longget; destruct (sint_korr pl W4) as [f|] eqn:Hf; [|by destruct pl];
    rewrite (sint_korr_le pl W4 f) by done; unfold load_le;
    change (width_bytes W4) with 4%nat; by destruct (load_bytes 4 m p).
  unfold longget. rewrite !load_bytes_S. run_byte_loads.
Qed.

Lemma u16_byte_pair (b1 b0 : Z) : is_byte b1 -> is_byte b0 ->
  u16 (u16 b1 + u16 (shl_s32 (u16 b0) 8)) = b1 + 256 * b0
  /\ s16 (s16 b1 + s16 (shl_s32 (s16 b0) 8)) = s16 (b1 + 256 * b0).
Proof.
  intros H1 H0. split; byte_arith.
  - rewrite (uwrap_small 16 (b0 * 256)), uwrap_small by lia. lia.
  - rewrite <- (swrap_uwrap 16 (b1 + s16 _)), <- (swrap_uwrap 16 (b1 + 256 * b0)). f_equal.
    unfold uwrap. rewrite <- Zplus_mod_idemp_r. fold (u16 (s16 (b0 * 256))).
    rewrite uwrap_swrap by lia. unfold uwrap. rewrite Zplus_mod_idemp_r. f_equal. lia.
Qed.

Lemma ushortget_host (h : host) (pl : platform) (m : mem) (p : Z) :
  bytes_ok m -> ushortget h pl m p = host_value h <$> load_bytes 2 m p.
Proof.
  intros Hok. destruct h; try (by apply (uint_korr_le pl W2); [|destruct pl]).
  unfold ushortget. rewrite !load_bytes_S, !load_bytes_0. unfold load8.
  destruct (m !! (p + 1)) as [b1|] eqn:E1, (m !! p) as [b0|] eqn:E0; try done.
  cbn [mbind option_bind fmap option_fmap option_map].
  apply Hok in E0, E1. destruct (u16_byte_pair b1 b0 E1 E0) as [-> _].
  cbn [host_value rev app le_combine]. f_equal. lia.
Qed.

Lemma shortget_host (h : host) (pl : platform) (m : mem) (p : Z) :
  bytes_ok m -> shortget h pl m p = s16 ∘ host_value h <$> load_bytes 2 m p.
Proof.
  intros Hok. destruct h.
  1, 3: unfold shortget; destruct (sint_korr pl W2) as [f|] eqn:Hf; [|by destruct pl];
    rewrite (sint_korr_le pl W2 f) by done; unfold load_le;
    change (width_bytes W2) with 2%nat; by destruct (load_bytes 2 m p).
  unfold shortget. rewrite !load_bytes_S, !load_bytes_0. unfold load8.
  destruct (m !! (p + 1)) as [b1|] eqn:E1, (m !! p) as [b0|] eqn:E0; try done.
  cbn [mbind option_bind fmap option_fmap option_map].
  apply Hok in E0, E1. destruct (u16_byte_pair b1 b0 E1 E0) as [_ ->].
  cbn [host_value rev app le_combine compose]. do 2 f_equal. lia.
Qed.

Lemma host_value_bytes (h : host) (n : nat) (v : Z) :
  host_value h (host_bytes h n v) = uwrap (8 * Z.of_nat n) v.
Proof.
  destruct h; cbn [host_value host_bytes]; rewrite ?rev_involutive; apply le_combine_le_bytes.
Qed.

Lemma host_bytes_length (h : host) (n : nat) (v : Z) : length (host_bytes h n v) = n.
Proof. destruct h; cbn [host_bytes]; rewrite ?length_rev; apply le_bytes_length. Qed.

Lemma host_bytes_u8 (h : host) (n : nat) (v : Z) : uwrap 8 <$> host_bytes h n v = host_bytes h n v.
Proof.
  destruct h; cbn [host_bytes]; [apply le_bytes_u8| |apply le_bytes_u8].
  transitivity (rev (uwrap 8 <$> le_bytes n v)); [|by rewrite le_bytes_u8].
  apply map_rev.
Qed.

(** Storing the host representation and loading the same bytes. *)
Lemma host_store_load (h : host) (n : nat) (m : mem) (p a : Z) :
  mapped m p (Z.of_nat n) ->
  exists m', store_bytes m p (host_bytes h n a) = Some m'
    /\ load_bytes n m' p = Some (host_bytes h n a)
    /\ only_changes m m' p (Z.of_nat n) /\ (bytes_ok m -> bytes_ok m').
Proof.
  intros Hm. destruct (store_bytes_spec (host_bytes h n a) m p) as (m' & Hs & Hl & Hoc & _ & Hb).
  { by rewrite host_bytes_length. }
  rewrite host_bytes_length, host_bytes_u8 in *. eauto 10.
Qed.

Lemma int4net_spec (m : mem) (p : Z) :
  bytes_ok m -> int4net m p = s32 ∘ host_value BigEndian <$> load_bytes 4 m p.
Proof.
  intros Hok. unfold int4net. rewrite !load_bytes_S, !load_bytes_0, <- !Z.add_assoc. fold_offsets.
  unfold load8.
  destruct (m !! (p + 3)) as [b3|] eqn:E3, (m !! (p + 2)) as [b2|] eqn:E2,
    (m !! (p + 1)) as [b1|] eqn:E1, (m !! p) as [b0|] eqn:E0; try done.
  apply Hok in E0, E1, E2, E3. cbn [mbind option_bind fmap option_fmap option_map].
  f_equal. unfold compose. f_equal. byte_arith. cbn [host_value rev app le_combine].
  assert (Ha : forall a b k, 0 <= k -> 0 <= a < 2 ^ k -> Z.lor a (b * 2 ^ k) = a + b * 2 ^ k).
  { intros a b k Hk Hb. rewrite Z.lor_comm, lor_add by done. lia. }
  pose proof (Ha b3 b2 8) as H1. pose proof (Ha (b3 + b2 * 256) b1 16) as H2.
  pose proof (Ha (b3 + b2 * 256 + b1 * 65536) b0 24) as H3.
  change (2 ^ 8) with 256 in *. change (2 ^ 16) with 65536 in *.
  change (2 ^ 24) with 16777216 in *. rewrite H1, H2, H3 by lia. lia.
Qed.

(** ** Properties *)

(** C17.  The storage format of [float4store] and [float8store] does not depend
    on the host: all hosts (and the IA-32 union copies) produce the same
    memory, whose bytes are the bits of the value from the least significant
    byte up, and each of them reads the value back. *)
Theorem float_storage_portable (m : mem) (p d f : Z) :
  bytes_ok m -> mapped m p 8 ->
  (exists m', (forall h, float8store h m p d = Some m')
     /\ x86_doublestore m p d = Some m'
     /\ load_bytes 8 m' p = Some (le_bytes 8 d)
     /\ (forall h, float8get h m' p = Some (u64 d))
     /\ x86_doubleget m' p = Some (u64 d))
  /\ (exists m', (forall h, float4store h m p f = Some m')
     /\ load_bytes 4 m' p = Some (le_bytes 4 f)
     /\ (forall h, float4get h m' p = Some (u32 f))).
Proof.
  intros Hok Hm. split.
  - destruct (host_store_load LittleEndian 8 m p d) as (m' & Hs & Hl & _ & Hok'); [done|].
    assert (Hv : load_le 8 m' p = Some (u64 d)).
    { unfold load_le. rewrite Hl. cbn [fmap option_fmap option_map]. f_equal. apply le_combine_le_bytes. }
    exists m'. split_and!; try done; try intros h.
    + by rewrite float8store_le.
    + by rewrite x86_doublestore_le.
    + by rewrite float8get_le.
    + rewrite x86_doubleget_le; auto.
  - destruct (host_store_load LittleEndian 4 m p f) as (m' & Hs & Hl & _ & Hok').
    { by apply (mapped_le m p 8). }
    exists m'. split_and!; try done; try intros h.
    + by rewrite float4store_le.
    + rewrite float4get_le. unfold load_le. rewrite Hl. cbn [fmap option_fmap option_map].
      f_equal. apply le_combine_le_bytes.
Qed.

Lemma float_storage_portable_witness :
  exists m', (forall h, float8store h (zeroed 8 8) 8 0x400921FB54442D18 = Some m')
     /\ x86_doublestore (zeroed 8 8) 8 0x400921FB54442D18 = Some m'
     /\ load_bytes 8 m' 8 = Some (le_bytes 8 0x400921FB54442D18)
     /\ (forall h, float8get h m' 8 = Some (u64 0x400921FB54442D18))
     /\ x86_doubleget m' 8 = Some (u64 0x400921FB54442D18).
Proof.
  apply (float_storage_portable (zeroed 8 8) 8 0x400921FB54442D18 0).
  - apply bytes_ok_zeroed.
  - apply mapped_zeroed. lia.
Defined.

(** [shortstore] and [longstore] write the representation the host itself
    uses (reversed on a big-endian host), touch no other byte, and the four
    [get] macros of the same host read the value back, unsigned and signed. *)
Theorem machine_format_roundtrip (h : host) (pl : platform) (m : mem) (p a : Z) :
  bytes_ok m -> mapped m p 4 ->
  (exists m', longstore h pl m p a = Some m'
     /\ load_bytes 4 m' p = Some (host_bytes h 4 a) /\ only_changes m m' p 4
     /\ ulongget h pl m' p = Some (u32 a) /\ longget h pl m' p = Some (s32 a))
  /\ (exists m', shortstore h pl m p a = Some m'
     /\ load_bytes 2 m' p = Some (host_bytes h 2 a) /\ only_changes m m' p 2
     /\ ushortget h pl m' p = Some (u16 a) /\ shortget h pl m' p = Some (s16 a)).
Proof.
  intros Hok Hm. rewrite longstore_host, shortstore_host. split.
  - destruct (host_store_load h 4 m p a) as (m' & Hs & Hl & Hoc & Hok'); [done|].
    exists m'. rewrite ulongget_host, longget_host, Hl by auto. cbn [fmap option_fmap option_map].
    unfold compose. rewrite host_value_bytes, swrap_uwrap. auto.
  - destruct (host_store_load h 2 m p a) as (m' & Hs & Hl & Hoc & Hok').
    { by apply (mapped_le m p 4). }
    exists m'. rewrite ushortget_host, shortget_host, Hl by auto.
    cbn [fmap option_fmap option_map].
    unfold compose. rewrite host_value_bytes, swrap_uwrap. auto.
Qed.

Lemma machine_format_roundtrip_witness :
  exists m', longstore BigEndian IA32 (zeroed 0 4) 0 (-7) = Some m'
     /\ load_bytes 4 m' 0 = Some (host_bytes BigEndian 4 (-7)) /\ only_changes (zeroed 0 4) m' 0 4
     /\ ulongget BigEndian IA32 m' 0 = Some (u32 (-7))
     /\ longget BigEndian IA32 m' 0 = Some (s32 (-7)).
Proof.
  apply (machine_format_roundtrip BigEndian IA32 (zeroed 0 4) 0 (-7)).
  - apply bytes_ok_zeroed.
  - apply mapped_zeroed. lia.
Defined.

(** [int4net] reads a 32-bit integer in network byte order, whatever
    the host: it inverts a big-endian [longstore], and on a [longstore] of a
    little-endian host it returns the value with its bytes reversed. *)
Theorem int4net_reads_network_order (pl : platform) (m : mem) (p a : Z) :
  bytes_ok m -> mapped m p 4 ->
  (exists m', longstore BigEndian pl m p a = Some m' /\ int4net m' p = Some (s32 a))
  /\ (exists m', longstore LittleEndian pl m p a = Some m'
        /\ int4net m' p = Some (s32 (le_combine (rev (le_bytes 4 a))))).
Proof.
  intros Hok Hm. rewrite !longstore_host. split.
  - destruct (host_store_load BigEndian 4 m p a) as (m' & Hs & Hl & Hoc & Hok'); [done|].
    exists m'. rewrite int4net_spec, Hl by auto. cbn [fmap option_fmap option_map].
    unfold compose. rewrite host_value_bytes, swrap_uwrap. auto.
  - destruct (host_store_load LittleEndian 4 m p a) as (m' & Hs & Hl & Hoc & Hok'); [done|].
    exists m'. rewrite int4net_spec, Hl by auto. done.
Qed.

Lemma int4net_reads_network_order_witness :
  (exists m', longstore BigEndian Portable (zeroed 0 4) 0 16909060 = Some m'
     /\ int4net m' 0 = Some (s32 16909060))
  /\ (exists m', longstore LittleEndian Portable (zeroed 0 4) 0 16909060 = Some m'
     /\ int4net m' 0 = Some (s32 (le_combine (rev (le_bytes 4 16909060))))).
Proof.
  apply (int4net_reads_network_order Portable (zeroed 0 4) 0 16909060).
  - apply bytes_ok_zeroed.
  - apply mapped_zeroed. lia.
Defined.
