(* ===== verification/Psi.v ===== *)
(** * The performance schema interface (mysql/psi/psi.h)

    The operation codes, the registration records and the entry points of
    [PSI_v1], grouped as the header groups them.  The server behind the
    entry points is not part of the sources: a call is a value here, answered
    by an environment (file Effects). *)
From S2P Require Import Prelude.

(** A pointer, a key, a file descriptor or a number is a [Z]; [NULL] is 0. *)
Abbreviation NULL := 0.

(** ** Operation codes *)

Inductive PSI_mutex_operation := PSI_MUTEX_LOCK | PSI_MUTEX_TRYLOCK.

Inductive PSI_rwlock_operation :=
  PSI_RWLOCK_READLOCK | PSI_RWLOCK_WRITELOCK | PSI_RWLOCK_TRYREADLOCK | PSI_RWLOCK_TRYWRITELOCK.

Inductive PSI_cond_operation := PSI_COND_WAIT | PSI_COND_TIMEDWAIT.

Inductive PSI_file_operation :=
  PSI_FILE_CREATE | PSI_FILE_CREATE_TMP | PSI_FILE_OPEN | PSI_FILE_STREAM_OPEN
| PSI_FILE_CLOSE | PSI_FILE_STREAM_CLOSE | PSI_FILE_READ | PSI_FILE_WRITE
| PSI_FILE_SEEK | PSI_FILE_TELL | PSI_FILE_FLUSH | PSI_FILE_STAT | PSI_FILE_FSTAT
| PSI_FILE_CHSIZE | PSI_FILE_DELETE | PSI_FILE_RENAME | PSI_FILE_SYNC.

#[global] Instance PSI_mutex_operation_eq_dec : EqDecision PSI_mutex_operation.
Proof. solve_decision. Defined.
#[global] Instance PSI_rwlock_operation_eq_dec : EqDecision PSI_rwlock_operation.
Proof. solve_decision. Defined.
#[global] Instance PSI_cond_operation_eq_dec : EqDecision PSI_cond_operation.
Proof. solve_decision. Defined.
#[global] Instance PSI_file_operation_eq_dec : EqDecision PSI_file_operation.
Proof. solve_decision. Defined.

(** ** Registration records *)

Definition PSI_FLAG_GLOBAL : Z := Z.shiftl 1 0.

(** [PSI_mutex_info_v1] and its four siblings have the same fields. *)
Record PSI_info_v1 := { m_key : Z; m_name : string; m_flags : Z }.

#[global] Instance PSI_info_v1_eq_dec : EqDecision PSI_info_v1.
Proof. solve_decision. Defined.

(** ** Entry points of [PSI_v1] *)

(** Registration of the instruments of a category. *)
Inductive psi_register :=
| register_mutex (category : string) (info : list PSI_info_v1) (count : Z)
| register_rwlock (category : string) (info : list PSI_info_v1) (count : Z)
| register_cond (category : string) (info : list PSI_info_v1) (count : Z)
| register_thread (category : string) (info : list PSI_info_v1) (count : Z)
| register_file (category : string) (info : list PSI_info_v1) (count : Z).

(** Creation and destruction of instrumented objects. *)
Inductive psi_object :=
| init_mutex (key identity : Z)
| destroy_mutex (mutex : Z)
| init_rwlock (key identity : Z)
| destroy_rwlock (rwlock : Z)
| init_cond (key identity : Z)
| destroy_cond (cond : Z)
| get_table_share (schema_name schema_name_length table_name table_name_length identity : Z)
| release_table_share (share : Z)
| open_table (share identity : Z)
| close_table (table : Z)
| create_file (key name file : Z).

(** Threads. *)
Inductive psi_thread :=
| spawn_thread (key thread attr start_routine arg : Z)
| new_thread (key identity thread_id : Z)
| set_thread_id (thread id : Z)
| get_thread
| set_thread (thread : Z)
| delete_current_thread
| delete_thread (thread : Z).

(** The identity given for a file name locker: a heap pointer, or the address of
    the local variable [locker] of the caller. *)
Inductive identity := IdPtr (p : Z) | IdLocker.

(** Lockers; the result is the locker or [NULL].  The [state] argument, the
    address of opaque local storage, is left out. *)
Inductive psi_locker :=
| get_thread_mutex_locker (mutex : Z) (op : PSI_mutex_operation)
| get_thread_rwlock_locker (rwlock : Z) (op : PSI_rwlock_operation)
| get_thread_cond_locker (cond mutex : Z) (op : PSI_cond_operation)
| get_thread_table_locker (table : Z)
| get_thread_file_name_locker (key : Z) (op : PSI_file_operation) (name : Z) (ident : identity)
| get_thread_file_stream_locker (file : Z) (op : PSI_file_operation)
| get_thread_file_descriptor_locker (file : Z) (op : PSI_file_operation).

(** Notifications without a locker. *)
Inductive psi_notify :=
| unlock_mutex (mutex : Z)
| unlock_rwlock (rwlock : Z)
| signal_cond (cond : Z)
| broadcast_cond (cond : Z).

(** Wait events, for a locker. *)
Inductive psi_wait :=
| start_mutex_wait (locker src_file src_line : Z)
| end_mutex_wait (locker rc : Z)
| start_rwlock_rdwait (locker src_file src_line : Z)
| end_rwlock_rdwait (locker rc : Z)
| start_rwlock_wrwait (locker src_file src_line : Z)
| end_rwlock_wrwait (locker rc : Z)
| start_cond_wait (locker src_file src_line : Z)
| end_cond_wait (locker rc : Z)
| start_table_wait (locker src_file src_line : Z)
| end_table_wait (locker : Z).

(** File events, for a locker. *)
Inductive psi_file_wait :=
| start_file_open_wait (locker src_file src_line : Z)
| end_file_open_wait (locker : Z)
| end_file_open_wait_and_bind_to_descriptor (locker file : Z)
| start_file_wait (locker count src_file src_line : Z)
| end_file_wait (locker count : Z).

(** The members of [struct PSI_v1]. *)
Inductive psi_call :=
| Register (c : psi_register)
| Object (c : psi_object)
| Thread (c : psi_thread)
| Locker (c : psi_locker)
| Notify (c : psi_notify)
| Wait (c : psi_wait)
| FileWait (c : psi_file_wait).

(** The index of an entry point in [struct PSI_v1], the order of its members. *)
Definition psi_slot (c : psi_call) : Z :=
  match c with
  | Register (register_mutex _ _ _) => 0
  | Register (register_rwlock _ _ _) => 1
  | Register (register_cond _ _ _) => 2
  | Register (register_thread _ _ _) => 3
  | Register (register_file _ _ _) => 4
  | Object (init_mutex _ _) => 5
  | Object (destroy_mutex _) => 6
  | Object (init_rwlock _ _) => 7
  | Object (destroy_rwlock _) => 8
  | Object (init_cond _ _) => 9
  | Object (destroy_cond _) => 10
  | Object (get_table_share _ _ _ _ _) => 11
  | Object (release_table_share _) => 12
  | Object (open_table _ _) => 13
  | Object (close_table _) => 14
  | Object (create_file _ _ _) => 15
  | Thread (spawn_thread _ _ _ _ _) => 16
  | Thread (new_thread _ _ _) => 17
  | Thread (set_thread_id _ _) => 18
  | Thread get_thread => 19
  | Thread (set_thread _) => 20
  | Thread delete_current_thread => 21
  | Thread (delete_thread _) => 22
  | Locker (get_thread_mutex_locker _ _) => 23
  | Locker (get_thread_rwlock_locker _ _) => 24
  | Locker (get_thread_cond_locker _ _ _) => 25
  | Locker (get_thread_table_locker _) => 26
  | Locker (get_thread_file_name_locker _ _ _ _) => 27
  | Locker (get_thread_file_stream_locker _ _) => 28
  | Locker (get_thread_file_descriptor_locker _ _) => 29
  | Notify (unlock_mutex _) => 30
  | Notify (unlock_rwlock _) => 31
  | Notify (signal_cond _) => 32
  | Notify (broadcast_cond _) => 33
  | Wait (start_mutex_wait _ _ _) => 34
  | Wait (end_mutex_wait _ _) => 35
  | Wait (start_rwlock_rdwait _ _ _) => 36
  | Wait (end_rwlock_rdwait _ _) => 37
  | Wait (start_rwlock_wrwait _ _ _) => 38
  | Wait (end_rwlock_wrwait _ _) => 39
  | Wait (start_cond_wait _ _ _) => 40
  | Wait (end_cond_wait _ _) => 41
  | Wait (start_table_wait _ _ _) => 42
  | Wait (end_table_wait _) => 43
  | FileWait (start_file_open_wait _ _ _) => 44
  | FileWait (end_file_open_wait _) => 45
  | FileWait (end_file_open_wait_and_bind_to_descriptor _ _) => 46
  | FileWait (start_file_wait _ _ _ _) => 47
  | FileWait (end_file_wait _ _) => 48
  end.

Definition PSI_v1_members : Z := 49.

(** ** The waiting protocol

    The order of calls that the header documents for a client of the
    interface: a locker is obtained, and if it is not [NULL] a wait of the
    class the operation asks for is started on it, the instrumented system
    call runs, and the wait is ended on the same locker. *)

Inductive wait_class :=
  CMutex | CRdlock | CWrlock | CCond | CTable | CFile | CFileOpen.

#[global] Instance wait_class_eq_dec : EqDecision wait_class.
Proof. solve_decision. Defined.

Definition rwlock_class (op : PSI_rwlock_operation) : wait_class :=
  match op with
  | PSI_RWLOCK_READLOCK | PSI_RWLOCK_TRYREADLOCK => CRdlock
  | PSI_RWLOCK_WRITELOCK | PSI_RWLOCK_TRYWRITELOCK => CWrlock
  end.

(** The operations that create a file handle use the open events. *)
Definition file_class (op : PSI_file_operation) : wait_class :=
  match op with
  | PSI_FILE_CREATE | PSI_FILE_OPEN | PSI_FILE_STREAM_OPEN => CFileOpen
  | _ => CFile
  end.

Definition locker_class (c : psi_locker) : wait_class :=
  match c with
  | get_thread_mutex_locker _ _ => CMutex
  | get_thread_rwlock_locker _ op => rwlock_class op
  | get_thread_cond_locker _ _ _ => CCond
  | get_thread_table_locker _ => CTable
  | get_thread_file_name_locker _ op _ _ => file_class op
  | get_thread_file_stream_locker _ op => file_class op
  | get_thread_file_descriptor_locker _ op => file_class op
  end.

(** The class and locker a call starts (ends) a wait on. *)
Definition starts (c : psi_call) : option (wait_class * Z) :=
  match c with
  | Wait (start_mutex_wait l _ _) => Some (CMutex, l)
  | Wait (start_rwlock_rdwait l _ _) => Some (CRdlock, l)
  | Wait (start_rwlock_wrwait l _ _) => Some (CWrlock, l)
  | Wait (start_cond_wait l _ _) => Some (CCond, l)
  | Wait (start_table_wait l _ _) => Some (CTable, l)
  | FileWait (start_file_open_wait l _ _) => Some (CFileOpen, l)
  | FileWait (start_file_wait l _ _ _) => Some (CFile, l)
  | _ => None
  end.

Definition ends (c : psi_call) : option (wait_class * Z) :=
  match c with
  | Wait (end_mutex_wait l _) => Some (CMutex, l)
  | Wait (end_rwlock_rdwait l _) => Some (CRdlock, l)
  | Wait (end_rwlock_wrwait l _) => Some (CWrlock, l)
  | Wait (end_cond_wait l _) => Some (CCond, l)
  | Wait (end_table_wait l) => Some (CTable, l)
  | FileWait (end_file_open_wait l) => Some (CFileOpen, l)
  | FileWait (end_file_open_wait_and_bind_to_descriptor l _) => Some (CFileOpen, l)
  | FileWait (end_file_wait l _) => Some (CFile, l)
  | _ => None
  end.
