(* ===== verification/Effects.v ===== *)
(** * Effects of the instrumented wrappers

    A wrapper of mysql_thread.h or mysql_file.h is a program over calls: calls
    of the performance schema ([psi_call], file Psi), calls of the mysys,
    pthread and C library functions ([sys_call]), and accesses to the two
    fields of the wrapper structures.  Neither the server behind the
    interface nor the called functions are part of the sources; the class [Env]
    stands for them. *)
From S2P Require Import Prelude Psi.

(** ** Calls of functions declared elsewhere *)

Inductive sys_call :=
(* mutexes *)
| safe_mutex_init (mp attr src_file src_line : Z)
| pthread_mutex_init (mp attr : Z)
| safe_mutex_destroy (mp src_file src_line : Z)
| pthread_mutex_destroy (mp : Z)
| safe_mutex_lock (mp : Z) (try_lock : bool) (src_file src_line : Z)
| pthread_mutex_lock (mp : Z)
| pthread_mutex_trylock (mp : Z)
| safe_mutex_unlock (mp src_file src_line : Z)
| pthread_mutex_unlock (mp : Z)
(* rwlocks and prlocks *)
| my_rwlock_init (rw attr : Z)
| rwlock_destroy (rw : Z)
| rw_rdlock (rw : Z)
| rw_wrlock (rw : Z)
| rw_tryrdlock (rw : Z)
| rw_trywrlock (rw : Z)
| rw_unlock (rw : Z)
| rw_pr_init (rw : Z)
| rw_pr_destroy (rw : Z)
| rw_pr_rdlock (rw : Z)
| rw_pr_wrlock (rw : Z)
| rw_pr_unlock (rw : Z)
(* conditions and threads *)
| pthread_cond_init (c attr : Z)
| pthread_cond_destroy (c : Z)
| pthread_cond_wait (c m : Z)
| pthread_cond_timedwait (c m abstime : Z)
| pthread_cond_signal (c : Z)
| pthread_cond_broadcast (c : Z)
| pthread_create (thread attr start_routine arg : Z)
(* memory *)
| my_malloc (size flags : Z)
| my_free (ptr : Z)
(* streams *)
| fgets (str size file : Z)
| fgetc (file : Z)
| fputs (str file : Z)
| fputc (c file : Z)
| vfprintf (file format args : Z)
| fflush (file : Z)
| feof (file : Z)
| my_fopen (filename flags my_flags : Z)
| my_fclose (file flags : Z)
| my_fread (file buffer count flags : Z)
| my_fwrite (file buffer count flags : Z)
| my_fseek (file pos whence flags : Z)
| my_ftell (file flags : Z)
(* descriptors and names *)
| my_fstat (filenr stat_area flags : Z)
| my_stat (path stat_area flags : Z)
| my_chsize (file newlength filler flags : Z)
| my_create (filename create_flags access_flags my_flags : Z)
| create_temp_file (to dir pfx mode my_flags : Z)
| my_open (filename flags my_flags : Z)
| my_close (file flags : Z)
| my_read (file buffer count flags : Z)
| my_write (file buffer count flags : Z)
| my_pread (file buffer count offset flags : Z)
| my_pwrite (file buffer count offset flags : Z)
| my_seek (file pos whence flags : Z)
| my_tell (file flags : Z)
| my_delete (name flags : Z)
| my_rename (from to flags : Z)
| my_create_with_symlink (linkname filename create_flags access_flags flags : Z)
| my_delete_with_symlink (name flags : Z)
| my_rename_with_symlink (from to flags : Z)
| my_sync (fd flags : Z).

Inductive call := CPsi (c : psi_call) | CSys (c : sys_call).

(** ** Programs *)

(** The fields of a wrapper structure: the instrumentation hook, and the
    [FILE] pointer of an instrumented file.  The mutex, rwlock or condition of
    the other wrappers is their first member; its address is the address
    of the wrapper. *)
Inductive field := m_psi | m_file.

#[global] Instance field_eq_dec : EqDecision field.
Proof. solve_decision. Defined.

(** [Stuck] marks an argument that is used but not declared, or the converse,
    under the conditionals in force: such a program does not compile. *)
Inductive prog (A : Type) : Type :=
| Ret (a : A)
| Stuck
| Call (c : call) (k : Z -> prog A)
| Strlen (s : Z) (k : Z -> prog A)
| Load (p : Z) (f : field) (k : Z -> prog A)
| Store (p : Z) (f : field) (v : Z) (k : prog A).
Arguments Ret {A} a.
Arguments Stuck {A}.
Arguments Call {A} c k.
Arguments Strlen {A} s k.
Arguments Load {A} p f k.
Arguments Store {A} p f v k.

Fixpoint prog_bind_def {A B : Type} (f : A -> prog B) (p : prog A) : prog B :=
  match p with
  | Ret a => f a
  | Stuck => Stuck
  | Call c k => Call c (fun r => prog_bind_def f (k r))
  | Strlen s k => Strlen s (fun r => prog_bind_def f (k r))
  | Load p fl k => Load p fl (fun r => prog_bind_def f (k r))
  | Store p fl v k => Store p fl v (prog_bind_def f k)
  end.

#[global] Instance prog_bind : MBind prog := @prog_bind_def.
#[global] Instance prog_ret : MRet prog := @Ret.

Definition psi (c : psi_call) : prog Z := Call (CPsi c) Ret.
Definition sys (c : sys_call) : prog Z := Call (CSys c) Ret.
Definition strlen (s : Z) : prog Z := Strlen s Ret.
Definition load (p : Z) (f : field) : prog Z := Load p f Ret.
Definition store (p : Z) (f : field) (v : Z) : prog () := Store p f v (Ret ()).

(** [if (b) p] *)
Definition when (b : bool) (p : prog Z) : prog Z := if b then p else Ret 0.

(** ** Configurations *)

(** The conditionals [HAVE_PSI_INTERFACE] and [SAFE_MUTEX], and the value of
    the global variable [PSI_server]. *)
Record config := { have_psi : bool; safe_mutex : bool; PSI_server : Z }.

Definition srcloc : Type := Z * Z.

Definition is_some {A : Type} (o : option A) : bool :=
  match o with Some _ => true | None => false end.

(** [params b x p]: the parameter [x] is declared exactly if [b] holds. *)
Definition params {A B : Type} (b : bool) (x : option A) (p : prog B) : prog B :=
  if Bool.eqb b (is_some x) then p else Stuck.

(** The value of a conditionally declared parameter. *)
Definition the {A B : Type} (x : option A) (k : A -> prog B) : prog B :=
  match x with Some a => k a | None => Stuck end.

(** The argument of a macro call under a conditional. *)
Definition given {A : Type} (b : bool) (x : A) : option A := if b then Some x else None.

(** [#ifdef HAVE_PSI_INTERFACE] around statements that define [locker]. *)
Definition ifdef {A : Type} (b : bool) (p : prog A) (d : A) : prog A := if b then p else Ret d.

(** ** Execution *)

Class Env := {
  sys_state : Type;
  psi_state : Type;
  sys_answer : sys_state -> sys_call -> Z * sys_state;
  psi_answer : psi_state -> psi_call -> Z * psi_state;
  c_strlen : sys_state -> Z -> Z;
}.

(** A wrapper structure; a field is [None] until it is assigned. *)
Record obj := { o_psi : option Z; o_file : option Z }.

Definition get_field (f : field) (o : obj) : option Z :=
  match f with m_psi => o_psi o | m_file => o_file o end.

Definition set_field (f : field) (v : Z) (o : obj) : obj :=
  match f with
  | m_psi => {| o_psi := Some v; o_file := o_file o |}
  | m_file => {| o_psi := o_psi o; o_file := Some v |}
  end.

Definition fresh_obj : obj := {| o_psi := None; o_file := None |}.

Abbreviation heap := (gmap Z obj).

Inductive event := EPsi (c : psi_call) (r : Z) | ESys (c : sys_call) (r : Z).

(** Allocation and release of wrapper structures. *)
Definition heap_effect (c : sys_call) (r : Z) (h : heap) : option heap :=
  match c with
  | my_malloc _ _ =>
    if r =? 0 then Some h
    else match h !! r with Some _ => None | None => Some (<[r := fresh_obj]> h) end
  | my_free p => match h !! p with Some _ => Some (delete p h) | None => None end
  | _ => Some h
  end.

Definition load_field (p : Z) (f : field) (h : heap) : option Z :=
  o ← h !! p; get_field f o.

Definition store_field (p : Z) (f : field) (v : Z) (h : heap) : option heap :=
  o ← h !! p; Some (<[p := set_field f v o]> h).

Section Run.
Context `{E : Env}.

Record world := { w_heap : heap; w_sys : sys_state; w_psi : psi_state }.

Fixpoint run {A : Type} (p : prog A) (w : world) : option (A * world * list event) :=
  match p with
  | Ret a => Some (a, w, [])
  | Stuck => None
  | Call (CPsi c) k =>
    let (r, s) := psi_answer (w_psi w) c in
    x ← run (k r) {| w_heap := w_heap w; w_sys := w_sys w; w_psi := s |};
    Some (x.1, EPsi c r :: x.2)
  | Call (CSys c) k =>
    let (r, s) := sys_answer (w_sys w) c in
    h ← heap_effect c r (w_heap w);
    x ← run (k r) {| w_heap := h; w_sys := s; w_psi := w_psi w |};
    Some (x.1, ESys c r :: x.2)
  | Strlen s k => run (k (c_strlen (w_sys w) s)) w
  | Load q f k => v ← load_field q f (w_heap w); run (k v) w
  | Store q f v k =>
    h ← store_field q f v (w_heap w);
    run k {| w_heap := h; w_sys := w_sys w; w_psi := w_psi w |}
  end.
End Run.
Arguments world : clear implicits.
Arguments world {E}.

(** The system calls of a trace, with their results. *)
Definition sys_events (t : list event) : list (sys_call * Z) :=
  omap (fun e => match e with ESys c r => Some (c, r) | EPsi _ _ => None end) t.

Definition psi_events (t : list event) : list (psi_call * Z) :=
  omap (fun e => match e with EPsi c r => Some (c, r) | ESys _ _ => None end) t.

(** ** Configurations and hooks *)

Section Calls.
Context (cfg : config).

(** A call through [PSI_server]; dereferencing [NULL] is an error. *)
Definition server (c : psi_call) : prog Z :=
  if PSI_server cfg =? NULL then Stuck else psi c.

(** [PSI_server && that->m_psi] *)
Definition hooked (that : Z) : prog bool :=
  if PSI_server cfg =? NULL then Ret false
  else p ← load that m_psi; Ret (negb (p =? NULL)).

(** The interface is compiled in and has a server. *)
Definition psi_on : bool := have_psi cfg && negb (PSI_server cfg =? NULL).
End Calls.

(** ** Abstract specification of an instrumented call *)

Section Spec.
Context `{E : Env}.

(** The value of the hook of a structure; [NULL] when it is unset. *)
Definition hook (h : heap) (p : Z) : Z := default NULL (load_field p m_psi h).

Definition ask_psi (c : psi_call) (w : world) : Z * world :=
  let (r, s) := psi_answer (w_psi w) c in
  (r, {| w_heap := w_heap w; w_sys := w_sys w; w_psi := s |}).

Definition ask_sys (c : sys_call) (w : world) : Z * world :=
  let (r, s) := sys_answer (w_sys w) c in
  (r, {| w_heap := w_heap w; w_sys := s; w_psi := w_psi w |}).

Definition set_hook (p v : Z) (w : world) : world :=
  {| w_heap := default (w_heap w) (store_field p m_psi v (w_heap w));
     w_sys := w_sys w; w_psi := w_psi w |}.

(** The instrumentation of a wait: the locker asked for, the call that starts
    the wait (it may measure a string) and the call that ends it, for the
    result of the system call. *)
Record bracket := {
  b_locker : psi_locker;
  b_start : (Z -> Z) -> Z -> psi_call;
  b_stop : (Z -> Z) -> (Z -> Z) -> Z -> Z -> psi_call;
}.

(** The run of a system call inside of a bracket: with a locker the call is
    surrounded by the start and the end of the wait, in any case its result
    is the result of the run. *)
Definition spec_wait (on : bool) (b : bracket) (c : sys_call) (w : world) :
    Z * world * list event :=
  if on then
    let g := Locker (b_locker b) in
    let (l, w1) := ask_psi g w in
    if l =? NULL then
      let (r, w2) := ask_sys c w1 in (r, w2, [EPsi g l; ESys c r])
    else
      let s := b_start b (c_strlen (w_sys w1)) l in
      let (r1, w2) := ask_psi s w1 in
      let (r, w3) := ask_sys c w2 in
      let e := b_stop b (c_strlen (w_sys w1)) (c_strlen (w_sys w3)) l r in
      let (r2, w4) := ask_psi e w3 in
      (r, w4, [EPsi g l; EPsi s r1; ESys c r; EPsi e r2])
  else
    let (r, w1) := ask_sys c w in (r, w1, [ESys c r]).

(** The run of a system call after a notification of the server. *)
Definition spec_notify (on : bool) (n : psi_call) (c : sys_call) (w : world) :
    Z * world * list event :=
  if on then
    let (r0, w1) := ask_psi n w in
    let (r, w2) := ask_sys c w1 in (r, w2, [EPsi n r0; ESys c r])
  else
    let (r, w1) := ask_sys c w in (r, w1, [ESys c r]).
End Spec.

(** ** The monitor of the waiting protocol

    [Idle]: no locker; [Got k l]: a locker for a wait of class [k]; [Waiting k l]: the
    wait is started.  A system call is allowed in [Idle] and in [Waiting]. *)

Inductive phase := Idle | Got (k : wait_class) (l : Z) | Waiting (k : wait_class) (l : Z).

#[global] Instance phase_eq_dec : EqDecision phase.
Proof. solve_decision. Defined.

Definition monitor (s : phase) (e : event) : option phase :=
  match e, s with
  | ESys _ _, Got _ _ => None
  | ESys _ _, _ => Some s
  | EPsi (Locker c) r, Idle => Some (if r =? NULL then Idle else Got (locker_class c) r)
  | EPsi (Locker _) _, _ => None
  | EPsi c _, _ =>
    match starts c, ends c, s with
    | Some (k, l), _, Got k' l' => if decide (k = k' /\ l = l') then Some (Waiting k l) else None
    | None, Some (k, l), Waiting k' l' => if decide (k = k' /\ l = l') then Some Idle else None
    | None, None, Idle => Some Idle
    | _, _, _ => None
    end
  end.

Fixpoint monitor_all (s : phase) (t : list event) : option phase :=
  match t with
  | [] => Some s
  | e :: t => s' ← monitor s e; monitor_all s' t
  end.

(** ** Lemmas *)

Lemma load_field_mapped (p : Z) (f : field) (h : heap) (v : Z) :
  load_field p f h = Some v -> is_Some (h !! p).
Proof. unfold load_field. destruct (h !! p); [by eexists|done]. Qed.

Lemma store_field_mapped (p : Z) (h : heap) :
  is_Some (h !! p) -> exists o, forall f v, store_field p f v h = Some (<[p := set_field f v o]> h).
Proof. intros [o Ho]. exists o. intros f v. unfold store_field. by rewrite Ho. Qed.

(** Run a program whose loads and stores are known, by case analysis on the
    answers of the environment and on the tests of the program. *)
Ltac exec_step :=
  match goal with
  | H : load_field ?p ?f ?h = _ |- context [load_field ?p ?f ?h] => rewrite H
  | H : forall f v, store_field ?p f v ?h = Some _ |- context [store_field ?p _ _ ?h] => rewrite !H
  | H : psi_answer ?s ?c = _ |- context [psi_answer ?s ?c] => rewrite H
  | H : sys_answer ?s ?c = _ |- context [sys_answer ?s ?c] => rewrite H
  | H : (?x =? 0) = _ |- context [?x =? 0] => rewrite H
  | |- context [?x =? 0] => destruct (x =? 0) eqn:?
  | |- context [psi_answer ?s ?c] => destruct (psi_answer s c) as [? ?] eqn:?
  | |- context [sys_answer ?s ?c] => destruct (sys_answer s c) as [? ?] eqn:?
  end.
Ltac exec := repeat (exec_step; cbn -[load_field store_field]).

(** Expose the loads and stores an operation makes. *)
Ltac known_hooks Hr :=
  repeat match type of Hr with _ /\ _ => let H := fresh "H" in destruct Hr as [H Hr] end;
  repeat match goal with
  | H : is_Some (load_field _ _ _) |- _ =>
    let v := fresh "v" in let Hv := fresh "Hv" in destruct H as [v Hv];
    let o := fresh "o" in let Ho := fresh "Ho" in
    destruct (store_field_mapped _ _ (load_field_mapped _ _ _ _ Hv)) as [o Ho]
  | H : is_Some (_ !! _) |- _ =>
    let o := fresh "o" in let Ho := fresh "Ho" in
    destruct (store_field_mapped _ _ H) as [o Ho]; clear H
  end.

Create HintDb prog_defs.
#[export] Hint Unfold params ifdef hooked server psi_on hook set_hook ask_psi ask_sys
  spec_wait spec_notify : prog_defs.

Lemma sys_events_app (t1 t2 : list event) : sys_events (t1 ++ t2) = sys_events t1 ++ sys_events t2.
Proof. apply omap_app. Qed.

Lemma psi_events_app (t1 t2 : list event) : psi_events (t1 ++ t2) = psi_events t1 ++ psi_events t2.
Proof. apply omap_app. Qed.

Lemma monitor_all_app (t1 t2 : list event) (s : phase) :
  monitor_all s (t1 ++ t2) = (s' ← monitor_all s t1; monitor_all s' t2).
Proof.
  revert s. induction t1 as [|e t1 IH]; intros s; [done|]. cbn.
  destruct (monitor s e); [|done]. apply IH.
Qed.

Section SpecLemmas.
Context `{E : Env}.
Implicit Types (w : world) (b : bracket).

(** What a run is to the system: one call, whose result it returns; the
    instrumentation changes neither the call nor the state of the system. *)
Definition transparent (c : sys_call) (w : world) (x : Z * world * list event) : Prop :=
  x.1.1 = (sys_answer (w_sys w) c).1
  /\ w_sys x.1.2 = (sys_answer (w_sys w) c).2
  /\ sys_events x.2 = [(c, x.1.1)].

Lemma spec_wait_transparent on b c w : transparent c w (spec_wait on b c w).
Proof. unfold transparent. autounfold with prog_defs. destruct on; exec; cbn; exec; done. Qed.

Lemma spec_notify_transparent on n c w : transparent c w (spec_notify on n c w).
Proof. unfold transparent. autounfold with prog_defs. destruct on; exec; cbn; exec; done. Qed.

Lemma spec_wait_heap on b c w : w_heap (spec_wait on b c w).1.2 = w_heap w.
Proof. autounfold with prog_defs. destruct on; exec; cbn; exec; done. Qed.

Lemma spec_notify_heap on n c w : w_heap (spec_notify on n c w).1.2 = w_heap w.
Proof. autounfold with prog_defs. destruct on; exec; cbn; exec; done. Qed.

(** Without the interface nothing is reported. *)
Lemma spec_wait_silent b c w : psi_events (spec_wait false b c w).2 = [].
Proof. autounfold with prog_defs. exec; cbn; exec; done. Qed.

Lemma spec_notify_silent n c w : psi_events (spec_notify false n c w).2 = [].
Proof. autounfold with prog_defs. exec; cbn; exec; done. Qed.

(** A bracket whose calls are of the class of its locker obeys the protocol. *)
Definition bracket_ok b : Prop :=
  forall sl sl' l r,
    starts (b_start b sl l) = Some (locker_class (b_locker b), l)
    /\ ends (b_stop b sl sl' l r) = Some (locker_class (b_locker b), l).

Lemma monitor_start c k l r :
  starts c = Some (k, l) -> monitor (Got k l) (EPsi c r) = Some (Waiting k l).
Proof.
  intros H. unfold monitor. rewrite H.
  rewrite decide_True by done. by destruct c.
Qed.

Lemma monitor_end c k l r :
  ends c = Some (k, l) -> monitor (Waiting k l) (EPsi c r) = Some Idle.
Proof.
  intros H. unfold monitor. rewrite H.
  assert (starts c = None) as ->. { destruct c as [| | | | |[]|[]]; cbn in *; congruence. }
  rewrite decide_True by done. by destruct c.
Qed.

Lemma monitor_other c r :
  starts c = None -> ends c = None -> (forall k, c <> Locker k) ->
  monitor Idle (EPsi c r) = Some Idle.
Proof.
  intros H1 H2 Hl. unfold monitor. rewrite H1, H2. destruct c; try done. by destruct (Hl c).
Qed.

Lemma spec_wait_monitor on b c w :
  bracket_ok b -> monitor_all Idle (spec_wait on b c w).2 = Some Idle.
Proof.
  intros Hb. autounfold with prog_defs. destruct on.
  2: { destruct (sys_answer _ _). done. }
  destruct (psi_answer (w_psi w) _) as [l s1]. cbn. destruct (l =? 0) eqn:Hl.
  { destruct (sys_answer _ _). cbn. by rewrite Hl. }
  destruct (psi_answer s1 _) as [r1 s2]. cbn. destruct (sys_answer _ _) as [r s3]. cbn.
  destruct (psi_answer s2 _) as [r2 s4]. cbn -[monitor].
  change (monitor Idle (EPsi (Locker (b_locker b)) l))
    with (Some (if l =? 0 then Idle else Got (locker_class (b_locker b)) l)).
  rewrite Hl. cbn -[monitor].
  destruct (Hb (c_strlen (w_sys w)) (c_strlen s3) l r) as [H1 H2].
  rewrite (monitor_start _ _ _ _ H1). cbn -[monitor].
  change (monitor (Waiting ?k l) (ESys c r)) with (Some (Waiting k l)).
  cbn -[monitor]. by rewrite (monitor_end _ _ _ _ H2).
Qed.

Lemma spec_notify_monitor on n c w :
  starts n = None -> ends n = None -> (forall k, n <> Locker k) ->
  monitor_all Idle (spec_notify on n c w).2 = Some Idle.
Proof.
  intros H1 H2 Hl. autounfold with prog_defs. destruct on.
  - destruct (psi_answer _ _). cbn. destruct (sys_answer _ _). cbn -[monitor].
    by rewrite monitor_other.
  - by destruct (sys_answer _ _).
Qed.
End SpecLemmas.
