(* ===== verification/Thread.v ===== *)
(** * Instrumented mutexes, locks, conditions and threads (mysql/psi/mysql_thread.h)

    The inline functions of the header, one definition each, under the
    conditionals and the server pointer of a configuration, and the macros that
    call them.  [src] is the pair of parameters [src_file, src_line], [key] the
    key parameter; both are present only under some conditionals. *)
From S2P Require Import Prelude Psi Effects.

Section Functions.
Context (cfg : config).

#[local] Abbreviation server := (server cfg).
#[local] Abbreviation hooked := (hooked cfg).

(** *** Mutexes *)

Definition inline_mysql_mutex_init (key : option Z) (that attr : Z) (src : option srcloc) : prog Z :=
  params (have_psi cfg) key (params (safe_mutex cfg) src (
  h ← (if have_psi cfg then
         if PSI_server cfg =? NULL then Ret NULL
         else the key (fun key => server (Object (init_mutex key that)))
       else Ret NULL);
  _ ← store that m_psi h;
  if safe_mutex cfg
  then the src (fun '(src_file, src_line) => sys (safe_mutex_init that attr src_file src_line))
  else sys (pthread_mutex_init that attr))).

Definition inline_mysql_mutex_destroy (that : Z) (src : option srcloc) : prog Z :=
  params (safe_mutex cfg) src (
  _ ← ifdef (have_psi cfg) (
    b ← hooked that;
    if (b : bool) then
      h ← load that m_psi;
      _ ← server (Object (destroy_mutex h));
      store that m_psi NULL
    else Ret ()) ();
  if safe_mutex cfg
  then the src (fun '(src_file, src_line) => sys (safe_mutex_destroy that src_file src_line))
  else sys (pthread_mutex_destroy that)).

Definition inline_mysql_mutex_lock (that : Z) (src : option srcloc) : prog Z :=
  params (safe_mutex cfg || have_psi cfg) src (
  locker ← ifdef (have_psi cfg) (
    b ← hooked that;
    if (b : bool) then
      m ← load that m_psi;
      locker ← server (Locker (get_thread_mutex_locker m PSI_MUTEX_LOCK));
      _ ← when (negb (locker =? NULL))
        (the src (fun '(src_file, src_line) => server (Wait (start_mutex_wait locker src_file src_line))));
      Ret locker
    else Ret NULL) NULL;
  result ← if safe_mutex cfg
    then the src (fun '(src_file, src_line) => sys (safe_mutex_lock that false src_file src_line))
    else sys (pthread_mutex_lock that);
  _ ← ifdef (have_psi cfg) (when (negb (locker =? NULL))
    (server (Wait (end_mutex_wait locker result)))) 0;
  Ret result).

Definition inline_mysql_mutex_trylock (that : Z) (src : option srcloc) : prog Z :=
  params (safe_mutex cfg || have_psi cfg) src (
  locker ← ifdef (have_psi cfg) (
    b ← hooked that;
    if (b : bool) then
      m ← load that m_psi;
      locker ← server (Locker (get_thread_mutex_locker m PSI_MUTEX_TRYLOCK));
      _ ← when (negb (locker =? NULL))
        (the src (fun '(src_file, src_line) => server (Wait (start_mutex_wait locker src_file src_line))));
      Ret locker
    else Ret NULL) NULL;
  result ← if safe_mutex cfg
    then the src (fun '(src_file, src_line) => sys (safe_mutex_lock that true src_file src_line))
    else sys (pthread_mutex_trylock that);
  _ ← ifdef (have_psi cfg) (when (negb (locker =? NULL))
    (server (Wait (end_mutex_wait locker result)))) 0;
  Ret result).

Definition inline_mysql_mutex_unlock (that : Z) (src : option srcloc) : prog Z :=
  params (safe_mutex cfg) src (
  _ ← ifdef (have_psi cfg) (
    b ← hooked that;
    if (b : bool) then h ← load that m_psi; server (Notify (unlock_mutex h)) else Ret 0) 0;
  result ← if safe_mutex cfg
    then the src (fun '(src_file, src_line) => sys (safe_mutex_unlock that src_file src_line))
    else sys (pthread_mutex_unlock that);
  Ret result).

(** *** Read-write locks, and those that prefer readers *)

Definition inline_mysql_rwlock_init (key : option Z) (that : Z) : prog Z :=
  params (have_psi cfg) key (
  h ← (if have_psi cfg then
         if PSI_server cfg =? NULL then Ret NULL
         else the key (fun key => server (Object (init_rwlock key that)))
       else Ret NULL);
  _ ← store that m_psi h;
  sys (my_rwlock_init that NULL)).

Definition inline_mysql_prlock_init (key : option Z) (that : Z) : prog Z :=
  params (have_psi cfg) key (
  h ← (if have_psi cfg then
         if PSI_server cfg =? NULL then Ret NULL
         else the key (fun key => server (Object (init_rwlock key that)))
       else Ret NULL);
  _ ← store that m_psi h;
  sys (rw_pr_init that)).

Definition inline_mysql_rwlock_destroy (that : Z) : prog Z :=
  _ ← ifdef (have_psi cfg) (
    b ← hooked that;
    if (b : bool) then
      h ← load that m_psi;
      _ ← server (Object (destroy_rwlock h));
      store that m_psi NULL
    else Ret ()) ();
  sys (rwlock_destroy that).

Definition inline_mysql_prlock_destroy (that : Z) : prog Z :=
  _ ← ifdef (have_psi cfg) (
    b ← hooked that;
    if (b : bool) then
      h ← load that m_psi;
      _ ← server (Object (destroy_rwlock h));
      store that m_psi NULL
    else Ret ()) ();
  sys (rw_pr_destroy that).

Definition inline_mysql_rwlock_rdlock (that : Z) (src : option srcloc) : prog Z :=
  params (have_psi cfg) src (
  locker ← ifdef (have_psi cfg) (
    b ← hooked that;
    if (b : bool) then
      m ← load that m_psi;
      locker ← server (Locker (get_thread_rwlock_locker m PSI_RWLOCK_READLOCK));
      _ ← when (negb (locker =? NULL))
        (the src (fun '(src_file, src_line) => server (Wait (start_rwlock_rdwait locker src_file src_line))));
      Ret locker
    else Ret NULL) NULL;
  result ← sys (rw_rdlock that);
  _ ← ifdef (have_psi cfg) (when (negb (locker =? NULL))
    (server (Wait (end_rwlock_rdwait locker result)))) 0;
  Ret result).

Definition inline_mysql_prlock_rdlock (that : Z) (src : option srcloc) : prog Z :=
  params (have_psi cfg) src (
  locker ← ifdef (have_psi cfg) (
    b ← hooked that;
    if (b : bool) then
      m ← load that m_psi;
      locker ← server (Locker (get_thread_rwlock_locker m PSI_RWLOCK_READLOCK));
      _ ← when (negb (locker =? NULL))
        (the src (fun '(src_file, src_line) => server (Wait (start_rwlock_rdwait locker src_file src_line))));
      Ret locker
    else Ret NULL) NULL;
  result ← sys (rw_pr_rdlock that);
  _ ← ifdef (have_psi cfg) (when (negb (locker =? NULL))
    (server (Wait (end_rwlock_rdwait locker result)))) 0;
  Ret result).

Definition inline_mysql_rwlock_wrlock (that : Z) (src : option srcloc) : prog Z :=
  params (have_psi cfg) src (
  locker ← ifdef (have_psi cfg) (
    b ← hooked that;
    if (b : bool) then
      m ← load that m_psi;
      locker ← server (Locker (get_thread_rwlock_locker m PSI_RWLOCK_WRITELOCK));
      _ ← when (negb (locker =? NULL))
        (the src (fun '(src_file, src_line) => server (Wait (start_rwlock_wrwait locker src_file src_line))));
      Ret locker
    else Ret NULL) NULL;
  result ← sys (rw_wrlock that);
  _ ← ifdef (have_psi cfg) (when (negb (locker =? NULL))
    (server (Wait (end_rwlock_wrwait locker result)))) 0;
  Ret result).

Definition inline_mysql_prlock_wrlock (that : Z) (src : option srcloc) : prog Z :=
  params (have_psi cfg) src (
  locker ← ifdef (have_psi cfg) (
    b ← hooked that;
    if (b : bool) then
      m ← load that m_psi;
      locker ← server (Locker (get_thread_rwlock_locker m PSI_RWLOCK_WRITELOCK));
      _ ← when (negb (locker =? NULL))
        (the src (fun '(src_file, src_line) => server (Wait (start_rwlock_wrwait locker src_file src_line))));
      Ret locker
    else Ret NULL) NULL;
  result ← sys (rw_pr_wrlock that);
  _ ← ifdef (have_psi cfg) (when (negb (locker =? NULL))
    (server (Wait (end_rwlock_wrwait locker result)))) 0;
  Ret result).

Definition inline_mysql_rwlock_tryrdlock (that : Z) (src : option srcloc) : prog Z :=
  params (have_psi cfg) src (
  locker ← ifdef (have_psi cfg) (
    b ← hooked that;
    if (b : bool) then
      m ← load that m_psi;
      locker ← server (Locker (get_thread_rwlock_locker m PSI_RWLOCK_TRYREADLOCK));
      _ ← when (negb (locker =? NULL))
        (the src (fun '(src_file, src_line) => server (Wait (start_rwlock_rdwait locker src_file src_line))));
      Ret locker
    else Ret NULL) NULL;
  result ← sys (rw_tryrdlock that);
  _ ← ifdef (have_psi cfg) (when (negb (locker =? NULL))
    (server (Wait (end_rwlock_rdwait locker result)))) 0;
  Ret result).

Definition inline_mysql_rwlock_trywrlock (that : Z) (src : option srcloc) : prog Z :=
  params (have_psi cfg) src (
  locker ← ifdef (have_psi cfg) (
    b ← hooked that;
    if (b : bool) then
      m ← load that m_psi;
      locker ← server (Locker (get_thread_rwlock_locker m PSI_RWLOCK_TRYWRITELOCK));
      _ ← when (negb (locker =? NULL))
        (the src (fun '(src_file, src_line) => server (Wait (start_rwlock_wrwait locker src_file src_line))));
      Ret locker
    else Ret NULL) NULL;
  result ← sys (rw_trywrlock that);
  _ ← ifdef (have_psi cfg) (when (negb (locker =? NULL))
    (server (Wait (end_rwlock_wrwait locker result)))) 0;
  Ret result).

Definition inline_mysql_rwlock_unlock (that : Z) : prog Z :=
  _ ← ifdef (have_psi cfg) (
    b ← hooked that;
    if (b : bool) then h ← load that m_psi; server (Notify (unlock_rwlock h)) else Ret 0) 0;
  result ← sys (rw_unlock that);
  Ret result.

Definition inline_mysql_prlock_unlock (that : Z) : prog Z :=
  _ ← ifdef (have_psi cfg) (
    b ← hooked that;
    if (b : bool) then h ← load that m_psi; server (Notify (unlock_rwlock h)) else Ret 0) 0;
  result ← sys (rw_pr_unlock that);
  Ret result.

(** *** Conditions *)

Definition inline_mysql_cond_init (key : option Z) (that attr : Z) : prog Z :=
  params (have_psi cfg) key (
  h ← (if have_psi cfg then
         if PSI_server cfg =? NULL then Ret NULL
         else the key (fun key => server (Object (init_cond key that)))
       else Ret NULL);
  _ ← store that m_psi h;
  sys (pthread_cond_init that attr)).

Definition inline_mysql_cond_destroy (that : Z) : prog Z :=
  _ ← ifdef (have_psi cfg) (
    b ← hooked that;
    if (b : bool) then
      h ← load that m_psi;
      _ ← server (Object (destroy_cond h));
      store that m_psi NULL
    else Ret ()) ();
  sys (pthread_cond_destroy that).

Definition inline_mysql_cond_wait (that mutex : Z) (src : option srcloc) : prog Z :=
  params (have_psi cfg) src (
  locker ← ifdef (have_psi cfg) (
    b ← hooked that;
    if (b : bool) then
      c ← load that m_psi; m ← load mutex m_psi;
      locker ← server (Locker (get_thread_cond_locker c m PSI_COND_WAIT));
      _ ← when (negb (locker =? NULL))
        (the src (fun '(src_file, src_line) => server (Wait (start_cond_wait locker src_file src_line))));
      Ret locker
    else Ret NULL) NULL;
  result ← sys (pthread_cond_wait that mutex);
  _ ← ifdef (have_psi cfg) (when (negb (locker =? NULL))
    (server (Wait (end_cond_wait locker result)))) 0;
  Ret result).

Definition inline_mysql_cond_timedwait (that mutex abstime : Z) (src : option srcloc) : prog Z :=
  params (have_psi cfg) src (
  locker ← ifdef (have_psi cfg) (
    b ← hooked that;
    if (b : bool) then
      c ← load that m_psi; m ← load mutex m_psi;
      locker ← server (Locker (get_thread_cond_locker c m PSI_COND_TIMEDWAIT));
      _ ← when (negb (locker =? NULL))
        (the src (fun '(src_file, src_line) => server (Wait (start_cond_wait locker src_file src_line))));
      Ret locker
    else Ret NULL) NULL;
  result ← sys (pthread_cond_timedwait that mutex abstime);
  _ ← ifdef (have_psi cfg) (when (negb (locker =? NULL))
    (server (Wait (end_cond_wait locker result)))) 0;
  Ret result).

Definition inline_mysql_cond_signal (that : Z) : prog Z :=
  _ ← ifdef (have_psi cfg) (
    b ← hooked that;
    if (b : bool) then h ← load that m_psi; server (Notify (signal_cond h)) else Ret 0) 0;
  result ← sys (pthread_cond_signal that);
  Ret result.

Definition inline_mysql_cond_broadcast (that : Z) : prog Z :=
  _ ← ifdef (have_psi cfg) (
    b ← hooked that;
    if (b : bool) then h ← load that m_psi; server (Notify (broadcast_cond h)) else Ret 0) 0;
  result ← sys (pthread_cond_broadcast that);
  Ret result.


(** *** Threads *)

(** Declared only with [HAVE_PSI_INTERFACE]. *)
Definition inline_mysql_thread_create (key thread attr start_routine arg : Z) : prog Z :=
  if have_psi cfg then
    if PSI_server cfg =? NULL then sys (pthread_create thread attr start_routine arg)
    else server (Thread (spawn_thread key thread attr start_routine arg))
  else Stuck.

Definition inline_mysql_thread_set_psi_id (id : Z) : prog Z :=
  if have_psi cfg then
    if PSI_server cfg =? NULL then Ret 0
    else
      psi ← server (Thread get_thread);
      when (negb (psi =? NULL)) (server (Thread (set_thread_id psi id)))
  else Stuck.

(** ** Macros

    [loc] is the pair [__FILE__, __LINE__] of the call. *)

Context (loc : srcloc).

Definition mysql_mutex_init (K M A : Z) : prog Z :=
  if have_psi cfg then
    if safe_mutex cfg then inline_mysql_mutex_init (Some K) M A (Some loc)
    else inline_mysql_mutex_init (Some K) M A None
  else
    if safe_mutex cfg then inline_mysql_mutex_init None M A (Some loc)
    else inline_mysql_mutex_init None M A None.

Definition mysql_mutex_destroy (M : Z) : prog Z :=
  if safe_mutex cfg then inline_mysql_mutex_destroy M (Some loc)
  else inline_mysql_mutex_destroy M None.

Definition mysql_mutex_lock (M : Z) : prog Z :=
  if safe_mutex cfg || have_psi cfg then inline_mysql_mutex_lock M (Some loc)
  else inline_mysql_mutex_lock M None.

Definition mysql_mutex_trylock (M : Z) : prog Z :=
  if safe_mutex cfg || have_psi cfg then inline_mysql_mutex_trylock M (Some loc)
  else inline_mysql_mutex_trylock M None.

Definition mysql_mutex_unlock (M : Z) : prog Z :=
  if safe_mutex cfg then inline_mysql_mutex_unlock M (Some loc)
  else inline_mysql_mutex_unlock M None.

Definition mysql_rwlock_init (K RW : Z) : prog Z :=
  if have_psi cfg then inline_mysql_rwlock_init (Some K) RW else inline_mysql_rwlock_init None RW.

Definition mysql_prlock_init (K RW : Z) : prog Z :=
  if have_psi cfg then inline_mysql_prlock_init (Some K) RW else inline_mysql_prlock_init None RW.

Definition mysql_rwlock_destroy (RW : Z) : prog Z := inline_mysql_rwlock_destroy RW.
Definition mysql_prlock_destroy (RW : Z) : prog Z := inline_mysql_prlock_destroy RW.

Definition mysql_rwlock_rdlock (RW : Z) : prog Z :=
  if have_psi cfg then inline_mysql_rwlock_rdlock RW (Some loc)
  else inline_mysql_rwlock_rdlock RW None.

Definition mysql_prlock_rdlock (RW : Z) : prog Z :=
  if have_psi cfg then inline_mysql_prlock_rdlock RW (Some loc)
  else inline_mysql_prlock_rdlock RW None.

Definition mysql_rwlock_wrlock (RW : Z) : prog Z :=
  if have_psi cfg then inline_mysql_rwlock_wrlock RW (Some loc)
  else inline_mysql_rwlock_wrlock RW None.

Definition mysql_prlock_wrlock (RW : Z) : prog Z :=
  if have_psi cfg then inline_mysql_prlock_wrlock RW (Some loc)
  else inline_mysql_prlock_wrlock RW None.

Definition mysql_rwlock_tryrdlock (RW : Z) : prog Z :=
  if have_psi cfg then inline_mysql_rwlock_tryrdlock RW (Some loc)
  else inline_mysql_rwlock_tryrdlock RW None.

Definition mysql_rwlock_trywrlock (RW : Z) : prog Z :=
  if have_psi cfg then inline_mysql_rwlock_trywrlock RW (Some loc)
  else inline_mysql_rwlock_trywrlock RW None.

Definition mysql_rwlock_unlock (RW : Z) : prog Z := inline_mysql_rwlock_unlock RW.
Definition mysql_prlock_unlock (RW : Z) : prog Z := inline_mysql_prlock_unlock RW.

Definition mysql_cond_init (K C A : Z) : prog Z :=
  if have_psi cfg then inline_mysql_cond_init (Some K) C A else inline_mysql_cond_init None C A.

Definition mysql_cond_destroy (C : Z) : prog Z := inline_mysql_cond_destroy C.

Definition mysql_cond_wait (C M : Z) : prog Z :=
  if have_psi cfg then inline_mysql_cond_wait C M (Some loc)
  else inline_mysql_cond_wait C M None.

Definition mysql_cond_timedwait (C M W : Z) : prog Z :=
  if have_psi cfg then inline_mysql_cond_timedwait C M W (Some loc)
  else inline_mysql_cond_timedwait C M W None.

Definition mysql_cond_signal (C : Z) : prog Z := inline_mysql_cond_signal C.
Definition mysql_cond_broadcast (C : Z) : prog Z := inline_mysql_cond_broadcast C.

Definition mysql_thread_create (K P1 P2 P3 P4 : Z) : prog Z :=
  if have_psi cfg then inline_mysql_thread_create K P1 P2 P3 P4
  else sys (pthread_create P1 P2 P3 P4).

Definition mysql_thread_set_psi_id (I : Z) : prog Z :=
  if have_psi cfg then inline_mysql_thread_set_psi_id I else Ret 0.

(** ** The operations on mutexes, locks and conditions *)

Inductive thread_op :=
| MutexInit (K M A : Z) | MutexDestroy (M : Z) | MutexLock (M : Z) | MutexTrylock (M : Z)
| MutexUnlock (M : Z)
| RwlockInit (K RW : Z) | PrlockInit (K RW : Z) | RwlockDestroy (RW : Z) | PrlockDestroy (RW : Z)
| RwlockRdlock (RW : Z) | PrlockRdlock (RW : Z) | RwlockWrlock (RW : Z) | PrlockWrlock (RW : Z)
| RwlockTryrdlock (RW : Z) | RwlockTrywrlock (RW : Z) | RwlockUnlock (RW : Z) | PrlockUnlock (RW : Z)
| CondInit (K C A : Z) | CondDestroy (C : Z) | CondWait (C M : Z) | CondTimedwait (C M W : Z)
| CondSignal (C : Z) | CondBroadcast (C : Z).

Definition thread_prog (op : thread_op) : prog Z :=
  match op with
  | MutexInit K M A => mysql_mutex_init K M A
  | MutexDestroy M => mysql_mutex_destroy M
  | MutexLock M => mysql_mutex_lock M
  | MutexTrylock M => mysql_mutex_trylock M
  | MutexUnlock M => mysql_mutex_unlock M
  | RwlockInit K RW => mysql_rwlock_init K RW
  | PrlockInit K RW => mysql_prlock_init K RW
  | RwlockDestroy RW => mysql_rwlock_destroy RW
  | PrlockDestroy RW => mysql_prlock_destroy RW
  | RwlockRdlock RW => mysql_rwlock_rdlock RW
  | PrlockRdlock RW => mysql_prlock_rdlock RW
  | RwlockWrlock RW => mysql_rwlock_wrlock RW
  | PrlockWrlock RW => mysql_prlock_wrlock RW
  | RwlockTryrdlock RW => mysql_rwlock_tryrdlock RW
  | RwlockTrywrlock RW => mysql_rwlock_trywrlock RW
  | RwlockUnlock RW => mysql_rwlock_unlock RW
  | PrlockUnlock RW => mysql_prlock_unlock RW
  | CondInit K C A => mysql_cond_init K C A
  | CondDestroy C => mysql_cond_destroy C
  | CondWait C M => mysql_cond_wait C M
  | CondTimedwait C M W => mysql_cond_timedwait C M W
  | CondSignal C => mysql_cond_signal C
  | CondBroadcast C => mysql_cond_broadcast C
  end.

End Functions.

(** ** Abstract specification

    What an operation is to the server of the interface ([thread_action]) and to the
    operating system ([thread_sys]), and the run it promises ([spec_thread]). *)

Inductive action :=
| AInit (that : Z) (c : psi_object)
| ADestroy (that : Z) (c : Z -> psi_object)
| ANotify (that : Z) (c : Z -> psi_notify)
| AWait (that other : Z) (b : Z -> Z -> bracket).

Definition mutex_bracket (op : PSI_mutex_operation) (loc : srcloc) (m : Z) : bracket :=
  {| b_locker := get_thread_mutex_locker m op;
     b_start := fun _ l => Wait (start_mutex_wait l loc.1 loc.2);
     b_stop := fun _ _ l rc => Wait (end_mutex_wait l rc) |}.

Definition rwlock_bracket (op : PSI_rwlock_operation) (loc : srcloc) (m : Z) : bracket :=
  {| b_locker := get_thread_rwlock_locker m op;
     b_start := fun _ l =>
       match rwlock_class op with
       | CRdlock => Wait (start_rwlock_rdwait l loc.1 loc.2)
       | _ => Wait (start_rwlock_wrwait l loc.1 loc.2)
       end;
     b_stop := fun _ _ l rc =>
       match rwlock_class op with
       | CRdlock => Wait (end_rwlock_rdwait l rc)
       | _ => Wait (end_rwlock_wrwait l rc)
       end |}.

Definition cond_bracket (op : PSI_cond_operation) (loc : srcloc) (c m : Z) : bracket :=
  {| b_locker := get_thread_cond_locker c m op;
     b_start := fun _ l => Wait (start_cond_wait l loc.1 loc.2);
     b_stop := fun _ _ l rc => Wait (end_cond_wait l rc) |}.

Definition thread_action (loc : srcloc) (op : thread_op) : action :=
  match op with
  | MutexInit K M _ => AInit M (init_mutex K M)
  | RwlockInit K M | PrlockInit K M => AInit M (init_rwlock K M)
  | CondInit K M _ => AInit M (init_cond K M)
  | MutexDestroy M => ADestroy M destroy_mutex
  | RwlockDestroy M | PrlockDestroy M => ADestroy M destroy_rwlock
  | CondDestroy M => ADestroy M destroy_cond
  | MutexUnlock M => ANotify M unlock_mutex
  | RwlockUnlock M | PrlockUnlock M => ANotify M unlock_rwlock
  | CondSignal M => ANotify M signal_cond
  | CondBroadcast M => ANotify M broadcast_cond
  | MutexLock M => AWait M M (fun h _ => mutex_bracket PSI_MUTEX_LOCK loc h)
  | MutexTrylock M => AWait M M (fun h _ => mutex_bracket PSI_MUTEX_TRYLOCK loc h)
  | RwlockRdlock M | PrlockRdlock M => AWait M M (fun h _ => rwlock_bracket PSI_RWLOCK_READLOCK loc h)
  | RwlockTryrdlock M => AWait M M (fun h _ => rwlock_bracket PSI_RWLOCK_TRYREADLOCK loc h)
  | RwlockWrlock M | PrlockWrlock M => AWait M M (fun h _ => rwlock_bracket PSI_RWLOCK_WRITELOCK loc h)
  | RwlockTrywrlock M => AWait M M (fun h _ => rwlock_bracket PSI_RWLOCK_TRYWRITELOCK loc h)
  | CondWait C M => AWait C M (fun h hm => cond_bracket PSI_COND_WAIT loc h hm)
  | CondTimedwait C M _ => AWait C M (fun h hm => cond_bracket PSI_COND_TIMEDWAIT loc h hm)
  end.

Definition thread_sys (safe : bool) (loc : srcloc) (op : thread_op) : sys_call :=
  let (f, n) := loc in
  match op with
  | MutexInit _ M A => if safe then safe_mutex_init M A f n else pthread_mutex_init M A
  | MutexDestroy M => if safe then safe_mutex_destroy M f n else pthread_mutex_destroy M
  | MutexLock M => if safe then safe_mutex_lock M false f n else pthread_mutex_lock M
  | MutexTrylock M => if safe then safe_mutex_lock M true f n else pthread_mutex_trylock M
  | MutexUnlock M => if safe then safe_mutex_unlock M f n else pthread_mutex_unlock M
  | RwlockInit _ M => my_rwlock_init M NULL
  | PrlockInit _ M => rw_pr_init M
  | RwlockDestroy M => rwlock_destroy M
  | PrlockDestroy M => rw_pr_destroy M
  | RwlockRdlock M => rw_rdlock M
  | PrlockRdlock M => rw_pr_rdlock M
  | RwlockWrlock M => rw_wrlock M
  | PrlockWrlock M => rw_pr_wrlock M
  | RwlockTryrdlock M => rw_tryrdlock M
  | RwlockTrywrlock M => rw_trywrlock M
  | RwlockUnlock M => rw_unlock M
  | PrlockUnlock M => rw_pr_unlock M
  | CondInit _ C A => pthread_cond_init C A
  | CondDestroy C => pthread_cond_destroy C
  | CondWait C M => pthread_cond_wait C M
  | CondTimedwait C M W => pthread_cond_timedwait C M W
  | CondSignal C => pthread_cond_signal C
  | CondBroadcast C => pthread_cond_broadcast C
  end.

Section ThreadSpec.
Context `{E : Env} (cfg : config) (loc : srcloc).

(** The interface is on and the structure has a hook. *)
Definition hook_on (p : Z) (w : world) : bool := psi_on cfg && negb (hook (w_heap w) p =? NULL).

Definition spec_thread (op : thread_op) (w : world) : Z * world * list event :=
  let c := thread_sys (safe_mutex cfg) loc op in
  match thread_action loc op with
  | AInit that i =>
    if psi_on cfg then
      let (h, w1) := ask_psi (Object i) w in
      let (r, w2) := ask_sys c (set_hook that h w1) in
      (r, w2, [EPsi (Object i) h; ESys c r])
    else
      let (r, w1) := ask_sys c (set_hook that NULL w) in (r, w1, [ESys c r])
  | ADestroy that d =>
    let '(r, w', t) :=
      spec_notify (hook_on that w) (Object (d (hook (w_heap w) that))) c w in
    (r, if hook_on that w then set_hook that NULL w' else w', t)
  | ANotify that n => spec_notify (hook_on that w) (Notify (n (hook (w_heap w) that))) c w
  | AWait that other b =>
    spec_wait (hook_on that w) (b (hook (w_heap w) that) (hook (w_heap w) other)) c w
  end.

(** The structures of the operation exist, with their hook set unless the
    operation is the one that initialises it. *)
Definition thread_ready (op : thread_op) (h : heap) : Prop :=
  match thread_action loc op with
  | AInit that _ => is_Some (h !! that)
  | ADestroy that _ | ANotify that _ => is_Some (load_field that m_psi h)
  | AWait that other _ => is_Some (load_field that m_psi h) /\ is_Some (load_field other m_psi h)
  end.

End ThreadSpec.

(** ** Lemmas *)

Create HintDb thread_defs.
#[export] Hint Unfold mysql_mutex_init mysql_mutex_destroy mysql_mutex_lock mysql_mutex_trylock
  mysql_mutex_unlock mysql_rwlock_init mysql_prlock_init mysql_rwlock_destroy mysql_prlock_destroy
  mysql_rwlock_rdlock mysql_prlock_rdlock mysql_rwlock_wrlock mysql_prlock_wrlock
  mysql_rwlock_tryrdlock mysql_rwlock_trywrlock mysql_rwlock_unlock mysql_prlock_unlock
  mysql_cond_init mysql_cond_destroy mysql_cond_wait mysql_cond_timedwait mysql_cond_signal
  mysql_cond_broadcast : thread_defs.
#[export] Hint Unfold inline_mysql_mutex_init inline_mysql_mutex_destroy inline_mysql_mutex_lock
  inline_mysql_mutex_trylock inline_mysql_mutex_unlock inline_mysql_rwlock_init
  inline_mysql_prlock_init inline_mysql_rwlock_destroy inline_mysql_prlock_destroy
  inline_mysql_rwlock_rdlock inline_mysql_prlock_rdlock inline_mysql_rwlock_wrlock
  inline_mysql_prlock_wrlock inline_mysql_rwlock_tryrdlock inline_mysql_rwlock_trywrlock
  inline_mysql_rwlock_unlock inline_mysql_prlock_unlock inline_mysql_cond_init
  inline_mysql_cond_destroy inline_mysql_cond_wait inline_mysql_cond_timedwait
  inline_mysql_cond_signal inline_mysql_cond_broadcast : thread_defs.
#[export] Hint Unfold hook_on : thread_defs.

Lemma thread_prog_spec `{E : Env} (cfg : config) (loc : srcloc) (op : thread_op) (w : world) :
  thread_ready loc op (w_heap w) ->
  run (thread_prog cfg loc op) w = Some (spec_thread cfg loc op w).
Proof.
  destruct loc as [f n], cfg as [hp sm srv], w as [h s q]. unfold thread_ready. cbn [w_heap].
  destruct op; cbn [thread_action]; intros Hr; known_hooks Hr;
    cbn [thread_prog]; unfold spec_thread; cbn [thread_action thread_sys];
    autounfold with thread_defs prog_defs;
    destruct hp, sm; cbn -[load_field store_field]; exec; done.
Qed.

(** ** Scripts

    A client runs a sequence of operations, each from its own source location,
    on structures of its choice. *)

Definition script := list (srcloc * thread_op).

Section Scripts.
Context `{E : Env}.

Fixpoint run_script (cfg : config) (s : script) (w : world) : option (list Z * world * list event) :=
  match s with
  | [] => Some ([], w, [])
  | (loc, op) :: s =>
    x ← run (thread_prog cfg loc op) w;
    y ← run_script cfg s x.1.2;
    Some (x.1.1 :: y.1.1, y.1.2, x.2 ++ y.2)
  end.

(** The effect of an operation on which fields are set. *)
Definition prepare (op : thread_op) (h : heap) : heap :=
  match thread_action (0, 0) op with
  | AInit that _ => default h (store_field that m_psi NULL h)
  | _ => h
  end.

(** Every structure is initialised before it is used. *)
Fixpoint script_ready (s : script) (h : heap) : Prop :=
  match s with
  | [] => True
  | (loc, op) :: s => thread_ready loc op h /\ script_ready s (prepare op h)
  end.

End Scripts.

(** ** Heaps with the same fields set *)

Definition shape (h h' : heap) : Prop :=
  forall p, (is_Some (h !! p) <-> is_Some (h' !! p))
    /\ forall f, is_Some (load_field p f h) <-> is_Some (load_field p f h').

#[global] Instance shape_equivalence : Equivalence shape.
Proof.
  split.
  - intros h p. by split.
  - intros h h' H p. destruct (H p) as [H1 H2]. split; [by symmetry|].
    intros f. symmetry. apply H2.
  - intros h1 h2 h3 H H' p. destruct (H p) as [H1 H2], (H' p) as [H1' H2'].
    split; [by rewrite H1|]. intros f. by rewrite H2.
Qed.

Lemma load_field_store (p q v : Z) (f g : field) (h h' : heap) :
  store_field p f v h = Some h' ->
  load_field q g h' = if decide (p = q /\ f = g) then Some v else load_field q g h.
Proof.
  unfold store_field, load_field. destruct (h !! p) as [o|] eqn:Ho; [|done].
  cbn. intros [= <-]. destruct (decide (p = q)) as [<-|Hne].
  - rewrite lookup_insert_eq, Ho. cbn. destruct f, g; repeat case_decide; naive_solver.
  - rewrite lookup_insert_ne by done. case_decide; naive_solver.
Qed.

Lemma store_field_lookup (p q v : Z) (f : field) (h h' : heap) :
  store_field p f v h = Some h' -> is_Some (h' !! q) <-> is_Some (h !! q).
Proof.
  unfold store_field. destruct (h !! p) as [o|] eqn:Ho; [|done]. cbn. intros [= <-].
  destruct (decide (p = q)) as [<-|Hne].
  - rewrite lookup_insert_eq, Ho. by split; eexists.
  - by rewrite lookup_insert_ne.
Qed.

(** The value that is stored does not matter for the shape. *)
Lemma shape_store (p v v' : Z) (f : field) (h1 h2 : heap) :
  shape h1 h2 ->
  shape (default h1 (store_field p f v h1)) (default h2 (store_field p f v' h2)).
Proof.
  intros H q. destruct (H p) as [Hp _], (H q) as [H1 H2].
  destruct (store_field p f v h1) as [h1'|] eqn:E1, (store_field p f v' h2) as [h2'|] eqn:E2; cbn.
  - rewrite (store_field_lookup _ _ _ _ _ _ E1), (store_field_lookup _ _ _ _ _ _ E2).
    split; [done|]. intros g.
    rewrite (load_field_store _ _ _ _ _ _ _ E1), (load_field_store _ _ _ _ _ _ _ E2).
    case_decide; [by split; eexists|done].
  - unfold store_field in *. destruct (h1 !! p), (h2 !! p); try done. naive_solver.
  - unfold store_field in *. destruct (h1 !! p), (h2 !! p); try done. naive_solver.
  - done.
Qed.

#[global] Instance thread_ready_proper (loc : srcloc) (op : thread_op) :
  Proper (shape ==> iff) (thread_ready loc op).
Proof.
  intros h h' H. unfold thread_ready.
  destruct (thread_action loc op); [apply (H _)|apply (H _)|apply (H _)|].
  destruct (H that) as [_ H1], (H other) as [_ H2]. by rewrite H1, H2.
Qed.

#[global] Instance prepare_proper (op : thread_op) : Proper (shape ==> shape) (prepare op).
Proof.
  intros h h' H. unfold prepare. destruct (thread_action (0, 0) op); try done. by apply shape_store.
Qed.

#[global] Instance script_ready_proper (s : script) : Proper (shape ==> iff) (script_ready s).
Proof.
  induction s as [|[loc op] s IH]; intros h h' H; cbn; [done|].
  by rewrite H.
Qed.

Section ScriptLemmas.
Context `{E : Env}.
Implicit Types (cfg : config) (w : world) (s : script).

Lemma spec_thread_transparent cfg loc op w :
  transparent (thread_sys (safe_mutex cfg) loc op) w (spec_thread cfg loc op w).
Proof.
  unfold spec_thread. destruct (thread_action loc op).
  - unfold transparent. autounfold with prog_defs. destruct (have_psi cfg); cbn; exec; cbn; exec; done.
  - pose proof (spec_notify_transparent (hook_on cfg that w)
      (Object (c (hook (w_heap w) that))) (thread_sys (safe_mutex cfg) loc op) w) as H.
    destruct (spec_notify _ _ _ w) as [[r w'] t]. by destruct (hook_on cfg that w).
  - apply spec_notify_transparent.
  - apply spec_wait_transparent.
Qed.

Lemma shape_store_set (p v : Z) (h : heap) :
  is_Some (load_field p m_psi h) -> shape (default h (store_field p m_psi v h)) h.
Proof.
  intros [x Hx] q. destruct (store_field p m_psi v h) as [h'|] eqn:Hs; [|done]. cbn.
  rewrite (store_field_lookup _ _ _ _ _ _ Hs). split; [done|]. intros f.
  rewrite (load_field_store _ _ _ _ _ _ _ Hs). case_decide as Hd; [|done].
  destruct Hd as [<- <-]. rewrite Hx. by split; eexists.
Qed.

Lemma spec_thread_shape cfg loc op w :
  thread_ready loc op (w_heap w) ->
  shape (w_heap (spec_thread cfg loc op w).1.2) (prepare op (w_heap w)).
Proof.
  assert (Ha : match thread_action loc op, thread_action (0, 0) op with
               | AInit p _, AInit q _ => p = q
               | ADestroy _ _, ADestroy _ _ | ANotify _ _, ANotify _ _
               | AWait _ _ _, AWait _ _ _ => True
               | _, _ => False end) by by destruct op.
  unfold thread_ready, spec_thread, prepare. intros Hr.
  destruct (thread_action loc op), (thread_action (0, 0) op); try done.
  - subst. autounfold with prog_defs. destruct (have_psi cfg); cbn -[store_field]; exec; cbn -[store_field];
      repeat match goal with
      | |- context [sys_answer ?s ?c] => destruct (sys_answer s c)
      | |- context [psi_answer ?s ?c] => destruct (psi_answer s c)
      end; by apply shape_store.
  - pose proof (spec_notify_heap (hook_on cfg that w)
      (Object (c (hook (w_heap w) that))) (thread_sys (safe_mutex cfg) loc op) w) as H.
    destruct (spec_notify _ _ _ w) as [[r w'] t]. cbn in *.
    destruct (hook_on cfg that w); cbn; rewrite H; [by apply shape_store_set|done].
  - by rewrite spec_notify_heap.
  - by rewrite spec_wait_heap.
Qed.

(** The run of a script, one operation after the other. *)
Lemma run_script_cons cfg loc op s w :
  thread_ready loc op (w_heap w) ->
  run_script cfg ((loc, op) :: s) w
  = (y ← run_script cfg s (spec_thread cfg loc op w).1.2;
     Some ((spec_thread cfg loc op w).1.1 :: y.1.1, y.1.2, (spec_thread cfg loc op w).2 ++ y.2)).
Proof. intros Hr. cbn. by rewrite thread_prog_spec. Qed.

Lemma script_ready_step cfg loc op s w :
  script_ready ((loc, op) :: s) (w_heap w) ->
  thread_ready loc op (w_heap w) /\ script_ready s (w_heap (spec_thread cfg loc op w).1.2).
Proof. intros [H1 H2]. split; [done|]. by rewrite spec_thread_shape. Qed.

(** Every ready script runs to its end. *)
Lemma run_script_total cfg s : forall w,
  script_ready s (w_heap w) -> exists x, run_script cfg s w = Some x.
Proof.
  induction s as [|[loc op] s IH]; intros w Hr; [by eexists|].
  apply (script_ready_step cfg) in Hr as [Hr Hs]. rewrite run_script_cons by done.
  destruct (IH _ Hs) as [y ->]. by eexists.
Qed.

Lemma thread_brackets_ok loc op :
  match thread_action loc op with AWait _ _ b => forall x y, bracket_ok (b x y) | _ => True end.
Proof. by destruct op. Qed.

Lemma spec_thread_monitor cfg loc op w :
  monitor_all Idle (spec_thread cfg loc op w).2 = Some Idle.
Proof.
  unfold spec_thread. pose proof (thread_brackets_ok loc op) as Hb.
  destruct (thread_action loc op) eqn:Ha.
  - autounfold with prog_defs. assert (starts (Object c) = None) as Hs by done.
    destruct (have_psi cfg); cbn -[monitor]; exec; cbn -[monitor];
      repeat match goal with
      | |- context [sys_answer ?s ?c] => destruct (sys_answer s c)
      | |- context [psi_answer ?s ?c] => destruct (psi_answer s c)
      end; done.
  - pose proof (spec_notify_monitor (hook_on cfg that w)
      (Object (c (hook (w_heap w) that))) (thread_sys (safe_mutex cfg) loc op) w) as H.
    destruct (spec_notify _ _ _ w) as [[r w'] t]. by apply H.
  - by apply spec_notify_monitor.
  - by apply spec_wait_monitor.
Qed.

Lemma hook_on_off cfg p w : psi_on cfg = false -> hook_on cfg p w = false.
Proof. unfold hook_on. by intros ->. Qed.

Lemma spec_thread_silent cfg loc op w :
  psi_on cfg = false -> psi_events (spec_thread cfg loc op w).2 = [].
Proof.
  intros Hoff. unfold spec_thread. destruct (thread_action loc op).
  - rewrite Hoff. by destruct (ask_sys _ _).
  - rewrite hook_on_off by done. pose proof (spec_notify_silent
      (Object (c (hook (w_heap w) that))) (thread_sys (safe_mutex cfg) loc op) w) as H.
    by destruct (spec_notify _ _ _ w) as [[r w'] t].
  - rewrite hook_on_off by done. apply spec_notify_silent.
  - rewrite hook_on_off by done. apply spec_wait_silent.
Qed.

End ScriptLemmas.

(** ** Handles of the instrumentation

    [live] is the set of handles the server gave out and that were not
    destroyed.  A client error is a call on a handle that is not live; a server
    error is an answer that reuses a live handle. *)

Inductive verdict := Live (s : gset Z) | ClientError | ServerError.

(** The handles a call uses; a condition may wait with an uninstrumented mutex. *)
Definition handle_step (live : gset Z) (c : psi_call) (r : Z) : verdict :=
  let use h := if decide (h ∈ live) then Live live else ClientError in
  match c with
  | Object (init_mutex _ _) | Object (init_rwlock _ _) | Object (init_cond _ _) =>
    if r =? NULL then Live live
    else if decide (r ∈ live) then ServerError else Live ({[r]} ∪ live)
  | Object (destroy_mutex h) | Object (destroy_rwlock h) | Object (destroy_cond h) =>
    if decide (h ∈ live) then Live (live ∖ {[h]}) else ClientError
  | Locker (get_thread_mutex_locker h _) | Locker (get_thread_rwlock_locker h _) => use h
  | Locker (get_thread_cond_locker h hm _) =>
    if decide (h ∈ live /\ (hm = NULL \/ hm ∈ live)) then Live live else ClientError
  | Notify (unlock_mutex h) | Notify (unlock_rwlock h)
  | Notify (signal_cond h) | Notify (broadcast_cond h) => use h
  | _ => Live live
  end.

Fixpoint handles (live : gset Z) (t : list (psi_call * Z)) : verdict :=
  match t with
  | [] => Live live
  | (c, r) :: t =>
    match handle_step live c r with Live live' => handles live' t | v => v end
  end.

Section HandleLemmas.
Context `{E : Env}.
Implicit Types (cfg : config) (w : world) (s : script) (live : gset Z).

(** The hooks of the structures are live handles, each owned by one structure. *)
Definition hooks_live (live : gset Z) (h : heap) : Prop :=
  (forall p, hook h p <> NULL -> hook h p ∈ live)
  /\ (forall p q, hook h p = hook h q -> hook h p <> NULL -> p = q).

Lemma handles_app live (t1 t2 : list (psi_call * Z)) :
  handles live (t1 ++ t2)
  = match handles live t1 with Live live' => handles live' t2 | v => v end.
Proof.
  revert live. induction t1 as [|[c r] t1 IH]; intros live; [done|]. cbn.
  destruct (handle_step live c r); [apply IH|done|done].
Qed.

Lemma hook_set (p q v : Z) (h : heap) :
  is_Some (h !! p) ->
  hook (default h (store_field p m_psi v h)) q = if decide (p = q) then v else hook h q.
Proof.
  intros Hp. destruct (store_field_mapped p h Hp) as [o Ho].
  unfold hook. rewrite Ho. cbn [default].
  rewrite (load_field_store _ _ _ _ _ _ _ (Ho m_psi v)).
  repeat case_decide; naive_solver.
Qed.

Lemma hooks_live_clear live (p v : Z) (h : heap) :
  is_Some (h !! p) -> hooks_live live h ->
  (v = NULL \/ v ∉ live) ->
  hooks_live (if v =? NULL then live else {[v]} ∪ live) (default h (store_field p m_psi v h)).
Proof.
  intros Hp [H1 H2] Hv. split.
  - intros q. rewrite hook_set by done. case_decide; intros Hn.
    + destruct (Z.eqb_spec v 0); set_solver.
    + apply H1 in Hn. destruct (v =? 0); set_solver.
  - intros q q'. rewrite !hook_set by done. repeat case_decide; subst; try done; intros Heq Hn.
    + destruct Hv as [->|Hv]; [done|]. destruct Hv. rewrite Heq. apply H1. by rewrite <- Heq.
    + destruct Hv as [->|Hv]; [done|]. destruct Hv. rewrite <- Heq. by apply H1.
    + by apply H2.
Qed.

Lemma hooks_live_destroy live (p : Z) (h : heap) :
  is_Some (h !! p) -> hooks_live live h ->
  hooks_live (live ∖ {[hook h p]}) (default h (store_field p m_psi NULL h)).
Proof.
  intros Hp [H1 H2]. split.
  - intros q. rewrite hook_set by done. case_decide as Hd; intros Hn; [done|].
    apply elem_of_difference. split; [by apply H1|]. rewrite elem_of_singleton. intros Heq.
    by apply Hd, eq_sym, H2.
  - intros q q'. rewrite !hook_set by done. repeat case_decide; subst; try done; naive_solver.
Qed.

(** The verdict of the calls of one operation. *)
Definition keeps (live : gset Z) (x : Z * world * list event) : Prop :=
  match handles live (psi_events x.2) with
  | Live live' => hooks_live live' (w_heap x.1.2)
  | ClientError => False
  | ServerError => True
  end.

(** Waits and notifications on live handles keep the invariant. *)
Lemma spec_wait_keeps on b c w live :
  hooks_live live (w_heap w) ->
  (on = true -> forall r, handle_step live (Locker (b_locker b)) r = Live live) ->
  bracket_ok b -> keeps live (spec_wait on b c w).
Proof.
  intros Hi Hl Hb. unfold keeps. rewrite spec_wait_heap.
  autounfold with prog_defs. destruct on.
  2: { by destruct (sys_answer _ _). }
  destruct (psi_answer (w_psi w) _) as [l s1]. cbn.
  destruct (l =? 0) eqn:Hz.
  { destruct (sys_answer _ _). cbn -[handle_step]. by rewrite Hl. }
  destruct (psi_answer s1 _) as [r1 s2]. destruct (sys_answer _ _) as [r s3]. cbn.
  destruct (psi_answer s2 _) as [r2 s4]. cbn -[handle_step]. rewrite Hl by done.
  assert (Hn : forall k r, starts k <> None \/ ends k <> None -> handle_step live k r = Live live).
  { intros k r' Hk. destruct k as [[]|[]|[]|[]|[]|[]|[]]; cbn in *; naive_solver. }
  destruct (Hb (c_strlen (w_sys w)) (c_strlen s3) l r) as [H1 H2].
  rewrite !Hn; [done|right|left]; congruence.
Qed.

Lemma spec_notify_keeps on n c w live :
  hooks_live live (w_heap w) ->
  (on = true -> forall r, handle_step live n r = Live live) ->
  keeps live (spec_notify on n c w).
Proof.
  intros Hi Hl. unfold keeps. rewrite spec_notify_heap.
  autounfold with prog_defs. destruct on.
  - destruct (psi_answer _ _). destruct (sys_answer _ _). cbn -[handle_step]. by rewrite Hl.
  - by destruct (sys_answer _ _).
Qed.

Lemma hook_on_live cfg p w live :
  hooks_live live (w_heap w) -> hook_on cfg p w = true -> hook (w_heap w) p ∈ live.
Proof.
  intros [H1 _]. unfold hook_on. rewrite andb_true_iff, negb_true_iff, Z.eqb_neq.
  intros [_ Hn]. by apply H1.
Qed.

Lemma spec_thread_keeps cfg loc op w live :
  thread_ready loc op (w_heap w) -> hooks_live live (w_heap w) ->
  keeps live (spec_thread cfg loc op w).
Proof.
  intros Hr Hi. pose proof (thread_brackets_ok loc op) as Hb.
  pose proof (hook_on_live cfg) as Hlive.
  assert (Hu : forall p, hook_on cfg p w = true -> hook (w_heap w) p ∈ live) by naive_solver.
  unfold spec_thread, thread_ready in *.
  assert (Hops : match thread_action loc op with
    | AInit p i => forall r live', handle_step live' (Object i) r
        = if r =? NULL then Live live' else if decide (r ∈ live') then ServerError
          else Live ({[r]} ∪ live')
    | ADestroy _ d => forall h r live', handle_step live' (Object (d h)) r
        = if decide (h ∈ live') then Live (live' ∖ {[h]}) else ClientError
    | ANotify _ n => forall h r live', h ∈ live' -> handle_step live' (Notify (n h)) r = Live live'
    | AWait _ _ b => forall h h' r live', h ∈ live' -> h' = NULL \/ h' ∈ live' ->
        handle_step live' (Locker (b_locker (b h h'))) r = Live live'
    end).
  { destruct op; cbn; intros; repeat case_decide; naive_solver. }
  destruct (thread_action loc op).
  - unfold keeps. autounfold with prog_defs. destruct (have_psi cfg && _).
    + destruct (psi_answer _ _) as [h s]. destruct (sys_answer _ _). cbn -[handle_step].
      rewrite Hops. pose proof (hooks_live_clear live that h (w_heap w) Hr Hi).
      destruct (h =? 0) eqn:Hz; [apply H; left; lia|]. case_decide; [done|]. apply H. by right.
    + destruct (sys_answer _ _). cbn.
      apply (hooks_live_clear live that 0 (w_heap w)); auto.
  - pose proof (spec_notify_heap (hook_on cfg that w)
      (Object (c (hook (w_heap w) that))) (thread_sys (safe_mutex cfg) loc op) w) as Hh.
    unfold keeps. destruct (hook_on cfg that w) eqn:Ho.
    + autounfold with prog_defs. destruct (psi_answer _ _). destruct (sys_answer _ _).
      cbn -[handle_step]. rewrite Hops, decide_True by (by apply Hu).
      apply hooks_live_destroy; [|done]. destruct Hr as [v Hv]. by eapply load_field_mapped.
    + autounfold with prog_defs. by destruct (sys_answer _ _).
  - apply spec_notify_keeps; auto.
  - apply spec_wait_keeps; [done| |apply Hb]. intros Ho r. apply Hops; [auto|].
    destruct (decide (hook (w_heap w) other = NULL)); [by left|right]. by apply Hi.
Qed.

Lemma run_script_handles cfg s : forall w live x,
  script_ready s (w_heap w) -> hooks_live live (w_heap w) ->
  run_script cfg s w = Some x -> handles live (psi_events x.2) <> ClientError.
Proof.
  induction s as [|[loc op] s IH]; intros w live x Hr Hi Hx.
  { by injection Hx as <-. }
  apply (script_ready_step cfg) in Hr as [Hr Hs].
  rewrite run_script_cons in Hx by done.
  pose proof (spec_thread_keeps cfg loc op w live Hr Hi) as Hk. unfold keeps in Hk.
  destruct (run_script cfg s _) as [y|] eqn:Hy; [|done]. cbn in Hx. injection Hx as <-.
  cbn. rewrite psi_events_app, handles_app.
  destruct (handles live (psi_events (spec_thread cfg loc op w).2)) as [live'| |] eqn:Hh; [|done..].
  by eapply IH.
Qed.

End HandleLemmas.

(** ** A concrete environment

    Handles and lockers are numbered from 1; a system call returns 0. *)

#[local] Instance counting_env : Env := {|
  sys_state := list sys_call;
  psi_state := Z;
  sys_answer := fun s c => (0, c :: s);
  psi_answer := fun n c => (n, n + 1);
  c_strlen := fun _ _ => 0;
|}.

(** Two structures at addresses 100 and 200, not initialised. *)
Definition two_structs : heap := {[100 := fresh_obj; 200 := fresh_obj]}.

Definition demo_world : world :=
  {| w_heap := two_structs; w_sys := ([] : list sys_call); w_psi := 1 |}.

Definition demo_script : script :=
  [((7, 10), MutexInit 3 100 NULL); ((7, 11), CondInit 4 200 NULL); ((7, 12), MutexLock 100);
   ((7, 13), CondTimedwait 200 100 500); ((7, 14), MutexUnlock 100); ((7, 15), CondDestroy 200);
   ((7, 16), MutexDestroy 100); ((7, 17), MutexDestroy 100)].

Lemma demo_script_ready : script_ready demo_script two_structs.
Proof. cbn. unfold thread_ready. cbn. repeat split; eexists; reflexivity. Qed.

Lemma demo_hooks_live : hooks_live ∅ two_structs.
Proof.
  assert (Hn : forall p, hook two_structs p = NULL).
  { intros p. unfold hook, load_field, two_structs.
    destruct (decide (p = 100)) as [->|]; [done|]. rewrite lookup_insert_ne by done.
    destruct (decide (p = 200)) as [->|]; [done|]. by rewrite lookup_singleton_ne. }
  split; intros p; [by rewrite Hn|]. intros q _. by rewrite Hn.
Qed.

(** ** Properties *)

(** C2.  Every macro of mysql_thread.h for mutexes, rwlocks, prlocks and
    conditions implements its specification in every configuration (with or
    without the interface, with or without [SAFE_MUTEX], with or without a
    server): it compiles and runs, makes exactly the promised calls in the
    promised order with the promised arguments, changes exactly the promised
    hook, and returns the result of the system call. *)
Theorem thread_refines_spec `{E : Env} (cfg : config) (loc : srcloc) (op : thread_op) (w : world) :
  thread_ready loc op (w_heap w) ->
  run (thread_prog cfg loc op) w = Some (spec_thread cfg loc op w)
  /\ (spec_thread cfg loc op w).1.1 = (sys_answer (w_sys w) (thread_sys (safe_mutex cfg) loc op)).1.
Proof. intros Hr. split; [by apply thread_prog_spec|]. apply spec_thread_transparent. Qed.

Lemma thread_refines_spec_witness :
  let cfg := {| have_psi := true; safe_mutex := false; PSI_server := 1 |} in
  run (thread_prog cfg (7, 10) (MutexInit 3 100 NULL)) demo_world
  = Some (spec_thread cfg (7, 10) (MutexInit 3 100 NULL) demo_world)
  /\ (spec_thread cfg (7, 10) (MutexInit 3 100 NULL) demo_world).1.1 = 0.
Proof.
  apply (thread_refines_spec {| have_psi := true; safe_mutex := false; PSI_server := 1 |}
    (7, 10) (MutexInit 3 100 NULL) demo_world).
  eexists. reflexivity.
Defined.

(** Instrumentation is invisible: a script of operations that
    initialises its structures before it uses them runs to its end in any two
    configurations that agree on [SAFE_MUTEX], whatever the server of the
    interface answers, with the same results, the same system calls in the same
    order and the same state of the system. *)
Theorem thread_script_transparent `{E : Env} (cfg cfg' : config) (s : script) (w w' : world) :
  safe_mutex cfg = safe_mutex cfg' -> w_sys w = w_sys w' ->
  script_ready s (w_heap w) -> script_ready s (w_heap w') ->
  exists rs v v' t t',
    run_script cfg s w = Some (rs, v, t) /\ run_script cfg' s w' = Some (rs, v', t')
    /\ w_sys v = w_sys v' /\ sys_events t = sys_events t'.
Proof.
  intros Hs. revert w w'. induction s as [|[loc op] s IH]; intros w w' Hw Hr Hr'.
  { by exists [], w, w', [], []. }
  apply (script_ready_step cfg) in Hr as [Hr Hn].
  apply (script_ready_step cfg') in Hr' as [Hr' Hn'].
  rewrite !run_script_cons by done.
  destruct (spec_thread_transparent cfg loc op w) as (H1 & H2 & H3).
  destruct (spec_thread_transparent cfg' loc op w') as (H1' & H2' & H3').
  destruct (IH (spec_thread cfg loc op w).1.2 (spec_thread cfg' loc op w').1.2)
    as (rs & v & v' & t & t' & -> & -> & Hv & Ht); try done.
  { by rewrite H2, H2', Hs, Hw. }
  assert (Hres : (spec_thread cfg loc op w).1.1 = (spec_thread cfg' loc op w').1.1).
  { by rewrite H1, H1', Hs, Hw. }
  cbn. do 5 eexists. split_and!; [reflexivity|by rewrite Hres|done|].
  by rewrite !sys_events_app, H3, H3', Ht, Hs, Hres.
Qed.

Lemma thread_script_transparent_witness :
  let on := {| have_psi := true; safe_mutex := true; PSI_server := 1 |} in
  let off := {| have_psi := false; safe_mutex := true; PSI_server := 0 |} in
  exists rs v v' t t',
    run_script on demo_script demo_world = Some (rs, v, t)
    /\ run_script off demo_script demo_world = Some (rs, v', t')
    /\ w_sys v = w_sys v' /\ sys_events t = sys_events t'.
Proof.
  apply (thread_script_transparent {| have_psi := true; safe_mutex := true; PSI_server := 1 |}
    {| have_psi := false; safe_mutex := true; PSI_server := 0 |} demo_script demo_world demo_world).
  - reflexivity.
  - reflexivity.
  - apply demo_script_ready.
  - apply demo_script_ready.
Defined.

(** C11.  The calls that a script makes to the server obey the waiting
    protocol of the interface: each locker that is obtained gets exactly one
    start of the class its operation asks for and, after the system call,
    exactly one end on the same locker; no wait is left open.  Without the
    interface or without a server no call is made at all. *)
Theorem thread_script_protocol `{E : Env} (cfg : config) (s : script) (w : world) :
  script_ready s (w_heap w) ->
  exists rs v t, run_script cfg s w = Some (rs, v, t)
    /\ monitor_all Idle t = Some Idle
    /\ (psi_on cfg = false -> psi_events t = []).
Proof.
  revert w. induction s as [|[loc op] s IH]; intros w Hr; [by exists [], w, []|].
  apply (script_ready_step cfg) in Hr as [Hr Hn]. rewrite run_script_cons by done.
  destruct (IH _ Hn) as (rs & v & t & -> & Hm & Hs). cbn.
  do 3 eexists. split_and!; [done| |].
  - by rewrite monitor_all_app, spec_thread_monitor.
  - intros Hoff. by rewrite psi_events_app, spec_thread_silent, Hs.
Qed.

Lemma thread_script_protocol_witness :
  let cfg := {| have_psi := true; safe_mutex := false; PSI_server := 1 |} in
  exists rs v t, run_script cfg demo_script demo_world = Some (rs, v, t)
    /\ monitor_all Idle t = Some Idle
    /\ (psi_on cfg = false -> psi_events t = []).
Proof.
  apply (thread_script_protocol {| have_psi := true; safe_mutex := false; PSI_server := 1 |}
    demo_script demo_world).
  apply demo_script_ready.
Defined.

(** C9.  No use of a dead handle: if the hooks of the structures are live
    handles, each owned by one structure, then a script never passes the
    server a handle that the server did not give out or that was already
    destroyed (in particular a hook is destroyed at most once), unless the
    server itself hands out a handle that is in use. *)
Theorem thread_script_handles `{E : Env} (cfg : config) (s : script) (w : world) (live : gset Z) :
  script_ready s (w_heap w) -> hooks_live live (w_heap w) ->
  exists rs v t, run_script cfg s w = Some (rs, v, t)
    /\ handles live (psi_events t) <> ClientError.
Proof.
  intros Hr Hi. destruct (run_script_total cfg s w Hr) as [[[rs v] t] Hx].
  exists rs, v, t. split; [done|]. exact (run_script_handles cfg s w live _ Hr Hi Hx).
Qed.

Lemma thread_script_handles_witness :
  let cfg := {| have_psi := true; safe_mutex := false; PSI_server := 1 |} in
  exists rs v t, run_script cfg demo_script demo_world = Some (rs, v, t)
    /\ handles ∅ (psi_events t) <> ClientError.
Proof.
  apply (thread_script_handles {| have_psi := true; safe_mutex := false; PSI_server := 1 |}
    demo_script demo_world ∅).
  - apply demo_script_ready.
  - apply demo_hooks_live.
Defined.

(** [mysql_thread_create] creates one thread: through the server when the
    interface has one, with [pthread_create] otherwise, with the same
    arguments, and returns the result of that call.  [mysql_thread_set_psi_id]
    sets the identifier only of an instrumented thread. *)
Theorem thread_create_once `{E : Env} (cfg : config) (K P1 P2 P3 P4 I : Z) (w : world) :
  (exists w', run (mysql_thread_create cfg K P1 P2 P3 P4) w
    = Some (if psi_on cfg
            then ((ask_psi (Thread (spawn_thread K P1 P2 P3 P4)) w).1, w',
                  [EPsi (Thread (spawn_thread K P1 P2 P3 P4))
                     (ask_psi (Thread (spawn_thread K P1 P2 P3 P4)) w).1])
            else ((ask_sys (pthread_create P1 P2 P3 P4) w).1, w',
                  [ESys (pthread_create P1 P2 P3 P4) (ask_sys (pthread_create P1 P2 P3 P4) w).1])))
  /\ (exists r w', run (mysql_thread_set_psi_id cfg I) w
      = Some (r, w',
          if psi_on cfg then
            let (p, w1) := ask_psi (Thread get_thread) w in
            if p =? NULL then [EPsi (Thread get_thread) p]
            else [EPsi (Thread get_thread) p;
                  EPsi (Thread (set_thread_id p I)) (ask_psi (Thread (set_thread_id p I)) w1).1]
          else [])).
Proof.
  destruct cfg as [hp sm srv].
  unfold mysql_thread_create, mysql_thread_set_psi_id, inline_mysql_thread_create,
    inline_mysql_thread_set_psi_id; autounfold with prog_defs. split.
  - destruct hp; cbn; exec; by eexists.
  - destruct hp; cbn; exec; by do 2 eexists.
Qed.
