(* ===== verification/FileIO.v ===== *)
(** * Instrumented file operations (mysql/psi/mysql_file.h)

    The inline functions of the header and the macros that call them, under
    the conditionals and the server pointer of a configuration.  A
    [MYSQL_FILE] is a structure of the heap with the fields [m_file] and
    [m_psi]. *)
From S2P Require Import Prelude Psi Effects.

(** Flags of my_sys.h, and the conversions to [size_t] and to [char], which are of 32 bits and signed as in the distributed
    my_config.h (SIZEOF_SIZE_T is 4) and its compiler. *)
Definition MY_FNABP : Z := 2.
Definition MY_NABP : Z := 4.
Definition MY_WME : Z := 16.
Definition size_t (z : Z) : Z := u32 z.
Definition char (z : Z) : Z := s8 z.
Definition MY_FILE_ERROR : Z := size_t (-1).
Definition SIZEOF_MYSQL_FILE : Z := 8.

(** The number of bytes that a read or a write of [count] bytes moved: with
    [MY_NABP] or [MY_FNABP] the result is 0 for success, otherwise it is the
    number itself or [MY_FILE_ERROR]. *)
Definition bytes_done (flags count result : Z) : Z :=
  if negb (Z.land flags (Z.lor MY_NABP MY_FNABP) =? 0)
  then if result =? 0 then count else 0
  else if negb (result =? MY_FILE_ERROR) then result else 0.

Section Functions.
Context (cfg : config).
#[local] Abbreviation server := (server cfg).
#[local] Abbreviation hooked := (hooked cfg).

(** *** Streams *)

Definition inline_mysql_file_fgets (src : option srcloc) (str size file : Z) : prog Z :=
  params (have_psi cfg) src (
  locker ← ifdef (have_psi cfg) (
    b ← hooked file;
    if (b : bool) then
      p ← load file m_psi;
      locker ← server (Locker (get_thread_file_stream_locker p PSI_FILE_READ));
      _ ← when (negb (locker =? NULL))
        (the src (fun '(src_file, src_line) => server (FileWait (start_file_wait locker (size_t size) src_file src_line))));
      Ret locker
    else Ret NULL) NULL;
  fp ← load file m_file;
  result ← sys (fgets str size fp);
  _ ← ifdef (have_psi cfg) (when (negb (locker =? NULL))
    (n ← (if negb (result =? NULL) then strlen result else Ret 0);
     server (FileWait (end_file_wait locker n)))) 0;
  Ret result).

Definition inline_mysql_file_fgetc (src : option srcloc) (file : Z) : prog Z :=
  params (have_psi cfg) src (
  locker ← ifdef (have_psi cfg) (
    b ← hooked file;
    if (b : bool) then
      p ← load file m_psi;
      locker ← server (Locker (get_thread_file_stream_locker p PSI_FILE_READ));
      _ ← when (negb (locker =? NULL))
        (the src (fun '(src_file, src_line) => server (FileWait (start_file_wait locker (size_t 1) src_file src_line))));
      Ret locker
    else Ret NULL) NULL;
  fp ← load file m_file;
  result ← sys (fgetc fp);
  _ ← ifdef (have_psi cfg) (when (negb (locker =? NULL))
    (server (FileWait (end_file_wait locker (size_t 1))))) 0;
  Ret result).

Definition inline_mysql_file_fputs (src : option srcloc) (str file : Z) : prog Z :=
  params (have_psi cfg) src (
  '(locker, bytes) ← ifdef (have_psi cfg) (
    b ← hooked file;
    if (b : bool) then
      p ← load file m_psi;
      locker ← server (Locker (get_thread_file_stream_locker p PSI_FILE_WRITE));
      bytes ← if negb (locker =? NULL)
        then
          bytes ← (if negb (str =? NULL) then strlen str else Ret 0);
          _ ← the src (fun '(src_file, src_line) =>
            server (FileWait (start_file_wait locker bytes src_file src_line)));
          Ret bytes
        else Ret 0;
      Ret (locker, bytes)
    else Ret (NULL, 0)) (NULL, 0);
  fp ← load file m_file;
  result ← sys (fputs str fp);
  _ ← ifdef (have_psi cfg) (when (negb (locker =? NULL))
    (server (FileWait (end_file_wait locker bytes)))) 0;
  Ret result).

Definition inline_mysql_file_fputc (src : option srcloc) (c file : Z) : prog Z :=
  params (have_psi cfg) src (
  locker ← ifdef (have_psi cfg) (
    b ← hooked file;
    if (b : bool) then
      p ← load file m_psi;
      locker ← server (Locker (get_thread_file_stream_locker p PSI_FILE_WRITE));
      _ ← when (negb (locker =? NULL))
        (the src (fun '(src_file, src_line) => server (FileWait (start_file_wait locker (size_t 1) src_file src_line))));
      Ret locker
    else Ret NULL) NULL;
  fp ← load file m_file;
  result ← sys (fputc (char c) fp);
  _ ← ifdef (have_psi cfg) (when (negb (locker =? NULL))
    (server (FileWait (end_file_wait locker (size_t 1))))) 0;
  Ret result).

Definition inline_mysql_file_vfprintf (src : option srcloc) (file format args : Z) : prog Z :=
  params (have_psi cfg) src (
  locker ← ifdef (have_psi cfg) (
    b ← hooked file;
    if (b : bool) then
      p ← load file m_psi;
      locker ← server (Locker (get_thread_file_stream_locker p PSI_FILE_WRITE));
      _ ← when (negb (locker =? NULL))
        (the src (fun '(src_file, src_line) => server (FileWait (start_file_wait locker (size_t 0) src_file src_line))));
      Ret locker
    else Ret NULL) NULL;
  fp ← load file m_file;
  result ← sys (vfprintf fp format args);
  _ ← ifdef (have_psi cfg) (when (negb (locker =? NULL))
    (server (FileWait (end_file_wait locker (size_t result))))) 0;
  Ret result).

Definition inline_mysql_file_fflush (src : option srcloc) (file : Z) : prog Z :=
  params (have_psi cfg) src (
  locker ← ifdef (have_psi cfg) (
    b ← hooked file;
    if (b : bool) then
      p ← load file m_psi;
      locker ← server (Locker (get_thread_file_stream_locker p PSI_FILE_FLUSH));
      _ ← when (negb (locker =? NULL))
        (the src (fun '(src_file, src_line) => server (FileWait (start_file_wait locker (size_t 0) src_file src_line))));
      Ret locker
    else Ret NULL) NULL;
  fp ← load file m_file;
  result ← sys (fflush fp);
  _ ← ifdef (have_psi cfg) (when (negb (locker =? NULL))
    (server (FileWait (end_file_wait locker (size_t 0))))) 0;
  Ret result).

Definition inline_mysql_file_fread (src : option srcloc) (file buffer count flags : Z) : prog Z :=
  params (have_psi cfg) src (
  locker ← ifdef (have_psi cfg) (
    b ← hooked file;
    if (b : bool) then
      p ← load file m_psi;
      locker ← server (Locker (get_thread_file_stream_locker p PSI_FILE_READ));
      _ ← when (negb (locker =? NULL))
        (the src (fun '(src_file, src_line) => server (FileWait (start_file_wait locker count src_file src_line))));
      Ret locker
    else Ret NULL) NULL;
  fp ← load file m_file;
  result ← sys (my_fread fp buffer count flags);
  _ ← ifdef (have_psi cfg) (when (negb (locker =? NULL))
    (server (FileWait (end_file_wait locker (bytes_done flags count result))))) 0;
  Ret result).

Definition inline_mysql_file_fwrite (src : option srcloc) (file buffer count flags : Z) : prog Z :=
  params (have_psi cfg) src (
  locker ← ifdef (have_psi cfg) (
    b ← hooked file;
    if (b : bool) then
      p ← load file m_psi;
      locker ← server (Locker (get_thread_file_stream_locker p PSI_FILE_WRITE));
      _ ← when (negb (locker =? NULL))
        (the src (fun '(src_file, src_line) => server (FileWait (start_file_wait locker count src_file src_line))));
      Ret locker
    else Ret NULL) NULL;
  fp ← load file m_file;
  result ← sys (my_fwrite fp buffer count flags);
  _ ← ifdef (have_psi cfg) (when (negb (locker =? NULL))
    (server (FileWait (end_file_wait locker (bytes_done flags count result))))) 0;
  Ret result).

Definition inline_mysql_file_fseek (src : option srcloc) (file pos whence flags : Z) : prog Z :=
  params (have_psi cfg) src (
  locker ← ifdef (have_psi cfg) (
    b ← hooked file;
    if (b : bool) then
      p ← load file m_psi;
      locker ← server (Locker (get_thread_file_stream_locker p PSI_FILE_SEEK));
      _ ← when (negb (locker =? NULL))
        (the src (fun '(src_file, src_line) => server (FileWait (start_file_wait locker (size_t 0) src_file src_line))));
      Ret locker
    else Ret NULL) NULL;
  fp ← load file m_file;
  result ← sys (my_fseek fp pos whence flags);
  _ ← ifdef (have_psi cfg) (when (negb (locker =? NULL))
    (server (FileWait (end_file_wait locker (size_t 0))))) 0;
  Ret result).

Definition inline_mysql_file_ftell (src : option srcloc) (file flags : Z) : prog Z :=
  params (have_psi cfg) src (
  locker ← ifdef (have_psi cfg) (
    b ← hooked file;
    if (b : bool) then
      p ← load file m_psi;
      locker ← server (Locker (get_thread_file_stream_locker p PSI_FILE_TELL));
      _ ← when (negb (locker =? NULL))
        (the src (fun '(src_file, src_line) => server (FileWait (start_file_wait locker (size_t 0) src_file src_line))));
      Ret locker
    else Ret NULL) NULL;
  fp ← load file m_file;
  result ← sys (my_ftell fp flags);
  _ ← ifdef (have_psi cfg) (when (negb (locker =? NULL))
    (server (FileWait (end_file_wait locker (size_t 0))))) 0;
  Ret result).

(** *** Descriptors *)

Definition inline_mysql_file_fstat (src : option srcloc) (filenr stat_area flags : Z) : prog Z :=
  params (have_psi cfg) src (
  locker ← ifdef (have_psi cfg) (
    if negb (PSI_server cfg =? NULL) then
      locker ← server (Locker (get_thread_file_descriptor_locker filenr PSI_FILE_FSTAT));
      _ ← when (negb (locker =? NULL))
        (the src (fun '(src_file, src_line) => server (FileWait (start_file_wait locker (size_t 0) src_file src_line))));
      Ret locker
    else Ret NULL) NULL;
  result ← sys (my_fstat filenr stat_area flags);
  _ ← ifdef (have_psi cfg) (when (negb (locker =? NULL))
    (server (FileWait (end_file_wait locker (size_t 0))))) 0;
  Ret result).

Definition inline_mysql_file_chsize (src : option srcloc) (file newlength filler flags : Z) : prog Z :=
  params (have_psi cfg) src (
  locker ← ifdef (have_psi cfg) (
    if negb (PSI_server cfg =? NULL) then
      locker ← server (Locker (get_thread_file_descriptor_locker file PSI_FILE_CHSIZE));
      _ ← when (negb (locker =? NULL))
        (the src (fun '(src_file, src_line) => server (FileWait (start_file_wait locker (size_t newlength) src_file src_line))));
      Ret locker
    else Ret NULL) NULL;
  result ← sys (my_chsize file newlength filler flags);
  _ ← ifdef (have_psi cfg) (when (negb (locker =? NULL))
    (server (FileWait (end_file_wait locker (size_t newlength))))) 0;
  Ret result).

Definition inline_mysql_file_close (src : option srcloc) (file flags : Z) : prog Z :=
  params (have_psi cfg) src (
  locker ← ifdef (have_psi cfg) (
    if negb (PSI_server cfg =? NULL) then
      locker ← server (Locker (get_thread_file_descriptor_locker file PSI_FILE_CLOSE));
      _ ← when (negb (locker =? NULL))
        (the src (fun '(src_file, src_line) => server (FileWait (start_file_wait locker (size_t 0) src_file src_line))));
      Ret locker
    else Ret NULL) NULL;
  result ← sys (my_close file flags);
  _ ← ifdef (have_psi cfg) (when (negb (locker =? NULL))
    (server (FileWait (end_file_wait locker (size_t 0))))) 0;
  Ret result).

Definition inline_mysql_file_read (src : option srcloc) (file buffer count flags : Z) : prog Z :=
  params (have_psi cfg) src (
  locker ← ifdef (have_psi cfg) (
    if negb (PSI_server cfg =? NULL) then
      locker ← server (Locker (get_thread_file_descriptor_locker file PSI_FILE_READ));
      _ ← when (negb (locker =? NULL))
        (the src (fun '(src_file, src_line) => server (FileWait (start_file_wait locker count src_file src_line))));
      Ret locker
    else Ret NULL) NULL;
  result ← sys (my_read file buffer count flags);
  _ ← ifdef (have_psi cfg) (when (negb (locker =? NULL))
    (server (FileWait (end_file_wait locker (bytes_done flags count result))))) 0;
  Ret result).

Definition inline_mysql_file_write (src : option srcloc) (file buffer count flags : Z) : prog Z :=
  params (have_psi cfg) src (
  locker ← ifdef (have_psi cfg) (
    if negb (PSI_server cfg =? NULL) then
      locker ← server (Locker (get_thread_file_descriptor_locker file PSI_FILE_WRITE));
      _ ← when (negb (locker =? NULL))
        (the src (fun '(src_file, src_line) => server (FileWait (start_file_wait locker count src_file src_line))));
      Ret locker
    else Ret NULL) NULL;
  result ← sys (my_write file buffer count flags);
  _ ← ifdef (have_psi cfg) (when (negb (locker =? NULL))
    (server (FileWait (end_file_wait locker (bytes_done flags count result))))) 0;
  Ret result).

Definition inline_mysql_file_pread (src : option srcloc) (file buffer count offset flags : Z) : prog Z :=
  params (have_psi cfg) src (
  locker ← ifdef (have_psi cfg) (
    if negb (PSI_server cfg =? NULL) then
      locker ← server (Locker (get_thread_file_descriptor_locker file PSI_FILE_READ));
      _ ← when (negb (locker =? NULL))
        (the src (fun '(src_file, src_line) => server (FileWait (start_file_wait locker count src_file src_line))));
      Ret locker
    else Ret NULL) NULL;
  result ← sys (my_pread file buffer count offset flags);
  _ ← ifdef (have_psi cfg) (when (negb (locker =? NULL))
    (server (FileWait (end_file_wait locker (bytes_done flags count result))))) 0;
  Ret result).

Definition inline_mysql_file_pwrite (src : option srcloc) (file buffer count offset flags : Z) : prog Z :=
  params (have_psi cfg) src (
  locker ← ifdef (have_psi cfg) (
    if negb (PSI_server cfg =? NULL) then
      locker ← server (Locker (get_thread_file_descriptor_locker file PSI_FILE_WRITE));
      _ ← when (negb (locker =? NULL))
        (the src (fun '(src_file, src_line) => server (FileWait (start_file_wait locker count src_file src_line))));
      Ret locker
    else Ret NULL) NULL;
  result ← sys (my_pwrite file buffer count offset flags);
  _ ← ifdef (have_psi cfg) (when (negb (locker =? NULL))
    (server (FileWait (end_file_wait locker (bytes_done flags count result))))) 0;
  Ret result).

Definition inline_mysql_file_seek (src : option srcloc) (file pos whence flags : Z) : prog Z :=
  params (have_psi cfg) src (
  locker ← ifdef (have_psi cfg) (
    if negb (PSI_server cfg =? NULL) then
      locker ← server (Locker (get_thread_file_descriptor_locker file PSI_FILE_SEEK));
      _ ← when (negb (locker =? NULL))
        (the src (fun '(src_file, src_line) => server (FileWait (start_file_wait locker (size_t 0) src_file src_line))));
      Ret locker
    else Ret NULL) NULL;
  result ← sys (my_seek file pos whence flags);
  _ ← ifdef (have_psi cfg) (when (negb (locker =? NULL))
    (server (FileWait (end_file_wait locker (size_t 0))))) 0;
  Ret result).

Definition inline_mysql_file_tell (src : option srcloc) (file flags : Z) : prog Z :=
  params (have_psi cfg) src (
  locker ← ifdef (have_psi cfg) (
    if negb (PSI_server cfg =? NULL) then
      locker ← server (Locker (get_thread_file_descriptor_locker file PSI_FILE_TELL));
      _ ← when (negb (locker =? NULL))
        (the src (fun '(src_file, src_line) => server (FileWait (start_file_wait locker (size_t 0) src_file src_line))));
      Ret locker
    else Ret NULL) NULL;
  result ← sys (my_tell file flags);
  _ ← ifdef (have_psi cfg) (when (negb (locker =? NULL))
    (server (FileWait (end_file_wait locker (size_t 0))))) 0;
  Ret result).

Definition inline_mysql_file_sync (src : option srcloc) (fd flags : Z) : prog Z :=
  params (have_psi cfg) src (
  locker ← ifdef (have_psi cfg) (
    if negb (PSI_server cfg =? NULL) then
      locker ← server (Locker (get_thread_file_descriptor_locker fd PSI_FILE_SYNC));
      _ ← when (negb (locker =? NULL))
        (the src (fun '(src_file, src_line) => server (FileWait (start_file_wait locker (size_t 0) src_file src_line))));
      Ret locker
    else Ret NULL) NULL;
  result ← sys (my_sync fd flags);
  _ ← ifdef (have_psi cfg) (when (negb (locker =? NULL))
    (server (FileWait (end_file_wait locker (size_t 0))))) 0;
  Ret result).

(** *** Names *)

Definition inline_mysql_file_stat (key : option Z) (src : option srcloc) (path stat_area flags : Z) : prog Z :=
  params (have_psi cfg) key (params (have_psi cfg) src (
  locker ← ifdef (have_psi cfg) (
    if negb (PSI_server cfg =? NULL) then
      locker ← the key (fun key => server
        (Locker (get_thread_file_name_locker key PSI_FILE_STAT path IdLocker)));
      _ ← when (negb (locker =? NULL))
        (the src (fun '(src_file, src_line) => server (FileWait (start_file_open_wait locker src_file src_line))));
      Ret locker
    else Ret NULL) NULL;
  result ← sys (my_stat path stat_area flags);
  _ ← ifdef (have_psi cfg) (when (negb (locker =? NULL))
    (server (FileWait (end_file_wait locker (size_t 0))))) 0;
  Ret result)).

Definition inline_mysql_file_create (key : option Z) (src : option srcloc) (filename create_flags access_flags myFlags : Z) : prog Z :=
  params (have_psi cfg) key (params (have_psi cfg) src (
  locker ← ifdef (have_psi cfg) (
    if negb (PSI_server cfg =? NULL) then
      locker ← the key (fun key => server
        (Locker (get_thread_file_name_locker key PSI_FILE_CREATE filename IdLocker)));
      _ ← when (negb (locker =? NULL))
        (the src (fun '(src_file, src_line) => server (FileWait (start_file_open_wait locker src_file src_line))));
      Ret locker
    else Ret NULL) NULL;
  result ← sys (my_create filename create_flags access_flags myFlags);
  _ ← ifdef (have_psi cfg) (when (negb (locker =? NULL))
    (server (FileWait (end_file_open_wait_and_bind_to_descriptor locker result)))) 0;
  Ret result)).

Definition inline_mysql_file_open (key : option Z) (src : option srcloc) (filename flags myFlags : Z) : prog Z :=
  params (have_psi cfg) key (params (have_psi cfg) src (
  locker ← ifdef (have_psi cfg) (
    if negb (PSI_server cfg =? NULL) then
      locker ← the key (fun key => server
        (Locker (get_thread_file_name_locker key PSI_FILE_OPEN filename IdLocker)));
      _ ← when (negb (locker =? NULL))
        (the src (fun '(src_file, src_line) => server (FileWait (start_file_open_wait locker src_file src_line))));
      Ret locker
    else Ret NULL) NULL;
  result ← sys (my_open filename flags myFlags);
  _ ← ifdef (have_psi cfg) (when (negb (locker =? NULL))
    (server (FileWait (end_file_open_wait_and_bind_to_descriptor locker result)))) 0;
  Ret result)).

Definition inline_mysql_file_delete (key : option Z) (src : option srcloc) (name flags : Z) : prog Z :=
  params (have_psi cfg) key (params (have_psi cfg) src (
  locker ← ifdef (have_psi cfg) (
    if negb (PSI_server cfg =? NULL) then
      locker ← the key (fun key => server
        (Locker (get_thread_file_name_locker key PSI_FILE_DELETE name IdLocker)));
      _ ← when (negb (locker =? NULL))
        (the src (fun '(src_file, src_line) => server (FileWait (start_file_wait locker (size_t 0) src_file src_line))));
      Ret locker
    else Ret NULL) NULL;
  result ← sys (my_delete name flags);
  _ ← ifdef (have_psi cfg) (when (negb (locker =? NULL))
    (server (FileWait (end_file_wait locker (size_t 0))))) 0;
  Ret result)).

Definition inline_mysql_file_rename (key : option Z) (src : option srcloc) (from to flags : Z) : prog Z :=
  params (have_psi cfg) key (params (have_psi cfg) src (
  locker ← ifdef (have_psi cfg) (
    if negb (PSI_server cfg =? NULL) then
      locker ← the key (fun key => server
        (Locker (get_thread_file_name_locker key PSI_FILE_RENAME to IdLocker)));
      _ ← when (negb (locker =? NULL))
        (the src (fun '(src_file, src_line) => server (FileWait (start_file_wait locker (size_t 0) src_file src_line))));
      Ret locker
    else Ret NULL) NULL;
  result ← sys (my_rename from to flags);
  _ ← ifdef (have_psi cfg) (when (negb (locker =? NULL))
    (server (FileWait (end_file_wait locker (size_t 0))))) 0;
  Ret result)).

Definition inline_mysql_file_create_with_symlink (key : option Z) (src : option srcloc) (linkname filename create_flags access_flags flags : Z) : prog Z :=
  params (have_psi cfg) key (params (have_psi cfg) src (
  locker ← ifdef (have_psi cfg) (
    if negb (PSI_server cfg =? NULL) then
      locker ← the key (fun key => server
        (Locker (get_thread_file_name_locker key PSI_FILE_CREATE filename IdLocker)));
      _ ← when (negb (locker =? NULL))
        (the src (fun '(src_file, src_line) => server (FileWait (start_file_open_wait locker src_file src_line))));
      Ret locker
    else Ret NULL) NULL;
  result ← sys (my_create_with_symlink linkname filename create_flags access_flags flags);
  _ ← ifdef (have_psi cfg) (when (negb (locker =? NULL))
    (server (FileWait (end_file_open_wait_and_bind_to_descriptor locker result)))) 0;
  Ret result)).

Definition inline_mysql_file_delete_with_symlink (key : option Z) (src : option srcloc) (name flags : Z) : prog Z :=
  params (have_psi cfg) key (params (have_psi cfg) src (
  locker ← ifdef (have_psi cfg) (
    if negb (PSI_server cfg =? NULL) then
      locker ← the key (fun key => server
        (Locker (get_thread_file_name_locker key PSI_FILE_DELETE name IdLocker)));
      _ ← when (negb (locker =? NULL))
        (the src (fun '(src_file, src_line) => server (FileWait (start_file_wait locker (size_t 0) src_file src_line))));
      Ret locker
    else Ret NULL) NULL;
  result ← sys (my_delete_with_symlink name flags);
  _ ← ifdef (have_psi cfg) (when (negb (locker =? NULL))
    (server (FileWait (end_file_wait locker (size_t 0))))) 0;
  Ret result)).

Definition inline_mysql_file_rename_with_symlink (key : option Z) (src : option srcloc) (from to flags : Z) : prog Z :=
  params (have_psi cfg) key (params (have_psi cfg) src (
  locker ← ifdef (have_psi cfg) (
    if negb (PSI_server cfg =? NULL) then
      locker ← the key (fun key => server
        (Locker (get_thread_file_name_locker key PSI_FILE_RENAME to IdLocker)));
      _ ← when (negb (locker =? NULL))
        (the src (fun '(src_file, src_line) => server (FileWait (start_file_wait locker (size_t 0) src_file src_line))));
      Ret locker
    else Ret NULL) NULL;
  result ← sys (my_rename_with_symlink from to flags);
  _ ← ifdef (have_psi cfg) (when (negb (locker =? NULL))
    (server (FileWait (end_file_wait locker (size_t 0))))) 0;
  Ret result)).

(** *** Functions of another shape *)

(** [__FILE__, __LINE__] are those of the header: [header] is the address of its
    file name. *)
Definition inline_mysql_file_fprintf (header : Z) (file format args : Z) : prog Z :=
  locker ← ifdef (have_psi cfg) (
    b ← hooked file;
    if (b : bool) then
      p ← load file m_psi;
      locker ← server (Locker (get_thread_file_stream_locker p PSI_FILE_WRITE));
      _ ← when (negb (locker =? NULL))
        (server (FileWait (start_file_wait locker (size_t 0) header 629)));
      Ret locker
    else Ret NULL) NULL;
  fp ← load file m_file;
  result ← sys (vfprintf fp format args);
  _ ← ifdef (have_psi cfg) (when (negb (locker =? NULL))
    (server (FileWait (end_file_wait locker (size_t result))))) 0;
  Ret result.

Definition inline_mysql_file_feof (file : Z) : prog Z :=
  fp ← load file m_file;
  sys (feof fp).

Definition inline_mysql_file_create_temp (key : option Z) (to dir pfx mode myFlags : Z) : prog Z :=
  params (have_psi cfg) key (
  file ← sys (create_temp_file to dir pfx mode myFlags);
  _ ← ifdef (have_psi cfg) (when (negb (PSI_server cfg =? NULL))
    (the key (fun key => server (Object (create_file key to file))))) 0;
  Ret file).

Definition inline_mysql_file_fopen (key : option Z) (src : option srcloc)
    (filename flags myFlags : Z) : prog Z :=
  params (have_psi cfg) key (params (have_psi cfg) src (
  that ← sys (my_malloc SIZEOF_MYSQL_FILE MY_WME);
  if negb (that =? NULL) then
    _ ← store that m_psi NULL;
    locker ← ifdef (have_psi cfg) (
      if negb (PSI_server cfg =? NULL) then
        locker ← the key (fun key => server
          (Locker (get_thread_file_name_locker key PSI_FILE_STREAM_OPEN filename (IdPtr that))));
        _ ← (if negb (locker =? NULL) then
               h ← the src (fun '(src_file, src_line) =>
                 server (FileWait (start_file_open_wait locker src_file src_line)));
               store that m_psi h
             else Ret ());
        Ret locker
      else Ret NULL) NULL;
    fp ← sys (my_fopen filename flags myFlags);
    _ ← store that m_file fp;
    _ ← ifdef (have_psi cfg) (when (negb (locker =? NULL))
      (server (FileWait (end_file_open_wait locker)))) 0;
    fp ← load that m_file;
    if fp =? NULL then
      _ ← sys (my_free that);
      Ret NULL
    else Ret that
  else Ret that)).

Definition inline_mysql_file_fclose (src : option srcloc) (file flags : Z) : prog Z :=
  params (have_psi cfg) src (
  if negb (file =? NULL) then
    locker ← ifdef (have_psi cfg) (
      b ← hooked file;
      if (b : bool) then
        p ← load file m_psi;
        locker ← server (Locker (get_thread_file_stream_locker p PSI_FILE_STREAM_CLOSE));
        _ ← when (negb (locker =? NULL))
          (the src (fun '(src_file, src_line) =>
            server (FileWait (start_file_wait locker (size_t 0) src_file src_line))));
        Ret locker
      else Ret NULL) NULL;
    fp ← load file m_file;
    result ← sys (my_fclose fp flags);
    _ ← ifdef (have_psi cfg) (when (negb (locker =? NULL))
      (server (FileWait (end_file_wait locker (size_t 0))))) 0;
    _ ← sys (my_free file);
    Ret result
  else Ret 0).

(** ** Macros

    [loc] is the pair [__FILE__, __LINE__] of the call, [header] the file name of
    mysql_file.h. *)

Context (loc : srcloc) (header : Z).

Definition mysql_file_fgets (P1 P2 F : Z) : prog Z :=
  if have_psi cfg then inline_mysql_file_fgets (Some loc) P1 P2 F else inline_mysql_file_fgets None P1 P2 F.

Definition mysql_file_fgetc (F : Z) : prog Z :=
  if have_psi cfg then inline_mysql_file_fgetc (Some loc) F else inline_mysql_file_fgetc None F.

Definition mysql_file_fputs (P1 F : Z) : prog Z :=
  if have_psi cfg then inline_mysql_file_fputs (Some loc) P1 F else inline_mysql_file_fputs None P1 F.

Definition mysql_file_fputc (P1 F : Z) : prog Z :=
  if have_psi cfg then inline_mysql_file_fputc (Some loc) P1 F else inline_mysql_file_fputc None P1 F.

Definition mysql_file_fprintf (F P1 P2 : Z) : prog Z := inline_mysql_file_fprintf header F P1 P2.

Definition mysql_file_vfprintf (F P1 P2 : Z) : prog Z :=
  if have_psi cfg then inline_mysql_file_vfprintf (Some loc) F P1 P2 else inline_mysql_file_vfprintf None F P1 P2.

Definition mysql_file_fflush (F : Z) : prog Z :=
  if have_psi cfg then inline_mysql_file_fflush (Some loc) F else inline_mysql_file_fflush None F.

Definition mysql_file_feof (F : Z) : prog Z := inline_mysql_file_feof F.

Definition mysql_file_fstat (FN ST FL : Z) : prog Z :=
  if have_psi cfg then inline_mysql_file_fstat (Some loc) FN ST FL else inline_mysql_file_fstat None FN ST FL.

Definition mysql_file_stat (K FN ST FL : Z) : prog Z :=
  if have_psi cfg then inline_mysql_file_stat (Some K) (Some loc) FN ST FL
  else inline_mysql_file_stat None None FN ST FL.

Definition mysql_file_chsize (F P1 P2 P3 : Z) : prog Z :=
  if have_psi cfg then inline_mysql_file_chsize (Some loc) F P1 P2 P3 else inline_mysql_file_chsize None F P1 P2 P3.

Definition mysql_file_fopen (K N F1 F2 : Z) : prog Z :=
  if have_psi cfg then inline_mysql_file_fopen (Some K) (Some loc) N F1 F2
  else inline_mysql_file_fopen None None N F1 F2.

Definition mysql_file_fclose (FD FL : Z) : prog Z :=
  if have_psi cfg then inline_mysql_file_fclose (Some loc) FD FL else inline_mysql_file_fclose None FD FL.

Definition mysql_file_fread (FD P1 P2 P3 : Z) : prog Z :=
  if have_psi cfg then inline_mysql_file_fread (Some loc) FD P1 P2 P3 else inline_mysql_file_fread None FD P1 P2 P3.

Definition mysql_file_fwrite (FD P1 P2 P3 : Z) : prog Z :=
  if have_psi cfg then inline_mysql_file_fwrite (Some loc) FD P1 P2 P3 else inline_mysql_file_fwrite None FD P1 P2 P3.

Definition mysql_file_fseek (FD P W F : Z) : prog Z :=
  if have_psi cfg then inline_mysql_file_fseek (Some loc) FD P W F else inline_mysql_file_fseek None FD P W F.

Definition mysql_file_ftell (FD F : Z) : prog Z :=
  if have_psi cfg then inline_mysql_file_ftell (Some loc) FD F else inline_mysql_file_ftell None FD F.

Definition mysql_file_create (K N F1 F2 F3 : Z) : prog Z :=
  if have_psi cfg then inline_mysql_file_create (Some K) (Some loc) N F1 F2 F3
  else inline_mysql_file_create None None N F1 F2 F3.

Definition mysql_file_create_temp (K T D P M F : Z) : prog Z :=
  if have_psi cfg then inline_mysql_file_create_temp (Some K) T D P M F
  else inline_mysql_file_create_temp None T D P M F.

Definition mysql_file_open (K N F1 F2 : Z) : prog Z :=
  if have_psi cfg then inline_mysql_file_open (Some K) (Some loc) N F1 F2
  else inline_mysql_file_open None None N F1 F2.

Definition mysql_file_close (FD F : Z) : prog Z :=
  if have_psi cfg then inline_mysql_file_close (Some loc) FD F else inline_mysql_file_close None FD F.

Definition mysql_file_read (FD B SZ F : Z) : prog Z :=
  if have_psi cfg then inline_mysql_file_read (Some loc) FD B SZ F else inline_mysql_file_read None FD B SZ F.

Definition mysql_file_write (FD B SZ F : Z) : prog Z :=
  if have_psi cfg then inline_mysql_file_write (Some loc) FD B SZ F else inline_mysql_file_write None FD B SZ F.

Definition mysql_file_pread (FD B SZ OF F : Z) : prog Z :=
  if have_psi cfg then inline_mysql_file_pread (Some loc) FD B SZ OF F else inline_mysql_file_pread None FD B SZ OF F.

Definition mysql_file_pwrite (FD B SZ OF F : Z) : prog Z :=
  if have_psi cfg then inline_mysql_file_pwrite (Some loc) FD B SZ OF F else inline_mysql_file_pwrite None FD B SZ OF F.

Definition mysql_file_seek (FD P W F : Z) : prog Z :=
  if have_psi cfg then inline_mysql_file_seek (Some loc) FD P W F else inline_mysql_file_seek None FD P W F.

Definition mysql_file_tell (FD F : Z) : prog Z :=
  if have_psi cfg then inline_mysql_file_tell (Some loc) FD F else inline_mysql_file_tell None FD F.

Definition mysql_file_delete (K P1 P2 : Z) : prog Z :=
  if have_psi cfg then inline_mysql_file_delete (Some K) (Some loc) P1 P2
  else inline_mysql_file_delete None None P1 P2.

Definition mysql_file_rename (K P1 P2 P3 : Z) : prog Z :=
  if have_psi cfg then inline_mysql_file_rename (Some K) (Some loc) P1 P2 P3
  else inline_mysql_file_rename None None P1 P2 P3.

Definition mysql_file_create_with_symlink (K P1 P2 P3 P4 P5 : Z) : prog Z :=
  if have_psi cfg then inline_mysql_file_create_with_symlink (Some K) (Some loc) P1 P2 P3 P4 P5
  else inline_mysql_file_create_with_symlink None None P1 P2 P3 P4 P5.

Definition mysql_file_delete_with_symlink (K P1 P2 : Z) : prog Z :=
  if have_psi cfg then inline_mysql_file_delete_with_symlink (Some K) (Some loc) P1 P2
  else inline_mysql_file_delete_with_symlink None None P1 P2.

Definition mysql_file_rename_with_symlink (K P1 P2 P3 : Z) : prog Z :=
  if have_psi cfg then inline_mysql_file_rename_with_symlink (Some K) (Some loc) P1 P2 P3
  else inline_mysql_file_rename_with_symlink None None P1 P2 P3.

Definition mysql_file_sync (P1 P2 : Z) : prog Z :=
  if have_psi cfg then inline_mysql_file_sync (Some loc) P1 P2 else inline_mysql_file_sync None P1 P2.

(** ** The operations of the header *)

Inductive file_op :=
| Fgets (P1 P2 F : Z)
| Fgetc (F : Z)
| Fputs (P1 F : Z)
| Fputc (P1 F : Z)
| Fprintf (F P1 P2 : Z)
| Vfprintf (F P1 P2 : Z)
| Fflush (F : Z)
| Feof (F : Z)
| Fstat (FN ST FL : Z)
| Stat (K FN ST FL : Z)
| Chsize (F P1 P2 P3 : Z)
| Fopen (K N F1 F2 : Z)
| Fclose (FD FL : Z)
| Fread (FD P1 P2 P3 : Z)
| Fwrite (FD P1 P2 P3 : Z)
| Fseek (FD P W F : Z)
| Ftell (FD F : Z)
| Create (K N F1 F2 F3 : Z)
| CreateTemp (K T D P M F : Z)
| Open (K N F1 F2 : Z)
| Close (FD F : Z)
| Read (FD B SZ F : Z)
| Write (FD B SZ F : Z)
| Pread (FD B SZ OF F : Z)
| Pwrite (FD B SZ OF F : Z)
| Seek (FD P W F : Z)
| Tell (FD F : Z)
| Delete (K P1 P2 : Z)
| Rename (K P1 P2 P3 : Z)
| CreateWithSymlink (K P1 P2 P3 P4 P5 : Z)
| DeleteWithSymlink (K P1 P2 : Z)
| RenameWithSymlink (K P1 P2 P3 : Z)
| Sync (P1 P2 : Z).

Definition file_prog (op : file_op) : prog Z :=
  match op with
  | Fgets P1 P2 F => mysql_file_fgets P1 P2 F
  | Fgetc F => mysql_file_fgetc F
  | Fputs P1 F => mysql_file_fputs P1 F
  | Fputc P1 F => mysql_file_fputc P1 F
  | Fprintf F P1 P2 => mysql_file_fprintf F P1 P2
  | Vfprintf F P1 P2 => mysql_file_vfprintf F P1 P2
  | Fflush F => mysql_file_fflush F
  | Feof F => mysql_file_feof F
  | Fstat FN ST FL => mysql_file_fstat FN ST FL
  | Stat K FN ST FL => mysql_file_stat K FN ST FL
  | Chsize F P1 P2 P3 => mysql_file_chsize F P1 P2 P3
  | Fopen K N F1 F2 => mysql_file_fopen K N F1 F2
  | Fclose FD FL => mysql_file_fclose FD FL
  | Fread FD P1 P2 P3 => mysql_file_fread FD P1 P2 P3
  | Fwrite FD P1 P2 P3 => mysql_file_fwrite FD P1 P2 P3
  | Fseek FD P W F => mysql_file_fseek FD P W F
  | Ftell FD F => mysql_file_ftell FD F
  | Create K N F1 F2 F3 => mysql_file_create K N F1 F2 F3
  | CreateTemp K T D P M F => mysql_file_create_temp K T D P M F
  | Open K N F1 F2 => mysql_file_open K N F1 F2
  | Close FD F => mysql_file_close FD F
  | Read FD B SZ F => mysql_file_read FD B SZ F
  | Write FD B SZ F => mysql_file_write FD B SZ F
  | Pread FD B SZ OF F => mysql_file_pread FD B SZ OF F
  | Pwrite FD B SZ OF F => mysql_file_pwrite FD B SZ OF F
  | Seek FD P W F => mysql_file_seek FD P W F
  | Tell FD F => mysql_file_tell FD F
  | Delete K P1 P2 => mysql_file_delete K P1 P2
  | Rename K P1 P2 P3 => mysql_file_rename K P1 P2 P3
  | CreateWithSymlink K P1 P2 P3 P4 P5 => mysql_file_create_with_symlink K P1 P2 P3 P4 P5
  | DeleteWithSymlink K P1 P2 => mysql_file_delete_with_symlink K P1 P2
  | RenameWithSymlink K P1 P2 P3 => mysql_file_rename_with_symlink K P1 P2 P3
  | Sync P1 P2 => mysql_file_sync P1 P2
  end.

End Functions.

(** ** Abstract specification *)

Definition file_bracket (lk : psi_locker) (count : (Z -> Z) -> Z) (loc : srcloc)
    (done : (Z -> Z) -> (Z -> Z) -> Z -> Z) : bracket :=
  {| b_locker := lk;
     b_start := fun sl l => FileWait (start_file_wait l (count sl) loc.1 loc.2);
     b_stop := fun sl sl' l r => FileWait (end_file_wait l (done sl sl' r)) |}.

Definition open_bracket (key : Z) (op : PSI_file_operation) (name : Z) (loc : srcloc) : bracket :=
  {| b_locker := get_thread_file_name_locker key op name IdLocker;
     b_start := fun _ l => FileWait (start_file_open_wait l loc.1 loc.2);
     b_stop := fun _ _ l r => FileWait (end_file_open_wait_and_bind_to_descriptor l r) |}.

Definition stat_bracket (key name : Z) (loc : srcloc) : bracket :=
  {| b_locker := get_thread_file_name_locker key PSI_FILE_STAT name IdLocker;
     b_start := fun _ l => FileWait (start_file_open_wait l loc.1 loc.2);
     b_stop := fun _ _ l r => FileWait (end_file_wait l (size_t 0)) |}.

(** What an operation does: a bracketed call on a stream, on a descriptor or a
    name, or one of the four operations of another shape. *)
Inductive file_action :=
| OnStream (file : Z) (b : Z -> bracket) (c : Z -> sys_call)
| OnServer (b : bracket) (c : sys_call)
| Uninstrumented (file : Z) (c : Z -> sys_call)
| Opening (key filename flags myFlags : Z)
| Closing (file flags : Z)
| CreatingTemp (key to dir pfx mode myFlags : Z).

Section Actions.
Context (loc : srcloc) (header : Z).

#[local] Abbreviation none := (fun _ => 0).
#[local] Abbreviation zero := (fun _ _ _ => 0).

Definition str_bytes (sl : Z -> Z) (s : Z) : Z := if s =? NULL then 0 else sl s.

(** The operation code, the bytes asked for and the bytes reported, per operation. *)
Definition action_of (op : file_op) : file_action :=
  let stream o n f b := file_bracket (get_thread_file_stream_locker f o) n loc b in
  let desc d o n b := file_bracket (get_thread_file_descriptor_locker d o) n loc b in
  let name k o s := file_bracket (get_thread_file_name_locker k o s IdLocker) none loc zero in
  match op with
  | Fgets s n F => OnStream F (fun h => stream PSI_FILE_READ (fun _ => size_t n) h
      (fun _ sl r => str_bytes sl r)) (fun fp => fgets s n fp)
  | Fgetc F => OnStream F (fun h => stream PSI_FILE_READ (fun _ => 1) h (fun _ _ _ => 1)) fgetc
  | Fputs s F => OnStream F (fun h => stream PSI_FILE_WRITE (fun sl => str_bytes sl s) h
      (fun sl _ _ => str_bytes sl s)) (fputs s)
  | Fputc c F => OnStream F (fun h => stream PSI_FILE_WRITE (fun _ => 1) h (fun _ _ _ => 1)) (fputc (char c))
  | Fprintf F f a => OnStream F (fun h => file_bracket (get_thread_file_stream_locker h PSI_FILE_WRITE)
      none (header, 629) (fun _ _ r => size_t r)) (fun fp => vfprintf fp f a)
  | Vfprintf F f a => OnStream F (fun h => stream PSI_FILE_WRITE none h (fun _ _ r => size_t r))
      (fun fp => vfprintf fp f a)
  | Fflush F => OnStream F (fun h => stream PSI_FILE_FLUSH none h zero) fflush
  | Feof F => Uninstrumented F feof
  | Fread F b n fl => OnStream F (fun h => stream PSI_FILE_READ (fun _ => n) h
      (fun _ _ r => bytes_done fl n r)) (fun fp => my_fread fp b n fl)
  | Fwrite F b n fl => OnStream F (fun h => stream PSI_FILE_WRITE (fun _ => n) h
      (fun _ _ r => bytes_done fl n r)) (fun fp => my_fwrite fp b n fl)
  | Fseek F p w fl => OnStream F (fun h => stream PSI_FILE_SEEK none h zero)
      (fun fp => my_fseek fp p w fl)
  | Ftell F fl => OnStream F (fun h => stream PSI_FILE_TELL none h zero) (fun fp => my_ftell fp fl)
  | Fopen K N f1 f2 => Opening K N f1 f2
  | Fclose F fl => Closing F fl
  | CreateTemp K T D P M F => CreatingTemp K T D P M F
  | Fstat d s fl => OnServer (desc d PSI_FILE_FSTAT none zero) (my_fstat d s fl)
  | Chsize d n fi fl => OnServer (desc d PSI_FILE_CHSIZE (fun _ => size_t n) (fun _ _ _ => size_t n))
      (my_chsize d n fi fl)
  | Close d fl => OnServer (desc d PSI_FILE_CLOSE none zero) (my_close d fl)
  | Read d b n fl => OnServer (desc d PSI_FILE_READ (fun _ => n) (fun _ _ r => bytes_done fl n r))
      (my_read d b n fl)
  | Write d b n fl => OnServer (desc d PSI_FILE_WRITE (fun _ => n) (fun _ _ r => bytes_done fl n r))
      (my_write d b n fl)
  | Pread d b n o fl => OnServer (desc d PSI_FILE_READ (fun _ => n) (fun _ _ r => bytes_done fl n r))
      (my_pread d b n o fl)
  | Pwrite d b n o fl => OnServer (desc d PSI_FILE_WRITE (fun _ => n) (fun _ _ r => bytes_done fl n r))
      (my_pwrite d b n o fl)
  | Seek d p w fl => OnServer (desc d PSI_FILE_SEEK none zero) (my_seek d p w fl)
  | Tell d fl => OnServer (desc d PSI_FILE_TELL none zero) (my_tell d fl)
  | Sync d fl => OnServer (desc d PSI_FILE_SYNC none zero) (my_sync d fl)
  | Stat K p s fl => OnServer (stat_bracket K p loc) (my_stat p s fl)
  | Create K n cf af fl => OnServer (open_bracket K PSI_FILE_CREATE n loc) (my_create n cf af fl)
  | Open K n f fl => OnServer (open_bracket K PSI_FILE_OPEN n loc) (my_open n f fl)
  | Delete K n fl => OnServer (name K PSI_FILE_DELETE n) (my_delete n fl)
  | Rename K a b fl => OnServer (name K PSI_FILE_RENAME b) (my_rename a b fl)
  | CreateWithSymlink K ln n cf af fl => OnServer (open_bracket K PSI_FILE_CREATE n loc)
      (my_create_with_symlink ln n cf af fl)
  | DeleteWithSymlink K n fl => OnServer (name K PSI_FILE_DELETE n) (my_delete_with_symlink n fl)
  | RenameWithSymlink K a b fl => OnServer (name K PSI_FILE_RENAME b) (my_rename_with_symlink a b fl)
  end.
End Actions.

Section FileSpec.
Context `{E : Env} (cfg : config) (loc : srcloc) (header : Z).

Definition hook_on (p : Z) (w : world) : bool := psi_on cfg && negb (hook (w_heap w) p =? NULL).

Definition with_heap (f : heap -> heap) (w : world) : world :=
  {| w_heap := f (w_heap w); w_sys := w_sys w; w_psi := w_psi w |}.

Definition close_bracket (h : Z) : bracket :=
  file_bracket (get_thread_file_stream_locker h PSI_FILE_STREAM_CLOSE) (fun _ => 0) loc (fun _ _ _ => 0).

(** The start of an open on the new structure [that]: the hook it gets, the
    locker ([NULL]: none) and the events. *)
Definition spec_open_start (key filename that : Z) (w : world) : Z * Z * world * list event :=
  if psi_on cfg then
    let g := Locker (get_thread_file_name_locker key PSI_FILE_STREAM_OPEN filename (IdPtr that)) in
    let (l, w1) := ask_psi g w in
    if l =? NULL then (NULL, NULL, w1, [EPsi g l])
    else
      let s := FileWait (start_file_open_wait l loc.1 loc.2) in
      let (h, w2) := ask_psi s w1 in (h, l, w2, [EPsi g l; EPsi s h])
  else (NULL, NULL, w, []).

Definition spec_open_end (l : Z) (w : world) : world * list event :=
  if l =? NULL then (w, [])
  else
    let e := FileWait (end_file_open_wait l) in
    let (r, w1) := ask_psi e w in (w1, [EPsi e r]).

(** [fopen]: allocate, open inside of a bracket, and release the structure when
    the open failed.  An allocator that returns memory in use is a fault. *)
Definition spec_fopen (key filename flags myFlags : Z) (w : world) : option (Z * world * list event) :=
  let m := my_malloc SIZEOF_MYSQL_FILE MY_WME in
  let (that, w1) := ask_sys m w in
  if that =? NULL then Some (that, w1, [ESys m that])
  else
    match w_heap w !! that with
    | Some _ => None
    | None =>
      let '(h, l, w2, pre) := spec_open_start key filename that w1 in
      let o := my_fopen filename flags myFlags in
      let (fp, w3) := ask_sys o w2 in
      let (w4, post) := spec_open_end l w3 in
      let t := ESys m that :: pre ++ ESys o fp :: post in
      if fp =? NULL then
        let (r, w5) := ask_sys (my_free that) w4 in
        Some (NULL, w5, t ++ [ESys (my_free that) r])
      else
        Some (that, with_heap (<[that := {| o_psi := Some h; o_file := Some fp |}]>) w4, t)
    end.

(** [fclose]: close inside of a bracket, then release the structure. *)
Definition spec_fclose (file flags : Z) (w : world) : option (Z * world * list event) :=
  if file =? NULL then Some (0, w, [])
  else
    fp ← load_field file m_file (w_heap w);
    let '(r, w1, t) :=
      spec_wait (hook_on file w) (close_bracket (hook (w_heap w) file)) (my_fclose fp flags) w in
    let (r0, w2) := ask_sys (my_free file) w1 in
    Some (r, with_heap (delete file) w2, t ++ [ESys (my_free file) r0]).

Definition spec_create_temp (key to dir pfx mode myFlags : Z) (w : world) : Z * world * list event :=
  let c := create_temp_file to dir pfx mode myFlags in
  let (f, w1) := ask_sys c w in
  if psi_on cfg then
    let n := Object (create_file key to f) in
    let (r, w2) := ask_psi n w1 in (f, w2, [ESys c f; EPsi n r])
  else (f, w1, [ESys c f]).

Definition spec_file (op : file_op) (w : world) : option (Z * world * list event) :=
  match action_of loc header op with
  | OnStream file b c =>
    fp ← load_field file m_file (w_heap w);
    Some (spec_wait (hook_on file w) (b (hook (w_heap w) file)) (c fp) w)
  | OnServer b c => Some (spec_wait (psi_on cfg) b c w)
  | Uninstrumented file c =>
    fp ← load_field file m_file (w_heap w);
    let (r, w1) := ask_sys (c fp) w in Some (r, w1, [ESys (c fp) r])
  | Opening key filename flags myFlags => spec_fopen key filename flags myFlags w
  | Closing file flags => spec_fclose file flags w
  | CreatingTemp key to dir pfx mode myFlags => Some (spec_create_temp key to dir pfx mode myFlags w)
  end.

(** The hook of every structure is set: [fopen] sets it first. *)
Definition hooks_set (h : heap) : Prop := forall p o, h !! p = Some o -> is_Some (o_psi o).

End FileSpec.

(** ** Lemmas *)

Create HintDb file_defs.
#[export] Hint Unfold
  mysql_file_fgets mysql_file_fgetc mysql_file_fputs mysql_file_fputc mysql_file_fprintf
  mysql_file_vfprintf mysql_file_fflush mysql_file_feof mysql_file_fstat mysql_file_stat
  mysql_file_chsize mysql_file_fopen mysql_file_fclose mysql_file_fread mysql_file_fwrite
  mysql_file_fseek mysql_file_ftell mysql_file_create mysql_file_create_temp mysql_file_open
  mysql_file_close mysql_file_read mysql_file_write mysql_file_pread mysql_file_pwrite
  mysql_file_seek mysql_file_tell mysql_file_delete mysql_file_rename
  mysql_file_create_with_symlink mysql_file_delete_with_symlink mysql_file_rename_with_symlink
  mysql_file_sync : file_defs.
#[export] Hint Unfold
  inline_mysql_file_fgets inline_mysql_file_fgetc inline_mysql_file_fputs inline_mysql_file_fputc
  inline_mysql_file_fprintf inline_mysql_file_vfprintf inline_mysql_file_fflush
  inline_mysql_file_feof inline_mysql_file_fstat inline_mysql_file_stat inline_mysql_file_chsize
  inline_mysql_file_fread inline_mysql_file_fwrite
  inline_mysql_file_fseek inline_mysql_file_ftell inline_mysql_file_create
  inline_mysql_file_create_temp inline_mysql_file_open inline_mysql_file_close
  inline_mysql_file_read inline_mysql_file_write inline_mysql_file_pread
  inline_mysql_file_pwrite inline_mysql_file_seek inline_mysql_file_tell
  inline_mysql_file_delete inline_mysql_file_rename inline_mysql_file_create_with_symlink
  inline_mysql_file_delete_with_symlink inline_mysql_file_rename_with_symlink
  inline_mysql_file_sync : file_defs.
#[export] Hint Unfold hook_on file_bracket open_bracket stat_bracket str_bytes spec_create_temp
  : file_defs.

Lemma file_fields (h : heap) (p : Z) :
  hooks_set h ->
  (exists v, load_field p m_psi h = Some v) \/ load_field p m_psi h = None /\ load_field p m_file h = None.
Proof.
  intros Hs. unfold load_field. destruct (h !! p) as [o|] eqn:Ho; [left|by right].
  exact (Hs p o Ho).
Qed.

Section Refinement.
Context `{E : Env} (cfg : config) (loc : srcloc) (header : Z).

Ltac by_exec :=
  destruct cfg as [hp sm srv], loc as [f n];
  cbn [file_prog]; autounfold with file_defs prog_defs;
  destruct hp; cbn -[load_field store_field size_t bytes_done];
  change (size_t 0) with 0; change (size_t 1) with 1; exec; try done.

Lemma file_server_spec (op : file_op) (w : world) :
  match action_of loc header op with OnServer _ _ | CreatingTemp _ _ _ _ _ _ => True | _ => False end ->
  run (file_prog cfg loc header op) w = spec_file cfg loc header op w.
Proof.
  destruct w as [h s q]. destruct op; cbn [action_of]; try done; intros _;
    unfold spec_file; cbn [action_of]; by_exec.
Qed.

Lemma file_stream_spec (op : file_op) (w : world) :
  hooks_set (w_heap w) ->
  match action_of loc header op with OnStream _ _ _ | Uninstrumented _ _ => True | _ => False end ->
  run (file_prog cfg loc header op) w = spec_file cfg loc header op w.
Proof.
  destruct w as [h s q]. intros Hh.
  destruct op; cbn [action_of]; try done; intros _;
    unfold spec_file; cbn [action_of w_heap];
    match goal with |- context [load_field ?F m_file h] =>
      destruct (file_fields h F Hh) as [[v Hv]|[Hv Hfp]];
      [destruct (load_field F m_file h) as [fp|] eqn:Hfp|]
    end; by_exec.
Qed.
End Refinement.

Lemma store_field_insert (p v : Z) (f : field) (o : obj) (h : heap) :
  store_field p f v (<[p := o]> h) = Some (<[p := set_field f v o]> h).
Proof. unfold store_field. rewrite lookup_insert_eq. cbn. by rewrite insert_insert_eq. Qed.

Lemma load_field_insert (p : Z) (f : field) (o : obj) (h : heap) :
  load_field p f (<[p := o]> h) = get_field f o.
Proof. unfold load_field. by rewrite lookup_insert_eq. Qed.

Lemma load_field_unmapped (p : Z) (f : field) (h : heap) : h !! p = None -> load_field p f h = None.
Proof. unfold load_field. by intros ->. Qed.

Section OpenClose.
Context `{E : Env} (cfg : config) (loc : srcloc) (header : Z).

Lemma fopen_spec (K N F1 F2 : Z) (w : world) :
  run (mysql_file_fopen cfg loc K N F1 F2) w = spec_fopen cfg loc K N F1 F2 w.
Proof.
  destruct cfg as [hp sm srv], loc as [f n], w as [h s q].
  unfold mysql_file_fopen, inline_mysql_file_fopen, spec_fopen, spec_open_start, spec_open_end.
  autounfold with prog_defs.
  cbn [w_heap w_sys w_psi]. 
  destruct hp; cbn -[load_field store_field size_t];
    destruct (sys_answer s _) as [that s1] eqn:?; cbn -[load_field store_field size_t];
    (destruct (that =? 0) eqn:?; cbn -[load_field store_field size_t]; [by exec|]);
    destruct (h !! that) as [o|] eqn:Hh; cbn -[load_field store_field size_t]; try done;
    rewrite !store_field_insert; cbn -[load_field store_field size_t];
    repeat (exec_step || rewrite !store_field_insert || rewrite !load_field_insert
            || rewrite !lookup_insert_eq || rewrite !delete_insert_id by done
            ; cbn -[load_field store_field size_t]).
  all: done.
Qed.

Lemma fclose_spec (FD FL : Z) (w : world) :
  hooks_set (w_heap w) ->
  run (mysql_file_fclose cfg loc FD FL) w = spec_fclose cfg loc FD FL w.
Proof.
  intros Hs. destruct cfg as [hp sm srv], loc as [f n], w as [h s q].
  unfold mysql_file_fclose, inline_mysql_file_fclose, spec_fclose, close_bracket, with_heap.
  autounfold with file_defs prog_defs. cbn [w_heap w_sys w_psi] in *.
  destruct (h !! FD) as [o|] eqn:Ho.
  - destruct (Hs FD o Ho) as [v Hv].
    assert (Hl : load_field FD m_psi h = Some v) by (unfold load_field; by rewrite Ho).
    destruct (load_field FD m_file h) as [fp|] eqn:Hfp;
      destruct hp; cbn -[load_field store_field size_t]; change (size_t 0) with 0; exec;
      rewrite ?Ho; done.
  - pose proof (load_field_unmapped FD m_psi h Ho). pose proof (load_field_unmapped FD m_file h Ho).
    destruct hp; cbn -[load_field store_field size_t]; exec; done.
Qed.

Lemma file_prog_spec (op : file_op) (w : world) :
  hooks_set (w_heap w) ->
  run (file_prog cfg loc header op) w = spec_file cfg loc header op w.
Proof.
  intros Hs. destruct (action_of loc header op) eqn:Ha.
  - apply file_stream_spec; [done|]. by rewrite Ha.
  - apply file_server_spec. by rewrite Ha.
  - apply file_stream_spec; [done|]. by rewrite Ha.
  - destruct op; try discriminate. apply fopen_spec.
  - destruct op; try discriminate. by apply fclose_spec.
  - apply file_server_spec. by rewrite Ha.
Qed.
End OpenClose.

(** ** Clients

    A client chooses each operation after the results of the previous ones. *)

Inductive client := Done | Do (loc : srcloc) (op : file_op) (k : Z -> client).

Section Clients.
Context `{E : Env}.

Fixpoint run_client (cfg : config) (header : Z) (c : client) (w : world) :
    option (list Z * world * list event) :=
  match c with
  | Done => Some ([], w, [])
  | Do loc op k =>
    x ← run (file_prog cfg loc header op) w;
    y ← run_client cfg header (k x.1.1) x.1.2;
    Some (x.1.1 :: y.1.1, y.1.2, x.2 ++ y.2)
  end.

(** The structures without their hooks. *)
Definition file_view (h : heap) : gmap Z (option Z) := o_file <$> h.

#[global] Arguments file_view : simpl never.

(** What a run is to the system: the result, the state of the system, the files
    and the system calls. *)
Definition view {A : Type} (x : A * world * list event) :
    A * sys_state * gmap Z (option Z) * list (sys_call * Z) :=
  (x.1.1, w_sys x.1.2, file_view (w_heap x.1.2), sys_events x.2).

(** Two worlds that differ at most in what concerns the server. *)
Definition same_files (w w' : world) : Prop :=
  w_sys w = w_sys w' /\ file_view (w_heap w) = file_view (w_heap w').

End Clients.

Fixpoint client_ops (P : file_op -> Prop) (c : client) : Prop :=
  match c with Done => True | Do _ op k => P op /\ forall r, client_ops P (k r) end.

Definition is_stat (op : file_op) : bool := match op with Stat _ _ _ _ => true | _ => false end.

(** The byte counts of a trace: asked for at the start of a wait, reported at its end. *)
Definition requested_bytes (t : list event) : list Z :=
  omap (fun e => match e with EPsi (FileWait (start_file_wait _ n _ _)) _ => Some n | _ => None end) t.

Definition reported_bytes (t : list event) : list Z :=
  omap (fun e => match e with EPsi (FileWait (end_file_wait _ n)) _ => Some n | _ => None end) t.

(** ** Lemmas on clients *)

Lemma load_file_view (p : Z) (h : heap) :
  load_field p m_file h = (o ← file_view h !! p; o).
Proof. unfold load_field, file_view. rewrite lookup_fmap. by destruct (h !! p). Qed.

Lemma file_view_none (p : Z) (h : heap) : file_view h !! p = None <-> h !! p = None.
Proof. unfold file_view. rewrite lookup_fmap. destruct (h !! p); naive_solver. Qed.

Lemma file_view_insert (p : Z) (o : obj) (h : heap) :
  file_view (<[p := o]> h) = <[p := o_file o]> (file_view h).
Proof. apply fmap_insert. Qed.

Lemma file_view_delete (p : Z) (h : heap) : file_view (delete p h) = delete p (file_view h).
Proof. apply fmap_delete. Qed.

Lemma hooks_set_insert (p v : Z) (f : option Z) (h : heap) :
  hooks_set h -> hooks_set (<[p := {| o_psi := Some v; o_file := f |}]> h).
Proof.
  intros Hs q o. destruct (decide (p = q)) as [->|Hne].
  - rewrite lookup_insert_eq. intros [= <-]. by eexists.
  - rewrite lookup_insert_ne by done. apply Hs.
Qed.

Lemma hooks_set_delete (p : Z) (h : heap) : hooks_set h -> hooks_set (delete p h).
Proof.
  intros Hs q o. destruct (decide (p = q)) as [->|Hne].
  - by rewrite lookup_delete_eq.
  - rewrite lookup_delete_ne by done. apply Hs.
Qed.

Lemma sys_events_sys (c : sys_call) (r : Z) (t : list event) :
  sys_events (ESys c r :: t) = (c, r) :: sys_events t.
Proof. done. Qed.

#[local] Arguments sys_events : simpl never.

Ltac split_events := repeat first [rewrite sys_events_app | rewrite sys_events_sys].

Section ClientLemmas.
Context `{E : Env}.
Implicit Types (cfg : config) (w : world) (loc : srcloc).

(** The view of a bracketed call does not depend on the bracket. *)
Lemma view_wait on on' b b' (c : sys_call) w w' :
  same_files w w' -> view (spec_wait on b c w) = view (spec_wait on' b' c w').
Proof.
  intros [Hs Hf]. unfold view. rewrite !spec_wait_heap, Hf.
  destruct (spec_wait_transparent on b c w) as (-> & -> & ->).
  destruct (spec_wait_transparent on' b' c w') as (-> & -> & ->). by rewrite Hs.
Qed.

Lemma view_create_temp cfg cfg' a b c d e f w w' :
  same_files w w' ->
  view (spec_create_temp cfg a b c d e f w) = view (spec_create_temp cfg' a b c d e f w').
Proof.
  intros [Hs Hf]. unfold spec_create_temp, view, ask_sys, ask_psi. rewrite Hs.
  destruct (sys_answer _ _) as [r s].
  destruct (psi_on cfg), (psi_on cfg'); repeat (cbn; exec_step); cbn; by rewrite Hf.
Qed.

Lemma spec_open_start_view cfg loc key filename that w :
  let x := spec_open_start cfg loc key filename that w in
  w_sys x.1.2 = w_sys w /\ w_heap x.1.2 = w_heap w /\ sys_events x.2 = [].
Proof. unfold spec_open_start, ask_psi. destruct (psi_on cfg); repeat (cbn; exec_step); done. Qed.

Lemma spec_open_end_view l w :
  let x := spec_open_end l w in
  w_sys x.1 = w_sys w /\ w_heap x.1 = w_heap w /\ sys_events x.2 = [].
Proof. unfold spec_open_end, ask_psi. destruct (l =? 0); repeat (cbn; exec_step); done. Qed.

Lemma view_fopen cfg cfg' loc a b c d w w' :
  same_files w w' ->
  view <$> spec_fopen cfg loc a b c d w = view <$> spec_fopen cfg' loc a b c d w'.
Proof.
  intros [Hs Hf]. unfold spec_fopen, ask_sys at 1 4. rewrite <- Hs.
  destruct (sys_answer (w_sys w) (my_malloc _ _)) as [that s1].
  destruct (that =? 0); [unfold view; cbn; by rewrite Hf|].
  destruct (w_heap w !! that) as [o|] eqn:Ho.
  { destruct (w_heap w' !! that) eqn:Ho'; [done|].
    apply file_view_none in Ho'. rewrite <- Hf in Ho'. apply file_view_none in Ho'. congruence. }
  destruct (w_heap w' !! that) eqn:Ho'.
  { apply file_view_none in Ho. rewrite Hf in Ho. apply file_view_none in Ho. congruence. }
  clear Ho Ho'.
  pose proof (spec_open_start_view cfg loc a b that
    {| w_heap := w_heap w; w_sys := s1; w_psi := w_psi w |}) as H1.
  pose proof (spec_open_start_view cfg' loc a b that
    {| w_heap := w_heap w'; w_sys := s1; w_psi := w_psi w' |}) as H1'.
  destruct (spec_open_start cfg _ _ _ _ _) as [[[h l] w2] pre].
  destruct (spec_open_start cfg' _ _ _ _ _) as [[[h' l'] w2'] pre'].
  cbn in H1, H1'. destruct H1 as (E1 & E2 & E3), H1' as (E1' & E2' & E3').
  unfold ask_sys at 1 3. rewrite E1, E1'.
  destruct (sys_answer s1 (my_fopen _ _ _)) as [fp s2].
  pose proof (spec_open_end_view l {| w_heap := w_heap w2; w_sys := s2; w_psi := w_psi w2 |}) as H2.
  pose proof (spec_open_end_view l' {| w_heap := w_heap w2'; w_sys := s2; w_psi := w_psi w2' |}) as H2'.
  destruct (spec_open_end l _) as [w4 post]. destruct (spec_open_end l' _) as [w4' post'].
  cbn in H2, H2'. destruct H2 as (F1 & F2 & F3), H2' as (F1' & F2' & F3').
  destruct (fp =? 0).
  - unfold ask_sys. rewrite F1, F1'. destruct (sys_answer s2 (my_free that)) as [r s3].
    unfold view. cbn. rewrite F2, E2, F2', E2', Hf.
    split_events. by rewrite E3, E3', F3, F3'.
  - unfold view, with_heap. cbn. rewrite F1, F1', !file_view_insert, F2, E2, F2', E2', Hf.
    split_events. by rewrite E3, E3', F3, F3'.
Qed.

Lemma view_fclose cfg cfg' loc file flags w w' :
  same_files w w' ->
  view <$> spec_fclose cfg loc file flags w = view <$> spec_fclose cfg' loc file flags w'.
Proof.
  intros [Hs Hf]. unfold spec_fclose. destruct (file =? 0).
  { unfold view. cbn. by rewrite Hs, Hf. }
  rewrite !load_file_view, <- Hf.
  destruct (file_view (w_heap w) !! file) as [[fp|]|]; [|done..]. cbn [mbind option_bind].
  pose proof (view_wait (hook_on cfg file w) (hook_on cfg' file w')
    (close_bracket loc (hook (w_heap w) file)) (close_bracket loc (hook (w_heap w') file))
    (my_fclose fp flags) w w' (conj Hs Hf)) as Hv.
  destruct (spec_wait (hook_on cfg file w) _ _ w) as [[r w1] t].
  destruct (spec_wait (hook_on cfg' file w') _ _ w') as [[r' w1'] t'].
  unfold view in Hv. cbn in Hv. injection Hv as Hr Hw Hh Ht.
  unfold ask_sys. rewrite Hw. destruct (sys_answer _ _) as [r0 s]. unfold view, with_heap. cbn.
  split_events. by rewrite Ht, !file_view_delete, Hh, Hr.
Qed.

Lemma view_file cfg cfg' loc header op w w' :
  same_files w w' ->
  view <$> spec_file cfg loc header op w = view <$> spec_file cfg' loc header op w'.
Proof.
  intros Hw. pose proof Hw as [Hs Hf]. unfold spec_file. destruct (action_of loc header op).
  - rewrite !load_file_view, <- Hf.
    destruct (file_view (w_heap w) !! file) as [[fp|]|]; [|done..]. cbn.
    f_equal. by apply view_wait.
  - cbn. f_equal. by apply view_wait.
  - rewrite !load_file_view, <- Hf.
    destruct (file_view (w_heap w) !! file) as [[fp|]|]; [|done..]. cbn.
    unfold ask_sys. rewrite Hs. destruct (sys_answer _ _). unfold view. cbn. by rewrite Hf.
  - by apply view_fopen.
  - by apply view_fclose.
  - cbn. f_equal. by apply view_create_temp.
Qed.

(** Every operation keeps the hooks set. *)
Lemma spec_file_hooks cfg loc header op w x :
  hooks_set (w_heap w) -> spec_file cfg loc header op w = Some x -> hooks_set (w_heap x.1.2).
Proof.
  intros Hs. unfold spec_file. destruct (action_of loc header op).
  - destruct (load_field file m_file (w_heap w)); [|done]. cbn. intros [= <-].
    by rewrite spec_wait_heap.
  - intros [= <-]. by rewrite spec_wait_heap.
  - destruct (load_field file m_file (w_heap w)); [|done]. cbn.
    unfold ask_sys. destruct (sys_answer _ _). by intros [= <-].
  - unfold spec_fopen, ask_sys at 1. destruct (sys_answer _ _) as [that s1].
    destruct (that =? 0); [by intros [= <-]|]. destruct (w_heap w !! that); [done|].
    pose proof (spec_open_start_view cfg loc key filename that
      {| w_heap := w_heap w; w_sys := s1; w_psi := w_psi w |}) as H1.
    destruct (spec_open_start _ _ _ _ _ _) as [[[h l] w2] pre].
    cbn in H1. destruct H1 as (_ & E2 & _). unfold ask_sys at 1.
    destruct (sys_answer _ _) as [fp s2].
    pose proof (spec_open_end_view l {| w_heap := w_heap w2; w_sys := s2; w_psi := w_psi w2 |}) as H2.
    destruct (spec_open_end l _) as [w4 post]. cbn in H2. destruct H2 as (_ & F2 & _).
    destruct (fp =? 0).
    + unfold ask_sys. destruct (sys_answer _ _). intros [= <-]. cbn. by rewrite F2, E2.
    + intros [= <-]. cbn. rewrite F2, E2. by apply hooks_set_insert.
  - unfold spec_fclose. destruct (file =? 0); [by intros [= <-]|].
    destruct (load_field file m_file (w_heap w)) as [fp|]; [|done]. cbn.
    pose proof (spec_wait_heap (hook_on cfg file w)
      (close_bracket loc (hook (w_heap w) file)) (my_fclose fp flags) w) as Hh.
    destruct (spec_wait _ _ _ w) as [[r w1] t]. unfold ask_sys. destruct (sys_answer _ _).
    intros [= <-]. cbn in *. rewrite Hh. by apply hooks_set_delete.
  - intros [= <-]. unfold spec_create_temp, ask_sys, ask_psi. destruct (sys_answer _ _).
    by destruct (psi_on cfg); [destruct (psi_answer _ _)|].
Qed.

Lemma file_brackets_ok loc header op :
  is_stat op = false ->
  match action_of loc header op with
  | OnStream _ b _ => forall h, bracket_ok (b h)
  | OnServer b _ => bracket_ok b
  | _ => True
  end.
Proof. destruct op; cbn; try done; intros _ *; try split; done. Qed.

(** The trace of an open, for any result of the system calls. *)
Lemma spec_open_monitor cfg loc key filename that w t r r' :
  let x := spec_open_start cfg loc key filename that w in
  monitor_all Idle (ESys (my_malloc 8 16) r :: x.2 ++ [ESys (my_fopen 0 0 0) r'] ++ t)
  = monitor_all (if x.1.1.2 =? NULL then Idle else Waiting CFileOpen x.1.1.2) t.
Proof.
  unfold spec_open_start, ask_psi. destruct (psi_on cfg); [|done].
  destruct (psi_answer (w_psi w) _) as [l s]. destruct (l =? 0) eqn:Hl; cbn.
  - by rewrite Hl.
  - destruct (psi_answer s _) as [h s']. cbn. rewrite Hl. cbn. by rewrite decide_True.
Qed.

Lemma spec_open_end_monitor l w :
  monitor_all (if l =? NULL then Idle else Waiting CFileOpen l) (spec_open_end l w).2 = Some Idle.
Proof.
  unfold spec_open_end, ask_psi. destruct (l =? 0); [done|].
  destruct (psi_answer _ _). cbn. by rewrite decide_True.
Qed.

Lemma monitor_sys_idle (t : list event) c r :
  monitor_all Idle t = Some Idle -> monitor_all Idle (t ++ [ESys c r]) = Some Idle.
Proof. intros Ht. by rewrite monitor_all_app, Ht. Qed.

Lemma spec_file_monitor cfg loc header op w x :
  is_stat op = false -> spec_file cfg loc header op w = Some x -> monitor_all Idle x.2 = Some Idle.
Proof.
  intros Hst. pose proof (file_brackets_ok loc header op Hst) as Hb. unfold spec_file.
  destruct (action_of loc header op).
  - destruct (load_field file m_file (w_heap w)); [|done]. cbn. intros [= <-].
    apply spec_wait_monitor, Hb.
  - intros [= <-]. by apply spec_wait_monitor.
  - destruct (load_field file m_file (w_heap w)); [|done]. cbn. unfold ask_sys.
    destruct (sys_answer _ _). by intros [= <-].
  - unfold spec_fopen, ask_sys at 1. destruct (sys_answer _ _) as [that s1].
    destruct (that =? 0); [by intros [= <-]|]. destruct (w_heap w !! that); [done|].
    pose proof (fun t => spec_open_monitor cfg loc key filename that
      {| w_heap := w_heap w; w_sys := s1; w_psi := w_psi w |} t that) as H1.
    destruct (spec_open_start _ _ _ _ _ _) as [[[h l] w2] pre]. cbn zeta in H1.
    unfold ask_sys at 1. destruct (sys_answer _ _) as [fp s2].
    pose proof (spec_open_end_monitor l {| w_heap := w_heap w2; w_sys := s2; w_psi := w_psi w2 |}) as H2.
    destruct (spec_open_end l _) as [w4 post].
    specialize (H1 post fp). cbn [fst snd] in H1, H2. rewrite H2 in H1.
    assert (Hm : monitor_all Idle (ESys (my_malloc SIZEOF_MYSQL_FILE MY_WME) that
                  :: pre ++ ESys (my_fopen filename flags myFlags) fp :: post) = Some Idle).
    { cbn [monitor_all monitor mbind option_bind] in H1 |- *.
      rewrite monitor_all_app in H1 |- *. exact H1. }
    destruct (fp =? 0).
    + unfold ask_sys. destruct (sys_answer _ _). intros [= <-]. exact (monitor_sys_idle _ _ _ Hm).
    + by intros [= <-].
  - unfold spec_fclose. destruct (file =? 0); [by intros [= <-]|].
    destruct (load_field file m_file (w_heap w)) as [fp|]; [|done]. cbn.
    assert (Hc : bracket_ok (close_bracket loc (hook (w_heap w) file))) by (split; done).
    pose proof (spec_wait_monitor (hook_on cfg file w) _ (my_fclose fp flags) w Hc) as Hm.
    destruct (spec_wait _ _ _ w) as [[r w1] t]. unfold ask_sys. destruct (sys_answer _ _).
    intros [= <-]. by apply monitor_sys_idle.
  - intros [= <-]. unfold spec_create_temp, ask_sys, ask_psi. destruct (sys_answer _ _).
    by destruct (psi_on cfg); [destruct (psi_answer _ _)|].
Qed.

Lemma spec_file_silent cfg loc header op w x :
  psi_on cfg = false -> spec_file cfg loc header op w = Some x -> psi_events x.2 = [].
Proof.
  intros Hoff. unfold spec_file, hook_on. rewrite Hoff. cbn [andb].
  destruct (action_of loc header op).
  - destruct (load_field file m_file (w_heap w)); [|done]. cbn [mbind option_bind]. intros Hx.
    apply (inj Some) in Hx as <-. exact (spec_wait_silent _ _ _).
  - intros Hx. apply (inj Some) in Hx as <-. exact (spec_wait_silent _ _ _).
  - destruct (load_field file m_file (w_heap w)); [|done]. cbn. unfold ask_sys.
    destruct (sys_answer _ _). by intros [= <-].
  - unfold spec_fopen, spec_open_start, spec_open_end, ask_sys. rewrite Hoff. cbn.
    destruct (sys_answer _ _) as [that s1]. destruct (that =? 0); [by intros [= <-]|].
    destruct (w_heap w !! that); [done|]. cbn. destruct (sys_answer _ _) as [fp s2].
    destruct (fp =? 0); cbn; [destruct (sys_answer _ _)|]; by intros [= <-].
  - unfold spec_fclose, hook_on. rewrite Hoff. destruct (file =? 0); [by intros [= <-]|].
    destruct (load_field file m_file (w_heap w)) as [fp|]; [|done].
    cbn -[spec_wait]. pose proof (spec_wait_silent (close_bracket loc (hook (w_heap w) file))
      (my_fclose fp flags) w) as Hm.
    destruct (spec_wait _ _ _ w) as [[r w1] t]. unfold ask_sys. destruct (sys_answer _ _).
    intros Hx. apply (inj Some) in Hx as <-. cbn [fst snd] in Hm |- *.
    by rewrite psi_events_app, Hm.
  - intros [= <-]. unfold spec_create_temp, ask_sys. rewrite Hoff. by destruct (sys_answer _ _).
Qed.

(** The runs of clients, in terms of the specification. *)
Lemma run_client_do cfg header loc op k w :
  hooks_set (w_heap w) ->
  run_client cfg header (Do loc op k) w
  = (x ← spec_file cfg loc header op w;
     y ← run_client cfg header (k x.1.1) x.1.2;
     Some (x.1.1 :: y.1.1, y.1.2, x.2 ++ y.2)).
Proof. intros Hs. cbn. by rewrite file_prog_spec. Qed.

Lemma view_client cfg cfg' header c : forall w w',
  hooks_set (w_heap w) -> hooks_set (w_heap w') -> same_files w w' ->
  view <$> run_client cfg header c w = view <$> run_client cfg' header c w'.
Proof.
  induction c as [|loc op k IH]; intros w w' Hh Hh' Hw.
  { cbn. destruct Hw as [Hs Hf]. unfold view. cbn. by rewrite Hs, Hf. }
  rewrite !run_client_do by done.
  pose proof (view_file cfg cfg' loc header op w w' Hw) as Hv.
  destruct (spec_file cfg loc header op w) as [x|] eqn:Hx,
    (spec_file cfg' loc header op w') as [x'|] eqn:Hx'; try done.
  cbn in Hv. injection Hv as Hr Hs Hf Ht. cbn [mbind option_bind]. rewrite <- Hr.
  specialize (IH x.1.1 x.1.2 x'.1.2). 
  pose proof (spec_file_hooks _ _ _ _ _ _ Hh Hx) as H1.
  pose proof (spec_file_hooks _ _ _ _ _ _ Hh' Hx') as H2.
  specialize (IH H1 H2 (conj Hs Hf)).
  destruct (run_client cfg header (k x.1.1) x.1.2) as [y|],
    (run_client cfg' header (k x.1.1) x'.1.2) as [y'|]; try done.
  cbn in IH |- *. injection IH as Hr' Hs' Hf' Ht'. unfold view. cbn.
  split_events. by rewrite Ht, Ht', Hr', Hs', Hf'.
Qed.

Lemma client_traces cfg header c (P : list event -> Prop) (Q : file_op -> Prop) :
  P [] -> (forall t1 t2, P t1 -> P t2 -> P (t1 ++ t2)) ->
  (forall loc op w x, Q op -> spec_file cfg loc header op w = Some x -> P x.2) ->
  client_ops Q c -> forall w x,
  hooks_set (w_heap w) -> run_client cfg header c w = Some x -> P x.2.
Proof.
  intros H0 Happ Hop. induction c as [|loc op k IH]; intros Hq w x Hh Hx.
  { by injection Hx as <-. }
  destruct Hq as [Hq Hk]. rewrite run_client_do in Hx by done.
  destruct (spec_file cfg loc header op w) as [y|] eqn:Hy; [|done]. cbn in Hx.
  destruct (run_client cfg header (k y.1.1) y.1.2) as [z|] eqn:Hz; [|done]. injection Hx as <-.
  cbn. apply Happ; [by eapply Hop|]. eapply IH; [by apply Hk| |done]. by eapply spec_file_hooks.
Qed.
End ClientLemmas.

(** ** A concrete environment

    Memory is handed out in steps of 16 bytes; reads and writes transfer
    everything, formatted output fails, other calls return 1; handles and
    lockers are numbered from 1. *)

#[local] Instance file_env : Env := {|
  sys_state := Z;
  psi_state := Z;
  sys_answer := fun s c =>
    match c with
    | my_malloc n _ => (s, s + 16)
    | my_read _ _ n fl | my_write _ _ n fl => (if Z.land fl 6 =? 0 then n else 0, s)
    | vfprintf _ _ _ => (-1, s)
    | _ => (1, s)
    end;
  psi_answer := fun n c => (n, n + 1);
  c_strlen := fun _ _ => 5;
|}.

Definition demo_world : world := {| w_heap := ∅; w_sys := 4096 : @sys_state file_env; w_psi := 1 |}.

Definition demo_client : client :=
  Do (7, 20) (Fopen 3 500 0 0) (fun f =>
  Do (7, 21) (Fgets 600 80 f) (fun _ =>
  Do (7, 22) (Fprintf f 610 620) (fun _ =>
  Do (7, 23) (Read 9 700 32 MY_NABP) (fun _ =>
  Do (7, 24) (CreateTemp 4 800 810 820 0 0) (fun _ =>
  Do (7, 25) (Fclose f 0) (fun r => Done)))))).

Lemma hooks_set_empty : hooks_set ∅.
Proof. intros p o. by rewrite lookup_empty. Qed.

(** ** Properties *)

(** C1.  Every macro of mysql_file.h implements its specification in every
    configuration and on every state, faults included: which events
    surround the call, with which byte counts, what happens to the
    structure, and what is returned. *)
Theorem file_refines_spec `{E : Env} (cfg : config) (loc : srcloc) (header : Z)
    (op : file_op) (w : world) :
  hooks_set (w_heap w) ->
  run (file_prog cfg loc header op) w = spec_file cfg loc header op w.
Proof. apply file_prog_spec. Qed.

Lemma file_refines_spec_witness :
  let cfg := {| have_psi := true; safe_mutex := false; PSI_server := 1 |} in
  run (file_prog cfg (7, 20) 70 (Fopen 3 500 0 0)) demo_world
  = spec_file cfg (7, 20) 70 (Fopen 3 500 0 0) demo_world.
Proof.
  apply (file_refines_spec {| have_psi := true; safe_mutex := false; PSI_server := 1 |}
    (7, 20) 70 (Fopen 3 500 0 0) demo_world).
  apply hooks_set_empty.
Defined.

(** C8.  Instrumentation is invisible to a client: in any two configurations,
    whatever the server answers, an adaptive client of the file operations
    gets the same results, makes the same system calls in the same order, ends
    in the same state of the system with the same files, or fails in both. *)
Theorem file_client_transparent `{E : Env} (cfg cfg' : config) (header : Z) (c : client)
    (w w' : world) :
  hooks_set (w_heap w) -> hooks_set (w_heap w') -> same_files w w' ->
  view <$> run_client cfg header c w = view <$> run_client cfg' header c w'.
Proof. apply view_client. Qed.

Lemma file_client_transparent_witness :
  let on := {| have_psi := true; safe_mutex := false; PSI_server := 1 |} in
  let off := {| have_psi := false; safe_mutex := false; PSI_server := 0 |} in
  is_Some (run_client off 70 demo_client demo_world)
  /\ view <$> run_client on 70 demo_client demo_world
     = view <$> run_client off 70 demo_client demo_world.
Proof.
  split; [vm_compute; eexists; reflexivity|].
  apply (file_client_transparent {| have_psi := true; safe_mutex := false; PSI_server := 1 |}
    {| have_psi := false; safe_mutex := false; PSI_server := 0 |} 70 demo_client
    demo_world demo_world).
  - apply hooks_set_empty.
  - apply hooks_set_empty.
  - split; reflexivity.
Defined.

(** C10.  A client that does not use [mysql_file_stat] obeys the waiting protocol:
    open events are closed by open events, file events by file events, on the
    same locker, around the system call, and no wait is left open.  Without the
    interface or without a server no call is made to the server. *)
Theorem file_client_protocol `{E : Env} (cfg : config) (header : Z) (c : client) (w : world)
    (x : list Z * world * list event) :
  hooks_set (w_heap w) -> client_ops (fun op => is_stat op = false) c ->
  run_client cfg header c w = Some x ->
  monitor_all Idle x.2 = Some Idle /\ (psi_on cfg = false -> psi_events x.2 = []).
Proof.
  intros Hh Hc Hx. split.
  - revert Hh Hx. apply (client_traces cfg header c (fun t => monitor_all Idle t = Some Idle)
      (fun op => is_stat op = false)); try done.
    + intros t1 t2 H1 H2. by rewrite monitor_all_app, H1.
    + intros. by eapply spec_file_monitor.
  - intros Hoff. revert Hh Hx.
    apply (client_traces cfg header c (fun t => psi_events t = []) (fun op => is_stat op = false));
      try done.
    + intros t1 t2 H1 H2. by rewrite psi_events_app, H1, H2.
    + intros. by eapply spec_file_silent.
Qed.

Lemma file_client_protocol_witness :
  let cfg := {| have_psi := true; safe_mutex := false; PSI_server := 1 |} in
  exists x, run_client cfg 70 demo_client demo_world = Some x
    /\ monitor_all Idle x.2 = Some Idle /\ (psi_on cfg = false -> psi_events x.2 = []).
Proof.
  destruct (run_client {| have_psi := true; safe_mutex := false; PSI_server := 1 |} 70
    demo_client demo_world) as [x|] eqn:Hx.
  - exists x. split; [exact Hx|].
    apply (file_client_protocol {| have_psi := true; safe_mutex := false; PSI_server := 1 |} 70
      demo_client demo_world x).
    + apply hooks_set_empty.
    + vm_compute. repeat split.
    + exact Hx.
  - vm_compute in Hx. discriminate.
Defined.

(** [mysql_file_stat] starts an open wait and ends it as a file wait: with a
    server that gives a locker its events are exactly these, and the protocol
    rejects them. *)
Theorem file_stat_mixes_events `{E : Env} (cfg : config) (loc : srcloc) (header K p s fl : Z) (w : world) :
  psi_on cfg = true ->
  exists r w' t, run (file_prog cfg loc header (Stat K p s fl)) w = Some (r, w', t)
    /\ let l := (ask_psi (Locker (get_thread_file_name_locker K PSI_FILE_STAT p IdLocker)) w).1 in
       (l <> NULL -> (psi_events t).*1
          = [Locker (get_thread_file_name_locker K PSI_FILE_STAT p IdLocker);
             FileWait (start_file_open_wait l loc.1 loc.2); FileWait (end_file_wait l 0)]
          /\ monitor_all Idle t = None)
       /\ (l = NULL -> monitor_all Idle t = Some Idle).
Proof.
  intros Hon. rewrite file_server_spec by done. unfold spec_file, action_of. rewrite Hon.
  unfold spec_wait, stat_bracket, ask_psi, ask_sys. cbn [b_locker b_start b_stop].
  destruct (psi_answer (w_psi w) _) as [l s1]. destruct (Z.eqb_spec l 0) as [->|Hl].
  - destruct (sys_answer _ _) as [r s2]. by do 3 eexists.
  - cbn. destruct (psi_answer s1 _) as [r1 s2]. cbn. destruct (sys_answer _ _) as [r s3]. cbn.
    destruct (psi_answer s2 _) as [r2 s4]. do 3 eexists. split; [reflexivity|].
    split; [intros _|done]. split; [done|]. cbn.
    destruct (Z.eqb_spec l 0); [done|]. cbn. done.
Qed.

Lemma file_stat_mixes_events_witness :
  let cfg := {| have_psi := true; safe_mutex := false; PSI_server := 1 |} in
  exists r w' t, run (file_prog cfg (7, 1) 70 (Stat 2 500 600 0)) demo_world = Some (r, w', t)
    /\ let l := (ask_psi (Locker (get_thread_file_name_locker 2 PSI_FILE_STAT 500 IdLocker))
                   demo_world).1 in
       (l <> NULL -> (psi_events t).*1
          = [Locker (get_thread_file_name_locker 2 PSI_FILE_STAT 500 IdLocker);
             FileWait (start_file_open_wait l 7 1); FileWait (end_file_wait l 0)]
          /\ monitor_all Idle t = None)
       /\ (l = NULL -> monitor_all Idle t = Some Idle).
Proof.
  apply (file_stat_mixes_events {| have_psi := true; safe_mutex := false; PSI_server := 1 |}
    (7, 1) 70 2 500 600 0 demo_world).
  reflexivity.
Defined.

(** A read or write operation: the bytes it asks for, its flags and its call. *)
Definition transfer (op : file_op) : option (Z * Z) :=
  match op with
  | Fread _ _ n fl | Fwrite _ _ n fl | Read _ _ n fl | Write _ _ n fl
  | Pread _ _ n _ fl | Pwrite _ _ n _ fl => Some (n, fl)
  | _ => None
  end.

(** What my_read, my_write and their variants may return: with [MY_NABP] or
    [MY_FNABP] 0 for success, otherwise the number of bytes; [MY_FILE_ERROR]
    for an error. *)
Definition transfer_result (n fl r : Z) : Prop :=
  r = MY_FILE_ERROR
  \/ if Z.land fl (Z.lor MY_NABP MY_FNABP) =? 0 then 0 <= r <= n else r = 0.

(** C14.  Byte accounting of the six read and write operations: a wait asks for
    the byte count of the call, and reports the bytes that were moved: the
    whole count or the result when the call succeeded, 0 when it failed, and
    never more than was asked for. *)
Theorem transfer_bytes_reported `{E : Env} (cfg : config) (loc : srcloc) (header : Z)
    (op : file_op) (w : world) (n fl r : Z) (w' : world) (t : list event) :
  hooks_set (w_heap w) -> transfer op = Some (n, fl) -> 0 <= n < MY_FILE_ERROR ->
  run (file_prog cfg loc header op) w = Some (r, w', t) -> transfer_result n fl r ->
  Forall (fun k => k = n) (requested_bytes t)
  /\ Forall (fun k => 0 <= k <= n
       /\ (r = MY_FILE_ERROR -> k = 0)
       /\ (r <> MY_FILE_ERROR ->
           k = if Z.land fl (Z.lor MY_NABP MY_FNABP) =? 0 then r else n)) (reported_bytes t)
  /\ length (requested_bytes t) = length (reported_bytes t).
Proof.
  intros Hh Ht Hn Hrun Hr. rewrite file_prog_spec in Hrun by done.
  assert (Hb : exists on lk c, Some (r, w', t)
    = Some (spec_wait on (file_bracket lk (fun _ => n) loc (fun _ _ r => bytes_done fl n r)) c w)).
  { rewrite <- Hrun. unfold spec_file. destruct op; try discriminate; injection Ht as <- <-;
      cbn [action_of]; try (by do 3 eexists).
    all: destruct (load_field FD m_file (w_heap w)) as [fp|] eqn:Hfp; [by do 3 eexists|].
    all: unfold spec_file in Hrun; cbn [action_of] in Hrun; rewrite Hfp in Hrun; discriminate. }
  clear Hrun Ht. destruct Hb as (on & lk & c & Hb). apply (inj Some) in Hb.
  assert (Hk : 0 <= bytes_done fl n r <= n
    /\ (r = MY_FILE_ERROR -> bytes_done fl n r = 0)
    /\ (r <> MY_FILE_ERROR -> bytes_done fl n r
        = if Z.land fl (Z.lor MY_NABP MY_FNABP) =? 0 then r else n)).
  { unfold bytes_done, transfer_result in *. assert (MY_FILE_ERROR = 4294967295) as He by done.
    rewrite He in *. destruct (Z.land _ _ =? 0); cbn [negb];
    destruct (Z.eqb_spec r 4294967295), (Z.eqb_spec r 0); cbn [negb]; lia. }
  revert Hb. unfold spec_wait, ask_psi, ask_sys, file_bracket. cbn [b_locker b_start b_stop].
  destruct on; repeat (cbn; exec_step); cbn; intros [= -> -> ->]; cbn; auto.
Qed.

Lemma transfer_bytes_reported_witness :
  let cfg := {| have_psi := true; safe_mutex := false; PSI_server := 1 |} in
  exists w' t, run (file_prog cfg (7, 1) 70 (Read 9 700 32 MY_NABP)) demo_world = Some (0, w', t)
    /\ Forall (fun k => k = 32) (requested_bytes t)
    /\ Forall (fun k => 0 <= k <= 32 /\ (0 = MY_FILE_ERROR -> k = 0)
         /\ (0 <> MY_FILE_ERROR -> k = 32)) (reported_bytes t)
    /\ length (requested_bytes t) = length (reported_bytes t).
Proof.
  do 2 eexists. split; [vm_compute; reflexivity|].
  apply (transfer_bytes_reported {| have_psi := true; safe_mutex := false; PSI_server := 1 |}
    (7, 1) 70 (Read 9 700 32 MY_NABP) demo_world 32 MY_NABP 0
    {| w_heap := ∅; w_sys := 4096 : @sys_state file_env; w_psi := 4 |}).
  - apply hooks_set_empty.
  - reflexivity.
  - vm_compute. split; [discriminate|reflexivity].
  - vm_compute. reflexivity.
  - right. reflexivity.
Defined.

(** The memory events of a trace: structures allocated and released. *)
Definition mallocs (t : list event) : list Z :=
  omap (fun e => match e with
                 | ESys (my_malloc _ _) r => if r =? NULL then None else Some r
                 | _ => None end) t.

Definition frees (t : list event) : list Z :=
  omap (fun e => match e with ESys (my_free p) _ => Some p | _ => None end) t.

(** The answer of the environment to the allocation of a structure. *)
Definition new_struct `{E : Env} (w : world) : Z :=
  (sys_answer (w_sys w) (my_malloc SIZEOF_MYSQL_FILE MY_WME)).1.

Lemma spec_open_start_memory `{E : Env} cfg loc key filename that w :
  let x := spec_open_start cfg loc key filename that w in
  w_heap x.1.2 = w_heap w /\ mallocs x.2 = [] /\ frees x.2 = [].
Proof. unfold spec_open_start, ask_psi. destruct (psi_on cfg); repeat (cbn; exec_step); done. Qed.

Lemma spec_open_end_memory `{E : Env} l w :
  let x := spec_open_end l w in
  w_heap x.1 = w_heap w /\ mallocs x.2 = [] /\ frees x.2 = [].
Proof. unfold spec_open_end, ask_psi. destruct (l =? 0); repeat (cbn; exec_step); done. Qed.

(** C12.  [mysql_file_fopen] never leaks its structure: provided the allocator
    returns unused memory, it terminates without fault; on failure it returns
    [NULL], everything it allocated was released and the heap is unchanged; on
    success it returns the one new structure, whose file is a non-null
    [FILE] and whose hook is set. *)
Theorem fopen_releases_on_failure `{E : Env} (cfg : config) (loc : srcloc) (K N F1 F2 : Z) (w : world) :
  new_struct w = NULL \/ w_heap w !! new_struct w = None ->
  exists r w' t, run (mysql_file_fopen cfg loc K N F1 F2) w = Some (r, w', t)
    /\ (r = NULL -> w_heap w' = w_heap w /\ mallocs t = frees t)
    /\ (r <> NULL -> r = new_struct w /\ mallocs t = [r] /\ frees t = []
         /\ exists h fp, w_heap w' = <[r := {| o_psi := Some h; o_file := Some fp |}]> (w_heap w)
              /\ fp <> NULL).
Proof.
  intros Hnew. rewrite fopen_spec. unfold new_struct in *. unfold spec_fopen, ask_sys at 1.
  destruct (sys_answer (w_sys w) _) as [that s1]. cbn [fst] in Hnew.
  destruct (Z.eqb_spec that 0) as [->|Hz].
  { do 3 eexists. split; [reflexivity|]. done. }
  destruct Hnew as [?|Hnew]; [done|]. cbn [w_heap]. rewrite Hnew.
  pose proof (spec_open_start_memory cfg loc K N that
    {| w_heap := w_heap w; w_sys := s1; w_psi := w_psi w |}) as H1.
  destruct (spec_open_start _ _ _ _ _ _) as [[[h l] w2] pre]. cbn [fst snd] in H1.
  destruct H1 as (E1 & E2 & E3). unfold ask_sys at 1. destruct (sys_answer _ _) as [fp s2].
  pose proof (spec_open_end_memory l {| w_heap := w_heap w2; w_sys := s2; w_psi := w_psi w2 |}) as H2.
  destruct (spec_open_end l _) as [w4 post]. cbn [fst snd w_heap] in E1, H2.
  destruct H2 as (F1' & F2' & F3').
  assert (Hm : forall t1 t2, mallocs (t1 ++ t2) = mallocs t1 ++ mallocs t2)
    by (intros; apply omap_app).
  assert (Hf : forall t1 t2, frees (t1 ++ t2) = frees t1 ++ frees t2) by (intros; apply omap_app).
  assert (Hmt : mallocs (ESys (my_malloc SIZEOF_MYSQL_FILE MY_WME) that
                 :: pre ++ ESys (my_fopen N F1 F2) fp :: post) = [that]).
  { change (?e :: pre ++ ?f :: post) with ([e] ++ pre ++ [f] ++ post).
    rewrite !Hm, E2, F2'. cbn. destruct (Z.eqb_spec that 0); done. }
  assert (Hft : frees (ESys (my_malloc SIZEOF_MYSQL_FILE MY_WME) that
                 :: pre ++ ESys (my_fopen N F1 F2) fp :: post) = []).
  { change (?e :: pre ++ ?f :: post) with ([e] ++ pre ++ [f] ++ post).
    by rewrite !Hf, E3, F3'. }
  destruct (Z.eqb_spec fp 0) as [->|Hfp].
  - unfold ask_sys. destruct (sys_answer _ _) as [r s3]. do 3 eexists. split; [reflexivity|].
    split; [intros _|done]. cbn [w_heap]. split; [by rewrite F1', E1|].
    by rewrite Hm, Hf, Hmt, Hft.
  - do 3 eexists. split; [reflexivity|]. split; [done|]. intros _. split_and!; try done.
    exists h, fp. split; [|done]. cbn. by rewrite F1', E1.
Qed.

Lemma fopen_releases_on_failure_witness :
  let cfg := {| have_psi := true; safe_mutex := false; PSI_server := 1 |} in
  exists r w' t, run (mysql_file_fopen cfg (7, 20) 3 500 0 0) demo_world = Some (r, w', t)
    /\ (r = NULL -> w_heap w' = ∅ /\ mallocs t = frees t)
    /\ (r <> NULL -> r = new_struct demo_world /\ mallocs t = [r] /\ frees t = []
         /\ exists h fp, w_heap w' = <[r := {| o_psi := Some h; o_file := Some fp |}]> ∅
              /\ fp <> NULL).
Proof.
  apply (fopen_releases_on_failure {| have_psi := true; safe_mutex := false; PSI_server := 1 |}
    (7, 20) 3 500 0 0 demo_world).
  right. reflexivity.
Defined.

(** C13.  [mysql_file_fclose] of [NULL] returns 0 and does nothing, in every
    configuration; of an open file it returns what [my_fclose] returned for its
    [FILE] and releases exactly that structure, after the close. *)
Theorem fclose_releases `{E : Env} (cfg : config) (loc : srcloc) (FD FL : Z) (w : world) :
  run (mysql_file_fclose cfg loc NULL FL) w = Some (0, w, [])
  /\ forall h fp, FD <> NULL -> w_heap w !! FD = Some {| o_psi := Some h; o_file := Some fp |} ->
     exists w' t r, run (mysql_file_fclose cfg loc FD FL) w
         = Some ((sys_answer (w_sys w) (my_fclose fp FL)).1, w', t)
       /\ w_heap w' = delete FD (w_heap w)
       /\ sys_events t = [(my_fclose fp FL, (sys_answer (w_sys w) (my_fclose fp FL)).1); (my_free FD, r)].
Proof.
  split.
  { unfold mysql_file_fclose, inline_mysql_file_fclose, params. by destruct (have_psi cfg). }
  intros h fp Hz Ho.
  assert (Hlf : load_field FD m_file (w_heap w) = Some fp) by (unfold load_field; by rewrite Ho).
  assert (Hlp : load_field FD m_psi (w_heap w) = Some h) by (unfold load_field; by rewrite Ho).
  assert (Hrun : run (mysql_file_fclose cfg loc FD FL) w = spec_fclose cfg loc FD FL w).
  { destruct cfg as [hp sm srv], loc as [f n], w as [hh s q].
    unfold mysql_file_fclose, inline_mysql_file_fclose, spec_fclose, close_bracket, with_heap.
    autounfold with file_defs prog_defs. cbn [w_heap w_sys w_psi] in *.
    destruct hp; cbn -[load_field store_field size_t]; change (size_t 0) with 0; exec;
      rewrite ?Ho; done. }
  rewrite Hrun. unfold spec_fclose. destruct (Z.eqb_spec FD 0); [done|].
  rewrite Hlf. cbn [mbind option_bind].
  pose proof (spec_wait_heap (hook_on cfg FD w)
    (close_bracket loc (hook (w_heap w) FD)) (my_fclose fp FL) w) as Hh.
  destruct (spec_wait_transparent (hook_on cfg FD w)
    (close_bracket loc (hook (w_heap w) FD)) (my_fclose fp FL) w) as (H1 & H2 & H3).
  destruct (spec_wait _ _ _ w) as [[r w1] t]. cbn [fst snd] in *.
  unfold ask_sys. destruct (sys_answer (w_sys w1) _) as [r0 s]. do 3 eexists.
  split; [by rewrite H1|]. split; [cbn; by rewrite Hh|].
  by rewrite sys_events_app, H3, H1.
Qed.

Lemma fclose_releases_witness :
  let cfg := {| have_psi := true; safe_mutex := false; PSI_server := 1 |} in
  let w := {| w_heap := {[64 := {| o_psi := Some 5; o_file := Some 77 |}]};
              w_sys := 4096 : @sys_state file_env; w_psi := 9 |} in
  exists w' t r, run (mysql_file_fclose cfg (7, 20) 64 0) w = Some (1, w', t)
    /\ w_heap w' = delete 64 (w_heap w)
    /\ sys_events t = [(my_fclose 77 0, 1); (my_free 64, r)].
Proof.
  apply (fclose_releases {| have_psi := true; safe_mutex := false; PSI_server := 1 |} (7, 20) 64 0
    {| w_heap := {[64 := {| o_psi := Some 5; o_file := Some 77 |}]};
       w_sys := 4096 : @sys_state file_env; w_psi := 9 |}) with (h := 5).
  - lia.
  - reflexivity.
Defined.

(** A negative result of [vfprintf], an error, is reported to the
    server as a huge number of bytes written, by [mysql_file_fprintf] as by
    [mysql_file_vfprintf]: the result is converted to [size_t] unchecked. *)
Theorem vfprintf_failure_reported_as_bytes `{E : Env} (cfg : config) (loc : srcloc)
    (header F fmt args r : Z) (w w' : world) (t : list event) (op : file_op) :
  hooks_set (w_heap w) -> op = Fprintf F fmt args \/ op = Vfprintf F fmt args ->
  run (file_prog cfg loc header op) w = Some (r, w', t) -> - 2 ^ 31 <= r < 0 ->
  Forall (fun k => k = 2 ^ 32 + r /\ 2 ^ 31 <= k) (reported_bytes t)
  /\ (hook_on cfg F w = true ->
      (ask_psi (Locker (get_thread_file_stream_locker (hook (w_heap w) F) PSI_FILE_WRITE)) w).1 <> NULL ->
      reported_bytes t = [2 ^ 32 + r]).
Proof.
  intros Hh Hop Hrun Hr. rewrite file_prog_spec in Hrun by done.
  assert (Hk : size_t r = 2 ^ 32 + r).
  { unfold size_t, uwrap. rewrite <- (Z_mod_plus_full r 1), Z.mod_small; lia. }
  revert Hrun. unfold spec_file. destruct Hop as [-> | ->]; cbn [action_of];
    (destruct (load_field F m_file (w_heap w)) as [fp|]; [|done]; cbn [mbind option_bind];
     unfold spec_wait, ask_psi, ask_sys, file_bracket; cbn [b_locker b_start b_stop];
     destruct (hook_on cfg F w); repeat (cbn; exec_step); cbn; intros [= -> <- <-]; cbn;
     rewrite ?Hk; split; try done; try (repeat constructor; lia);
     intros _ Hz; apply Z.eqb_eq in Heqb; done).
Qed.

Lemma vfprintf_failure_reported_as_bytes_witness :
  let cfg := {| have_psi := true; safe_mutex := false; PSI_server := 1 |} in
  let w := {| w_heap := {[64 := {| o_psi := Some 5; o_file := Some 77 |}]};
              w_sys := 4096 : @sys_state file_env; w_psi := 9 |} in
  exists w' t, run (file_prog cfg (7, 1) 70 (Fprintf 64 500 600)) w = Some (-1, w', t)
    /\ Forall (fun k => k = 2 ^ 32 + -1 /\ 2 ^ 31 <= k) (reported_bytes t)
    /\ (hook_on cfg 64 w = true ->
        (ask_psi (Locker (get_thread_file_stream_locker (hook (w_heap w) 64) PSI_FILE_WRITE)) w).1 <> NULL ->
        reported_bytes t = [2 ^ 32 + -1]).
Proof.
  do 2 eexists. split; [vm_compute; reflexivity|].
  apply (vfprintf_failure_reported_as_bytes
    {| have_psi := true; safe_mutex := false; PSI_server := 1 |} (7, 1) 70 64 500 600 (-1)
    {| w_heap := {[64 := {| o_psi := Some 5; o_file := Some 77 |}]};
       w_sys := 4096 : @sys_state file_env; w_psi := 9 |}
    {| w_heap := {[64 := {| o_psi := Some 5; o_file := Some 77 |}]};
       w_sys := 4096 : @sys_state file_env; w_psi := 12 |} _ (Fprintf 64 500 600)).
  - intros p o. cbn [w_heap]. destruct (decide (p = 64)) as [->|].
    + rewrite lookup_singleton_eq. intros [= <-]. by eexists.
    + by rewrite lookup_singleton_ne.
  - by left.
  - vm_compute. reflexivity.
  - lia.
Defined.
