(* ===== verification/SqlState.v ===== *)
(** * SQLSTATE values (sql_state.h)

    The entries of the initialiser in the header: the name of an error code, its
    SQLSTATE and its ODBC 2 state; the empty string is written [EmptyString]. *)
From S2P Require Import Prelude.

Definition sqlstate_map_1 : list (string * string * string) := [
  ("ER_DUP_KEY", "23000", EmptyString);
  ("ER_OUTOFMEMORY", "HY001", "S1001");
  ("ER_OUT_OF_SORTMEMORY", "HY001", "S1001");
  ("ER_CON_COUNT_ERROR", "08004", EmptyString);
  ("ER_BAD_HOST_ERROR", "08S01", EmptyString);
  ("ER_HANDSHAKE_ERROR", "08S01", EmptyString);
  ("ER_DBACCESS_DENIED_ERROR", "42000", EmptyString);
  ("ER_ACCESS_DENIED_ERROR", "28000", EmptyString);
  ("ER_NO_DB_ERROR", "3D000", EmptyString);
  ("ER_UNKNOWN_COM_ERROR", "08S01", EmptyString);
  ("ER_BAD_NULL_ERROR", "23000", EmptyString);
  ("ER_BAD_DB_ERROR", "42000", EmptyString);
  ("ER_TABLE_EXISTS_ERROR", "42S01", EmptyString);
  ("ER_BAD_TABLE_ERROR", "42S02", EmptyString);
  ("ER_NON_UNIQ_ERROR", "23000", EmptyString);
  ("ER_SERVER_SHUTDOWN", "08S01", EmptyString);
  ("ER_BAD_FIELD_ERROR", "42S22", "S0022");
  ("ER_WRONG_FIELD_WITH_GROUP", "42000", "S1009");
  ("ER_WRONG_GROUP_FIELD", "42000", "S1009");
  ("ER_WRONG_SUM_SELECT", "42000", "S1009");
  ("ER_WRONG_VALUE_COUNT", "21S01", EmptyString);
  ("ER_TOO_LONG_IDENT", "42000", "S1009");
  ("ER_DUP_FIELDNAME", "42S21", "S1009");
  ("ER_DUP_KEYNAME", "42000", "S1009");
  ("ER_DUP_ENTRY", "23000", "S1009");
  ("ER_WRONG_FIELD_SPEC", "42000", "S1009");
  ("ER_PARSE_ERROR", "42000", "s1009");
  ("ER_EMPTY_QUERY", "42000", EmptyString);
  ("ER_NONUNIQ_TABLE", "42000", "S1009");
  ("ER_INVALID_DEFAULT", "42000", "S1009");
  ("ER_MULTIPLE_PRI_KEY", "42000", "S1009");
  ("ER_TOO_MANY_KEYS", "42000", "S1009");
  ("ER_TOO_MANY_KEY_PARTS", "42000", "S1009");
  ("ER_TOO_LONG_KEY", "42000", "S1009");
  ("ER_KEY_COLUMN_DOES_NOT_EXITS", "42000", "S1009");
  ("ER_BLOB_USED_AS_KEY", "42000", "S1009");
  ("ER_TOO_BIG_FIELDLENGTH", "42000", "S1009");
  ("ER_WRONG_AUTO_KEY", "42000", "S1009");
  ("ER_FORCING_CLOSE", "08S01", EmptyString);
  ("ER_IPSOCK_ERROR", "08S01", EmptyString);
  ("ER_NO_SUCH_INDEX", "42S12", "S1009");
  ("ER_WRONG_FIELD_TERMINATORS", "42000", "S1009");
  ("ER_BLOBS_AND_NO_TERMINATED", "42000", "S1009");
  ("ER_CANT_REMOVE_ALL_FIELDS", "42000", EmptyString);
  ("ER_CANT_DROP_FIELD_OR_KEY", "42000", EmptyString);
  ("ER_BLOB_CANT_HAVE_DEFAULT", "42000", EmptyString);
  ("ER_WRONG_DB_NAME", "42000", EmptyString);
  ("ER_WRONG_TABLE_NAME", "42000", EmptyString);
  ("ER_TOO_BIG_SELECT", "42000", EmptyString);
  ("ER_UNKNOWN_PROCEDURE", "42000", EmptyString);
  ("ER_WRONG_PARAMCOUNT_TO_PROCEDURE", "42000", EmptyString);
  ("ER_UNKNOWN_TABLE", "42S02", EmptyString);
  ("ER_FIELD_SPECIFIED_TWICE", "42000", EmptyString);
  ("ER_UNSUPPORTED_EXTENSION", "42000", EmptyString);
  ("ER_TABLE_MUST_HAVE_COLUMNS", "42000", EmptyString);
  ("ER_UNKNOWN_CHARACTER_SET", "42000", EmptyString);
  ("ER_TOO_BIG_ROWSIZE", "42000", EmptyString);
  ("ER_WRONG_OUTER_JOIN", "42000", EmptyString);
  ("ER_NULL_COLUMN_IN_INDEX", "42000", EmptyString);
  ("ER_PASSWORD_ANONYMOUS_USER", "42000", EmptyString);
  ("ER_PASSWORD_NOT_ALLOWED", "42000", EmptyString);
  ("ER_PASSWORD_NO_MATCH", "42000", EmptyString);
  ("ER_WRONG_VALUE_COUNT_ON_ROW", "21S01", EmptyString);
  ("ER_INVALID_USE_OF_NULL", "22004", EmptyString);
  ("ER_REGEXP_ERROR", "42000", EmptyString);
  ("ER_MIX_OF_GROUP_FUNC_AND_FIELDS", "42000", EmptyString);
  ("ER_NONEXISTING_GRANT", "42000", EmptyString);
  ("ER_TABLEACCESS_DENIED_ERROR", "42000", EmptyString);
  ("ER_COLUMNACCESS_DENIED_ERROR", "42000", EmptyString);
  ("ER_ILLEGAL_GRANT_FOR_TABLE", "42000", EmptyString);
  ("ER_GRANT_WRONG_HOST_OR_USER", "42000", EmptyString);
  ("ER_NO_SUCH_TABLE", "42S02", EmptyString);
  ("ER_NONEXISTING_TABLE_GRANT", "42000", EmptyString);
  ("ER_NOT_ALLOWED_COMMAND", "42000", EmptyString);
  ("ER_SYNTAX_ERROR", "42000", EmptyString);
  ("ER_ABORTING_CONNECTION", "08S01", EmptyString);
  ("ER_NET_PACKET_TOO_LARGE", "08S01", EmptyString);
  ("ER_NET_READ_ERROR_FROM_PIPE", "08S01", EmptyString);
  ("ER_NET_FCNTL_ERROR", "08S01", EmptyString);
  ("ER_NET_PACKETS_OUT_OF_ORDER", "08S01", EmptyString);
  ("ER_NET_UNCOMPRESS_ERROR", "08S01", EmptyString);
  ("ER_NET_READ_ERROR", "08S01", EmptyString);
  ("ER_NET_READ_INTERRUPTED", "08S01", EmptyString);
  ("ER_NET_ERROR_ON_WRITE", "08S01", EmptyString);
  ("ER_NET_WRITE_INTERRUPTED", "08S01", EmptyString);
  ("ER_TOO_LONG_STRING", "42000", EmptyString);
  ("ER_TABLE_CANT_HANDLE_BLOB", "42000", EmptyString);
  ("ER_TABLE_CANT_HANDLE_AUTO_INCREMENT", "42000", EmptyString);
  ("ER_WRONG_COLUMN_NAME", "42000", EmptyString);
  ("ER_WRONG_KEY_COLUMN", "42000", EmptyString);
  ("ER_DUP_UNIQUE", "23000", EmptyString);
  ("ER_BLOB_KEY_WITHOUT_LENGTH", "42000", EmptyString);
  ("ER_PRIMARY_CANT_HAVE_NULL", "42000", EmptyString);
  ("ER_TOO_MANY_ROWS", "42000", EmptyString);
  ("ER_REQUIRES_PRIMARY_KEY", "42000", EmptyString);
  ("ER_KEY_DOES_NOT_EXITS", "42000", "S1009");
  ("ER_CHECK_NO_SUCH_TABLE", "42000", EmptyString);
  ("ER_CHECK_NOT_IMPLEMENTED", "42000", EmptyString);
  ("ER_CANT_DO_THIS_DURING_AN_TRANSACTION", "25000", EmptyString);
  ("ER_NEW_ABORTING_CONNECTION", "08S01", EmptyString);
  ("ER_MASTER_NET_READ", "08S01", EmptyString);
  ("ER_MASTER_NET_WRITE", "08S01", EmptyString);
  ("ER_TOO_MANY_USER_CONNECTIONS", "42000", EmptyString);
  ("ER_READ_ONLY_TRANSACTION", "25000", EmptyString);
  ("ER_NO_PERMISSION_TO_CREATE_USER", "42000", EmptyString);
  ("ER_LOCK_DEADLOCK", "40001", EmptyString);
  ("ER_NO_REFERENCED_ROW", "23000", EmptyString);
  ("ER_ROW_IS_REFERENCED", "23000", EmptyString);
  ("ER_CONNECT_TO_MASTER", "08S01", EmptyString);
  ("ER_WRONG_NUMBER_OF_COLUMNS_IN_SELECT", "21000", EmptyString);
  ("ER_USER_LIMIT_REACHED", "42000", EmptyString);
  ("ER_SPECIFIC_ACCESS_DENIED_ERROR", "42000", EmptyString);
  ("ER_NO_DEFAULT", "42000", EmptyString);
  ("ER_WRONG_VALUE_FOR_VAR", "42000", EmptyString);
  ("ER_WRONG_TYPE_FOR_VAR", "42000", EmptyString);
  ("ER_CANT_USE_OPTION_HERE", "42000", EmptyString);
  ("ER_NOT_SUPPORTED_YET", "42000", EmptyString);
  ("ER_WRONG_FK_DEF", "42000", EmptyString);
  ("ER_OPERAND_COLUMNS", "21000", EmptyString);
  ("ER_SUBQUERY_NO_1_ROW", "21000", EmptyString);
  ("ER_ILLEGAL_REFERENCE", "42S22", EmptyString);
  ("ER_DERIVED_MUST_HAVE_ALIAS", "42000", EmptyString);
  ("ER_SELECT_REDUCED", "01000", EmptyString);
  ("ER_TABLENAME_NOT_ALLOWED_HERE", "42000", EmptyString);
  ("ER_NOT_SUPPORTED_AUTH_MODE", "08004", EmptyString);
  ("ER_SPATIAL_CANT_HAVE_NULL", "42000", EmptyString);
  ("ER_COLLATION_CHARSET_MISMATCH", "42000", EmptyString);
  ("ER_WARN_TOO_FEW_RECORDS", "01000", EmptyString);
  ("ER_WARN_TOO_MANY_RECORDS", "01000", EmptyString);
  ("ER_WARN_NULL_TO_NOTNULL", "22004", EmptyString);
  ("ER_WARN_DATA_OUT_OF_RANGE", "22003", EmptyString);
  ("WARN_DATA_TRUNCATED", "01000", EmptyString);
  ("ER_WRONG_NAME_FOR_INDEX", "42000", EmptyString);
  ("ER_WRONG_NAME_FOR_CATALOG", "42000", EmptyString);
  ("ER_UNKNOWN_STORAGE_ENGINE", "42000", EmptyString);
  ("ER_TRUNCATED_WRONG_VALUE", "22007", EmptyString);
  ("ER_SP_NO_RECURSIVE_CREATE", "2F003", EmptyString);
  ("ER_SP_ALREADY_EXISTS", "42000", EmptyString);
  ("ER_SP_DOES_NOT_EXIST", "42000", EmptyString);
  ("ER_SP_LILABEL_MISMATCH", "42000", EmptyString);
  ("ER_SP_LABEL_REDEFINE", "42000", EmptyString);
  ("ER_SP_LABEL_MISMATCH", "42000", EmptyString);
  ("ER_SP_UNINIT_VAR", "01000", EmptyString);
  ("ER_SP_BADSELECT", "0A000", EmptyString);
  ("ER_SP_BADRETURN", "42000", EmptyString);
  ("ER_SP_BADSTATEMENT", "0A000", EmptyString)
].

Definition sqlstate_map_2 : list (string * string * string) := [
  ("ER_UPDATE_LOG_DEPRECATED_IGNORED", "42000", EmptyString);
  ("ER_UPDATE_LOG_DEPRECATED_TRANSLATED", "42000", EmptyString);
  ("ER_QUERY_INTERRUPTED", "70100", EmptyString);
  ("ER_SP_WRONG_NO_OF_ARGS", "42000", EmptyString);
  ("ER_SP_COND_MISMATCH", "42000", EmptyString);
  ("ER_SP_NORETURN", "42000", EmptyString);
  ("ER_SP_NORETURNEND", "2F005", EmptyString);
  ("ER_SP_BAD_CURSOR_QUERY", "42000", EmptyString);
  ("ER_SP_BAD_CURSOR_SELECT", "42000", EmptyString);
  ("ER_SP_CURSOR_MISMATCH", "42000", EmptyString);
  ("ER_SP_CURSOR_ALREADY_OPEN", "24000", EmptyString);
  ("ER_SP_CURSOR_NOT_OPEN", "24000", EmptyString);
  ("ER_SP_UNDECLARED_VAR", "42000", EmptyString);
  ("ER_SP_FETCH_NO_DATA", "02000", EmptyString);
  ("ER_SP_DUP_PARAM", "42000", EmptyString);
  ("ER_SP_DUP_VAR", "42000", EmptyString);
  ("ER_SP_DUP_COND", "42000", EmptyString);
  ("ER_SP_DUP_CURS", "42000", EmptyString);
  ("ER_SP_SUBSELECT_NYI", "0A000", EmptyString);
  ("ER_STMT_NOT_ALLOWED_IN_SF_OR_TRG", "0A000", EmptyString);
  ("ER_SP_VARCOND_AFTER_CURSHNDLR", "42000", EmptyString);
  ("ER_SP_CURSOR_AFTER_HANDLER", "42000", EmptyString);
  ("ER_SP_CASE_NOT_FOUND", "20000", EmptyString);
  ("ER_DIVISION_BY_ZERO", "22012", EmptyString);
  ("ER_ILLEGAL_VALUE_FOR_TYPE", "22007", EmptyString);
  ("ER_PROCACCESS_DENIED_ERROR", "42000", EmptyString);
  ("ER_XAER_NOTA", "XAE04", EmptyString);
  ("ER_XAER_INVAL", "XAE05", EmptyString);
  ("ER_XAER_RMFAIL", "XAE07", EmptyString);
  ("ER_XAER_OUTSIDE", "XAE09", EmptyString);
  ("ER_XAER_RMERR", "XAE03", EmptyString);
  ("ER_XA_RBROLLBACK", "XA100", EmptyString);
  ("ER_NONEXISTING_PROC_GRANT", "42000", EmptyString);
  ("ER_DATA_TOO_LONG", "22001", EmptyString);
  ("ER_SP_BAD_SQLSTATE", "42000", EmptyString);
  ("ER_CANT_CREATE_USER_WITH_GRANT", "42000", EmptyString);
  ("ER_SP_DUP_HANDLER", "42000", EmptyString);
  ("ER_SP_NOT_VAR_ARG", "42000", EmptyString);
  ("ER_SP_NO_RETSET", "0A000", EmptyString);
  ("ER_CANT_CREATE_GEOMETRY_OBJECT", "22003", EmptyString);
  ("ER_TOO_BIG_SCALE", "42000", "S1009");
  ("ER_TOO_BIG_PRECISION", "42000", "S1009");
  ("ER_M_BIGGER_THAN_D", "42000", "S1009");
  ("ER_TOO_LONG_BODY", "42000", "S1009");
  ("ER_TOO_BIG_DISPLAYWIDTH", "42000", "S1009");
  ("ER_XAER_DUPID", "XAE08", EmptyString);
  ("ER_DATETIME_FUNCTION_OVERFLOW", "22008", EmptyString);
  ("ER_ROW_IS_REFERENCED_2", "23000", EmptyString);
  ("ER_NO_REFERENCED_ROW_2", "23000", EmptyString);
  ("ER_SP_BAD_VAR_SHADOW", "42000", EmptyString);
  ("ER_SP_WRONG_NAME", "42000", EmptyString);
  ("ER_SP_NO_AGGREGATE", "42000", EmptyString);
  ("ER_MAX_PREPARED_STMT_COUNT_REACHED", "42000", EmptyString);
  ("ER_NON_GROUPING_FIELD_USED", "42000", EmptyString);
  ("ER_FOREIGN_DUPLICATE_KEY", "23000", "S1009");
  ("ER_CANT_CHANGE_TX_ISOLATION", "25001", EmptyString);
  ("ER_WRONG_PARAMCOUNT_TO_NATIVE_FCT", "42000", EmptyString);
  ("ER_WRONG_PARAMETERS_TO_NATIVE_FCT", "42000", EmptyString);
  ("ER_WRONG_PARAMETERS_TO_STORED_FCT", "42000", EmptyString);
  ("ER_DUP_ENTRY_WITH_KEY_NAME", "23000", "S1009");
  ("ER_XA_RBTIMEOUT", "XA106", EmptyString);
  ("ER_XA_RBDEADLOCK", "XA102", EmptyString);
  ("ER_FUNC_INEXISTENT_NAME_COLLISION", "42000", EmptyString);
  ("ER_DUP_SIGNAL_SET", "42000", EmptyString);
  ("ER_SIGNAL_WARN", "01000", EmptyString);
  ("ER_SIGNAL_NOT_FOUND", "02000", EmptyString);
  ("ER_SIGNAL_EXCEPTION", "HY000", EmptyString);
  ("ER_RESIGNAL_WITHOUT_ACTIVE_HANDLER", "0K000", EmptyString);
  ("ER_SPATIAL_MUST_HAVE_GEOM_COL", "42000", EmptyString);
  ("ER_DATA_OUT_OF_RANGE", "22003", EmptyString);
  ("ER_ACCESS_DENIED_NO_PASSWORD_ERROR", "28000", EmptyString);
  ("ER_TRUNCATE_ILLEGAL_FK", "42000", EmptyString)
].

Definition sqlstate_map : list (string * string * string) :=
  sqlstate_map_1 ++ sqlstate_map_2.
