(* ===== verification/Errors.v ===== *)
(** * Consistency of the error tables

    Lookups in the tables of the server errors (mysqld_error.h, mysqld_ername.h),
    of the SQLSTATE values (sql_state.h) and of the client errors (errmsg.h), and
    the grammar of the message formats (service_my_snprintf.h). *)
From Stdlib Require Import Ascii Sorted.
From S2P Require Import Prelude ErrorCodes ErrorNames SqlState.
#[local] Open Scope Z_scope.

(** ** Client error codes (errmsg.h) *)

Definition CR_MIN_ERROR : Z := 2000.
Definition CR_MAX_ERROR : Z := 2999.
Definition CR_ERROR_FIRST : Z := 2000.
Definition CR_ERROR_LAST : Z := 2059.

Definition client_error_codes : list (string * Z) := [
  ("CR_UNKNOWN_ERROR", 2000);
  ("CR_SOCKET_CREATE_ERROR", 2001);
  ("CR_CONNECTION_ERROR", 2002);
  ("CR_CONN_HOST_ERROR", 2003);
  ("CR_IPSOCK_ERROR", 2004);
  ("CR_UNKNOWN_HOST", 2005);
  ("CR_SERVER_GONE_ERROR", 2006);
  ("CR_VERSION_ERROR", 2007);
  ("CR_OUT_OF_MEMORY", 2008);
  ("CR_WRONG_HOST_INFO", 2009);
  ("CR_LOCALHOST_CONNECTION", 2010);
  ("CR_TCP_CONNECTION", 2011);
  ("CR_SERVER_HANDSHAKE_ERR", 2012);
  ("CR_SERVER_LOST", 2013);
  ("CR_COMMANDS_OUT_OF_SYNC", 2014);
  ("CR_NAMEDPIPE_CONNECTION", 2015);
  ("CR_NAMEDPIPEWAIT_ERROR", 2016);
  ("CR_NAMEDPIPEOPEN_ERROR", 2017);
  ("CR_NAMEDPIPESETSTATE_ERROR", 2018);
  ("CR_CANT_READ_CHARSET", 2019);
  ("CR_NET_PACKET_TOO_LARGE", 2020);
  ("CR_EMBEDDED_CONNECTION", 2021);
  ("CR_PROBE_SLAVE_STATUS", 2022);
  ("CR_PROBE_SLAVE_HOSTS", 2023);
  ("CR_PROBE_SLAVE_CONNECT", 2024);
  ("CR_PROBE_MASTER_CONNECT", 2025);
  ("CR_SSL_CONNECTION_ERROR", 2026);
  ("CR_MALFORMED_PACKET", 2027);
  ("CR_WRONG_LICENSE", 2028);
  ("CR_NULL_POINTER", 2029);
  ("CR_NO_PREPARE_STMT", 2030);
  ("CR_PARAMS_NOT_BOUND", 2031);
  ("CR_DATA_TRUNCATED", 2032);
  ("CR_NO_PARAMETERS_EXISTS", 2033);
  ("CR_INVALID_PARAMETER_NO", 2034);
  ("CR_INVALID_BUFFER_USE", 2035);
  ("CR_UNSUPPORTED_PARAM_TYPE", 2036);
  ("CR_SHARED_MEMORY_CONNECTION", 2037);
  ("CR_SHARED_MEMORY_CONNECT_REQUEST_ERROR", 2038);
  ("CR_SHARED_MEMORY_CONNECT_ANSWER_ERROR", 2039);
  ("CR_SHARED_MEMORY_CONNECT_FILE_MAP_ERROR", 2040);
  ("CR_SHARED_MEMORY_CONNECT_MAP_ERROR", 2041);
  ("CR_SHARED_MEMORY_FILE_MAP_ERROR", 2042);
  ("CR_SHARED_MEMORY_MAP_ERROR", 2043);
  ("CR_SHARED_MEMORY_EVENT_ERROR", 2044);
  ("CR_SHARED_MEMORY_CONNECT_ABANDONED_ERROR", 2045);
  ("CR_SHARED_MEMORY_CONNECT_SET_ERROR", 2046);
  ("CR_CONN_UNKNOW_PROTOCOL", 2047);
  ("CR_INVALID_CONN_HANDLE", 2048);
  ("CR_SECURE_AUTH", 2049);
  ("CR_FETCH_CANCELED", 2050);
  ("CR_NO_DATA", 2051);
  ("CR_NO_STMT_METADATA", 2052);
  ("CR_NO_RESULT_SET", 2053);
  ("CR_NOT_IMPLEMENTED", 2054);
  ("CR_SERVER_LOST_EXTENDED", 2055);
  ("CR_STMT_CLOSED", 2056);
  ("CR_NEW_STMT_METADATA", 2057);
  ("CR_ALREADY_CONNECTED", 2058);
  ("CR_AUTH_PLUGIN_CANNOT_LOAD", 2059)
].

(** [ER(X)] indexes the array of client messages. *)
Definition ER (X : Z) : Z := X - CR_MIN_ERROR.

(** Buffer sizes of mysql_com.h and my_sys.h. *)
Definition MYSQL_ERRMSG_SIZE : Z := 512.
Definition MYSYS_ERRMSG_SIZE : Z := 512.
Definition SQLSTATE_LENGTH : Z := 5.

(** ** Lookups *)

Fixpoint assoc {A : Type} (k : string) (l : list (string * A)) : option A :=
  match l with
  | [] => None
  | (k', a) :: l => if String.eqb k k' then Some a else assoc k l
  end.

(** The value of the macro [name]. *)
Definition error_code (name : string) : option Z := assoc name error_codes.

(** The name and the message of the entry for a code, at its index in the table. *)
Definition error_entry (code : Z) : option (string * Z * string) :=
  if (ER_ERROR_FIRST <=? code) && (code <=? ER_ERROR_LAST)
  then error_names !! Z.to_nat (code - ER_ERROR_FIRST) else None.

Definition sqlstate_of (code : Z) : option string :=
  match list_find (fun e => error_code e.1.1 = Some code) sqlstate_map with
  | Some (_, e) => Some e.1.2
  | None => None
  end.

(** ** Message formats

    The grammar of service_my_snprintf.h, [% flags width precision length format], as
    an automaton over the characters; it returns the conversions of a
    format. *)

Inductive dim := NoDim | Star | Num (n : Z).
Record conversion := { c_width : dim; c_prec : dim; c_len : Z; c_fmt : Ascii.ascii }.

Inductive fstate :=
| FText
| FFlags
| FWidth (w : dim)
| FPrec (w p : dim)
| FLen (w p : dim) (n : Z).

#[local] Abbreviation code := (fun c => Z.of_N (Ascii.N_of_ascii c)).
Definition is_digit (c : Ascii.ascii) : bool := (48 <=? code c) && (code c <=? 57).
Definition is_in (c : Ascii.ascii) (s : string) : bool :=
  existsb (Ascii.eqb c) (String.list_ascii_of_string s).

Definition add_digit (d : dim) (c : Ascii.ascii) : option dim :=
  match d with
  | NoDim => Some (Num (code c - 48))
  | Num n => Some (Num (10 * n + (code c - 48)))
  | Star => None
  end.

(** A format character, or a length modifier, ends the dimensions. *)
Definition finish (w p : dim) (n : Z) (c : Ascii.ascii) : option (fstate * list conversion) :=
  if is_in c "sbcdiuxoXp"
  then Some (FText, [{| c_width := w; c_prec := p; c_len := n; c_fmt := c |}])
  else if Ascii.eqb c "l"%char && (n <? 2) || Ascii.eqb c "z"%char && (n =? 0)
  then Some (FLen w p (if Ascii.eqb c "z"%char then 3 else n + 1), [])
  else None.

Definition fstep (s : fstate) (c : Ascii.ascii) : option (fstate * list conversion) :=
  let dims w :=
    if is_digit c then d ← add_digit w c; Some (FWidth d, [])
    else if Ascii.eqb c "*"%char then match w with NoDim => Some (FWidth Star, []) | _ => None end
    else if Ascii.eqb c "."%char then Some (FPrec w NoDim, [])
    else finish w NoDim 0 c in
  match s with
  | FText => Some (if Ascii.eqb c "%"%char then FFlags else FText, [])
  | FFlags => if is_in c "0-`" then Some (FFlags, []) else dims NoDim
  | FWidth w => dims w
  | FPrec w p =>
    if is_digit c then d ← add_digit p c; Some (FPrec w d, [])
    else if Ascii.eqb c "*"%char then match p with NoDim => Some (FPrec w Star, []) | _ => None end
    else finish w p 0 c
  | FLen w p n => finish w p n c
  end.

Fixpoint conversions_from (s : fstate) (f : string) : option (list conversion) :=
  match f with
  | EmptyString => match s with FText => Some [] | _ => None end
  | String c f =>
    x ← fstep s c;
    l ← conversions_from x.1 f;
    Some (x.2 ++ l)
  end.

Definition conversions (f : string) : option (list conversion) := conversions_from FText f.

(** ** Checks *)

Definition printable (c : Ascii.ascii) : bool := (32 <=? code c) && (code c <=? 126) || (code c =? 10).

Definition all_chars (f : Ascii.ascii -> bool) (s : string) : bool :=
  forallb f (String.list_ascii_of_string s).

Definition is_upper (c : Ascii.ascii) : bool := (65 <=? code c) && (code c <=? 90).

(** Five digits or capital letters. *)
Definition state_shape (s : string) : bool :=
  (Z.of_nat (String.length s) =? SQLSTATE_LENGTH) && all_chars (fun c => is_digit c || is_upper c) s.

Definition message_ok (m : string) : bool :=
  all_chars printable m && (Z.of_nat (String.length m) <? MYSQL_ERRMSG_SIZE)
  && match conversions m with
     | Some l => forallb (fun c => is_in (c_fmt c) "sdu" &&
         (if is_in (c_fmt c) "s" then c_len c =? 0 else c_len c <=? 1)) l
     | None => false end.

Fixpoint increasing (l : list Z) : bool :=
  match l with
  | a :: (b :: _) as r => (a <? b) && increasing r
  | _ => true
  end.

(** ** Lemmas *)

Lemma increasing_sorted (l : list Z) : increasing l = true -> StronglySorted Z.lt l.
Proof.
  induction l as [|a [|b l] IH]; [constructor|by repeat constructor|].
  cbn -[increasing]. change (increasing (a :: b :: l)) with ((a <? b) && increasing (b :: l)).
  rewrite andb_true_iff, Z.ltb_lt. intros [Hab Hs]. apply IH in Hs.
  constructor; [done|]. constructor; [done|].
  apply StronglySorted_inv in Hs as [_ Hf]. eapply Forall_impl; [done|]. cbn. lia.
Qed.

Lemma assoc_elem {A : Type} (k : string) (a : A) (l : list (string * A)) :
  assoc k l = Some a -> (k, a) ∈ l.
Proof.
  induction l as [|[k' a'] l IH]; [done|]. cbn.
  destruct (String.eqb_spec k k') as [->|].
  - intros [= ->]. left.
  - intros H. right. by apply IH.
Qed.

(** A name that is found by its position is found by [assoc]. *)
Lemma assoc_nodup {A : Type} (k : string) (a : A) (l : list (string * A)) :
  NoDup l.*1 -> (k, a) ∈ l -> assoc k l = Some a.
Proof.
  induction l as [|[k' a'] l IH]; cbn; intros Hn He; [by apply not_elem_of_nil in He|].
  apply NoDup_cons in Hn as [Hk Hn]. apply elem_of_cons in He as [[= -> ->]|He].
  - by rewrite String.eqb_refl.
  - destruct (String.eqb_spec k k') as [->|]; [|by apply IH].
    destruct Hk. apply list_elem_of_fmap. by exists (k', a).
Qed.

(** Distinct names, decided by comparing all pairs. *)
Fixpoint distinct (l : list string) : bool :=
  match l with
  | [] => true
  | k :: l => negb (existsb (String.eqb k) l) && distinct l
  end.

Lemma distinct_spec (l : list string) : distinct l = true -> NoDup l.
Proof.
  induction l as [|k l IH]; cbn; [constructor|].
  rewrite andb_true_iff, negb_true_iff. intros [Hk Hd]. constructor; [|by apply IH].
  intros Hin. apply not_true_iff_false in Hk. apply Hk, existsb_exists.
  exists k. split; [by apply list_elem_of_In|apply String.eqb_refl].
Qed.

Lemma error_names_nodup : NoDup error_codes.*1.
Proof. apply distinct_spec. vm_compute. reflexivity. Qed.

Lemma error_codes_values : error_codes.*2 = seqZ ER_ERROR_FIRST 728.
Proof. vm_compute. reflexivity. Qed.

Lemma error_names_agree : error_names.*1 = error_codes.
Proof. vm_compute. reflexivity. Qed.

Lemma messages_ok : forallb (fun e => message_ok e.2) error_names = true.
Proof. vm_compute. reflexivity. Qed.

(** ** Properties *)

(** The server error codes of mysqld_error.h are dense and unambiguous: the names
    are distinct, the codes are exactly the numbers from [ER_ERROR_FIRST] to
    [ER_ERROR_LAST] in order, and the value of each name is its code. *)
Theorem error_codes_dense :
  NoDup error_codes.*1
  /\ error_codes.*2 = seqZ ER_ERROR_FIRST (ER_ERROR_LAST - ER_ERROR_FIRST + 1)
  /\ forall i name c, error_codes !! i = Some (name, c) ->
       error_code name = Some c /\ c = ER_ERROR_FIRST + Z.of_nat i.
Proof.
  split_and!; [apply error_names_nodup|apply error_codes_values|].
  intros i name c Hi. split.
  - apply assoc_nodup; [apply error_names_nodup|]. by eapply list_elem_of_lookup_2.
  - assert (Hc : error_codes.*2 !! i = Some c) by by rewrite list_lookup_fmap, Hi.
    rewrite error_codes_values in Hc. apply lookup_seqZ in Hc. lia.
Qed.

(** C27.  mysqld_ername.h and mysqld_error.h agree: for every code of the range, and
    for no other, there is an entry at the index [code - ER_ERROR_FIRST]; it
    carries that code, the name whose macro has that value, and a message of
    printable characters that fits the error buffer and whose conversions are
    all of the formats of [my_snprintf]: [%s], [%d], [%u] with at most one [l]. *)
Theorem error_messages_wellformed (c : Z) :
  match error_entry c with
  | Some (name, c', m) =>
    ER_ERROR_FIRST <= c <= ER_ERROR_LAST /\ c' = c /\ error_code name = Some c
    /\ message_ok m = true
  | None => c < ER_ERROR_FIRST \/ ER_ERROR_LAST < c
  end.
Proof.
  unfold error_entry. destruct ((ER_ERROR_FIRST <=? c) && (c <=? ER_ERROR_LAST)) eqn:Hr.
  - apply andb_true_iff in Hr as [H1%Z.leb_le H2%Z.leb_le].
    destruct (error_names !! Z.to_nat (c - ER_ERROR_FIRST)) as [[[name c'] m]|] eqn:He.
    + assert (Hm : message_ok m = true).
      { pose proof messages_ok as Hm. rewrite forallb_forall in Hm.
        apply (Hm (name, c', m)). apply list_elem_of_In. by eapply list_elem_of_lookup_2. }
      assert (Hc : error_codes !! Z.to_nat (c - ER_ERROR_FIRST) = Some (name, c'))
        by by rewrite <- error_names_agree, list_lookup_fmap, He.
      assert (Hv : error_codes.*2 !! Z.to_nat (c - ER_ERROR_FIRST) = Some c')
        by by rewrite list_lookup_fmap, Hc.
      rewrite error_codes_values in Hv. apply lookup_seqZ in Hv.
      assert (c' = c) as -> by lia. split_and!; try done.
      apply assoc_nodup; [apply error_names_nodup|]. by eapply list_elem_of_lookup_2.
    + apply lookup_ge_None in He. assert (length error_names = 728%nat) as Hl by reflexivity.
      rewrite Hl in He. unfold ER_ERROR_FIRST, ER_ERROR_LAST in *. lia.
  - rewrite andb_false_iff, !Z.leb_gt in Hr. lia.
Qed.

(** sql_state.h can be searched by code: every name of it is a server error
    code, and the codes are strictly increasing, so that no code has two
    states; every SQLSTATE has the five characters of the standard, and fits
    the buffers declared for it. *)
Theorem sqlstate_map_sorted :
  (exists codes, mapM (fun e => error_code e.1.1) sqlstate_map = Some codes
     /\ StronglySorted Z.lt codes
     /\ Forall (fun c => ER_ERROR_FIRST <= c <= ER_ERROR_LAST) codes)
  /\ Forall (fun e => state_shape e.1.2 = true) sqlstate_map.
Proof.
  split.
  - destruct (mapM (fun e => error_code e.1.1) sqlstate_map) as [codes|] eqn:Hm;
      [|by vm_compute in Hm].
    assert (Hb : match mapM (fun e => error_code e.1.1) sqlstate_map with
      | Some l => increasing l && forallb (fun c => (1000 <=? c) && (c <=? 1727)) l
      | None => false end = true) by (vm_compute; reflexivity).
    rewrite Hm in Hb. apply andb_true_iff in Hb as [H1 H2].
    exists codes. split_and!; [done|by apply increasing_sorted|].
    apply Forall_forall. intros c Hc. rewrite forallb_forall in H2.
    apply list_elem_of_In, H2 in Hc. unfold ER_ERROR_FIRST, ER_ERROR_LAST. lia.
  - apply Forall_forall. intros e He.
    assert (Hb : forallb (fun e => state_shape e.1.2) sqlstate_map = true) by (vm_compute; reflexivity).
    rewrite forallb_forall in Hb. by apply Hb, list_elem_of_In.
Qed.

(** The second states of sql_state.h, those of ODBC 2, are empty or five digits
    and capital letters, with one exception: that of [ER_PARSE_ERROR], which is
    written with a small letter. *)
Theorem odbc_states_case :
  Forall (fun e => e.2 = EmptyString \/ state_shape e.2 = true \/ e.1.1 = "ER_PARSE_ERROR"%string)
    sqlstate_map
  /\ ("ER_PARSE_ERROR"%string, "42000"%string, "s1009"%string) ∈ sqlstate_map
  /\ state_shape "s1009" = false.
Proof.
  split_and!; [|apply (list_elem_of_lookup_2 _ 26%nat); reflexivity|reflexivity].
  apply Forall_forall. intros e He.
  assert (Hb : forallb (fun e => String.eqb e.2 EmptyString || state_shape e.2
    || String.eqb e.1.1 "ER_PARSE_ERROR") sqlstate_map = true) by (vm_compute; reflexivity).
  rewrite forallb_forall in Hb. apply list_elem_of_In, Hb in He.
  rewrite !orb_true_iff, !String.eqb_eq in He. tauto.
Qed.

(** The client error codes of errmsg.h are dense from [CR_ERROR_FIRST] to
    [CR_ERROR_LAST], disjoint from the server codes, and [ER(X)] of the i-th
    code is the index i: the macro stays inside of an array with one message
    per code. *)
Theorem client_errors_indexed :
  NoDup client_error_codes.*1
  /\ client_error_codes.*2 = seqZ CR_ERROR_FIRST (CR_ERROR_LAST - CR_ERROR_FIRST + 1)
  /\ ER_ERROR_LAST < CR_MIN_ERROR /\ CR_ERROR_LAST <= CR_MAX_ERROR
  /\ forall i name c, client_error_codes !! i = Some (name, c) ->
       ER c = Z.of_nat i /\ 0 <= ER c < Z.of_nat (length client_error_codes).
Proof.
  assert (Hv : client_error_codes.*2 = seqZ CR_ERROR_FIRST 60) by (vm_compute; reflexivity).
  split_and!; try done.
  - apply distinct_spec. vm_compute. reflexivity.
  - intros i name c Hi.
    assert (Hc : client_error_codes.*2 !! i = Some c) by by rewrite list_lookup_fmap, Hi.
    rewrite Hv in Hc. apply lookup_seqZ in Hc. apply lookup_lt_Some in Hi.
    unfold ER, CR_MIN_ERROR, CR_ERROR_FIRST in *. split; [lia|].
    cbn in Hi |- *. lia.
Qed.
