(* ===== verification/Macros.v ===== *)
(** * General macros (my_global.h)

    The small arithmetic macros of my_global.h, at the width of their operands. *)
From S2P Require Import Prelude.

Definition test (a : Z) : Z := if a =? 0 then 0 else 1.
(** [(a,b)] after [swap_variables(t,a,b)]: a temporary, then two assignments. *)
Definition swap_variables (ab : Z * Z) : Z * Z :=
  let dummy := fst ab in let ab := (snd ab, snd ab) in (fst ab, dummy).
(** The value of [a] after the macro. *)
Definition set_if_bigger (a b : Z) : Z := if a <? b then b else a.
Definition set_if_smaller (a b : Z) : Z := if a >? b then b else a.
Definition test_all_bits (a b : Z) : bool := Z.land a b =? b.
Definition max (a b : Z) : Z := if a >? b then a else b.
Definition min (a b : Z) : Z := if a <? b then a else b.

Section Align.
(** The width of the unsigned operands. *)
Context (w : Z).

Definition MY_ALIGN (A L : Z) : Z :=
  Z.land (uwrap w (uwrap w (A + L) - 1)) (uwrap w (Z.lnot (uwrap w (L - 1)))).
Definition ALIGN_SIZE (A : Z) : Z := MY_ALIGN A 8.
End Align.

(** Limits, written with the complement as in the header. *)
Definition INT_MIN64 : Z := Z.lnot 0x7FFFFFFFFFFFFFFF.
Definition INT_MAX64 : Z := 0x7FFFFFFFFFFFFFFF.
Definition INT_MIN32 : Z := Z.lnot 0x7FFFFFFF.
Definition INT_MAX32 : Z := 0x7FFFFFFF.
Definition UINT_MAX32 : Z := 0xFFFFFFFF.
Definition INT_MIN24 : Z := Z.lnot 0x007FFFFF.
Definition INT_MAX24 : Z := 0x007FFFFF.
Definition UINT_MAX24 : Z := 0x00FFFFFF.
Definition INT_MIN16 : Z := Z.lnot 0x7FFF.
Definition INT_MAX16 : Z := 0x7FFF.
Definition UINT_MAX16 : Z := 0xFFFF.
Definition INT_MIN8 : Z := Z.lnot 0x7F.
Definition INT_MAX8 : Z := 0x7F.
Definition UINT_MAX8 : Z := 0xFF.

Definition MY_INT32_NUM_DECIMAL_DIGITS : Z := 11.
Definition MY_INT64_NUM_DECIMAL_DIGITS : Z := 21.

(** ** Lemmas *)

Lemma max_eq (a b : Z) : max a b = Z.max a b.
Proof. unfold max. rewrite Z.gtb_ltb. destruct (Z.ltb_spec b a); lia. Qed.

Lemma min_eq (a b : Z) : min a b = Z.min a b.
Proof. unfold min. destruct (Z.ltb_spec a b); lia. Qed.

Lemma set_if_bigger_eq (a b : Z) : set_if_bigger a b = Z.max a b.
Proof. unfold set_if_bigger. destruct (Z.ltb_spec a b); lia. Qed.

Lemma set_if_smaller_eq (a b : Z) : set_if_smaller a b = Z.min a b.
Proof. unfold set_if_smaller. rewrite Z.gtb_ltb. destruct (Z.ltb_spec b a); lia. Qed.

(** All the bits of [b] are set in [a]. *)
Lemma test_all_bits_spec (a b : Z) :
  test_all_bits a b = true <-> forall i, 0 <= i -> Z.testbit b i = true -> Z.testbit a i = true.
Proof.
  unfold test_all_bits. rewrite Z.eqb_eq. split.
  - intros He i Hi Hb. rewrite <- He, Z.land_spec in Hb. by apply andb_true_iff in Hb as [].
  - intros Hall. apply Z.bits_inj'. intros i Hi. rewrite Z.land_spec. specialize (Hall i Hi).
    destruct (Z.testbit b i); [by rewrite Hall|by rewrite andb_false_r].
Qed.

(** The mask of the macro clears the low bits. *)
Lemma align_mask (w k x : Z) : 0 <= k < w -> 0 <= x < 2 ^ w ->
  Z.land x (uwrap w (Z.lnot (uwrap w (2 ^ k - 1)))) = x / 2 ^ k * 2 ^ k.
Proof.
  intros Hk Hx. assert (Hp : 0 < 2 ^ k) by (apply Z.pow_pos_nonneg; lia).
  assert (2 ^ k < 2 ^ w) by (apply Z.pow_lt_mono_r; lia).
  rewrite (uwrap_small w (2 ^ k - 1)) by lia. unfold uwrap. rewrite <- Z.land_ones by lia.
  rewrite (Z.land_comm (Z.lnot _)), Z.land_assoc, Z.land_ones by lia.
  rewrite (Z.mod_small x) by lia.
  rewrite <- Z.ldiff_land. replace (2 ^ k - 1) with (Z.ones k) by (rewrite Z.ones_equiv; lia).
  rewrite Z.ldiff_ones_r by lia. by rewrite Z.shiftl_mul_pow2, Z.shiftr_div_pow2 by lia.
Qed.

(** ** Properties *)

(** [MY_ALIGN] rounds up to a power of two: the result is the least multiple of [L]
    that is not below [A]; when that multiple does not fit the type it is 0. *)
Theorem my_align_least (w k A : Z) : 0 <= k < w -> 0 <= A < 2 ^ w ->
  (A + 2 ^ k - 1 < 2 ^ w ->
     (2 ^ k | MY_ALIGN w A (2 ^ k)) /\ A <= MY_ALIGN w A (2 ^ k)
     /\ forall m, (2 ^ k | m) -> A <= m -> MY_ALIGN w A (2 ^ k) <= m)
  /\ (2 ^ w <= A + 2 ^ k - 1 -> MY_ALIGN w A (2 ^ k) = 0).
Proof.
  intros Hk HA. assert (Hp : 0 < 2 ^ k) by (apply Z.pow_pos_nonneg; lia).
  assert (Hlt : 2 ^ k < 2 ^ w) by (apply Z.pow_lt_mono_r; lia). unfold MY_ALIGN.
  assert (Hs : uwrap w (uwrap w (A + 2 ^ k) - 1) = uwrap w (A + 2 ^ k - 1))
    by (unfold uwrap; by rewrite Zminus_mod_idemp_l).
  rewrite Hs, align_mask by (done || apply uwrap_range; lia). split; intros Hc.
  - rewrite uwrap_small by lia. pose proof (Z.div_mod (A + 2 ^ k - 1) (2 ^ k) ltac:(lia)).
    pose proof (Z.mod_pos_bound (A + 2 ^ k - 1) (2 ^ k) Hp). split_and!.
    + apply Z.divide_factor_r.
    + lia.
    + intros m [q ->] Hm. apply Z.mul_le_mono_nonneg_r; [lia|].
      apply Z.lt_succ_r, Z.div_lt_upper_bound; [done|]. lia.
  - unfold uwrap. rewrite <- (Z_mod_plus_full _ (-1)), Z.mod_small by lia. rewrite Z.div_small by lia. lia.
Qed.

Lemma my_align_least_witness :
  (2 ^ 3 | MY_ALIGN 32 13 (2 ^ 3)) /\ 13 <= MY_ALIGN 32 13 (2 ^ 3)
  /\ forall m, (2 ^ 3 | m) -> 13 <= m -> MY_ALIGN 32 13 (2 ^ 3) <= m.
Proof. apply (my_align_least 32 3 13); lia. Defined.
