(* ===== verification/Doubles.v ===== *)
(** * Floating point helpers (my_global.h)

    [rint], [my_double2ulonglong], [my_ulonglong2double] on IEEE 754 doubles, the
    executable specification of the Standard Library.  The file has the value of a double,
    the correct rounding of a value, and the lemmas that addition, subtraction and
    comparison are those of the values. *)
From Stdlib Require Import SpecFloat.
From S2P Require Import Prelude.

(** ** Doubles *)

Abbreviation double := spec_float.
Definition DBL_MANT_DIG : Z := 53.
Definition DBL_MAX_EXP : Z := 1024.
Abbreviation dnorm := (binary_normalize DBL_MANT_DIG DBL_MAX_EXP).
Abbreviation dadd := (SFadd DBL_MANT_DIG DBL_MAX_EXP).
Abbreviation dsub := (SFsub DBL_MANT_DIG DBL_MAX_EXP).
Abbreviation dvalid := (valid_binary DBL_MANT_DIG DBL_MAX_EXP).

Definition dfinite (x : double) : bool :=
  match x with S754_zero _ | S754_finite _ _ _ => true | _ => false end.
Definition dsign (x : double) : bool :=
  match x with S754_zero s | S754_infinity s | S754_finite s _ _ => s | S754_nan => false end.

(** Every finite double is a multiple of [2^-1074]; [ONE] is 1 in this unit. *)
Definition SCALE : Z := 1074.
Definition ONE : Z := 2 ^ SCALE.
Definition value (x : double) : Z :=
  match x with S754_finite s m e => cond_Zopp s (Zpos m * 2 ^ (e + SCALE)) | _ => 0 end.

(** [(double) n] for an integer type, and the conversions back, which truncate
    and are undefined when the result does not fit. *)
Definition of_int (n : Z) : double := dnorm n 0 false.
Definition truncate (lo hi : Z) (x : double) : option Z :=
  if dfinite x then
    let n := Z.quot (value x) ONE in if (lo <=? n) && (n <=? hi) then Some n else None
  else None.
Definition to_longlong : double -> option Z := truncate (- 2 ^ 63) (2 ^ 63 - 1).
Definition to_ulonglong : double -> option Z := truncate 0 (2 ^ 64 - 1).

(** [modf] of the C library: fraction and integral part, both with the sign of the argument. *)
Definition modf (x : double) : double * double :=
  match x with
  | S754_zero s => (S754_zero s, S754_zero s)
  | S754_infinity s => (S754_zero s, S754_infinity s)
  | S754_nan => (S754_nan, S754_nan)
  | S754_finite s m e =>
    if 0 <=? e then (S754_zero s, x)
    else (dnorm (cond_Zopp s (Zpos m mod 2 ^ (- e))) e s, dnorm (cond_Zopp s (Zpos m / 2 ^ (- e))) 0 s)
  end.

(** ** The code *)

Definition MAX_EXACT_INTEGER : Z := Z.shiftl 1 DBL_MANT_DIG - 1.
Definition dzero : double := S754_zero false.
Definition half (s : bool) : double := S754_finite s (2 ^ 52) (- 53).
Definition of_bool (b : bool) : double := if b then of_int 1 else dzero.

Definition rint (x : double) : option double :=
  let '(f, i) := modf x in
  if SFltb dzero x then
    up ← (if SFltb (half false) f then Some true
          else if SFeqb f (half false) && SFleb i (of_int MAX_EXACT_INTEGER)
               then n ← to_longlong i; Some (negb (Z.rem n 2 =? 0)) else Some false);
    Some (dadd i (of_bool up))
  else
    down ← (if SFltb f (half true) then Some true
            else if SFeqb f (half true) && SFleb (of_int (- MAX_EXACT_INTEGER)) i
                 then n ← to_longlong i; Some (negb (Z.rem n 2 =? 0)) else Some false);
    Some (dsub i (of_bool down)).

Definition my_ulonglong2double (v : Z) : double :=
  let nr := s64 v in
  if nr >=? 0 then of_int nr else dadd (of_int 18446744073709551616) (of_int nr).

(** The definition of the other platforms: the conversion of the language. *)
Definition ulonglong2double (A : Z) : double := of_int (u64 A).

Definition my_double2ulonglong (d : double) : option Z :=
  let t := dsub d (of_int 0x8000000000000000) in
  if SFleb dzero t then n ← to_ulonglong t; Some (u64 (n + 0x8000000000000000)) else to_ulonglong d.

(** ** Rounding of values *)

(** The quotient by [2^k], to nearest, ties to even. *)
Definition rne (a k : Z) : Z :=
  let q := a / 2 ^ k in
  match 2 * (a mod 2 ^ k) ?= 2 ^ k with
  | Lt => q
  | Eq => if Z.even q then q else q + 1
  | Gt => q + 1
  end.

(** The number of the bits of a positive value that a double has to give up. *)
Definition excess (a : Z) : Z := Z.max (Z.log2 a + 1 - DBL_MANT_DIG) 0.

(** The double nearest to a value (scaled as [value]), ties to even. *)
Definition rnd (v : Z) : Z :=
  let a := Z.abs v in Z.sgn v * (rne a (excess a) * 2 ^ excess a).

(** [v] is the value of a double *)
Definition representable (v : Z) : Prop := exists m k, 0 <= k /\ Z.abs m < 2 ^ 53 /\ v = m * 2 ^ k.

(** ** Lemmas on rounding *)

Lemma rne_0 (a : Z) : rne a 0 = a.
Proof. unfold rne. rewrite Z.pow_0_r, Z.mod_1_r, Z.div_1_r. done. Qed.

Lemma rne_shift (a j k : Z) : 0 <= j -> 0 <= k -> rne (a * 2 ^ j) (k + j) = rne a k.
Proof.
  intros Hj Hk. unfold rne. rewrite Z.pow_add_r by lia.
  assert (0 < 2 ^ j) by (apply Z.pow_pos_nonneg; lia).
  assert (0 < 2 ^ k) by (apply Z.pow_pos_nonneg; lia).
  rewrite Z.div_mul_cancel_r by lia. rewrite Z.mul_mod_distr_r by lia.
  rewrite Z.mul_assoc.
  destruct (Z.compare_spec (2 * (a mod 2 ^ k)) (2 ^ k));
    destruct (Z.compare_spec (2 * (a mod 2 ^ k) * 2 ^ j) (2 ^ k * 2 ^ j)); try done; nia.
Qed.

Lemma rne_mul (a k : Z) : 0 <= k -> rne (a * 2 ^ k) k = a.
Proof. intros Hk. rewrite <- (rne_0 a) at 2. rewrite <- (rne_shift a k 0) by lia. done. Qed.

Lemma rne_bounds (a k : Z) : 0 <= k -> a / 2 ^ k <= rne a k <= a / 2 ^ k + 1.
Proof. intros Hk. unfold rne. destruct (_ ?= _); [destruct (Z.even _)|..]; lia. Qed.

(** The error of [rne] is at most half a unit, and ties give an even quotient. *)
Lemma rne_error (a k : Z) : 0 <= k ->
  2 * Z.abs (a - rne a k * 2 ^ k) <= 2 ^ k
  /\ (2 * Z.abs (a - rne a k * 2 ^ k) = 2 ^ k -> 0 < k -> Z.even (rne a k) = true).
Proof.
  intros Hk. assert (Hp : 0 < 2 ^ k) by (apply Z.pow_pos_nonneg; lia).
  pose proof (Z.div_mod a (2 ^ k)). pose proof (Z.mod_pos_bound a (2 ^ k) Hp).
  unfold rne. destruct (Z.compare_spec (2 * (a mod 2 ^ k)) (2 ^ k)).
  - destruct (Z.even (a / 2 ^ k)) eqn:He; split; try nia; intros _ _; [done|].
    by rewrite Z.even_add, He.
  - split; [nia|]. nia.
  - split; [nia|]. nia.
Qed.

Lemma excess_nonneg (a : Z) : 0 <= excess a.
Proof. unfold excess. lia. Qed.

Lemma rnd_opp (v : Z) : rnd (- v) = - rnd v.
Proof. unfold rnd. rewrite Z.abs_opp, Z.sgn_opp. lia. Qed.

Lemma rnd_0 : rnd 0 = 0.
Proof. reflexivity. Qed.

Lemma rnd_pos (v : Z) : 0 < v -> rnd v = rne v (excess v) * 2 ^ excess v.
Proof. intros Hv. unfold rnd. rewrite Z.abs_eq, Z.sgn_pos by lia. lia. Qed.

(** The value of a double is rounded to itself. *)
Lemma rnd_representable (v : Z) : representable v -> rnd v = v.
Proof.
  intros (m & k & Hk & Hm & ->).
  assert (Hpos : forall m, 0 < m < 2 ^ 53 -> rnd (m * 2 ^ k) = m * 2 ^ k).
  { clear m Hm. intros m Hm. assert (0 < 2 ^ k) by (apply Z.pow_pos_nonneg; lia).
    rewrite rnd_pos by nia. unfold excess, DBL_MANT_DIG.
    rewrite Z.log2_mul_pow2 by lia.
    assert (Z.log2 m < 53) by (apply Z.log2_lt_pow2; lia). pose proof (Z.log2_nonneg m).
    set (x := Z.max _ 0). assert (Hx : 0 <= x <= k) by lia.
    replace k with ((k - x) + x) by lia. rewrite Z.pow_add_r by lia.
    rewrite Z.mul_assoc, rne_mul by lia. done. }
  destruct (Z.lt_trichotomy m 0) as [Hlt | [-> | Hlt]].
  - rewrite <- (Z.opp_involutive (m * _)), rnd_opp, <- Z.mul_opp_l, Hpos by lia. done.
  - done.
  - apply Hpos. lia.
Qed.

(** ** The operations of the specification are correctly rounded *)

Lemma digits2_log2 (p : positive) : Zpos (digits2_pos p) = Z.log2 (Zpos p) + 1.
Proof.
  induction p as [p IH|p IH|]; [| |done]; cbn [digits2_pos]; rewrite Pos2Z.inj_succ, IH.
  - rewrite (Pos2Z.inj_xI p). rewrite Z.log2_succ_double by lia. lia.
  - rewrite (Pos2Z.inj_xO p). rewrite Z.log2_double by lia. lia.
Qed.

Lemma iter_pos_nat {A} (f : A -> A) (p : positive) : forall x,
  SpecFloat.iter_pos f p x = Nat.iter (Pos.to_nat p) f x.
Proof.
  induction p as [p IH|p IH|]; intros x; cbn [SpecFloat.iter_pos]; [| |done].
  - rewrite !IH, Pos2Nat.inj_xI, <- Nat.iter_add. rewrite Nat.iter_swap.
    rewrite <- Nat.iter_succ. f_equal. lia.
  - rewrite !IH, Pos2Nat.inj_xO, <- Nat.iter_add. f_equal. lia.
Qed.

(** The state of the right shift after [n] steps. *)
Definition shifted (a : Z) (n : nat) : shr_record :=
  match n with
  | O => {| shr_m := a; shr_r := false; shr_s := false |}
  | S k => {| shr_m := a / 2 ^ Z.of_nat (S k); shr_r := Z.odd (a / 2 ^ Z.of_nat k);
              shr_s := negb (a mod 2 ^ Z.of_nat k =? 0) |}
  end.

Lemma shr_1_eq (m : Z) (r s : bool) : 0 <= m ->
  shr_1 {| shr_m := m; shr_r := r; shr_s := s |}
  = {| shr_m := m / 2; shr_r := Z.odd m; shr_s := r || s |}.
Proof.
  intros Hm. destruct m as [|[p|p|]|p]; try done.
  - cbn. f_equal. rewrite (Pos2Z.inj_xI p). apply (Z.div_unique _ _ _ 1); lia.
  - cbn. f_equal. rewrite (Pos2Z.inj_xO p). apply (Z.div_unique _ _ _ 0); lia.
Qed.

Lemma mod_pow2_S (a : Z) (n : nat) : 0 <= a ->
  (a mod 2 ^ Z.of_nat (S n) =? 0) = (negb (Z.odd (a / 2 ^ Z.of_nat n)) && (a mod 2 ^ Z.of_nat n =? 0)).
Proof.
  intros Ha. rewrite Nat2Z.inj_succ, Z.pow_succ_r by lia. rewrite (Z.mul_comm 2).
  assert (Hp : 0 < 2 ^ Z.of_nat n) by (apply Z.pow_pos_nonneg; lia).
  rewrite Z.rem_mul_r by lia. rewrite (Zmod_odd (a / _)).
  pose proof (Z.mod_pos_bound a (2 ^ Z.of_nat n) Hp).
  destruct (Z.odd _); cbn [negb andb]; [|by rewrite Z.mul_0_r, Z.add_0_r].
  apply Z.eqb_neq. lia.
Qed.

Lemma shr_1_shifted (a : Z) (n : nat) : 0 <= a -> Nat.iter n shr_1 (shifted a 0) = shifted a n.
Proof.
  intros Ha. induction n as [|n IH]; [done|]. rewrite Nat.iter_succ, IH.
  assert (Hp : 0 < 2 ^ Z.of_nat n) by (apply Z.pow_pos_nonneg; lia).
  destruct n as [|n]; cbn [shifted].
  - rewrite shr_1_eq by done. cbn. by rewrite Z.mod_1_r, Z.div_1_r.
  - rewrite shr_1_eq by (apply Z.div_pos; lia). f_equal.
    + rewrite Z.div_div by lia. f_equal. rewrite (Nat2Z.inj_succ (S n)), Z.pow_succ_r by lia. lia.
    + rewrite mod_pow2_S by done. by destruct (Z.odd _), (_ =? 0).
Qed.

(** Rounding the shifted number gives the quotient to nearest. *)
Lemma round_shifted (a : Z) (n : nat) : 0 <= a ->
  round_nearest_even (shr_m (shifted a n)) (loc_of_shr_record (shifted a n)) = rne a (Z.of_nat n).
Proof.
  intros Ha. destruct n as [|n]; [by rewrite rne_0|].
  assert (Hp : 0 < 2 ^ Z.of_nat n) by (apply Z.pow_pos_nonneg; lia).
  assert (Hm : a mod 2 ^ Z.of_nat (S n)
    = a mod 2 ^ Z.of_nat n + 2 ^ Z.of_nat n * (if Z.odd (a / 2 ^ Z.of_nat n) then 1 else 0)).
  { rewrite Nat2Z.inj_succ, Z.pow_succ_r by lia. rewrite (Z.mul_comm 2).
    rewrite Z.rem_mul_r by lia. by rewrite (Zmod_odd (a / _)). }
  pose proof (Z.mod_pos_bound a (2 ^ Z.of_nat n) Hp).
  unfold rne. rewrite Hm. cbn [shifted shr_m loc_of_shr_record].
  assert (Hd : 2 ^ Z.of_nat (S n) = 2 * 2 ^ Z.of_nat n) by (rewrite Nat2Z.inj_succ, Z.pow_succ_r; lia).
  rewrite Hd. destruct (Z.odd (a / 2 ^ Z.of_nat n)), (Z.eqb_spec (a mod 2 ^ Z.of_nat n) 0) as [->|];
    cbn [negb loc_of_shr_record round_nearest_even];
    match goal with |- context [?x ?= ?y] => destruct (Z.compare_spec x y) end; try done; lia.
Qed.

Abbreviation dround := (binary_round DBL_MANT_DIG DBL_MAX_EXP).
Abbreviation dround_aux := (binary_round_aux DBL_MANT_DIG DBL_MAX_EXP).
Abbreviation dfexp := (SpecFloat.fexp DBL_MANT_DIG DBL_MAX_EXP).

Lemma dfexp_eq (z : Z) : dfexp z = Z.max (z - 53) (- 1074).
Proof. reflexivity. Qed.

Lemma shr_nonneg (a e n : Z) : 0 <= a -> 0 <= n -> shr (shr_record_of_loc a loc_Exact) e n
  = (shifted a (Z.to_nat n), e + n).
Proof.
  intros Ha Hn. destruct n as [|n|]; [by rewrite Z.add_0_r| |lia].
  cbn [shr]. rewrite iter_pos_nat, Z2Nat.inj_pos. by rewrite <- (shr_1_shifted a).
Qed.

Lemma shr_nonpos (a e n : Z) : n <= 0 -> shr (shr_record_of_loc a loc_Exact) e n
  = (shr_record_of_loc a loc_Exact, e).
Proof. by destruct n; try lia. Qed.

Lemma Zdigits2_pos (a : Z) : 0 < a -> Zdigits2 a = Z.log2 a + 1.
Proof. destruct a; try lia. intros _. apply digits2_log2. Qed.

(** The quotient of the rounding fits the mantissa, or carries into one more bit. *)
Lemma rne_mantissa (a k : Z) : 0 < a -> 0 <= k -> Z.log2 a + 1 - k <= 53 ->
  0 <= rne a k <= 2 ^ 53 /\ (Z.log2 a + 1 - k = 53 -> 2 ^ 52 <= rne a k).
Proof.
  intros Ha Hk Hd. pose proof (rne_bounds a k Hk) as Hb. pose proof (Z.log2_spec a Ha) as Hl.
  assert (Hp : 0 < 2 ^ k) by (apply Z.pow_pos_nonneg; lia).
  assert (H0 : 0 <= a / 2 ^ k) by (apply Z.div_pos; lia).
  assert (Hu : a / 2 ^ k < 2 ^ 53).
  { apply Z.div_lt_upper_bound; [done|]. rewrite <- Z.pow_add_r by lia.
    eapply Z.lt_le_trans; [apply Hl|]. apply Z.pow_le_mono_r; lia. }
  split; [lia|]. intros He. enough (2 ^ 52 <= a / 2 ^ k) by lia.
  apply Z.div_le_lower_bound; [done|]. rewrite <- Z.pow_add_r by lia.
  eapply Z.le_trans; [|apply Hl]. apply Z.pow_le_mono_r; lia.
Qed.

(** A rounded number is a valid double, the value is the nearest one. *)
Definition rounds_to (r : double) (s : bool) (v : Z) : Prop :=
  dfinite r = true /\ dvalid r = true /\ dsign r = s /\ value r = cond_Zopp s (rnd v).

Lemma finite_canonical (s : bool) (q e : Z) :
  0 < q < 2 ^ 53 -> - 1074 <= e <= 971 -> (- 1074 < e -> 2 ^ 52 <= q) ->
  dvalid (S754_finite s (Z.to_pos q) e) = true.
Proof.
  intros Hq He Hn. cbn [valid_binary]. unfold bounded, canonical_mantissa.
  rewrite digits2_log2, Z2Pos.id by lia. rewrite dfexp_eq.
  apply andb_true_iff. split; [|apply Z.leb_le; unfold DBL_MANT_DIG, DBL_MAX_EXP; lia].
  apply Z.eqb_eq. assert (Z.log2 q < 53) by (apply Z.log2_lt_pow2; lia).
  destruct (decide (e = - 1074)); [lia|].
  assert (52 <= Z.log2 q) by (apply Z.log2_le_pow2; [lia|]; apply Hn; lia). lia.
Qed.

Lemma dround_aux_spec (s : bool) (m : positive) (e : Z) :
  - 1074 <= e -> e <= dfexp (Z.log2 (Zpos m) + 1 + e) -> Z.log2 (Zpos m) + 1 + e <= 1023 ->
  rounds_to (dround_aux s (Zpos m) e loc_Exact) s (Zpos m * 2 ^ (e + SCALE)).
Proof.
  intros He Hle Hmax. rewrite dfexp_eq in Hle. unfold binary_round_aux, shr_fexp.
  rewrite Zdigits2_pos, dfexp_eq by lia. set (d := Z.log2 (Zpos m) + 1) in *.
  set (e1 := Z.max (d + e - 53) (- 1074)) in *.
  rewrite shr_nonneg by lia. rewrite round_shifted, Z2Nat.id by lia.
  replace (e + (e1 - e)) with e1 by lia. set (k := e1 - e) in *.
  destruct (rne_mantissa (Zpos m) k) as [Hq Hn]; [lia|lia|lia|].
  assert (H1 : 1 <= d) by (pose proof (Z.log2_nonneg (Zpos m)); lia).
  assert (Hq0 : 0 < rne (Zpos m) k).
  { destruct (decide (d - k = 53)); [apply Hn in e0; lia|].
    assert (Hk : k = 0) by lia. rewrite Hk, rne_0. lia. }
  assert (Hrnd : rnd (Zpos m * 2 ^ (e + SCALE)) = rne (Zpos m) k * 2 ^ (e1 + SCALE)).
  { unfold SCALE. rewrite rnd_pos by (assert (0 < 2 ^ (e + 1074)) by (apply Z.pow_pos_nonneg; lia); lia).
    unfold excess. rewrite Z.log2_mul_pow2 by lia. unfold DBL_MANT_DIG.
    replace (Z.max (e + 1074 + Z.log2 (Zpos m) + 1 - 53) 0) with (k + (e + 1074)) by lia.
    rewrite rne_shift by lia. f_equal. f_equal. lia. }
  set (q := rne (Zpos m) k) in *. rewrite Zdigits2_pos, dfexp_eq by lia.
  destruct (decide (q = 2 ^ 53)) as [Hc|Hc].
  - rewrite Hc. change (Z.log2 (2 ^ 53)) with 53.
    replace (Z.max (53 + 1 + e1 - 53) (- 1074) - e1) with 1 by lia. rewrite shr_nonneg by lia.
    change (shr_m (shifted (2 ^ 53) (Z.to_nat 1))) with (Zpos 4503599627370496). cbv iota.
    destruct (Z.leb_spec (e1 + 1) (DBL_MAX_EXP - DBL_MANT_DIG)); [|unfold DBL_MAX_EXP, DBL_MANT_DIG in *; lia].
    split_and!; try done.
    + apply (finite_canonical s 4503599627370496 (e1 + 1)); lia.
    + cbn [value]. rewrite Hrnd, Hc. f_equal. unfold SCALE.
      replace (e1 + 1 + 1074) with (Z.succ (e1 + 1074)) by lia. rewrite Z.pow_succ_r by lia. lia.
  - assert (Hl : Z.log2 q < 53) by (apply Z.log2_lt_pow2; lia).
    rewrite shr_nonpos by lia. cbn [shr_record_of_loc shr_m].
    destruct q as [|p|p] eqn:Ep; try lia.
    destruct (Z.leb_spec e1 (DBL_MAX_EXP - DBL_MANT_DIG)); [|unfold DBL_MAX_EXP, DBL_MANT_DIG in *; lia].
    split_and!; try done.
    + apply (finite_canonical s (Zpos p) e1); lia.
    + cbn [value]. by rewrite Hrnd.
Qed.

Lemma pos_iter_xO (n p : positive) : Zpos (Pos.iter xO p n) = Zpos p * 2 ^ Zpos n.
Proof.
  revert p. induction n as [|n IH] using Pos.peano_ind; intros p; [cbn; lia|].
  rewrite Pos.iter_succ. rewrite (Pos2Z.inj_xO), IH, Pos2Z.inj_succ, Z.pow_succ_r by lia. lia.
Qed.

Lemma dround_spec (s : bool) (m : positive) (e : Z) :
  - 1074 <= e -> Z.log2 (Zpos m) + 1 + e <= 1023 ->
  rounds_to (dround s m e) s (Zpos m * 2 ^ (e + SCALE)).
Proof.
  intros He Hmax. unfold binary_round, shl_align. rewrite digits2_log2.
  rewrite dfexp_eq. set (d := Z.log2 (Zpos m) + 1) in *. set (e1 := Z.max (d + e - 53) (- 1074)).
  destruct (e1 - e) as [|p|p] eqn:Hd.
  - apply dround_aux_spec; rewrite ?dfexp_eq; lia.
  - apply dround_aux_spec; rewrite ?dfexp_eq; lia.
  - assert (Hl : Z.log2 (Zpos (Pos.iter xO m p)) = Zpos p + Z.log2 (Zpos m))
      by (rewrite pos_iter_xO, Z.log2_mul_pow2 by lia; lia).
    assert (Hv : Zpos m * 2 ^ (e + SCALE) = Zpos (Pos.iter xO m p) * 2 ^ (e1 + SCALE)).
    { rewrite pos_iter_xO. unfold SCALE. replace (e + 1074) with (Zpos p + (e1 + 1074)) by lia.
      rewrite Z.pow_add_r by lia. lia. }
    rewrite Hv. apply dround_aux_spec; rewrite ?dfexp_eq, ?Hl; lia.
Qed.

Definition rounds (r : double) (v : Z) : Prop :=
  dfinite r = true /\ dvalid r = true /\ value r = rnd v /\ (v <> 0 -> dsign r = (v <? 0)).

Lemma dnorm_spec (m e : Z) (sz : bool) :
  - 1074 <= e -> Z.log2 (Z.abs m) + 1 + e <= 1023 ->
  rounds (dnorm m e sz) (m * 2 ^ (e + SCALE)) /\ (m = 0 -> dnorm m e sz = S754_zero sz).
Proof.
  intros He Hmax. assert (Hp : 0 < 2 ^ (e + SCALE)) by (apply Z.pow_pos_nonneg; unfold SCALE; lia).
  destruct m as [|m|m]; cbn [binary_normalize].
  - split; [|done]. rewrite Z.mul_0_l. by split_and!.
  - split; [|done]. destruct (dround_spec false m e) as (H1 & H2 & H3 & H4); [done..|].
    split_and!; try done. intros _. rewrite H3. symmetry. apply Z.ltb_ge. lia.
  - split; [|done]. destruct (dround_spec true m e) as (H1 & H2 & H3 & H4); [done..|].
    split_and!; try done.
    + rewrite H4. cbn [cond_Zopp]. by rewrite <- rnd_opp, <- Z.mul_opp_l.
    + intros _. rewrite H3. symmetry. apply Z.ltb_lt. lia.
Qed.

Lemma valid_finite (s : bool) (m : positive) (e : Z) : dvalid (S754_finite s m e) = true ->
  - 1074 <= e <= 971 /\ 0 < Zpos m < 2 ^ 53 /\ (- 1074 < e -> 2 ^ 52 <= Zpos m).
Proof.
  cbn [valid_binary]. unfold bounded, canonical_mantissa. rewrite digits2_log2, dfexp_eq.
  unfold DBL_MAX_EXP, DBL_MANT_DIG. intros [He%Z.eqb_eq Hm%Z.leb_le]%andb_true_iff.
  pose proof (Z.log2_spec (Zpos m)) as Hl. split_and!; try lia.
  - eapply Z.lt_le_trans; [apply Hl; lia|]. apply Z.pow_le_mono_r; lia.
  - intros Hlt. eapply Z.le_trans; [|apply Hl; lia]. apply Z.pow_le_mono_r; lia.
Qed.

Lemma valid_representable (x : double) :
  dvalid x = true -> dfinite x = true -> rnd (value x) = value x.
Proof.
  intros Hv Hf. apply rnd_representable. destruct x as [s| | |s m e]; try done; cbn [value].
  - by exists 0, 0.
  - apply valid_finite in Hv as (He & Hm & _).
    exists (cond_Zopp s (Zpos m)), (e + SCALE). unfold SCALE.
    destruct s; cbn [cond_Zopp]; split_and!; try lia.
Qed.

Lemma sign_value (s : bool) (m : positive) (e : Z) : - 1074 <= e ->
  (value (S754_finite s m e) <? 0) = s /\ value (S754_finite s m e) <> 0.
Proof.
  intros He. cbn [value]. assert (0 < 2 ^ (e + SCALE)) by (apply Z.pow_pos_nonneg; unfold SCALE; lia).
  destruct s; cbn [cond_Zopp].
  - split; [|nia]. apply Z.ltb_lt. nia.
  - split; [|nia]. apply Z.ltb_ge. nia.
Qed.

Lemma rounds_self (x : double) : dvalid x = true -> dfinite x = true -> rounds x (value x).
Proof.
  intros Hv Hf. split_and!; try done; [by rewrite valid_representable|].
  destruct x as [s| | |s m e]; try done. intros _.
  apply valid_finite in Hv as (He & _). cbn [dsign]. symmetry. apply sign_value. lia.
Qed.

Lemma shl_align_scaled (m : positive) (e ez : Z) : - 1074 <= ez <= e ->
  Zpos (fst (shl_align m e ez)) * 2 ^ (ez + SCALE) = Zpos m * 2 ^ (e + SCALE).
Proof.
  intros He. unfold shl_align, SCALE. destruct (ez - e) as [|p|p] eqn:Hd; cbn [fst]; [| lia |].
  - by replace ez with e by lia.
  - rewrite pos_iter_xO. replace (e + 1074) with (Zpos p + (ez + 1074)) by lia.
    rewrite (Z.pow_add_r 2 (Zpos p)) by lia. lia.
Qed.

Lemma dsub_opp (x y : double) : dfinite x = true -> dfinite y = true ->
  dsub x y = dadd x (SFopp y).
Proof.
  destruct x as [s| | |s m e], y as [s'| | |s' m' e']; try done; intros _ _; cbn.
  - by destruct s, s'.
  - destruct s'; cbn; f_equal.
Qed.

Lemma value_opp (x : double) : value (SFopp x) = - value x.
Proof. destruct x as [s| | |s m e]; try done. cbn. destruct s; cbn; lia. Qed.

(** Addition is the addition of the values, rounded. *)
Lemma dadd_spec (x y : double) :
  dfinite x = true -> dvalid x = true -> dfinite y = true -> dvalid y = true ->
  Z.abs (value x + value y) < 2 ^ 2097 -> rounds (dadd x y) (value x + value y).
Proof.
  intros Hfx Hvx Hfy Hvy Hb.
  destruct x as [s| | |s m e]; try done; destruct y as [s'| | |s' m' e']; try done.
  - by destruct s, s'.
  - by apply rounds_self.
  - rewrite Z.add_0_r. by apply rounds_self.
  - apply valid_finite in Hvx as (He & Hm & _), Hvy as (He' & Hm' & _).
    cbn [SFadd]. set (ez := Z.min e e').
    assert (Hx : cond_Zopp s (Zpos (fst (shl_align m e ez))) * 2 ^ (ez + SCALE) = value (S754_finite s m e)).
    { cbn [value]. rewrite <- (shl_align_scaled m e ez) by lia. destruct s; cbn [cond_Zopp]; lia. }
    assert (Hy : cond_Zopp s' (Zpos (fst (shl_align m' e' ez))) * 2 ^ (ez + SCALE) = value (S754_finite s' m' e')).
    { cbn [value]. rewrite <- (shl_align_scaled m' e' ez) by lia. destruct s'; cbn [cond_Zopp]; lia. }
    rewrite <- Hx, <- Hy, <- Z.mul_add_distr_r in *.
    set (M := cond_Zopp s _ + cond_Zopp s' _) in *.
    apply dnorm_spec; [lia|]. destruct (decide (M = 0)) as [HM|Hne]; [rewrite HM; change (Z.log2 (Z.abs 0)) with 0; lia|].
    assert (Hp : 0 < 2 ^ (ez + SCALE)) by (apply Z.pow_pos_nonneg; unfold SCALE; lia).
    rewrite Z.abs_mul, (Z.abs_eq (2 ^ _)) in Hb by lia.
    apply Z.log2_lt_pow2 in Hb; [|lia]. rewrite Z.log2_mul_pow2 in Hb by (unfold SCALE; lia).
    unfold SCALE in Hb. lia.
Qed.

Lemma dsub_spec (x y : double) :
  dfinite x = true -> dvalid x = true -> dfinite y = true -> dvalid y = true ->
  Z.abs (value x - value y) < 2 ^ 2097 -> rounds (dsub x y) (value x - value y).
Proof.
  intros Hfx Hvx Hfy Hvy Hb. rewrite dsub_opp by done.
  rewrite <- Z.add_opp_r, <- value_opp in *. apply dadd_spec; try done; by destruct y.
Qed.

(** Comparison is the comparison of the values. *)
Lemma mantissa_lt (m m' : positive) (e e' : Z) :
  dvalid (S754_finite false m e) = true -> dvalid (S754_finite false m' e') = true -> e < e' ->
  Zpos m * 2 ^ (e + SCALE) < Zpos m' * 2 ^ (e' + SCALE).
Proof.
  intros (He & Hm & _)%valid_finite (He' & Hm' & Hn')%valid_finite Hlt.
  unfold SCALE. replace (e' + 1074) with (e + 1074 + (1 + (e' - e - 1))) by lia.
  rewrite (Z.pow_add_r 2 (e + 1074)), (Z.pow_add_r 2 1), Z.pow_1_r by lia.
  assert (Hp : 0 < 2 ^ (e + 1074)) by (apply Z.pow_pos_nonneg; lia).
  assert (Hq : 0 < 2 ^ (e' - e - 1)) by (apply Z.pow_pos_nonneg; lia).
  assert (Hmm : Zpos m < 2 * Zpos m').
  { specialize (Hn' ltac:(lia)). change (2 ^ 53) with (2 * 2 ^ 52) in Hm. lia. }
  clear - Hmm Hp Hq. set (P := 2 ^ (e + 1074)) in *. set (Q := 2 ^ (e' - e - 1)) in *.
  assert (Zpos m * P < 2 * Zpos m' * P) by (apply Z.mul_lt_mono_pos_r; lia).
  assert (Zpos m' * P <= Zpos m' * P * Q) by nia. lia.
Qed.

Lemma compare_spec (x y : double) :
  dfinite x = true -> dvalid x = true -> dfinite y = true -> dvalid y = true ->
  SFcompare x y = Some (value x ?= value y).
Proof.
  intros Hfx Hvx Hfy Hvy.
  assert (Hpos : forall m e m' e', dvalid (S754_finite false m e) = true ->
    dvalid (S754_finite false m' e') = true ->
    (Zpos m * 2 ^ (e + SCALE) ?= Zpos m' * 2 ^ (e' + SCALE))
    = match e ?= e' with Lt => Lt | Gt => Gt | Eq => Pos.compare_cont Eq m m' end).
  { clear. intros m e m' e' Hv Hv'. destruct (Z.compare_spec e e') as [->|Hlt|Hlt].
    - change (Pos.compare_cont Eq m m') with (Pos.compare m m').
      apply valid_finite in Hv' as (He' & _).
      assert (Hp : 0 < 2 ^ (e' + SCALE)) by (apply Z.pow_pos_nonneg; unfold SCALE; lia).
      destruct (Pos.compare_spec m m') as [->|Hm|Hm].
      + apply Z.compare_eq_iff. done.
      + apply Z.compare_lt_iff. nia.
      + apply Z.compare_gt_iff. nia.
    - apply Z.compare_lt_iff. by apply mantissa_lt.
    - apply Z.compare_gt_iff. by apply mantissa_lt. }
  destruct x as [s| | |s m e]; try done; destruct y as [s'| | |s' m' e']; try done; cbn [SFcompare].
  - apply valid_finite in Hvy as (He & _). destruct (sign_value s' m' e') as [Hs Hne]; [lia|].
    change (value (S754_zero s)) with 0. f_equal. destruct s'.
    + apply Z.ltb_lt in Hs. symmetry. by apply Z.compare_gt_iff.
    + apply Z.ltb_ge in Hs. symmetry. apply Z.compare_lt_iff. lia.
  - apply valid_finite in Hvx as (He & _). destruct (sign_value s m e) as [Hs Hne]; [lia|].
    change (value (S754_zero s')) with 0. f_equal. destruct s.
    + apply Z.ltb_lt in Hs. symmetry. by apply Z.compare_lt_iff.
    + apply Z.ltb_ge in Hs. symmetry. apply Z.compare_gt_iff. lia.
  - f_equal. pose proof (valid_finite _ _ _ Hvx) as (He & _). pose proof (valid_finite _ _ _ Hvy) as (He' & _).
    destruct (sign_value s m e) as [Hs Hne]; [lia|]. destruct (sign_value s' m' e') as [Hs' Hne']; [lia|].
    destruct s, s'; cbn [value cond_Zopp] in *.
    + rewrite Z.compare_opp, Hpos by done. rewrite (Z.compare_antisym e e').
      destruct (Z.compare_spec e e'); cbn [CompOpp]; try done.
      change (Pos.compare_cont Eq) with Pos.compare. by rewrite (Pos.compare_antisym m m').
    + symmetry. apply Z.compare_lt_iff. apply Z.ltb_lt in Hs. apply Z.ltb_ge in Hs'. lia.
    + symmetry. apply Z.compare_gt_iff. apply Z.ltb_lt in Hs'. apply Z.ltb_ge in Hs. lia.
    + by rewrite Hpos.
Qed.

Lemma SFltb_spec (x y : double) :
  dfinite x = true -> dvalid x = true -> dfinite y = true -> dvalid y = true ->
  SFltb x y = (value x <? value y).
Proof. intros. unfold SFltb. rewrite compare_spec by done. unfold Z.ltb. by destruct (_ ?= _). Qed.

Lemma SFleb_spec (x y : double) :
  dfinite x = true -> dvalid x = true -> dfinite y = true -> dvalid y = true ->
  SFleb x y = (value x <=? value y).
Proof. intros. unfold SFleb. rewrite compare_spec by done. unfold Z.leb. by destruct (_ ?= _). Qed.

Lemma SFeqb_spec (x y : double) :
  dfinite x = true -> dvalid x = true -> dfinite y = true -> dvalid y = true ->
  SFeqb x y = (value x =? value y).
Proof.
  intros. unfold SFeqb. rewrite compare_spec by done.
  destruct (Z.compare_spec (value x) (value y)) as [E|E|E]; symmetry.
  - by apply Z.eqb_eq.
  - apply Z.eqb_neq. lia.
  - apply Z.eqb_neq. lia.
Qed.

(** ** Integers and parts *)

Lemma ONE_pos : 0 < ONE.
Proof. reflexivity. Qed.

Lemma representable_int (n : Z) : Z.abs n <= 2 ^ 53 -> rnd (n * ONE) = n * ONE.
Proof.
  intros Hn. apply rnd_representable. destruct (decide (Z.abs n = 2 ^ 53)) as [He|Hne].
  - exists (Z.sgn n), (53 + SCALE). split_and!; [done|lia|].
    rewrite Z.pow_add_r by (unfold SCALE; lia). fold ONE.
    rewrite Z.mul_assoc. f_equal. lia.
  - exists n, SCALE. split_and!; [done|lia|done].
Qed.

Lemma of_int_spec (n : Z) : Z.abs n < 2 ^ 65 ->
  dfinite (of_int n) = true /\ dvalid (of_int n) = true /\ value (of_int n) = rnd (n * ONE).
Proof.
  intros Hn. destruct (dnorm_spec n 0 false) as [(H1 & H2 & H3 & _) _]; [lia| |done].
  destruct (decide (n = 0)) as [->|]; [done|].
  assert (Z.log2 (Z.abs n) < 65) by (apply Z.log2_lt_pow2; lia). lia.
Qed.

Lemma of_int_exact (n : Z) : Z.abs n <= 2 ^ 53 ->
  dfinite (of_int n) = true /\ dvalid (of_int n) = true /\ value (of_int n) = n * ONE.
Proof.
  intros Hn. destruct (of_int_spec n) as (H1 & H2 & H3); [lia|]. by rewrite H3, representable_int.
Qed.

(** The two parts, of a double of either sign. *)
Record parts (x f i : double) : Prop := {
  parts_f : dfinite f = true /\ dvalid f = true;
  parts_i : dfinite i = true /\ dvalid i = true;
  parts_sign : dsign i = dsign x;
  parts_value_i : value i = cond_Zopp (dsign x) (Z.abs (value x) / ONE * ONE);
  parts_value_f : value f = cond_Zopp (dsign x) (Z.abs (value x) mod ONE);
  parts_small : Z.abs (value x) mod ONE <> 0 -> Z.abs (value x) / ONE < 2 ^ 52 }.

Lemma value_abs (s : bool) (m : positive) (e : Z) : - 1074 <= e ->
  Z.abs (value (S754_finite s m e)) = Zpos m * 2 ^ (e + SCALE).
Proof.
  intros He. assert (0 < 2 ^ (e + SCALE)) by (apply Z.pow_pos_nonneg; unfold SCALE; lia).
  cbn [value]. destruct s; cbn [cond_Zopp]; lia.
Qed.

Lemma dnorm_exact (s : bool) (a e : Z) : - 1074 <= e <= 0 -> 0 <= a < 2 ^ 53 ->
  let r := dnorm (cond_Zopp s a) e s in
  dfinite r = true /\ dvalid r = true /\ dsign r = s /\ value r = cond_Zopp s (a * 2 ^ (e + SCALE)).
Proof.
  intros He Ha r. assert (Hp : 0 < 2 ^ (e + SCALE)) by (apply Z.pow_pos_nonneg; unfold SCALE; lia).
  assert (Habs : Z.abs (cond_Zopp s a) = a) by (destruct s; cbn [cond_Zopp]; lia).
  destruct (dnorm_spec (cond_Zopp s a) e s) as [(H1 & H2 & H3 & H4) H5]; [lia| |].
  { rewrite Habs. destruct (decide (a = 0)) as [->|]; [cbn; lia|].
    assert (Z.log2 a < 53) by (apply Z.log2_lt_pow2; lia). lia. }
  fold r in H1, H2, H3, H4, H5. split_and!; [done|done| |].
  - destruct (decide (a = 0)) as [->|Hne]; [rewrite H5; [done|by destruct s]|].
    rewrite H4 by (destruct s; cbn [cond_Zopp]; nia).
    destruct s; cbn [cond_Zopp]; [apply Z.ltb_lt|apply Z.ltb_ge]; nia.
  - rewrite H3, rnd_representable; [destruct s; cbn [cond_Zopp]; lia|].
    exists (cond_Zopp s a), (e + SCALE). rewrite Habs. unfold SCALE. split_and!; try done; lia.
Qed.

Lemma modf_parts (x : double) : dfinite x = true -> dvalid x = true ->
  parts x (fst (modf x)) (snd (modf x)).
Proof.
  intros Hf Hv. destruct x as [s| | |s m e]; try done.
  { cbn [modf fst snd]. constructor; try done; by destruct s. }
  pose proof (valid_finite _ _ _ Hv) as (He & Hm & _). pose proof ONE_pos as HO.
  pose proof (value_abs s m e) as Habs. cbn [modf]. destruct (Z.leb_spec 0 e) as [Hle|Hlt]; cbn [fst snd].
  - assert (Habs' : Z.abs (value (S754_finite s m e)) = Zpos m * 2 ^ e * ONE).
    { rewrite Habs by lia. rewrite Z.pow_add_r by (unfold SCALE; lia). unfold ONE. lia. }
    constructor; rewrite ?Habs', ?Z.div_mul, ?Z.mod_mul by lia; try done.
    + cbn [value dsign]. rewrite Z.pow_add_r by (unfold SCALE; lia). by rewrite Z.mul_assoc.
    + by destruct s.
  - set (k := - e). assert (Hk : 0 < k <= 1074) by lia.
    assert (Hkp : 0 < 2 ^ k) by (apply Z.pow_pos_nonneg; lia).
    assert (Hsp : 0 < 2 ^ (e + SCALE)) by (apply Z.pow_pos_nonneg; unfold SCALE; lia).
    assert (HONE : ONE = 2 ^ k * 2 ^ (e + SCALE)).
    { unfold ONE. rewrite <- Z.pow_add_r by (unfold SCALE; lia). f_equal. unfold k. lia. }
    pose proof (Z.mod_pos_bound (Zpos m) (2 ^ k) Hkp). pose proof (Z.mod_le (Zpos m) (2 ^ k)).
    assert (0 <= Zpos m / 2 ^ k) by (apply Z.div_pos; lia).
    assert (Hq : Zpos m / 2 ^ k < 2 ^ 52).
    { apply Z.div_lt_upper_bound; [done|].
      assert (2 ^ 1 <= 2 ^ k) by (apply Z.pow_le_mono_r; lia). change (2 ^ 53) with (2 ^ 1 * 2 ^ 52) in Hm. nia. }
    assert (Hdiv : Z.abs (value (S754_finite s m e)) / ONE = Zpos m / 2 ^ k).
    { rewrite Habs, HONE by lia. by rewrite Z.div_mul_cancel_r by lia. }
    assert (Hmod : Z.abs (value (S754_finite s m e)) mod ONE = Zpos m mod 2 ^ k * 2 ^ (e + SCALE)).
    { rewrite Habs, HONE by lia. by rewrite Z.mul_mod_distr_r by lia. }
    destruct (dnorm_exact s (Zpos m mod 2 ^ k) e) as (F1 & F2 & F3 & F4); [lia|lia|].
    destruct (dnorm_exact s (Zpos m / 2 ^ k) 0) as (I1 & I2 & I3 & I4); [lia|lia|].
    constructor; rewrite ?Hdiv, ?Hmod; try done.
Qed.

Lemma ONE_even : ONE = 2 * 2 ^ 1073.
Proof. reflexivity. Qed.

Lemma value_half (s : bool) : value (half s) = cond_Zopp s (2 ^ 1073) /\ dvalid (half s) = true.
Proof. by destruct s. Qed.

(** The rounding of the code, on the integral part [n] and the fraction [r]. *)
Definition rounds_up (n r : Z) : bool := (2 ^ 1073 <? r) || ((r =? 2 ^ 1073) && Z.odd n).

Lemma rounds_up_rne (a : Z) : 0 <= a ->
  rne a SCALE = a / ONE + (if rounds_up (a / ONE) (a mod ONE) then 1 else 0).
Proof.
  intros Ha. unfold rne, rounds_up. fold ONE.
  pose proof (Z.mod_pos_bound a ONE ONE_pos). rewrite <- (Z.negb_even (a / ONE)).
  generalize ONE_even. generalize (2 ^ 1073) as h. intros h Hh.
  destruct (Z.compare_spec (2 * (a mod ONE)) ONE), (Z.ltb_spec h (a mod ONE)),
    (Z.eqb_spec (a mod ONE) h); cbn [orb andb]; try lia; destruct (Z.even _); cbn; lia.
Qed.

Lemma of_bool_spec (b : bool) :
  dfinite (of_bool b) = true /\ dvalid (of_bool b) = true /\ value (of_bool b) = if b then ONE else 0.
Proof. destruct b; [|done]. split_and!; reflexivity. Qed.

Lemma truncate_spec (lo hi : Z) (x : double) (n : Z) : dfinite x = true ->
  Z.quot (value x) ONE = n -> lo <= n <= hi -> truncate lo hi x = Some n.
Proof.
  intros Hf <- Hn. unfold truncate. rewrite Hf.
  destruct (Z.leb_spec lo (Z.quot (value x) ONE)), (Z.leb_spec (Z.quot (value x) ONE) hi); try lia. done.
Qed.

Lemma quot_ONE (n : Z) : Z.quot (n * ONE) ONE = n.
Proof. apply Z.quot_mul. done. Qed.

Lemma rem_2_odd (n : Z) : negb (Z.rem n 2 =? 0) = Z.odd n.
Proof.
  destruct (Z.eqb_spec (Z.rem n 2) 0) as [He|He]; cbn [negb].
  - apply Z.rem_divide in He as [k ->]; [|done]. by rewrite Z.odd_mul, andb_false_r.
  - destruct (Z.odd n) eqn:Ho; [done|]. exfalso. apply He, Z.rem_divide; [done|].
    apply Z.mod_divide; [done|]. by rewrite Zmod_odd, Ho.
Qed.

Lemma ltb_opp (a b : Z) : (- a <? - b) = (b <? a).
Proof. destruct (Z.ltb_spec (- a) (- b)), (Z.ltb_spec b a); lia || done. Qed.

Lemma eqb_opp (a b : Z) : (- a =? - b) = (a =? b).
Proof. destruct (Z.eqb_spec (- a) (- b)), (Z.eqb_spec a b); lia || done. Qed.

(** The decision of the code on the parts of a double, for each sign. *)
Section Decision.
Context (x f i : double) (P : parts x f i).
#[local] Abbreviation n := (Z.abs (value x) / ONE).
#[local] Abbreviation r := (Z.abs (value x) mod ONE).

Lemma half_small : r = 2 ^ 1073 -> n < 2 ^ 52.
Proof. intros Hr. apply (parts_small _ _ _ P). by rewrite Hr. Qed.

Lemma n_nonneg : 0 <= n.
Proof. apply Z.div_pos; [lia|done]. Qed.

Lemma decision_up : dsign x = false ->
  (if SFltb (half false) f then Some true
   else if SFeqb f (half false) && SFleb i (of_int MAX_EXACT_INTEGER)
        then n ← to_longlong i; Some (negb (Z.rem n 2 =? 0)) else Some false) = Some (rounds_up n r).
Proof.
  intros Hs. destruct (value_half false) as [Hh Hhv]. destruct (parts_f _ _ _ P), (parts_i _ _ _ P).
  pose proof (parts_value_f _ _ _ P) as Hf. pose proof (parts_value_i _ _ _ P) as Hi.
  rewrite Hs in Hf, Hi. cbn [cond_Zopp] in *.
  destruct (of_int_exact MAX_EXACT_INTEGER) as (M1 & M2 & M3); [done|].
  rewrite SFltb_spec, SFeqb_spec, SFleb_spec by done. rewrite Hh, Hf, Hi, M3.
  unfold rounds_up. destruct (2 ^ 1073 <? r); [done|]. cbn [orb].
  destruct (Z.eqb_spec r (2 ^ 1073)) as [Hr|]; [|done]. apply half_small in Hr. cbn [andb].
  pose proof n_nonneg. replace (n * ONE <=? MAX_EXACT_INTEGER * ONE) with true.
  - unfold to_longlong. rewrite (truncate_spec _ _ _ n); [|done|by rewrite Hi, quot_ONE|lia].
    cbn [mbind option_bind]. by rewrite rem_2_odd.
  - symmetry. apply Z.leb_le, Z.mul_le_mono_nonneg_r; [done|]. change MAX_EXACT_INTEGER with (2 ^ 53 - 1). lia.
Qed.

Lemma decision_down : dsign x = true ->
  (if SFltb f (half true) then Some true
   else if SFeqb f (half true) && SFleb (of_int (- MAX_EXACT_INTEGER)) i
        then n ← to_longlong i; Some (negb (Z.rem n 2 =? 0)) else Some false) = Some (rounds_up n r).
Proof.
  intros Hs. destruct (value_half true) as [Hh Hhv]. destruct (parts_f _ _ _ P), (parts_i _ _ _ P).
  pose proof (parts_value_f _ _ _ P) as Hf. pose proof (parts_value_i _ _ _ P) as Hi.
  rewrite Hs in Hf, Hi. cbn [cond_Zopp] in *.
  destruct (of_int_exact (- MAX_EXACT_INTEGER)) as (M1 & M2 & M3); [done|].
  rewrite SFltb_spec, SFeqb_spec, SFleb_spec by done. rewrite Hh, Hf, Hi, M3.
  unfold rounds_up. rewrite ltb_opp, eqb_opp.
  destruct (2 ^ 1073 <? r); [done|]. cbn [orb].
  destruct (Z.eqb_spec r (2 ^ 1073)) as [Hr|]; [|done]. apply half_small in Hr. cbn [andb].
  pose proof n_nonneg. replace (- MAX_EXACT_INTEGER * ONE <=? - (n * ONE)) with true.
  - unfold to_longlong. rewrite (truncate_spec _ _ _ (- n));
      [|done|by rewrite Hi, <- Z.mul_opp_l, quot_ONE|lia].
    cbn [mbind option_bind]. by rewrite rem_2_odd, Z.odd_opp.
  - symmetry. apply Z.leb_le. rewrite <- Z.mul_opp_l. apply Z.mul_le_mono_nonneg_r; [done|].
    change MAX_EXACT_INTEGER with (2 ^ 53 - 1). lia.
Qed.

(** The last operation is exact, and keeps the sign. *)
Lemma up_small (b : bool) : b = rounds_up n r -> b = true -> n < 2 ^ 52.
Proof.
  intros -> Hb. apply (parts_small _ _ _ P). unfold rounds_up in Hb. intros Hr. by rewrite Hr in Hb.
Qed.

Definition result_ok (y : double) (b : bool) : Prop :=
  dfinite y = true /\ dvalid y = true /\ dsign y = dsign x
  /\ value y = cond_Zopp (dsign x) ((n + if b then 1 else 0) * ONE).

Lemma add_ok (b : bool) : dsign x = false -> b = rounds_up n r -> result_ok (dadd i (of_bool b)) b.
Proof.
  intros Hs Hb. destruct (parts_f _ _ _ P), (parts_i _ _ _ P).
  pose proof (parts_value_i _ _ _ P) as Hi. pose proof (parts_sign _ _ _ P) as Hsi.
  pose proof n_nonneg. pose proof ONE_pos. unfold result_ok. rewrite Hs in *. cbn [cond_Zopp] in *.
  destruct b.
  - pose proof (up_small true Hb eq_refl) as Hn. destruct (of_bool_spec true) as (T1 & T2 & T3).
    destruct (dadd_spec i (of_bool true)) as (A1 & A2 & A3 & A4); try done.
    { rewrite Hi, T3. change (2 ^ 2097) with (2 ^ 1023 * ONE). assert (n + 1 < 2 ^ 1023) by lia. nia. }
    rewrite Hi, T3 in A3, A4. split_and!; [done|done| |].
    + rewrite A4 by nia. apply Z.ltb_ge. nia.
    + rewrite A3. replace (n * ONE + ONE) with ((n + 1) * ONE) by lia. apply representable_int. lia.
  - assert (Hid : dadd i (of_bool false) = i) by (destruct i as [[]| | |]; done).
    rewrite Hid, Z.add_0_r. by split_and!.
Qed.

Lemma sub_ok (b : bool) : dsign x = true -> b = rounds_up n r -> result_ok (dsub i (of_bool b)) b.
Proof.
  intros Hs Hb. destruct (parts_f _ _ _ P), (parts_i _ _ _ P).
  pose proof (parts_value_i _ _ _ P) as Hi. pose proof (parts_sign _ _ _ P) as Hsi.
  pose proof n_nonneg. pose proof ONE_pos. unfold result_ok. rewrite Hs in *. cbn [cond_Zopp] in *.
  destruct b.
  - pose proof (up_small true Hb eq_refl) as Hn. destruct (of_bool_spec true) as (T1 & T2 & T3).
    destruct (dsub_spec i (of_bool true)) as (A1 & A2 & A3 & A4); try done.
    { rewrite Hi, T3. change (2 ^ 2097) with (2 ^ 1023 * ONE). assert (n + 1 < 2 ^ 1023) by lia. nia. }
    rewrite Hi, T3 in A3, A4. split_and!; [done|done| |].
    + rewrite A4 by nia. apply Z.ltb_lt. nia.
    + rewrite A3. replace (- (n * ONE) - ONE) with ((- (n + 1)) * ONE) by lia.
      rewrite representable_int by lia. lia.
  - assert (Hid : dsub i (of_bool false) = i) by (destruct i as [[]| | |]; done).
    rewrite Hid, Z.add_0_r. by split_and!.
Qed.

End Decision.

(** The result of [rint] on a finite double. *)
Lemma rint_result (x : double) : dfinite x = true -> dvalid x = true ->
  exists y, rint x = Some y /\ dfinite y = true /\ dvalid y = true /\ dsign y = dsign x
    /\ value y = cond_Zopp (dsign x) (rne (Z.abs (value x)) SCALE * ONE).
Proof.
  intros Hf Hv. pose proof (modf_parts x Hf Hv) as P. destruct (dsign x) eqn:Hs.
  - unfold rint. destruct (modf x) as [f i]. cbn [fst snd] in P.
    assert (Hneg : SFltb dzero x = false) by (destruct x; cbn in Hs; subst; done).
    rewrite Hneg, (decision_down x f i P Hs). cbn [mbind option_bind]. eexists. split; [done|].
    rewrite rounds_up_rne by lia. pose proof (sub_ok x f i P _ Hs eq_refl) as Hr.
    unfold result_ok in Hr. rewrite Hs in Hr. exact Hr.
  - destruct x as [s| | |s m e]; try done; cbn in Hs; subst s; [by exists dzero|].
    unfold rint. destruct (modf _) as [f i]. cbn [fst snd] in P.
    change (SFltb dzero (S754_finite false m e)) with true. cbv iota.
    rewrite (decision_up _ f i P eq_refl). cbn [mbind option_bind]. eexists. split; [done|].
    rewrite rounds_up_rne by lia. exact (add_ok _ f i P _ eq_refl eq_refl).
Qed.

(** ** Properties *)

(** C23.  [rint] is total on the doubles and rounds to the nearest integer, to the even one of two
    that are equally near; it keeps the sign, also that of a zero, and returns infinities and
    NaN unchanged.  No conversion to [longlong] in it is out of range. *)
Theorem rint_half_even (x : double) : dvalid x = true ->
  exists y, rint x = Some y /\ dsign y = dsign x /\
    if dfinite x then dfinite y = true /\ dvalid y = true /\ exists n, value y = n * ONE
      /\ 2 * Z.abs (value x - n * ONE) <= ONE
      /\ (2 * Z.abs (value x - n * ONE) = ONE -> Z.even n = true)
    else y = x.
Proof.
  intros Hv. destruct (dfinite x) eqn:Hf; [|destruct x as [|[]| |]; try done; by eexists].
  destruct (rint_result x Hf Hv) as (y & Hy & H1 & H2 & H3 & H4). exists y. do 4 (split; [done|]).
  destruct (rne_error (Z.abs (value x)) SCALE) as [He1 He2]; [done|]. fold ONE in He1, He2.
  set (q := rne (Z.abs (value x)) SCALE) in *. exists (cond_Zopp (dsign x) q).
  assert (Hx : value x = cond_Zopp (dsign x) (Z.abs (value x))).
  { destruct x as [s| | |s m e]; try done; [by destruct s|]. apply valid_finite in Hv as (He & _).
    destruct (sign_value s m e) as [Hs _]; [lia|]. cbn [dsign].
    destruct s; [apply Z.ltb_lt in Hs|apply Z.ltb_ge in Hs]; cbn [cond_Zopp]; lia. }
  assert (Hd : Z.abs (value x - cond_Zopp (dsign x) q * ONE) = Z.abs (Z.abs (value x) - q * ONE))
    by (rewrite Hx at 1; destruct (dsign x); cbn [cond_Zopp]; lia).
  rewrite Hd. split_and!; [|done|].
  - rewrite H4. destruct (dsign x); cbn [cond_Zopp]; lia.
  - intros Ht. destruct (dsign x); cbn [cond_Zopp]; rewrite ?Z.even_opp; by apply He2.
Qed.

Lemma rint_half_even_witness :
  exists y, rint (S754_finite true (5 * 2 ^ 50) (-51)) = Some y
    /\ dsign y = dsign (S754_finite true (5 * 2 ^ 50) (-51)) /\
    if dfinite (S754_finite true (5 * 2 ^ 50) (-51))
    then dfinite y = true /\ dvalid y = true /\ exists n, value y = n * ONE
      /\ 2 * Z.abs (value (S754_finite true (5 * 2 ^ 50) (-51)) - n * ONE) <= ONE
      /\ (2 * Z.abs (value (S754_finite true (5 * 2 ^ 50) (-51)) - n * ONE) = ONE -> Z.even n = true)
    else y = S754_finite true (5 * 2 ^ 50) (-51).
Proof. apply (rint_half_even (S754_finite true (5 * 2 ^ 50) (-51))). reflexivity. Defined.

Lemma rnd_positive (v : Z) : 0 < v -> 0 < rnd v.
Proof.
  intros Hv. rewrite rnd_pos by done.
  assert (Hp : 0 < 2 ^ excess v) by (apply Z.pow_pos_nonneg; [lia|apply excess_nonneg]).
  enough (0 < rne v (excess v)) by nia. destruct (rne_mantissa v (excess v) Hv) as [_ Hn].
  - apply excess_nonneg.
  - unfold excess, DBL_MANT_DIG. lia.
  - destruct (decide (excess v = 0)) as [->|Hne]; [by rewrite rne_0|].
    unfold excess, DBL_MANT_DIG in *. lia.
Qed.

Lemma rnd_negative (v : Z) : v < 0 -> rnd v < 0.
Proof. intros Hv. pose proof (rnd_positive (- v)). rewrite rnd_opp in *. lia. Qed.

(** The error of the rounding, for a value below [2^b] in absolute value. *)
Lemma rnd_error (v b : Z) : 53 <= b -> Z.abs v < 2 ^ b -> 2 * Z.abs (rnd v - v) <= 2 ^ (b - 53).
Proof.
  intros Hb. assert (Hpos : forall v, 0 < v < 2 ^ b -> 2 * Z.abs (rnd v - v) <= 2 ^ (b - 53)).
  { clear v. intros v Hv. rewrite rnd_pos by lia.
    destruct (rne_error v (excess v)) as [He _]; [apply excess_nonneg|].
    assert (Hl : Z.log2 v < b) by (apply Z.log2_lt_pow2; lia).
    assert (2 ^ excess v <= 2 ^ (b - 53))
      by (apply Z.pow_le_mono_r; [lia|unfold excess, DBL_MANT_DIG; lia]). lia. }
  intros Hv. destruct (Z.lt_trichotomy v 0) as [Hlt | [-> | Hlt]].
  - specialize (Hpos (- v)). rewrite rnd_opp in Hpos. lia.
  - rewrite rnd_0. pose proof (Z.pow_nonneg 2 (b - 53)). lia.
  - apply Hpos. lia.
Qed.

(** The doubles of the upper half of the range of [ulonglong] have the exponent 11. *)
Lemma upper_half (d : double) : dfinite d = true -> dvalid d = true ->
  2 ^ 63 * ONE <= value d < 2 ^ 64 * ONE ->
  exists m, d = S754_finite false m 11 /\ 2 ^ 52 <= Zpos m < 2 ^ 53.
Proof.
  intros Hf Hv [Hlo Hhi]. pose proof ONE_pos as HO.
  assert (Hp : 0 < value d) by (eapply Z.lt_le_trans; [|exact Hlo]; reflexivity).
  destruct d as [s| | |s m e]; [by exfalso; cbn in Hp|by cbn in Hf|by cbn in Hf|].
  destruct (valid_finite s m e Hv) as (He & Hm & Hn). destruct (sign_value s m e) as [Hs _]; [lia|].
  destruct s; [apply Z.ltb_lt in Hs; lia|].
  cbn [value cond_Zopp] in *. unfold ONE in *. rewrite <- !Z.pow_add_r in * by (unfold SCALE; lia).
  assert (HE : e = 11).
  { destruct (Z.lt_trichotomy e 11) as [Hlt | [-> | Hlt]]; [exfalso|reflexivity|exfalso].
    - assert (2 ^ (e + SCALE) <= 2 ^ (10 + SCALE)) by (apply Z.pow_le_mono_r; unfold SCALE; lia).
      change (2 ^ (63 + SCALE)) with (2 ^ 53 * 2 ^ (10 + SCALE)) in Hlo.
      assert (0 < 2 ^ (10 + SCALE)) by reflexivity.
      revert Hlo H H0 Hm. generalize (2 ^ (10 + SCALE)), (2 ^ (e + SCALE)). intros Q P ? ? ? ?.
      assert (Zpos m * P <= Zpos m * Q) by (apply Z.mul_le_mono_nonneg_l; lia).
      assert (Zpos m * Q < 2 ^ 53 * Q) by (apply Z.mul_lt_mono_pos_r; lia). lia.
    - assert (2 ^ (12 + SCALE) <= 2 ^ (e + SCALE)) by (apply Z.pow_le_mono_r; unfold SCALE; lia).
      specialize (Hn ltac:(lia)). assert (0 < 2 ^ (12 + SCALE)) by reflexivity.
      change (2 ^ (64 + SCALE)) with (2 ^ 52 * 2 ^ (12 + SCALE)) in Hhi.
      revert Hhi H H0 Hn. generalize (2 ^ (12 + SCALE)), (2 ^ (e + SCALE)). intros Q P ? ? ? ?.
      assert (2 ^ 52 * P <= Zpos m * P) by (apply Z.mul_le_mono_nonneg_r; lia). lia. }
  subst e. exists m. specialize (Hn ltac:(lia)). split; [reflexivity|lia].
Qed.

Lemma rnd_abs_le (v b : Z) : 53 <= b -> Z.abs v < 2 ^ b -> Z.abs (rnd v) <= 2 ^ b.
Proof.
  intros Hb. assert (Hpos : forall v, 0 < v < 2 ^ b -> 0 <= rnd v <= 2 ^ b).
  { clear v. intros v Hv. rewrite rnd_pos by lia. pose proof (excess_nonneg v) as H0.
    destruct (rne_mantissa v (excess v)) as [Hq _]; [lia|done|unfold excess, DBL_MANT_DIG; lia|].
    assert (Hl : Z.log2 v < b) by (apply Z.log2_lt_pow2; lia).
    assert (Hp : 2 ^ 53 * 2 ^ excess v <= 2 ^ b).
    { rewrite <- Z.pow_add_r by lia. apply Z.pow_le_mono_r; [lia|]. unfold excess, DBL_MANT_DIG. lia. }
    assert (0 < 2 ^ excess v) by (apply Z.pow_pos_nonneg; lia).
    set (q := rne v (excess v)) in *. set (P := 2 ^ excess v) in *.
    assert (q * P <= 2 ^ 53 * P) by (apply Z.mul_le_mono_nonneg_r; lia). split; [nia|lia]. }
  intros Hv. destruct (Z.lt_trichotomy v 0) as [Hlt | [-> | Hlt]].
  - specialize (Hpos (- v)). rewrite rnd_opp in Hpos. lia.
  - rewrite rnd_0. pose proof (Z.pow_nonneg 2 b). lia.
  - specialize (Hpos v). lia.
Qed.

(** C25.  [my_double2ulonglong] truncates every finite double in the range of
    [ulonglong] towards zero: the subtraction of [2^63] that brings the upper half in reach of a signed
    conversion is exact there, and never changes on which side a double is. *)
Theorem double2ulonglong_truncates (d : double) :
  dfinite d = true -> dvalid d = true -> - ONE < value d < 2 ^ 64 * ONE ->
  my_double2ulonglong d = Some (Z.quot (value d) ONE).
Proof.
  intros Hf Hv Hr. pose proof ONE_pos as HO. unfold my_double2ulonglong.
  destruct (of_int_spec 0x8000000000000000) as (C1 & C2 & C3); [done|].
  change (rnd (0x8000000000000000 * ONE)) with (2 ^ 63 * ONE) in C3.
  destruct (dsub_spec d (of_int 0x8000000000000000)) as (T1 & T2 & T3 & _); try done.
  { rewrite C3. change (2 ^ 2097) with (2 ^ 1023 * ONE). nia. }
  rewrite C3 in T3. rewrite SFleb_spec by done. rewrite T3. change (value dzero) with 0.
  destruct (Z.lt_ge_cases (value d) (2 ^ 63 * ONE)) as [Hlo|Hhi].
  - pose proof (rnd_negative (value d - 2 ^ 63 * ONE)).
    destruct (Z.leb_spec 0 (rnd (value d - 2 ^ 63 * ONE))); [lia|].
    apply truncate_spec; [done|done|]. split.
    + destruct (Z.le_gt_cases 0 (value d)); [by apply Z.quot_pos|].
      rewrite <- (Z.opp_involutive (value d)), Z.quot_opp_l, Z.quot_small by lia. lia.
    + destruct (Z.le_gt_cases 0 (value d)).
      * enough (Z.quot (value d) ONE < 2 ^ 63) by lia. apply Z.quot_lt_upper_bound; lia.
      * rewrite <- (Z.opp_involutive (value d)), Z.quot_opp_l, Z.quot_small by lia. lia.
  - destruct (upper_half d Hf Hv) as (m & -> & Hm); [lia|].
    assert (Hval : value (S754_finite false m 11) = Zpos m * 2 ^ 11 * ONE).
    { cbn [value cond_Zopp]. change (2 ^ (11 + SCALE)) with (2 ^ 11 * ONE). lia. }
    rewrite Hval in *. assert (Hex : rnd (Zpos m * 2 ^ 11 * ONE - 2 ^ 63 * ONE) = (Zpos m * 2 ^ 11 - 2 ^ 63) * ONE).
    { rewrite rnd_representable; [lia|]. exists (Zpos m - 2 ^ 52), (11 + SCALE).
      split_and!; [done|lia|]. change (2 ^ (11 + SCALE)) with (2 ^ 11 * ONE). lia. }
    rewrite Hex in *. assert (0 <= Zpos m * 2 ^ 11 - 2 ^ 63 < 2 ^ 63) by lia.
    destruct (Z.leb_spec 0 ((Zpos m * 2 ^ 11 - 2 ^ 63) * ONE)); [|nia].
    unfold to_ulonglong. rewrite (truncate_spec _ _ _ (Zpos m * 2 ^ 11 - 2 ^ 63)); [|done|by rewrite T3, quot_ONE|lia].
    cbn [mbind option_bind]. rewrite quot_ONE. f_equal. rewrite uwrap_small by lia. lia.
Qed.

Lemma double2ulonglong_truncates_witness :
  my_double2ulonglong (of_int 10000000000000000000) = Some 10000000000000000000.
Proof.
  apply (double2ulonglong_truncates (of_int 10000000000000000000)); [reflexivity|reflexivity|].
  vm_compute. split; reflexivity.
Defined.

Lemma of_int_u64 (v : Z) : 0 <= v < 2 ^ 64 ->
  value (ulonglong2double v) = rnd (v * ONE) /\ Z.abs (value (ulonglong2double v) - v * ONE) <= 1024 * ONE.
Proof.
  intros Hv. unfold ulonglong2double. rewrite uwrap_small by done.
  destruct (of_int_spec v) as (_ & _ & ->); [lia|]. split; [reflexivity|].
  pose proof (rnd_error (v * ONE) (64 + SCALE)) as He. change (2 ^ (64 + SCALE)) with (2 ^ 64 * ONE) in He.
  change (2 ^ (64 + SCALE - 53)) with (2048 * ONE) in He. pose proof ONE_pos.
  enough (2 * Z.abs (rnd (v * ONE) - v * ONE) <= 2048 * ONE) by lia. apply He; [done|nia].
Qed.

(** The two roundings of the upper half. *)
Lemma upper_half_sum (v : Z) : 2 ^ 63 <= v < 2 ^ 64 ->
  dfinite (my_ulonglong2double v) = true
  /\ value (my_ulonglong2double v) = rnd (2 ^ 64 * ONE + rnd (s64 v * ONE))
  /\ Z.abs (rnd (s64 v * ONE) - s64 v * ONE) <= 512 * ONE
  /\ s64 v = v - 2 ^ 64 /\ - 2 ^ 63 * ONE <= rnd (s64 v * ONE) < 0.
Proof.
  intros Hv. pose proof ONE_pos as HO.
  assert (Hs : s64 v = v - 2 ^ 64).
  { unfold swrap. change (2 ^ (64 - 1)) with (2 ^ 63). symmetry.
    replace (v + 2 ^ 63) with (v - 2 ^ 63 + 1 * 2 ^ 64) by lia. rewrite Z_mod_plus_full, Z.mod_small by lia. lia. }
  rewrite Hs. unfold my_ulonglong2double. rewrite Hs, Z.geb_leb. destruct (Z.leb_spec 0 (v - 2 ^ 64)); [lia|].
  destruct (of_int_spec (v - 2 ^ 64)) as (I1 & I2 & I3); [lia|].
  assert (Herr : Z.abs (rnd ((v - 2 ^ 64) * ONE) - (v - 2 ^ 64) * ONE) <= 512 * ONE
                 /\ - 2 ^ 63 * ONE <= rnd ((v - 2 ^ 64) * ONE)).
  { destruct (decide (v = 2 ^ 63)) as [->|Hne]; [split; vm_compute; discriminate|].
    assert (Habs : Z.abs ((v - 2 ^ 64) * ONE) < 2 ^ (63 + SCALE)) by (change (2 ^ (63 + SCALE)) with (2 ^ 63 * ONE); nia).
    pose proof (rnd_error _ (63 + SCALE) ltac:(done) Habs) as He.
    pose proof (rnd_abs_le _ (63 + SCALE) ltac:(done) Habs) as Hle.
    change (2 ^ (63 + SCALE)) with (2 ^ 63 * ONE) in Hle.
    change (2 ^ (63 + SCALE - 53)) with (1024 * ONE) in He. split; lia. }
  destruct Herr as [Herr Hlow]. pose proof (rnd_negative ((v - 2 ^ 64) * ONE) ltac:(nia)) as Hneg.
  destruct (of_int_spec 18446744073709551616) as (C1 & C2 & _); [done|].
  assert (C3 : value (of_int 18446744073709551616) = 2 ^ 64 * ONE) by reflexivity.
  destruct (dadd_spec (of_int 18446744073709551616) (of_int (v - 2 ^ 64))) as (A1 & _ & A3 & _);
    [exact C1|exact C2|exact I1|exact I2| |].
  { rewrite C3, I3. change (2 ^ 2097) with (2 ^ 1023 * ONE). nia. }
  rewrite C3, I3 in A3. split_and!; [exact A1|exact A3|exact Herr|reflexivity|exact Hlow|exact Hneg].
Qed.

(** C39.  [my_ulonglong2double] of 32-bit Windows agrees with the conversion of
    the other platforms below [2^63], and above it whenever the conversion of the signed reading is exact;
    otherwise it rounds twice, is off by at most 1536 (1024 elsewhere), and is not the
    nearest double for 2^63 + 1025. *)
Theorem ulonglong2double_rounds_twice (v : Z) : 0 <= v < 2 ^ 64 ->
  dfinite (my_ulonglong2double v) = true
  /\ (v < 2 ^ 63 \/ representable (s64 v * ONE) ->
      value (my_ulonglong2double v) = value (ulonglong2double v))
  /\ Z.abs (value (my_ulonglong2double v) - v * ONE) <= 1536 * ONE
  /\ value (my_ulonglong2double (2 ^ 63 + 1025)) <> value (ulonglong2double (2 ^ 63 + 1025)).
Proof.
  intros Hv. pose proof ONE_pos as HO. destruct (of_int_u64 v Hv) as [U1 U2].
  assert (Hne : value (my_ulonglong2double (2 ^ 63 + 1025)) <> value (ulonglong2double (2 ^ 63 + 1025)))
    by (vm_compute; discriminate).
  destruct (Z.lt_ge_cases v (2 ^ 63)) as [Hlt|Hge].
  - assert (Hs : my_ulonglong2double v = ulonglong2double v).
    { unfold my_ulonglong2double, ulonglong2double. rewrite swrap_small, uwrap_small by lia.
      rewrite Z.geb_leb. destruct (Z.leb_spec 0 v); [reflexivity|lia]. }
    rewrite Hs. split; [|split; [reflexivity|split; [lia|exact Hne]]].
    unfold ulonglong2double. rewrite uwrap_small by done. apply of_int_spec. lia.
  - destruct (upper_half_sum v ltac:(lia)) as (A1 & A2 & A3 & A4 & A5).
    split; [exact A1|]. split; [|split; [|exact Hne]].
    + intros [Hlt|Hrep]; [lia|]. rewrite A2, U1, (rnd_representable _ Hrep), A4. f_equal. lia.
    + rewrite A2. rewrite A4 in *. set (w := rnd ((v - 2 ^ 64) * ONE)) in *.
      assert (Habs : Z.abs (2 ^ 64 * ONE + w) < 2 ^ (64 + SCALE))
        by (change (2 ^ (64 + SCALE)) with (2 ^ 64 * ONE); lia).
      pose proof (rnd_error _ (64 + SCALE) ltac:(done) Habs) as He.
      change (2 ^ (64 + SCALE - 53)) with (2048 * ONE) in He. lia.
Qed.

Lemma ulonglong2double_rounds_twice_witness :
  dfinite (my_ulonglong2double (2 ^ 64 - 2048)) = true
  /\ ((2 ^ 64 - 2048 < 2 ^ 63 \/ representable (s64 (2 ^ 64 - 2048) * ONE)) ->
      value (my_ulonglong2double (2 ^ 64 - 2048)) = value (ulonglong2double (2 ^ 64 - 2048)))
  /\ Z.abs (value (my_ulonglong2double (2 ^ 64 - 2048)) - (2 ^ 64 - 2048) * ONE) <= 1536 * ONE
  /\ value (my_ulonglong2double (2 ^ 63 + 1025)) <> value (ulonglong2double (2 ^ 63 + 1025)).
Proof. apply (ulonglong2double_rounds_twice (2 ^ 64 - 2048)). lia. Defined.
