(* ===== verification/FloatClass.v ===== *)
(** * Classification of floating point numbers (my_global.h)

    [finite], [isnan] and [my_isinf] with the functions of the system or with the definitions that
    replace them, and the replacement of [DBL_MAX].  The file proves that the quotient of 1 by a finite
    double is positive. *)
From Stdlib Require Import SpecFloat.
From S2P Require Import Prelude Doubles.

Abbreviation ddiv := (SFdiv DBL_MANT_DIG DBL_MAX_EXP).

(** ** The code *)

(** Whether the system defines the macro isfinite, what my_config.h says of the system, and its functions. *)
Class FloatSystem := {
  has_isfinite : bool;
  HAVE_FINITE : bool;
  HAVE_ISNAN : bool;
  HAVE_ISINF : bool;
  HAVE_BROKEN_ISINF : bool;
  sys_isfinite : double -> bool;
  sys_finite : double -> bool;
  sys_isnan : double -> bool;
  sys_isinf : double -> bool }.

Definition is_nan (x : double) : bool := match x with S754_nan => true | _ => false end.
Definition is_infinity (x : double) : bool := match x with S754_infinity _ => true | _ => false end.

(** The documentation of the functions of the system that are there.  With a macro isfinite of the system the header defines
    no [finite], so a program that uses it needs the function. *)
Class FloatSystemLaws `{FloatSystem} : Prop := {
  finite_there : has_isfinite = true -> HAVE_FINITE = true;
  sys_isfinite_spec x : has_isfinite = true -> sys_isfinite x = dfinite x;
  sys_finite_spec x : HAVE_FINITE = true -> sys_finite x = dfinite x;
  sys_isnan_spec x : HAVE_ISNAN = true -> sys_isnan x = is_nan x;
  sys_isinf_spec x : HAVE_ISINF = true -> sys_isinf x = is_infinity x }.

Section Code.
Context `{FloatSystem}.

(** [x > y] and [x != y] *)
Definition gt (x y : double) : bool := SFltb y x.
Definition ne (x y : double) : bool := negb (SFeqb x y).

Definition finite (x : double) : bool :=
  if has_isfinite then sys_finite x else if HAVE_FINITE then sys_finite x else gt (ddiv (of_int 1) (SFabs x)) dzero.
Definition isfinite : option (double -> bool) :=
  if has_isfinite then Some sys_isfinite else if HAVE_FINITE then Some finite else None.
Definition isnan (x : double) : bool := if HAVE_ISNAN then sys_isnan x else ne x x.
(** The function for the broken compiler stores the argument and loads it again. *)
Definition my_isinf (x : double) : bool :=
  if HAVE_ISINF then (if HAVE_BROKEN_ISINF then let t := x in sys_isinf t else sys_isinf x)
  else negb (finite x) && negb (isnan x).
End Code.

(** The literals, decimal mantissa and exponent. *)
Definition DBL_MAX : Z * Z := (179769313486231470, 291).
Definition DBL_MIN : Z * Z := (494065645841246544, - 341).

(** ** Division of 1 *)

Lemma shr_1_m (r : shr_record) : 0 <= shr_m r -> shr_m (shr_1 r) = shr_m r / 2.
Proof. destruct r as [m r s]. cbn [shr_m]. intros Hm. by rewrite shr_1_eq. Qed.

Lemma shr_iter_m (n : nat) (r : shr_record) : 0 <= shr_m r ->
  shr_m (Nat.iter n shr_1 r) = shr_m r / 2 ^ Z.of_nat n.
Proof.
  intros Hm. induction n as [|n IH]; [by rewrite Z.div_1_r|].
  change (Nat.iter (S n) shr_1 r) with (shr_1 (Nat.iter n shr_1 r)). rewrite shr_1_m; rewrite IH; [|by apply Z.div_pos; [|lia]].
  rewrite Z.div_div by lia. f_equal. rewrite Nat2Z.inj_succ, Z.pow_succ_r by lia. lia.
Qed.

Lemma shr_m_spec (r : shr_record) (e n : Z) : 0 <= shr_m r ->
  shr_m (shr r e n).1 = shr_m r / 2 ^ Z.max n 0 /\ (shr r e n).2 = e + Z.max n 0.
Proof.
  intros Hm. destruct n as [|p|p]; cbn [shr fst snd].
  - rewrite Z.max_id, Z.pow_0_r, Z.div_1_r. split; [done|lia].
  - rewrite iter_pos_nat, shr_iter_m by done. rewrite positive_nat_Z. replace (Z.max (Z.pos p) 0) with (Z.pos p) by lia. done.
  - replace (Z.max (Z.neg p) 0) with 0 by lia. rewrite Z.pow_0_r, Z.div_1_r. split; [done|lia].
Qed.

Lemma record_of_loc_m (m : Z) (l : location) : shr_m (shr_record_of_loc m l) = m.
Proof. by destruct l as [|[]]. Qed.

Abbreviation dshr_fexp := (shr_fexp DBL_MANT_DIG DBL_MAX_EXP).

(** Shifting keeps the high bits of a mantissa. *)
Lemma shr_fexp_m (m e : Z) (l : location) : 2 ^ 50 <= m -> - 1074 <= e ->
  2 ^ 50 <= shr_m (dshr_fexp m e l).1 /\ - 1074 <= (dshr_fexp m e l).2.
Proof.
  intros Hm He. unfold shr_fexp. rewrite Zdigits2_pos, dfexp_eq by lia.
  set (n := Z.max _ _ - e).
  destruct (shr_m_spec (shr_record_of_loc m l) e n) as [H1 H2]; [rewrite record_of_loc_m; lia|].
  rewrite H1, H2, record_of_loc_m. split; [|lia].
  destruct (Z.le_gt_cases n 0) as [Hn|Hn].
  - rewrite Z.max_r by done. by rewrite Z.pow_0_r, Z.div_1_r.
  - rewrite Z.max_l by lia. assert (Hlog : n = Z.log2 m - 52) by lia.
    pose proof (Z.log2_spec m ltac:(lia)) as [Hl _].
    apply Z.div_le_lower_bound; [lia|]. etransitivity; [|exact Hl].
    rewrite <- Z.pow_add_r by lia. apply Z.pow_le_mono_r; lia.
Qed.

Lemma round_nearest_even_bounds (m : Z) (l : location) : m <= round_nearest_even m l <= m + 1.
Proof. destruct l as [|[]]; cbn; try lia. destruct (Z.even m); lia. Qed.

(** Rounding a mantissa with high bits gives a positive number, or infinity. *)
Lemma round_aux_positive (m e : Z) (l : location) : 2 ^ 50 <= m -> - 1074 <= e ->
  gt (binary_round_aux DBL_MANT_DIG DBL_MAX_EXP false m e l) dzero = true.
Proof.
  intros Hm He. unfold binary_round_aux.
  destruct (shr_fexp_m m e l Hm He) as [H1 H2]. destruct (dshr_fexp m e l) as [r1 e1]. cbn [fst snd] in *.
  pose proof (round_nearest_even_bounds (shr_m r1) (loc_of_shr_record r1)) as Hr.
  destruct (shr_fexp_m (round_nearest_even (shr_m r1) (loc_of_shr_record r1)) e1 loc_Exact) as [H3 _]; [lia|done|].
  destruct (dshr_fexp _ e1 loc_Exact) as [r2 e2]. cbn [fst snd] in *.
  destruct (shr_m r2) as [|p|p]; [lia| |lia]. by destruct (e2 <=? _).
Qed.

(** The quotient of 1 by a positive double is positive, or infinity. *)
Lemma quotient_positive (m : positive) (e : Z) : dvalid (S754_finite false m e) = true ->
  gt (ddiv (of_int 1) (S754_finite false m e)) dzero = true.
Proof.
  intros Hv. destruct (valid_finite _ _ _ Hv) as (He & Hm & _).
  assert (H1 : of_int 1 = S754_finite false (2 ^ 52) (- 52)) by reflexivity.
  rewrite H1. cbn [SFdiv]. unfold SFdiv_core_binary. rewrite !Zdigits2_pos, dfexp_eq by lia.
  change (Z.log2 (Z.pos (2 ^ 52))) with 52.
  pose proof (Z.log2_spec (Z.pos m) ltac:(lia)) as [Hl1 Hl2].
  assert (Hlog : 0 <= Z.log2 (Z.pos m) <= 52).
  { split; [apply Z.log2_nonneg|]. apply Z.lt_succ_r, Z.log2_lt_pow2; lia. }
  set (e' := Z.min _ (- 52 - e)). set (s := - 52 - e - e').
  assert (Hs : 0 <= s) by lia. assert (He' : - 1074 <= e') by lia.
  assert (Hshift : match s with 0 => Z.pos (2 ^ 52) | Z.pos _ => Z.shiftl (Z.pos (2 ^ 52)) s | Z.neg _ => 0 end = 2 ^ (52 + s)).
  { rewrite Z.pow_add_r by lia. destruct s; [done|by rewrite Z.shiftl_mul_pow2|lia]. }
  rewrite Hshift. pose proof (Z_div_mod_full (2 ^ (52 + s)) (Z.pos m) ltac:(lia)) as Hdiv.
  pose proof (Z.div_eucl_eq (2 ^ (52 + s)) (Z.pos m) ltac:(lia)) as Heq.
  assert (Hq : 2 ^ 50 <= 2 ^ (52 + s) / Z.pos m).
  { apply Z.div_le_lower_bound; [lia|]. transitivity (2 ^ (Z.succ (Z.log2 (Z.pos m))) * 2 ^ 50); [nia|].
    rewrite <- Z.pow_add_r by lia. apply Z.pow_le_mono_r; lia. }
  unfold Z.div in Hq. destruct (Z.div_eucl _ _) as [q r]. by apply round_aux_positive.
Qed.

(** ** Theorems *)

(** C24.  Whichever of the functions finite, isnan and isinf the system has, with its own macro isfinite or not, the three macros classify
    every double: [finite] is true of exactly the zeros, subnormal and normal numbers (also where the quotient of
    1 by the number overflows or is subnormal), [isnan] of exactly NaN, [my_isinf] of exactly the two infinities,
    and one of them is true. *)
Theorem float_classes `{FloatSystemLaws} (x : double) : dvalid x = true ->
  finite x = dfinite x /\ isnan x = is_nan x /\ my_isinf x = is_infinity x /\
  (Nat.b2n (finite x) + Nat.b2n (isnan x) + Nat.b2n (my_isinf x) = 1)%nat.
Proof.
  intros Hv. assert (Hfin : finite x = dfinite x).
  { unfold finite. destruct has_isfinite eqn:Hi; [by apply sys_finite_spec, finite_there|].
    destruct HAVE_FINITE eqn:Hf; [by apply sys_finite_spec|].
    destruct x as [s|s| |s m e]; [done..|]. by apply quotient_positive. }
  assert (Hnan : isnan x = is_nan x).
  { unfold isnan. destruct HAVE_ISNAN eqn:Hn; [by apply sys_isnan_spec|]. unfold ne.
    destruct (dfinite x) eqn:Hf; [|by destruct x as [| [] | |]].
    rewrite (SFeqb_spec x x), Z.eqb_refl by done. by destruct x. }
  assert (Hinf : my_isinf x = is_infinity x).
  { unfold my_isinf. destruct HAVE_ISINF eqn:Hi; [destruct HAVE_BROKEN_ISINF; by apply sys_isinf_spec|].
    rewrite Hfin, Hnan. by destruct x. }
  split_and!; try done. rewrite Hfin, Hnan, Hinf. by destruct x.
Qed.

(** A system without the functions. *)
#[export] Instance bare_system : FloatSystem := {|
  has_isfinite := false; HAVE_FINITE := false; HAVE_ISNAN := false; HAVE_ISINF := false; HAVE_BROKEN_ISINF := false;
  sys_isfinite _ := true; sys_finite _ := true; sys_isnan _ := true; sys_isinf _ := true |}.
#[export] Instance bare_system_laws : FloatSystemLaws.
Proof. by constructor. Qed.

Lemma float_classes_witness :
  dvalid (S754_finite true 1 (- 1074)) = true /\ finite (S754_finite true 1 (- 1074)) = true /\
  dvalid (S754_finite false (2 ^ 53 - 1) 971) = true /\ finite (S754_finite false (2 ^ 53 - 1) 971) = true.
Proof.
  split; [reflexivity|]. split; [apply (float_classes (S754_finite true 1 (- 1074)) eq_refl)|].
  split; [reflexivity|]. apply (float_classes (S754_finite false (2 ^ 53 - 1) 971) eq_refl).
Defined.

(** The limits that replace missing ones are not the limits: [DBL_MAX] is a double below the greatest finite one,
    and [DBL_MIN] is nearest to the least subnormal number, [2^52] times smaller than the least normal one. *)
Theorem float_limits :
  let max := S754_finite false (2 ^ 53 - 1) 971 in
  (exists d, dvalid d = true /\ dfinite d = true /\ value d = rnd (DBL_MAX.1 * 10 ^ DBL_MAX.2 * 2 ^ SCALE) /\
     value d + 5 * 2 ^ (971 + SCALE) = value max) /\
  2 * Z.abs (DBL_MIN.1 * 2 ^ SCALE - 10 ^ (- DBL_MIN.2)) < 10 ^ (- DBL_MIN.2).
Proof.
  split; [|vm_compute; reflexivity]. exists (S754_finite false (2 ^ 53 - 6) 971). split_and!; vm_compute; reflexivity.
Qed.
