(* ===== verification/Strings.v ===== *)
(** * String helpers (m_string.h, my_global.h)

    The inline functions of m_string.h on byte-addressed memory, and the loop of
    [DLERROR_GENERATE] that trims a system message. *)
From S2P Require Import Prelude Mem.

#[local] Ltac Zify.zify_post_hook ::= Z.to_euclidean_division_equations.

(** ** Trailing spaces *)

Definition SIZEOF_INT : Z := 4.
Definition SPACE_INT : Z := 0x20202020.

Section SkipTrailingSpace.
(** The width of a pointer, and whether [DBUG_ASSERT] is compiled in. *)
Context (ptr_bits : Z) (dbug : bool).

(** [(ulonglong)(intptr)p], and back. *)
Definition to_word (p : Z) : Z := u64 (swrap ptr_bits p).
Definition of_word (z : Z) : Z := uwrap ptr_bits z.

(** [while (end > lim && end[-1] == 0x20) end--;] *)
Fixpoint skip_bytes (fuel : nat) (m : mem) (lim end_ : Z) : option Z :=
  match fuel with
  | O => None
  | S fuel =>
    if end_ >? lim then
      b ← load8 m (end_ - 1);
      if b =? 0x20 then skip_bytes fuel m lim (end_ - 1) else Some end_
    else Some end_
  end.

(** The loop that compares a word of four bytes at a time. *)
Fixpoint skip_words (fuel : nat) (m : mem) (lim end_ : Z) : option Z :=
  match fuel with
  | O => None
  | S fuel =>
    if end_ >? lim then
      v ← load_le 4 m (end_ - SIZEOF_INT);
      if v =? SPACE_INT then skip_words fuel m lim (end_ - SIZEOF_INT) else Some end_
    else Some end_
  end.

Definition skip_trailing_space (fuel : nat) (m : mem) (ptr len : Z) : option Z :=
  let end_ := ptr + len in
  end1 ←
    (if len >? 20 then
       let end_words := of_word (to_word end_ / SIZEOF_INT * SIZEOF_INT) in
       let start_words := of_word (u64 (to_word ptr + SIZEOF_INT - 1) / SIZEOF_INT * SIZEOF_INT) in
       if dbug && negb (to_word ptr >=? SIZEOF_INT) then None
       else if end_words >? ptr then
         end1 ← skip_bytes fuel m end_words end_;
         b ← load8 m (end1 - 1);
         if (b =? 0x20) && (start_words <? end_words)
         then skip_words fuel m start_words end1 else Some end1
       else Some end_
     else Some end_);
  skip_bytes fuel m ptr end1.

End SkipTrailingSpace.

(** ** Lexical strings *)

Record LEX_STRING := { lex_str : Z; lex_length : Z }.

(** [strlen] of the C library, on memory. *)
Fixpoint c_strlen (fuel : nat) (m : mem) (p : Z) : option Z :=
  match fuel with
  | O => None
  | S fuel =>
    b ← load8 m p;
    if b =? 0 then Some 0 else n ← c_strlen fuel m (p + 1); Some (n + 1)
  end.

Definition lex_string_set (fuel : nat) (m : mem) (c_str : Z) : option LEX_STRING :=
  n ← c_strlen fuel m c_str; Some {| lex_str := c_str; lex_length := n |}.

(** ** System messages *)

(** [strchr] of the C library: the terminator is part of the string. *)
Fixpoint strchr (s : list Z) (c : Z) : bool :=
  match s with
  | [] => c =? 0
  | b :: s => if b =? c then true else if b =? 0 then false else strchr s c
  end.

(** The bytes of the literal of the macro: the escape for NUL is followed by the
    characters [x20]. *)
Definition dlerror_set : list Z := [13; 10; 9; 0; 120; 50; 48].

(** The loop over the message, from its last character down. *)
Fixpoint dlerror_trim (fuel : nat) (buf : list Z) (ptr : Z) : option (list Z) :=
  match fuel with
  | O => None
  | S fuel =>
    if ptr >=? 0 then
      b ← buf !! Z.to_nat ptr;
      if strchr dlerror_set b
      then dlerror_trim fuel (<[Z.to_nat ptr := 0]> buf) (ptr - 1)
      else Some buf
    else Some buf
  end.

(** A C string in a buffer: the bytes before the first NUL. *)
Fixpoint c_string (l : list Z) : list Z :=
  match l with [] => [] | b :: l => if b =? 0 then [] else b :: c_string l end.

(** [errmsg] after the macro: [FormatMessage] fails, or fills the buffer
    [win_errormsg] with a string. *)
Definition DLERROR_GENERATE (fuel : nat) (FormatMessage : option (list Z)) : option (list Z) :=
  match FormatMessage with
  | None => Some []
  | Some win_errormsg =>
    buf ← dlerror_trim fuel win_errormsg (Z.of_nat (length (c_string win_errormsg)) - 1);
    Some (c_string buf)
  end.

(** ** Lemmas *)

(** What a backwards scan promises: it stops between the limits, everything it
    passed is a space, and it stops at the limit or at another byte. *)
Definition scanned (m : mem) (lim end_ r : Z) : Prop :=
  lim <= r <= end_ /\ (forall a, r <= a < end_ -> m !! a = Some 0x20)
  /\ (r = lim \/ m !! (r - 1) <> Some 0x20).

Lemma skip_bytes_spec (m : mem) (lim : Z) (fuel : nat) : forall end_,
  lim <= end_ -> mapped m lim (end_ - lim) -> end_ - lim < Z.of_nat fuel ->
  exists r, skip_bytes fuel m lim end_ = Some r /\ scanned m lim end_ r.
Proof.
  induction fuel as [|fuel IH]; intros e He Hm Hf; [lia|]. cbn [skip_bytes].
  rewrite Z.gtb_ltb. destruct (Z.ltb_spec lim e).
  2: { exists e. split; [done|]. unfold scanned. split_and!; try lia. }
  destruct (Hm (e - 1 - lim)) as [b Hb]; [lia|].
  replace (lim + (e - 1 - lim)) with (e - 1) in Hb by lia.
  unfold load8. rewrite Hb. cbn [mbind option_bind]. destruct (Z.eqb_spec b 32) as [->|Hne].
  - destruct (IH (e - 1)) as (r & Hr & Hlr & Hs & Hend); [lia|eapply mapped_le; [done|lia]|lia|].
    exists r. split; [done|]. unfold scanned. split_and!; [lia|lia| |done].
    intros a Ha. destruct (decide (a = e - 1)) as [->|]; [done|]. apply Hs. lia.
  - exists e. split; [done|]. unfold scanned. split_and!; try lia. right. rewrite Hb. congruence.
Qed.

Lemma space_word (m : mem) (p : Z) :
  bytes_ok m -> load_le 4 m p = Some SPACE_INT ->
  forall a, p <= a < p + 4 -> m !! a = Some 0x20.
Proof.
  intros Hok. unfold load_le. rewrite !load_bytes_S, load_bytes_0. unfold load8.
  rewrite <- !Z.add_assoc. change (1 + (1 + 1)) with 3. change (1 + 1) with 2.
  destruct (m !! p) as [b0|] eqn:E0; [|done]. cbn [mbind option_bind].
  destruct (m !! (p + 1)) as [b1|] eqn:E1; [|done]. cbn [mbind option_bind].
  destruct (m !! (p + 2)) as [b2|] eqn:E2; [|done]. cbn [mbind option_bind].
  destruct (m !! (p + 3)) as [b3|] eqn:E3; [|done].
  cbn [mbind option_bind fmap option_fmap option_map le_combine]. intros [= Hv] a Ha.
  pose proof (Hok _ _ E0). pose proof (Hok _ _ E1). pose proof (Hok _ _ E2).
  pose proof (Hok _ _ E3). unfold is_byte, SPACE_INT in *.
  assert (b0 = 32 /\ b1 = 32 /\ b2 = 32 /\ b3 = 32) as (-> & -> & -> & ->) by lia.
  assert (a = p \/ a = p + 1 \/ a = p + 2 \/ a = p + 3) as [-> | [-> | [-> | ->]]] by lia; done.
Qed.

Lemma skip_words_spec (m : mem) (lim : Z) (fuel : nat) : forall end_,
  bytes_ok m -> lim <= end_ -> (end_ - lim) mod 4 = 0 -> mapped m lim (end_ - lim) ->
  end_ - lim < Z.of_nat fuel ->
  exists r, skip_words fuel m lim end_ = Some r /\ lim <= r <= end_
    /\ forall a, r <= a < end_ -> m !! a = Some 0x20.
Proof.
  induction fuel as [|fuel IH]; intros e Hok He Hmod Hm Hf; [lia|]. cbn [skip_words].
  rewrite Z.gtb_ltb. destruct (Z.ltb_spec lim e); [|by exists e; split_and!; try lia].
  assert (Hge : lim <= e - 4).
  { apply Z.mod_divide in Hmod as [k Hk]; lia. }
  unfold SIZEOF_INT. destruct (load_bytes_mapped 4 m (e - 4)) as (l & Hl & _ & _).
  { intros i Hi. replace (e - 4 + i) with (lim + (e - 4 + i - lim)) by lia. apply Hm. lia. }
  { done. }
  destruct (load_le 4 m (e - 4)) as [v|] eqn:Hv; [|unfold load_le in Hv; by rewrite Hl in Hv].
  cbn [mbind option_bind]. destruct (Z.eqb_spec v SPACE_INT) as [->|Hne].
  2: { exists e. split_and!; try done; lia. }
  destruct (IH (e - 4)) as (r & Hr & Hlr & Hs); try done; try lia.
  { eapply mapped_le; [done|lia]. }
  exists r. split_and!; [done|lia|lia|]. intros a Ha.
  destruct (decide (a < e - 4)); [apply Hs; lia|].
  apply (space_word m (e - 4)); try done. lia.
Qed.

(** An address as a 64-bit word: sign extension adds a multiple of the pointer's range. *)
Lemma to_word_cases (w p : Z) : w = 32 \/ w = 64 -> 0 <= p < 2 ^ w ->
  to_word w p = p \/ w = 32 /\ to_word w p = p + (2 ^ 32 - 1) * 2 ^ 32.
Proof.
  intros Hw Hp. unfold to_word. destruct Hw as [-> | ->].
  - unfold swrap. change (2 ^ (32 - 1)) with 2147483648. change (2 ^ 32) with 4294967296 in *.
    destruct (Z.lt_ge_cases p 2147483648).
    + left. rewrite (Z.mod_small (p + _)) by lia. rewrite uwrap_small by lia. lia.
    + right. split; [done|].
      replace (p + 2147483648) with (p - 2147483648 + 1 * 4294967296) by lia.
      rewrite Z_mod_plus_full, (Z.mod_small (p - _)) by lia. unfold uwrap.
      rewrite <- (Z_mod_plus_full _ 1), Z.mod_small; lia.
  - left. rewrite <- (swrap_uwrap 64), uwrap_swrap by lia.
    rewrite uwrap_uwrap. by apply uwrap_small.
Qed.

(** Rounding an address goes through the 64-bit words unharmed. *)
Lemma word_round (w p : Z) : w = 32 \/ w = 64 -> 0 <= p < 2 ^ w ->
  of_word w (to_word w p / 4 * 4) = p / 4 * 4.
Proof.
  intros Hw Hp. assert (Hr : 0 <= p / 4 * 4 < 2 ^ w) by lia.
  destruct (to_word_cases w p Hw Hp) as [-> | [-> ->]]; [by apply uwrap_small|].
  replace ((p + (2 ^ 32 - 1) * 2 ^ 32) / 4 * 4) with (p / 4 * 4 + (2 ^ 32 - 1) * 2 ^ 32) by lia.
  unfold of_word, uwrap. by rewrite Z_mod_plus_full, Z.mod_small.
Qed.

Lemma word_round_up (w p : Z) : w = 32 \/ w = 64 -> 0 <= p -> p + 3 < 2 ^ w ->
  of_word w (u64 (to_word w p + 4 - 1) / 4 * 4) = (p + 3) / 4 * 4.
Proof.
  intros Hw Hp0 Hp. assert (Hr : 0 <= (p + 3) / 4 * 4 < 2 ^ w) by lia.
  assert (H64 : 2 ^ w <= 2 ^ 64) by (destruct Hw as [-> | ->]; done).
  destruct (to_word_cases w p Hw) as [-> | [-> ->]]; [lia| |].
  - rewrite (uwrap_small 64) by lia. replace (p + 4 - 1) with (p + 3) by lia. by apply uwrap_small.
  - rewrite (uwrap_small 64) by lia.
    replace ((p + (2 ^ 32 - 1) * 2 ^ 32 + 4 - 1) / 4 * 4)
      with ((p + 3) / 4 * 4 + (2 ^ 32 - 1) * 2 ^ 32) by lia.
    unfold of_word, uwrap. by rewrite Z_mod_plus_full, Z.mod_small.
Qed.

Lemma scan_from (m : mem) (ptr len end1 : Z) (fuel : nat) :
  ptr <= end1 <= ptr + len -> mapped m ptr len -> len < Z.of_nat fuel ->
  (forall a, end1 <= a < ptr + len -> m !! a = Some 0x20) ->
  exists r, skip_bytes fuel m ptr end1 = Some r /\ scanned m ptr (ptr + len) r.
Proof.
  intros He Hm Hf Hs. destruct (skip_bytes_spec m ptr fuel end1) as (r & Hr & Hle & Hsp & Hend).
  - lia.
  - eapply mapped_le; [done|lia].
  - lia.
  - exists r. split; [done|]. split_and!; [lia|lia| |done].
    intros a Ha. destruct (decide (a < end1)); [apply Hsp|apply Hs]; lia.
Qed.

Lemma strchr_dlerror (b : Z) : b <> 0 -> strchr dlerror_set b = (b =? 13) || (b =? 10) || (b =? 9).
Proof.
  intros Hb. cbn [strchr dlerror_set]. rewrite (Z.eqb_sym 13), (Z.eqb_sym 10), (Z.eqb_sym 9), (Z.eqb_sym 0).
  destruct (b =? 13), (b =? 10), (b =? 9); try done. destruct (Z.eqb_spec b 0); done.
Qed.

Lemma c_string_app (msg rest : list Z) : Forall (fun b => b <> 0) msg -> c_string (msg ++ 0 :: rest) = msg.
Proof.
  induction 1 as [|b msg Hb _ IH]; [done|]. cbn [app c_string]. rewrite IH.
  destruct (Z.eqb_spec b 0); done.
Qed.

Definition is_dl_space (b : Z) : bool := (b =? 13) || (b =? 10) || (b =? 9).

Lemma dlerror_trim_spec (msg : list Z) : forall rest fuel,
  Forall (fun b => b <> 0) msg -> (length msg < fuel)%nat ->
  exists k buf, dlerror_trim fuel (msg ++ 0 :: rest) (Z.of_nat (length msg) - 1) = Some buf
    /\ c_string buf = take k msg /\ (k <= length msg)%nat
    /\ Forall (fun b => is_dl_space b = true) (drop k msg)
    /\ (forall b, last (take k msg) = Some b -> is_dl_space b = false).
Proof.
  induction msg as [|b l IH] using rev_ind; intros rest fuel Hnz Hf.
  { destruct fuel; [cbn in Hf; lia|]. exists 0%nat, (0 :: rest). cbn. split_and!; try done. }
  rewrite Forall_app in Hnz. destruct Hnz as [Hl Hb]. pose proof (Forall_inv Hb) as Hb0. cbn in Hb0.
  rewrite length_app in *. cbn [length] in *.
  destruct fuel as [|fuel]; [lia|]. cbn [dlerror_trim].
  assert (Hge : (Z.of_nat (length l + 1) - 1 >=? 0) = true)
    by (rewrite Z.geb_leb; apply Z.leb_le; lia). rewrite Hge.
  assert (Hto : Z.to_nat (Z.of_nat (length l + 1) - 1) = length l) by lia. rewrite Hto.
  rewrite <- app_assoc. cbn [app]. rewrite (list_lookup_middle l (0 :: rest) b (length l) eq_refl).
  cbn [mbind option_bind]. rewrite (strchr_dlerror b Hb0). fold (is_dl_space b). destruct (is_dl_space b) eqn:Hsp.
  - rewrite insert_app_r_alt, Nat.sub_diag by lia. cbn [list_insert].
    destruct (IH (0 :: rest) fuel Hl) as (k & buf & Hr & Hc & Hk & Hd & Hlast); [lia|].
    exists k, buf.
    replace (Z.of_nat (length l + 1) - 1 - 1) with (Z.of_nat (length l) - 1) by lia.
    split_and!; [done| |lia| |].
    + rewrite Hc. by rewrite take_app_le by lia.
    + rewrite drop_app_le by lia. apply Forall_app. split; [done|]. by constructor.
    + by rewrite take_app_le by lia.
  - exists (length l + 1)%nat, (l ++ b :: 0 :: rest).
    assert (Htake : take (length l + 1) (l ++ [b]) = l ++ [b])
      by (apply take_ge; rewrite length_app; cbn; lia).
    split_and!; [done| |lia| |].
    + rewrite Htake. change (l ++ b :: 0 :: rest) with (l ++ [b] ++ 0 :: rest).
      rewrite app_assoc. apply c_string_app, Forall_app. split; [done|]. by constructor.
    + rewrite drop_ge; [constructor|rewrite length_app; cbn; lia].
    + rewrite Htake, last_snoc. by intros ? [= <-].
Qed.

Lemma c_strlen_spec (m : mem) (msg : list Z) : forall p fuel,
  load_bytes (S (length msg)) m p = Some (msg ++ [0]) -> Forall (fun b => b <> 0) msg ->
  (length msg < fuel)%nat -> c_strlen fuel m p = Some (Z.of_nat (length msg)).
Proof.
  induction msg as [|b msg IH]; intros p fuel Hl Hnz Hf; (destruct fuel as [|fuel]; [cbn in Hf; lia|]);
    cbn [c_strlen]; rewrite load_bytes_S in Hl; destruct (load8 m p) as [b'|]; try done;
    cbn [mbind option_bind length app] in *.
  - rewrite load_bytes_0 in Hl. injection Hl as ->. done.
  - apply Forall_cons in Hnz as [Hb Hnz].
    destruct (load_bytes (S (length msg)) m (p + 1)) as [l|] eqn:Hl'; [|done].
    cbn [mbind option_bind] in Hl. injection Hl as -> ->.
    destruct (Z.eqb_spec b 0); [done|]. rewrite (IH (p + 1) fuel); [|done|done|lia].
    cbn [mbind option_bind]. f_equal. lia.
Qed.

(** ** Properties *)

(** C26.  The word-at-a-time [skip_trailing_space] is correct on every string, at
    any alignment, with 32 and 64-bit pointers: it terminates, reads no byte
    outside of the string (only those bytes are mapped), and returns the end of
    the string without its trailing spaces, that is the pointer after the
    last byte that is not a space. *)
Theorem skip_trailing_space_correct (ptr_bits : Z) (dbug : bool) (m : mem) (ptr len : Z) :
  ptr_bits = 32 \/ ptr_bits = 64 -> bytes_ok m -> (if dbug then SIZEOF_INT else 0) <= ptr ->
  0 <= len -> ptr + len < 2 ^ ptr_bits -> mapped m ptr len ->
  exists r, skip_trailing_space ptr_bits dbug (S (Z.to_nat len)) m ptr len = Some r
    /\ scanned m ptr (ptr + len) r.
Proof.
  intros Hw Hok Hp Hlen Hend Hm. assert (Hp0 : 0 <= ptr) by (unfold SIZEOF_INT in Hp; destruct dbug; lia).
  assert (Hfuel : len < Z.of_nat (S (Z.to_nat len))) by lia.
  assert (Hlast : exists r, skip_bytes (S (Z.to_nat len)) m ptr (ptr + len) = Some r
            /\ scanned m ptr (ptr + len) r) by (apply scan_from; try done; lia).
  unfold skip_trailing_space. rewrite Z.gtb_ltb.
  destruct (Z.ltb_spec 20 len); [|exact Hlast].
  assert (Has : dbug && negb (to_word ptr_bits ptr >=? SIZEOF_INT) = false).
  { destruct dbug; [|done]. unfold SIZEOF_INT in *.
    destruct (to_word_cases ptr_bits ptr Hw) as [-> | [_ ->]]; lia. }
  rewrite Has. unfold SIZEOF_INT in *. rewrite word_round, word_round_up by (done || lia).
  set (ew := (ptr + len) / 4 * 4). set (sw := (ptr + 3) / 4 * 4). rewrite Z.gtb_ltb.
  destruct (Z.ltb_spec ptr ew); [|exact Hlast].
  destruct (skip_bytes_spec m ew (S (Z.to_nat len)) (ptr + len)) as (e1 & -> & He1 & Hs1 & Hst).
  { lia. }
  { intros i Hi. replace (ew + i) with (ptr + (ew - ptr + i)) by lia. apply Hm. lia. }
  { lia. }
  cbn [mbind option_bind]. destruct (Hm (e1 - 1 - ptr)) as [b Hb]; [lia|].
  replace (ptr + (e1 - 1 - ptr)) with (e1 - 1) in Hb by lia.
  unfold load8. rewrite Hb. cbn [mbind option_bind].
  destruct ((b =? 32) && (sw <? ew)) eqn:Hgo; [|by apply scan_from; try done; lia].
  apply andb_true_iff in Hgo as [->%Z.eqb_eq Hlt%Z.ltb_lt].
  assert (e1 = ew) as -> by (destruct Hst; [done|by rewrite Hb in *]).
  destruct (skip_words_spec m sw (S (Z.to_nat len)) ew) as (e2 & -> & He2 & Hs2); try done; try lia.
  { intros i Hi. replace (sw + i) with (ptr + (sw - ptr + i)) by lia. apply Hm. lia. }
  apply scan_from; try done; [lia|]. intros a Ha.
  destruct (decide (a < ew)); [apply Hs2|apply Hs1]; lia.
Qed.

Lemma skip_trailing_space_correct_witness :
  exists r, skip_trailing_space 32 true (S (Z.to_nat 25)) (zeroed 9 25) 9 25 = Some r
    /\ scanned (zeroed 9 25) 9 (9 + 25) r.
Proof.
  apply (skip_trailing_space_correct 32 true (zeroed 9 25) 9 25).
  - by left.
  - apply bytes_ok_zeroed.
  - vm_compute. discriminate.
  - lia.
  - lia.
  - apply mapped_zeroed. lia.
Defined.

(** The trimming loop of [DLERROR_GENERATE] terminates and removes exactly the
    trailing carriage returns, newlines and tabs of a message; a trailing space is not
    removed, and stops the trimming. *)
Theorem dlerror_keeps_spaces (msg rest : list Z) :
  Forall (fun b => b <> 0) msg ->
  (exists k, DLERROR_GENERATE (S (length msg)) (Some (msg ++ 0 :: rest)) = Some (take k msg)
     /\ Forall (fun b => is_dl_space b = true) (drop k msg)
     /\ (forall b, last (take k msg) = Some b -> is_dl_space b = false))
  /\ (last msg = Some 0x20 -> DLERROR_GENERATE (S (length msg)) (Some (msg ++ 0 :: rest)) = Some msg).
Proof.
  intros Hnz. unfold DLERROR_GENERATE. rewrite c_string_app by done.
  destruct (dlerror_trim_spec msg rest (S (length msg)) Hnz) as (k & buf & -> & Hc & Hk & Hd & Hl); [lia|].
  cbn [mbind option_bind]. rewrite Hc. split; [by exists k|]. intros Hsp.
  destruct (decide (k = length msg)) as [->|Hne]; [by rewrite take_ge by lia|].
  exfalso. assert (Hin : last (drop k msg) = Some 0x20).
  { rewrite <- Hsp. rewrite <- (take_drop k msg) at 2. rewrite last_app.
    destruct (last (drop k msg)) eqn:E; [done|]. apply last_None in E.
    apply (f_equal length) in E. rewrite length_drop in E. cbn in E. lia. }
  apply last_Some_elem_of in Hin. rewrite Forall_forall in Hd. by apply Hd in Hin.
Qed.

Lemma dlerror_keeps_spaces_witness :
  (exists k, DLERROR_GENERATE 6 (Some ([79; 75; 46; 13; 10] ++ 0 :: [7])) = Some (take k [79; 75; 46; 13; 10])
     /\ Forall (fun b => is_dl_space b = true) (drop k [79; 75; 46; 13; 10])
     /\ (forall b, last (take k [79; 75; 46; 13; 10]) = Some b -> is_dl_space b = false))
  /\ (last [79; 75; 46; 13; 10] = Some 0x20 ->
      DLERROR_GENERATE 6 (Some ([79; 75; 46; 13; 10] ++ 0 :: [7])) = Some [79; 75; 46; 13; 10]).
Proof.
  apply (dlerror_keeps_spaces [79; 75; 46; 13; 10] [7]).
  repeat constructor; discriminate.
Defined.

(** [lex_string_set] of a NUL-terminated string keeps the pointer and stores
    the number of bytes before the terminator. *)
Lemma lex_string_set_length (m : mem) (p : Z) (msg : list Z) (fuel : nat) :
  load_bytes (S (length msg)) m p = Some (msg ++ [0]) -> Forall (fun b => b <> 0) msg ->
  (length msg < fuel)%nat ->
  lex_string_set fuel m p = Some {| lex_str := p; lex_length := Z.of_nat (length msg) |}.
Proof. intros Hl Hnz Hf. unfold lex_string_set. by rewrite (c_strlen_spec m msg p fuel). Qed.
