(* ===== verification/Ctype.v ===== *)
(** * Character sets (m_ctype.h)

    The inline helpers and macros of m_ctype.h: two-byte stores, contraction tables, and the
    classification of characters by the table of a character set. *)
From S2P Require Import Prelude Mem.

#[local] Ltac Zify.zify_post_hook ::= Z.to_euclidean_division_equations.

(** ** Two-byte characters *)

Module I386.
Definition MB2 (x : Z) : Z := Z.shiftr x 8 + Z.shiftl (Z.land x 0xFF) 8.
(** [*((uint16* )(s))= (code)] *)
Definition MY_PUT_MB2 (m : mem) (s code : Z) : option mem := store_le 2 m s (u16 code).
End I386.

Module Portable.
Definition MB2 (x : Z) : Z := x.
Definition MY_PUT_MB2 (m : mem) (s code : Z) : option mem :=
  m' ← store8 m s (Z.shiftr code 8); store8 m' (s + 1) (Z.land code 0xFF).
End Portable.

(** ** Contractions *)

(** The member of [CHARSET_INFO] the helpers use: the address of an array of [uint16]. *)
Record CHARSET_INFO := { contractions : Z; state : Z; ctype : Z; to_lower : Z; to_upper : Z }.

Section Contractions.
Context (cs : CHARSET_INFO).

Definition my_cs_have_contractions : bool := negb (contractions cs =? 0).

(** Both read a [char] of the table; the result is a [my_bool], a [char] too. *)
Definition my_cs_can_be_contraction_head (m : mem) (wc : Z) : option Z :=
  b ← load8 m (contractions cs + (0x40 * 0x40 + Z.land wc 0xFF)); Some (s8 b).
Definition my_cs_can_be_contraction_tail (m : mem) (wc : Z) : option Z :=
  b ← load8 m (contractions cs + (0x40 * 0x40 + Z.land wc 0xFF)); Some (s8 b).

(** The address of the element, of two bytes. *)
Definition my_cs_contraction2_weight (wc1 wc2 : Z) : Z :=
  contractions cs + 2 * ((wc1 - 0x40) * 0x40 + wc2 - 0x40).
End Contractions.

(** ** Classification *)

Definition MY_CS_CTYPE_TABLE_SIZE : Z := 257.
Definition _MY_U : Z := 1.
Definition _MY_L : Z := 2.
Definition _MY_NMR : Z := 4.
Definition _MY_SPC : Z := 8.
Definition _MY_PNT : Z := 16.
Definition _MY_CTR : Z := 32.
Definition _MY_B : Z := 64.
Definition _MY_X : Z := 128.

Definition my_isascii (c : Z) : bool := Z.land c (Z.lnot 127) =? 0.
Definition my_toascii (c : Z) : Z := Z.land c 127.
Definition my_tocntrl (c : Z) : Z := Z.land c 31.
Definition my_toprint (c : Z) : Z := Z.lor c 64.

Section Classes.
Context (s : CHARSET_INFO) (m : mem).

Definition my_toupper (c : Z) : option Z := s8 <$> load8 m (to_upper s + u8 c).
Definition my_tolower (c : Z) : option Z := s8 <$> load8 m (to_lower s + u8 c).

(** [((s)->ctype+1)[(uchar) (c)] & mask] *)
Definition ctype_bits (mask c : Z) : option Z := (fun b => Z.land b mask) <$> load8 m (ctype s + 1 + u8 c).

Definition my_isalpha : Z -> option Z := ctype_bits (Z.lor _MY_U _MY_L).
Definition my_isupper : Z -> option Z := ctype_bits _MY_U.
Definition my_islower : Z -> option Z := ctype_bits _MY_L.
Definition my_isdigit : Z -> option Z := ctype_bits _MY_NMR.
Definition my_isxdigit : Z -> option Z := ctype_bits _MY_X.
Definition my_isalnum : Z -> option Z := ctype_bits (Z.lor (Z.lor _MY_U _MY_L) _MY_NMR).
Definition my_isspace : Z -> option Z := ctype_bits _MY_SPC.
Definition my_ispunct : Z -> option Z := ctype_bits _MY_PNT.
Definition my_isprint : Z -> option Z :=
  ctype_bits (Z.lor (Z.lor (Z.lor (Z.lor _MY_PNT _MY_U) _MY_L) _MY_NMR) _MY_B).
Definition my_isgraph : Z -> option Z := ctype_bits (Z.lor (Z.lor (Z.lor _MY_PNT _MY_U) _MY_L) _MY_NMR).
Definition my_iscntrl : Z -> option Z := ctype_bits _MY_CTR.

(** [x || (c) == '_'] *)
Definition my_isvar (c : Z) : option bool := (fun b => negb (b =? 0) || (c =? 95)) <$> my_isalnum c.
Definition my_isvar_start (c : Z) : option bool := (fun b => negb (b =? 0) || (c =? 95)) <$> my_isalpha c.
End Classes.

(** ** Properties *)

(** [MY_PUT_MB2(s, MB2(code))] stores the same two bytes, the high one first, on i386 and
    elsewhere, for every code of 16 bits, and faults exactly when one of them is not mapped. *)
Theorem put_mb2_portable (m : mem) (s code : Z) : 0 <= code < 2 ^ 16 ->
  I386.MY_PUT_MB2 m s (I386.MB2 code) = Portable.MY_PUT_MB2 m s (Portable.MB2 code)
  /\ I386.MY_PUT_MB2 m s (I386.MB2 code) = store_bytes m s [code / 256; code mod 256].
Proof.
  intros Hc. assert (Hd : 0 <= code / 256 < 256) by lia.
  assert (Hm : Z.land code 255 = code mod 256) by (change 255 with (Z.ones 8); by rewrite Z.land_ones).
  assert (Hs : Z.shiftr code 8 = code / 256) by (by rewrite Z.shiftr_div_pow2).
  assert (Hb : le_bytes 2 (u16 (I386.MB2 code)) = [code / 256; code mod 256]).
  { unfold I386.MB2. rewrite Hs, Hm, Z.shiftl_mul_pow2 by lia. change (2 ^ 8) with 256.
    rewrite uwrap_small by lia. cbn [le_bytes]. rewrite Z.shiftr_div_pow2 by lia. change (2 ^ 8) with 256.
    unfold uwrap. change (2 ^ 8) with 256. f_equal; [lia|]. f_equal. lia. }
  assert (Hst : I386.MY_PUT_MB2 m s (I386.MB2 code) = store_bytes m s [code / 256; code mod 256])
    by (unfold I386.MY_PUT_MB2, store_le; by rewrite Hb).
  split; [|exact Hst]. rewrite Hst. unfold Portable.MY_PUT_MB2, Portable.MB2. rewrite Hs, Hm. cbn [store_bytes].
  destruct (store8 m s (code / 256)) as [m1|]; [|done]. cbn [mbind option_bind].
  by destruct (store8 m1 (s + 1) (code mod 256)).
Qed.

Lemma put_mb2_portable_witness :
  I386.MY_PUT_MB2 (zeroed 8 2) 8 (I386.MB2 0x3042) = Portable.MY_PUT_MB2 (zeroed 8 2) 8 (Portable.MB2 0x3042)
  /\ I386.MY_PUT_MB2 (zeroed 8 2) 8 (I386.MB2 0x3042) = store_bytes (zeroed 8 2) 8 [0x3042 / 256; 0x3042 mod 256].
Proof. apply (put_mb2_portable (zeroed 8 2) 8 0x3042). lia. Defined.

(** The address of the flag that says whether [wc] begins or ends a contraction. *)
Definition flag_address (cs : CHARSET_INFO) (wc : Z) : Z := contractions cs + (0x40 * 0x40 + Z.land wc 0xFF).

(** C40.  The weights of the contractions of two characters between 0x40 and 0x7F have
    addresses of their own in a table of 0x2000 bytes, but the flags, found at a byte offset of 0x40*0x40, lie in the
    middle of that table: a weight shares a byte with the flag of some character exactly when its first
    character is 0x60 or 0x61 (a), and writing the weight of "aa" changes the answer for
    another character.  The answers for head and tail are always the same. *)
Theorem contraction_flags_overlap (cs : CHARSET_INFO) (m : mem) :
  (forall wc1 wc2 wc1' wc2', 0x40 <= wc1 < 0x80 -> 0x40 <= wc2 < 0x80 -> 0x40 <= wc1' < 0x80 -> 0x40 <= wc2' < 0x80 ->
     contractions cs <= my_cs_contraction2_weight cs wc1 wc2 < contractions cs + 0x2000
     /\ (Z.abs (my_cs_contraction2_weight cs wc1 wc2 - my_cs_contraction2_weight cs wc1' wc2') < 2 ->
         wc1 = wc1' /\ wc2 = wc2'))
  /\ (forall wc1 wc2, 0x40 <= wc1 < 0x80 -> 0x40 <= wc2 < 0x80 ->
     (exists wc, 0 <= flag_address cs wc - my_cs_contraction2_weight cs wc1 wc2 < 2) <-> wc1 = 0x60 \/ wc1 = 0x61)
  /\ (mapped m (contractions cs) 0x2000 -> exists m',
        store_le 2 m (my_cs_contraction2_weight cs 0x61 0x61) 0x0E33 = Some m'
        /\ my_cs_can_be_contraction_head cs m' 0xC2 = Some 0x33)
  /\ (forall wc, my_cs_can_be_contraction_head cs m wc = my_cs_can_be_contraction_tail cs m wc).
Proof.
  unfold my_cs_contraction2_weight, flag_address. split_and!; [|intros wc1 wc2 H1 H2; split|..].
  - intros. lia.
  - intros [wc Hwc]. change 0xFF with (Z.ones 8) in Hwc. rewrite Z.land_ones in Hwc by lia.
    pose proof (Z.mod_pos_bound wc (2 ^ 8) ltac:(lia)). change (2 ^ 8) with 256 in *. lia.
  - intros Hor. exists (2 * ((wc1 - 0x60) * 0x40 + wc2 - 0x40)).
    change 0xFF with (Z.ones 8). rewrite Z.land_ones, Z.mod_small by lia. lia.
  - intros Hm. cbn [store_le le_bytes].
    destruct (store_bytes_spec (le_bytes 2 0x0E33) m (contractions cs + 2 * ((0x61 - 0x40) * 0x40 + 0x61 - 0x40)))
      as (m' & Hst & Hl & _).
    { intros i Hi. rewrite <- Z.add_assoc. apply Hm. cbn in Hi. lia. }
    exists m'. split; [exact Hst|]. unfold my_cs_can_be_contraction_head. change (length _) with 2%nat in Hl.
    rewrite load_bytes_S in Hl.
    change (0x40 * 0x40 + Z.land 0xC2 0xFF) with (2 * ((0x61 - 0x40) * 0x40 + 0x61 - 0x40)).
    destruct (load8 m' _) as [b|]; [|done]. cbn [mbind option_bind] in *.
    destruct (load_bytes 1 m' _); [|done]. cbn [mbind option_bind] in Hl. injection Hl as -> _. reflexivity.
  - done.
Qed.

Lemma contraction_flags_overlap_witness :
  exists m', store_le 2 (zeroed 0x1000 0x2000) (0x1000 + 0x10C2) 0x0E33 = Some m'
    /\ my_cs_can_be_contraction_head {| contractions := 0x1000; state := 0; ctype := 0; to_lower := 0; to_upper := 0 |}
         m' 0xC2 = Some 0x33.
Proof.
  apply (contraction_flags_overlap
    {| contractions := 0x1000; state := 0; ctype := 0; to_lower := 0; to_upper := 0 |} (zeroed 0x1000 (Z.to_nat 0x2000))).
  apply mapped_zeroed. lia.
Defined.
