(* ===== verification/IoCache.v ===== *)
(** * The I/O cache (my_sys.h)

    The [IO_CACHE] structure and the macros that work on it: the fast path on the buffer, and
    the functions behind [read_function], [write_function], [_my_b_get], [_my_b_write], which are not
    in the sources and are an interface with laws.  The cache promises a stream: reads return
    the bytes of the file in order, writes append. *)
From S2P Require Import Prelude Mem.

(** ** State *)

Inductive cache_type :=
  TYPE_NOT_SET | READ_CACHE | WRITE_CACHE | SEQ_READ_APPEND | READ_FIFO | READ_NET | WRITE_NET.

(** [current_pos] and [current_end] point to the fields of one of the two directions. *)
Inductive cursor := at_read | at_write.

Record IO_CACHE := {
  pos_in_file : Z; end_of_file : Z;
  read_pos : Z; read_end : Z; buffer : Z; request_pos : Z;
  write_buffer : Z; append_read_pos : Z; write_pos : Z; write_end : Z;
  current_pos : cursor; current_end : cursor;
  io_type : cache_type;
  disk_writes : Z; io_file : Z;
  seek_not_done : Z; io_error : Z;
  buffer_length : Z; read_length : Z;
  io_myflags : Z; alloced_buffer : bool }.

Definition set_read_pos (v : Z) (c : IO_CACHE) : IO_CACHE :=
  {| pos_in_file := pos_in_file c; end_of_file := end_of_file c;
     read_pos := v; read_end := read_end c; buffer := buffer c; request_pos := request_pos c;
     write_buffer := write_buffer c; append_read_pos := append_read_pos c;
     write_pos := write_pos c; write_end := write_end c;
     current_pos := current_pos c; current_end := current_end c; io_type := io_type c;
     disk_writes := disk_writes c; io_file := io_file c; seek_not_done := seek_not_done c;
     io_error := io_error c; buffer_length := buffer_length c; read_length := read_length c;
     io_myflags := io_myflags c; alloced_buffer := alloced_buffer c |}.
Definition set_read_end (v : Z) (c : IO_CACHE) : IO_CACHE :=
  {| pos_in_file := pos_in_file c; end_of_file := end_of_file c;
     read_pos := read_pos c; read_end := v; buffer := buffer c; request_pos := request_pos c;
     write_buffer := write_buffer c; append_read_pos := append_read_pos c;
     write_pos := write_pos c; write_end := write_end c;
     current_pos := current_pos c; current_end := current_end c; io_type := io_type c;
     disk_writes := disk_writes c; io_file := io_file c; seek_not_done := seek_not_done c;
     io_error := io_error c; buffer_length := buffer_length c; read_length := read_length c;
     io_myflags := io_myflags c; alloced_buffer := alloced_buffer c |}.
Definition set_write_pos (v : Z) (c : IO_CACHE) : IO_CACHE :=
  {| pos_in_file := pos_in_file c; end_of_file := end_of_file c;
     read_pos := read_pos c; read_end := read_end c; buffer := buffer c; request_pos := request_pos c;
     write_buffer := write_buffer c; append_read_pos := append_read_pos c;
     write_pos := v; write_end := write_end c;
     current_pos := current_pos c; current_end := current_end c; io_type := io_type c;
     disk_writes := disk_writes c; io_file := io_file c; seek_not_done := seek_not_done c;
     io_error := io_error c; buffer_length := buffer_length c; read_length := read_length c;
     io_myflags := io_myflags c; alloced_buffer := alloced_buffer c |}.
Definition set_buffer (v : Z) (c : IO_CACHE) : IO_CACHE :=
  {| pos_in_file := pos_in_file c; end_of_file := end_of_file c;
     read_pos := read_pos c; read_end := read_end c; buffer := v; request_pos := request_pos c;
     write_buffer := write_buffer c; append_read_pos := append_read_pos c;
     write_pos := write_pos c; write_end := write_end c;
     current_pos := current_pos c; current_end := current_end c; io_type := io_type c;
     disk_writes := disk_writes c; io_file := io_file c; seek_not_done := seek_not_done c;
     io_error := io_error c; buffer_length := buffer_length c; read_length := read_length c;
     io_myflags := io_myflags c; alloced_buffer := alloced_buffer c |}.

(** The memory, the cache, and the contents of the file behind it. *)
Record st := { st_mem : mem; st_cache : IO_CACHE; st_world : list Z }.
Definition with_cache (c : IO_CACHE) (s : st) : st :=
  {| st_mem := st_mem s; st_cache := c; st_world := st_world s |}.
Definition with_mem (m : mem) (s : st) : st :=
  {| st_mem := m; st_cache := st_cache s; st_world := st_world s |}.

(** [memcpy] of the C library; a copy between overlapping areas is undefined. *)
Definition memcpy (m : mem) (dst src n : Z) : option mem :=
  if (dst + n <=? src) || (src + n <=? dst) || (n =? 0)
  then l ← load_bytes (Z.to_nat n) m src; store_bytes m dst l else None.

(** The functions of mf_iocache.c the macros call. *)
Class IoFunctions := {
  read_function : st -> Z -> Z -> option (Z * st);
  write_function : st -> Z -> Z -> option (Z * st);
  _my_b_get : st -> option (Z * st);
  _my_b_write : st -> Z -> Z -> option (Z * st) }.

Section Macros.
(** The width of a pointer and of [size_t]. *)
Context (ptr_bits : Z) `{IoFunctions}.

Definition my_b_clear (s : st) : st := with_cache (set_buffer 0 (st_cache s)) s.
Definition my_b_inited (s : st) : bool := negb (buffer (st_cache s) =? 0).
Definition my_b_EOF : Z := - 2 ^ 31.

Definition my_b_read (s : st) (Buffer Count : Z) : option (Z * st) :=
  let c := st_cache s in
  if uwrap ptr_bits (read_pos c + Count) <=? read_end c then
    m ← memcpy (st_mem s) Buffer (read_pos c) Count;
    Some (0, with_cache (set_read_pos (uwrap ptr_bits (read_pos c + Count)) c) (with_mem m s))
  else read_function s Buffer Count.

Definition my_b_write (s : st) (Buffer Count : Z) : option (Z * st) :=
  let c := st_cache s in
  if uwrap ptr_bits (write_pos c + Count) <=? write_end c then
    m ← memcpy (st_mem s) (write_pos c) Buffer Count;
    Some (0, with_cache (set_write_pos (uwrap ptr_bits (write_pos c + Count)) c) (with_mem m s))
  else write_function s Buffer Count.

Definition my_b_get (s : st) : option (Z * st) :=
  let c := st_cache s in
  if negb (read_pos c =? read_end c) then
    let c' := set_read_pos (uwrap ptr_bits (read_pos c + 1)) c in
    b ← load8 (st_mem s) (uwrap ptr_bits (read_pos c' - 1));
    Some (u8 b, with_cache c' s)
  else _my_b_get s.

(** [( *write_pos++)=(chr)] *)
Definition put_byte (s : st) (chr : Z) : option (Z * st) :=
  let c := st_cache s in
  m ← store8 (st_mem s) (write_pos c) chr;
  Some (u8 chr, with_cache (set_write_pos (uwrap ptr_bits (write_pos c + 1)) c) (with_mem m s)).

Definition my_b_write_byte (s : st) (chr : Z) : option (Z * st) :=
  let c := st_cache s in
  if write_pos c <? write_end c then put_byte s chr
  else '(_, s') ← _my_b_write s 0 0; put_byte s' chr.

Definition my_b_fill_cache (s : st) : option (Z * st) :=
  let c := st_cache s in read_function (with_cache (set_read_end (read_pos c) c) s) 0 0.

Definition current (p : cursor) (rd wr : Z) : Z := match p with at_read => rd | at_write => wr end.

Definition my_b_tell (s : st) : Z :=
  let c := st_cache s in
  u64 (pos_in_file c
       + uwrap ptr_bits (current (current_pos c) (read_pos c) (write_pos c) - request_pos c)).

Definition my_b_get_buffer_start (s : st) : Z := request_pos (st_cache s).
Definition my_b_get_bytes_in_buffer (s : st) : Z :=
  swrap ptr_bits (read_end (st_cache s) - my_b_get_buffer_start s).
Definition my_b_get_pos_in_file (s : st) : Z := pos_in_file (st_cache s).
Definition my_b_bytes_in_cache (s : st) : Z :=
  let c := st_cache s in
  uwrap ptr_bits (current (current_end c) (read_end c) (write_end c)
                  - current (current_pos c) (read_pos c) (write_pos c)).

End Macros.

(** ** What the cache promises *)

(** The [n] bytes of the file from position [p]. *)
Definition slice (F : list Z) (p n : Z) : list Z := take (Z.to_nat n) (drop (Z.to_nat p) F).

(** The position of the next byte of the stream. *)
Definition rpos (c : IO_CACHE) : Z := pos_in_file c + (read_pos c - request_pos c).

Section Contract.
Context (ptr_bits : Z) `{IoFunctions}.

(** A read cache on its file: the window between [read_pos] and [read_end] lies in the
    buffer and holds the bytes of the file from the position of the stream on. *)
Record reading (s : st) : Prop := {
  rd_current : current_pos (st_cache s) = at_read /\ current_end (st_cache s) = at_read;
  rd_buffer : 0 <= buffer (st_cache s) <= request_pos (st_cache s)
              /\ request_pos (st_cache s) <= read_pos (st_cache s);
  rd_window : read_pos (st_cache s) <= read_end (st_cache s)
              <= buffer (st_cache s) + buffer_length (st_cache s);
  rd_width : buffer (st_cache s) + buffer_length (st_cache s) < 2 ^ ptr_bits;
  rd_file : 0 <= pos_in_file (st_cache s)
            /\ rpos (st_cache s) + (read_end (st_cache s) - read_pos (st_cache s)) <= Z.of_nat (length (st_world s));
  rd_large : Z.of_nat (length (st_world s)) < 2 ^ 64 /\ Forall is_byte (st_world s);
  rd_bytes : load_bytes (Z.to_nat (read_end (st_cache s) - read_pos (st_cache s))) (st_mem s) (read_pos (st_cache s))
             = Some (slice (st_world s) (rpos (st_cache s)) (read_end (st_cache s) - read_pos (st_cache s))) }.

(** A buffer of the caller: mapped, and apart from the buffer of the cache. *)
Definition user_buffer (s : st) (B n : Z) : Prop :=
  0 <= n /\ buffer (st_cache s) + buffer_length (st_cache s) + n < 2 ^ ptr_bits
  /\ mapped (st_mem s) B n
  /\ (B + n <= buffer (st_cache s) \/ buffer (st_cache s) + buffer_length (st_cache s) <= B).

(** What every function keeps: the buffer of the cache, the mapped addresses and the file. *)
Definition keeps (s s' : st) : Prop :=
  buffer (st_cache s') = buffer (st_cache s) /\ buffer_length (st_cache s') = buffer_length (st_cache s)
  /\ (forall p n, mapped (st_mem s) p n -> mapped (st_mem s') p n) /\ st_world s' = st_world s.

(** The documented behaviour of the functions behind a read cache: they return the
    bytes at the position of the stream and move it, or report an error. *)
Class ReadLaws := {
  read_function_spec : forall s B n, reading s -> user_buffer s B n ->
    exists r s', read_function s B n = Some (r, s') /\ reading s' /\ keeps s s'
      /\ (r = 0 -> rpos (st_cache s) + n <= Z.of_nat (length (st_world s))
          /\ load_bytes (Z.to_nat n) (st_mem s') B = Some (slice (st_world s) (rpos (st_cache s)) n)
          /\ rpos (st_cache s') = rpos (st_cache s) + n);
  _my_b_get_spec : forall s, reading s ->
    exists r s', _my_b_get s = Some (r, s') /\ reading s' /\ keeps s s'
      /\ (r = my_b_EOF \/ slice (st_world s) (rpos (st_cache s)) 1 = [r]
          /\ rpos (st_cache s') = rpos (st_cache s) + 1) }.

(** ** Clients *)

Inductive rop := Rd (B n : Z) | Get | Fill.

(** The bytes an operation returned, [None] when it failed. *)
Definition rstep (s : st) (op : rop) : option (option (list Z) * st) :=
  match op with
  | Rd B n =>
    '(r, s') ← my_b_read ptr_bits s B n;
    if r =? 0 then l ← load_bytes (Z.to_nat n) (st_mem s') B; Some (Some l, s') else Some (None, s')
  | Get => '(r, s') ← my_b_get ptr_bits s; Some (if r =? my_b_EOF then None else Some [r], s')
  | Fill => '(r, s') ← my_b_fill_cache s; Some (if r =? 0 then Some [] else None, s')
  end.

(** Runs the operations up to the first failure; the flag tells whether all succeeded. *)
Fixpoint rrun (s : st) (ops : list rop) : option (list Z * bool * st) :=
  match ops with
  | [] => Some ([], true, s)
  | op :: ops =>
    '(o, s') ← rstep s op;
    match o with
    | None => Some ([], false, s')
    | Some l => '(l', done, s'') ← rrun s' ops; Some (l ++ l', done, s'')
    end
  end.

Definition rop_ok (s : st) (op : rop) : Prop :=
  match op with Rd B n => user_buffer s B n | _ => True end.

(** ** Lemmas *)

Lemma keeps_refl (s : st) : keeps s s.
Proof. by split_and!. Qed.

Lemma keeps_trans (s1 s2 s3 : st) : keeps s1 s2 -> keeps s2 s3 -> keeps s1 s3.
Proof.
  intros (H1 & H2 & H3 & H4) (G1 & G2 & G3 & G4). unfold keeps. rewrite G1, G2, G4. split_and!; auto.
Qed.

Lemma rop_ok_keeps (s s' : st) (op : rop) : keeps s s' -> rop_ok s op -> rop_ok s' op.
Proof.
  destruct op as [B n| |]; try done. intros (E1 & E2 & Hm & _). cbn [rop_ok]. unfold user_buffer.
  rewrite E1, E2. intros (H1 & H2 & H3 & H4). split_and!; auto.
Qed.

Lemma slice_app (F : list Z) (p a b : Z) : 0 <= p -> 0 <= a -> 0 <= b ->
  slice F p a ++ slice F (p + a) b = slice F p (a + b).
Proof.
  intros Hp Ha Hb. unfold slice. rewrite !Z2Nat.inj_add by lia.
  by rewrite <- take_take_drop, drop_drop.
Qed.

Lemma slice_length (F : list Z) (p n : Z) : 0 <= p -> 0 <= n -> p + n <= Z.of_nat (length F) ->
  length (slice F p n) = Z.to_nat n.
Proof. intros Hp Hn Hl. unfold slice. rewrite length_take, length_drop. lia. Qed.

(** A part of a loaded area. *)
Lemma load_part (F : list Z) (m : mem) (p q w n : Z) : 0 <= q -> 0 <= n <= w ->
  q + w <= Z.of_nat (length F) -> load_bytes (Z.to_nat w) m p = Some (slice F q w) ->
  load_bytes (Z.to_nat n) m p = Some (slice F q n)
  /\ load_bytes (Z.to_nat (w - n)) m (p + n) = Some (slice F (q + n) (w - n)).
Proof.
  intros Hq Hn Hl Hw.
  assert (Hs : slice F q w = slice F q n ++ slice F (q + n) (w - n)) by (rewrite slice_app by lia; f_equal; lia).
  replace (Z.to_nat w) with (Z.to_nat n + Z.to_nat (w - n))%nat in Hw by lia.
  rewrite load_bytes_app, Z2Nat.id in Hw by lia.
  rewrite Hs in Hw.
  destruct (load_bytes (Z.to_nat n) m p) as [l|] eqn:E1; [|done]. cbn [mbind option_bind] in Hw.
  destruct (load_bytes (Z.to_nat (w - n)) m (p + n)) as [l'|] eqn:E2; [|done].
  cbn [mbind option_bind] in Hw. injection Hw as Hw.
  apply app_inj_1 in Hw as [-> ->]; [done|].
  apply load_bytes_length in E1. rewrite E1, slice_length; lia.
Qed.

Lemma memcpy_spec (m : mem) (dst src n : Z) (l : list Z) : 0 <= n ->
  dst + n <= src \/ src + n <= dst -> mapped m dst n -> Forall is_byte l ->
  load_bytes (Z.to_nat n) m src = Some l ->
  exists m', memcpy m dst src n = Some m' /\ load_bytes (Z.to_nat n) m' dst = Some l
    /\ only_changes m m' dst n /\ (forall p k, mapped m p k -> mapped m' p k).
Proof.
  intros Hn Hd Hm Hb Hl. unfold memcpy.
  assert (Hg : (dst + n <=? src) || (src + n <=? dst) || (n =? 0) = true).
  { destruct Hd as [Hd|Hd]; apply Z.leb_le in Hd; rewrite Hd; [done|by rewrite orb_true_r]. }
  rewrite Hg, Hl. cbn [mbind option_bind]. pose proof (load_bytes_length _ _ _ _ Hl) as Hlen.
  destruct (store_bytes_spec l m dst) as (m' & H1 & H2 & H3 & H4 & _).
  { replace (Z.of_nat (length l)) with n by lia. done. }
  exists m'. rewrite Hlen, Z2Nat.id in * by lia. split_and!; try done. rewrite H2. f_equal.
  clear - Hb. induction Hb as [|b l Hb _ IH]; [done|]. cbn. by rewrite IH, u8_byte.
Qed.

Lemma slice_bytes (F : list Z) (p n : Z) : Forall is_byte F -> Forall is_byte (slice F p n).
Proof. intros Hf. by apply Forall_take, Forall_drop. Qed.

(** Moving [read_pos] inside of the window keeps the invariant. *)
Lemma reading_advance (s : st) (m : mem) (n : Z) :
  reading s -> 0 <= n -> read_pos (st_cache s) + n <= read_end (st_cache s) ->
  (forall a, read_pos (st_cache s) <= a < read_end (st_cache s) -> m !! a = st_mem s !! a) ->
  reading (with_cache (set_read_pos (read_pos (st_cache s) + n) (st_cache s)) (with_mem m s)).
Proof.
  intros [H1 H2 H3 H4 H5 H6 H7] Hn Hle Hag. destruct s as [m0 c F]. cbn in *. unfold rpos in *.
  constructor; cbn; try done; try lia.
  - unfold rpos. cbn. lia.
  - unfold rpos. cbn. destruct (load_part F m0 (read_pos c) (pos_in_file c + (read_pos c - request_pos c))
      (read_end c - read_pos c) n) as [_ Hl]; try done; try lia.
    replace (read_end c - (read_pos c + n)) with (read_end c - read_pos c - n) by lia.
    replace (pos_in_file c + (read_pos c + n - request_pos c))
      with (pos_in_file c + (read_pos c - request_pos c) + n) by lia.
    rewrite <- Hl. apply load_bytes_agree. intros a Ha. apply Hag. lia.
Qed.

Section Reader.
Context `{!ReadLaws}.

(** The three operations of a reader, with the same contract as [read_function]. *)
Lemma my_b_read_spec (s : st) (B n : Z) : reading s -> user_buffer s B n ->
  exists r s', my_b_read ptr_bits s B n = Some (r, s') /\ reading s' /\ keeps s s'
    /\ (r = 0 -> rpos (st_cache s) + n <= Z.of_nat (length (st_world s))
        /\ load_bytes (Z.to_nat n) (st_mem s') B = Some (slice (st_world s) (rpos (st_cache s)) n)
        /\ rpos (st_cache s') = rpos (st_cache s) + n).
Proof.
  intros Hr Hu. unfold my_b_read. pose proof Hr as [H1 H2 H3 H4 H5 H6 H7]. destruct Hu as (U1 & U2 & U3 & U4).
  rewrite uwrap_small by lia. destruct (Z.leb_spec (read_pos (st_cache s) + n) (read_end (st_cache s))) as [Hle|Hgt].
  - destruct (load_part (st_world s) (st_mem s) (read_pos (st_cache s)) (rpos (st_cache s))
      (read_end (st_cache s) - read_pos (st_cache s)) n) as [Hl _]; [unfold rpos; lia|lia|lia|done|].
    destruct (memcpy_spec (st_mem s) B (read_pos (st_cache s)) n _ U1 ltac:(lia) U3
      (slice_bytes _ _ _ (proj2 H6)) Hl) as (m' & -> & M1 & M2 & M3).
    cbn [mbind option_bind]. do 2 eexists. split; [done|]. split_and!.
    + apply reading_advance; try done; try lia. intros a Ha. apply M2. lia.
    + split_and!; [done|done|exact M3|done].
    + intros _. split_and!; [lia|exact M1|]. unfold rpos. cbn. lia.
  - apply read_function_spec; [done|]. by split_and!.
Qed.

Lemma my_b_get_spec (s : st) : reading s ->
  exists r s', my_b_get ptr_bits s = Some (r, s') /\ reading s' /\ keeps s s'
    /\ (r = my_b_EOF \/ slice (st_world s) (rpos (st_cache s)) 1 = [r]
        /\ rpos (st_cache s') = rpos (st_cache s) + 1).
Proof.
  intros Hr. unfold my_b_get. pose proof Hr as [H1 H2 H3 H4 H5 H6 H7].
  destruct (Z.eqb_spec (read_pos (st_cache s)) (read_end (st_cache s))) as [He|Hne]; cbn [negb].
  - by apply _my_b_get_spec.
  - cbn [read_pos set_read_pos]. rewrite !uwrap_small by (rewrite ?uwrap_small; lia).
    replace (read_pos (st_cache s) + 1 - 1) with (read_pos (st_cache s)) by lia.
    destruct (load_part (st_world s) (st_mem s) (read_pos (st_cache s)) (rpos (st_cache s))
      (read_end (st_cache s) - read_pos (st_cache s)) 1) as [Hl _]; [unfold rpos; lia|lia|lia|done|].
    change (Z.to_nat 1) with 1%nat in Hl. rewrite load_bytes_S, load_bytes_0 in Hl.
    destruct (load8 (st_mem s) (read_pos (st_cache s))) as [b|]; [|done].
    cbn [mbind option_bind] in *. injection Hl as Hl. do 2 eexists. split; [done|].
    assert (Hb : is_byte b).
    { pose proof (slice_bytes (st_world s) (rpos (st_cache s)) 1 (proj2 H6)) as Hf. rewrite <- Hl in Hf.
      by inversion Hf. }
    split_and!; try done.
    + assert (Ha : reading (with_cache (set_read_pos (read_pos (st_cache s) + 1) (st_cache s)) (with_mem (st_mem s) s)))
        by (apply reading_advance; [done|lia|lia|done]). destruct s. exact Ha.
    + right. rewrite u8_byte by done. split; [done|]. unfold rpos. cbn. lia.
Qed.

Lemma my_b_fill_cache_spec (s : st) : reading s ->
  exists r s', my_b_fill_cache s = Some (r, s') /\ reading s' /\ keeps s s'
    /\ (r = 0 -> rpos (st_cache s') = rpos (st_cache s)).
Proof.
  intros Hr. unfold my_b_fill_cache. pose proof Hr as [H1 H2 H3 H4 H5 H6 H7].
  set (s0 := with_cache _ s). assert (Hr0 : reading s0).
  { constructor; cbn; try done; try lia; unfold rpos in *; cbn in *; try lia.
    by rewrite Z.sub_diag. }
  destruct (read_function_spec s0 0 0 Hr0) as (r & s' & E & R & K & P).
  { split_and!; [lia|cbn; lia|intros i Hi; lia|cbn; lia]. }
  exists r, s'. split_and!; try done. intros Hz. destruct (P Hz) as (_ & _ & ->). cbn. unfold rpos. cbn. lia.
Qed.
End Reader.

Lemma rstep_spec `{!ReadLaws} (s : st) (op : rop) : reading s -> rop_ok s op ->
  exists o s', rstep s op = Some (o, s') /\ reading s' /\ keeps s s'
    /\ match o with
       | Some l => l = slice (st_world s) (rpos (st_cache s)) (Z.of_nat (length l))
                   /\ rpos (st_cache s') = rpos (st_cache s) + Z.of_nat (length l)
       | None => True
       end.
Proof.
  intros Hr Hok. assert (Hp : 0 <= rpos (st_cache s)) by (destruct Hr; unfold rpos; lia).
  destruct op as [B n| |]; cbn [rstep rop_ok] in *.
  - destruct (my_b_read_spec s B n Hr Hok) as (r & s' & -> & R & K & P). cbn [mbind option_bind].
    destruct (Z.eqb_spec r 0) as [->|Hne]; [|by exists None, s'].
    destruct (P eq_refl) as (P1 & P2 & P3). rewrite P2. cbn [mbind option_bind].
    destruct Hok as (Hn & _). exists (Some (slice (st_world s) (rpos (st_cache s)) n)), s'.
    rewrite slice_length, Z2Nat.id by lia. by split_and!.
  - destruct (my_b_get_spec s Hr) as (r & s' & -> & R & K & P). cbn [mbind option_bind].
    eexists _, s'. split; [done|]. split; [done|]. split; [done|].
    destruct (Z.eqb_spec r my_b_EOF) as [->|Hne]; [done|]. destruct P as [->|[P1 P2]]; done.
  - destruct (my_b_fill_cache_spec s Hr) as (r & s' & -> & R & K & P). cbn [mbind option_bind].
    eexists _, s'. split; [done|]. split; [done|]. split; [done|].
    destruct (Z.eqb_spec r 0) as [->|]; [|done]. split; [done|]. cbn. rewrite P by done. lia.
Qed.

Lemma my_b_tell_reading (s : st) : 0 < ptr_bits <= 64 -> reading s -> my_b_tell ptr_bits s = rpos (st_cache s).
Proof.
  intros Hw [H1 H2 H3 H4 H5 H6 H7]. unfold my_b_tell. destruct H1 as [-> _]. cbn [current].
  unfold rpos in *. rewrite (uwrap_small ptr_bits) by lia. apply uwrap_small. lia.
Qed.

End Contract.

(** An unbuffered implementation of the functions, as a model of the interface. *)
Section Direct.

Definition direct_cache (c : IO_CACHE) (pos : Z) : IO_CACHE :=
  {| pos_in_file := pos; end_of_file := end_of_file c;
     read_pos := buffer c; read_end := buffer c; buffer := buffer c; request_pos := buffer c;
     write_buffer := write_buffer c; append_read_pos := append_read_pos c;
     write_pos := write_pos c; write_end := write_end c;
     current_pos := current_pos c; current_end := current_end c; io_type := io_type c;
     disk_writes := disk_writes c; io_file := io_file c; seek_not_done := seek_not_done c;
     io_error := io_error c; buffer_length := buffer_length c; read_length := read_length c;
     io_myflags := io_myflags c; alloced_buffer := alloced_buffer c |}.

Definition direct_read (s : st) (B n : Z) : option (Z * st) :=
  let p := rpos (st_cache s) in
  if p + n <=? Z.of_nat (length (st_world s)) then
    m ← store_bytes (st_mem s) B (slice (st_world s) p n);
    Some (0, {| st_mem := m; st_cache := direct_cache (st_cache s) (p + n); st_world := st_world s |})
  else Some (-1, s).

Definition direct_get (s : st) : option (Z * st) :=
  let p := rpos (st_cache s) in
  match st_world s !! Z.to_nat p with
  | Some b => Some (b, {| st_mem := st_mem s; st_cache := direct_cache (st_cache s) (p + 1); st_world := st_world s |})
  | None => Some (my_b_EOF, s)
  end.

End Direct.

(** ** Write caches *)

Section Writer.
Context (ptr_bits : Z) `{IoFunctions}.

(** The bytes written so far: those in the file and those waiting in the buffer. *)
Definition stream (s : st) : option (list Z) :=
  l ← load_bytes (Z.to_nat (write_pos (st_cache s) - write_buffer (st_cache s))) (st_mem s) (write_buffer (st_cache s));
  Some (st_world s ++ l).

Record writing (s : st) : Prop := {
  wr_current : current_pos (st_cache s) = at_write /\ current_end (st_cache s) = at_write;
  wr_start : request_pos (st_cache s) = write_buffer (st_cache s) /\ 0 <= write_buffer (st_cache s);
  wr_pos : write_buffer (st_cache s) <= write_pos (st_cache s) <= write_end (st_cache s);
  wr_end : write_buffer (st_cache s) < write_end (st_cache s)
           <= write_buffer (st_cache s) + buffer_length (st_cache s);
  wr_width : write_buffer (st_cache s) + buffer_length (st_cache s) + 1 < 2 ^ ptr_bits;
  wr_mapped : mapped (st_mem s) (write_buffer (st_cache s)) (buffer_length (st_cache s));
  wr_file : pos_in_file (st_cache s) = Z.of_nat (length (st_world s)) }.

(** What every function keeps: the buffer, and the memory outside of it. *)
Definition wkeeps (s s' : st) : Prop :=
  write_buffer (st_cache s') = write_buffer (st_cache s) /\ buffer_length (st_cache s') = buffer_length (st_cache s)
  /\ only_changes (st_mem s) (st_mem s') (write_buffer (st_cache s)) (buffer_length (st_cache s)).

(** [l] are the bytes of the caller's buffer of [n] bytes at [B]. *)
Definition source (s : st) (B n : Z) (l : list Z) : Prop :=
  0 <= n /\ write_buffer (st_cache s) + buffer_length (st_cache s) + n < 2 ^ ptr_bits
  /\ load_bytes (Z.to_nat n) (st_mem s) B = Some l /\ Forall is_byte l
  /\ (B + n <= write_buffer (st_cache s) \/ write_buffer (st_cache s) + buffer_length (st_cache s) <= B).

(** The documented behaviour of the functions behind a write cache. *)
Class WriteLaws := {
  write_function_spec : forall s B n l L, writing s -> source s B n l -> stream s = Some L ->
    exists r s', write_function s B n = Some (r, s') /\ writing s' /\ wkeeps s s'
      /\ (r = 0 -> stream s' = Some (L ++ l));
  _my_b_write_spec : forall s L, writing s -> stream s = Some L ->
    exists r s', _my_b_write s 0 0 = Some (r, s') /\ writing s' /\ wkeeps s s'
      /\ (r = 0 -> stream s' = Some L /\ write_pos (st_cache s') < write_end (st_cache s')) }.

Inductive wop := Wr (B n : Z) | Wb (chr : Z).

(** Runs the operations up to the first reported failure. *)
Fixpoint wrun (s : st) (ops : list wop) : option (bool * st) :=
  match ops with
  | [] => Some (true, s)
  | Wr B n :: ops =>
    '(r, s') ← my_b_write ptr_bits s B n; if r =? 0 then wrun s' ops else Some (false, s')
  | Wb chr :: ops => '(_, s') ← my_b_write_byte ptr_bits s chr; wrun s' ops
  end.

(** The flush that [my_b_write_byte] asks for fails, which the macro does not report. *)
Definition flush_fails (s : st) : bool :=
  if write_pos (st_cache s) <? write_end (st_cache s) then false
  else match _my_b_write s 0 0 with Some (r, _) => negb (r =? 0) | None => false end.
Definition lost (s : st) (op : wop) : bool := match op with Wr _ _ => false | Wb _ => flush_fails s end.
(** The first operation of the run with such a flush. *)
Fixpoint unreported (s : st) (ops : list wop) : option nat :=
  match ops with
  | [] => None
  | Wr B n :: ops => '(r, s') ← my_b_write ptr_bits s B n; if r =? 0 then S <$> unreported s' ops else None
  | Wb chr :: ops =>
    if flush_fails s then Some 0%nat else '(_, s') ← my_b_write_byte ptr_bits s chr; S <$> unreported s' ops
  end.

Definition wop_bytes (s : st) (op : wop) (l : list Z) : Prop :=
  match op with Wr B n => source s B n l | Wb chr => l = [u8 chr] end.

Lemma wkeeps_trans (s1 s2 s3 : st) : wkeeps s1 s2 -> wkeeps s2 s3 -> wkeeps s1 s3.
Proof.
  intros (H1 & H2 & H3) (G1 & G2 & G3). unfold wkeeps. rewrite H1, H2 in *. split_and!; try done.
  intros a Ha. rewrite G3 by done. by apply H3.
Qed.

Lemma wop_bytes_keeps (s s' : st) (op : wop) (l : list Z) :
  wkeeps s s' -> wop_bytes s op l -> wop_bytes s' op l.
Proof.
  destruct op as [B n|chr]; [|done]. intros (E1 & E2 & Hoc). cbn [wop_bytes]. unfold source.
  rewrite E1, E2. intros (H1 & H2 & H3 & H4 & H5). split_and!; try done. rewrite <- H3.
  apply load_bytes_agree. intros a Ha. apply Hoc. lia.
Qed.

(** Bytes stored at [write_pos] extend the stream. *)
Lemma writing_extend (s : st) (m : mem) (l L : list Z) (n : Z) :
  writing s -> stream s = Some L -> 0 <= n -> write_pos (st_cache s) + n <= write_end (st_cache s) ->
  load_bytes (Z.to_nat n) m (write_pos (st_cache s)) = Some l ->
  only_changes (st_mem s) m (write_pos (st_cache s)) n ->
  (forall p k, mapped (st_mem s) p k -> mapped m p k) ->
  let s' := with_cache (set_write_pos (write_pos (st_cache s) + n) (st_cache s)) (with_mem m s) in
  writing s' /\ wkeeps s s' /\ stream s' = Some (L ++ l).
Proof.
  intros [H1 H2 H3 H4 H5 H6 H7] HL Hn Hle Hl Hoc Hm. destruct s as [m0 c F]. cbn in *. split_and!.
  - constructor; cbn; try done; try lia. by apply Hm.
  - split_and!; cbn; try done. intros a Ha. apply Hoc. cbn in *. lia.
  - unfold stream in *. cbn in *.
    replace (Z.to_nat (write_pos c + n - write_buffer c))
      with (Z.to_nat (write_pos c - write_buffer c) + Z.to_nat n)%nat by lia.
    rewrite load_bytes_app, Z2Nat.id by lia.
    replace (write_buffer c + (write_pos c - write_buffer c)) with (write_pos c) by lia. rewrite Hl.
    rewrite (load_bytes_agree _ m0 m) by (intros a Ha; apply Hoc; lia).
    destruct (load_bytes _ m0 (write_buffer c)) as [l0|]; [|done]. cbn [mbind option_bind] in *.
    injection HL as <-. by rewrite app_assoc.
Qed.

Lemma my_b_tell_writing (s : st) (L : list Z) : 0 < ptr_bits <= 64 -> writing s -> stream s = Some L ->
  Z.of_nat (length L) < 2 ^ 64 -> my_b_tell ptr_bits s = Z.of_nat (length L).
Proof.
  intros Hpb [H1 H2 H3 H4 H5 H6 H7] HL Hlt. unfold my_b_tell, stream in *. destruct H1 as [-> _].
  cbn [current]. destruct (load_bytes _ (st_mem s) _) as [l|] eqn:Hl; [|done].
  cbn [mbind option_bind] in HL. injection HL as <-. apply load_bytes_length in Hl.
  rewrite length_app in *. rewrite (uwrap_small ptr_bits) by lia. rewrite uwrap_small by lia. lia.
Qed.

Section Laws.
Context `{!WriteLaws}.

Lemma my_b_write_spec (s : st) (B n : Z) (l L : list Z) : writing s -> source s B n l -> stream s = Some L ->
  exists r s', my_b_write ptr_bits s B n = Some (r, s') /\ writing s' /\ wkeeps s s'
    /\ (r = 0 -> stream s' = Some (L ++ l)).
Proof.
  intros Hw Hs HL. unfold my_b_write. pose proof Hw as [H1 H2 H3 H4 H5 H6 H7].
  pose proof Hs as (S1 & S2 & S3 & S4 & S5). rewrite uwrap_small by lia.
  destruct (Z.leb_spec (write_pos (st_cache s) + n) (write_end (st_cache s))) as [Hle|Hgt].
  - destruct (memcpy_spec (st_mem s) (write_pos (st_cache s)) B n l) as (m' & -> & M1 & M2 & M3); try done; [lia| |].
    { intros i Hi. replace (write_pos (st_cache s) + i)
        with (write_buffer (st_cache s) + (write_pos (st_cache s) - write_buffer (st_cache s) + i)) by lia.
      apply H6. lia. }
    cbn [mbind option_bind]. destruct (writing_extend s m' l L n Hw HL) as (W1 & W2 & W3); try done.
    do 2 eexists. split; [done|]. by split_and!.
  - by apply write_function_spec with (L := L).
Qed.

Lemma put_byte_spec (s : st) (chr : Z) (L : list Z) : writing s -> stream s = Some L ->
  write_pos (st_cache s) < write_end (st_cache s) ->
  exists s', put_byte ptr_bits s chr = Some (u8 chr, s') /\ writing s' /\ wkeeps s s'
    /\ stream s' = Some (L ++ [u8 chr]).
Proof.
  intros Hw HL Hlt. unfold put_byte. pose proof Hw as [H1 H2 H3 H4 H5 H6 H7].
  destruct (H6 (write_pos (st_cache s) - write_buffer (st_cache s))) as [b Hb]; [lia|].
  replace (write_buffer (st_cache s) + (write_pos (st_cache s) - write_buffer (st_cache s)))
    with (write_pos (st_cache s)) in Hb by lia.
  rewrite store8_mapped by eauto. cbn [mbind option_bind]. rewrite (uwrap_small ptr_bits) by lia.
  destruct (writing_extend s (<[write_pos (st_cache s) := u8 chr]> (st_mem s)) [u8 chr] L 1 Hw HL)
    as (W1 & W2 & W3); try lia.
  - change (Z.to_nat 1) with 1%nat. rewrite load_bytes_S, load_bytes_0. unfold load8.
    by rewrite lookup_insert_eq.
  - intros a Ha. apply lookup_insert_ne. lia.
  - intros p k. apply mapped_insert.
  - eexists. by split_and!.
Qed.

Lemma my_b_write_byte_spec (s : st) (chr : Z) (L : list Z) : writing s -> stream s = Some L ->
  flush_fails s = false ->
  exists s', my_b_write_byte ptr_bits s chr = Some (u8 chr, s') /\ writing s' /\ wkeeps s s'
    /\ stream s' = Some (L ++ [u8 chr]).
Proof.
  unfold flush_fails. intros Hw HL Hok. unfold my_b_write_byte.
  destruct (Z.ltb_spec (write_pos (st_cache s)) (write_end (st_cache s))); [by apply put_byte_spec|].
  destruct (_my_b_write_spec s L Hw HL) as (r & s1 & E & W & K & P). rewrite E in Hok. apply negb_false_iff, Z.eqb_eq in Hok as ->.
  destruct (P eq_refl) as [HL' Hlt]. rewrite E. cbn [mbind option_bind].
  destruct (put_byte_spec s1 chr L W HL' Hlt) as (s' & P1 & P2 & P3 & P4).
  exists s'. split_and!; try done. by eapply wkeeps_trans.
Qed.

(** A flush that fails is met with a full buffer. *)
Lemma flush_fails_full (s : st) : writing s -> flush_fails s = true ->
  write_pos (st_cache s) = write_end (st_cache s) /\ exists r s', _my_b_write s 0 0 = Some (r, s') /\ r <> 0.
Proof.
  intros [_ _ Hp _ _ _ _]. unfold flush_fails. destruct (Z.ltb_spec (write_pos (st_cache s)) (write_end (st_cache s))); [done|].
  destruct (_my_b_write s 0 0) as [[r s']|]; [|done]. intros Hr. apply negb_true_iff, Z.eqb_neq in Hr. split; [lia|by exists r, s'].
Qed.

(** One operation whose flush does not fail. *)
Lemma wstep_spec (s : st) (op : wop) (ops : list wop) (l L : list Z) :
  writing s -> stream s = Some L -> wop_bytes s op l -> lost s op = false ->
  exists (ok : bool) s1, writing s1 /\ wkeeps s s1 /\ (ok = true -> stream s1 = Some (L ++ l))
    /\ unreported s (op :: ops) = (if ok then S <$> unreported s1 ops else None)
    /\ forall ops', wrun s (op :: ops') = (if ok then wrun s1 ops' else Some (false, s1)).
Proof.
  intros Hw HL Hop Hf. destruct op as [B n|chr]; cbn [wop_bytes wrun unreported] in *.
  - destruct (my_b_write_spec s B n l L Hw Hop HL) as (r & s1 & -> & W & K & P).
    cbn [mbind option_bind]. exists (r =? 0), s1. split_and!; try done. intros Hz%Z.eqb_eq. by apply P.
  - subst l. cbn [lost] in Hf. rewrite Hf. destruct (my_b_write_byte_spec s chr L Hw HL Hf) as (s1 & -> & W & K & P).
    cbn [mbind option_bind]. by exists true, s1.
Qed.

End Laws.
End Writer.

(** An unbuffered implementation: the waiting bytes and the new ones go to the file. *)
Section DirectWrite.

Definition direct_write (s : st) (B n : Z) : option (Z * st) :=
  L ← stream s; l ← load_bytes (Z.to_nat n) (st_mem s) B;
  let c := st_cache s in
  Some (0, {| st_mem := st_mem s;
     st_cache := {| pos_in_file := Z.of_nat (length (L ++ l)); end_of_file := end_of_file c;
     read_pos := read_pos c; read_end := read_end c; buffer := buffer c; request_pos := request_pos c;
     write_buffer := write_buffer c; append_read_pos := append_read_pos c;
     write_pos := write_buffer c; write_end := write_end c;
     current_pos := current_pos c; current_end := current_end c; io_type := io_type c;
     disk_writes := disk_writes c + 1; io_file := io_file c; seek_not_done := seek_not_done c;
     io_error := io_error c; buffer_length := buffer_length c; read_length := read_length c;
     io_myflags := io_myflags c; alloced_buffer := alloced_buffer c |};
     st_world := L ++ l |}).

(** A disk that is full: nothing is written, the error is returned. *)
Definition full_write (s : st) (B n : Z) : option (Z * st) := Some (-1, s).

#[export] Instance direct_io : IoFunctions :=
  {| read_function := direct_read; write_function := direct_write;
     _my_b_get := direct_get; _my_b_write := direct_write |}.

Definition full_io : IoFunctions :=
  {| read_function := direct_read; write_function := full_write;
     _my_b_get := direct_get; _my_b_write := full_write |}.

Lemma direct_reading (ptr_bits : Z) (s : st) (m : mem) (n : Z) : reading ptr_bits s -> 0 <= n ->
  rpos (st_cache s) + n <= Z.of_nat (length (st_world s)) ->
  let s' := {| st_mem := m; st_cache := direct_cache (st_cache s) (rpos (st_cache s) + n); st_world := st_world s |} in
  reading ptr_bits s' /\ rpos (st_cache s') = rpos (st_cache s) + n.
Proof.
  intros [H1 H2 H3 H4 H5 H6 H7] Hn Hle s'. unfold s', rpos in *. split; [|cbn; lia].
  constructor; cbn; try done; try lia; unfold rpos; cbn; [lia|]. by rewrite Z.sub_diag.
Qed.

#[export] Instance direct_read_laws (ptr_bits : Z) : ReadLaws ptr_bits.
Proof.
  constructor; cbn [read_function _my_b_get direct_io].
  - intros s B n Hr (U1 & U2 & U3 & U4). unfold direct_read. pose proof (rd_large _ _ Hr) as [_ Hby].
    assert (Hp : 0 <= rpos (st_cache s)) by (destruct Hr; unfold rpos; lia).
    destruct (Z.leb_spec (rpos (st_cache s) + n) (Z.of_nat (length (st_world s)))) as [Hle|Hgt].
    2: { exists (-1), s. split_and!; try done. }
    pose proof (slice_length (st_world s) (rpos (st_cache s)) n Hp U1 Hle) as Hlen.
    destruct (store_bytes_spec (slice (st_world s) (rpos (st_cache s)) n) (st_mem s) B)
      as (m' & -> & M1 & M2 & M3 & _); [by rewrite Hlen, Z2Nat.id by lia|].
    cbn [mbind option_bind]. destruct (direct_reading ptr_bits s m' n Hr U1 Hle) as [R1 R2].
    do 2 eexists. split; [done|]. split; [done|]. split; [by split_and!|]. intros _.
    split; [done|]. split; [|done]. cbn [st_mem]. rewrite <- Hlen, M1. f_equal.
    apply (slice_bytes _ (rpos (st_cache s)) n) in Hby. clear - Hby.
    induction Hby as [|b l Hb _ IH]; [done|]. cbn. by rewrite IH, u8_byte.
  - intros s Hr. unfold direct_get.
    assert (Hp : 0 <= rpos (st_cache s)) by (destruct Hr; unfold rpos; lia).
    destruct (st_world s !! Z.to_nat (rpos (st_cache s))) as [b|] eqn:Hb.
    + pose proof (lookup_lt_Some _ _ _ Hb).
      destruct (direct_reading ptr_bits s (st_mem s) 1 Hr) as [R1 R2]; [lia|lia|].
      do 2 eexists. split; [done|]. split; [done|]. split; [by split_and!|]. right. split; [|done].
      unfold slice. rewrite (drop_S _ b) by done. done.
    + exists my_b_EOF, s. split_and!; try done. by left.
Qed.

Lemma direct_write_spec (ptr_bits : Z) (s : st) (B n : Z) (l L : list Z) : writing ptr_bits s ->
  load_bytes (Z.to_nat n) (st_mem s) B = Some l -> stream s = Some L ->
  exists s', direct_write s B n = Some (0, s') /\ writing ptr_bits s' /\ wkeeps s s'
    /\ stream s' = Some (L ++ l) /\ write_pos (st_cache s') < write_end (st_cache s').
Proof.
  intros [H1 H2 H3 H4 H5 H6 H7] Hl HL. unfold direct_write. rewrite HL, Hl. cbn [mbind option_bind].
  eexists. split; [done|]. split; [|split; [by split_and!|split]].
  - constructor; cbn; try done; lia.
  - unfold stream. cbn. rewrite Z.sub_diag, load_bytes_0. cbn. by rewrite app_nil_r.
  - cbn. lia.
Qed.

#[export] Instance direct_write_laws (ptr_bits : Z) : WriteLaws ptr_bits.
Proof.
  constructor; cbn [write_function _my_b_write direct_io].
  - intros s B n l L Hw (S1 & S2 & S3 & S4 & S5) HL.
    destruct (direct_write_spec ptr_bits s B n l L Hw S3 HL) as (s' & E & W & K & P & _).
    exists 0, s'. by split_and!.
  - intros s L Hw HL.
    destruct (direct_write_spec ptr_bits s 0 0 [] L Hw (load_bytes_0 _ _) HL) as (s' & E & W & K & P & Q).
    rewrite app_nil_r in P. exists 0, s'. by split_and!.
Qed.

End DirectWrite.

(** ** Properties *)

(** C18.  A client that reads from an [IO_CACHE] with [my_b_read], [my_b_get] and
    [my_b_fill_cache], in any order and across buffer refills, never faults and gets exactly the bytes of
    the file from its position on, in order, up to the first error; [my_b_tell] is the position after the last byte. *)
Theorem io_cache_reads_file (ptr_bits : Z) `{IoFunctions} `{!ReadLaws ptr_bits} (s : st) (ops : list rop) :
  0 < ptr_bits <= 64 -> reading ptr_bits s -> Forall (rop_ok ptr_bits s) ops ->
  exists out done s', rrun ptr_bits s ops = Some (out, done, s') /\ reading ptr_bits s' /\ keeps s s'
    /\ out = slice (st_world s) (my_b_tell ptr_bits s) (Z.of_nat (length out))
    /\ (done = true -> my_b_tell ptr_bits s' = my_b_tell ptr_bits s + Z.of_nat (length out)).
Proof.
  intros Hw Hr Hok. revert s Hr Hok. induction ops as [|op ops IH]; intros s Hr Hok.
  { exists [], true, s. split_and!; try done. intros _. cbn. lia. }
  apply Forall_cons in Hok as [Hop Hok]. cbn [rrun].
  destruct (rstep_spec ptr_bits s op Hr Hop) as (o & s1 & -> & R & K & P). cbn [mbind option_bind].
  destruct o as [l|]; [|by exists [], false, s1].
  destruct P as [Hl Hp]. destruct (IH s1 R) as (out & dn & s2 & -> & R2 & K2 & O2 & T2).
  { eapply Forall_impl; [exact Hok|]. intros op'. by apply rop_ok_keeps. }
  cbn [mbind option_bind]. exists (l ++ out), dn, s2.
  rewrite !my_b_tell_reading in * by done. destruct K as (K0 & K1 & K3 & KF).
  assert (0 <= rpos (st_cache s)) by (destruct Hr; unfold rpos; lia).
  split; [done|]. split; [done|]. split; [by eapply keeps_trans|]. split.
  - rewrite length_app, Nat2Z.inj_add, <- slice_app by lia.
    rewrite KF, Hp in O2. by rewrite <- Hl, <- O2.
  - intros Hd. rewrite T2, length_app by done. lia.
Qed.

(** A cache over a file of five bytes, two of them in the buffer at 100. *)
Definition example_cache : IO_CACHE :=
  {| pos_in_file := 0; end_of_file := 5; read_pos := 100; read_end := 102; buffer := 100; request_pos := 100;
     write_buffer := 0; append_read_pos := 0; write_pos := 0; write_end := 0;
     current_pos := at_read; current_end := at_read; io_type := READ_CACHE; disk_writes := 0; io_file := 3;
     seek_not_done := 0; io_error := 0; buffer_length := 2; read_length := 2; io_myflags := 0;
     alloced_buffer := true |}.
Definition example_state : st :=
  {| st_mem := <[100 := 10]> (<[101 := 20]> (zeroed 200 4)); st_cache := example_cache;
     st_world := [10; 20; 30; 40; 50] |}.

Lemma example_reading : reading 32 example_state.
Proof.
  constructor; cbn; try done; try lia.
  split; [lia|]. repeat constructor; unfold is_byte; lia.
Defined.

Lemma io_cache_reads_file_witness :
  exists out done s', rrun 32 example_state [Get; Rd 200 3; Fill; Get] = Some (out, done, s')
    /\ reading 32 s' /\ keeps example_state s'
    /\ out = slice (st_world example_state) (my_b_tell 32 example_state) (Z.of_nat (length out))
    /\ (done = true -> my_b_tell 32 s' = my_b_tell 32 example_state + Z.of_nat (length out)).
Proof.
  apply (io_cache_reads_file 32 example_state [Get; Rd 200 3; Fill; Get]).
  - lia.
  - apply example_reading.
  - constructor; [done|]. constructor; [|by repeat constructor].
    split_and!; [lia|vm_compute; reflexivity| |right; vm_compute; congruence].
    apply mapped_insert, mapped_insert, (mapped_zeroed 200 3 4). lia.
Defined.

(** A cache that writes: one byte is in the file, the buffer of four bytes at 100 is empty. *)
Definition example_wstate : st :=
  {| st_mem := zeroed 100 200;
     st_cache := {| pos_in_file := 1; end_of_file := 1; read_pos := 0; read_end := 0; buffer := 0;
       request_pos := 100; write_buffer := 100; append_read_pos := 0; write_pos := 100; write_end := 104;
       current_pos := at_write; current_end := at_write; io_type := WRITE_CACHE; disk_writes := 0;
       io_file := 3; seek_not_done := 0; io_error := 0; buffer_length := 4; read_length := 4;
       io_myflags := 0; alloced_buffer := true |};
     st_world := [1] |}.

Lemma example_writing : writing 32 example_wstate.
Proof. constructor; cbn; try done; try lia. by apply (mapped_zeroed 100 4 200). Defined.

Lemma example_full :
  writing 32 (with_cache (set_write_pos 104 (st_cache example_wstate)) example_wstate).
Proof. constructor; cbn; try done; try lia. by apply (mapped_zeroed 100 4 200). Defined.

(** C19.  A client writes to an [IO_CACHE] with [my_b_write] and [my_b_write_byte], in any order, up to the first failure
    that is reported to it or the first flush that fails in [my_b_write_byte], which reports nothing.  Until then nothing
    faults and no memory outside of the buffer changes; if no call reported a failure, the
    file and the waiting bytes together are the old ones followed by the bytes written, in order, and [my_b_tell] is their
    number.  If a flush fails unreported, the operation is a [my_b_write_byte] at a full buffer and no failure was
    reported before. *)
Theorem io_cache_writes_append (ptr_bits : Z) `{IoFunctions} `{!WriteLaws ptr_bits} (s : st) (L : list Z) (ops : list wop)
    (ls : list (list Z)) :
  0 < ptr_bits <= 64 -> writing ptr_bits s -> stream s = Some L -> Forall2 (wop_bytes ptr_bits s) ops ls ->
  let safe := default (length ops) (unreported ptr_bits s ops) in
  exists done s', wrun ptr_bits s (take safe ops) = Some (done, s') /\ writing ptr_bits s' /\ wkeeps s s'
    /\ (done = true -> stream s' = Some (L ++ concat (take safe ls))
        /\ (Z.of_nat (length (L ++ concat (take safe ls))) < 2 ^ 64 ->
            my_b_tell ptr_bits s' = Z.of_nat (length (L ++ concat (take safe ls)))))
    /\ (forall k, unreported ptr_bits s ops = Some k -> done = true /\ (exists chr, ops !! k = Some (Wb chr))
        /\ write_pos (st_cache s') = write_end (st_cache s') /\ exists r s'', _my_b_write s' 0 0 = Some (r, s'') /\ r <> 0).
Proof.
  intros Hpb. revert s L ls. induction ops as [|op ops IH]; intros s L ls Hw HL Hops.
  { inversion Hops. exists true, s. split_and!; try done. intros _. cbn. rewrite app_nil_r. split; [done|]. by apply my_b_tell_writing. }
  inversion Hops as [|? l ? ls' Hop Hrest]. subst.
  destruct (lost s op) eqn:Hf.
  { destruct op as [|chr]; [done|]. cbn [lost] in Hf. cbn [unreported]. rewrite Hf. cbn. exists true, s. split_and!; try done.
    - intros _. rewrite app_nil_r. split; [done|]. by apply my_b_tell_writing.
    - intros k [= <-]. split_and!; [done|by exists chr|by eapply flush_fails_full..]. }
  destruct (wstep_spec ptr_bits s op ops l L Hw HL Hop) as (ok & s1 & W1 & K1 & P1 & -> & Hrun); [done|].
  destruct ok; [|exists false, s1; cbn -[wrun]; by rewrite Hrun].
  destruct (IH s1 (L ++ l) ls' W1 (P1 eq_refl)) as (dn & s2 & E2 & W2 & K2 & P2 & U2).
  { eapply Forall2_impl; [exact Hrest|]. intros op' l'. by apply wop_bytes_keeps. }
  exists dn, s2. replace (default _ (S <$> _)) with (S (default (length ops) (unreported ptr_bits s1 ops))) by by destruct (unreported _ _ _).
  cbn [take concat]. rewrite Hrun, app_assoc. split_and!; try done; [by eapply wkeeps_trans|].
  intros k. destruct (unreported ptr_bits s1 ops) as [k'|]; [|done]. intros [= <-]. by apply U2.
Qed.

#[local] Instance full_write_laws : WriteLaws (H := full_io) 32.
Proof.
  constructor; cbn.
  - intros s B n l L Hw _ HL. exists (-1), s. by split_and!.
  - intros s L Hw HL. exists (-1), s. by split_and!.
Defined.

(** On a working disk, and on a full one, where the fifth byte finds the buffer full. *)
Lemma io_cache_writes_append_witness :
  (unreported 32 example_wstate [Wb 7; Wr 200 2; Wb 9] = None
   /\ exists done s', wrun 32 example_wstate [Wb 7; Wr 200 2; Wb 9] = Some (done, s') /\ writing 32 s'
    /\ wkeeps example_wstate s'
    /\ (done = true -> stream s' = Some ([1] ++ concat [[7]; [0; 0]; [9]])
        /\ (Z.of_nat (length ([1] ++ concat [[7]; [0; 0]; [9]])) < 2 ^ 64 ->
            my_b_tell 32 s' = Z.of_nat (length ([1] ++ concat [[7]; [0; 0]; [9]])))))
  /\ unreported (H := full_io) 32 example_wstate [Wb 1; Wb 2; Wr 200 2; Wb 3; Wb 4] = Some 3%nat
  /\ exists s', wrun (H := full_io) 32 example_wstate [Wb 1; Wb 2; Wr 200 2] = Some (true, s') /\ writing 32 s'
    /\ stream s' = Some [1; 1; 2; 0; 0].
Proof.
  split; split; [reflexivity| |reflexivity|].
  - destruct (io_cache_writes_append 32 example_wstate [1] [Wb 7; Wr 200 2; Wb 9] [[7]; [0; 0]; [9]]) as (dn & s' & E & W & K & P & _);
      [lia|apply example_writing|reflexivity|repeat constructor; cbn; try lia; unfold is_byte; lia|]. exists dn, s'. by split_and!.
  - destruct (io_cache_writes_append (H := full_io) 32 example_wstate [1] [Wb 1; Wb 2; Wr 200 2; Wb 3; Wb 4] [[1]; [2]; [0; 0]; [3]; [4]])
      as (dn & s' & E & W & K & P & U);
      [lia|apply example_writing|reflexivity|repeat constructor; cbn; try lia; unfold is_byte; lia|].
    destruct (U 3%nat eq_refl) as [-> _]. exists s'. split; [exact E|]. split; [exact W|]. by apply (P eq_refl).
Defined.

(** [my_b_write_byte] ignores the result of the flush: when the buffer is full and the flush
    fails and leaves it full, the byte is stored one past the end of the buffer, or the write faults, the
    cache is no longer well formed, and the value of the macro is the same as on success. *)
Theorem write_byte_unchecked (ptr_bits : Z) `{IoFunctions} (s s' : st) (r chr : Z) :
  write_pos (st_cache s) = write_end (st_cache s) -> _my_b_write s 0 0 = Some (r, s') ->
  writing ptr_bits s' -> write_pos (st_cache s') = write_end (st_cache s') ->
  match my_b_write_byte ptr_bits s chr with
  | None => st_mem s' !! write_end (st_cache s') = None
  | Some (v, s'') => v = u8 chr /\ st_mem s'' = <[write_end (st_cache s') := u8 chr]> (st_mem s')
                     /\ ~ writing ptr_bits s''
  end.
Proof.
  intros Hfull Hfl Hw Hfull'. unfold my_b_write_byte. rewrite Hfull, Z.ltb_irrefl, Hfl.
  cbn [mbind option_bind]. unfold put_byte, store8. rewrite Hfull'.
  destruct (st_mem s' !! write_end (st_cache s')) eqn:Hm; [|done]. cbn [mbind option_bind].
  split; [done|]. split; [done|]. intros [G1 G2 G3 G4 G5 G6 G7]. cbn in *.
  destruct Hw as [W1 W2 W3 W4 W5 W6 W7]. rewrite uwrap_small in G3 by lia. lia.
Qed.

Lemma write_byte_unchecked_witness :
  match my_b_write_byte (H := full_io) 32 (with_cache (set_write_pos 104 (st_cache example_wstate)) example_wstate) 7 with
  | None => st_mem example_wstate !! 104 = None
  | Some (v, s'') => v = 7 /\ st_mem s'' = <[104 := 7]> (st_mem example_wstate) /\ ~ writing 32 s''
  end.
Proof.
  apply (write_byte_unchecked (H := full_io) 32
    (with_cache (set_write_pos 104 (st_cache example_wstate)) example_wstate)
    (with_cache (set_write_pos 104 (st_cache example_wstate)) example_wstate) (-1) 7).
  - reflexivity.
  - reflexivity.
  - apply example_full.
  - reflexivity.
Defined.
