(* ===== verification/Pthread.v ===== *)
(** * Portable threads (my_pthread.h)

    The shared counters of my_pthread.h as programs of atomic instructions with a step relation over
    the interleavings of any number of threads, and the deadlines of timed waits. *)
From S2P Require Import Prelude.

(** ** Shared counters *)

Module Counter.

(** What one thread does in one atomic step: take or release the mutex of the
    macro, read the counter into a register, write the register plus a constant back, or an
    interlocked addition. *)
Inductive instr := ILock | IUnlock | ILoad | IStore (c : Z) | IInterlocked (c : Z).

(** The macros; [win] is [_WIN32].  [V++] is a read followed by a write.  The interlocked functions take a [long], of 32
    bits on Windows, so [C] is converted, in [thread_safe_sub] before it is negated as well. *)
Section Macros.
Context (win SAFE_STATISTICS : bool).

Definition add_to (c : Z) : list instr := [ILoad; IStore c].

Definition thread_safe_increment : list instr :=
  if win then [IInterlocked 1] else ILock :: add_to 1 ++ [IUnlock].
Definition thread_safe_decrement : list instr :=
  if win then [IInterlocked (-1)] else ILock :: add_to (-1) ++ [IUnlock].
Definition thread_safe_add (C : Z) : list instr :=
  if win then [IInterlocked (s32 C)] else ILock :: add_to C ++ [IUnlock].
Definition thread_safe_sub (C : Z) : list instr :=
  if win then [IInterlocked (s32 (- s32 C))] else ILock :: add_to (- C) ++ [IUnlock].

Definition statistic_increment : list instr := if SAFE_STATISTICS then thread_safe_increment else add_to 1.
Definition statistic_decrement : list instr := if SAFE_STATISTICS then thread_safe_decrement else add_to (-1).
Definition statistic_add (C : Z) : list instr := if SAFE_STATISTICS then thread_safe_add C else add_to C.
Definition statistic_sub (C : Z) : list instr := if SAFE_STATISTICS then thread_safe_sub C else add_to (- C).

Definition status_var_increment : list instr := add_to 1.
Definition status_var_decrement : list instr := add_to (-1).
Definition status_var_add (C : Z) : list instr := add_to C.
Definition status_var_sub (C : Z) : list instr := add_to (- C).

(** The updates of a client, and the code the macros expand to. *)
Inductive update := Increment | Decrement | Add (C : Z) | Sub (C : Z).

Definition amount (u : update) : Z :=
  match u with Increment => 1 | Decrement => -1 | Add C => C | Sub C => - C end.
Definition thread_safe (u : update) : list instr :=
  match u with
  | Increment => thread_safe_increment | Decrement => thread_safe_decrement
  | Add C => thread_safe_add C | Sub C => thread_safe_sub C
  end.
Definition statistic (u : update) : list instr :=
  match u with
  | Increment => statistic_increment | Decrement => statistic_decrement
  | Add C => statistic_add C | Sub C => statistic_sub C
  end.
End Macros.

(** A thread is the code it has left and its register. *)
Record thread := { code : list instr; reg : Z }.
Record config := { V : Z; owner : option nat; threads : list thread }.

Definition start (v : Z) (progs : list (list instr)) : config :=
  {| V := v; owner := None; threads := (fun p => {| code := p; reg := 0 |}) <$> progs |}.

(** An interlocked addition to the counter through a [long*]: to its low 32 bits. *)
Definition interlocked (v c : Z) : Z := v / 2 ^ 32 * 2 ^ 32 + u32 (v + c).

(** One step of thread [i], on an unsigned counter of [w] bits. *)
Inductive step (w : Z) : config -> config -> Prop :=
| step_lock v ts i p r :
    ts !! i = Some {| code := ILock :: p; reg := r |} ->
    step w {| V := v; owner := None; threads := ts |}
      {| V := v; owner := Some i; threads := <[i := {| code := p; reg := r |}]> ts |}
| step_unlock v ts i p r :
    ts !! i = Some {| code := IUnlock :: p; reg := r |} ->
    step w {| V := v; owner := Some i; threads := ts |}
      {| V := v; owner := None; threads := <[i := {| code := p; reg := r |}]> ts |}
| step_load v o ts i p r :
    ts !! i = Some {| code := ILoad :: p; reg := r |} ->
    step w {| V := v; owner := o; threads := ts |}
      {| V := v; owner := o; threads := <[i := {| code := p; reg := v |}]> ts |}
| step_store v o ts i c p r :
    ts !! i = Some {| code := IStore c :: p; reg := r |} ->
    step w {| V := v; owner := o; threads := ts |}
      {| V := uwrap w (r + c); owner := o; threads := <[i := {| code := p; reg := r |}]> ts |}
| step_interlocked v o ts i c p r :
    ts !! i = Some {| code := IInterlocked c :: p; reg := r |} ->
    step w {| V := v; owner := o; threads := ts |}
      {| V := interlocked v c; owner := o; threads := <[i := {| code := p; reg := r |}]> ts |}.

Definition finished (s : config) : Prop := Forall (fun t => code t = []) (threads s).
Definition reachable (w : Z) (v : Z) (progs : list (list instr)) (s : config) : Prop :=
  rtc (step w) (start v progs) s.

(** The work left: every step makes it smaller. *)
Definition work (s : config) : nat := sum_list ((fun t => length (code t)) <$> threads s).

(** What the code of a thread still adds to the counter. *)
Definition adds (i : instr) : Z := match i with IStore c | IInterlocked c => c | _ => 0 end.
Definition sum_of {A} (f : A -> Z) : list A -> Z := foldr (fun a n => f a + n) 0.
Definition pending (ts : list thread) : Z := sum_of (fun t => sum_of adds (code t)) ts.

(** ** Lemmas *)

Lemma sum_of_cons {A} (f : A -> Z) (a : A) (l : list A) : sum_of f (a :: l) = f a + sum_of f l.
Proof. reflexivity. Qed.

Lemma sum_insert {A} (f : A -> Z) (l : list A) : forall i x y, l !! i = Some x ->
  sum_of f (<[i := y]> l) = sum_of f l - f x + f y.
Proof.
  induction l as [|a l IH]; intros i x y; [done|]. destruct i as [|i]; intros Hx.
  - injection Hx as ->. change (<[0%nat := y]> (x :: l)) with (y :: l). rewrite !sum_of_cons. lia.
  - change (<[S i := y]> (a :: l)) with (a :: <[i := y]> l). rewrite !sum_of_cons, (IH i x y Hx). lia.
Qed.

Lemma sum_of_app {A} (f : A -> Z) (l k : list A) : sum_of f (l ++ k) = sum_of f l + sum_of f k.
Proof. induction l as [|a l IH]; [done|]. cbn [app]. rewrite !sum_of_cons, IH. lia. Qed.

Lemma work_insert (ts : list thread) (i : nat) (x y : thread) : ts !! i = Some x ->
  length (code x) = S (length (code y)) ->
  sum_list ((fun t => length (code t)) <$> ts) = S (sum_list ((fun t => length (code t)) <$> <[i := y]> ts)).
Proof.
  intros Hx Hl. revert i Hx. induction ts as [|t ts IH]; intros i Hx; [done|]. destruct i as [|i].
  - injection Hx as ->. cbn. lia.
  - change (<[S i := y]> (t :: ts)) with (t :: <[i := y]> ts). specialize (IH i Hx).
    rewrite !fmap_cons. cbn [sum_list sum_list_with]. unfold sum_list in IH. cbn. unfold sum_list. lia.
Qed.

(** Every run is finite. *)
Lemma step_work (w : Z) (s s' : config) : step w s s' -> work s = S (work s').
Proof. destruct 1; unfold work; cbn [threads]; by eapply work_insert. Qed.

(** *** The invariant of the thread safe macros *)

Section Safe.
Context (win : bool) (w : Z) (width : win = true -> 32 <= w).

(** The bits that an update reaches. *)
Definition bits : Z := if win then 32 else w.

(** Code between two updates. *)
Inductive outside : list instr -> Prop :=
| out_nil : outside []
| out_locked c p : win = false -> outside p -> outside (ILock :: ILoad :: IStore c :: IUnlock :: p)
| out_interlocked c p : win = true -> outside p -> outside (IInterlocked c :: p).

(** Where a thread is, when the counter is [v]; the flag tells whether it holds the mutex. *)
Inductive phase (v : Z) : bool -> thread -> Prop :=
| ph_out p r : outside p -> phase v false {| code := p; reg := r |}
| ph_load c p r : outside p -> phase v true {| code := ILoad :: IStore c :: IUnlock :: p; reg := r |}
| ph_store c p : outside p -> phase v true {| code := IStore c :: IUnlock :: p; reg := v |}
| ph_unlock p r : outside p -> phase v true {| code := IUnlock :: p; reg := r |}.

Record inv (v0 total : Z) (s : config) : Prop := {
  inv_phase : forall i t, threads s !! i = Some t -> phase (V s) (bool_decide (owner s = Some i)) t;
  inv_owner : forall i, owner s = Some i -> win = false /\ is_Some (threads s !! i);
  inv_range : 0 <= V s < 2 ^ w;
  inv_high : win = true -> V s / 2 ^ 32 = v0 / 2 ^ 32;
  inv_sum : uwrap bits (V s + pending (threads s)) = uwrap bits total }.

Lemma outside_app (p q : list instr) : outside p -> outside q -> outside (p ++ q).
Proof. induction 1; intros Hq; cbn; [done|..]; constructor; auto. Qed.

Lemma thread_safe_outside (u : update) : outside (thread_safe win u).
Proof. destruct u, win eqn:E; cbn; repeat constructor; done. Qed.

Lemma phase_false (v v' : Z) (t : thread) : phase v false t -> phase v' false t.
Proof. inversion 1. by constructor. Qed.

Lemma outside_head (x : instr) (p : list instr) : outside (x :: p) ->
  (exists c q, x = ILock /\ win = false /\ p = ILoad :: IStore c :: IUnlock :: q /\ outside q)
  \/ (exists c, x = IInterlocked c /\ win = true /\ outside p).
Proof. inversion 1; subst; eauto 10. Qed.

Lemma phase_other (s : config) (v0 total : Z) (i j : nat) (t : thread) : inv v0 total s ->
  owner s = Some i -> threads s !! j = Some t -> i <> j -> phase (V s) false t.
Proof.
  intros Hinv Ho Hj Hne. pose proof (inv_phase _ _ _ Hinv j t Hj) as Hp.
  rewrite bool_decide_eq_false_2 in Hp; [done|]. rewrite Ho. congruence.
Qed.

(** A thread whose next instruction reads or writes the counter holds the mutex. *)
Lemma phase_held (v : Z) (b : bool) (x : instr) (p : list instr) (r : Z) :
  phase v b {| code := x :: p; reg := r |} -> x = ILoad \/ (exists c, x = IStore c) \/ x = IUnlock -> b = true.
Proof.
  inversion 1 as [? ? Hout| | |]; subst; try done.
  apply outside_head in Hout as [(c & q & -> & _) | (c & -> & _)]; intros [?|[[? ?]|?]]; done.
Qed.

Lemma pending_insert (ts : list thread) (i : nat) (x : instr) (p : list instr) (r r' : Z) :
  ts !! i = Some {| code := x :: p; reg := r |} ->
  pending (<[i := {| code := p; reg := r' |}]> ts) = pending ts - adds x.
Proof. intros Hi. unfold pending. rewrite (sum_insert _ _ _ _ _ Hi). cbn [code]. rewrite sum_of_cons. lia. Qed.

Lemma sum_step (b total v c k : Z) : uwrap b (v + k) = uwrap b total ->
  uwrap b (uwrap b (v + c) + (k - c)) = uwrap b total.
Proof.
  intros <-. unfold uwrap. rewrite Zplus_mod_idemp_l. f_equal. lia.
Qed.

Lemma interlocked_spec (v c : Z) : interlocked v c / 2 ^ 32 = v / 2 ^ 32 /\ u32 (interlocked v c) = u32 (v + c)
  /\ forall k, u32 (interlocked v c + k) = u32 (u32 (v + c) + k).
Proof.
  unfold interlocked. pose proof (uwrap_range 32 (v + c) ltac:(lia)) as Hr. set (x := u32 (v + c)) in *. split_and!.
  - rewrite Z.div_add_l, (Z.div_small x) by lia. lia.
  - unfold uwrap. rewrite Z.add_comm, Z_mod_plus_full. by apply Z.mod_small.
  - intros k. unfold uwrap. replace (v / 2 ^ 32 * 2 ^ 32 + x + k) with (x + k + v / 2 ^ 32 * 2 ^ 32) by lia. by rewrite Z_mod_plus_full.
Qed.

Lemma interlocked_range (v c : Z) : 32 <= w -> 0 <= v < 2 ^ w -> 0 <= interlocked v c < 2 ^ w.
Proof.
  intros Hw Hv. unfold interlocked. pose proof (uwrap_range 32 (v + c) ltac:(lia)) as Hr.
  assert (Hp : 2 ^ w = 2 ^ (w - 32) * 2 ^ 32) by (rewrite <- Z.pow_add_r by lia; f_equal; lia).
  assert (0 <= v / 2 ^ 32) by (apply Z.div_pos; lia).
  assert (v / 2 ^ 32 < 2 ^ (w - 32)) by (apply Z.div_lt_upper_bound; lia). nia.
Qed.

(** The phases after a step of thread [i] that ends with the owner [o'] and the value [v']. *)
Lemma phases_insert (ts : list thread) (i : nat) (t : thread) (o' : option nat) (v' : Z) :
  phase v' (bool_decide (o' = Some i)) t ->
  (forall j t', j <> i -> ts !! j = Some t' -> phase v' (bool_decide (o' = Some j)) t') ->
  forall j t', <[i := t]> ts !! j = Some t' -> phase v' (bool_decide (o' = Some j)) t'.
Proof.
  intros Hi Ho j t'. destruct (decide (i = j)) as [->|Hne].
  - intros Hj. assert (j < length ts)%nat by (apply lookup_lt_Some in Hj; by rewrite length_insert in Hj).
    rewrite list_lookup_insert_eq in Hj by done. by injection Hj as <-.
  - rewrite list_lookup_insert_ne by done. by apply Ho.
Qed.

Lemma step_inv (v0 total : Z) (s s' : config) : 0 <= w -> inv v0 total s -> step w s s' -> inv v0 total s'.
Proof.
  intros Hw0 Hinv Hst. pose proof Hinv as [Hph How Hrange Hhigh Hsum].
  destruct Hst as [v ts i p r Hi|v ts i p r Hi|v o ts i p r Hi|v o ts i c p r Hi|v o ts i c p r Hi];
    cbn [V owner threads] in *; pose proof (Hph i _ Hi) as Hpi.
  - inversion Hpi as [? ? Hout| | |]; subst.
    apply outside_head in Hout as [(c & q & _ & Hw & -> & Hq) | (c & [=] & _)].
    constructor; cbn [V owner threads]; try done.
    + apply phases_insert; [rewrite bool_decide_eq_true_2 by done; by constructor|].
      intros j t' Hne Hj. rewrite bool_decide_eq_false_2 by congruence. by apply (Hph j).
    + intros j [= <-]. split; [done|]. apply list_lookup_insert_is_Some. eauto.
    + rewrite (pending_insert _ _ _ _ _ _ Hi). by rewrite Z.sub_0_r.
  - rewrite bool_decide_eq_true_2 in Hpi by done. inversion Hpi; subst.
    constructor; cbn [V owner threads]; try done.
    + apply phases_insert; [by constructor|]. intros j t' Hne Hj. rewrite bool_decide_eq_false_2 by done.
      eapply (phase_other _ _ _ i j t' Hinv); eauto.
    + rewrite (pending_insert _ _ _ _ _ _ Hi). by rewrite Z.sub_0_r.
  - pose proof (phase_held _ _ _ _ _ Hpi (or_introl eq_refl)) as Hb. rewrite Hb in Hpi.
    apply bool_decide_eq_true in Hb as ->. inversion Hpi; subst.
    constructor; cbn [V owner threads]; try done.
    + apply phases_insert; [rewrite bool_decide_eq_true_2 by done; by constructor|].
      intros j t' Hne Hj. by apply (Hph j).
    + intros j Hj. destruct (How j Hj). split; [done|]. by apply list_lookup_insert_is_Some.
    + rewrite (pending_insert _ _ _ _ _ _ Hi). by rewrite Z.sub_0_r.
  - assert (Hb : bool_decide (o = Some i) = true) by (eapply phase_held; [exact Hpi|eauto]).
    rewrite Hb in Hpi. apply bool_decide_eq_true in Hb as ->. inversion Hpi; subst.
    constructor; cbn [V owner threads]; try done.
    + apply phases_insert; [rewrite bool_decide_eq_true_2 by done; by constructor|].
      intros j t' Hne Hj. rewrite bool_decide_eq_false_2 by congruence.
      eapply phase_false, (phase_other _ _ _ i j t' Hinv); eauto.
    + intros j Hj. destruct (How j Hj). split; [done|]. by apply list_lookup_insert_is_Some.
    + by apply uwrap_range.
    + intros Hw. destruct (How i eq_refl). congruence.
    + destruct (How i eq_refl) as [Hw _]. unfold bits in *. rewrite Hw in *. rewrite (pending_insert _ _ _ _ _ _ Hi). by apply sum_step.
  - inversion Hpi as [? ? Hout| | |]; subst.
    apply outside_head in Hout as [(c' & q & [=] & _) | (c' & _ & Hw & Hp)].
    assert (o = None) as -> by (destruct o as [j|]; [destruct (How j eq_refl); congruence|done]).
    constructor; cbn [V owner threads]; try done.
    + apply phases_insert; [by constructor|]. intros j t' Hne Hj.
      eapply phase_false. apply (Hph j t' Hj).
    + apply interlocked_range; auto.
    + intros _. destruct (interlocked_spec v c) as [-> _]. auto.
    + unfold bits in *. rewrite Hw in *. rewrite (pending_insert _ _ _ _ _ _ Hi). destruct (interlocked_spec v c) as (_ & _ & ->).
      by apply sum_step.
Qed.

(** No deadlock: while there is code left, some thread can step. *)
Lemma inv_progress (v0 total : Z) (s : config) : inv v0 total s -> ~ finished s -> exists s', step w s s'.
Proof.
  intros Hinv Hnf. destruct s as [v o ts]. destruct o as [i|].
  - destruct (inv_owner _ _ _ Hinv i eq_refl) as [Hw [t Ht]]. pose proof (inv_phase _ _ _ Hinv i t Ht) as Hp.
    cbn [owner V threads] in *. rewrite bool_decide_eq_true_2 in Hp by done. inversion Hp; subst; eexists.
    + by eapply step_load.
    + by eapply step_store.
    + by eapply step_unlock.
  - assert (Hex : exists i t, ts !! i = Some t /\ code t <> []).
    { apply not_Forall_Exists in Hnf; [|intros t; destruct (code t); [by left|by right]].
      apply Exists_exists in Hnf as (t & Hin & Hne). apply list_elem_of_lookup in Hin as [i Hi]. eauto. }
    destruct Hex as (i & t & Hi & Hne). pose proof (inv_phase _ _ _ Hinv i t Hi) as Hp.
    cbn [owner V threads] in *. rewrite bool_decide_eq_false_2 in Hp by done.
    inversion Hp as [p r Hout| | |]; subst. destruct p as [|x p]; [done|].
    apply outside_head in Hout as [(c & q & -> & _) | (c & -> & _)]; eexists.
    + by eapply step_lock.
    + by eapply step_interlocked.
Qed.

Lemma outside_updates (us : list update) : outside (us ≫= thread_safe win).
Proof. induction us as [|u us IH]; [constructor|]. cbn. apply outside_app; [apply thread_safe_outside|done]. Qed.

(** A conversion to [long] does not show in the bits that are reached. *)
Lemma adds_update (u : update) (x : Z) : uwrap bits (sum_of adds (thread_safe win u) + x) = uwrap bits (amount u + x).
Proof.
  assert (Hs : forall c y, u32 (s32 c + y) = u32 (c + y)).
  { intros c y. unfold swrap, uwrap. change (2 ^ (32 - 1)) with 2147483648. change (2 ^ 32) with 4294967296.
    replace ((c + 2147483648) mod 4294967296 - 2147483648 + y) with ((c + 2147483648) mod 4294967296 + (y - 2147483648)) by lia.
    rewrite Zplus_mod_idemp_l. f_equal. lia. }
  unfold bits. destruct u as [| |C|C], win; cbn [thread_safe thread_safe_increment thread_safe_decrement thread_safe_add thread_safe_sub
    add_to app sum_of foldr adds amount]; rewrite ?Z.add_0_r, ?Z.add_0_l; try done.
  rewrite Hs. unfold uwrap. replace (- s32 C + x) with (x - s32 C) by lia. replace (- C + x) with (x - C) by lia.
  rewrite Zminus_mod, (Zminus_mod x C). specialize (Hs C 0). rewrite !Z.add_0_r in Hs. unfold uwrap in Hs. by rewrite Hs.
Qed.

Lemma pending_updates (us : list update) (x : Z) :
  uwrap bits (sum_of adds (us ≫= thread_safe win) + x) = uwrap bits (sum_of amount us + x).
Proof.
  revert x. induction us as [|u us IH]; intros x; [done|]. rewrite bind_cons, sum_of_app, sum_of_cons.
  rewrite <- !Z.add_assoc, adds_update. rewrite !(Z.add_comm (amount u)), <- !Z.add_assoc. apply IH.
Qed.

Lemma start_inv (v : Z) (clients : list (list update)) : 0 <= v < 2 ^ w ->
  inv v (v + sum_of (sum_of amount) clients) (start v ((fun us => us ≫= thread_safe win) <$> clients)).
Proof.
  intros Hv. constructor; cbn [V owner threads start]; try done.
  - intros i t. rewrite !list_lookup_fmap. destruct (clients !! i) as [us|]; [|done].
    intros [= <-]. constructor. apply outside_updates.
  - unfold pending. revert v Hv. enough (Hx : forall x, uwrap bits (x + sum_of (fun t => sum_of adds (code t))
        ((fun p => {| code := p; reg := 0 |}) <$> ((fun us => us ≫= thread_safe win) <$> clients)))
      = uwrap bits (x + sum_of (sum_of amount) clients)) by (intros v _; apply Hx).
    induction clients as [|us cl IH]; intros x; [done|].
    rewrite !fmap_cons, !sum_of_cons. cbn [code]. rewrite Z.add_assoc, IH.
    replace (x + _ + _) with (sum_of adds (us ≫= thread_safe win) + (x + sum_of (sum_of amount) cl)) by lia.
    rewrite pending_updates. f_equal. lia.
Qed.
End Safe.


(** *** The invariant of the counters without a lock, for increments *)

Inductive blocks : list instr -> Prop :=
| blk_nil : blocks []
| blk_add p : blocks p -> blocks (ILoad :: IStore 1 :: p).

(** A thread reads a value between the initial one and the number of stores done. *)
Inductive sphase (lo hi : Z) : thread -> Prop :=
| sp_out p r : blocks p -> sphase lo hi {| code := p; reg := r |}
| sp_store p r : blocks p -> lo <= r <= hi -> sphase lo hi {| code := IStore 1 :: p; reg := r |}.

Record sinv (v n : Z) (s : config) : Prop := {
  si_phase : Forall (sphase v (v + (n - pending (threads s)))) (threads s);
  si_done : 0 <= n - pending (threads s);
  si_V : v <= V s <= v + (n - pending (threads s));
  si_lower : pending (threads s) < n -> v + 1 <= V s }.

Lemma sphase_le (lo hi hi' : Z) (t : thread) : hi <= hi' -> sphase lo hi t -> sphase lo hi' t.
Proof. intros Hle [p r Hp|p r Hp Hr]; constructor; done || lia. Qed.

Lemma blocks_nonneg (p : list instr) : blocks p -> 0 <= sum_of adds p.
Proof. induction 1; rewrite ?sum_of_cons; cbn [adds]; [done|]. lia. Qed.

Lemma pending_nonneg (lo hi : Z) (ts : list thread) : Forall (sphase lo hi) ts -> 0 <= pending ts.
Proof.
  unfold pending. induction 1 as [|t ts Ht _ IH]; [done|]. rewrite sum_of_cons.
  destruct Ht as [p r Hp|p r Hp Hr]; cbn [code]; rewrite ?sum_of_cons; cbn [adds];
    pose proof (blocks_nonneg p Hp); lia.
Qed.

Lemma sinv_step (w v n : Z) (s s' : config) : 0 <= v -> v + n < 2 ^ w ->
  sinv v n s -> step w s s' -> sinv v n s'.
Proof.
  intros Hv Hn [Hph Hd HV Hlow] Hst.
  destruct Hst as [v0 ts i p r Hi|v0 ts i p r Hi|v0 o ts i p r Hi|v0 o ts i c p r Hi|v0 o ts i c p r Hi];
    cbn [V threads] in *; pose proof (Forall_lookup_1 _ _ _ _ Hph Hi) as Ht;
    inversion Ht as [? ? Hb|? ? Hb Hr]; subst; try (inversion Hb; fail).
  - inversion Hb as [|q Hq]; subst. pose proof (pending_insert ts i _ _ _ v0 Hi) as Hpe.
    cbn [adds] in Hpe. constructor; cbn [V threads]; rewrite ?Hpe, ?Z.sub_0_r; try done.
    apply Forall_insert; [done|]. constructor; [done|lia].
  - pose proof (pending_insert ts i _ _ _ r Hi) as Hpe. cbn [adds] in Hpe.
    set (hi := v + (n - pending ts)) in *. set (ts' := <[i := _]> ts) in *.
    assert (Hph' : Forall (sphase v (v + (n - pending ts'))) ts').
    { apply Forall_insert; [|by constructor].
      eapply Forall_impl; [exact Hph|]. intros t. apply sphase_le. lia. }
    pose proof (pending_nonneg _ _ _ Hph') as H0.
    constructor; cbn [V threads]; [done|lia|..]; rewrite uwrap_small by lia; lia.
Qed.

Lemma start_sinv (v : Z) (ns : list nat) :
  sinv v (sum_of Z.of_nat ns)
    (start v ((fun n => replicate n Increment ≫= statistic false false) <$> ns)).
Proof.
  assert (Hblk : forall n, blocks (replicate n Increment ≫= statistic false false)).
  { induction n as [|n IH]; [constructor|]. rewrite replicate_S, bind_cons. cbn. by constructor. }
  assert (Hpe : pending (threads (start v ((fun n => replicate n Increment ≫= statistic false false) <$> ns)))
                = sum_of Z.of_nat ns).
  { unfold pending. cbn [threads start]. induction ns as [|n ns IH]; [done|].
    rewrite !fmap_cons, !sum_of_cons, IH. f_equal. cbn [code]. clear IH. induction n as [|n IH]; [done|].
    rewrite replicate_S, bind_cons, sum_of_app, IH. cbn. lia. }
  constructor; rewrite ?Hpe; cbn [V start]; try lia.
  cbn [threads start]. rewrite !Forall_fmap. apply Forall_true. intros n. constructor. apply Hblk.
Qed.

Lemma finished_pending (s : config) : finished s -> pending (threads s) = 0.
Proof.
  unfold finished, pending. induction 1 as [|t ts Ht _ IH]; [done|]. by rewrite sum_of_cons, IH, Ht.
Qed.

Lemma reachable_inv (P : config -> Prop) (w v : Z) (progs : list (list instr)) (s : config) :
  P (start v progs) -> (forall s s', P s -> step w s s' -> P s') -> reachable w v progs s -> P s.
Proof. intros H0 Hs Hr. unfold reachable in Hr. induction Hr; eauto. Qed.

(** The run of a schedule, a list of thread numbers. *)
Definition exec (w : Z) (s : config) (i : nat) : option config :=
  t ← threads s !! i;
  match code t, owner s with
  | ILock :: p, None => Some {| V := V s; owner := Some i; threads := <[i := {| code := p; reg := reg t |}]> (threads s) |}
  | IUnlock :: p, Some j => if decide (i = j) then
      Some {| V := V s; owner := None; threads := <[i := {| code := p; reg := reg t |}]> (threads s) |} else None
  | ILoad :: p, o => Some {| V := V s; owner := o; threads := <[i := {| code := p; reg := V s |}]> (threads s) |}
  | IStore c :: p, o => Some {| V := uwrap w (reg t + c); owner := o; threads := <[i := {| code := p; reg := reg t |}]> (threads s) |}
  | IInterlocked c :: p, o => Some {| V := interlocked (V s) c; owner := o; threads := <[i := {| code := p; reg := reg t |}]> (threads s) |}
  | _, _ => None
  end.

Fixpoint schedule (w : Z) (s : config) (sch : list nat) : option config :=
  match sch with [] => Some s | i :: sch => s' ← exec w s i; schedule w s' sch end.

Lemma exec_step (w : Z) (s s' : config) (i : nat) : exec w s i = Some s' -> step w s s'.
Proof.
  unfold exec. destruct s as [v o ts]. cbn [V owner threads].
  destruct (ts !! i) as [[p r]|] eqn:Hi; [|done]. cbn [mbind option_bind code reg].
  destruct p as [|[| | |c|c] p]; [done|..]; destruct o as [j|]; try done; cbn [mbind option_bind].
  - intros [= <-]; by econstructor.
  - case_decide; [|done]. subst. intros [= <-]; by econstructor.
  - intros [= <-]; by econstructor.
  - intros [= <-]; by econstructor.
  - intros [= <-]; by econstructor.
  - intros [= <-]; by econstructor.
  - intros [= <-]; by econstructor.
  - intros [= <-]; by econstructor.
Qed.

Lemma schedule_rtc (w : Z) (sch : list nat) : forall s s', schedule w s sch = Some s' -> rtc (step w) s s'.
Proof.
  induction sch as [|i sch IH]; intros s s'; cbn [schedule]; [by intros [= <-]|].
  destruct (exec w s i) as [s1|] eqn:E; [|done]. cbn [mbind option_bind]. intros H.
  eapply rtc_l; [by eapply exec_step|]. by apply IH.
Qed.

(** ** Properties *)

(** C22.  The [thread_safe_*] macros lose no update: with any number of threads, each running any
    list of increments, decrements, additions and subtractions, every interleaving ends, no state is
    stuck, and at the end the mutex is free and the counter is the initial value plus the sum of all updates: with
    the mutex modulo the width of the counter, whatever it is; on Windows, where the functions work on a [long], in the low
    32 bits, with the others unchanged, hence exactly for a counter of 32 bits. *)
Theorem thread_safe_counter_exact (win : bool) (w v : Z) (clients : list (list update)) (s : config) :
  0 <= w -> (win = true -> 32 <= w) -> 0 <= v < 2 ^ w -> reachable w v ((fun us => us ≫= thread_safe win) <$> clients) s ->
  let total := sum_of (sum_of amount) clients in
  (finished s -> owner s = None /\ V s = if win then v / 2 ^ 32 * 2 ^ 32 + u32 (v + total) else uwrap w (v + total))
  /\ (finished s -> w = 32 -> V s = u32 (v + total))
  /\ (~ finished s -> exists s', step w s s')
  /\ (forall s', step w s s' -> work s = S (work s')).
Proof.
  intros Hw Hwin Hv Hr total.
  assert (Hinv : inv win w v (v + total) s).
  { eapply (reachable_inv (inv win w v _)); [by apply start_inv| |exact Hr]. intros. by eapply step_inv. }
  assert (Hfin : finished s -> owner s = None /\ V s = if win then v / 2 ^ 32 * 2 ^ 32 + u32 (v + total) else uwrap w (v + total)).
  { intros Hf. pose proof (inv_sum _ _ _ _ _ Hinv) as Hs. rewrite (finished_pending s Hf), Z.add_0_r in Hs. split.
    - destruct (owner s) as [i|] eqn:Ho; [exfalso|done].
      destruct (inv_owner _ _ _ _ _ Hinv i Ho) as [_ [t Ht]]. pose proof (inv_phase _ _ _ _ _ Hinv i t Ht) as Hp.
      rewrite Ho, bool_decide_eq_true_2 in Hp by done. pose proof (Forall_lookup_1 _ _ _ _ Hf Ht) as He.
      by inversion Hp; subst.
    - pose proof (inv_range _ _ _ _ _ Hinv). pose proof (inv_high _ _ _ _ _ Hinv) as Hh. unfold bits in Hs. destruct win.
      + rewrite <- Hh, <- Hs by done. unfold uwrap. pose proof (Z.div_mod (V s) (2 ^ 32) ltac:(lia)). lia.
      + by rewrite <- Hs, uwrap_small. }
  split; [exact Hfin|]. split; [|split; [by eapply inv_progress|apply step_work]].
  intros Hf ->. destruct (Hfin Hf) as [_ ->]. destruct win; [|done]. by rewrite (Z.div_small v) by lia.
Qed.

(** A wider counter loses the carry on Windows. *)
Lemma interlocked_carry_lost : exists s,
  reachable 64 (2 ^ 32 - 1) ((fun us => us ≫= thread_safe true) <$> [[Increment]]) s /\ finished s /\ V s = 0.
Proof.
  eexists. split; [apply (schedule_rtc 64 [0]%nat); reflexivity|]. split; [by repeat constructor|reflexivity].
Qed.

(** Without SAFE_STATISTICS, [n] unlocked [statistic_increment] of any number of threads
    leave the counter between one and [n] above its initial value, and updates are lost: two threads
    that increment once can end with one. *)
Theorem statistic_increment_bounds (w v : Z) (ns : list nat) (s : config) :
  0 <= v -> v + sum_of Z.of_nat ns < 2 ^ w -> 0 < sum_of Z.of_nat ns ->
  reachable w v ((fun n => replicate n Increment ≫= statistic false false) <$> ns) s -> finished s ->
  v + 1 <= V s <= v + sum_of Z.of_nat ns
  /\ (ns = [1; 1]%nat -> exists s', reachable w v ((fun n => replicate n Increment ≫= statistic false false) <$> ns) s'
      /\ finished s' /\ V s' = v + 1).
Proof.
  intros Hv Hn Hpos Hr Hf.
  assert (Hinv : sinv v (sum_of Z.of_nat ns) s).
  { eapply (reachable_inv (sinv v _)); [apply start_sinv| |exact Hr]. intros. by eapply sinv_step. }
  destruct Hinv as [_ _ HV Hlow]. rewrite (finished_pending s Hf) in *. split; [lia|].
  intros ->. change (sum_of Z.of_nat [1; 1]%nat) with 2 in *. eexists. split.
  - apply (schedule_rtc w [0; 1; 0; 1]%nat). reflexivity.
  - split; [by repeat constructor|]. cbn [V]. cbn. apply uwrap_small. lia.
Qed.

Lemma thread_safe_counter_exact_witness :
  (exists s, reachable 16 10 ((fun us => us ≫= thread_safe false) <$> [[Increment]; [Sub 3]]) s /\ finished s /\ V s = 8)
  /\ exists s, reachable 32 10 ((fun us => us ≫= thread_safe true) <$> [[Increment]; [Sub (2 ^ 32 + 3)]]) s /\ finished s /\ V s = 8.
Proof.
  split.
  - pose (s := {| V := 8; owner := None; threads := [{| code := []; reg := 10 |}; {| code := []; reg := 11 |}] |}).
    assert (Hr : reachable 16 10 ((fun us => us ≫= thread_safe false) <$> [[Increment]; [Sub 3]]) s)
      by (apply (schedule_rtc 16 [0; 0; 0; 0; 1; 1; 1; 1]%nat); reflexivity).
    assert (Hf : finished s) by (repeat constructor). exists s. split; [exact Hr|]. split; [exact Hf|].
    apply (thread_safe_counter_exact false 16 10 [[Increment]; [Sub 3]]) in Hr; [|lia|done|lia].
    destruct Hr as (Hr & _). exact (proj2 (Hr Hf)).
  - pose (s := {| V := 8; owner := None; threads := [{| code := []; reg := 0 |}; {| code := []; reg := 0 |}] |}).
    assert (Hr : reachable 32 10 ((fun us => us ≫= thread_safe true) <$> [[Increment]; [Sub (2 ^ 32 + 3)]]) s)
      by (apply (schedule_rtc 32 [0; 1]%nat); reflexivity).
    assert (Hf : finished s) by (repeat constructor). exists s. split; [exact Hr|]. split; [exact Hf|].
    apply (thread_safe_counter_exact true 32 10 [[Increment]; [Sub (2 ^ 32 + 3)]]) in Hr; [|lia|lia|lia].
    destruct Hr as (_ & Hr & _). exact (Hr Hf eq_refl).
Defined.

Lemma statistic_increment_bounds_witness :
  exists s, reachable 32 5 ((fun n => replicate n Increment ≫= statistic false false) <$> [1; 1]%nat) s
    /\ finished s /\ 5 + 1 <= V s <= 5 + 2.
Proof.
  eexists {| V := 7; owner := None; threads := [{| code := []; reg := 5 |}; {| code := []; reg := 6 |}] |}.
  assert (Hr : reachable 32 5 ((fun n => replicate n Increment ≫= statistic false false) <$> [1; 1]%nat)
    {| V := 7; owner := None; threads := [{| code := []; reg := 5 |}; {| code := []; reg := 6 |}] |}).
  { apply (schedule_rtc 32 [0; 0; 1; 1]%nat). reflexivity. }
  assert (Hf : finished {| V := 7; owner := None; threads := [{| code := []; reg := 5 |}; {| code := []; reg := 6 |}] |})
    by (repeat constructor).
  split; [exact Hr|]. split; [exact Hf|].
  apply (statistic_increment_bounds 32 5 [1; 1]%nat _ ltac:(lia) ltac:(reflexivity) ltac:(reflexivity) Hr Hf).
Defined.

End Counter.

(** ** Deadlines *)

Module Deadline.

(** *** Windows: 100 ns units, and a limit in milliseconds in a [long] of 32 bits *)

Record win_timespec := { i64 : Z; max_timeout_msec : Z }.

(** [now] is what [GetSystemTimeAsFileTime] stores; [SEC] is an [ulong], [NSEC] an [ulonglong]. *)
Definition win_set_timespec (now SEC : Z) : win_timespec :=
  {| i64 := s64 (now + SEC * 10000000); max_timeout_msec := s32 (u32 (SEC * 1000)) |}.
Definition win_set_timespec_nsec (now NSEC : Z) : win_timespec :=
  {| i64 := s64 (now + Z.quot (s64 NSEC) 100); max_timeout_msec := s32 (NSEC / 1000000) |}.
Definition win_cmp_timespec (TS1 TS2 : win_timespec) : Z :=
  if i64 TS1 >? i64 TS2 then 1 else if i64 TS1 <? i64 TS2 then -1 else 0.

(** *** The other platforms

    [time_t] and [long] are signed, of the widths below, and are the types of the two fields; the casts are to these types.
    With HAVE_TIMESPEC_TS_SEC the fields are [ts_sec] and [ts_nsec]: set_timespec is another one, and the others, where the
    conversions are implicit, are the same. *)

Record timespec := { tv_sec : Z; tv_nsec : Z }.

Section Posix.
Context (time_bits long_bits : Z).

(** [gettimeofday] gives the seconds and microseconds, [my_getsystime] units of 100 ns. *)
Definition set_timespec (sec usec SEC : Z) : timespec :=
  {| tv_sec := swrap time_bits (sec + swrap time_bits SEC); tv_nsec := swrap long_bits (usec * 1000) |}.
Definition set_timespec_ts (time SEC : Z) : timespec :=
  {| tv_sec := swrap time_bits (time + swrap time_bits SEC); tv_nsec := 0 |}.
Definition set_timespec_nsec (my_getsystime NSEC : Z) : timespec :=
  let now := u64 (my_getsystime + NSEC / 100) in
  {| tv_sec := swrap time_bits (now / 10000000); tv_nsec := swrap long_bits (now mod 10000000 * 100 + NSEC mod 100) |}.
End Posix.
Definition cmp_timespec (TS1 TS2 : timespec) : Z :=
  if (tv_sec TS1 >? tv_sec TS2) || ((tv_sec TS1 =? tv_sec TS2) && (tv_nsec TS1 >? tv_nsec TS2)) then 1
  else if (tv_sec TS1 <? tv_sec TS2) || ((tv_sec TS1 =? tv_sec TS2) && (tv_nsec TS1 <? tv_nsec TS2)) then -1
  else 0.

(** The instant of a deadline, in nanoseconds. *)
Definition instant (t : timespec) : Z := tv_sec t * 1000000000 + tv_nsec t.
Definition normal (t : timespec) : Prop := 0 <= tv_nsec t < 1000000000.

Lemma cmp_timespec_instant (t1 t2 : timespec) : normal t1 -> normal t2 ->
  cmp_timespec t1 t2 = Z.sgn (instant t1 - instant t2).
Proof.
  unfold cmp_timespec, instant, normal. intros H1 H2. rewrite !Z.gtb_ltb.
  destruct (Z.ltb_spec (tv_sec t2) (tv_sec t1)), (Z.eqb_spec (tv_sec t1) (tv_sec t2)),
    (Z.ltb_spec (tv_nsec t2) (tv_nsec t1)), (Z.ltb_spec (tv_sec t1) (tv_sec t2)),
    (Z.ltb_spec (tv_nsec t1) (tv_nsec t2)); cbn [orb andb]; lia.
Qed.

(** The seconds of a deadline fit [time_t]. *)
Definition fits_time (time_bits T NSEC : Z) : Prop := (T + NSEC / 100) / 10000000 < 2 ^ (time_bits - 1).

Lemma set_timespec_nsec_instant (time_bits long_bits T NSEC : Z) :
  0 < time_bits -> 32 <= long_bits -> 0 <= T < 2 ^ 62 -> 0 <= NSEC < 2 ^ 62 -> fits_time time_bits T NSEC ->
  normal (set_timespec_nsec time_bits long_bits T NSEC) /\ instant (set_timespec_nsec time_bits long_bits T NSEC) = T * 100 + NSEC.
Proof.
  intros Htb Hlb HT HN Hf. assert (0 <= NSEC / 100 < 2 ^ 62) by (split; [apply Z.div_pos; lia|apply Z.div_lt_upper_bound; lia]).
  unfold set_timespec_nsec, normal, instant, fits_time in *. rewrite uwrap_small by lia. cbn [tv_sec tv_nsec].
  pose proof (Z.mod_pos_bound (T + NSEC / 100) 10000000 ltac:(lia)).
  pose proof (Z.mod_pos_bound NSEC 100 ltac:(lia)). pose proof (Z.div_mod NSEC 100 ltac:(lia)).
  pose proof (Z.div_mod (T + NSEC / 100) 10000000 ltac:(lia)).
  assert (0 <= (T + NSEC / 100) / 10000000) by (apply Z.div_pos; lia).
  assert (2 ^ 31 <= 2 ^ (long_bits - 1)) by (apply Z.pow_le_mono_r; lia).
  rewrite !swrap_small by lia. lia.
Qed.

(** C38.  A deadline of [set_timespec_nsec] is the clock plus the request: on POSIX, when its seconds fit [time_t], exact to
    the nanosecond and normalised; on Windows rounded down to 100 ns.  [cmp_timespec] orders two deadlines as the clock plus
    the request, which Windows compares after the rounding.  Clocks and requests are below 2^62. *)
Theorem timespec_deadlines_ordered (time_bits long_bits T1 T2 N1 N2 : Z) :
  0 < time_bits -> 32 <= long_bits -> 0 <= T1 < 2 ^ 62 -> 0 <= T2 < 2 ^ 62 -> 0 <= N1 < 2 ^ 62 -> 0 <= N2 < 2 ^ 62 ->
  (fits_time time_bits T1 N1 ->
    instant (set_timespec_nsec time_bits long_bits T1 N1) = T1 * 100 + N1
    /\ normal (set_timespec_nsec time_bits long_bits T1 N1)
    /\ (fits_time time_bits T2 N2 ->
        cmp_timespec (set_timespec_nsec time_bits long_bits T1 N1) (set_timespec_nsec time_bits long_bits T2 N2)
        = Z.sgn ((T1 * 100 + N1) - (T2 * 100 + N2))))
  /\ i64 (win_set_timespec_nsec T1 N1) * 100 <= T1 * 100 + N1 < i64 (win_set_timespec_nsec T1 N1) * 100 + 100
  /\ win_cmp_timespec (win_set_timespec_nsec T1 N1) (win_set_timespec_nsec T2 N2)
     = Z.sgn ((T1 * 100 + N1) / 100 - (T2 * 100 + N2) / 100).
Proof.
  intros Htb Hlb HT1 HT2 HN1 HN2. split.
  { intros Hf1. destruct (set_timespec_nsec_instant time_bits long_bits T1 N1) as [n1 i1]; try done.
    split; [done|]. split; [done|]. intros Hf2. destruct (set_timespec_nsec_instant time_bits long_bits T2 N2) as [n2 i2]; try done.
    by rewrite cmp_timespec_instant, i1, i2. }
  assert (Hq : forall N, 0 <= N < 2 ^ 62 -> 0 <= N / 100 < 2 ^ 62)
    by (intros N HN; pose proof (Z.div_mod N 100 ltac:(lia)); pose proof (Z.mod_pos_bound N 100 ltac:(lia)); lia).
  assert (Hw : forall T N, 0 <= T < 2 ^ 62 -> 0 <= N < 2 ^ 62 -> i64 (win_set_timespec_nsec T N) = T + N / 100).
  { intros T N HT HN. specialize (Hq N HN). cbn [i64 win_set_timespec_nsec].
    rewrite (swrap_small 64 N) by lia. rewrite Z.quot_div_nonneg by lia. apply swrap_small; lia. }
  unfold win_cmp_timespec. rewrite !Hw by lia. rewrite !Z.div_add_l by lia. split.
  - pose proof (Z.div_mod N1 100 ltac:(lia)). pose proof (Z.mod_pos_bound N1 100 ltac:(lia)). lia.
  - rewrite Z.gtb_ltb. destruct (Z.ltb_spec (T2 + N2 / 100) (T1 + N1 / 100)),
      (Z.ltb_spec (T1 + N1 / 100) (T2 + N2 / 100)); lia.
Qed.

Lemma timespec_deadlines_ordered_witness :
  cmp_timespec (set_timespec_nsec 32 32 13000000000000000 1500000123) (set_timespec_nsec 32 32 13000000000000000 1500000122)
  = Z.sgn ((13000000000000000 * 100 + 1500000123) - (13000000000000000 * 100 + 1500000122)).
Proof.
  apply (timespec_deadlines_ordered 32 32 13000000000000000 13000000000000000 1500000123 1500000122); try lia; reflexivity.
Defined.

(** A [time_t] of 64 bits always fits; one of 32 bits wraps in 2038, to a time that is over. *)
Lemma fits_time_64 (T NSEC : Z) : 0 <= T < 2 ^ 62 -> 0 <= NSEC < 2 ^ 62 -> fits_time 64 T NSEC.
Proof.
  intros HT HN. unfold fits_time. apply Z.div_lt_upper_bound; [lia|].
  assert (NSEC / 100 < 2 ^ 62) by (apply Z.div_lt_upper_bound; lia). lia.
Qed.
Lemma deadline_2038 : tv_sec (set_timespec_nsec 32 64 (2 ^ 31 * 10000000) 0) = - 2 ^ 31.
Proof. reflexivity. Qed.

(** On Windows [set_timespec] computes the deadline right, but its limit in milliseconds is
    the requested time only up to 2147483 seconds: beyond, the product wraps, to a
    negative limit or, for a year, to 17 days. *)
Theorem set_timespec_limit_wraps (now SEC : Z) :
  0 <= now < 2 ^ 62 -> 0 <= SEC < 2 ^ 32 ->
  i64 (win_set_timespec now SEC) = now + SEC * 10000000
  /\ (max_timeout_msec (win_set_timespec now SEC) = SEC * 1000 <-> SEC <= 2147483)
  /\ (2147484 <= SEC <= 4294967 -> max_timeout_msec (win_set_timespec now SEC) < 0)
  /\ max_timeout_msec (win_set_timespec now 31536000) = 1471228928.
Proof.
  intros Hn HS. cbn [i64 max_timeout_msec win_set_timespec]. split; [|split; [|split]].
  - apply swrap_small; lia.
  - rewrite swrap_uwrap. pose proof (swrap_range 32 (SEC * 1000) ltac:(lia)) as Hr. split; [lia|].
    intros Hle. apply swrap_small; lia.
  - intros Hr. rewrite swrap_uwrap. unfold swrap. change (2 ^ (32 - 1)) with 2147483648. change (2 ^ 32) with 4294967296.
    replace (SEC * 1000 + 2147483648) with (SEC * 1000 - 2147483648 + 1 * 4294967296) by lia.
    rewrite Z_mod_plus_full, Z.mod_small; lia.
  - reflexivity.
Qed.

Lemma set_timespec_limit_wraps_witness :
  max_timeout_msec (win_set_timespec 130000000000000000 2147484) < 0.
Proof. apply (set_timespec_limit_wraps 130000000000000000 2147484); lia. Defined.

End Deadline.
