(* ===== verification/Protocol.v ===== *)
(** * Client/server protocol constants (mysql_com.h, mysql.h)

    The flags, commands, field types and sizes of the protocol, and the predicates of
    mysql.h on them. *)
From S2P Require Import Prelude Macros.

(** ** Field flags *)

Definition NOT_NULL_FLAG : Z := 1.
Definition PRI_KEY_FLAG : Z := 2.
Definition UNIQUE_KEY_FLAG : Z := 4.
Definition MULTIPLE_KEY_FLAG : Z := 8.
Definition BLOB_FLAG : Z := 16.
Definition UNSIGNED_FLAG : Z := 32.
Definition ZEROFILL_FLAG : Z := 64.
Definition BINARY_FLAG : Z := 128.
Definition ENUM_FLAG : Z := 256.
Definition AUTO_INCREMENT_FLAG : Z := 512.
Definition TIMESTAMP_FLAG : Z := 1024.
Definition SET_FLAG : Z := 2048.
Definition NO_DEFAULT_VALUE_FLAG : Z := 4096.
Definition ON_UPDATE_NOW_FLAG : Z := 8192.
Definition NUM_FLAG : Z := 32768.
Definition PART_KEY_FLAG : Z := 16384.
Definition GROUP_FLAG : Z := 32768.
Definition UNIQUE_FLAG : Z := 65536.
Definition BINCMP_FLAG : Z := 131072.
Definition GET_FIXED_FIELDS_FLAG : Z := Z.shiftl 1 18.
Definition FIELD_IN_PART_FUNC_FLAG : Z := Z.shiftl 1 19.
Definition FIELD_IN_ADD_INDEX : Z := Z.shiftl 1 20.

Definition FIELD_IS_RENAMED : Z := Z.shiftl 1 21.
Definition FIELD_FLAGS_STORAGE_MEDIA : Z := 22.
Definition FIELD_FLAGS_COLUMN_FORMAT : Z := 24.

(** ** Refresh options *)

Definition REFRESH_GRANT : Z := 1.
Definition REFRESH_LOG : Z := 2.
Definition REFRESH_TABLES : Z := 4.
Definition REFRESH_HOSTS : Z := 8.
Definition REFRESH_STATUS : Z := 16.
Definition REFRESH_THREADS : Z := 32.
Definition REFRESH_SLAVE : Z := 64.
Definition REFRESH_MASTER : Z := 128.
Definition REFRESH_ERROR_LOG : Z := 256.
Definition REFRESH_ENGINE_LOG : Z := 512.
Definition REFRESH_BINARY_LOG : Z := 1024.
Definition REFRESH_RELAY_LOG : Z := 2048.
Definition REFRESH_GENERAL_LOG : Z := 4096.
Definition REFRESH_SLOW_LOG : Z := 8192.
Definition REFRESH_READ_LOCK : Z := 16384.
Definition REFRESH_FAST : Z := 32768.
Definition REFRESH_QUERY_CACHE : Z := 65536.
Definition REFRESH_QUERY_CACHE_FREE : Z := 0x20000.
Definition REFRESH_DES_KEY_FILE : Z := 0x40000.
Definition REFRESH_USER_RESOURCES : Z := 0x80000.

Definition refresh_options : list Z :=
  [REFRESH_GRANT; REFRESH_LOG; REFRESH_TABLES; REFRESH_HOSTS;
   REFRESH_STATUS; REFRESH_THREADS; REFRESH_SLAVE; REFRESH_MASTER;
   REFRESH_ERROR_LOG; REFRESH_ENGINE_LOG; REFRESH_BINARY_LOG; REFRESH_RELAY_LOG;
   REFRESH_GENERAL_LOG; REFRESH_SLOW_LOG; REFRESH_READ_LOCK; REFRESH_FAST;
   REFRESH_QUERY_CACHE; REFRESH_QUERY_CACHE_FREE; REFRESH_DES_KEY_FILE; REFRESH_USER_RESOURCES].

(** ** Capabilities *)

Definition CLIENT_LONG_PASSWORD : Z := 1.
Definition CLIENT_FOUND_ROWS : Z := 2.
Definition CLIENT_LONG_FLAG : Z := 4.
Definition CLIENT_CONNECT_WITH_DB : Z := 8.
Definition CLIENT_NO_SCHEMA : Z := 16.
Definition CLIENT_COMPRESS : Z := 32.
Definition CLIENT_ODBC : Z := 64.
Definition CLIENT_LOCAL_FILES : Z := 128.
Definition CLIENT_IGNORE_SPACE : Z := 256.
Definition CLIENT_PROTOCOL_41 : Z := 512.
Definition CLIENT_INTERACTIVE : Z := 1024.
Definition CLIENT_SSL : Z := 2048.
Definition CLIENT_IGNORE_SIGPIPE : Z := 4096.
Definition CLIENT_TRANSACTIONS : Z := 8192.
Definition CLIENT_RESERVED : Z := 16384.
Definition CLIENT_SECURE_CONNECTION : Z := 32768.
Definition CLIENT_MULTI_STATEMENTS : Z := Z.shiftl 1 16.
Definition CLIENT_MULTI_RESULTS : Z := Z.shiftl 1 17.
Definition CLIENT_PS_MULTI_RESULTS : Z := Z.shiftl 1 18.
Definition CLIENT_PLUGIN_AUTH : Z := Z.shiftl 1 19.
Definition CLIENT_SSL_VERIFY_SERVER_CERT : Z := Z.shiftl 1 30.
Definition CLIENT_REMEMBER_OPTIONS : Z := Z.shiftl 1 31.

Definition client_flags : list Z :=
  [CLIENT_LONG_PASSWORD; CLIENT_FOUND_ROWS; CLIENT_LONG_FLAG; CLIENT_CONNECT_WITH_DB;
   CLIENT_NO_SCHEMA; CLIENT_COMPRESS; CLIENT_ODBC; CLIENT_LOCAL_FILES;
   CLIENT_IGNORE_SPACE; CLIENT_PROTOCOL_41; CLIENT_INTERACTIVE; CLIENT_SSL;
   CLIENT_IGNORE_SIGPIPE; CLIENT_TRANSACTIONS; CLIENT_RESERVED; CLIENT_SECURE_CONNECTION;
   CLIENT_MULTI_STATEMENTS; CLIENT_MULTI_RESULTS; CLIENT_PS_MULTI_RESULTS; CLIENT_PLUGIN_AUTH;
   CLIENT_SSL_VERIFY_SERVER_CERT; CLIENT_REMEMBER_OPTIONS].

Definition CLIENT_ALL_FLAGS : Z :=
  fold_left Z.lor [CLIENT_LONG_PASSWORD; CLIENT_FOUND_ROWS; CLIENT_LONG_FLAG;
    CLIENT_CONNECT_WITH_DB; CLIENT_NO_SCHEMA; CLIENT_COMPRESS;
    CLIENT_ODBC; CLIENT_LOCAL_FILES; CLIENT_IGNORE_SPACE;
    CLIENT_PROTOCOL_41; CLIENT_INTERACTIVE; CLIENT_SSL;
    CLIENT_IGNORE_SIGPIPE; CLIENT_TRANSACTIONS; CLIENT_RESERVED;
    CLIENT_SECURE_CONNECTION; CLIENT_MULTI_STATEMENTS; CLIENT_MULTI_RESULTS;
    CLIENT_PS_MULTI_RESULTS; CLIENT_SSL_VERIFY_SERVER_CERT; CLIENT_REMEMBER_OPTIONS;
    CLIENT_PLUGIN_AUTH] 0.
Definition CLIENT_BASIC_FLAGS : Z :=
  Z.land (Z.land (Z.land CLIENT_ALL_FLAGS (Z.lnot CLIENT_SSL)) (Z.lnot CLIENT_COMPRESS))
    (Z.lnot CLIENT_SSL_VERIFY_SERVER_CERT).

(** ** Server status *)

Definition SERVER_STATUS_IN_TRANS : Z := 1.
Definition SERVER_STATUS_AUTOCOMMIT : Z := 2.
Definition SERVER_MORE_RESULTS_EXISTS : Z := 8.
Definition SERVER_QUERY_NO_GOOD_INDEX_USED : Z := 16.
Definition SERVER_QUERY_NO_INDEX_USED : Z := 32.
Definition SERVER_STATUS_CURSOR_EXISTS : Z := 64.
Definition SERVER_STATUS_LAST_ROW_SENT : Z := 128.
Definition SERVER_STATUS_DB_DROPPED : Z := 256.
Definition SERVER_STATUS_NO_BACKSLASH_ESCAPES : Z := 512.
Definition SERVER_STATUS_METADATA_CHANGED : Z := 1024.
Definition SERVER_QUERY_WAS_SLOW : Z := 2048.
Definition SERVER_PS_OUT_PARAMS : Z := 4096.

Definition server_status_flags : list Z :=
  [SERVER_STATUS_IN_TRANS; SERVER_STATUS_AUTOCOMMIT; SERVER_MORE_RESULTS_EXISTS; SERVER_QUERY_NO_GOOD_INDEX_USED;
   SERVER_QUERY_NO_INDEX_USED; SERVER_STATUS_CURSOR_EXISTS; SERVER_STATUS_LAST_ROW_SENT; SERVER_STATUS_DB_DROPPED;
   SERVER_STATUS_NO_BACKSLASH_ESCAPES; SERVER_STATUS_METADATA_CHANGED; SERVER_QUERY_WAS_SLOW; SERVER_PS_OUT_PARAMS].

Definition SERVER_STATUS_CLEAR_SET : Z :=
  fold_left Z.lor [SERVER_QUERY_NO_GOOD_INDEX_USED; SERVER_QUERY_NO_INDEX_USED; SERVER_MORE_RESULTS_EXISTS;
    SERVER_STATUS_METADATA_CHANGED; SERVER_QUERY_WAS_SLOW; SERVER_STATUS_DB_DROPPED;
    SERVER_STATUS_CURSOR_EXISTS; SERVER_STATUS_LAST_ROW_SENT] 0.

(** ** Widths and sizes *)

Definition MAX_TINYINT_WIDTH : Z := 3.
Definition MAX_SMALLINT_WIDTH : Z := 5.
Definition MAX_MEDIUMINT_WIDTH : Z := 8.
Definition MAX_INT_WIDTH : Z := 10.
Definition MAX_BIGINT_WIDTH : Z := 20.
Definition MAX_CHAR_WIDTH : Z := 255.
Definition MAX_BLOB_WIDTH : Z := 16777216.

Definition SCRAMBLE_LENGTH : Z := 20.
Definition SCRAMBLE_LENGTH_323 : Z := 8.
Definition NET_HEADER_SIZE : Z := 4.
Definition COMP_HEADER_SIZE : Z := 3.

(** ** Enumerations *)

Inductive enum_server_command :=
  | COM_SLEEP | COM_QUIT | COM_INIT_DB
  | COM_QUERY | COM_FIELD_LIST | COM_CREATE_DB
  | COM_DROP_DB | COM_REFRESH | COM_SHUTDOWN
  | COM_STATISTICS | COM_PROCESS_INFO | COM_CONNECT
  | COM_PROCESS_KILL | COM_DEBUG | COM_PING
  | COM_TIME | COM_DELAYED_INSERT | COM_CHANGE_USER
  | COM_BINLOG_DUMP | COM_TABLE_DUMP | COM_CONNECT_OUT
  | COM_REGISTER_SLAVE | COM_STMT_PREPARE | COM_STMT_EXECUTE
  | COM_STMT_SEND_LONG_DATA | COM_STMT_CLOSE | COM_STMT_RESET
  | COM_SET_OPTION | COM_STMT_FETCH | COM_DAEMON
  | COM_END.

Definition command_code (x : enum_server_command) : Z :=
  match x with
  | COM_SLEEP => 0 | COM_QUIT => 1 | COM_INIT_DB => 2
  | COM_QUERY => 3 | COM_FIELD_LIST => 4 | COM_CREATE_DB => 5
  | COM_DROP_DB => 6 | COM_REFRESH => 7 | COM_SHUTDOWN => 8
  | COM_STATISTICS => 9 | COM_PROCESS_INFO => 10 | COM_CONNECT => 11
  | COM_PROCESS_KILL => 12 | COM_DEBUG => 13 | COM_PING => 14
  | COM_TIME => 15 | COM_DELAYED_INSERT => 16 | COM_CHANGE_USER => 17
  | COM_BINLOG_DUMP => 18 | COM_TABLE_DUMP => 19 | COM_CONNECT_OUT => 20
  | COM_REGISTER_SLAVE => 21 | COM_STMT_PREPARE => 22 | COM_STMT_EXECUTE => 23
  | COM_STMT_SEND_LONG_DATA => 24 | COM_STMT_CLOSE => 25 | COM_STMT_RESET => 26
  | COM_SET_OPTION => 27 | COM_STMT_FETCH => 28 | COM_DAEMON => 29
  | COM_END => 30
  end.
Definition enum_server_command_all : list enum_server_command :=
  [COM_SLEEP; COM_QUIT; COM_INIT_DB;
   COM_QUERY; COM_FIELD_LIST; COM_CREATE_DB;
   COM_DROP_DB; COM_REFRESH; COM_SHUTDOWN;
   COM_STATISTICS; COM_PROCESS_INFO; COM_CONNECT;
   COM_PROCESS_KILL; COM_DEBUG; COM_PING;
   COM_TIME; COM_DELAYED_INSERT; COM_CHANGE_USER;
   COM_BINLOG_DUMP; COM_TABLE_DUMP; COM_CONNECT_OUT;
   COM_REGISTER_SLAVE; COM_STMT_PREPARE; COM_STMT_EXECUTE;
   COM_STMT_SEND_LONG_DATA; COM_STMT_CLOSE; COM_STMT_RESET;
   COM_SET_OPTION; COM_STMT_FETCH; COM_DAEMON;
   COM_END].

Inductive enum_field_types :=
  | MYSQL_TYPE_DECIMAL | MYSQL_TYPE_TINY | MYSQL_TYPE_SHORT
  | MYSQL_TYPE_LONG | MYSQL_TYPE_FLOAT | MYSQL_TYPE_DOUBLE
  | MYSQL_TYPE_NULL | MYSQL_TYPE_TIMESTAMP | MYSQL_TYPE_LONGLONG
  | MYSQL_TYPE_INT24 | MYSQL_TYPE_DATE | MYSQL_TYPE_TIME
  | MYSQL_TYPE_DATETIME | MYSQL_TYPE_YEAR | MYSQL_TYPE_NEWDATE
  | MYSQL_TYPE_VARCHAR | MYSQL_TYPE_BIT | MYSQL_TYPE_NEWDECIMAL
  | MYSQL_TYPE_ENUM | MYSQL_TYPE_SET | MYSQL_TYPE_TINY_BLOB
  | MYSQL_TYPE_MEDIUM_BLOB | MYSQL_TYPE_LONG_BLOB | MYSQL_TYPE_BLOB
  | MYSQL_TYPE_VAR_STRING | MYSQL_TYPE_STRING | MYSQL_TYPE_GEOMETRY.

Definition type_code (x : enum_field_types) : Z :=
  match x with
  | MYSQL_TYPE_DECIMAL => 0 | MYSQL_TYPE_TINY => 1 | MYSQL_TYPE_SHORT => 2
  | MYSQL_TYPE_LONG => 3 | MYSQL_TYPE_FLOAT => 4 | MYSQL_TYPE_DOUBLE => 5
  | MYSQL_TYPE_NULL => 6 | MYSQL_TYPE_TIMESTAMP => 7 | MYSQL_TYPE_LONGLONG => 8
  | MYSQL_TYPE_INT24 => 9 | MYSQL_TYPE_DATE => 10 | MYSQL_TYPE_TIME => 11
  | MYSQL_TYPE_DATETIME => 12 | MYSQL_TYPE_YEAR => 13 | MYSQL_TYPE_NEWDATE => 14
  | MYSQL_TYPE_VARCHAR => 15 | MYSQL_TYPE_BIT => 16 | MYSQL_TYPE_NEWDECIMAL => 246
  | MYSQL_TYPE_ENUM => 247 | MYSQL_TYPE_SET => 248 | MYSQL_TYPE_TINY_BLOB => 249
  | MYSQL_TYPE_MEDIUM_BLOB => 250 | MYSQL_TYPE_LONG_BLOB => 251 | MYSQL_TYPE_BLOB => 252
  | MYSQL_TYPE_VAR_STRING => 253 | MYSQL_TYPE_STRING => 254 | MYSQL_TYPE_GEOMETRY => 255
  end.
Definition enum_field_types_all : list enum_field_types :=
  [MYSQL_TYPE_DECIMAL; MYSQL_TYPE_TINY; MYSQL_TYPE_SHORT;
   MYSQL_TYPE_LONG; MYSQL_TYPE_FLOAT; MYSQL_TYPE_DOUBLE;
   MYSQL_TYPE_NULL; MYSQL_TYPE_TIMESTAMP; MYSQL_TYPE_LONGLONG;
   MYSQL_TYPE_INT24; MYSQL_TYPE_DATE; MYSQL_TYPE_TIME;
   MYSQL_TYPE_DATETIME; MYSQL_TYPE_YEAR; MYSQL_TYPE_NEWDATE;
   MYSQL_TYPE_VARCHAR; MYSQL_TYPE_BIT; MYSQL_TYPE_NEWDECIMAL;
   MYSQL_TYPE_ENUM; MYSQL_TYPE_SET; MYSQL_TYPE_TINY_BLOB;
   MYSQL_TYPE_MEDIUM_BLOB; MYSQL_TYPE_LONG_BLOB; MYSQL_TYPE_BLOB;
   MYSQL_TYPE_VAR_STRING; MYSQL_TYPE_STRING; MYSQL_TYPE_GEOMETRY].

(** ** Predicates of mysql.h *)

Definition IS_PRI_KEY (n : Z) : Z := Z.land n PRI_KEY_FLAG.
Definition IS_NOT_NULL (n : Z) : Z := Z.land n NOT_NULL_FLAG.
Definition IS_BLOB (n : Z) : Z := Z.land n BLOB_FLAG.
Definition IS_NUM (t : Z) : bool :=
  ((t <=? type_code MYSQL_TYPE_INT24) && negb (t =? type_code MYSQL_TYPE_TIMESTAMP))
  || (t =? type_code MYSQL_TYPE_YEAR) || (t =? type_code MYSQL_TYPE_NEWDECIMAL).
Definition IS_LONGDATA (t : Z) : bool :=
  (type_code MYSQL_TYPE_TINY_BLOB <=? t) && (t <=? type_code MYSQL_TYPE_STRING).

(** ** Lemmas *)

#[export] Instance enum_server_command_dec : EqDecision enum_server_command.
Proof. solve_decision. Defined.
#[export] Instance enum_field_types_dec : EqDecision enum_field_types.
Proof. solve_decision. Defined.

(** Commands are numbered without gaps, [COM_END] last. *)
Lemma command_codes_dense : command_code <$> enum_server_command_all = seqZ 0 31.
Proof. reflexivity. Qed.

(** Field types have distinct codes of one byte. *)
Lemma type_code_inj (x y : enum_field_types) : type_code x = type_code y -> x = y.
Proof. by destruct x, y. Qed.

Lemma type_code_byte (x : enum_field_types) : is_byte (type_code x).
Proof. unfold is_byte. destruct x; cbn; lia. Qed.

(** [IS_NUM] also holds of NULL, whose text needs no quotes either. *)
Lemma IS_NUM_types : filter (fun x => IS_NUM (type_code x) = true) enum_field_types_all
  = [MYSQL_TYPE_DECIMAL; MYSQL_TYPE_TINY; MYSQL_TYPE_SHORT; MYSQL_TYPE_LONG; MYSQL_TYPE_FLOAT;
     MYSQL_TYPE_DOUBLE; MYSQL_TYPE_NULL; MYSQL_TYPE_LONGLONG; MYSQL_TYPE_INT24; MYSQL_TYPE_YEAR;
     MYSQL_TYPE_NEWDECIMAL].
Proof. reflexivity. Qed.

Lemma IS_LONGDATA_types : filter (fun x => IS_LONGDATA (type_code x) = true) enum_field_types_all
  = [MYSQL_TYPE_TINY_BLOB; MYSQL_TYPE_MEDIUM_BLOB; MYSQL_TYPE_LONG_BLOB; MYSQL_TYPE_BLOB;
     MYSQL_TYPE_VAR_STRING; MYSQL_TYPE_STRING].
Proof. reflexivity. Qed.

(** A property of the bits of numbers of [w] bits that holds of the first [w] positions holds of all. *)
Lemma testbit_high (w a i : Z) : 0 <= a < 2 ^ w -> 0 <= w <= i -> Z.testbit a i = false.
Proof.
  intros Ha Hi. destruct (decide (a = 0)) as [->|Hne]; [apply Z.bits_0|].
  apply Z.bits_above_log2; [lia|]. assert (Z.log2 a < w) by (apply Z.log2_lt_pow2; lia). lia.
Qed.

(** [z] is one of the numbers of [l]. *)
Definition one_of (l : list Z) (z : Z) : bool := existsb (Z.eqb z) l.

(** ** Properties *)

(** Every capability is one bit of its own among 32; [CLIENT_ALL_FLAGS] has exactly these
    bits, and [CLIENT_BASIC_FLAGS] the same ones but for SSL, compression and the verification of the
    certificate; both fit an unsigned long of 32 bits.  The status flags a new statement clears are
    status flags, and none of them is the transaction, the autocommit or the escape mode. *)
Theorem capability_flags :
  NoDup client_flags
  /\ (forall f, In f client_flags -> exists i, 0 <= i < 32 /\ f = 2 ^ i)
  /\ (forall f, In f client_flags -> test_all_bits CLIENT_ALL_FLAGS f = true)
  /\ (forall i, 0 <= i -> Z.testbit CLIENT_ALL_FLAGS i = one_of client_flags (2 ^ i))
  /\ (forall i, 0 <= i -> Z.testbit CLIENT_BASIC_FLAGS i = one_of client_flags (2 ^ i)
        && negb (one_of [CLIENT_SSL; CLIENT_COMPRESS; CLIENT_SSL_VERIFY_SERVER_CERT] (2 ^ i)))
  /\ 0 <= CLIENT_BASIC_FLAGS <= CLIENT_ALL_FLAGS /\ CLIENT_ALL_FLAGS <= UINT_MAX32
  /\ Z.land SERVER_STATUS_CLEAR_SET (fold_left Z.lor server_status_flags 0) = SERVER_STATUS_CLEAR_SET
  /\ Z.land SERVER_STATUS_CLEAR_SET
       (Z.lor (Z.lor SERVER_STATUS_IN_TRANS SERVER_STATUS_AUTOCOMMIT) SERVER_STATUS_NO_BACKSLASH_ESCAPES) = 0.
Proof.
  assert (Hbits : forall (a : Z) (P : Z -> bool), 0 <= a < 2 ^ 32 ->
    forallb (fun i => eqb (Z.testbit a i) (P (2 ^ i))) (seqZ 0 32) = true ->
    (forall i, 32 <= i -> P (2 ^ i) = false) -> forall i, 0 <= i -> Z.testbit a i = P (2 ^ i)).
  { intros a P Ha Hlow Hhigh i Hi. destruct (Z.lt_ge_cases i 32).
    - rewrite forallb_forall in Hlow. apply eqb_prop, Hlow, list_elem_of_In, elem_of_seqZ. lia.
    - rewrite Hhigh by done. apply (testbit_high 32); lia. }
  assert (Hlarge : forall i, 32 <= i -> one_of client_flags (2 ^ i) = false).
  { intros i Hi. destruct (one_of client_flags (2 ^ i)) eqn:Hin; [exfalso|done].
    assert (2 ^ 32 <= 2 ^ i) by (apply Z.pow_le_mono_r; lia).
    unfold one_of in Hin. apply existsb_exists in Hin as (f & Hin & <-%Z.eqb_eq).
    assert (Hmax : forallb (fun f => f <? 2 ^ 32) client_flags = true) by reflexivity.
    rewrite forallb_forall in Hmax. apply Hmax, Z.ltb_lt in Hin. lia. }
  split; [|split; [|split; [|split; [|split; [|split; [|split; [|split]]]]]]].
  - by apply (bool_decide_unpack _).
  - intros f Hf. assert (Hpow : forallb (fun f => existsb (fun i => f =? 2 ^ i) (seqZ 0 32)) client_flags = true)
      by reflexivity. rewrite forallb_forall in Hpow. apply Hpow, existsb_exists in Hf as (i & Hi & He).
    exists i. apply list_elem_of_In, elem_of_seqZ in Hi. apply Z.eqb_eq in He. lia.
  - intros f Hf. assert (Hall : forallb (test_all_bits CLIENT_ALL_FLAGS) client_flags = true) by reflexivity.
    rewrite forallb_forall in Hall. by apply Hall.
  - apply (Hbits CLIENT_ALL_FLAGS (one_of client_flags)); [by vm_compute|by vm_compute|done].
  - apply (Hbits CLIENT_BASIC_FLAGS (fun z => one_of client_flags z
        && negb (one_of [CLIENT_SSL; CLIENT_COMPRESS; CLIENT_SSL_VERIFY_SERVER_CERT] z)));
      [by vm_compute|by vm_compute|]. intros i Hi. by rewrite Hlarge.
  - split; vm_compute; congruence.
  - vm_compute. congruence.
  - reflexivity.
  - reflexivity.
Qed.

(** [W] decimal digits are enough for the numbers of [bits] bits, and no fewer are. *)
Definition width_tight (bits W : Z) : Prop :=
  (forall n, 0 <= n < 2 ^ bits -> n < 10 ^ W) /\ exists n, 0 <= n < 2 ^ bits /\ 10 ^ (W - 1) <= n.

(** The display widths of the integer types are the number of decimal digits of their largest
    unsigned value.  [MY_INT32_NUM_DECIMAL_DIGITS] is the length of the longest INT32 with its sign,
    [MY_INT64_NUM_DECIMAL_DIGITS] one more than that of the longest INT64. *)
Theorem integer_widths_tight :
  width_tight 8 MAX_TINYINT_WIDTH /\ width_tight 16 MAX_SMALLINT_WIDTH /\ width_tight 24 MAX_MEDIUMINT_WIDTH
  /\ width_tight 32 MAX_INT_WIDTH /\ width_tight 64 MAX_BIGINT_WIDTH
  /\ (forall n, INT_MIN32 <= n <= INT_MAX32 -> Z.abs n < 10 ^ (MY_INT32_NUM_DECIMAL_DIGITS - 1))
  /\ 10 ^ (MY_INT32_NUM_DECIMAL_DIGITS - 2) <= Z.abs INT_MIN32
  /\ (forall n, INT_MIN64 <= n <= INT_MAX64 -> Z.abs n < 10 ^ (MY_INT64_NUM_DECIMAL_DIGITS - 2))
  /\ 10 ^ (MY_INT64_NUM_DECIMAL_DIGITS - 3) <= Z.abs INT_MIN64.
Proof.
  assert (Hw : forall bits W, (2 ^ bits - 1 <? 10 ^ W) && (10 ^ (W - 1) <=? 2 ^ bits - 1) && (0 <? 2 ^ bits) = true ->
    width_tight bits W).
  { intros bits W [[H1%Z.ltb_lt H2%Z.leb_le]%andb_true_iff H3%Z.ltb_lt]%andb_true_iff. split.
    - intros n Hn. lia.
    - exists (2 ^ bits - 1). lia. }
  do 5 (split; [apply Hw; reflexivity|]). split; [|split; [|split]]; [|vm_compute; congruence| |vm_compute; congruence].
  - unfold INT_MIN32, INT_MAX32, MY_INT32_NUM_DECIMAL_DIGITS. intros n Hn.
    change (Z.lnot 2147483647) with (-2147483648) in Hn. change (10 ^ (11 - 1)) with 10000000000. lia.
  - unfold INT_MIN64, INT_MAX64, MY_INT64_NUM_DECIMAL_DIGITS. intros n Hn.
    change (Z.lnot 9223372036854775807) with (-9223372036854775808) in Hn.
    change (10 ^ (21 - 2)) with 10000000000000000000. lia.
Qed.
