(* ===== verification/Containers.v ===== *)
(** * Lists (my_list.h)

    The macros on doubly linked lists.  [list_cons], [list_delete] and [my_free] are not in the sources and
    are an interface, of which there is an instance. *)
From S2P Require Import Prelude.

(** ** Lists *)

Module Lists.

Record LIST := { prev : Z; next : Z; data : Z }.
Abbreviation heap := (gmap Z LIST).

(** The functions of list.c and my_malloc.c the macros call. *)
Class ListFunctions := {
  list_cons : Z -> Z -> heap -> option (Z * heap);
  list_delete : Z -> Z -> heap -> option (Z * heap);
  my_free : Z -> heap -> option heap }.

Section Macros.
Context `{ListFunctions}.

Definition list_rest (h : heap) (a : Z) : option Z := next <$> h !! a.
(** [a] and the heap after the macro. *)
Definition list_push (h : heap) (a b : Z) : option (Z * heap) := list_cons b a h.
Definition list_pop (h : heap) (A : Z) : option (Z * heap) :=
  let old := A in '(A, h) ← list_delete old old h; h ← my_free old h; Some (A, h).
End Macros.

(** *** An implementation *)

Definition fresh (h : heap) : Z := 1 + foldr Z.max 0 (map_to_list h).*1.

Definition set_prev (v : Z) (n : LIST) : LIST := {| prev := v; next := next n; data := data n |}.

#[export] Instance simple_lists : ListFunctions := {|
  list_cons b root h :=
    let p := fresh h in
    Some (p, <[p := {| prev := 0; next := root; data := b |}]> (alter (set_prev p) root h));
  list_delete root element h :=
    n ← h !! element;
    Some (next n, alter (set_prev (prev n)) (next n) h);
  my_free p h := match h !! p with Some _ => Some (delete p h) | None => None end |}.

(** Two elements pushed and one popped. *)
Example list_pop_run :
  ('(a, h) ← list_push ∅ 0 5; '(b, h) ← list_push h a 6; '(c, h) ← list_pop h b; d ← list_rest h c; Some (data <$> h !! c, d, size h))
  = Some (Some 5, 0, 1%nat).
Proof. reflexivity. Qed.

End Lists.
