(* ===== verification/PluginVars.v ===== *)
(** * System variables of plugins (mysql/plugin.h)

    The macros that declare and initialise the descriptor of a system variable: the layout of the
    descriptors, the flags, and the accessors.  An initialiser fills the fields of its structure in
    order, converted to their types, as C does, and the fields it does not reach are zero.  The width of
    long is the one of the data model (32 bits on Windows, 64 on LP64). *)
From S2P Require Import Prelude.

(** ** Flags *)

Definition PLUGIN_OPT_NO_INSTALL : Z := 1.
Definition PLUGIN_OPT_NO_UNINSTALL : Z := 2.
Definition PLUGIN_VAR_BOOL : Z := 0x0001.
Definition PLUGIN_VAR_INT : Z := 0x0002.
Definition PLUGIN_VAR_LONG : Z := 0x0003.
Definition PLUGIN_VAR_LONGLONG : Z := 0x0004.
Definition PLUGIN_VAR_STR : Z := 0x0005.
Definition PLUGIN_VAR_ENUM : Z := 0x0006.
Definition PLUGIN_VAR_SET : Z := 0x0007.
Definition PLUGIN_VAR_UNSIGNED : Z := 0x0080.
Definition PLUGIN_VAR_THDLOCAL : Z := 0x0100.
Definition PLUGIN_VAR_READONLY : Z := 0x0200.
Definition PLUGIN_VAR_NOSYSVAR : Z := 0x0400.
Definition PLUGIN_VAR_NOCMDOPT : Z := 0x0800.
Definition PLUGIN_VAR_NOCMDARG : Z := 0x1000.
Definition PLUGIN_VAR_RQCMDARG : Z := 0x0000.
Definition PLUGIN_VAR_OPCMDARG : Z := 0x2000.
Definition PLUGIN_VAR_MEMALLOC : Z := 0x8000.

Definition PLUGIN_VAR_MASK : Z :=
  fold_left Z.lor [PLUGIN_VAR_READONLY; PLUGIN_VAR_NOSYSVAR; PLUGIN_VAR_NOCMDOPT; PLUGIN_VAR_NOCMDARG;
    PLUGIN_VAR_OPCMDARG; PLUGIN_VAR_RQCMDARG; PLUGIN_VAR_MEMALLOC] 0.

(** ** Descriptors *)

(** The width of long. *)
Class DataModel := { long_bits : Z; long_bits_ok : long_bits = 32 \/ long_bits = 64 }.

Section Descriptors.
Context `{DataModel}.

(** The types of variables, and the fields of the structures. *)
Inductive c_type := C_char | C_char_ptr | C_int | C_uint | C_long | C_ulong | C_longlong | C_ulonglong.
Inductive field :=
  | f_flags | f_name | f_comment | f_check | f_update
  | f_value | f_offset | f_def_val | f_min_val | f_max_val | f_blk_sz | f_typelib | f_resolve.

Record object := { o_type : c_type; o_fields : list (field * Z) }.

(** The conversion to a type, and to the type of a field of a descriptor for variables of type [t];
    names, callbacks and other pointers are stored as they are. *)
Definition convert (t : c_type) (v : Z) : Z :=
  match t with
  | C_char => s8 v | C_char_ptr => v | C_int => s32 v | C_uint => u32 v
  | C_long => swrap long_bits v | C_ulong => uwrap long_bits v | C_longlong => s64 v | C_ulonglong => u64 v
  end.
Definition convert_field (t : c_type) (f : field) (v : Z) : Z :=
  match f with
  | f_flags | f_offset => convert C_int v
  | f_def_val | f_min_val | f_max_val | f_blk_sz => convert t v
  | _ => v
  end.

Fixpoint initialise (t : c_type) (fields : list field) (init : list Z) : list (field * Z) :=
  match fields, init with
  | [], _ => []
  | f :: fields, [] => (f, 0) :: initialise t fields []
  | f :: fields, v :: init => (f, convert_field t f v) :: initialise t fields init
  end.

Definition MYSQL_PLUGIN_VAR_HEADER : list field := [f_flags; f_name; f_comment; f_check; f_update].

Definition DECLARE_MYSQL_SYSVAR_BASIC (type : c_type) (init : list Z) : object :=
  {| o_type := type; o_fields := initialise type (MYSQL_PLUGIN_VAR_HEADER ++ [f_value; f_def_val]) init |}.
Definition DECLARE_MYSQL_SYSVAR_SIMPLE (type : c_type) (init : list Z) : object :=
  {| o_type := type; o_fields := initialise type
       (MYSQL_PLUGIN_VAR_HEADER ++ [f_value; f_def_val; f_min_val; f_max_val; f_blk_sz]) init |}.
Definition DECLARE_MYSQL_SYSVAR_TYPELIB (type : c_type) (init : list Z) : object :=
  {| o_type := type; o_fields := initialise type (MYSQL_PLUGIN_VAR_HEADER ++ [f_value; f_def_val; f_typelib]) init |}.
Definition DECLARE_MYSQL_THDVAR_BASIC (type : c_type) (init : list Z) : object :=
  {| o_type := type; o_fields := initialise type (MYSQL_PLUGIN_VAR_HEADER ++ [f_offset; f_def_val; f_resolve]) init |}.
Definition DECLARE_MYSQL_THDVAR_SIMPLE (type : c_type) (init : list Z) : object :=
  {| o_type := type; o_fields := initialise type
       (MYSQL_PLUGIN_VAR_HEADER ++ [f_offset; f_def_val; f_min_val; f_max_val; f_blk_sz; f_resolve]) init |}.
Definition DECLARE_MYSQL_THDVAR_TYPELIB (type : c_type) (init : list Z) : object :=
  {| o_type := type; o_fields := initialise type
       (MYSQL_PLUGIN_VAR_HEADER ++ [f_offset; f_def_val; f_resolve; f_typelib]) init |}.

(** ** The macros for plugin implementors *)

Definition MYSQL_SYSVAR_BOOL (name varname opt comment check update def : Z) : object :=
  DECLARE_MYSQL_SYSVAR_BASIC C_char
    [Z.lor PLUGIN_VAR_BOOL (Z.land opt PLUGIN_VAR_MASK);
     name; comment; check; update; varname; def].
Definition MYSQL_SYSVAR_STR (name varname opt comment check update def : Z) : object :=
  DECLARE_MYSQL_SYSVAR_BASIC C_char_ptr
    [Z.lor PLUGIN_VAR_STR (Z.land opt PLUGIN_VAR_MASK);
     name; comment; check; update; varname; def].
Definition MYSQL_SYSVAR_INT (name varname opt comment check update def min max blk : Z) : object :=
  DECLARE_MYSQL_SYSVAR_SIMPLE C_int
    [Z.lor PLUGIN_VAR_INT (Z.land opt PLUGIN_VAR_MASK);
     name; comment; check; update; varname; def; min; max; blk].
Definition MYSQL_SYSVAR_UINT (name varname opt comment check update def min max blk : Z) : object :=
  DECLARE_MYSQL_SYSVAR_SIMPLE C_uint
    [Z.lor (Z.lor PLUGIN_VAR_INT PLUGIN_VAR_UNSIGNED) (Z.land opt PLUGIN_VAR_MASK);
     name; comment; check; update; varname; def; min; max; blk].
Definition MYSQL_SYSVAR_LONG (name varname opt comment check update def min max blk : Z) : object :=
  DECLARE_MYSQL_SYSVAR_SIMPLE C_long
    [Z.lor PLUGIN_VAR_LONG (Z.land opt PLUGIN_VAR_MASK);
     name; comment; check; update; varname; def; min; max; blk].
Definition MYSQL_SYSVAR_ULONG (name varname opt comment check update def min max blk : Z) : object :=
  DECLARE_MYSQL_SYSVAR_SIMPLE C_ulong
    [Z.lor (Z.lor PLUGIN_VAR_LONG PLUGIN_VAR_UNSIGNED) (Z.land opt PLUGIN_VAR_MASK);
     name; comment; check; update; varname; def; min; max; blk].
Definition MYSQL_SYSVAR_LONGLONG (name varname opt comment check update def min max blk : Z) : object :=
  DECLARE_MYSQL_SYSVAR_SIMPLE C_longlong
    [Z.lor PLUGIN_VAR_LONGLONG (Z.land opt PLUGIN_VAR_MASK);
     name; comment; check; update; varname; def; min; max; blk].
Definition MYSQL_SYSVAR_ULONGLONG (name varname opt comment check update def min max blk : Z) : object :=
  DECLARE_MYSQL_SYSVAR_SIMPLE C_ulonglong
    [Z.lor (Z.lor PLUGIN_VAR_LONGLONG PLUGIN_VAR_UNSIGNED) (Z.land opt PLUGIN_VAR_MASK);
     name; comment; check; update; varname; def; min; max; blk].
Definition MYSQL_SYSVAR_ENUM (name varname opt comment check update def typelib : Z) : object :=
  DECLARE_MYSQL_SYSVAR_TYPELIB C_ulong
    [Z.lor PLUGIN_VAR_ENUM (Z.land opt PLUGIN_VAR_MASK);
     name; comment; check; update; varname; def; typelib].
Definition MYSQL_SYSVAR_SET (name varname opt comment check update def typelib : Z) : object :=
  DECLARE_MYSQL_SYSVAR_TYPELIB C_ulonglong
    [Z.lor PLUGIN_VAR_SET (Z.land opt PLUGIN_VAR_MASK);
     name; comment; check; update; varname; def; typelib].
Definition MYSQL_THDVAR_BOOL (name opt comment check update def : Z) : object :=
  DECLARE_MYSQL_THDVAR_BASIC C_char
    [Z.lor (Z.lor PLUGIN_VAR_BOOL PLUGIN_VAR_THDLOCAL) (Z.land opt PLUGIN_VAR_MASK);
     name; comment; check; update; -1; def; 0].
Definition MYSQL_THDVAR_STR (name opt comment check update def : Z) : object :=
  DECLARE_MYSQL_THDVAR_BASIC C_char_ptr
    [Z.lor (Z.lor PLUGIN_VAR_STR PLUGIN_VAR_THDLOCAL) (Z.land opt PLUGIN_VAR_MASK);
     name; comment; check; update; -1; def; 0].
Definition MYSQL_THDVAR_INT (name opt comment check update def min max blk : Z) : object :=
  DECLARE_MYSQL_THDVAR_SIMPLE C_int
    [Z.lor (Z.lor PLUGIN_VAR_INT PLUGIN_VAR_THDLOCAL) (Z.land opt PLUGIN_VAR_MASK);
     name; comment; check; update; -1; def; min; max; blk; 0].
Definition MYSQL_THDVAR_UINT (name opt comment check update def min max blk : Z) : object :=
  DECLARE_MYSQL_THDVAR_SIMPLE C_uint
    [Z.lor (Z.lor (Z.lor PLUGIN_VAR_INT PLUGIN_VAR_THDLOCAL) (PLUGIN_VAR_UNSIGNED)) (Z.land opt PLUGIN_VAR_MASK);
     name; comment; check; update; -1; def; min; max; blk; 0].
Definition MYSQL_THDVAR_LONG (name opt comment check update def min max blk : Z) : object :=
  DECLARE_MYSQL_THDVAR_SIMPLE C_long
    [Z.lor (Z.lor PLUGIN_VAR_LONG PLUGIN_VAR_THDLOCAL) (Z.land opt PLUGIN_VAR_MASK);
     name; comment; check; update; -1; def; min; max; blk; 0].
Definition MYSQL_THDVAR_ULONG (name opt comment check update def min max blk : Z) : object :=
  DECLARE_MYSQL_THDVAR_SIMPLE C_ulong
    [Z.lor (Z.lor (Z.lor PLUGIN_VAR_LONG PLUGIN_VAR_THDLOCAL) (PLUGIN_VAR_UNSIGNED)) (Z.land opt PLUGIN_VAR_MASK);
     name; comment; check; update; -1; def; min; max; blk; 0].
Definition MYSQL_THDVAR_LONGLONG (name opt comment check update def min max blk : Z) : object :=
  DECLARE_MYSQL_THDVAR_SIMPLE C_longlong
    [Z.lor (Z.lor PLUGIN_VAR_LONGLONG PLUGIN_VAR_THDLOCAL) (Z.land opt PLUGIN_VAR_MASK);
     name; comment; check; update; -1; def; min; max; blk; 0].
Definition MYSQL_THDVAR_ULONGLONG (name opt comment check update def min max blk : Z) : object :=
  DECLARE_MYSQL_THDVAR_SIMPLE C_ulonglong
    [Z.lor (Z.lor (Z.lor PLUGIN_VAR_LONGLONG PLUGIN_VAR_THDLOCAL) (PLUGIN_VAR_UNSIGNED)) (Z.land opt PLUGIN_VAR_MASK);
     name; comment; check; update; -1; def; min; max; blk; 0].
Definition MYSQL_THDVAR_ENUM (name opt comment check update def typelib : Z) : object :=
  DECLARE_MYSQL_THDVAR_TYPELIB C_ulong
    [Z.lor (Z.lor PLUGIN_VAR_ENUM PLUGIN_VAR_THDLOCAL) (Z.land opt PLUGIN_VAR_MASK);
     name; comment; check; update; -1; def; 0; typelib].
Definition MYSQL_THDVAR_SET (name opt comment check update def typelib : Z) : object :=
  DECLARE_MYSQL_THDVAR_TYPELIB C_ulonglong
    [Z.lor (Z.lor PLUGIN_VAR_SET PLUGIN_VAR_THDLOCAL) (Z.land opt PLUGIN_VAR_MASK);
     name; comment; check; update; -1; def; 0; typelib].

(** ** Accessors *)

(** The value of a field, in the order of the structure. *)
#[export] Instance field_dec : EqDecision field.
Proof. solve_decision. Defined.

Definition get (f : field) (o : object) : option Z := snd <$> find (fun fv => bool_decide (fst fv = f)) (o_fields o).

(** [load] reads a variable at an address, [call] calls a function pointer; both may fault. *)
Section Accessors.
Context (load : Z -> option Z) (call : Z -> Z -> Z -> option Z).

Definition SYSVAR (o : object) : option Z := p ← get f_value o; load p.
Definition THDVAR (thd : Z) (o : object) : option Z :=
  r ← get f_resolve o; off ← get f_offset o;
  if r =? 0 then None else p ← call r thd off; load p.
End Accessors.

(** ** All declarations *)

(** The arguments of the macros. *)
Record args := {
  name : Z; varname : Z; opt : Z; comment : Z; check : Z; update : Z; def : Z;
  min : Z; max : Z; blk : Z; typelib : Z }.

Inductive kind := BOOL | STR | INT | UINT | LONG | ULONG | LONGLONG | ULONGLONG | ENUM | SET.

Definition sysvar (k : kind) (a : args) : object :=
  match k with
  | BOOL => MYSQL_SYSVAR_BOOL (name a) (varname a) (opt a) (comment a) (check a) (update a) (def a)
  | STR => MYSQL_SYSVAR_STR (name a) (varname a) (opt a) (comment a) (check a) (update a) (def a)
  | INT => MYSQL_SYSVAR_INT (name a) (varname a) (opt a) (comment a) (check a) (update a) (def a)
      (min a) (max a) (blk a)
  | UINT => MYSQL_SYSVAR_UINT (name a) (varname a) (opt a) (comment a) (check a) (update a) (def a)
      (min a) (max a) (blk a)
  | LONG => MYSQL_SYSVAR_LONG (name a) (varname a) (opt a) (comment a) (check a) (update a) (def a)
      (min a) (max a) (blk a)
  | ULONG => MYSQL_SYSVAR_ULONG (name a) (varname a) (opt a) (comment a) (check a) (update a) (def a)
      (min a) (max a) (blk a)
  | LONGLONG => MYSQL_SYSVAR_LONGLONG (name a) (varname a) (opt a) (comment a) (check a) (update a) (def a)
      (min a) (max a) (blk a)
  | ULONGLONG => MYSQL_SYSVAR_ULONGLONG (name a) (varname a) (opt a) (comment a) (check a) (update a) (def a)
      (min a) (max a) (blk a)
  | ENUM => MYSQL_SYSVAR_ENUM (name a) (varname a) (opt a) (comment a) (check a) (update a) (def a) (typelib a)
  | SET => MYSQL_SYSVAR_SET (name a) (varname a) (opt a) (comment a) (check a) (update a) (def a) (typelib a)
  end.

Definition thdvar (k : kind) (a : args) : object :=
  match k with
  | BOOL => MYSQL_THDVAR_BOOL (name a) (opt a) (comment a) (check a) (update a) (def a)
  | STR => MYSQL_THDVAR_STR (name a) (opt a) (comment a) (check a) (update a) (def a)
  | INT => MYSQL_THDVAR_INT (name a) (opt a) (comment a) (check a) (update a) (def a)
      (min a) (max a) (blk a)
  | UINT => MYSQL_THDVAR_UINT (name a) (opt a) (comment a) (check a) (update a) (def a)
      (min a) (max a) (blk a)
  | LONG => MYSQL_THDVAR_LONG (name a) (opt a) (comment a) (check a) (update a) (def a)
      (min a) (max a) (blk a)
  | ULONG => MYSQL_THDVAR_ULONG (name a) (opt a) (comment a) (check a) (update a) (def a)
      (min a) (max a) (blk a)
  | LONGLONG => MYSQL_THDVAR_LONGLONG (name a) (opt a) (comment a) (check a) (update a) (def a)
      (min a) (max a) (blk a)
  | ULONGLONG => MYSQL_THDVAR_ULONGLONG (name a) (opt a) (comment a) (check a) (update a) (def a)
      (min a) (max a) (blk a)
  | ENUM => MYSQL_THDVAR_ENUM (name a) (opt a) (comment a) (check a) (update a) (def a) (typelib a)
  | SET => MYSQL_THDVAR_SET (name a) (opt a) (comment a) (check a) (update a) (def a) (typelib a)
  end.

Definition declare (thd : bool) (k : kind) (a : args) : object := if thd then thdvar k a else sysvar k a.

(** What a declaration promises of its kind: the code of the type, the signedness, the type of C. *)
Definition type_of (k : kind) : Z :=
  match k with
  | BOOL => PLUGIN_VAR_BOOL | STR => PLUGIN_VAR_STR | INT | UINT => PLUGIN_VAR_INT
  | LONG | ULONG => PLUGIN_VAR_LONG | LONGLONG | ULONGLONG => PLUGIN_VAR_LONGLONG
  | ENUM => PLUGIN_VAR_ENUM | SET => PLUGIN_VAR_SET
  end.
Definition is_unsigned (k : kind) : bool := match k with UINT | ULONG | ULONGLONG => true | _ => false end.
Definition c_type_of (k : kind) : c_type :=
  match k with
  | BOOL => C_char | STR => C_char_ptr | INT => C_int | UINT => C_uint | LONG => C_long
  | ULONG | ENUM => C_ulong | LONGLONG => C_longlong | ULONGLONG | SET => C_ulonglong
  end.
Definition has_limits (k : kind) : bool :=
  match k with INT | UINT | LONG | ULONG | LONGLONG | ULONGLONG => true | _ => false end.
Definition has_typelib (k : kind) : bool := match k with ENUM | SET => true | _ => false end.

(** The values of a type. *)
Definition in_type (t : c_type) (v : Z) : Prop :=
  match t with
  | C_char => - 2 ^ 7 <= v < 2 ^ 7 | C_char_ptr => True
  | C_int => - 2 ^ 31 <= v < 2 ^ 31 | C_uint => 0 <= v < 2 ^ 32
  | C_long => - 2 ^ (long_bits - 1) <= v < 2 ^ (long_bits - 1) | C_ulong => 0 <= v < 2 ^ long_bits
  | C_longlong => - 2 ^ 63 <= v < 2 ^ 63 | C_ulonglong => 0 <= v < 2 ^ 64
  end.

(** ** Lemmas *)

(** The options of a plugin cannot reach the bits outside of the mask. *)
Lemma mask_disjoint (t o c : Z) :
  Z.land PLUGIN_VAR_MASK c = 0 -> Z.land (Z.lor t (Z.land o PLUGIN_VAR_MASK)) c = Z.land t c.
Proof. intros Hc. rewrite Z.land_lor_distr_l, <- Z.land_assoc, Hc, Z.land_0_r. apply Z.lor_0_r. Qed.

Lemma mask_options (t o : Z) :
  Z.land t PLUGIN_VAR_MASK = 0 -> Z.land (Z.lor t (Z.land o PLUGIN_VAR_MASK)) PLUGIN_VAR_MASK = Z.land o PLUGIN_VAR_MASK.
Proof. intros Ht. rewrite Z.land_lor_distr_l, Ht, <- Z.land_assoc, Z.land_diag. apply Z.lor_0_l. Qed.

(** A value of the type is stored unchanged. *)
Lemma convert_id (t : c_type) (v : Z) : in_type t v -> convert t v = v.
Proof.
  destruct t; cbn [in_type convert]; intros Hv; try done; try (by apply swrap_small); try (by apply uwrap_small).
  apply swrap_small; [destruct long_bits_ok as [-> | ->]; lia|done].
Qed.

Lemma flags_small (t o : Z) :
  Z.land t (Z.ones 16) = t ->
  convert C_int (Z.lor t (Z.land o PLUGIN_VAR_MASK)) = Z.lor t (Z.land o PLUGIN_VAR_MASK).
Proof.
  intros Ht. set (v := Z.lor t _). assert (Hv : v = v mod 2 ^ 16).
  { rewrite <- Z.land_ones by lia. unfold v. by rewrite Z.land_lor_distr_l, Ht, <- Z.land_assoc. }
  apply convert_id. cbn [in_type]. rewrite Hv. pose proof (Z.mod_pos_bound v (2 ^ 16)). lia.
Qed.

(** The flags of a declaration, as one constant and the masked options. *)
Lemma declare_flags (thd : bool) (k : kind) (a : args) :
  get f_flags (declare thd k a)
  = Some (Z.lor (Z.lor (type_of k) (Z.lor (if is_unsigned k then PLUGIN_VAR_UNSIGNED else 0)
                                          (if thd then PLUGIN_VAR_THDLOCAL else 0)))
            (Z.land (opt a) PLUGIN_VAR_MASK)).
Proof.
  set (t := Z.lor (type_of k) _). transitivity (Some (convert C_int (Z.lor t (Z.land (opt a) PLUGIN_VAR_MASK)))).
  - by destruct thd, k.
  - f_equal. apply flags_small. by destruct thd, k.
Qed.

(** ** Properties *)

(** Every macro that declares a system variable fills its descriptor as the server reads it:
    whatever options the plugin passes, the low bits are the code of the type, the unsigned and
    per-connection bits are those of the macro and the options are the permitted ones; the sixth
    field is the address of the variable (or its offset, -1 before the installation), the
    seventh the default, converted to the type of the variable (so unchanged when it is a value of it);
    limits, library and resolver are in their fields; and a per-connection variable
    cannot be read before the server has set its resolver. *)
Theorem sysvar_declarations (thd : bool) (k : kind) (a : args) :
  let o := declare thd k a in
  (exists fl, get f_flags o = Some fl
     /\ Z.land fl 7 = type_of k
     /\ (Z.land fl PLUGIN_VAR_UNSIGNED = if is_unsigned k then PLUGIN_VAR_UNSIGNED else 0)
     /\ (Z.land fl PLUGIN_VAR_THDLOCAL = if thd then PLUGIN_VAR_THDLOCAL else 0)
     /\ Z.land fl PLUGIN_VAR_MASK = Z.land (opt a) PLUGIN_VAR_MASK)
  /\ o_type o = c_type_of k
  /\ get f_name o = Some (name a) /\ get f_comment o = Some (comment a)
  /\ get f_check o = Some (check a) /\ get f_update o = Some (update a)
  /\ o_fields o !! 5%nat = Some (if thd then (f_offset, -1) else (f_value, varname a))
  /\ o_fields o !! 6%nat = Some (f_def_val, convert (o_type o) (def a))
  /\ (if has_limits k then get f_min_val o = Some (convert (o_type o) (min a))
        /\ get f_max_val o = Some (convert (o_type o) (max a))
        /\ get f_blk_sz o = Some (convert (o_type o) (blk a))
      else get f_min_val o = None /\ get f_max_val o = None)
  /\ (get f_typelib o = if has_typelib k then Some (typelib a) else None)
  /\ (get f_resolve o = if thd then Some 0 else None)
  /\ (forall v, in_type (o_type o) v -> convert (o_type o) v = v)
  /\ (forall load call t, thd = true -> THDVAR load call t o = None)
  /\ (forall load, thd = false -> SYSVAR load o = load (varname a)).
Proof.
  intros o. split.
  - eexists. split; [apply declare_flags|]. rewrite !mask_disjoint, mask_options by (destruct thd, k; reflexivity).
    by destruct thd, k.
  - pose proof (convert_id (o_type o)) as Hid. revert Hid. unfold o. destruct thd, k; intros Hid; by split_and!.
Qed.

End Descriptors.
