(* ===== verification/Dbug.v ===== *)
(** * The debug package (my_dbug.h)

    The macros in both builds: with the debug package, and without it ([DBUG_OFF]).  The functions
    behind them are in dbug.c, which is not in the sources: their calls are recorded and their answers
    come from the configuration.  A body of a function is a computation that goes on, returns or
    ends the process; clients of the macros are trees of statements. *)
From S2P Require Import Prelude.

(** ** Calls *)

(** The functions of the package and of the system that the macros call.  A stack frame is named by the
    depth of the activation that declares it. *)
Inductive dcall :=
  | db_enter (func file : string) (line : Z) (stack_frame : nat)
  | db_return (line : Z) (stack_frame : nat)
  | db_keyword (keyword : string) (strict : Z)
  | db_pargs (line : Z) (keyword : string)
  | db_doprnt (arglist : list Z)
  | db_push (control : string)
  | db_pop
  | db_set (control : string)
  | db_set_init (control : string)
  | db_process (name : string)
  | db_dump (line : Z) (keyword : string) (memory length : Z)
  | db_end
  | db_lock_file
  | db_unlock_file
  | db_explain (buf len : Z)
  | db_explain_init (buf len : Z)
  | db_get_func
  | db_flush
  | db_suicide
  | set_dbug_on (v : Z)
  | sys_abort
  | sys_CrtSetReportMode
  | sys_CrtSetReportFile
  | sys_exit (status : Z).

(** The conditionals ([debug]: DBUG_OFF is not defined), the answers of the package to a call after a
    history, and what strxnmov leaves in the buffer of DBUG_CHECK_CRASH.  It is called there without the [NullS] that ends
    its arguments, so what it leaves may differ from call to call, or it faults ([None]). *)
Class Config := {
  debug : bool;
  windows : bool;
  ndebug : bool;
  answer : list dcall -> dcall -> Z;
  get_func : list dcall -> string;
  strxnmov : list dcall -> string -> string -> option string }.

(** ** Computations *)

Section Macros.
Context {U : Type}.

Record world := { user : U; events : list dcall }.
Inductive outcome (A : Type) := Next (a : A) | Returned (v : Z) | Ended.
#[local] Arguments Next {A} a.
#[local] Arguments Returned {A} v.
#[local] Arguments Ended {A}.

(** A piece of the body of a function, in the activation of a given depth. *)
Definition M (A : Type) : Type := nat -> world -> outcome A * world.

#[local] Instance M_ret : MRet M := fun A a _ w => (Next a, w).
#[local] Instance M_bind : MBind M := fun A B k m fr w =>
  match m fr w with
  | (Next a, w) => k a fr w
  | (Returned v, w) => (Returned v, w)
  | (Ended, w) => (Ended, w)
  end.

Definition skip : M unit := mret tt.
Definition gets {A} (f : U -> A) : M A := fun _ w => (Next (f (user w)), w).
Definition modify (f : U -> U) : M unit := fun _ w => (Next tt, {| user := f (user w); events := events w |}).
Definition return_ (v : Z) : M unit := fun _ w => (Returned v, w).
Definition end_process : M unit := fun _ w => (Ended, w).
(** A call of a function: its body runs in an activation of its own, and ends the caller only when the
    process ends.  A void function is given the value 0. *)
Definition invoke (body : M unit) : M Z := fun fr w =>
  match body (S fr) w with
  | (Next _, w) => (Next 0, w)
  | (Returned v, w) => (Next v, w)
  | (Ended, w) => (Ended, w)
  end.

Context `{Config}.

Definition call (c : dcall) : M Z := fun _ w =>
  (Next (answer (events w) c), {| user := user w; events := events w ++ [c] |}).
Definition call_ (c : dcall) : M unit := _ ← call c; skip.
Definition frame : M nat := fun fr w => (Next fr, w).
Definition call_get_func : M string := fun _ w =>
  (Next (get_func (events w)), {| user := user w; events := events w ++ [db_get_func] |}).
Definition call_strxnmov (func op : string) : M string := fun _ w =>
  match strxnmov (events w) func op with Some s => (Next s, w) | None => (Ended, w) end.
Definition assert (A : M bool) : M unit :=
  if ndebug then skip else b ← A; if (b : bool) then skip else end_process.

(** ** The macros

    An argument is a computation: without the package it is not evaluated. *)

Definition DBUG_ENTER (a file : string) (line : Z) : M unit :=
  if debug then fr ← frame; call_ (db_enter a file line fr) else skip.
Definition DBUG_LEAVE (line : Z) : M unit :=
  if debug then fr ← frame; call_ (db_return line fr) else skip.
Definition DBUG_RETURN (line : Z) (a1 : M Z) : M unit :=
  if debug then _ ← DBUG_LEAVE line; v ← a1; return_ v else v ← a1; return_ v.
Definition DBUG_VOID_RETURN (line : Z) : M unit :=
  if debug then _ ← DBUG_LEAVE line; return_ 0 else return_ 0.
Definition DBUG_EXECUTE (keyword : string) (a1 : M unit) : M unit :=
  if debug then k ← call (db_keyword keyword 0); if k =? 0 then skip else a1 else skip.
Definition DBUG_EXECUTE_IF (keyword : string) (a1 : M unit) : M unit :=
  if debug then k ← call (db_keyword keyword 1); if k =? 0 then skip else a1 else skip.
Definition DBUG_EVALUATE {A} (keyword : string) (a1 a2 : M A) : M A :=
  if debug then k ← call (db_keyword keyword 0); if k =? 0 then a2 else a1 else a2.
Definition DBUG_EVALUATE_IF {A} (keyword : string) (a1 a2 : M A) : M A :=
  if debug then k ← call (db_keyword keyword 1); if k =? 0 then a2 else a1 else a2.
Definition DBUG_PRINT (line : Z) (keyword : string) (arglist : M (list Z)) : M unit :=
  if debug then _ ← call (db_pargs line keyword); args ← arglist; call_ (db_doprnt args) else skip.
Definition DBUG_PUSH (a1 : M string) : M unit := if debug then a ← a1; call_ (db_push a) else skip.
Definition DBUG_POP : M unit := if debug then call_ db_pop else skip.
Definition DBUG_SET (a1 : M string) : M unit := if debug then a ← a1; call_ (db_set a) else skip.
Definition DBUG_SET_INITIAL (a1 : M string) : M unit := if debug then a ← a1; call_ (db_set_init a) else skip.
Definition DBUG_PROCESS (a1 : M string) : M unit := if debug then a ← a1; call_ (db_process a) else skip.
Definition DBUG_DUMP (line : Z) (keyword : string) (a : M (Z * Z)) : M unit :=
  if debug then '(a1, a2) ← a; call_ (db_dump line keyword a1 a2) else skip.
Definition DBUG_END : M unit := if debug then call_ db_end else skip.
Definition DBUG_LOCK_FILE : M unit := if debug then call_ db_lock_file else skip.
Definition DBUG_UNLOCK_FILE : M unit := if debug then call_ db_unlock_file else skip.
Definition DBUG_ASSERT (A : M bool) : M unit := if debug then assert A else skip.
Definition DBUG_EXPLAIN (a : M (Z * Z)) : M unit := if debug then '(buf, len) ← a; call_ (db_explain buf len) else skip.
Definition DBUG_EXPLAIN_INITIAL (a : M (Z * Z)) : M unit := if debug then '(buf, len) ← a; call_ (db_explain_init buf len) else skip.
Definition DEBUGGER_OFF : M unit := if debug then call_ (set_dbug_on 0) else skip.
Definition DEBUGGER_ON : M unit := if debug then call_ (set_dbug_on 1) else skip.
Definition DBUG_ABORT : M unit :=
  if debug then
    _ ← call db_flush;
    if windows then
      _ ← call sys_CrtSetReportMode; _ ← call sys_CrtSetReportFile; _ ← call (sys_exit 3); end_process
    else _ ← call sys_abort; end_process
  else skip.
Definition DBUG_CHECK_CRASH (func op : string) : M unit :=
  s ← call_strxnmov func op; DBUG_EXECUTE_IF s DBUG_ABORT.
Definition DBUG_CRASH_ENTER (func file : string) (line : Z) : M unit :=
  if debug then _ ← DBUG_ENTER func file line; DBUG_CHECK_CRASH func "_crash_enter" else skip.
Definition DBUG_CRASH_RETURN (val : M Z) : M unit :=
  if debug then f ← call_get_func; DBUG_CHECK_CRASH f "_crash_return" else v ← val; return_ v.
Definition DBUG_CRASH_VOID_RETURN : M unit :=
  if debug then f ← call_get_func; DBUG_CHECK_CRASH f "_crash_return" else return_ 0.
Definition DBUG_SUICIDE : M unit :=
  if debug then
    if windows then DBUG_ABORT else _ ← call db_flush; _ ← call db_suicide; end_process
  else skip.

(** ** Clients *)

(** The macros that are statements without control flow, with their arguments as functions of the state. *)
Inductive directive :=
  | Print (line : Z) (keyword : string) (arglist : U -> list Z)
  | Push (a1 : U -> string) | Pop | SetD (a1 : U -> string) | SetInitial (a1 : U -> string) | Process (a1 : U -> string)
  | Dump (line : Z) (keyword : string) (a : U -> Z * Z) | EndD | Lock | Unlock
  | Explain (a : U -> Z * Z) | ExplainInitial (a : U -> Z * Z) | On | Off.

(** The evaluation of the arguments first does [pre]; a macro without arguments has no place for it. *)
Definition directive_macro (pre : M unit) (d : directive) : M unit :=
  match d with
  | Print l k f => DBUG_PRINT l k (_ ← pre; gets f)
  | Push a => DBUG_PUSH (_ ← pre; gets a) | Pop => DBUG_POP | SetD a => DBUG_SET (_ ← pre; gets a)
  | SetInitial a => DBUG_SET_INITIAL (_ ← pre; gets a) | Process a => DBUG_PROCESS (_ ← pre; gets a)
  | Dump l k a => DBUG_DUMP l k (_ ← pre; gets a)
  | EndD => DBUG_END | Lock => DBUG_LOCK_FILE | Unlock => DBUG_UNLOCK_FILE | Explain a => DBUG_EXPLAIN (_ ← pre; gets a)
  | ExplainInitial a => DBUG_EXPLAIN_INITIAL (_ ← pre; gets a) | On => DEBUGGER_ON | Off => DEBUGGER_OFF
  end.

(** How a function begins: without a frame, or with one of the two macros, which declare it. *)
Inductive entry :=
  | NoEnter
  | Enter (a file : string) (line : Z)
  | CrashEnter (func file : string) (line : Z).

Definition entry_macro (e : entry) : M unit :=
  match e with
  | NoEnter => skip
  | Enter a file line => DBUG_ENTER a file line
  | CrashEnter f file line => DBUG_CRASH_ENTER f file line
  end.

(** Statements.  [Choose] takes any decision on the state of the program, loops that end included; an
    expression (a returned value, an argument of a macro) is what it executes and its value. *)
Inductive stmt :=
  | Skip
  | Act (f : U -> U)
  | Seq (s t : stmt)
  | Choose (f : U -> stmt)
  | Call (e : entry) (body : stmt) (save : Z -> U -> U)
  | CReturn (pre : stmt) (val : U -> Z)
  | Return (line : Z) (pre : stmt) (val : U -> Z)
  | VoidReturn (line : Z)
  | Execute (keyword : string) (s : stmt)
  | ExecuteIf (keyword : string) (s : stmt)
  | Evaluate (keyword : string) (s t : stmt)
  | EvaluateIf (keyword : string) (s t : stmt)
  | Directive (pre : stmt) (d : directive)
  | Assert (pre : stmt) (A : U -> bool)
  | CrashReturn (pre : stmt) (val : U -> Z)
  | CrashVoidReturn
  | Abort
  | Suicide.

Fixpoint denote (s : stmt) : M unit :=
  match s with
  | Skip => skip
  | Act f => modify f
  | Seq s t => _ ← denote s; denote t
  | Choose f => fun fr w => denote (f (user w)) fr w
  | Call e body save => v ← invoke (_ ← entry_macro e; denote body); modify (save v)
  | CReturn pre val => v ← (_ ← denote pre; gets val); return_ v
  | Return line pre val => DBUG_RETURN line (_ ← denote pre; gets val)
  | VoidReturn line => DBUG_VOID_RETURN line
  | Execute k s => DBUG_EXECUTE k (denote s)
  | ExecuteIf k s => DBUG_EXECUTE_IF k (denote s)
  | Evaluate k s t => DBUG_EVALUATE k (denote s) (denote t)
  | EvaluateIf k s t => DBUG_EVALUATE_IF k (denote s) (denote t)
  | Directive pre d => directive_macro (denote pre) d
  | Assert pre A => DBUG_ASSERT (_ ← denote pre; gets A)
  | CrashReturn pre val => DBUG_CRASH_RETURN (_ ← denote pre; gets val)
  | CrashVoidReturn => DBUG_CRASH_VOID_RETURN
  | Abort => DBUG_ABORT
  | Suicide => DBUG_SUICIDE
  end.

(** ** Disciplined clients *)

(** Where a statement stands: in a function with a frame, in one without, or in an expression. *)
Inductive mode := Framed | Frameless | Expression.

Definition body_mode (e : entry) : mode := match e with NoEnter => Frameless | _ => Framed end.

(** Every path through the statement returns. *)
Fixpoint returns (s : stmt) : Prop :=
  match s with
  | CReturn _ _ | Return _ _ _ | VoidReturn _ => True
  | Seq s t => returns s \/ returns t
  | Choose f => forall u, returns (f u)
  | Evaluate _ s t | EvaluateIf _ s t => returns s /\ returns t
  | _ => False
  end.

(** The rule of the package: a function with a frame leaves it with the macros on every path, a function
    without one does not use them, and an expression does not return.  The crash macros for returns leave no frame, and
    with the package they do not return. *)
Fixpoint disciplined (m : mode) (s : stmt) : Prop :=
  match s with
  | Seq s t | Evaluate _ s t | EvaluateIf _ s t => disciplined m s /\ disciplined m t
  | Choose f => forall u, disciplined m (f u)
  | Call e body _ => disciplined (body_mode e) body /\ (if e is NoEnter then True else returns body)
  | CReturn pre _ => m = Frameless /\ disciplined Expression pre
  | Return _ pre _ => m = Framed /\ disciplined Expression pre
  | VoidReturn _ => m = Framed
  | Execute _ s | ExecuteIf _ s => disciplined m s
  | Directive pre _ | Assert pre _ => disciplined Expression pre
  | CrashReturn pre _ => m <> Expression /\ disciplined Expression pre
  | CrashVoidReturn => m <> Expression
  | _ => True
  end.

(** ** The stack of frames *)

(** What a trace leaves open; a frame that is left must be the innermost one. *)
Definition frame_step (open : option (list nat)) (c : dcall) : option (list nat) :=
  match c with
  | db_enter _ _ _ fr => cons fr <$> open
  | db_return _ fr =>
      match open with
      | Some (g :: fs) => if decide (g = fr) then Some fs else None
      | _ => None
      end
  | _ => open
  end.

Definition open_frames (evs : list dcall) : option (list nat) := foldl frame_step (Some []) evs.

End Macros.

#[local] Arguments Next {A} a.
#[local] Arguments Returned {A} v.
#[local] Arguments Ended {A}.
#[local] Existing Instance M_ret.
#[local] Existing Instance M_bind.

(** ** Lemmas: the stack of frames *)

Section Balance.
Context `{Config} {U : Type}.
Implicit Types (w : @world U) (s : @stmt U) (st : list nat).

(** Computations as transformers of the stack: from [st] to [next] when they go on and to [ret] when they
    return; when the process ends, the frames of [base] are still open. *)
Definition moves {A} (base : list nat) (fr : nat) (st : list nat) (c : M A) (next ret : list nat) : Prop :=
  forall w, open_frames (events w) = Some st ->
  match c fr w with
  | (Next _, w') => open_frames (events w') = Some next
  | (Returned _, w') => open_frames (events w') = Some ret
  | (Ended, w') => exists fs, open_frames (events w') = Some fs /\ base `suffix_of` fs
  end.

Lemma moves_bind {A B} base fr st mid next ret (c : M A) (k : A -> M B) :
  moves base fr st c mid ret -> (forall a, moves base fr mid (k a) next ret) -> moves base fr st (c ≫= k) next ret.
Proof.
  intros Hc Hk w Hw. specialize (Hc w Hw). unfold mbind, M_bind. destruct (c fr w) as [[a|v|] w']; [|done|done].
  by apply Hk.
Qed.

Lemma moves_pure {A} base fr st ret (a : A) : moves base fr st (mret a) st ret.
Proof. by intros w Hw. Qed.

Lemma moves_call base fr st next ret (c : dcall) :
  frame_step (Some st) c = Some next -> moves base fr st (call c) next ret.
Proof. intros Hc w Hw. unfold call, open_frames in *. cbn [events]. by rewrite foldl_app, Hw. Qed.

Lemma moves_call_ base fr st next ret (c : dcall) :
  frame_step (Some st) c = Some next -> moves base fr st (call_ c) next ret.
Proof. intros Hc. eapply moves_bind; [by apply moves_call|]. intros a. apply moves_pure. Qed.

Lemma moves_gets {A} base fr st ret (f : U -> A) : moves base fr st (gets f) st ret.
Proof. by intros w Hw. Qed.

Lemma moves_frame base fr st next ret {B} (k : nat -> M B) :
  moves base fr st (k fr) next ret -> moves base fr st (frame ≫= k) next ret.
Proof. intros Hk w Hw. by apply Hk. Qed.

Lemma moves_return base fr st next (v : Z) : moves base fr st (return_ v) next st.
Proof. by intros w Hw. Qed.

Lemma moves_end base fr st next ret : base `suffix_of` st -> moves base fr st end_process next ret.
Proof. intros Hs w Hw. by exists st. Qed.

Lemma moves_invoke base fr st (body : M unit) :
  moves base (S fr) st body st st -> forall ret, moves base fr st (invoke body) st ret.
Proof. intros Hb ret w Hw. specialize (Hb w Hw). unfold invoke. by destruct (body (S fr) w) as [[a|v|] w']. Qed.

(** A computation that never goes on may be given any stack to go on with. *)
Lemma moves_returns {A} base fr st next next' ret (c : M A) :
  (forall w a w', c fr w <> (Next a, w')) -> moves base fr st c next ret -> moves base fr st c next' ret.
Proof.
  intros Hn Hc w Hw. specialize (Hc w Hw). destruct (c fr w) as [[a|v|] w'] eqn:E; [by apply Hn in E|done|done].
Qed.

End Balance.

Create HintDb dbug.
#[export] Hint Resolve moves_pure moves_gets moves_return moves_end : dbug.
#[export] Hint Extern 1 (moves _ _ _ skip _ _) => apply moves_pure : dbug.
#[export] Hint Extern 1 (moves _ _ _ (call _) _ _) => by apply moves_call : dbug.
#[export] Hint Extern 1 (moves _ _ _ (call_ _) _ _) => by apply moves_call_ : dbug.
#[export] Hint Extern 2 (moves _ _ _ (_ ≫= _) _ _) => eapply moves_bind; [|intros ?] : dbug.
#[export] Hint Extern 2 (moves _ _ _ (let '(_, _) := ?p in _) _ _) => destruct p : dbug.
#[export] Hint Extern 2 (moves _ _ _ (if ?b then _ else _) _ _) => destruct b : dbug.

Section BalanceOfMacros.
Context `{Config} {U : Type}.
Implicit Types (w : @world U) (s : @stmt U) (st : list nat).

Lemma moves_abort base fr st ret : base `suffix_of` st -> moves (U:=U) base fr st DBUG_ABORT st ret.
Proof. intros Hs. unfold DBUG_ABORT. eauto 12 with dbug. Qed.

Lemma moves_suicide base fr st ret : base `suffix_of` st -> moves (U:=U) base fr st DBUG_SUICIDE st ret.
Proof. intros Hs. unfold DBUG_SUICIDE. pose proof moves_abort. eauto 12 with dbug. Qed.

Lemma moves_execute (strict : Z) base fr st ret keyword (a1 : M (U:=U) unit) :
  moves base fr st a1 st ret ->
  moves base fr st (k ← call (db_keyword keyword strict); if k =? 0 then skip else a1) st ret.
Proof. eauto 8 with dbug. Qed.

Lemma moves_evaluate (strict : Z) {A} base fr st next ret keyword (a1 a2 : M (U:=U) A) :
  moves base fr st a1 next ret -> moves base fr st a2 next ret ->
  moves base fr st (k ← call (db_keyword keyword strict); if k =? 0 then a2 else a1) next ret.
Proof. eauto 8 with dbug. Qed.

Lemma moves_assert base fr st ret (A : M (U:=U) bool) :
  base `suffix_of` st -> moves base fr st A st ret -> moves base fr st (DBUG_ASSERT A) st ret.
Proof. intros Hs HA. unfold DBUG_ASSERT, assert. eauto 12 with dbug. Qed.

Lemma moves_check_crash base fr st ret func op : base `suffix_of` st -> moves (U:=U) base fr st (DBUG_CHECK_CRASH func op) st ret.
Proof.
  intros Hs. unfold DBUG_CHECK_CRASH. eapply moves_bind with (mid := st).
  - intros w Hw. unfold call_strxnmov. destruct (strxnmov (events w) func op); [done|by exists st].
  - intros s. unfold DBUG_EXECUTE_IF. destruct debug; [|apply moves_pure]. by apply moves_execute, moves_abort.
Qed.

Lemma moves_directive base fr st ret (pre : M unit) (d : @directive U) :
  moves base fr st pre st ret -> moves base fr st (directive_macro pre d) st ret.
Proof.
  intros Hp. assert (Hg : forall A (f : U -> A), moves base fr st (_ ← pre; gets f) st ret).
  { intros A f. eapply moves_bind; [done|]. intros _. apply moves_gets. }
  destruct d; cbn [directive_macro];
    unfold DBUG_PRINT, DBUG_PUSH, DBUG_POP, DBUG_SET, DBUG_SET_INITIAL, DBUG_PROCESS, DBUG_DUMP, DBUG_END,
      DBUG_LOCK_FILE, DBUG_UNLOCK_FILE, DBUG_EXPLAIN, DBUG_EXPLAIN_INITIAL, DEBUGGER_ON, DEBUGGER_OFF;
    eauto 12 with dbug.
Qed.

(** The stack inside of a body whose caller's is [st]. *)
Definition stack_in (m : mode) (fr : nat) st : list nat :=
  match m with Framed => if debug then fr :: st else st | _ => st end.

Lemma stack_in_suffix base m fr st : base `suffix_of` st -> base `suffix_of` stack_in m fr st.
Proof. intros Hs. destruct m; cbn; [destruct debug|..]; try done. by apply suffix_cons_r. Qed.

Lemma moves_enter base fr st ret (e : entry) :
  base `suffix_of` st -> moves (U:=U) base fr st (entry_macro e) (stack_in (body_mode e) fr st) ret.
Proof.
  intros Hs. destruct e; cbn [entry_macro body_mode stack_in].
  - apply moves_pure.
  - unfold DBUG_ENTER. destruct debug; [|apply moves_pure]. apply moves_frame. by apply moves_call_.
  - unfold DBUG_CRASH_ENTER, DBUG_ENTER. destruct debug eqn:E; [|apply moves_pure].
    eapply moves_bind; [apply moves_frame; by apply moves_call_|]. intros _. apply moves_check_crash. by apply suffix_cons_r.
Qed.

Lemma moves_leave base fr st line ret : moves (U:=U) base fr (stack_in Framed fr st) (DBUG_LEAVE line) st ret.
Proof.
  unfold DBUG_LEAVE, stack_in. destruct debug; [|apply moves_pure]. apply moves_frame, moves_call_. cbn.
  by rewrite decide_True.
Qed.

(** An expression and its value. *)
Lemma moves_value base fr st next ret (pre : M (U:=U) unit) (val : U -> Z) :
  moves base fr st pre st ret -> ret = st -> moves base fr st (v ← (_ ← pre; gets val); return_ v) next ret.
Proof.
  intros Hp ->. eapply moves_bind; [|intros v; apply moves_return]. eapply moves_bind; [exact Hp|]. intros _. apply moves_gets.
Qed.

(** The crash macros for returns: with the package they go on, without it they return what [ret] does. *)
Lemma moves_crash_return base m fr st (k : M (U:=U) unit) : base `suffix_of` st -> moves base fr st k st st ->
  moves base fr (stack_in m fr st) (if debug then f ← call_get_func; DBUG_CHECK_CRASH f "_crash_return" else k) (stack_in m fr st) st.
Proof.
  intros Hs Hk. pose proof (stack_in_suffix base m fr st Hs) as Hs'. destruct debug eqn:E.
  - eapply moves_bind; [|intros f; by apply moves_check_crash]. intros w Hw. unfold call_get_func. cbn [events].
    unfold open_frames in *. by rewrite foldl_app, Hw.
  - replace (stack_in m fr st) with st by (destruct m; cbn; by rewrite ?E). exact Hk.
Qed.

End BalanceOfMacros.

#[export] Hint Resolve moves_abort moves_suicide moves_assert moves_directive stack_in_suffix : dbug.

Section Clients.
Context {U : Type}.
Implicit Types (w : @world U) (s : @stmt U) (st : list nat).

(** A statement that returns on every path does not go on, in either build. *)
Lemma returns_sound `{Config} (s : @stmt U) : returns s -> forall fr w a w', denote s fr w <> (Next a, w').
Proof.
  assert (Hret : forall A (m : M A) (v : A -> Z) fr w a w', (x ← m; return_ (v x)) fr w <> (Next (A:=unit) a, w')).
  { intros A m v fr w a w'. unfold mbind, M_bind. by destruct (m fr w) as [[x|x|] w1]. }
  induction s as [|f|s IHs t IHt|f IHf|e body IHb save|pre IHp val|line pre IHp val|line|kw s IHs|kw s IHs
                 |kw s IHs t IHt|kw s IHs t IHt|pre IHp d|pre IHp A|pre IHp val| | |]; cbn [returns]; try done.
  - intros Hr fr w a w'. cbn [denote]. unfold mbind, M_bind. destruct (denote s fr w) as [[x|x|] w1] eqn:E; try done.
    destruct Hr as [Hr|Hr]; [by apply (IHs Hr) in E|by apply IHt].
  - intros Hr fr w a w'. by apply IHf.
  - intros _ fr w a w'. cbn [denote]. apply (Hret Z _ id).
  - intros _ fr w a w'. cbn [denote]. unfold DBUG_RETURN. destruct debug; [|apply (Hret Z _ id)].
    unfold DBUG_LEAVE. destruct debug; cbn; [apply (Hret Z _ id)|]. apply (Hret Z _ id).
  - intros _ fr w a w'. cbn [denote]. unfold DBUG_VOID_RETURN, DBUG_LEAVE. by destruct debug.
  - intros [Hs Ht] fr w a w'. cbn [denote]. unfold DBUG_EVALUATE. destruct debug; [|by apply IHt].
    unfold mbind, M_bind. cbn. destruct (_ =? 0); [by apply IHt|by apply IHs].
  - intros [Hs Ht] fr w a w'. cbn [denote]. unfold DBUG_EVALUATE_IF. destruct debug; [|by apply IHt].
    unfold mbind, M_bind. cbn. destruct (_ =? 0); [by apply IHt|by apply IHs].
Qed.

(** A disciplined statement moves from the stack of its mode to itself, and to the one of the caller when it
    returns, which an expression does not. *)
Lemma disciplined_moves `{Config} (s : @stmt U) : forall m base fr st ret,
  disciplined m s -> base `suffix_of` st -> (m = Expression \/ ret = st) ->
  moves base fr (stack_in m fr st) (denote s) (stack_in m fr st) ret.
Proof.
  induction s as [|f|s IHs t IHt|f IHf|e body IHb save|pre IHp val|line pre IHp val|line|kw s IHs|kw s IHs
                 |kw s IHs t IHt|kw s IHs t IHt|pre IHp d|pre IHp A|pre IHp val| | |]; intros m base fr st ret; cbn [disciplined denote];
    intros Hd Hs Hm; pose proof (stack_in_suffix base m fr st Hs) as Hs'.
  - apply moves_pure.
  - by intros w Hw.
  - destruct Hd as [Hd1 Hd2]. eapply moves_bind; [by apply IHs|]. intros _. by apply IHt.
  - intros w Hw. by apply (IHf (user w) m).
  - destruct Hd as [Hb Hr]. eapply moves_bind; [|intros v w Hw; exact Hw]. apply moves_invoke.
    eapply moves_bind; [by apply moves_enter|]. intros _.
    pose proof (IHb (body_mode e) base (S fr) _ _ Hb Hs' (or_intror eq_refl)) as IH. destruct e; [exact IH|..];
      (eapply moves_returns; [by apply returns_sound|exact IH]).
  - destruct Hd as [-> Hp]. destruct Hm as [[=]| ->]. by apply moves_value; [apply (IHp Expression _ _ _ _ Hp Hs); left|].
  - destruct Hd as [-> Hp]. destruct Hm as [[=]| ->].
    eapply moves_returns with (next := st); [by apply (returns_sound (Return line pre val))|].
    assert (Hv : moves base fr st (v ← (_ ← denote pre; gets val); return_ v) st st)
      by by apply moves_value; [apply (IHp Expression _ _ _ _ Hp Hs); left|].
    unfold DBUG_RETURN. pose proof (moves_leave (U:=U) base fr st line st) as Hl. destruct debug eqn:E; [|].
    + eapply moves_bind; [exact Hl|]. intros _. exact Hv.
    + cbn [stack_in]. rewrite E. exact Hv.
  - subst m. destruct Hm as [[=]| ->]. eapply moves_returns with (next := st); [by apply (returns_sound (VoidReturn line))|].
    unfold DBUG_VOID_RETURN. pose proof (moves_leave (U:=U) base fr st line st) as Hl. destruct debug eqn:E.
    + eapply moves_bind; [exact Hl|]. intros _. apply moves_return.
    + cbn [stack_in]. rewrite E. apply moves_return.
  - unfold DBUG_EXECUTE. destruct debug eqn:E; [|apply moves_pure]. by apply moves_execute, IHs.
  - unfold DBUG_EXECUTE_IF. destruct debug eqn:E; [|apply moves_pure]. by apply moves_execute, IHs.
  - destruct Hd as [Hd1 Hd2]. unfold DBUG_EVALUATE. destruct debug eqn:E; [|by apply IHt].
    apply moves_evaluate; [by apply IHs|by apply IHt].
  - destruct Hd as [Hd1 Hd2]. unfold DBUG_EVALUATE_IF. destruct debug eqn:E; [|by apply IHt].
    apply moves_evaluate; [by apply IHs|by apply IHt].
  - apply moves_directive, (IHp Expression _ _ _ _ Hd Hs'). by left.
  - apply moves_assert; [done|]. eapply moves_bind; [by apply (IHp Expression _ _ _ _ Hd Hs'); left|]. intros _. apply moves_gets.
  - destruct Hd as [Hm' Hp]. destruct Hm as [->| ->]; [done|]. apply moves_crash_return; [done|].
    apply moves_value; [|done]. apply (IHp Expression _ _ _ _ Hp Hs). by left.
  - destruct Hm as [->| ->]; [done|]. apply (moves_crash_return base m fr st (return_ 0)); [done|]. apply moves_return.
  - by apply moves_abort.
  - by apply moves_suicide.
Qed.

End Clients.

(** ** Lemmas: the two builds *)

Section Builds.
Context {U : Type} (on off : Config).
Implicit Types (w : @world U) (s : @stmt U).

(** No keyword of the program is switched on. *)
Definition quiet : Prop := forall h keyword strict, answer (Config := on) h (db_keyword keyword strict) = 0.

Context (Hquiet : quiet) (Hoff : debug (Config := off) = false).

(** As long as the process does not end, the second computation ends as the first, with the same state of the
    program and no call. *)
Definition simulates {A} (c1 c2 : @M U A) : Prop := forall fr w1 w2, user w1 = user w2 ->
  let '(o, w1') := c1 fr w1 in
  o = Ended \/ exists w2', c2 fr w2 = (o, w2') /\ user w1' = user w2' /\ events w2' = events w2.

Lemma simulates_bind {A B} (c1 c2 : M A) (k1 k2 : A -> M B) :
  simulates c1 c2 -> (forall a, simulates (k1 a) (k2 a)) -> simulates (c1 ≫= k1) (c2 ≫= k2).
Proof.
  intros Hc Hk fr w1 w2 Hu. specialize (Hc fr w1 w2 Hu). unfold mbind, M_bind.
  destruct (c1 fr w1) as [[a|v|] w1']; [| |by left]; destruct Hc as [|(w2' & -> & Hu' & He)]; try done.
  - specialize (Hk a fr w1' w2' Hu'). destruct (k1 a fr w1') as [o w1'']. rewrite <- He. exact Hk.
  - right. by exists w2'.
Qed.

(** A computation that has no effect on the program: it ends the process or leaves the program alone. *)
Definition unobserved {A} (Q : A -> Prop) (c : @M U A) : Prop := forall fr w,
  let '(o, w') := c fr w in o = Ended \/ user w' = user w /\ exists a, o = Next a /\ Q a.

Lemma simulates_unobserved {A B} Q (c : M A) (k : A -> M B) (c2 : M B) :
  unobserved Q c -> (forall a, Q a -> simulates (k a) c2) -> simulates (c ≫= k) c2.
Proof.
  intros Hc Hk fr w1 w2 Hu. specialize (Hc fr w1). unfold mbind, M_bind.
  destruct (c fr w1) as [o w1']; destruct Hc as [->|(Hu' & a & -> & Ha)]; [by left|]. apply (Hk a Ha). by rewrite Hu'.
Qed.

Lemma simulates_skip (c : M unit) : unobserved (fun _ => True) c -> simulates c skip.
Proof.
  intros Hc fr w1 w2 Hu. specialize (Hc fr w1). destruct (c fr w1) as [o w1'].
  destruct Hc as [->|(Hu' & [] & -> & _)]; [by left|right]. exists w2. by rewrite Hu'.
Qed.

Lemma simulates_gets {A} (f : U -> A) : simulates (gets f) (gets f).
Proof. intros fr w1 w2 Hu. right. exists w2. by rewrite Hu. Qed.

Lemma simulates_modify (f : U -> U) : simulates (modify f) (modify f).
Proof. intros fr w1 w2 Hu. right. eexists. split; [done|]. cbn. by rewrite Hu. Qed.

Lemma simulates_return (v : Z) : simulates (return_ v) (return_ v).
Proof. intros fr w1 w2 Hu. right. by exists w2. Qed.

Lemma simulates_invoke (b1 b2 : M unit) : simulates b1 b2 -> simulates (invoke b1) (invoke b2).
Proof.
  intros Hb fr w1 w2 Hu. specialize (Hb (S fr) w1 w2 Hu). unfold invoke.
  destruct (b1 (S fr) w1) as [[a|v|] w1']; [| |by left]; destruct Hb as [|(w2' & -> & Hb)]; try done; right;
    by exists w2'.
Qed.

Lemma unobserved_call (c : dcall) (Q : Z -> Prop) :
  (forall h, Q (answer (Config := on) h c)) -> unobserved Q (call (H := on) c).
Proof. intros HQ fr w. right. split; [done|]. eexists. split; [done|]. apply HQ. Qed.

Lemma unobserved_bind {A B} (Q : A -> Prop) (R : B -> Prop) (c : M A) (k : A -> M B) :
  unobserved Q c -> (forall a, Q a -> unobserved R (k a)) -> unobserved R (c ≫= k).
Proof.
  intros Hc Hk fr w. specialize (Hc fr w). unfold mbind, M_bind.
  destruct (c fr w) as [o w']; destruct Hc as [->|(Hu & a & -> & Ha)]; [by left|].
  specialize (Hk a Ha fr w'). destruct (k a fr w') as [o' w'']. destruct Hk as [->|[Hu' Hk]]; [by left|right].
  by rewrite Hu', Hu.
Qed.

Lemma unobserved_skip : unobserved (fun _ => True) skip.
Proof. intros fr w. right. split; [done|]. by exists tt. Qed.

Lemma unobserved_end (Q : unit -> Prop) : unobserved Q end_process.
Proof. intros fr w. by left. Qed.

Lemma unobserved_call_ (c : dcall) : unobserved (fun _ => True) (call_ (H := on) c).
Proof. eapply unobserved_bind; [by apply (unobserved_call c (fun _ => True))|]. intros _ _. apply unobserved_skip. Qed.

Lemma unobserved_keyword {A} (Q : A -> Prop) keyword strict (a1 a2 : M A) :
  unobserved Q a2 ->
  unobserved Q (k ← call (H := on) (db_keyword keyword strict); if k =? 0 then a2 else a1).
Proof.
  intros H2. eapply unobserved_bind; [apply (unobserved_call _ (fun k => k = 0)); intros h; apply Hquiet|].
  by intros k ->.
Qed.

(** Each macro against its definition without the package. *)
Lemma simulates_execute (strict : Z) keyword (a1 : M unit) :
  simulates (k ← call (H := on) (db_keyword keyword strict); if k =? 0 then skip else a1) skip.
Proof. apply simulates_skip, unobserved_keyword, unobserved_skip. Qed.

Lemma simulates_evaluate (strict : Z) {A} keyword (a1 a2 b2 : M A) :
  simulates a2 b2 ->
  simulates (k ← call (H := on) (db_keyword keyword strict); if k =? 0 then a2 else a1) b2.
Proof.
  intros H2. eapply simulates_unobserved;
    [apply (unobserved_call _ (fun k => k = 0)); intros h; apply Hquiet|]. by intros k ->.
Qed.

Lemma unobserved_abort : unobserved (fun _ => True) (DBUG_ABORT (H := on)).
Proof.
  unfold DBUG_ABORT. destruct (@debug on); [|apply unobserved_skip].
  eapply unobserved_bind; [by apply (unobserved_call _ (fun _ => True))|]. intros _ _.
  destruct windows; repeat (eapply unobserved_bind; [by apply (unobserved_call _ (fun _ => True))|]; intros _ _);
    apply unobserved_end.
Qed.

Lemma unobserved_suicide : unobserved (fun _ => True) (DBUG_SUICIDE (H := on)).
Proof.
  unfold DBUG_SUICIDE. pose proof unobserved_abort. destruct (@debug on); [|apply unobserved_skip]. destruct windows; [done|].
  repeat (eapply unobserved_bind; [by apply (unobserved_call _ (fun _ => True))|]; intros _ _). apply unobserved_end.
Qed.

Lemma unobserved_gets {A} (pre : M unit) (f : U -> A) :
  unobserved (fun _ => True) pre -> unobserved (fun _ => True) (_ ← pre; gets f).
Proof. intros Hp. eapply unobserved_bind; [exact Hp|]. intros _ _ fr w. right. split; [done|]. by eexists. Qed.

Lemma unobserved_argument {A} (a : M A) (k : A -> M unit) : unobserved (fun _ => True) a ->
  (forall x, unobserved (fun _ => True) (k x)) -> unobserved (fun _ => True) (if @debug on then a ≫= k else skip).
Proof. intros Ha Hk. destruct (@debug on); [|apply unobserved_skip]. eapply unobserved_bind; [exact Ha|]. by intros x _. Qed.

Lemma unobserved_assert (pre : M unit) (A : U -> bool) :
  unobserved (fun _ => True) pre -> unobserved (fun _ => True) (DBUG_ASSERT (H := on) (_ ← pre; gets A)).
Proof.
  intros Hp. unfold DBUG_ASSERT, assert. destruct (@debug on); [|apply unobserved_skip]. destruct ndebug; [apply unobserved_skip|].
  eapply unobserved_bind; [by apply unobserved_gets|]. intros [|] _; [apply unobserved_skip|apply unobserved_end].
Qed.

Lemma unobserved_directive (pre : M unit) (d : @directive U) :
  unobserved (fun _ => True) pre -> unobserved (fun _ => True) (directive_macro (H := on) pre d).
Proof.
  intros Hp. assert (Hg : forall A (f : U -> A), unobserved (fun _ => True) (_ ← pre; gets f)) by (intros A f; by apply unobserved_gets).
  destruct d; cbn [directive_macro];
    unfold DBUG_PUSH, DBUG_POP, DBUG_SET, DBUG_SET_INITIAL, DBUG_PROCESS, DBUG_DUMP, DBUG_END,
      DBUG_LOCK_FILE, DBUG_UNLOCK_FILE, DBUG_EXPLAIN, DBUG_EXPLAIN_INITIAL, DEBUGGER_ON, DEBUGGER_OFF;
    try (apply unobserved_argument; [apply Hg|]; intros x; try destruct x; apply unobserved_call_);
    try (destruct (@debug on); [apply unobserved_call_|apply unobserved_skip]).
  unfold DBUG_PRINT. apply unobserved_argument; [by apply (unobserved_call _ (fun _ => True))|]. intros _.
  eapply unobserved_bind; [apply Hg|]. intros args _. apply unobserved_call_.
Qed.

Lemma unobserved_enter a file line : unobserved (fun _ => True) (DBUG_ENTER (U:=U) (H := on) a file line).
Proof. unfold DBUG_ENTER. destruct (@debug on); [|apply unobserved_skip]. intros fr w. apply unobserved_call_. Qed.

Lemma unobserved_leave line : unobserved (fun _ => True) (DBUG_LEAVE (U:=U) (H := on) line).
Proof. unfold DBUG_LEAVE. destruct (@debug on); [|apply unobserved_skip]. intros fr w. apply unobserved_call_. Qed.

Lemma unobserved_entry (e : entry) : unobserved (fun _ => True) (entry_macro (U:=U) (H := on) e).
Proof.
  destruct e; cbn [entry_macro]; [apply unobserved_skip|apply unobserved_enter|].
  unfold DBUG_CRASH_ENTER. pose proof (unobserved_enter func file line) as He.
  destruct (@debug on) eqn:E; [|apply unobserved_skip]. eapply unobserved_bind; [exact He|]. intros _ _.
  unfold DBUG_CHECK_CRASH, DBUG_EXECUTE_IF. rewrite E. apply (unobserved_bind (fun _ => True)); [|intros s _; apply unobserved_keyword, unobserved_skip].
  intros fr w. unfold call_strxnmov. destruct (strxnmov (events w) func _) as [x|]; [right; split; [done|by exists x]|by left].
Qed.

(** Without the package a macro of this kind is empty. *)
Lemma entry_off (e : entry) : entry_macro (U:=U) (H := off) e = skip.
Proof. destruct e; cbn; unfold DBUG_ENTER, DBUG_CRASH_ENTER; by rewrite ?Hoff. Qed.

Lemma directive_off (pre : M unit) (d : @directive U) : directive_macro (H := off) pre d = skip.
Proof.
  destruct d; cbn [directive_macro];
    unfold DBUG_PRINT, DBUG_PUSH, DBUG_POP, DBUG_SET, DBUG_SET_INITIAL, DBUG_PROCESS, DBUG_DUMP, DBUG_END,
      DBUG_LOCK_FILE, DBUG_UNLOCK_FILE, DBUG_EXPLAIN, DBUG_EXPLAIN_INITIAL, DEBUGGER_ON, DEBUGGER_OFF; by rewrite Hoff.
Qed.

Lemma simulates_expression (p1 p2 : M unit) (val : U -> Z) :
  simulates p1 p2 -> simulates (v ← (_ ← p1; gets val); return_ v) (v ← (_ ← p2; gets val); return_ v).
Proof.
  intros Hp. apply simulates_bind; [|intros v; apply simulates_return].
  apply simulates_bind; [done|]. intros _. apply simulates_gets.
Qed.

(** The programs that do not depend on the package: the arguments of the macros that it drops have no effect,
    and the crash macros for returns are not used.  What the package executes for a keyword may do anything. *)
Fixpoint independent (s : @stmt U) : Prop :=
  match s with
  | Seq s t => independent s /\ independent t
  | Choose f => forall u, independent (f u)
  | Call _ body _ => independent body
  | CReturn pre _ | Return _ pre _ => independent pre
  | Evaluate _ _ t | EvaluateIf _ _ t => independent t
  | Directive pre _ | Assert pre _ => unobserved (fun _ => True) (denote (H := on) pre)
  | CrashReturn _ _ | CrashVoidReturn => False
  | _ => True
  end.

(** Each of them runs without the package as with it. *)
Lemma denote_simulates (s : @stmt U) : independent s -> simulates (denote (H := on) s) (denote (H := off) s).
Proof.
  induction s as [|f|s IHs t IHt|f IHf|e body IHb save|pre IHp val|line pre IHp val|line|kw s IHs|kw s IHs
                 |kw s IHs t IHt|kw s IHs t IHt|pre IHp d|pre IHp A|pre IHp val| | |]; cbn [independent denote]; intros Hi.
  - apply simulates_skip, unobserved_skip.
  - apply simulates_modify.
  - destruct Hi. apply simulates_bind; [by apply IHs|]. intros _. by apply IHt.
  - intros fr w1 w2 Hu. rewrite <- Hu. by apply IHf.
  - apply simulates_bind; [|intros v; apply simulates_modify]. apply simulates_invoke. rewrite entry_off.
    eapply simulates_unobserved; [apply unobserved_entry|]. intros _ _. by apply IHb.
  - by apply simulates_expression, IHp.
  - unfold DBUG_RETURN. rewrite Hoff. pose proof (unobserved_leave line) as Hl.
    destruct (@debug on); [|by apply simulates_expression, IHp].
    eapply simulates_unobserved; [exact Hl|]. intros _ _. by apply simulates_expression, IHp.
  - unfold DBUG_VOID_RETURN. rewrite Hoff. pose proof (unobserved_leave line) as Hl.
    destruct (@debug on); [|by apply simulates_return].
    eapply simulates_unobserved; [exact Hl|]. intros _ _. apply simulates_return.
  - unfold DBUG_EXECUTE. rewrite Hoff. destruct (@debug on); [apply simulates_execute|].
    apply simulates_skip, unobserved_skip.
  - unfold DBUG_EXECUTE_IF. rewrite Hoff. destruct (@debug on); [apply simulates_execute|].
    apply simulates_skip, unobserved_skip.
  - unfold DBUG_EVALUATE. rewrite Hoff. destruct (@debug on); [|by apply IHt]. by apply simulates_evaluate, IHt.
  - unfold DBUG_EVALUATE_IF. rewrite Hoff. destruct (@debug on); [|by apply IHt]. by apply simulates_evaluate, IHt.
  - rewrite directive_off. by apply simulates_skip, unobserved_directive.
  - unfold DBUG_ASSERT at 2. rewrite Hoff. by apply simulates_skip, unobserved_assert.
  - by destruct Hi.
  - by destruct Hi.
  - unfold DBUG_ABORT at 2. rewrite Hoff. apply simulates_skip, unobserved_abort.
  - unfold DBUG_SUICIDE at 2. rewrite Hoff. apply simulates_skip, unobserved_suicide.
Qed.

End Builds.

(** ** Properties *)

(** A build with the package, in which no keyword is on, and one without it. *)
Definition debug_build (keywords : list string) : Config := {|
  debug := true; windows := false; ndebug := false;
  answer := fun _ c => match c with db_keyword k _ => if decide (k ∈ keywords) then 1 else 0 | _ => 0 end;
  get_func := fun _ => "f";
  strxnmov := fun _ a b => Some (String.append a b) |}.
Definition release_build : Config := {|
  debug := false; windows := false; ndebug := true;
  answer := fun _ _ => 0; get_func := fun _ => ""; strxnmov := fun _ _ _ => None |}.

(** A client: the factorial by a function that calls itself in its return, with a trace, whose argument is the result of
    a function, and checks. *)
Definition argument : @stmt (Z * Z) := Call (Enter "argument" "f.c" 3) (Return 4 Skip fst) (fun _ u => u).
Fixpoint factorial (n : nat) : @stmt (Z * Z) :=
  match n with
  | O => Seq (Directive argument (Print 11 "info" (fun u => [fst u]))) (Return 12 Skip (fun _ => 1))
  | S n => Seq (Assert Skip (fun u => 0 <? fst u)) (Seq (ExecuteIf "fail" (Return 13 Skip (fun _ => -1)))
      (Return 14 (Seq (Act (fun u => (fst u - 1, snd u)))
        (Call (Enter "factorial" "f.c" 10) (factorial n) (fun v u => (fst u + 1, v * (fst u + 1))))) snd))
  end.
Definition client : @stmt (Z * Z) := Call (Enter "factorial" "f.c" 10) (factorial 4) (fun v u => (fst u, v)).

(** C20.  The package does not change a program in which the arguments of the macros that [DBUG_OFF] drops have
    no effect on the state and which does not use DBUG_CRASH_RETURN and DBUG_CRASH_VOID_RETURN ([independent]): when no
    keyword is switched on and the build with the package does not end the process (by a failed assertion, DBUG_ABORT or
    DBUG_SUICIDE), the build with [DBUG_OFF] does the same with the state of the program, whatever the package answers
    otherwise, and calls nothing. *)
Theorem dbug_transparent {U : Type} (on off : Config) (s : @stmt U) (fr : nat) (w1 w1' w2 : world) (o : outcome unit) :
  quiet on -> debug (Config := off) = false -> independent on s -> user w1 = user w2 ->
  denote (H := on) s fr w1 = (o, w1') -> o <> Ended ->
  exists w2', denote (H := off) s fr w2 = (o, w2') /\ user w2' = user w1' /\ events w2' = events w2.
Proof.
  intros Hq Hoff Hi Hu Hrun Ho. pose proof (denote_simulates on off Hq Hoff s Hi fr w1 w2 Hu) as Hs. rewrite Hrun in Hs.
  destruct Hs as [|(w2' & Hw & Hu' & He)]; [done|]. by exists w2'.
Qed.

Lemma client_independent : independent (debug_build []) client.
Proof.
  assert (Hf : forall n, independent (debug_build []) (factorial n)).
  { induction n as [|n IH]; cbn -[argument]; [|split_and!; try done].
    - split; [|done]. intros fr w. right. split; [done|]. by exists tt.
    - intros fr w. right. split; [done|]. by exists tt. }
  exact (Hf 4%nat).
Qed.

Lemma dbug_transparent_witness :
  let w := {| user := (4, 0); events := [] |} in
  exists w', denote (H := release_build) client 0%nat w = (Next tt, w') /\ user w' = (4, 24) /\ events w' = [].
Proof.
  cbv zeta.
  destruct (dbug_transparent (debug_build []) release_build client 0%nat {| user := (4, 0); events := [] |}
    (snd (denote (H := debug_build []) client 0%nat {| user := (4, 0); events := [] |}))
    {| user := (4, 0); events := [] |} (Next tt)) as (w2 & H1 & H2 & H3).
  - by intros h k strict.
  - reflexivity.
  - exact client_independent.
  - reflexivity.
  - vm_compute. reflexivity.
  - discriminate.
  - exists w2. split; [exact H1|]. split; [rewrite H2; vm_compute; reflexivity|exact H3].
Defined.

(** C21.  The trace of a disciplined program is well bracketed, whatever keywords are on and
    whatever they execute: each [_db_return_] leaves the innermost open frame, a function that is entered is left
    on every path, also when the value it returns is computed by other functions after its frame is
    left, and when the process is ended the frames that were open at the start still are. *)
Theorem dbug_balanced `{Config} {U : Type} (e : entry) (body : @stmt U) (save : Z -> U -> U) (fr : nat) (w w' : world)
    (o : outcome unit) (st : list nat) :
  disciplined Expression (Call e body save) -> open_frames (events w) = Some st ->
  denote (Call e body save) fr w = (o, w') ->
  match o with
  | Ended => exists fs, open_frames (events w') = Some (fs ++ st)
  | _ => open_frames (events w') = Some st
  end.
Proof.
  intros Hd Hw Hrun.
  pose proof (disciplined_moves (Call e body save) Expression st fr st st Hd ltac:(reflexivity) (or_introl eq_refl) w Hw) as Hm.
  rewrite Hrun in Hm. destruct o; [exact Hm..|]. destruct Hm as (fs & Hfs & k & ->). by exists k.
Qed.

Lemma factorial_disciplined (n : nat) : disciplined Framed (factorial n) /\ returns (factorial n).
Proof. induction n as [|n IH]; cbn; tauto. Qed.

Lemma dbug_balanced_witness :
  let w := {| user := (4, 0); events := [db_enter "main" "m.c" 1 7] |} in
  open_frames (events (snd (denote (H := debug_build ["fail"]) client 0%nat w))) = Some [7%nat].
Proof.
  cbv zeta.
  refine (dbug_balanced (H := debug_build ["fail"]) (Enter "factorial" "f.c" 10) (factorial 4) (fun v u => (fst u, v)) 0
    {| user := (4, 0); events := [db_enter "main" "m.c" 1 7] |} _ (Next tt) [7%nat] _ _ _).
  - apply factorial_disciplined.
  - reflexivity.
  - vm_compute. reflexivity.
Defined.

(** With the package [DBUG_CRASH_RETURN] does not return: unless strxnmov faults the function goes on behind it, with its
    frame open, where the build without the package returns the value. *)
Lemma crash_return_falls_through (on off : Config) {U : Type} (val : Z) (rest : M unit) (fr : nat) (w : @world U) :
  quiet on -> debug (Config := on) = true -> debug (Config := off) = false ->
  ((exists w', (_ ← DBUG_CRASH_RETURN (H := on) (mret val); rest) fr w = (Ended, w'))
   \/ exists evs, (_ ← DBUG_CRASH_RETURN (H := on) (mret val); rest) fr w = rest fr {| user := user w; events := events w ++ evs |})
  /\ (_ ← DBUG_CRASH_RETURN (H := off) (mret val); rest) fr w = (Returned val, w).
Proof.
  intros Hq Hon Hoff. unfold DBUG_CRASH_RETURN, DBUG_CHECK_CRASH, DBUG_EXECUTE_IF. rewrite Hon, Hoff. split; [|done].
  unfold mbind, M_bind, call_get_func, call_strxnmov, call. cbn. destruct (strxnmov _ _ _); [right|left; by eexists].
  rewrite Hq. cbn. eexists. by rewrite <- app_assoc.
Qed.
