(* ===== verification/Locks.v ===== *)
(** * Mutexes and read-write locks (my_pthread.h)

    The names [pthread_mutex_*], [rw_*] and [rw_pr_*] stand for different functions in different builds.
    Each build is an instance of one interface, proved to satisfy its laws from the documented
    behaviour of the functions it calls; an executable system shows that it can be satisfied.
    LockClients.v proves what clients of the interface get. *)
From S2P Require Import Prelude.

(** A thread is its number; an operation on a lock waits ([None]) or gives a result and the new lock. *)
Abbreviation tid := nat.
Abbreviation op L := (tid -> L -> option (Z * L)).

(** ** The interfaces *)

(** What is observable of a lock: who holds it, who holds it for writing, that it is well formed, and
    whether there are try operations for it. *)
Class Observable (L : Type) := {
  holders : L -> gset tid; writer : L -> option tid; ok : L -> Prop; tryable : L -> bool }.

Class RwLock (L : Type) := {
  rdlock : op L; wrlock : op L; tryrdlock : op L; trywrlock : op L; unlock : op L;
  assert_write_owner : tid -> L -> bool;
  assert_not_write_owner : tid -> L -> bool }.

(** The effect of a successful request for reading and for writing.  A build may use an exclusive lock for
    a reader, which is then seen as its writer. *)
Definition keeps {L} `{Observable L} (l l' : L) : Prop := ok l' /\ tryable l' = tryable l.
Definition gets_read {L} `{Observable L} (t : tid) (l l' : L) : Prop :=
  writer l = None /\ holders l' = {[t]} ∪ holders l /\ keeps l l' /\
  (writer l' = None \/ (holders l = ∅ /\ writer l' = Some t)).
Definition gets_write {L} `{Observable L} (t : tid) (l l' : L) : Prop :=
  holders l = ∅ /\ holders l' = {[t]} /\ keeps l l' /\ writer l' = Some t.
Definition same {L} `{Observable L} (l l' : L) : Prop :=
  holders l' = holders l /\ keeps l l' /\ writer l' = writer l.

(** The documented behaviour of a family of functions on read-write locks: a request that is granted is granted
    as said, a free lock is granted, a try does not wait, a holder can release. *)
Record rw_behaves_at {L} `{Observable L} (rd wr tryrd trywr un : op L) (t : tid) (l : L) : Prop := {
  rd_granted r l' : ok l -> t ∉ holders l -> rd t l = Some (r, l') -> r = 0 /\ gets_read t l l';
  wr_granted r l' : ok l -> t ∉ holders l -> wr t l = Some (r, l') -> r = 0 /\ gets_write t l l';
  rd_free : ok l -> holders l = ∅ -> is_Some (rd t l);
  wr_free : ok l -> holders l = ∅ -> is_Some (wr t l);
  tryrd_answers : ok l -> tryable l = true -> t ∉ holders l -> exists r l', tryrd t l = Some (r, l')
    /\ (if r =? 0 then gets_read t l l' else same l l');
  trywr_answers : ok l -> tryable l = true -> t ∉ holders l -> exists r l', trywr t l = Some (r, l')
    /\ (if r =? 0 then gets_write t l l' else same l l');
  un_releases : ok l -> t ∈ holders l -> exists l', un t l = Some (0, l')
    /\ holders l' = holders l ∖ {[t]} /\ keeps l l' /\ writer l' = None }.
Definition rw_behaviour {L} `{Observable L} (rd wr tryrd trywr un : op L) : Prop :=
  forall t l, rw_behaves_at rd wr tryrd trywr un t l.

Class RwLaws (L : Type) `{Observable L} `{RwLock L} : Prop := {
  rw_behaves : rw_behaviour (L := L) rdlock wrlock tryrdlock trywrlock unlock;
  assert_owner_holds t l : ok l -> writer l = Some t -> assert_write_owner t l = true;
  assert_not_owner_holds t l : ok l -> writer l <> Some t -> assert_not_write_owner t l = true }.

(** The documented behaviour of the functions on a mutex. *)
Record mutex_behaviour {M} (ok : M -> Prop) (owner : M -> option tid) (lock trylock unlock : op M) : Prop := {
  lock_free t m : ok m -> owner m = None -> exists m', lock t m = Some (0, m') /\ ok m' /\ owner m' = Some t;
  lock_waits t u m : ok m -> owner m = Some u -> u <> t -> lock t m = None;
  trylock_free t m : ok m -> owner m = None -> exists m', trylock t m = Some (0, m') /\ ok m' /\ owner m' = Some t;
  trylock_busy t u m : ok m -> owner m = Some u -> u <> t ->
    exists r m', trylock t m = Some (r, m') /\ r <> 0 /\ ok m' /\ owner m' = Some u;
  unlock_releases t m : ok m -> owner m = Some t -> exists m', unlock t m = Some (0, m') /\ ok m' /\ owner m' = None }.

(** ** The structures *)

Section Structures.
Context (pthread_mutex_t pthread_cond_t : Type).

Record safe_mutex_t := {
  global : pthread_mutex_t; mutex : pthread_mutex_t; file : string; line : Z; count : Z; thread : tid }.

Record my_pthread_fastmutex_t := { fm_mutex : pthread_mutex_t; spins : Z; rng_state : Z }.

Record rw_pr_lock_t := {
  pr_lock : pthread_mutex_t; no_active_readers : pthread_cond_t; active_readers : Z;
  writers_waiting_readers : Z; active_writer : bool; writer_thread : tid }.

(** [write_thread] is a field with SAFE_MUTEX only; without it, it is the thread for which [state] was set. *)
Record my_rw_lock_t := {
  rw_lock : pthread_mutex_t; readers : pthread_cond_t; writers : pthread_cond_t;
  state : Z; waiters : Z; write_thread : tid }.

(** The union of Windows, where there is no SAFE_MUTEX: a slim lock of the system, or the portable implementation. *)
Context (CRITICAL_SECTION win_cond_t SRWLOCK : Type).
Inductive win_rw_lock_t :=
  | SlimRwLock (srwlock : SRWLOCK) (have_exclusive_srwlock : bool)
  | PortableRwLock (lock : CRITICAL_SECTION) (readers writers : win_cond_t) (state waiters : Z).
End Structures.
Arguments global {_}. Arguments mutex {_}. Arguments file {_}. Arguments line {_}. Arguments count {_}. Arguments thread {_}.
Arguments fm_mutex {_}. Arguments spins {_}. Arguments rng_state {_}.
Arguments pr_lock {_ _}. Arguments no_active_readers {_ _}. Arguments active_readers {_ _}.
Arguments writers_waiting_readers {_ _}. Arguments active_writer {_ _}. Arguments writer_thread {_ _}.
Arguments rw_lock {_ _}. Arguments readers {_ _}. Arguments writers {_ _}. Arguments state {_ _}.
Arguments waiters {_ _}. Arguments write_thread {_ _}.
Arguments SlimRwLock {_ _ _}. Arguments PortableRwLock {_ _ _}.

(** ** The functions of the system and of thr_mutex.c, thr_rwlock.c *)

(** The owner of a checked mutex, and the writers of the two kinds of lock, are in their fields. *)
Definition safe_owner {P} (mp : safe_mutex_t P) : option tid := if 0 <? count mp then Some (thread mp) else None.
Definition pr_writer {P C} (l : rw_pr_lock_t P C) : option tid := if active_writer l then Some (writer_thread l) else None.
Definition my_rw_writer {P C} (l : my_rw_lock_t P C) : option tid := if state l =? -1 then Some (write_thread l) else None.

(** The functions [sys_rw_*] are those of a system with HAVE_RWLOCK_INIT, which calls them [rw_rdlock] and so on; [win_rw_*] are
    the functions [my_rw_*] on Windows. *)
Class System := {
  CRITICAL_SECTION : Type; cs_owner : CRITICAL_SECTION -> option tid;
  EnterCriticalSection : tid -> CRITICAL_SECTION -> option CRITICAL_SECTION;
  LeaveCriticalSection : tid -> CRITICAL_SECTION -> CRITICAL_SECTION;
  win_pthread_mutex_trylock : op CRITICAL_SECTION;
  pthread_mutex_t : Type; pthread_cond_t : Type; pm_owner : pthread_mutex_t -> option tid;
  sys_mutex_lock : op pthread_mutex_t; sys_mutex_trylock : op pthread_mutex_t; sys_mutex_unlock : op pthread_mutex_t;
  safe_mutex_lock : bool -> string -> Z -> op (safe_mutex_t pthread_mutex_t);
  safe_mutex_unlock : string -> Z -> op (safe_mutex_t pthread_mutex_t);
  my_pthread_fastmutex_lock : op (my_pthread_fastmutex_t pthread_mutex_t);
  pthread_rwlock_t : Type; rwlock_holders : pthread_rwlock_t -> gset tid; rwlock_writer : pthread_rwlock_t -> option tid;
  pthread_rwlock_rdlock : op pthread_rwlock_t; pthread_rwlock_wrlock : op pthread_rwlock_t;
  pthread_rwlock_tryrdlock : op pthread_rwlock_t; pthread_rwlock_trywrlock : op pthread_rwlock_t;
  pthread_rwlock_unlock : op pthread_rwlock_t;
  rwlock_t : Type; sys_rw_holders : rwlock_t -> gset tid; sys_rw_writer : rwlock_t -> option tid;
  sys_rw_rdlock : op rwlock_t; sys_rw_wrlock : op rwlock_t; sys_rw_tryrdlock : op rwlock_t; sys_rw_trywrlock : op rwlock_t;
  sys_rw_unlock : op rwlock_t;
  win_cond_t : Type; SRWLOCK : Type;
  win_rw_holders : win_rw_lock_t CRITICAL_SECTION win_cond_t SRWLOCK -> gset tid;
  win_rw_writer : win_rw_lock_t CRITICAL_SECTION win_cond_t SRWLOCK -> option tid;
  win_rw_rdlock : op (win_rw_lock_t CRITICAL_SECTION win_cond_t SRWLOCK);
  win_rw_wrlock : op (win_rw_lock_t CRITICAL_SECTION win_cond_t SRWLOCK);
  win_rw_tryrdlock : op (win_rw_lock_t CRITICAL_SECTION win_cond_t SRWLOCK);
  win_rw_trywrlock : op (win_rw_lock_t CRITICAL_SECTION win_cond_t SRWLOCK);
  win_rw_unlock : op (win_rw_lock_t CRITICAL_SECTION win_cond_t SRWLOCK);
  my_rw_holders : my_rw_lock_t pthread_mutex_t pthread_cond_t -> gset tid;
  my_rw_rdlock : op (my_rw_lock_t pthread_mutex_t pthread_cond_t);
  my_rw_wrlock : op (my_rw_lock_t pthread_mutex_t pthread_cond_t);
  my_rw_tryrdlock : op (my_rw_lock_t pthread_mutex_t pthread_cond_t);
  my_rw_trywrlock : op (my_rw_lock_t pthread_mutex_t pthread_cond_t);
  my_rw_unlock : op (my_rw_lock_t pthread_mutex_t pthread_cond_t);
  rw_pr_holders : rw_pr_lock_t pthread_mutex_t pthread_cond_t -> gset tid;
  rw_pr_rdlock : op (rw_pr_lock_t pthread_mutex_t pthread_cond_t);
  rw_pr_wrlock : op (rw_pr_lock_t pthread_mutex_t pthread_cond_t);
  rw_pr_unlock : op (rw_pr_lock_t pthread_mutex_t pthread_cond_t) }.

(** What the documentation and the comments on the fields say of them. *)
Class SystemLaws `{System} : Prop := {
  cs_lock_free t c : cs_owner c = None -> exists c', EnterCriticalSection t c = Some c' /\ cs_owner c' = Some t;
  cs_lock_waits t u c : cs_owner c = Some u -> u <> t -> EnterCriticalSection t c = None;
  cs_trylock_free t c : cs_owner c = None ->
    exists c', win_pthread_mutex_trylock t c = Some (0, c') /\ cs_owner c' = Some t;
  cs_trylock_busy t u c : cs_owner c = Some u -> u <> t ->
    exists r c', win_pthread_mutex_trylock t c = Some (r, c') /\ r <> 0 /\ cs_owner c' = Some u;
  cs_unlock t c : cs_owner c = Some t -> cs_owner (LeaveCriticalSection t c) = None;
  native_behaves : mutex_behaviour (fun _ => True) pm_owner sys_mutex_lock sys_mutex_trylock sys_mutex_unlock;
  safe_behaves f n : mutex_behaviour (fun mp => 0 <= count mp) safe_owner
    (safe_mutex_lock false f n) (safe_mutex_lock true f n) (safe_mutex_unlock f n);
  fast_lock_free t m : pm_owner (fm_mutex m) = None ->
    exists m', my_pthread_fastmutex_lock t m = Some (0, m') /\ pm_owner (fm_mutex m') = Some t;
  fast_lock_waits t u m : pm_owner (fm_mutex m) = Some u -> u <> t -> my_pthread_fastmutex_lock t m = None;
  rwlock_behaves :
    rw_behaviour (H := {| holders := rwlock_holders; writer := rwlock_writer; ok := fun _ => True; tryable := fun _ => true |})
      pthread_rwlock_rdlock pthread_rwlock_wrlock pthread_rwlock_tryrdlock pthread_rwlock_trywrlock pthread_rwlock_unlock;
  my_rw_behaves :
    rw_behaviour (H := {| holders := my_rw_holders; writer := my_rw_writer; ok := fun l => -1 <= state l; tryable := fun _ => true |})
      my_rw_rdlock my_rw_wrlock my_rw_tryrdlock my_rw_trywrlock my_rw_unlock;
  sys_rw_behaves :
    rw_behaviour (H := {| holders := sys_rw_holders; writer := sys_rw_writer; ok := fun _ => True; tryable := fun _ => true |})
      sys_rw_rdlock sys_rw_wrlock sys_rw_tryrdlock sys_rw_trywrlock sys_rw_unlock;
  win_rw_behaves :
    rw_behaviour (H := {| holders := win_rw_holders; writer := win_rw_writer; ok := fun _ => True; tryable := fun _ => true |})
      win_rw_rdlock win_rw_wrlock win_rw_tryrdlock win_rw_trywrlock win_rw_unlock;
  rw_pr_behaves :
    rw_behaviour (H := {| holders := rw_pr_holders; writer := pr_writer; ok := fun _ => True; tryable := fun _ => false |})
      rw_pr_rdlock rw_pr_wrlock (fun _ _ => None) (fun _ _ => None) rw_pr_unlock }.

(** ** The macros *)

Section Macros.
Context `{System}.

(** [DBUG_ASSERT] of a condition, in a build that checks it. *)
Abbreviation DBUG_ASSERT := (fun b : bool => b).
Definition pthread_equal (A B : tid) : bool := (A =? B)%nat.

(** *** Mutexes *)

(** The mutexes of the builds: Windows, SAFE_MUTEX, MY_PTHREAD_FASTMUTEX, and the others. *)
Inductive mutex_obj :=
  | WindowsMutex (A : CRITICAL_SECTION)
  | SafeMutexObj (A : safe_mutex_t pthread_mutex_t)
  | FastMutexObj (A : my_pthread_fastmutex_t pthread_mutex_t)
  | NativeMutex (A : pthread_mutex_t).

(** A fast mutex with its mutex replaced. *)
Definition set_fm_mutex (m : my_pthread_fastmutex_t pthread_mutex_t) (p : pthread_mutex_t) : my_pthread_fastmutex_t pthread_mutex_t :=
  {| fm_mutex := p; spins := spins m; rng_state := rng_state m |}.

Definition pthread_mutex_lock (f : string) (n : Z) (t : tid) (A : mutex_obj) : option (Z * mutex_obj) :=
  match A with
  | WindowsMutex A => A ← EnterCriticalSection t A; Some (0, WindowsMutex A)
  | SafeMutexObj A => '(r, A) ← safe_mutex_lock false f n t A; Some (r, SafeMutexObj A)
  | FastMutexObj A => '(r, A) ← my_pthread_fastmutex_lock t A; Some (r, FastMutexObj A)
  | NativeMutex A => '(r, A) ← sys_mutex_lock t A; Some (r, NativeMutex A)
  end.
Definition pthread_mutex_trylock (f : string) (n : Z) (t : tid) (A : mutex_obj) : option (Z * mutex_obj) :=
  match A with
  | WindowsMutex A => '(r, A) ← win_pthread_mutex_trylock t A; Some (r, WindowsMutex A)
  | SafeMutexObj A => '(r, A) ← safe_mutex_lock true f n t A; Some (r, SafeMutexObj A)
  | FastMutexObj A => '(r, p) ← sys_mutex_trylock t (fm_mutex A); Some (r, FastMutexObj (set_fm_mutex A p))
  | NativeMutex A => '(r, A) ← sys_mutex_trylock t A; Some (r, NativeMutex A)
  end.
Definition pthread_mutex_unlock (f : string) (n : Z) (t : tid) (A : mutex_obj) : option (Z * mutex_obj) :=
  match A with
  | WindowsMutex A => Some (0, WindowsMutex (LeaveCriticalSection t A))
  | SafeMutexObj A => '(r, A) ← safe_mutex_unlock f n t A; Some (r, SafeMutexObj A)
  | FastMutexObj A => '(r, p) ← sys_mutex_unlock t (fm_mutex A); Some (r, FastMutexObj (set_fm_mutex A p))
  | NativeMutex A => '(r, A) ← sys_mutex_unlock t A; Some (r, NativeMutex A)
  end.
Definition safe_mutex_assert_owner (t : tid) (A : mutex_obj) : bool :=
  match A with
  | SafeMutexObj mp => DBUG_ASSERT ((0 <? count mp) && pthread_equal t (thread mp))
  | _ => true
  end.
Definition safe_mutex_assert_not_owner (t : tid) (A : mutex_obj) : bool :=
  match A with
  | SafeMutexObj mp => DBUG_ASSERT ((count mp =? 0) || negb (pthread_equal t (thread mp)))
  | _ => true
  end.

(** *** Read-write locks: with a mutex, of POSIX threads, of another system, and those of MySQL

    The last are structures, on Windows the union. *)

Inductive rw_lock_t :=
  | MutexInstead (A : mutex_obj)
  | PthreadRwlock (A : pthread_rwlock_t)
  | SystemRwlock (A : rwlock_t)
  | MyRwLock (A : my_rw_lock_t pthread_mutex_t pthread_cond_t)
  | WinRwLock (A : win_rw_lock_t CRITICAL_SECTION win_cond_t SRWLOCK).

Definition rw_dispatch (mu : op mutex_obj) (pr : op pthread_rwlock_t) (sy : op rwlock_t)
    (my : op (my_rw_lock_t pthread_mutex_t pthread_cond_t)) (wi : op (win_rw_lock_t CRITICAL_SECTION win_cond_t SRWLOCK)) : op rw_lock_t :=
  fun t A => match A with
  | MutexInstead A => '(r, A) ← mu t A; Some (r, MutexInstead A)
  | PthreadRwlock A => '(r, A) ← pr t A; Some (r, PthreadRwlock A)
  | SystemRwlock A => '(r, A) ← sy t A; Some (r, SystemRwlock A)
  | MyRwLock A => '(r, A) ← my t A; Some (r, MyRwLock A)
  | WinRwLock A => '(r, A) ← wi t A; Some (r, WinRwLock A)
  end.
Definition rw_rdlock (f : string) (n : Z) : op rw_lock_t :=
  rw_dispatch (pthread_mutex_lock f n) pthread_rwlock_rdlock sys_rw_rdlock my_rw_rdlock win_rw_rdlock.
Definition rw_wrlock (f : string) (n : Z) : op rw_lock_t :=
  rw_dispatch (pthread_mutex_lock f n) pthread_rwlock_wrlock sys_rw_wrlock my_rw_wrlock win_rw_wrlock.
Definition rw_tryrdlock (f : string) (n : Z) : op rw_lock_t :=
  rw_dispatch (pthread_mutex_trylock f n) pthread_rwlock_tryrdlock sys_rw_tryrdlock my_rw_tryrdlock win_rw_tryrdlock.
Definition rw_trywrlock (f : string) (n : Z) : op rw_lock_t :=
  rw_dispatch (pthread_mutex_trylock f n) pthread_rwlock_trywrlock sys_rw_trywrlock my_rw_trywrlock win_rw_trywrlock.
Definition rw_unlock (f : string) (n : Z) : op rw_lock_t :=
  rw_dispatch (pthread_mutex_unlock f n) pthread_rwlock_unlock sys_rw_unlock my_rw_unlock win_rw_unlock.

Definition my_rw_lock_assert_write_owner (t : tid) (A : my_rw_lock_t pthread_mutex_t pthread_cond_t) : bool :=
  DBUG_ASSERT ((state A =? -1) && pthread_equal t (write_thread A)).
Definition my_rw_lock_assert_not_write_owner (t : tid) (A : my_rw_lock_t pthread_mutex_t pthread_cond_t) : bool :=
  DBUG_ASSERT ((0 <=? state A) || negb (pthread_equal t (write_thread A))).
Definition rw_lock_assert_write_owner (t : tid) (A : rw_lock_t) : bool :=
  match A with MyRwLock A => my_rw_lock_assert_write_owner t A | _ => true end.
Definition rw_lock_assert_not_write_owner (t : tid) (A : rw_lock_t) : bool :=
  match A with MyRwLock A => my_rw_lock_assert_not_write_owner t A | _ => true end.
Definition rw_pr_lock_assert_write_owner (t : tid) (A : rw_pr_lock_t pthread_mutex_t pthread_cond_t) : bool :=
  DBUG_ASSERT (active_writer A && pthread_equal t (writer_thread A)).
Definition rw_pr_lock_assert_not_write_owner (t : tid) (A : rw_pr_lock_t pthread_mutex_t pthread_cond_t) : bool :=
  DBUG_ASSERT (negb (active_writer A) || negb (pthread_equal t (writer_thread A))).
End Macros.

(** ** The builds satisfy the interface *)

Section Builds.
Context `{System}.

Definition mutex_owner (A : mutex_obj) : option tid :=
  match A with
  | WindowsMutex A => cs_owner A | SafeMutexObj A => safe_owner A
  | FastMutexObj A => pm_owner (fm_mutex A) | NativeMutex A => pm_owner A
  end.
Definition mutex_ok (A : mutex_obj) : Prop := match A with SafeMutexObj A => 0 <= count A | _ => True end.

(** A mutex seen as a lock. *)
Definition mutex_observable {M} (ok : M -> Prop) (owner : M -> option tid) : Observable M := {|
  holders := fun m => match owner m with Some u => {[u]} | None => ∅ end;
  writer := owner; ok := ok; tryable := fun _ => true |}.

Lemma mutex_as_rw {M} (ok : M -> Prop) (owner : M -> option tid) (lock trylock unlock : op M) :
  mutex_behaviour ok owner lock trylock unlock ->
  rw_behaviour (H := mutex_observable ok owner) lock lock trylock trylock unlock.
Proof.
  intros [Hf Hw Htf Htb Hu].
  assert (Hlock : forall t l r l', ok l -> t ∉ holders (Observable := mutex_observable ok owner) l ->
    lock t l = Some (r, l') -> r = 0 /\ owner l = None /\ owner l' = Some t /\ ok l').
  { intros t l r l' Ho Ht E. cbn in Ht. destruct (owner l) as [u|] eqn:Eu.
    - rewrite (Hw t u l Ho Eu) in E; [done|]. by apply not_elem_of_singleton, not_eq_sym in Ht.
    - destruct (Hf t l Ho Eu) as (m' & E' & Hm & Ho'). rewrite E in E'. by simplify_eq. }
  assert (Htry : forall t l, ok l -> t ∉ holders (Observable := mutex_observable ok owner) l ->
    exists r l', trylock t l = Some (r, l') /\ ok l' /\
      if r =? 0 then owner l = None /\ owner l' = Some t else owner l' = owner l).
  { intros t l Ho Ht. cbn in Ht. destruct (owner l) as [u|] eqn:Eu.
    - apply not_elem_of_singleton, not_eq_sym in Ht. destruct (Htb t u l Ho Eu Ht) as (r & m' & E & Hr & Ho' & Hm). exists r, m'.
      by rewrite (proj2 (Z.eqb_neq r 0) Hr).
    - destruct (Htf t l Ho Eu) as (m' & E & Ho' & Hm). by exists 0, m'. }
  intros t l. constructor; unfold gets_read, gets_write, same, keeps; cbn.
  - intros r l' Ho Ht E. destruct (Hlock t l r l' Ho Ht E) as (-> & E1 & E2 & Ho'). rewrite E1, E2.
    split_and!; try done; [by rewrite union_empty_r_L|by right].
  - intros r l' Ho Ht E. destruct (Hlock t l r l' Ho Ht E) as (-> & E1 & E2 & Ho'). by rewrite E1, E2.
  - intros Ho Ht. destruct (owner l) as [u|] eqn:Eu; [by apply non_empty_singleton_L in Ht|]. destruct (Hf t l Ho Eu) as (m' & -> & _). by eexists.
  - intros Ho Ht. destruct (owner l) as [u|] eqn:Eu; [by apply non_empty_singleton_L in Ht|]. destruct (Hf t l Ho Eu) as (m' & -> & _). by eexists.
  - intros Ho _ Ht. destruct (Htry t l Ho Ht) as (r & l' & E & Ho' & Hr). exists r, l'. split; [done|].
    destruct (r =? 0); [|by rewrite Hr]. destruct Hr as [-> ->]. split_and!; try done; [by rewrite union_empty_r_L|by right].
  - intros Ho _ Ht. destruct (Htry t l Ho Ht) as (r & l' & E & Ho' & Hr). exists r, l'. split; [done|].
    destruct (r =? 0); [|by rewrite Hr]. by destruct Hr as [-> ->].
  - intros Ho Ht. destruct (owner l) as [u|] eqn:Eu; [|by apply elem_of_empty in Ht].
    apply elem_of_singleton in Ht as <-. destruct (Hu t l Ho Eu) as (m' & E & Hm & Hn). exists m'. rewrite Hn.
    split_and!; try done. by rewrite difference_diag_L.
Qed.

Context `{!SystemLaws}.

Lemma pthread_mutex_behaves (f : string) (n : Z) :
  mutex_behaviour mutex_ok mutex_owner (pthread_mutex_lock f n) (pthread_mutex_trylock f n) (pthread_mutex_unlock f n).
Proof.
  constructor.
  - intros t [A|A|A|A] Ho E; cbn in *.
    + destruct (cs_lock_free t A E) as (c & -> & Hc). by eexists.
    + destruct (lock_free _ _ _ _ _ (safe_behaves f n) t A Ho E) as (c & -> & ? & ?). by eexists.
    + destruct (fast_lock_free t A E) as (c & -> & Hc). by eexists.
    + destruct (lock_free _ _ _ _ _ native_behaves t A I E) as (c & -> & ? & ?). by eexists.
  - intros t u [A|A|A|A] Ho E Hu; cbn in *.
    + by rewrite (cs_lock_waits t u A).
    + by rewrite (lock_waits _ _ _ _ _ (safe_behaves f n) t u A).
    + by rewrite (fast_lock_waits t u A).
    + by rewrite (lock_waits _ _ _ _ _ native_behaves t u A).
  - intros t [A|A|A|A] Ho E; cbn in *.
    + destruct (cs_trylock_free t A E) as (c & -> & Hc). by eexists.
    + destruct (trylock_free _ _ _ _ _ (safe_behaves f n) t A Ho E) as (c & -> & ? & ?). by eexists.
    + destruct (trylock_free _ _ _ _ _ native_behaves t (fm_mutex A) I E) as (c & -> & ? & ?). by eexists.
    + destruct (trylock_free _ _ _ _ _ native_behaves t A I E) as (c & -> & ? & ?). by eexists.
  - intros t u [A|A|A|A] Ho E Hu; cbn in *.
    + destruct (cs_trylock_busy t u A E Hu) as (r & c & -> & ? & ?). by do 2 eexists.
    + destruct (trylock_busy _ _ _ _ _ (safe_behaves f n) t u A Ho E Hu) as (r & c & -> & ? & ? & ?). by do 2 eexists.
    + destruct (trylock_busy _ _ _ _ _ native_behaves t u (fm_mutex A) I E Hu) as (r & c & -> & ? & ? & ?). by do 2 eexists.
    + destruct (trylock_busy _ _ _ _ _ native_behaves t u A I E Hu) as (r & c & -> & ? & ? & ?). by do 2 eexists.
  - intros t [A|A|A|A] Ho E; cbn in *.
    + eexists. split; [done|]. split; [done|]. by apply cs_unlock.
    + destruct (unlock_releases _ _ _ _ _ (safe_behaves f n) t A Ho E) as (c & -> & ? & ?). by eexists.
    + destruct (unlock_releases _ _ _ _ _ native_behaves t (fm_mutex A) I E) as (c & -> & ? & ?). by eexists.
    + destruct (unlock_releases _ _ _ _ _ native_behaves t A I E) as (c & -> & ? & ?). by eexists.
Qed.

(** A lock of a program: a mutex, a read-write lock of some build, or one that prefers readers. *)
Inductive lock_obj :=
  | MutexLock (A : mutex_obj)
  | RwLockObj (A : rw_lock_t)
  | PrLock (A : rw_pr_lock_t pthread_mutex_t pthread_cond_t).

#[export] Instance lock_observable : Observable lock_obj := {|
  holders A := match A with
    | MutexLock A | RwLockObj (MutexInstead A) => holders (Observable := mutex_observable mutex_ok mutex_owner) A
    | RwLockObj (PthreadRwlock A) => rwlock_holders A
    | RwLockObj (SystemRwlock A) => sys_rw_holders A
    | RwLockObj (MyRwLock A) => my_rw_holders A
    | RwLockObj (WinRwLock A) => win_rw_holders A
    | PrLock A => rw_pr_holders A end;
  writer A := match A with
    | MutexLock A | RwLockObj (MutexInstead A) => mutex_owner A
    | RwLockObj (PthreadRwlock A) => rwlock_writer A
    | RwLockObj (SystemRwlock A) => sys_rw_writer A
    | RwLockObj (MyRwLock A) => my_rw_writer A
    | RwLockObj (WinRwLock A) => win_rw_writer A
    | PrLock A => pr_writer A end;
  ok A := match A with
    | MutexLock A | RwLockObj (MutexInstead A) => mutex_ok A
    | RwLockObj (MyRwLock A) => -1 <= state A
    | _ => True end;
  tryable A := match A with PrLock _ => false | _ => true end |}.

(** The operations of mysql code on it; a mutex has one way to be locked. *)
Definition on_lock (mu : op mutex_obj) (rw : op rw_lock_t) (pr : op (rw_pr_lock_t pthread_mutex_t pthread_cond_t)) : op lock_obj :=
  fun t A => match A with
  | MutexLock A => '(r, A) ← mu t A; Some (r, MutexLock A)
  | RwLockObj A => '(r, A) ← rw t A; Some (r, RwLockObj A)
  | PrLock A => '(r, A) ← pr t A; Some (r, PrLock A)
  end.

Context (f : string) (n : Z).

Definition lock_rw : RwLock lock_obj := {|
  rdlock := on_lock (pthread_mutex_lock f n) (rw_rdlock f n) rw_pr_rdlock;
  wrlock := on_lock (pthread_mutex_lock f n) (rw_wrlock f n) rw_pr_wrlock;
  tryrdlock := on_lock (pthread_mutex_trylock f n) (rw_tryrdlock f n) (fun _ _ => None);
  trywrlock := on_lock (pthread_mutex_trylock f n) (rw_trywrlock f n) (fun _ _ => None);
  unlock := on_lock (pthread_mutex_unlock f n) (rw_unlock f n) rw_pr_unlock;
  assert_write_owner t A := match A with
    | MutexLock A => safe_mutex_assert_owner t A
    | RwLockObj A => rw_lock_assert_write_owner t A
    | PrLock A => rw_pr_lock_assert_write_owner t A end;
  assert_not_write_owner t A := match A with
    | MutexLock A => safe_mutex_assert_not_owner t A
    | RwLockObj A => rw_lock_assert_not_write_owner t A
    | PrLock A => rw_pr_lock_assert_not_write_owner t A end |}.

(** A family of functions on one kind of lock, lifted to the locks of a program. *)
Lemma rw_behaves_lift {L} `{O : Observable L} (inj : L -> lock_obj) (rd wr trd twr un : op L) (rd' wr' trd' twr' un' : op lock_obj) :
  (forall l, holders (inj l) = holders l /\ writer (inj l) = writer l /\ ok (inj l) = ok l /\ tryable (inj l) = tryable l) ->
  (forall t l, rd' t (inj l) = ('(r, l) ← rd t l; Some (r, inj l))
    /\ wr' t (inj l) = ('(r, l) ← wr t l; Some (r, inj l))
    /\ un' t (inj l) = ('(r, l) ← un t l; Some (r, inj l))
    /\ (tryable l = true -> trd' t (inj l) = ('(r, l) ← trd t l; Some (r, inj l))
         /\ twr' t (inj l) = ('(r, l) ← twr t l; Some (r, inj l)))) ->
  rw_behaviour rd wr trd twr un -> forall t l, rw_behaves_at rd' wr' trd' twr' un' t (inj l).
Proof.
  intros Ho Hops Hb t l. destruct (Hb t l) as [Hrd Hwr Hrf Hwf Htr Htw Hun]. destruct (Hops t l) as (Erd & Ewr & Eun & Etry).
  assert (Hread : forall l', gets_read t l l' -> gets_read t (inj l) (inj l')).
  { unfold gets_read, keeps. intros l'. destruct (Ho l) as (E1 & E2 & E3 & E4), (Ho l') as (F1 & F2 & F3 & F4).
    by rewrite ?E1, ?E2, ?E3, ?E4, ?F1, ?F2, ?F3, ?F4. }
  assert (Hwrite : forall l', gets_write t l l' -> gets_write t (inj l) (inj l')).
  { unfold gets_write, keeps. intros l'. destruct (Ho l) as (E1 & E2 & E3 & E4), (Ho l') as (F1 & F2 & F3 & F4).
    by rewrite ?E1, ?E2, ?E3, ?E4, ?F1, ?F2, ?F3, ?F4. }
  assert (Hsame : forall l', same l l' -> same (inj l) (inj l')).
  { unfold same, keeps. intros l'. destruct (Ho l) as (E1 & E2 & E3 & E4), (Ho l') as (F1 & F2 & F3 & F4).
    by rewrite ?E1, ?E2, ?E3, ?E4, ?F1, ?F2, ?F3, ?F4. }
  destruct (Ho l) as (Eh & Ew & Eo & Et).
  constructor; rewrite ?Eh, ?Eo, ?Et, ?Erd, ?Ewr, ?Eun.
  - intros r l' Hok Ht E. destruct (rd t l) as [[r1 l1]|]; [|done]. injection E as -> <-.
    destruct (Hrd r l1 Hok Ht eq_refl) as [-> Hr]. auto.
  - intros r l' Hok Ht E. destruct (wr t l) as [[r1 l1]|]; [|done]. injection E as -> <-.
    destruct (Hwr r l1 Hok Ht eq_refl) as [-> Hr]. auto.
  - intros Hok Hf. destruct (Hrf Hok Hf) as [[r1 l1] ->]. by eexists.
  - intros Hok Hf. destruct (Hwf Hok Hf) as [[r1 l1] ->]. by eexists.
  - intros Hok Htry Ht. destruct (Htr Hok Htry Ht) as (r & l' & E & Hr). destruct (Etry Htry) as [-> _]. rewrite E.
    exists r, (inj l'). split; [done|]. destruct (r =? 0); auto.
  - intros Hok Htry Ht. destruct (Htw Hok Htry Ht) as (r & l' & E & Hr). destruct (Etry Htry) as [_ ->]. rewrite E.
    exists r, (inj l'). split; [done|]. destruct (r =? 0); auto.
  - intros Hok Ht. destruct (Hun Hok Ht) as (l' & -> & Hh & [Hk1 Hk2] & Hw). exists (inj l').
    destruct (Ho l') as (Eh' & Ew' & Eo' & Et'). unfold keeps. by rewrite Eh', Ew', Eo', Et', Et.
Qed.

#[local] Existing Instance lock_rw.

Lemma equal_refl (t : tid) : pthread_equal t t = true.
Proof. apply Nat.eqb_refl. Qed.

Lemma equal_neq (t u : tid) : Some u <> Some t -> pthread_equal t u = false.
Proof. intros H1. apply Nat.eqb_neq. by intros ->. Qed.

(** A mutex or lock whose assertions look at a flag and a thread. *)
Lemma assert_owner_fields (b : bool) (u t : tid) :
  (if b then Some u else None) = Some t -> b && pthread_equal t u = true.
Proof. destruct b; [|done]. intros [= ->]. apply equal_refl. Qed.

Lemma assert_not_owner_fields (b b' : bool) (u t : tid) :
  (if b then Some u else None) <> Some t -> (b = false -> b' = true) -> b' || negb (pthread_equal t u) = true.
Proof.
  destruct b; intros H1 H2; [|by rewrite H2]. rewrite equal_neq by done. apply orb_true_r.
Qed.

(** The operations of one kind of lock, lifted. *)
Ltac lift_operations rd wr tryrd trywr un t l :=
  destruct (rd t l) as [[]|], (wr t l) as [[]|], (tryrd t l) as [[]|], (trywr t l) as [[]|], (un t l) as [[]|]; done.

#[export] Instance lock_lawful : RwLaws lock_obj.
Proof.
  constructor.
  - intros t [A|[A|A|A|A|A]|A].
    + refine (rw_behaves_lift (O := mutex_observable mutex_ok mutex_owner) MutexLock _ _ _ _ _ _ _ _ _ _ _ _
        (mutex_as_rw _ _ _ _ _ (pthread_mutex_behaves f n)) t A); done.
    + refine (rw_behaves_lift (O := mutex_observable mutex_ok mutex_owner) (fun A => RwLockObj (MutexInstead A)) _ _ _ _ _ _ _ _ _ _ _ _
        (mutex_as_rw _ _ _ _ _ (pthread_mutex_behaves f n)) t A); [done|].
      intros t' l; cbn. unfold rw_rdlock, rw_wrlock, rw_unlock, rw_tryrdlock, rw_trywrlock; cbn.
      destruct (pthread_mutex_lock f n t' l) as [[]|], (pthread_mutex_trylock f n t' l) as [[]|],
        (pthread_mutex_unlock f n t' l) as [[]|]; done.
    + refine (rw_behaves_lift (O := {| holders := rwlock_holders |}) (fun A => RwLockObj (PthreadRwlock A))
        _ _ _ _ _ _ _ _ _ _ _ _ rwlock_behaves t A); [done|]. intros t' l; cbn.
      unfold rw_rdlock, rw_wrlock, rw_unlock, rw_tryrdlock, rw_trywrlock; cbn. lift_operations pthread_rwlock_rdlock pthread_rwlock_wrlock pthread_rwlock_tryrdlock pthread_rwlock_trywrlock pthread_rwlock_unlock t' l.
    + refine (rw_behaves_lift (O := {| holders := sys_rw_holders |}) (fun A => RwLockObj (SystemRwlock A))
        _ _ _ _ _ _ _ _ _ _ _ _ sys_rw_behaves t A); [done|]. intros t' l; cbn.
      unfold rw_rdlock, rw_wrlock, rw_unlock, rw_tryrdlock, rw_trywrlock; cbn. lift_operations sys_rw_rdlock sys_rw_wrlock sys_rw_tryrdlock sys_rw_trywrlock sys_rw_unlock t' l.
    + refine (rw_behaves_lift (O := {| holders := my_rw_holders |}) (fun A => RwLockObj (MyRwLock A))
        _ _ _ _ _ _ _ _ _ _ _ _ my_rw_behaves t A); [done|]. intros t' l; cbn.
      unfold rw_rdlock, rw_wrlock, rw_unlock, rw_tryrdlock, rw_trywrlock; cbn. lift_operations my_rw_rdlock my_rw_wrlock my_rw_tryrdlock my_rw_trywrlock my_rw_unlock t' l.
    + refine (rw_behaves_lift (O := {| holders := win_rw_holders |}) (fun A => RwLockObj (WinRwLock A))
        _ _ _ _ _ _ _ _ _ _ _ _ win_rw_behaves t A); [done|]. intros t' l; cbn.
      unfold rw_rdlock, rw_wrlock, rw_unlock, rw_tryrdlock, rw_trywrlock; cbn. lift_operations win_rw_rdlock win_rw_wrlock win_rw_tryrdlock win_rw_trywrlock win_rw_unlock t' l.
    + refine (rw_behaves_lift (O := {| holders := rw_pr_holders |}) PrLock
        _ _ _ _ _ _ _ _ _ _ _ _ rw_pr_behaves t A); [done|]. intros t' l; cbn.
      destruct (rw_pr_rdlock t' l) as [[]|], (rw_pr_wrlock t' l) as [[]|], (rw_pr_unlock t' l) as [[]|]; done.
  - intros t [[A|A|A|A]|[A|A|A|A|A]|A] Ho Hw; try done; cbn in *.
    + unfold safe_owner in Hw. destruct (0 <? count A); [|done]. by apply (assert_owner_fields true).
    + by apply assert_owner_fields.
    + by apply assert_owner_fields.
  - intros t [[A|A|A|A]|[A|A|A|A|A]|A] Ho Hw; try done; cbn in *.
    + apply (assert_not_owner_fields (0 <? count A)); [exact Hw|]. intros Hc. lia.
    + apply (assert_not_owner_fields (state A =? -1)); [exact Hw|]. intros Hc. lia.
    + apply (assert_not_owner_fields (active_writer A)); [exact Hw|]. by intros ->.
Qed.

End Builds.

(** ** A system

    Locks that are who holds them; a condition variable is who sleeps on it, until when, and who woke; that of the
    structures keeps the readers. *)

Abbreviation holding := (option tid * gset tid)%type.
Definition holding_of (h : holding) : gset tid := match h.1 with Some u => {[u]} | None => h.2 end.

Section Simple.
Context {L : Type} (get : L -> holding) (set : L -> holding -> L).

Definition simple_rd (t : tid) (l : L) : option (Z * L) :=
  match (get l).1 with Some _ => None | None => Some (0, set l (None, {[t]} ∪ (get l).2)) end.
Definition simple_wr (t : tid) (l : L) : option (Z * L) :=
  if decide (holding_of (get l) = ∅) then Some (0, set l (Some t, ∅)) else None.
Definition simple_try (o : op L) (t : tid) (l : L) : option (Z * L) :=
  match o t l with Some r => Some r | None => Some (16, l) end.
Definition simple_un (t : tid) (l : L) : option (Z * L) := Some (0, set l (None, holding_of (get l) ∖ {[t]})).

Context (good : L -> Prop) (can : bool).
Context (get_set : forall l w rs, good l -> (w = None \/ rs = ∅) -> get (set l (w, rs)) = (w, rs)) (set_ok : forall l h, good l -> good (set l h)).

Lemma simple_behaves : rw_behaviour
  (H := {| holders l := holding_of (get l); writer l := (get l).1; ok := good; tryable := fun _ => can |})
  simple_rd simple_wr (simple_try simple_rd) (simple_try simple_wr) simple_un.
Proof.
  assert (Hrd : forall t l r l', good l -> simple_rd t l = Some (r, l') -> r = 0 /\ gets_read
    (H := {| holders l := holding_of (get l); writer l := (get l).1; ok := good; tryable := fun _ => can |}) t l l').
  { intros t l r l' Ho E. unfold simple_rd in E. destruct ((get l).1) eqn:Ew; [done|]. injection E as <- <-.
    split; [done|]. unfold gets_read, keeps, holding_of; cbn. rewrite get_set by auto. rewrite Ew. cbn. split_and!; auto. }
  assert (Hwr : forall t l r l', good l -> simple_wr t l = Some (r, l') -> r = 0 /\ gets_write
    (H := {| holders l := holding_of (get l); writer l := (get l).1; ok := good; tryable := fun _ => can |}) t l l').
  { intros t l r l' Ho E. unfold simple_wr in E. destruct (decide _); [|done]. injection E as <- <-.
    split; [done|]. unfold gets_write, keeps; cbn. rewrite get_set by auto. cbn. split_and!; auto. }
  intros t l. constructor.
  - intros r l' Ho _. by apply Hrd.
  - intros r l' Ho _. by apply Hwr.
  - cbn. intros Ho Hf. unfold simple_rd, holding_of in *. destruct ((get l).1); [by apply non_empty_singleton_L in Hf|].
    by eexists.
  - cbn. intros Ho Hf. unfold simple_wr. rewrite decide_True by done. by eexists.
  - intros Ho _ _. unfold simple_try. destruct (simple_rd t l) as [[r l']|] eqn:E.
    + exists r, l'. destruct (Hrd t l r l' Ho E) as [-> Hr]. by split.
    + by exists 16, l.
  - intros Ho _ _. unfold simple_try. destruct (simple_wr t l) as [[r l']|] eqn:E.
    + exists r, l'. destruct (Hwr t l r l' Ho E) as [-> Hr]. by split.
    + by exists 16, l.
  - intros Ho Ht. eexists. split; [done|]. cbn. rewrite get_set by auto. cbn. unfold keeps; cbn. auto.
Qed.
End Simple.

Section SimpleMutex.
Context {M : Type} (get : M -> option tid) (set : M -> option tid -> M) (good : M -> Prop).

Definition simple_lock (t : tid) (m : M) : option (Z * M) :=
  match get m with None => Some (0, set m (Some t)) | Some u => if decide (u = t) then Some (0, m) else None end.
Definition simple_unlock (t : tid) (m : M) : option (Z * M) := Some (0, set m None).

Context (get_set : forall m o, get (set m o) = o) (set_ok : forall m o, good m -> good (set m o)).

Lemma simple_mutex_behaves : mutex_behaviour good get simple_lock (simple_try simple_lock) simple_unlock.
Proof.
  unfold simple_try, simple_lock, simple_unlock. constructor.
  - intros t m Ho ->. eexists. rewrite get_set. auto.
  - intros t u m Ho -> Hu. by rewrite decide_False.
  - intros t m Ho ->. eexists. rewrite get_set. auto.
  - intros t u m Ho E Hu. rewrite E, decide_False by done. by exists 16, m.
  - intros t m Ho _. eexists. rewrite get_set. auto.
Qed.
End SimpleMutex.

Definition set_safe (m : safe_mutex_t (option tid)) (o : option tid) : safe_mutex_t (option tid) :=
  {| global := global m; mutex := o; file := file m; line := line m;
     count := if o is Some _ then 1 else 0; thread := default (thread m) o |}.
Definition set_fast (m : my_pthread_fastmutex_t (option tid)) (o : option tid) : my_pthread_fastmutex_t (option tid) :=
  {| fm_mutex := o; spins := spins m; rng_state := rng_state m |}.
Definition set_my_rw (l : my_rw_lock_t (option tid) (gmap tid (option Z) * gset tid)) (h : holding) : my_rw_lock_t (option tid) (gmap tid (option Z) * gset tid) :=
  {| rw_lock := rw_lock l; readers := (∅, h.2); writers := writers l;
     state := if h.1 is Some _ then -1 else Z.of_nat (size h.2); waiters := waiters l; write_thread := default (write_thread l) h.1 |}.
Definition set_pr (l : rw_pr_lock_t (option tid) (gmap tid (option Z) * gset tid)) (h : holding) : rw_pr_lock_t (option tid) (gmap tid (option Z) * gset tid) :=
  {| pr_lock := pr_lock l; no_active_readers := (∅, h.2); active_readers := Z.of_nat (size h.2);
     writers_waiting_readers := writers_waiting_readers l;
     active_writer := if h.1 is Some _ then true else false; writer_thread := default (writer_thread l) h.1 |}.
Definition my_rw_holding (l : my_rw_lock_t (option tid) (gmap tid (option Z) * gset tid)) : holding := (my_rw_writer l, (readers l).2).
Definition pr_holding (l : rw_pr_lock_t (option tid) (gmap tid (option Z) * gset tid)) : holding := (pr_writer l, (no_active_readers l).2).

(** The portable lock of Windows is held by who has its critical section, for writing, or who is in its readers. *)
Abbreviation simple_win_rw := (win_rw_lock_t (option tid) (gmap tid (option Z) * gset tid) holding).
Definition win_rw_holding (l : simple_win_rw) : holding :=
  match l with SlimRwLock h _ => h | PortableRwLock w r _ _ _ => (w, r.2) end.
Definition set_win_rw (l : simple_win_rw) (h : holding) : simple_win_rw :=
  match l with
  | SlimRwLock _ _ => SlimRwLock h (if h.1 is Some _ then true else false)
  | PortableRwLock _ r w _ n => PortableRwLock h.1 (r.1, h.2) w (if h.1 is Some _ then -1 else Z.of_nat (size h.2)) n
  end.

#[export] Instance simple_system : System := {|
  CRITICAL_SECTION := option tid; cs_owner := id;
  EnterCriticalSection t c := match c with None => Some (Some t) | Some u => if decide (u = t) then Some c else None end;
  LeaveCriticalSection t c := None;
  win_pthread_mutex_trylock := simple_try (simple_lock id (fun _ o => o));
  pthread_mutex_t := option tid; pthread_cond_t := gmap tid (option Z) * gset tid; pm_owner := id;
  sys_mutex_lock := simple_lock id (fun _ o => o); sys_mutex_trylock := simple_try (simple_lock id (fun _ o => o));
  sys_mutex_unlock := simple_unlock (fun _ o => o);
  safe_mutex_lock try_lock f n := if try_lock : bool then simple_try (simple_lock safe_owner set_safe) else simple_lock safe_owner set_safe;
  safe_mutex_unlock f n := simple_unlock set_safe;
  my_pthread_fastmutex_lock := simple_lock fm_mutex set_fast;
  pthread_rwlock_t := holding; rwlock_holders := holding_of; rwlock_writer := fst;
  pthread_rwlock_rdlock := simple_rd id (fun _ h => h); pthread_rwlock_wrlock := simple_wr id (fun _ h => h);
  pthread_rwlock_tryrdlock := simple_try (simple_rd id (fun _ h => h));
  pthread_rwlock_trywrlock := simple_try (simple_wr id (fun _ h => h));
  pthread_rwlock_unlock := simple_un id (fun _ h => h);
  rwlock_t := holding; sys_rw_holders := holding_of; sys_rw_writer := fst;
  sys_rw_rdlock := simple_rd id (fun _ h => h); sys_rw_wrlock := simple_wr id (fun _ h => h);
  sys_rw_tryrdlock := simple_try (simple_rd id (fun _ h => h)); sys_rw_trywrlock := simple_try (simple_wr id (fun _ h => h));
  sys_rw_unlock := simple_un id (fun _ h => h);
  win_cond_t := gmap tid (option Z) * gset tid; SRWLOCK := holding;
  win_rw_holders l := holding_of (win_rw_holding l); win_rw_writer l := (win_rw_holding l).1;
  win_rw_rdlock := simple_rd win_rw_holding set_win_rw; win_rw_wrlock := simple_wr win_rw_holding set_win_rw;
  win_rw_tryrdlock := simple_try (simple_rd win_rw_holding set_win_rw);
  win_rw_trywrlock := simple_try (simple_wr win_rw_holding set_win_rw);
  win_rw_unlock := simple_un win_rw_holding set_win_rw;
  my_rw_holders l := holding_of (my_rw_holding l);
  my_rw_rdlock := simple_rd my_rw_holding set_my_rw; my_rw_wrlock := simple_wr my_rw_holding set_my_rw;
  my_rw_tryrdlock := simple_try (simple_rd my_rw_holding set_my_rw);
  my_rw_trywrlock := simple_try (simple_wr my_rw_holding set_my_rw);
  my_rw_unlock := simple_un my_rw_holding set_my_rw;
  rw_pr_holders l := holding_of (pr_holding l);
  rw_pr_rdlock := simple_rd pr_holding set_pr; rw_pr_wrlock := simple_wr pr_holding set_pr;
  rw_pr_unlock := simple_un pr_holding set_pr |}.

Lemma safe_get_set (m : safe_mutex_t (option tid)) (o : option tid) : safe_owner (set_safe m o) = o.
Proof. by destruct o. Qed.

#[export] Instance simple_system_laws : SystemLaws.
Proof.
  assert (Hn : mutex_behaviour (fun _ => True) (id : option tid -> option tid) (simple_lock id (fun _ o => o))
    (simple_try (simple_lock id (fun _ o => o))) (simple_unlock (fun _ o => o))) by by apply simple_mutex_behaves.
  constructor; cbn.
  - intros t c ->. by eexists.
  - intros t u c -> Hu. by rewrite decide_False.
  - intros t c Hc. destruct (trylock_free _ _ _ _ _ Hn t c I Hc) as (m & E & _ & Hm). by exists m.
  - intros t u c Hc Hu. destruct (trylock_busy _ _ _ _ _ Hn t u c I Hc Hu) as (r & m & E & Hr & _ & Hm). by exists r, m.
  - done.
  - exact Hn.
  - intros _ _. apply simple_mutex_behaves; [apply safe_get_set|]. intros m [u|] Ho; cbn; lia.
  - intros t m Hm. eexists. unfold simple_lock. cbn in Hm. rewrite Hm. split; [done|]. done.
  - intros t u m Hm Hu. unfold simple_lock. cbn in Hm. rewrite Hm. by rewrite decide_False.
  - by apply simple_behaves.
  - apply simple_behaves.
    + intros l w rs Ho Hw. unfold my_rw_holding, my_rw_writer, set_my_rw; cbn. destruct w as [u|]; cbn; [done|].
      by rewrite (proj2 (Z.eqb_neq _ _)) by lia.
    + intros l [[u|] rs] Ho; cbn; lia.
  - by apply simple_behaves.
  - apply simple_behaves; [|done]. by intros [h b|w r w' n n'] o rs _ _.
  - intros t l. pose proof (simple_behaves pr_holding set_pr (fun _ => True) false) as Hb.
    destruct (Hb ltac:(intros l' [u|] rs _ _; done) ltac:(done) t l) as [B1 B2 B3 B4 _ _ B7].
    by constructor.
Qed.
