(* ===== verification/LockClients.v ===== *)
(** * Clients of locks (my_pthread.h)

    Threads that lock, try, release and assert, under any interleaving, against the interface of
    Locks.v.  The specification is a table of read-write locks. *)
From S2P Require Import Prelude Locks.

(** ** Concurrent clients *)

(** The code of a thread: requests for reading or writing, tries with the two ways to go on, releases, and the
    assertions on the owner. *)
Inductive prog :=
  | End
  | Lock (w : bool) (a : nat) (k : prog)
  | Try (w : bool) (a : nat) (got busy : prog)
  | Unlock (a : nat) (k : prog)
  | Assert (own : bool) (a : nat) (k : prog).

(** What happens to the locks, as seen by the threads. *)
Inductive event := Acquire (w : bool) (a : nat) | Release (a : nat).

Section Clients.
Context {L : Type} `{RwLaws L}.

Definition upd (σ : nat -> L) (a : nat) (l : L) : nat -> L := fun b => if decide (b = a) then l else σ b.

(** One step of a thread: it waits, an assertion fails, or it goes on. *)
Inductive outcome := Waits | Fails | Goes (σ : nat -> L) (p : prog) (tr : list (tid * event)).

Definition request (w : bool) : op L := if w then wrlock else rdlock.
Definition try_request (w : bool) : op L := if w then trywrlock else tryrdlock.

Definition exec (t : tid) (σ : nat -> L) (p : prog) : option outcome :=
  match p with
  | End => None
  | Lock w a k => Some match request w t (σ a) with
      | None => Waits
      | Some (r, l) => Goes (upd σ a l) k (if r =? 0 then [(t, Acquire w a)] else [])
      end
  | Try w a got busy => Some match try_request w t (σ a) with
      | None => Waits
      | Some (r, l) => if r =? 0 then Goes (upd σ a l) got [(t, Acquire w a)] else Goes (upd σ a l) busy []
      end
  | Unlock a k => Some match unlock t (σ a) with
      | None => Waits
      | Some (r, l) => Goes (upd σ a l) k (if r =? 0 then [(t, Release a)] else [])
      end
  | Assert own a k =>
      Some (if (if own then assert_write_owner t (σ a) else assert_not_write_owner t (σ a)) then Goes σ k [] else Fails)
  end.

Record config := { locks : nat -> L; threads : list prog }.

Inductive step : config -> list (tid * event) -> config -> Prop :=
| step_goes σ ts t p σ' p' tr :
    ts !! t = Some p -> exec t σ p = Some (Goes σ' p' tr) ->
    step {| locks := σ; threads := ts |} tr {| locks := σ'; threads := <[t := p']> ts |}.

Inductive run : config -> list (tid * event) -> config -> Prop :=
| run_refl c : run c [] c
| run_step c tr c' tr' c'' : run c tr c' -> step c' tr' c'' -> run c (tr ++ tr') c''.

Definition finished (c : config) : Prop := Forall (fun p => p = End) (threads c).
Definition failing (c : config) : Prop := exists t p, threads c !! t = Some p /\ exec t (locks c) p = Some Fails.

(** *** The specification: a table of read-write locks *)

Abbreviation table := (nat -> gmap tid bool).
Definition upd_table (h : table) (a : nat) (m : gmap tid bool) : table := fun b => if decide (b = a) then m else h b.

Definition spec_step (h : table) (te : tid * event) : option table :=
  let '(t, e) := te in
  match e with
  | Acquire true a => if decide (h a = ∅) then Some (upd_table h a {[t := true]}) else None
  | Acquire false a =>
      if decide (h a !! t = None /\ map_Forall (fun _ w => w = false) (h a)) then Some (upd_table h a (<[t := false]> (h a))) else None
  | Release a => match h a !! t with Some _ => Some (upd_table h a (delete t (h a))) | None => None end
  end.
Definition spec_run (tr : list (tid * event)) (h : table) : option table :=
  foldl (fun o e => h ← o; spec_step h e) (Some h) tr.
Definition free_table : table := fun _ => ∅.

(** *** Disciplined clients

    A thread releases what it holds and nothing else, and asks for no lock that it holds.  An ordered one also asks for
    locks in ascending order, where tries need no order, and holds none at its end. *)
Context (ordered : bool).

Fixpoint disciplined (can_try : nat -> bool) (held : gmap nat bool) (p : prog) : Prop :=
  match p with
  | End => ordered = true -> held = ∅
  | Lock w a k => held !! a = None /\ (ordered = true -> forall b, is_Some (held !! b) -> (b < a)%nat)
      /\ disciplined can_try (<[a := w]> held) k
  | Try w a got busy => can_try a = true /\ held !! a = None
      /\ disciplined can_try (<[a := w]> held) got /\ disciplined can_try held busy
  | Unlock a k => is_Some (held !! a) /\ disciplined can_try (delete a held) k
  | Assert own a k => held !! a = (if own then Some true else None) /\ disciplined can_try held k
  end.

(** The steps a thread can still make. *)
Fixpoint size (p : prog) : nat :=
  match p with
  | End => 0
  | Lock _ _ k | Unlock _ k | Assert _ _ k => S (size k)
  | Try _ _ got busy => S (size got `max` size busy)
  end.
Definition total (ps : list prog) : nat := foldr (fun p n => (size p + n)%nat) 0%nat ps.
Definition work (c : config) : nat := total (threads c).

(** *** Lemmas *)

(** A lock that is in the state of the specification. *)
Definition agrees (can : bool) (l : L) (m : gmap tid bool) : Prop :=
  ok l /\ tryable l = can /\ holders l = dom m
  /\ (forall t, writer l = Some t -> holders l = {[t]}) /\ (forall t, m !! t = Some true -> writer l = Some t).

Lemma agrees_holds can l m t : agrees can l m -> m !! t = None -> t ∉ holders l.
Proof. intros (_ & _ & -> & _) Ht. by apply not_elem_of_dom. Qed.

Lemma agrees_free can l m : agrees can l m -> m = ∅ -> holders l = ∅.
Proof. intros (_ & _ & -> & _) ->. apply dom_empty_L. Qed.

Lemma grant_step (h : table) can l (w : bool) a t l' :
  agrees can l (h a) -> h a !! t = None -> (if w then gets_write t l l' else gets_read t l l') ->
  spec_step h (t, Acquire w a) = Some (upd_table h a (<[t := w]> (h a))) /\ agrees can l' (<[t := w]> (h a)).
Proof.
  intros (Ho & Hc & Hh & Hw & Hm) Ht Hg. destruct w.
  - destruct Hg as (Hf & Hh' & [Ho' Hc'] & Hw'). rewrite Hh in Hf. apply dom_empty_inv_L in Hf as Hf'.
    cbn. rewrite decide_True by done. rewrite Hf', insert_empty. split; [done|].
    unfold agrees. rewrite Hc', dom_singleton_L, Hw', Hh'. split_and!; try done.
    + by intros u [= ->].
    + by intros u [-> _]%lookup_singleton_Some.
  - destruct Hg as (Hn & Hh' & [Ho' Hc'] & Hw').
    assert (Hall : map_Forall (fun _ w => w = false) (h a)).
    { intros u [] Hu; [|done]. apply Hm in Hu. by rewrite Hn in Hu. }
    cbn. rewrite decide_True by done. split; [done|]. unfold agrees. rewrite Hc', dom_insert_L, Hh', Hh. split_and!; try done.
    + intros u Hu. destruct Hw' as [Hw'|[Hf Hw']]; rewrite Hw' in Hu; [done|]. injection Hu as ->.
      rewrite <- Hh, Hf. apply union_empty_r_L.
    + intros u [[? ?]|[? Hu]]%lookup_insert_Some; [done|]. by apply Hall in Hu.
Qed.

Lemma same_agrees can l m l' : agrees can l m -> same l l' -> agrees can l' m.
Proof.
  intros (Ho & Hc & Hh & Hw & Hm) (Hh' & [Ho' Hc'] & Hw'). unfold agrees. by rewrite Hc', Hh', Hw'.
Qed.

Lemma release_agrees can l (m : gmap tid bool) t l' : agrees can l m -> is_Some (m !! t) ->
  holders l' = holders l ∖ {[t]} -> keeps l l' -> writer l' = None -> agrees can l' (delete t m).
Proof.
  intros (Ho & Hc & Hh & Hw & Hm) Ht Hh' [Ho' Hc'] Hw'. unfold agrees. rewrite Hc', Hh', Hw', dom_delete_L, Hh.
  split_and!; try done. intros u Hu. apply lookup_delete_Some in Hu as [Hne Hu]. apply Hm in Hu as Hwu. apply Hw in Hwu.
  rewrite Hh in Hwu. exfalso. apply Hne. apply (elem_of_singleton (C := gset tid)). rewrite <- Hwu. by apply elem_of_dom.
Qed.

(** The invariant: the locks are in the state [h] of the specification, and every thread holds in [h] what its
    code releases. *)
Record inv (can_try : nat -> bool) (c : config) (h : table) : Prop := {
  inv_locks a : agrees (can_try a) (locks c a) (h a);
  inv_threads t p : threads c !! t = Some p ->
    exists held, disciplined can_try held p /\ (forall a, held !! a = h a !! t);
  inv_dom a t : is_Some (h a !! t) -> is_Some (threads c !! t) }.

Lemma upd_eq (σ : nat -> L) a l : upd σ a l a = l.
Proof. unfold upd. by rewrite decide_True. Qed.
Lemma upd_ne (σ : nat -> L) a b l : b <> a -> upd σ a l b = σ b.
Proof. intros. unfold upd. by rewrite decide_False. Qed.

Lemma upd_table_lookup_ne (h : table) a m t b :
  m !! t = h a !! t -> upd_table h a m b !! t = h b !! t.
Proof. unfold upd_table. destruct (decide (b = a)) as [->|]; done. Qed.

(** A step that changes one lock and what its thread holds of it. *)
Lemma inv_update can_try σ ts h t p a l p' m held' :
  inv can_try {| locks := σ; threads := ts |} h -> ts !! t = Some p ->
  agrees (can_try a) l m -> (forall u, u <> t -> m !! u = h a !! u) ->
  disciplined can_try held' p' -> (forall b, held' !! b = upd_table h a m b !! t) ->
  inv can_try {| locks := upd σ a l; threads := <[t := p']> ts |} (upd_table h a m).
Proof.
  intros [Hl Ht Hdom] Hp Ha Hm Hd Hheld. constructor; cbn [locks threads] in *.
  - intros b. destruct (decide (b = a)) as [->|Hb].
    + unfold upd_table. by rewrite upd_eq, decide_True.
    + unfold upd_table. by rewrite upd_ne, decide_False.
  - intros u q Hq. destruct (decide (u = t)) as [->|Hu].
    + rewrite list_lookup_insert_eq in Hq by (by eapply lookup_lt_Some). injection Hq as <-. by exists held'.
    + rewrite list_lookup_insert_ne in Hq by done. destruct (Ht u q Hq) as (held & D1 & D2). exists held.
      split; [done|]. intros b. rewrite D2. symmetry. apply upd_table_lookup_ne. by apply Hm.
  - intros b u Hu. destruct (decide (u = t)) as [->|Hne].
    + rewrite list_lookup_insert_eq by (by eapply lookup_lt_Some). by eexists.
    + rewrite list_lookup_insert_ne by done. apply (Hdom b). by rewrite upd_table_lookup_ne in Hu by (by apply Hm).
Qed.

Lemma held_insert (h : table) (held : gmap nat bool) t a w :
  (forall b, held !! b = h b !! t) -> forall b, <[a := w]> held !! b = upd_table h a (<[t := w]> (h a)) b !! t.
Proof.
  intros Hh b. unfold upd_table. destruct (decide (b = a)) as [->|].
  - by rewrite !lookup_insert_eq.
  - by rewrite lookup_insert_ne, Hh.
Qed.

Lemma held_delete (h : table) (held : gmap nat bool) t a :
  (forall b, held !! b = h b !! t) -> forall b, delete a held !! b = upd_table h a (delete t (h a)) b !! t.
Proof.
  intros Hh b. unfold upd_table. destruct (decide (b = a)) as [->|].
  - by rewrite !lookup_delete_eq.
  - by rewrite lookup_delete_ne, Hh.
Qed.

Lemma held_same (h : table) (held : gmap nat bool) t a :
  (forall b, held !! b = h b !! t) -> forall b, held !! b = upd_table h a (h a) b !! t.
Proof. intros Hh b. rewrite Hh. symmetry. by apply upd_table_lookup_ne. Qed.

Lemma inv_ext can_try c (h h' : table) : (forall a, h a = h' a) -> inv can_try c h -> inv can_try c h'.
Proof.
  intros Hh [Hl Ht Hd]. constructor.
  - intros a. by rewrite <- Hh.
  - intros t p Hp. destruct (Ht t p Hp) as (held & D1 & D2). exists held. split; [done|]. intros a. by rewrite <- Hh.
  - intros a t. rewrite <- Hh. apply Hd.
Qed.

Lemma upd_table_same (h : table) a b : upd_table h a (h a) b = h b.
Proof. unfold upd_table. by destruct (decide (b = a)) as [->|]. Qed.

(** What a step of a thread does in the invariant: no assertion fails, only a request for a lock that is
    held waits, and a step that is made is a step of the specification. *)
Lemma exec_inv can_try σ ts h t p o :
  inv can_try {| locks := σ; threads := ts |} h -> ts !! t = Some p -> exec t σ p = Some o ->
  match o with
  | Fails => False
  | Waits => exists w a k, p = Lock w a k /\ h a <> ∅
  | Goes σ' p' tr => exists h', spec_run tr h = Some h'
      /\ inv can_try {| locks := σ'; threads := <[t := p']> ts |} h' /\ (size p' < size p)%nat
  end.
Proof.
  intros Hi Hp He. destruct (inv_threads _ _ _ Hi t p Hp) as (held & Hd & Hheld).
  pose proof (inv_locks _ _ _ Hi) as Hl. cbn [locks] in Hl. pose proof rw_behaves as Hrw.
  destruct p as [|w a k|w a got busy|a k|own a k]; cbn in He, Hd; [done|..]; injection He as <-.
  - destruct Hd as (Hnone & _ & Hd). assert (Hn : h a !! t = None) by (by rewrite <- Hheld).
    pose proof (agrees_holds _ _ _ _ (Hl a) Hn) as Hnh. pose proof (proj1 (Hl a)) as Hok.
    destruct (request w t (σ a)) as [[r l]|] eqn:E.
    + assert (r = 0 /\ (if w then gets_write t (σ a) l else gets_read t (σ a) l)) as [-> Hg].
      { destruct w; cbn in E; [by apply (wr_granted _ _ _ _ _ _ _ (Hrw t (σ a)))|by apply (rd_granted _ _ _ _ _ _ _ (Hrw t (σ a)))]. }
      destruct (grant_step h _ _ w a t l (Hl a) Hn Hg) as [Hs Ha]. eexists. split; [exact Hs|]. split; [|cbn; lia].
      eapply inv_update; [done..| |exact Hd|by apply held_insert]. intros u Hu. by apply lookup_insert_ne.
    + exists w, a, k. split; [done|]. intros Hf. pose proof (agrees_free _ _ _ (Hl a) Hf) as Hfree.
      destruct w; cbn in E; [destruct (wr_free _ _ _ _ _ _ _ (Hrw t (σ a)) Hok Hfree) as [x Hx]
        |destruct (rd_free _ _ _ _ _ _ _ (Hrw t (σ a)) Hok Hfree) as [x Hx]]; by rewrite Hx in E.
  - destruct Hd as (Hc & Hnone & Hd1 & Hd2). assert (Hn : h a !! t = None) by (by rewrite <- Hheld).
    pose proof (agrees_holds _ _ _ _ (Hl a) Hn) as Hnh. pose proof (Hl a) as (Hok & Htry & _). rewrite Hc in Htry.
    assert (exists r l, try_request w t (σ a) = Some (r, l)
      /\ if r =? 0 then (if w then gets_write t (σ a) l else gets_read t (σ a) l) else same (σ a) l) as (r & l & -> & Hr).
    { destruct w; [by apply (trywr_answers _ _ _ _ _ _ _ (Hrw t (σ a)))|by apply (tryrd_answers _ _ _ _ _ _ _ (Hrw t (σ a)))]. }
    destruct (r =? 0).
    + destruct (grant_step h _ _ w a t l (Hl a) Hn Hr) as [Hs Ha]. eexists. split; [exact Hs|]. split; [|cbn; lia].
      eapply inv_update; [done..| |exact Hd1|by apply held_insert]. intros u Hu. by apply lookup_insert_ne.
    + exists h. split; [done|]. split; [|cbn; lia]. apply (inv_ext _ _ (upd_table h a (h a))); [apply upd_table_same|].
      eapply inv_update; [done..|by eapply same_agrees|done|exact Hd2|by apply held_same].
  - destruct Hd as [Hsome Hd]. assert (Hin : is_Some (h a !! t)) by (by rewrite <- Hheld).
    pose proof (Hl a) as (Hok & _ & Hh & _). assert (Ht : t ∈ holders (σ a)) by (rewrite Hh; by apply elem_of_dom).
    destruct (un_releases _ _ _ _ _ _ _ (Hrw t (σ a)) Hok Ht) as (l & -> & Hh' & Hk & Hw'). cbn.
    exists (upd_table h a (delete t (h a))). split; [|split; [|lia]].
    + cbn. by destruct Hin as [x ->].
    + eapply inv_update; [done..|by eapply release_agrees| |exact Hd|by apply held_delete].
      intros u Hu. by apply lookup_delete_ne.
  - destruct Hd as [Hown Hd]. pose proof (Hl a) as (Hok & _ & Hh & Hw & Hm).
    assert ((if own then assert_write_owner t (σ a) else assert_not_write_owner t (σ a)) = true) as ->.
    { rewrite Hheld in Hown. destruct own.
      - apply assert_owner_holds; [done|]. by apply Hm.
      - apply assert_not_owner_holds; [done|]. intros Hwt. apply Hw in Hwt. rewrite Hh in Hwt.
        apply not_elem_of_dom in Hown. apply Hown. rewrite Hwt. by apply elem_of_singleton. }
    exists h. split; [done|]. split; [|cbn; lia].
    apply (inv_ext _ _ (upd_table h a (h a))); [apply upd_table_same|].
    assert (Hσ : forall b, upd σ a (σ a) b = σ b) by (intros b; unfold upd; by destruct (decide (b = a)) as [->|]).
    pose proof (inv_update can_try σ ts h t _ a (σ a) k (h a) held Hi Hp (Hl a) ltac:(done) Hd (held_same _ _ _ _ Hheld)) as [G1 G2 G3].
    constructor; [|exact G2|exact G3]. intros b. cbn [locks] in *. rewrite <- Hσ. apply G1.
Qed.

Lemma spec_run_app tr tr' h : spec_run (tr ++ tr') h = (h' ← spec_run tr h; spec_run tr' h').
Proof.
  unfold spec_run. rewrite foldl_app. destruct (foldl _ (Some h) tr) as [h'|]; [done|]. cbn.
  induction tr' as [|e tr' IH]; [done|]. exact IH.
Qed.

Lemma locks_work_insert (ts : list prog) t p p' : ts !! t = Some p -> (size p' < size p)%nat ->
  (total (<[t := p']> ts) < total ts)%nat.
Proof.
  revert t. induction ts as [|q ts IH]; intros t; [done|]. destruct t as [|t]; cbn.
  - intros [= ->] Hs. lia.
  - intros Hp Hs. apply Nat.add_lt_mono_l. exact (IH t Hp Hs).
Qed.

Lemma locks_step_inv can_try c tr c' h : inv can_try c h -> step c tr c' ->
  (exists h', spec_run tr h = Some h' /\ inv can_try c' h') /\ (work c' < work c)%nat.
Proof.
  intros Hi Hs. destruct Hs as [σ ts t p σ' p' tr Hp He].
  destruct (exec_inv can_try σ ts h t p _ Hi Hp He) as (h' & Hr & Hi' & Hsz). split; [by exists h'|].
  by apply locks_work_insert with p.
Qed.

Lemma run_inv can_try c tr c' h : inv can_try c h -> run c tr c' -> exists h', spec_run tr h = Some h' /\ inv can_try c' h'.
Proof.
  intros Hi Hr. induction Hr as [c|c tr c' tr' c'' Hr IH Hs]; [by exists h|].
  destruct (IH Hi) as (h' & E & Hi'). destruct (locks_step_inv _ _ _ _ _ Hi' Hs) as [(h'' & E' & Hi'') _].
  exists h''. by rewrite spec_run_app, E.
Qed.

Lemma inv_no_failure can_try c h : inv can_try c h -> ~ failing c.
Proof. destruct c as [σ ts]. intros Hi (t & p & Hp & He). by apply (exec_inv can_try σ ts h t p _ Hi Hp He). Qed.

#[export] Instance is_end_dec (p : prog) : Decision (p = End).
Proof. destruct p; (by left) || (by right). Defined.

Lemma exec_some t σ p : p <> End -> exists o, exec t σ p = Some o.
Proof. destruct p; [done|by eexists..]. Qed.

Definition next_lock (p : prog) : nat := match p with Lock _ a _ => a | _ => 0 end.

(** Among threads that either go on or wait for a lock that is held, one goes on: a thread that waits waits for
    one that asks for a greater lock, or that goes on. *)
Lemma ordered_progress (goes : tid -> Prop) can_try (ps : list prog) (h : table) :
  ordered = true ->
  (forall t p, ps !! t = Some p -> exists held, disciplined can_try held p /\ forall a, held !! a = h a !! t) ->
  (forall a t, is_Some (h a !! t) -> is_Some (ps !! t)) ->
  (forall t p, ps !! t = Some p -> p <> End -> goes t \/ exists w a k, p = Lock w a k /\ h a <> ∅) ->
  forall t p, ps !! t = Some p -> p <> End -> exists u, goes u.
Proof.
  intros Hord Hheld Hdom Hgo t p Hp Hne. set (top := max_list (next_lock <$> ps)).
  assert (Htop : forall u q, ps !! u = Some q -> (next_lock q <= top)%nat).
  { intros u q Hq. apply max_list_elem_of_le, list_elem_of_fmap_2. by eapply list_elem_of_lookup_2. }
  remember (top - next_lock p)%nat as n eqn:Hn. revert t p Hp Hne Hn.
  induction (lt_wf n) as [n _ IH]. intros t p Hp Hne Hn.
  destruct (Hgo t p Hp Hne) as [Hg|(w & a & k & -> & Hh)]; [by exists t|].
  apply map_choose in Hh as (u & x & Hu). destruct (Hdom a u) as [q Hq]; [by eexists|].
  destruct (Hheld u q Hq) as (held & Hd & Hl). assert (Ha : held !! a = Some x) by (by rewrite Hl).
  assert (Hq' : q <> End) by (intros ->; cbn in Hd; by rewrite (Hd Hord) in Ha).
  destruct (Hgo u q Hq Hq') as [Hg|(w' & a' & k' & -> & _)]; [by exists u|].
  destruct Hd as (_ & Hlt & _). assert (a < a')%nat by (apply Hlt; [done|by eexists]).
  pose proof (Htop _ _ Hq) as Hb. cbn in *. eapply (IH (top - a')%nat); [lia|exact Hq|done|done].
Qed.

Lemma locks_inv_progress can_try c h : ordered = true -> inv can_try c h -> ~ finished c -> exists tr c', step c tr c'.
Proof.
  destruct c as [σ ts]. intros Hord Hi Hnf. apply not_Forall_Exists in Hnf; [|apply _].
  apply Exists_exists in Hnf as (p & Hp & Hne). apply list_elem_of_lookup in Hp as [t Hp]. cbn [threads] in Hp.
  destruct (ordered_progress (fun t => exists p σ' p' tr, ts !! t = Some p /\ exec t σ p = Some (Goes σ' p' tr))
    can_try ts h Hord (inv_threads _ _ _ Hi) (inv_dom _ _ _ Hi)) with (t := t) (p := p) as (u & q & σ' & q' & tr & Hq & He); [|done..|].
  - intros u q Hq Hqe. destruct (exec_some u σ q Hqe) as [o He]. pose proof (exec_inv can_try σ ts h u q o Hi Hq He) as Ho.
    destruct o as [| |σ' q' tr]; [by right|done|]. left. by exists q, σ', q', tr.
  - do 2 eexists. by econstructor.
Qed.

Lemma inv_measure can_try (c : config) n (c' : config) : (exists h, inv can_try c h) /\ work c = n -> (exists tr, step c tr c') ->
  exists m, (m < n)%nat /\ (exists h, inv can_try c' h) /\ work c' = m.
Proof.
  intros [[h Hi] <-] [tr Hs]. destruct (locks_step_inv _ _ _ _ _ Hi Hs) as [(h' & _ & Hi') Hw]. exists (work c').
  split_and!; [done|by exists h'|done].
Qed.

Lemma inv_terminates can_try c h : inv can_try c h -> sn (fun c c' => exists tr, step c tr c') c.
Proof. intros Hi. eapply (measure_sn _ _ (inv_measure can_try)). split; [by exists h|done]. Qed.

Lemma inv_finished can_try c h a : ordered = true -> inv can_try c h -> finished c -> holders (locks c a) = ∅.
Proof.
  intros Hord Hi Hf. destruct (inv_locks _ _ _ Hi a) as (_ & _ & -> & _). apply dom_empty_iff_L, map_empty. intros t.
  destruct (h a !! t) as [w|] eqn:E; [|done]. destruct (inv_dom _ _ _ Hi a t) as [p Hp]; [by eexists|].
  destruct (inv_threads _ _ _ Hi t p Hp) as (held & Hd & Hheld). unfold finished in Hf. rewrite Forall_lookup in Hf.
  rewrite (Hf t p Hp) in Hd. cbn in Hd. by rewrite <- Hheld, (Hd Hord) in E.
Qed.

Lemma step_run (c c' c'' : config) tr tr' : step c tr c' -> run c' tr' c'' -> run c (tr ++ tr') c''.
Proof.
  intros Hs Hr. induction Hr as [c'|c' tr1 c1 tr2 c2 Hr IH H12].
  - rewrite app_nil_r. apply (run_step c [] c tr c' (run_refl c) Hs).
  - rewrite app_assoc. by eapply run_step; [apply IH|].
Qed.

Lemma steps_run (c c' : config) : rtc (fun c c' => exists tr, step c tr c') c c' -> exists tr, run c tr c'.
Proof.
  induction 1 as [c|c c1 c' [tr Hs] _ [tr' IH]]; [exists []; constructor|]. exists (tr ++ tr'). by eapply step_run.
Qed.

(** Any run can be continued until all threads are at their end. *)
Lemma inv_completes can_try c h : ordered = true -> inv can_try c h -> exists tr c', run c tr c' /\ finished c'.
Proof.
  intros Hord Hi. destruct (measure_ends _ _ (inv_measure can_try) finished) with (x := c) (n := work c) as (c' & Hr & Hf).
  - intros x n [[h' Hx] _]. destruct (decide (finished x)) as [|Hf]; [by left|right].
    destruct (locks_inv_progress _ _ _ Hord Hx Hf) as (tr & y & Hs). by exists y, tr.
  - split; [by exists h|done].
  - apply steps_run in Hr as [tr Hr]. by exists tr, c'.
Qed.

(** The start: all locks free, no thread holding anything. *)
Definition starts (can_try : nat -> bool) (σ : nat -> L) (ps : list prog) : Prop :=
  (forall a, ok (σ a) /\ tryable (σ a) = can_try a /\ holders (σ a) = ∅ /\ writer (σ a) = None)
  /\ Forall (disciplined can_try ∅) ps.

Lemma locks_start_inv can_try σ ps : starts can_try σ ps -> inv can_try {| locks := σ; threads := ps |} free_table.
Proof.
  intros [Hl Hp]. constructor; cbn [locks threads].
  - intros a. destruct (Hl a) as (Ho & Ht & Hh & Hw). unfold agrees, free_table. rewrite Hh, Hw. by split_and!.
  - intros t p Ht. rewrite Forall_lookup in Hp. exists ∅. split; [by eapply Hp|]. done.
  - intros a t [x Hx]. done.
Qed.
End Clients.

(** ** Properties *)

Section Properties.
Context `{SystemLaws} (f : string) (n : Z).
#[local] Existing Instance lock_rw.

(** In every build of the macros of my_pthread.h (Windows, checked, fast and native mutexes;
    read-write locks made of a mutex, of the system, of MySQL; locks that prefer readers), whatever
    mixture of them a program uses and however its threads interleave, what the threads see is a run of a table
    of read-write locks: a writer is alone, readers share, only holders release.  No assertion on
    the owner of a lock fails. *)
Theorem lock_clients_refine (ordered : bool) (can_try : nat -> bool) (σ : nat -> lock_obj) (ps : list prog) (tr : list (tid * event)) (c : config) :
  starts ordered can_try σ ps -> run (H0 := lock_rw f n) {| locks := σ; threads := ps |} tr c ->
  (exists h, spec_run tr free_table = Some h /\ forall a, holders (locks c a) = dom (h a))
  /\ ~ failing (H0 := lock_rw f n) c.
Proof.
  intros Hs Hr. destruct (run_inv _ _ _ _ _ _ (locks_start_inv _ _ _ _ Hs) Hr) as (h & E & Hi). split.
  - exists h. split; [done|]. intros a. by destruct (inv_locks _ _ _ _ Hi a) as (_ & _ & Hh & _).
  - by eapply inv_no_failure.
Qed.

(** Clients that ask for locks in ascending order do not deadlock, in any build and under any
    interleaving: from every state that can be reached a thread can go on or all are at their end, no run
    goes on for ever, every run can be continued to the end of all threads, and then every lock is free. *)
Theorem lock_clients_finish (can_try : nat -> bool) (σ : nat -> lock_obj) (ps : list prog) (tr : list (tid * event)) (c : config) :
  starts true can_try σ ps -> run (H0 := lock_rw f n) {| locks := σ; threads := ps |} tr c ->
  (finished c \/ exists tr' c', step (H0 := lock_rw f n) c tr' c')
  /\ sn (fun c c' => exists tr', step (H0 := lock_rw f n) c tr' c') c
  /\ (exists tr' c', run (H0 := lock_rw f n) c tr' c' /\ finished c')
  /\ (finished c -> forall a, holders (locks c a) = ∅).
Proof.
  intros Hs Hr. destruct (run_inv _ _ _ _ _ _ (locks_start_inv _ _ _ _ Hs) Hr) as (h & E & Hi). split_and!.
  - destruct (decide (finished c)) as [|Hf]; [by left|right]. by eapply locks_inv_progress.
  - by eapply inv_terminates.
  - by eapply inv_completes.
  - intros Hf a. by eapply inv_finished.
Qed.
End Properties.

(** *** A run *)

(** Locks 0 to 4: a checked mutex, a lock made of a Windows mutex, one of the system, one of MySQL, one that
    prefers readers. *)
Definition example_locks (a : nat) : lock_obj :=
  match a with
  | 0%nat => MutexLock (SafeMutexObj {| global := None; mutex := None; file := "a.c"; line := 1; count := 0; thread := 0 |})
  | 1%nat => RwLockObj (MutexInstead (WindowsMutex None))
  | 2%nat => RwLockObj (PthreadRwlock (None, ∅))
  | 3%nat => RwLockObj (MyRwLock {| rw_lock := None; readers := (∅, ∅); writers := (∅, ∅); state := 0; waiters := 0; write_thread := 0 |})
  | _ => PrLock {| pr_lock := None; no_active_readers := (∅, ∅); active_readers := 0; writers_waiting_readers := 0;
      active_writer := false; writer_thread := 0 |}
  end.
Definition example_can_try (a : nat) : bool := (a <=? 3)%nat.
Definition example_threads : list prog :=
  [ Lock true 0 (Assert true 0 (Lock false 2 (Try true 3 (Assert true 3 (Unlock 3 (Unlock 2 (Unlock 0 End))))
      (Unlock 2 (Unlock 0 End)))));
    Lock false 2 (Lock false 4 (Unlock 4 (Unlock 2 End)));
    Assert false 0 (Lock false 1 (Lock true 4 (Assert true 4 (Unlock 4 (Unlock 1 End))))) ].

Lemma example_starts (ordered : bool) : starts ordered example_can_try example_locks example_threads.
Proof.
  split.
  - intros [|[|[|[|a]]]]; split_and!; try done; cbn; lia.
  - unfold example_threads. rewrite !Forall_cons. cbn -[insert delete lookup]. split_and!;
      lazymatch goal with
      | |- _ -> forall b, _ => intros _ b [x Hb]; repeat (apply lookup_insert_Some in Hb as [[<- _]|[_ Hb]]; [lia|]); done
      | |- is_Some _ => by eexists
      | |- Forall _ [] => constructor
      | |- _ => (by intros _) || reflexivity
      end.
Qed.

(** Thread [t] of a list makes a step. *)
Fixpoint schedule {L : Type} `{RwLaws L} (ts : list tid) (c : @config L) : option (list (tid * event) * @config L) :=
  match ts with
  | [] => Some ([], c)
  | t :: ts =>
      p ← threads c !! t;
      match exec t (locks c) p with
      | Some (Goes σ p' tr) => '(tr', c') ← schedule ts {| locks := σ; threads := <[t := p']> (threads c) |}; Some (tr ++ tr', c')
      | _ => None
      end
  end.

Lemma schedule_run {L : Type} `{RwLaws L} (ts : list tid) : forall (c c' : @config L) tr, schedule ts c = Some (tr, c') -> run c tr c'.
Proof.
  induction ts as [|t ts IH]; intros [σ ps] c' tr; cbn; [intros [= <- <-]; constructor|].
  destruct (ps !! t) as [p|] eqn:Hp; [|done]. cbn. destruct (exec t σ p) as [[| |σ' p' tr1]|] eqn:He; try done.
  destruct (schedule ts _) as [[tr' c1]|] eqn:Es; [|done]. intros [= <- <-]. eapply step_run; [|by apply IH].
  by econstructor.
Qed.

#[local] Existing Instance lock_rw.
Definition example_start : @config lock_obj := {| locks := example_locks; threads := example_threads |}.
Definition example_order : list tid := [0; 1; 0; 0; 2; 1; 2; 0; 1; 0; 2; 1; 2; 0; 0; 0; 2; 2]%nat.
Definition example_run : option (list (tid * event) * @config lock_obj) :=
  schedule (H0 := lock_rw "a.c" 1) (H1 := lock_lawful "a.c" 1) example_order example_start.

Lemma example_run_trace : (fun r => length r.1) <$> example_run = Some 14%nat.
Proof. vm_compute. reflexivity. Qed.

Lemma example_run_ends : (fun r => threads r.2) <$> example_run = Some [End; End; End].
Proof. vm_compute. reflexivity. Qed.

Lemma lock_clients_refine_witness :
  exists tr c h, run (H0 := lock_rw "a.c" 1) example_start tr c /\ length tr = 14%nat
    /\ spec_run tr free_table = Some h /\ ~ failing (H0 := lock_rw "a.c" 1) c.
Proof.
  pose proof example_run_trace as Ht. destruct example_run as [[tr c]|] eqn:E; [|discriminate Ht].
  pose proof (schedule_run _ _ _ _ E) as Hr. injection Ht as Ht.
  destruct (lock_clients_refine "a.c" 1 false example_can_try example_locks example_threads tr c (example_starts false) Hr)
    as [(h & Hh & _) Hf].
  exists tr, c, h. split; [exact Hr|]. split; [exact Ht|]. split; [exact Hh|exact Hf].
Defined.

Lemma lock_clients_finish_witness :
  exists tr c, run (H0 := lock_rw "a.c" 1) example_start tr c /\ forall a, holders (locks c a) = ∅.
Proof.
  pose proof example_run_ends as Ht. destruct example_run as [[tr c]|] eqn:E; [|discriminate Ht].
  pose proof (schedule_run _ _ _ _ E) as Hr. injection Ht as Ht.
  destruct (lock_clients_finish "a.c" 1 example_can_try example_locks example_threads tr c (example_starts true) Hr)
    as (_ & _ & _ & Hf).
  exists tr, c. split; [exact Hr|]. apply Hf. unfold finished. rewrite Ht. repeat constructor.
Defined.
