(* ===== verification/InstrumentedLocks.v ===== *)
(** * Clients of instrumented locks (mysql/psi/mysql_thread.h over my_pthread.h)

    The macros of Thread.v on the locks of Locks.v: threads run the code of the [mysql_*] macros under any
    interleaving of their calls, the calls that the instrumentation makes of its server included.  A server may
    answer anything.  The theorems compare the threads with the table of locks of LockClients.v and with each
    other in different configurations. *)
From S2P Require Import Prelude Locks LockClients Psi Effects Thread.

(** ** Clients *)

(** Which lock is a mutex, a read-write lock or one that prefers readers, and where it is. *)
Inductive lock_kind := KMutex | KRwlock | KPrlock.

(** The code of a thread: it asks for locks, tries, and releases, each from a place in the source. *)
Inductive client :=
  | Done
  | Request (loc : srcloc) (w : bool) (a : nat) (k : client)
  | Attempt (loc : srcloc) (w : bool) (a : nat) (got busy : client)
  | Free (loc : srcloc) (a : nat) (k : client).

Section Clients.
Context (kind_of : nat -> lock_kind) (addr : nat -> Z).

(** The macro for a request for reading or writing ([w]), for a try, for a release. *)
Definition request_op (w : bool) (a : nat) : thread_op :=
  match kind_of a with
  | KMutex => MutexLock (addr a)
  | KRwlock => if w then RwlockWrlock (addr a) else RwlockRdlock (addr a)
  | KPrlock => if w then PrlockWrlock (addr a) else PrlockRdlock (addr a)
  end.
Definition attempt_op (w : bool) (a : nat) : option thread_op :=
  match kind_of a with
  | KMutex => Some (MutexTrylock (addr a))
  | KRwlock => Some (if w then RwlockTrywrlock (addr a) else RwlockTryrdlock (addr a))
  | KPrlock => None
  end.
Definition free_op (a : nat) : thread_op :=
  match kind_of a with
  | KMutex => MutexUnlock (addr a)
  | KRwlock => RwlockUnlock (addr a)
  | KPrlock => PrlockUnlock (addr a)
  end.

(** What a thread asks for next, and how it goes on with the result. *)
Definition operation (q : client) : option (srcloc * thread_op) :=
  match q with
  | Done => None
  | Request loc w a _ => Some (loc, request_op w a)
  | Attempt loc w a _ _ => pair loc <$> attempt_op w a
  | Free loc a _ => Some (loc, free_op a)
  end.
Definition next (q : client) (r : Z) : client :=
  match q with
  | Done => Done
  | Request _ _ _ k | Free _ _ k => k
  | Attempt _ _ _ got busy => if r =? 0 then got else busy
  end.

(** The program of a thread, made of the macros; there is no try for a lock that prefers readers. *)
Fixpoint code (cfg : config) (q : client) : prog () :=
  match q with
  | Done => Ret ()
  | Request loc w a k => r ← thread_prog cfg loc (request_op w a); code cfg k
  | Attempt loc w a got busy =>
      match attempt_op w a with
      | Some op => r ← thread_prog cfg loc op; code cfg (if r =? 0 then got else busy)
      | None => Stuck
      end
  | Free loc a k => r ← thread_prog cfg loc (free_op a); code cfg k
  end.

(** The same thread without the macros; a mutex is always held for writing. *)
Definition mode (w : bool) (a : nat) : bool := match kind_of a with KMutex => true | _ => w end.
Fixpoint plain (q : client) : LockClients.prog :=
  match q with
  | Done => LockClients.End
  | Request _ w a k => LockClients.Lock (mode w a) a (plain k)
  | Attempt _ w a got busy => LockClients.Try (mode w a) a (plain got) (plain busy)
  | Free _ a k => LockClients.Unlock a (plain k)
  end.

(** The locks of a client are among the first [bound]. *)
Fixpoint below (bound : nat) (q : client) : Prop :=
  match q with
  | Done => True
  | Request _ _ a k | Free _ a k => (a < bound)%nat /\ below bound k
  | Attempt _ _ a got busy => (a < bound)%nat /\ below bound got /\ below bound busy
  end.

(** ** The machine *)

Section Machine.
Context `{System}.
(** The string at an address, the place of a call in mysql_thread.h (which a lock made of a checked mutex is
    told), and the lock at an address. *)
Context (text : Z -> string) (header : sys_call -> string * Z) (lock_at : Z -> nat).

(** The lock that a call is about, and what it does to it. *)
Definition lock_call (c : sys_call) : option (Z * op lock_obj) :=
  let (f, n) := header c in
  let mu o := on_lock o (fun _ _ => None) (fun _ _ => None) in
  let rw o := on_lock (fun _ _ => None) o (fun _ _ => None) in
  let pr o := on_lock (fun _ _ => None) (fun _ _ => None) o in
  match c with
  | safe_mutex_lock mp try_lock sf sn => Some (mp, mu (fun t A =>
      match A with
      | SafeMutexObj A => '(r, A) ← Locks.safe_mutex_lock try_lock (text sf) sn t A; Some (r, SafeMutexObj A)
      | _ => None
      end))
  | safe_mutex_unlock mp sf sn => Some (mp, mu (fun t A =>
      match A with
      | SafeMutexObj A => '(r, A) ← Locks.safe_mutex_unlock (text sf) sn t A; Some (r, SafeMutexObj A)
      | _ => None
      end))
  | pthread_mutex_lock mp => Some (mp, mu (Locks.pthread_mutex_lock f n))
  | pthread_mutex_trylock mp => Some (mp, mu (Locks.pthread_mutex_trylock f n))
  | pthread_mutex_unlock mp => Some (mp, mu (Locks.pthread_mutex_unlock f n))
  | rw_rdlock p => Some (p, rw (Locks.rw_rdlock f n))
  | rw_wrlock p => Some (p, rw (Locks.rw_wrlock f n))
  | rw_tryrdlock p => Some (p, rw (Locks.rw_tryrdlock f n))
  | rw_trywrlock p => Some (p, rw (Locks.rw_trywrlock f n))
  | rw_unlock p => Some (p, rw (Locks.rw_unlock f n))
  | rw_pr_rdlock p => Some (p, pr Locks.rw_pr_rdlock)
  | rw_pr_wrlock p => Some (p, pr Locks.rw_pr_wrlock)
  | rw_pr_unlock p => Some (p, pr Locks.rw_pr_unlock)
  | _ => None
  end.

(** The locks, the structures around them with their hooks, and the threads. *)
Record machine := { m_locks : nat -> lock_obj; m_heap : heap; m_threads : list (prog ()) }.

(** A step of a thread.  A call of the server is answered with any value; a call that has to wait is no step. *)
Inductive mstep : machine -> list (tid * event) -> machine -> Prop :=
| mstep_psi σ h ts t c k r : ts !! t = Some (Call (CPsi c) k) ->
    mstep {| m_locks := σ; m_heap := h; m_threads := ts |} [(t, EPsi c r)]
      {| m_locks := σ; m_heap := h; m_threads := <[t := k r]> ts |}
| mstep_sys σ h ts t c k p f r l : ts !! t = Some (Call (CSys c) k) -> lock_call c = Some (p, f) ->
    f t (σ (lock_at p)) = Some (r, l) ->
    mstep {| m_locks := σ; m_heap := h; m_threads := ts |} [(t, ESys c r)]
      {| m_locks := upd σ (lock_at p) l; m_heap := h; m_threads := <[t := k r]> ts |}
| mstep_load σ h ts t p f k v : ts !! t = Some (Load p f k) -> load_field p f h = Some v ->
    mstep {| m_locks := σ; m_heap := h; m_threads := ts |} []
      {| m_locks := σ; m_heap := h; m_threads := <[t := k v]> ts |}
| mstep_store σ h ts t p f v k h' : ts !! t = Some (Store p f v k) -> store_field p f v h = Some h' ->
    mstep {| m_locks := σ; m_heap := h; m_threads := ts |} []
      {| m_locks := σ; m_heap := h'; m_threads := <[t := k]> ts |}.

Inductive mrun : machine -> list (tid * event) -> machine -> Prop :=
| mrun_refl m : mrun m [] m
| mrun_step m tr m' tr' m'' : mrun m tr m' -> mstep m' tr' m'' -> mrun m (tr ++ tr') m''.

Definition ended (m : machine) : Prop := Forall (fun p => p = Ret ()) (m_threads m).

(** What a trace is to the locks, and what of it a thread has made. *)
Definition lock_event (te : tid * event) : option (tid * LockClients.event) :=
  match te.2 with
  | ESys c r =>
      if r =? 0 then
        match c with
        | safe_mutex_lock p _ _ _ | pthread_mutex_lock p | pthread_mutex_trylock p
        | rw_wrlock p | rw_trywrlock p | rw_pr_wrlock p => Some (te.1, LockClients.Acquire true (lock_at p))
        | rw_rdlock p | rw_tryrdlock p | rw_pr_rdlock p => Some (te.1, LockClients.Acquire false (lock_at p))
        | safe_mutex_unlock p _ _ | pthread_mutex_unlock p | rw_unlock p | rw_pr_unlock p =>
            Some (te.1, LockClients.Release (lock_at p))
        | _ => None
        end
      else None
  | EPsi _ _ => None
  end.
Definition lock_events : list (tid * event) -> list (tid * LockClients.event) := omap lock_event.
Definition events_of (t : tid) (tr : list (tid * event)) : list event :=
  omap (fun te => if decide (te.1 = t) then Some te.2 else None) tr.
(** The calls that reach the system, by thread and in order, with their results. *)
Definition system_calls (tr : list (tid * event)) : list (tid * (sys_call * Z)) :=
  omap (fun te => match te.2 with ESys c r => Some (te.1, (c, r)) | EPsi _ _ => None end) tr.

(** The locks are what the build and the kinds say: with SAFE_MUTEX each mutex is a checked one, without it none. *)
Definition safe_agrees (cfg : config) (A : mutex_obj) : bool :=
  match A with SafeMutexObj _ => safe_mutex cfg | _ => negb (safe_mutex cfg) end.
Definition built_as (cfg : config) (k : lock_kind) (l : lock_obj) : Prop :=
  match k, l with
  | KMutex, Locks.MutexLock A => safe_agrees cfg A
  | KRwlock, RwLockObj (MutexInstead A) => safe_agrees cfg A
  | KRwlock, RwLockObj _ => True
  | KPrlock, PrLock _ => True
  | _, _ => False
  end.

(** The first [bound] locks have structures with a hook. *)
Definition hooked_below (bound : nat) (h : heap) : Prop := forall a, (a < bound)%nat -> is_Some (load_field (addr a) m_psi h).

(** The start: the locks are built as the configuration says, those that are used are initialised, all are free, and
    the threads are disciplined: they release what they hold and ask for what they do not hold, and, if they are ordered,
    ask in ascending order and end with nothing. *)
Definition mstarts (ordered : bool) (cfg : config) (bound : nat) (can_try : nat -> bool) (σ : nat -> lock_obj) (h : heap) (qs : list client) : Prop :=
  (forall a, built_as cfg (kind_of a) (σ a) /\ lock_at (addr a) = a)
  /\ hooked_below bound h /\ Forall (below bound) qs /\ LockClients.starts ordered can_try σ (plain <$> qs).
Definition mstart (cfg : config) (σ : nat -> lock_obj) (h : heap) (qs : list client) : machine :=
  {| m_locks := σ; m_heap := h; m_threads := code cfg <$> qs |}.

End Machine.
End Clients.

(** ** What is left of a macro

    [asks h n ph c p]: the program [p] makes at most [n] steps, its calls obey the protocol from the phase
    [ph], it makes the system call [c] and no other, and returns its result; [answers h n ph r p] is the part after
    the call that had the result [r]. *)

Fixpoint answers (h : heap) (n : nat) (ph : phase) (r : Z) (p : prog Z) : Prop :=
  match p, n with
  | Ret a, _ => a = r /\ ph = Idle
  | Call (CPsi c) k, S n =>
      forall x, match monitor ph (EPsi c x) with Some ph' => answers h n ph' r (k x) | None => False end
  | Load q f k, S n => match load_field q f h with Some v => answers h n ph r (k v) | None => False end
  | _, _ => False
  end.

Fixpoint asks (h : heap) (n : nat) (ph : phase) (c : sys_call) (p : prog Z) : Prop :=
  match p, n with
  | Call (CPsi pc) k, S n =>
      forall x, match monitor ph (EPsi pc x) with Some ph' => asks h n ph' c (k x) | None => False end
  | Call (CSys c') k, S n =>
      c' = c /\ forall r, match monitor ph (ESys c r) with Some ph' => answers h n ph' r (k r) | None => False end
  | Load q f k, S n => match load_field q f h with Some v => asks h n ph c (k v) | None => False end
  | _, _ => False
  end.

(** The operations that leave the structures as they are. *)
Definition keeps_structures (op : thread_op) : bool :=
  match thread_action (0, 0) op with AWait _ _ _ | ANotify _ _ => true | _ => false end.

#[local] Arguments asks : simpl never.
#[local] Arguments answers : simpl never.

Section Residue.
Context (h : heap).

Lemma answers_ret n r : answers h n Idle r (Ret r).
Proof. by destruct n. Qed.

Lemma answers_psi n ph ph' r pc k :
  (forall x, monitor ph (EPsi pc x) = Some (ph' x)) -> (forall x, answers h n (ph' x) r (k x)) -> answers h (S n) ph r (Call (CPsi pc) k).
Proof. intros Hm Hk x. by rewrite Hm. Qed.

Lemma asks_load n ph c p f k v : load_field p f h = Some v -> asks h n ph c (k v) -> asks h (S n) ph c (Load p f k).
Proof. unfold asks at 2. by intros ->. Qed.

Lemma asks_psi n ph ph' c pc k :
  (forall x, monitor ph (EPsi pc x) = Some (ph' x)) -> (forall x, asks h n (ph' x) c (k x)) -> asks h (S n) ph c (Call (CPsi pc) k).
Proof. intros Hm Hk x. by rewrite Hm. Qed.

Lemma asks_sys n ph c k :
  (forall r, monitor ph (ESys c r) = Some ph) -> (forall r, answers h n ph r (k r)) -> asks h (S n) ph c (Call (CSys c) k).
Proof. intros Hm Hk. split; [done|]. intros r. by rewrite Hm. Qed.
End Residue.

(** Run what is left of a macro, with the phase of the protocol after each call. *)
Ltac residue_phase :=
  first [ intros ?; reflexivity
        | intros ?; unfold monitor; cbn [starts ends locker_class rwlock_class]; by rewrite decide_True ].
Ltac residue_step :=
  match goal with
  | |- asks _ _ _ _ (Load _ _ _) => eapply asks_load; [eassumption|]
  | |- asks _ _ _ _ (Call (CPsi (Locker ?c)) _) =>
      apply (asks_psi _ _ _ (fun x => if x =? 0 then Idle else Got (locker_class c) x)); [residue_phase|intros ?]
  | |- asks _ _ (Got ?k ?l) _ (Call (CPsi _) _) => apply (asks_psi _ _ _ (fun _ => Waiting k l)); [residue_phase|intros _]
  | |- asks _ _ Idle _ (Call (CPsi _) _) => apply (asks_psi _ _ _ (fun _ => Idle)); [residue_phase|intros _]
  | |- asks _ _ _ _ (Call (CSys _) _) => apply asks_sys; [intros ?; reflexivity|intros ?]
  | |- answers _ _ _ _ (Call (CPsi _) _) => apply (answers_psi _ _ _ (fun _ => Idle)); [residue_phase|intros _]
  | |- answers _ _ _ _ (Ret _) => apply answers_ret
  | H : (?x =? 0) = _ |- context [?x =? 0] => rewrite H
  | |- context [?x =? 0] => destruct (x =? 0) eqn:?
  end.

Lemma thread_prog_asks cfg loc op h : keeps_structures op = true -> thread_ready loc op h ->
  asks h 8 Idle (thread_sys (safe_mutex cfg) loc op) (thread_prog cfg loc op).
Proof.
  destruct loc as [f n], cfg as [hp sm srv]. unfold thread_ready.
  destruct op; cbn [thread_action keeps_structures]; try done; intros _ Hr; known_hooks Hr;
    cbn [thread_prog]; cbn [thread_action thread_sys];
    autounfold with thread_defs prog_defs;
    destruct hp, sm; cbn -[load_field monitor]; repeat (residue_step; cbn -[load_field monitor]).
Qed.

(** ** A thread in the middle of a macro *)

Lemma below_next (bound : nat) (q : client) (r : Z) : below bound q -> below bound (next q r).
Proof. destruct q; cbn; try tauto. destruct (r =? 0); tauto. Qed.

Section Threads.
Context (kind_of : nat -> lock_kind) (addr : nat -> Z) (cfg : config) (bound : nat) (h : heap).
Context (hooks_set : hooked_below addr bound h).
#[local] Abbreviation operation := (operation kind_of addr).
#[local] Abbreviation code := (code kind_of addr cfg).
#[local] Abbreviation cost q := (8 * LockClients.size (plain kind_of q))%nat.

(** [thread_at q n ph P]: the thread that runs [P] has still to do [q], makes at most [n] steps for it, and its
    events so far have led the protocol to [ph]. *)
Inductive thread_at : client -> nat -> phase -> prog () -> Prop :=
| at_end : thread_at Done 0 Idle (Ret ())
| at_asks q loc op n ph p : operation q = Some (loc, op) -> asks h n ph (thread_sys (safe_mutex cfg) loc op) p ->
    thread_at q (n + 8 * pred (LockClients.size (plain kind_of q))) ph (r ← p; code (next q r))
| at_answers q n ph r p : answers h n ph r p -> (forall a, p <> Ret a) ->
    thread_at (next q r) (n + cost (next q r)) ph (x ← p; code (next q x)).

(** A thread at its end or with an operation to do: one that compiles. *)
Definition compiles (q : client) : Prop := below bound q /\ (q = Done \/ is_Some (operation q)).

Lemma operation_ready q loc op : below bound q -> operation q = Some (loc, op) -> keeps_structures op = true /\ thread_ready loc op h.
Proof.
  unfold thread_ready.
  destruct q as [|l w a k|l w a got busy|l a k]; cbn; [done|..]; unfold request_op, attempt_op, free_op;
    destruct (kind_of a); try destruct w; cbn; intros [Hb _] [= -> <-]; repeat split; by apply hooks_set.
Qed.

Lemma operation_code q loc op : operation q = Some (loc, op) -> code q = (r ← thread_prog cfg loc op; code (next q r)).
Proof. destruct q; cbn; try done; [by intros [= -> <-]|destruct (attempt_op _ _ _ _)|by intros [= -> <-]]; by intros [= -> <-]. Qed.

Lemma operation_size q loc op : operation q = Some (loc, op) ->
  exists n, LockClients.size (plain kind_of q) = S n /\ forall r, (LockClients.size (plain kind_of (next q r)) <= n)%nat.
Proof.
  destruct q as [|l w a k|l w a got busy|l a k]; cbn; try done; intros _; eexists; split; try done.
  intros r. destruct (r =? 0); lia.
Qed.

Lemma at_code q : compiles q -> thread_at q (cost q) Idle (code q).
Proof.
  intros [Hb [->|[[loc op] Hop]]]; [constructor|]. destruct (operation_ready q loc op Hb Hop) as [Hk Hr].
  destruct (operation_size q loc op Hop) as (n & Hn & _).
  replace (cost q) with (8 + 8 * pred (LockClients.size (plain kind_of q)))%nat by lia. rewrite (operation_code q loc op Hop).
  apply at_asks with loc op; [done|]. by apply thread_prog_asks.
Qed.

(** After the call: the macro goes on, or the thread is at its next operation. *)
Lemma at_after q n ph r p : compiles (next q r) -> answers h n ph r p ->
  exists m, (m <= n + cost (next q r))%nat /\ thread_at (next q r) m ph (x ← p; code (next q x)).
Proof.
  intros Hc Ha. destruct p as [a| | | | |];
    try (exists (n + cost (next q r))%nat; split; [done|]; by apply at_answers).
  assert (a = r /\ ph = Idle) as [-> ->] by (by destruct n). exists (cost (next q r)).
  split; [lia|by apply at_code].
Qed.

(** The steps of a thread. *)
Lemma at_psi q n ph c k x : compiles q -> thread_at q n ph (Call (CPsi c) k) ->
  exists m ph', (m < n)%nat /\ monitor ph (EPsi c x) = Some ph' /\ thread_at q m ph' (k x).
Proof.
  intros Hc Hat. remember (Call (CPsi c) k) as P eqn:HP. destruct Hat as [|q loc op n ph p Hop Ha|q n ph r p Ha Hne]; [done|..].
  - destruct p as [?| |[pc|sc] k0|? ?|q0 g0 k0|? ? ? ?], n as [|n]; try discriminate HP; try (by destruct Ha). injection HP as -> <-. specialize (Ha x).
    destruct (monitor ph (EPsi c x)) as [ph'|]; [|done]. eexists _, ph'. split_and!; [|done|by eapply at_asks]. lia.
  - destruct p as [?| |[pc|sc] k0|? ?|q0 g0 k0|? ? ? ?], n as [|n]; try discriminate HP; try (by destruct Ha); try (by edestruct Hne). injection HP as -> <-. specialize (Ha x).
    destruct (monitor ph (EPsi c x)) as [ph'|]; [|done]. destruct (at_after q n ph' r (k0 x) Hc Ha) as (m & Hm & Hat).
    exists m, ph'. split_and!; [lia|done|exact Hat].
Qed.

Lemma at_load q n ph p f k : compiles q -> thread_at q n ph (Load p f k) ->
  exists v m, load_field p f h = Some v /\ (m < n)%nat /\ thread_at q m ph (k v).
Proof.
  intros Hc Hat. remember (Load p f k) as P eqn:HP. destruct Hat as [|q loc op n ph p0 Hop Ha|q n ph r p0 Ha Hne]; [done|..].
  - destruct p0 as [?| |[pc|sc] k0|? ?|q0 g0 k0|? ? ? ?], n as [|n]; try discriminate HP; try (by destruct Ha). injection HP as -> -> <-. cbn in Ha.
    unfold asks in Ha; fold asks in Ha. destruct (load_field p f h) as [v|]; [|done].
    eexists v, _. split_and!; [done| |by eapply at_asks]. lia.
  - destruct p0 as [?| |[pc|sc] k0|? ?|q0 g0 k0|? ? ? ?], n as [|n]; try discriminate HP; try (by destruct Ha); try (by edestruct Hne). injection HP as -> -> <-.
    unfold answers in Ha; fold answers in Ha. destruct (load_field p f h) as [v|]; [|done].
    destruct (at_after q n ph r (k0 v) Hc Ha) as (m & Hm & Hat). exists v, m. split_and!; [done|lia|exact Hat].
Qed.

Lemma at_sys q n ph c k : thread_at q n ph (Call (CSys c) k) ->
  exists loc op, operation q = Some (loc, op) /\ c = thread_sys (safe_mutex cfg) loc op /\
    forall r, compiles (next q r) -> exists m ph', (m < n)%nat /\ monitor ph (ESys c r) = Some ph' /\ thread_at (next q r) m ph' (k r).
Proof.
  intros Hat. remember (Call (CSys c) k) as P eqn:HP. destruct Hat as [|q loc op n ph p Hop Ha|q n ph r p Ha Hne]; [done|..].
  - destruct p as [?| |[pc|sc] k0|? ?|q0 g0 k0|? ? ? ?], n as [|n]; try discriminate HP; try (by destruct Ha). injection HP as -> <-.
    destruct Ha as [-> Ha]. exists loc, op. split_and!; [done|done|]. intros r Hc. specialize (Ha r).
    destruct (monitor ph _) as [ph'|]; [|done]. destruct (at_after q n ph' r (k0 r) Hc Ha) as (m & Hm & Hat).
    destruct (operation_size q loc op Hop) as (z & Hz & Hle). specialize (Hle r). exists m, ph'. split_and!; [lia|done|exact Hat].
  - destruct p as [?| |[pc|sc] k0|? ?|q0 g0 k0|? ? ? ?], n as [|n]; try discriminate HP; try (by destruct Ha); by edestruct Hne.
Qed.

(** A thread is at its end, or can make a step of its own, or makes its system call. *)
Lemma at_cases q n ph P : thread_at q n ph P ->
  (P = Ret () /\ q = Done /\ ph = Idle) \/ (exists c k, P = Call (CPsi c) k)
  \/ (exists p f k v, P = Load p f k /\ load_field p f h = Some v) \/ (exists c k, P = Call (CSys c) k).
Proof.
  destruct 1 as [|q loc op n ph p Hop Ha|q n ph r p Ha Hne]; [by left|right..].
  - destruct p as [?| |[pc|sc] k|? ?|p f k|? ? ? ?], n as [|n]; try done; try (by destruct Ha); [left|right; right|right; left]; [by do 2 eexists..|].
    unfold asks in Ha. destruct (load_field p f h) as [v|] eqn:E; [|done]. by exists p, f, (fun r => r ← k r; code (next q r)), v.
  - destruct p as [a| |[pc|sc] k|? ?|p f k|? ? ? ?], n as [|n]; try done; try (by destruct Ha); try (by destruct (Hne a)); [left; by do 2 eexists|right; left].
    unfold answers in Ha. destruct (load_field p f h) as [v|] eqn:E; [|done]. by exists p, f, (fun r => x ← k r; code (next q x)), v.
Qed.

Lemma at_no_store q n ph p f v k : ~ thread_at q n ph (Store p f v k).
Proof. intros Hat. destruct (at_cases _ _ _ _ Hat) as [[E _]|[(? & ? & E)|[(? & ? & ? & ? & E & _)|(? & ? & E)]]]; discriminate E. Qed.

End Threads.

(** ** The machine and the clients of LockClients.v *)

Section Machines.
Context (kind_of : nat -> lock_kind) (addr : nat -> Z) (cfg : config).
Context `{SystemLaws} (text : Z -> string) (header : sys_call -> string * Z) (lock_at : Z -> nat).
#[local] Abbreviation operation := (operation kind_of addr).
#[local] Abbreviation code := (code kind_of addr cfg).
#[local] Abbreviation plain := (plain kind_of).
#[local] Abbreviation lock_call := (lock_call text header).
#[local] Abbreviation lock_events := (lock_events lock_at).
#[local] Abbreviation mstep := (mstep text header lock_at).
#[local] Abbreviation mrun := (mrun text header lock_at).

(** The system call of an operation is the request of the thread without the macros, for a place in the source. *)
Ltac lock_call_case F N Hat :=
  eexists _, F, N; split; [reflexivity|]; cbn;
  unfold on_lock, rw_dispatch, Locks.rw_rdlock, Locks.rw_wrlock, Locks.rw_tryrdlock, Locks.rw_trywrlock, Locks.rw_unlock,
    Locks.pthread_mutex_lock, Locks.pthread_mutex_trylock, Locks.pthread_mutex_unlock; cbn; rewrite ?Hat;
  try match goal with |- context [mbind _ ?o] =>
    lazymatch o with mbind _ _ => fail | Some _ => fail | _ => destruct o as [x|]; [try destruct x as [? ?]|] end end; cbn;
  (split; [try match goal with |- context [?r =? 0] => destruct (r =? 0) end; reflexivity|];
   intros ? ? [= <- <-]; cbn; unfold safe_agrees; match goal with H : safe_mutex _ = _ |- _ => by rewrite H | _ => done end).

Lemma lock_call_exec (σ : nat -> lock_obj) t q loc op :
  operation q = Some (loc, op) -> (forall a, built_as cfg (kind_of a) (σ a)) -> (forall a, lock_at (addr a) = a) ->
  let c := thread_sys (safe_mutex cfg) loc op in
  exists a f F N, lock_call c = Some (addr a, f)
    /\ exec (H0 := lock_rw F N) t σ (plain q) = Some match f t (σ a) with
         | None => Waits
         | Some (r, l) => Goes (upd σ a l) (plain (next q r)) (lock_events [(t, ESys c r)])
         end
    /\ forall r l, f t (σ a) = Some (r, l) -> built_as cfg (kind_of a) l.
Proof.
  destruct loc as [pf pn]. intros Hop Hb Hat c.
  destruct q as [|l w a k|l w a got busy|l a k]; cbn in Hop; [done|..]; exists a; specialize (Hb a); specialize (Hat a);
    unfold request_op, attempt_op, free_op in Hop; cbn [LockClients.exec InstrumentedLocks.plain next]; unfold mode;
    (destruct (kind_of a), (σ a) as [A|A|A]; cbn in Hb; try done);
    injection Hop as -> <-; subst c; try destruct w; unfold thread_sys.
  all: try (destruct (safe_mutex cfg) eqn:Hs; destruct A as [A|A|A|A]; unfold safe_agrees in Hb; rewrite Hs in Hb; try done).
  all: try destruct A as [[A|A|A|A]|A|A|A|A]; unfold safe_agrees in Hb.
  all: unfold InstrumentedLocks.lock_call; match goal with |- context [header ?c] => destruct (header c) as [hf hn] end.
  all: first [solve [lock_call_case (text pf) pn Hat] | lock_call_case hf hn Hat].
Qed.

(** What is fixed: where the locks are, that their hooks are set, and that no lock that prefers readers is tried. *)
Context (ordered : bool) (bound : nat) (can_try : nat -> bool) (h : heap).
Context (lock_at_addr : forall a, lock_at (addr a) = a) (hooks_set : hooked_below addr bound h).
Context (no_try : forall a, kind_of a = KPrlock -> can_try a = false).

Abbreviation mstate := (list (client * nat)).
#[local] Abbreviation table := (nat -> gmap tid bool).
#[local] Abbreviation plains st := ((fun x => plain x.1) <$> st).
Definition left_steps (st : mstate) : nat := sum_list (snd <$> st).

(** The machine [m] after the trace [tr]: each thread is at the client and with the steps left that [st] says, the
    locks and the clients without macros are in the invariant of LockClients.v. *)
Record minv (m : machine) (st : mstate) (tab : table) (tr : list (tid * event)) : Prop := {
  minv_heap : m_heap m = h;
  minv_built a : built_as cfg (kind_of a) (m_locks m a);
  minv_locks : inv ordered can_try {| locks := m_locks m; threads := plains st |} tab;
  minv_threads t P : m_threads m !! t = Some P -> exists q n ph,
    st !! t = Some (q, n) /\ thread_at kind_of addr cfg h q n ph P /\ monitor_all Idle (events_of t tr) = Some ph;
  minv_below t q n : st !! t = Some (q, n) -> below bound q;
  minv_length : length st = length (m_threads m) }.

Lemma left_steps_insert (st : mstate) t q n q' n' : st !! t = Some (q, n) -> (n' < n)%nat ->
  (left_steps (<[t := (q', n')]> st) < left_steps st)%nat.
Proof.
  unfold left_steps. revert t. induction st as [|x st IH]; intros [|t]; cbn; try done.
  - intros [= ->] Hn. cbn. lia.
  - intros Ht Hn. apply Nat.add_lt_mono_l. exact (IH t Ht Hn).
Qed.

(** What is left of a disciplined client compiles. *)
Lemma disciplined_compiles (held : gmap nat bool) q :
  below bound q -> disciplined ordered can_try held (plain q) -> compiles kind_of addr bound q.
Proof.
  intros Hb Hd. split; [done|]. destruct q as [|l w a k|l w a got busy|l a k]; [by left|right; by eexists| |right; by eexists].
  right. cbn. unfold attempt_op. destruct (kind_of a) eqn:Hk; [by eexists..|]. cbn in Hd. destruct Hd as [Hc _].
  by rewrite no_try in Hc.
Qed.

Lemma minv_compiles m st tab tr t q n : minv m st tab tr -> st !! t = Some (q, n) -> compiles kind_of addr bound q.
Proof.
  intros Hi Ht. pose proof (minv_below _ _ _ _ Hi t q n Ht) as Hb. destruct (inv_threads _ _ _ _ (minv_locks _ _ _ _ Hi) t (plain q)) as (held & Hd & _).
  { cbn. by rewrite list_lookup_fmap, Ht. }
  by eapply disciplined_compiles.
Qed.

(** A thread makes a step: the others are not concerned. *)
Lemma minv_update m st tab tr t q n P q' n' ph' P' σ' tab' evs :
  minv m st tab tr -> st !! t = Some (q, n) -> m_threads m !! t = Some P ->
  (forall a, built_as cfg (kind_of a) (σ' a)) -> below bound q' ->
  inv ordered can_try {| locks := σ'; threads := <[t := plain q']> (plains st) |} tab' ->
  thread_at kind_of addr cfg h q' n' ph' P' -> Forall (fun te => te.1 = t) evs ->
  monitor_all Idle (events_of t (tr ++ evs)) = Some ph' ->
  minv {| m_locks := σ'; m_heap := h; m_threads := <[t := P']> (m_threads m) |} (<[t := (q', n')]> st) tab' (tr ++ evs).
Proof.
  intros Hi Ht HP Hb Hbq Hl Hat Hevs Hm. destruct Hi as [Hh _ _ Hth Hbelow Hlen]. constructor; cbn [m_locks m_heap m_threads]; try done.
  - by rewrite list_fmap_insert.
  - intros u Q Hu. destruct (decide (u = t)) as [->|Hne].
    + rewrite list_lookup_insert_eq in Hu by (by eapply lookup_lt_Some). injection Hu as <-. exists q', n', ph'.
      rewrite list_lookup_insert_eq by (by eapply lookup_lt_Some). done.
    + rewrite list_lookup_insert_ne in Hu by done. destruct (Hth u Q Hu) as (qu & nu & phu & H1 & H2 & H3).
      exists qu, nu, phu. rewrite list_lookup_insert_ne by done. split_and!; [done|done|]. unfold events_of in *.
      rewrite omap_app. assert (omap (fun te : tid * event => if decide (te.1 = u) then Some te.2 else None) evs = []) as ->.
      { clear -Hevs Hne. induction Hevs as [|te evs Hte _ IH]; [done|]. cbn. rewrite decide_False by congruence. exact IH. }
      by rewrite app_nil_r.
  - intros u x n0 Hu. destruct (decide (u = t)) as [->|Hne].
    + rewrite list_lookup_insert_eq in Hu by (by eapply lookup_lt_Some). by injection Hu as <- <-.
    + rewrite list_lookup_insert_ne in Hu by done. by eapply Hbelow.
  - by rewrite !length_insert.
Qed.

Lemma events_of_app t tr evs : events_of t (tr ++ evs) = events_of t tr ++ events_of t evs.
Proof. apply omap_app. Qed.

Lemma events_of_one t e : events_of t [(t, e)] = [e].
Proof. cbn. by rewrite decide_True. Qed.

(** The phase of a thread after one more event. *)
Lemma monitor_one t tr e ph ph' : monitor_all Idle (events_of t tr) = Some ph -> monitor ph e = Some ph' ->
  monitor_all Idle (events_of t (tr ++ [(t, e)])) = Some ph'.
Proof. intros H1 H2. rewrite events_of_app, events_of_one, monitor_all_app, H1. cbn. by rewrite H2. Qed.

Lemma fst_insert (st : mstate) t q n n' : st !! t = Some (q, n) -> fst <$> <[t := (q, n')]> st = fst <$> st.
Proof. intros Ht. rewrite list_fmap_insert. apply list_insert_id. by rewrite list_lookup_fmap, Ht. Qed.

Lemma plains_lookup (st : mstate) t q n : st !! t = Some (q, n) -> plains st !! t = Some (plain q).
Proof. intros Ht. by rewrite list_lookup_fmap, Ht. Qed.

(** The system call of a thread, against the clients without macros. *)
Lemma minv_sys m st tab tr t c k : minv m st tab tr -> m_threads m !! t = Some (Call (CSys c) k) ->
  exists q n a f, st !! t = Some (q, n) /\ lock_call c = Some (addr a, f)
    /\ (exists loc op, operation q = Some (loc, op) /\ c = thread_sys (safe_mutex cfg) loc op)
    /\ match f t (m_locks m a) with
       | None => exists w b k', plain q = Lock w b k' /\ tab b <> ∅
       | Some (r, l) => exists n' tab', (n' < n)%nat /\ spec_run (lock_events [(t, ESys c r)]) tab = Some tab'
           /\ minv {| m_locks := upd (m_locks m) a l; m_heap := h; m_threads := <[t := k r]> (m_threads m) |}
                (<[t := (next q r, n')]> st) tab' (tr ++ [(t, ESys c r)])
       end.
Proof.
  intros Hi Hc. destruct (minv_threads _ _ _ _ Hi t _ Hc) as (q & n & ph & Ht & Hat & Hm).
  destruct (at_sys kind_of addr cfg bound h hooks_set q n ph c k Hat) as (loc & op & Hop & -> & Hgo).
  destruct (lock_call_exec (m_locks m) t q loc op Hop (minv_built _ _ _ _ Hi) lock_at_addr) as (a & f & F & N & Hcall & He & Hb).
  exists q, n, a, f. split; [done|]. split; [done|]. split; [by exists loc, op|].
  pose proof (exec_inv (H0 := lock_rw F N) (H1 := lock_lawful F N) ordered can_try _ _ tab t (plain q) _ (minv_locks _ _ _ _ Hi)
    (plains_lookup _ _ _ _ Ht) He) as Hx.
  destruct (f t (m_locks m a)) as [[r l]|] eqn:Hf; [|exact Hx]. destruct Hx as (tab' & Hs & Hl & _).
  pose proof (below_next bound q r (minv_below _ _ _ _ Hi t q n Ht)) as Hbelow.
  assert (Hcomp : compiles kind_of addr bound (next q r)).
  { destruct (inv_threads _ _ _ _ Hl t (plain (next q r))) as (held & Hd & _).
    { cbn. rewrite list_lookup_insert_eq; [done|]. rewrite length_fmap. by eapply lookup_lt_Some. }
    by eapply disciplined_compiles. }
  destruct (Hgo r Hcomp) as (n' & ph' & Hn & Hph & Hat'). exists n', tab'. split; [done|]. split; [done|].
  eapply minv_update; [done..| | | |exact Hat'| |].
  - intros b. destruct (decide (b = a)) as [->|Hne]; [rewrite upd_eq; by eapply Hb|].
    rewrite upd_ne by done. apply (minv_built _ _ _ _ Hi).
  - exact Hbelow.
  - exact Hl.
  - by constructor.
  - by eapply monitor_one.
Qed.

(** At the end of all threads their clients have nothing left, no lock is held and no wait is open. *)
Lemma minv_ended_thread m st tab tr t q n : minv m st tab tr -> ended m -> st !! t = Some (q, n) ->
  q = Done /\ monitor_all Idle (events_of t tr) = Some Idle.
Proof.
  intros Hi He Ht. destruct (lookup_lt_is_Some_2 (m_threads m) t) as [P HP].
  { rewrite <- (minv_length _ _ _ _ Hi). by eapply lookup_lt_Some. }
  destruct (minv_threads _ _ _ _ Hi t P HP) as (q' & n' & ph & Hq & Hat & Hm). rewrite Ht in Hq. injection Hq as <- <-.
  unfold ended in He. rewrite Forall_lookup in He. rewrite (He t P HP) in Hat.
  destruct (at_cases kind_of addr cfg h _ _ _ _ Hat) as [(_ & -> & ->)|[(? & ? & E)|[(? & ? & ? & ? & E & _)|(? & ? & E)]]]; done.
Qed.

Lemma minv_ended_clients m st tab tr : minv m st tab tr -> ended m -> Forall (fun q => q = Done) (fst <$> st).
Proof.
  intros Hi He. apply Forall_lookup. intros t q Ht. rewrite list_lookup_fmap in Ht.
  destruct (st !! t) as [[q' n]|] eqn:E; [|done]. injection Ht as <-. by apply (minv_ended_thread _ _ _ _ _ _ _ Hi He E).
Qed.

Lemma minv_ended m st tab tr : ordered = true -> minv m st tab tr -> ended m -> (forall a, holders (m_locks m a) = ∅)
  /\ forall t, (t < length st)%nat -> monitor_all Idle (events_of t tr) = Some Idle.
Proof.
  intros Hord Hi He. split.
  - intros a. eapply (inv_finished ordered _ {| locks := m_locks m; threads := plains st |}); [exact Hord|exact (minv_locks _ _ _ _ Hi)|].
    unfold finished. cbn. rewrite Forall_fmap. pose proof (minv_ended_clients _ _ _ _ Hi He) as Hd. rewrite Forall_fmap in Hd.
    eapply Forall_impl; [exact Hd|]. intros [q n]. cbn. by intros ->.
  - intros t Ht. apply lookup_lt_is_Some_2 in Ht as [[q n] Ht]. by apply (minv_ended_thread _ _ _ _ _ _ _ Hi He Ht).
Qed.

(** What a step is for the clients: none of their concern, or the request of one of them. *)
Inductive client_step (m : machine) (st : mstate) : list (tid * event) -> machine -> mstate -> Prop :=
| client_silent evs m' st' : system_calls evs = [] -> m_locks m' = m_locks m -> fst <$> st' = fst <$> st ->
    client_step m st evs m' st'
| client_call t q n c r l a f m' st' : st !! t = Some (q, n) -> lock_call c = Some (addr a, f) ->
    (exists loc op, operation q = Some (loc, op) /\ c = thread_sys (safe_mutex cfg) loc op) ->
    f t (m_locks m a) = Some (r, l) -> m_locks m' = upd (m_locks m) a l -> fst <$> st' = <[t := next q r]> (fst <$> st) ->
    client_step m st [(t, ESys c r)] m' st'.

(** A step of the machine is made by a thread for its client, and leaves it less to do. *)
Lemma mstep_inv m st tab tr evs m' : minv m st tab tr -> mstep m evs m' ->
  exists st' tab', spec_run (lock_events evs) tab = Some tab' /\ minv m' st' tab' (tr ++ evs)
    /\ (left_steps st' < left_steps st)%nat /\ client_step m st evs m' st'.
Proof.
  intros Hi Hs. pose proof (minv_heap _ _ _ _ Hi) as Hh.
  destruct Hs as [σ h' ts t c k r Ht|σ h' ts t c k p f r l Ht Hc Hf|σ h' ts t p f k v Ht Hv|σ h' ts t p f v k h'' Ht Hv];
    cbn in Hh; subst h'.
  - destruct (minv_threads _ _ _ _ Hi t _ Ht) as (q & n & ph & Hq & Hat & Hm).
    destruct (at_psi kind_of addr cfg bound h hooks_set q n ph c k r (minv_compiles _ _ _ _ _ _ _ Hi Hq) Hat) as (n' & ph' & Hn & Hph & Hat').
    exists (<[t := (q, n')]> st), tab. split; [done|].
    split; [|split; [by eapply left_steps_insert|apply client_silent; [done..|by apply (fst_insert st t q n)]]].
    eapply (minv_update {| m_locks := σ; m_heap := h; m_threads := ts |} _ _ _ t _ _ _ _ _ ph'); [done..|apply (minv_built _ _ _ _ Hi)|by apply (minv_below _ _ _ _ Hi t q n)| |exact Hat'|by constructor|by eapply monitor_one].
    rewrite list_insert_id by (by eapply plains_lookup). exact (minv_locks _ _ _ _ Hi).
  - destruct (minv_sys _ _ _ _ t c k Hi Ht) as (q & n & a & f' & Hq & Hc' & Hop & Hx). rewrite Hc in Hc'. injection Hc' as -> <-.
    rewrite lock_at_addr in *. cbn [m_locks] in Hx. rewrite Hf in Hx. destruct Hx as (n' & tab' & Hn & Hs & Hi').
    exists (<[t := (next q r, n')]> st), tab'. split; [done|]. split; [exact Hi'|]. split; [by eapply left_steps_insert|].
    eapply client_call; [done..|by rewrite list_fmap_insert].
  - destruct (minv_threads _ _ _ _ Hi t _ Ht) as (q & n & ph & Hq & Hat & Hm).
    destruct (at_load kind_of addr cfg bound h hooks_set q n ph p f k (minv_compiles _ _ _ _ _ _ _ Hi Hq) Hat) as (v' & n' & Hv' & Hn & Hat').
    rewrite Hv in Hv'. injection Hv' as <-. exists (<[t := (q, n')]> st), tab. split; [done|].
    split; [|split; [by eapply left_steps_insert|apply client_silent; [done..|by apply (fst_insert st t q n)]]].
    eapply (minv_update {| m_locks := σ; m_heap := h; m_threads := ts |} _ _ _ t _ _ _ _ _ ph); [done..|apply (minv_built _ _ _ _ Hi)|by apply (minv_below _ _ _ _ Hi t q n)| |exact Hat'|by constructor|by rewrite app_nil_r].
    rewrite list_insert_id by (by eapply plains_lookup). exact (minv_locks _ _ _ _ Hi).
  - destruct (minv_threads _ _ _ _ Hi t _ Ht) as (q & n & ph & Hq & Hat & Hm).
    by apply (at_no_store kind_of addr cfg h) in Hat.
Qed.

Lemma mrun_inv m st tab tr evs m' : minv m st tab tr -> mrun m evs m' ->
  exists st' tab', spec_run (lock_events evs) tab = Some tab' /\ minv m' st' tab' (tr ++ evs).
Proof.
  intros Hi Hr. revert st tab tr Hi. induction Hr as [m|m e1 m1 e2 m2 Hr IH Hs]; intros st tab tr Hi.
  - exists st, tab. by rewrite app_nil_r.
  - destruct (IH _ _ _ Hi) as (st1 & tab1 & E1 & Hi1). destruct (mstep_inv _ _ _ _ _ _ Hi1 Hs) as (st2 & tab2 & E2 & Hi2 & _ & _).
    exists st2, tab2. unfold InstrumentedLocks.lock_events in *. rewrite omap_app, spec_run_app, E1. cbn. rewrite <- app_assoc in Hi2. done.
Qed.

#[export] Instance ret_dec (p : prog ()) : Decision (p = Ret ()).
Proof. destruct p as [[]| | | | |]; (by left) || (by right). Defined.

(** As long as a thread is not at its end, some thread makes a step. *)
Lemma minv_progress m st tab tr : ordered = true -> minv m st tab tr -> ~ ended m -> exists evs m', mstep m evs m'.
Proof.
  intros Hord Hi Hn. pose proof (minv_heap _ _ _ _ Hi) as Hh. unfold ended in Hn.
  apply not_Forall_Exists in Hn; [|apply _]. apply Exists_exists in Hn as (P & HP & Hne). apply list_elem_of_lookup in HP as [t HP].
  set (goes := fun u => exists Q, m_threads m !! u = Some Q /\ exists evs m', mstep m evs m').
  assert (Hgo : forall u Q, m_threads m !! u = Some Q -> Q <> Ret () ->
    goes u \/ exists q n, st !! u = Some (q, n) /\ exists w a k, plain q = Lock w a k /\ tab a <> ∅).
  { intros u Q HQ HQe. destruct (minv_threads _ _ _ _ Hi u Q HQ) as (q & n & ph & Hq & Hat & _).
    destruct (at_cases kind_of addr cfg h q n ph Q Hat) as [[E _]|[(c & k & ->)|[(p & f & k & v & -> & Hv)|(c & k & ->)]]]; [done|..].
    - left. eexists. split; [done|]. destruct m as [σ h0 ts]. do 2 eexists. by apply (mstep_psi _ _ _ σ h0 ts u c k 0).
    - left. eexists. split; [done|]. destruct m as [σ h0 ts]. cbn in Hh. subst h0. do 2 eexists. by eapply mstep_load.
    - destruct (minv_sys _ _ _ _ u c k Hi HQ) as (q' & n' & a & f & Hq' & Hc & _ & Hx). rewrite Hq in Hq'. injection Hq' as <- <-.
      destruct (f u (m_locks m a)) as [[r l]|] eqn:Hf; [left|right; by exists q, n].
      eexists. split; [done|]. destruct m as [σ h0 ts]. do 2 eexists. eapply mstep_sys; [done..|by rewrite lock_at_addr]. }
  destruct (Hgo t P HP Hne) as [(Q & _ & Hs)|(q & n & Hq & Hw)]; [exact Hs|].
  destruct (ordered_progress ordered goes can_try (plains st) tab Hord (inv_threads _ _ _ _ (minv_locks _ _ _ _ Hi))
    (inv_dom _ _ _ _ (minv_locks _ _ _ _ Hi))) with (t := t) (p := plain q) as (u & Q & _ & Hs); [..|exact Hs].
  - intros u p Hu Hp. rewrite list_lookup_fmap in Hu. destruct (st !! u) as [[qu nu]|] eqn:Hst; [|done]. injection Hu as <-.
    assert (exists Q, m_threads m !! u = Some Q) as [Q HQ].
    { apply lookup_lt_is_Some. rewrite <- (minv_length _ _ _ _ Hi). by eapply lookup_lt_Some. }
    destruct (Hgo u Q HQ) as [Hg|(q' & n' & Hq' & Hw')]; [|by left|right].
    + intros ->. destruct (minv_threads _ _ _ _ Hi u _ HQ) as (q' & n' & ph & Hq' & Hat & _). rewrite Hst in Hq'.
      injection Hq' as <- <-. destruct (at_cases kind_of addr cfg h _ _ _ _ Hat) as [(_ & -> & _)|[(? & ? & E)|[(? & ? & ? & ? & E & _)|(? & ? & E)]]]; done.
    + rewrite Hst in Hq'. by injection Hq' as <- <-.
  - by eapply plains_lookup.
  - destruct Hw as (w & a & k & -> & _). done.
Qed.
End Machines.

(** ** Whole operations *)

Section Operations.
Context `{System} (text : Z -> string) (header : sys_call -> string * Z) (lock_at : Z -> nat).
#[local] Abbreviation mrun := (mrun text header lock_at).
#[local] Abbreviation at_machine σ h ts := {| m_locks := σ; m_heap := h; m_threads := ts |}.

Lemma mrun_trans m tr m' tr' m'' : mrun m tr m' -> mrun m' tr' m'' -> mrun m (tr ++ tr') m''.
Proof.
  intros H1 H2. induction H2 as [m'|m' t1 m1 t2 m2 H2 IH Hs]; [by rewrite app_nil_r|].
  rewrite app_assoc. eapply mrun_step; [by apply IH|exact Hs].
Qed.

Lemma mrun_one m tr m' : mstep text header lock_at m tr m' -> mrun m tr m'.
Proof. intros Hs. apply (mrun_step _ _ _ m [] m tr m' (mrun_refl _ _ _ m) Hs). Qed.

Lemma system_calls_app (tr tr' : list (tid * event)) : system_calls (tr ++ tr') = system_calls tr ++ system_calls tr'.
Proof. apply omap_app. Qed.

(** The rest of a macro after its call can be run to its end. *)
Lemma answers_run h σ t (K : Z -> prog ()) r n : forall ph p ts,
  answers h n ph r p -> ts !! t = Some (x ← p; K x) ->
  exists evs, mrun (at_machine σ h ts) evs (at_machine σ h (<[t := K r]> ts)) /\ system_calls evs = [].
Proof.
  induction n as [|n IH]; intros ph p ts Ha Ht;
    (destruct p as [x| |[pc|sc] k|? ?|p f k|? ? ? ?]; try (by destruct Ha)).
  1,2: destruct Ha as [-> _]; exists []; split; [|done]; cbn in Ht; rewrite (list_insert_id ts t (K r)) by done; constructor.
  - specialize (Ha 0). destruct (monitor ph _) as [ph'|]; [|done]. destruct (IH ph' (k 0) (<[t := (x ← k 0; K x)]> ts) Ha) as (evs & Hr & Hc).
    { apply list_lookup_insert_eq. by eapply lookup_lt_Some. }
    rewrite list_insert_insert_eq in Hr. exists ([(t, EPsi pc 0)] ++ evs). split; [|by rewrite system_calls_app].
    eapply mrun_trans; [|exact Hr]. apply mrun_one. by apply (mstep_psi _ _ _ σ h ts t pc (fun x => y ← k x; K y) 0).
  - unfold answers in Ha; fold answers in Ha. destruct (load_field p f h) as [v|] eqn:Hv; [|done].
    destruct (IH ph (k v) (<[t := (x ← k v; K x)]> ts) Ha) as (evs & Hr & Hc).
    { apply list_lookup_insert_eq. by eapply lookup_lt_Some. }
    rewrite list_insert_insert_eq in Hr. exists ([] ++ evs). split; [|exact Hc].
    eapply mrun_trans; [|exact Hr]. apply mrun_one. by apply (mstep_load _ _ _ σ h ts t p f (fun x => y ← k x; K y) v).
Qed.

(** A macro whose call can be made can be run to its end, with this call as the only one of the system. *)
Lemma asks_run h σ t (K : Z -> prog ()) c a f r l n : forall ph p ts,
  asks h n ph c p -> ts !! t = Some (x ← p; K x) -> lock_call text header c = Some (a, f) -> f t (σ (lock_at a)) = Some (r, l) ->
  exists evs, mrun (at_machine σ h ts) evs (at_machine (upd σ (lock_at a) l) h (<[t := K r]> ts)) /\ system_calls evs = [(t, (c, r))].
Proof.
  induction n as [|n IH]; intros ph p ts Ha Ht Hc Hf;
    (destruct p as [x| |[pc|sc] k|? ?|p g k|? ? ? ?]; try (by destruct Ha)).
  - specialize (Ha 0). destruct (monitor ph _) as [ph'|]; [|done].
    destruct (IH ph' (k 0) (<[t := (x ← k 0; K x)]> ts) Ha) as (evs & Hr & He); [|done..|].
    { apply list_lookup_insert_eq. by eapply lookup_lt_Some. }
    rewrite list_insert_insert_eq in Hr. exists ([(t, EPsi pc 0)] ++ evs). split; [|by rewrite system_calls_app].
    eapply mrun_trans; [|exact Hr]. apply mrun_one. by apply (mstep_psi _ _ _ σ h ts t pc (fun x => y ← k x; K y) 0).
  - destruct Ha as [-> Ha]. specialize (Ha r). destruct (monitor ph _) as [ph'|]; [|done].
    destruct (answers_run h (upd σ (lock_at a) l) t K r n ph' (k r) (<[t := (x ← k r; K x)]> ts) Ha) as (evs & Hr & He).
    { apply list_lookup_insert_eq. by eapply lookup_lt_Some. }
    rewrite list_insert_insert_eq in Hr. exists ([(t, ESys c r)] ++ evs). split; [|by rewrite system_calls_app, He].
    eapply mrun_trans; [|exact Hr]. apply mrun_one. by apply (mstep_sys _ _ _ σ h ts t c (fun x => y ← k x; K y) a f r l).
  - unfold asks in Ha; fold asks in Ha. destruct (load_field p g h) as [v|] eqn:Hv; [|done].
    destruct (IH ph (k v) (<[t := (x ← k v; K x)]> ts) Ha) as (evs & Hr & He); [|done..|].
    { apply list_lookup_insert_eq. by eapply lookup_lt_Some. }
    rewrite list_insert_insert_eq in Hr. exists ([] ++ evs). split; [|exact He].
    eapply mrun_trans; [|exact Hr]. apply mrun_one. by apply (mstep_load _ _ _ σ h ts t p g (fun x => y ← k x; K y) v).
Qed.
End Operations.

(** ** Runs from the start *)

Section Runs.
Context (kind_of : nat -> lock_kind) (addr : nat -> Z).
Context `{SystemLaws} (text : Z -> string) (header : sys_call -> string * Z) (lock_at : Z -> nat) (ordered : bool).
#[local] Abbreviation mrun := (mrun text header lock_at).
#[local] Abbreviation mstep := (mstep text header lock_at).
#[local] Abbreviation mstarts := (mstarts kind_of addr lock_at ordered).
#[local] Abbreviation mstart := (mstart kind_of addr).
#[local] Abbreviation code := (code kind_of addr).
#[local] Abbreviation minv cfg := (minv kind_of addr cfg ordered).
Implicit Types (cfg : config) (can_try : nat -> bool) (σ : nat -> lock_obj) (h : heap) (qs : list client).

Definition start_state qs : list (client * nat) := (fun q => (q, 8 * LockClients.size (plain kind_of q))%nat) <$> qs.

Lemma mstarts_no_try cfg bound can_try σ h qs : mstarts cfg bound can_try σ h qs -> forall a, kind_of a = KPrlock -> can_try a = false.
Proof.
  intros (Hb & _ & _ & Hs & _) a Hk. destruct (Hb a) as [Hba _], (Hs a) as (_ & <- & _). rewrite Hk in Hba.
  by destruct (σ a).
Qed.

Lemma mstart_inv cfg bound can_try σ h qs : mstarts cfg bound can_try σ h qs ->
  minv cfg bound can_try h (mstart cfg σ h qs) (start_state qs) free_table [].
Proof.
  intros Hstart. pose proof (mstarts_no_try _ _ _ _ _ _ Hstart) as Hno. destruct Hstart as (Hb & Hh & Hbelow & Hs).
  assert (Hplain : (fun x => plain kind_of x.1) <$> start_state qs = plain kind_of <$> qs) by (by unfold start_state; rewrite <- list_fmap_compose).
  assert (Hq : forall t q, qs !! t = Some q -> below bound q /\ compiles kind_of addr bound q).
  { intros t q Ht. rewrite Forall_lookup in Hbelow. split; [by eapply Hbelow|]. destruct Hs as [_ Hd]. rewrite Forall_fmap, Forall_lookup in Hd.
    eapply (disciplined_compiles kind_of addr ordered bound can_try Hno); [by eapply Hbelow|by apply (Hd t)]. }
  constructor; cbn [m_heap m_locks m_threads InstrumentedLocks.mstart].
  - done.
  - intros a. apply Hb.
  - rewrite Hplain. by apply (locks_start_inv ordered).
  - intros t P Ht. rewrite list_lookup_fmap in Ht. destruct (qs !! t) as [q|] eqn:Hqt; [|done]. injection Ht as <-.
    exists q, (8 * LockClients.size (plain kind_of q))%nat, Idle. unfold start_state. rewrite list_lookup_fmap, Hqt.
    split_and!; [done|apply (at_code kind_of addr cfg bound h Hh)|done]. by apply (Hq t).
  - intros t q n Ht. unfold start_state in Ht. rewrite list_lookup_fmap in Ht. destruct (qs !! t) as [q'|] eqn:Hqt; [|done].
    injection Ht as <- _. by apply (Hq t).
  - unfold start_state. by rewrite !length_fmap.
Qed.

(** A run in one configuration, and the run of whole operations in another that makes the same calls of the system. *)
Lemma mrun_follow cfg cfg' bound can_try σ h h' qs tr m :
  mstarts cfg bound can_try σ h qs -> safe_mutex cfg' = safe_mutex cfg -> hooked_below addr bound h' ->
  mrun (mstart cfg σ h qs) tr m ->
  exists st tab tr', minv cfg bound can_try h m st tab tr
    /\ mrun (mstart cfg' σ h' qs) tr' (mstart cfg' (m_locks m) h' (fst <$> st)) /\ system_calls tr' = system_calls tr.
Proof.
  intros Hstart Hsafe Hh' Hr. pose proof (mstarts_no_try _ _ _ _ _ _ Hstart) as Hno.
  pose proof (mstart_inv _ _ _ _ _ _ Hstart) as Hi0. destruct Hstart as (Hb & Hh & _).
  assert (Hat : forall a, lock_at (addr a) = a) by (intros a; apply Hb).
  remember (mstart cfg σ h qs) as m0 eqn:Hm0. induction Hr as [m|m tr m1 evs m2 Hr IH Hs].
  - subst m. exists (start_state qs), free_table, []. split; [done|]. split; [|done]. cbn.
    replace (fst <$> start_state qs) with qs; [constructor|]. unfold start_state. rewrite <- list_fmap_compose.
    symmetry. apply list_fmap_id.
  - destruct IH as (st & tab & tr' & Hi & Hr' & Hc); [done..|].
    destruct (mstep_inv kind_of addr cfg text header lock_at ordered bound can_try h Hat Hh Hno m1 st tab tr evs m2 Hi Hs)
      as (st' & tab' & _ & Hi' & _ & Hcl).
    assert (exists evs', mrun (mstart cfg' (m_locks m1) h' (fst <$> st)) evs' (mstart cfg' (m_locks m2) h' (fst <$> st'))
      /\ system_calls evs' = system_calls evs) as (evs' & He & Hce).
    { destruct Hcl as [evs m2 st' Hn Hl Hst|t q n c r l a f m2 st' Ht Hc0 (loc & op & Hop & ->) Hf Hl Hst].
      - exists []. rewrite Hl, Hst. split; [constructor|done].
      - assert (Hq : (fst <$> st) !! t = Some q) by (by rewrite list_lookup_fmap, Ht).
        destruct (operation_ready kind_of addr bound h' Hh' q loc op (minv_below _ _ _ _ _ _ _ _ _ _ _ Hi t q n Ht) Hop) as [Hk Hready].
        destruct (asks_run text header lock_at h' (m_locks m1) t (fun r => code cfg' (next q r)) (thread_sys (safe_mutex cfg) loc op)
          (addr a) f r l 8 Idle (thread_prog cfg' loc op) (code cfg' <$> (fst <$> st))) as (evs' & Hrun & Hce).
        + rewrite <- Hsafe. by apply thread_prog_asks.
        + rewrite list_lookup_fmap, Hq. cbn. f_equal. by apply operation_code.
        + done.
        + by rewrite Hat.
        + exists evs'. split; [|done]. unfold InstrumentedLocks.mstart. rewrite Hl, Hst, list_fmap_insert.
          rewrite Hat in Hrun. exact Hrun. }
    exists st', tab', (tr' ++ evs'). split; [done|]. split; [by eapply mrun_trans|]. by rewrite !system_calls_app, Hc, Hce.
Qed.

Lemma mrun_length m tr m' : mrun m tr m' -> length (m_threads m') = length (m_threads m).
Proof. induction 1 as [|m tr m1 evs m2 _ IH Hs]; [done|]. rewrite <- IH. by destruct Hs; cbn; rewrite length_insert. Qed.

Lemma msteps_run (m m' : machine) : rtc (fun m m' => exists evs, mstep m evs m') m m' -> exists evs, mrun m evs m'.
Proof.
  induction 1 as [m|m m1 m' [e Hs] _ [evs IH]]; [exists []; constructor|]. exists (e ++ evs).
  eapply mrun_trans; [by apply mrun_one|done].
Qed.
End Runs.

(** ** Properties *)

Section Properties.
Context (kind_of : nat -> lock_kind) (addr : nat -> Z).
Context `{SystemLaws} (text : Z -> string) (header : sys_call -> string * Z) (lock_at : Z -> nat).
#[local] Abbreviation mrun := (mrun text header lock_at).
#[local] Abbreviation mstep := (mstep text header lock_at).
#[local] Abbreviation mstart := (mstart kind_of addr).

(** C3.  Let threads use the macros of mysql_thread.h on any mixture of locks that are initialised and free at the start and
    whose hooks are set; each thread releases only what it holds and asks for no lock that it holds, in any order
    ([mstarts] without an order).  Then, in any configuration, under any interleaving of all their calls and whatever the
    server of the interface answers: what happens to the locks is a run of the table of read-write locks, in which a writer is alone and only holders
    release; the events of each thread obey the waiting protocol at every time; no structure changes. *)
Theorem instrumented_locks_refine (cfg : config) (bound : nat) (can_try : nat -> bool) (σ : nat -> lock_obj) (h : heap)
    (qs : list client) (tr : list (tid * event)) (m : machine) :
  mstarts kind_of addr lock_at false cfg bound can_try σ h qs -> mrun (mstart cfg σ h qs) tr m ->
  (exists tab, spec_run (lock_events lock_at tr) free_table = Some tab /\ forall a, holders (m_locks m a) = dom (tab a))
  /\ (forall t, (t < length qs)%nat -> is_Some (monitor_all Idle (events_of t tr)))
  /\ m_heap m = h.
Proof.
  intros Hs Hr. pose proof (mstart_inv kind_of addr lock_at false _ _ _ _ _ _ Hs) as Hi.
  pose proof (mstarts_no_try kind_of addr lock_at false _ _ _ _ _ _ Hs) as Hno. pose proof Hs as (Hb & Hh & _).
  destruct (mrun_inv kind_of addr cfg text header lock_at false bound can_try h (fun a => proj2 (Hb a)) Hh Hno _ _ _ _ _ _ Hi Hr)
    as (st & tab & E & Hi'). split_and!.
  - exists tab. split; [done|]. intros a. by destruct (inv_locks _ _ _ _ (minv_locks _ _ _ _ _ _ _ _ _ _ _ Hi') a) as (_ & _ & Hd & _).
  - intros t Ht. destruct (lookup_lt_is_Some_2 (m_threads m) t) as [P HP].
    { rewrite (mrun_length _ _ _ _ _ _ Hr). cbn. by rewrite length_fmap. }
    destruct (minv_threads _ _ _ _ _ _ _ _ _ _ _ Hi' t P HP) as (q & n & ph & _ & _ & Hm). by exists ph.
  - exact (minv_heap _ _ _ _ _ _ _ _ _ _ _ Hi').
Qed.

(** C4.  The instrumentation causes no deadlock and no livelock: threads that ask for locks in
    ascending order can always make a step until all are at their end, no run goes on for ever, every run can be
    continued to the end of all threads, and then every lock is free and no wait is left open. *)
Theorem instrumented_locks_finish (cfg : config) (bound : nat) (can_try : nat -> bool) (σ : nat -> lock_obj) (h : heap)
    (qs : list client) (tr : list (tid * event)) (m : machine) :
  mstarts kind_of addr lock_at true cfg bound can_try σ h qs -> mrun (mstart cfg σ h qs) tr m ->
  (ended m \/ exists evs m', mstep m evs m')
  /\ sn (fun m m' => exists evs, mstep m evs m') m
  /\ (exists evs m', mrun m evs m' /\ ended m')
  /\ (ended m -> (forall a, holders (m_locks m a) = ∅) /\
       forall t, (t < length qs)%nat -> monitor_all Idle (events_of t tr) = Some Idle).
Proof.
  intros Hs Hr. pose proof (mstart_inv kind_of addr lock_at true _ _ _ _ _ _ Hs) as Hi.
  pose proof (mstarts_no_try kind_of addr lock_at true _ _ _ _ _ _ Hs) as Hno. pose proof Hs as (Hb & Hh & _).
  assert (Hat : forall a, lock_at (addr a) = a) by (intros a; apply Hb).
  destruct (mrun_inv kind_of addr cfg text header lock_at true bound can_try h Hat Hh Hno _ _ _ _ _ _ Hi Hr) as (st & tab & _ & Hi').
  set (I := fun m n => exists st tab tr, minv kind_of addr cfg true bound can_try h m st tab tr /\ left_steps st = n).
  assert (Hdec : forall x n y, I x n -> (exists evs, mstep x evs y) -> exists k, (k < n)%nat /\ I y k).
  { intros x n y (sx & tx & ex & Hx & <-) [evs Hxy].
    destruct (mstep_inv kind_of addr cfg text header lock_at true bound can_try h Hat Hh Hno _ _ _ _ _ _ Hx Hxy) as (sy & ty & _ & Hy & Hlt & _).
    exists (left_steps sy). split; [done|]. by exists sy, ty, (ex ++ evs). }
  assert (Hgo : forall x n, I x n -> ended x \/ exists y, exists evs, mstep x evs y).
  { intros x n (sx & tx & ex & Hx & _). destruct (decide (ended x)) as [|Hn]; [by left|right].
    destruct (minv_progress kind_of addr cfg text header lock_at true bound can_try h Hat Hh Hno _ _ _ _ eq_refl Hx Hn) as (evs & y & Hy). by exists y, evs. }
  assert (Hm : I m (left_steps st)) by (by exists st, tab, ([] ++ tr)). split_and!.
  - destruct (Hgo _ _ Hm) as [|(y & evs & Hy)]; [by left|right; by exists evs, y].
  - by eapply measure_sn.
  - destruct (measure_ends _ _ Hdec ended Hgo _ _ Hm) as (y & Hy & Hf). apply msteps_run in Hy as [evs Hy]. by exists evs, y.
  - intros He. destruct (minv_ended kind_of addr cfg true bound can_try h _ _ _ _ eq_refl Hi' He) as [Hf Hp]. split; [exact Hf|].
    intros t Ht. apply Hp. rewrite (minv_length _ _ _ _ _ _ _ _ _ _ _ Hi'), (mrun_length _ _ _ _ _ _ Hr). cbn. by rewrite length_fmap.
Qed.

(** C5.  What threads do to the locks does not depend on the instrumentation.  For locks that are initialised and free at
    the start and whose hooks are set, and threads that release only what they hold and ask for no lock that they hold,
    in any order: a run in one configuration has a run in every other one that agrees on SAFE_MUTEX, with the same calls of the system by
    the same threads, in the same order, with the same results, to the same state of the locks. *)
Theorem instrumented_locks_transparent (cfg cfg' : config) (bound : nat) (can_try : nat -> bool) (σ : nat -> lock_obj)
    (h h' : heap) (qs : list client) (tr : list (tid * event)) (m : machine) :
  mstarts kind_of addr lock_at false cfg bound can_try σ h qs -> safe_mutex cfg' = safe_mutex cfg -> hooked_below addr bound h' ->
  mrun (mstart cfg σ h qs) tr m ->
  exists tr' m', mrun (mstart cfg' σ h' qs) tr' m' /\ system_calls tr' = system_calls tr
    /\ m_locks m' = m_locks m /\ (ended m -> ended m').
Proof.
  intros Hs Hsafe Hh' Hr. destruct (mrun_follow kind_of addr text header lock_at false _ _ _ _ _ _ _ _ _ _ Hs Hsafe Hh' Hr)
    as (st & tab & tr' & Hi & Hr' & Hc).
  do 2 eexists. split; [exact Hr'|]. split_and!; [done|done|]. intros He.
  apply (minv_ended_clients kind_of addr cfg false bound can_try h _ _ _ _ Hi) in He. unfold ended. cbn. rewrite Forall_fmap.
  eapply Forall_impl; [exact He|]. by intros q ->.
Qed.
End Properties.

(** *** A run

    Two threads on a checked mutex (0), a lock made of a checked mutex (1) and one that prefers readers (2 and on), the
    last without a hook.  The server answers 7. *)

Definition example_kind (a : nat) : lock_kind := match a with 0%nat => KMutex | 1%nat => KRwlock | _ => KPrlock end.
Definition example_addr (a : nat) : Z := 1000 + 64 * Z.of_nat a.
Definition example_lock_at (p : Z) : nat := Z.to_nat ((p - 1000) / 64).
Definition example_safe : Locks.safe_mutex_t (option tid) :=
  {| global := None; mutex := None; file := "a.c"; line := 1; count := 0; thread := 0 |}.
Definition example_objs (a : nat) : lock_obj :=
  match a with
  | 0%nat => Locks.MutexLock (SafeMutexObj example_safe)
  | 1%nat => RwLockObj (MutexInstead (SafeMutexObj example_safe))
  | _ => PrLock {| pr_lock := None; no_active_readers := (∅, ∅); active_readers := 0; writers_waiting_readers := 0;
      active_writer := false; writer_thread := 0 |}
  end.
Definition example_heap : heap :=
  {[ 1000 := {| o_psi := Some 21; o_file := None |}; 1064 := {| o_psi := Some 22; o_file := None |};
     1128 := {| o_psi := Some NULL; o_file := None |} ]}.
Definition example_clients : list client :=
  [ Request (1, 10) true 0 (Request (1, 11) false 2 (Free (1, 12) 2 (Free (1, 13) 0 Done)));
    Attempt (2, 20) true 0 (Free (2, 21) 0 Done) (Request (2, 23) false 1 (Free (2, 24) 1 Done)) ].
Definition example_on : config := {| have_psi := true; Effects.safe_mutex := true; PSI_server := 5 |}.
Definition example_off : config := {| have_psi := false; Effects.safe_mutex := true; PSI_server := 0 |}.
Definition example_text (p : Z) : string := "a.c".
Definition example_header (c : sys_call) : string * Z := ("mysql_thread.h", 1).
Definition example_tries (a : nat) : bool := (a <=? 1)%nat.

Lemma example_mstarts (ordered : bool) : mstarts example_kind example_addr example_lock_at ordered example_on 3 example_tries example_objs example_heap example_clients.
Proof.
  split; [|split; [|split]].
  - intros [|[|a]]; (split; [by cbn|]); unfold example_lock_at, example_addr; [done|done|].
    replace (1000 + 64 * Z.of_nat (S (S a)) - 1000) with (Z.of_nat (S (S a)) * 64) by lia. rewrite Z.div_mul by lia. lia.
  - intros [|[|[|a]]] Ha; [by eexists..|lia].
  - repeat constructor.
  - split; [intros [|[|a]]; by split_and!|]. unfold example_clients. rewrite !Forall_fmap, !Forall_cons.
    cbn -[insert delete lookup]. split_and!;
      lazymatch goal with
      | |- _ -> forall b, _ => intros _ b [x Hb]; repeat (apply lookup_insert_Some in Hb as [[<- _]|[_ Hb]]; [lia|]); done
      | |- is_Some _ => by eexists
      | |- Forall _ [] => constructor
      | |- _ => (by intros _) || reflexivity
      end.
Qed.

(** The threads of a list make a step each; the server answers [v]. *)
Fixpoint mschedule `{System} (text : Z -> string) (header : sys_call -> string * Z) (lock_at : Z -> nat) (v : Z)
    (ts : list tid) (m : machine) : option (list (tid * event) * machine) :=
  match ts with
  | [] => Some ([], m)
  | t :: ts =>
      '(evs, m1) ← match m_threads m !! t with
        | Some (Call (CPsi c) k) =>
            Some ([(t, EPsi c v)], {| m_locks := m_locks m; m_heap := m_heap m; m_threads := <[t := k v]> (m_threads m) |})
        | Some (Call (CSys c) k) =>
            '(p, f) ← lock_call text header c; '(r, l) ← f t (m_locks m (lock_at p));
            Some ([(t, ESys c r)], {| m_locks := upd (m_locks m) (lock_at p) l; m_heap := m_heap m; m_threads := <[t := k r]> (m_threads m) |})
        | Some (Load p f k) =>
            x ← load_field p f (m_heap m);
            Some ([], {| m_locks := m_locks m; m_heap := m_heap m; m_threads := <[t := k x]> (m_threads m) |})
        | _ => None
        end;
      '(tr, m2) ← mschedule text header lock_at v ts m1; Some (evs ++ tr, m2)
  end.

Lemma mschedule_run `{System} text header lock_at v ts : forall m tr m',
  mschedule text header lock_at v ts m = Some (tr, m') -> mrun text header lock_at m tr m'.
Proof.
  induction ts as [|t ts IH]; intros [σ h ps] tr m'; cbn; [intros [= <- <-]; constructor|].
  destruct (ps !! t) as [[| |[pc|sc] k|?|p f k|]|] eqn:Hp; try done; cbn.
  - destruct (mschedule _ _ _ _ ts _) as [[tr2 m2]|] eqn:Hs; [|done]. intros [= <- <-].
    apply (mrun_trans _ _ _ _ [_] _ tr2 _ (mrun_one _ _ _ _ _ _ (mstep_psi _ _ _ σ h ps t pc k v Hp)) (IH _ _ _ Hs)).
  - destruct (lock_call text header sc) as [[p f]|] eqn:Hc; [|done]. cbn. destruct (f t (σ (lock_at p))) as [[r l]|] eqn:Hf; [|done].
    cbn. destruct (mschedule _ _ _ _ ts _) as [[tr2 m2]|] eqn:Hs; [|done]. intros [= <- <-].
    apply (mrun_trans _ _ _ _ [_] _ tr2 _ (mrun_one _ _ _ _ _ _ (mstep_sys _ _ _ σ h ps t sc k p f r l Hp Hc Hf)) (IH _ _ _ Hs)).
  - destruct (load_field p f h) as [x|] eqn:Hv; [|done]. cbn. destruct (mschedule _ _ _ _ ts _) as [[tr2 m2]|] eqn:Hs; [|done].
    intros [= <- <-].
    apply (mrun_trans _ _ _ _ [] _ tr2 _ (mrun_one _ _ _ _ _ _ (mstep_load _ _ _ σ h ps t p f k x Hp Hv)) (IH _ _ _ Hs)).
Qed.

Definition example_machine (cfg : config) : machine := mstart example_kind example_addr cfg example_objs example_heap example_clients.
Definition example_turns : list tid := [0;0;1;0;0;1;0;0;1;1;1;1;0;0;0;0;0;0;0;0;1;1;1;1;1;1;1;1;1;1]%nat.
Definition example_result : option (list (tid * event) * machine) :=
  mschedule example_text example_header example_lock_at 7 example_turns (example_machine example_on).
#[local] Abbreviation example_mrun := (mrun example_text example_header example_lock_at).

Lemma example_result_ends :
  (fun x => (length x.1, length (lock_events example_lock_at x.1), m_threads x.2)) <$> example_result = Some (18, 6, [Ret (); Ret ()])%nat.
Proof. vm_compute. reflexivity. Qed.

Lemma example_mrun_exists : exists tr m, example_mrun (example_machine example_on) tr m /\ length (lock_events example_lock_at tr) = 6%nat /\ ended m.
Proof.
  pose proof example_result_ends as He. destruct example_result as [[tr m]|] eqn:E; [|discriminate He].
  injection He as _ Hl Ht. exists tr, m. split; [by eapply mschedule_run|]. split; [exact Hl|].
  unfold ended. rewrite Ht. repeat constructor.
Qed.

Lemma instrumented_locks_refine_witness : exists tr m, example_mrun (example_machine example_on) tr m
  /\ (exists tab, spec_run (lock_events example_lock_at tr) free_table = Some tab) /\ is_Some (monitor_all Idle (events_of 1 tr)).
Proof.
  destruct example_mrun_exists as (tr & m & Hr & _). exists tr, m. split; [exact Hr|].
  destruct (instrumented_locks_refine example_kind example_addr example_text example_header example_lock_at example_on 3
    example_tries example_objs example_heap example_clients tr m (example_mstarts false) Hr) as ((tab & Ht & _) & Hm & _).
  split; [by exists tab|]. apply Hm. cbn. lia.
Defined.

Lemma instrumented_locks_finish_witness : exists tr m, example_mrun (example_machine example_on) tr m
  /\ length (lock_events example_lock_at tr) = 6%nat /\ (forall a, holders (m_locks m a) = ∅)
  /\ monitor_all Idle (events_of 1 tr) = Some Idle.
Proof.
  destruct example_mrun_exists as (tr & m & Hr & Hl & He). exists tr, m. split; [exact Hr|]. split; [exact Hl|].
  destruct (instrumented_locks_finish example_kind example_addr example_text example_header example_lock_at example_on 3
    example_tries example_objs example_heap example_clients tr m (example_mstarts true) Hr) as (_ & _ & _ & Hend).
  destruct (Hend He) as [Hf Hm]. split; [exact Hf|]. apply Hm. cbn. lia.
Defined.

Lemma instrumented_locks_transparent_witness : exists tr tr' m m',
  example_mrun (example_machine example_on) tr m /\ example_mrun (example_machine example_off) tr' m'
  /\ system_calls tr' = system_calls tr /\ ended m'.
Proof.
  destruct example_mrun_exists as (tr & m & Hr & _ & He).
  destruct (instrumented_locks_transparent example_kind example_addr example_text example_header example_lock_at
    example_on example_off 3 example_tries example_objs example_heap example_heap example_clients tr m
    (example_mstarts false) eq_refl (proj1 (proj2 (example_mstarts false))) Hr) as (tr' & m' & Hr' & Hc & _ & He').
  exists tr, tr', m, m'. split; [exact Hr|]. split; [exact Hr'|]. split; [exact Hc|exact (He' He)].
Defined.
