(* ===== verification/ThreadData.v ===== *)
(** * Thread-specific data (my_pthread.h)

    The macros on keys in every build: the thread local storage of Windows, the keys of POSIX threads, the systems without
    a way to delete a key or with a function of their own to create one or to read a value.  The functions of the
    systems are an interface with laws; the macros over it are proved to be a table of the values of each thread. *)
From S2P Require Import Prelude Locks.

(** ** The system *)

(** The conditionals: Windows, HAVE_NONPOSIX_PTHREAD_GETSPECIFIC, HAVE_PTHREAD_KEY_DELETE (or a macro of the system of
    this name), and the one around pthread_keycreate (HAVE_PTHREAD_ATTR_CREATE without HAVE_SIGWAIT, or
    HAVE_DEC_3_2_THREADS, without HAVE_CTHREADS_WRAPPER). *)
Record key_build := { on_windows : bool; nonposix_getspecific : bool; key_delete_exists : bool; keycreate : bool }.

(** Keys that are allocated ([live]), the value of a thread under a key ([slot]), and the functions.  A function that
    creates a key gives its result and the key; [pthread_dummy] is also the address of the function. *)
Class KeySystem := {
  os : Type; live : os -> gset Z; slot : os -> tid -> Z -> Z;
  TlsAlloc : os -> Z * os;
  TlsFree : Z -> os -> Z * os;
  TlsSetValue : tid -> Z -> Z -> os -> Z * os;
  TlsGetValue : tid -> Z -> os -> Z;
  sys_key_create : Z -> os -> Z * Z * os;
  pthread_keycreate : Z -> os -> Z * Z * os;
  sys_key_delete : Z -> os -> Z * os;
  sys_setspecific : tid -> Z -> Z -> os -> Z * os;
  sys_getspecific : tid -> Z -> os -> Z;
  my_pthread_getspecific_imp : tid -> Z -> os -> Z;
  pthread_dummy : Z -> Z;
  pthread_dummy_address : Z }.

Section Changes.
Context `{KeySystem}.
Implicit Types s : os.

(** What a call does to the keys: nothing, one more key without values, one value, one key less.  The slots of keys
    that are not allocated may change at any time. *)
Definition values_kept s s' (ks : gset Z) : Prop := forall t k, k ∈ ks -> slot s' t k = slot s t k.
Definition unchanged s s' : Prop := live s' = live s /\ values_kept s s' (live s).
Definition created s k s' : Prop :=
  (k ∉ live s) /\ live s' = ({[k]} ∪ live s) /\ values_kept s s' (live s) /\ forall t, slot s' t k = 0.
Definition written s t k v s' : Prop :=
  live s' = live s /\ slot s' t k = v /\ forall u j, j ∈ live s -> (u, j) <> (t, k) -> slot s' u j = slot s u j.
Definition deleted s k s' : Prop := live s' = (live s ∖ {[k]}) /\ values_kept s s' (live s ∖ {[k]}).
End Changes.

(** The documented behaviour.  A function of Windows returns 0 when it fails (TlsAlloc the greatest index), a POSIX one
    when it succeeds. *)
Class KeyLaws `{KeySystem} : Prop := {
  alloc_law s k s' : TlsAlloc s = (k, s') -> if k =? 0xFFFFFFFF then unchanged s s' else created s k s';
  free_law s k r s' : k ∈ live s -> TlsFree k s = (r, s') -> if r =? 0 then unchanged s s' else deleted s k s';
  tls_set_law s t k v r s' : k ∈ live s -> TlsSetValue t k v s = (r, s') -> if r =? 0 then unchanged s s' else written s t k v s';
  tls_get_law s t k : k ∈ live s -> TlsGetValue t k s = slot s t k;
  create_law s B r k s' : sys_key_create B s = (r, k, s') -> if r =? 0 then created s k s' else unchanged s s';
  keycreate_law s B r k s' : pthread_keycreate B s = (r, k, s') -> if r =? 0 then created s k s' else unchanged s s';
  delete_law s k r s' : k ∈ live s -> sys_key_delete k s = (r, s') -> if r =? 0 then deleted s k s' else unchanged s s';
  set_law s t k v r s' : k ∈ live s -> sys_setspecific t k v s = (r, s') -> if r =? 0 then written s t k v s' else unchanged s s';
  get_law s t k : k ∈ live s -> sys_getspecific t k s = slot s t k;
  imp_law s t k : k ∈ live s -> my_pthread_getspecific_imp t k s = slot s t k }.

(** ** The macros *)

Section Macros.
Context `{KeySystem} (b : key_build).
#[local] Abbreviation c_not x := (if (x : Z) =? 0 then 1 else 0).

(** The result, the value that is assigned to [*A], and the new state. *)
Definition pthread_key_create (B : Z) (s : os) : Z * Z * os :=
  if on_windows b then let (k, s) := TlsAlloc s in (if k =? 0xFFFFFFFF then 1 else 0, k, s)
  else if keycreate b then pthread_keycreate (if B =? 0 then pthread_dummy_address else B) s
  else sys_key_create B s.
Definition pthread_key_delete (A : Z) (s : os) : Z * os :=
  if on_windows b then TlsFree A s
  else if key_delete_exists b then sys_key_delete A s
  else (pthread_dummy 0, s).
Definition pthread_setspecific (t : tid) (A B : Z) (s : os) : Z * os :=
  if on_windows b then let (r, s) := TlsSetValue t A B s in (c_not r, s) else sys_setspecific t A B s.
Definition my_pthread_setspecific_ptr (t : tid) (T V : Z) (s : os) : Z * os :=
  if on_windows b then let (r, s) := TlsSetValue t T V s in (c_not r, s) else pthread_setspecific t T V s.
Definition pthread_getspecific (t : tid) (A : Z) (s : os) : Z :=
  if on_windows b then TlsGetValue t A s else sys_getspecific t A s.
Definition my_pthread_getspecific (t : tid) (A : Z) (s : os) : Z :=
  if on_windows b then TlsGetValue t A s
  else if nonposix_getspecific b then my_pthread_getspecific_imp t A s
  else pthread_getspecific t A s.
Definition my_pthread_getspecific_ptr (t : tid) (V : Z) (s : os) : Z :=
  if on_windows b then TlsGetValue t V s else my_pthread_getspecific t V s.

(** ** Clients *)

(** Operations on variables that hold keys, by threads; a client decides on the results. *)
Inductive key_op :=
  | KeyCreate (x : nat) (destructor : Z)
  | KeyDelete (x : nat)
  | KeySet (ptr : bool) (t : tid) (x : nat) (v : Z)
  | KeyGet (ptr : bool) (t : tid) (x : nat).
Inductive key_client := KeysDone | KeysDo (o : key_op) (k : Z -> key_client).

Definition set_var {A} (f : nat -> A) (x : nat) (a : A) : nat -> A := fun y => if decide (y = x) then a else f y.

Record key_state := { key_of : nat -> Z; system : os }.
Definition key_step (o : key_op) (st : key_state) : Z * key_state :=
  match o with
  | KeyCreate x B =>
      let '(r, k, s) := pthread_key_create B (system st) in (r, {| key_of := set_var (key_of st) x k; system := s |})
  | KeyDelete x => let (r, s) := pthread_key_delete (key_of st x) (system st) in (r, {| key_of := key_of st; system := s |})
  | KeySet ptr t x v =>
      let (r, s) := (if ptr then my_pthread_setspecific_ptr else pthread_setspecific) t (key_of st x) v (system st) in
      (r, {| key_of := key_of st; system := s |})
  | KeyGet ptr t x => ((if ptr then my_pthread_getspecific_ptr else my_pthread_getspecific) t (key_of st x) (system st), st)
  end.
Fixpoint key_run (c : key_client) (st : key_state) : list (key_op * Z) * key_state :=
  match c with
  | KeysDone => ([], st)
  | KeysDo o k => let (r, st) := key_step o st in let (tr, st) := key_run (k r) st in ((o, r) :: tr, st)
  end.
End Macros.

(** ** The specification: for each variable with a key, the values of the threads *)

Abbreviation key_table := (nat -> option (tid -> Z)).
Definition set_value (f : tid -> Z) (t : tid) (v : Z) : tid -> Z := fun u => if decide (u = t) then v else f u.

(** Creation and assignment may fail, with a result other than 0; reading does not. *)
Definition table_step (tab : key_table) (o : key_op) (r : Z) : option key_table :=
  match o with
  | KeyCreate x _ =>
      match tab x with
      | None => Some (if r =? 0 then set_var tab x (Some (fun _ => 0)) else tab)
      | Some _ => None
      end
  | KeyDelete x => _ ← tab x; Some (set_var tab x None)
  | KeySet _ t x v => f ← tab x; Some (if r =? 0 then set_var tab x (Some (set_value f t v)) else tab)
  | KeyGet _ t x => f ← tab x; if r =? f t then Some tab else None
  end.
Definition table_run (tr : list (key_op * Z)) (tab : key_table) : option key_table :=
  foldl (fun o e => tab ← o; table_step tab e.1 e.2) (Some tab) tr.

(** A client that creates a key in a variable before it uses it and does not use it after its deletion; [xs] are the
    variables with a key. *)
Definition keys_after (xs : gset nat) (o : key_op) (r : Z) : gset nat :=
  match o with
  | KeyCreate x _ => if r =? 0 then {[x]} ∪ xs else xs
  | KeyDelete x => xs ∖ {[x]}
  | _ => xs
  end.
Definition key_allowed (xs : gset nat) (o : key_op) : Prop :=
  match o with KeyCreate x _ => x ∉ xs | KeyDelete x | KeySet _ _ x _ | KeyGet _ _ x => x ∈ xs end.
Fixpoint key_disciplined (xs : gset nat) (c : key_client) : Prop :=
  match c with
  | KeysDone => True
  | KeysDo o k => key_allowed xs o /\ forall r, key_disciplined (keys_after xs o r) (k r)
  end.

(** ** Lemmas *)

#[local] Set Warnings "-clear-no-such-hyp".

Section Lemmas.
Context `{KeyLaws} (b : key_build).

Lemma key_create_spec (B : Z) (s : os) r k s' :
  pthread_key_create b B s = (r, k, s') -> if r =? 0 then created s k s' else unchanged s s'.
Proof.
  unfold pthread_key_create. destruct (on_windows b); [|destruct (keycreate b); [apply keycreate_law|apply create_law]].
  destruct (TlsAlloc s) as [k0 s0] eqn:E. intros [= <- -> ->]. apply alloc_law in E. by destruct (k =? 0xFFFFFFFF).
Qed.

Lemma key_set_spec (ptr : bool) t k v (s : os) r s' : k ∈ live s ->
  (if ptr then my_pthread_setspecific_ptr b else pthread_setspecific b) t k v s = (r, s') ->
  if r =? 0 then written s t k v s' else unchanged s s'.
Proof.
  intros Hk. assert (Hset : pthread_setspecific b t k v s = (r, s') -> if r =? 0 then written s t k v s' else unchanged s s').
  { unfold pthread_setspecific. destruct (on_windows b); [|by apply set_law].
    destruct (TlsSetValue t k v s) as [r0 s0] eqn:E. intros [= <- ->]. apply tls_set_law in E; [|done]. by destruct (r0 =? 0). }
  destruct ptr; [|done]. intros E. apply Hset. rewrite <- E. unfold my_pthread_setspecific_ptr, pthread_setspecific.
  by destruct (on_windows b).
Qed.

Lemma key_get_spec (ptr : bool) t k (s : os) : k ∈ live s ->
  (if ptr then my_pthread_getspecific_ptr b else my_pthread_getspecific b) t k s = slot s t k.
Proof.
  intros Hk. unfold my_pthread_getspecific_ptr, my_pthread_getspecific, pthread_getspecific.
  destruct ptr, (on_windows b), (nonposix_getspecific b); by rewrite ?tls_get_law, ?imp_law, ?get_law.
Qed.

(** After a deletion, whatever its result, the other keys are as before. *)
Lemma key_delete_spec k (s : os) r s' : k ∈ live s -> pthread_key_delete b k s = (r, s') ->
  live s ∖ {[k]} ⊆ live s' /\ values_kept s s' (live s ∖ {[k]}).
Proof.
  intros Hk. assert (Hu : forall s', unchanged s s' -> live s ∖ {[k]} ⊆ live s' /\ values_kept s s' (live s ∖ {[k]})).
  { intros s1 [Hl Hv]. split; [set_solver|]. intros t j Hj. apply Hv. set_solver. }
  assert (Hd : forall s', deleted s k s' -> live s ∖ {[k]} ⊆ live s' /\ values_kept s s' (live s ∖ {[k]})).
  { intros s1 [Hl Hv]. split; [set_solver|done]. }
  unfold pthread_key_delete. destruct (on_windows b); [|destruct (key_delete_exists b)].
  - intros E. apply free_law in E; [|done]. destruct (r =? 0); auto.
  - intros E. apply delete_law in E; [|done]. destruct (r =? 0); auto.
  - intros [= _ <-]. split; [set_solver|]. by intros t j _.
Qed.

(** The variables of the table hold different live keys with its values. *)
Definition keys_agree (tab : key_table) (st : key_state) : Prop :=
  (forall x f, tab x = Some f -> key_of st x ∈ live (system st) /\ forall t, slot (system st) t (key_of st x) = f t)
  /\ (forall x y, is_Some (tab x) -> is_Some (tab y) -> key_of st x = key_of st y -> x = y).

Lemma keys_agree_kept tab key s s' : keys_agree tab {| key_of := key; system := s |} -> live s ⊆ live s' ->
  values_kept s s' (live s) -> keys_agree tab {| key_of := key; system := s' |}.
Proof.
  intros [Hv Hi] Hl Hk. split; [|done]. intros x f Hx. destruct (Hv x f Hx) as [H1 H2]. cbn in *. split; [set_solver|].
  intros t. by rewrite Hk.
Qed.

Lemma keys_agree_step tab o st r st' : keys_agree tab st -> key_step b o st = (r, st') ->
  match o with KeyCreate x _ => tab x = None | KeyDelete x | KeySet _ _ x _ | KeyGet _ _ x => is_Some (tab x) end ->
  exists tab', table_step tab o r = Some tab' /\ keys_agree tab' st'.
Proof.
  destruct st as [key s]. intros Ha Hs Ho. pose proof Ha as [Hv Hi]. destruct o as [x B|x|ptr t x v|ptr t x]; cbn in Hs |- *.
  - rewrite Ho. eexists. split; [done|]. destruct (pthread_key_create b B s) as [[r0 k] s0] eqn:E. injection Hs as <- <-.
    apply key_create_spec in E. destruct (r0 =? 0).
    + destruct E as (Hk & Hl & Hkept & Hz). unfold keys_agree, set_var; cbn in *.
      assert (Hkey : forall y, is_Some (tab y) -> key y <> k) by (intros y [f Hy] <-; by apply Hk, (Hv y f)).
      split.
      * intros y f. destruct (decide (y = x)) as [->|Hne]; [intros [= <-]; split; [set_solver|done]|].
        intros Hy. destruct (Hv y f Hy) as [H1 H2]. split; [set_solver|]. intros t. by rewrite Hkept.
      * intros y z Hy Hz'. destruct (decide (y = x)) as [->|], (decide (z = x)) as [->|]; try done.
        -- intros E. by destruct (Hkey z Hz').
        -- intros E. by destruct (Hkey y Hy).
        -- by apply Hi.
    + destruct E as [Hl Hkept].
      apply (keys_agree_kept tab (set_var key x k) s); [|set_solver|done]. unfold keys_agree, set_var; cbn in *. split.
      * intros y f Hy. destruct (decide (y = x)) as [->|]; [by rewrite Ho in Hy|by apply Hv].
      * intros y z Hy Hz. destruct (decide (y = x)) as [->|]; [by destruct Hy; simplify_eq|].
        destruct (decide (z = x)) as [->|]; [by destruct Hz; simplify_eq|]. by apply Hi.
  - destruct Ho as [f Hf]. rewrite Hf. cbn. eexists. split; [done|]. destruct (pthread_key_delete b (key x) s) as [r0 s0] eqn:E.
    injection Hs as <- <-. destruct (Hv x f Hf) as [Hk _]. apply key_delete_spec in E; [|done]. destruct E as [Hl Hkept].
    unfold keys_agree, set_var; cbn in *. split.
    + intros y g Hy. destruct (decide (y = x)) as [->|Hne]; [done|]. destruct (Hv y g Hy) as [H1 H2].
      assert (key y <> key x) by (intros E; by apply Hne, Hi; [by eexists..|]). split; [set_solver|].
      intros t. rewrite Hkept; [done|set_solver].
    + intros y z Hy Hz. destruct (decide (y = x)), (decide (z = x)); [by destruct Hy..| |by apply Hi]. by destruct Hz.
  - destruct Ho as [f Hf]. rewrite Hf. cbn. eexists. split; [done|]. destruct (Hv x f Hf) as [Hk Hx].
    destruct ((if ptr then my_pthread_setspecific_ptr b else pthread_setspecific b) t (key x) v s) as [r0 s0] eqn:E.
    injection Hs as <- <-. apply key_set_spec in E; [|done]. destruct (r0 =? 0).
    + destruct E as (Hl & Hw & Hkept). unfold keys_agree, set_var, set_value; cbn in *. split.
      * intros y g. destruct (decide (y = x)) as [->|Hne].
        -- intros [= <-]. rewrite Hl. split; [done|]. intros u. destruct (decide (u = t)) as [->|]; [done|].
           rewrite Hkept; [by apply Hx|done|congruence].
        -- intros Hy. destruct (Hv y g Hy) as [H1 H2]. rewrite Hl. split; [done|]. intros u. rewrite Hkept; [done|done|].
           intros [= _ E]. by apply Hne, Hi; [by eexists..|].
      * assert (Hsome : forall y, is_Some (if decide (y = x) then Some (set_value f t v) else tab y) -> is_Some (tab y)).
        { intros y Hy. destruct (decide (y = x)) as [->|]; [by eexists|done]. }
        intros y z Hy Hz. apply Hi; by apply Hsome.
    + destruct E as [Hl Hkept]. apply (keys_agree_kept tab key s); [done|set_solver|done].
  - destruct Ho as [f Hf]. rewrite Hf. cbn. destruct (Hv x f Hf) as [Hk Hx]. injection Hs as <- <-.
    rewrite (key_get_spec ptr t (key x) s Hk), Hx, Z.eqb_refl. by exists tab.
Qed.

Lemma table_step_keys tab xs o r tab' : (forall x, x ∈ xs <-> is_Some (tab x)) -> table_step tab o r = Some tab' ->
  forall x, x ∈ keys_after xs o r <-> is_Some (tab' x).
Proof.
  intros Hx. destruct o as [y B|y|ptr t y v|ptr t y]; cbn; (destruct (tab y) as [f|] eqn:Hy; [|try done]); cbn; try done.
  - destruct (r =? 0); intros [= <-]; [|done]. intros x. unfold set_var. destruct (decide (x = y)) as [->|].
    + split; [by eexists|]. intros _. set_solver.
    + rewrite <- Hx. set_solver.
  - intros [= <-] x. unfold set_var. rewrite elem_of_difference, not_elem_of_singleton. destruct (decide (x = y)) as [->|].
    + split; [by intros [_ ?]|by intros []].
    + rewrite <- Hx. tauto.
  - destruct (r =? 0); intros [= <-]; [|done]. intros x. unfold set_var. destruct (decide (x = y)) as [->|]; [|done].
    rewrite Hx, Hy. by split; eexists.
  - destruct (r =? f t); [|done]. by intros [= <-].
Qed.

Lemma key_run_agrees (c : key_client) : forall xs tab st tr st', (forall x, x ∈ xs <-> is_Some (tab x)) ->
  keys_agree tab st -> key_disciplined xs c ->
  key_run b c st = (tr, st') -> exists tab', table_run tr tab = Some tab' /\ keys_agree tab' st'.
Proof.
  induction c as [|o k IH]; intros xs tab st tr st' Hx Ha Hd; cbn [key_run]; [intros [= <- <-]; by exists tab|].
  destruct (key_step b o st) as [r st1] eqn:Es, (key_run b (k r) st1) as [tr1 st2] eqn:Er. intros [= <- <-].
  destruct Hd as [Ho Hk]. destruct (keys_agree_step _ _ _ _ _ Ha Es) as (tab1 & Et & Ha1).
  { destruct o; cbn in Ho; rewrite Hx in Ho; try done. by apply eq_None_not_Some. }
  destruct (IH r _ _ _ _ _ (table_step_keys _ _ _ _ _ Hx Et) Ha1 (Hk r) Er) as (tab2 & E2 & Ha2). exists tab2. split; [|done].
  unfold table_run in *. cbn. by rewrite Et.
Qed.

(** The result of a deletion is 0 when the key is deleted, except on Windows, where it is 0 when it is not. *)
Lemma key_delete_result k (s : os) r s' : k ∈ live s -> pthread_key_delete b k s = (r, s') ->
  if on_windows b then if r =? 0 then unchanged s s' else deleted s k s'
  else key_delete_exists b = true -> if r =? 0 then deleted s k s' else unchanged s s'.
Proof.
  intros Hk. unfold pthread_key_delete. destruct (on_windows b); [by apply free_law|].
  intros E Hd. rewrite Hd in E. by apply delete_law in E.
Qed.
End Lemmas.

(** ** Properties *)

(** C28.  In every build of the macros a client that creates a key before it uses it has thread-specific data: a
    thread reads the last value that it has assigned under a key with success, NULL when there is none, whatever other
    threads and other keys were given in between; the results of creation and assignment are 0 exactly when they
    have taken place. *)
Theorem thread_data_is_a_table `{KeyLaws} (b : key_build) (c : key_client) (st : key_state) :
  key_disciplined ∅ c -> is_Some (table_run (key_run b c st).1 (fun _ => None)).
Proof.
  intros Hc. destruct (key_run b c st) as [tr st'] eqn:E.
  destruct (key_run_agrees b c ∅ (fun _ => None) st tr st') as (tab & Ht & _); [|by split|done|done|].
  { intros x. split; [set_solver|by intros []]. }
  by exists tab.
Qed.

(** *** A system with at most two keys *)

Abbreviation two_keys := (gset Z * (tid -> Z -> Z))%type.
Definition set_slot (f : tid -> Z -> Z) (t : tid) (k v : Z) : tid -> Z -> Z := fun u j => if decide ((u, j) = (t, k)) then v else f u j.
Definition two_keys_create (s : two_keys) : option (Z * two_keys) :=
  let k := fresh s.1 in
  if decide ((2 <= size s.1)%nat \/ k = 0xFFFFFFFF) then None
  else Some (k, ({[k]} ∪ s.1, fun t j => if decide (j = k) then 0 else s.2 t j)).
Definition two_keys_set (t : tid) (k v : Z) (s : two_keys) : two_keys := (s.1, set_slot s.2 t k v).
Definition two_keys_posix (s : two_keys) : Z * Z * two_keys :=
  match two_keys_create s with Some (k, s) => (0, k, s) | None => (11, 0, s) end.

#[export] Instance two_keys_system : KeySystem := {|
  os := two_keys; live := fst; slot := snd;
  TlsAlloc s := match two_keys_create s with Some x => x | None => (0xFFFFFFFF, s) end;
  TlsFree k s := (1, (s.1 ∖ {[k]}, s.2)); TlsSetValue t k v s := (1, two_keys_set t k v s); TlsGetValue t k s := s.2 t k;
  sys_key_create _ := two_keys_posix; pthread_keycreate _ := two_keys_posix;
  sys_key_delete k s := (0, (s.1 ∖ {[k]}, s.2)); sys_setspecific t k v s := (0, two_keys_set t k v s);
  sys_getspecific t k s := s.2 t k; my_pthread_getspecific_imp t k s := s.2 t k;
  pthread_dummy r := r; pthread_dummy_address := 4096 |}.

Lemma two_keys_created s k s' : two_keys_create s = Some (k, s') -> k <> 0xFFFFFFFF /\ created s k s'.
Proof.
  unfold two_keys_create. destruct (decide _) as [|Hd]; [done|]. intros [= <- <-]. split; [by intros E; apply Hd; right|].
  pose proof (is_fresh s.1) as Hf. unfold created, values_kept; cbn. split_and!; [exact Hf|done| |].
  - intros t j Hj. rewrite decide_False; [done|]. by intros ->.
  - intros t. by rewrite decide_True.
Qed.

#[export] Instance two_keys_laws : KeyLaws.
Proof.
  assert (Hw : forall s t k v, written s t k v (two_keys_set t k v s)).
  { intros s t k v. unfold written, two_keys_set, set_slot; cbn. split_and!; [done|by rewrite decide_True|].
    intros u j _ Hne. by rewrite decide_False. }
  assert (Hu : forall s, unchanged s s) by done.
  assert (Hp : forall s r k s', two_keys_posix s = (r, k, s') -> if r =? 0 then created s k s' else unchanged s s').
  { intros s r k s'. unfold two_keys_posix. destruct (two_keys_create s) as [[k0 s0]|] eqn:E; intros [= <- <- <-]; [|done].
    by apply two_keys_created in E as [_ E]. }
  constructor; cbn; try done.
  - intros s k s'. destruct (two_keys_create s) as [[k0 s0]|] eqn:E; intros [= <- <-]; [|done].
    apply two_keys_created in E as [Hne E]. by rewrite (proj2 (Z.eqb_neq _ _) Hne).
  - by intros s k r s' _ [= <- <-].
  - intros s t k v r s' _ [= <- <-]. apply Hw.
  - intros s _. apply Hp.
  - intros s _. apply Hp.
  - by intros s k r s' _ [= <- <-].
  - intros s t k v r s' _ [= <- <-]. apply Hw.
Qed.

(** Three keys, of which the last cannot be created; two threads. *)
Definition key_example : key_client :=
  KeysDo (KeyCreate 0 0) (fun r => if negb (r =? 0) then KeysDone else
  KeysDo (KeyCreate 1 77) (fun r => if negb (r =? 0) then KeysDone else
  KeysDo (KeySet true 1 0 10) (fun _ => KeysDo (KeySet false 2 0 20) (fun _ => KeysDo (KeySet false 1 1 30) (fun _ =>
  KeysDo (KeyGet true 1 0) (fun _ => KeysDo (KeyGet false 2 0) (fun _ => KeysDo (KeyGet false 2 1) (fun _ =>
  KeysDo (KeyCreate 2 0) (fun r => if r =? 0 then KeysDone else
  KeysDo (KeyDelete 0) (fun _ => KeysDone)))))))))).
Definition key_start : key_state := {| key_of := fun _ => 0; system := (∅, fun _ _ => 0) |}.
Definition key_windows : key_build := {| on_windows := true; nonposix_getspecific := false; key_delete_exists := true; keycreate := false |}.

Lemma key_example_disciplined : key_disciplined ∅ key_example.
Proof.
  unfold key_example. repeat first
    [ progress cbn -[union difference empty singleton]
    | match goal with
      | |- _ /\ _ => split
      | |- forall _, _ => intros ?
      | |- context [if negb (?r =? 0) then _ else _] => destruct (r =? 0) eqn:?
      | |- context [if ?r =? 0 then KeysDone else _] => destruct (r =? 0) eqn:?
      | |- _ ∈ _ => set_solver
      | |- _ ∉ _ => set_solver
      end
    | done ].
Qed.

Lemma key_example_runs : snd <$> (key_run key_windows key_example key_start).1 = [0; 0; 0; 0; 0; 10; 20; 0; 1; 1].
Proof. vm_compute. reflexivity. Qed.

Lemma thread_data_is_a_table_witness :
  is_Some (table_run (key_run key_windows key_example key_start).1 (fun _ => None))
  /\ snd <$> (key_run key_windows key_example key_start).1 = [0; 0; 0; 0; 0; 10; 20; 0; 1; 1].
Proof.
  split; [|exact key_example_runs]. exact (thread_data_is_a_table key_windows key_example key_start key_example_disciplined).
Defined.
