(* ===== verification/Conditions.v ===== *)
(** * Conditions (my_pthread.h)

    A condition with its mutex: how the names [pthread_cond_*], [pthread_mutex_init] and [pthread_mutex_destroy] are
    defined in each build, over the laws of the functions they stand for.  A wait is two actions: the thread gives the
    mutex up and falls asleep, and it returns with the mutex after it was woken.  The theorem is about
    threads that wait in loops for predicates on shared data: no wakeup is lost. *)
From S2P Require Import Prelude Locks.

(** ** The interface: a mutex and a condition *)

(** The threads that sleep, with the times until which they do ([None]: until they are woken). *)
Abbreviation sleepers := (gmap tid (option Z)).

(** A time that is over. *)
Definition is_late (now : Z) (d : option Z) : bool := if d is Some d then d <=? now else false.
(** The threads [W] wake. *)
Definition woken (W : gset tid) (s : sleepers) : sleepers := filter (fun x => x.1 ∉ W) s.

Lemma lookup_woken W s t d : woken W s !! t = Some d <-> s !! t = Some d /\ t ∉ W.
Proof. unfold woken. by rewrite map_lookup_filter_Some. Qed.
Lemma dom_woken W s : dom (woken W s) = dom s ∖ W.
Proof.
  apply set_eq. intros t. rewrite elem_of_difference, !elem_of_dom. split.
  - intros [d [Hd Ht]%lookup_woken]. by split; [eexists|].
  - intros [[d Hd] Ht]. exists d. by apply lookup_woken.
Qed.
Lemma woken_all W s : dom s ⊆ W -> woken W s = ∅.
Proof.
  intros HW. apply map_empty. intros t. apply eq_None_not_Some. intros [d [Hd Ht]%lookup_woken]. apply Ht, HW, elem_of_dom. by eexists.
Qed.

Class Monitor (Mo : Type) := {
  owner : Mo -> option tid; asleep : Mo -> sleepers; awake : Mo -> gset tid; mon_ok : Mo -> Prop;
  mon_lock : op Mo; mon_unlock : op Mo;
  wait_begin : tid -> Mo -> option Mo; wait_end : op Mo;
  timedwait_begin : Z -> tid -> Mo -> option Mo; timedwait_end : Z -> op Mo;
  timed_deadline : Z -> option Z;
  cond_signal : Mo -> Z * Mo; cond_broadcast : Mo -> Z * Mo;
  expire : Z -> Mo -> Mo; tick : Mo -> Mo -> Prop }.

(** What a change of the condition, of the mutex or of both is. *)
Section Changes.
Context `{Monitor}.
Definition wakes (W : gset tid) (m m' : Mo) : Prop :=
  mon_ok m' /\ owner m' = owner m /\ W ⊆ dom (asleep m) /\ asleep m' = woken W (asleep m) /\ awake m' = awake m ∪ W.
Definition passes (o : option tid) (m m' : Mo) : Prop :=
  mon_ok m' /\ owner m' = o /\ asleep m' = asleep m /\ awake m' = awake m.
Record waits (deadline : option Z) (begin_ : tid -> Mo -> option Mo) (end_ : op Mo) : Prop := {
  begin_sleeps t m : mon_ok m -> owner m = Some t -> t ∉ dom (asleep m) ∪ awake m ->
    exists m', begin_ t m = Some m' /\ mon_ok m' /\ owner m' = None /\ asleep m' = <[t := deadline]> (asleep m) /\ awake m' = awake m;
  end_returns t m : mon_ok m -> owner m = None -> t ∈ awake m -> is_Some (end_ t m);
  end_owns t m r m' : mon_ok m -> owner m <> Some t -> end_ t m = Some (r, m') ->
    t ∈ awake m /\ owner m = None /\ mon_ok m' /\ owner m' = Some t /\ asleep m' = asleep m /\ awake m' = awake m ∖ {[t]} }.
End Changes.

(** The documented behaviour.  A wait with the time [d] sleeps until [timed_deadline d].  A signal wakes at least one of the
    threads that sleep; when time passes those whose time is over wake ([expire]), and any may wake for no reason ([tick]). *)
Class MonitorLaws (Mo : Type) `{Monitor Mo} : Prop := {
  mon_lock_law t m r m' : mon_ok m -> owner m <> Some t -> mon_lock t m = Some (r, m') -> owner m = None /\ passes (Some t) m m';
  mon_lock_free t m : mon_ok m -> owner m = None -> is_Some (mon_lock t m);
  mon_unlock_law t m : mon_ok m -> owner m = Some t -> exists m', mon_unlock t m = Some (0, m') /\ passes None m m';
  wait_law : waits (Mo := Mo) None wait_begin wait_end;
  timedwait_law d : waits (Mo := Mo) (timed_deadline d) (timedwait_begin d) (timedwait_end d);
  signal_law m : mon_ok m -> exists W, wakes W m (cond_signal m).2 /\ (asleep m <> ∅ -> W <> ∅);
  broadcast_law m : mon_ok m -> wakes (dom (asleep m)) m (cond_broadcast m).2;
  expire_law now m : mon_ok m -> exists W, wakes W m (expire now m)
    /\ forall t d, asleep m !! t = Some d -> t ∈ W <-> is_late now d = true;
  tick_law m m' : mon_ok m -> tick m m' -> exists W, wakes W m m' }.

(** ** The functions of the system, of thr_mutex.c and of my_wincond.c *)

Class CondSystem `{System} := {
  cond_asleep : pthread_cond_t -> sleepers; cond_awake : pthread_cond_t -> gset tid;
  win_asleep : win_cond_t -> sleepers; win_awake : win_cond_t -> gset tid;
  InitializeCriticalSection : CRITICAL_SECTION;
  safe_mutex_init : Z -> string -> Z -> Z * safe_mutex_t pthread_mutex_t;
  my_pthread_fastmutex_init : Z -> Z * my_pthread_fastmutex_t pthread_mutex_t;
  my_pthread_mutex_init : Z -> Z * pthread_mutex_t; sys_mutex_init : Z -> Z * pthread_mutex_t;
  my_pthread_cond_init : Z -> Z * pthread_cond_t; sys_cond_init : Z -> Z * pthread_cond_t; win_cond_init : Z -> Z * win_cond_t;
  sys_rwlock_init : Z -> Z * pthread_rwlock_t; USYNC_THREAD : Z; rwlock_init : Z -> Z -> Z * rwlock_t;
  win_rw_init : Z * win_rw_lock_t CRITICAL_SECTION win_cond_t SRWLOCK; my_rw_init : Z * my_rw_lock_t pthread_mutex_t pthread_cond_t;
  rw_pr_init : Z * rw_pr_lock_t pthread_mutex_t pthread_cond_t;
  sys_rwlock_destroy : pthread_rwlock_t -> Z; sys_rw_destroy : rwlock_t -> Z;
  win_rw_destroy : win_rw_lock_t CRITICAL_SECTION win_cond_t SRWLOCK -> Z; my_rw_destroy : my_rw_lock_t pthread_mutex_t pthread_cond_t -> Z;
  safe_mutex_destroy : safe_mutex_t pthread_mutex_t -> string -> Z -> Z; sys_mutex_destroy : pthread_mutex_t -> Z;
  sys_cond_destroy : pthread_cond_t -> Z; win_cond_destroy : win_cond_t -> Z; pthread_dummy : Z -> Z;
  sys_wait_begin : tid -> pthread_cond_t -> pthread_mutex_t -> option (pthread_cond_t * pthread_mutex_t);
  sys_wait_end : tid -> pthread_cond_t -> pthread_mutex_t -> option (Z * pthread_cond_t * pthread_mutex_t);
  sys_timedwait_begin : Z -> tid -> pthread_cond_t -> pthread_mutex_t -> option (pthread_cond_t * pthread_mutex_t);
  sys_timedwait_end : Z -> tid -> pthread_cond_t -> pthread_mutex_t -> option (Z * pthread_cond_t * pthread_mutex_t);
  my_timedwait_begin : Z -> tid -> pthread_cond_t -> pthread_mutex_t -> option (pthread_cond_t * pthread_mutex_t);
  my_timedwait_end : Z -> tid -> pthread_cond_t -> pthread_mutex_t -> option (Z * pthread_cond_t * pthread_mutex_t);
  safe_wait_begin : string -> Z -> tid -> pthread_cond_t -> safe_mutex_t pthread_mutex_t -> option (pthread_cond_t * safe_mutex_t pthread_mutex_t);
  safe_wait_end : string -> Z -> tid -> pthread_cond_t -> safe_mutex_t pthread_mutex_t -> option (Z * pthread_cond_t * safe_mutex_t pthread_mutex_t);
  safe_timedwait_begin : Z -> string -> Z -> tid -> pthread_cond_t -> safe_mutex_t pthread_mutex_t -> option (pthread_cond_t * safe_mutex_t pthread_mutex_t);
  safe_timedwait_end : Z -> string -> Z -> tid -> pthread_cond_t -> safe_mutex_t pthread_mutex_t -> option (Z * pthread_cond_t * safe_mutex_t pthread_mutex_t);
  win_wait_begin : tid -> win_cond_t -> CRITICAL_SECTION -> option (win_cond_t * CRITICAL_SECTION);
  win_wait_end : tid -> win_cond_t -> CRITICAL_SECTION -> option (Z * win_cond_t * CRITICAL_SECTION);
  win_timedwait_begin : Z -> tid -> win_cond_t -> CRITICAL_SECTION -> option (win_cond_t * CRITICAL_SECTION);
  win_timedwait_end : Z -> tid -> win_cond_t -> CRITICAL_SECTION -> option (Z * win_cond_t * CRITICAL_SECTION);
  sys_cond_signal : pthread_cond_t -> Z * pthread_cond_t; sys_cond_broadcast : pthread_cond_t -> Z * pthread_cond_t;
  win_cond_signal : win_cond_t -> Z * win_cond_t; win_cond_broadcast : win_cond_t -> Z * win_cond_t;
  cond_expire : Z -> pthread_cond_t -> pthread_cond_t; win_expire : Z -> win_cond_t -> win_cond_t;
  cond_tick : pthread_cond_t -> pthread_cond_t -> Prop; win_tick : win_cond_t -> win_cond_t -> Prop }.

(** A family of functions that wait until [deadline], on a condition of type [C] and a mutex of type [M]. *)
Record cond_waits {C M} (asl : C -> sleepers) (awk : C -> gset tid) (okm : M -> Prop) (own : M -> option tid) (deadline : option Z)
    (begin_ : tid -> C -> M -> option (C * M)) (end_ : tid -> C -> M -> option (Z * C * M)) : Prop := {
  cond_begin t c m : okm m -> own m = Some t -> t ∉ dom (asl c) ∪ awk c ->
    exists c' m', begin_ t c m = Some (c', m') /\ okm m' /\ own m' = None /\ asl c' = <[t := deadline]> (asl c) /\ awk c' = awk c;
  cond_end t c m : okm m -> own m = None -> t ∈ awk c -> is_Some (end_ t c m);
  cond_owns t c m r c' m' : okm m -> own m <> Some t -> end_ t c m = Some (r, c', m') ->
    t ∈ awk c /\ own m = None /\ okm m' /\ own m' = Some t /\ asl c' = asl c /\ awk c' = awk c ∖ {[t]} }.
Definition cond_wakes {C} (asl : C -> sleepers) (awk : C -> gset tid) (W : gset tid) (c c' : C) : Prop :=
  W ⊆ dom (asl c) /\ asl c' = woken W (asl c) /\ awk c' = awk c ∪ W.
Definition cond_expires {C} (asl : C -> sleepers) (awk : C -> gset tid) (exp : Z -> C -> C) : Prop :=
  forall now c, exists W, cond_wakes asl awk W c (exp now c)
    /\ forall t d, asl c !! t = Some d -> t ∈ W <-> is_late now d = true.

Class CondLaws `{CondSystem} : Prop := {
  critical_section_new : cs_owner InitializeCriticalSection = None;
  safe_mutex_new a f n m : safe_mutex_init a f n = (0, m) -> count m = 0;
  fast_mutex_new a m : my_pthread_fastmutex_init a = (0, m) -> pm_owner (fm_mutex m) = None;
  my_mutex_new a m : my_pthread_mutex_init a = (0, m) -> pm_owner m = None;
  sys_mutex_new a m : sys_mutex_init a = (0, m) -> pm_owner m = None;
  my_cond_new a c : my_pthread_cond_init a = (0, c) -> cond_asleep c = ∅ /\ cond_awake c = ∅;
  sys_cond_new a c : sys_cond_init a = (0, c) -> cond_asleep c = ∅ /\ cond_awake c = ∅;
  win_cond_new a c : win_cond_init a = (0, c) -> win_asleep c = ∅ /\ win_awake c = ∅;
  sys_rwlock_new a l : sys_rwlock_init a = (0, l) -> rwlock_holders l = ∅ /\ rwlock_writer l = None;
  rwlock_new a x l : rwlock_init a x = (0, l) -> sys_rw_holders l = ∅ /\ sys_rw_writer l = None;
  win_rw_new l : win_rw_init = (0, l) -> win_rw_holders l = ∅ /\ win_rw_writer l = None;
  my_rw_new l : my_rw_init = (0, l) -> state l = 0 /\ my_rw_holders l = ∅;
  rw_pr_new l : rw_pr_init = (0, l) -> rw_pr_holders l = ∅ /\ active_writer l = false;
  sys_waits : cond_waits cond_asleep cond_awake (fun _ => True) pm_owner None sys_wait_begin sys_wait_end;
  sys_timedwaits d : cond_waits cond_asleep cond_awake (fun _ => True) pm_owner (Some d) (sys_timedwait_begin d) (sys_timedwait_end d);
  my_timedwaits d : cond_waits cond_asleep cond_awake (fun _ => True) pm_owner (Some d) (my_timedwait_begin d) (my_timedwait_end d);
  safe_waits f n : cond_waits cond_asleep cond_awake (fun m => 0 <= count m) safe_owner None (safe_wait_begin f n) (safe_wait_end f n);
  safe_timedwaits d f n : cond_waits cond_asleep cond_awake (fun m => 0 <= count m) safe_owner (Some d)
    (safe_timedwait_begin d f n) (safe_timedwait_end d f n);
  win_waits : cond_waits win_asleep win_awake (fun _ => True) cs_owner None win_wait_begin win_wait_end;
  win_timedwaits d : cond_waits win_asleep win_awake (fun _ => True) cs_owner (Some d) (win_timedwait_begin d) (win_timedwait_end d);
  sys_signals c : exists W, cond_wakes cond_asleep cond_awake W c (sys_cond_signal c).2 /\ (cond_asleep c <> ∅ -> W <> ∅);
  win_signals c : exists W, cond_wakes win_asleep win_awake W c (win_cond_signal c).2 /\ (win_asleep c <> ∅ -> W <> ∅);
  sys_broadcasts c : cond_wakes cond_asleep cond_awake (dom (cond_asleep c)) c (sys_cond_broadcast c).2;
  win_broadcasts c : cond_wakes win_asleep win_awake (dom (win_asleep c)) c (win_cond_broadcast c).2;
  sys_expires : cond_expires cond_asleep cond_awake cond_expire;
  win_expires : cond_expires win_asleep win_awake win_expire;
  sys_ticks c c' : cond_tick c c' -> exists W, cond_wakes cond_asleep cond_awake W c c';
  win_ticks c c' : win_tick c c' -> exists W, cond_wakes win_asleep win_awake W c c' }.

(** ** The macros *)

(** The mutex of the build and the read-write locks of the build, and the conditionals HAVE_CTHREADS_WRAPPER, HAVE_BROKEN_PTHREAD_COND_TIMEDWAIT, HPUX10 (with
    the remapping of functions) and HAVE_NONPOSIX_PTHREAD_MUTEX_INIT. *)
Inductive rwlock_build := WithMutexInstead | WithPthreadRwlock | WithSystemRwlock | WithMyRwLock.
Inductive mutex_build := OnWindows | WithSafeMutex | WithFastMutex | WithNativeMutex.
Record cond_build := {
  mutexes : mutex_build; rwlocks : rwlock_build; cthreads_wrapper : bool; broken_timedwait : bool; hpux10 : bool; nonposix_mutex_init : bool }.

Section Macros.
Context `{CondSystem} (b : cond_build) (f : string) (n : Z).

Inductive monitor_obj :=
  | WindowsMonitor (A : win_cond_t) (B : CRITICAL_SECTION)
  | SafeMonitor (A : pthread_cond_t) (B : safe_mutex_t pthread_mutex_t)
  | FastMonitor (A : pthread_cond_t) (B : my_pthread_fastmutex_t pthread_mutex_t)
  | NativeMonitor (A : pthread_cond_t) (B : pthread_mutex_t).

(** Lines 171 (Windows), 525, 567 and 248. *)
Definition pthread_mutex_init (B : Z) : Z * mutex_obj :=
  match mutexes b with
  | OnWindows => (0, WindowsMutex InitializeCriticalSection)
  | WithSafeMutex => let (r, A) := safe_mutex_init B f n in (r, SafeMutexObj A)
  | WithFastMutex => let (r, A) := my_pthread_fastmutex_init B in (r, FastMutexObj A)
  | WithNativeMutex => let (r, A) := (if nonposix_mutex_init b then my_pthread_mutex_init B else sys_mutex_init B) in (r, NativeMutex A)
  end.
(** Lines 175, 528, 570 and 327. *)
Definition pthread_mutex_destroy (A : mutex_obj) : Z :=
  match A with
  | WindowsMutex A => 0
  | SafeMutexObj A => safe_mutex_destroy A f n
  | FastMutexObj A => sys_mutex_destroy (fm_mutex A)
  | NativeMutex A => if cthreads_wrapper b then pthread_dummy 0 else sys_mutex_destroy A
  end.
Definition my_rwlock_init (B : Z) : Z * rw_lock_t :=
  match rwlocks b with
  | WithMutexInstead => let (r, A) := pthread_mutex_init B in (r, MutexInstead A)
  | WithPthreadRwlock => let (r, A) := sys_rwlock_init B in (r, PthreadRwlock A)
  | WithSystemRwlock => let (r, A) := rwlock_init USYNC_THREAD 0 in (r, SystemRwlock A)
  | WithMyRwLock =>
      match mutexes b with
      | OnWindows => let (r, A) := win_rw_init in (r, WinRwLock A)
      | _ => let (r, A) := my_rw_init in (r, MyRwLock A)
      end
  end.
Definition rwlock_destroy (A : rw_lock_t) : Z :=
  match A with
  | MutexInstead A => pthread_mutex_destroy A
  | PthreadRwlock A => sys_rwlock_destroy A
  | SystemRwlock A => sys_rw_destroy A
  | MyRwLock A => my_rw_destroy A
  | WinRwLock A => win_rw_destroy A
  end.
(** A condition is initialised for the mutex that it is used with. *)
Definition pthread_cond_init (B : Z) (M : mutex_obj) : Z * monitor_obj :=
  let posix := if nonposix_mutex_init b then my_pthread_cond_init B else sys_cond_init B in
  match M with
  | WindowsMutex M => let (r, A) := win_cond_init B in (r, WindowsMonitor A M)
  | SafeMutexObj M => let (r, A) := posix in (r, SafeMonitor A M)
  | FastMutexObj M => let (r, A) := posix in (r, FastMonitor A M)
  | NativeMutex M => let (r, A) := posix in (r, NativeMonitor A M)
  end.
Definition pthread_cond_destroy (m : monitor_obj) : Z :=
  match m with
  | WindowsMonitor A _ => win_cond_destroy A
  | SafeMonitor A _ | FastMonitor A _ | NativeMonitor A _ => if cthreads_wrapper b then pthread_dummy 0 else sys_cond_destroy A
  end.

(** The two actions of [pthread_cond_wait(A,B)] (lines 529 and 571, functions in the other builds) and of
    [pthread_cond_timedwait(A,B,C)] (lines 530 and 572; of a native mutex 296, 332 and 376, the last that is met wins). *)
Definition pthread_cond_wait_begin (t : tid) (m : monitor_obj) : option monitor_obj :=
  match m with
  | WindowsMonitor A B => '(A, B) ← win_wait_begin t A B; Some (WindowsMonitor A B)
  | SafeMonitor A B => '(A, B) ← safe_wait_begin f n t A B; Some (SafeMonitor A B)
  | FastMonitor A B => '(A, p) ← sys_wait_begin t A (fm_mutex B); Some (FastMonitor A (set_fm_mutex B p))
  | NativeMonitor A B => '(A, B) ← sys_wait_begin t A B; Some (NativeMonitor A B)
  end.
Definition pthread_cond_wait_end (t : tid) (m : monitor_obj) : option (Z * monitor_obj) :=
  match m with
  | WindowsMonitor A B => '(r, A, B) ← win_wait_end t A B; Some (r, WindowsMonitor A B)
  | SafeMonitor A B => '(r, A, B) ← safe_wait_end f n t A B; Some (r, SafeMonitor A B)
  | FastMonitor A B => '(r, A, p) ← sys_wait_end t A (fm_mutex B); Some (r, FastMonitor A (set_fm_mutex B p))
  | NativeMonitor A B => '(r, A, B) ← sys_wait_end t A B; Some (r, NativeMonitor A B)
  end.
Definition native_timedwait_begin (C : Z) : tid -> pthread_cond_t -> pthread_mutex_t -> option (pthread_cond_t * pthread_mutex_t) :=
  if hpux10 b then my_timedwait_begin C else if cthreads_wrapper b then sys_wait_begin
  else if broken_timedwait b then my_timedwait_begin C else sys_timedwait_begin C.
Definition native_timedwait_end (C : Z) : tid -> pthread_cond_t -> pthread_mutex_t -> option (Z * pthread_cond_t * pthread_mutex_t) :=
  if hpux10 b then my_timedwait_end C else if cthreads_wrapper b then sys_wait_end
  else if broken_timedwait b then my_timedwait_end C else sys_timedwait_end C.
Definition pthread_cond_timedwait_begin (C : Z) (t : tid) (m : monitor_obj) : option monitor_obj :=
  match m with
  | WindowsMonitor A B => '(A, B) ← win_timedwait_begin C t A B; Some (WindowsMonitor A B)
  | SafeMonitor A B => '(A, B) ← safe_timedwait_begin C f n t A B; Some (SafeMonitor A B)
  | FastMonitor A B => '(A, p) ← sys_timedwait_begin C t A (fm_mutex B); Some (FastMonitor A (set_fm_mutex B p))
  | NativeMonitor A B => '(A, B) ← native_timedwait_begin C t A B; Some (NativeMonitor A B)
  end.
Definition pthread_cond_timedwait_end (C : Z) (t : tid) (m : monitor_obj) : option (Z * monitor_obj) :=
  match m with
  | WindowsMonitor A B => '(r, A, B) ← win_timedwait_end C t A B; Some (r, WindowsMonitor A B)
  | SafeMonitor A B => '(r, A, B) ← safe_timedwait_end C f n t A B; Some (r, SafeMonitor A B)
  | FastMonitor A B => '(r, A, p) ← sys_timedwait_end C t A (fm_mutex B); Some (r, FastMonitor A (set_fm_mutex B p))
  | NativeMonitor A B => '(r, A, B) ← native_timedwait_end C t A B; Some (r, NativeMonitor A B)
  end.

(** [pthread_cond_signal] and [pthread_cond_broadcast] are functions in every build. *)
Definition on_cond (posix : pthread_cond_t -> Z * pthread_cond_t) (win : win_cond_t -> Z * win_cond_t) (m : monitor_obj) : Z * monitor_obj :=
  match m with
  | WindowsMonitor A B => let (r, A) := win A in (r, WindowsMonitor A B)
  | SafeMonitor A B => let (r, A) := posix A in (r, SafeMonitor A B)
  | FastMonitor A B => let (r, A) := posix A in (r, FastMonitor A B)
  | NativeMonitor A B => let (r, A) := posix A in (r, NativeMonitor A B)
  end.

(** The mutex of a monitor, with the macros of Locks.v. *)
Definition on_monitor_mutex (o : op mutex_obj) : op monitor_obj := fun t m =>
  match m with
  | WindowsMonitor A B => '(r, M) ← o t (WindowsMutex B); match M with WindowsMutex B => Some (r, WindowsMonitor A B) | _ => None end
  | SafeMonitor A B => '(r, M) ← o t (SafeMutexObj B); match M with SafeMutexObj B => Some (r, SafeMonitor A B) | _ => None end
  | FastMonitor A B => '(r, M) ← o t (FastMutexObj B); match M with FastMutexObj B => Some (r, FastMonitor A B) | _ => None end
  | NativeMonitor A B => '(r, M) ← o t (NativeMutex B); match M with NativeMutex B => Some (r, NativeMonitor A B) | _ => None end
  end.
End Macros.

(** ** The builds satisfy the interface *)

Section Builds.
Context `{CondLaws} `{!SystemLaws} (b : cond_build) (f : string) (n : Z).

(** The build that a monitor is of, and what is always so for its mutex. *)
Definition monitor_build (m : monitor_obj) : mutex_build :=
  match m with
  | WindowsMonitor _ _ => OnWindows | SafeMonitor _ _ => WithSafeMutex
  | FastMonitor _ _ => WithFastMutex | NativeMonitor _ _ => WithNativeMutex
  end.
Definition monitor_valid (m : monitor_obj) : Prop := match m with SafeMonitor _ B => 0 <= count B | _ => True end.

(** The deadline that a timed wait of the build has: the wrapper of cthreads takes it away from a native wait. *)
Definition build_deadline (d : Z) : option Z :=
  match mutexes b with
  | WithNativeMutex => if cthreads_wrapper b && negb (hpux10 b) then None else Some d
  | _ => Some d
  end.

#[export] Instance monitor_obj_monitor : Monitor monitor_obj := {|
  owner m := match m with
    | WindowsMonitor _ B => cs_owner B | SafeMonitor _ B => safe_owner B
    | FastMonitor _ B => pm_owner (fm_mutex B) | NativeMonitor _ B => pm_owner B end;
  asleep m := match m with WindowsMonitor A _ => win_asleep A | SafeMonitor A _ | FastMonitor A _ | NativeMonitor A _ => cond_asleep A end;
  awake m := match m with WindowsMonitor A _ => win_awake A | SafeMonitor A _ | FastMonitor A _ | NativeMonitor A _ => cond_awake A end;
  mon_ok m := monitor_build m = mutexes b /\ monitor_valid m;
  mon_lock := on_monitor_mutex (pthread_mutex_lock f n); mon_unlock := on_monitor_mutex (pthread_mutex_unlock f n);
  wait_begin := pthread_cond_wait_begin f n; wait_end := pthread_cond_wait_end f n;
  timedwait_begin := pthread_cond_timedwait_begin b f n; timedwait_end := pthread_cond_timedwait_end b f n;
  timed_deadline := build_deadline; expire now m := (on_cond (pair 0 ∘ cond_expire now) (pair 0 ∘ win_expire now) m).2;
  cond_signal := on_cond sys_cond_signal win_cond_signal; cond_broadcast := on_cond sys_cond_broadcast win_cond_broadcast;
  tick m m' := match m, m' with
    | WindowsMonitor A B, WindowsMonitor A' B' => win_tick A A' /\ B' = B
    | SafeMonitor A B, SafeMonitor A' B' => cond_tick A A' /\ B' = B
    | FastMonitor A B, FastMonitor A' B' => cond_tick A A' /\ B' = B
    | NativeMonitor A B, NativeMonitor A' B' => cond_tick A A' /\ B' = B
    | _, _ => False end |}.

(** A mutex that is not mine is mine after it was locked, and only a free one is. *)
Lemma mutex_lock_passes (M : Type) okm own (lock trylock unlock : op M) t m r m' :
  mutex_behaviour okm own lock trylock unlock -> okm m -> own m <> Some t -> lock t m = Some (r, m') ->
  own m = None /\ okm m' /\ own m' = Some t.
Proof.
  intros Hb Ho Hn E. destruct (own m) as [u|] eqn:Eu.
  - assert (u <> t) by (by intros ->). by rewrite (lock_waits _ _ _ _ _ Hb t u m Ho Eu) in E.
  - destruct (lock_free _ _ _ _ _ Hb t m Ho Eu) as (m1 & E1 & Ho1 & Hm1). rewrite E1 in E. by injection E as <- <-.
Qed.

(** Functions of which the laws are known for one build. *)
Lemma cond_waits_when {C M} (P : Prop) asl awk okm own dl begin_ end_ :
  (P -> cond_waits (C := C) (M := M) asl awk okm own dl begin_ end_) -> cond_waits asl awk (fun m => P /\ okm m) own dl begin_ end_.
Proof.
  intros Hc. constructor.
  - intros t c m [HP Ho] Hown Ht. destruct (cond_begin _ _ _ _ _ _ _ (Hc HP) t c m Ho Hown Ht) as (c' & m' & E & ? & ? & ? & ?). exists c', m'. rewrite E. by split_and!.
  - intros t c m [HP Ho]. by apply (cond_end _ _ _ _ _ _ _ (Hc HP)).
  - intros t c m r c' m' [HP Ho] Hown E. destruct (cond_owns _ _ _ _ _ _ _ (Hc HP) t c m r c' m' Ho Hown E) as (? & ? & ? & ? & ? & ?). cbn. by split_and!.
Qed.

(** A wait on the monitor [m], seen from the laws. *)
Definition waits_at (dl : option Z) (begin' : tid -> monitor_obj -> option monitor_obj) (end' : op monitor_obj) (t : tid) (m : monitor_obj) : Prop :=
  (mon_ok m -> owner m = Some t -> t ∉ dom (asleep m) ∪ awake m ->
    exists m', begin' t m = Some m' /\ mon_ok m' /\ owner m' = None /\ asleep m' = <[t := dl]> (asleep m) /\ awake m' = awake m)
  /\ (mon_ok m -> owner m = None -> t ∈ awake m -> is_Some (end' t m))
  /\ (forall r m', mon_ok m -> owner m <> Some t -> end' t m = Some (r, m') ->
    t ∈ awake m /\ owner m = None /\ mon_ok m' /\ owner m' = Some t /\ asleep m' = asleep m /\ awake m' = awake m ∖ {[t]}).

(** Functions that wait, on the condition and the mutex of a monitor. *)
Lemma waits_lift {C M} (P : Prop) asl awk okm own dl begin_ end_ (mk : C -> M -> monitor_obj) (begin' : tid -> monitor_obj -> option monitor_obj) (end' : op monitor_obj) :
  (P -> cond_waits (C := C) (M := M) asl awk okm own dl begin_ end_) ->
  (forall c m, owner (mk c m) = own m /\ asleep (mk c m) = asl c /\ awake (mk c m) = awk c /\ mon_ok (mk c m) = (P /\ okm m)) ->
  (forall t c m, begin' t (mk c m) = ('(c, m) ← begin_ t c m; Some (mk c m))) ->
  (forall t c m, end' t (mk c m) = ('(r, c, m) ← end_ t c m; Some (r, mk c m))) ->
  forall t c m, waits_at dl begin' end' t (mk c m).
Proof.
  intros [Hb He Ho]%cond_waits_when Hmk Eb Ee t c m. unfold waits_at. destruct (Hmk c m) as (-> & -> & -> & ->). split_and!.
  - intros Hok Hown Ht. destruct (Hb t c m Hok Hown Ht) as (c' & m' & E & ?). exists (mk c' m').
    destruct (Hmk c' m') as (-> & -> & -> & ->). by rewrite Eb, E.
  - intros Hok Hown Ht. rewrite Ee. destruct (He t c m Hok Hown Ht) as [[[r c'] m'] ->]. by eexists.
  - intros r m' Hok Hown E. rewrite Ee in E. destruct (end_ t c m) as [[[r1 c1] m1]|] eqn:E1; [|done]. injection E as -> <-.
    destruct (Hmk c1 m1) as (-> & -> & -> & ->). by eapply Ho.
Qed.

Lemma native_timedwaits d : WithNativeMutex = mutexes b ->
  cond_waits cond_asleep cond_awake (fun _ => True) pm_owner (build_deadline d) (native_timedwait_begin b d) (native_timedwait_end b d).
Proof.
  intros Hb. unfold build_deadline, native_timedwait_begin, native_timedwait_end. rewrite <- Hb.
  destruct (hpux10 b); [rewrite andb_false_r; apply my_timedwaits|]. destruct (cthreads_wrapper b); [apply sys_waits|].
  destruct (broken_timedwait b); [apply my_timedwaits|apply sys_timedwaits].
Qed.

(** The waits of each kind of monitor. *)
Lemma build_waits (begin' : tid -> monitor_obj -> option monitor_obj) (end' : op monitor_obj) dl sb se fb fe nb ne wb we :
  (OnWindows = mutexes b -> cond_waits win_asleep win_awake (fun _ => True) cs_owner dl wb we) ->
  (WithSafeMutex = mutexes b -> cond_waits cond_asleep cond_awake (fun m => 0 <= count m) safe_owner dl sb se) ->
  (WithFastMutex = mutexes b -> cond_waits cond_asleep cond_awake (fun _ => True) pm_owner dl fb fe) ->
  (WithNativeMutex = mutexes b -> cond_waits cond_asleep cond_awake (fun _ => True) pm_owner dl nb ne) ->
  (forall t m, begin' t m = match m with
    | WindowsMonitor A B => '(A, B) ← wb t A B; Some (WindowsMonitor A B)
    | SafeMonitor A B => '(A, B) ← sb t A B; Some (SafeMonitor A B)
    | FastMonitor A B => '(A, p) ← fb t A (fm_mutex B); Some (FastMonitor A (set_fm_mutex B p))
    | NativeMonitor A B => '(A, B) ← nb t A B; Some (NativeMonitor A B) end) ->
  (forall t m, end' t m = match m with
    | WindowsMonitor A B => '(r, A, B) ← we t A B; Some (r, WindowsMonitor A B)
    | SafeMonitor A B => '(r, A, B) ← se t A B; Some (r, SafeMonitor A B)
    | FastMonitor A B => '(r, A, p) ← fe t A (fm_mutex B); Some (r, FastMonitor A (set_fm_mutex B p))
    | NativeMonitor A B => '(r, A, B) ← ne t A B; Some (r, NativeMonitor A B) end) ->
  waits (Mo := monitor_obj) dl begin' end'.
Proof.
  intros Hw Hs Hf Hn Hb He.
  pose proof (waits_lift _ _ _ _ _ _ _ _ WindowsMonitor begin' end' Hw) as Lw.
  pose proof (waits_lift _ _ _ _ _ _ _ _ SafeMonitor begin' end' Hs) as Ls.
  pose proof (fun B => waits_lift _ _ _ _ _ _ _ _ (fun A p => FastMonitor A (set_fm_mutex B p)) begin' end' Hf) as Lf.
  pose proof (waits_lift _ _ _ _ _ _ _ _ NativeMonitor begin' end' Hn) as Ln.
  assert (Hset : forall (B : my_pthread_fastmutex_t pthread_mutex_t), set_fm_mutex B (fm_mutex B) = B) by (by intros []).
  assert (L : forall t m, waits_at dl begin' end' t m).
  { intros t [A B|A B|A B|A B].
    - apply Lw; [done|intros; apply Hb|intros; apply He].
    - apply Ls; [done|intros; apply Hb|intros; apply He].
    - rewrite <- (Hset B). apply (Lf B); [done|intros t' c p; apply Hb|intros t' c p; apply He].
    - apply Ln; [done|intros; apply Hb|intros; apply He]. }
  constructor; intros t m; destruct (L t m) as (L1 & L2 & L3); [exact L1|exact L2|exact L3].
Qed.

(** What wakes threads of a condition wakes them in the monitor. *)
Lemma on_cond_wakes posix win m W : mon_ok m ->
  match m with
  | WindowsMonitor A _ => cond_wakes win_asleep win_awake W A (win A).2
  | SafeMonitor A _ | FastMonitor A _ | NativeMonitor A _ => cond_wakes cond_asleep cond_awake W A (posix A).2
  end -> wakes W m (on_cond posix win m).2.
Proof. destruct m as [A B|A B|A B|A B]; intros Ho (? & ? & ?); cbn; [destruct (win A)|destruct (posix A)..]; by split_and!. Qed.

#[export] Instance monitor_obj_laws : MonitorLaws monitor_obj.
Proof.
  constructor.
  - intros t m r m' [Hbm Ho] Hn E. cbn in E. unfold on_monitor_mutex in E.
    pose proof (pthread_mutex_behaves f n) as Hb.
    destruct m as [A B|A B|A B|A B];
      match type of E with (pthread_mutex_lock f n t ?M ≫= _) = _ => destruct (pthread_mutex_lock f n t M) as [[r1 M1]|] eqn:E1 end;
      try done; cbn in E; destruct M1; try done; injection E as <- <-;
      apply (mutex_lock_passes _ _ _ _ _ _ _ _ _ _ Hb) in E1; try done; destruct E1 as (? & ? & ?); by repeat split.
  - intros t m [_ Ho] Hn. cbn. unfold on_monitor_mutex.
    destruct m as [A B|A B|A B|A B]; cbn in Ho, Hn.
    + destruct (cs_lock_free t B Hn) as (c & E & _). cbn. rewrite E. by eexists.
    + destruct (lock_free _ _ _ _ _ (safe_behaves f n) t B Ho Hn) as (c & E & _). cbn. rewrite E. by eexists.
    + destruct (fast_lock_free t B Hn) as (c & E & _). cbn. rewrite E. by eexists.
    + destruct (lock_free _ _ _ _ _ native_behaves t B I Hn) as (c & E & _). cbn. rewrite E. by eexists.
  - intros t m [Hbm Ho] Hn. cbn. unfold on_monitor_mutex, passes.
    destruct m as [A B|A B|A B|A B]; cbn in Hbm, Ho, Hn.
    + eexists. split; [done|]. cbn. split_and!; try done. by apply cs_unlock.
    + destruct (unlock_releases _ _ _ _ _ (safe_behaves f n) t B Ho Hn) as (c & E & ? & ?). cbn. rewrite E. cbn. by eexists.
    + destruct (unlock_releases _ _ _ _ _ native_behaves t (fm_mutex B) I Hn) as (c & E & ? & ?). cbn. rewrite E. cbn. by eexists.
    + destruct (unlock_releases _ _ _ _ _ native_behaves t B I Hn) as (c & E & ? & ?). cbn. rewrite E. cbn. by eexists.
  - eapply build_waits; [intros _; apply win_waits|intros _; apply (safe_waits f n)|intros _; apply sys_waits|intros _; apply sys_waits| |];
      by intros t [].
  - intros d. cbn. eapply build_waits; [| | |apply (native_timedwaits d)| |]; try (intros Hb; unfold build_deadline; rewrite <- Hb);
      [apply (win_timedwaits d)|apply (safe_timedwaits d f n)|apply (sys_timedwaits d)|..]; by intros t [].
  - intros m Ho. destruct m as [A B|A B|A B|A B].
    + destruct (win_signals A) as (W & HW & ?). exists W. split; [by apply on_cond_wakes|done].
    + destruct (sys_signals A) as (W & HW & ?). exists W. split; [by apply on_cond_wakes|done].
    + destruct (sys_signals A) as (W & HW & ?). exists W. split; [by apply on_cond_wakes|done].
    + destruct (sys_signals A) as (W & HW & ?). exists W. split; [by apply on_cond_wakes|done].
  - intros m Ho. apply on_cond_wakes; [done|]. destruct m; (apply win_broadcasts || apply sys_broadcasts).
  - intros now m Ho. destruct m as [A B|A B|A B|A B].
    + destruct (win_expires now A) as (W & HW & ?). exists W. split; [by apply on_cond_wakes|done].
    + destruct (sys_expires now A) as (W & HW & ?). exists W. split; [by apply on_cond_wakes|done].
    + destruct (sys_expires now A) as (W & HW & ?). exists W. split; [by apply on_cond_wakes|done].
    + destruct (sys_expires now A) as (W & HW & ?). exists W. split; [by apply on_cond_wakes|done].
  - intros m m' Ho Ht. cbn in Ht. destruct m as [A B|A B|A B|A B], m' as [A' B'|A' B'|A' B'|A' B']; try done; destruct Ht as [Ht ->].
    + destruct (win_ticks _ _ Ht) as (W & ? & ? & ?). by exists W.
    + destruct (sys_ticks _ _ Ht) as (W & ? & ? & ?). by exists W.
    + destruct (sys_ticks _ _ Ht) as (W & ? & ? & ?). by exists W.
    + destruct (sys_ticks _ _ Ht) as (W & ? & ? & ?). by exists W.
Qed.

(** With HAVE_CTHREADS_WRAPPER a native wait does not depend on its deadline. *)
Lemma cthreads_ignore_deadline (C C' : Z) : cthreads_wrapper b = true -> hpux10 b = false ->
  native_timedwait_begin b C = native_timedwait_begin b C' /\ native_timedwait_end b C = native_timedwait_end b C'.
Proof. unfold native_timedwait_begin, native_timedwait_end. by intros -> ->. Qed.

(** A new lock is free. *)
Lemma new_mutex (B : Z) (M : mutex_obj) : pthread_mutex_init b f n B = (0, M) -> mutex_ok M /\ mutex_owner M = None.
Proof.
  unfold pthread_mutex_init. destruct (mutexes b).
  - intros [= <-]. split; [done|apply critical_section_new].
  - destruct (safe_mutex_init B f n) as [r S] eqn:E. intros [= -> <-]. apply safe_mutex_new in E. cbn. unfold safe_owner. by rewrite E.
  - destruct (my_pthread_fastmutex_init B) as [r S] eqn:E. intros [= -> <-]. by apply fast_mutex_new in E.
  - destruct (if nonposix_mutex_init b then _ else _) as [r S] eqn:E. intros [= -> <-]. split; [done|].
    destruct (nonposix_mutex_init b); [by eapply my_mutex_new|by eapply sys_mutex_new].
Qed.
Lemma new_rwlock (B : Z) (A : rw_lock_t) :
  my_rwlock_init b f n B = (0, A) -> ok (RwLockObj A) /\ holders (RwLockObj A) = ∅ /\ writer (RwLockObj A) = None.
Proof.
  unfold my_rwlock_init. destruct (rwlocks b).
  - destruct (pthread_mutex_init b f n B) as [r M] eqn:E. intros [= -> <-]. destruct (new_mutex _ _ E) as [Ho Hn]. split; [done|].
    cbn. by rewrite Hn.
  - destruct (sys_rwlock_init B) as [r l] eqn:E. intros [= -> <-]. split; [done|]. by apply sys_rwlock_new in E.
  - destruct (rwlock_init USYNC_THREAD 0) as [r l] eqn:E. intros [= -> <-]. split; [done|]. by apply rwlock_new in E.
  - assert (Hmy : (let (r, A) := my_rw_init in (r, MyRwLock A)) = (0, A) ->
      ok (RwLockObj A) /\ holders (RwLockObj A) = ∅ /\ writer (RwLockObj A) = None).
    { destruct my_rw_init as [r l] eqn:E. intros [= -> <-]. apply my_rw_new in E as [Hs Hl]. cbn. unfold my_rw_writer. rewrite Hs.
      split_and!; [lia|done..]. }
    destruct (mutexes b); try exact Hmy.
    destruct win_rw_init as [r l] eqn:E. intros [= -> <-]. split; [done|]. by apply win_rw_new in E.
Qed.
Lemma new_prlock (A : rw_pr_lock_t pthread_mutex_t pthread_cond_t) :
  rw_pr_init = (0, A) -> ok (PrLock A) /\ holders (PrLock A) = ∅ /\ writer (PrLock A) = None.
Proof. intros [Hh Hw]%rw_pr_new. cbn. unfold pr_writer. by rewrite Hw. Qed.

Definition mutex_build_of (M : mutex_obj) : mutex_build :=
  match M with WindowsMutex _ => OnWindows | SafeMutexObj _ => WithSafeMutex | FastMutexObj _ => WithFastMutex | NativeMutex _ => WithNativeMutex end.
Lemma new_mutex_build (B r : Z) (M : mutex_obj) : pthread_mutex_init b f n B = (r, M) -> mutex_build_of M = mutexes b.
Proof.
  unfold pthread_mutex_init. destruct (mutexes b); [by intros [= _ <-]|destruct (safe_mutex_init B f n)|destruct (my_pthread_fastmutex_init B)
    |destruct (if nonposix_mutex_init b then _ else _)]; by intros [= _ <-].
Qed.

(** A new monitor is free and nobody sleeps in it. *)
Lemma new_monitor (B B' : Z) (M : mutex_obj) (m : monitor_obj) :
  pthread_mutex_init b f n B = (0, M) -> pthread_cond_init b B' M = (0, m) ->
  mon_ok m /\ owner m = None /\ asleep m = ∅ /\ awake m = ∅.
Proof.
  assert (Hc : forall c, (if nonposix_mutex_init b then my_pthread_cond_init B' else sys_cond_init B') = (0, c) ->
    cond_asleep c = ∅ /\ cond_awake c = ∅) by (intros c; destruct (nonposix_mutex_init b); [apply my_cond_new|apply sys_cond_new]).
  intros EM. apply new_mutex_build in EM as Hbm. apply new_mutex in EM as [Ho Hn]. unfold pthread_cond_init. destruct M as [M|M|M|M];
    [destruct (win_cond_init B') as [r A] eqn:E; apply (f_equal fst) in E as Er|
     destruct (if nonposix_mutex_init b then my_pthread_cond_init B' else _) as [r A] eqn:E..];
    intros [= -> <-]; [apply win_cond_new in E as [? ?]|destruct (Hc A eq_refl)..]; by split_and!.
Qed.
End Builds.

(** ** A system

    A condition is who sleeps and who woke; a signal wakes the first of those that sleep. *)

Abbreviation simple_cond := (sleepers * gset tid)%type.

Section SimpleWaits.
Context {M : Type} (get : M -> option tid) (set : M -> option tid -> M) (good : M -> Prop).

Definition simple_begin (deadline : option Z) (t : tid) (c : simple_cond) (m : M) : option (simple_cond * M) :=
  if decide (get m = Some t) then Some ((<[t := deadline]> c.1, c.2), set m None) else None.
Definition simple_end (r : Z) (t : tid) (c : simple_cond) (m : M) : option (Z * simple_cond * M) :=
  if decide (get m = None /\ t ∈ c.2) then Some (r, (c.1, c.2 ∖ {[t]}), set m (Some t)) else None.

Lemma simple_waits (dl : option Z) (r : Z) : (forall m o, get (set m o) = o) -> (forall m o, good m -> good (set m o)) ->
  cond_waits fst snd good get dl (simple_begin dl) (simple_end r).
Proof.
  intros Hget Hgood. unfold simple_begin, simple_end. constructor.
  - intros t c m Ho E _. rewrite decide_True by done. do 2 eexists. rewrite Hget. split_and!; auto.
  - intros t c m Ho E Ht. rewrite decide_True by done. by eexists.
  - intros t c m r0 c' m' Ho Hn. destruct (decide _) as [[E Ht]|]; [|done]. intros [= <- <- <-]. rewrite Hget. split_and!; auto.
Qed.
End SimpleWaits.

Definition wake_some (W : gset tid) (c : simple_cond) : simple_cond := (woken W c.1, c.2 ∪ W).
Definition first_of (s : sleepers) : gset tid := match elements (dom s) with t :: _ => {[t]} | [] => ∅ end.
Definition late (now : Z) (s : sleepers) : gset tid :=
  dom (filter (fun x : tid * option Z => is_late now x.2 = true) s).
Definition simple_tick (c c' : simple_cond) : Prop := exists W, W ⊆ dom c.1 /\ c' = wake_some W c.

Lemma first_of_wakes (s : sleepers) : first_of s ⊆ dom s /\ (s <> ∅ -> first_of s <> ∅).
Proof.
  unfold first_of. destruct (elements (dom s)) as [|t l] eqn:E.
  - apply elements_empty_inv, leibniz_equiv, dom_empty_inv_L in E. subst. by split; [set_solver|].
  - assert (Ht : t ∈ dom s) by (apply elem_of_elements; rewrite E; left). split; [set_solver|]. intros _. apply non_empty_singleton_L.
Qed.

Lemma late_expires : cond_expires fst snd (fun now c => wake_some (late now c.1) c).
Proof.
  intros now c. exists (late now c.1). unfold late. split; [split; [apply dom_filter_subseteq|done]|].
  intros t d Ht. rewrite elem_of_dom. split.
  - intros [x Hx]. apply map_lookup_filter_Some in Hx as [Hx ?]. cbn in *. rewrite Ht in Hx. by injection Hx as <-.
  - intros Hd. exists d. by apply map_lookup_filter_Some.
Qed.

(** A wait that has a deadline before 0 is late. *)
Definition simple_result (d : Z) : Z := if d <? 0 then 110 else 0.

#[export] Instance simple_cond_system : CondSystem := {|
  cond_asleep := fst; cond_awake := snd; win_asleep := fst; win_awake := snd;
  InitializeCriticalSection := None;
  safe_mutex_init a f n := (0, {| global := None; mutex := None; file := f; line := n; count := 0; thread := 0%nat |});
  my_pthread_fastmutex_init a := (0, {| fm_mutex := None; spins := 0; rng_state := 1 |});
  my_pthread_mutex_init a := (0, None); sys_mutex_init a := (0, None);
  my_pthread_cond_init a := (0, (∅, ∅)); sys_cond_init a := (0, (∅, ∅)); win_cond_init a := (0, (∅, ∅));
  sys_rwlock_init a := (0, (None, ∅));
  USYNC_THREAD := 0; rwlock_init a x := (0, (None, ∅)); win_rw_init := (0, SlimRwLock (None, ∅) false);
  my_rw_init := (0, {| rw_lock := None; readers := (∅, ∅); writers := (∅, ∅); state := 0; waiters := 0; write_thread := 0%nat |});
  rw_pr_init := (0, {| pr_lock := None; no_active_readers := (∅, ∅); active_readers := 0; writers_waiting_readers := 0;
    active_writer := false; writer_thread := 0%nat |});
  sys_rwlock_destroy l := 0; my_rw_destroy l := 0; sys_rw_destroy l := 0; win_rw_destroy l := 0;
  safe_mutex_destroy m f n := 0; sys_mutex_destroy m := 0; sys_cond_destroy c := 0; win_cond_destroy c := 0; pthread_dummy x := 0;
  sys_wait_begin := simple_begin id (fun _ o => o) None; sys_wait_end := simple_end id (fun _ o => o) 0;
  sys_timedwait_begin d := simple_begin id (fun _ o => o) (Some d); sys_timedwait_end d := simple_end id (fun _ o => o) (simple_result d);
  my_timedwait_begin d := simple_begin id (fun _ o => o) (Some d); my_timedwait_end d := simple_end id (fun _ o => o) (simple_result d);
  safe_wait_begin f n := simple_begin safe_owner set_safe None; safe_wait_end f n := simple_end safe_owner set_safe 0;
  safe_timedwait_begin d f n := simple_begin safe_owner set_safe (Some d); safe_timedwait_end d f n := simple_end safe_owner set_safe (simple_result d);
  win_wait_begin := simple_begin id (fun _ o => o) None; win_wait_end := simple_end id (fun _ o => o) 0;
  win_timedwait_begin d := simple_begin id (fun _ o => o) (Some d); win_timedwait_end d := simple_end id (fun _ o => o) (simple_result d);
  sys_cond_signal c := (0, wake_some (first_of c.1) c); sys_cond_broadcast c := (0, wake_some (dom c.1) c);
  win_cond_signal c := (0, wake_some (first_of c.1) c); win_cond_broadcast c := (0, wake_some (dom c.1) c);
  cond_expire now c := wake_some (late now c.1) c; win_expire now c := wake_some (late now c.1) c;
  cond_tick := simple_tick; win_tick := simple_tick |}.

#[export] Instance simple_cond_laws : CondLaws.
Proof.
  assert (Hs : forall c : simple_cond, exists W, cond_wakes fst snd W c (wake_some (first_of c.1) c) /\ (c.1 <> ∅ -> W <> ∅)).
  { intros c. exists (first_of c.1). destruct (first_of_wakes c.1). by split. }
  assert (Hb : forall c : simple_cond, cond_wakes fst snd (dom c.1) c (wake_some (dom c.1) c)) by done.
  assert (Ht : forall c c' : simple_cond, simple_tick c c' -> exists W, cond_wakes fst snd W c c').
  { intros c c' (W & HW & ->). by exists W. }
  assert (Hsafe : forall (m : safe_mutex_t (option tid)) o, 0 <= count m -> 0 <= count (set_safe m o)) by (intros m [u|] _; cbn; lia).
  constructor; cbn; try done; try (by intros ? [= <-]); try (by intros ?? [= <-]); try (by intros ??? [= <-]); try (by intros ???? [= <-]); try apply late_expires; intros;
    try (by apply simple_waits); by apply simple_waits; [apply safe_get_set|].
Qed.
