(* ===== verification/MonitorClients.v ===== *)
(** * Clients of monitors (my_pthread.h)

    Threads that share data under a mutex and wait on its condition for predicates on the data, under any
    interleaving, against the interface of Conditions.v. *)
From S2P Require Import Prelude Locks Conditions.

#[local] Set Warnings "-clear-no-such-hyp".

(** ** Clients *)

Section Clients.
Context {U Mo : Type} `{MonitorLaws Mo}.

(** The code of a thread.  [MWait pred] is [while (!pred) pthread_cond_wait], [MTimed] the same with a deadline, which
    goes on at [late] when the wait reports an error. *)
Inductive mprog :=
  | MEnd
  | MLock (k : mprog)
  | MUnlock (k : mprog)
  | MAct (f : U -> U) (k : mprog)
  | MWait (pred : U -> bool) (k : mprog)
  | MTimed (deadline : Z) (pred : U -> bool) (k late : mprog)
  | MSignal (k : mprog)
  | MBroadcast (k : mprog).

(** A thread runs, or is between the two actions of the wait that its code begins with. *)
Inductive mthread := Running (p : mprog) | Sleeping (p : mprog).
Record mstate := { mon : Mo; shared : U; clock : Z; mthreads : list mthread }.

Definition mexec (t : tid) (m : Mo) (u : U) (th : mthread) : option (Mo * U * mthread) :=
  match th with
  | Running MEnd => None
  | Running (MLock k) => '(r, m) ← mon_lock t m; Some (m, u, Running k)
  | Running (MUnlock k) => '(r, m) ← mon_unlock t m; Some (m, u, Running k)
  | Running (MAct f k) => Some (m, f u, Running k)
  | Running (MWait pred k) =>
      if pred u then Some (m, u, Running k) else m ← wait_begin t m; Some (m, u, Sleeping (MWait pred k))
  | Running (MTimed d pred k late) =>
      if pred u then Some (m, u, Running k) else m ← timedwait_begin d t m; Some (m, u, Sleeping (MTimed d pred k late))
  | Running (MSignal k) => let (r, m) := cond_signal m in Some (m, u, Running k)
  | Running (MBroadcast k) => let (r, m) := cond_broadcast m in Some (m, u, Running k)
  | Sleeping (MWait pred k) => '(r, m) ← wait_end t m; Some (m, u, Running (MWait pred k))
  | Sleeping (MTimed d pred k late) =>
      '(r, m) ← timedwait_end d t m; Some (m, u, Running (if r =? 0 then MTimed d pred k late else late))
  | Sleeping _ => None
  end.

(** A thread makes a step; or time passes, threads whose time is over wake, or threads wake for no reason. *)
Inductive mon_step : mstate -> mstate -> Prop :=
| step_thread m u c ts t th m' u' th' : ts !! t = Some th -> mexec t m u th = Some (m', u', th') ->
    mon_step {| mon := m; shared := u; clock := c; mthreads := ts |} {| mon := m'; shared := u'; clock := c; mthreads := <[t := th']> ts |}
| step_time m u c ts c' : c <= c' ->
    mon_step {| mon := m; shared := u; clock := c; mthreads := ts |} {| mon := m; shared := u; clock := c'; mthreads := ts |}
| step_expire m u c ts :
    mon_step {| mon := m; shared := u; clock := c; mthreads := ts |} {| mon := expire c m; shared := u; clock := c; mthreads := ts |}
| step_tick m u c ts m' : tick m m' ->
    mon_step {| mon := m; shared := u; clock := c; mthreads := ts |} {| mon := m'; shared := u; clock := c; mthreads := ts |}.

(** The rules for clients: the data are changed and waited for with the mutex only, and a change is announced before the
    mutex is given up: by a broadcast, or, when only one thread may wait, by a signal.  [dirty]: changed and not announced. *)
Inductive waking := Broadcasts | Signals (waiter : tid).
Context (rule : waking).
Definition may_wait (t : tid) : Prop := match rule with Broadcasts => True | Signals w => t = w end.
Definition signalled (dirty : bool) : bool := match rule with Broadcasts => dirty | Signals _ => false end.
Fixpoint fits (t : tid) (held dirty : bool) (p : mprog) : Prop :=
  match p with
  | MEnd => held = false
  | MLock k => held = false /\ fits t true false k
  | MUnlock k => held = true /\ dirty = false /\ fits t false false k
  | MAct _ k => held = true /\ fits t true true k
  | MWait _ k => held = true /\ dirty = false /\ may_wait t /\ fits t true false k
  | MTimed _ _ k late => held = true /\ dirty = false /\ may_wait t /\ fits t true false k /\ fits t true false late
  | MSignal k => fits t held (signalled dirty) k
  | MBroadcast k => fits t held false k
  end.

(** What a thread that sleeps waits for. *)
Definition awaits (p : mprog) : option (U -> bool) :=
  match p with MWait pred _ | MTimed _ pred _ _ => Some pred | _ => None end.

(** When the sleep of a thread ends by itself. *)
Definition due (p : mprog) : option Z := match p with MTimed d _ _ _ => timed_deadline d | _ => None end.

(** ** The invariant *)

Definition thread_ok (m : Mo) (dirty : bool) (t : tid) (th : mthread) : Prop :=
  match th with
  | Running p => (if decide (owner m = Some t) then fits t true dirty p else fits t false false p) /\ t ∉ dom (asleep m) ∪ awake m
  | Sleeping p => is_Some (awaits p) /\ fits t true false p /\ owner m <> Some t /\ t ∈ dom (asleep m) ∪ awake m
      /\ forall d, asleep m !! t = Some d -> d = due p
  end.
(** A thread that sleeps waits for what does not hold. *)
Definition in_vain (m : Mo) (u : U) (t : tid) (th : mthread) : Prop :=
  match th with Sleeping p => t ∈ dom (asleep m) -> (fun pred => pred u) <$> awaits p = Some false | Running _ => True end.

Record cinv (m : Mo) (u : U) (ts : list mthread) (dirty : bool) : Prop := {
  cinv_ok : mon_ok m;
  cinv_disjoint : dom (asleep m) ## awake m;
  cinv_thread t th : ts !! t = Some th -> thread_ok m dirty t th;
  cinv_sleepers t : t ∈ dom (asleep m) ∪ awake m -> is_Some (ts !! t);
  cinv_owner t : owner m = Some t -> is_Some (ts !! t);
  cinv_dirty : dirty = true -> owner m <> None;
  cinv_vain : dirty = false -> forall t th, ts !! t = Some th -> in_vain m u t th }.

(** A step of the thread [t], after which it holds the mutex or nobody does. *)
Lemma cinv_update m u ts t th dirty m' u' th' dirty' :
  cinv m u ts dirty -> ts !! t = Some th ->
  mon_ok m' -> dom (asleep m') ## awake m' -> (forall v, v <> t -> owner m' = Some v <-> owner m = Some v) ->
  (forall v, v <> t -> v ∈ dom (asleep m') ∪ awake m' <-> v ∈ dom (asleep m) ∪ awake m) ->
  (forall v d, v <> t -> asleep m' !! v = Some d -> asleep m !! v = Some d) ->
  thread_ok m' dirty' t th' -> (dirty' = true -> owner m' <> None) ->
  (dirty' = dirty \/ forall v, v <> t -> owner m <> Some v) ->
  (dirty' = false -> (dirty = false /\ u' = u \/ asleep m' = ∅) /\ in_vain m' u' t th') ->
  cinv m' u' (<[t := th']> ts) dirty'.
Proof.
  intros [Ho Hd Ht Hs Hw Hdi Hv] Hth Ho' Hd' Hown Hset Hsub Hok Hdirty Hsame Hvain. constructor; try done.
  - intros v q Hq. destruct (decide (v = t)) as [->|Hne].
    + rewrite list_lookup_insert_eq in Hq by (by eapply lookup_lt_Some). by injection Hq as <-.
    + rewrite list_lookup_insert_ne in Hq by done. specialize (Ht v q Hq). unfold thread_ok in *.
      destruct q as [p|p]; rewrite (Hset v Hne).
      * destruct Ht as [Hf Hn]. split; [|done]. destruct (decide (owner m' = Some v)) as [E|E]; rewrite (Hown v Hne) in E.
        -- rewrite decide_True in Hf by done. destruct Hsame as [->|Hno]; [done|by destruct (Hno v Hne)].
        -- by rewrite decide_False in Hf.
      * rewrite (Hown v Hne). destruct Ht as (? & ? & ? & ? & Hdue). split_and!; try done. intros d E. by apply Hdue, Hsub.
  - intros v Hv'. destruct (decide (v = t)) as [->|Hne].
    + rewrite list_lookup_insert_eq by (by eapply lookup_lt_Some). by eexists.
    + rewrite list_lookup_insert_ne by done. by apply Hs, Hset.
  - intros v Hv'. destruct (decide (v = t)) as [->|Hne].
    + rewrite list_lookup_insert_eq by (by eapply lookup_lt_Some). by eexists.
    + rewrite list_lookup_insert_ne by done. by apply Hw, Hown.
  - intros Hf v q Hq. destruct (Hvain Hf) as [Hcase Hvt]. destruct (decide (v = t)) as [->|Hne].
    + rewrite list_lookup_insert_eq in Hq by (by eapply lookup_lt_Some). by injection Hq as <-.
    + rewrite list_lookup_insert_ne in Hq by done. destruct q as [p|p]; cbn; [done|]. intros [d Hin]%elem_of_dom.
      destruct Hcase as [[-> ->]|He]; [|by rewrite He in Hin].
      apply (Hv eq_refl v _ Hq). apply elem_of_dom. exists d. by apply Hsub.
Qed.

(** Waking threads keeps the invariant. *)
Lemma cinv_wakes m u ts dirty m' W : cinv m u ts dirty -> wakes W m m' -> cinv m' u ts dirty.
Proof.
  intros [Ho Hd Ht Hs Hw Hdi Hv] (Ho' & Hown & HW & Ha & Hk).
  assert (Hset : forall v, v ∈ dom (asleep m') ∪ awake m' <-> v ∈ dom (asleep m) ∪ awake m).
  { intros v. rewrite Ha, Hk, dom_woken, !elem_of_union, elem_of_difference. destruct (decide (v ∈ W)); set_solver. }
  constructor; try done.
  - rewrite Ha, Hk, dom_woken. set_solver.
  - intros v q Hq. specialize (Ht v q Hq). unfold thread_ok in *. destruct q; rewrite Hown, Hset; [done|].
    destruct Ht as (? & ? & ? & ? & Hdue). split_and!; try done. intros d. rewrite Ha. intros [? _]%lookup_woken. by apply Hdue.
  - intros v Hin. by apply Hs, Hset.
  - intros v. rewrite Hown. apply Hw.
  - rewrite Hown. apply Hdi.
  - intros Hf v q Hq. specialize (Hv Hf v q Hq). destruct q as [|p]; [done|]. cbn in *. intros Hin. apply Hv.
    rewrite Ha, dom_woken in Hin. set_solver.
Qed.

(** The case of a step that leaves who sleeps and who woke as they were, as locks, unlocks and actions do. *)
Lemma cinv_passes m u ts t k dirty m' u' dirty' k' : cinv m u ts dirty ->
  ts !! t = Some (Running k) -> passes (owner m') m m' -> (forall v, v <> t -> owner m' = Some v <-> owner m = Some v) ->
  (dirty' = true -> owner m' = Some t \/ dirty = true /\ owner m' = owner m) ->
  (dirty' = dirty \/ forall v, v <> t -> owner m <> Some v) -> (dirty' = false -> dirty = false /\ u' = u) ->
  (if decide (owner m' = Some t) then fits t true dirty' k' else fits t false false k') ->
  cinv m' u' (<[t := Running k']> ts) dirty'.
Proof.
  intros Hi Hth (Ho' & _ & Ea & Ew) Hv Hd Hd' Hf Hk. pose proof Hi as [_ Hdis Ht _ _ Hdirty _].
  destruct (Ht t _ Hth) as [_ Hn]. eapply (cinv_update m u ts t _ dirty); [exact Hi|exact Hth|..]; rewrite ?Ea, ?Ew; try done.
  - unfold thread_ok. by rewrite Ea, Ew.
  - intros E. destruct (Hd E) as [->|[E' ->]]; [done|by apply Hdirty].
  - intros E. split; [by left; apply Hf|done].
Qed.

(** Falling asleep, and returning. *)
Lemma cinv_sleep begin_ end_ m u ts t p pred m' : waits (due p) begin_ end_ ->
  cinv m u ts false -> ts !! t = Some (Running p) -> owner m = Some t ->
  awaits p = Some pred -> pred u = false -> fits t true false p -> begin_ t m = Some m' ->
  cinv m' u (<[t := Sleeping p]> ts) false.
Proof.
  intros Hw Hi Hth Hown Hp Hu Hf E. pose proof Hi as [Ho Hdis Ht _ _ _ _]. destruct (Ht t _ Hth) as [_ Hn].
  destruct (begin_sleeps _ _ _ Hw t m Ho Hown Hn) as (m1 & E1 & Ho1 & Hown1 & Ea & Ew). simplify_eq.
  eapply (cinv_update m u ts t _ false); [exact Hi|exact Hth|..]; rewrite ?Ea, ?Ew, ?dom_insert_L; try done.
  - set_solver.
  - intros v Hv. rewrite Hown1, Hown. split; [done|]. by intros [= ->].
  - set_solver.
  - intros v d Hv. by rewrite lookup_insert_ne.
  - unfold thread_ok. rewrite Hown1, Ea, Ew, Hp, dom_insert_L, lookup_insert_eq. split_and!; try done; [set_solver|]. by intros d [= <-].
  - by left.
  - intros _. split; [by left|]. cbn. intros _. by rewrite Hp; cbn; rewrite Hu.
Qed.
Lemma cinv_return dl begin_ end_ m u ts t p dirty r m' k : waits dl begin_ end_ ->
  cinv m u ts dirty -> ts !! t = Some (Sleeping p) ->
  end_ t m = Some (r, m') -> fits t true false k ->
  cinv m' u (<[t := Running k]> ts) false.
Proof.
  intros Hw Hi Hth E Hk. pose proof Hi as [Ho Hdis Ht _ _ Hdirty _]. destruct (Ht t _ Hth) as (_ & _ & Hne & Hin & _).
  destruct (end_owns _ _ _ Hw t m r m' Ho Hne E) as (Haw & Hfree & Ho' & Hown & Ea & Ew).
  assert (dirty = false) as -> by (destruct dirty; [by destruct (Hdirty eq_refl)|done]).
  eapply (cinv_update m u ts t _ false); [exact Hi|exact Hth|..]; rewrite ?Ea, ?Ew; try done.
  - set_solver.
  - intros v Hv. rewrite Hown, Hfree. split; [|done]. by intros [= ->].
  - intros v Hv. rewrite !elem_of_union, elem_of_difference, elem_of_singleton. naive_solver.
  - unfold thread_ok. rewrite decide_True by done. split; [done|]. rewrite Ea, Ew. set_solver.
  - by left.
  - intros _. split; [by left|done].
Qed.

(** When only one thread may wait, a signal wakes all that sleep. *)
Lemma signal_wakes_all m u ts dirty w m' W : rule = Signals w -> cinv m u ts dirty -> wakes W m m' ->
  (asleep m <> ∅ -> W <> ∅) -> asleep m' = ∅.
Proof.
  intros Hr Hi (_ & _ & HW & -> & _) Hne. assert (Hone : dom (asleep m) ⊆ {[w]}).
  { intros t Ht. destruct (cinv_sleepers _ _ _ _ Hi t) as [th Hth]; [set_solver|]. pose proof (cinv_thread _ _ _ _ Hi t th Hth) as Hok.
    destruct th as [p|p]; [destruct Hok as [_ Hn]; set_solver|]. destruct Hok as ([pred Hp] & Hf & _).
    assert (may_wait t) as Hm by (destruct p; try done; cbn in Hf; tauto). unfold may_wait in Hm. rewrite Hr in Hm. set_solver. }
  apply woken_all. destruct (decide (asleep m = ∅)) as [->|Ha]; [set_solver|]. specialize (Hne Ha).
  apply set_choose_L in Hne as [v Hv]. intros t Ht. assert (t = w /\ v = w) as [-> ->] by set_solver. done.
Qed.

(** A signal by [t], after which it goes on with [k]. *)
Lemma cinv_signal m u ts t p k dirty dirty' W m' : cinv m u ts dirty ->
  ts !! t = Some (Running p) -> wakes W m m' ->
  (if decide (owner m = Some t) then fits t true dirty' k else fits t false false k) ->
  (dirty' = dirty \/ dirty' = false /\ asleep m' = ∅ /\ forall v, v <> t -> owner m <> Some v) ->
  cinv m' u (<[t := Running k]> ts) dirty'.
Proof.
  intros Hi Hth HW Hk Hd. pose proof (cinv_wakes _ _ _ _ _ _ Hi HW) as Hi'. pose proof Hi' as [_ Hdis Ht _ _ Hdirty Hv].
  destruct HW as (Ho' & Hown & _). destruct (Ht t _ Hth) as [_ Hn].
  eapply (cinv_update m' u ts t _ dirty); [exact Hi'|exact Hth|..]; try done.
  - unfold thread_ok. by rewrite Hown.
  - intros E. destruct Hd as [<-|[-> _]]; [by apply Hdirty|done].
  - rewrite Hown. destruct Hd as [->|(-> & _ & Hno)]; [by left|by right].
  - intros E. split; [|done]. destruct Hd as [<-|(_ & He & _)]; [by left|by right].
Qed.

Lemma mexec_keeps m u ts t th m' u' th' dirty : cinv m u ts dirty -> ts !! t = Some th ->
  mexec t m u th = Some (m', u', th') -> exists dirty', cinv m' u' (<[t := th']> ts) dirty'.
Proof.
  intros Hi Hth. pose proof Hi as [Ho _ Ht _ _ Hdirty _]. specialize (Ht t _ Hth) as Hok.
  assert (Hmine : forall v, owner m = Some t -> v <> t -> owner m <> Some v) by (intros v -> Hv [= ->]; done).
  destruct th as [p|p]; cbn [thread_ok] in Hok; destruct p as [|k|k|f k|pred k|d pred k late|k|k]; cbn [mexec]; try done;
    destruct Hok as [Hf Hn].
  - destruct (mon_lock t m) as [[r m1]|] eqn:E; [|done]. intros [= <- <- <-]. exists false.
    destruct (decide (owner m = Some t)) as [Eo|Eo]; [by destruct Hf|]. destruct Hf as [_ Hf].
    destruct (mon_lock_law t m r m1 Ho Eo E) as [Hfree Hp]. pose proof Hp as (_ & Hown & _).
    assert (dirty = false) as -> by (destruct dirty; [by destruct (Hdirty eq_refl)|done]).
    eapply (cinv_passes m u ts t _ false); rewrite ?Hown, ?Hfree; try done; [|by left|by rewrite decide_True].
    intros v Hv. split; [by intros [= ->]|done].
  - destruct (mon_unlock t m) as [[r m1]|] eqn:E; [|done]. intros [= <- <- <-]. exists false.
    destruct (decide (owner m = Some t)) as [Eo|Eo]; [|by destruct Hf]. destruct Hf as (_ & -> & Hf).
    destruct (mon_unlock_law t m Ho Eo) as (m2 & E2 & Hp). simplify_eq. pose proof Hp as (_ & Hown & _).
    eapply (cinv_passes m u ts t _ false); rewrite ?Hown, ?Eo; try done; [|by left].
    intros v Hv. split; [done|by intros [= ->]].
  - intros [= <- <- <-]. exists true. destruct (decide (owner m = Some t)) as [Eo|Eo]; [|by destruct Hf]. destruct Hf as [_ Hf].
    eapply cinv_passes; try done; [by left|right; auto|by rewrite decide_True].
  - destruct (decide (owner m = Some t)) as [Eo|Eo]; [|by destruct Hf]. pose proof Hf as (_ & -> & _ & Hf').
    destruct (pred u) eqn:Eu.
    + intros [= <- <- <-]. exists false. eapply cinv_passes; try done; [by left|by rewrite decide_True].
    + destruct (wait_begin t m) as [m1|] eqn:E; [|done]. intros [= <- <- <-]. exists false. by eapply cinv_sleep; [apply wait_law|..].
  - destruct (decide (owner m = Some t)) as [Eo|Eo]; [|by destruct Hf]. pose proof Hf as (_ & -> & _ & Hf' & _).
    destruct (pred u) eqn:Eu.
    + intros [= <- <- <-]. exists false. eapply cinv_passes; try done; [by left|by rewrite decide_True].
    + destruct (timedwait_begin d t m) as [m1|] eqn:E; [|done]. intros [= <- <- <-]. exists false.
      by eapply cinv_sleep; [apply (timedwait_law d)|..].
  - destruct (signal_law m Ho) as (W & HW & Hne). destruct (cond_signal m) as [r m1] eqn:E. cbn in HW. intros [= <- <- <-].
    destruct (decide (owner m = Some t)) as [Eo|Eo].
    + exists (signalled dirty). eapply (cinv_signal m u ts t _ k dirty _ W); [exact Hi|exact Hth|exact HW|by rewrite decide_True|].
      unfold signalled. destruct rule as [|w] eqn:Hr; [by left|right]. split_and!; [done| |by intros v; apply Hmine].
      eapply (signal_wakes_all m u ts dirty w m1 W); [exact Hr|exact Hi|exact HW|exact Hne].
    + exists dirty. eapply (cinv_signal m u ts t _ k dirty _ W); [exact Hi|exact Hth|exact HW|rewrite decide_False by done|by left].
      cbn in Hf. unfold signalled in Hf. by destruct rule.
  - pose proof (broadcast_law m Ho) as HW. destruct (cond_broadcast m) as [r m1] eqn:E. intros [= <- <- <-].
    destruct (decide (owner m = Some t)) as [Eo|Eo].
    + exists false. eapply cinv_signal; try done; [by rewrite decide_True|]. right. destruct HW as (_ & _ & _ & Ha & _). cbn in Ha.
      split_and!; [done| |by intros v; apply Hmine]. rewrite Ha. by apply woken_all.
    + exists dirty. eapply cinv_signal; try done; [by rewrite decide_False|by left].
  - destruct (wait_end t m) as [[r m1]|] eqn:E; [|done]. intros [= <- <- <-]. exists false. destruct Hn as [Hn _].
    by eapply cinv_return; [apply wait_law|..].
  - destruct (timedwait_end d t m) as [[r m1]|] eqn:E; [|done]. intros [= <- <- <-]. exists false.
    destruct Hn as [Hn _]. eapply cinv_return; [apply (timedwait_law d)|done..|]. destruct (r =? 0); [done|]. by destruct Hn as (_ & _ & _ & _ & Hl).
Qed.

Abbreviation consistent s := (cinv (mon s) (shared s) (mthreads s)).
Lemma cinv_step s s' dirty : consistent s dirty -> mon_step s s' -> exists dirty', consistent s' dirty'.
Proof.
  intros Hi Hs. destruct Hs as [m u c ts t th m' u' th' Hth E|m u c ts c' Hc|m u c ts|m u c ts m' E]; cbn in *.
  - by eapply mexec_keeps.
  - by exists dirty.
  - exists dirty. destruct (expire_law c m (cinv_ok _ _ _ _ Hi)) as (W & HW & _). by eapply cinv_wakes.
  - exists dirty. destruct (tick_law m m' (cinv_ok _ _ _ _ Hi) E) as (W & HW). by eapply cinv_wakes.
Qed.

(** Every thread of a list keeps the rules. *)
Definition all_fit (ps : list mprog) : Prop := forall t p, ps !! t = Some p -> fits t false false p.

Lemma cinv_start m u ps : mon_ok m -> owner m = None -> asleep m = ∅ -> awake m = ∅ -> all_fit ps ->
  cinv m u (Running <$> ps) false.
Proof.
  intros Ho Hown Ha Hw Hps. constructor; try done; try (by intros t; rewrite Hown); try (rewrite Ha, Hw; set_solver).
  - intros t th Hth. apply list_lookup_fmap_Some in Hth as (p & -> & Hp). unfold thread_ok. rewrite Hown, decide_False by done.
    split; [by apply Hps|]. rewrite Ha, Hw. set_solver.
  - intros _ t th Hth. by apply list_lookup_fmap_Some in Hth as (p & -> & Hp).
Qed.

(** ** What clients may rely on *)

(** Only the thread with the mutex changes the data, and a thread that is past its wait has the mutex while its predicate
    holds. *)
Definition guarded (s : mstate) : Prop := forall t th m' u' th', mthreads s !! t = Some th ->
  mexec t (mon s) (shared s) th = Some (m', u', th') ->
  (u' <> shared s -> owner (mon s) = Some t)
  /\ (forall p pred, th = Running p -> awaits p = Some pred -> owner (mon s) = Some t /\ (pred (shared s) = true \/ th' = Sleeping p)).
(** When nobody has the mutex, a thread that still sleeps waits for what does not hold.  When no thread can make a step,
    nobody has the mutex and every thread is at its end or is one of these; and if the time that passed has woken all it
    can, the deadline of such a thread, if it has one, is still to come. *)
Definition no_wakeup_lost (s : mstate) : Prop :=
  (owner (mon s) = None -> forall t p, mthreads s !! t = Some (Sleeping p) -> t ∈ dom (asleep (mon s)) ->
     exists pred, awaits p = Some pred /\ pred (shared s) = false)
  /\ ((forall t th, mthreads s !! t = Some th -> mexec t (mon s) (shared s) th = None) ->
     owner (mon s) = None /\ forall t th, mthreads s !! t = Some th -> th = Running MEnd \/
       exists p pred, th = Sleeping p /\ awaits p = Some pred /\ pred (shared s) = false
         /\ (asleep (expire (clock s) (mon s)) = asleep (mon s) -> forall d, due p = Some d -> clock s < d)).

Lemma cinv_guarded s dirty : consistent s dirty -> guarded s.
Proof.
  intros [_ _ Ht _ _ _ _] t th m' u' th' Hth E. specialize (Ht t th Hth). destruct th as [p|p]; cbn in Ht.
  - destruct Ht as [Hf _]. split.
    + intros Hu. destruct (decide (owner (mon s) = Some t)) as [|_]; [done|]. exfalso.
      destruct p as [|k|k|f k|pred k|d pred k late|k|k]; cbn in Hf, E; try (by destruct Hf); try done.
      * destruct (mon_lock t (mon s)) as [[r m1]|]; by simplify_eq/=.
      * by destruct (cond_signal (mon s)); simplify_eq.
      * by destruct (cond_broadcast (mon s)); simplify_eq.
    + intros p' pred [= <-] Hp. destruct (decide (owner (mon s) = Some t)) as [Hown|_]; [split; [done|]|];
        destruct p as [|k|k|f k|pred' k|d pred' k late|k|k]; try done; injection Hp as ->; cbn in E, Hf; try (by destruct Hf).
      * destruct (pred (shared s)); [by left|right]. by destruct (wait_begin t (mon s)); simplify_eq/=.
      * destruct (pred (shared s)); [by left|right]. by destruct (timedwait_begin d t (mon s)); simplify_eq/=.
  - split; [|done]. intros Hu. exfalso. destruct p as [|k|k|f k|pred k|d pred k late|k|k]; try done; cbn in E.
    + destruct (wait_end t (mon s)) as [[r m1]|]; by simplify_eq/=.
    + destruct (timedwait_end d t (mon s)) as [[r m1]|]; by simplify_eq/=.
Qed.

(** The other threads leave the mutex of an owner and the data alone. *)
Lemma owner_kept m u ts dirty t v th m' u' th' : cinv m u ts dirty -> ts !! v = Some th ->
  mexec v m u th = Some (m', u', th') -> v <> t -> owner m = Some t -> owner m' = Some t /\ u' = u.
Proof.
  intros [Ho _ Ht _ _ _ _] Hth E Hne Hown. cbn in *. specialize (Ht v th Hth).
  assert (Hv : owner m <> Some v) by (rewrite Hown; by intros [= ->]).
  destruct th as [p|p]; cbn in Ht; [rewrite decide_False in Ht by done|]; destruct p as [|k|k|f k|pred k|d pred k late|k|k]; cbn in E; try done;
    try (by destruct Ht as [[? _] _]).
  - destruct (mon_lock v m) as [[r m1]|] eqn:El; [|done]. destruct (mon_lock_law v m r m1 Ho Hv El) as [Hfree _]. congruence.
  - pose proof (signal_law m Ho) as (W & (_ & Hs & _) & _). destruct (cond_signal m). cbn in Hs. simplify_eq. by rewrite Hs.
  - pose proof (broadcast_law m Ho) as (_ & Hs & _). destruct (cond_broadcast m). cbn in Hs. simplify_eq. by rewrite Hs.
  - destruct (wait_end v m) as [[r m1]|] eqn:El; [|done]. destruct (end_owns _ _ _ wait_law v m r m1 Ho Hv El) as (_ & Hfree & _). congruence.
  - destruct (timedwait_end d v m) as [[r m1]|] eqn:El; [|done].
    destruct (end_owns _ _ _ (timedwait_law d) v m r m1 Ho Hv El) as (_ & Hfree & _). congruence.
Qed.

(** A thread that is at an action or a wait has the mutex. *)
Lemma cinv_owns s dirty t p : consistent s dirty -> mthreads s !! t = Some (Running p) -> (forall d, ~ fits t false d p) -> owner (mon s) = Some t.
Proof. intros [_ _ Ht _ _ _ _] Hth Hp. destruct (Ht t _ Hth) as [Hf _]. destruct (decide (owner (mon s) = Some t)); [done|by apply Hp in Hf]. Qed.

(** The owner can always go on. *)
Lemma owner_goes_on s dirty t th : consistent s dirty -> owner (mon s) = Some t -> mthreads s !! t = Some th ->
  mexec t (mon s) (shared s) th <> None.
Proof.
  intros [Ho _ Ht _ _ _ _] Hown Hth. specialize (Ht t th Hth). destruct th as [p|p]; cbn in Ht.
  - destruct Ht as [Hf Hn]. rewrite decide_True in Hf by done.
    destruct p as [|k|k|f k|pred k|d pred k late|k|k]; cbn; try done; try (by destruct Hf).
    + destruct (mon_unlock_law t _ Ho Hown) as (m' & -> & _). done.
    + destruct (pred (shared s)); [done|]. destruct (begin_sleeps _ _ _ wait_law t _ Ho Hown Hn) as (m' & -> & _). done.
    + destruct (pred (shared s)); [done|]. destruct (begin_sleeps _ _ _ (timedwait_law d) t _ Ho Hown Hn) as (m' & -> & _). done.
    + by destruct (cond_signal (mon s)).
    + by destruct (cond_broadcast (mon s)).
  - by destruct Ht as (_ & _ & Hne & _).
Qed.

(** While nobody has the mutex, a thread that sleeps waits for what does not hold. *)
Lemma sleeps_in_vain s dirty t p : consistent s dirty -> owner (mon s) = None -> mthreads s !! t = Some (Sleeping p) -> t ∈ dom (asleep (mon s)) ->
  exists pred, awaits p = Some pred /\ pred (shared s) = false.
Proof.
  intros [_ _ _ _ _ Hdirty Hv] Hf Hp Hin. destruct dirty; [by destruct (Hdirty eq_refl)|]. pose proof (Hv eq_refl t _ Hp Hin) as Hvp.
  destruct (awaits p) as [pred|]; [|done]. injection Hvp as Hvp. by exists pred.
Qed.

(** The other threads go on then, but those at their end. *)
Lemma free_goes_on s dirty t th : consistent s dirty -> owner (mon s) = None -> mthreads s !! t = Some th ->
  mexec t (mon s) (shared s) th <> None \/ th = Running MEnd
  \/ exists p pred, th = Sleeping p /\ asleep (mon s) !! t = Some (due p) /\ awaits p = Some pred /\ pred (shared s) = false.
Proof.
  intros Hi Hown Hth. pose proof Hi as [Ho _ Ht _ _ _ _]. specialize (Ht t th Hth). destruct th as [p|p]; cbn in Ht.
  - rewrite Hown in Ht. rewrite decide_False in Ht by done. destruct Ht as [Hf _].
    destruct p as [|k|k|f k|pred k|d pred k late|k|k]; cbn in Hf |- *; try (by destruct Hf); try (by right; left); left.
    + by destruct (mon_lock_free t _ Ho Hown) as [[r m'] ->].
    + by destruct (cond_signal (mon s)).
    + by destruct (cond_broadcast (mon s)).
  - destruct Ht as ([pred Hp] & Hf & _ & Hin & Hdue). apply elem_of_union in Hin as [Hin|Hin].
    + right; right. destruct (sleeps_in_vain _ _ _ _ Hi Hown Hth Hin) as (pr & ? & ?). exists p, pr.
      apply elem_of_dom in Hin as [d Hd]. by rewrite <- (Hdue d Hd).
    + left. destruct p as [|k|k|f k|pr k|d pr k late|k|k]; try done; cbn.
      * by destruct (end_returns _ _ _ wait_law t _ Ho Hown Hin) as [[r m'] ->].
      * by destruct (end_returns _ _ _ (timedwait_law d) t _ Ho Hown Hin) as [[r m'] ->].
Qed.

(** A thread that the passing of time does not wake is not late. *)
Lemma not_late now m t d : mon_ok m -> asleep (expire now m) = asleep m -> asleep m !! t = Some (Some d) -> now < d.
Proof.
  intros Ho He Ht. destruct (expire_law now m Ho) as (W & (_ & _ & _ & Ha & _) & HW).
  assert (Hn : t ∉ W) by (rewrite He in Ha; rewrite Ha in Ht; by apply lookup_woken in Ht as [_ ?]).
  rewrite (HW _ _ Ht) in Hn. cbn in Hn. lia.
Qed.

Lemma cinv_no_wakeup_lost s dirty : consistent s dirty -> no_wakeup_lost s.
Proof.
  intros Hi. split; [intros Hown t p; by eapply sleeps_in_vain|]. intros Hstuck.
  destruct (owner (mon s)) as [v|] eqn:Ev.
  { destruct (cinv_owner _ _ _ _ Hi v Ev) as [th Hth]. by destruct (owner_goes_on _ _ _ _ Hi Ev Hth (Hstuck v th Hth)). }
  split; [done|]. intros t th Hth. destruct (free_goes_on _ _ _ _ Hi Ev Hth) as [Hgo|[->|(p & pred & -> & Ha & Hp & Hu)]].
  - by destruct (Hgo (Hstuck t th Hth)).
  - by left.
  - right. exists p, pred. split_and!; try done. intros He d Hd. rewrite Hd in Ha. by apply (not_late _ _ t d (cinv_ok _ _ _ _ Hi)).
Qed.

(** In every state that threads reach. *)
Lemma reachable_cinv s s' dirty : consistent s dirty -> rtc mon_step s s' -> exists dirty', consistent s' dirty'.
Proof.
  intros Hi Hr. revert dirty Hi. induction Hr as [s|s s1 s2 Hs _ IH]; intros dirty Hi; [by exists dirty|].
  destruct (cinv_step _ _ _ Hi Hs) as [d Hd]. by apply (IH d).
Qed.

(** A run of threads in a given order, and of the time that passes between. *)
Inductive mon_event := Run (t : tid) | Expire (now : Z).
Definition mon_run1 (e : mon_event) (s : mstate) : option mstate :=
  match e with
  | Run t =>
      th ← mthreads s !! t; '(m, u, th) ← mexec t (mon s) (shared s) th;
      Some {| mon := m; shared := u; clock := clock s; mthreads := <[t := th]> (mthreads s) |}
  | Expire now =>
      if clock s <=? now then Some {| mon := expire now (mon s); shared := shared s; clock := now; mthreads := mthreads s |} else None
  end.
Definition mon_run (o : list mon_event) (s : mstate) : option mstate := foldl (fun s e => s ← s; mon_run1 e s) (Some s) o.

Lemma mon_run1_rtc e s s' : mon_run1 e s = Some s' -> rtc mon_step s s'.
Proof.
  destruct s as [m u c ts], e as [t|now]; cbn.
  - destruct (ts !! t) as [th|] eqn:Et; [|done]. cbn. destruct (mexec t m u th) as [[[m' u'] th']|] eqn:Ee; [|done].
    intros [= <-]. by eapply rtc_once, step_thread.
  - destruct (c <=? now) eqn:E; [|done]. intros [= <-]. eapply rtc_l; [apply (step_time _ _ _ _ now); lia|]. apply rtc_once, step_expire.
Qed.
Lemma mon_run_rtc o s s' : mon_run o s = Some s' -> rtc mon_step s s'.
Proof.
  unfold mon_run. revert s. induction o as [|e o IH]; intros s; cbn; [by intros [= ->]|].
  destruct (mon_run1 e s) as [s1|] eqn:E.
  - intros Hr. etrans; [by eapply mon_run1_rtc|by apply IH].
  - intros Hr. exfalso. clear IH E. induction o as [|v o IH]; [done|]. by apply IH.
Qed.
End Clients.
Arguments mprog : clear implicits.
Arguments mthread : clear implicits.
Arguments mstate : clear implicits.

(** ** The theorem *)

(** C7. In every build, let threads share data under a mutex and a condition that were made with
    [pthread_mutex_init] and [pthread_cond_init], and keep one of two rules ([all_fit]): they change and await the data
    with the mutex only, and announce every change before they unlock, by a broadcast, or, if only one given thread
    ever waits, by a signal.  Then, under every interleaving, with wakeups by signals, broadcasts, deadlines or none of them: only
    the thread with the mutex changes the data; a thread that is past its wait has the mutex and its predicate holds; while
    nobody has the mutex, a thread that still sleeps waits for a predicate that does not hold; and when no thread can
    make a step, nobody has the mutex and every thread is at its end or sleeps for such a predicate, with a deadline
    that is still to come or without one. *)
Theorem no_lost_wakeup {U} `{CondLaws} `{!SystemLaws} (b : cond_build) (f : string) (n B B' now : Z) (M : mutex_obj) (m : monitor_obj)
    (u : U) (rule : waking) (ps : list (mprog U)) (s : mstate U monitor_obj) :
  let _ := monitor_obj_monitor b f n in
  pthread_mutex_init b f n B = (0, M) -> pthread_cond_init b B' M = (0, m) -> all_fit rule ps ->
  rtc mon_step {| mon := m; shared := u; clock := now; mthreads := Running <$> ps |} s ->
  guarded s /\ no_wakeup_lost s.
Proof.
  intros _m EM Em Hps Hr. destruct (new_monitor b f n B B' M m EM Em) as (Ho & Hown & Ha & Hw).
  pose proof (monitor_obj_laws b f n) as L.
  destruct (reachable_cinv rule {| mon := m; shared := u; clock := now; mthreads := Running <$> ps |} s false 
    (cinv_start rule m u ps Ho Hown Ha Hw Hps) Hr) as [d Hd].
  split; [by eapply cinv_guarded|by eapply cinv_no_wakeup_lost].
Qed.

(** Two consumers and a producer that broadcasts: the first consumer waits for a positive number, the second until -1 for
    one above 1.  A consumer and a producer that signals.  In the four builds. *)
Definition consumer : mprog Z := MLock (MWait (fun x => 0 <? x) (MAct (fun x => x - 1) (MBroadcast (MUnlock MEnd)))).
Definition late_consumer : mprog Z := MLock (MTimed (-1) (fun x => 1 <? x) (MUnlock MEnd) (MUnlock MEnd)).
Definition producer : mprog Z := MLock (MAct (fun x => x + 1) (MBroadcast (MUnlock (MSignal MEnd)))).
Definition only_consumer : mprog Z := MLock (MWait (fun x => 0 <? x) (MAct (fun x => x - 1) (MSignal (MUnlock MEnd)))).
Definition signaller : mprog Z := MLock (MAct (fun x => x + 1) (MSignal (MUnlock MEnd))).
Definition builds : list cond_build :=
  (fun k => {| mutexes := k; rwlocks := WithPthreadRwlock; cthreads_wrapper := false; broken_timedwait := true; hpux10 := false; nonposix_mutex_init := false |})
    <$> [OnWindows; WithSafeMutex; WithFastMutex; WithNativeMutex].
Definition new_of (b : cond_build) : mutex_obj * monitor_obj :=
  let M := (pthread_mutex_init b "t.c" 7 0).2 in (M, (pthread_cond_init b 0 M).2).
Definition handoff_order : list mon_event :=
  ((Run <$> [0; 0; 1; 1]%nat) ++ [Expire (-1)] ++ (Run <$> [1; 1; 2; 2; 2; 2; 0; 0; 0; 0; 0; 2]%nat))%list.
Definition signal_order : list mon_event := Run <$> [0; 0; 1; 1; 1; 1; 0; 0; 0; 0; 0]%nat.
Definition start_of (m : monitor_obj) (ps : list (mprog Z)) : mstate Z monitor_obj :=
  {| mon := m; shared := 0; clock := -9; mthreads := Running <$> ps |}.
Definition run_in (b : cond_build) (o : list mon_event) (ps : list (mprog Z)) : option (mstate Z monitor_obj) :=
  mon_run (H := monitor_obj_monitor b "t.c" 7) o (start_of (new_of b).2 ps).

Example handoff_runs : Forall (fun b => (fun s => (shared s, mthreads s)) <$> run_in b handoff_order [consumer; late_consumer; producer]
    = Some (0, [Running MEnd; Running MEnd; Running MEnd])) builds.
Proof. repeat constructor. Qed.
Example signal_runs : Forall (fun b => (fun s => (shared s, mthreads s)) <$> run_in b signal_order [only_consumer; signaller]
    = Some (0, [Running MEnd; Running MEnd])) builds.
Proof. repeat constructor. Qed.

Definition safe_build : cond_build :=
  {| mutexes := WithSafeMutex; rwlocks := WithPthreadRwlock; cthreads_wrapper := false; broken_timedwait := true; hpux10 := false; nonposix_mutex_init := false |}.
Lemma handoff_fits : all_fit Broadcasts [consumer; late_consumer; producer].
Proof. intros [|[|[|t]]] p; cbn; [intros [= <-]; repeat constructor..|done]. Qed.
Lemma signal_fits : all_fit (Signals 0%nat) [only_consumer; signaller].
Proof. intros [|[|t]] p; cbn; [intros [= <-]; repeat constructor..|done]. Qed.

Lemma handoff_ends : exists s, run_in safe_build handoff_order [consumer; late_consumer; producer] = Some s /\
  mthreads s = [Running MEnd; Running MEnd; Running MEnd].
Proof.
  pose proof (Forall_lookup_1 _ _ 1%nat safe_build handoff_runs eq_refl) as E. cbn beta in E.
  destruct (run_in safe_build handoff_order [consumer; late_consumer; producer]) as [s|]; [|done].
  exists s. split; [done|]. by injection E.
Qed.
Lemma signal_ends : exists s, run_in safe_build signal_order [only_consumer; signaller] = Some s /\ mthreads s = [Running MEnd; Running MEnd].
Proof.
  pose proof (Forall_lookup_1 _ _ 1%nat safe_build signal_runs eq_refl) as E. cbn beta in E.
  destruct (run_in safe_build signal_order [only_consumer; signaller]) as [s|]; [|done].
  exists s. split; [done|]. by injection E.
Qed.

Lemma no_lost_wakeup_witness :
  (exists s, run_in safe_build handoff_order [consumer; late_consumer; producer] = Some s /\
    mthreads s = [Running MEnd; Running MEnd; Running MEnd] /\
    @guarded Z _ (monitor_obj_monitor safe_build "t.c" 7) s /\ @no_wakeup_lost Z _ (monitor_obj_monitor safe_build "t.c" 7) s)
  /\ exists s, run_in safe_build signal_order [only_consumer; signaller] = Some s /\ mthreads s = [Running MEnd; Running MEnd] /\
    @guarded Z _ (monitor_obj_monitor safe_build "t.c" 7) s /\ @no_wakeup_lost Z _ (monitor_obj_monitor safe_build "t.c" 7) s.
Proof.
  split.
  - destruct handoff_ends as (s & E & Es). exists s. split; [exact E|]. split; [exact Es|].
    apply (no_lost_wakeup safe_build "t.c" 7 0 0 (-9) (new_of safe_build).1 (new_of safe_build).2 0 Broadcasts [consumer; late_consumer; producer] s);
      [reflexivity|reflexivity|exact handoff_fits|]. exact (mon_run_rtc _ _ _ E).
  - destruct signal_ends as (s & E & Es). exists s. split; [exact E|]. split; [exact Es|].
    apply (no_lost_wakeup safe_build "t.c" 7 0 0 (-9) (new_of safe_build).1 (new_of safe_build).2 0 (Signals 0%nat) [only_consumer; signaller] s);
      [reflexivity|reflexivity|exact signal_fits|]. exact (mon_run_rtc _ _ _ E).
Defined.
