(* ===== verification/InstrumentedMonitors.v ===== *)
(** * Clients of instrumented conditions (mysql/psi/mysql_thread.h over my_pthread.h)

    The threads of MonitorClients.v with the macros [mysql_mutex_lock], [mysql_mutex_unlock], [mysql_cond_wait],
    [mysql_cond_timedwait], [mysql_cond_signal] and [mysql_cond_broadcast]: they run the programs of Thread.v on a mutex
    and a condition of Conditions.v, under any interleaving of their calls.  No wakeup is lost in any
    configuration, whatever the server of the interface answers. *)
From S2P Require Import Prelude Locks Conditions MonitorClients Psi Effects Thread InstrumentedLocks.

#[local] Arguments asks : simpl never.
#[local] Arguments answers : simpl never.

(** ** Clients *)

Section Clients.
Context {U : Type} (mp cp : Z) (place : mprog U -> srcloc) (timespec_of : Z -> Z).

(** The operation that the code of a thread begins with, on the mutex at [mp] and the condition at [cp], a deadline [d] in the
    structure at [timespec_of d], and how the code goes on with its result. *)
Definition operation (q : mprog U) : option thread_op :=
  match q with
  | MEnd | MAct _ _ => None
  | MLock _ => Some (MutexLock mp)
  | MUnlock _ => Some (MutexUnlock mp)
  | MWait _ _ => Some (CondWait cp mp)
  | MTimed d _ _ _ => Some (CondTimedwait cp mp (timespec_of d))
  | MSignal _ => Some (CondSignal cp)
  | MBroadcast _ => Some (CondBroadcast cp)
  end.
Definition next (q : mprog U) (r : Z) : mprog U :=
  match q with
  | MLock k | MUnlock k | MSignal k | MBroadcast k => k
  | MTimed _ _ _ late => if r =? 0 then q else late
  | MEnd | MAct _ _ | MWait _ _ => q
  end.
(** Behind the loop of a wait. *)
Definition past (q : mprog U) : mprog U := match q with MWait _ k | MTimed _ _ k _ => k | _ => q end.

(** A thread is between two operations, in a macro (with what is left of it), or between the two actions of the
    wait that its macro has called. *)
Inductive ithread :=
  | At (q : mprog U)
  | Inside (q : mprog U) (p : prog Z)
  | Asleep (q : mprog U) (c : sys_call) (k : Z -> prog Z).

Section Machine.
Context `{CondSystem} (b : cond_build) (cfg : config).
(** The string and the time at an address, and the place of a call in mysql_thread.h. *)
Context (text : Z -> string) (instant : Z -> Z) (header : sys_call -> string * Z).

(** What a system call does to the monitor, the two actions of a wait apart. *)
Definition monitor_call (c : sys_call) : option (op monitor_obj) :=
  let (f, n) := header c in
  match c with
  | safe_mutex_lock m try_lock sf sn =>
      if m =? mp then Some (on_monitor_mutex (fun t A =>
        match A with
        | SafeMutexObj A => '(r, A) ← Locks.safe_mutex_lock try_lock (text sf) sn t A; Some (r, SafeMutexObj A)
        | _ => None
        end)) else None
  | safe_mutex_unlock m sf sn =>
      if m =? mp then Some (on_monitor_mutex (fun t A =>
        match A with
        | SafeMutexObj A => '(r, A) ← Locks.safe_mutex_unlock (text sf) sn t A; Some (r, SafeMutexObj A)
        | _ => None
        end)) else None
  | pthread_mutex_lock m => if m =? mp then Some (on_monitor_mutex (Locks.pthread_mutex_lock f n)) else None
  | pthread_mutex_unlock m => if m =? mp then Some (on_monitor_mutex (Locks.pthread_mutex_unlock f n)) else None
  | pthread_cond_signal c => if c =? cp then Some (fun _ m => Some (on_cond sys_cond_signal win_cond_signal m)) else None
  | pthread_cond_broadcast c => if c =? cp then Some (fun _ m => Some (on_cond sys_cond_broadcast win_cond_broadcast m)) else None
  | _ => None
  end.
Definition wait_call (c : sys_call) : option ((tid -> monitor_obj -> option monitor_obj) * op monitor_obj) :=
  let (f, n) := header c in
  match c with
  | pthread_cond_wait c m => if (c =? cp) && (m =? mp) then Some (pthread_cond_wait_begin f n, pthread_cond_wait_end f n) else None
  | pthread_cond_timedwait c m d =>
      if (c =? cp) && (m =? mp) then Some (pthread_cond_timedwait_begin b f n (instant d), pthread_cond_timedwait_end b f n (instant d)) else None
  | _ => None
  end.

Record istate := { i_mon : monitor_obj; i_shared : U; i_clock : Z; i_heap : heap; i_threads : list ithread }.

(** A step of what the thread [t] has to do: the monitor, the data and the structures before and after. *)
Inductive tstep (t : tid) : monitor_obj -> U -> heap -> ithread -> list event -> monitor_obj -> U -> heap -> ithread -> Prop :=
| t_begin m u h q op : operation q = Some op -> (forall pred, awaits q = Some pred -> pred u = false) ->
    tstep t m u h (At q) [] m u h (Inside q (thread_prog cfg (place q) op))
| t_past m u h q pred : awaits q = Some pred -> pred u = true -> tstep t m u h (At q) [] m u h (At (past q))
| t_act m u h f k : tstep t m u h (At (MAct f k)) [] m (f u) h (At k)
| t_psi m u h q c k x : tstep t m u h (Inside q (Call (CPsi c) k)) [EPsi c x] m u h (Inside q (k x))
| t_load m u h q p fl k v : load_field p fl h = Some v -> tstep t m u h (Inside q (Load p fl k)) [] m u h (Inside q (k v))
| t_store m u h q p fl v k h' : store_field p fl v h = Some h' -> tstep t m u h (Inside q (Store p fl v k)) [] m u h' (Inside q k)
| t_sys m u h q c k f r m' : monitor_call c = Some f -> f t m = Some (r, m') ->
    tstep t m u h (Inside q (Call (CSys c) k)) [ESys c r] m' u h (Inside q (k r))
| t_sleep m u h q c k bg en m' : wait_call c = Some (bg, en) -> bg t m = Some m' ->
    tstep t m u h (Inside q (Call (CSys c) k)) [] m' u h (Asleep q c k)
| t_return m u h q c k bg en r m' : wait_call c = Some (bg, en) -> en t m = Some (r, m') ->
    tstep t m u h (Asleep q c k) [ESys c r] m' u h (Inside q (k r))
| t_next m u h q r : tstep t m u h (Inside q (Ret r)) [] m u h (At (next q r)).

(** A step of a thread, with its events; or time passes, threads whose time is over wake, or threads wake for no reason. *)
#[local] Abbreviation state m u c h ts := {| i_mon := m; i_shared := u; i_clock := c; i_heap := h; i_threads := ts |}.
Inductive istep : istate -> list (tid * event) -> istate -> Prop :=
| i_thread t m u c h ts th evs m' u' h' th' : ts !! t = Some th -> tstep t m u h th evs m' u' h' th' ->
    istep (state m u c h ts) (pair t <$> evs) (state m' u' c h' (<[t := th']> ts))
| i_time m u c h ts c' : c <= c' -> istep (state m u c h ts) [] (state m u c' h ts)
| i_expire m u c h ts :
    istep (state m u c h ts) [] (state (expire (Monitor := monitor_obj_monitor b EmptyString 0) c m) u c h ts)
| i_tick m u c h ts m' : tick (Monitor := monitor_obj_monitor b EmptyString 0) m m' ->
    istep (state m u c h ts) [] (state m' u c h ts).
Inductive irun : istate -> list (tid * event) -> istate -> Prop :=
| irun_refl s : irun s [] s
| irun_step s tr s' evs s'' : irun s tr s' -> istep s' evs s'' -> irun s (tr ++ evs) s''.

Definition can_go (s : istate) : Prop := exists t th evs m' u' h' th', i_threads s !! t = Some th /\
  tstep t (i_mon s) (i_shared s) (i_heap s) th evs m' u' h' th'.

(** The mutex is what the configuration says. *)
Definition monitor_built (m : monitor_obj) : bool :=
  match m with SafeMonitor _ _ => safe_mutex cfg | _ => negb (safe_mutex cfg) end.
End Machine.
End Clients.
Arguments ithread : clear implicits.
Arguments istate U {_}.

(** ** The calls of a macro are the actions of the plain client *)

Section Calls.
Context {U : Type} (mp cp : Z) (place : mprog U -> srcloc) (timespec_of : Z -> Z) `{CondSystem} (b : cond_build) (cfg : config).
Context (text : Z -> string) (instant : Z -> Z) (instant_of : forall d, instant (timespec_of d) = d) (header : sys_call -> string * Z).
#[local] Abbreviation call_of q op := (thread_sys (safe_mutex cfg) (place q) op).
#[local] Abbreviation exec F N := (mexec (H := monitor_obj_monitor b F N)).

(** The operations keep the build of the monitor. *)
Lemma on_monitor_mutex_built o t m r m' : on_monitor_mutex o t m = Some (r, m') -> monitor_built cfg m' = monitor_built cfg m.
Proof. destruct m; cbn; destruct (o t _) as [[r1 [M|M|M|M]]|]; intros; by simplify_eq/=. Qed.
Lemma on_cond_built posix win m r m' : on_cond posix win m = (r, m') -> monitor_built cfg m' = monitor_built cfg m.
Proof. destruct m; cbn; [destruct (win A)|destruct (posix A)..]; intros; by simplify_eq. Qed.
Lemma wait_begin_built f n t m m' : pthread_cond_wait_begin f n t m = Some m' -> monitor_built cfg m' = monitor_built cfg m.
Proof.
  destruct m as [A B|A B|A B|A B]; cbn;
    [destruct (win_wait_begin t A B) as [[]|]|destruct (safe_wait_begin f n t A B) as [[]|]|destruct (sys_wait_begin t A _) as [[]|]..];
    intros; by simplify_eq/=.
Qed.
Lemma wait_end_built f n t m r m' : pthread_cond_wait_end f n t m = Some (r, m') -> monitor_built cfg m' = monitor_built cfg m.
Proof.
  destruct m as [A B|A B|A B|A B]; cbn;
    [destruct (win_wait_end t A B) as [[[]]|]|destruct (safe_wait_end f n t A B) as [[[]]|]|destruct (sys_wait_end t A _) as [[[]]|]..];
    intros; by simplify_eq/=.
Qed.
Lemma timedwait_begin_built f n d t m m' : pthread_cond_timedwait_begin b f n d t m = Some m' -> monitor_built cfg m' = monitor_built cfg m.
Proof.
  destruct m as [A B|A B|A B|A B]; cbn;
    [destruct (win_timedwait_begin d t A B) as [[]|]|destruct (safe_timedwait_begin d f n t A B) as [[]|]
    |destruct (sys_timedwait_begin d t A _) as [[]|]|destruct (native_timedwait_begin b d t A B) as [[]|]];
    intros; by simplify_eq/=.
Qed.
Lemma timedwait_end_built f n d t m r m' : pthread_cond_timedwait_end b f n d t m = Some (r, m') -> monitor_built cfg m' = monitor_built cfg m.
Proof.
  destruct m as [A B|A B|A B|A B]; cbn;
    [destruct (win_timedwait_end d t A B) as [[[]]|]|destruct (safe_timedwait_end d f n t A B) as [[[]]|]
    |destruct (sys_timedwait_end d t A _) as [[[]]|]|destruct (native_timedwait_end b d t A B) as [[[]]|]];
    intros; by simplify_eq/=.
Qed.

(** A call other than a wait. *)
Lemma operation_call (q : mprog U) op m : operation mp cp timespec_of q = Some op -> awaits q = None -> monitor_built cfg m ->
  exists f F N, monitor_call mp cp text header (call_of q op) = Some f
    /\ (forall t u, exec F N t m u (Running q) = ('(r, m') ← f t m; Some (m', u, Running (next q r))))
    /\ forall t r m', f t m = Some (r, m') -> monitor_built cfg m' = monitor_built cfg m.
Proof.
  unfold thread_sys, monitor_call. destruct q as [|k|k|g k|pred k|d pred k late|k|k]; try done; intros [= <-] _ Hb;
    destruct (place _) as [pf pn].
  1, 2: unfold monitor_built in Hb; destruct (safe_mutex cfg) eqn:Hs;
    (match goal with |- context [header ?c] => destruct (header c) as [hf hn] end); rewrite Z.eqb_refl;
    (eexists _, _, _; split; [done|]); (split; [|intros t r m'; apply on_monitor_mutex_built]).
  1, 3: by intros t u; instantiate (1 := pn); instantiate (1 := text pf); destruct m.
  1, 2: by intros t u; instantiate (1 := hn); instantiate (1 := hf).
  all: (match goal with |- context [header ?c] => destruct (header c) as [hf hn] end); rewrite Z.eqb_refl;
    eexists _, hf, hn; (split; [done|]); (split; [intros t u; cbn; by destruct (on_cond _ _ m)|]);
    intros t r m' [= E]; by eapply on_cond_built.
Qed.

(** A wait. *)
Lemma operation_wait (q : mprog U) op pred : operation mp cp timespec_of q = Some op -> awaits q = Some pred ->
  exists bg en F N, wait_call mp cp b instant header (call_of q op) = Some (bg, en)
    /\ (forall t m u, pred u = false -> exec F N t m u (Running q) = (m' ← bg t m; Some (m', u, Sleeping q)))
    /\ (forall t m u, exec F N t m u (Sleeping q) = ('(r, m') ← en t m; Some (m', u, Running (next q r))))
    /\ (forall t m m', bg t m = Some m' -> monitor_built cfg m' = monitor_built cfg m)
    /\ forall t m r m', en t m = Some (r, m') -> monitor_built cfg m' = monitor_built cfg m.
Proof.
  unfold thread_sys, wait_call. destruct q as [|k|k|g k|pr k|d pr k late|k|k]; try done; intros [= <-] [= ->]; destruct (place _) as [pf pn];
    (match goal with |- context [header ?c] => destruct (header c) as [hf hn] end); rewrite !Z.eqb_refl;
    eexists _, _, hf, hn; (split; [done|]).
  - split_and!; [by intros t m u Hu; cbn; rewrite Hu|done|intros t m m'; apply wait_begin_built|intros t m r m'; apply wait_end_built].
  - rewrite instant_of.
    split_and!; [by intros t m u Hu; cbn; rewrite Hu|done|intros t m m'; apply timedwait_begin_built|intros t m r m'; apply timedwait_end_built].
Qed.
End Calls.

(** ** The machine and the plain clients *)

Section Machines.
Context {U : Type} (mp cp : Z) (place : mprog U -> srcloc) (timespec_of : Z -> Z) `{CondLaws} `{!SystemLaws} (b : cond_build) (cfg : config).
Context (text : Z -> string) (instant : Z -> Z) (instant_of : forall d, instant (timespec_of d) = d).
Context (header : sys_call -> string * Z) (h : heap) (rule : waking).
Context (mutex_hook : is_Some (load_field mp m_psi h)) (cond_hook : is_Some (load_field cp m_psi h)).
#[local] Abbreviation operation := (operation mp cp timespec_of).
#[local] Abbreviation call_of q op := (thread_sys (safe_mutex cfg) (place q) op).
#[local] Abbreviation exec F N := (mexec (H := monitor_obj_monitor b F N)).
#[local] Abbreviation plain := (cinv (H := monitor_obj_monitor b EmptyString 0) rule).
#[local] Abbreviation plain_state m u c ms := ({| mon := m; shared := u; clock := c; mthreads := ms |} : mstate U monitor_obj).
#[local] Abbreviation tstep := (tstep mp cp place timespec_of b cfg text instant header).
#[local] Abbreviation istep := (istep mp cp place timespec_of b cfg text instant header).
#[local] Abbreviation irun := (irun mp cp place timespec_of b cfg text instant header).

(** The invariant does not depend on the place that a checked mutex is told. *)
Lemma cinv_place F N F' N' m u ts d : cinv (U := U) (H := monitor_obj_monitor b F N) rule m u ts d -> cinv (H := monitor_obj_monitor b F' N') rule m u ts d.
Proof. intros []. by constructor. Qed.

(** [stands u th mth ph]: a thread of the machine is [mth] without the macros, and its events have led the protocol to
    [ph].  Before its call it is where it began, behind it where it goes on. *)
Inductive stands (u : U) : ithread U -> mthread U -> phase -> Prop :=
| stands_at q : stands u (At q) (Running q) Idle
| stands_before q op n ph p : operation q = Some op -> asks h n ph (call_of q op) p ->
    (forall pred, awaits q = Some pred -> pred u = false) -> stands u (Inside q p) (Running q) ph
| stands_behind q n ph r p : answers h n ph r p -> stands u (Inside q p) (Running (next q r)) ph
| stands_asleep q op n ph k : operation q = Some op -> awaits q <> None ->
    (forall r, match monitor ph (ESys (call_of q op) r) with Some ph' => answers h n ph' r (k r) | None => False end) ->
    stands u (Asleep q (call_of q op) k) (Sleeping q) ph.

Lemma operation_asks q op : operation q = Some op -> asks h 8 Idle (call_of q op) (thread_prog cfg (place q) op).
Proof. destruct q; try done; intros [= <-]; apply thread_prog_asks; unfold thread_ready; by split || done. Qed.

Lemma monitor_all_one ph e : monitor_all ph [e] = monitor ph e.
Proof. cbn. by destruct (monitor ph e). Qed.

(** A step of a thread is no step without the macros, or one. *)
Lemma tstep_stands t m u hp th evs m' u' h' th' mth ph : stands u th mth ph -> monitor_built cfg m ->
  tstep t m u hp th evs m' u' h' th' -> hp = h -> h' = h /\ monitor_built cfg m' = monitor_built cfg m /\ exists ph', monitor_all ph evs = Some ph' /\
    (m' = m /\ u' = u /\ stands u th' mth ph'
     \/ exists F N mth', exec F N t m u mth = Some (m', u', mth') /\ stands u' th' mth' ph').
Proof.
  intros Hs Hb Ht. destruct Ht as [m u h0 q op Hop Hp|m u h0 q pred Hq Hp|m u h0 g k|m u h0 q c k x|m u h0 q p fl k v Hl|m u h0 q p fl v k h' Hst
    |m u h0 q c k f r m' Hc Hf|m u h0 q c k bg en m' Hc Hf|m u h0 q c k bg en r m' Hc Hf|m u h0 q r];
    intros ->.
  - inversion Hs; subst. split_and!; [done..|]. exists Idle. split; [done|]. left. split_and!; [done..|].
    eapply stands_before; [done|by apply operation_asks|done].
  - inversion Hs; subst. split_and!; [done..|]. exists Idle. split; [done|]. right. exists EmptyString, 0, (Running (past q)).
    split; [|constructor]. destruct q; try done; injection Hq as ->; cbn; by rewrite Hp.
  - inversion Hs; subst. split_and!; [done..|]. exists Idle. split; [done|]. right. exists EmptyString, 0, (Running k). split; [done|constructor].
  - split_and!; [done..|]. setoid_rewrite monitor_all_one. inversion Hs as [|? op n ? ? Hop Ha Hp|? n ? r ? Ha|]; subst; destruct n as [|n]; try (by destruct Ha);
      specialize (Ha x); destruct (monitor ph (EPsi c x)) as [ph'|]; try done; exists ph'; (split; [done|]); left; split_and!; try done;
      [by eapply stands_before|by eapply stands_behind].
  - split_and!; [done..|]. exists ph. split; [done|]. left. split_and!; [done..|].
    inversion Hs as [|? op n ? ? Hop Ha Hp|? n ? r ? Ha|]; subst; destruct n as [|n]; try (by destruct Ha);
      unfold asks, answers in Ha; fold asks answers in Ha; rewrite Hl in Ha; [by eapply stands_before|by eapply stands_behind].
  - exfalso. by inversion Hs as [|? op n ? ? Hop Ha Hp|? n ? r ? Ha|]; subst; destruct n; destruct Ha.
  - inversion Hs as [|? op n ? ? Hop Ha Hp|? n ? r0 ? Ha|]; subst; destruct n as [|n]; try (by destruct Ha). destruct Ha as [-> Ha]. specialize (Ha r).
    destruct (awaits q) as [pred|] eqn:Eq.
    + exfalso. destruct q; try done; injection Hop as <-; unfold thread_sys, monitor_call in Hc; destruct (place _), (header _); done.
    + destruct (operation_call mp cp place timespec_of b cfg text header q op m Hop Eq Hb) as (f' & F & N & Hc' & He & Hbu). rewrite Hc in Hc'. injection Hc' as <-.
      split_and!; [done|by eapply Hbu|]. setoid_rewrite monitor_all_one. destruct (monitor ph _) as [ph'|]; [|done]. exists ph'. split; [done|]. right.
      exists F, N, (Running (next q r)). rewrite He, Hf. split; [done|by eapply stands_behind].
  - inversion Hs as [|? op n ? ? Hop Ha Hp|? n ? r0 ? Ha|]; subst; destruct n as [|n]; try (by destruct Ha). destruct Ha as [-> Ha].
    destruct (awaits q) as [pred|] eqn:Eq.
    + destruct (operation_wait mp cp place timespec_of b cfg instant instant_of header q op pred Hop Eq) as (bg' & en' & F & N & Hc' & He & _ & Hbu & _).
      rewrite Hc in Hc'. injection Hc' as <- <-. split_and!; [done|by eapply Hbu|]. exists ph. split; [done|]. right.
      exists F, N, (Sleeping q). rewrite He, Hf by by apply Hp. split; [done|]. eapply stands_asleep; [done|by rewrite Eq|done].
    + exfalso. destruct q; try done; injection Hop as <-; unfold thread_sys, wait_call in Hc; destruct (place _), (safe_mutex cfg), (header _); done.
  - inversion Hs as [| | |? op n ? ? Hop Hq Ha]; subst. destruct (awaits q) as [pred|] eqn:Eq; [|done].
    destruct (operation_wait mp cp place timespec_of b cfg instant instant_of header q op pred Hop Eq) as (bg' & en' & F & N & Hc' & _ & He & _ & Hbu).
    rewrite Hc in Hc'. injection Hc' as <- <-. split_and!; [done|by eapply Hbu|]. specialize (Ha r). setoid_rewrite monitor_all_one.
    destruct (monitor ph _) as [ph'|]; [|done]. exists ph'. split; [done|]. right.
    exists F, N, (Running (next q r)). rewrite He, Hf. split; [done|by eapply stands_behind].
  - inversion Hs as [|? op n ? ? Hop Ha Hp|? n ? r0 ? Ha|]; subst; [by destruct n|]. split_and!; [done..|].
    assert (r = r0 /\ ph = Idle) as [-> ->] by by destruct n. exists Idle. split; [done|]. left. split_and!; [done..|constructor].
Qed.

(** ** The invariant *)

Record iinv (s : istate U) (ms : list (mthread U)) (tr : list (tid * event)) : Prop := {
  ii_plain : exists d, plain (i_mon s) (i_shared s) ms d;
  ii_heap : i_heap s = h;
  ii_built : monitor_built cfg (i_mon s);
  ii_length : length ms = length (i_threads s);
  ii_stands t th : i_threads s !! t = Some th -> exists mth ph, ms !! t = Some mth /\ stands (i_shared s) th mth ph
    /\ monitor_all Idle (events_of t tr) = Some ph }.

Lemma events_of_pair t v (evs : list event) : events_of v (pair t <$> evs) = if decide (t = v) then evs else [].
Proof.
  induction evs as [|e evs IH]; cbn; [by destruct (decide (t = v))|]. unfold events_of in *. cbn. rewrite IH. by destruct (decide (t = v)).
Qed.

(** What a thread stands for does not change when the data do not, or do for a thread that does not wait. *)
Lemma stands_data u u' th mth ph : stands u th mth ph ->
  ((exists q : mprog U, mth = Running q /\ awaits q <> None) -> u' = u) -> stands u' th mth ph.
Proof.
  intros Hs Hu. destruct Hs as [q|q op n ph p Hop Ha Hp|q n ph r p Ha|q op n ph k Hop Hq Ha]; econstructor; try done.
  intros pred Hq. rewrite Hu; [by apply Hp|]. exists q. by rewrite Hq.
Qed.

Lemma plain_wait_owns m (u : U) (ms : list (mthread U)) d t (q : mprog U) : plain m u ms d -> ms !! t = Some (Running q) ->
  awaits q <> None -> owner (Monitor := monitor_obj_monitor b EmptyString 0) m = Some t.
Proof. intros Hp Hq Ha. refine (cinv_owns (H := monitor_obj_monitor b EmptyString 0) rule (plain_state m u 0 ms) d t q Hp Hq _). intros d'. destruct q; try done; by intros [? _]. Qed.

(** The step of a thread with or without a plain one, seen by the others. *)
Lemma iinv_update m (u : U) c ts (ms : list (mthread U)) tr t evs m' u' th' mth' ph ph' :
  iinv {| i_mon := m; i_shared := u; i_clock := c; i_heap := h; i_threads := ts |} ms tr -> is_Some (ts !! t) ->
  monitor_all Idle (events_of t tr) = Some ph -> monitor_all ph evs = Some ph' -> stands u' th' mth' ph' ->
  (exists d, plain m' u' (<[t := mth']> ms) d) -> monitor_built cfg m' ->
  (forall v (q : mprog U), v <> t -> ms !! v = Some (Running q) -> awaits q <> None -> u' = u) ->
  iinv {| i_mon := m'; i_shared := u'; i_clock := c; i_heap := h; i_threads := <[t := th']> ts |} (<[t := mth']> ms) (tr ++ (pair t <$> evs)).
Proof.
  intros [_ _ _ Hl Hs] Ht Hph Hevs Hst Hp Hb Hother. cbn in *. assert (is_Some (ms !! t)) as Htm by (by rewrite lookup_lt_is_Some, Hl, <- lookup_lt_is_Some).
  constructor; cbn; try done; [by rewrite !length_insert|].
  intros v th Hv. rewrite events_of_app, events_of_pair, monitor_all_app. destruct (decide (t = v)) as [->|Hne].
  - rewrite list_lookup_insert_eq in Hv by (by apply lookup_lt_is_Some). injection Hv as <-. exists mth', ph'.
    rewrite list_lookup_insert_eq by (by apply lookup_lt_is_Some). by rewrite Hph.
  - rewrite list_lookup_insert_ne in Hv by done. destruct (Hs v th Hv) as (mth & phv & Hm & Hsv & Hphv). exists mth, phv.
    split_and!; [by rewrite list_lookup_insert_ne| |by rewrite Hphv]. eapply stands_data; [done|]. intros (q & -> & Hq). eapply Hother; [|done..]. by apply not_eq_sym.
Qed.

Lemma istep_inv s ms tr evs s' : iinv s ms tr -> istep s evs s' -> exists ms', iinv s' ms' (tr ++ evs).
Proof.
  intros Hi Hs. pose proof Hi as [[d Hp] Hh Hb Hl Hst]. destruct Hs as [t m u c hp ts th evs m' u' h' th' Hth Ht|m u c hp ts c' Hc|m u c hp ts|m u c hp ts m' Htick]; cbn in *.
  - destruct (Hst t th Hth) as (mth & ph & Hm & Hsd & Hph).
    destruct (tstep_stands t m u hp th evs m' u' h' th' mth ph Hsd Hb Ht Hh) as (-> & Hb' & ph' & Hph' & Hcase). subst hp.
    destruct Hcase as [(-> & -> & Hsd')|(F & N & mth' & He & Hsd')].
    + exists (<[t := mth]> ms). eapply iinv_update; try done. exists d. by rewrite list_insert_id.
    + exists (<[t := mth']> ms). pose proof (cinv_place _ _ F N _ _ _ _ Hp) as Hp'. pose proof (monitor_obj_laws b F N) as L.
      eapply iinv_update; try done; [|by rewrite Hb'|].
      * destruct (mexec_keeps (H := monitor_obj_monitor b F N) rule m u ms t mth m' u' mth' d Hp' Hm He) as [d' Hd']. exists d'. by eapply cinv_place.
      * intros v q Hne Hq Ha. pose proof (plain_wait_owns _ _ _ _ _ _ Hp Hq Ha) as Hown.
        by destruct (owner_kept (H := monitor_obj_monitor b F N) rule m u ms d v t mth m' u' mth' Hp' Hm He (not_eq_sym Hne) Hown).
  - exists ms. rewrite app_nil_r. constructor; cbn; try done. by exists d.
  - exists ms. rewrite app_nil_r. pose proof (monitor_obj_laws b EmptyString 0) as L. constructor; cbn; try done.
    + exists d. destruct (expire_law (H := monitor_obj_monitor b EmptyString 0) c m (cinv_ok _ _ _ _ _ Hp)) as (W & HW & _).
      by eapply cinv_wakes.
    + by rewrite (on_cond_built cfg _ _ m _ _ (surjective_pairing _)).
  - exists ms. rewrite app_nil_r. pose proof (monitor_obj_laws b EmptyString 0) as L. constructor; cbn; try done.
    + exists d. destruct (tick_law (H := monitor_obj_monitor b EmptyString 0) m m' (cinv_ok _ _ _ _ _ Hp) Htick) as (W & HW).
      by eapply cinv_wakes.
    + destruct m, m'; done.
Qed.

Lemma irun_inv s ms tr s' : irun s tr s' -> iinv s ms [] -> exists ms', iinv s' ms' tr.
Proof. intros Hr Hi. induction Hr as [s|s tr s1 evs s2 _ IH Hs]; [by exists ms|]. destruct (IH Hi) as [ms1 Hms]. by eapply istep_inv. Qed.

(** ** Progress *)

Lemma answers_go t m u q n ph r p : answers h n ph r p -> exists evs m' u' h' th', tstep t m u h (Inside q p) evs m' u' h' th'.
Proof.
  intros Ha. destruct p as [a| |[c|c] k|? ?|x fl k|? ? ? ?]; try (by destruct n).
  - do 5 eexists. apply t_next.
  - do 5 eexists. by apply t_psi with (x := 0).
  - destruct n as [|n]; [done|]. unfold answers in Ha; fold answers in Ha. destruct (load_field x fl h) as [v|] eqn:E; [|done].
    do 5 eexists. by apply t_load.
Qed.

(** A thread whose plain counterpart can go on, wherever its calls are, goes on. *)
Lemma stands_goes t m u th mth ph : stands u th mth ph -> monitor_built cfg m -> (forall F N, exec F N t m u mth <> None) ->
  exists evs m' u' h' th', tstep t m u h th evs m' u' h' th'.
Proof.
  intros Hs Hb Hgo. destruct Hs as [q|q op n ph p Hop Ha Hp|q n ph r p Ha|q op n ph k Hop Hq Ha].
  - destruct (awaits q) as [pred|] eqn:Eq.
    + destruct (pred u) eqn:Ep; [do 5 eexists; by eapply t_past|].
      destruct q as [|k|k|g k|pr k|d pr k late|k|k]; try done; injection Eq as <-; do 5 eexists; apply t_begin; (done || intros ? [= <-]; done).
    + destruct q as [|k|k|g k|pr k|d pr k late|k|k]; try done; try (do 5 eexists; by apply t_begin); [|do 5 eexists; apply t_act].
      by destruct (Hgo EmptyString 0).
  - destruct p as [a| |[c|c] k|? ?|x fl k|? ? ? ?], n as [|n]; try (by destruct Ha).
    + do 5 eexists. by apply t_psi with (x := 0).
    + destruct Ha as [-> _]. destruct (awaits q) as [pred|] eqn:Eq.
      * destruct (operation_wait mp cp place timespec_of b cfg instant instant_of header q op pred Hop Eq) as (bg & en & F & N & Hc & He & _).
        specialize (Hgo F N). rewrite He in Hgo by by apply Hp. destruct (bg t m) as [m'|] eqn:Em; [|done].
        do 5 eexists. by eapply t_sleep.
      * destruct (operation_call mp cp place timespec_of b cfg text header q op m Hop Eq Hb) as (f & F & N & Hc & He & _).
        specialize (Hgo F N). rewrite He in Hgo. destruct (f t m) as [[r m']|] eqn:Em; [|done]. do 5 eexists. by eapply t_sys.
    + unfold asks in Ha; fold asks in Ha. destruct (load_field x fl h) as [v|] eqn:E; [|done]. do 5 eexists. by apply t_load.
  - by eapply answers_go.
  - destruct (awaits q) as [pred|] eqn:Eq; [|done].
    destruct (operation_wait mp cp place timespec_of b cfg instant instant_of header q op pred Hop Eq) as (bg & en & F & N & Hc & _ & He & _).
    specialize (Hgo F N). rewrite He in Hgo. destruct (en t m) as [[r m']|] eqn:Em; [|done]. do 5 eexists. by eapply t_return.
Qed.

(** No thread can make a step. *)
Section Stuck.
Context (s : istate U) (ms : list (mthread U)) (tr : list (tid * event)) (inv : iinv s ms tr).
Context (stuck : ~ can_go mp cp place timespec_of b cfg text instant header s).
#[local] Abbreviation owner_of m := (owner (Monitor := monitor_obj_monitor b EmptyString 0) m).

Lemma no_step t th evs m' u' h' th' : i_threads s !! t = Some th -> ~ tstep t (i_mon s) (i_shared s) h th evs m' u' h' th'.
Proof. intros Hth Ht. apply stuck. rewrite <- (ii_heap _ _ _ inv) in Ht. by exists t, th, evs, m', u', h', th'. Qed.

Lemma stuck_thread t th mth ph : i_threads s !! t = Some th -> stands (i_shared s) th mth ph ->
  ~ forall F N, exec F N t (i_mon s) (i_shared s) mth <> None.
Proof.
  intros Hth Hs Hgo. destruct (stands_goes _ _ _ _ _ _ Hs (ii_built _ _ _ inv) Hgo) as (evs & m' & u' & h' & th' & Ht).
  by apply (no_step t th evs m' u' h' th' Hth).
Qed.

Lemma stuck_no_owner : owner_of (i_mon s) = None.
Proof.
  destruct (owner_of (i_mon s)) as [v|] eqn:Ev; [exfalso|done]. destruct inv as [[d Hp] Hh Hb Hl Hst].
  destruct (cinv_owner _ _ _ _ _ Hp v Ev) as [mth Hm]. cbn in Hm.
  assert (is_Some (i_threads s !! v)) as [th Hth] by (apply lookup_lt_is_Some; rewrite <- Hl; by eapply lookup_lt_Some).
  destruct (Hst v th Hth) as (mth' & ph & Hm' & Hs & _). rewrite Hm in Hm'. injection Hm' as <-.
  apply (stuck_thread v th mth ph Hth Hs). intros F N. pose proof (monitor_obj_laws b F N) as L.
  exact (owner_goes_on (H := monitor_obj_monitor b F N) rule (plain_state (i_mon s) (i_shared s) 0 ms) d v mth (cinv_place _ _ F N _ _ _ _ Hp) Ev Hm).
Qed.

Lemma stuck_in_vain t th : i_threads s !! t = Some th ->
  th = At MEnd \/ exists q c k pred, th = Asleep q c k /\ awaits q = Some pred /\ pred (i_shared s) = false
    /\ asleep (Monitor := monitor_obj_monitor b EmptyString 0) (i_mon s) !! t = Some (due (H := monitor_obj_monitor b EmptyString 0) q).
Proof.
  intros Hth. pose proof stuck_no_owner as Hown. destruct inv as [[d Hp] Hh Hb Hl Hst].
  destruct (Hst t th Hth) as (mth & ph & Hm & Hs & _). pose proof (stuck_thread t th mth ph Hth Hs) as Hst'.
  assert (Hfree : forall F N, exec F N t (i_mon s) (i_shared s) mth <> None \/ mth = Running MEnd \/ exists q pred, mth = Sleeping q
    /\ asleep (Monitor := monitor_obj_monitor b F N) (i_mon s) !! t = Some (due (H := monitor_obj_monitor b F N) q)
    /\ awaits q = Some pred /\ pred (i_shared s) = false).
  { intros F N. pose proof (monitor_obj_laws b F N) as L.
    exact (free_goes_on (H := monitor_obj_monitor b F N) rule (plain_state (i_mon s) (i_shared s) 0 ms) d t mth (cinv_place _ _ F N _ _ _ _ Hp) Hown Hm). }
  assert (Hgo : mth = Running MEnd \/ exists q pred, mth = Sleeping q
    /\ asleep (Monitor := monitor_obj_monitor b EmptyString 0) (i_mon s) !! t = Some (due (H := monitor_obj_monitor b EmptyString 0) q)
    /\ awaits q = Some pred /\ pred (i_shared s) = false).
  { destruct mth as [q|q].
    - destruct q; (by left) || (exfalso; apply Hst'; intros F N; by destruct (Hfree F N) as [?|[[=]|(? & ? & [=] & _)]]).
    - right. destruct (awaits q) as [pr|] eqn:Eq.
      + destruct (decide (asleep (Monitor := monitor_obj_monitor b EmptyString 0) (i_mon s) !! t
          = Some (due (H := monitor_obj_monitor b EmptyString 0) q))) as [Ea|Ea]; [destruct (pr (i_shared s)) eqn:Eu; [|by exists q, pr]|].
        * exfalso. apply Hst'. intros F N. destruct (Hfree F N) as [?|[[=]|(? & ? & [= <-] & _ & E & ?)]]; [done|]. congruence.
        * exfalso. apply Hst'. intros F N. by destruct (Hfree F N) as [?|[[=]|(? & ? & [= <-] & E & _)]].
      + exfalso. apply Hst'. intros F N. destruct (Hfree F N) as [?|[[=]|(? & ? & [= <-] & _ & E & ?)]]; [done|]. congruence. }
  destruct Hs as [q|q op n ph p Hop Ha _|q n ph r p Ha|q op n ph k Hop Hq Ha].
  - destruct Hgo as [[= ->]|(q' & pr & [=] & _)]. by left.
  - destruct Hgo as [[= ->]|(q' & pr & [=] & _)]. done.
  - exfalso. destruct (answers_go t (i_mon s) (i_shared s) q n ph r p Ha) as (evs & m' & u' & h' & th' & Ht). by eapply no_step.
  - destruct Hgo as [[=]|(q' & pr & [= <-] & ? & ? & ?)]. right. by exists q, (call_of q op), k, pr.
Qed.
End Stuck.
End Machines.

(** ** Properties *)

(** The configuration of mysql_thread.h and the build of my_pthread.h agree on SAFE_MUTEX. *)
Definition build_agrees (b : cond_build) (cfg : config) : Prop :=
  safe_mutex cfg = match mutexes b with WithSafeMutex => true | _ => false end.

Section Properties.
Context {U : Type} (mp cp : Z) (place : mprog U -> srcloc) (timespec_of : Z -> Z) `{CondLaws} `{!SystemLaws} (b : cond_build) (cfg : config).
Context (text : Z -> string) (instant : Z -> Z) (instant_of : forall d, instant (timespec_of d) = d) (header : sys_call -> string * Z).
#[local] Abbreviation seen m := (owner (Monitor := monitor_obj_monitor b EmptyString 0) m).
#[local] Abbreviation sleep_of m := (asleep (Monitor := monitor_obj_monitor b EmptyString 0) m).
#[local] Abbreviation expired c m := (expire (Monitor := monitor_obj_monitor b EmptyString 0) c m).
#[local] Abbreviation due_of q := (due (H := monitor_obj_monitor b EmptyString 0) q).

Lemma init_built f n B B' M m : build_agrees b cfg -> Conditions.pthread_mutex_init b f n B = (0, M) ->
  Conditions.pthread_cond_init b B' M = (0, m) -> monitor_built cfg m.
Proof.
  unfold build_agrees, monitor_built, Conditions.pthread_mutex_init, Conditions.pthread_cond_init. intros ->.
  destruct (mutexes b); repeat (case_match; try done); intros; by simplify_eq.
Qed.

(** C6. In every configuration of mysql_thread.h and every build of my_pthread.h that agrees
    with it, let threads share data under an instrumented mutex and condition, whose hooks are set, with the [mysql_*]
    macros, and keep one of the two rules of MonitorClients.v ([all_fit]): they change and await the data with the mutex
    only, and announce every change before they unlock, by [mysql_cond_broadcast], or, if only one given thread ever
    waits, by [mysql_cond_signal].  Then, under every interleaving of their calls, whatever the server answers: the events of
    each thread obey the waiting protocol; a thread that is about to change the data or to decide on its wait has the mutex;
    while nobody has it, a thread that still sleeps in [mysql_cond_wait] or [mysql_cond_timedwait] waits for a predicate that
    does not hold; and when no thread can make a step, nobody has the mutex and every thread is at its end or sleeps for
    such a predicate, with a deadline that is still to come or without one. *)
Theorem instrumented_no_lost_wakeup (rule : waking) (f : string) (n B B' now : Z) (M : mutex_obj) (m : monitor_obj) (h : heap) (u : U)
    (ps : list (mprog U)) (tr : list (tid * event)) (s : istate U) :
  build_agrees b cfg -> Conditions.pthread_mutex_init b f n B = (0, M) -> Conditions.pthread_cond_init b B' M = (0, m) ->
  is_Some (load_field mp m_psi h) -> is_Some (load_field cp m_psi h) -> all_fit rule ps ->
  irun mp cp place timespec_of b cfg text instant header
    {| i_mon := m; i_shared := u; i_clock := now; i_heap := h; i_threads := At <$> ps |} tr s ->
  (forall t th, i_threads s !! t = Some th ->
     exists ph, monitor_all Idle (events_of t tr) = Some ph /\ forall q, th = At q -> ph = Idle)
  /\ (forall t q, i_threads s !! t = Some (At q) -> (exists g k, q = MAct g k) \/ awaits q <> None -> seen (i_mon s) = Some t)
  /\ (seen (i_mon s) = None -> forall t q c k, i_threads s !! t = Some (Asleep q c k) -> t ∈ dom (sleep_of (i_mon s)) ->
       exists pred, awaits q = Some pred /\ pred (i_shared s) = false)
  /\ (~ can_go mp cp place timespec_of b cfg text instant header s -> seen (i_mon s) = None /\
       forall t th, i_threads s !! t = Some th ->
         th = At MEnd \/ exists q c k pred, th = Asleep q c k /\ awaits q = Some pred /\ pred (i_shared s) = false
           /\ (sleep_of (expired (i_clock s) (i_mon s)) = sleep_of (i_mon s) -> forall d, due_of q = Some d -> i_clock s < d)).
Proof.
  intros Hag EM Em Hmp Hcp Hps Hr. destruct (new_monitor b f n B B' M m EM Em) as (Ho & Hown & Ha & Hw).
  assert (Hstart : iinv mp cp place timespec_of b cfg h rule
    {| i_mon := m; i_shared := u; i_clock := now; i_heap := h; i_threads := At <$> ps |} (Running <$> ps) []).
  { constructor; cbn; [|done|by eapply init_built|by rewrite !length_fmap|].
    - exists false. by apply (cinv_start (H := monitor_obj_monitor b EmptyString 0)).
    - intros t th Hth. apply list_lookup_fmap_Some in Hth as (q & -> & Hq). exists (Running q), Idle.
      split_and!; [by rewrite list_lookup_fmap, Hq|constructor|done]. }
  destruct (irun_inv mp cp place timespec_of b cfg text instant instant_of header h rule Hmp Hcp _ _ _ _ Hr Hstart) as [ms Hinv].
  pose proof Hinv as [[d Hp] Hh Hb Hl Hst]. pose proof (monitor_obj_laws b EmptyString 0) as L.
  pose (plain_s := {| mon := i_mon s; shared := i_shared s; clock := 0; mthreads := ms |}). split_and!.
  - intros t th Hth. destruct (Hst t th Hth) as (mth & ph & _ & Hs & Hph). exists ph. split; [done|]. intros q ->. by inversion Hs.
  - intros t q Hth Hq. destruct (Hst t _ Hth) as (mth & ph & Hm & Hs & _). inversion Hs; subst.
    refine (cinv_owns (H := monitor_obj_monitor b EmptyString 0) rule plain_s d t q Hp Hm _).
    intros d'. destruct Hq as [(g & k & ->)|Hq]; [by intros [? _]|]. destruct q; try done; by intros [? _].
  - intros Hfree t q c k Hth Hin. destruct (Hst t _ Hth) as (mth & ph & Hm & Hs & _). inversion Hs; subst.
    by apply (sleeps_in_vain (H := monitor_obj_monitor b EmptyString 0) rule plain_s d t q Hp).
  - intros Hno. split; [by eapply (stuck_no_owner mp cp place timespec_of b cfg text instant instant_of header h rule)|].
    intros t th Hth. destruct (stuck_in_vain mp cp place timespec_of b cfg text instant instant_of header h rule s ms tr Hinv Hno t th Hth)
      as [?|(q & c & k & pred & -> & Hq & Hu & Hd)]; [by left|]. right. exists q, c, k, pred. split_and!; try done.
    intros He d' Hd'. rewrite Hd' in Hd. by apply (not_late (H := monitor_obj_monitor b EmptyString 0) _ (i_mon s) t d' (cinv_ok _ _ _ _ _ Hp)).
Qed.
End Properties.

(** ** An execution

    The thread [t] makes steps until it has to wait or has made [n]; the server answers [v]. *)

Section Execution.
Context {U : Type} (mp cp : Z) (place : mprog U -> srcloc) (timespec_of : Z -> Z) `{CondSystem} (b : cond_build) (cfg : config).
Context (text : Z -> string) (instant : Z -> Z) (header : sys_call -> string * Z) (v : Z).

Definition tnext (t : tid) (m : monitor_obj) (u : U) (h : heap) (th : ithread U) :
    option (list event * (monitor_obj * U * heap * ithread U)) :=
  match th with
  | At (MAct f k) => Some ([], (m, f u, h, At k))
  | At q =>
      op ← operation mp cp timespec_of q;
      if (if awaits q is Some pred then pred u else false) then Some ([], (m, u, h, At (past q)))
      else Some ([], (m, u, h, Inside q (thread_prog cfg (place q) op)))
  | Inside q (Ret r) => Some ([], (m, u, h, At (next q r)))
  | Inside q (Call (CPsi c) k) => Some ([EPsi c v], (m, u, h, Inside q (k v)))
  | Inside q (Call (CSys c) k) =>
      match wait_call mp cp b instant header c with
      | Some (bg, _) => m' ← bg t m; Some ([], (m', u, h, Asleep q c k))
      | None => f ← monitor_call mp cp text header c; '(r, m') ← f t m; Some ([ESys c r], (m', u, h, Inside q (k r)))
      end
  | Inside q (Load p fl k) => x ← load_field p fl h; Some ([], (m, u, h, Inside q (k x)))
  | Inside q (Store p fl x k) => h' ← store_field p fl x h; Some ([], (m, u, h', Inside q k))
  | Inside q _ => None
  | Asleep q c k => '(_, en) ← wait_call mp cp b instant header c; '(r, m') ← en t m; Some ([ESys c r], (m', u, h, Inside q (k r)))
  end.

Fixpoint burst (n : nat) (t : tid) (s : istate U) : list (tid * event) * istate U :=
  match n with
  | O => ([], s)
  | S n =>
      match th ← i_threads s !! t; tnext t (i_mon s) (i_shared s) (i_heap s) th with
      | Some (evs, (m, u, h, th)) =>
          let (tr, s) := burst n t {| i_mon := m; i_shared := u; i_clock := i_clock s; i_heap := h; i_threads := <[t := th]> (i_threads s) |} in
          ((pair t <$> evs) ++ tr, s)
      | None => ([], s)
      end
  end.
Fixpoint bursts (n : nat) (ts : list tid) (s : istate U) : list (tid * event) * istate U :=
  match ts with
  | [] => ([], s)
  | t :: ts => let (tr, s) := burst n t s in let (tr', s) := bursts n ts s in (tr ++ tr', s)
  end.

#[local] Abbreviation irun := (irun mp cp place timespec_of b cfg text instant header).

Lemma tnext_step t m u h th evs m' u' h' th' : tnext t m u h th = Some (evs, (m', u', h', th')) ->
  tstep mp cp place timespec_of b cfg text instant header t m u h th evs m' u' h' th'.
Proof.
  destruct th as [q|q p|q c k]; cbn.
  - assert (Hop : (op ← operation mp cp timespec_of q; if (if awaits q is Some pred then pred u else false) then Some ([], (m, u, h, At (past q)))
        else Some ([], (m, u, h, Inside q (thread_prog cfg (place q) op)))) = Some (evs, (m', u', h', th')) ->
      tstep mp cp place timespec_of b cfg text instant header t m u h (At q) evs m' u' h' th').
    { destruct (operation mp cp timespec_of q) as [op|] eqn:Eop; [|done]. cbn. destruct (awaits q) as [pred|] eqn:Eq.
      - destruct (pred u) eqn:Ep; intros [= <- <- <- <- <-]; [by eapply t_past|]. apply t_begin; [done|]. rewrite Eq. by intros ? [= <-].
      - intros [= <- <- <- <- <-]. apply t_begin; [done|]. by rewrite Eq. }
    destruct q; try exact Hop. intros [= <- <- <- <- <-]. apply t_act.
  - destruct p as [r| |[c|c] k|? ?|x fl k|x fl y k]; try done.
    + intros [= <- <- <- <- <-]. apply t_next.
    + intros [= <- <- <- <- <-]. apply t_psi.
    + destruct (wait_call mp cp b instant header c) as [[bg en]|] eqn:Ew.
      * destruct (bg t m) as [m1|] eqn:E; [|done]. intros [= <- <- <- <- <-]. by eapply t_sleep.
      * destruct (monitor_call mp cp text header c) as [f|] eqn:Ec; [|done]. cbn. destruct (f t m) as [[r m1]|] eqn:E; [|done].
        intros [= <- <- <- <- <-]. by eapply t_sys.
    + destruct (load_field x fl h) as [y|] eqn:E; [|done]. intros [= <- <- <- <- <-]. by apply t_load.
    + destruct (store_field x fl y h) as [h1|] eqn:E; [|done]. intros [= <- <- <- <- <-]. by apply t_store.
  - destruct (wait_call mp cp b instant header c) as [[bg en]|] eqn:Ew; [|done]. cbn. destruct (en t m) as [[r m1]|] eqn:E; [|done].
    intros [= <- <- <- <- <-]. by eapply t_return.
Qed.

Lemma irun_trans s tr s' tr' s'' : irun s tr s' -> irun s' tr' s'' -> irun s (tr ++ tr') s''.
Proof.
  intros H1 Hr. induction Hr as [s'|s' tr' s1 evs s2 _ IH Hs]; [by rewrite app_nil_r|]. rewrite app_assoc.
  eapply irun_step; [by apply IH|done].
Qed.

Lemma burst_run n t : forall s tr s', burst n t s = (tr, s') -> irun s tr s'.
Proof.
  induction n as [|n IH]; intros s tr s'; cbn; [intros [= <- <-]; constructor|]. destruct s as [m u c h ts]; cbn.
  destruct (ts !! t) as [th|] eqn:Et; cbn; [|intros [= <- <-]; constructor].
  destruct (tnext t m u h th) as [[evs [[[m' u'] h'] th']]|] eqn:E; [|intros [= <- <-]; constructor].
  destruct (burst n t _) as [tr1 s1] eqn:Eb. intros [= <- <-]. eapply irun_trans; [|by apply (IH _ _ _ Eb)].
  apply (irun_step _ _ _ _ _ _ _ _ _ _ [] _ _ _ (irun_refl _ _ _ _ _ _ _ _ _ _)). eapply i_thread; [done|]. by apply tnext_step.
Qed.

Lemma bursts_run n ts : forall s tr s', bursts n ts s = (tr, s') -> irun s tr s'.
Proof.
  induction ts as [|t ts IH]; intros s tr s'; cbn; [intros [= <- <-]; constructor|]. destruct (burst n t s) as [tr1 s1] eqn:E1.
  destruct (bursts n ts s1) as [tr2 s2] eqn:E2. intros [= <- <-]. eapply irun_trans; [by eapply burst_run|by apply IH].
Qed.
End Execution.

(** The consumers and the producers of MonitorClients.v with a checked mutex and a server. *)
Definition monitor_heap : heap := {[ 1000 := {| o_psi := Some 21; o_file := None |}; 1064 := {| o_psi := Some 22; o_file := None |} ]}.
Definition monitor_config : config := {| have_psi := true; Effects.safe_mutex := true; PSI_server := 5 |}.
Definition monitor_place (q : mprog Z) : srcloc := match q with MLock _ => (1, 10) | MUnlock _ => (1, 20) | _ => (1, 15) end.
Definition monitor_start (ps : list (mprog Z)) : istate Z :=
  {| i_mon := (new_of safe_build).2; i_shared := 0; i_clock := -9; i_heap := monitor_heap; i_threads := At <$> ps |}.
Definition monitor_bursts (ps : list (mprog Z)) (ts : list tid) : list (tid * event) * istate Z :=
  bursts 1000 1064 monitor_place id safe_build monitor_config (fun _ => "t.c"%string) id (fun _ => ("mysql_thread.h"%string, 1)) 7 40 ts (monitor_start ps).

Lemma handoff_bursts : (fun x => (length x.1, i_shared x.2, i_threads x.2)) (monitor_bursts [consumer; late_consumer; producer] [0; 1; 2; 0; 1]%nat)
  = (32%nat, 0, [At MEnd; At MEnd; At MEnd]).
Proof. vm_compute. reflexivity. Qed.
Lemma signal_bursts : (fun x => (length x.1, i_shared x.2, i_threads x.2)) (monitor_bursts [only_consumer; signaller] [0; 1; 0]%nat)
  = (20%nat, 0, [At MEnd; At MEnd]).
Proof. vm_compute. reflexivity. Qed.

#[local] Abbreviation monitor_run := (irun 1000 1064 monitor_place id safe_build monitor_config (fun _ => "t.c"%string) id
  (fun _ => ("mysql_thread.h"%string, 1))).
#[local] Abbreviation can_go_on := (can_go 1000 1064 monitor_place id safe_build monitor_config (fun _ => "t.c"%string) id
  (fun _ => ("mysql_thread.h"%string, 1))).
Lemma bursts_exist ps ts n x fin : (fun x => (length x.1, i_shared x.2, i_threads x.2)) (monitor_bursts ps ts) = (n, x, fin) ->
  exists tr s, monitor_run (monitor_start ps) tr s /\ length tr = n /\ i_threads s = fin.
Proof.
  destruct (monitor_bursts ps ts) as [tr s] eqn:E. intros [= <- _ <-]. exists tr, s. split; [|done]. by eapply bursts_run.
Qed.
Lemma handoff_exists : exists tr s, monitor_run (monitor_start [consumer; late_consumer; producer]) tr s /\ length tr = 32%nat
  /\ i_threads s = [At MEnd; At MEnd; At MEnd].
Proof. exact (bursts_exist _ _ _ _ _ handoff_bursts). Qed.
Lemma signal_exists : exists tr s, monitor_run (monitor_start [only_consumer; signaller]) tr s /\ length tr = 20%nat
  /\ i_threads s = [At MEnd; At MEnd].
Proof. exact (bursts_exist _ _ _ _ _ signal_bursts). Qed.

Lemma instrumented_no_lost_wakeup_witness :
  (exists tr s, monitor_run (monitor_start [consumer; late_consumer; producer]) tr s
    /\ length tr = 32%nat /\ is_Some (monitor_all Idle (events_of 1%nat tr))
    /\ (~ can_go_on s -> owner (Monitor := monitor_obj_monitor safe_build EmptyString 0) (i_mon s) = None))
  /\ exists tr s, monitor_run (monitor_start [only_consumer; signaller]) tr s
    /\ length tr = 20%nat /\ is_Some (monitor_all Idle (events_of 0%nat tr))
    /\ (~ can_go_on s -> owner (Monitor := monitor_obj_monitor safe_build EmptyString 0) (i_mon s) = None).
Proof.
  split.
  - destruct handoff_exists as (tr & s & Hr & Hl & Ht). exists tr, s. split; [exact Hr|]. split; [exact Hl|].
    destruct (instrumented_no_lost_wakeup 1000 1064 monitor_place id safe_build monitor_config (fun _ => "t.c"%string) id (fun _ => eq_refl)
      (fun _ => ("mysql_thread.h"%string, 1)) Broadcasts "t.c" 7 0 0 (-9) (new_of safe_build).1 (new_of safe_build).2 monitor_heap 0
      [consumer; late_consumer; producer] tr s) as (Hm & _ & _ & Hs);
      [reflexivity|reflexivity|reflexivity|by eexists|by eexists|exact handoff_fits|exact Hr|].
    split; [|intros Hno; apply (Hs Hno)]. destruct (Hm 1%nat (At MEnd)) as (ph & Hph & _); [by rewrite Ht|]. by exists ph.
  - destruct signal_exists as (tr & s & Hr & Hl & Ht). exists tr, s. split; [exact Hr|]. split; [exact Hl|].
    destruct (instrumented_no_lost_wakeup 1000 1064 monitor_place id safe_build monitor_config (fun _ => "t.c"%string) id (fun _ => eq_refl)
      (fun _ => ("mysql_thread.h"%string, 1)) (Signals 0%nat) "t.c" 7 0 0 (-9) (new_of safe_build).1 (new_of safe_build).2 monitor_heap 0
      [only_consumer; signaller] tr s) as (Hm & _ & _ & Hs);
      [reflexivity|reflexivity|reflexivity|by eexists|by eexists|exact signal_fits|exact Hr|].
    split; [|intros Hno; apply (Hs Hno)]. destruct (Hm 0%nat (At MEnd)) as (ph & Hph & _); [by rewrite Ht|]. by exists ph.
Defined.
