(* ===== verification/Layout.v ===== *)
(** * Layout of C structures

    The types of the fields of the structures of the headers, with the size, alignment and offsets that a
    C implementation gives them.  The sizes of the scalar types and the macros that are defined are those of
    the platform.  Structs.v has the structures of the headers. *)
From S2P Require Import Prelude.

(** ** Types *)

Inductive scalar :=
  | Char | UChar | Short | UShort | Int | UInt | Long | ULong | LongLong | ULongLong | Float | Double | SizeT
  | Enum | Pointer | FunctionPointer
  | Opaque (type : string).

Unset Elimination Schemes.
Inductive ctype :=
  | Scalar (s : scalar)
  | Array (t : ctype) (n : Z)
  | Struct (fields : list (string * ctype))
  | Union (fields : list (string * ctype)).
Set Elimination Schemes.

Lemma ctype_nested_ind (P : ctype -> Prop) :
  (forall s, P (Scalar s)) -> (forall t n, P t -> P (Array t n)) ->
  (forall fs, Forall (fun f => P f.2) fs -> P (Struct fs)) -> (forall fs, Forall (fun f => P f.2) fs -> P (Union fs)) ->
  forall t, P t.
Proof.
  intros Hs Ha Hst Hu. fix IH 1. intros [s|t n|fs|fs]; [apply Hs|apply Ha, IH|apply Hst|apply Hu];
    (induction fs as [|[f t] fs IHfs]; constructor; [apply IH|exact IHfs]).
Qed.

(** ** The platform *)

(** Sizes and alignments of the scalar types, and the macros that are defined. *)
Class Platform := {
  size_of_scalar : scalar -> Z;
  align_of_scalar : scalar -> Z;
  defined : string -> bool }.
Class PlatformLaws `{Platform} : Prop := {
  align_power s : exists k, 0 <= k /\ align_of_scalar s = 2 ^ k;
  align_divides s : (align_of_scalar s | size_of_scalar s);
  size_positive s : 0 < size_of_scalar s }.

(** Fields that are there under a condition. *)
Definition when (b : bool) (fs : list (string * ctype)) : list (string * ctype) := if b then fs else [].

(** ** Sizes and offsets *)

Section Layout.
Context `{Platform}.

(** The first multiple of [a] that is not below [x]. *)
Definition align_up (x a : Z) : Z := (x + a - 1) / a * a.

Section Fields.
Context (sizeof alignof : ctype -> Z).
Definition max_align (fs : list (string * ctype)) : Z := foldr (fun f m => Z.max (alignof f.2) m) 1 fs.
Definition max_size (fs : list (string * ctype)) : Z := foldr (fun f m => Z.max (sizeof f.2) m) 0 fs.
(** The end of the fields when the first one is not before [off]. *)
Fixpoint end_of (off : Z) (fs : list (string * ctype)) : Z :=
  match fs with
  | [] => off
  | f :: fs => end_of (align_up off (alignof f.2) + sizeof f.2) fs
  end.
(** The fields with their offsets. *)
Fixpoint offsets (off : Z) (fs : list (string * ctype)) : list (string * Z * ctype) :=
  match fs with
  | [] => []
  | (f, t) :: fs => let o := align_up off (alignof t) in (f, o, t) :: offsets (o + sizeof t) fs
  end.
End Fields.

Fixpoint alignof (t : ctype) : Z :=
  match t with
  | Scalar s => align_of_scalar s
  | Array t _ => alignof t
  | Struct fs | Union fs => max_align alignof fs
  end.

Fixpoint sizeof (t : ctype) : Z :=
  match t with
  | Scalar s => size_of_scalar s
  | Array t n => n * sizeof t
  | Struct fs => align_up (end_of sizeof alignof 0 fs) (max_align alignof fs)
  | Union fs => align_up (max_size sizeof fs) (max_align alignof fs)
  end.

(** The fields of a type with their offsets; [offsetof]. *)
Definition fields_of (t : ctype) : list (string * Z * ctype) :=
  match t with
  | Struct fs => offsets sizeof alignof 0 fs
  | Union fs => (fun f => (f.1, 0, f.2)) <$> fs
  | _ => []
  end.
Definition offsetof (t : ctype) (f : string) : option Z :=
  (fun x => x.1.2) <$> find (fun x => bool_decide (x.1.1 = f)) (fields_of t).

(** Arrays have elements, structures have fields. *)
Fixpoint well_formed (t : ctype) : bool :=
  match t with
  | Scalar _ => true
  | Array t n => (0 <? n) && well_formed t
  | Struct fs | Union fs => (0 <? Z.of_nat (length fs)) && forallb (fun f => well_formed f.2) fs
  end.

(** The scalars in a type, with their offsets. *)
Inductive scalar_at : ctype -> Z -> scalar -> Prop :=
| scalar_here s : scalar_at (Scalar s) 0 s
| scalar_element t n i o s : 0 <= i < n -> scalar_at t o s -> scalar_at (Array t n) (i * sizeof t + o) s
| scalar_field t f o ft o' s : (f, o, ft) ∈ fields_of t -> scalar_at ft o' s -> scalar_at t (o + o') s.

(** What the language promises of a structure: it has a size, a multiple of its alignment; its fields have
    different names and lie one after the other; and every scalar in it is inside of it and aligned wherever
    the structure is. *)
Record sound (fs : list (string * ctype)) : Prop := {
  sound_size : 0 < sizeof (Struct fs);
  sound_stride : (alignof (Struct fs) | sizeof (Struct fs));
  sound_names : NoDup fs.*1;
  sound_apart i j x y : fields_of (Struct fs) !! i = Some x -> fields_of (Struct fs) !! j = Some y -> (i < j)%nat ->
    x.1.2 + sizeof x.2 <= y.1.2;
  sound_scalars o s : scalar_at (Struct fs) o s ->
    0 <= o /\ o + size_of_scalar s <= sizeof (Struct fs) /\ (align_of_scalar s | o) /\
    (align_of_scalar s | alignof (Struct fs)) }.

(** ** Lemmas *)

Context `{!PlatformLaws}.

Lemma align_up_spec (x a : Z) : 0 < a -> x <= align_up x a < x + a /\ (a | align_up x a).
Proof.
  intros Ha. unfold align_up. split; [|apply Z.divide_factor_r].
  pose proof (Z.div_mod (x + a - 1) a ltac:(lia)). pose proof (Z.mod_pos_bound (x + a - 1) a Ha). lia.
Qed.

Definition power (a : Z) : Prop := exists k, 0 <= k /\ a = 2 ^ k.

Lemma power_pos (a : Z) : power a -> 0 < a.
Proof. intros (k & Hk & ->). lia. Qed.

Lemma power_le_divide (a b : Z) : power a -> power b -> a <= b -> (a | b).
Proof.
  intros (j & Hj & ->) (k & Hk & ->) Hle. apply Z.pow_le_mono_r_iff in Hle; [|lia..].
  exists (2 ^ (k - j)). rewrite <- Z.pow_add_r by lia. f_equal. lia.
Qed.

Lemma power_max (a b : Z) : power a -> power b -> power (Z.max a b).
Proof. intros Ha Hb. by destruct (Z.max_spec a b) as [[_ ->]|[_ ->]]. Qed.

Lemma max_align_power (fs : list (string * ctype)) :
  Forall (fun f => power (alignof f.2)) fs -> power (max_align alignof fs).
Proof.
  induction 1 as [|f fs Hf _ IH]; [by exists 0|]. by apply power_max.
Qed.

Lemma alignof_power (t : ctype) : power (alignof t).
Proof. induction t as [s|t n IH|fs IH|fs IH] using ctype_nested_ind; cbn [alignof]; [apply align_power|done|by apply max_align_power..]. Qed.

Lemma alignof_pos (t : ctype) : 0 < alignof t.
Proof. apply power_pos, alignof_power. Qed.

Lemma align_member (fs : list (string * ctype)) (f : string * ctype) :
  f ∈ fs -> (alignof f.2 | max_align alignof fs).
Proof.
  intros Hf. apply power_le_divide; [apply alignof_power|apply max_align_power, Forall_forall; auto using alignof_power|].
  induction fs as [|g fs IH]; [by apply not_elem_of_nil in Hf|]. cbn.
  apply elem_of_cons in Hf as [->|Hf]; [lia|]. specialize (IH Hf). unfold max_align in IH. lia.
Qed.

(** From pointwise hypotheses to facts of all fields. *)
Lemma Forall_and_mp {A} (P Q : A -> Prop) l : Forall (fun x => P x -> Q x) l -> Forall P l -> Forall Q l.
Proof. rewrite !Forall_forall. auto. Qed.

Lemma max_align_pos (fs : list (string * ctype)) : 0 < max_align alignof fs.
Proof. apply power_pos, max_align_power, Forall_forall; auto using alignof_power. Qed.

Lemma end_of_length (fs : list (string * ctype)) : Forall (fun f => 0 < sizeof f.2) fs ->
  forall off, off + Z.of_nat (length fs) <= end_of sizeof alignof off fs.
Proof.
  induction 1 as [|f fs Hf _ IH]; intros off; cbn [end_of length]; [lia|].
  pose proof (align_up_spec off (alignof f.2) (alignof_pos _)).
  specialize (IH (align_up off (alignof f.2) + sizeof f.2)). lia.
Qed.

Lemma max_size_member (fs : list (string * ctype)) f : f ∈ fs -> sizeof f.2 <= max_size sizeof fs.
Proof.
  unfold max_size. induction fs as [|g fs IH]; [by intros ?%not_elem_of_nil|].
  intros [->|Hf]%elem_of_cons; cbn; [lia|]. specialize (IH Hf). lia.
Qed.

Lemma wf_fields (fs : list (string * ctype)) :
  (0 <? Z.of_nat (length fs)) && forallb (fun f => well_formed f.2) fs ->
  fs <> [] /\ Forall (fun f => well_formed f.2) fs.
Proof.
  intros [Hn Hf]%andb_True. split; [by destruct fs|]. clear Hn.
  induction fs as [|f fs IH]; [done|]. cbn in Hf. apply andb_True in Hf as [H1 H2]. auto.
Qed.

Lemma sizeof_pos (t : ctype) : well_formed t -> 0 < sizeof t.
Proof.
  induction t as [s|t n IH|fs IH|fs IH] using ctype_nested_ind; cbn [well_formed sizeof]; intros Hwf.
  - apply size_positive.
  - apply andb_True in Hwf as [Hn%Is_true_true%Z.ltb_lt Hwf]. specialize (IH Hwf). lia.
  - apply wf_fields in Hwf as [Hne Hwf]. apply (Forall_and_mp _ _ _ IH) in Hwf as IH'.
    pose proof (end_of_length fs IH' 0). pose proof (align_up_spec (end_of sizeof alignof 0 fs) _ (max_align_pos fs)).
    destruct fs; [done|]. cbn [length] in *. lia.
  - apply wf_fields in Hwf as [Hne Hwf]. apply (Forall_and_mp _ _ _ IH) in Hwf as IH'.
    pose proof (align_up_spec (max_size sizeof fs) _ (max_align_pos fs)).
    destruct fs as [|f fs]; [done|]. pose proof (max_size_member (f :: fs) f ltac:(left)).
    apply Forall_cons in IH' as [Hf _]. lia.
Qed.

(** Arrays of a type keep its elements aligned. *)
Lemma sizeof_aligned (t : ctype) : (alignof t | sizeof t).
Proof.
  induction t as [s|t n IH|fs _|fs _] using ctype_nested_ind; cbn [sizeof alignof]; [apply align_divides|by apply Z.divide_mul_r|..];
    apply align_up_spec, power_pos, max_align_power, Forall_forall; auto using alignof_power.
Qed.

Lemma end_of_mono (fs : list (string * ctype)) : Forall (fun f => 0 < sizeof f.2) fs ->
  forall off, off <= end_of sizeof alignof off fs.
Proof. intros Hfs off. pose proof (end_of_length fs Hfs off). lia. Qed.

(** The offsets of fields that begin at [off]: aligned, one after the other, before the end. *)
Lemma offsets_member (fs : list (string * ctype)) : Forall (fun f => 0 < sizeof f.2) fs ->
  forall off f o t, (f, o, t) ∈ offsets sizeof alignof off fs ->
  off <= o /\ (alignof t | o) /\ o + sizeof t <= end_of sizeof alignof off fs /\ (f, t) ∈ fs.
Proof.
  induction 1 as [|[g u] fs Hg Hfs IH]; intros off f o t; cbn; [by intros ?%not_elem_of_nil|].
  pose proof (align_up_spec off (alignof u) (alignof_pos _)) as [Hup Hdiv]. cbn in Hg.
  intros [[= -> -> ->]|Hin]%elem_of_cons.
  - pose proof (end_of_mono fs Hfs (align_up off (alignof u) + sizeof u)). split_and!; [lia|done|lia|left].
  - specialize (IH _ _ _ _ Hin) as (Hlo & Hd & Hhi & Hf). split_and!; [lia|done|lia|by right].
Qed.

Lemma offsets_apart (fs : list (string * ctype)) : Forall (fun f => 0 < sizeof f.2) fs ->
  forall off i j x y, offsets sizeof alignof off fs !! i = Some x -> offsets sizeof alignof off fs !! j = Some y ->
  (i < j)%nat -> x.1.2 + sizeof x.2 <= y.1.2.
Proof.
  induction 1 as [|[g u] fs Hg Hfs IH]; intros off [|i] [|j] x y Hi Hj Hlt; cbn in *; try done; try lia.
  - injection Hi as <-. apply list_elem_of_lookup_2 in Hj. destruct y as [[h o] t].
    apply (offsets_member fs Hfs) in Hj as [Hlo _]. cbn. lia.
  - apply (IH _ i j x y Hi Hj). lia.
Qed.

Lemma wf_members (t : ctype) f o ft : well_formed t -> (f, o, ft) ∈ fields_of t ->
  well_formed ft /\ 0 <= o /\ (alignof ft | o) /\ (alignof ft | alignof t) /\ o + sizeof ft <= sizeof t.
Proof.
  destruct t as [s|t n|fs|fs]; cbn [well_formed fields_of]; try by intros _ ?%not_elem_of_nil.
  - intros [_ Hwf]%wf_fields Hin. apply offsets_member in Hin as (Hlo & Hd & Hhi & Hf);
      [|eapply Forall_impl; [exact Hwf|intros; by apply sizeof_pos]].
    rewrite Forall_forall in Hwf. specialize (Hwf _ Hf). apply align_member in Hf. cbn [alignof sizeof].
    pose proof (align_up_spec (end_of sizeof alignof 0 fs) _ (max_align_pos fs)). split_and!; try done; lia.
  - intros [_ Hwf]%wf_fields Hin. apply list_elem_of_fmap in Hin as ([g u] & [= -> -> ->] & Hf).
    rewrite Forall_forall in Hwf. specialize (Hwf _ Hf). pose proof (max_size_member fs _ Hf). apply align_member in Hf.
    cbn [alignof sizeof fst snd] in *. pose proof (align_up_spec (max_size sizeof fs) _ (max_align_pos fs)).
    split_and!; [done|done|apply Z.divide_0_r|done|lia].
Qed.

Lemma scalar_at_inside (t : ctype) (o : Z) (s : scalar) : scalar_at t o s -> well_formed t ->
  0 <= o /\ o + size_of_scalar s <= sizeof t /\ (align_of_scalar s | o) /\ (align_of_scalar s | alignof t).
Proof.
  induction 1 as [s|t n i o s Hi _ IH|t f o ft o' s Hf _ IH]; intros Hwf.
  - cbn. split_and!; [done|lia|apply Z.divide_0_r|done].
  - cbn [well_formed] in Hwf. apply andb_True in Hwf as [_ Hwf]. specialize (IH Hwf) as (H1 & H2 & H3 & H4).
    pose proof (sizeof_pos t Hwf). cbn [sizeof alignof]. split_and!; [nia|nia| |done].
    apply Z.divide_add_r; [|done]. apply Z.divide_mul_r. etransitivity; [exact H4|apply sizeof_aligned].
  - destruct (wf_members t f o ft Hwf Hf) as (Hwf' & Ho & Hd & Hda & Hin). specialize (IH Hwf') as (H1 & H2 & H3 & H4).
    split_and!; [lia|lia| |by etransitivity]. apply Z.divide_add_r; [|done]. by etransitivity.
Qed.

Lemma well_formed_sound (fs : list (string * ctype)) : well_formed (Struct fs) -> NoDup fs.*1 -> sound fs.
Proof.
  intros Hwf Hnd. split; [by apply sizeof_pos|apply sizeof_aligned|done| |by intros; apply scalar_at_inside].
  intros i j x y. cbn [fields_of]. apply wf_fields in Hwf as [_ Hwf].
  apply offsets_apart. eapply Forall_impl; [exact Hwf|intros; by apply sizeof_pos].
Qed.

(** ** Structures that begin with the same fields *)

Lemma offsets_app (fs gs : list (string * ctype)) (off : Z) :
  offsets sizeof alignof off (fs ++ gs) = offsets sizeof alignof off fs ++ offsets sizeof alignof (end_of sizeof alignof off fs) gs.
Proof. revert off. induction fs as [|[f t] fs IH]; intros off; cbn; [done|]. by rewrite IH. Qed.

Lemma end_of_app (fs gs : list (string * ctype)) (off : Z) :
  end_of sizeof alignof off (fs ++ gs) = end_of sizeof alignof (end_of sizeof alignof off fs) gs.
Proof. revert off. induction fs as [|f fs IH]; intros off; cbn; [done|]. by rewrite IH. Qed.

Lemma max_align_app (fs gs : list (string * ctype)) : (max_align alignof fs | max_align alignof (fs ++ gs)).
Proof.
  apply power_le_divide; [apply max_align_power, Forall_forall; auto using alignof_power..|].
  unfold max_align. induction fs as [|f fs IH]; cbn; [|lia].
  induction gs as [|g gs IH]; cbn; lia.
Qed.

Lemma align_up_mono (x y a : Z) : 0 < a -> x <= y -> align_up x a <= align_up y a.
Proof. intros Ha Hxy. unfold align_up. apply Z.mul_le_mono_nonneg_r; [lia|]. apply Z.div_le_mono; lia. Qed.

(** The greater alignment is the last to be reached. *)
Lemma align_up_divide (x a b : Z) : 0 < a -> 0 < b -> (a | b) -> align_up x a <= align_up x b.
Proof.
  intros Ha Hb [c ->]. unfold align_up.
  pose proof (Z.div_mod (x + a - 1) a ltac:(lia)). pose proof (Z.mod_pos_bound (x + a - 1) a Ha).
  pose proof (Z.div_mod (x + c * a - 1) (c * a) ltac:(lia)). pose proof (Z.mod_pos_bound (x + c * a - 1) (c * a) Hb).
  set (q := (x + a - 1) / a) in *. set (r := (x + c * a - 1) / (c * a)) in *.
  assert (x <= r * c * a) by nia. assert (q * a < r * c * a + a) by nia.
  assert (q < r * c + 1) by nia. nia.
Qed.

(** An object seen through a pointer to a structure with its first fields. *)
Definition views (view object : ctype) : Prop :=
  (exists rest, fields_of object = fields_of view ++ rest) /\ sizeof view <= sizeof object /\
  (alignof view | alignof object).

Lemma prefix_views (fs gs : list (string * ctype)) : well_formed (Struct (fs ++ gs)) ->
  views (Struct fs) (Struct (fs ++ gs)).
Proof.
  intros [_ Hwf]%wf_fields. apply Forall_app in Hwf as [_ Hgs]. split_and!.
  - eexists. apply offsets_app.
  - cbn [sizeof]. rewrite end_of_app.
    etransitivity; [apply (align_up_divide _ _ (max_align alignof (fs ++ gs)))|apply align_up_mono];
      eauto using max_align_pos, max_align_app.
    apply end_of_mono. eapply Forall_impl; [exact Hgs|intros; by apply sizeof_pos].
  - cbn [alignof]. apply max_align_app.
Qed.

Global Instance views_refl : Reflexive views.
Proof. intros t. split_and!; [exists []; by rewrite app_nil_r|lia|done]. Qed.
End Layout.

(** ** Platforms with the same scalar types lay out a type in the same way *)

Record same_scalars (P1 P2 : Platform) : Prop := {
  same_size s : size_of_scalar (Platform := P1) s = size_of_scalar (Platform := P2) s;
  same_align s : align_of_scalar (Platform := P1) s = align_of_scalar (Platform := P2) s }.

Section Same.
Context (P1 P2 : Platform) (Hsame : same_scalars P1 P2).
Abbreviation sizeof1 := (sizeof (H := P1)).
Abbreviation sizeof2 := (sizeof (H := P2)).
Abbreviation alignof1 := (alignof (H := P1)).
Abbreviation alignof2 := (alignof (H := P2)).

Lemma max_align_ext (fs : list (string * ctype)) :
  Forall (fun f => alignof1 f.2 = alignof2 f.2) fs -> max_align alignof1 fs = max_align alignof2 fs.
Proof. unfold max_align. induction 1 as [|f fs Hf _ IH]; cbn; [done|]. by rewrite Hf, IH. Qed.

Lemma alignof_ext (t : ctype) : alignof1 t = alignof2 t.
Proof.
  induction t as [s|t n IH|fs IH|fs IH] using ctype_nested_ind; cbn [alignof];
    [apply (same_align _ _ Hsame)|done|by apply max_align_ext..].
Qed.

Lemma end_of_ext (fs : list (string * ctype)) : Forall (fun f => sizeof1 f.2 = sizeof2 f.2) fs ->
  forall off, end_of sizeof1 alignof1 off fs = end_of sizeof2 alignof2 off fs.
Proof.
  induction 1 as [|f fs Hf _ IH]; intros off; cbn [end_of]; [done|]. by rewrite Hf, alignof_ext, IH.
Qed.

Lemma sizeof_ext (t : ctype) : sizeof1 t = sizeof2 t.
Proof.
  induction t as [s|t n IH|fs IH|fs IH] using ctype_nested_ind; cbn [sizeof].
  - apply (same_size _ _ Hsame).
  - by rewrite IH.
  - by rewrite (end_of_ext fs IH), (max_align_ext fs (Forall_true _ _ (fun f => alignof_ext f.2))).
  - rewrite (max_align_ext fs (Forall_true _ _ (fun f => alignof_ext f.2))). f_equal. unfold max_size.
    induction IH as [|f fs Hf _ IH]; cbn; [done|]. by rewrite Hf, IH.
Qed.

Lemma offsets_ext (fs : list (string * ctype)) (off : Z) :
  offsets sizeof1 alignof1 off fs = offsets sizeof2 alignof2 off fs.
Proof.
  revert off. induction fs as [|[f t] fs IH]; intros off; cbn [offsets]; [done|].
  by rewrite sizeof_ext, alignof_ext, IH.
Qed.

Lemma fields_of_ext (t : ctype) : fields_of (H := P1) t = fields_of (H := P2) t.
Proof. destruct t; cbn [fields_of]; [done|done|apply offsets_ext|done]. Qed.
End Same.
