(* ===== verification/Structs.v ===== *)
(** * The structures of the headers

    Every structure of the headers as a type of Layout.v, with its conditional fields, on the platform of
    Layout.v.  Typedefs that differ between platforms are definitions.  The theorems: every field of every
    structure is aligned, in its place and apart from the others; an object that the code accesses through
    a pointer to another structure has its fields at the same offsets; the layouts depend on no other macro
    than the listed ones. *)
From stdpp Require Import strings.
From S2P Require Import Prelude Layout Psi Errors Protocol.

Definition MYSQL_USERNAME_LENGTH : Z := 48.
Definition MYSQL_XIDDATASIZE : Z := 128.
Definition MYSQL_AUDIT_CLASS_MASK_SIZE : Z := 1.
Definition CHANGED_BLOCKS_HASH : Z := 128.
Definition THREAD_NAME_SIZE : Z := 10.

Section Structs.
Context `{Platform}.

(** ** Types that differ between platforms *)

(** As in my_global.h; mysql.h without it tests __WIN__ (ClientTypes.v). *)
Definition my_socket : ctype := if defined "_WIN32" then Scalar (Opaque "SOCKET") else Scalar Int.
Definition uint32 : ctype := if size_of_scalar UInt =? 4 then Scalar UInt else Scalar ULong.
Definition ulonglong : ctype :=
  if defined "HAVE_LONG_LONG" && (size_of_scalar LongLong =? 8) then Scalar ULongLong else Scalar ULong.
Definition longlong : ctype :=
  if defined "HAVE_LONG_LONG" && (size_of_scalar LongLong =? 8) then Scalar LongLong else Scalar Long.
Definition my_ulonglong : ctype :=
  if defined "NO_CLIENT_LONG_LONG" then Scalar ULong
  else if defined "__WIN__" then Scalar (Opaque "unsigned __int64") (* a type of its own, of a size that is not fixed here *) else Scalar ULongLong.
Definition my_off_t : ctype :=
  if defined "_WIN32" then Scalar ULongLong
  else if 4 <? size_of_scalar (Opaque "off_t") then ulonglong else Scalar ULong.
Definition pthread_t : ctype := if defined "_WIN32" then Scalar ULong else Scalar (Opaque "pthread_t").

(** ** Mutexes, conditions and locks *)

(** [pthread_mutex_t] before my_pthread.h redefines it. *)
Definition native_mutex : ctype :=
  if defined "_WIN32" then Scalar (Opaque "CRITICAL_SECTION") else Scalar (Opaque "pthread_mutex_t").
Definition safe_mutex_t : ctype := Struct
  ([("global", native_mutex); ("mutex", native_mutex); ("file", Scalar Pointer); ("line", Scalar UInt);
    ("count", Scalar UInt); ("thread", pthread_t)] ++
   when (defined "SAFE_MUTEX_DETECT_DESTROY") [("info", Scalar Pointer)]).
Definition my_pthread_fastmutex_t : ctype := Struct
  ([("mutex", native_mutex); ("spins", Scalar UInt); ("rng_state", Scalar UInt)]).
Definition pthread_mutex_t : ctype :=
  if defined "SAFE_MUTEX" then safe_mutex_t
  else if defined "MY_PTHREAD_FASTMUTEX" then my_pthread_fastmutex_t else native_mutex.
Definition win_cond_events : ctype := Struct
  ([("waiting", uint32); ("lock_waiting", Scalar (Opaque "CRITICAL_SECTION")); ("EVENTS", Scalar Enum);
    ("events", Array (Scalar Pointer) 2); ("broadcast_block_event", Scalar Pointer)]).
Definition win_cond_t : ctype := Union
  ([("native_cond", Scalar (Opaque "CONDITION_VARIABLE")); ("", win_cond_events)]).
Definition pthread_cond_t : ctype :=
  if defined "_WIN32" then win_cond_t else Scalar (Opaque "pthread_cond_t").
Definition pthread_link : ctype := Struct
  ([("thread_id", Scalar ULong); ("next", Scalar Pointer)]).
Definition pthread_attr_t : ctype := Struct
  ([("dwStackSize", Scalar ULong); ("dwCreatingFlag", Scalar ULong)]).
(** The union makes a FILETIME usable as a number of 64 bits. *)
Definition ft64 : ctype := Union ([("ft", Scalar (Opaque "FILETIME")); ("i64", Scalar (Opaque "__int64"))]).
Definition win_timespec : ctype := Struct
  ([("tv", ft64); ("max_timeout_msec", Scalar Long)]).
Definition st_my_rw_lock_t : ctype := Struct
  ([("lock", pthread_mutex_t); ("readers", pthread_cond_t); ("writers", pthread_cond_t); ("state", Scalar Int);
    ("waiters", Scalar Int)] ++
   when (defined "SAFE_MUTEX") [("write_thread", pthread_t)]).
(** The union of Windows; its members are anonymous structures. *)
Definition win_rw_lock_native : ctype := Struct
  ([("srwlock", Scalar (Opaque "SRWLOCK")); ("have_exclusive_srwlock", Scalar Int)]).
Definition win_rw_lock_portable : ctype := Struct
  ([("lock", pthread_mutex_t); ("readers", pthread_cond_t); ("writers", pthread_cond_t); ("state", Scalar Int);
    ("waiters", Scalar Int)] ++
   when (defined "SAFE_MUTEX") [("write_thread", pthread_t)]).
Definition win_rw_lock_t : ctype := Union ([("native", win_rw_lock_native); ("portable", win_rw_lock_portable)]).
Definition my_rw_lock_t : ctype := if defined "_WIN32" then win_rw_lock_t else st_my_rw_lock_t.
Definition rw_lock_t : ctype :=
  if defined "USE_MUTEX_INSTEAD_OF_RW_LOCKS" then pthread_mutex_t
  else if defined "HAVE_PTHREAD_RWLOCK_RDLOCK" && negb (defined "HAVE_BROKEN_RWLOCK")
  then Scalar (Opaque "pthread_rwlock_t")
  else if defined "HAVE_RWLOCK_INIT" && negb (defined "HAVE_BROKEN_RWLOCK")
  then (if defined "HAVE_RWLOCK_T" && negb (defined "HAVE_BROKEN_RWLOCK") then Scalar (Opaque "rwlock_t")
        else Scalar (Opaque "rw_lock_t"))
  else my_rw_lock_t.

(** ** Instrumented objects *)

Definition st_mysql_mutex : ctype := Struct
  ([("m_mutex", pthread_mutex_t); ("m_psi", Scalar Pointer)]).
Definition rw_pr_lock_t : ctype := Struct
  ([("lock", pthread_mutex_t); ("no_active_readers", pthread_cond_t); ("active_readers", Scalar UInt);
    ("writers_waiting_readers", Scalar UInt); ("active_writer", Scalar Char)] ++
   when (defined "SAFE_MUTEX") [("writer_thread", pthread_t)]).
Definition st_mysql_rwlock : ctype := Struct
  ([("m_rwlock", rw_lock_t); ("m_psi", Scalar Pointer)]).
Definition st_mysql_prlock : ctype := Struct
  ([("m_prlock", rw_pr_lock_t); ("m_psi", Scalar Pointer)]).
Definition st_mysql_cond : ctype := Struct
  ([("m_cond", pthread_cond_t); ("m_psi", Scalar Pointer)]).
Definition st_mysql_file : ctype := Struct
  ([("m_file", Scalar Pointer); ("m_psi", Scalar Pointer)]).
Definition safe_mutex_info_t : ctype := Struct
  ([("next", Scalar Pointer); ("prev", Scalar Pointer); ("init_file", Scalar Pointer); ("init_line", uint32)]).

(** ** Threads *)

Definition st_my_thread_var : ctype := Struct
  ([("thr_errno", Scalar Int); ("suspend", st_mysql_cond); ("mutex", st_mysql_mutex);
    ("current_mutex", Scalar Pointer); ("current_cond", Scalar Pointer); ("pthread_self", pthread_t);
    ("id", Scalar ULong); ("cmp_length", Scalar Int); ("abort", Scalar Int); ("init", Scalar Char);
    ("next", Scalar Pointer); ("prev", Scalar Pointer); ("opt_info", Scalar Pointer);
    ("stack_ends_here", Scalar Pointer)] ++
   when (negb (defined "DBUG_OFF")) [("dbug", Scalar Pointer); ("name", Array (Scalar Char) (THREAD_NAME_SIZE + 1))]).

(** ** Lists, memory roots, options, key caches *)

Definition LIST : ctype := Struct
  ([("prev", Scalar Pointer); ("next", Scalar Pointer); ("data", Scalar Pointer)]).
Definition USED_MEM : ctype := Struct
  ([("next", Scalar Pointer); ("left", Scalar UInt); ("size", Scalar UInt)]).
Definition MEM_ROOT : ctype := Struct
  ([("free", Scalar Pointer); ("used", Scalar Pointer); ("pre_alloc", Scalar Pointer); ("min_malloc", Scalar SizeT);
    ("block_size", Scalar SizeT); ("block_num", Scalar UInt); ("first_block_usage", Scalar UInt);
    ("error_handler", Scalar FunctionPointer)]).
Definition TYPELIB : ctype := Struct
  ([("count", Scalar UInt); ("name", Scalar Pointer); ("type_names", Scalar Pointer);
    ("type_lengths", Scalar Pointer)]).
Definition my_option : ctype := Struct
  ([("name", Scalar Pointer); ("id", Scalar Int); ("comment", Scalar Pointer); ("value", Scalar Pointer);
    ("u_max_value", Scalar Pointer); ("typelib", Scalar Pointer); ("var_type", Scalar ULong);
    ("arg_type", Scalar Enum); ("def_value", longlong); ("min_value", longlong); ("max_value", longlong);
    ("sub_size", longlong); ("block_size", Scalar Long); ("app_type", Scalar Pointer)]).
Definition decimal_t : ctype := Struct
  ([("intg", Scalar Int); ("frac", Scalar Int); ("len", Scalar Int); ("sign", Scalar Char); ("buf", Scalar Pointer)]).
Definition KEYCACHE_WQUEUE : ctype := Struct
  ([("last_thread", Scalar Pointer)]).
Definition KEY_CACHE : ctype := Struct
  ([("key_cache_inited", Scalar Char); ("in_resize", Scalar Char); ("resize_in_flush", Scalar Char);
    ("can_be_used", Scalar Char); ("key_cache_mem_size", Scalar SizeT); ("key_cache_block_size", Scalar UInt);
    ("min_warm_blocks", Scalar ULong); ("age_threshold", Scalar ULong); ("keycache_time", ulonglong);
    ("hash_entries", Scalar UInt); ("hash_links", Scalar Int); ("hash_links_used", Scalar Int);
    ("disk_blocks", Scalar Int); ("blocks_used", Scalar ULong); ("blocks_unused", Scalar ULong);
    ("blocks_changed", Scalar ULong); ("warm_blocks", Scalar ULong); ("cnt_for_resize_op", Scalar ULong);
    ("blocks_available", Scalar Long); ("hash_root", Scalar Pointer); ("hash_link_root", Scalar Pointer);
    ("free_hash_list", Scalar Pointer); ("free_block_list", Scalar Pointer); ("block_root", Scalar Pointer);
    ("block_mem", Scalar Pointer); ("used_last", Scalar Pointer); ("used_ins", Scalar Pointer);
    ("cache_lock", st_mysql_mutex); ("resize_queue", KEYCACHE_WQUEUE); ("waiting_for_resize_cnt", KEYCACHE_WQUEUE);
    ("waiting_for_hash_link", KEYCACHE_WQUEUE); ("waiting_for_block", KEYCACHE_WQUEUE);
    ("changed_blocks", Array (Scalar Pointer) CHANGED_BLOCKS_HASH);
    ("file_blocks", Array (Scalar Pointer) CHANGED_BLOCKS_HASH); ("param_buff_size", ulonglong);
    ("param_block_size", ulonglong); ("param_division_limit", ulonglong); ("param_age_threshold", ulonglong);
    ("global_blocks_changed", Scalar ULong); ("global_cache_w_requests", ulonglong);
    ("global_cache_write", ulonglong); ("global_cache_r_requests", ulonglong); ("global_cache_read", ulonglong);
    ("blocks", Scalar Int); ("in_init", Scalar Char)]).
Definition my_stat : ctype := Struct
  ([("st_dev", Scalar (Opaque "dev_t")); ("st_ino", Scalar (Opaque "ino_t")); ("st_mode", Scalar UShort);
    ("st_nlink", Scalar Short); ("st_uid", Scalar UShort); ("st_gid", Scalar UShort);
    ("st_rdev", Scalar (Opaque "dev_t")); ("st_size", Scalar (Opaque "off_t"));
    ("st_atime", Scalar (Opaque "time_t")); ("st_mtime", Scalar (Opaque "time_t"));
    ("st_ctime", Scalar (Opaque "time_t"))]).
Definition FILEINFO : ctype := Struct
  ([("name", Scalar Pointer); ("mystat", Scalar Pointer)]).
Definition MY_DIR : ctype := Struct
  ([("dir_entry", Scalar Pointer); ("number_off_files", Scalar UInt)]).
Definition MY_XML_PARSER : ctype := Struct
  ([("flags", Scalar Int); ("current_node_type", Scalar Enum); ("errstr", Array (Scalar Char) 128);
    ("attr", Array (Scalar Char) 128); ("attrend", Scalar Pointer); ("beg", Scalar Pointer); ("cur", Scalar Pointer);
    ("end", Scalar Pointer); ("user_data", Scalar Pointer); ("enter", Scalar FunctionPointer);
    ("value", Scalar FunctionPointer); ("leave_xml", Scalar FunctionPointer)]).
Definition my_aio_result : ctype := Struct
  ([("result", Scalar (Opaque "aio_result_t")); ("pending", Scalar Int)]).

(** ** Files, arrays, strings and caches of mysys *)

Definition RECORD_CACHE : ctype := Struct
  ([("file", Scalar Int); ("rc_seek", Scalar Int); ("error", Scalar Int); ("inited", Scalar Int);
    ("rc_length", Scalar UInt); ("read_length", Scalar UInt); ("reclength", Scalar UInt);
    ("rc_record_pos", my_off_t); ("end_of_file", my_off_t); ("rc_buff", Scalar Pointer);
    ("rc_buff2", Scalar Pointer); ("rc_pos", Scalar Pointer); ("rc_end", Scalar Pointer);
    ("rc_request_pos", Scalar Pointer)] ++
   when (defined "HAVE_AIOWAIT") [("use_async_io", Scalar Int); ("aio_result", my_aio_result)] ++
   [("type", Scalar Enum)]).
Definition st_my_file_info : ctype := Struct
  ([("name", Scalar Pointer)] ++
   when (defined "_WIN32") [("fhandle", Scalar Pointer); ("oflag", Scalar Int)] ++
   [("type", Scalar Enum)] ++
   when (negb (defined "HAVE_PREAD") && negb (defined "_WIN32")) [("mutex", st_mysql_mutex)]).
Definition DYNAMIC_ARRAY : ctype := Struct
  ([("buffer", Scalar Pointer); ("elements", Scalar UInt); ("max_element", Scalar UInt);
    ("alloc_increment", Scalar UInt); ("size_of_element", Scalar UInt)]).
Definition MY_TMPDIR : ctype := Struct
  ([("full_list", DYNAMIC_ARRAY); ("list", Scalar Pointer); ("cur", Scalar UInt); ("max", Scalar UInt);
    ("mutex", st_mysql_mutex)]).
Definition DYNAMIC_STRING : ctype := Struct
  ([("str", Scalar Pointer); ("length", Scalar SizeT); ("max_length", Scalar SizeT);
    ("alloc_increment", Scalar SizeT)]).
Definition IO_CACHE_SHARE : ctype := Struct
  ([("mutex", st_mysql_mutex); ("cond", st_mysql_cond); ("cond_writer", st_mysql_cond); ("pos_in_file", my_off_t);
    ("source_cache", Scalar Pointer); ("buffer", Scalar Pointer); ("read_end", Scalar Pointer);
    ("running_threads", Scalar Int); ("total_threads", Scalar Int); ("error", Scalar Int)] ++
   when (defined "NOT_YET_IMPLEMENTED") [("alloced", Scalar Char)]).
Definition IO_CACHE : ctype := Struct
  ([("pos_in_file", my_off_t); ("end_of_file", my_off_t); ("read_pos", Scalar Pointer); ("read_end", Scalar Pointer);
    ("buffer", Scalar Pointer); ("request_pos", Scalar Pointer); ("write_buffer", Scalar Pointer);
    ("append_read_pos", Scalar Pointer); ("write_pos", Scalar Pointer); ("write_end", Scalar Pointer);
    ("current_pos", Scalar Pointer); ("current_end", Scalar Pointer); ("append_buffer_lock", st_mysql_mutex);
    ("share", Scalar Pointer); ("read_function", Scalar FunctionPointer); ("write_function", Scalar FunctionPointer);
    ("type", Scalar Enum); ("pre_read", Scalar FunctionPointer); ("post_read", Scalar FunctionPointer);
    ("pre_close", Scalar FunctionPointer); ("disk_writes", Scalar ULong); ("arg", Scalar Pointer);
    ("file_name", Scalar Pointer); ("dir", Scalar Pointer); ("prefix", Scalar Pointer); ("file", Scalar Int);
    ("seek_not_done", Scalar Int); ("error", Scalar Int); ("buffer_length", Scalar SizeT);
    ("read_length", Scalar SizeT); ("myflags", Scalar Int); ("alloced_buffer", Scalar Char)] ++
   when (defined "HAVE_AIOWAIT") [("inited", Scalar UInt); ("aio_read_pos", my_off_t);
     ("aio_result", my_aio_result)]).

(** ** Character sets *)

Definition MY_UNICASE_INFO : ctype := Struct
  ([("toupper", uint32); ("tolower", uint32); ("sort", uint32)]).
Definition MY_UNI_CTYPE : ctype := Struct
  ([("pctype", Scalar UChar); ("ctype", Scalar Pointer)]).
Definition MY_UNI_IDX : ctype := Struct
  ([("from", Scalar UShort); ("to", Scalar UShort); ("tab", Scalar Pointer)]).
Definition my_match_t : ctype := Struct
  ([("beg", Scalar UInt); ("end", Scalar UInt); ("mb_len", Scalar UInt)]).
Definition MY_COLLATION_HANDLER : ctype := Struct
  ([("init", Scalar FunctionPointer); ("strnncoll", Scalar FunctionPointer); ("strnncollsp", Scalar FunctionPointer);
    ("strnxfrm", Scalar FunctionPointer); ("strnxfrmlen", Scalar FunctionPointer);
    ("like_range", Scalar FunctionPointer); ("wildcmp", Scalar FunctionPointer);
    ("strcasecmp", Scalar FunctionPointer); ("instr", Scalar FunctionPointer); ("hash_sort", Scalar FunctionPointer);
    ("propagate", Scalar FunctionPointer)]).
Definition MY_CHARSET_HANDLER : ctype := Struct
  ([("init", Scalar FunctionPointer); ("ismbchar", Scalar FunctionPointer); ("mbcharlen", Scalar FunctionPointer);
    ("numchars", Scalar FunctionPointer); ("charpos", Scalar FunctionPointer);
    ("well_formed_len", Scalar FunctionPointer); ("lengthsp", Scalar FunctionPointer);
    ("numcells", Scalar FunctionPointer); ("mb_wc", Scalar FunctionPointer); ("wc_mb", Scalar FunctionPointer);
    ("ctype", Scalar FunctionPointer); ("caseup_str", Scalar FunctionPointer);
    ("casedn_str", Scalar FunctionPointer); ("caseup", Scalar FunctionPointer); ("casedn", Scalar FunctionPointer);
    ("snprintf", Scalar FunctionPointer); ("long10_to_str", Scalar FunctionPointer);
    ("longlong10_to_str", Scalar FunctionPointer); ("fill", Scalar FunctionPointer);
    ("strntol", Scalar FunctionPointer); ("strntoul", Scalar FunctionPointer); ("strntoll", Scalar FunctionPointer);
    ("strntoull", Scalar FunctionPointer); ("strntod", Scalar FunctionPointer);
    ("strtoll10", Scalar FunctionPointer); ("strntoull10rnd", Scalar FunctionPointer);
    ("scan", Scalar FunctionPointer)]).
Definition CHARSET_INFO : ctype := Struct
  ([("number", Scalar UInt); ("primary_number", Scalar UInt); ("binary_number", Scalar UInt); ("state", Scalar UInt);
    ("csname", Scalar Pointer); ("name", Scalar Pointer); ("comment", Scalar Pointer); ("tailoring", Scalar Pointer);
    ("ctype", Scalar Pointer); ("to_lower", Scalar Pointer); ("to_upper", Scalar Pointer);
    ("sort_order", Scalar Pointer); ("contractions", Scalar Pointer); ("sort_order_big", Scalar Pointer);
    ("tab_to_uni", Scalar Pointer); ("tab_from_uni", Scalar Pointer); ("caseinfo", Scalar Pointer);
    ("state_map", Scalar Pointer); ("ident_map", Scalar Pointer); ("strxfrm_multiply", Scalar UInt);
    ("caseup_multiply", Scalar UChar); ("casedn_multiply", Scalar UChar); ("mbminlen", Scalar UInt);
    ("mbmaxlen", Scalar UInt); ("min_sort_char", Scalar UShort); ("max_sort_char", Scalar UShort);
    ("pad_char", Scalar UChar); ("escape_with_backslash_is_dangerous", Scalar Char); ("cset", Scalar Pointer);
    ("coll", Scalar Pointer)]).

(** ** The client protocol and library *)

Definition NET : ctype := Struct
  (when (negb (defined "CHECK_EMBEDDED_DIFFERENCES") || negb (defined "EMBEDDED_LIBRARY")) [("vio", Scalar Pointer);
    ("buff", Scalar Pointer); ("buff_end", Scalar Pointer); ("write_pos", Scalar Pointer);
    ("read_pos", Scalar Pointer); ("fd", my_socket); ("remain_in_buf", Scalar ULong); ("length", Scalar ULong);
    ("buf_length", Scalar ULong); ("where_b", Scalar ULong); ("max_packet", Scalar ULong);
    ("max_packet_size", Scalar ULong); ("pkt_nr", Scalar UInt); ("compress_pkt_nr", Scalar UInt);
    ("write_timeout", Scalar UInt); ("read_timeout", Scalar UInt); ("retry_count", Scalar UInt);
    ("fcntl", Scalar Int); ("return_status", Scalar Pointer); ("reading_or_writing", Scalar UChar);
    ("save_char", Scalar Char); ("unused1", Scalar Char); ("unused2", Scalar Char); ("compress", Scalar Char);
    ("unused3", Scalar Char)] ++
   [("unused", Scalar Pointer); ("last_errno", Scalar UInt); ("error", Scalar UChar); ("unused4", Scalar Char);
     ("unused5", Scalar Char); ("last_error", Array (Scalar Char) Errors.MYSQL_ERRMSG_SIZE);
     ("sqlstate", Array (Scalar Char) (Errors.SQLSTATE_LENGTH + 1)); ("extension", Scalar Pointer)] ++
   when (defined "MYSQL_SERVER" && negb (defined "EMBEDDED_LIBRARY")) [("skip_big_packet", Scalar Char)]).
Definition rand_struct : ctype := Struct
  ([("seed1", Scalar ULong); ("seed2", Scalar ULong); ("max_value", Scalar ULong); ("max_value_dbl", Scalar Double)]).
Definition UDF_ARGS : ctype := Struct
  ([("arg_count", Scalar UInt); ("arg_type", Scalar Pointer); ("args", Scalar Pointer); ("lengths", Scalar Pointer);
    ("maybe_null", Scalar Pointer); ("attributes", Scalar Pointer); ("attribute_lengths", Scalar Pointer);
    ("extension", Scalar Pointer)]).
Definition UDF_INIT : ctype := Struct
  ([("maybe_null", Scalar Char); ("decimals", Scalar UInt); ("max_length", Scalar ULong); ("ptr", Scalar Pointer);
    ("const_item", Scalar Char); ("extension", Scalar Pointer)]).
Definition MYSQL_TIME : ctype := Struct
  ([("year", Scalar UInt); ("month", Scalar UInt); ("day", Scalar UInt); ("hour", Scalar UInt);
    ("minute", Scalar UInt); ("second", Scalar UInt); ("second_part", Scalar ULong); ("neg", Scalar Char);
    ("time_type", Scalar Enum)]).
Definition MYSQL_FIELD : ctype := Struct
  ([("name", Scalar Pointer); ("org_name", Scalar Pointer); ("table", Scalar Pointer); ("org_table", Scalar Pointer);
    ("db", Scalar Pointer); ("catalog", Scalar Pointer); ("def", Scalar Pointer); ("length", Scalar ULong);
    ("max_length", Scalar ULong); ("name_length", Scalar UInt); ("org_name_length", Scalar UInt);
    ("table_length", Scalar UInt); ("org_table_length", Scalar UInt); ("db_length", Scalar UInt);
    ("catalog_length", Scalar UInt); ("def_length", Scalar UInt); ("flags", Scalar UInt); ("decimals", Scalar UInt);
    ("charsetnr", Scalar UInt); ("type", Scalar Enum); ("extension", Scalar Pointer)]).
Definition MYSQL_ROWS : ctype := Struct
  ([("next", Scalar Pointer); ("data", Scalar Pointer); ("length", Scalar ULong)]).
Definition MYSQL_DATA : ctype := Struct
  ([("data", Scalar Pointer); ("embedded_info", Scalar Pointer); ("alloc", MEM_ROOT); ("rows", my_ulonglong);
    ("fields", Scalar UInt); ("extension", Scalar Pointer)]).
Definition st_mysql_options : ctype := Struct
  ([("connect_timeout", Scalar UInt); ("read_timeout", Scalar UInt); ("write_timeout", Scalar UInt);
    ("port", Scalar UInt); ("protocol", Scalar UInt); ("client_flag", Scalar ULong); ("host", Scalar Pointer);
    ("user", Scalar Pointer); ("password", Scalar Pointer); ("unix_socket", Scalar Pointer); ("db", Scalar Pointer);
    ("init_commands", Scalar Pointer); ("my_cnf_file", Scalar Pointer); ("my_cnf_group", Scalar Pointer);
    ("charset_dir", Scalar Pointer); ("charset_name", Scalar Pointer); ("ssl_key", Scalar Pointer);
    ("ssl_cert", Scalar Pointer); ("ssl_ca", Scalar Pointer); ("ssl_capath", Scalar Pointer);
    ("ssl_cipher", Scalar Pointer); ("shared_memory_base_name", Scalar Pointer);
    ("max_allowed_packet", Scalar ULong); ("use_ssl", Scalar Char); ("compress", Scalar Char);
    ("named_pipe", Scalar Char); ("unused1", Scalar Char); ("unused2", Scalar Char); ("unused3", Scalar Char);
    ("unused4", Scalar Char); ("methods_to_use", Scalar Enum); ("client_ip", Scalar Pointer);
    ("secure_auth", Scalar Char); ("report_data_truncation", Scalar Char);
    ("local_infile_init", Scalar FunctionPointer); ("local_infile_read", Scalar FunctionPointer);
    ("local_infile_end", Scalar FunctionPointer); ("local_infile_error", Scalar FunctionPointer);
    ("local_infile_userdata", Scalar Pointer); ("extension", Scalar Pointer)]).
Definition MY_CHARSET_INFO : ctype := Struct
  ([("number", Scalar UInt); ("state", Scalar UInt); ("csname", Scalar Pointer); ("name", Scalar Pointer);
    ("comment", Scalar Pointer); ("dir", Scalar Pointer); ("mbminlen", Scalar UInt); ("mbmaxlen", Scalar UInt)]).
Definition MYSQL : ctype := Struct
  ([("net", NET); ("connector_fd", Scalar Pointer); ("host", Scalar Pointer); ("user", Scalar Pointer);
    ("passwd", Scalar Pointer); ("unix_socket", Scalar Pointer); ("server_version", Scalar Pointer);
    ("host_info", Scalar Pointer); ("info", Scalar Pointer); ("db", Scalar Pointer); ("charset", Scalar Pointer);
    ("fields", Scalar Pointer); ("field_alloc", MEM_ROOT); ("affected_rows", my_ulonglong);
    ("insert_id", my_ulonglong); ("extra_info", my_ulonglong); ("thread_id", Scalar ULong);
    ("packet_length", Scalar ULong); ("port", Scalar UInt); ("client_flag", Scalar ULong);
    ("server_capabilities", Scalar ULong); ("protocol_version", Scalar UInt); ("field_count", Scalar UInt);
    ("server_status", Scalar UInt); ("server_language", Scalar UInt); ("warning_count", Scalar UInt);
    ("options", st_mysql_options); ("status", Scalar Enum); ("free_me", Scalar Char); ("reconnect", Scalar Char);
    ("scramble", Array (Scalar Char) (Protocol.SCRAMBLE_LENGTH + 1)); ("unused1", Scalar Char);
    ("unused2", Scalar Pointer); ("unused3", Scalar Pointer); ("unused4", Scalar Pointer);
    ("unused5", Scalar Pointer); ("stmts", Scalar Pointer); ("methods", Scalar Pointer); ("thd", Scalar Pointer);
    ("unbuffered_fetch_owner", Scalar Pointer); ("info_buffer", Scalar Pointer); ("extension", Scalar Pointer)]).
Definition MYSQL_RES : ctype := Struct
  ([("row_count", my_ulonglong); ("fields", Scalar Pointer); ("data", Scalar Pointer);
    ("data_cursor", Scalar Pointer); ("lengths", Scalar Pointer); ("handle", Scalar Pointer);
    ("methods", Scalar Pointer); ("row", Scalar Pointer); ("current_row", Scalar Pointer); ("field_alloc", MEM_ROOT);
    ("field_count", Scalar UInt); ("current_field", Scalar UInt); ("eof", Scalar Char);
    ("unbuffered_fetch_cancelled", Scalar Char); ("extension", Scalar Pointer)]).
Definition MYSQL_PARAMETERS : ctype := Struct
  ([("p_max_allowed_packet", Scalar Pointer); ("p_net_buffer_length", Scalar Pointer);
    ("extension", Scalar Pointer)]).
Definition MYSQL_BIND : ctype := Struct
  ([("length", Scalar Pointer); ("is_null", Scalar Pointer); ("buffer", Scalar Pointer); ("error", Scalar Pointer);
    ("row_ptr", Scalar Pointer); ("store_param_func", Scalar FunctionPointer);
    ("fetch_result", Scalar FunctionPointer); ("skip_result", Scalar FunctionPointer);
    ("buffer_length", Scalar ULong); ("offset", Scalar ULong); ("length_value", Scalar ULong);
    ("param_number", Scalar UInt); ("pack_length", Scalar UInt); ("buffer_type", Scalar Enum);
    ("error_value", Scalar Char); ("is_unsigned", Scalar Char); ("long_data_used", Scalar Char);
    ("is_null_value", Scalar Char); ("extension", Scalar Pointer)]).
Definition MYSQL_STMT : ctype := Struct
  ([("mem_root", MEM_ROOT); ("list", LIST); ("mysql", Scalar Pointer); ("params", Scalar Pointer);
    ("bind", Scalar Pointer); ("fields", Scalar Pointer); ("result", MYSQL_DATA); ("data_cursor", Scalar Pointer);
    ("read_row_func", Scalar FunctionPointer); ("affected_rows", my_ulonglong); ("insert_id", my_ulonglong);
    ("stmt_id", Scalar ULong); ("flags", Scalar ULong); ("prefetch_rows", Scalar ULong);
    ("server_status", Scalar UInt); ("last_errno", Scalar UInt); ("param_count", Scalar UInt);
    ("field_count", Scalar UInt); ("state", Scalar Enum);
    ("last_error", Array (Scalar Char) Errors.MYSQL_ERRMSG_SIZE);
    ("sqlstate", Array (Scalar Char) (Errors.SQLSTATE_LENGTH + 1)); ("send_types_to_server", Scalar Char);
    ("bind_param_done", Scalar Char); ("bind_result_done", Scalar UChar);
    ("unbuffered_fetch_cancelled", Scalar Char); ("update_max_length", Scalar Char); ("extension", Scalar Pointer)]).
Definition st_mysql_options_extention : ctype := Struct
  ([("plugin_dir", Scalar Pointer); ("default_auth", Scalar Pointer)]).
Definition MYSQL_METHODS : ctype := Struct
  ([("read_query_result", Scalar FunctionPointer); ("advanced_command", Scalar FunctionPointer);
    ("read_rows", Scalar FunctionPointer); ("use_result", Scalar FunctionPointer);
    ("fetch_lengths", Scalar FunctionPointer); ("flush_use_result", Scalar FunctionPointer);
    ("read_change_user_result", Scalar FunctionPointer)] ++
   when (negb (defined "MYSQL_SERVER") || defined "EMBEDDED_LIBRARY") [("list_fields", Scalar FunctionPointer);
     ("read_prepare_result", Scalar FunctionPointer); ("stmt_execute", Scalar FunctionPointer);
     ("read_binary_rows", Scalar FunctionPointer); ("unbuffered_fetch", Scalar FunctionPointer);
     ("free_embedded_thd", Scalar FunctionPointer); ("read_statistics", Scalar FunctionPointer);
     ("next_result", Scalar FunctionPointer); ("read_rows_from_cursor", Scalar FunctionPointer)]).

(** ** Plugins *)

Definition MYSQL_XID : ctype := Struct
  ([("formatID", Scalar Long); ("gtrid_length", Scalar Long); ("bqual_length", Scalar Long);
    ("data", Array (Scalar Char) MYSQL_XIDDATASIZE)]).
Definition st_mysql_show_var : ctype := Struct
  ([("name", Scalar Pointer); ("value", Scalar Pointer); ("type", Scalar Enum)]).
Definition st_mysql_plugin : ctype := Struct
  ([("type", Scalar Int); ("info", Scalar Pointer); ("name", Scalar Pointer); ("author", Scalar Pointer);
    ("descr", Scalar Pointer); ("license", Scalar Int); ("init", Scalar FunctionPointer);
    ("deinit", Scalar FunctionPointer); ("version", Scalar UInt); ("status_vars", Scalar Pointer);
    ("system_vars", Scalar Pointer); ("__reserved1", Scalar Pointer); ("flags", Scalar ULong)]).
Definition st_mysql_daemon : ctype := Struct
  ([("interface_version", Scalar Int)]).
Definition st_mysql_information_schema : ctype := Struct
  ([("interface_version", Scalar Int)]).
Definition st_mysql_storage_engine : ctype := Struct
  ([("interface_version", Scalar Int)]).
Definition Mysql_replication : ctype := Struct
  ([("interface_version", Scalar Int)]).
Definition st_mysql_value : ctype := Struct
  ([("value_type", Scalar FunctionPointer); ("val_str", Scalar FunctionPointer);
    ("val_real", Scalar FunctionPointer); ("val_int", Scalar FunctionPointer);
    ("is_unsigned", Scalar FunctionPointer)]).
Definition mysql_event_general : ctype := Struct
  ([("event_subclass", Scalar UInt); ("general_error_code", Scalar Int); ("general_thread_id", Scalar ULong);
    ("general_user", Scalar Pointer); ("general_user_length", Scalar UInt); ("general_command", Scalar Pointer);
    ("general_command_length", Scalar UInt); ("general_query", Scalar Pointer);
    ("general_query_length", Scalar UInt); ("general_charset", Scalar Pointer); ("general_time", Scalar ULongLong);
    ("general_rows", Scalar ULongLong)]).
Definition mysql_event_connection : ctype := Struct
  ([("event_subclass", Scalar UInt); ("status", Scalar Int); ("thread_id", Scalar ULong); ("user", Scalar Pointer);
    ("user_length", Scalar UInt); ("priv_user", Scalar Pointer); ("priv_user_length", Scalar UInt);
    ("external_user", Scalar Pointer); ("external_user_length", Scalar UInt); ("proxy_user", Scalar Pointer);
    ("proxy_user_length", Scalar UInt); ("host", Scalar Pointer); ("host_length", Scalar UInt);
    ("ip", Scalar Pointer); ("ip_length", Scalar UInt); ("database", Scalar Pointer);
    ("database_length", Scalar UInt)]).
Definition st_mysql_audit : ctype := Struct
  ([("interface_version", Scalar Int); ("release_thd", Scalar FunctionPointer);
    ("event_notify", Scalar FunctionPointer); ("class_mask", Array (Scalar ULong) MYSQL_AUDIT_CLASS_MASK_SIZE)]).
Definition MYSQL_FTPARSER_BOOLEAN_INFO : ctype := Struct
  ([("type", Scalar Enum); ("yesno", Scalar Int); ("weight_adjust", Scalar Int); ("wasign", Scalar Char);
    ("trunc", Scalar Char); ("prev", Scalar Char); ("quot", Scalar Pointer)]).
Definition MYSQL_FTPARSER_PARAM : ctype := Struct
  ([("mysql_parse", Scalar FunctionPointer); ("mysql_add_word", Scalar FunctionPointer);
    ("ftparser_state", Scalar Pointer); ("mysql_ftparam", Scalar Pointer); ("cs", Scalar Pointer);
    ("doc", Scalar Pointer); ("length", Scalar Int); ("flags", Scalar Int); ("mode", Scalar Enum)]).
Definition st_mysql_ftparser : ctype := Struct
  ([("interface_version", Scalar Int); ("parse", Scalar FunctionPointer); ("init", Scalar FunctionPointer);
    ("deinit", Scalar FunctionPointer)]).
Definition MYSQL_SERVER_AUTH_INFO : ctype := Struct
  ([("user_name", Scalar Pointer); ("user_name_length", Scalar UInt); ("auth_string", Scalar Pointer);
    ("auth_string_length", Scalar ULong); ("authenticated_as", Array (Scalar Char) (MYSQL_USERNAME_LENGTH + 1));
    ("external_user", Array (Scalar Char) 512); ("password_used", Scalar Int); ("host_or_ip", Scalar Pointer);
    ("host_or_ip_length", Scalar UInt)]).
Definition st_mysql_auth : ctype := Struct
  ([("interface_version", Scalar Int); ("client_auth_plugin", Scalar Pointer);
    ("authenticate_user", Scalar FunctionPointer)]).
Definition MYSQL_PLUGIN_VIO_INFO : ctype := Struct
  ([("protocol", Scalar Enum); ("socket", Scalar Int)] ++
   when (defined "_WIN32") [("handle", Scalar Pointer)]).
Definition MYSQL_PLUGIN_VIO : ctype := Struct
  ([("read_packet", Scalar FunctionPointer); ("write_packet", Scalar FunctionPointer);
    ("info", Scalar FunctionPointer)]).

(** ** Services *)

Definition MYSQL_LEX_STRING : ctype := Struct
  ([("str", Scalar Pointer); ("length", Scalar SizeT)]).
Definition st_mysql_const_lex_string : ctype := Struct
  ([("str", Scalar Pointer); ("length", Scalar SizeT)]).
Definition thd_alloc_service_st : ctype := Struct
  ([("thd_alloc_func", Scalar FunctionPointer); ("thd_calloc_func", Scalar FunctionPointer);
    ("thd_strdup_func", Scalar FunctionPointer); ("thd_strmake_func", Scalar FunctionPointer);
    ("thd_memdup_func", Scalar FunctionPointer); ("thd_make_lex_string_func", Scalar FunctionPointer)]).
Definition thd_wait_service_st : ctype := Struct
  ([("thd_wait_begin_func", Scalar FunctionPointer); ("thd_wait_end_func", Scalar FunctionPointer)]).
Definition my_thread_scheduler_service : ctype := Struct
  ([("set", Scalar FunctionPointer); ("reset", Scalar FunctionPointer)]).
Definition my_snprintf_service_st : ctype := Struct
  ([("my_snprintf_type", Scalar FunctionPointer); ("my_vsnprintf_type", Scalar FunctionPointer)]).

(** ** The performance schema *)

Definition PSI_mutex_info_v1 : ctype := Struct
  ([("m_key", Scalar Pointer); ("m_name", Scalar Pointer); ("m_flags", Scalar Int)]).
Definition PSI_rwlock_info_v1 : ctype := Struct
  ([("m_key", Scalar Pointer); ("m_name", Scalar Pointer); ("m_flags", Scalar Int)]).
Definition PSI_cond_info_v1 : ctype := Struct
  ([("m_key", Scalar Pointer); ("m_name", Scalar Pointer); ("m_flags", Scalar Int)]).
Definition PSI_thread_info_v1 : ctype := Struct
  ([("m_key", Scalar Pointer); ("m_name", Scalar Pointer); ("m_flags", Scalar Int)]).
Definition PSI_file_info_v1 : ctype := Struct
  ([("m_key", Scalar Pointer); ("m_name", Scalar Pointer); ("m_flags", Scalar Int)]).
Definition PSI_mutex_locker_state_v1 : ctype := Struct
  ([("m_flags", Scalar UInt); ("m_mutex", Scalar Pointer); ("m_thread", Scalar Pointer);
    ("m_timer_start", ulonglong); ("m_timer", Scalar FunctionPointer); ("m_operation", Scalar Enum);
    ("m_src_file", Scalar Pointer); ("m_src_line", Scalar Int); ("m_wait", Scalar Pointer)]).
Definition PSI_rwlock_locker_state_v1 : ctype := Struct
  ([("m_flags", Scalar UInt); ("m_rwlock", Scalar Pointer); ("m_thread", Scalar Pointer);
    ("m_timer_start", ulonglong); ("m_timer", Scalar FunctionPointer); ("m_operation", Scalar Enum);
    ("m_src_file", Scalar Pointer); ("m_src_line", Scalar Int); ("m_wait", Scalar Pointer)]).
Definition PSI_cond_locker_state_v1 : ctype := Struct
  ([("m_flags", Scalar UInt); ("m_cond", Scalar Pointer); ("m_mutex", Scalar Pointer); ("m_thread", Scalar Pointer);
    ("m_timer_start", ulonglong); ("m_timer", Scalar FunctionPointer); ("m_operation", Scalar Enum);
    ("m_src_file", Scalar Pointer); ("m_src_line", Scalar Int); ("m_wait", Scalar Pointer)]).
Definition PSI_file_locker_state_v1 : ctype := Struct
  ([("m_flags", Scalar UInt); ("m_file", Scalar Pointer); ("m_thread", Scalar Pointer);
    ("m_number_of_bytes", Scalar SizeT); ("m_timer_start", ulonglong); ("m_timer", Scalar FunctionPointer);
    ("m_operation", Scalar Enum); ("m_src_file", Scalar Pointer); ("m_src_line", Scalar Int);
    ("m_wait", Scalar Pointer)]).
Definition PSI_table_locker_state_v1 : ctype := Struct
  ([("m_flags", Scalar UInt); ("m_table", Scalar Pointer); ("m_table_share", Scalar Pointer);
    ("m_class", Scalar Pointer); ("m_thread", Scalar Pointer); ("m_timer_start", ulonglong);
    ("m_timer", Scalar FunctionPointer); ("m_index", Scalar UInt); ("m_lock_index", Scalar UInt);
    ("m_src_file", Scalar Pointer); ("m_src_line", Scalar Int); ("m_wait", Scalar Pointer)]).
Definition PSI_mutex_info_v2 : ctype := Struct
  ([("placeholder", Scalar Int)]).
Definition PSI_rwlock_info_v2 : ctype := Struct
  ([("placeholder", Scalar Int)]).
Definition PSI_cond_info_v2 : ctype := Struct
  ([("placeholder", Scalar Int)]).
Definition PSI_thread_info_v2 : ctype := Struct
  ([("placeholder", Scalar Int)]).
Definition PSI_file_info_v2 : ctype := Struct
  ([("placeholder", Scalar Int)]).
Definition PSI_mutex_locker_state_v2 : ctype := Struct
  ([("placeholder", Scalar Int)]).
Definition PSI_rwlock_locker_state_v2 : ctype := Struct
  ([("placeholder", Scalar Int)]).
Definition PSI_cond_locker_state_v2 : ctype := Struct
  ([("placeholder", Scalar Int)]).
Definition PSI_file_locker_state_v2 : ctype := Struct
  ([("placeholder", Scalar Int)]).
Definition PSI_table_locker_state_v2 : ctype := Struct
  ([("placeholder", Scalar Int)]).
Definition PSI_v2 : ctype := Struct
  ([("placeholder", Scalar Int)]).
Definition PSI_none : ctype := Struct
  ([("opaque", Scalar Int)]).
Definition db_stack_frame : ctype := Struct
  ([("func", Scalar Pointer); ("file", Scalar Pointer); ("level", Scalar UInt); ("prev", Scalar Pointer)]).
(** The table of the functions of the interface; all its members are pointers to functions. *)
Definition PSI_v1 : ctype := Struct
  ((fun member => (member, Scalar FunctionPointer)) <$>
   ["register_mutex"; "register_rwlock"; "register_cond"; "register_thread"; "register_file"; "init_mutex";
    "destroy_mutex"; "init_rwlock"; "destroy_rwlock"; "init_cond"; "destroy_cond"; "get_table_share";
    "release_table_share"; "open_table"; "close_table"; "create_file"; "spawn_thread"; "new_thread";
    "set_thread_id"; "get_thread"; "set_thread"; "delete_current_thread"; "delete_thread";
    "get_thread_mutex_locker"; "get_thread_rwlock_locker"; "get_thread_cond_locker"; "get_thread_table_locker";
    "get_thread_file_name_locker"; "get_thread_file_stream_locker"; "get_thread_file_descriptor_locker";
    "unlock_mutex"; "unlock_rwlock"; "signal_cond"; "broadcast_cond"; "start_mutex_wait"; "end_mutex_wait";
    "start_rwlock_rdwait"; "end_rwlock_rdwait"; "start_rwlock_wrwait"; "end_rwlock_wrwait"; "start_cond_wait";
    "end_cond_wait"; "start_table_wait"; "end_table_wait"; "start_file_open_wait"; "end_file_open_wait";
    "end_file_open_wait_and_bind_to_descriptor"; "start_file_wait"; "end_file_wait"]).
Definition PSI_bootstrap : ctype := Struct
  ([("get_interface", Scalar FunctionPointer)]).

(** ** Objects with a common beginning *)

Definition MYSQL_PLUGIN_VAR_HEADER : list (string * ctype) :=
  [("flags", Scalar Int); ("name", Scalar Pointer); ("comment", Scalar Pointer); ("check", Scalar FunctionPointer);
   ("update", Scalar FunctionPointer)].
(** What a [MYSQL_SYSVAR] points to. *)
Definition st_mysql_sys_var : ctype := Struct MYSQL_PLUGIN_VAR_HEADER.
Definition DECLARE_MYSQL_SYSVAR_BASIC (type : ctype) : ctype := Struct
  (MYSQL_PLUGIN_VAR_HEADER ++ [("value", Scalar Pointer); ("def_val", type)]).
Definition DECLARE_MYSQL_SYSVAR_SIMPLE (type : ctype) : ctype := Struct
  (MYSQL_PLUGIN_VAR_HEADER ++
   [("value", Scalar Pointer); ("def_val", type); ("min_val", type); ("max_val", type); ("blk_sz", type)]).
Definition DECLARE_MYSQL_SYSVAR_TYPELIB (type : ctype) : ctype := Struct
  (MYSQL_PLUGIN_VAR_HEADER ++ [("value", Scalar Pointer); ("def_val", type); ("typelib", Scalar Pointer)]).
Definition DECLARE_MYSQL_THDVAR_BASIC (type : ctype) : ctype := Struct
  (MYSQL_PLUGIN_VAR_HEADER ++ [("offset", Scalar Int); ("def_val", type); ("resolve", Scalar FunctionPointer)]).
Definition DECLARE_MYSQL_THDVAR_SIMPLE (type : ctype) : ctype := Struct
  (MYSQL_PLUGIN_VAR_HEADER ++
   [("offset", Scalar Int); ("def_val", type); ("min_val", type); ("max_val", type); ("blk_sz", type);
    ("resolve", Scalar FunctionPointer)]).
Definition DECLARE_MYSQL_THDVAR_TYPELIB (type : ctype) : ctype := Struct
  (MYSQL_PLUGIN_VAR_HEADER ++
   [("offset", Scalar Int); ("def_val", type); ("resolve", Scalar FunctionPointer); ("typelib", Scalar Pointer)]).

Definition MYSQL_CLIENT_PLUGIN_HEADER : list (string * ctype) :=
  [("type", Scalar Int); ("interface_version", Scalar UInt); ("name", Scalar Pointer); ("author", Scalar Pointer);
   ("desc", Scalar Pointer); ("version", Array (Scalar UInt) 3); ("license", Scalar Pointer);
   ("mysql_api", Scalar Pointer); ("init", Scalar FunctionPointer); ("deinit", Scalar FunctionPointer);
   ("options", Scalar FunctionPointer)].
Definition st_mysql_client_plugin : ctype := Struct MYSQL_CLIENT_PLUGIN_HEADER.
Definition st_mysql_client_plugin_AUTHENTICATION : ctype := Struct
  (MYSQL_CLIENT_PLUGIN_HEADER ++ [("authenticate_user", Scalar FunctionPointer)]).

(** ** All structures *)

(** The structures of the headers of clients: mysql.h and what it includes, and the client plugins. *)
Definition client_structures : list (string * ctype) :=
  [("LIST", LIST); ("USED_MEM", USED_MEM); ("MEM_ROOT", MEM_ROOT); ("NET", NET); ("UDF_ARGS", UDF_ARGS);
   ("UDF_INIT", UDF_INIT); ("rand_struct", rand_struct); ("MYSQL_TIME", MYSQL_TIME); ("MYSQL_FIELD", MYSQL_FIELD);
   ("MYSQL_ROWS", MYSQL_ROWS); ("MYSQL_DATA", MYSQL_DATA); ("st_mysql_options", st_mysql_options);
   ("MY_CHARSET_INFO", MY_CHARSET_INFO); ("MYSQL", MYSQL); ("MYSQL_RES", MYSQL_RES);
   ("MYSQL_PARAMETERS", MYSQL_PARAMETERS); ("MYSQL_BIND", MYSQL_BIND); ("MYSQL_STMT", MYSQL_STMT);
   ("TYPELIB", TYPELIB); ("st_mysql_client_plugin", st_mysql_client_plugin);
   ("st_mysql_client_plugin_AUTHENTICATION", st_mysql_client_plugin_AUTHENTICATION);
   ("MYSQL_PLUGIN_VIO_INFO", MYSQL_PLUGIN_VIO_INFO); ("MYSQL_PLUGIN_VIO", MYSQL_PLUGIN_VIO)].
(** The other structures. *)
Definition server_structures : list (string * ctype) :=
  [("safe_mutex_t", safe_mutex_t); ("my_pthread_fastmutex_t", my_pthread_fastmutex_t);
   ("win_cond_events", win_cond_events); ("pthread_link", pthread_link); ("pthread_attr_t", pthread_attr_t);
   ("st_my_rw_lock_t", st_my_rw_lock_t); ("win_rw_lock_native", win_rw_lock_native);
   ("win_rw_lock_portable", win_rw_lock_portable); ("st_mysql_mutex", st_mysql_mutex);
   ("rw_pr_lock_t", rw_pr_lock_t); ("st_mysql_rwlock", st_mysql_rwlock); ("st_mysql_prlock", st_mysql_prlock);
   ("st_mysql_cond", st_mysql_cond); ("st_mysql_file", st_mysql_file); ("safe_mutex_info_t", safe_mutex_info_t);
   ("st_my_thread_var", st_my_thread_var); ("my_option", my_option); ("decimal_t", decimal_t);
   ("KEYCACHE_WQUEUE", KEYCACHE_WQUEUE); ("KEY_CACHE", KEY_CACHE); ("my_stat", my_stat); ("FILEINFO", FILEINFO);
   ("MY_DIR", MY_DIR); ("MY_XML_PARSER", MY_XML_PARSER); ("my_aio_result", my_aio_result);
   ("RECORD_CACHE", RECORD_CACHE); ("st_my_file_info", st_my_file_info); ("DYNAMIC_ARRAY", DYNAMIC_ARRAY);
   ("MY_TMPDIR", MY_TMPDIR); ("DYNAMIC_STRING", DYNAMIC_STRING); ("IO_CACHE_SHARE", IO_CACHE_SHARE);
   ("IO_CACHE", IO_CACHE); ("MY_UNICASE_INFO", MY_UNICASE_INFO); ("MY_UNI_CTYPE", MY_UNI_CTYPE);
   ("MY_UNI_IDX", MY_UNI_IDX); ("my_match_t", my_match_t); ("MY_COLLATION_HANDLER", MY_COLLATION_HANDLER);
   ("MY_CHARSET_HANDLER", MY_CHARSET_HANDLER); ("CHARSET_INFO", CHARSET_INFO);
   ("st_mysql_options_extention", st_mysql_options_extention); ("MYSQL_METHODS", MYSQL_METHODS);
   ("MYSQL_XID", MYSQL_XID); ("st_mysql_show_var", st_mysql_show_var); ("st_mysql_plugin", st_mysql_plugin);
   ("st_mysql_daemon", st_mysql_daemon); ("st_mysql_information_schema", st_mysql_information_schema);
   ("st_mysql_storage_engine", st_mysql_storage_engine); ("Mysql_replication", Mysql_replication);
   ("st_mysql_value", st_mysql_value); ("mysql_event_general", mysql_event_general);
   ("mysql_event_connection", mysql_event_connection); ("st_mysql_audit", st_mysql_audit);
   ("MYSQL_FTPARSER_BOOLEAN_INFO", MYSQL_FTPARSER_BOOLEAN_INFO); ("MYSQL_FTPARSER_PARAM", MYSQL_FTPARSER_PARAM);
   ("st_mysql_ftparser", st_mysql_ftparser); ("MYSQL_SERVER_AUTH_INFO", MYSQL_SERVER_AUTH_INFO);
   ("st_mysql_auth", st_mysql_auth); ("MYSQL_LEX_STRING", MYSQL_LEX_STRING);
   ("st_mysql_const_lex_string", st_mysql_const_lex_string); ("thd_alloc_service_st", thd_alloc_service_st);
   ("thd_wait_service_st", thd_wait_service_st); ("my_thread_scheduler_service", my_thread_scheduler_service);
   ("my_snprintf_service_st", my_snprintf_service_st); ("PSI_mutex_info_v1", PSI_mutex_info_v1);
   ("PSI_rwlock_info_v1", PSI_rwlock_info_v1); ("PSI_cond_info_v1", PSI_cond_info_v1);
   ("PSI_thread_info_v1", PSI_thread_info_v1); ("PSI_file_info_v1", PSI_file_info_v1);
   ("PSI_mutex_locker_state_v1", PSI_mutex_locker_state_v1);
   ("PSI_rwlock_locker_state_v1", PSI_rwlock_locker_state_v1);
   ("PSI_cond_locker_state_v1", PSI_cond_locker_state_v1); ("PSI_file_locker_state_v1", PSI_file_locker_state_v1);
   ("PSI_table_locker_state_v1", PSI_table_locker_state_v1); ("PSI_mutex_info_v2", PSI_mutex_info_v2);
   ("PSI_rwlock_info_v2", PSI_rwlock_info_v2); ("PSI_cond_info_v2", PSI_cond_info_v2);
   ("PSI_thread_info_v2", PSI_thread_info_v2); ("PSI_file_info_v2", PSI_file_info_v2);
   ("PSI_mutex_locker_state_v2", PSI_mutex_locker_state_v2);
   ("PSI_rwlock_locker_state_v2", PSI_rwlock_locker_state_v2);
   ("PSI_cond_locker_state_v2", PSI_cond_locker_state_v2); ("PSI_file_locker_state_v2", PSI_file_locker_state_v2);
   ("PSI_table_locker_state_v2", PSI_table_locker_state_v2); ("PSI_v2", PSI_v2); ("PSI_none", PSI_none);
   ("db_stack_frame", db_stack_frame); ("PSI_v1", PSI_v1); ("win_timespec", win_timespec); ("PSI_bootstrap", PSI_bootstrap); ("st_mysql_sys_var", st_mysql_sys_var)].
Definition structures : list (string * ctype) := client_structures ++ server_structures.
End Structs.

(** ** Groups of objects *)

Section Objects.
Context `{Platform}.
Definition sysvar_objects (type : ctype) : list ctype :=
  [DECLARE_MYSQL_SYSVAR_BASIC type; DECLARE_MYSQL_SYSVAR_SIMPLE type; DECLARE_MYSQL_SYSVAR_TYPELIB type].
Definition thdvar_objects (type : ctype) : list ctype :=
  [DECLARE_MYSQL_THDVAR_BASIC type; DECLARE_MYSQL_THDVAR_SIMPLE type; DECLARE_MYSQL_THDVAR_TYPELIB type].
(** What the [info] of a [st_mysql_plugin] points to, by the type of the plugin. *)
Definition descriptors : list ctype :=
  [st_mysql_daemon; st_mysql_information_schema; st_mysql_storage_engine; Mysql_replication; st_mysql_audit;
   st_mysql_ftparser; st_mysql_auth].
(** A type with its fields, their offsets, its size and its alignment. *)
Definition layout (x : string * ctype) : string * Z * Z * list (string * Z) :=
  (x.1, sizeof x.2, alignof x.2, fst <$> fields_of x.2).
End Objects.

(** The macros that change the layout of a structure. *)
Definition client_macros : list string :=
  ["_WIN32"; "__WIN__"; "NO_CLIENT_LONG_LONG"; "CHECK_EMBEDDED_DIFFERENCES"; "EMBEDDED_LIBRARY"; "MYSQL_SERVER"].
Definition layout_macros : list string := client_macros ++
  ["HAVE_LONG_LONG"; "SAFE_MUTEX"; "SAFE_MUTEX_DETECT_DESTROY"; "MY_PTHREAD_FASTMUTEX"; "USE_MUTEX_INSTEAD_OF_RW_LOCKS";
   "HAVE_PTHREAD_RWLOCK_RDLOCK"; "HAVE_BROKEN_RWLOCK"; "HAVE_RWLOCK_INIT"; "HAVE_RWLOCK_T"; "DBUG_OFF"; "HAVE_AIOWAIT";
   "HAVE_PREAD"; "NOT_YET_IMPLEMENTED"].

(** ** Some platforms *)

(** The usual data models, by the sizes of [long] and of pointers, with a set of macros; the size of an
    opaque type depends on its name. *)
Definition data_model (long pointer : Z) (macros : list string) : Platform := {|
  size_of_scalar s := match s with
    | Char | UChar => 1
    | Short | UShort => 2
    | Int | UInt | Float | Enum => 4
    | Long | ULong => long
    | LongLong | ULongLong | Double => 8
    | SizeT | Pointer | FunctionPointer => pointer
    | Opaque type => 8 * (1 + Z.of_nat (String.length type))
    end;
  align_of_scalar s := match s with
    | Char | UChar => 1
    | Short | UShort => 2
    | Int | UInt | Float | Enum => 4
    | Long | ULong => long
    | SizeT | Pointer | FunctionPointer => pointer
    | LongLong | ULongLong | Double | Opaque _ => 8
    end;
  defined m := bool_decide (m ∈ macros) |}.

Lemma data_model_laws (long pointer : Z) (macros : list string) :
  long ∈ [4; 8] -> pointer ∈ [4; 8] -> PlatformLaws (H := data_model long pointer macros).
Proof.
  intros Hl Hp.
  assert (Hpow : forall z, z ∈ [4; 8] -> exists k, 0 <= k /\ z = 2 ^ k).
  { intros z Hz. repeat (apply elem_of_cons in Hz as [->|Hz]); [by exists 2|by exists 3|by apply not_elem_of_nil in Hz]. }
  assert (0 < long /\ 0 < pointer) as [? ?].
  { apply Hpow in Hl as (k & ? & ->), Hp as (k' & ? & ->). lia. }
  split; intros []; cbn; try (apply Hpow; assumption); try done.
  all: first [by exists 0|by exists 1|by exists 2|by exists 3|lia|apply Z.divide_factor_l].
Qed.

(** For each macro a set of other macros under which it changes a layout. *)
Definition deciding_contexts : list (string * list string) :=
  [("_WIN32", []); ("__WIN__", []); ("NO_CLIENT_LONG_LONG", ["__WIN__"]);
   ("CHECK_EMBEDDED_DIFFERENCES", ["EMBEDDED_LIBRARY"]); ("EMBEDDED_LIBRARY", ["CHECK_EMBEDDED_DIFFERENCES"]);
   ("MYSQL_SERVER", []); ("HAVE_LONG_LONG", []); ("SAFE_MUTEX", []); ("SAFE_MUTEX_DETECT_DESTROY", []);
   ("MY_PTHREAD_FASTMUTEX", []); ("USE_MUTEX_INSTEAD_OF_RW_LOCKS", []); ("HAVE_PTHREAD_RWLOCK_RDLOCK", []);
   ("HAVE_BROKEN_RWLOCK", ["HAVE_RWLOCK_INIT"]); ("HAVE_RWLOCK_INIT", []); ("HAVE_RWLOCK_T", ["HAVE_RWLOCK_INIT"]);
   ("DBUG_OFF", []); ("HAVE_AIOWAIT", []); ("HAVE_PREAD", []); ("NOT_YET_IMPLEMENTED", [])].

(** Linux on 64 bits, in a build of the server. *)
Definition linux64 : Platform :=
  data_model 8 8 ["HAVE_LONG_LONG"; "HAVE_PTHREAD_RWLOCK_RDLOCK"; "HAVE_PREAD"; "DBUG_OFF"; "MYSQL_SERVER"].

(** ** Helpers *)

Lemma wf_struct (fs : list (string * ctype)) :
  fs <> [] -> Forall (fun f => well_formed f.2) fs -> well_formed (Struct fs).
Proof.
  intros Hne Hfs. cbn [well_formed]. apply andb_True. split; [by destruct fs|].
  clear Hne. induction Hfs; [done|]. cbn. by apply andb_True.
Qed.

Lemma wf_union (fs : list (string * ctype)) :
  fs <> [] -> Forall (fun f => well_formed f.2) fs -> well_formed (Union fs).
Proof. apply wf_struct. Qed.

Lemma wf_array (t : ctype) (n : Z) : 0 <? n -> well_formed t -> well_formed (Array t n).
Proof. intros Hn Ht. by apply andb_True. Qed.

Lemma Forall_when (P : string * ctype -> Prop) (b : bool) (fs : list (string * ctype)) : Forall P fs -> Forall P (when b fs).
Proof. by destruct b; [|intros; apply Forall_nil_2]. Qed.

Create HintDb layout.
#[export] Hint Constants Opaque : layout.
Ltac head_of t := lazymatch t with ?f _ => head_of f | _ => t end.
(** Follows the definition of a type, in every configuration. *)
Ltac well_formed_type :=
  lazymatch goal with
  | |- Forall _ [] => apply Forall_nil_2
  | |- Forall _ (_ :: _) => apply Forall_cons_2; [cbn [snd]|]; well_formed_type
  | |- Forall _ (when _ _) => apply Forall_when; well_formed_type
  | |- Forall _ (_ ++ _) => apply Forall_app_2; well_formed_type
  | |- Forall _ ?l => let h := head_of l in unfold h; well_formed_type
  | |- Is_true (well_formed (Scalar _)) => exact I
  | |- Is_true (well_formed (Array _ _)) => apply wf_array; [exact I|well_formed_type]
  | |- Is_true (well_formed (Struct _)) => apply wf_struct; [by repeat match goal with |- context [when ?b ?l] => destruct (when b l) end|well_formed_type]
  | |- Is_true (well_formed (Union _)) => apply wf_union; [done|well_formed_type]
  | |- Is_true (well_formed (if ?b then _ else _)) => destruct b; well_formed_type
  | |- Is_true (well_formed ?t) =>
      first [solve [eauto with nocore layout]
            |let h := head_of t in unfold h; well_formed_type]
  end.

Section WellFormed.
Context `{Platform}.
Lemma wf_my_socket : well_formed my_socket. Proof. well_formed_type. Qed.
Lemma wf_uint32 : well_formed uint32. Proof. well_formed_type. Qed.
Lemma wf_ulonglong : well_formed ulonglong. Proof. well_formed_type. Qed.
Lemma wf_longlong : well_formed longlong. Proof. well_formed_type. Qed.
Lemma wf_my_ulonglong : well_formed my_ulonglong. Proof. well_formed_type. Qed.
Lemma wf_my_off_t : well_formed my_off_t. Proof. well_formed_type. Qed.
Lemma wf_pthread_mutex_t : well_formed pthread_mutex_t. Proof. well_formed_type. Qed.
Lemma wf_pthread_cond_t : well_formed pthread_cond_t. Proof. well_formed_type. Qed.
End WellFormed.
#[export] Hint Resolve wf_my_socket wf_uint32 wf_ulonglong wf_longlong wf_my_ulonglong wf_my_off_t wf_pthread_mutex_t
  wf_pthread_cond_t : layout.
Section WellFormedObjects.
Context `{Platform}.
Lemma wf_rw_lock_t : well_formed rw_lock_t. Proof. well_formed_type. Qed.
Lemma wf_st_mysql_mutex : well_formed st_mysql_mutex. Proof. well_formed_type. Qed.
Lemma wf_st_mysql_cond : well_formed st_mysql_cond. Proof. well_formed_type. Qed.
Lemma wf_MEM_ROOT : well_formed MEM_ROOT. Proof. well_formed_type. Qed.
Lemma wf_NET : well_formed NET. Proof. well_formed_type. Qed.
End WellFormedObjects.
#[export] Hint Resolve wf_rw_lock_t wf_st_mysql_mutex wf_st_mysql_cond wf_MEM_ROOT wf_NET : layout.

Ltac distinct_names :=
  repeat match goal with |- context [when ?b ?l] => destruct b; cbn [when] end; apply (bool_decide_unpack _); vm_compute; exact I.

(** Every entry of the list is a structure with fields of different names. *)
Lemma structures_well_formed `{Platform} :
  Forall (fun x => exists fs, x.2 = Struct fs /\ well_formed (Struct fs) /\ NoDup fs.*1) structures.
Proof.
  apply Forall_app_2; repeat (apply Forall_cons_2; [|]); try apply Forall_nil_2; cbn [snd].
  all: (eexists; split; [reflexivity|]).
  all: (split; [well_formed_type|distinct_names]).
Qed.

(** Takes the macros and the sizes from the second platform. *)
Ltac same_definitions Hm :=
  repeat match goal with
  | |- context [@defined ?P ?m] => lazymatch type of Hm with forall m, _ -> @defined P m = _ => rewrite (Hm m) by (apply (bool_decide_unpack _); exact I) end
  end.

(** Agreement on some macros is enough for the client structures, on more for the others. *)
Lemma client_structures_same (P1 P2 : Platform) :
  (forall m, m ∈ client_macros -> @defined P1 m = @defined P2 m) -> @client_structures P1 = @client_structures P2.
Proof.
  unfold client_macros. intros Hm.
  cbv [client_structures NET MYSQL MYSQL_DATA MYSQL_RES MYSQL_STMT MYSQL_PLUGIN_VIO_INFO my_socket my_ulonglong].
  same_definitions Hm. reflexivity.
Qed.

Lemma server_structures_same (P1 P2 : Platform) : same_scalars P1 P2 ->
  (forall m, m ∈ layout_macros -> @defined P1 m = @defined P2 m) -> @server_structures P1 = @server_structures P2.
Proof.
  unfold layout_macros, client_macros. cbn [app]. intros Hs Hm.
  cbv [server_structures
    my_socket uint32 ulonglong longlong my_ulonglong my_off_t pthread_t native_mutex safe_mutex_t
    my_pthread_fastmutex_t pthread_mutex_t win_cond_events win_cond_t pthread_cond_t st_my_rw_lock_t
    win_rw_lock_portable win_rw_lock_t my_rw_lock_t rw_lock_t st_mysql_mutex rw_pr_lock_t st_mysql_rwlock
    st_mysql_prlock st_mysql_cond safe_mutex_info_t st_my_thread_var my_option KEY_CACHE RECORD_CACHE
    st_my_file_info MY_TMPDIR IO_CACHE_SHARE IO_CACHE MY_UNICASE_INFO NET MYSQL_DATA MYSQL MYSQL_RES MYSQL_STMT
    MYSQL_METHODS MYSQL_PLUGIN_VIO_INFO PSI_mutex_locker_state_v1 PSI_rwlock_locker_state_v1
    PSI_cond_locker_state_v1 PSI_file_locker_state_v1 PSI_table_locker_state_v1].
  rewrite !(same_size _ _ Hs). same_definitions Hm. reflexivity.
Qed.

Lemma layout_same (P1 P2 : Platform) : same_scalars P1 P2 -> forall x, layout (H := P1) x = layout (H := P2) x.
Proof. intros Hs [n t]. unfold layout. cbn. by rewrite (sizeof_ext P1 P2 Hs), (alignof_ext P1 P2 Hs), (fields_of_ext P1 P2 Hs). Qed.

Lemma deciding_contexts_decide :
  Forall (fun x => map (layout (H := data_model 4 4 x.2)) (structures (H := data_model 4 4 x.2)) <>
     map (layout (H := data_model 4 4 (x.1 :: x.2))) (structures (H := data_model 4 4 (x.1 :: x.2)))) deciding_contexts.
Proof. apply (bool_decide_unpack _); vm_compute; exact I. Qed.

Lemma data_model_scalars (long pointer : Z) (macros macros' : list string) :
  same_scalars (data_model long pointer macros) (data_model long pointer macros').
Proof. done. Qed.

(** The table has a member for each slot of Psi.v. *)
Lemma PSI_v1_slots `{Platform} : Z.of_nat (length (fields_of PSI_v1)) = Psi.PSI_v1_members.
Proof. reflexivity. Qed.

(** ** Theorems *)

(** On every platform (any sizes and power-of-two alignments of the scalar types, any set
    of defined macros), each of the structures of the headers is laid out soundly: its size is positive and
    a multiple of its alignment, its fields have different names and lie one after the other without overlap,
    and every scalar in it, also in nested structures, arrays and unions, is inside of it and aligned
    wherever the structure is. *)
Lemma structures_sound `{Platform} : PlatformLaws -> forall name t, (name, t) ∈ structures ->
  exists fs, t = Struct fs /\ sound fs.
Proof.
  intros Hlaws name t Hin. pose proof structures_well_formed as Hall.
  rewrite Forall_forall in Hall. destruct (Hall _ Hin) as (fs & Heq & Hwf & Hnd). eauto using well_formed_sound.
Qed.

(** C29.  An object that is accessed through a pointer to its header has the fields of the
    header at the same offsets, whatever the platform and the type of the values: the objects of the six
    DECLARE_MYSQL macros as [st_mysql_sys_var], an authentication plugin as a [st_mysql_client_plugin], the
    descriptors of all plugin types as their first field, the portable rwlock of Windows as the one of
    Unix, and the fields of [MY_DIR] as the first two of [DYNAMIC_ARRAY].  As the comment of the macros
    says, in a global variable the pointer to the value is the first element after the header and in a
    thread variable the offset is, and the default is the second: the first is at an offset that is the
    same for all objects, the second at one that only depends on the type of the value. *)
Theorem headers_of_objects `{Platform} : PlatformLaws ->
  (forall type object, well_formed type -> object ∈ sysvar_objects type ++ thdvar_objects type ->
     views st_mysql_sys_var object) /\
  views st_mysql_client_plugin st_mysql_client_plugin_AUTHENTICATION /\
  (forall d, d ∈ descriptors -> views st_mysql_daemon d) /\
  win_rw_lock_portable = st_my_rw_lock_t /\
  (fun x => (x.1.2, x.2)) <$> fields_of MY_DIR = (fun x => (x.1.2, x.2)) <$> take 2 (fields_of DYNAMIC_ARRAY) /\
  (exists value_at, forall type, exists def_at, forall object, object ∈ sysvar_objects type ->
     fields_of object !! 5%nat = Some ("value", value_at, Scalar Pointer) /\
     fields_of object !! 6%nat = Some ("def_val", def_at, type)) /\
  (exists offset_at, forall type, exists def_at, forall object, object ∈ thdvar_objects type ->
     fields_of object !! 5%nat = Some ("offset", offset_at, Scalar Int) /\
     fields_of object !! 6%nat = Some ("def_val", def_at, type)).
Proof.
  intros Hlaws. split_and!.
  - intros type object Htype Hobj. repeat (apply elem_of_cons in Hobj as [->|Hobj]; [|]);
      try (by apply not_elem_of_nil in Hobj).
    all: apply prefix_views, wf_struct; [done|repeat (apply Forall_cons_2; [done|]); apply Forall_nil_2].
  - apply prefix_views. vm_compute. exact I.
  - intros d Hd. unfold descriptors in Hd. repeat (apply elem_of_cons in Hd as [->|Hd]; [|]);
      try (by apply not_elem_of_nil in Hd).
    all: apply (prefix_views [_]); vm_compute; exact I.
  - reflexivity.
  - reflexivity.
  - eexists. intros type. eexists. intros object Hobj. repeat (apply elem_of_cons in Hobj as [->|Hobj]; [|]);
      try (by apply not_elem_of_nil in Hobj).
    all: split; reflexivity.
  - eexists. intros type. eexists. intros object Hobj. repeat (apply elem_of_cons in Hobj as [->|Hobj]; [|]);
      try (by apply not_elem_of_nil in Hobj).
    all: split; reflexivity.
Qed.

Lemma headers_of_objects_witness :
  PlatformLaws (H := linux64) /\
  views (H := linux64) st_mysql_sys_var (DECLARE_MYSQL_THDVAR_SIMPLE (Scalar ULongLong)).
Proof.
  assert (Hlaws : PlatformLaws (H := linux64)) by (apply data_model_laws; right; left).
  split; [exact Hlaws|]. apply (proj1 (headers_of_objects (H := linux64) Hlaws) (Scalar ULongLong)); [exact I|].
  do 4 right. left.
Defined.

(** C30.  Two builds with the same scalar types lay out the structures of the client headers in
    the same way when they agree on the six macros of [client_macros], and all structures when they agree on
    the nineteen of [layout_macros].  Compiling with or without the instrumentation is not among them, as the
    comments on the hooks promise (never conditionally defined, for binary compatibility).  The list is exact:
    each of its macros alone changes a layout on some platform (__WIN__, which only names the type of 64 bits in another
    way, on one where that type is of another size). *)
Theorem layouts_depend_on (P1 P2 : Platform) : same_scalars P1 P2 ->
  ((forall m, m ∈ client_macros -> defined (Platform := P1) m = defined (Platform := P2) m) ->
     map (layout (H := P1)) (client_structures (H := P1)) = map (layout (H := P2)) (client_structures (H := P2))) /\
  ((forall m, m ∈ layout_macros -> defined (Platform := P1) m = defined (Platform := P2) m) ->
     map (layout (H := P1)) (structures (H := P1)) = map (layout (H := P2)) (structures (H := P2))) /\
  ~ ("HAVE_PSI_INTERFACE" ∈ layout_macros) /\
  (forall m, m ∈ layout_macros -> exists Q1 Q2 : Platform, PlatformLaws (H := Q1) /\ PlatformLaws (H := Q2) /\
     same_scalars Q1 Q2 /\
     (forall m', m' <> m -> defined (Platform := Q1) m' = defined (Platform := Q2) m') /\
     map (layout (H := Q1)) (structures (H := Q1)) <> map (layout (H := Q2)) (structures (H := Q2))).
Proof.
  intros Hs. split_and!.
  - intros Hm. rewrite (client_structures_same P1 P2 Hm). apply map_ext, layout_same, Hs.
  - intros Hm. unfold structures.
    rewrite (client_structures_same P1 P2), (server_structures_same P1 P2 Hs Hm) by (intros; apply Hm, elem_of_app; by left).
    apply map_ext, layout_same, Hs.
  - apply (bool_decide_unpack _). vm_compute. exact I.
  - intros m Hin. assert (Hctx : exists ms, (m, ms) ∈ deciding_contexts).
    { assert (Hm : m ∈ deciding_contexts.*1) by exact Hin. apply list_elem_of_fmap in Hm as ([n ms] & -> & Hm). eauto. }
    destruct Hctx as [ms Hctx]. pose proof deciding_contexts_decide as Hdiff. rewrite Forall_forall in Hdiff.
    exists (data_model 4 4 ms), (data_model 4 4 (m :: ms)).
    split_and!; [apply data_model_laws; left..|apply data_model_scalars| |apply (Hdiff _ Hctx)].
    intros m' Hne. cbn. apply bool_decide_ext. rewrite elem_of_cons. tauto.
Qed.

Lemma layouts_depend_on_witness :
  same_scalars (data_model 8 8 ["DBUG_OFF"]) (data_model 8 8 []) /\
  map (layout (H := data_model 8 8 ["DBUG_OFF"])) (client_structures (H := data_model 8 8 ["DBUG_OFF"])) =
  map (layout (H := data_model 8 8 [])) (client_structures (H := data_model 8 8 [])).
Proof.
  split; [exact (data_model_scalars 8 8 ["DBUG_OFF"] [])|].
  apply (proj1 (layouts_depend_on _ _ (data_model_scalars 8 8 ["DBUG_OFF"] []))).
  intros m Hm. cbn. unfold client_macros in Hm. repeat (apply elem_of_cons in Hm as [->|Hm]; [reflexivity|]).
  by apply not_elem_of_nil in Hm.
Defined.
