(* ===== verification/Preprocessor.v ===== *)
(** * The preprocessor

    The directives of a header as a tree, what they do with the defined macros, and an analyser that runs
    them with partial knowledge of the macros and of what the headers of the system do.  The analyser is
    sound: when it accepts a header, no run of the header meets an [#error], and what it says of a
    macro holds after every run.  HeaderConfig.v and HeaderGlobal.v have the directives of my_config.h and
    my_global.h, Configuration.v what the analyser finds. *)
From stdpp Require Import gmap strings.
From S2P Require Import Prelude.

(** ** Directives *)

(** The replacement of a macro: a number, an identifier, a string, other tokens (with single for double
    quotes), nothing, or that of a macro with parameters. *)
Inductive replacement :=
  | Num (z : Z) | Id (x : string) | Str (s : string) | Text (s : string) | Empty | Macro (params : string).
#[export] Instance replacement_eq_dec : EqDecision replacement.
Proof. solve_decision. Defined.

Inductive comparison := Eq_ | Ne | Lt_ | Gt_ | Le | Ge.
Inductive expr :=
  | ENum (z : Z) | EId (x : string) | EDefined (x : string) | ENot (e : expr)
  | EAnd (e1 e2 : expr) | EOr (e1 e2 : expr) | ECmp (c : comparison) (e1 e2 : expr) | ESub (e1 e2 : expr).

(** Declarations between the directives do not matter, but for the typedefs. *)
Unset Elimination Schemes.
Inductive directive :=
  | Define (x : string) (r : replacement)
  | Undef (x : string)
  | Include (header : string)
  | Error
  | Typedef (x : string) (type : string)
  | If (c : expr) (then_ else_ : list directive).
Set Elimination Schemes.

Lemma directive_nested_ind (P : directive -> Prop) :
  (forall x r, P (Define x r)) -> (forall x, P (Undef x)) -> (forall h, P (Include h)) -> P Error ->
  (forall x t, P (Typedef x t)) -> (forall c t e, Forall P t -> Forall P e -> P (If c t e)) -> forall d, P d.
Proof.
  intros Hd Hu Hi He Ht Hif. fix IH 1. intros [x r|x|h| |x t|c t e]; [apply Hd|apply Hu|apply Hi|exact He|apply Ht|].
  apply Hif; [induction t as [|d t IHt]|induction e as [|d e IHe]]; constructor; auto.
Qed.

(** ** What they do *)

(** The macros that are defined; the typedefs under their name after [typedef_of]. *)
Abbreviation env := (gmap string replacement).
Definition typedef_of (x : string) : string := "typedef " +:+ x.

(** A macro in an [#if]: identifiers that are left after the replacements are 0; what is no number is an
    error ([None]).  Chains of replacements are followed for eight steps. *)
Fixpoint number_of (fuel : nat) (m : string -> option replacement) (x : string) : option Z :=
  match fuel with
  | O => None
  | S fuel =>
    match m x with
    | None | Some (Macro _) => Some 0
    | Some (Num z) => Some z
    | Some (Id y) => number_of fuel m y
    | Some _ => None
    end
  end.
Definition FUEL : nat := 8.

Definition compare (c : comparison) (a b : Z) : bool :=
  match c with
  | Eq_ => a =? b | Ne => negb (a =? b) | Lt_ => a <? b | Gt_ => b <? a | Le => a <=? b | Ge => b <=? a
  end.

Fixpoint eval (m : env) (e : expr) : option Z :=
  match e with
  | ENum z => Some z
  | EId x => number_of FUEL (fun x => m !! x) x
  | EDefined x => Some (if m !! x is Some _ then 1 else 0)
  | ENot e => a ← eval m e; Some (Z.b2z (a =? 0))
  | EAnd e1 e2 => a ← eval m e1; b ← eval m e2; Some (Z.b2z (negb (a =? 0) && negb (b =? 0)))
  | EOr e1 e2 => a ← eval m e1; b ← eval m e2; Some (Z.b2z (negb (a =? 0) || negb (b =? 0)))
  | ECmp c e1 e2 => a ← eval m e1; b ← eval m e2; Some (Z.b2z (compare c a b))
  | ESub e1 e2 => a ← eval m e1; b ← eval m e2; Some (a - b)
  end.

Section Run.
(** The headers of the system, which the sources do not have. *)
Context (system : string -> env -> env).

(** One directive after the other; [None] is an error of the compilation. *)
Fixpoint all {A} (f : directive -> A -> option A) (ds : list directive) (m : A) : option A :=
  match ds with [] => Some m | d :: ds => m' ← f d m; all f ds m' end.

Fixpoint exec (d : directive) (m : env) : option env :=
  match d with
  | Define x r => Some (<[x := r]> m)
  | Undef x => Some (delete x m)
  | Include h => Some (system h m)
  | Error => None
  | Typedef x t => Some (<[typedef_of x := Text t]> m)
  | If c t e => a ← eval m c; if a =? 0 then all exec e m else all exec t m
  end.
Definition preprocess (ds : list directive) (m : env) : option env := all exec ds m.
End Run.

(** ** The analyser *)

(** What is known of a macro: its replacement, or that it is none; that it is a number if it is defined. *)
Inductive known := Is (r : option replacement) | Numeric.
#[export] Instance known_eq_dec : EqDecision known.
Proof. solve_decision. Defined.

Definition holds (k : known) (r : option replacement) : Prop :=
  match k with Is r' => r = r' | Numeric => r = None \/ exists z, r = Some (Num z) end.

Section Analyse.
(** The names that no header of the system touches. *)
Context (reserved : string -> bool).

(** What is known of the reserved names, and of the others. *)
Record aenv := { own : gmap string known; others : gmap string known }.
Definition lookup_known (a : aenv) (x : string) : option known := if reserved x then own a !! x else others a !! x.
Definition set_known (x : string) (k : known) (a : aenv) : aenv :=
  if reserved x then {| own := <[x := k]> (own a); others := others a |}
  else {| own := own a; others := <[x := k]> (others a) |}.
Definition nothing_known : aenv := {| own := ∅; others := ∅ |}.
Definition describes (a : aenv) (m : env) : Prop := forall x k, lookup_known a x = Some k -> holds k (m !! x).

(** The value of an expression may not exist, may be any, or is known. *)
Inductive avalue := Fails | Any | Value (z : Z).
Definition abind (v : avalue) (f : Z -> avalue) : avalue :=
  match v with Fails => Fails | Any => Any | Value z => f z end.

Fixpoint anumber_of (fuel : nat) (a : aenv) (x : string) : avalue :=
  match fuel with
  | O => Fails
  | S fuel =>
    match lookup_known a x with
    | Some (Is None) | Some (Is (Some (Macro _))) => Value 0
    | Some (Is (Some (Num z))) => Value z
    | Some (Is (Some (Id y))) => anumber_of fuel a y
    | Some Numeric => Any
    | _ => Fails
    end
  end.

(** Both sides have to have a value; [f] says when one of them decides. *)
Definition abinary (decide1 : Z -> option Z) (f : Z -> Z -> Z) (v1 v2 : avalue) : avalue :=
  match v1, v2 with
  | Fails, _ | _, Fails => Fails
  | Value a, Value b => Value (f a b)
  | Value a, Any | Any, Value a => if decide1 a is Some z then Value z else Any
  | Any, Any => Any
  end.

Fixpoint aeval (a : aenv) (e : expr) : avalue :=
  match e with
  | ENum z => Value z
  | EId x => anumber_of FUEL a x
  | EDefined x => match lookup_known a x with Some (Is (Some _)) => Value 1 | Some (Is None) => Value 0 | _ => Any end
  | ENot e => match aeval a e with Fails => Fails | Any => Any | Value z => Value (Z.b2z (z =? 0)) end
  | EAnd e1 e2 => abinary (fun z => if z =? 0 then Some 0 else None)
      (fun a b => Z.b2z (negb (a =? 0) && negb (b =? 0))) (aeval a e1) (aeval a e2)
  | EOr e1 e2 => abinary (fun z => if z =? 0 then None else Some 1)
      (fun a b => Z.b2z (negb (a =? 0) || negb (b =? 0))) (aeval a e1) (aeval a e2)
  | ECmp c e1 e2 => abinary (fun _ => None) (fun a b => Z.b2z (compare c a b)) (aeval a e1) (aeval a e2)
  | ESub e1 e2 => abinary (fun _ => None) Z.sub (aeval a e1) (aeval a e2)
  end.

(** What two descriptions have in common. *)
Definition numeric (k : known) : bool := match k with Is None | Is (Some (Num _)) | Numeric => true | _ => false end.
Definition join1 (k1 k2 : option known) : option known :=
  match k1, k2 with
  | Some k1, Some k2 => if decide (k1 = k2) then Some k1 else if numeric k1 && numeric k2 then Some Numeric else None
  | _, _ => None
  end.

(** The names that a directive defines or undefines, and whether it includes a header of the system. *)
Fixpoint assigned (d : directive) : list string :=
  match d with
  | Define x _ | Undef x => [x]
  | Typedef x _ => [typedef_of x]
  | Include _ | Error => []
  | If _ t e => flat_map assigned t ++ flat_map assigned e
  end.
Fixpoint includes (d : directive) : bool :=
  match d with Include _ => true | If _ t e => existsb includes t || existsb includes e | _ => false end.

Definition forget (x : string) (a : aenv) : aenv :=
  if reserved x then {| own := delete x (own a); others := others a |}
  else {| own := own a; others := delete x (others a) |}.
Definition put (x : string) (k : option known) (a : aenv) : aenv :=
  if k is Some k then set_known x k a else forget x a.
Definition after_include (a : aenv) : aenv := {| own := own a; others := ∅ |}.

(** After one of two branches that start from [a] and end in [a1] and [a2]: what they do not assign is as before. *)
Definition join (d : directive) (a a1 a2 : aenv) : aenv :=
  foldr (fun x => put x (join1 (lookup_known a1 x) (lookup_known a2 x)))
    (if includes d then after_include a else a) (assigned d).

Fixpoint aexec (d : directive) (a : aenv) : option aenv :=
  match d with
  | Define x r => Some (set_known x (Is (Some r)) a)
  | Undef x => Some (set_known x (Is None) a)
  | Include h => Some (after_include a)
  | Error => None
  | Typedef x t => Some (set_known (typedef_of x) (Is (Some (Text t))) a)
  | If c t e =>
    match aeval a c with
    | Fails => None
    | Value z => if z =? 0 then all aexec e a else all aexec t a
    | Any => a1 ← all aexec t a; a2 ← all aexec e a; Some (join d a a1 a2)
    end
  end.
Definition analyse (ds : list directive) (a : aenv) : option aenv := all aexec ds a.
End Analyse.

(** ** Soundness *)

Section Soundness.
Context (system : string -> env -> env) (reserved : string -> bool).
Abbreviation describes := (describes reserved).

Definition predicts (v : avalue) (o : option Z) : Prop :=
  match v with Fails => True | Any => is_Some o | Value z => o = Some z end.

Lemma anumber_of_sound (a : aenv) (m : env) : describes a m -> forall fuel x,
  predicts (anumber_of reserved fuel a x) (number_of fuel (fun x => m !! x) x).
Proof.
  intros Ha. induction fuel as [|fuel IH]; intros x; cbn [anumber_of number_of]; [done|].
  destruct (lookup_known reserved a x) as [k|] eqn:Hk; [|done]. specialize (Ha x k Hk).
  destruct k as [[[]|]|]; cbn in Ha; rewrite ?Ha; cbn; try done.
  destruct Ha as [-> | [z ->]]; cbn; eauto.
Qed.

Lemma abinary_sound (dec : Z -> option Z) (f : Z -> Z -> Z) (v1 v2 : avalue) (o1 o2 : option Z) :
  (forall x z, dec x = Some z -> forall y, f x y = z /\ f y x = z) -> predicts v1 o1 -> predicts v2 o2 ->
  predicts (abinary dec f v1 v2) (a ← o1; b ← o2; Some (f a b)).
Proof.
  intros Hd H1 H2. destruct v1, v2; cbn in *; try done.
  - destruct H1 as [a ->], H2 as [b ->]. by eexists.
  - destruct H1 as [a ->]. rewrite H2. cbn. destruct (dec z) as [w|] eqn:E; cbn; [|by eexists].
    by destruct (Hd _ _ E a) as [_ ->].
  - destruct H2 as [b ->]. rewrite H1. cbn. destruct (dec z) as [w|] eqn:E; cbn; [|by eexists].
    by destruct (Hd _ _ E b) as [-> _].
  - by rewrite H1, H2.
Qed.

Lemma aeval_sound (a : aenv) (m : env) (e : expr) : describes a m -> predicts (aeval reserved a e) (eval m e).
Proof.
  intros Ha. induction e as [z|x|x|e IH|e1 IH1 e2 IH2|e1 IH1 e2 IH2|c e1 IH1 e2 IH2|e1 IH1 e2 IH2]; cbn [aeval eval].
  - done.
  - by apply anumber_of_sound.
  - destruct (lookup_known reserved a x) as [k|] eqn:Hk; [|by eexists]. specialize (Ha x k Hk).
    destruct k as [[]|]; cbn in Ha; rewrite ?Ha; by try eexists.
  - destruct (aeval reserved a e); cbn in *; [done| |by rewrite IH]. destruct IH as [z ->]. by eexists.
  - apply abinary_sound; [|done..]. intros x z. destruct (Z.eqb_spec x 0) as [->|]; [|done]. intros [= <-] y.
    by rewrite andb_false_r.
  - apply abinary_sound; [|done..]. intros x z. destruct (Z.eqb_spec x 0); [done|]. intros [= <-] y.
    cbn. by rewrite orb_true_r.
  - by apply (abinary_sound (fun _ => None)).
  - by apply (abinary_sound (fun _ => None)).
Qed.

Lemma lookup_set_known (a : aenv) (x y : string) (k : known) :
  lookup_known reserved (set_known reserved x k a) y = if decide (x = y) then Some k else lookup_known reserved a y.
Proof.
  unfold lookup_known, set_known. destruct (decide (x = y)) as [->|Hne].
  - destruct (reserved y); apply lookup_insert_eq.
  - destruct (reserved x), (reserved y); try done; by apply lookup_insert_ne.
Qed.

Lemma describes_set (a : aenv) (m m' : env) (x : string) (k : known) :
  describes a m -> holds k (m' !! x) -> (forall y, x <> y -> m' !! y = m !! y) -> describes (set_known reserved x k a) m'.
Proof.
  intros Ha Hk Hm y k'. rewrite lookup_set_known. destruct (decide (x = y)) as [<-|Hne]; [by intros [= <-]|].
  rewrite Hm by done. apply Ha.
Qed.

Lemma describes_insert (a : aenv) (m : env) (x : string) (r : replacement) :
  describes a m -> describes (set_known reserved x (Is (Some r)) a) (<[x := r]> m).
Proof. intros Ha. apply (describes_set a m); [done|apply lookup_insert_eq|intros; by apply lookup_insert_ne]. Qed.

Lemma describes_delete (a : aenv) (m : env) (x : string) :
  describes a m -> describes (set_known reserved x (Is None) a) (delete x m).
Proof. intros Ha. apply (describes_set a m); [done|apply lookup_delete_eq|intros; by apply lookup_delete_ne]. Qed.

Lemma numeric_holds (k : known) (r : option replacement) : numeric k = true -> holds k r -> holds Numeric r.
Proof. destruct k as [[[]|]|]; cbn; try done; intros _ ->; eauto. Qed.

Lemma lookup_put (a : aenv) (x y : string) (k : option known) :
  lookup_known reserved (put reserved x k a) y = if decide (x = y) then k else lookup_known reserved a y.
Proof.
  destruct k as [k|]; [apply lookup_set_known|]. unfold put, lookup_known, forget.
  destruct (decide (x = y)) as [->|Hne].
  - destruct (reserved y); apply lookup_delete_eq.
  - destruct (reserved x), (reserved y); try done; by apply lookup_delete_ne.
Qed.

Lemma lookup_join_names (a a1 a2 : aenv) (names : list string) (y : string) :
  lookup_known reserved
    (foldr (fun x => put reserved x (join1 (lookup_known reserved a1 x) (lookup_known reserved a2 x))) a names) y =
  if decide (y ∈ names) then join1 (lookup_known reserved a1 y) (lookup_known reserved a2 y) else lookup_known reserved a y.
Proof.
  induction names as [|x names IH]; cbn [foldr]; [by rewrite decide_False by apply not_elem_of_nil|].
  rewrite lookup_put, IH. destruct (decide (x = y)) as [->|Hne].
  - by rewrite decide_True by left.
  - destruct (decide (y ∈ names)) as [Hin|Hin]; [by rewrite decide_True by (by right)|].
    rewrite decide_False; [done|]. by intros [->|?]%elem_of_cons.
Qed.

Lemma join1_holds (k1 k2 : option known) (k : known) (r : option replacement) : join1 k1 k2 = Some k ->
  (forall k', k1 = Some k' -> holds k' r) \/ (forall k', k2 = Some k' -> holds k' r) -> holds k r.
Proof.
  unfold join1. destruct k1 as [k1|], k2 as [k2|]; try done. destruct (decide (k1 = k2)) as [<-|].
  - intros [= <-] [Hk|Hk]; by apply Hk.
  - destruct (numeric k1 && numeric k2) eqn:En; [|done]. intros [= <-] Hk. apply andb_true_iff in En as [H1 H2].
    destruct Hk as [Hk|Hk]; [eapply (numeric_holds k1)|eapply (numeric_holds k2)]; eauto.
Qed.

(** The headers of the system leave the reserved names alone. *)
Definition respects_reserved : Prop :=
  forall h m x, reserved x = true -> system h m !! x = m !! x.
Context (Hsys : respects_reserved).

(** What a directive does not assign is as before; the headers of the system may touch the names that are not
    reserved. *)
Definition frames (d : directive) : Prop := forall x, x ∉ assigned d -> reserved x = true \/ includes d = false ->
  forall m m', exec system d m = Some m' -> m' !! x = m !! x.

Lemma all_frame (ds : list directive) (x : string) : Forall frames ds ->
  x ∉ flat_map assigned ds -> reserved x = true \/ existsb includes ds = false ->
  forall m m', preprocess system ds m = Some m' -> m' !! x = m !! x.
Proof.
  unfold preprocess. induction 1 as [|d ds Hd _ IH]; cbn [all flat_map existsb]; intros Hx Hr m m'; [by intros [= <-]|].
  apply not_elem_of_app in Hx as [Hx1 Hx2]. rewrite orb_false_iff in Hr.
  destruct (exec system d m) as [m1|] eqn:E; [|done]. cbn [mbind option_bind]. intros Hrest.
  rewrite (IH Hx2 ltac:(tauto) m1 m' Hrest). apply (Hd x Hx1 ltac:(tauto) m m1 E).
Qed.

Lemma exec_frame (d : directive) : frames d.
Proof.
  induction d as [x r|x|h| |x t|c t e IHt IHe] using directive_nested_ind; unfold frames; cbn [assigned includes exec];
    intros y Hy Hr m m'.
  - intros [= <-]. apply lookup_insert_ne. intros ->. apply Hy. left.
  - intros [= <-]. apply lookup_delete_ne. intros ->. apply Hy. left.
  - intros [= <-]. destruct Hr as [Hr|]; [by apply Hsys|done].
  - done.
  - intros [= <-]. apply lookup_insert_ne. intros Heq. apply Hy. rewrite Heq. left.
  - apply not_elem_of_app in Hy as [Hy1 Hy2]. rewrite orb_false_iff in Hr.
    destruct (eval m c) as [z|]; [|done]. cbn [mbind option_bind].
    destruct (z =? 0); [apply (all_frame e)|apply (all_frame t)]; auto; tauto.
Qed.

(** Joining two branches describes what either of them ends in. *)
Lemma join_describes (c : expr) (t e : list directive) (a a1 a2 : aenv) (m m' : env) : describes a m ->
  (preprocess system t m = Some m' /\ describes a1 m') \/ (preprocess system e m = Some m' /\ describes a2 m') ->
  describes (join reserved (If c t e) a a1 a2) m'.
Proof.
  intros Ha Hbranch x k. unfold join. rewrite lookup_join_names. cbn [assigned includes].
  destruct (decide (x ∈ flat_map assigned t ++ flat_map assigned e)) as [_|Hx].
  - intros Hk. apply (join1_holds _ _ _ _ Hk). destruct Hbranch as [[_ H1]|[_ H2]]; [left|right]; intros k' Hk'; auto.
  - apply not_elem_of_app in Hx as [Hx1 Hx2]. intros Hk.
    assert (Hr : (reserved x = true \/ existsb includes t || existsb includes e = false) /\ lookup_known reserved a x = Some k).
    { destruct (existsb includes t || existsb includes e); [|auto]. revert Hk. unfold lookup_known, after_include. cbn [own others].
      destruct (reserved x); [auto|by rewrite lookup_empty]. }
    destruct Hr as [Hr Hk']. rewrite orb_false_iff in Hr.
    assert (Hall : forall ds, Forall frames ds) by (intros; apply Forall_true, exec_frame).
    assert (Hm : m' !! x = m !! x).
    { destruct Hbranch as [[Ht _]|[He _]]; [apply (all_frame t)|apply (all_frame e)]; auto; tauto. }
    rewrite Hm. by apply Ha.
Qed.

Lemma all_sound (ds : list directive) :
  Forall (fun d => forall a a' m, describes a m -> aexec reserved d a = Some a' ->
    exists m', exec system d m = Some m' /\ describes a' m') ds ->
  forall a a' m, describes a m -> analyse reserved ds a = Some a' ->
    exists m', preprocess system ds m = Some m' /\ describes a' m'.
Proof.
  unfold analyse, preprocess. induction 1 as [|d ds Hd _ IH]; intros a a' m Ha; cbn [all].
  - intros [= <-]. eauto.
  - destruct (aexec reserved d a) as [a1|] eqn:E; [|done]. cbn. intros Hrest.
    destruct (Hd a a1 m Ha E) as (m1 & -> & Ha1). cbn. by apply (IH a1).
Qed.

Lemma aexec_sound (d : directive) : forall a a' m, describes a m -> aexec reserved d a = Some a' ->
  exists m', exec system d m = Some m' /\ describes a' m'.
Proof.
  induction d as [x r|x|h| |x t|c t e IHt IHe] using directive_nested_ind; intros a a' m Ha; cbn [aexec exec].
  - intros [= <-]. eauto using describes_insert.
  - intros [= <-]. eauto using describes_delete.
  - intros [= <-]. eexists. split; [done|]. intros x k. unfold lookup_known, after_include. cbn [own others].
    destruct (reserved x) eqn:Hr; [|by rewrite lookup_empty]. intros Hx. rewrite Hsys by done.
    apply Ha. unfold lookup_known. by rewrite Hr.
  - done.
  - intros [= <-]. eauto using describes_insert.
  - pose proof (aeval_sound a m c Ha) as Hc. destruct (aeval reserved a c) as [| |z]; [done| |].
    + destruct Hc as [z ->]. cbn [mbind option_bind].
      destruct (all (aexec reserved) t a) as [a1|] eqn:E1; [|done]. cbn [mbind option_bind].
      destruct (all (aexec reserved) e a) as [a2|] eqn:E2; [|done]. cbn [mbind option_bind]. intros [= <-].
      destruct (z =? 0).
      * destruct (all_sound e IHe a a2 m Ha E2) as (m' & Hm & Ha'). exists m'. split; [done|]. eauto using join_describes.
      * destruct (all_sound t IHt a a1 m Ha E1) as (m' & Hm & Ha'). exists m'. split; [done|]. eauto using join_describes.
    + rewrite Hc. cbn [mbind option_bind]. destruct (z =? 0); by apply all_sound.
Qed.

Lemma analyse_sound (ds : list directive) (a a' : aenv) (m : env) :
  describes a m -> analyse reserved ds a = Some a' ->
  exists m', preprocess system ds m = Some m' /\ describes a' m'.
Proof. apply all_sound, Forall_true. intros d. apply aexec_sound. Qed.
End Soundness.
