(* ===== verification/HeaderConfig.v ===== *)
(** * The configuration of the distribution (my_config.h)

    The directives of my_config.h in the order of the file, and the names it leaves undefined. *)
From stdpp Require Import strings.
From S2P Require Import Prelude Preprocessor.

Definition config_headers : list directive :=
  [Define "DOT_FRM_VERSION" (Num 6);
   Define "STDC_HEADERS" (Num 1);
   Define "HAVE_BSEARCH" (Num 1);
   Define "HAVE_FCNTL_H" (Num 1);
   Define "HAVE_FLOAT_H" (Num 1);
   Define "HAVE_LIMITS_H" (Num 1);
   Define "HAVE_LOCALE_H" (Num 1);
   Define "HAVE_MALLOC_H" (Num 1);
   Define "HAVE_MEMORY_H" (Num 1);
   Define "HAVE_STDDEF_H" (Num 1);
   Define "HAVE_STDLIB_H" (Num 1);
   Define "HAVE_STDARG_H" (Num 1);
   Define "HAVE_STRING_H" (Num 1);
   Define "HAVE_SYS_STAT_H" (Num 1);
   Define "HAVE_SYS_TIMEB_H" (Num 1);
   Define "HAVE_SYS_TYPES_H" (Num 1);
   Define "HAVE_TIME_H" (Num 1);
   Define "HAVE_VARARGS_H" (Num 1);
   Define "HAVE_SYS_UTIME_H" (Num 1)].

Definition config_headers_undef : list string :=
  ["_GNU_SOURCE"; "HAVE_ALLOCA_H"; "HAVE_AIO_H"; "HAVE_ARPA_INET_H"; "HAVE_ASM_MSR_H"; "HAVE_ASM_TERMBITS_H";
   "HAVE_CRYPT_H"; "HAVE_CURSES_H"; "HAVE_CXXABI_H"; "HAVE_NCURSES_H"; "HAVE_NDIR_H"; "HAVE_DIRENT_H";
   "HAVE_DLFCN_H"; "HAVE_EXECINFO_H"; "HAVE_FENV_H"; "HAVE_FLOATINGPOINT_H"; "HAVE_FNMATCH_H";
   "HAVE_FPU_CONTROL_H"; "HAVE_GRP_H"; "HAVE_EXPLICIT_TEMPLATE_INSTANTIATION"; "HAVE_IA64INTRIN_H";
   "HAVE_IEEEFP_H"; "HAVE_INTTYPES_H"; "HAVE_NETINET_IN_H"; "HAVE_PATHS_H"; "HAVE_POLL_H"; "HAVE_PORT_H";
   "HAVE_PWD_H"; "HAVE_SCHED_H"; "HAVE_SELECT_H"; "HAVE_SOLARIS_LARGE_PAGES"; "HAVE_STRINGS_H"; "HAVE_STDINT_H";
   "HAVE_SEMAPHORE_H"; "HAVE_SYNCH_H"; "HAVE_SYSENT_H"; "HAVE_SYS_DIR_H"; "HAVE_SYS_CDEFS_H"; "HAVE_SYS_FILE_H";
   "HAVE_SYS_FPU_H"; "HAVE_SYS_IOCTL_H"; "HAVE_SYS_IPC_H"; "HAVE_SYS_MALLOC_H"; "HAVE_SYS_MMAN_H";
   "HAVE_SYS_NDIR_H"; "HAVE_SYS_PTE_H"; "HAVE_SYS_PTEM_H"; "HAVE_SYS_PRCTL_H"; "HAVE_SYS_RESOURCE_H";
   "HAVE_SYS_SELECT_H"; "HAVE_SYS_SHM_H"; "HAVE_SYS_SOCKET_H"; "HAVE_SYS_STREAM_H"; "HAVE_SYS_TERMCAP_H";
   "HAVE_SYS_TIMES_H"; "HAVE_SYS_TIME_H"; "HAVE_SYS_UN_H"; "HAVE_SYS_VADVISE_H"; "HAVE_TERM_H";
   "HAVE_TERMBITS_H"; "HAVE_TERMIOS_H"; "HAVE_TERMIO_H"; "HAVE_TERMCAP_H"; "HAVE_UNISTD_H"; "HAVE_UTIME_H";
   "HAVE_VIS_H"; "HAVE_SYS_WAIT_H"; "HAVE_SYS_PARAM_H"; "HAVE_LIBPTHREAD"; "HAVE_LIBM"; "HAVE_LIBDL";
   "HAVE_LIBRT"; "HAVE_LIBSOCKET"; "HAVE_LIBNSL"; "HAVE_LIBCRYPT"; "HAVE_LIBMTMALLOC"; "HAVE_LIBWRAP";
   "HAVE_TIMESPEC_TS_SEC"; "HAVE_HIST_ENTRY"; "USE_LIBEDIT_INTERFACE"; "USE_NEW_READLINE_INTERFACE";
   "FIONREAD_IN_SYS_IOCTL"; "GWINSZ_IN_SYS_IOCTL"; "TIOCSTAT_IN_SYS_IOCTL"; "FIONREAD_IN_SYS_FILIO"].

Definition config_functions : list directive :=
  [Define "HAVE_ALLOCA" (Num 1);
   Define "HAVE_CXX_NEW" (Num 1);
   Define "HAVE_FINITE" (Num 1);
   Define "HAVE_FTIME" (Num 1);
   Define "HAVE_GETADDRINFO" (Num 1);
   Define "HAVE_GETCWD" (Num 1);
   Define "HAVE_ISNAN" (Num 1);
   Define "HAVE_LDIV" (Num 1);
   Define "HAVE_LONGJMP" (Num 1);
   Define "HAVE_MEMCPY" (Num 1);
   Define "HAVE_MEMMOVE" (Num 1);
   Define "HAVE_PERROR" (Num 1)].

Definition config_functions_undef : list string :=
  ["HAVE_AIOWAIT"; "HAVE_ALARM"; "HAVE_BFILL"; "HAVE_BMOVE"; "HAVE_BZERO"; "HAVE_INDEX"; "HAVE_CHOWN";
   "HAVE_CLOCK_GETTIME"; "HAVE_CRYPT"; "HAVE_CUSERID"; "HAVE_DIRECTIO"; "HAVE_DLERROR"; "HAVE_DLOPEN";
   "HAVE_DOPRNT"; "HAVE_FCHMOD"; "HAVE_FCNTL"; "HAVE_FCONVERT"; "HAVE_FDATASYNC"; "HAVE_FESETROUND";
   "HAVE_FP_EXCEPT"; "HAVE_FPSETMASK"; "HAVE_FSEEKO"; "HAVE_FSYNC"; "HAVE_GETHOSTBYADDR_R"; "HAVE_GETHRTIME";
   "HAVE_GETLINE"; "HAVE_GETNAMEINFO"; "HAVE_GETPAGESIZE"; "HAVE_GETPASS"; "HAVE_GETPASSPHRASE"; "HAVE_GETPWNAM";
   "HAVE_GETPWUID"; "HAVE_GETRLIMIT"; "HAVE_GETRUSAGE"; "HAVE_GETTIMEOFDAY"; "HAVE_GETWD"; "HAVE_GMTIME_R";
   "gmtime_r"; "HAVE_INITGROUPS"; "HAVE_ISSETUGID"; "HAVE_GETUID"; "HAVE_GETEUID"; "HAVE_GETGID"; "HAVE_GETEGID";
   "HAVE_ISINF"; "HAVE_LARGE_PAGE_OPTION"; "HAVE_LRAND48"; "HAVE_LOCALTIME_R"; "HAVE_LOG2"; "HAVE_LSTAT";
   "HAVE_MEMALIGN"; "HAVE_MLOCK"; "HAVE_NPTL"; "HAVE_NL_LANGINFO"; "HAVE_MADVISE"; "HAVE_DECL_MADVISE";
   "HAVE_DECL_TGOTO"; "HAVE_DECL_MHA_MAPSIZE_VA"; "HAVE_MALLINFO"; "HAVE_MKSTEMP"; "HAVE_MLOCKALL"; "HAVE_MMAP";
   "HAVE_MMAP64"; "HAVE_POLL"; "HAVE_PORT_CREATE"; "HAVE_POSIX_FALLOCATE"; "HAVE_PREAD";
   "HAVE_PAUSE_INSTRUCTION"; "HAVE_FAKE_PAUSE_INSTRUCTION"; "HAVE_RDTSCLL"].

Definition config_functions2 : list directive :=
  [Define "HAVE_PUTENV" (Num 1);
   Define "HAVE_RENAME" (Num 1);
   Define "HAVE_SELECT" (Num 1);
   Define "HAVE_SETLOCALE" (Num 1);
   Define "HAVE_SNPRINTF" (Num 1);
   Define "HAVE_STRERROR" (Num 1);
   Define "HAVE_STRCOLL" (Num 1);
   Define "HAVE_STRNLEN" (Num 1);
   Define "HAVE_STRPBRK" (Num 1);
   Define "HAVE_STRSTR" (Num 1);
   Define "HAVE_STRTOK_R" (Num 1);
   Define "HAVE_STRTOL" (Num 1);
   Define "HAVE_STRTOLL" (Num 1);
   Define "HAVE_STRTOUL" (Num 1);
   Define "HAVE_STRTOULL" (Num 1);
   Define "HAVE_TELL" (Num 1);
   Define "HAVE_TEMPNAM" (Num 1);
   Define "HAVE_TIME" (Num 1);
   Define "HAVE_VIO_READ_BUFF" (Num 1);
   Define "HAVE_VPRINTF" (Num 1);
   Define "HAVE_VSNPRINTF" (Num 1);
   Define "HAVE_TZNAME" (Num 1);
   Define "HAVE_IPV6" (Num 1);
   Define "SPRINTF_RETURNS_INT" (Num 1);
   Define "USE_MB" (Num 1);
   Define "USE_MB_IDENT" (Num 1)].

Definition config_functions2_undef : list string :=
  ["HAVE_READ_REAL_TIME"; "HAVE_PTHREAD_ATTR_CREATE"; "HAVE_PTHREAD_ATTR_GETSTACKSIZE";
   "HAVE_PTHREAD_ATTR_SETPRIO"; "HAVE_PTHREAD_ATTR_SETSCHEDPARAM"; "HAVE_PTHREAD_ATTR_SETSCOPE";
   "HAVE_PTHREAD_ATTR_SETSTACKSIZE"; "HAVE_PTHREAD_CONDATTR_CREATE"; "HAVE_PTHREAD_CONDATTR_SETCLOCK";
   "HAVE_PTHREAD_KEY_DELETE"; "HAVE_PTHREAD_KEY_DELETE"; "HAVE_PTHREAD_KILL"; "HAVE_PTHREAD_RWLOCK_RDLOCK";
   "HAVE_PTHREAD_SETPRIO_NP"; "HAVE_PTHREAD_SETSCHEDPARAM"; "HAVE_PTHREAD_SIGMASK"; "HAVE_PTHREAD_THREADMASK";
   "HAVE_PTHREAD_YIELD_NP"; "HAVE_PTHREAD_YIELD_ZERO_ARG"; "PTHREAD_ONCE_INITIALIZER"; "HAVE_RE_COMP";
   "HAVE_REGCOMP"; "HAVE_READDIR_R"; "HAVE_READLINK"; "HAVE_REALPATH"; "HAVE_RINT"; "HAVE_RWLOCK_INIT";
   "HAVE_SCHED_YIELD"; "HAVE_SETFD"; "HAVE_SETENV"; "HAVE_SIGADDSET"; "HAVE_SIGEMPTYSET"; "HAVE_SIGHOLD";
   "HAVE_SIGSET"; "HAVE_SIGSET_T"; "HAVE_SIGACTION"; "HAVE_SIGTHREADMASK"; "HAVE_SIGWAIT"; "HAVE_SLEEP";
   "HAVE_STPCPY"; "HAVE_STRSIGNAL"; "HAVE_STRLCPY"; "HAVE_STRLCAT"; "HAVE_FGETLN"; "HAVE_STRSEP"; "HAVE_SHMAT";
   "HAVE_SHMCTL"; "HAVE_SHMDT"; "HAVE_SHMGET"; "HAVE_THR_SETCONCURRENCY"; "HAVE_THR_YIELD"; "HAVE_TIMES";
   "HAVE_VALLOC"; "HAVE_VASPRINTF"; "HAVE_FTRUNCATE"; "HAVE_AIO_READ"; "HAVE_SYS_ERRLIST"; "HAVE_BSS_START";
   "HAVE_BACKTRACE"; "HAVE_BACKTRACE_SYMBOLS"; "HAVE_BACKTRACE_SYMBOLS_FD"; "HAVE_PRINTSTACK";
   "HAVE_STRUCT_SOCKADDR_IN6"; "HAVE_STRUCT_IN6_ADDR"; "HAVE_NETINET_IN6_H"; "ss_family";
   "HAVE_SOCKADDR_IN_SIN_LEN"; "HAVE_SOCKADDR_IN6_SIN6_LEN"; "HAVE_TIMESPEC_TS_SEC"; "STRUCT_DIRENT_HAS_D_INO";
   "STRUCT_DIRENT_HAS_D_NAMLEN"; "HAVE_VALGRIND"].

Definition config_types : list directive :=
  [If (EDefined "__APPLE__")
     [If (EId "__LP64__")
        [Define "SIZEOF_LONG" (Num 8)]
        [Define "SIZEOF_LONG" (Num 4)];
      Define "SIZEOF_VOIDP" (Id "SIZEOF_LONG");
      Define "SIZEOF_CHARP" (Id "SIZEOF_LONG");
      Define "SIZEOF_SIZE_T" (Id "SIZEOF_LONG")]
     [Define "SIZEOF_LONG" (Num 4);
      Define "SIZEOF_VOIDP" (Num 4);
      Define "SIZEOF_CHARP" (Num 4);
      Define "SIZEOF_SIZE_T" (Num 4)];
   Define "SIZEOF_CHAR" (Num 1);
   Define "HAVE_CHAR" (Num 1);
   Define "HAVE_LONG" (Num 1);
   Define "HAVE_CHARP" (Num 1);
   Define "SIZEOF_SHORT" (Num 2);
   Define "HAVE_SHORT" (Num 1);
   Define "SIZEOF_INT" (Num 4);
   Define "HAVE_INT" (Num 1);
   Define "SIZEOF_LONG_LONG" (Num 8);
   Define "HAVE_LONG_LONG" (Num 1);
   Define "SIZEOF_OFF_T" (Num 4);
   Define "HAVE_OFF_T" (Num 1);
   Define "HAVE_SIZE_T" (Num 1);
   Define "SOCKET_SIZE_TYPE" (Id "int");
   Define "MAX_INDEXES" (Num 64);
   Define "QSORT_TYPE_IS_VOID" (Num 1);
   Define "RETQSORTTYPE" (Id "void");
   Define "SIGNAL_RETURN_TYPE_IS_VOID" (Num 1);
   Define "RETSIGTYPE" (Id "void");
   Define "VOID_SIGHANDLER" (Num 1);
   Define "STRUCT_RLIMIT" (Text "struct rlimit");
   If (EDefined "__APPLE__")
     [If (EId "__BIG_ENDIAN")
        [Define "WORDS_BIGENDIAN" (Num 1)]
        []]
     [];
   If (ENot (EId "C_HAS_inline"))
     [If (ENot (EDefined "__cplusplus"))
        [Define "inline" (Id "__inline")]
        []]
     []].

Definition config_types_undef : list string :=
  ["SIZEOF_SIGSET_T"; "HAVE_SIGSET_T"; "SIZEOF_UCHAR"; "HAVE_UCHAR"; "SIZEOF_UINT"; "HAVE_UINT"; "SIZEOF_ULONG";
   "HAVE_ULONG"; "SIZEOF_INT8"; "HAVE_INT8"; "SIZEOF_UINT8"; "HAVE_UINT8"; "SIZEOF_INT16"; "HAVE_INT16";
   "SIZEOF_UINT16"; "HAVE_UINT16"; "SIZEOF_INT32"; "HAVE_INT32"; "SIZEOF_UINT32"; "HAVE_UINT32";
   "SIZEOF_U_INT32_T"; "HAVE_U_INT32_T"; "SIZEOF_INT64"; "HAVE_INT64"; "SIZEOF_UINT64"; "HAVE_UINT64";
   "SIZEOF_BOOL"; "HAVE_BOOL"; "HAVE_MBSTATE_T"; "WORDS_BIGENDIAN"; "C_HAS_inline"].

Definition config_windows : list directive :=
  [Define "HAVE_WCTYPE_H" (Num 1);
   Define "HAVE_WCHAR_H" (Num 1);
   Define "HAVE_STRCASECMP" (Num 1);
   Define "HAVE_STRNCASECMP" (Num 1);
   Define "HAVE_STRDUP" (Num 1);
   Define "HAVE_V7_SIGNALS" (Num 1);
   Define "NO_FCNTL_NONBLOCK" (Num 1);
   Define "NO_ALARM" (Num 1);
   Define "_LARGEFILE_SOURCE" (Num 1);
   Define "STACK_DIRECTION" (Num (-1));
   Define "SYSTEM_TYPE" (Str "Win32");
   Define "MACHINE_TYPE" (Str "x86");
   Define "SIGNAL_WITH_VIO_CLOSE" (Num 1);
   Define "S_IROTH" (Id "_S_IREAD");
   Define "S_IFIFO" (Id "_S_IFIFO");
   Define "sigset_t" (Id "int");
   Define "mode_t" (Id "int");
   Define "SIGQUIT" (Id "SIGTERM");
   Define "SIGPIPE" (Id "SIGINT");
   Define "isnan" (Id "_isnan");
   Define "finite" (Id "_finite");
   Define "popen" (Id "_popen");
   Define "pclose" (Id "_pclose");
   Define "ssize_t" (Id "SSIZE_T");
   Define "strcasecmp" (Id "_stricmp");
   Define "strncasecmp" (Id "_strnicmp");
   Define "snprintf" (Id "_snprintf");
   Define "strtok_r" (Id "strtok_s");
   Define "strtoll" (Id "_strtoi64");
   Define "strtoull" (Id "_strtoui64");
   If (ECmp Gt_ (EId "_MSC_VER") (ENum 1310))
     [Define "HAVE_SETENV" Empty;
      Define "setenv" (Macro "a,b,c")]
     [];
   Define "ENABLED_LOCAL_INFILE" (Num 1);
   Define "ENABLED_PROFILING" (Num 1);
   Define "USE_SYMDIR" (Num 1)].

Definition config_windows_undef : list string :=
  ["TARGET_OS_LINUX"; "HAVE_LANGINFO_H"; "HAVE_MBRLEN"; "HAVE_MBSCMP"; "HAVE_MBSRTOWCS"; "HAVE_WCRTOMB";
   "HAVE_MBRTOWC"; "HAVE_WCSCOLL"; "HAVE_WCSDUP"; "HAVE_WCWIDTH"; "HAVE_WCTYPE"; "HAVE_ISWLOWER";
   "HAVE_ISWUPPER"; "HAVE_TOWLOWER"; "HAVE_TOWUPPER"; "HAVE_ISWCTYPE"; "HAVE_WCHAR_T"; "HAVE_WCTYPE_T";
   "HAVE_WINT_T"; "HAVE_LANGINFO_CODESET"; "HAVE_TCGETATTR"; "HAVE_FLOCKFILE"; "HAVE_WEAK_SYMBOL";
   "HAVE_ABI_CXA_DEMANGLE"; "HAVE_POSIX_SIGNALS"; "HAVE_BSD_SIGNALS"; "HAVE_SVR3_SIGNALS";
   "HAVE_SOLARIS_STYLE_GETHOST"; "MY_ATOMIC_MODE_DUMMY"; "MY_ATOMIC_MODE_RWLOCKS"; "HAVE_GCC_ATOMIC_BUILTINS";
   "HAVE_SOLARIS_ATOMIC"; "HAVE_DECL_SHM_HUGETLB"; "HAVE_LARGE_PAGES"; "HUGETLB_USE_PROC_MEMINFO";
   "_LARGE_FILES"; "_LARGEFILE64_SOURCE"; "_FILE_OFFSET_BITS"; "TIME_WITH_SYS_TIME"; "HAVE_DTRACE";
   "IPPROTO_IPV6"; "IPV6_V6ONLY"; "vsnprintf"; "EXTRA_DEBUG"; "BACKUP_TEST"; "CYBOZU"].

Definition config_charsets : list directive :=
  [Define "MYSQL_DEFAULT_CHARSET_NAME" (Str "latin1");
   Define "MYSQL_DEFAULT_COLLATION_NAME" (Str "latin1_swedish_ci");
   Define "USE_MB" (Num 1);
   Define "USE_MB_IDENT" (Num 1);
   Define "FN_NO_CASE_SENSE" (Num 1);
   Define "HAVE_CHARSET_armscii8" (Num 1);
   Define "HAVE_CHARSET_ascii" (Num 1);
   Define "HAVE_CHARSET_big5" (Num 1);
   Define "HAVE_CHARSET_cp1250" (Num 1);
   Define "HAVE_CHARSET_cp1251" (Num 1);
   Define "HAVE_CHARSET_cp1256" (Num 1);
   Define "HAVE_CHARSET_cp1257" (Num 1);
   Define "HAVE_CHARSET_cp850" (Num 1);
   Define "HAVE_CHARSET_cp852" (Num 1);
   Define "HAVE_CHARSET_cp866" (Num 1);
   Define "HAVE_CHARSET_cp932" (Num 1);
   Define "HAVE_CHARSET_dec8" (Num 1);
   Define "HAVE_CHARSET_eucjpms" (Num 1);
   Define "HAVE_CHARSET_euckr" (Num 1);
   Define "HAVE_CHARSET_gb2312" (Num 1);
   Define "HAVE_CHARSET_gbk" (Num 1);
   Define "HAVE_CHARSET_geostd8" (Num 1);
   Define "HAVE_CHARSET_greek" (Num 1);
   Define "HAVE_CHARSET_hebrew" (Num 1);
   Define "HAVE_CHARSET_hp8" (Num 1);
   Define "HAVE_CHARSET_keybcs2" (Num 1);
   Define "HAVE_CHARSET_koi8r" (Num 1);
   Define "HAVE_CHARSET_koi8u" (Num 1);
   Define "HAVE_CHARSET_latin1" (Num 1);
   Define "HAVE_CHARSET_latin2" (Num 1);
   Define "HAVE_CHARSET_latin5" (Num 1);
   Define "HAVE_CHARSET_latin7" (Num 1);
   Define "HAVE_CHARSET_macce" (Num 1);
   Define "HAVE_CHARSET_macroman" (Num 1);
   Define "HAVE_CHARSET_sjis" (Num 1);
   Define "HAVE_CHARSET_swe7" (Num 1);
   Define "HAVE_CHARSET_tis620" (Num 1);
   Define "HAVE_CHARSET_ucs2" (Num 1);
   Define "HAVE_CHARSET_ujis" (Num 1);
   Define "HAVE_CHARSET_utf8mb4" (Num 1);
   Define "HAVE_CHARSET_utf8" (Num 1);
   Define "HAVE_CHARSET_utf16" (Num 1);
   Define "HAVE_CHARSET_utf32" (Num 1);
   Define "HAVE_UCA_COLLATIONS" (Num 1);
   Define "HAVE_COMPRESS" (Num 1);
   Define "HAVE_SPATIAL" (Num 1);
   Define "HAVE_RTREE_KEYS" (Num 1);
   Define "HAVE_QUERY_CACHE" (Num 1);
   Define "BIG_TABLES" (Num 1)].

Definition config_charsets_undef : list string :=
  ["USE_STRCOLL"; "HAVE_CHARSET_utf8mb3"].

Definition config_engines : list directive :=
  [Define "WITH_MYISAM_STORAGE_ENGINE" (Num 1);
   Define "WITH_MYISAMMRG_STORAGE_ENGINE" (Num 1);
   Define "WITH_HEAP_STORAGE_ENGINE" (Num 1);
   Define "WITH_CSV_STORAGE_ENGINE" (Num 1);
   Define "WITH_PARTITION_STORAGE_ENGINE" (Num 1);
   Define "WITH_PERFSCHEMA_STORAGE_ENGINE" (Num 1);
   If (EAnd (EId "WITH_NDBCLUSTER_STORAGE_ENGINE") (ENot (EDefined "EMBEDDED_LIBRARY")))
     [Define "HAVE_NDB_BINLOG" (Num 1)]
     [];
   Define "DEFAULT_MYSQL_HOME" (Str "C:/Program Files/MySQL/MySQL Server 5.5");
   Define "SHAREDIR" (Str "share");
   Define "DEFAULT_BASEDIR" (Str "C:/Program Files/MySQL/MySQL Server 5.5");
   Define "MYSQL_DATADIR" (Str "C:/Program Files/MySQL/MySQL Server 5.5/data");
   Define "DEFAULT_CHARSET_HOME" (Str "C:/Program Files/MySQL/MySQL Server 5.5");
   Define "PLUGINDIR" (Str "C:/Program Files/MySQL/MySQL Server 5.5/lib/plugin");
   Define "MYSQL_MAJOR_VERSION" (Num 5);
   Define "MYSQL_MINOR_VERSION" (Num 5);
   Define "PACKAGE" (Str "mysql");
   Define "PACKAGE_BUGREPORT" (Str "");
   Define "PACKAGE_NAME" (Str "MySQL Server");
   Define "PACKAGE_STRING" (Str "MySQL Server 5.5.25a");
   Define "PACKAGE_TARNAME" (Str "mysql");
   Define "PACKAGE_VERSION" (Str "5.5.25a");
   Define "VERSION" (Str "5.5.25a");
   Define "PROTOCOL_VERSION" (Num 10);
   Define "SIZEOF_TIME_T" (Num 8)].

Definition config_engines_undef : list string :=
  ["WITH_NDBCLUSTER_STORAGE_ENGINE"; "DEFAULT_SYSCONFDIR"; "SO_EXT"; "TIME_T_UNSIGNED"].

(** The header, between its guards. *)
Definition my_config : list directive :=
  [If (ENot (EDefined "MY_CONFIG_H")) (Define "MY_CONFIG_H" Empty :: config_headers ++ config_functions ++ config_functions2 ++ config_types ++ config_windows ++ config_charsets ++ config_engines) []].
(** The macros that the configuration leaves undefined; the file has them in comments. *)
Definition not_configured : list string :=
  config_headers_undef ++ config_functions_undef ++ config_functions2_undef ++ config_types_undef ++ config_windows_undef ++ config_charsets_undef ++ config_engines_undef.
