(* ===== verification/HeaderGlobal.v ===== *)
(** * The configuration part of my_global.h

    The directives and typedefs of my_global.h in the order of the file; my_config.h is at its place.  The
    replacements of macros with parameters are in the files that model them. *)
From stdpp Require Import strings.
From S2P Require Import Prelude Preprocessor HeaderConfig.

Definition global_platform : list directive :=
  [If (EAnd (ENot (EDefined "__WIN__")) (EDefined "_WIN32"))
     [Define "__WIN__" Empty]
     [];
   Define "INNODB_COMPATIBILITY_HOOKS" Empty;
   If (EDefined "__CYGWIN__")
     [Undef "WIN";
      Undef "WIN32";
      Undef "_WIN";
      Undef "_WIN32";
      Undef "_WIN64";
      Undef "__WIN__";
      Undef "__WIN32__";
      Define "HAVE_ERRNO_AS_DEFINE" Empty]
     [];
   If (EDefined "USE_PRAGMA_IMPLEMENTATION")
     [Define "USE_PRAGMA_INTERFACE" Empty]
     [];
   If (EAnd (EDefined "__OpenBSD__") (ECmp Ge (EId "OpenBSD") (ENum 200411)))
     [Define "HAVE_ERRNO_AS_DEFINE" Empty]
     [];
   If (EAnd (EDefined "i386") (ENot (EDefined "__i386__")))
     [Define "__i386__" Empty]
     [];
   If (EDefined "__cplusplus")
     [Define "C_MODE_START" (Text "extern 'C' {");
      Define "C_MODE_END" (Text "}")]
     [Define "C_MODE_START" Empty;
      Define "C_MODE_END" Empty];
   If (EDefined "__cplusplus")
     [Define "CPP_UNNAMED_NS_START" (Text "namespace {");
      Define "CPP_UNNAMED_NS_END" (Text "}")]
     []].

Definition global_features : list directive :=
  [If (EDefined "WITH_PERFSCHEMA_STORAGE_ENGINE")
     [Define "HAVE_PSI_INTERFACE" Empty]
     [];
   If (EDefined "__WIN__")
     [Define "IF_WIN" (Macro "A,B")]
     [Define "IF_WIN" (Macro "A,B")];
   If (EDefined "HAVE_purify")
     [Define "IF_PURIFY" (Macro "A,B")]
     [Define "IF_PURIFY" (Macro "A,B")];
   If (ENot (EDefined "EMBEDDED_LIBRARY"))
     [If (EDefined "WITH_NDB_BINLOG")
        [Define "HAVE_NDB_BINLOG" (Num 1)]
        []]
     [];
   If (ENot (EDefined "EMBEDDED_LIBRARY"))
     [Define "HAVE_REPLICATION" Empty;
      Define "HAVE_EXTERNAL_CLIENT" Empty]
     []].

Definition global_windows : list directive :=
  [If (EDefined "_WIN32")
     [Undef "SIZEOF_OFF_T";
      Define "SIZEOF_OFF_T" (Num 8);
      If (ENot (EDefined "NOGDI"))
        [Define "NOGDI" Empty]
        [];
      Include "winsock2.h";
      Include "ws2tcpip.h";
      Include "io.h";
      Include "process.h";
      Define "sleep" (Macro "a");
      Define "F_OK" (Num 0);
      Define "W_OK" (Num 2);
      Define "F_RDLCK" (Num 1);
      Define "F_WRLCK" (Num 2);
      Define "F_UNLCK" (Num 3);
      Define "F_TO_EOF" (Num 1073741823);
      Define "HAVE_SMEM" (Num 1);
      Define "HAVE_NAMED_PIPE" (Num 1);
      Define "shared_memory_buffer_length" (Num 16000);
      Define "default_shared_memory_base_name" (Str "MYSQL")]
     []].

Definition global_compiler : list directive :=
  [If (EAnd (EDefined "_AIX") (EDefined "_LARGE_FILE_API"))
     [Undef "_LARGE_FILE_API"]
     [];
   If (EAnd (EDefined "__APPLE__") (EDefined "__MACH__"))
     [Undef "SIZEOF_CHARP";
      Undef "SIZEOF_SHORT";
      Undef "SIZEOF_INT";
      Undef "SIZEOF_LONG";
      Undef "SIZEOF_LONG_LONG";
      Undef "SIZEOF_OFF_T";
      Undef "WORDS_BIGENDIAN";
      Define "SIZEOF_SHORT" (Num 2);
      Define "SIZEOF_INT" (Num 4);
      Define "SIZEOF_LONG_LONG" (Num 8);
      Define "SIZEOF_OFF_T" (Num 8);
      If (EOr (EDefined "__i386__") (EDefined "__ppc__"))
        [Define "SIZEOF_CHARP" (Num 4);
         Define "SIZEOF_LONG" (Num 4)]
        [If (EOr (EDefined "__x86_64__") (EDefined "__ppc64__"))
           [Define "SIZEOF_CHARP" (Num 8);
            Define "SIZEOF_LONG" (Num 8)]
           [Error]];
      If (EOr (EDefined "__ppc__") (EDefined "__ppc64__"))
        [Define "WORDS_BIGENDIAN" Empty]
        []]
     [];
   If (EOr (ENot (EDefined "__GNUC__")) (EAnd (ECmp Eq_ (EId "__GNUC__") (ENum 2)) (ECmp Lt_ (EId "__GNUC_MINOR__") (ENum 96))))
     [Define "__builtin_expect" (Macro "x,expected_value")]
     [];
   Define "likely" (Macro "x");
   Define "unlikely" (Macro "x");
   If (EOr (EDefined "TARGET_OS_LINUX") (EDefined "__GLIBC__"))
     [Undef "_GNU_SOURCE";
      Define "_GNU_SOURCE" (Num 1)]
     [];
   If (EAnd (EDefined "HAVE_SYS_TYPES_H") (EOr (EDefined "sun") (EDefined "__sun")))
     [Include "sys/types.h"]
     [];
   If (EDefined "HAVE_THREADS_WITHOUT_SOCKETS")
     [Undef "HAVE_SYS_UN_H"]
     [];
   Define "__EXTENSIONS__" (Num 1);
   If (ENot (EDefined "__STDC_EXT__"))
     [Define "__STDC_EXT__" (Num 1)]
     [];
   If (EDefined "__sun")
     [If (ECmp Ge (ESub (EId "__STDC_VERSION__") (ENum 0)) (ENum 199901))
        [Define "_XOPEN_SOURCE" (Num 600)]
        [Define "_XOPEN_SOURCE" (Num 500)]]
     []].

Definition global_unix : list directive :=
  [If (ENot (EDefined "__WIN__"))
     [If (ENot (EDefined "_POSIX_PTHREAD_SEMANTICS"))
        [Define "_POSIX_PTHREAD_SEMANTICS" Empty]
        [];
      If (ENot (EDefined "SCO"))
        [Define "_REENTRANT" (Num 1)]
        [];
      If (EAnd (ENot (EDefined "_THREAD_SAFE")) (ENot (EDefined "_AIX")))
        [Define "_THREAD_SAFE" Empty]
        [];
      If (EOr (EDefined "HPUX10") (EDefined "HPUX11"))
        [Include "pthread.h"]
        [Include "pthread.h"];
      If (EAnd (ENot (EDefined "SCO")) (ENot (EDefined "_REENTRANT")))
        [Define "_REENTRANT" (Num 1)]
        []]
     [];
   If (EDefined "_AIX")
     [Define "_H_STRINGS" Empty;
      Define "_SYS_STREAM_H" Empty;
      Define "ulonglong2double" (Macro "A");
      Define "my_off_t2double" (Macro "A")]
     [];
   If (EDefined "HAVE_BROKEN_SNPRINTF")
     [Undef "HAVE_SNPRINTF"]
     [];
   If (EDefined "HAVE_BROKEN_PREAD")
     [Undef "HAVE_PREAD";
      Undef "HAVE_PWRITE"]
     [];
   If (EDefined "UNDEF_HAVE_INITGROUPS")
     [Undef "HAVE_INITGROUPS"]
     [];
   If (EAnd (EDefined "__GNUC") (EDefined "__EXCEPTIONS"))
     [Error]
     []].

Definition global_includes : list directive :=
  [If (EAnd (EDefined "_lint") (ENot (EDefined "lint")))
     [Define "lint" Empty]
     [];
   If (EAnd (ECmp Gt_ (EId "SIZEOF_LONG_LONG") (ENum 4)) (ENot (EDefined "_LONG_LONG")))
     [Define "_LONG_LONG" (Num 1)]
     [];
   If (ENot (EDefined "stdin"))
     [Include "stdio.h"]
     [];
   Include "stdarg.h";
   If (EDefined "HAVE_STDLIB_H")
     [Include "stdlib.h"]
     [];
   If (EDefined "HAVE_STDDEF_H")
     [Include "stddef.h"]
     [];
   Include "math.h";
   If (EDefined "HAVE_LIMITS_H")
     [Include "limits.h"]
     [];
   If (EDefined "HAVE_FLOAT_H")
     [Include "float.h"]
     [];
   If (EDefined "HAVE_FENV_H")
     [Include "fenv.h"]
     [];
   If (EDefined "HAVE_SYS_TYPES_H")
     [Include "sys/types.h"]
     [];
   If (EDefined "HAVE_FCNTL_H")
     [Include "fcntl.h"]
     [];
   If (EDefined "HAVE_SYS_TIMEB_H")
     [Include "sys/timeb.h"]
     [];
   If (EId "TIME_WITH_SYS_TIME")
     [Include "sys/time.h";
      Include "time.h"]
     [If (EId "HAVE_SYS_TIME_H")
        [Include "sys/time.h"]
        [Include "time.h"]];
   If (EDefined "HAVE_UNISTD_H")
     [Include "unistd.h"]
     [];
   If (EAnd (EDefined "__cplusplus") (EDefined "NO_CPLUSPLUS_ALLOCA"))
     [Undef "HAVE_ALLOCA";
      Undef "HAVE_ALLOCA_H"]
     [];
   If (EDefined "HAVE_ALLOCA_H")
     [Include "alloca.h"]
     [];
   Include "errno.h";
   If (EDefined "HAVE_CRYPT_H")
     [Include "crypt.h"]
     []].

Definition global_checks : list directive :=
  [Include "assert.h";
   If (ENot (EDefined "__GNUC__"))
     [Define "compile_time_assert" (Macro "X")]
     [Define "compile_time_assert" (Macro "X")];
   If (EAnd (EDefined "HPUX11") (EDefined "_LARGEFILE_SOURCE"))
     [If (ENot (EDefined "_LARGEFILE64_SOURCE"))
        [Define "_LARGEFILE64_SOURCE" Empty]
        []]
     [];
   If (EAnd (EDefined "_HPUX_SOURCE") (EDefined "HAVE_SYS_STREAM_H"))
     [Include "sys/stream.h";
      Define "HAVE_ULONG" Empty]
     [];
   If (EAnd (EDefined "HPUX10") (EDefined "_LARGEFILE64_SOURCE"))
     [Undef "setrlimit";
      Define "setrlimit" (Id "cma_setrlimit64")]
     [];
   If (EAnd (EAnd (EId "HAVE_MADVISE") (ENot (EId "HAVE_DECL_MADVISE"))) (EDefined "__cplusplus"))
     []
     [];
   Define "QUOTE_ARG" (Macro "x");
   Define "STRINGIFY_ARG" (Macro "x");
   If (EDefined "I_AM_PARANOID")
     [Define "DONT_ALLOW_USER_CHANGE" (Num 1);
      Define "DONT_USE_MYSQL_PWD" (Num 1)]
     [];
   If (EAnd (ENot (EDefined "HAVE_BSD_SIGNALS")) (ENot (EDefined "HAVE_SIGACTION")))
     [Define "SIGNAL_HANDLER_RESET_ON_DELIVERY" Empty]
     [];
   If (EOr (EOr (EDefined "_lint") (EDefined "FORCE_INIT_OF_VARS")) (EAnd (EDefined "__GNUC__") (EDefined "__cplusplus")))
     [Define "LINT_INIT" (Macro "var")]
     [Define "LINT_INIT" (Macro "var")];
   If (ENot (EDefined "SO_EXT"))
     [If (EDefined "_WIN32")
        [Define "SO_EXT" (Str ".dll")]
        [If (EDefined "__APPLE__")
           [Define "SO_EXT" (Str ".dylib")]
           [Define "SO_EXT" (Str ".so")]]]
     [];
   If (EOr (EOr (EOr (EDefined "_lint") (EDefined "FORCE_INIT_OF_VARS")) (EDefined "__cplusplus")) (ENot (EDefined "__GNUC__")))
     [Define "UNINIT_VAR" (Macro "x")]
     [Define "UNINIT_VAR" (Macro "x")]].

Definition global_base : list directive :=
  [If (ENot (EDefined "HAVE_UINT"))
     [Undef "HAVE_UINT";
      Define "HAVE_UINT" Empty;
      Typedef "uint" "unsigned int";
      Typedef "ushort" "unsigned short"]
     [];
   Define "swap_variables" (Macro "t,a,b");
   Define "test" (Macro "a");
   Define "set_if_bigger" (Macro "a,b");
   Define "set_if_smaller" (Macro "a,b");
   Define "test_all_bits" (Macro "a,b");
   Define "array_elements" (Macro "A");
   If (ENot (EDefined "TRUE"))
     [Define "TRUE" (Num 1);
      Define "FALSE" (Num 0)]
     [];
   Include "my_compiler.h";
   If (EAnd (EDefined "USE_MYSYS_NEW") (ENot (EDefined "DONT_DECLARE_CXA_PURE_VIRTUAL")))
     []
     [];
   If (EAnd (EDefined "DBUG_ON") (EDefined "DBUG_OFF"))
     [Undef "DBUG_OFF"]
     [];
   If (EAnd (EOr (EDefined "FORCE_DBUG_OFF") (EDefined "_lint")) (ENot (EDefined "DBUG_OFF")))
     [Define "DBUG_OFF" Empty;
      If (EDefined "DBUG_ON")
        [Undef "DBUG_ON"]
        []]
     [];
   Typedef "File" "int";
   If (EDefined "_WIN32")
     [Typedef "my_socket" "SOCKET"]
     [Typedef "my_socket" "int";
      Define "INVALID_SOCKET" (Num (-1))];
   Define "sig_handler" (Id "RETSIGTYPE");
   If (EAnd (EDefined "__GNUC__") (ENot (EDefined "_lint")))
     [Typedef "pchar" "char";
      Typedef "puchar" "char";
      Typedef "pbool" "char";
      Typedef "pshort" "short";
      Typedef "pfloat" "float"]
     [Typedef "pchar" "int";
      Typedef "puchar" "uint";
      Typedef "pbool" "int";
      Typedef "pshort" "int";
      Typedef "pfloat" "double"];
   Define "qsort_t" (Id "RETQSORTTYPE");
   If (EDefined "HAVE_SYS_SOCKET_H")
     [Include "sys/socket.h"]
     [];
   Typedef "size_socket" "SOCKET_SIZE_TYPE";
   If (ENot (EDefined "SOCKOPT_OPTLEN_TYPE"))
     [Define "SOCKOPT_OPTLEN_TYPE" (Id "size_socket")]
     [];
   If (ENot (EDefined "O_SHARE"))
     [Define "O_SHARE" (Num 0);
      If (ENot (EDefined "O_BINARY"))
        [Define "O_BINARY" (Num 0)]
        [];
      If (ENot (EDefined "FILE_BINARY"))
        [Define "FILE_BINARY" (Id "O_BINARY")]
        [];
      If (EDefined "HAVE_FCNTL")
        [Define "HAVE_FCNTL_LOCK" Empty;
         Define "F_TO_EOF" (Num 0)]
        []]
     [];
   If (ENot (EDefined "O_TEMPORARY"))
     [Define "O_TEMPORARY" (Num 0)]
     [];
   If (ENot (EDefined "O_SHORT_LIVED"))
     [Define "O_SHORT_LIVED" (Num 0)]
     [];
   If (ENot (EDefined "O_NOFOLLOW"))
     [Define "O_NOFOLLOW" (Num 0)]
     []].

Definition global_files : list directive :=
  [If (EDefined "__WIN__")
     [Define "_SH_DENYRWD" (Num 272);
      Define "_SH_DENYWRD" (Num 288);
      Define "_SH_DENYRDD" (Num 304);
      Define "_SH_DENYDEL" (Num 320)]
     [];
   Define "FN_LEN" (Num 256);
   Define "FN_HEADLEN" (Num 253);
   Define "FN_EXTLEN" (Num 20);
   Define "FN_REFLEN" (Num 512);
   Define "FN_EXTCHAR" (Text "'.'");
   Define "FN_HOMELIB" (Text "'~'");
   Define "FN_CURLIB" (Text "'.'");
   Define "FN_PARENTDIR" (Str "..");
   If (EDefined "_WIN32")
     [Define "FN_LIBCHAR" (Text "'\\'");
      Define "FN_LIBCHAR2" (Text "'/'");
      Define "FN_DIRSEP" (Str "/\\");
      Define "FN_EXEEXT" (Str ".exe");
      Define "FN_SOEXT" (Str ".dll");
      Define "FN_ROOTDIR" (Str "\\");
      Define "FN_DEVCHAR" (Text "':'");
      Define "FN_NETWORK_DRIVES" Empty;
      Define "FN_NO_CASE_SENCE" Empty]
     [Define "FN_LIBCHAR" (Text "'/'");
      Define "FN_LIBCHAR2" (Text "'/'");
      Define "FN_DIRSEP" (Str "/");
      Define "FN_EXEEXT" (Str "");
      Define "FN_SOEXT" (Str ".so");
      Define "FN_ROOTDIR" (Str "/")];
   If (EDefined "_WIN32")
     [Define "MY_FILE_MIN" (Num 2048)]
     [Define "MY_FILE_MIN" (Num 0)];
   If (EDefined "_WIN32")
     [Define "MY_NFILE" (Text "(16384 + MY_FILE_MIN)")]
     [Define "MY_NFILE" (Num 64)];
   If (ENot (EDefined "OS_FILE_LIMIT"))
     [Define "OS_FILE_LIMIT" (Id "UINT_MAX")]
     [];
   Define "IO_SIZE" (Num 4096);
   Define "MALLOC_OVERHEAD" (Num 8);
   Define "ONCE_ALLOC_INIT" (Text "(uint) (4096-MALLOC_OVERHEAD)");
   Define "RECORD_CACHE_SIZE" (Text "(uint) (64*1024-MALLOC_OVERHEAD)");
   Define "KEY_CACHE_SIZE" (Text "(uint) (8*1024*1024)");
   Define "KEY_CACHE_BLOCK_SIZE" (Text "(uint) 1024");
   If (EDefined "_WIN32")
     [Define "NO_DIR_LIBRARY" Empty]
     [];
   Undef "remove";
   If (ENot (EDefined "__WIN__"))
     [Define "closesocket" (Macro "A")]
     []].

Definition global_numbers : list directive :=
  [If (EId "_MSC_VER")
     [If (ENot (EDefined "_WIN64"))
        [Define "ulonglong2double" (Id "my_ulonglong2double");
         Define "my_off_t2double" (Id "my_ulonglong2double")]
        [];
      Define "double2ulonglong" (Id "my_double2ulonglong")]
     [];
   If (ENot (EDefined "ulonglong2double"))
     [Define "ulonglong2double" (Macro "A");
      Define "my_off_t2double" (Macro "A")]
     [];
   If (ENot (EDefined "double2ulonglong"))
     [Define "double2ulonglong" (Macro "A")]
     [];
   If (ENot (EDefined "offsetof"))
     [Define "offsetof" (Macro "TYPE,MEMBER")]
     [];
   Define "ulong_to_double" (Macro "X");
   If (ENot (EDefined "STACK_DIRECTION"))
     [Error]
     [];
   If (ENot (EDefined "HAVE_STRTOK_R"))
     [Define "strtok_r" (Macro "A,B,C")]
     [];
   If (ECmp Gt_ (EId "SIZEOF_LONG_LONG") (ENum 4))
     [Define "HAVE_LONG_LONG" (Num 1)]
     [];
   If (EAnd (EDefined "HAVE_LONG_LONG") (ENot (EDefined "LONGLONG_MIN")))
     [Define "LONGLONG_MIN" (Text "((long long) 0x8000000000000000LL)");
      Define "LONGLONG_MAX" (Text "((long long) 0x7FFFFFFFFFFFFFFFLL)")]
     [];
   If (EAnd (EDefined "HAVE_LONG_LONG") (ENot (EDefined "ULONGLONG_MAX")))
     [If (EDefined "ULLONG_MAX")
        [Define "ULONGLONG_MAX" (Id "ULLONG_MAX")]
        [Define "ULONGLONG_MAX" (Text "((unsigned long long)(~0ULL))")]]
     []].

Definition global_limits : list directive :=
  [Define "INT_MIN64" (Text "(~0x7FFFFFFFFFFFFFFFLL)");
   Define "INT_MAX64" (Num 9223372036854775807);
   Define "INT_MIN32" (Text "(~0x7FFFFFFFL)");
   Define "INT_MAX32" (Num 2147483647);
   Define "UINT_MAX32" (Num 4294967295);
   Define "INT_MIN24" (Text "(~0x007FFFFF)");
   Define "INT_MAX24" (Num 8388607);
   Define "UINT_MAX24" (Num 16777215);
   Define "INT_MIN16" (Text "(~0x7FFF)");
   Define "INT_MAX16" (Num 32767);
   Define "UINT_MAX16" (Num 65535);
   Define "INT_MIN8" (Text "(~0x7F)");
   Define "INT_MAX8" (Num 127);
   Define "UINT_MAX8" (Num 255);
   If (ENot (EDefined "DBL_MIN"))
     [Define "DBL_MIN" (Text "4.94065645841246544e-324");
      Define "FLT_MIN" (Text "((float)1.40129846432481707e-45)")]
     [];
   If (ENot (EDefined "DBL_MAX"))
     [Define "DBL_MAX" (Text "1.79769313486231470e+308");
      Define "FLT_MAX" (Text "((float)3.40282346638528860e+38)")]
     [];
   If (ENot (EDefined "SIZE_T_MAX"))
     [Define "SIZE_T_MAX" (Text "(~((size_t) 0))")]
     [];
   If (ENot (EDefined "isfinite"))
     [If (EDefined "HAVE_FINITE")
        [Define "isfinite" (Macro "x")]
        [Define "finite" (Macro "x")]]
     [];
   If (ENot (EDefined "HAVE_ISNAN"))
     [Define "isnan" (Macro "x")]
     [];
   If (EDefined "HAVE_ISINF")
     [If (EAnd (ENot (EDefined "__cplusplus")) (EDefined "HAVE_BROKEN_ISINF"))
        []
        [Define "my_isinf" (Macro "X")]]
     [Define "my_isinf" (Macro "X")];
   If (ENot (EDefined "M_PI"))
     [Define "M_PI" (Text "3.14159265358979323846")]
     [];
   If (ENot (EDefined "M_E"))
     [Define "M_E" (Text "2.7182818284590452354")]
     [];
   If (ENot (EDefined "M_LN2"))
     [Define "M_LN2" (Text "0.69314718055994530942")]
     []].

Definition global_pointers : list directive :=
  [If (ECmp Eq_ (EId "SIZEOF_CHARP") (ENum 4))
     [Typedef "my_ptrdiff_t" "long"]
     [Typedef "my_ptrdiff_t" "long long"];
   Define "MY_ALIGN" (Macro "A,L");
   Define "ALIGN_SIZE" (Macro "A");
   Define "ADD_TO_PTR" (Macro "ptr,size,type");
   Define "PTR_BYTE_DIFF" (Macro "A,B");
   Define "my_offsetof" (Macro "TYPE,MEMBER");
   Define "NullS" (Text "(char *) 0");
   If (EDefined "STDCALL")
     [Undef "STDCALL"]
     [];
   If (EDefined "_WIN32")
     [Define "STDCALL" (Id "__stdcall")]
     [Define "STDCALL" Empty]].

Definition global_types : list directive :=
  [If (ENot (EDefined "HAVE_UCHAR"))
     [Typedef "uchar" "unsigned char"]
     [];
   If (ENot (EDefined "HAVE_INT8"))
     [Typedef "int8" "signed char"]
     [];
   If (ENot (EDefined "HAVE_UINT8"))
     [Typedef "uint8" "unsigned char"]
     [];
   If (ENot (EDefined "HAVE_INT16"))
     [Typedef "int16" "short"]
     [];
   If (ENot (EDefined "HAVE_UINT16"))
     [Typedef "uint16" "unsigned short"]
     [];
   If (ECmp Eq_ (EId "SIZEOF_INT") (ENum 4))
     [If (ENot (EDefined "HAVE_INT32"))
        [Typedef "int32" "int"]
        [];
      If (ENot (EDefined "HAVE_UINT32"))
        [Typedef "uint32" "unsigned int"]
        []]
     [If (ECmp Eq_ (EId "SIZEOF_LONG") (ENum 4))
        [If (ENot (EDefined "HAVE_INT32"))
           [Typedef "int32" "long"]
           [];
         If (ENot (EDefined "HAVE_UINT32"))
           [Typedef "uint32" "unsigned long"]
           []]
        [Error]];
   If (EAnd (ENot (EDefined "HAVE_ULONG")) (ENot (EDefined "__USE_MISC")))
     [Typedef "ulong" "unsigned long"]
     [];
   If (ENot (EDefined "longlong_defined"))
     [If (EAnd (EDefined "HAVE_LONG_LONG") (ECmp Eq_ (EId "SIZEOF_LONG_LONG") (ENum 8)))
        [Typedef "ulonglong" "unsigned long long int";
         Typedef "longlong" "long long int"]
        [Typedef "ulonglong" "unsigned long";
         Typedef "longlong" "long"]]
     [];
   If (ENot (EDefined "HAVE_INT64"))
     [Typedef "int64" "longlong"]
     [];
   If (ENot (EDefined "HAVE_UINT64"))
     [Typedef "uint64" "ulonglong"]
     [];
   If (EDefined "NO_CLIENT_LONG_LONG")
     [Typedef "my_ulonglong" "unsigned long"]
     [If (EDefined "__WIN__")
        [Typedef "my_ulonglong" "unsigned __int64"]
        [Typedef "my_ulonglong" "unsigned long long"]];
   If (ECmp Eq_ (EId "SIZEOF_CHARP") (EId "SIZEOF_INT"))
     [Typedef "intptr" "int"]
     [If (ECmp Eq_ (EId "SIZEOF_CHARP") (EId "SIZEOF_LONG"))
        [Typedef "intptr" "long"]
        [If (ECmp Eq_ (EId "SIZEOF_CHARP") (EId "SIZEOF_LONG_LONG"))
           [Typedef "intptr" "long long"]
           [Error]]];
   Define "MY_ERRPTR" (Text "((void*)(intptr)1)");
   If (EDefined "_WIN32")
     [Typedef "my_off_t" "unsigned long long";
      Typedef "os_off_t" "unsigned long long"]
     [Typedef "os_off_t" "off_t";
      If (ECmp Gt_ (EId "SIZEOF_OFF_T") (ENum 4))
        [Typedef "my_off_t" "ulonglong"]
        [Typedef "my_off_t" "unsigned long"]];
   Define "MY_FILEPOS_ERROR" (Text "(~(my_off_t) 0)");
   Typedef "table_map" "ulonglong";
   Typedef "nesting_map" "ulong";
   If (EDefined "__WIN__")
     [Define "socket_errno" (Text "WSAGetLastError()");
      Define "SOCKET_EINTR" (Id "WSAEINTR");
      Define "SOCKET_EAGAIN" (Id "WSAEINPROGRESS");
      Define "SOCKET_ETIMEDOUT" (Id "WSAETIMEDOUT");
      Define "SOCKET_EWOULDBLOCK" (Id "WSAEWOULDBLOCK");
      Define "SOCKET_EADDRINUSE" (Id "WSAEADDRINUSE");
      Define "SOCKET_ENFILE" (Id "ENFILE");
      Define "SOCKET_EMFILE" (Id "EMFILE")]
     [Define "socket_errno" (Id "errno");
      Define "closesocket" (Macro "A");
      Define "SOCKET_EINTR" (Id "EINTR");
      Define "SOCKET_EAGAIN" (Id "EAGAIN");
      Define "SOCKET_ETIMEDOUT" (Id "SOCKET_EINTR");
      Define "SOCKET_EWOULDBLOCK" (Id "EWOULDBLOCK");
      Define "SOCKET_EADDRINUSE" (Id "EADDRINUSE");
      Define "SOCKET_ENFILE" (Id "ENFILE");
      Define "SOCKET_EMFILE" (Id "EMFILE")];
   Typedef "myf" "int";
   Typedef "my_bool" "char"].

Definition global_helpers : list directive :=
  [Define "MYF" (Macro "v");
   If (ENot (EDefined "LL"))
     [If (EDefined "HAVE_LONG_LONG")
        [Define "LL" (Macro "A")]
        [Define "LL" (Macro "A")]]
     [];
   If (ENot (EDefined "ULL"))
     [If (EDefined "HAVE_LONG_LONG")
        [Define "ULL" (Macro "A")]
        [Define "ULL" (Macro "A")]]
     [];
   If (ENot (EDefined "USING_X"))
     [Define "reg1" (Id "register");
      Define "reg2" (Id "register");
      Define "reg3" (Id "register");
      Define "reg4" (Id "register");
      Define "reg5" (Id "register");
      Define "reg6" (Id "register");
      Define "reg7" (Id "register");
      Define "reg8" (Id "register");
      Define "reg9" (Id "register");
      Define "reg10" (Id "register");
      Define "reg11" (Id "register");
      Define "reg12" (Id "register");
      Define "reg13" (Id "register");
      Define "reg14" (Id "register");
      Define "reg15" (Id "register");
      Define "reg16" (Id "register")]
     [];
   Include "my_dbug.h";
   Define "YESNO" (Macro "X");
   Define "MY_HOW_OFTEN_TO_ALARM" (Num 2);
   Define "MY_HOW_OFTEN_TO_WRITE" (Num 1000)].

Definition global_storage : list directive :=
  [If (EOr (EDefined "__i386__") (EDefined "_WIN32"))
     [Define "sint2korr" (Macro "A");
      Define "sint3korr" (Macro "A");
      Define "sint4korr" (Macro "A");
      Define "uint2korr" (Macro "A");
      If (EAnd (EDefined "HAVE_purify") (ENot (EDefined "_WIN32")))
        [Define "uint3korr" (Macro "A")]
        [Define "uint3korr" (Macro "A")];
      Define "uint4korr" (Macro "A");
      Define "uint5korr" (Macro "A");
      Define "uint6korr" (Macro "A");
      Define "uint8korr" (Macro "A");
      Define "sint8korr" (Macro "A");
      Define "int2store" (Macro "T,A");
      Define "int3store" (Macro "T,A");
      Define "int4store" (Macro "T,A");
      Define "int5store" (Macro "T,A");
      Define "int6store" (Macro "T,A");
      Define "int8store" (Macro "T,A");
      Define "doubleget" (Macro "V,M");
      Define "doublestore" (Macro "T,V");
      Define "float4get" (Macro "V,M");
      Define "float8get" (Macro "V,M");
      Define "float4store" (Macro "V,M");
      Define "floatstore" (Macro "T,V");
      Define "floatget" (Macro "V,M");
      Define "float8store" (Macro "V,M")]
     [Define "sint2korr" (Macro "A");
      Define "sint3korr" (Macro "A");
      Define "sint4korr" (Macro "A");
      Define "sint8korr" (Macro "A");
      Define "uint2korr" (Macro "A");
      Define "uint3korr" (Macro "A");
      Define "uint4korr" (Macro "A");
      Define "uint5korr" (Macro "A");
      Define "uint6korr" (Macro "A");
      Define "uint8korr" (Macro "A");
      Define "int2store" (Macro "T,A");
      Define "int3store" (Macro "T,A");
      Define "int4store" (Macro "T,A");
      Define "int5store" (Macro "T,A");
      Define "int6store" (Macro "T,A");
      Define "int8store" (Macro "T,A");
      If (EDefined "WORDS_BIGENDIAN")
        [Define "float4store" (Macro "T,A");
         Define "float4get" (Macro "V,M");
         Define "float8store" (Macro "T,V");
         Define "float8get" (Macro "V,M")]
        [Define "float4get" (Macro "V,M");
         Define "float4store" (Macro "V,M");
         If (EAnd (EDefined "__FLOAT_WORD_ORDER") (ECmp Eq_ (EId "__FLOAT_WORD_ORDER") (EId "__BIG_ENDIAN")))
           [Define "doublestore" (Macro "T,V");
            Define "doubleget" (Macro "V,M")]
           [];
         Define "float8get" (Macro "V,M");
         Define "float8store" (Macro "V,M")]];
   Define "int4net" (Macro "A");
   If (EDefined "WORDS_BIGENDIAN")
     [Define "ushortget" (Macro "V,M");
      Define "shortget" (Macro "V,M");
      Define "longget" (Macro "V,M");
      Define "ulongget" (Macro "V,M");
      Define "shortstore" (Macro "T,A");
      Define "longstore" (Macro "T,A");
      Define "floatget" (Macro "V,M");
      Define "floatstore" (Macro "T,V");
      Define "doubleget" (Macro "V,M");
      Define "doublestore" (Macro "T,V");
      Define "longlongget" (Macro "V,M");
      Define "longlongstore" (Macro "T,V")]
     [Define "ushortget" (Macro "V,M");
      Define "shortget" (Macro "V,M");
      Define "longget" (Macro "V,M");
      Define "ulongget" (Macro "V,M");
      Define "shortstore" (Macro "T,V");
      Define "longstore" (Macro "T,V");
      If (ENot (EDefined "floatstore"))
        [Define "floatstore" (Macro "T,V");
         Define "floatget" (Macro "V,M")]
        [];
      If (ENot (EDefined "doubleget"))
        [Define "doubleget" (Macro "V,M");
         Define "doublestore" (Macro "T,V")]
        [];
      Define "longlongget" (Macro "V,M");
      Define "longlongstore" (Macro "T,V")]].

Definition global_end : list directive :=
  [If (EDefined "HAVE_CHARSET_utf8")
     [Define "MYSQL_UNIVERSAL_CLIENT_CHARSET" (Str "utf8")]
     [Define "MYSQL_UNIVERSAL_CLIENT_CHARSET" (Id "MYSQL_DEFAULT_CHARSET_NAME")];
   If (EAnd (EDefined "EMBEDDED_LIBRARY") (ENot (EDefined "HAVE_EMBEDDED_PRIVILEGE_CONTROL")))
     [Define "NO_EMBEDDED_ACCESS_CHECKS" Empty]
     [];
   If (EDefined "_WIN32")
     [Define "dlsym" (Macro "lib,name");
      Define "dlopen" (Macro "libname,unused");
      Define "dlclose" (Macro "lib");
      If (ENot (EDefined "HAVE_DLOPEN"))
        [Define "HAVE_DLOPEN" Empty]
        []]
     [];
   If (EDefined "HAVE_DLOPEN")
     [If (EDefined "HAVE_DLFCN_H")
        [Include "dlfcn.h"]
        []]
     [];
   If (ENot (EDefined "HAVE_DLERROR"))
     [If (EDefined "_WIN32")
        [Define "DLERROR_GENERATE" (Macro "errmsg,error_number");
         Define "dlerror" (Macro "");
         Define "dlopen_errno" (Text "GetLastError()")]
        [Define "dlerror" (Macro "");
         Define "DLERROR_GENERATE" (Macro "errmsg,error_number");
         Define "dlopen_errno" (Id "errno")]]
     [Define "DLERROR_GENERATE" (Macro "errmsg,error_number");
      Define "dlopen_errno" (Id "errno")];
   If (EDefined "__cplusplus")
     [Include "new"]
     [];
   Define "MY_INT32_NUM_DECIMAL_DIGITS" (Num 11);
   Define "MY_INT64_NUM_DECIMAL_DIGITS" (Num 21);
   If (ENot (EDefined "max"))
     [Define "max" (Macro "a,b");
      Define "min" (Macro "a,b")]
     [];
   If (EDefined "TARGET_OS_LINUX")
     [Define "NEED_EXPLICIT_SYNC_DIR" (Num 1)]
     [];
   If (EAnd (ENot (EDefined "__cplusplus")) (ENot (EDefined "bool")))
     [Define "bool" (Text "In_C_you_should_use_my_bool_instead()")]
     [];
   If (ECmp Lt_ (EId "__STDC_VERSION__") (ENum 199901))
     [If (ECmp Ge (EId "__GNUC__") (ENum 2))
        [Define "__func__" (Id "__FUNCTION__")]
        [Define "__func__" (Str "<unknown>")]]
     [If (EDefined "_MSC_VER")
        [If (ECmp Lt_ (EId "_MSC_VER") (ENum 1300))
           [Define "__func__" (Str "<unknown>")]
           [Define "__func__" (Id "__FUNCTION__")]]
        [If (EDefined "__BORLANDC__")
           [Define "__func__" (Id "__FUNC__")]
           [Define "__func__" (Str "<unknown>")]]];
   If (ENot (EDefined "HAVE_RINT"))
     [Define "MAX_EXACT_INTEGER" (Text "((1LL << DBL_MANT_DIG) - 1)")]
     [];
   If (ENot (EDefined "MYSQL_PLUGIN_IMPORT"))
     [If (EAnd (EDefined "_WIN32") (EDefined "MYSQL_DYNAMIC_PLUGIN"))
        [Define "MYSQL_PLUGIN_IMPORT" (Text "__declspec(dllimport)")]
        [Define "MYSQL_PLUGIN_IMPORT" Empty]]
     [];
   If (EDefined "EMBEDDED_LIBRARY")
     [Undef "HAVE_OPENSSL";
      Undef "HAVE_SMEM"]
     []].

(** The header, between its guards. *)
Definition my_global : list directive :=
  [If (ENot (EDefined "_global_h")) (Define "_global_h" Empty :: global_platform ++ my_config ++ global_features ++ global_windows ++ global_compiler ++ global_unix ++ global_includes ++ global_checks ++ global_base ++ global_files ++ global_numbers ++ global_limits ++ global_pointers ++ global_types ++ global_helpers ++ global_storage ++ global_end) []].
