(* ===== verification/HeaderPthread.v ===== *)
(** * The directives of my_pthread.h

    In the order of the file.  The replacements of macros with parameters are in Locks.v and Pthread.v. *)
From stdpp Require Import strings.
From S2P Require Import Prelude Preprocessor.

Definition pthread_windows : list directive :=
  [Typedef "pthread_mutex_t" "CRITICAL_SECTION";
   Typedef "pthread_t" "DWORD";
   Typedef "pthread_mutexattr_t" "int";
   Define "pthread_self" (Macro "");
   Define "pthread_handler_t" (Text "EXTERNC void * __cdecl");
   Typedef "my_pthread_once_t" "volatile LONG";
   Define "MY_PTHREAD_ONCE_INIT" (Num 0);
   Define "MY_PTHREAD_ONCE_INPROGRESS" (Num 1);
   Define "MY_PTHREAD_ONCE_DONE" (Num 2);
   Define "set_timespec" (Macro "ABSTIME,SEC");
   Define "set_timespec_nsec" (Macro "ABSTIME,NSEC");
   Define "cmp_timespec" (Macro "TS1,TS2");
   If (ENot (EDefined "ETIMEDOUT"))
     [Define "ETIMEDOUT" (Num 145)]
     [];
   Define "HAVE_LOCALTIME_R" (Num 1);
   Define "_REENTRANT" (Num 1);
   Define "HAVE_PTHREAD_ATTR_SETSTACKSIZE" (Num 1);
   Undef "SAFE_MUTEX";
   Define "pthread_key" (Macro "T,V");
   Define "pthread_key_create" (Macro "A,B");
   Define "pthread_key_delete" (Macro "A");
   Define "my_pthread_setspecific_ptr" (Macro "T,V");
   Define "pthread_setspecific" (Macro "A,B");
   Define "pthread_getspecific" (Macro "A");
   Define "my_pthread_getspecific" (Macro "T,A");
   Define "my_pthread_getspecific_ptr" (Macro "T,V");
   Define "pthread_equal" (Macro "A,B");
   Define "pthread_mutex_init" (Macro "A,B");
   Define "pthread_mutex_lock" (Macro "A");
   Define "pthread_mutex_trylock" (Macro "A");
   Define "pthread_mutex_unlock" (Macro "A");
   Define "pthread_mutex_destroy" (Macro "A");
   Define "pthread_kill" (Macro "A,B");
   Define "pthread_attr_setdetachstate" (Macro "A,B");
   Define "pthread_attr_setscope" (Macro "A,B");
   Define "pthread_detach_this_thread" (Macro "");
   Define "pthread_condattr_init" (Macro "A");
   Define "pthread_condattr_destroy" (Macro "A");
   Define "pthread_yield" (Macro "");
   Define "my_sigset" (Macro "A,B")].

Definition pthread_unix : list directive :=
  [If (EDefined "HAVE_rts_threads")
     [Define "sigwait" (Id "org_sigwait");
      Include "signal.h";
      Undef "sigwait"]
     [];
   Include "pthread.h";
   If (ENot (EDefined "_REENTRANT"))
     [Define "_REENTRANT" Empty]
     [];
   If (EDefined "HAVE_THR_SETCONCURRENCY")
     [Include "thread.h"]
     [];
   If (EDefined "HAVE_SCHED_H")
     [Include "sched.h"]
     [];
   If (EDefined "HAVE_SYNCH_H")
     [Include "synch.h"]
     [];
   Define "pthread_key" (Macro "T,V");
   Define "my_pthread_getspecific_ptr" (Macro "T,V");
   Define "my_pthread_setspecific_ptr" (Macro "T,V");
   Define "pthread_detach_this_thread" (Macro "");
   Define "pthread_handler_t" (Text "EXTERNC void *");
   Define "my_pthread_once_t" (Id "pthread_once_t");
   If (EDefined "PTHREAD_ONCE_INITIALIZER")
     [Define "MY_PTHREAD_ONCE_INIT" (Id "PTHREAD_ONCE_INITIALIZER")]
     [Define "MY_PTHREAD_ONCE_INIT" (Id "PTHREAD_ONCE_INIT")];
   Define "my_pthread_once" (Macro "C,F");
   If (EAnd (EDefined "PTHREAD_SCOPE_GLOBAL") (ENot (EDefined "PTHREAD_SCOPE_SYSTEM")))
     [Define "HAVE_rts_threads" Empty;
      Define "pthread_sigmask" (Macro "A,B,C");
      Define "PTHREAD_CREATE_DETACHED" (Text "&my_pthread_create_detached");
      Define "PTHREAD_SCOPE_SYSTEM" (Id "PTHREAD_SCOPE_GLOBAL");
      Define "PTHREAD_SCOPE_PROCESS" (Id "PTHREAD_SCOPE_LOCAL");
      Define "USE_ALARM_THREAD" Empty]
     [];
   If (EAnd (EDefined "_BSDI_VERSION") (ECmp Lt_ (EId "_BSDI_VERSION") (ENum 199910)))
     []
     [];
   If (ENot (EDefined "HAVE_NONPOSIX_SIGWAIT"))
     [Define "my_sigwait" (Macro "A,B")]
     [];
   If (EDefined "HAVE_NONPOSIX_PTHREAD_MUTEX_INIT")
     [If (ENot (EDefined "SAFE_MUTEX"))
        [Define "pthread_mutex_init" (Macro "a,b")]
        [];
      Define "pthread_cond_init" (Macro "a,b")]
     [];
   If (EAnd (EDefined "HAVE_SIGTHREADMASK") (ENot (EDefined "HAVE_PTHREAD_SIGMASK")))
     [Define "pthread_sigmask" (Macro "A,B,C")]
     [];
   If (EAnd (EAnd (EAnd (EAnd (EAnd (EAnd (ENot (EDefined "HAVE_SIGWAIT")) (ENot (EDefined "HAVE_rts_threads"))) (ENot (EDefined "sigwait"))) (ENot (EDefined "alpha_linux_port"))) (ENot (EDefined "HAVE_NONPOSIX_SIGWAIT"))) (ENot (EDefined "HAVE_DEC_3_2_THREADS"))) (ENot (EDefined "_AIX")))
     []
     [];
   If (EAnd (EDefined "HAVE_SIGACTION") (ENot (EDefined "my_sigset")))
     [Define "my_sigset" (Macro "A,B")]
     [If (EAnd (EDefined "HAVE_SIGSET") (ENot (EDefined "my_sigset")))
        [Define "my_sigset" (Macro "A,B")]
        [If (ENot (EDefined "my_sigset"))
           [Define "my_sigset" (Macro "A,B")]
           []]];
   If (EOr (ENot (EDefined "HAVE_PTHREAD_ATTR_SETSCOPE")) (EDefined "HAVE_DEC_3_2_THREADS"))
     [Define "pthread_attr_setscope" (Macro "A,B");
      Undef "HAVE_GETHOSTBYADDR_R"]
     [];
   If (EAnd (EDefined "HAVE_BROKEN_PTHREAD_COND_TIMEDWAIT") (ENot (EDefined "SAFE_MUTEX")))
     [Define "pthread_cond_timedwait" (Macro "A,B,C")]
     [];
   If (ENot (EDefined "HAVE_NONPOSIX_PTHREAD_GETSPECIFIC"))
     [Define "my_pthread_getspecific" (Macro "A,B")]
     [Define "my_pthread_getspecific" (Macro "A,B")];
   If (ENot (EDefined "HAVE_LOCALTIME_R"))
     []
     [];
   If (ENot (EDefined "HAVE_GMTIME_R"))
     []
     [];
   If (EDefined "HAVE_PTHREAD_CONDATTR_CREATE")
     [Define "pthread_condattr_init" (Id "pthread_condattr_create");
      Define "pthread_condattr_destroy" (Id "pthread_condattr_delete")]
     [];
   If (EAnd (ENot (EDefined "HAVE_PTHREAD_KEY_DELETE")) (ENot (EDefined "pthread_key_delete")))
     [Define "pthread_key_delete" (Macro "A")]
     [];
   If (EDefined "HAVE_CTHREADS_WRAPPER")
     [Define "pthread_cond_destroy" (Macro "A");
      Define "pthread_mutex_destroy" (Macro "A");
      Define "pthread_attr_delete" (Macro "A");
      Define "pthread_condattr_delete" (Macro "A");
      Define "pthread_attr_setstacksize" (Macro "A,B");
      Define "pthread_equal" (Macro "A,B");
      Define "pthread_cond_timedwait" (Macro "a,b,c");
      Define "pthread_attr_init" (Macro "A");
      Define "pthread_attr_destroy" (Macro "A");
      Define "pthread_attr_setdetachstate" (Macro "A,B");
      Define "pthread_create" (Macro "A,B,C,D");
      Define "pthread_sigmask" (Macro "A,B,C");
      Define "pthread_kill" (Macro "A,B");
      Undef "pthread_detach_this_thread";
      Define "pthread_detach_this_thread" (Macro "")]
     [];
   If (EDefined "HAVE_DARWIN5_THREADS")
     [Define "pthread_sigmask" (Macro "A,B,C");
      Define "pthread_kill" (Macro "A,B");
      Define "pthread_condattr_init" (Macro "A");
      Define "pthread_condattr_destroy" (Macro "A");
      Undef "pthread_detach_this_thread";
      Define "pthread_detach_this_thread" (Macro "")]
     [];
   If (EAnd (EOr (EAnd (EDefined "HAVE_PTHREAD_ATTR_CREATE") (ENot (EDefined "HAVE_SIGWAIT"))) (EDefined "HAVE_DEC_3_2_THREADS")) (ENot (EDefined "HAVE_CTHREADS_WRAPPER")))
     [Define "pthread_key_create" (Macro "A,B");
      Define "pthread_attr_init" (Macro "A");
      Define "pthread_attr_destroy" (Macro "A");
      Define "pthread_attr_setdetachstate" (Macro "A,B");
      Define "pthread_create" (Macro "A,B,C,D");
      If (ENot (EDefined "pthread_sigmask"))
        [Define "pthread_sigmask" (Macro "A,B,C")]
        [];
      Define "pthread_kill" (Macro "A,B");
      Undef "pthread_detach_this_thread";
      Define "pthread_detach_this_thread" (Macro "")]
     [Define "HAVE_PTHREAD_KILL" Empty]].

Definition pthread_system : list directive :=
  [Include "my_global.h";
   If (ENot (EDefined "ETIME"))
     [Define "ETIME" (Id "ETIMEDOUT")]
     [];
   If (EDefined "__cplusplus")
     [Define "EXTERNC" (Text "extern 'C'")]
     [Define "EXTERNC" Empty];
   If (EDefined "__WIN__") pthread_windows pthread_unix;
   If (EAnd (EDefined "HPUX10") (ENot (EDefined "DONT_REMAP_PTHREAD_FUNCTIONS")))
     [Undef "pthread_cond_timedwait";
      Define "pthread_cond_timedwait" (Macro "a,b,c")]
     [];
   If (EDefined "HPUX10")
     [Define "pthread_attr_getstacksize" (Macro "A,B")]
     [];
   If (EAnd (EDefined "HAVE_POSIX1003_4a_MUTEX") (ENot (EDefined "DONT_REMAP_PTHREAD_FUNCTIONS")))
     [Undef "pthread_mutex_trylock";
      Define "pthread_mutex_trylock" (Macro "a")]
     [];
   If (EAnd (ENot (EDefined "HAVE_PTHREAD_YIELD_ONE_ARG")) (ENot (EDefined "HAVE_PTHREAD_YIELD_ZERO_ARG")))
     [If (EDefined "HAVE_SCHED_YIELD")
        [Define "pthread_yield" (Macro "")]
        [If (EDefined "HAVE_PTHREAD_YIELD_NP")
           [Define "pthread_yield" (Macro "")]
           [If (EDefined "HAVE_THR_YIELD")
              [Define "pthread_yield" (Macro "")]
              []]]]
     []].

Definition pthread_time : list directive :=
  [If (EDefined "HAVE_TIMESPEC_TS_SEC")
     [If (ENot (EDefined "set_timespec"))
        [Define "set_timespec" (Macro "ABSTIME,SEC")]
        [];
      If (ENot (EDefined "set_timespec_nsec"))
        [Define "set_timespec_nsec" (Macro "ABSTIME,NSEC")]
        []]
     [If (ENot (EDefined "set_timespec"))
        [Define "set_timespec" (Macro "ABSTIME,SEC")]
        [];
      If (ENot (EDefined "set_timespec_nsec"))
        [Define "set_timespec_nsec" (Macro "ABSTIME,NSEC")]
        []];
   If (EDefined "HAVE_TIMESPEC_TS_SEC")
     [If (ENot (EDefined "cmp_timespec"))
        [Define "cmp_timespec" (Macro "TS1,TS2")]
        []]
     [If (ENot (EDefined "cmp_timespec"))
        [Define "cmp_timespec" (Macro "TS1,TS2")]
        []]].

Definition pthread_mutexes : list directive :=
  [If (EDefined "SAFE_MUTEX_DETECT_DESTROY")
     []
     [];
   If (EDefined "SAFE_MUTEX_DETECT_DESTROY")
     []
     [];
   If (EDefined "SAFE_MUTEX")
     [Undef "pthread_mutex_init";
      Undef "pthread_mutex_lock";
      Undef "pthread_mutex_unlock";
      Undef "pthread_mutex_destroy";
      Undef "pthread_mutex_wait";
      Undef "pthread_mutex_timedwait";
      Undef "pthread_mutex_t";
      Undef "pthread_cond_wait";
      Undef "pthread_cond_timedwait";
      Undef "pthread_mutex_trylock";
      Define "pthread_mutex_init" (Macro "A,B");
      Define "pthread_mutex_lock" (Macro "A");
      Define "pthread_mutex_unlock" (Macro "A");
      Define "pthread_mutex_destroy" (Macro "A");
      Define "pthread_cond_wait" (Macro "A,B");
      Define "pthread_cond_timedwait" (Macro "A,B,C");
      Define "pthread_mutex_trylock" (Macro "A");
      Define "pthread_mutex_t" (Id "safe_mutex_t");
      Define "safe_mutex_assert_owner" (Macro "mp");
      Define "safe_mutex_assert_not_owner" (Macro "mp")]
     [Define "safe_mutex_assert_owner" (Macro "mp");
      Define "safe_mutex_assert_not_owner" (Macro "mp")];
   If (EAnd (EDefined "MY_PTHREAD_FASTMUTEX") (ENot (EDefined "SAFE_MUTEX")))
     [Undef "pthread_mutex_init";
      Undef "pthread_mutex_lock";
      Undef "pthread_mutex_unlock";
      Undef "pthread_mutex_destroy";
      Undef "pthread_mutex_wait";
      Undef "pthread_mutex_timedwait";
      Undef "pthread_mutex_t";
      Undef "pthread_cond_wait";
      Undef "pthread_cond_timedwait";
      Undef "pthread_mutex_trylock";
      Define "pthread_mutex_init" (Macro "A,B");
      Define "pthread_mutex_lock" (Macro "A");
      Define "pthread_mutex_unlock" (Macro "A");
      Define "pthread_mutex_destroy" (Macro "A");
      Define "pthread_cond_wait" (Macro "A,B");
      Define "pthread_cond_timedwait" (Macro "A,B,C");
      Define "pthread_mutex_trylock" (Macro "A");
      Define "pthread_mutex_t" (Id "my_pthread_fastmutex_t")]
     []].

Definition pthread_rwlocks : list directive :=
  [If (EDefined "HAVE_BROKEN_RWLOCK")
     [Undef "HAVE_PTHREAD_RWLOCK_RDLOCK";
      Undef "HAVE_RWLOCK_INIT";
      Undef "HAVE_RWLOCK_T"]
     [];
   If (EDefined "USE_MUTEX_INSTEAD_OF_RW_LOCKS")
     [Define "rw_lock_t" (Id "pthread_mutex_t");
      Define "my_rwlock_init" (Macro "A,B");
      Define "rw_rdlock" (Macro "A");
      Define "rw_wrlock" (Macro "A");
      Define "rw_tryrdlock" (Macro "A");
      Define "rw_trywrlock" (Macro "A");
      Define "rw_unlock" (Macro "A");
      Define "rwlock_destroy" (Macro "A")]
     [If (EDefined "HAVE_PTHREAD_RWLOCK_RDLOCK")
        [Define "rw_lock_t" (Id "pthread_rwlock_t");
         Define "my_rwlock_init" (Macro "A,B");
         Define "rw_rdlock" (Macro "A");
         Define "rw_wrlock" (Macro "A");
         Define "rw_tryrdlock" (Macro "A");
         Define "rw_trywrlock" (Macro "A");
         Define "rw_unlock" (Macro "A");
         Define "rwlock_destroy" (Macro "A")]
        [If (EDefined "HAVE_RWLOCK_INIT")
           [If (EDefined "HAVE_RWLOCK_T")
              [Define "rw_lock_t" (Id "rwlock_t")]
              [];
            Define "my_rwlock_init" (Macro "A,B")]
           [Define "NEED_MY_RW_LOCK" (Num 1);
            Define "rw_lock_t" (Id "my_rw_lock_t");
            Define "my_rwlock_init" (Macro "A,B");
            Define "rw_rdlock" (Macro "A");
            Define "rw_wrlock" (Macro "A");
            Define "rw_tryrdlock" (Macro "A");
            Define "rw_trywrlock" (Macro "A");
            Define "rw_unlock" (Macro "A");
            Define "rwlock_destroy" (Macro "A");
            Define "rw_lock_assert_write_owner" (Macro "A");
            Define "rw_lock_assert_not_write_owner" (Macro "A")]]];
   If (EDefined "SAFE_MUTEX")
     []
     [];
   If (EDefined "SAFE_MUTEX")
     [Define "rw_pr_lock_assert_write_owner" (Macro "A");
      Define "rw_pr_lock_assert_not_write_owner" (Macro "A")]
     [Define "rw_pr_lock_assert_write_owner" (Macro "A");
      Define "rw_pr_lock_assert_not_write_owner" (Macro "A")]].

Definition pthread_own_rwlocks : list directive :=
  [If (EDefined "NEED_MY_RW_LOCK")
     [If (EDefined "_WIN32")
        [If (EDefined "SAFE_MUTEX")
           []
           []]
        [If (EDefined "SAFE_MUTEX")
           []
           []];
      If (EDefined "SAFE_MUTEX")
        [Define "my_rw_lock_assert_write_owner" (Macro "A");
         Define "my_rw_lock_assert_not_write_owner" (Macro "A")]
        [Define "my_rw_lock_assert_write_owner" (Macro "A");
         Define "my_rw_lock_assert_not_write_owner" (Macro "A")]]
     []].

Definition pthread_end : list directive :=
  [Define "GETHOSTBYADDR_BUFF_SIZE" (Num 2048);
   If (ENot (EDefined "HAVE_THR_SETCONCURRENCY"))
     [Define "thr_setconcurrency" (Macro "A")]
     [];
   If (EAnd (ENot (EDefined "HAVE_PTHREAD_ATTR_SETSTACKSIZE")) (ENot (EDefined "pthread_attr_setstacksize")))
     [Define "pthread_attr_setstacksize" (Macro "A,B")]
     [];
   Define "MY_MUTEX_INIT_SLOW" (Id "NULL");
   If (EDefined "PTHREAD_ADAPTIVE_MUTEX_INITIALIZER_NP")
     [Define "MY_MUTEX_INIT_FAST" (Text "&my_fast_mutexattr")]
     [Define "MY_MUTEX_INIT_FAST" (Id "NULL")];
   If (EDefined "PTHREAD_ERRORCHECK_MUTEX_INITIALIZER_NP")
     [Define "MY_MUTEX_INIT_ERRCHK" (Text "&my_errorcheck_mutexattr")]
     [Define "MY_MUTEX_INIT_ERRCHK" (Id "NULL")];
   If (ENot (EDefined "ESRCH"))
     [Define "ESRCH" (Num 1)]
     [];
   Typedef "my_thread_id" "ulong";
   Define "THREAD_NAME_SIZE" (Num 10);
   If (ENot (EDefined "DEFAULT_THREAD_STACK"))
     [If (ECmp Gt_ (EId "SIZEOF_CHARP") (ENum 4))
        [Define "DEFAULT_THREAD_STACK" (Text "(256*1024L)")]
        [Define "DEFAULT_THREAD_STACK" (Text "(192*1024)")]]
     [];
   Include "mysql/psi/mysql_thread.h";
   Define "INSTRUMENT_ME" (Num 0);
   If (ENot (EDefined "DBUG_OFF"))
     []
     [];
   Define "my_thread_var" (Text "(_my_thread_var())");
   Define "my_errno" (Text "my_thread_var->thr_errno");
   Define "THD_LIB_OTHER" (Num 1);
   Define "THD_LIB_NPTL" (Num 2);
   Define "THD_LIB_LT" (Num 4)].

Definition pthread_counters : list directive :=
  [If (ENot (EDefined "thread_safe_increment"))
     [If (EDefined "_WIN32")
        [Define "thread_safe_increment" (Macro "V,L");
         Define "thread_safe_decrement" (Macro "V,L")]
        [Define "thread_safe_increment" (Macro "V,L");
         Define "thread_safe_decrement" (Macro "V,L")]]
     [];
   If (ENot (EDefined "thread_safe_add"))
     [If (EDefined "_WIN32")
        [Define "thread_safe_add" (Macro "V,C,L");
         Define "thread_safe_sub" (Macro "V,C,L")]
        [Define "thread_safe_add" (Macro "V,C,L");
         Define "thread_safe_sub" (Macro "V,C,L")]]
     [];
   If (EDefined "SAFE_STATISTICS")
     [Define "statistic_increment" (Macro "V,L");
      Define "statistic_decrement" (Macro "V,L");
      Define "statistic_add" (Macro "V,C,L");
      Define "statistic_sub" (Macro "V,C,L")]
     [Define "statistic_decrement" (Macro "V,L");
      Define "statistic_increment" (Macro "V,L");
      Define "statistic_add" (Macro "V,C,L");
      Define "statistic_sub" (Macro "V,C,L")];
   Define "status_var_increment" (Macro "V");
   Define "status_var_decrement" (Macro "V");
   Define "status_var_add" (Macro "V,C");
   Define "status_var_sub" (Macro "V,C");
   If (EDefined "__cplusplus")
     []
     []].

(** The header, between its guards. *)
Definition my_pthread : list directive :=
  [If (ENot (EDefined "_my_pthread_h")) (Define "_my_pthread_h" Empty :: pthread_system ++ pthread_time ++ pthread_mutexes ++ pthread_rwlocks ++ pthread_own_rwlocks ++ pthread_end ++ pthread_counters) []].
