(* ===== verification/HeaderMysql.v ===== *)
(** * The directives of mysql.h

    In the order of the file, with the typedefs of one line.  The replacements of macros with parameters are in
    Protocol.v and MacrosLibrary.v. *)
From stdpp Require Import strings.
From S2P Require Import Prelude Preprocessor.

Definition mysql_start : list directive :=
  [If (EDefined "_AIX")
     [Include "standards.h"]
     [];
   If (EDefined "__CYGWIN__")
     [Undef "WIN";
      Undef "_WIN";
      Undef "_WIN32";
      Undef "_WIN64";
      Undef "__WIN__"]
     [];
   If (EDefined "__cplusplus")
     []
     [];
   If (ENot (EDefined "_global_h"))
     [If (ENot (EDefined "MYSQL_ABI_CHECK"))
        [Include "sys/types.h"]
        [];
      If (EDefined "__LCC__")
        [Include "winsock2.h"]
        [];
      Typedef "my_bool" "char";
      If (EAnd (EOr (EDefined "_WIN32") (EDefined "_WIN64")) (ENot (EDefined "__WIN__")))
        [Define "__WIN__" Empty]
        [];
      If (ENot (EDefined "__WIN__"))
        [Define "STDCALL" Empty]
        [Define "STDCALL" (Id "__stdcall")];
      If (ENot (EDefined "my_socket_defined"))
        [If (EDefined "__WIN__")
           [Define "my_socket" (Id "SOCKET")]
           [Typedef "my_socket" "int"]]
        []]
     [];
   Include "mysql_version.h";
   Include "mysql_com.h";
   Include "mysql_time.h";
   Include "my_list.h"].

Definition mysql_fields : list directive :=
  [Define "CLIENT_NET_READ_TIMEOUT" (Text "365*24*3600");
   Define "CLIENT_NET_WRITE_TIMEOUT" (Text "365*24*3600");
   Define "IS_PRI_KEY" (Macro "n");
   Define "IS_NOT_NULL" (Macro "n");
   Define "IS_BLOB" (Macro "n");
   Define "IS_NUM" (Macro "t");
   Define "IS_LONGDATA" (Macro "t")].

Definition mysql_types : list directive :=
  [Typedef "MYSQL_ROW" "char **";
   Typedef "MYSQL_FIELD_OFFSET" "unsigned int";
   If (ENot (EDefined "_global_h"))
     [If (EDefined "NO_CLIENT_LONG_LONG")
        [Typedef "my_ulonglong" "unsigned long"]
        [If (EDefined "__WIN__")
           [Typedef "my_ulonglong" "unsigned __int64"]
           [Typedef "my_ulonglong" "unsigned long long"]]]
     [];
   Include "typelib.h";
   Define "MYSQL_COUNT_ERROR" (Text "(~(my_ulonglong) 0)");
   Define "ER_WARN_DATA_TRUNCATED" (Id "WARN_DATA_TRUNCATED");
   Typedef "MYSQL_ROW_OFFSET" "MYSQL_ROWS *";
   Include "my_alloc.h";
   Typedef "EMBEDDED_QUERY_RESULT" "struct embedded_query_result"].

Definition mysql_managers : list directive :=
  [If (EAnd (ENot (EDefined "MYSQL_SERVER")) (ENot (EDefined "MYSQL_CLIENT")))
     [Define "MYSQL_CLIENT" Empty]
     [];
   If (EAnd (ENot (EDefined "MYSQL_SERVER")) (ENot (EDefined "EMBEDDED_LIBRARY")))
     [Define "max_allowed_packet" (Text "(*mysql_get_parameters()->p_max_allowed_packet)");
      Define "net_buffer_length" (Text "(*mysql_get_parameters()->p_net_buffer_length)")]
     [];
   Define "mysql_library_init" (Id "mysql_server_init");
   Define "mysql_library_end" (Id "mysql_server_end")].

Definition mysql_infile : list directive :=
  [Define "LOCAL_INFILE_ERROR_LEN" (Num 512)].

Definition mysql_end : list directive :=
  [Define "MYSQL_NO_DATA" (Num 100);
   Define "MYSQL_DATA_TRUNCATED" (Num 101);
   Define "mysql_reload" (Macro "mysql");
   If (EDefined "USE_OLD_FUNCTIONS")
     []
     [];
   Define "HAVE_MYSQL_REAL_CONNECT" Empty;
   If (EDefined "__cplusplus")
     []
     []].

(** The header, between its guards. *)
Definition mysql : list directive :=
  [If (ENot (EDefined "_mysql_h")) (Define "_mysql_h" Empty :: mysql_start ++ mysql_fields ++ mysql_types ++ mysql_managers ++ mysql_infile ++ mysql_end) []].
