(* ===== verification/Configuration.v ===== *)
(** * What the configuration makes of the headers

    The analyser of Preprocessor.v on my_global.h with my_config.h: which compilations of the distribution
    meet no [#error] and which macros and types they get; and the types that my_global.h chooses against the
    definitions of Structs.v, on all platforms. *)
From stdpp Require Import gmap strings.
From S2P Require Import Prelude Preprocessor HeaderConfig HeaderGlobal Layout Structs.

#[export] Instance scalar_eq_dec : EqDecision scalar.
Proof. solve_decision. Defined.

(** ** The distribution: Windows *)

(** The names that belong to MySQL or to the compiler; the headers of the system leave them alone. *)
Definition reserved_prefixes : list string :=
  ["typedef "; "HAVE_"; "SIZEOF_"; "WITH_"; "MYSQL_"; "EMBEDDED_"; "STACK_"; "NO_CLIENT"; "WORDS_"; "TARGET_"; "C_HAS_";
   "_WIN32"; "__WIN__"; "__APPLE__"; "__CYGWIN__"; "__GNUC"; "__STDC_VERSION__"; "_MSC_VER"; "TIME_WITH"; "_global_h";
   "MY_CONFIG_H"; "OpenBSD"; "longlong_defined"; "FN_NO_CASE"].
Definition reserved (x : string) : bool := existsb (fun p => String.prefix p x) reserved_prefixes.

(** A compiler for Windows that defines none of the names the configuration leaves undefined: what [#if]
    compares are numbers, neither header was included, and nothing else is known. *)
Definition windows_known : list (string * known) :=
  [("_WIN32", Is (Some (Num 1))); ("__WIN__", Is None); ("__APPLE__", Is None); ("__CYGWIN__", Is None); ("__GNUC", Is None);
   ("_global_h", Is None); ("MY_CONFIG_H", Is None); ("longlong_defined", Is None); ("NO_CLIENT_LONG_LONG", Is None);
   ("HAVE_REPLICATION", Is None); ("HAVE_EXTERNAL_CLIENT", Is None);
   ("_MSC_VER", Numeric); ("__GNUC__", Numeric); ("__GNUC_MINOR__", Numeric); ("__STDC_VERSION__", Numeric);
   ("OpenBSD", Numeric); ("C_HAS_inline", Numeric)] ++
  map (fun x => (x, Is None)) not_configured.
Definition compiler (reserved : string -> bool) (known : list (string * known)) : aenv :=
  foldr (fun p => set_known reserved p.1 p.2) nothing_known known.
Definition windows_compiler : aenv := compiler reserved windows_known.

(** Macros and types of every such compilation. *)
Definition windows_macros : list (string * option replacement) :=
  [("SIZEOF_CHARP", Some (Num 4)); ("SIZEOF_INT", Some (Num 4)); ("SIZEOF_LONG", Some (Num 4));
   ("SIZEOF_LONG_LONG", Some (Num 8)); ("SIZEOF_OFF_T", Some (Num 8)); ("STACK_DIRECTION", Some (Num (-1)));
   ("HAVE_PSI_INTERFACE", Some Empty); ("HAVE_LONG_LONG", Some (Num 1)); ("__WIN__", Some Empty);
   ("HAVE_FINITE", Some (Num 1)); ("HAVE_ISNAN", Some (Num 1)); ("HAVE_ISINF", None); ("WORDS_BIGENDIAN", None);
   ("HAVE_PTHREAD_RWLOCK_RDLOCK", None); ("HAVE_RWLOCK_INIT", None); ("HAVE_AIOWAIT", None);
   ("FN_NO_CASE_SENSE", Some (Num 1)); ("FN_NO_CASE_SENCE", Some Empty);
   ("_global_h", Some Empty); ("MY_CONFIG_H", Some Empty);
   (typedef_of "my_off_t", Some (Text "unsigned long long")); (typedef_of "os_off_t", Some (Text "unsigned long long"));
   (typedef_of "my_ulonglong", Some (Text "unsigned __int64")); (typedef_of "ulonglong", Some (Text "unsigned long long int"));
   (typedef_of "longlong", Some (Text "long long int")); (typedef_of "my_socket", Some (Text "SOCKET"));
   (typedef_of "uint32", Some (Text "unsigned int")); (typedef_of "int32", Some (Text "int"));
   (typedef_of "my_ptrdiff_t", Some (Text "long")); (typedef_of "intptr", Some (Text "int"))].

(** ** The types of my_global.h *)

(** A type by its name. *)
Definition type_of_name `{Platform} (n : string) : option ctype :=
  snd <$> find (fun p => String.eqb p.1 n)
   [("int", Scalar Int); ("unsigned int", Scalar UInt); ("long", Scalar Long); ("unsigned long", Scalar ULong);
    ("long long int", Scalar LongLong); ("unsigned long long int", Scalar ULongLong);
    ("unsigned long long", Scalar ULongLong); ("unsigned __int64", Scalar (Opaque "unsigned __int64"));
    ("ulonglong", ulonglong); ("longlong", longlong); ("SOCKET", Scalar (Opaque "SOCKET"))].

(** The macros by which my_global.h chooses types: which of four are defined, and the sizes of int, long,
    long long, pointers and off_t. *)
Definition choices_of (flags : list bool) (sizes : list Z) : env := list_to_map (
  flat_map (fun p => if p.2 : bool then [(p.1, Empty)] else [])
    (zip ["_WIN32"; "__WIN__"; "HAVE_LONG_LONG"; "NO_CLIENT_LONG_LONG"] flags) ++
  zip ["SIZEOF_INT"; "SIZEOF_LONG"; "SIZEOF_LONG_LONG"; "SIZEOF_CHARP"; "SIZEOF_OFF_T"] (Num <$> sizes)).
Definition flags_of `{Platform} : list bool :=
  defined <$> ["_WIN32"; "__WIN__"; "HAVE_LONG_LONG"; "NO_CLIENT_LONG_LONG"].
Definition sizes_of `{Platform} : list Z :=
  size_of_scalar <$> [Int; Long; LongLong; Pointer; Opaque "off_t"].

(** The type that a run of the directives gives a name. *)
Definition chosen `{Platform} (m : env) (x : string) : option ctype :=
  match m !! typedef_of x with Some (Text t) => type_of_name t | _ => None end.

(** The name of the type it gives, by the conditions of Structs.v. *)
Definition chosen_text (flags : list bool) (sizes : list Z) : list (string * string) :=
  match flags, sizes with
  | [win; win2; ll; no_ll], [int; long; longlong; charp; off] =>
    let wide := ll && (longlong =? 8) in
    [("uint32", if int =? 4 then "unsigned int" else "unsigned long");
     ("ulonglong", if wide then "unsigned long long int" else "unsigned long");
     ("longlong", if wide then "long long int" else "long");
     ("my_ulonglong", if no_ll then "unsigned long" else if win2 then "unsigned __int64" else "unsigned long long");
     ("my_off_t", if win : bool then "unsigned long long" else if 4 <? off then "ulonglong" else "unsigned long")]
  | _, _ => []
  end.
(** When the directives are an [#error]. *)
Definition no_types (sizes : list Z) : bool :=
  match sizes with
  | [int; long; longlong; charp; off] =>
    negb ((int =? 4) || (long =? 4)) || negb ((charp =? int) || (charp =? long) || (charp =? longlong))
  | _ => true
  end.

(** ** Tests *)

Definition facts_check (reserved : string -> bool) (ds : list directive) (a : aenv) (facts : list (string * option replacement)) : bool :=
  match analyse reserved ds a with
  | Some a' => forallb (fun f => bool_decide (lookup_known reserved a' f.1 = Some (Is f.2))) facts
  | None => false
  end.

(** [holds] as a test. *)
Definition holdsb (k : known) (r : option replacement) : bool :=
  match k with Is r' => bool_decide (r = r') | Numeric => match r with None | Some (Num _) => true | _ => false end end.

(** The sizes of real platforms. *)
Definition usual_sizes (sizes : list Z) : Prop :=
  match sizes with
  | [int; long; longlong; charp; off] => int ∈ [2; 4; 8] /\ long ∈ [4; 8] /\ longlong ∈ [4; 8] /\ charp ∈ [2; 4; 8] /\ off ∈ [4; 8]
  | _ => False
  end.
Definition all_sizes : list (list Z) :=
  int ← [2; 4; 8]; long ← [4; 8]; longlong ← [4; 8]; charp ← [2; 4; 8]; off ← [4; 8]; [[int; long; longlong; charp; off]].
Definition all_flags : list (list bool) :=
  a ← [true; false]; b ← [true; false]; c ← [true; false]; d ← [true; false]; [[a; b; c; d]].

Definition types_check (system : string -> env -> env) (flags : list bool) (sizes : list Z) : bool :=
  match preprocess system global_types (choices_of flags sizes) with
  | None => no_types sizes
  | Some m => negb (no_types sizes) &&
      forallb (fun p => bool_decide (m !! typedef_of p.1 = Some (Text p.2))) (chosen_text flags sizes)
  end.
(** ** The distribution *)

Lemma facts_check_sound (reserved : string -> bool) (ds : list directive) (a : aenv) (facts : list (string * option replacement)) :
  facts_check reserved ds a facts = true -> forall system m, respects_reserved system reserved -> describes reserved a m ->
  exists m', preprocess system ds m = Some m' /\ forall x r, (x, r) ∈ facts -> m' !! x = r.
Proof.
  unfold facts_check. intros Hc system m Hs Ha. destruct (analyse reserved ds a) as [a'|] eqn:E; [|done].
  destruct (analyse_sound system reserved Hs ds a a' m Ha E) as (m' & Hm & Ha'). exists m'. split; [done|].
  intros x r Hin. rewrite forallb_forall in Hc. apply list_elem_of_In in Hin. specialize (Hc _ Hin).
  apply bool_decide_eq_true in Hc. apply (Ha' x (Is r) Hc).
Qed.

(** With and without the embedded library. *)
Lemma windows_checked :
  facts_check reserved my_global windows_compiler windows_macros = true /\
  facts_check reserved my_global (set_known reserved "EMBEDDED_LIBRARY" (Is None) windows_compiler)
    [("HAVE_REPLICATION", Some Empty); ("HAVE_EXTERNAL_CLIENT", Some Empty); ("HAVE_SMEM", Some (Num 1))] = true /\
  facts_check reserved my_global (set_known reserved "EMBEDDED_LIBRARY" (Is (Some (Num 1))) windows_compiler)
    [("HAVE_REPLICATION", None); ("HAVE_EXTERNAL_CLIENT", None); ("HAVE_SMEM", None); ("HAVE_OPENSSL", None)] = true.
Proof. split_and!; vm_compute; reflexivity. Qed.

Lemma describes_more (a : aenv) (m : env) (x : string) (k : known) :
  describes reserved a m -> holds k (m !! x) -> describes reserved (set_known reserved x k a) m.
Proof. intros Ha Hk. by apply (describes_set reserved a m). Qed.

(** C31.  Every compilation of my_global.h with the my_config.h of the distribution on Windows meets no
    [#error], whatever else the compiler and the headers of the system define, as long as they leave the
    names of MySQL alone.  It gets the macros and types of the list: a 32-bit data model that contains 64-bit
    file offsets although the configuration says 4 bytes, the performance schema, [FN_NO_CASE_SENSE] of the
    configuration next to a [FN_NO_CASE_SENCE] of my_global.h.  Replication and external clients are there
    exactly without the embedded library, and a second inclusion changes nothing. *)
Theorem windows_build (system : string -> env -> env) (m : env) :
  respects_reserved system reserved -> describes reserved windows_compiler m ->
  exists m', preprocess system my_global m = Some m' /\
    (forall x r, (x, r) ∈ windows_macros -> m' !! x = r) /\
    (m !! "EMBEDDED_LIBRARY" = None -> m' !! "HAVE_REPLICATION" = Some Empty /\ m' !! "HAVE_EXTERNAL_CLIENT" = Some Empty) /\
    (m !! "EMBEDDED_LIBRARY" = Some (Num 1) -> m' !! "HAVE_REPLICATION" = None /\ m' !! "HAVE_EXTERNAL_CLIENT" = None) /\
    preprocess system my_global m' = Some m'.
Proof.
  intros Hs Hm. destruct windows_checked as (C1 & C2 & C3).
  destruct (facts_check_sound _ _ _ _ C1 system m Hs Hm) as (m' & Hrun & Hfacts). exists m'. split; [done|].
  split; [done|]. split_and!.
  - intros He. destruct (facts_check_sound _ _ _ _ C2 system m Hs) as (m2 & Hrun2 & H2); [by apply describes_more|].
    rewrite Hrun in Hrun2. injection Hrun2 as <-. split; apply H2; [left|right; left].
  - intros He. destruct (facts_check_sound _ _ _ _ C3 system m Hs) as (m2 & Hrun2 & H2); [by apply describes_more|].
    rewrite Hrun in Hrun2. injection Hrun2 as <-. split; apply H2; [left|right; left].
  - assert (Hg : m' !! "_global_h" = Some Empty) by (apply Hfacts; apply list_elem_of_In; vm_compute; tauto).
    unfold preprocess, my_global. cbn [all exec eval]. by rewrite Hg.
Qed.

Lemma holdsb_spec (k : known) (r : option replacement) : holdsb k r = true -> holds k r.
Proof. destruct k as [r'|]; cbn; [apply bool_decide_eq_true|]. destruct r as [[]|]; try done; eauto. Qed.

Lemma start_described :
  let ok := map_Forall (fun x k => holdsb k (({["_WIN32" := Num 1]} : env) !! x) = true) in
  ok (own windows_compiler) /\ ok (others windows_compiler).
Proof. split; apply (bool_decide_unpack _); vm_compute; exact I. Qed.

Lemma windows_build_witness :
  respects_reserved (fun _ m => m) reserved /\ describes reserved windows_compiler {["_WIN32" := Num 1]} /\
  exists m', preprocess (fun _ m => m) my_global {["_WIN32" := Num 1]} = Some m' /\ m' !! "SIZEOF_OFF_T" = Some (Num 8).
Proof.
  assert (Hs : respects_reserved (fun _ m => m) reserved) by done.
  assert (Hd : describes reserved windows_compiler {["_WIN32" := Num 1]}).
  { intros x k Hx. destruct start_described as [Hown Hothers]. rewrite map_Forall_lookup in Hown, Hothers.
    unfold lookup_known in Hx. apply holdsb_spec. destruct (reserved x); [apply (Hown x k Hx)|apply (Hothers x k Hx)]. }
  split; [exact Hs|]. split; [exact Hd|].
  destruct (windows_build (fun _ m => m) {["_WIN32" := Num 1]} Hs Hd) as (m' & Hrun & Hfacts & _).
  exists m'. split; [exact Hrun|]. apply Hfacts. do 4 right. left.
Defined.

(** ** The types *)

Lemma types_checked (system : string -> env -> env) :
  forallb (fun flags => forallb (types_check system flags) all_sizes) all_flags = true.
Proof. vm_compute. reflexivity. Qed.

Lemma types_check_all `{Platform} (system : string -> env -> env) : usual_sizes sizes_of ->
  types_check system flags_of sizes_of = true.
Proof.
  intros (H1 & H2 & H3 & H4 & H5). pose proof (types_checked system) as Hall.
  rewrite forallb_forall in Hall. specialize (Hall flags_of). rewrite forallb_forall in Hall.
  apply Hall; clear Hall.
  - unfold flags_of. cbn [fmap list_fmap]. destruct (defined _), (defined _), (defined _), (defined _); cbn; tauto.
  - unfold sizes_of. cbn [fmap list_fmap]. unfold all_sizes.
    apply list_elem_of_In. apply list_elem_of_bind. exists (size_of_scalar Int). split; [|exact H1].
    apply list_elem_of_bind. exists (size_of_scalar Long). split; [|exact H2].
    apply list_elem_of_bind. exists (size_of_scalar LongLong). split; [|exact H3].
    apply list_elem_of_bind. exists (size_of_scalar Pointer). split; [|exact H4].
    apply list_elem_of_bind. exists (size_of_scalar (Opaque "off_t")). split; [|exact H5]. left.
Qed.

Lemma type_of_if `{Platform} (b : bool) (n1 n2 : string) (t1 t2 : ctype) :
  type_of_name n1 = Some t1 -> type_of_name n2 = Some t2 ->
  type_of_name (if b then n1 else n2) = Some (if b then t1 else t2).
Proof. by destruct b. Qed.

(** C32.  On every platform with usual sizes, whichever of the macros are defined, the directives of
    my_global.h give [uint32], [ulonglong], [longlong], [my_ulonglong] and [my_off_t] the types that the structures
    of Structs.v are built from, or end in an [#error]: exactly when neither int nor long has four bytes, or when
    pointers have the size of no integer type. *)
Theorem global_types_match `{Platform} (system : string -> env -> env) :
  usual_sizes sizes_of -> size_of_scalar UInt = size_of_scalar Int ->
  match preprocess system global_types (choices_of flags_of sizes_of) with
  | None => no_types sizes_of = true
  | Some m => no_types sizes_of = false /\
      chosen m "uint32" = Some uint32 /\ chosen m "ulonglong" = Some ulonglong /\ chosen m "longlong" = Some longlong /\
      chosen m "my_ulonglong" = Some my_ulonglong /\ chosen m "my_off_t" = Some my_off_t
  end.
Proof.
  intros Hsizes Hint. pose proof (types_check_all system Hsizes) as Hc. unfold types_check in Hc.
  destruct (preprocess system global_types _) as [m|]; [|done]. apply andb_true_iff in Hc as [Hno Hc].
  split; [by apply negb_true_iff in Hno|]. cbn [chosen_text flags_of sizes_of fmap list_fmap forallb fst snd] in Hc.
  rewrite !andb_true_iff, !bool_decide_eq_true in Hc. destruct Hc as (C1 & C2 & C3 & C4 & C5 & _).
  unfold chosen. rewrite C1, C2, C3, C4, C5.
  unfold uint32, my_ulonglong, my_off_t. rewrite Hint. split_and!.
  all: repeat apply type_of_if; try reflexivity.
Qed.

(** Linux on 64 bits with file offsets of 64 bits. *)
#[local] Instance lp64 : Platform := {|
  size_of_scalar s := if decide (s = Opaque "off_t") then 8 else size_of_scalar (Platform := linux64) s;
  align_of_scalar := align_of_scalar (Platform := linux64);
  defined := defined (Platform := linux64) |}.

Lemma global_types_match_witness :
  usual_sizes sizes_of /\ size_of_scalar UInt = size_of_scalar Int /\
  exists m, preprocess (fun _ m => m) global_types (choices_of flags_of sizes_of) = Some m /\
    chosen m "my_off_t" = Some (Scalar ULongLong).
Proof.
  assert (Hu : usual_sizes sizes_of).
  { split_and!; cbn; repeat first [left|right]. }
  assert (Hi : size_of_scalar UInt = size_of_scalar Int) by reflexivity.
  split; [exact Hu|]. split; [exact Hi|].
  pose proof (global_types_match (fun _ m => m) Hu Hi) as Hmatch.
  destruct (preprocess (fun _ m => m) global_types (choices_of flags_of sizes_of)) as [m|].
  - exists m. split; [reflexivity|]. destruct Hmatch as (_ & _ & _ & _ & _ & Hoff). exact Hoff.
  - discriminate Hmatch.
Defined.
