(* ===== verification/LockConfiguration.v ===== *)
(** * Which locks a configuration has

    The directives of my_pthread.h that choose mutexes and read-write locks, against the types of Structs.v
    that the instrumented objects are built from.  Locks.v has what the chosen macros do. *)
From stdpp Require Import gmap strings.
From S2P Require Import Prelude Preprocessor HeaderConfig HeaderGlobal HeaderPthread Configuration Layout Structs.

(** ** The chosen types *)

Definition lock_macros : list string :=
  ["_WIN32"; "SAFE_MUTEX"; "MY_PTHREAD_FASTMUTEX"; "USE_MUTEX_INSTEAD_OF_RW_LOCKS"; "HAVE_PTHREAD_RWLOCK_RDLOCK";
   "HAVE_BROKEN_RWLOCK"; "HAVE_RWLOCK_INIT"; "HAVE_RWLOCK_T"].
Definition lock_start (flags : list bool) : env :=
  list_to_map (flat_map (fun p => if p.2 : bool then [(p.1, Empty)] else []) (zip lock_macros flags)).
(** The directives for mutexes, then for read-write locks. *)
Definition lock_directives : list directive := pthread_mutexes ++ pthread_rwlocks ++ pthread_own_rwlocks.

(** The name a name stands for. *)
Fixpoint resolve (fuel : nat) (m : env) (x : string) : string :=
  match fuel, m !! x with S fuel, Some (Id y) => resolve fuel m y | _, _ => x end.

Section Types.
Context `{Platform}.
Definition lock_type (n : string) : option ctype :=
  snd <$> find (fun p => String.eqb p.1 n)
   [("pthread_mutex_t", native_mutex); ("safe_mutex_t", safe_mutex_t); ("my_pthread_fastmutex_t", my_pthread_fastmutex_t);
    ("pthread_rwlock_t", Scalar (Opaque "pthread_rwlock_t")); ("rwlock_t", Scalar (Opaque "rwlock_t"));
    ("rw_lock_t", Scalar (Opaque "rw_lock_t")); ("my_rw_lock_t", my_rw_lock_t)].
Definition chosen_lock (m : env) (x : string) : option ctype := lock_type (resolve FUEL m x).
End Types.

(** The operations of read-write locks. *)
Definition rw_family : list string :=
  ["my_rwlock_init"; "rw_rdlock"; "rw_wrlock"; "rw_tryrdlock"; "rw_trywrlock"; "rw_unlock"; "rwlock_destroy"].
Definition is_defined (m : env) (x : string) : bool := if m !! x is Some _ then true else false.

(** ** The names by the conditions of Structs.v *)

Definition mutex_name (flags : list bool) : string :=
  match flags with
  | [win; safe; fast; mu; pr; broken; init; t] =>
    if safe : bool then "safe_mutex_t" else if fast : bool then "my_pthread_fastmutex_t" else "pthread_mutex_t"
  | _ => ""
  end.
Definition rw_name (flags : list bool) : string :=
  match flags with
  | [win; safe; fast; mu; pr; broken; init; t] =>
    if mu : bool then mutex_name flags
    else if pr && negb broken then "pthread_rwlock_t"
    else if init && negb broken then (if t && negb broken then "rwlock_t" else "rw_lock_t")
    else "my_rw_lock_t"
  | _ => ""
  end.
Definition system_rwlocks (flags : list bool) : bool :=
  match flags with
  | [win; safe; fast; mu; pr; broken; init; t] => negb mu && negb (pr && negb broken) && (init && negb broken)
  | _ => false
  end.

Definition locks_check (system : string -> env -> env) (flags : list bool) : bool :=
  match preprocess system lock_directives (lock_start flags) with
  | None => false
  | Some m =>
    String.eqb (resolve FUEL m "pthread_mutex_t") (mutex_name flags) && String.eqb (resolve FUEL m "rw_lock_t") (rw_name flags) &&
    eqb (is_defined m "NEED_MY_RW_LOCK") (String.eqb (rw_name flags) "my_rw_lock_t") &&
    forallb (fun x => eqb (is_defined m x) (negb (system_rwlocks flags) || String.eqb x "my_rwlock_init")) rw_family &&
    is_defined m "safe_mutex_assert_owner" && is_defined m "rw_pr_lock_assert_write_owner"
  end.

Definition all_lock_flags : list (list bool) :=
  foldr (fun _ ls => l ← ls; [true :: l; false :: l]) [[]] lock_macros.

(** The macros of a platform. *)
Definition lock_flags `{Platform} : list bool := defined <$> lock_macros.

(** ** The distribution *)

(** The names of my_pthread.h are its own too. *)
Definition lock_reserved (x : string) : bool :=
  reserved x || existsb (fun p => String.prefix p x)
    ["pthread_"; "rw_"; "rwlock_"; "my_rw"; "NEED_MY_RW_LOCK"; "USE_MUTEX_INSTEAD"; "SAFE_MUTEX"; "MY_PTHREAD_FAST"; "_my_pthread_h"].
(** A compiler for Windows that neither turns locks into mutexes nor asks for fast mutexes. *)
Definition windows_lock_compiler : aenv := compiler lock_reserved
  ([("USE_MUTEX_INSTEAD_OF_RW_LOCKS", Is None); ("MY_PTHREAD_FASTMUTEX", Is None); ("pthread_mutex_t", Is None); ("_my_pthread_h", Is None)] ++ windows_known).
Definition windows_lock_macros : list (string * option replacement) :=
  [("NEED_MY_RW_LOCK", Some (Num 1)); ("rw_lock_t", Some (Id "my_rw_lock_t")); ("pthread_mutex_t", None); ("SAFE_MUTEX", None);
   (typedef_of "pthread_mutex_t", Some (Text "CRITICAL_SECTION"))].

(** ** Lemmas *)

Lemma windows_locks_checked :
  facts_check lock_reserved (my_global ++ my_pthread) windows_lock_compiler windows_lock_macros = true.
Proof. vm_compute. reflexivity. Qed.

(** In the distribution for Windows a read-write lock is the one of the library, and a mutex is a critical
    section, although nothing is assumed of [SAFE_MUTEX]: my_pthread.h takes its definition back. *)
Lemma windows_locks (system : string -> env -> env) (m : env) :
  respects_reserved system lock_reserved -> describes lock_reserved windows_lock_compiler m ->
  exists m', preprocess system (my_global ++ my_pthread) m = Some m' /\
    forall x r, (x, r) ∈ windows_lock_macros -> m' !! x = r.
Proof. apply facts_check_sound, windows_locks_checked. Qed.

Lemma locks_checked (system : string -> env -> env) : forallb (locks_check system) all_lock_flags = true.
Proof. vm_compute. reflexivity. Qed.

Lemma all_lock_flags_complete (flags : list bool) : length flags = length lock_macros -> flags ∈ all_lock_flags.
Proof.
  unfold all_lock_flags. revert flags. induction lock_macros as [|x xs IH]; intros [|b flags] Hl; try done; [left|].
  cbn [foldr]. apply list_elem_of_bind. exists flags. split; [destruct b; [left|right; left]|apply IH; by injection Hl].
Qed.

Lemma lock_type_name `{Platform} (b : bool) (n1 n2 : string) (t1 t2 : ctype) :
  lock_type n1 = Some t1 -> lock_type n2 = Some t2 -> lock_type (if b then n1 else n2) = Some (if b then t1 else t2).
Proof. by destruct b. Qed.

(** The types of the names are those of Structs.v. *)
Lemma mutex_name_type `{Platform} : lock_type (mutex_name lock_flags) = Some pthread_mutex_t.
Proof. unfold lock_flags, pthread_mutex_t. cbn [fmap list_fmap lock_macros mutex_name]. by repeat apply lock_type_name. Qed.

Lemma rw_name_type `{Platform} : lock_type (rw_name lock_flags) = Some rw_lock_t.
Proof.
  unfold rw_lock_t. pose proof mutex_name_type as Hm. revert Hm. unfold lock_flags.
  cbn [fmap list_fmap lock_macros rw_name]. intros Hm. by repeat apply lock_type_name.
Qed.

(** C33.  On every platform, whichever of the eight macros are defined, the directives of my_pthread.h
    meet no [#error] and let [pthread_mutex_t] and [rw_lock_t] stand for the types that the instrumented objects of
    Structs.v are built from.  The own read-write locks are compiled exactly when [rw_lock_t] is [my_rw_lock_t]; all
    operations of read-write locks are macros, unless the locks are those of a system with [rwlock_init]: then
    only [my_rwlock_init] is one; the assertions about owners are always defined. *)
Theorem lock_macros_match `{Platform} (system : string -> env -> env) :
  exists m, preprocess system lock_directives (lock_start lock_flags) = Some m /\
    chosen_lock m "pthread_mutex_t" = Some pthread_mutex_t /\ chosen_lock m "rw_lock_t" = Some rw_lock_t /\
    (is_defined m "NEED_MY_RW_LOCK" = true <-> resolve FUEL m "rw_lock_t" = "my_rw_lock_t") /\
    Forall (fun x => is_defined m x = negb (system_rwlocks lock_flags) || String.eqb x "my_rwlock_init") rw_family /\
    is_defined m "safe_mutex_assert_owner" = true /\ is_defined m "rw_pr_lock_assert_write_owner" = true.
Proof.
  pose proof (locks_checked system) as Hc. rewrite forallb_forall in Hc.
  specialize (Hc lock_flags (proj1 (list_elem_of_In _ _) (all_lock_flags_complete lock_flags eq_refl))).
  unfold locks_check in Hc. destruct (preprocess system lock_directives _) as [m|]; [|done].
  rewrite !andb_true_iff, !String.eqb_eq, !eqb_true_iff, forallb_forall in Hc.
  destruct Hc as (((((Hmutex & Hrw) & Hneed) & Hfamily) & Howner) & Hpr).
  exists m. unfold chosen_lock. rewrite Hmutex, Hrw, Hneed, mutex_name_type, rw_name_type, String.eqb_eq.
  split_and!; try done. apply Forall_forall. intros x Hx. apply eqb_prop, Hfamily, list_elem_of_In, Hx.
Qed.
