(* ===== verification/ClientTypes.v ===== *)
(** * The types of clients

    A program that includes mysql.h alone gets a few types from it that the library gets from my_global.h.  The
    directives that decide them are a slice of the headers, and on the slices the two agree. *)
From stdpp Require Import gmap strings.
From S2P Require Import Prelude Preprocessor HeaderConfig HeaderGlobal HeaderMysql Configuration.

(** ** Slices of headers *)

Section Slice.
(** The names that matter. *)
Context (names : list string).
Definition in_names (x : string) : bool := existsb (String.eqb x) names.

(** Conditions that only ask whether names that matter are defined. *)
Fixpoint closed_expr (e : expr) : bool :=
  match e with
  | ENum _ => true
  | EId _ => false
  | EDefined x => in_names x
  | ENot e => closed_expr e
  | EAnd e1 e2 | EOr e1 e2 | ECmp _ e1 e2 | ESub e1 e2 => closed_expr e1 && closed_expr e2
  end.
Fixpoint closed (d : directive) : bool :=
  match d with
  | If c t e => closed_expr c && forallb closed t && forallb closed e
  | _ => true
  end.

(** The directives that may change a name that matters. *)
Definition slice (ds : list directive) : list directive := List.filter (fun d => existsb in_names (assigned d)) ds.

Definition agree (m1 m2 : env) : Prop := forall x, in_names x = true -> m1 !! x = m2 !! x.
Definition agree_options (o1 o2 : option env) : Prop :=
  match o1, o2 with Some m1, Some m2 => agree m1 m2 | None, None => True | _, _ => False end.

Lemma eval_agree (e : expr) (m1 m2 : env) : closed_expr e = true -> agree m1 m2 -> eval m1 e = eval m2 e.
Proof.
  intros Hc Ha. induction e as [z|x|x|e IH|e1 IH1 e2 IH2|e1 IH1 e2 IH2|c e1 IH1 e2 IH2|e1 IH1 e2 IH2]; cbn in *; try done.
  - by rewrite (Ha x Hc).
  - by rewrite IH.
  - apply andb_true_iff in Hc as [H1 H2]. by rewrite IH1, IH2.
  - apply andb_true_iff in Hc as [H1 H2]. by rewrite IH1, IH2.
  - apply andb_true_iff in Hc as [H1 H2]. by rewrite IH1, IH2.
  - apply andb_true_iff in Hc as [H1 H2]. by rewrite IH1, IH2.
Qed.

(** Two systems whose headers leave the names alone. *)
Context (system system' : string -> env -> env).
Context (Hsys : respects_reserved system in_names) (Hsys' : respects_reserved system' in_names).

Lemma all_agree (ds : list directive) :
  Forall (fun d => forall m1 m2, agree m1 m2 -> agree_options (exec system d m1) (exec system' d m2)) ds ->
  forall m1 m2, agree m1 m2 -> agree_options (preprocess system ds m1) (preprocess system' ds m2).
Proof.
  unfold preprocess. induction 1 as [|d ds Hd _ IH]; cbn [all]; intros m1 m2 Ha; [done|]. specialize (Hd m1 m2 Ha).
  destruct (exec system d m1) as [m1'|], (exec system' d m2) as [m2'|]; cbn in *; try done. by apply IH.
Qed.

Lemma exec_agree (d : directive) : closed d = true ->
  forall m1 m2, agree m1 m2 -> agree_options (exec system d m1) (exec system' d m2).
Proof.
  induction d as [x r|x|h| |x t|c t e IHt IHe] using directive_nested_ind; cbn [closed exec]; intros Hc m1 m2 Ha; cbn.
  - intros y Hy. destruct (decide (x = y)) as [->|]; [by rewrite !lookup_insert_eq|by rewrite !lookup_insert_ne; auto].
  - intros y Hy. destruct (decide (x = y)) as [->|]; [by rewrite !lookup_delete_eq|by rewrite !lookup_delete_ne; auto].
  - intros y Hy. rewrite Hsys, Hsys' by done. by apply Ha.
  - done.
  - intros y Hy. destruct (decide (typedef_of x = y)) as [<-|]; [by rewrite !lookup_insert_eq|by rewrite !lookup_insert_ne; auto].
  - rewrite !andb_true_iff in Hc. destruct Hc as [[Hc Ht] He]. rewrite (eval_agree c m1 m2 Hc Ha).
    destruct (eval m2 c) as [z|]; [|done]. cbn [mbind option_bind].
    destruct (z =? 0); apply all_agree; try done; apply Forall_forall; intros d Hd m1' m2' Ha'.
    + rewrite Forall_forall in IHe. rewrite forallb_forall in He. apply IHe; [done|by apply He, list_elem_of_In|done].
    + rewrite Forall_forall in IHt. rewrite forallb_forall in Ht. apply IHt; [done|by apply Ht, list_elem_of_In|done].
Qed.

(** What a header does to the names that matter, its slice does. *)
Lemma slice_agrees (ds : list directive) : forallb closed (slice ds) = true ->
  forall m1 m2 m1', agree m1 m2 -> preprocess system ds m1 = Some m1' ->
  exists m2', preprocess system' (slice ds) m2 = Some m2' /\ agree m1' m2'.
Proof.
  unfold preprocess. induction ds as [|d ds IH]; cbn [slice List.filter all forallb]; intros Hc m1 m2 m1' Ha.
  - intros [= <-]. by exists m2.
  - fold (slice ds) in *. destruct (exec system d m1) as [n1|] eqn:E1; [|done]. cbn [mbind option_bind]. intros Hrun.
    destruct (existsb in_names (assigned d)) eqn:Ed.
    + cbn [forallb] in Hc. apply andb_true_iff in Hc as [Hd Hc]. cbn [all].
      pose proof (exec_agree d Hd m1 m2 Ha) as He. rewrite E1 in He. destruct (exec system' d m2) as [n2|]; [|done].
      cbn [mbind option_bind]. by apply (IH Hc n1 n2).
    + apply (IH Hc n1 m2); [|done]. intros x Hx. rewrite <- (Ha x Hx).
      apply (exec_frame system in_names Hsys d x); [|by left|done].
      intros Hin. apply not_true_iff_false in Ed. apply Ed. apply existsb_exists. exists x. split; [by apply list_elem_of_In|done].
Qed.
End Slice.

(** ** Types and calling convention *)

Definition client_names : list string :=
  ["_WIN32"; "_WIN64"; "__WIN__"; "__CYGWIN__"; "NO_CLIENT_LONG_LONG"; "STDCALL"; "my_socket_defined"; "my_socket"; "my_bool"; "my_ulonglong";
   typedef_of "my_bool"; typedef_of "my_socket"; typedef_of "my_ulonglong"; "_global_h"; "_mysql_h";
   "MYSQL_ABI_CHECK"; "__LCC__"].

(** A type may be a typedef or, in mysql.h, a macro. *)
Definition type_named (m : env) (x : string) : option string :=
  match m !! typedef_of x, m !! x with
  | Some (Text t), _ => Some t
  | _, Some (Id t) => Some t
  | _, _ => None
  end.

(** What the names stand for, in a map of its own. *)
Definition only_names (m : env) : env :=
  list_to_map (flat_map (fun x => match m !! x with Some r => [(x, r)] | None => [] end) client_names).

(** The directives between the guards of a header. *)
Definition inside (ds : list directive) : list directive := match ds with [If _ t _] => t | _ => [] end.

(** What a compiler has to define: neither header was read and no type is there yet; Windows on 64 bits is Windows, and
    __WIN__ is not set for another system. *)
Record client_compiler (m : env) : Prop := {
  none_read : m !! "_global_h" = None /\ m !! "_mysql_h" = None;
  no_types_yet : m !! typedef_of "my_bool" = None /\ m !! typedef_of "my_socket" = None /\ m !! typedef_of "my_ulonglong" = None /\
                 m !! "my_bool" = None /\ m !! "my_socket" = None /\ m !! "my_ulonglong" = None /\ m !! "my_socket_defined" = None;
  windows_64 : m !! "_WIN64" <> None -> m !! "_WIN32" <> None;
  windows_win : m !! "__WIN__" <> None -> m !! "_WIN32" <> None }.

(** ** Lemmas *)

Lemma only_names_agree (m : env) : agree client_names m (only_names m).
Proof.
  intros x Hx. unfold only_names. symmetry. unfold in_names in Hx. apply existsb_exists in Hx as (y & Hy & E). apply String.eqb_eq in E as <-.
  apply list_elem_of_In in Hy. destruct (m !! x) as [r|] eqn:Em.
  - apply elem_of_list_to_map_1'; [|apply list_elem_of_In, in_flat_map; exists x; rewrite Em; split; [by apply list_elem_of_In|by left]].
    intros r' Hin. apply list_elem_of_In, in_flat_map in Hin as (z & _ & Hz). destruct (m !! z) eqn:Ez; [|done].
    destruct Hz as [[= <- <-]|[]]. congruence.
  - apply not_elem_of_list_to_map_1. intros Hin. apply list_elem_of_fmap in Hin as ([z r] & -> & Hin).
    apply list_elem_of_In, in_flat_map in Hin as (w & _ & Hw). destruct (m !! w) eqn:Ew; [|done].
    destruct Hw as [[= <- <-]|[]]. cbn in Em. congruence.
Qed.

Lemma client_slices : forallb (closed client_names) (slice client_names (inside my_global)) = true /\
  forallb (closed client_names) (slice client_names (inside mysql)) = true.
Proof. split; by vm_compute. Qed.

(** The outcome of the slice, without the headers of the system. *)
Lemma header_slice (ds : list directive) (system : string -> env -> env) (m m' : env) :
  respects_reserved system (in_names client_names) -> forallb (closed client_names) (slice client_names (inside ds)) = true ->
  preprocess system (inside ds) m = Some m' ->
  exists n, preprocess (fun _ m => m) (slice client_names (inside ds)) (only_names m) = Some n /\ agree client_names m' n.
Proof.
  intros Hs Hc Hrun. eapply slice_agrees; [exact Hs|done|exact Hc|apply only_names_agree|exact Hrun].
Qed.

Lemma type_named_agree (m n : env) (x : string) : in_names client_names x = true -> in_names client_names (typedef_of x) = true ->
  agree client_names m n -> type_named m x = type_named n x.
Proof. intros Hx Ht Ha. unfold type_named. by rewrite (Ha _ Hx), (Ha _ Ht). Qed.

(** The types of the three names, and the convention of calls. *)
Definition interface_types (m : env) : list (option string) := type_named m <$> ["my_bool"; "my_socket"; "my_ulonglong"].
Definition types_known (m : env) : bool := forallb (fun t => match t with Some _ => true | None => false end) (interface_types m).
Definition slices_agree (m : env) : bool :=
  match preprocess (fun _ m => m) (slice client_names (inside my_global)) m, preprocess (fun _ m => m) (slice client_names (inside mysql)) m with
  | Some a, Some b => bool_decide (interface_types a = interface_types b) && types_known a && bool_decide (a !! "STDCALL" = b !! "STDCALL")
  | _, _ => false
  end.

Lemma slices_agree_all (m : env) : client_compiler m -> slices_agree (only_names m) = true.
Proof.
  intros [[H1 H2] (H3 & H4 & H5 & H6 & H7 & H8 & H9) H64 Hwin]. unfold only_names, client_names. cbn [flat_map].
  rewrite H1, H2, H3, H4, H5, H6, H7, H8, H9. clear -H64 Hwin. revert H64 Hwin.
  destruct (m !! "_WIN32"), (m !! "_WIN64"), (m !! "__WIN__"); intros H64 Hwin;
    try (exfalso; first [by apply H64|by apply Hwin]); clear;
    destruct (m !! "__CYGWIN__"), (m !! "NO_CLIENT_LONG_LONG"), (m !! "STDCALL"), (m !! "MYSQL_ABI_CHECK"), (m !! "__LCC__");
    vm_compute; reflexivity.
Qed.

Lemma interface_types_agree (m n : env) : agree client_names m n ->
  interface_types m = interface_types n /\ m !! "STDCALL" = n !! "STDCALL".
Proof.
  intros Ha. split; [|by apply Ha]. unfold interface_types. cbn [fmap list_fmap].
  by rewrite !(type_named_agree m n) by done.
Qed.

(** ** The theorem *)

Lemma preprocess_guard (system : string -> env -> env) (g : string) (t : list directive) (m m' : env) :
  m !! g = None -> preprocess system [If (ENot (EDefined g)) t []] m = Some m' -> preprocess system t m = Some m'.
Proof. unfold preprocess. cbn [all exec eval]. intros ->. cbn. by destruct (all (exec system) t m). Qed.

(** C37.  For any headers of the system that leave the names alone and any compiler that defines _WIN32 whenever it defines
    _WIN64 or __WIN__, and none of the names of the types, a program compiled with mysql.h alone and the library compiled with my_global.h have the same types my_bool, my_socket and
    my_ulonglong and the same calling convention STDCALL, Cygwin and clients without long long included: the
    tests of the two headers for Windows differ, but not in their outcome. *)
Theorem client_types_agree (system : string -> env -> env) (m library client : env)
  (Hs : respects_reserved system (in_names client_names)) (Hm : client_compiler m)
  (Hlib : preprocess system my_global m = Some library) (Hcli : preprocess system mysql m = Some client) :
  interface_types library = interface_types client /\ types_known library = true /\
  library !! "STDCALL" = client !! "STDCALL".
Proof.
  destruct (none_read m Hm) as [Hg Hy]. destruct client_slices as [C1 C2].
  pose proof (preprocess_guard system _ _ _ _ Hg Hlib : preprocess system (inside my_global) m = Some library) as Hl.
  pose proof (preprocess_guard system _ _ _ _ Hy Hcli : preprocess system (inside mysql) m = Some client) as Hc.
  destruct (header_slice my_global system m library Hs C1 Hl) as (a & Ha & Aa).
  destruct (header_slice mysql system m client Hs C2 Hc) as (b & Hb & Ab).
  pose proof (slices_agree_all m Hm) as Hall. unfold slices_agree in Hall. rewrite Ha, Hb in Hall.
  rewrite !andb_true_iff, !bool_decide_eq_true in Hall. destruct Hall as ((T & K) & S).
  destruct (interface_types_agree _ _ Aa) as [Ta Sa], (interface_types_agree _ _ Ab) as [Tb Sb].
  unfold types_known in *. by rewrite Ta, Tb, Sa, Sb.
Qed.

Lemma windows_client : client_compiler {["_WIN32" := Num 1]}.
Proof. by split. Qed.

Lemma windows_described : describes reserved windows_compiler {["_WIN32" := Num 1]}.
Proof.
  intros x k Hx. destruct start_described as [Hown Hothers]. rewrite map_Forall_lookup in Hown, Hothers.
  unfold lookup_known in Hx. apply holdsb_spec. destruct (reserved x); [apply (Hown x k Hx)|apply (Hothers x k Hx)].
Qed.

(** A compilation for Windows meets no [#error]. *)
Lemma windows_runs : exists library, preprocess (fun _ m => m) my_global {["_WIN32" := Num 1]} = Some library.
Proof.
  destruct (facts_check_sound _ _ _ _ (proj1 windows_checked) (fun _ m => m) {["_WIN32" := Num 1]}) as (m' & Hrun & _).
  - done.
  - apply windows_described.
  - by exists m'.
Qed.

Lemma mysql_checked : facts_check reserved mysql windows_compiler [] = true.
Proof. by vm_compute. Qed.

Lemma windows_client_runs : exists client, preprocess (fun _ m => m) mysql {["_WIN32" := Num 1]} = Some client.
Proof.
  destruct (facts_check_sound _ _ _ _ mysql_checked (fun _ m => m) {["_WIN32" := Num 1]}) as (m' & Hrun & _);
    [done|apply windows_described|by exists m'].
Qed.

Lemma client_types_agree_witness :
  exists library client, preprocess (fun _ m => m) my_global {["_WIN32" := Num 1]} = Some library /\
    preprocess (fun _ m => m) mysql {["_WIN32" := Num 1]} = Some client /\
    interface_types library = interface_types client /\ types_known library = true /\
    library !! "STDCALL" = client !! "STDCALL".
Proof.
  destruct windows_runs as [library Hlib], windows_client_runs as [client Hcli].
  exists library, client. split; [exact Hlib|]. split; [exact Hcli|].
  assert (Hs : respects_reserved (fun _ m => m) (in_names client_names)) by (intros h m x _; reflexivity).
  exact (client_types_agree (fun _ m => m) {["_WIN32" := Num 1]} library client Hs windows_client Hlib Hcli).
Defined.
