(* ===== verification/FunctionTypes.v ===== *)
(** * Types of functions

    The types in the declarations of the headers: typedefs, some of them chosen by conditionals, and
    types of functions and of pointers to them.  When two of them are the same type in C is a relation; normal
    forms decide it for all outcomes of the conditionals at once.  Declarations.v has the declarations,
    Interfaces.v what they have in common. *)
From stdpp Require Import strings.
From S2P Require Import Prelude.

(** ** Types

    A name is an arithmetic type, a structure or a typedef.  [Either] is a type that the conditional [c]
    chooses. *)
Inductive ty :=
  | Void
  | Name (n : string)
  | Const (t : ty)
  | Pointer (t : ty)
  | Array (t : ty) (len : string)
  | Either (c : string) (a b : ty)
  | Function (ret : ty) (ps : params)
with params :=
  | NoMore                          (* f(a, b) *)
  | Variadic                        (* f(a, ...) *)
  | Unspecified                     (* f() *)
  | Param (t : ty) (ps : params).

Scheme ty_mut := Induction for ty Sort Prop
with params_mut := Induction for params Sort Prop.
Combined Scheme ty_params_ind from ty_mut, params_mut.

Definition Fn (ret : ty) (ts : list ty) : ty := Function ret (foldr Param NoMore ts).
Definition FnVariadic (ret : ty) (ts : list ty) : ty := Function ret (foldr Param Variadic ts).
Definition FnUnspecified (ret : ty) : ty := Function ret Unspecified.

(** A declaration and the conditionals around it, each with the branch it is in. *)
Record declaration := { conditions : list (bool * string); name : string; type : ty }.

(** ** Equality, executable *)

Fixpoint ty_eqb (s t : ty) : bool :=
  match s, t with
  | Void, Void => true
  | Name m, Name n => String.eqb m n
  | Const s, Const t | Pointer s, Pointer t => ty_eqb s t
  | Array s m, Array t n => String.eqb m n && ty_eqb s t
  | Either c a b, Either d a' b' => String.eqb c d && ty_eqb a a' && ty_eqb b b'
  | Function r ps, Function r' qs => ty_eqb r r' && params_eqb ps qs
  | _, _ => false
  end
with params_eqb (ps qs : params) : bool :=
  match ps, qs with
  | NoMore, NoMore | Variadic, Variadic | Unspecified, Unspecified => true
  | Param s ps, Param t qs => ty_eqb s t && params_eqb ps qs
  | _, _ => false
  end.

Fixpoint count (ps : params) : nat := match ps with Param _ ps => S (count ps) | _ => 0 end.

(** ** The same type

    [v] has the outcomes of the conditionals, [typedefs] the typedefs in scope.  The parameters of a function
    are adjusted: an array is a pointer, a function a pointer to it, and const of the parameter itself is
    not part of the type. *)
Section SameType.
Context (typedefs : list (string * ty)) (v : string -> bool).

Inductive same_type : ty -> ty -> Prop :=
  | same_refl t : same_type t t
  | same_sym s t : same_type s t -> same_type t s
  | same_trans s t u : same_type s t -> same_type t u -> same_type s u
  | same_typedef n t : (n, t) ∈ typedefs -> same_type (Name n) t
  | same_either c a b : same_type (Either c a b) (if v c then a else b)
  | same_const s t : same_type s t -> same_type (Const s) (Const t)
  | same_pointer s t : same_type s t -> same_type (Pointer s) (Pointer t)
  | same_array s t n : same_type s t -> same_type (Array s n) (Array t n)
  | same_function r r' ps qs : same_type r r' -> same_params ps qs -> same_type (Function r ps) (Function r' qs)
with same_params : params -> params -> Prop :=
  | same_end ps : same_params ps ps
  | params_sym ps qs : same_params ps qs -> same_params qs ps
  | params_trans ps qs rs : same_params ps qs -> same_params qs rs -> same_params ps rs
  | same_param s t ps qs : same_type s t -> same_params ps qs -> same_params (Param s ps) (Param t qs)
  | param_const t ps : same_params (Param (Const t) ps) (Param t ps)
  | param_array t n ps : same_params (Param (Array t n) ps) (Param (Pointer t) ps)
  | param_function r qs ps : same_params (Param (Function r qs) ps) (Param (Pointer (Function r qs)) ps).
End SameType.

Scheme same_type_mut := Induction for same_type Sort Prop
with same_params_mut := Induction for same_params Sort Prop.
Combined Scheme same_type_params_ind from same_type_mut, same_params_mut.

(** ** Normal forms *)

Definition lookup_type (typedefs : list (string * ty)) (n : string) : option ty :=
  snd <$> find (fun p => String.eqb p.1 n) typedefs.

Fixpoint adjust (t : ty) : ty :=
  match t with
  | Const t => adjust t
  | Array t _ => Pointer t
  | Function r ps => Pointer (Function r ps)
  | _ => t
  end.

(** The type with the names of a table replaced, its conditionals left. *)
Fixpoint normal (table : list (string * ty)) (t : ty) : ty :=
  match t with
  | Void => Void
  | Name n => default (Name n) (lookup_type table n)
  | Const t => Const (normal table t)
  | Pointer t => Pointer (normal table t)
  | Array t n => Array (normal table t) n
  | Either c a b => Either c (normal table a) (normal table b)
  | Function r ps => Function (normal table r) (normal_params table ps)
  end
with normal_params (table : list (string * ty)) (ps : params) : params :=
  match ps with
  | Param t ps => Param (adjust (normal table t)) (normal_params table ps)
  | _ => ps
  end.

(** The type that the conditionals choose. *)
Fixpoint choose (v : string -> bool) (t : ty) : ty :=
  match t with
  | Void | Name _ => t
  | Const t => Const (choose v t)
  | Pointer t => Pointer (choose v t)
  | Array t n => Array (choose v t) n
  | Either c a b => if v c then choose v a else choose v b
  | Function r ps => Function (choose v r) (choose_params v ps)
  end
with choose_params (v : string -> bool) (ps : params) : params :=
  match ps with
  | Param t ps => Param (adjust (choose v t)) (choose_params v ps)
  | _ => ps
  end.

(** The table of a list of typedefs, which use only earlier ones. *)
Definition table_of (typedefs : list (string * ty)) : list (string * ty) :=
  foldl (fun table p => (p.1, normal table p.2) :: table) [] typedefs.
(** Whether the table has the normal form of every typedef. *)
Definition tabulates (typedefs table : list (string * ty)) : bool :=
  forallb (fun p => match lookup_type table p.1 with Some t => ty_eqb t (normal table p.2) | None => false end) typedefs.

(** ** Lemmas *)

Lemma ty_params_eqb_eq :
  (forall s t, ty_eqb s t = true -> s = t) /\ (forall ps qs, params_eqb ps qs = true -> ps = qs).
Proof.
  apply ty_params_ind; intros; try match goal with H : ?f _ ?y = true |- _ = ?y => destruct y end; cbn in *; try done;
    rewrite ?andb_true_iff, ?String.eqb_eq in *; naive_solver.
Qed.
Lemma ty_eqb_eq (s t : ty) : ty_eqb s t = true -> s = t.
Proof. apply ty_params_eqb_eq. Qed.

Lemma lookup_type_in (l : list (string * ty)) (n : string) (t : ty) : lookup_type l n = Some t -> (n, t) ∈ l.
Proof.
  unfold lookup_type. destruct (find _ l) as [[m u]|] eqn:E; [|done]. intros [= <-].
  apply find_some in E as [Hin Hn]. apply String.eqb_eq in Hn. cbn in Hn. subst. by apply list_elem_of_In.
Qed.

(** Choosing after adjusting or before makes no difference to a parameter. *)
Lemma adjust_choose (v : string -> bool) (t : ty) : adjust (choose v (adjust t)) = adjust (choose v t).
Proof. by induction t; cbn. Qed.

Section Decision.
Context (typedefs : list (string * ty)) (v : string -> bool).
Implicit Types s t : ty.
#[local] Hint Constructors same_type same_params : core.
#[local] Abbreviation same := (same_type typedefs v).

#[export] Instance same_type_equivalence : Equivalence same.
Proof. split; red; eauto. Qed.

Lemma adjust_same t ps : same_params typedefs v (Param t ps) (Param (adjust t) ps).
Proof. induction t; cbn; eauto. Qed.

Lemma param_same s t ps qs : same s t -> same_params typedefs v ps qs -> same_params typedefs v (Param s ps) (Param (adjust t) qs).
Proof. intros. apply params_trans with (Param t qs); auto using adjust_same. Qed.

Lemma either_same c a a' b b' : same a a' -> same b b' -> same (Either c a b) (Either c a' b').
Proof. intros Ha Hb. rewrite !same_either. by destruct (v c). Qed.

Lemma normal_sound table : (forall n t, (n, t) ∈ table -> same (Name n) t) ->
  (forall t, same t (normal table t)) /\ (forall ps, same_params typedefs v ps (normal_params table ps)).
Proof.
  intros Ht. apply ty_params_ind; cbn; eauto using either_same, param_same. intros n. destruct (lookup_type table n) eqn:E; [|done]. by apply Ht, lookup_type_in.
Qed.

Lemma choose_sound : (forall t, same t (choose v t)) /\ (forall ps, same_params typedefs v ps (choose_params v ps)).
Proof.
  apply ty_params_ind; cbn; eauto using param_same. intros c a Ha b Hb. apply same_trans with (if v c then a else b); [done|]. by destruct (v c).
Qed.

Lemma table_of_sound (l table : list (string * ty)) : (forall n t, (n, t) ∈ table -> same (Name n) t) -> l ⊆ typedefs ->
  forall n t, (n, t) ∈ foldl (fun table p => (p.1, normal table p.2) :: table) table l -> same (Name n) t.
Proof.
  revert table. induction l as [|[m u] l IH]; cbn; intros table Ht Hl; [done|].
  apply IH; [|by intros x Hx; apply Hl; right]. intros n t [[= -> ->]|Hin]%elem_of_cons; [|by apply Ht].
  apply same_trans with u; [apply same_typedef, Hl; left|]. by apply normal_sound.
Qed.

Lemma normal_same t : same t (normal (table_of typedefs) t).
Proof. apply normal_sound, table_of_sound; [|done]. intros n u []%not_elem_of_nil. Qed.

(** Types with the same normal form are the same, whatever the conditionals choose. *)
Lemma normal_eq_same s t : normal (table_of typedefs) s = normal (table_of typedefs) t -> same s t.
Proof. intros H. rewrite (normal_same s), H. symmetry. apply normal_same. Qed.

Lemma same_choose table : tabulates typedefs table = true ->
  (forall s t, same s t -> choose v (normal table s) = choose v (normal table t)) /\
  (forall ps qs, same_params typedefs v ps qs -> choose_params v (normal_params table ps) = choose_params v (normal_params table qs)).
Proof.
  intros Htable. apply same_type_params_ind; cbn; intros; rewrite ?adjust_choose; try congruence.
  - unfold tabulates in Htable. rewrite forallb_forall in Htable.
    specialize (Htable (n, t) (proj1 (list_elem_of_In _ _) e)). cbn in Htable.
    destruct (lookup_type table n); [|done]. cbn. f_equal. by apply ty_eqb_eq.
  - by destruct (v c).
Qed.

Lemma chosen_same t : same t (choose v (normal (table_of typedefs) t)).
Proof. transitivity (normal (table_of typedefs) t); [apply normal_same|apply choose_sound]. Qed.

(** Whether types are the same is decided by what is chosen from their normal forms. *)
Lemma same_type_normal s t : tabulates typedefs (table_of typedefs) = true ->
  same s t <-> choose v (normal (table_of typedefs) s) = choose v (normal (table_of typedefs) t).
Proof.
  intros Htable. split; [by apply same_choose|]. intros H.
  transitivity (choose v (normal (table_of typedefs) s)); [apply chosen_same|].
  rewrite H. symmetry. apply chosen_same.
Qed.
End Decision.
