(* ===== verification/DeclaredTypes.v ===== *)
(** * The typedefs of the headers

    In the order in which the headers declare them.  A typedef inside of a conditional is an [Either] of its
    branches; the branch in which the headers declare none has the type of the system.  A structure
    without a tag has the name of its typedef. *)
From S2P Require Import Prelude FunctionTypes.
Open Scope string_scope.

(** my_global.h, lines 473 to 474. *)
Definition types_my_global_uint : list (string * ty) :=
  [("uint", Either "!defined(HAVE_UINT)" (Name "unsigned int") (Name "uint of the system"));
   ("ushort", Either "!defined(HAVE_UINT)" (Name "unsigned short") (Name "ushort of the system"))].

(** my_global.h, lines 518 to 522. *)
Definition types_my_global_File : list (string * ty) :=
  [("File", Name "int");
   ("my_socket", Either "defined(_WIN32)" (Name "SOCKET") (Name "int"))].

(** my_global.h, lines 528 to 545. *)
Definition types_my_global_sig_return : list (string * ty) :=
  [("sig_return", Pointer (FnUnspecified Void));
   ("pchar", Either "defined(__GNUC__) && !defined(_lint)" (Name "char") (Name "int"));
   ("puchar", Either "defined(__GNUC__) && !defined(_lint)" (Name "char") (Name "uint"));
   ("pbool", Either "defined(__GNUC__) && !defined(_lint)" (Name "char") (Name "int"));
   ("pshort", Either "defined(__GNUC__) && !defined(_lint)" (Name "short") (Name "int"));
   ("pfloat", Either "defined(__GNUC__) && !defined(_lint)" (Name "float") (Name "double"));
   ("qsort_cmp", Pointer (Fn (Name "int") [Pointer (Const Void); Pointer (Const Void)]));
   ("qsort_cmp2", Pointer (Fn (Name "int") [Pointer Void; Pointer (Const Void); Pointer (Const Void)]))].

(** my_global.h, lines 551 to 551. *)
Definition types_my_global_size_socket : list (string * ty) :=
  [("size_socket", Name "SOCKET_SIZE_TYPE")].

(** my_global.h, lines 836 to 838. *)
Definition types_my_global_my_ptrdiff_t : list (string * ty) :=
  [("my_ptrdiff_t", Either "SIZEOF_CHARP == 4" (Name "long") (Name "long long"))].

(** my_global.h, lines 877 to 904. *)
Definition types_my_global_uchar : list (string * ty) :=
  [("uchar", Either "defined(HAVE_UCHAR)" (Name "uchar of the system") (Name "unsigned char"));
   ("int8", Either "defined(HAVE_INT8)" (Name "int8 of the system") (Name "signed char"));
   ("uint8", Either "defined(HAVE_UINT8)" (Name "uint8 of the system") (Name "unsigned char"));
   ("int16", Either "defined(HAVE_INT16)" (Name "int16 of the system") (Name "short"));
   ("uint16", Either "defined(HAVE_UINT16)" (Name "uint16 of the system") (Name "unsigned short"));
   ("int32", Either "SIZEOF_INT == 4" (Either "defined(HAVE_INT32)" (Name "int32 of the system") (Name "int")) (Either "SIZEOF_LONG == 4" (Either "defined(HAVE_INT32)" (Name "int32 of the system") (Name "long")) (Name "int32 of the system")));
   ("uint32", Either "SIZEOF_INT == 4" (Either "defined(HAVE_UINT32)" (Name "uint32 of the system") (Name "unsigned int")) (Either "SIZEOF_LONG == 4" (Either "defined(HAVE_UINT32)" (Name "uint32 of the system") (Name "unsigned long")) (Name "uint32 of the system")))].

(** my_global.h, lines 911 to 911. *)
Definition types_my_global_ulong : list (string * ty) :=
  [("ulong", Either "!defined(HAVE_ULONG) && !defined(__USE_MISC)" (Name "unsigned long") (Name "ulong of the system"))].

(** my_global.h, lines 920 to 947. *)
Definition types_my_global_ulonglong : list (string * ty) :=
  [("ulonglong", Either "defined(longlong_defined)" (Name "ulonglong of the system") (Either "defined(HAVE_LONG_LONG) && SIZEOF_LONG_LONG == 8" (Name "unsigned long long") (Name "unsigned long")));
   ("longlong", Either "defined(longlong_defined)" (Name "longlong of the system") (Either "defined(HAVE_LONG_LONG) && SIZEOF_LONG_LONG == 8" (Name "long long") (Name "long")));
   ("int64", Either "defined(HAVE_INT64)" (Name "int64 of the system") (Name "longlong"));
   ("uint64", Either "defined(HAVE_UINT64)" (Name "uint64 of the system") (Name "ulonglong"));
   ("my_ulonglong", Either "defined(NO_CLIENT_LONG_LONG)" (Name "unsigned long") (Either "defined (__WIN__)" (Name "unsigned __int64") (Name "unsigned long long")));
   ("intptr", Either "SIZEOF_CHARP == SIZEOF_INT" (Name "int") (Either "SIZEOF_CHARP == SIZEOF_LONG" (Name "long") (Either "SIZEOF_CHARP == SIZEOF_LONG_LONG" (Name "long long") (Name "intptr of the system"))))].

(** my_global.h, lines 955 to 962. *)
Definition types_my_global_my_off_t : list (string * ty) :=
  [("my_off_t", Either "defined(_WIN32)" (Name "unsigned long long") (Either "SIZEOF_OFF_T > 4" (Name "ulonglong") (Name "unsigned long")));
   ("os_off_t", Either "defined(_WIN32)" (Name "unsigned long long") (Name "off_t"))].

(** my_global.h, lines 970 to 971. *)
Definition types_my_global_table_map : list (string * ty) :=
  [("table_map", Name "ulonglong");
   ("nesting_map", Name "ulong")].

(** my_global.h, lines 994 to 995. *)
Definition types_my_global_myf : list (string * ty) :=
  [("myf", Name "int");
   ("my_bool", Name "char")].

(** my_global.h, lines 1112 to 1115. *)
Definition types_my_global_doubleget_union : list (string * ty) :=
  [("doubleget_union", Either "defined(__i386__) || defined(_WIN32)" (Name "union doubleget_union") (Name "doubleget_union of the system"))].

(** my_pthread.h, lines 35 to 49. *)
Definition types_my_pthread_pthread_mutex_t : list (string * ty) :=
  [("pthread_mutex_t", Either "defined(__WIN__)" (Name "CRITICAL_SECTION") (Name "pthread_mutex_t of the system"));
   ("pthread_t", Either "defined(__WIN__)" (Name "DWORD") (Name "pthread_t of the system"));
   ("pthread_attr_t", Either "defined(__WIN__)" (Name "struct thread_attr") (Name "pthread_attr_t of the system"));
   ("pthread_condattr_t", Either "defined(__WIN__)" (Name "struct pthread_condattr_t") (Name "pthread_condattr_t of the system"));
   ("pthread_link", Either "defined(__WIN__)" (Name "struct st_pthread_link") (Name "pthread_link of the system"))].

(** my_pthread.h, lines 56 to 78. *)
Definition types_my_pthread_pthread_cond_t : list (string * ty) :=
  [("pthread_cond_t", Either "defined(__WIN__)" (Name "union pthread_cond_t") (Name "pthread_cond_t of the system"));
   ("pthread_mutexattr_t", Either "defined(__WIN__)" (Name "int") (Name "pthread_mutexattr_t of the system"))].

(** my_pthread.h, lines 81 to 214. *)
Definition types_my_pthread_pthread_handler : list (string * ty) :=
  [("pthread_handler", Either "defined(__WIN__)" (Pointer (Fn (Pointer Void) [Pointer Void])) (Pointer (Fn (Pointer Void) [Pointer Void])));
   ("my_pthread_once_t", Either "defined(__WIN__)" (Name "LONG") (Name "my_pthread_once_t of the system"))].

(** my_pthread.h, lines 482 to 482. *)
Definition types_my_pthread_safe_mutex_t : list (string * ty) :=
  [("safe_mutex_t", Name "struct st_safe_mutex_t")].

(** my_pthread.h, lines 491 to 497. *)
Definition types_my_pthread_safe_mutex_info_t : list (string * ty) :=
  [("safe_mutex_info_t", Either "defined(SAFE_MUTEX_DETECT_DESTROY)" (Name "struct st_safe_mutex_info_t") (Name "safe_mutex_info_t of the system"))].

(** my_pthread.h, lines 545 to 550. *)
Definition types_my_pthread_my_pthread_fastmutex_t : list (string * ty) :=
  [("my_pthread_fastmutex_t", Either "defined(MY_PTHREAD_FASTMUTEX) && !defined(SAFE_MUTEX)" (Name "struct st_my_pthread_fastmutex_t") (Name "my_pthread_fastmutex_t of the system"))].

(** my_pthread.h, lines 677 to 677. *)
Definition types_my_pthread_rw_pr_lock_t : list (string * ty) :=
  [("rw_pr_lock_t", Name "struct st_rw_pr_lock_t")].

(** my_pthread.h, lines 710 to 752. *)
Definition types_my_pthread_my_rw_lock_t : list (string * ty) :=
  [("my_rw_lock_t", Either "defined(NEED_MY_RW_LOCK)" (Either "defined(_WIN32)" (Name "union my_rw_lock_t") (Name "struct st_my_rw_lock_t")) (Name "my_rw_lock_t of the system"))].

(** my_pthread.h, lines 806 to 806. *)
Definition types_my_pthread_my_thread_id : list (string * ty) :=
  [("my_thread_id", Name "ulong")].

(** m_ctype.h, lines 64 to 64. *)
Definition types_m_ctype_MY_UNICASE_INFO : list (string * ty) :=
  [("MY_UNICASE_INFO", Name "struct unicase_info_st")].

(** m_ctype.h, lines 76 to 76. *)
Definition types_m_ctype_MY_UNI_CTYPE : list (string * ty) :=
  [("MY_UNI_CTYPE", Name "struct uni_ctype_st")].

(** m_ctype.h, lines 124 to 124. *)
Definition types_m_ctype_MY_UNI_IDX : list (string * ty) :=
  [("MY_UNI_IDX", Name "struct my_uni_idx_st")].

(** m_ctype.h, lines 131 to 131. *)
Definition types_m_ctype_my_match_t : list (string * ty) :=
  [("my_match_t", Name "struct my_match_t")].

(** m_ctype.h, lines 187 to 187. *)
Definition types_m_ctype_MY_COLLATION_HANDLER : list (string * ty) :=
  [("MY_COLLATION_HANDLER", Name "struct my_collation_handler_st")].

(** m_ctype.h, lines 195 to 200. *)
Definition types_m_ctype_my_charset_conv_mb_wc : list (string * ty) :=
  [("my_charset_conv_mb_wc", Pointer (Fn (Name "int") [Pointer (Name "struct charset_info_st"); Pointer (Name "my_wc_t"); Pointer (Const (Name "uchar")); Pointer (Const (Name "uchar"))]));
   ("my_charset_conv_wc_mb", Pointer (Fn (Name "int") [Pointer (Name "struct charset_info_st"); Name "my_wc_t"; Pointer (Name "uchar"); Pointer (Name "uchar")]));
   ("my_charset_conv_case", Pointer (Fn (Name "size_t") [Pointer (Name "struct charset_info_st"); Pointer (Name "char"); Name "size_t"; Pointer (Name "char"); Name "size_t"]))].

(** m_ctype.h, lines 264 to 264. *)
Definition types_m_ctype_MY_CHARSET_HANDLER : list (string * ty) :=
  [("MY_CHARSET_HANDLER", Name "struct my_charset_handler_st")].

(** m_ctype.h, lines 311 to 311. *)
Definition types_m_ctype_CHARSET_INFO : list (string * ty) :=
  [("CHARSET_INFO", Name "struct charset_info_st")].

(** typelib.h, lines 27 to 27. *)
Definition types_typelib_TYPELIB : list (string * ty) :=
  [("TYPELIB", Name "struct st_typelib")].

(** my_alloc.h, lines 35 to 35. *)
Definition types_my_alloc_USED_MEM : list (string * ty) :=
  [("USED_MEM", Name "struct st_used_mem")].

(** my_alloc.h, lines 54 to 54. *)
Definition types_my_alloc_MEM_ROOT : list (string * ty) :=
  [("MEM_ROOT", Name "struct st_mem_root")].

(** my_list.h, lines 23 to 28. *)
Definition types_my_list_LIST : list (string * ty) :=
  [("LIST", Either "defined(_list_h_)" (Name "LIST of the system") (Name "struct st_list"));
   ("list_walk_action", Either "defined(_list_h_)" (Name "list_walk_action of the system") (Pointer (Fn (Name "int") [Pointer Void; Pointer Void])))].

(** my_sys.h, lines 25 to 28. *)
Definition types_my_sys_my_aio_result : list (string * ty) :=
  [("my_aio_result", Either "defined(HAVE_AIOWAIT)" (Name "struct my_aio_result") (Name "my_aio_result of the system"))].

(** my_sys.h, lines 297 to 297. *)
Definition types_my_sys_RECORD_CACHE : list (string * ty) :=
  [("RECORD_CACHE", Name "struct st_record_cache")].

(** my_sys.h, lines 326 to 326. *)
Definition types_my_sys_DYNAMIC_ARRAY : list (string * ty) :=
  [("DYNAMIC_ARRAY", Name "struct st_dynamic_array")].

(** my_sys.h, lines 334 to 334. *)
Definition types_my_sys_MY_TMPDIR : list (string * ty) :=
  [("MY_TMPDIR", Name "struct st_my_tmpdir")].

(** my_sys.h, lines 340 to 343. *)
Definition types_my_sys_DYNAMIC_STRING : list (string * ty) :=
  [("DYNAMIC_STRING", Name "struct st_dynamic_string");
   ("IO_CACHE_CALLBACK", Pointer (Fn (Name "int") [Pointer (Name "struct st_io_cache")]))].

(** my_sys.h, lines 363 to 363. *)
Definition types_my_sys_IO_CACHE_SHARE : list (string * ty) :=
  [("IO_CACHE_SHARE", Name "struct st_io_cache_share")].

(** my_sys.h, lines 488 to 490. *)
Definition types_my_sys_IO_CACHE : list (string * ty) :=
  [("IO_CACHE", Name "struct st_io_cache");
   ("qsort2_cmp", Pointer (Fn (Name "int") [Pointer (Const Void); Pointer (Const Void); Pointer (Const Void)]))].

(** my_sys.h, lines 541 to 545. *)
Definition types_my_sys_ha_checksum : list (string * ty) :=
  [("ha_checksum", Name "uint32");
   ("Process_option_func", Pointer (Fn (Name "int") [Pointer Void; Pointer (Const (Name "char")); Pointer (Const (Name "char"))]))].

(** m_string.h, lines 127 to 130. *)
Definition types_m_string_my_gcvt_arg_type : list (string * ty) :=
  [("my_gcvt_arg_type", Name "enum my_gcvt_arg_type")].

(** m_string.h, lines 210 to 210. *)
Definition types_m_string_LEX_STRING : list (string * ty) :=
  [("LEX_STRING", Name "struct st_mysql_lex_string")].

(** m_string.h, lines 221 to 221. *)
Definition types_m_string_LEX_CSTRING : list (string * ty) :=
  [("LEX_CSTRING", Name "struct st_mysql_const_lex_string")].

(** my_dir.h, lines 55 to 68. *)
Definition types_my_dir_MY_STAT : list (string * ty) :=
  [("MY_STAT", Either "defined(USE_MY_STAT_STRUCT)" (Name "struct my_stat") (Name "MY_STAT of the system"))].

(** my_dir.h, lines 85 to 85. *)
Definition types_my_dir_FILEINFO : list (string * ty) :=
  [("FILEINFO", Name "struct fileinfo")].

(** my_dir.h, lines 97 to 97. *)
Definition types_my_dir_MY_DIR : list (string * ty) :=
  [("MY_DIR", Name "struct st_my_dir")].

(** my_getopt.h, lines 89 to 90. *)
Definition types_my_getopt_my_get_one_option : list (string * ty) :=
  [("my_get_one_option", Pointer (Fn (Name "my_bool") [Name "int"; Pointer (Const (Name "struct my_option")); Pointer (Name "char")]));
   ("my_error_reporter", Pointer (FnVariadic Void [Name "enum loglevel"; Pointer (Const (Name "char"))]))].

(** my_getopt.h, lines 99 to 100. *)
Definition types_my_getopt_my_getopt_value : list (string * ty) :=
  [("my_getopt_value", Pointer (Fn (Pointer Void) [Pointer (Const (Name "char")); Name "uint"; Pointer (Const (Name "struct my_option")); Pointer (Name "int")]))].

(** my_xml.h, lines 63 to 63. *)
Definition types_my_xml_MY_XML_PARSER : list (string * ty) :=
  [("MY_XML_PARSER", Name "struct xml_stack_st")].

(** mysql_time.h, lines 47 to 53. *)
Definition types_mysql_time_MYSQL_TIME : list (string * ty) :=
  [("MYSQL_TIME", Either "defined(_mysql_time_h_)" (Name "MYSQL_TIME of the system") (Name "struct st_mysql_time"))].

(** mysql_com.h, lines 277 to 277. *)
Definition types_mysql_com_Vio : list (string * ty) :=
  [("Vio", Name "struct st_vio")].

(** mysql_com.h, lines 337 to 337. *)
Definition types_mysql_com_NET : list (string * ty) :=
  [("NET", Name "struct st_net")].

(** mysql_com.h, lines 497 to 497. *)
Definition types_mysql_com_UDF_ARGS : list (string * ty) :=
  [("UDF_ARGS", Name "struct st_udf_args")].

(** mysql_com.h, lines 509 to 509. *)
Definition types_mysql_com_UDF_INIT : list (string * ty) :=
  [("UDF_INIT", Name "struct st_udf_init")].

(** mysql.h, lines 116 to 119. *)
Definition types_mysql_MYSQL_FIELD : list (string * ty) :=
  [("MYSQL_FIELD", Name "struct st_mysql_field");
   ("MYSQL_ROW", Pointer (Pointer (Name "char")));
   ("MYSQL_FIELD_OFFSET", Name "unsigned int")].

(** mysql.h, lines 142 to 148. *)
Definition types_mysql_MYSQL_ROWS : list (string * ty) :=
  [("MYSQL_ROWS", Name "struct st_mysql_rows");
   ("MYSQL_ROW_OFFSET", Pointer (Name "MYSQL_ROWS"));
   ("EMBEDDED_QUERY_RESULT", Name "struct embedded_query_result")].

(** mysql.h, lines 157 to 157. *)
Definition types_mysql_MYSQL_DATA : list (string * ty) :=
  [("MYSQL_DATA", Name "struct st_mysql_data")].

(** mysql.h, lines 236 to 236. *)
Definition types_mysql_MY_CHARSET_INFO : list (string * ty) :=
  [("MY_CHARSET_INFO", Name "struct character_set")].

(** mysql.h, lines 283 to 283. *)
Definition types_mysql_MYSQL : list (string * ty) :=
  [("MYSQL", Name "struct st_mysql")].

(** mysql.h, lines 302 to 302. *)
Definition types_mysql_MYSQL_RES : list (string * ty) :=
  [("MYSQL_RES", Name "struct st_mysql_res")].

(** mysql.h, lines 315 to 315. *)
Definition types_mysql_MYSQL_PARAMETERS : list (string * ty) :=
  [("MYSQL_PARAMETERS", Name "struct st_mysql_parameters")].

(** mysql.h, lines 573 to 573. *)
Definition types_mysql_MYSQL_BIND : list (string * ty) :=
  [("MYSQL_BIND", Name "struct st_mysql_bind")].

(** mysql.h, lines 624 to 624. *)
Definition types_mysql_MYSQL_STMT : list (string * ty) :=
  [("MYSQL_STMT", Name "struct st_mysql_stmt")].

(** decimal.h, lines 19 to 22. *)
Definition types_decimal_decimal_round_mode : list (string * ty) :=
  [("decimal_round_mode", Name "enum decimal_round_mode");
   ("decimal_digit_t", Name "int32")].

(** decimal.h, lines 37 to 37. *)
Definition types_decimal_decimal_t : list (string * ty) :=
  [("decimal_t", Name "struct st_decimal_t")].

(** keycache.h, lines 28 to 38. *)
Definition types_keycache_BLOCK_LINK : list (string * ty) :=
  [("BLOCK_LINK", Name "struct st_block_link");
   ("KEYCACHE_PAGE", Name "struct st_keycache_page");
   ("HASH_LINK", Name "struct st_hash_link");
   ("KEYCACHE_WQUEUE", Name "struct st_keycache_wqueue")].

(** keycache.h, lines 107 to 107. *)
Definition types_keycache_KEY_CACHE : list (string * ty) :=
  [("KEY_CACHE", Name "struct st_key_cache")].

(** sql_common.h, lines 65 to 65. *)
Definition types_sql_common_MYSQL_METHODS : list (string * ty) :=
  [("MYSQL_METHODS", Name "struct st_mysql_methods")].

(** mysql/plugin_auth_common.h, lines 73 to 73. *)
Definition types_plugin_auth_common_MYSQL_PLUGIN_VIO_INFO : list (string * ty) :=
  [("MYSQL_PLUGIN_VIO_INFO", Name "struct st_plugin_vio_info")].

(** mysql/plugin_auth_common.h, lines 102 to 102. *)
Definition types_plugin_auth_common_MYSQL_PLUGIN_VIO : list (string * ty) :=
  [("MYSQL_PLUGIN_VIO", Name "struct st_plugin_vio")].

(** mysql/service_thd_alloc.h, lines 43 to 43. *)
Definition types_service_thd_alloc_MYSQL_LEX_STRING : list (string * ty) :=
  [("MYSQL_LEX_STRING", Name "struct st_mysql_lex_string")].

(** mysql/service_thd_wait.h, lines 78 to 78. *)
Definition types_service_thd_wait_thd_wait_type : list (string * ty) :=
  [("thd_wait_type", Name "enum _thd_wait_type_e")].

(** plugin.h, lines 68 to 68. *)
Definition types_plugin_MYSQL_XID : list (string * ty) :=
  [("MYSQL_XID", Name "struct st_mysql_xid")].

(** plugin.h, lines 143 to 143. *)
Definition types_plugin_mysql_show_var_func : list (string * ty) :=
  [("mysql_show_var_func", Pointer (Fn (Name "int") [Name "MYSQL_THD"; Pointer (Name "struct st_mysql_show_var"); Pointer (Name "char")]))].

(** plugin.h, lines 198 to 200. *)
Definition types_plugin_mysql_var_check_func : list (string * ty) :=
  [("mysql_var_check_func", Pointer (Fn (Name "int") [Name "MYSQL_THD"; Pointer (Name "struct st_mysql_sys_var"); Pointer Void; Pointer (Name "struct st_mysql_value")]))].

(** plugin.h, lines 216 to 218. *)
Definition types_plugin_mysql_var_update_func : list (string * ty) :=
  [("mysql_var_update_func", Pointer (Fn Void [Name "MYSQL_THD"; Pointer (Name "struct st_mysql_sys_var"); Pointer Void; Pointer (Const Void)]))].

(** plugin_ftparser.h, lines 126 to 126. *)
Definition types_plugin_ftparser_MYSQL_FTPARSER_BOOLEAN_INFO : list (string * ty) :=
  [("MYSQL_FTPARSER_BOOLEAN_INFO", Name "struct st_mysql_ftparser_boolean_info")].

(** plugin_ftparser.h, lines 192 to 192. *)
Definition types_plugin_ftparser_MYSQL_FTPARSER_PARAM : list (string * ty) :=
  [("MYSQL_FTPARSER_PARAM", Name "struct st_mysql_ftparser_param")].

(** mysql/plugin_auth.h, lines 103 to 103. *)
Definition types_plugin_auth_MYSQL_SERVER_AUTH_INFO : list (string * ty) :=
  [("MYSQL_SERVER_AUTH_INFO", Name "struct st_mysql_server_auth_info")].

(** mysql/psi/psi.h, lines 243 to 243. *)
Definition types_psi_PSI_mutex_key : list (string * ty) :=
  [("PSI_mutex_key", Either "defined(HAVE_PSI_INTERFACE)" (Name "unsigned int") (Name "PSI_mutex_key of the system"))].

(** mysql/psi/psi.h, lines 251 to 251. *)
Definition types_psi_PSI_rwlock_key : list (string * ty) :=
  [("PSI_rwlock_key", Either "defined(HAVE_PSI_INTERFACE)" (Name "unsigned int") (Name "PSI_rwlock_key of the system"))].

(** mysql/psi/psi.h, lines 259 to 259. *)
Definition types_psi_PSI_cond_key : list (string * ty) :=
  [("PSI_cond_key", Either "defined(HAVE_PSI_INTERFACE)" (Name "unsigned int") (Name "PSI_cond_key of the system"))].

(** mysql/psi/psi.h, lines 267 to 267. *)
Definition types_psi_PSI_thread_key : list (string * ty) :=
  [("PSI_thread_key", Either "defined(HAVE_PSI_INTERFACE)" (Name "unsigned int") (Name "PSI_thread_key of the system"))].

(** mysql/psi/psi.h, lines 274 to 274. *)
Definition types_psi_PSI_file_key : list (string * ty) :=
  [("PSI_file_key", Either "defined(HAVE_PSI_INTERFACE)" (Name "unsigned int") (Name "PSI_file_key of the system"))].

(** mysql/psi/psi.h, lines 602 to 603. *)
Definition types_psi_register_mutex_v1_t : list (string * ty) :=
  [("register_mutex_v1_t", Either "defined(HAVE_PSI_INTERFACE)" (Either "defined(HAVE_PSI_1)" (Pointer (Fn Void [Pointer (Const (Name "char")); Pointer (Name "struct PSI_mutex_info_v1"); Name "int"])) (Name "register_mutex_v1_t of the system")) (Name "register_mutex_v1_t of the system"))].

(** mysql/psi/psi.h, lines 611 to 612. *)
Definition types_psi_register_rwlock_v1_t : list (string * ty) :=
  [("register_rwlock_v1_t", Either "defined(HAVE_PSI_INTERFACE)" (Either "defined(HAVE_PSI_1)" (Pointer (Fn Void [Pointer (Const (Name "char")); Pointer (Name "struct PSI_rwlock_info_v1"); Name "int"])) (Name "register_rwlock_v1_t of the system")) (Name "register_rwlock_v1_t of the system"))].

(** mysql/psi/psi.h, lines 620 to 621. *)
Definition types_psi_register_cond_v1_t : list (string * ty) :=
  [("register_cond_v1_t", Either "defined(HAVE_PSI_INTERFACE)" (Either "defined(HAVE_PSI_1)" (Pointer (Fn Void [Pointer (Const (Name "char")); Pointer (Name "struct PSI_cond_info_v1"); Name "int"])) (Name "register_cond_v1_t of the system")) (Name "register_cond_v1_t of the system"))].

(** mysql/psi/psi.h, lines 629 to 630. *)
Definition types_psi_register_thread_v1_t : list (string * ty) :=
  [("register_thread_v1_t", Either "defined(HAVE_PSI_INTERFACE)" (Either "defined(HAVE_PSI_1)" (Pointer (Fn Void [Pointer (Const (Name "char")); Pointer (Name "struct PSI_thread_info_v1"); Name "int"])) (Name "register_thread_v1_t of the system")) (Name "register_thread_v1_t of the system"))].

(** mysql/psi/psi.h, lines 638 to 639. *)
Definition types_psi_register_file_v1_t : list (string * ty) :=
  [("register_file_v1_t", Either "defined(HAVE_PSI_INTERFACE)" (Either "defined(HAVE_PSI_1)" (Pointer (Fn Void [Pointer (Const (Name "char")); Pointer (Name "struct PSI_file_info_v1"); Name "int"])) (Name "register_file_v1_t of the system")) (Name "register_file_v1_t of the system"))].

(** mysql/psi/psi.h, lines 647 to 648. *)
Definition types_psi_init_mutex_v1_t : list (string * ty) :=
  [("init_mutex_v1_t", Either "defined(HAVE_PSI_INTERFACE)" (Either "defined(HAVE_PSI_1)" (Pointer (Fn (Pointer (Name "struct PSI_mutex")) [Name "PSI_mutex_key"; Pointer (Const Void)])) (Name "init_mutex_v1_t of the system")) (Name "init_mutex_v1_t of the system"))].

(** mysql/psi/psi.h, lines 654 to 654. *)
Definition types_psi_destroy_mutex_v1_t : list (string * ty) :=
  [("destroy_mutex_v1_t", Either "defined(HAVE_PSI_INTERFACE)" (Either "defined(HAVE_PSI_1)" (Pointer (Fn Void [Pointer (Name "struct PSI_mutex")])) (Name "destroy_mutex_v1_t of the system")) (Name "destroy_mutex_v1_t of the system"))].

(** mysql/psi/psi.h, lines 662 to 663. *)
Definition types_psi_init_rwlock_v1_t : list (string * ty) :=
  [("init_rwlock_v1_t", Either "defined(HAVE_PSI_INTERFACE)" (Either "defined(HAVE_PSI_1)" (Pointer (Fn (Pointer (Name "struct PSI_rwlock")) [Name "PSI_rwlock_key"; Pointer (Const Void)])) (Name "init_rwlock_v1_t of the system")) (Name "init_rwlock_v1_t of the system"))].

(** mysql/psi/psi.h, lines 669 to 669. *)
Definition types_psi_destroy_rwlock_v1_t : list (string * ty) :=
  [("destroy_rwlock_v1_t", Either "defined(HAVE_PSI_INTERFACE)" (Either "defined(HAVE_PSI_1)" (Pointer (Fn Void [Pointer (Name "struct PSI_rwlock")])) (Name "destroy_rwlock_v1_t of the system")) (Name "destroy_rwlock_v1_t of the system"))].

(** mysql/psi/psi.h, lines 677 to 678. *)
Definition types_psi_init_cond_v1_t : list (string * ty) :=
  [("init_cond_v1_t", Either "defined(HAVE_PSI_INTERFACE)" (Either "defined(HAVE_PSI_1)" (Pointer (Fn (Pointer (Name "struct PSI_cond")) [Name "PSI_cond_key"; Pointer (Const Void)])) (Name "init_cond_v1_t of the system")) (Name "init_cond_v1_t of the system"))].

(** mysql/psi/psi.h, lines 684 to 684. *)
Definition types_psi_destroy_cond_v1_t : list (string * ty) :=
  [("destroy_cond_v1_t", Either "defined(HAVE_PSI_INTERFACE)" (Either "defined(HAVE_PSI_1)" (Pointer (Fn Void [Pointer (Name "struct PSI_cond")])) (Name "destroy_cond_v1_t of the system")) (Name "destroy_cond_v1_t of the system"))].

(** mysql/psi/psi.h, lines 695 to 697. *)
Definition types_psi_get_table_share_v1_t : list (string * ty) :=
  [("get_table_share_v1_t", Either "defined(HAVE_PSI_INTERFACE)" (Either "defined(HAVE_PSI_1)" (Pointer (Fn (Pointer (Name "struct PSI_table_share")) [Pointer (Const (Name "char")); Name "int"; Pointer (Const (Name "char")); Name "int"; Pointer (Const Void)])) (Name "get_table_share_v1_t of the system")) (Name "get_table_share_v1_t of the system"))].

(** mysql/psi/psi.h, lines 703 to 703. *)
Definition types_psi_release_table_share_v1_t : list (string * ty) :=
  [("release_table_share_v1_t", Either "defined(HAVE_PSI_INTERFACE)" (Either "defined(HAVE_PSI_1)" (Pointer (Fn Void [Pointer (Name "struct PSI_table_share")])) (Name "release_table_share_v1_t of the system")) (Name "release_table_share_v1_t of the system"))].

(** mysql/psi/psi.h, lines 711 to 712. *)
Definition types_psi_open_table_v1_t : list (string * ty) :=
  [("open_table_v1_t", Either "defined(HAVE_PSI_INTERFACE)" (Either "defined(HAVE_PSI_1)" (Pointer (Fn (Pointer (Name "struct PSI_table")) [Pointer (Name "struct PSI_table_share"); Pointer (Const Void)])) (Name "open_table_v1_t of the system")) (Name "open_table_v1_t of the system"))].

(** mysql/psi/psi.h, lines 719 to 719. *)
Definition types_psi_close_table_v1_t : list (string * ty) :=
  [("close_table_v1_t", Either "defined(HAVE_PSI_INTERFACE)" (Either "defined(HAVE_PSI_1)" (Pointer (Fn Void [Pointer (Name "struct PSI_table")])) (Name "close_table_v1_t of the system")) (Name "close_table_v1_t of the system"))].

(** mysql/psi/psi.h, lines 729 to 730. *)
Definition types_psi_create_file_v1_t : list (string * ty) :=
  [("create_file_v1_t", Either "defined(HAVE_PSI_INTERFACE)" (Either "defined(HAVE_PSI_1)" (Pointer (Fn Void [Name "PSI_file_key"; Pointer (Const (Name "char")); Name "File"])) (Name "create_file_v1_t of the system")) (Name "create_file_v1_t of the system"))].

(** mysql/psi/psi.h, lines 741 to 744. *)
Definition types_psi_spawn_thread_v1_t : list (string * ty) :=
  [("spawn_thread_v1_t", Either "defined(HAVE_PSI_INTERFACE)" (Either "defined(HAVE_PSI_1)" (Pointer (Fn (Name "int") [Name "PSI_thread_key"; Pointer (Name "pthread_t"); Pointer (Const (Name "pthread_attr_t")); Pointer (Fn (Pointer Void) [Pointer Void]); Pointer Void])) (Name "spawn_thread_v1_t of the system")) (Name "spawn_thread_v1_t of the system"))].

(** mysql/psi/psi.h, lines 752 to 753. *)
Definition types_psi_new_thread_v1_t : list (string * ty) :=
  [("new_thread_v1_t", Either "defined(HAVE_PSI_INTERFACE)" (Either "defined(HAVE_PSI_1)" (Pointer (Fn (Pointer (Name "struct PSI_thread")) [Name "PSI_thread_key"; Pointer (Const Void); Name "ulong"])) (Name "new_thread_v1_t of the system")) (Name "new_thread_v1_t of the system"))].

(** mysql/psi/psi.h, lines 760 to 761. *)
Definition types_psi_set_thread_id_v1_t : list (string * ty) :=
  [("set_thread_id_v1_t", Either "defined(HAVE_PSI_INTERFACE)" (Either "defined(HAVE_PSI_1)" (Pointer (Fn Void [Pointer (Name "struct PSI_thread"); Name "unsigned long"])) (Name "set_thread_id_v1_t of the system")) (Name "set_thread_id_v1_t of the system"))].

(** mysql/psi/psi.h, lines 770 to 770. *)
Definition types_psi_get_thread_v1_t : list (string * ty) :=
  [("get_thread_v1_t", Either "defined(HAVE_PSI_INTERFACE)" (Either "defined(HAVE_PSI_1)" (Pointer (Fn (Pointer (Name "struct PSI_thread")) [])) (Name "get_thread_v1_t of the system")) (Name "get_thread_v1_t of the system"))].

(** mysql/psi/psi.h, lines 781 to 787. *)
Definition types_psi_set_thread_v1_t : list (string * ty) :=
  [("set_thread_v1_t", Either "defined(HAVE_PSI_INTERFACE)" (Either "defined(HAVE_PSI_1)" (Pointer (Fn Void [Pointer (Name "struct PSI_thread")])) (Name "set_thread_v1_t of the system")) (Name "set_thread_v1_t of the system"));
   ("delete_current_thread_v1_t", Either "defined(HAVE_PSI_INTERFACE)" (Either "defined(HAVE_PSI_1)" (Pointer (Fn Void [])) (Name "delete_current_thread_v1_t of the system")) (Name "delete_current_thread_v1_t of the system"));
   ("delete_thread_v1_t", Either "defined(HAVE_PSI_INTERFACE)" (Either "defined(HAVE_PSI_1)" (Pointer (Fn Void [Pointer (Name "struct PSI_thread")])) (Name "delete_thread_v1_t of the system")) (Name "delete_thread_v1_t of the system"))].

(** mysql/psi/psi.h, lines 795 to 798. *)
Definition types_psi_get_thread_mutex_locker_v1_t : list (string * ty) :=
  [("get_thread_mutex_locker_v1_t", Either "defined(HAVE_PSI_INTERFACE)" (Either "defined(HAVE_PSI_1)" (Pointer (Fn (Pointer (Name "struct PSI_mutex_locker")) [Pointer (Name "struct PSI_mutex_locker_state_v1"); Pointer (Name "struct PSI_mutex"); Name "enum PSI_mutex_operation"])) (Name "get_thread_mutex_locker_v1_t of the system")) (Name "get_thread_mutex_locker_v1_t of the system"))].

(** mysql/psi/psi.h, lines 806 to 809. *)
Definition types_psi_get_thread_rwlock_locker_v1_t : list (string * ty) :=
  [("get_thread_rwlock_locker_v1_t", Either "defined(HAVE_PSI_INTERFACE)" (Either "defined(HAVE_PSI_1)" (Pointer (Fn (Pointer (Name "struct PSI_rwlock_locker")) [Pointer (Name "struct PSI_rwlock_locker_state_v1"); Pointer (Name "struct PSI_rwlock"); Name "enum PSI_rwlock_operation"])) (Name "get_thread_rwlock_locker_v1_t of the system")) (Name "get_thread_rwlock_locker_v1_t of the system"))].

(** mysql/psi/psi.h, lines 818 to 821. *)
Definition types_psi_get_thread_cond_locker_v1_t : list (string * ty) :=
  [("get_thread_cond_locker_v1_t", Either "defined(HAVE_PSI_INTERFACE)" (Either "defined(HAVE_PSI_1)" (Pointer (Fn (Pointer (Name "struct PSI_cond_locker")) [Pointer (Name "struct PSI_cond_locker_state_v1"); Pointer (Name "struct PSI_cond"); Pointer (Name "struct PSI_mutex"); Name "enum PSI_cond_operation"])) (Name "get_thread_cond_locker_v1_t of the system")) (Name "get_thread_cond_locker_v1_t of the system"))].

(** mysql/psi/psi.h, lines 829 to 831. *)
Definition types_psi_get_thread_table_locker_v1_t : list (string * ty) :=
  [("get_thread_table_locker_v1_t", Either "defined(HAVE_PSI_INTERFACE)" (Either "defined(HAVE_PSI_1)" (Pointer (Fn (Pointer (Name "struct PSI_table_locker")) [Pointer (Name "struct PSI_table_locker_state_v1"); Pointer (Name "struct PSI_table")])) (Name "get_thread_table_locker_v1_t of the system")) (Name "get_thread_table_locker_v1_t of the system"))].

(** mysql/psi/psi.h, lines 842 to 845. *)
Definition types_psi_get_thread_file_name_locker_v1_t : list (string * ty) :=
  [("get_thread_file_name_locker_v1_t", Either "defined(HAVE_PSI_INTERFACE)" (Either "defined(HAVE_PSI_1)" (Pointer (Fn (Pointer (Name "struct PSI_file_locker")) [Pointer (Name "struct PSI_file_locker_state_v1"); Name "PSI_file_key"; Name "enum PSI_file_operation"; Pointer (Const (Name "char")); Pointer (Const Void)])) (Name "get_thread_file_name_locker_v1_t of the system")) (Name "get_thread_file_name_locker_v1_t of the system"))].

(** mysql/psi/psi.h, lines 854 to 856. *)
Definition types_psi_get_thread_file_stream_locker_v1_t : list (string * ty) :=
  [("get_thread_file_stream_locker_v1_t", Either "defined(HAVE_PSI_INTERFACE)" (Either "defined(HAVE_PSI_1)" (Pointer (Fn (Pointer (Name "struct PSI_file_locker")) [Pointer (Name "struct PSI_file_locker_state_v1"); Pointer (Name "struct PSI_file"); Name "enum PSI_file_operation"])) (Name "get_thread_file_stream_locker_v1_t of the system")) (Name "get_thread_file_stream_locker_v1_t of the system"))].

(** mysql/psi/psi.h, lines 865 to 867. *)
Definition types_psi_get_thread_file_descriptor_locker_v1_t : list (string * ty) :=
  [("get_thread_file_descriptor_locker_v1_t", Either "defined(HAVE_PSI_INTERFACE)" (Either "defined(HAVE_PSI_1)" (Pointer (Fn (Pointer (Name "struct PSI_file_locker")) [Pointer (Name "struct PSI_file_locker_state_v1"); Name "File"; Name "enum PSI_file_operation"])) (Name "get_thread_file_descriptor_locker_v1_t of the system")) (Name "get_thread_file_descriptor_locker_v1_t of the system"))].

(** mysql/psi/psi.h, lines 873 to 874. *)
Definition types_psi_unlock_mutex_v1_t : list (string * ty) :=
  [("unlock_mutex_v1_t", Either "defined(HAVE_PSI_INTERFACE)" (Either "defined(HAVE_PSI_1)" (Pointer (Fn Void [Pointer (Name "struct PSI_mutex")])) (Name "unlock_mutex_v1_t of the system")) (Name "unlock_mutex_v1_t of the system"))].

(** mysql/psi/psi.h, lines 880 to 881. *)
Definition types_psi_unlock_rwlock_v1_t : list (string * ty) :=
  [("unlock_rwlock_v1_t", Either "defined(HAVE_PSI_INTERFACE)" (Either "defined(HAVE_PSI_1)" (Pointer (Fn Void [Pointer (Name "struct PSI_rwlock")])) (Name "unlock_rwlock_v1_t of the system")) (Name "unlock_rwlock_v1_t of the system"))].

(** mysql/psi/psi.h, lines 887 to 888. *)
Definition types_psi_signal_cond_v1_t : list (string * ty) :=
  [("signal_cond_v1_t", Either "defined(HAVE_PSI_INTERFACE)" (Either "defined(HAVE_PSI_1)" (Pointer (Fn Void [Pointer (Name "struct PSI_cond")])) (Name "signal_cond_v1_t of the system")) (Name "signal_cond_v1_t of the system"))].

(** mysql/psi/psi.h, lines 894 to 895. *)
Definition types_psi_broadcast_cond_v1_t : list (string * ty) :=
  [("broadcast_cond_v1_t", Either "defined(HAVE_PSI_INTERFACE)" (Either "defined(HAVE_PSI_1)" (Pointer (Fn Void [Pointer (Name "struct PSI_cond")])) (Name "broadcast_cond_v1_t of the system")) (Name "broadcast_cond_v1_t of the system"))].

(** mysql/psi/psi.h, lines 901 to 902. *)
Definition types_psi_start_mutex_wait_v1_t : list (string * ty) :=
  [("start_mutex_wait_v1_t", Either "defined(HAVE_PSI_INTERFACE)" (Either "defined(HAVE_PSI_1)" (Pointer (Fn Void [Pointer (Name "struct PSI_mutex_locker"); Pointer (Const (Name "char")); Name "uint"])) (Name "start_mutex_wait_v1_t of the system")) (Name "start_mutex_wait_v1_t of the system"))].

(** mysql/psi/psi.h, lines 909 to 910. *)
Definition types_psi_end_mutex_wait_v1_t : list (string * ty) :=
  [("end_mutex_wait_v1_t", Either "defined(HAVE_PSI_INTERFACE)" (Either "defined(HAVE_PSI_1)" (Pointer (Fn Void [Pointer (Name "struct PSI_mutex_locker"); Name "int"])) (Name "end_mutex_wait_v1_t of the system")) (Name "end_mutex_wait_v1_t of the system"))].

(** mysql/psi/psi.h, lines 917 to 918. *)
Definition types_psi_start_rwlock_rdwait_v1_t : list (string * ty) :=
  [("start_rwlock_rdwait_v1_t", Either "defined(HAVE_PSI_INTERFACE)" (Either "defined(HAVE_PSI_1)" (Pointer (Fn Void [Pointer (Name "struct PSI_rwlock_locker"); Pointer (Const (Name "char")); Name "uint"])) (Name "start_rwlock_rdwait_v1_t of the system")) (Name "start_rwlock_rdwait_v1_t of the system"))].

(** mysql/psi/psi.h, lines 925 to 926. *)
Definition types_psi_end_rwlock_rdwait_v1_t : list (string * ty) :=
  [("end_rwlock_rdwait_v1_t", Either "defined(HAVE_PSI_INTERFACE)" (Either "defined(HAVE_PSI_1)" (Pointer (Fn Void [Pointer (Name "struct PSI_rwlock_locker"); Name "int"])) (Name "end_rwlock_rdwait_v1_t of the system")) (Name "end_rwlock_rdwait_v1_t of the system"))].

(** mysql/psi/psi.h, lines 933 to 934. *)
Definition types_psi_start_rwlock_wrwait_v1_t : list (string * ty) :=
  [("start_rwlock_wrwait_v1_t", Either "defined(HAVE_PSI_INTERFACE)" (Either "defined(HAVE_PSI_1)" (Pointer (Fn Void [Pointer (Name "struct PSI_rwlock_locker"); Pointer (Const (Name "char")); Name "uint"])) (Name "start_rwlock_wrwait_v1_t of the system")) (Name "start_rwlock_wrwait_v1_t of the system"))].

(** mysql/psi/psi.h, lines 941 to 942. *)
Definition types_psi_end_rwlock_wrwait_v1_t : list (string * ty) :=
  [("end_rwlock_wrwait_v1_t", Either "defined(HAVE_PSI_INTERFACE)" (Either "defined(HAVE_PSI_1)" (Pointer (Fn Void [Pointer (Name "struct PSI_rwlock_locker"); Name "int"])) (Name "end_rwlock_wrwait_v1_t of the system")) (Name "end_rwlock_wrwait_v1_t of the system"))].

(** mysql/psi/psi.h, lines 949 to 950. *)
Definition types_psi_start_cond_wait_v1_t : list (string * ty) :=
  [("start_cond_wait_v1_t", Either "defined(HAVE_PSI_INTERFACE)" (Either "defined(HAVE_PSI_1)" (Pointer (Fn Void [Pointer (Name "struct PSI_cond_locker"); Pointer (Const (Name "char")); Name "uint"])) (Name "start_cond_wait_v1_t of the system")) (Name "start_cond_wait_v1_t of the system"))].

(** mysql/psi/psi.h, lines 957 to 958. *)
Definition types_psi_end_cond_wait_v1_t : list (string * ty) :=
  [("end_cond_wait_v1_t", Either "defined(HAVE_PSI_INTERFACE)" (Either "defined(HAVE_PSI_1)" (Pointer (Fn Void [Pointer (Name "struct PSI_cond_locker"); Name "int"])) (Name "end_cond_wait_v1_t of the system")) (Name "end_cond_wait_v1_t of the system"))].

(** mysql/psi/psi.h, lines 966 to 967. *)
Definition types_psi_start_table_wait_v1_t : list (string * ty) :=
  [("start_table_wait_v1_t", Either "defined(HAVE_PSI_INTERFACE)" (Either "defined(HAVE_PSI_1)" (Pointer (Fn Void [Pointer (Name "struct PSI_table_locker"); Pointer (Const (Name "char")); Name "uint"])) (Name "start_table_wait_v1_t of the system")) (Name "start_table_wait_v1_t of the system"))].

(** mysql/psi/psi.h, lines 973 to 973. *)
Definition types_psi_end_table_wait_v1_t : list (string * ty) :=
  [("end_table_wait_v1_t", Either "defined(HAVE_PSI_INTERFACE)" (Either "defined(HAVE_PSI_1)" (Pointer (Fn Void [Pointer (Name "struct PSI_table_locker")])) (Name "end_table_wait_v1_t of the system")) (Name "end_table_wait_v1_t of the system"))].

(** mysql/psi/psi.h, lines 983 to 984. *)
Definition types_psi_start_file_open_wait_v1_t : list (string * ty) :=
  [("start_file_open_wait_v1_t", Either "defined(HAVE_PSI_INTERFACE)" (Either "defined(HAVE_PSI_1)" (Pointer (Fn (Pointer (Name "struct PSI_file")) [Pointer (Name "struct PSI_file_locker"); Pointer (Const (Name "char")); Name "uint"])) (Name "start_file_open_wait_v1_t of the system")) (Name "start_file_open_wait_v1_t of the system"))].

(** mysql/psi/psi.h, lines 990 to 990. *)
Definition types_psi_end_file_open_wait_v1_t : list (string * ty) :=
  [("end_file_open_wait_v1_t", Either "defined(HAVE_PSI_INTERFACE)" (Either "defined(HAVE_PSI_1)" (Pointer (Fn Void [Pointer (Name "struct PSI_file_locker")])) (Name "end_file_open_wait_v1_t of the system")) (Name "end_file_open_wait_v1_t of the system"))].

(** mysql/psi/psi.h, lines 997 to 998. *)
Definition types_psi_end_file_open_wait_and_bind_to_descriptor_v1_t : list (string * ty) :=
  [("end_file_open_wait_and_bind_to_descriptor_v1_t", Either "defined(HAVE_PSI_INTERFACE)" (Either "defined(HAVE_PSI_1)" (Pointer (Fn Void [Pointer (Name "struct PSI_file_locker"); Name "File"])) (Name "end_file_open_wait_and_bind_to_descriptor_v1_t of the system")) (Name "end_file_open_wait_and_bind_to_descriptor_v1_t of the system"))].

(** mysql/psi/psi.h, lines 1008 to 1010. *)
Definition types_psi_start_file_wait_v1_t : list (string * ty) :=
  [("start_file_wait_v1_t", Either "defined(HAVE_PSI_INTERFACE)" (Either "defined(HAVE_PSI_1)" (Pointer (Fn Void [Pointer (Name "struct PSI_file_locker"); Name "size_t"; Pointer (Const (Name "char")); Name "uint"])) (Name "start_file_wait_v1_t of the system")) (Name "start_file_wait_v1_t of the system"))].

(** mysql/psi/psi.h, lines 1024 to 1025. *)
Definition types_psi_end_file_wait_v1_t : list (string * ty) :=
  [("end_file_wait_v1_t", Either "defined(HAVE_PSI_INTERFACE)" (Either "defined(HAVE_PSI_1)" (Pointer (Fn Void [Pointer (Name "struct PSI_file_locker"); Name "size_t"])) (Name "end_file_wait_v1_t of the system")) (Name "end_file_wait_v1_t of the system"))].

(** mysql/psi/psi.h, lines 1264 to 1302. *)
Definition types_psi_PSI : list (string * ty) :=
  [("PSI", Either "defined(HAVE_PSI_INTERFACE)" (Either "defined(USE_PSI_1)" (Name "struct PSI_v1") (Either "defined(USE_PSI_2)" (Name "struct PSI_v2") (Name "PSI of the system"))) (Name "struct PSI_none"));
   ("PSI_mutex_info", Either "defined(HAVE_PSI_INTERFACE)" (Either "defined(USE_PSI_1)" (Name "struct PSI_mutex_info_v1") (Either "defined(USE_PSI_2)" (Name "struct PSI_mutex_info_v2") (Name "PSI_mutex_info of the system"))) (Name "PSI_mutex_info of the system"));
   ("PSI_rwlock_info", Either "defined(HAVE_PSI_INTERFACE)" (Either "defined(USE_PSI_1)" (Name "struct PSI_rwlock_info_v1") (Either "defined(USE_PSI_2)" (Name "struct PSI_rwlock_info_v2") (Name "PSI_rwlock_info of the system"))) (Name "PSI_rwlock_info of the system"));
   ("PSI_cond_info", Either "defined(HAVE_PSI_INTERFACE)" (Either "defined(USE_PSI_1)" (Name "struct PSI_cond_info_v1") (Either "defined(USE_PSI_2)" (Name "struct PSI_cond_info_v2") (Name "PSI_cond_info of the system"))) (Name "PSI_cond_info of the system"));
   ("PSI_thread_info", Either "defined(HAVE_PSI_INTERFACE)" (Either "defined(USE_PSI_1)" (Name "struct PSI_thread_info_v1") (Either "defined(USE_PSI_2)" (Name "struct PSI_thread_info_v2") (Name "PSI_thread_info of the system"))) (Name "PSI_thread_info of the system"));
   ("PSI_file_info", Either "defined(HAVE_PSI_INTERFACE)" (Either "defined(USE_PSI_1)" (Name "struct PSI_file_info_v1") (Either "defined(USE_PSI_2)" (Name "struct PSI_file_info_v2") (Name "PSI_file_info of the system"))) (Name "PSI_file_info of the system"));
   ("PSI_mutex_locker_state", Either "defined(HAVE_PSI_INTERFACE)" (Either "defined(USE_PSI_1)" (Name "struct PSI_mutex_locker_state_v1") (Either "defined(USE_PSI_2)" (Name "struct PSI_mutex_locker_state_v2") (Name "PSI_mutex_locker_state of the system"))) (Name "PSI_mutex_locker_state of the system"));
   ("PSI_rwlock_locker_state", Either "defined(HAVE_PSI_INTERFACE)" (Either "defined(USE_PSI_1)" (Name "struct PSI_rwlock_locker_state_v1") (Either "defined(USE_PSI_2)" (Name "struct PSI_rwlock_locker_state_v2") (Name "PSI_rwlock_locker_state of the system"))) (Name "PSI_rwlock_locker_state of the system"));
   ("PSI_cond_locker_state", Either "defined(HAVE_PSI_INTERFACE)" (Either "defined(USE_PSI_1)" (Name "struct PSI_cond_locker_state_v1") (Either "defined(USE_PSI_2)" (Name "struct PSI_cond_locker_state_v2") (Name "PSI_cond_locker_state of the system"))) (Name "PSI_cond_locker_state of the system"));
   ("PSI_file_locker_state", Either "defined(HAVE_PSI_INTERFACE)" (Either "defined(USE_PSI_1)" (Name "struct PSI_file_locker_state_v1") (Either "defined(USE_PSI_2)" (Name "struct PSI_file_locker_state_v2") (Name "PSI_file_locker_state of the system"))) (Name "PSI_file_locker_state of the system"));
   ("PSI_table_locker_state", Either "defined(HAVE_PSI_INTERFACE)" (Either "defined(USE_PSI_1)" (Name "struct PSI_table_locker_state_v1") (Either "defined(USE_PSI_2)" (Name "struct PSI_table_locker_state_v2") (Name "PSI_table_locker_state of the system"))) (Name "PSI_table_locker_state of the system"))].

(** mysql/psi/mysql_file.h, lines 499 to 499. *)
Definition types_mysql_file_MYSQL_FILE : list (string * ty) :=
  [("MYSQL_FILE", Name "struct st_mysql_file")].

(** mysql/psi/mysql_thread.h, lines 91 to 91. *)
Definition types_mysql_thread_mysql_mutex_t : list (string * ty) :=
  [("mysql_mutex_t", Name "struct st_mysql_mutex")].

(** mysql/psi/mysql_thread.h, lines 136 to 136. *)
Definition types_mysql_thread_mysql_rwlock_t : list (string * ty) :=
  [("mysql_rwlock_t", Name "struct st_mysql_rwlock")].

(** mysql/psi/mysql_thread.h, lines 148 to 148. *)
Definition types_mysql_thread_mysql_prlock_t : list (string * ty) :=
  [("mysql_prlock_t", Name "struct st_mysql_prlock")].

(** mysql/psi/mysql_thread.h, lines 176 to 176. *)
Definition types_mysql_thread_mysql_cond_t : list (string * ty) :=
  [("mysql_cond_t", Name "struct st_mysql_cond")].

(** The typedefs of a program that includes all headers. *)
Definition typedefs : list (string * ty) :=
  types_my_global_uint ++ types_my_global_File ++ types_my_global_sig_return ++
  types_my_global_size_socket ++ types_my_global_my_ptrdiff_t ++ types_my_global_uchar ++
  types_my_global_ulong ++ types_my_global_ulonglong ++ types_my_global_my_off_t ++
  types_my_global_table_map ++ types_my_global_myf ++ types_my_global_doubleget_union ++
  types_my_pthread_pthread_mutex_t ++ types_my_pthread_pthread_cond_t ++ types_my_pthread_pthread_handler ++
  types_my_pthread_safe_mutex_t ++ types_my_pthread_safe_mutex_info_t ++ types_my_pthread_my_pthread_fastmutex_t ++
  types_my_pthread_rw_pr_lock_t ++ types_my_pthread_my_rw_lock_t ++ types_my_pthread_my_thread_id ++
  types_m_ctype_MY_UNICASE_INFO ++ types_m_ctype_MY_UNI_CTYPE ++ types_m_ctype_MY_UNI_IDX ++
  types_m_ctype_my_match_t ++ types_m_ctype_MY_COLLATION_HANDLER ++ types_m_ctype_my_charset_conv_mb_wc ++
  types_m_ctype_MY_CHARSET_HANDLER ++ types_m_ctype_CHARSET_INFO ++ types_typelib_TYPELIB ++
  types_my_alloc_USED_MEM ++ types_my_alloc_MEM_ROOT ++ types_my_list_LIST ++
  types_my_sys_my_aio_result ++ types_my_sys_RECORD_CACHE ++ types_my_sys_DYNAMIC_ARRAY ++
  types_my_sys_MY_TMPDIR ++ types_my_sys_DYNAMIC_STRING ++ types_my_sys_IO_CACHE_SHARE ++
  types_my_sys_IO_CACHE ++ types_my_sys_ha_checksum ++ types_m_string_my_gcvt_arg_type ++
  types_m_string_LEX_STRING ++ types_m_string_LEX_CSTRING ++ types_my_dir_MY_STAT ++
  types_my_dir_FILEINFO ++ types_my_dir_MY_DIR ++ types_my_getopt_my_get_one_option ++
  types_my_getopt_my_getopt_value ++ types_my_xml_MY_XML_PARSER ++ types_mysql_time_MYSQL_TIME ++
  types_mysql_com_Vio ++ types_mysql_com_NET ++ types_mysql_com_UDF_ARGS ++
  types_mysql_com_UDF_INIT ++ types_mysql_MYSQL_FIELD ++ types_mysql_MYSQL_ROWS ++
  types_mysql_MYSQL_DATA ++ types_mysql_MY_CHARSET_INFO ++ types_mysql_MYSQL ++
  types_mysql_MYSQL_RES ++ types_mysql_MYSQL_PARAMETERS ++ types_mysql_MYSQL_BIND ++
  types_mysql_MYSQL_STMT ++ types_decimal_decimal_round_mode ++ types_decimal_decimal_t ++
  types_keycache_BLOCK_LINK ++ types_keycache_KEY_CACHE ++ types_sql_common_MYSQL_METHODS ++
  types_plugin_auth_common_MYSQL_PLUGIN_VIO_INFO ++ types_plugin_auth_common_MYSQL_PLUGIN_VIO ++ types_service_thd_alloc_MYSQL_LEX_STRING ++
  types_service_thd_wait_thd_wait_type ++ types_plugin_MYSQL_XID ++ types_plugin_mysql_show_var_func ++
  types_plugin_mysql_var_check_func ++ types_plugin_mysql_var_update_func ++ types_plugin_ftparser_MYSQL_FTPARSER_BOOLEAN_INFO ++
  types_plugin_ftparser_MYSQL_FTPARSER_PARAM ++ types_plugin_auth_MYSQL_SERVER_AUTH_INFO ++ types_psi_PSI_mutex_key ++
  types_psi_PSI_rwlock_key ++ types_psi_PSI_cond_key ++ types_psi_PSI_thread_key ++
  types_psi_PSI_file_key ++ types_psi_register_mutex_v1_t ++ types_psi_register_rwlock_v1_t ++
  types_psi_register_cond_v1_t ++ types_psi_register_thread_v1_t ++ types_psi_register_file_v1_t ++
  types_psi_init_mutex_v1_t ++ types_psi_destroy_mutex_v1_t ++ types_psi_init_rwlock_v1_t ++
  types_psi_destroy_rwlock_v1_t ++ types_psi_init_cond_v1_t ++ types_psi_destroy_cond_v1_t ++
  types_psi_get_table_share_v1_t ++ types_psi_release_table_share_v1_t ++ types_psi_open_table_v1_t ++
  types_psi_close_table_v1_t ++ types_psi_create_file_v1_t ++ types_psi_spawn_thread_v1_t ++
  types_psi_new_thread_v1_t ++ types_psi_set_thread_id_v1_t ++ types_psi_get_thread_v1_t ++
  types_psi_set_thread_v1_t ++ types_psi_get_thread_mutex_locker_v1_t ++ types_psi_get_thread_rwlock_locker_v1_t ++
  types_psi_get_thread_cond_locker_v1_t ++ types_psi_get_thread_table_locker_v1_t ++ types_psi_get_thread_file_name_locker_v1_t ++
  types_psi_get_thread_file_stream_locker_v1_t ++ types_psi_get_thread_file_descriptor_locker_v1_t ++ types_psi_unlock_mutex_v1_t ++
  types_psi_unlock_rwlock_v1_t ++ types_psi_signal_cond_v1_t ++ types_psi_broadcast_cond_v1_t ++
  types_psi_start_mutex_wait_v1_t ++ types_psi_end_mutex_wait_v1_t ++ types_psi_start_rwlock_rdwait_v1_t ++
  types_psi_end_rwlock_rdwait_v1_t ++ types_psi_start_rwlock_wrwait_v1_t ++ types_psi_end_rwlock_wrwait_v1_t ++
  types_psi_start_cond_wait_v1_t ++ types_psi_end_cond_wait_v1_t ++ types_psi_start_table_wait_v1_t ++
  types_psi_end_table_wait_v1_t ++ types_psi_start_file_open_wait_v1_t ++ types_psi_end_file_open_wait_v1_t ++
  types_psi_end_file_open_wait_and_bind_to_descriptor_v1_t ++ types_psi_start_file_wait_v1_t ++ types_psi_end_file_wait_v1_t ++
  types_psi_PSI ++ types_mysql_file_MYSQL_FILE ++ types_mysql_thread_mysql_mutex_t ++
  types_mysql_thread_mysql_rwlock_t ++ types_mysql_thread_mysql_prlock_t ++ types_mysql_thread_mysql_cond_t.
