(* ===== verification/DeclaredFunctions.v ===== *)
(** * The functions of the headers

    The functions that the headers declare and do not define, with their types and the conditionals
    around them, a list for each group of declarations. *)
From S2P Require Import Prelude FunctionTypes.
Open Scope string_scope.

Definition declare (c : list (bool * string)) (n : string) (t : ty) : declaration :=
  {| conditions := c; name := n; type := t |}.

(** my_global.h, lines 416 to 416. *)
Definition functions_my_global_madvise : list declaration :=
  [declare [(true, "HAVE_MADVISE && !HAVE_DECL_MADVISE && defined(__cplusplus)")] "madvise" (Fn (Name "int") [Pointer Void; Name "size_t"; Name "int"])].

(** my_global.h, lines 499 to 499. *)
Definition functions_my_global___cxa_pure_virtual : list declaration :=
  [declare [(true, "defined(USE_MYSYS_NEW) && ! defined(DONT_DECLARE_CXA_PURE_VIRTUAL)")] "__cxa_pure_virtual" (FnUnspecified (Name "int"))].

(** my_pthread.h, lines 132 to 150. *)
Definition functions_my_pthread_win_pthread_mutex_trylock : list declaration :=
  [declare [(true, "defined(__WIN__)")] "win_pthread_mutex_trylock" (Fn (Name "int") [Pointer (Name "pthread_mutex_t")]);
   declare [(true, "defined(__WIN__)")] "pthread_create" (Fn (Name "int") [Pointer (Name "pthread_t"); Pointer (Const (Name "pthread_attr_t")); Name "pthread_handler"; Pointer Void]);
   declare [(true, "defined(__WIN__)")] "pthread_cond_init" (Fn (Name "int") [Pointer (Name "pthread_cond_t"); Pointer (Const (Name "pthread_condattr_t"))]);
   declare [(true, "defined(__WIN__)")] "pthread_cond_wait" (Fn (Name "int") [Pointer (Name "pthread_cond_t"); Pointer (Name "pthread_mutex_t")]);
   declare [(true, "defined(__WIN__)")] "pthread_cond_timedwait" (Fn (Name "int") [Pointer (Name "pthread_cond_t"); Pointer (Name "pthread_mutex_t"); Pointer (Name "struct timespec")]);
   declare [(true, "defined(__WIN__)")] "pthread_cond_signal" (Fn (Name "int") [Pointer (Name "pthread_cond_t")]);
   declare [(true, "defined(__WIN__)")] "pthread_cond_broadcast" (Fn (Name "int") [Pointer (Name "pthread_cond_t")]);
   declare [(true, "defined(__WIN__)")] "pthread_cond_destroy" (Fn (Name "int") [Pointer (Name "pthread_cond_t")]);
   declare [(true, "defined(__WIN__)")] "pthread_attr_init" (Fn (Name "int") [Pointer (Name "pthread_attr_t")]);
   declare [(true, "defined(__WIN__)")] "pthread_attr_setstacksize" (Fn (Name "int") [Pointer (Name "pthread_attr_t"); Name "DWORD"]);
   declare [(true, "defined(__WIN__)")] "pthread_attr_destroy" (Fn (Name "int") [Pointer (Name "pthread_attr_t")]);
   declare [(true, "defined(__WIN__)")] "my_pthread_once" (Fn (Name "int") [Pointer (Name "my_pthread_once_t"); Pointer (Fn Void [])]);
   declare [(true, "defined(__WIN__)")] "localtime_r" (Fn (Pointer (Name "struct tm")) [Pointer (Const (Name "time_t")); Pointer (Name "struct tm")]);
   declare [(true, "defined(__WIN__)")] "gmtime_r" (Fn (Pointer (Name "struct tm")) [Pointer (Const (Name "time_t")); Pointer (Name "struct tm")]);
   declare [(true, "defined(__WIN__)")] "pthread_exit" (Fn Void [Pointer Void]);
   declare [(true, "defined(__WIN__)")] "pthread_join" (Fn (Name "int") [Name "pthread_t"; Pointer (Pointer Void)]);
   declare [(true, "defined(__WIN__)")] "pthread_cancel" (Fn (Name "int") [Name "pthread_t"])].

(** my_pthread.h, lines 237 to 237. *)
Definition functions_my_pthread_sigwait : list declaration :=
  [declare [(false, "defined(__WIN__)"); (true, "defined(_BSDI_VERSION) && _BSDI_VERSION < 199910")] "sigwait" (Fn (Name "int") [Pointer (Name "sigset_t"); Pointer (Name "int")])].

(** my_pthread.h, lines 243 to 243. *)
Definition functions_my_pthread_my_sigwait : list declaration :=
  [declare [(false, "defined(__WIN__)"); (true, "defined(HAVE_NONPOSIX_SIGWAIT)")] "my_sigwait" (Fn (Name "int") [Pointer (Const (Name "sigset_t")); Pointer (Name "int")])].

(** my_pthread.h, lines 249 to 254. *)
Definition functions_my_pthread_my_pthread_mutex_init : list declaration :=
  [declare [(false, "defined(__WIN__)"); (true, "defined(HAVE_NONPOSIX_PTHREAD_MUTEX_INIT)"); (false, "defined(SAFE_MUTEX)")] "my_pthread_mutex_init" (Fn (Name "int") [Pointer (Name "pthread_mutex_t"); Pointer (Const (Name "pthread_mutexattr_t"))]);
   declare [(false, "defined(__WIN__)"); (true, "defined(HAVE_NONPOSIX_PTHREAD_MUTEX_INIT)")] "my_pthread_cond_init" (Fn (Name "int") [Pointer (Name "pthread_cond_t"); Pointer (Const (Name "pthread_condattr_t"))])].

(** my_pthread.h, lines 262 to 262. *)
Definition functions_my_pthread_sigwait_again : list declaration :=
  [declare [(false, "defined(__WIN__)"); (true, "!defined(HAVE_SIGWAIT) && !defined(HAVE_rts_threads) && !defined(sigwait) && !defined(alpha_linux_port) && !defined(HAVE_NONPOSIX_SIGWAIT) && !defined(HAVE_DEC_3_2_THREADS) && !defined(_AIX)")] "sigwait" (Fn (Name "int") [Pointer (Name "sigset_t"); Pointer (Name "int")])].

(** my_pthread.h, lines 293 to 295. *)
Definition functions_my_pthread_my_pthread_cond_timedwait : list declaration :=
  [declare [(false, "defined(__WIN__)"); (true, "defined(HAVE_BROKEN_PTHREAD_COND_TIMEDWAIT) && !defined(SAFE_MUTEX)")] "my_pthread_cond_timedwait" (Fn (Name "int") [Pointer (Name "pthread_cond_t"); Pointer (Name "pthread_mutex_t"); Pointer (Name "struct timespec")])].

(** my_pthread.h, lines 303 to 311. *)
Definition functions_my_pthread_my_pthread_getspecific_imp : list declaration :=
  [declare [(false, "defined(__WIN__)"); (false, "!defined( HAVE_NONPOSIX_PTHREAD_GETSPECIFIC)")] "my_pthread_getspecific_imp" (Fn (Pointer Void) [Name "pthread_key_t"]);
   declare [(false, "defined(__WIN__)"); (false, "defined(HAVE_LOCALTIME_R)")] "localtime_r" (Fn (Pointer (Name "struct tm")) [Pointer (Const (Name "time_t")); Pointer (Name "struct tm")]);
   declare [(false, "defined(__WIN__)"); (false, "defined(HAVE_GMTIME_R)")] "gmtime_r" (Fn (Pointer (Name "struct tm")) [Pointer (Const (Name "time_t")); Pointer (Name "struct tm")])].

(** my_pthread.h, lines 377 to 378. *)
Definition functions_my_pthread_my_pthread_cond_timedwait_again : list declaration :=
  [declare [(true, "defined(HPUX10) && !defined(DONT_REMAP_PTHREAD_FUNCTIONS)")] "my_pthread_cond_timedwait" (Fn (Name "int") [Pointer (Name "pthread_cond_t"); Pointer (Name "pthread_mutex_t"); Pointer (Name "struct timespec")])].

(** my_pthread.h, lines 383 to 383. *)
Definition functions_my_pthread_my_pthread_attr_getstacksize : list declaration :=
  [declare [(true, "defined(HPUX10)")] "my_pthread_attr_getstacksize" (Fn Void [Pointer (Name "pthread_attr_t"); Pointer (Name "size_t")])].

(** my_pthread.h, lines 389 to 389. *)
Definition functions_my_pthread_my_pthread_mutex_trylock : list declaration :=
  [declare [(true, "defined(HAVE_POSIX1003_4a_MUTEX) && !defined(DONT_REMAP_PTHREAD_FUNCTIONS)")] "my_pthread_mutex_trylock" (Fn (Name "int") [Pointer (Name "pthread_mutex_t")])].

(** my_pthread.h, lines 500 to 511. *)
Definition functions_my_pthread_safe_mutex_init : list declaration :=
  [declare [] "safe_mutex_init" (Fn (Name "int") [Pointer (Name "safe_mutex_t"); Pointer (Const (Name "pthread_mutexattr_t")); Pointer (Const (Name "char")); Name "uint"]);
   declare [] "safe_mutex_lock" (Fn (Name "int") [Pointer (Name "safe_mutex_t"); Name "my_bool"; Pointer (Const (Name "char")); Name "uint"]);
   declare [] "safe_mutex_unlock" (Fn (Name "int") [Pointer (Name "safe_mutex_t"); Pointer (Const (Name "char")); Name "uint"]);
   declare [] "safe_mutex_destroy" (Fn (Name "int") [Pointer (Name "safe_mutex_t"); Pointer (Const (Name "char")); Name "uint"]);
   declare [] "safe_cond_wait" (Fn (Name "int") [Pointer (Name "pthread_cond_t"); Pointer (Name "safe_mutex_t"); Pointer (Const (Name "char")); Name "uint"]);
   declare [] "safe_cond_timedwait" (Fn (Name "int") [Pointer (Name "pthread_cond_t"); Pointer (Name "safe_mutex_t"); Pointer (Const (Name "struct timespec")); Pointer (Const (Name "char")); Name "uint"]);
   declare [] "safe_mutex_global_init" (Fn Void []);
   declare [] "safe_mutex_end" (Fn Void [Pointer (Name "FILE")])].

(** my_pthread.h, lines 551 to 555. *)
Definition functions_my_pthread_fastmutex_global_init : list declaration :=
  [declare [(true, "defined(MY_PTHREAD_FASTMUTEX) && !defined(SAFE_MUTEX)")] "fastmutex_global_init" (Fn Void []);
   declare [(true, "defined(MY_PTHREAD_FASTMUTEX) && !defined(SAFE_MUTEX)")] "my_pthread_fastmutex_init" (Fn (Name "int") [Pointer (Name "my_pthread_fastmutex_t"); Pointer (Const (Name "pthread_mutexattr_t"))]);
   declare [(true, "defined(MY_PTHREAD_FASTMUTEX) && !defined(SAFE_MUTEX)")] "my_pthread_fastmutex_lock" (Fn (Name "int") [Pointer (Name "my_pthread_fastmutex_t")])].

(** my_pthread.h, lines 679 to 683. *)
Definition functions_my_pthread_rw_pr_init : list declaration :=
  [declare [] "rw_pr_init" (Fn (Name "int") [Pointer (Name "rw_pr_lock_t")]);
   declare [] "rw_pr_rdlock" (Fn (Name "int") [Pointer (Name "rw_pr_lock_t")]);
   declare [] "rw_pr_wrlock" (Fn (Name "int") [Pointer (Name "rw_pr_lock_t")]);
   declare [] "rw_pr_unlock" (Fn (Name "int") [Pointer (Name "rw_pr_lock_t")]);
   declare [] "rw_pr_destroy" (Fn (Name "int") [Pointer (Name "rw_pr_lock_t")])].

(** my_pthread.h, lines 756 to 762. *)
Definition functions_my_pthread_my_rw_init : list declaration :=
  [declare [(true, "defined(NEED_MY_RW_LOCK)")] "my_rw_init" (Fn (Name "int") [Pointer (Name "my_rw_lock_t")]);
   declare [(true, "defined(NEED_MY_RW_LOCK)")] "my_rw_destroy" (Fn (Name "int") [Pointer (Name "my_rw_lock_t")]);
   declare [(true, "defined(NEED_MY_RW_LOCK)")] "my_rw_rdlock" (Fn (Name "int") [Pointer (Name "my_rw_lock_t")]);
   declare [(true, "defined(NEED_MY_RW_LOCK)")] "my_rw_wrlock" (Fn (Name "int") [Pointer (Name "my_rw_lock_t")]);
   declare [(true, "defined(NEED_MY_RW_LOCK)")] "my_rw_unlock" (Fn (Name "int") [Pointer (Name "my_rw_lock_t")]);
   declare [(true, "defined(NEED_MY_RW_LOCK)")] "my_rw_tryrdlock" (Fn (Name "int") [Pointer (Name "my_rw_lock_t")]);
   declare [(true, "defined(NEED_MY_RW_LOCK)")] "my_rw_trywrlock" (Fn (Name "int") [Pointer (Name "my_rw_lock_t")])].

(** my_pthread.h, lines 808 to 815. *)
Definition functions_my_pthread_my_thread_global_init : list declaration :=
  [declare [] "my_thread_global_init" (Fn (Name "my_bool") []);
   declare [] "my_thread_global_reinit" (Fn Void []);
   declare [] "my_thread_global_end" (Fn Void []);
   declare [] "my_thread_init" (Fn (Name "my_bool") []);
   declare [] "my_thread_end" (Fn Void []);
   declare [] "my_thread_name" (Fn (Pointer (Const (Name "char"))) []);
   declare [] "my_thread_dbug_id" (Fn (Name "my_thread_id") []);
   declare [] "pthread_dummy" (Fn (Name "int") [Name "int"])].

(** my_pthread.h, lines 857 to 858. *)
Definition functions_my_pthread__my_thread_var : list declaration :=
  [declare [] "_my_thread_var" (Fn (Pointer (Name "struct st_my_thread_var")) []);
   declare [] "my_thread_var_dbug" (FnUnspecified (Pointer (Pointer Void)))].

(** m_ctype.h, lines 390 to 499. *)
Definition functions_m_ctype_my_strnxfrm_simple : list declaration :=
  [declare [] "my_strnxfrm_simple" (Fn (Name "size_t") [Pointer (Name "CHARSET_INFO"); Pointer (Name "uchar"); Name "size_t"; Pointer (Const (Name "uchar")); Name "size_t"]);
   declare [] "my_strnxfrmlen_simple" (Fn (Name "size_t") [Pointer (Name "CHARSET_INFO"); Name "size_t"]);
   declare [] "my_strnncoll_simple" (Fn (Name "int") [Pointer (Name "CHARSET_INFO"); Pointer (Const (Name "uchar")); Name "size_t"; Pointer (Const (Name "uchar")); Name "size_t"; Name "my_bool"]);
   declare [] "my_strnncollsp_simple" (Fn (Name "int") [Pointer (Name "CHARSET_INFO"); Pointer (Const (Name "uchar")); Name "size_t"; Pointer (Const (Name "uchar")); Name "size_t"; Name "my_bool"]);
   declare [] "my_hash_sort_simple" (Fn Void [Pointer (Name "CHARSET_INFO"); Pointer (Const (Name "uchar")); Name "size_t"; Pointer (Name "ulong"); Pointer (Name "ulong")]);
   declare [] "my_lengthsp_8bit" (Fn (Name "size_t") [Pointer (Name "CHARSET_INFO"); Pointer (Const (Name "char")); Name "size_t"]);
   declare [] "my_instr_simple" (Fn (Name "uint") [Pointer (Name "struct charset_info_st"); Pointer (Const (Name "char")); Name "size_t"; Pointer (Const (Name "char")); Name "size_t"; Pointer (Name "my_match_t"); Name "uint"]);
   declare [] "my_caseup_str_8bit" (Fn (Name "size_t") [Pointer (Name "CHARSET_INFO"); Pointer (Name "char")]);
   declare [] "my_casedn_str_8bit" (Fn (Name "size_t") [Pointer (Name "CHARSET_INFO"); Pointer (Name "char")]);
   declare [] "my_caseup_8bit" (Fn (Name "size_t") [Pointer (Name "CHARSET_INFO"); Pointer (Name "char"); Name "size_t"; Pointer (Name "char"); Name "size_t"]);
   declare [] "my_casedn_8bit" (Fn (Name "size_t") [Pointer (Name "CHARSET_INFO"); Pointer (Name "char"); Name "size_t"; Pointer (Name "char"); Name "size_t"]);
   declare [] "my_strcasecmp_8bit" (Fn (Name "int") [Pointer (Name "CHARSET_INFO"); Pointer (Const (Name "char")); Pointer (Const (Name "char"))]);
   declare [] "my_mb_wc_8bit" (Fn (Name "int") [Pointer (Name "CHARSET_INFO"); Pointer (Name "my_wc_t"); Pointer (Const (Name "uchar")); Pointer (Const (Name "uchar"))]);
   declare [] "my_wc_mb_8bit" (Fn (Name "int") [Pointer (Name "CHARSET_INFO"); Name "my_wc_t"; Pointer (Name "uchar"); Pointer (Name "uchar")]);
   declare [] "my_mb_ctype_8bit" (Fn (Name "int") [Pointer (Name "CHARSET_INFO"); Pointer (Name "int"); Pointer (Const (Name "uchar")); Pointer (Const (Name "uchar"))]);
   declare [] "my_mb_ctype_mb" (Fn (Name "int") [Pointer (Name "CHARSET_INFO"); Pointer (Name "int"); Pointer (Const (Name "uchar")); Pointer (Const (Name "uchar"))]);
   declare [] "my_scan_8bit" (Fn (Name "size_t") [Pointer (Name "CHARSET_INFO"); Pointer (Const (Name "char")); Pointer (Const (Name "char")); Name "int"]);
   declare [] "my_snprintf_8bit" (FnVariadic (Name "size_t") [Pointer (Name "struct charset_info_st"); Pointer (Name "char"); Name "size_t"; Pointer (Const (Name "char"))]);
   declare [] "my_strntol_8bit" (Fn (Name "long") [Pointer (Name "CHARSET_INFO"); Pointer (Const (Name "char")); Name "size_t"; Name "int"; Pointer (Pointer (Name "char")); Pointer (Name "int")]);
   declare [] "my_strntoul_8bit" (Fn (Name "ulong") [Pointer (Name "CHARSET_INFO"); Pointer (Const (Name "char")); Name "size_t"; Name "int"; Pointer (Pointer (Name "char")); Pointer (Name "int")]);
   declare [] "my_strntoll_8bit" (Fn (Name "longlong") [Pointer (Name "CHARSET_INFO"); Pointer (Const (Name "char")); Name "size_t"; Name "int"; Pointer (Pointer (Name "char")); Pointer (Name "int")]);
   declare [] "my_strntoull_8bit" (Fn (Name "ulonglong") [Pointer (Name "CHARSET_INFO"); Pointer (Const (Name "char")); Name "size_t"; Name "int"; Pointer (Pointer (Name "char")); Pointer (Name "int")]);
   declare [] "my_strntod_8bit" (Fn (Name "double") [Pointer (Name "CHARSET_INFO"); Pointer (Name "char"); Name "size_t"; Pointer (Pointer (Name "char")); Pointer (Name "int")]);
   declare [] "my_long10_to_str_8bit" (Fn (Name "size_t") [Pointer (Name "CHARSET_INFO"); Pointer (Name "char"); Name "size_t"; Name "int"; Name "long"]);
   declare [] "my_longlong10_to_str_8bit" (Fn (Name "size_t") [Pointer (Name "CHARSET_INFO"); Pointer (Name "char"); Name "size_t"; Name "int"; Name "longlong"]);
   declare [] "my_strtoll10_8bit" (Fn (Name "longlong") [Pointer (Name "CHARSET_INFO"); Pointer (Const (Name "char")); Pointer (Pointer (Name "char")); Pointer (Name "int")]);
   declare [] "my_strtoll10_ucs2" (Fn (Name "longlong") [Pointer (Name "CHARSET_INFO"); Pointer (Const (Name "char")); Pointer (Pointer (Name "char")); Pointer (Name "int")]);
   declare [] "my_strntoull10rnd_8bit" (Fn (Name "ulonglong") [Pointer (Name "CHARSET_INFO"); Pointer (Const (Name "char")); Name "size_t"; Name "int"; Pointer (Pointer (Name "char")); Pointer (Name "int")]);
   declare [] "my_strntoull10rnd_ucs2" (Fn (Name "ulonglong") [Pointer (Name "CHARSET_INFO"); Pointer (Const (Name "char")); Name "size_t"; Name "int"; Pointer (Pointer (Name "char")); Pointer (Name "int")]);
   declare [] "my_fill_8bit" (Fn Void [Pointer (Name "CHARSET_INFO"); Pointer (Name "char"); Name "size_t"; Name "int"]);
   declare [] "my_like_range_simple" (Fn (Name "my_bool") [Pointer (Name "CHARSET_INFO"); Pointer (Const (Name "char")); Name "size_t"; Name "pbool"; Name "pbool"; Name "pbool"; Name "size_t"; Pointer (Name "char"); Pointer (Name "char"); Pointer (Name "size_t"); Pointer (Name "size_t")]);
   declare [] "my_like_range_mb" (Fn (Name "my_bool") [Pointer (Name "CHARSET_INFO"); Pointer (Const (Name "char")); Name "size_t"; Name "pbool"; Name "pbool"; Name "pbool"; Name "size_t"; Pointer (Name "char"); Pointer (Name "char"); Pointer (Name "size_t"); Pointer (Name "size_t")]);
   declare [] "my_like_range_generic" (Fn (Name "my_bool") [Pointer (Name "CHARSET_INFO"); Pointer (Const (Name "char")); Name "size_t"; Name "pbool"; Name "pbool"; Name "pbool"; Name "size_t"; Pointer (Name "char"); Pointer (Name "char"); Pointer (Name "size_t"); Pointer (Name "size_t")]);
   declare [] "my_wildcmp_8bit" (Fn (Name "int") [Pointer (Name "CHARSET_INFO"); Pointer (Const (Name "char")); Pointer (Const (Name "char")); Pointer (Const (Name "char")); Pointer (Const (Name "char")); Name "int"; Name "int"; Name "int"]);
   declare [] "my_wildcmp_bin" (Fn (Name "int") [Pointer (Name "CHARSET_INFO"); Pointer (Const (Name "char")); Pointer (Const (Name "char")); Pointer (Const (Name "char")); Pointer (Const (Name "char")); Name "int"; Name "int"; Name "int"]);
   declare [] "my_numchars_8bit" (Fn (Name "size_t") [Pointer (Name "CHARSET_INFO"); Pointer (Const (Name "char")); Pointer (Const (Name "char"))]);
   declare [] "my_numcells_8bit" (Fn (Name "size_t") [Pointer (Name "CHARSET_INFO"); Pointer (Const (Name "char")); Pointer (Const (Name "char"))]);
   declare [] "my_charpos_8bit" (Fn (Name "size_t") [Pointer (Name "CHARSET_INFO"); Pointer (Const (Name "char")); Pointer (Const (Name "char")); Name "size_t"])].

(** m_ctype.h, lines 500 to 591. *)
Definition functions_m_ctype_my_well_formed_len_8bit : list declaration :=
  [declare [] "my_well_formed_len_8bit" (Fn (Name "size_t") [Pointer (Name "CHARSET_INFO"); Pointer (Const (Name "char")); Pointer (Const (Name "char")); Name "size_t"; Pointer (Name "int")]);
   declare [] "my_mbcharlen_8bit" (Fn (Name "uint") [Pointer (Name "CHARSET_INFO"); Name "uint"]);
   declare [] "my_caseup_str_mb" (Fn (Name "size_t") [Pointer (Name "CHARSET_INFO"); Pointer (Name "char")]);
   declare [] "my_casedn_str_mb" (Fn (Name "size_t") [Pointer (Name "CHARSET_INFO"); Pointer (Name "char")]);
   declare [] "my_caseup_mb" (Fn (Name "size_t") [Pointer (Name "CHARSET_INFO"); Pointer (Name "char"); Name "size_t"; Pointer (Name "char"); Name "size_t"]);
   declare [] "my_casedn_mb" (Fn (Name "size_t") [Pointer (Name "CHARSET_INFO"); Pointer (Name "char"); Name "size_t"; Pointer (Name "char"); Name "size_t"]);
   declare [] "my_caseup_mb_varlen" (Fn (Name "size_t") [Pointer (Name "CHARSET_INFO"); Pointer (Name "char"); Name "size_t"; Pointer (Name "char"); Name "size_t"]);
   declare [] "my_casedn_mb_varlen" (Fn (Name "size_t") [Pointer (Name "CHARSET_INFO"); Pointer (Name "char"); Name "size_t"; Pointer (Name "char"); Name "size_t"]);
   declare [] "my_caseup_ujis" (Fn (Name "size_t") [Pointer (Name "CHARSET_INFO"); Pointer (Name "char"); Name "size_t"; Pointer (Name "char"); Name "size_t"]);
   declare [] "my_casedn_ujis" (Fn (Name "size_t") [Pointer (Name "CHARSET_INFO"); Pointer (Name "char"); Name "size_t"; Pointer (Name "char"); Name "size_t"]);
   declare [] "my_strcasecmp_mb" (Fn (Name "int") [Pointer (Name "CHARSET_INFO"); Pointer (Const (Name "char")); Pointer (Const (Name "char"))]);
   declare [] "my_wildcmp_mb" (Fn (Name "int") [Pointer (Name "CHARSET_INFO"); Pointer (Const (Name "char")); Pointer (Const (Name "char")); Pointer (Const (Name "char")); Pointer (Const (Name "char")); Name "int"; Name "int"; Name "int"]);
   declare [] "my_numchars_mb" (Fn (Name "size_t") [Pointer (Name "CHARSET_INFO"); Pointer (Const (Name "char")); Pointer (Const (Name "char"))]);
   declare [] "my_numcells_mb" (Fn (Name "size_t") [Pointer (Name "CHARSET_INFO"); Pointer (Const (Name "char")); Pointer (Const (Name "char"))]);
   declare [] "my_charpos_mb" (Fn (Name "size_t") [Pointer (Name "CHARSET_INFO"); Pointer (Const (Name "char")); Pointer (Const (Name "char")); Name "size_t"]);
   declare [] "my_well_formed_len_mb" (Fn (Name "size_t") [Pointer (Name "CHARSET_INFO"); Pointer (Const (Name "char")); Pointer (Const (Name "char")); Name "size_t"; Pointer (Name "int")]);
   declare [] "my_instr_mb" (Fn (Name "uint") [Pointer (Name "struct charset_info_st"); Pointer (Const (Name "char")); Name "size_t"; Pointer (Const (Name "char")); Name "size_t"; Pointer (Name "my_match_t"); Name "uint"]);
   declare [] "my_strnncoll_mb_bin" (Fn (Name "int") [Pointer (Name "CHARSET_INFO"); Pointer (Const (Name "uchar")); Name "size_t"; Pointer (Const (Name "uchar")); Name "size_t"; Name "my_bool"]);
   declare [] "my_strnncollsp_mb_bin" (Fn (Name "int") [Pointer (Name "CHARSET_INFO"); Pointer (Const (Name "uchar")); Name "size_t"; Pointer (Const (Name "uchar")); Name "size_t"; Name "my_bool"]);
   declare [] "my_wildcmp_mb_bin" (Fn (Name "int") [Pointer (Name "CHARSET_INFO"); Pointer (Const (Name "char")); Pointer (Const (Name "char")); Pointer (Const (Name "char")); Pointer (Const (Name "char")); Name "int"; Name "int"; Name "int"]);
   declare [] "my_strcasecmp_mb_bin" (Fn (Name "int") [Pointer (Name "CHARSET_INFO"); Pointer (Const (Name "char")); Pointer (Const (Name "char"))]);
   declare [] "my_hash_sort_mb_bin" (Fn Void [Pointer (Name "CHARSET_INFO"); Pointer (Const (Name "uchar")); Name "size_t"; Pointer (Name "ulong"); Pointer (Name "ulong")]);
   declare [] "my_strnxfrm_unicode" (Fn (Name "size_t") [Pointer (Name "CHARSET_INFO"); Pointer (Name "uchar"); Name "size_t"; Pointer (Const (Name "uchar")); Name "size_t"]);
   declare [] "my_strnxfrm_unicode_full_bin" (Fn (Name "size_t") [Pointer (Name "CHARSET_INFO"); Pointer (Name "uchar"); Name "size_t"; Pointer (Const (Name "uchar")); Name "size_t"]);
   declare [] "my_strnxfrmlen_unicode_full_bin" (Fn (Name "size_t") [Pointer (Name "CHARSET_INFO"); Name "size_t"]);
   declare [] "my_wildcmp_unicode" (Fn (Name "int") [Pointer (Name "CHARSET_INFO"); Pointer (Const (Name "char")); Pointer (Const (Name "char")); Pointer (Const (Name "char")); Pointer (Const (Name "char")); Name "int"; Name "int"; Name "int"; Pointer (Pointer (Name "MY_UNICASE_INFO"))]);
   declare [] "my_parse_charset_xml" (Fn (Name "my_bool") [Pointer (Const (Name "char")); Name "size_t"; Pointer (Fn (Name "int") [Pointer (Name "CHARSET_INFO")])]);
   declare [] "my_strchr" (Fn (Pointer (Name "char")) [Pointer (Name "CHARSET_INFO"); Pointer (Const (Name "char")); Pointer (Const (Name "char")); Name "pchar"]);
   declare [] "my_strcspn" (Fn (Name "size_t") [Pointer (Name "CHARSET_INFO"); Pointer (Const (Name "char")); Pointer (Const (Name "char")); Pointer (Const (Name "char"))]);
   declare [] "my_propagate_simple" (Fn (Name "my_bool") [Pointer (Name "CHARSET_INFO"); Pointer (Const (Name "uchar")); Name "size_t"]);
   declare [] "my_propagate_complex" (Fn (Name "my_bool") [Pointer (Name "CHARSET_INFO"); Pointer (Const (Name "uchar")); Name "size_t"]);
   declare [] "my_string_repertoire" (Fn (Name "uint") [Pointer (Name "CHARSET_INFO"); Pointer (Const (Name "char")); Name "ulong"]);
   declare [] "my_charset_is_ascii_based" (Fn (Name "my_bool") [Pointer (Name "CHARSET_INFO")]);
   declare [] "my_charset_is_8bit_pure_ascii" (Fn (Name "my_bool") [Pointer (Name "CHARSET_INFO")]);
   declare [] "my_charset_repertoire" (Fn (Name "uint") [Pointer (Name "CHARSET_INFO")]);
   declare [] "my_charset_is_ascii_compatible" (Fn (Name "my_bool") [Pointer (Name "CHARSET_INFO")]);
   declare [] "my_vsnprintf_ex" (Fn (Name "size_t") [Pointer (Name "CHARSET_INFO"); Pointer (Name "char"); Name "size_t"; Pointer (Const (Name "char")); Name "va_list"])].

(** typelib.h, lines 29 to 31. *)
Definition functions_typelib_find_typeset : list declaration :=
  [declare [] "find_typeset" (Fn (Name "my_ulonglong") [Pointer (Name "char"); Pointer (Name "TYPELIB"); Pointer (Name "int")]);
   declare [] "find_type_or_exit" (Fn (Name "int") [Pointer (Const (Name "char")); Pointer (Name "TYPELIB"); Pointer (Const (Name "char"))])].

(** typelib.h, lines 42 to 52. *)
Definition functions_typelib_find_type : list declaration :=
  [declare [] "find_type" (Fn (Name "int") [Pointer (Const (Name "char")); Pointer (Const (Name "TYPELIB")); Name "unsigned int"]);
   declare [] "make_type" (Fn Void [Pointer (Name "char"); Name "unsigned int"; Pointer (Name "TYPELIB")]);
   declare [] "get_type" (Fn (Pointer (Const (Name "char"))) [Pointer (Name "TYPELIB"); Name "unsigned int"]);
   declare [] "copy_typelib" (Fn (Pointer (Name "TYPELIB")) [Pointer (Name "MEM_ROOT"); Pointer (Name "TYPELIB")]);
   declare [] "find_set_from_flags" (Fn (Name "my_ulonglong") [Pointer (Const (Name "TYPELIB")); Name "unsigned int"; Name "my_ulonglong"; Name "my_ulonglong"; Pointer (Const (Name "char")); Name "unsigned int"; Pointer (Pointer (Name "char")); Pointer (Name "unsigned int")])].

(** my_list.h, lines 30 to 36. *)
Definition functions_my_list_list_add : list declaration :=
  [declare [(false, "defined(_list_h_)")] "list_add" (Fn (Pointer (Name "LIST")) [Pointer (Name "LIST"); Pointer (Name "LIST")]);
   declare [(false, "defined(_list_h_)")] "list_delete" (Fn (Pointer (Name "LIST")) [Pointer (Name "LIST"); Pointer (Name "LIST")]);
   declare [(false, "defined(_list_h_)")] "list_cons" (Fn (Pointer (Name "LIST")) [Pointer Void; Pointer (Name "LIST")]);
   declare [(false, "defined(_list_h_)")] "list_reverse" (Fn (Pointer (Name "LIST")) [Pointer (Name "LIST")]);
   declare [(false, "defined(_list_h_)")] "list_free" (Fn Void [Pointer (Name "LIST"); Name "unsigned int"]);
   declare [(false, "defined(_list_h_)")] "list_length" (Fn (Name "unsigned int") [Pointer (Name "LIST")]);
   declare [(false, "defined(_list_h_)")] "list_walk" (Fn (Name "int") [Pointer (Name "LIST"); Name "list_walk_action"; Pointer (Name "unsigned char")])].

(** my_sys.h, lines 153 to 160. *)
Definition functions_my_sys_my_malloc : list declaration :=
  [declare [] "my_malloc" (Fn (Pointer Void) [Name "size_t"; Name "myf"]);
   declare [] "my_multi_malloc" (FnVariadic (Pointer Void) [Name "myf"]);
   declare [] "my_realloc" (Fn (Pointer Void) [Pointer Void; Name "size_t"; Name "myf"]);
   declare [] "my_free" (Fn Void [Pointer Void]);
   declare [] "my_memdup" (Fn (Pointer Void) [Pointer (Const Void); Name "size_t"; Name "myf"]);
   declare [] "my_strdup" (Fn (Pointer (Name "char")) [Pointer (Const (Name "char")); Name "myf"]);
   declare [] "my_strndup" (Fn (Pointer (Name "char")) [Pointer (Const (Name "char")); Name "size_t"; Name "myf"])].

(** my_sys.h, lines 173 to 175. *)
Definition functions_my_sys_my_get_large_page_size : list declaration :=
  [declare [(true, "defined(HAVE_LARGE_PAGES)")] "my_get_large_page_size" (Fn (Name "uint") []);
   declare [(true, "defined(HAVE_LARGE_PAGES)")] "my_large_malloc" (Fn (Pointer (Name "uchar")) [Name "size_t"; Name "myf"]);
   declare [(true, "defined(HAVE_LARGE_PAGES)")] "my_large_free" (Fn Void [Pointer (Name "uchar")])].

(** my_sys.h, lines 534 to 536. *)
Definition functions_my_sys_my_b_copy_to_file : list declaration :=
  [declare [] "my_b_copy_to_file" (Fn (Name "int") [Pointer (Name "IO_CACHE"); Pointer (Name "FILE")]);
   declare [] "my_b_append_tell" (Fn (Name "my_off_t") [Pointer (Name "IO_CACHE")]);
   declare [] "my_b_safe_tell" (Fn (Name "my_off_t") [Pointer (Name "IO_CACHE")])].

(** my_sys.h, lines 552 to 600. *)
Definition functions_my_sys_my_copy : list declaration :=
  [declare [] "my_copy" (Fn (Name "int") [Pointer (Const (Name "char")); Pointer (Const (Name "char")); Name "myf"]);
   declare [] "my_delete" (Fn (Name "int") [Pointer (Const (Name "char")); Name "myf"]);
   declare [] "my_getwd" (Fn (Name "int") [Pointer (Name "char"); Name "size_t"; Name "myf"]);
   declare [] "my_setwd" (Fn (Name "int") [Pointer (Const (Name "char")); Name "myf"]);
   declare [] "my_lock" (Fn (Name "int") [Name "File"; Name "int"; Name "my_off_t"; Name "my_off_t"; Name "myf"]);
   declare [] "my_once_alloc" (Fn (Pointer Void) [Name "size_t"; Name "myf"]);
   declare [] "my_once_free" (Fn Void []);
   declare [] "my_once_strdup" (Fn (Pointer (Name "char")) [Pointer (Const (Name "char")); Name "myf"]);
   declare [] "my_once_memdup" (Fn (Pointer Void) [Pointer (Const Void); Name "size_t"; Name "myf"]);
   declare [] "my_open" (Fn (Name "File") [Pointer (Const (Name "char")); Name "int"; Name "myf"]);
   declare [] "my_register_filename" (Fn (Name "File") [Name "File"; Pointer (Const (Name "char")); Name "enum file_type"; Name "uint"; Name "myf"]);
   declare [] "my_create" (Fn (Name "File") [Pointer (Const (Name "char")); Name "int"; Name "int"; Name "myf"]);
   declare [] "my_close" (Fn (Name "int") [Name "File"; Name "myf"]);
   declare [] "my_mkdir" (Fn (Name "int") [Pointer (Const (Name "char")); Name "int"; Name "myf"]);
   declare [] "my_readlink" (Fn (Name "int") [Pointer (Name "char"); Pointer (Const (Name "char")); Name "myf"]);
   declare [] "my_is_symlink" (Fn (Name "int") [Pointer (Const (Name "char"))]);
   declare [] "my_realpath" (Fn (Name "int") [Pointer (Name "char"); Pointer (Const (Name "char")); Name "myf"]);
   declare [] "my_create_with_symlink" (Fn (Name "File") [Pointer (Const (Name "char")); Pointer (Const (Name "char")); Name "int"; Name "int"; Name "myf"]);
   declare [] "my_delete_with_symlink" (Fn (Name "int") [Pointer (Const (Name "char")); Name "myf"]);
   declare [] "my_rename_with_symlink" (Fn (Name "int") [Pointer (Const (Name "char")); Pointer (Const (Name "char")); Name "myf"]);
   declare [] "my_symlink" (Fn (Name "int") [Pointer (Const (Name "char")); Pointer (Const (Name "char")); Name "myf"]);
   declare [] "my_read" (Fn (Name "size_t") [Name "File"; Pointer (Name "uchar"); Name "size_t"; Name "myf"]);
   declare [] "my_pread" (Fn (Name "size_t") [Name "File"; Pointer (Name "uchar"); Name "size_t"; Name "my_off_t"; Name "myf"]);
   declare [] "my_rename" (Fn (Name "int") [Pointer (Const (Name "char")); Pointer (Const (Name "char")); Name "myf"]);
   declare [] "my_seek" (Fn (Name "my_off_t") [Name "File"; Name "my_off_t"; Name "int"; Name "myf"]);
   declare [] "my_tell" (Fn (Name "my_off_t") [Name "File"; Name "myf"]);
   declare [] "my_write" (Fn (Name "size_t") [Name "File"; Pointer (Const (Name "uchar")); Name "size_t"; Name "myf"]);
   declare [] "my_pwrite" (Fn (Name "size_t") [Name "File"; Pointer (Const (Name "uchar")); Name "size_t"; Name "my_off_t"; Name "myf"]);
   declare [] "my_fread" (Fn (Name "size_t") [Pointer (Name "FILE"); Pointer (Name "uchar"); Name "size_t"; Name "myf"]);
   declare [] "my_fwrite" (Fn (Name "size_t") [Pointer (Name "FILE"); Pointer (Const (Name "uchar")); Name "size_t"; Name "myf"]);
   declare [] "my_fseek" (Fn (Name "my_off_t") [Pointer (Name "FILE"); Name "my_off_t"; Name "int"; Name "myf"]);
   declare [] "my_ftell" (Fn (Name "my_off_t") [Pointer (Name "FILE"); Name "myf"]);
   declare [] "my_memmem" (Fn (Pointer Void) [Pointer (Const Void); Name "size_t"; Pointer (Const Void); Name "size_t"]);
   declare [(true, "defined(_WIN32)")] "my_access" (Fn (Name "int") [Pointer (Const (Name "char")); Name "int"])].

(** my_sys.h, lines 605 to 609. *)
Definition functions_my_sys_check_if_legal_filename : list declaration :=
  [declare [] "check_if_legal_filename" (Fn (Name "int") [Pointer (Const (Name "char"))]);
   declare [] "check_if_legal_tablename" (Fn (Name "int") [Pointer (Const (Name "char"))]);
   declare [(true, "defined(_WIN32)")] "nt_share_delete" (Fn (Name "int") [Pointer (Const (Name "char")); Name "myf"])].

(** my_sys.h, lines 617 to 653. *)
Definition functions_my_sys_my_get_osfhandle : list declaration :=
  [declare [(true, "defined(_WIN32)")] "my_get_osfhandle" (Fn (Name "HANDLE") [Name "File"]);
   declare [(true, "defined(_WIN32)")] "my_osmaperr" (Fn Void [Name "unsigned long"]);
   declare [] "init_glob_errs" (Fn Void []);
   declare [] "get_global_errmsgs" (FnUnspecified (Pointer (Pointer (Const (Name "char")))));
   declare [] "wait_for_free_space" (Fn Void [Pointer (Const (Name "char")); Name "int"]);
   declare [] "my_fopen" (Fn (Pointer (Name "FILE")) [Pointer (Const (Name "char")); Name "int"; Name "myf"]);
   declare [] "my_fdopen" (Fn (Pointer (Name "FILE")) [Name "File"; Pointer (Const (Name "char")); Name "int"; Name "myf"]);
   declare [] "my_freopen" (Fn (Pointer (Name "FILE")) [Pointer (Const (Name "char")); Pointer (Const (Name "char")); Pointer (Name "FILE")]);
   declare [] "my_fclose" (Fn (Name "int") [Pointer (Name "FILE"); Name "myf"]);
   declare [] "my_fileno" (Fn (Name "File") [Pointer (Name "FILE")]);
   declare [] "my_chsize" (Fn (Name "int") [Name "File"; Name "my_off_t"; Name "int"; Name "myf"]);
   declare [] "thr_set_sync_wait_callback" (Fn Void [Pointer (Fn Void []); Pointer (Fn Void [])]);
   declare [] "my_sync" (Fn (Name "int") [Name "File"; Name "myf"]);
   declare [] "my_sync_dir" (Fn (Name "int") [Pointer (Const (Name "char")); Name "myf"]);
   declare [] "my_sync_dir_by_file" (Fn (Name "int") [Pointer (Const (Name "char")); Name "myf"]);
   declare [] "my_error" (FnVariadic Void [Name "int"; Name "myf"]);
   declare [] "my_printf_error" (FnVariadic Void [Name "uint"; Pointer (Const (Name "char")); Name "myf"]);
   declare [] "my_printv_error" (Fn Void [Name "uint"; Pointer (Const (Name "char")); Name "myf"; Name "va_list"]);
   declare [] "my_error_register" (Fn (Name "int") [Pointer (FnUnspecified (Pointer (Pointer (Const (Name "char"))))); Name "int"; Name "int"]);
   declare [] "my_error_unregister" (Fn (Pointer (Pointer (Const (Name "char")))) [Name "int"; Name "int"]);
   declare [] "my_message" (Fn Void [Name "uint"; Pointer (Const (Name "char")); Name "myf"]);
   declare [] "my_message_stderr" (Fn Void [Name "uint"; Pointer (Const (Name "char")); Name "myf"]);
   declare [] "my_init" (Fn (Name "my_bool") []);
   declare [] "my_end" (Fn Void [Name "int"]);
   declare [] "my_redel" (Fn (Name "int") [Pointer (Const (Name "char")); Pointer (Const (Name "char")); Name "int"]);
   declare [] "my_copystat" (Fn (Name "int") [Pointer (Const (Name "char")); Pointer (Const (Name "char")); Name "int"]);
   declare [] "my_filename" (Fn (Pointer (Name "char")) [Name "File"]);
   declare [(true, "defined(EXTRA_DEBUG)")] "my_print_open_files" (Fn Void [])].

(** my_sys.h, lines 658 to 755. *)
Definition functions_my_sys_init_tmpdir : list declaration :=
  [declare [] "init_tmpdir" (Fn (Name "my_bool") [Pointer (Name "MY_TMPDIR"); Pointer (Const (Name "char"))]);
   declare [] "my_tmpdir" (Fn (Pointer (Name "char")) [Pointer (Name "MY_TMPDIR")]);
   declare [] "free_tmpdir" (Fn Void [Pointer (Name "MY_TMPDIR")]);
   declare [] "my_remember_signal" (Fn Void [Name "int"; Pointer (Fn (Name "sig_handler") [Name "int"])]);
   declare [] "dirname_part" (Fn (Name "size_t") [Pointer (Name "char"); Pointer (Const (Name "char")); Pointer (Name "size_t")]);
   declare [] "dirname_length" (Fn (Name "size_t") [Pointer (Const (Name "char"))]);
   declare [] "test_if_hard_path" (Fn (Name "int") [Pointer (Const (Name "char"))]);
   declare [] "has_path" (Fn (Name "my_bool") [Pointer (Const (Name "char"))]);
   declare [] "convert_dirname" (Fn (Pointer (Name "char")) [Pointer (Name "char"); Pointer (Const (Name "char")); Pointer (Const (Name "char"))]);
   declare [] "to_unix_path" (Fn Void [Pointer (Name "char")]);
   declare [] "fn_ext" (Fn (Pointer (Name "char")) [Pointer (Const (Name "char"))]);
   declare [] "fn_same" (Fn (Pointer (Name "char")) [Pointer (Name "char"); Pointer (Const (Name "char")); Name "int"]);
   declare [] "fn_format" (Fn (Pointer (Name "char")) [Pointer (Name "char"); Pointer (Const (Name "char")); Pointer (Const (Name "char")); Pointer (Const (Name "char")); Name "uint"]);
   declare [] "strlength" (Fn (Name "size_t") [Pointer (Const (Name "char"))]);
   declare [] "pack_dirname" (Fn Void [Pointer (Name "char"); Pointer (Const (Name "char"))]);
   declare [] "normalize_dirname" (Fn (Name "size_t") [Pointer (Name "char"); Pointer (Const (Name "char"))]);
   declare [] "unpack_dirname" (Fn (Name "size_t") [Pointer (Name "char"); Pointer (Const (Name "char"))]);
   declare [] "cleanup_dirname" (Fn (Name "size_t") [Pointer (Name "char"); Pointer (Const (Name "char"))]);
   declare [] "system_filename" (Fn (Name "size_t") [Pointer (Name "char"); Pointer (Const (Name "char"))]);
   declare [] "unpack_filename" (Fn (Name "size_t") [Pointer (Name "char"); Pointer (Const (Name "char"))]);
   declare [] "intern_filename" (Fn (Pointer (Name "char")) [Pointer (Name "char"); Pointer (Const (Name "char"))]);
   declare [] "directory_file_name" (Fn (Pointer (Name "char")) [Pointer (Name "char"); Pointer (Const (Name "char"))]);
   declare [] "pack_filename" (Fn (Name "int") [Pointer (Name "char"); Pointer (Const (Name "char")); Name "size_t"]);
   declare [] "my_path" (Fn (Pointer (Name "char")) [Pointer (Name "char"); Pointer (Const (Name "char")); Pointer (Const (Name "char"))]);
   declare [] "my_load_path" (Fn (Pointer (Name "char")) [Pointer (Name "char"); Pointer (Const (Name "char")); Pointer (Const (Name "char"))]);
   declare [] "wild_compare" (Fn (Name "int") [Pointer (Const (Name "char")); Pointer (Const (Name "char")); Name "pbool"]);
   declare [] "array_append_string_unique" (Fn (Name "my_bool") [Pointer (Const (Name "char")); Pointer (Pointer (Const (Name "char"))); Name "size_t"]);
   declare [] "get_date" (Fn Void [Pointer (Name "char"); Name "int"; Name "time_t"]);
   declare [] "soundex" (Fn Void [Pointer (Name "CHARSET_INFO"); Pointer (Name "char"); Pointer (Name "char"); Name "pbool"]);
   declare [] "init_record_cache" (Fn (Name "int") [Pointer (Name "RECORD_CACHE"); Name "size_t"; Name "File"; Name "size_t"; Name "enum cache_type"; Name "pbool"]);
   declare [] "read_cache_record" (Fn (Name "int") [Pointer (Name "RECORD_CACHE"); Pointer (Name "uchar")]);
   declare [] "end_record_cache" (Fn (Name "int") [Pointer (Name "RECORD_CACHE")]);
   declare [] "write_cache_record" (Fn (Name "int") [Pointer (Name "RECORD_CACHE"); Name "my_off_t"; Pointer (Const (Name "uchar")); Name "size_t"]);
   declare [] "flush_write_cache" (Fn (Name "int") [Pointer (Name "RECORD_CACHE")]);
   declare [] "handle_recived_signals" (Fn Void []);
   declare [] "my_set_alarm_variable" (Fn (Name "sig_handler") [Name "int"]);
   declare [] "my_string_ptr_sort" (Fn Void [Pointer (Name "uchar"); Name "uint"; Name "size_t"]);
   declare [] "radixsort_for_str_ptr" (Fn Void [Array (Pointer (Name "uchar")) ""; Name "uint"; Name "size_t"; Array (Pointer (Name "uchar")) ""]);
   declare [] "my_qsort" (Fn (Name "qsort_t") [Pointer Void; Name "size_t"; Name "size_t"; Name "qsort_cmp"]);
   declare [] "my_qsort2" (Fn (Name "qsort_t") [Pointer Void; Name "size_t"; Name "size_t"; Name "qsort2_cmp"; Pointer Void]);
   declare [] "get_ptr_compare" (Fn (Name "qsort2_cmp") [Name "size_t"]);
   declare [] "my_store_ptr" (Fn Void [Pointer (Name "uchar"); Name "size_t"; Name "my_off_t"]);
   declare [] "my_get_ptr" (Fn (Name "my_off_t") [Pointer (Name "uchar"); Name "size_t"]);
   declare [] "init_io_cache" (Fn (Name "int") [Pointer (Name "IO_CACHE"); Name "File"; Name "size_t"; Name "enum cache_type"; Name "my_off_t"; Name "pbool"; Name "myf"]);
   declare [] "reinit_io_cache" (Fn (Name "my_bool") [Pointer (Name "IO_CACHE"); Name "enum cache_type"; Name "my_off_t"; Name "pbool"; Name "pbool"]);
   declare [] "setup_io_cache" (Fn Void [Pointer (Name "IO_CACHE")]);
   declare [] "_my_b_read" (Fn (Name "int") [Pointer (Name "IO_CACHE"); Pointer (Name "uchar"); Name "size_t"]);
   declare [] "_my_b_read_r" (Fn (Name "int") [Pointer (Name "IO_CACHE"); Pointer (Name "uchar"); Name "size_t"]);
   declare [] "init_io_cache_share" (Fn Void [Pointer (Name "IO_CACHE"); Pointer (Name "IO_CACHE_SHARE"); Pointer (Name "IO_CACHE"); Name "uint"]);
   declare [] "remove_io_thread" (Fn Void [Pointer (Name "IO_CACHE")]);
   declare [] "_my_b_seq_read" (Fn (Name "int") [Pointer (Name "IO_CACHE"); Pointer (Name "uchar"); Name "size_t"]);
   declare [] "_my_b_net_read" (Fn (Name "int") [Pointer (Name "IO_CACHE"); Pointer (Name "uchar"); Name "size_t"]);
   declare [] "_my_b_get" (Fn (Name "int") [Pointer (Name "IO_CACHE")]);
   declare [] "_my_b_async_read" (Fn (Name "int") [Pointer (Name "IO_CACHE"); Pointer (Name "uchar"); Name "size_t"]);
   declare [] "_my_b_write" (Fn (Name "int") [Pointer (Name "IO_CACHE"); Pointer (Const (Name "uchar")); Name "size_t"]);
   declare [] "my_b_append" (Fn (Name "int") [Pointer (Name "IO_CACHE"); Pointer (Const (Name "uchar")); Name "size_t"]);
   declare [] "my_b_safe_write" (Fn (Name "int") [Pointer (Name "IO_CACHE"); Pointer (Const (Name "uchar")); Name "size_t"]);
   declare [] "my_block_write" (Fn (Name "int") [Pointer (Name "IO_CACHE"); Pointer (Const (Name "uchar")); Name "size_t"; Name "my_off_t"]);
   declare [] "my_b_flush_io_cache" (Fn (Name "int") [Pointer (Name "IO_CACHE"); Name "int"]);
   declare [] "end_io_cache" (Fn (Name "int") [Pointer (Name "IO_CACHE")]);
   declare [] "my_b_fill" (Fn (Name "size_t") [Pointer (Name "IO_CACHE")]);
   declare [] "my_b_seek" (Fn Void [Pointer (Name "IO_CACHE"); Name "my_off_t"]);
   declare [] "my_b_gets" (Fn (Name "size_t") [Pointer (Name "IO_CACHE"); Pointer (Name "char"); Name "size_t"]);
   declare [] "my_b_filelength" (Fn (Name "my_off_t") [Pointer (Name "IO_CACHE")]);
   declare [] "my_b_printf" (FnVariadic (Name "size_t") [Pointer (Name "IO_CACHE"); Pointer (Const (Name "char"))]);
   declare [] "my_b_vprintf" (Fn (Name "size_t") [Pointer (Name "IO_CACHE"); Pointer (Const (Name "char")); Name "va_list"]);
   declare [] "open_cached_file" (Fn (Name "my_bool") [Pointer (Name "IO_CACHE"); Pointer (Const (Name "char")); Pointer (Const (Name "char")); Name "size_t"; Name "myf"]);
   declare [] "real_open_cached_file" (Fn (Name "my_bool") [Pointer (Name "IO_CACHE")]);
   declare [] "close_cached_file" (Fn Void [Pointer (Name "IO_CACHE")]);
   declare [] "create_temp_file" (Fn (Name "File") [Pointer (Name "char"); Pointer (Const (Name "char")); Pointer (Const (Name "char")); Name "int"; Name "myf"])].

(** my_sys.h, lines 760 to 775. *)
Definition functions_my_sys_init_dynamic_array2 : list declaration :=
  [declare [] "init_dynamic_array2" (Fn (Name "my_bool") [Pointer (Name "DYNAMIC_ARRAY"); Name "uint"; Pointer Void; Name "uint"; Name "uint"]);
   declare [] "init_dynamic_array" (Fn (Name "my_bool") [Pointer (Name "DYNAMIC_ARRAY"); Name "uint"; Name "uint"; Name "uint"]);
   declare [] "insert_dynamic" (Fn (Name "my_bool") [Pointer (Name "DYNAMIC_ARRAY"); Pointer (Name "uchar")]);
   declare [] "alloc_dynamic" (Fn (Pointer (Name "uchar")) [Pointer (Name "DYNAMIC_ARRAY")]);
   declare [] "pop_dynamic" (Fn (Pointer (Name "uchar")) [Pointer (Name "DYNAMIC_ARRAY")]);
   declare [] "set_dynamic" (Fn (Name "my_bool") [Pointer (Name "DYNAMIC_ARRAY"); Pointer (Name "uchar"); Name "uint"]);
   declare [] "allocate_dynamic" (Fn (Name "my_bool") [Pointer (Name "DYNAMIC_ARRAY"); Name "uint"]);
   declare [] "get_dynamic" (Fn Void [Pointer (Name "DYNAMIC_ARRAY"); Pointer (Name "uchar"); Name "uint"]);
   declare [] "delete_dynamic" (Fn Void [Pointer (Name "DYNAMIC_ARRAY")]);
   declare [] "delete_dynamic_element" (Fn Void [Pointer (Name "DYNAMIC_ARRAY"); Name "uint"]);
   declare [] "freeze_size" (Fn Void [Pointer (Name "DYNAMIC_ARRAY")]);
   declare [] "get_index_dynamic" (Fn (Name "int") [Pointer (Name "DYNAMIC_ARRAY"); Pointer (Name "uchar")])].

(** my_sys.h, lines 782 to 795. *)
Definition functions_my_sys_init_dynamic_string : list declaration :=
  [declare [] "init_dynamic_string" (Fn (Name "my_bool") [Pointer (Name "DYNAMIC_STRING"); Pointer (Const (Name "char")); Name "size_t"; Name "size_t"]);
   declare [] "dynstr_append" (Fn (Name "my_bool") [Pointer (Name "DYNAMIC_STRING"); Pointer (Const (Name "char"))]);
   declare [] "dynstr_append_mem" (Fn (Name "my_bool") [Pointer (Name "DYNAMIC_STRING"); Pointer (Const (Name "char")); Name "size_t"]);
   declare [] "dynstr_append_os_quoted" (FnVariadic (Name "my_bool") [Pointer (Name "DYNAMIC_STRING"); Pointer (Const (Name "char"))]);
   declare [] "dynstr_set" (Fn (Name "my_bool") [Pointer (Name "DYNAMIC_STRING"); Pointer (Const (Name "char"))]);
   declare [] "dynstr_realloc" (Fn (Name "my_bool") [Pointer (Name "DYNAMIC_STRING"); Name "size_t"]);
   declare [] "dynstr_trunc" (Fn (Name "my_bool") [Pointer (Name "DYNAMIC_STRING"); Name "size_t"]);
   declare [] "dynstr_free" (Fn Void [Pointer (Name "DYNAMIC_STRING")]);
   declare [(true, "defined(HAVE_MLOCK)")] "my_malloc_lock" (Fn (Pointer Void) [Name "size_t"; Name "myf"]);
   declare [(true, "defined(HAVE_MLOCK)")] "my_free_lock" (Fn Void [Pointer Void])].

(** my_sys.h, lines 803 to 811. *)
Definition functions_my_sys_init_alloc_root : list declaration :=
  [declare [] "init_alloc_root" (Fn Void [Pointer (Name "MEM_ROOT"); Name "size_t"; Name "size_t"]);
   declare [] "alloc_root" (Fn (Pointer Void) [Pointer (Name "MEM_ROOT"); Name "size_t"]);
   declare [] "multi_alloc_root" (FnVariadic (Pointer Void) [Pointer (Name "MEM_ROOT")]);
   declare [] "free_root" (Fn Void [Pointer (Name "MEM_ROOT"); Name "myf"]);
   declare [] "set_prealloc_root" (Fn Void [Pointer (Name "MEM_ROOT"); Pointer (Name "char")]);
   declare [] "reset_root_defaults" (Fn Void [Pointer (Name "MEM_ROOT"); Name "size_t"; Name "size_t"]);
   declare [] "strdup_root" (Fn (Pointer (Name "char")) [Pointer (Name "MEM_ROOT"); Pointer (Const (Name "char"))])].

(** my_sys.h, lines 816 to 854. *)
Definition functions_my_sys_strmake_root : list declaration :=
  [declare [] "strmake_root" (Fn (Pointer (Name "char")) [Pointer (Name "MEM_ROOT"); Pointer (Const (Name "char")); Name "size_t"]);
   declare [] "memdup_root" (Fn (Pointer Void) [Pointer (Name "MEM_ROOT"); Pointer (Const Void); Name "size_t"]);
   declare [] "get_defaults_options" (Fn (Name "int") [Name "int"; Pointer (Pointer (Name "char")); Pointer (Pointer (Name "char")); Pointer (Pointer (Name "char")); Pointer (Pointer (Name "char"))]);
   declare [] "my_getopt_is_args_separator" (Fn (Name "my_bool") [Pointer (Const (Name "char"))]);
   declare [] "my_load_defaults" (Fn (Name "int") [Pointer (Const (Name "char")); Pointer (Pointer (Const (Name "char"))); Pointer (Name "int"); Pointer (Pointer (Pointer (Name "char"))); Pointer (Pointer (Pointer (Const (Name "char"))))]);
   declare [] "load_defaults" (Fn (Name "int") [Pointer (Const (Name "char")); Pointer (Pointer (Const (Name "char"))); Pointer (Name "int"); Pointer (Pointer (Pointer (Name "char")))]);
   declare [] "my_search_option_files" (Fn (Name "int") [Pointer (Const (Name "char")); Pointer (Name "int"); Pointer (Pointer (Pointer (Name "char"))); Pointer (Name "uint"); Name "Process_option_func"; Pointer Void; Pointer (Pointer (Const (Name "char")))]);
   declare [] "free_defaults" (Fn Void [Pointer (Pointer (Name "char"))]);
   declare [] "my_print_default_files" (Fn Void [Pointer (Const (Name "char"))]);
   declare [] "print_defaults" (Fn Void [Pointer (Const (Name "char")); Pointer (Pointer (Const (Name "char")))]);
   declare [] "my_compress" (Fn (Name "my_bool") [Pointer (Name "uchar"); Pointer (Name "size_t"); Pointer (Name "size_t")]);
   declare [] "my_uncompress" (Fn (Name "my_bool") [Pointer (Name "uchar"); Name "size_t"; Pointer (Name "size_t")]);
   declare [] "my_compress_alloc" (Fn (Pointer (Name "uchar")) [Pointer (Const (Name "uchar")); Pointer (Name "size_t"); Pointer (Name "size_t")]);
   declare [] "packfrm" (Fn (Name "int") [Pointer (Name "uchar"); Name "size_t"; Pointer (Pointer (Name "uchar")); Pointer (Name "size_t")]);
   declare [] "unpackfrm" (Fn (Name "int") [Pointer (Pointer (Name "uchar")); Pointer (Name "size_t"); Pointer (Const (Name "uchar"))]);
   declare [] "my_checksum" (Fn (Name "ha_checksum") [Name "ha_checksum"; Pointer (Const (Name "uchar")); Name "size_t"]);
   declare [] "my_sleep" (Fn Void [Name "ulong"]);
   declare [] "crc32" (Fn (Name "ulong") [Name "ulong"; Pointer (Const (Name "uchar")); Name "uint"]);
   declare [] "my_set_max_open_files" (Fn (Name "uint") [Name "uint"]);
   declare [] "my_free_open_file_info" (Fn Void []);
   declare [] "my_time" (Fn (Name "time_t") [Name "myf"]);
   declare [] "my_getsystime" (Fn (Name "ulonglong") []);
   declare [] "my_micro_time" (FnUnspecified (Name "ulonglong"));
   declare [] "my_micro_time_and_time" (Fn (Name "ulonglong") [Pointer (Name "time_t")]);
   declare [] "my_time_possible_from_micro" (Fn (Name "time_t") [Name "ulonglong"]);
   declare [] "my_gethwaddr" (Fn (Name "my_bool") [Pointer (Name "uchar")]);
   declare [] "my_getncpus" (FnUnspecified (Name "int"))].

(** my_sys.h, lines 885 to 886. *)
Definition functions_my_sys_my_mmap : list declaration :=
  [declare [] "my_mmap" (Fn (Pointer Void) [Pointer Void; Name "size_t"; Name "int"; Name "int"; Name "int"; Name "my_off_t"]);
   declare [] "my_munmap" (Fn (Name "int") [Pointer Void; Name "size_t"])].

(** my_sys.h, lines 893 to 933. *)
Definition functions_my_sys_my_getpagesize : list declaration :=
  [declare [(false, "defined(HAVE_GETPAGESIZE)")] "my_getpagesize" (Fn (Name "int") []);
   declare [] "my_msync" (Fn (Name "int") [Name "int"; Pointer Void; Name "size_t"; Name "int"]);
   declare [] "get_charset_number" (Fn (Name "uint") [Pointer (Const (Name "char")); Name "uint"]);
   declare [] "get_collation_number" (Fn (Name "uint") [Pointer (Const (Name "char"))]);
   declare [] "get_charset_name" (Fn (Pointer (Const (Name "char"))) [Name "uint"]);
   declare [] "get_charset" (Fn (Pointer (Name "CHARSET_INFO")) [Name "uint"; Name "myf"]);
   declare [] "get_charset_by_name" (Fn (Pointer (Name "CHARSET_INFO")) [Pointer (Const (Name "char")); Name "myf"]);
   declare [] "get_charset_by_csname" (Fn (Pointer (Name "CHARSET_INFO")) [Pointer (Const (Name "char")); Name "uint"; Name "myf"]);
   declare [] "resolve_charset" (Fn (Name "my_bool") [Pointer (Const (Name "char")); Pointer (Name "CHARSET_INFO"); Pointer (Pointer (Name "CHARSET_INFO"))]);
   declare [] "resolve_collation" (Fn (Name "my_bool") [Pointer (Const (Name "char")); Pointer (Name "CHARSET_INFO"); Pointer (Pointer (Name "CHARSET_INFO"))]);
   declare [] "free_charsets" (Fn Void []);
   declare [] "get_charsets_dir" (Fn (Pointer (Name "char")) [Pointer (Name "char")]);
   declare [] "my_charset_same" (Fn (Name "my_bool") [Pointer (Name "CHARSET_INFO"); Pointer (Name "CHARSET_INFO")]);
   declare [] "init_compiled_charsets" (Fn (Name "my_bool") [Name "myf"]);
   declare [] "add_compiled_collation" (Fn Void [Pointer (Name "CHARSET_INFO")]);
   declare [] "escape_string_for_mysql" (Fn (Name "size_t") [Pointer (Name "CHARSET_INFO"); Pointer (Name "char"); Name "size_t"; Pointer (Const (Name "char")); Name "size_t"]);
   declare [(true, "defined(__WIN__)")] "fs_character_set" (Fn (Pointer (Name "CHARSET_INFO")) []);
   declare [] "escape_quotes_for_mysql" (Fn (Name "size_t") [Pointer (Name "CHARSET_INFO"); Pointer (Name "char"); Name "size_t"; Pointer (Const (Name "char")); Name "size_t"]);
   declare [] "thd_increment_bytes_sent" (Fn Void [Name "ulong"]);
   declare [] "thd_increment_bytes_received" (Fn Void [Name "ulong"]);
   declare [] "thd_increment_net_big_packet_count" (Fn Void [Name "ulong"])].

(** my_sys.h, lines 940 to 946. *)
Definition functions_my_sys_my_security_attr_create : list declaration :=
  [declare [(true, "defined(__WIN__)")] "my_security_attr_create" (Fn (Name "int") [Pointer (Pointer (Name "SECURITY_ATTRIBUTES")); Pointer (Pointer (Const (Name "char"))); Name "DWORD"; Name "DWORD"]);
   declare [(true, "defined(__WIN__)")] "my_security_attr_free" (Fn Void [Pointer (Name "SECURITY_ATTRIBUTES")]);
   declare [(true, "defined(__WIN__)")] "my_cgets" (Fn (Pointer (Name "char")) [Pointer (Name "char"); Name "size_t"; Pointer (Name "size_t")])].

(** my_sys.h, lines 954 to 954. *)
Definition functions_my_sys_my_init_mysys_psi_keys : list declaration :=
  [declare [(true, "defined(HAVE_PSI_INTERFACE)")] "my_init_mysys_psi_keys" (Fn Void [])].

(** m_string.h, lines 85 to 85. *)
Definition functions_m_string_stpcpy : list declaration :=
  [declare [(false, "defined(HAVE_STPCPY) && MY_GNUC_PREREQ(3, 4) && !defined(__INTEL_COMPILER)"); (true, "defined(HAVE_STPCPY)"); (false, "defined(stpcpy)")] "stpcpy" (Fn (Pointer (Name "char")) [Pointer (Name "char"); Pointer (Const (Name "char"))])].

(** m_string.h, lines 100 to 124. *)
Definition functions_m_string_bmove_upp : list declaration :=
  [declare [] "bmove_upp" (Fn Void [Pointer (Name "uchar"); Pointer (Const (Name "uchar")); Name "size_t"]);
   declare [] "bchange" (Fn Void [Pointer (Name "uchar"); Name "size_t"; Pointer (Const (Name "uchar")); Name "size_t"; Name "size_t"]);
   declare [] "strappend" (Fn Void [Pointer (Name "char"); Name "size_t"; Name "pchar"]);
   declare [] "strend" (Fn (Pointer (Name "char")) [Pointer (Const (Name "char"))]);
   declare [] "strcend" (Fn (Pointer (Name "char")) [Pointer (Const (Name "char")); Name "pchar"]);
   declare [] "strfill" (Fn (Pointer (Name "char")) [Pointer (Name "char"); Name "size_t"; Name "pchar"]);
   declare [] "strmake" (Fn (Pointer (Name "char")) [Pointer (Name "char"); Pointer (Const (Name "char")); Name "size_t"]);
   declare [(false, "defined(strmov)")] "strmov" (Fn (Pointer (Name "char")) [Pointer (Name "char"); Pointer (Const (Name "char"))]);
   declare [(true, "defined(strmov)")] "strmov_overlapp" (Fn (Pointer (Name "char")) [Pointer (Name "char"); Pointer (Const (Name "char"))]);
   declare [] "strnmov" (Fn (Pointer (Name "char")) [Pointer (Name "char"); Pointer (Const (Name "char")); Name "size_t"]);
   declare [] "strcont" (Fn (Pointer (Name "char")) [Pointer (Const (Name "char")); Pointer (Const (Name "char"))]);
   declare [] "strxmov" (FnVariadic (Pointer (Name "char")) [Pointer (Name "char"); Pointer (Const (Name "char"))]);
   declare [] "strxnmov" (FnVariadic (Pointer (Name "char")) [Pointer (Name "char"); Name "size_t"; Pointer (Const (Name "char"))]);
   declare [(false, "defined(HAVE_STRNLEN)")] "strnlen" (Fn (Name "size_t") [Pointer (Const (Name "char")); Name "size_t"]);
   declare [] "is_prefix" (Fn (Name "int") [Pointer (Const (Name "char")); Pointer (Const (Name "char"))])].

(** m_string.h, lines 132 to 136. *)
Definition functions_m_string_my_strtod : list declaration :=
  [declare [] "my_strtod" (Fn (Name "double") [Pointer (Const (Name "char")); Pointer (Pointer (Name "char")); Pointer (Name "int")]);
   declare [] "my_atof" (Fn (Name "double") [Pointer (Const (Name "char"))]);
   declare [] "my_fcvt" (Fn (Name "size_t") [Name "double"; Name "int"; Pointer (Name "char"); Pointer (Name "my_bool")]);
   declare [] "my_gcvt" (Fn (Name "size_t") [Name "double"; Name "my_gcvt_arg_type"; Name "int"; Pointer (Name "char"); Pointer (Name "my_bool")])].

(** m_string.h, lines 164 to 175. *)
Definition functions_m_string_llstr : list declaration :=
  [declare [] "llstr" (Fn (Pointer (Name "char")) [Name "longlong"; Pointer (Name "char")]);
   declare [] "ullstr" (Fn (Pointer (Name "char")) [Name "longlong"; Pointer (Name "char")]);
   declare [(false, "defined(HAVE_STRTOUL)")] "strtol" (Fn (Name "long") [Pointer (Const (Name "char")); Pointer (Pointer (Name "char")); Name "int"]);
   declare [(false, "defined(HAVE_STRTOUL)")] "strtoul" (Fn (Name "ulong") [Pointer (Const (Name "char")); Pointer (Pointer (Name "char")); Name "int"]);
   declare [] "int2str" (Fn (Pointer (Name "char")) [Name "long"; Pointer (Name "char"); Name "int"; Name "int"]);
   declare [] "int10_to_str" (Fn (Pointer (Name "char")) [Name "long"; Pointer (Name "char"); Name "int"]);
   declare [] "str2int" (Fn (Pointer (Name "char")) [Pointer (Const (Name "char")); Name "int"; Name "long"; Name "long"; Pointer (Name "long")]);
   declare [] "my_strtoll10" (Fn (Name "longlong") [Pointer (Const (Name "char")); Pointer (Pointer (Name "char")); Pointer (Name "int")])].

(** m_string.h, lines 190 to 194. *)
Definition functions_m_string_ll2str : list declaration :=
  [declare [(false, "SIZEOF_LONG == SIZEOF_LONG_LONG"); (true, "defined(HAVE_LONG_LONG)")] "ll2str" (Fn (Pointer (Name "char")) [Name "longlong"; Pointer (Name "char"); Name "int"; Name "int"]);
   declare [(false, "SIZEOF_LONG == SIZEOF_LONG_LONG"); (true, "defined(HAVE_LONG_LONG)")] "longlong10_to_str" (Fn (Pointer (Name "char")) [Name "longlong"; Pointer (Name "char"); Name "int"]);
   declare [(false, "SIZEOF_LONG == SIZEOF_LONG_LONG"); (true, "defined(HAVE_LONG_LONG)"); (true, "(!defined(HAVE_STRTOULL) || defined(NO_STRTOLL_PROTO))")] "strtoll" (Fn (Name "longlong") [Pointer (Const (Name "char")); Pointer (Pointer (Name "char")); Name "int"]);
   declare [(false, "SIZEOF_LONG == SIZEOF_LONG_LONG"); (true, "defined(HAVE_LONG_LONG)"); (true, "(!defined(HAVE_STRTOULL) || defined(NO_STRTOLL_PROTO))")] "strtoull" (Fn (Name "ulonglong") [Pointer (Const (Name "char")); Pointer (Pointer (Name "char")); Name "int"])].

(** mysql/service_my_snprintf.h, lines 90 to 91. *)
Definition functions_service_my_snprintf_my_snprintf : list declaration :=
  [declare [(false, "defined(MYSQL_DYNAMIC_PLUGIN)")] "my_snprintf" (FnVariadic (Name "size_t") [Pointer (Name "char"); Name "size_t"; Pointer (Const (Name "char"))]);
   declare [(false, "defined(MYSQL_DYNAMIC_PLUGIN)")] "my_vsnprintf" (Fn (Name "size_t") [Pointer (Name "char"); Name "size_t"; Pointer (Const (Name "char")); Name "va_list"])].

(** my_dbug.h, lines 43 to 67. *)
Definition functions_my_dbug__db_keyword_ : list declaration :=
  [declare [(true, "!defined(DBUG_OFF) && !defined(_lint)")] "_db_keyword_" (Fn (Name "my_bool") [Pointer (Name "struct _db_code_state_"); Pointer (Const (Name "char")); Name "int"]);
   declare [(true, "!defined(DBUG_OFF) && !defined(_lint)")] "_db_explain_" (Fn (Name "int") [Pointer (Name "struct _db_code_state_"); Pointer (Name "char"); Name "size_t"]);
   declare [(true, "!defined(DBUG_OFF) && !defined(_lint)")] "_db_explain_init_" (Fn (Name "int") [Pointer (Name "char"); Name "size_t"]);
   declare [(true, "!defined(DBUG_OFF) && !defined(_lint)")] "_db_is_pushed_" (Fn (Name "int") []);
   declare [(true, "!defined(DBUG_OFF) && !defined(_lint)")] "_db_setjmp_" (Fn Void []);
   declare [(true, "!defined(DBUG_OFF) && !defined(_lint)")] "_db_longjmp_" (Fn Void []);
   declare [(true, "!defined(DBUG_OFF) && !defined(_lint)")] "_db_process_" (Fn Void [Pointer (Const (Name "char"))]);
   declare [(true, "!defined(DBUG_OFF) && !defined(_lint)")] "_db_push_" (Fn Void [Pointer (Const (Name "char"))]);
   declare [(true, "!defined(DBUG_OFF) && !defined(_lint)")] "_db_pop_" (Fn Void []);
   declare [(true, "!defined(DBUG_OFF) && !defined(_lint)")] "_db_set_" (Fn Void [Pointer (Const (Name "char"))]);
   declare [(true, "!defined(DBUG_OFF) && !defined(_lint)")] "_db_set_init_" (Fn Void [Pointer (Const (Name "char"))]);
   declare [(true, "!defined(DBUG_OFF) && !defined(_lint)")] "_db_enter_" (Fn Void [Pointer (Const (Name "char")); Pointer (Const (Name "char")); Name "uint"; Pointer (Name "struct _db_stack_frame_")]);
   declare [(true, "!defined(DBUG_OFF) && !defined(_lint)")] "_db_return_" (Fn Void [Name "uint"; Pointer (Name "struct _db_stack_frame_")]);
   declare [(true, "!defined(DBUG_OFF) && !defined(_lint)")] "_db_pargs_" (Fn Void [Name "uint"; Pointer (Const (Name "char"))]);
   declare [(true, "!defined(DBUG_OFF) && !defined(_lint)")] "_db_doprnt_" (FnVariadic Void [Pointer (Const (Name "char"))]);
   declare [(true, "!defined(DBUG_OFF) && !defined(_lint)")] "_db_dump_" (Fn Void [Name "uint"; Pointer (Const (Name "char")); Pointer (Const (Name "unsigned char")); Name "size_t"]);
   declare [(true, "!defined(DBUG_OFF) && !defined(_lint)")] "_db_end_" (Fn Void []);
   declare [(true, "!defined(DBUG_OFF) && !defined(_lint)")] "_db_lock_file_" (Fn Void []);
   declare [(true, "!defined(DBUG_OFF) && !defined(_lint)")] "_db_unlock_file_" (Fn Void []);
   declare [(true, "!defined(DBUG_OFF) && !defined(_lint)")] "_db_fp_" (Fn (Pointer (Name "FILE")) []);
   declare [(true, "!defined(DBUG_OFF) && !defined(_lint)")] "_db_flush_" (FnUnspecified Void);
   declare [(true, "!defined(DBUG_OFF) && !defined(_lint)")] "_db_get_func_" (Fn (Pointer (Const (Name "char"))) [])].

(** my_dbug.h, lines 135 to 135. *)
Definition functions_my_dbug__db_suicide_ : list declaration :=
  [declare [(true, "!defined(DBUG_OFF) && !defined(_lint)"); (false, "defined(__WIN__)")] "_db_suicide_" (FnUnspecified Void)].

(** my_dbug.h, lines 185 to 185. *)
Definition functions_my_dbug_debug_sync_point : list declaration :=
  [declare [(true, "defined(EXTRA_DEBUG)")] "debug_sync_point" (Fn Void [Pointer (Const (Name "char")); Name "uint"])].

(** my_dir.h, lines 99 to 102. *)
Definition functions_my_dir_my_dir : list declaration :=
  [declare [] "my_dir" (Fn (Pointer (Name "MY_DIR")) [Pointer (Const (Name "char")); Name "myf"]);
   declare [] "my_dirend" (Fn Void [Pointer (Name "MY_DIR")]);
   declare [] "my_stat" (Fn (Pointer (Name "MY_STAT")) [Pointer (Const (Name "char")); Pointer (Name "MY_STAT"); Name "myf"]);
   declare [] "my_fstat" (Fn (Name "int") [Name "int"; Pointer (Name "MY_STAT"); Name "myf"])].

(** my_getopt.h, lines 108 to 121. *)
Definition functions_my_getopt_handle_options : list declaration :=
  [declare [] "handle_options" (Fn (Name "int") [Pointer (Name "int"); Pointer (Pointer (Pointer (Name "char"))); Pointer (Const (Name "struct my_option")); Name "my_get_one_option"]);
   declare [] "my_cleanup_options" (Fn Void [Pointer (Const (Name "struct my_option"))]);
   declare [] "my_print_help" (Fn Void [Pointer (Const (Name "struct my_option"))]);
   declare [] "my_print_variables" (Fn Void [Pointer (Const (Name "struct my_option"))]);
   declare [] "my_getopt_register_get_addr" (Fn Void [Name "my_getopt_value"]);
   declare [] "getopt_ull_limit_value" (Fn (Name "ulonglong") [Name "ulonglong"; Pointer (Const (Name "struct my_option")); Pointer (Name "my_bool")]);
   declare [] "getopt_ll_limit_value" (Fn (Name "longlong") [Name "longlong"; Pointer (Const (Name "struct my_option")); Pointer (Name "my_bool")]);
   declare [] "getopt_double_limit_value" (Fn (Name "double") [Name "double"; Pointer (Const (Name "struct my_option")); Pointer (Name "my_bool")]);
   declare [] "getopt_compare_strings" (Fn (Name "my_bool") [Pointer (Const (Name "char")); Pointer (Const (Name "char")); Name "uint"])].

(** my_xml.h, lines 65 to 83. *)
Definition functions_my_xml_my_xml_parser_create : list declaration :=
  [declare [] "my_xml_parser_create" (Fn Void [Pointer (Name "MY_XML_PARSER")]);
   declare [] "my_xml_parser_free" (Fn Void [Pointer (Name "MY_XML_PARSER")]);
   declare [] "my_xml_parse" (Fn (Name "int") [Pointer (Name "MY_XML_PARSER"); Pointer (Const (Name "char")); Name "size_t"]);
   declare [] "my_xml_set_value_handler" (Fn Void [Pointer (Name "MY_XML_PARSER"); Pointer (Fn (Name "int") [Pointer (Name "MY_XML_PARSER"); Pointer (Const (Name "char")); Name "size_t"])]);
   declare [] "my_xml_set_enter_handler" (Fn Void [Pointer (Name "MY_XML_PARSER"); Pointer (Fn (Name "int") [Pointer (Name "MY_XML_PARSER"); Pointer (Const (Name "char")); Name "size_t"])]);
   declare [] "my_xml_set_leave_handler" (Fn Void [Pointer (Name "MY_XML_PARSER"); Pointer (Fn (Name "int") [Pointer (Name "MY_XML_PARSER"); Pointer (Const (Name "char")); Name "size_t"])]);
   declare [] "my_xml_set_user_data" (Fn Void [Pointer (Name "MY_XML_PARSER"); Pointer Void]);
   declare [] "my_xml_error_pos" (Fn (Name "size_t") [Pointer (Name "MY_XML_PARSER")]);
   declare [] "my_xml_error_lineno" (Fn (Name "uint") [Pointer (Name "MY_XML_PARSER")]);
   declare [] "my_xml_error_string" (Fn (Pointer (Const (Name "char"))) [Pointer (Name "MY_XML_PARSER")])].

(** mysql_com.h, lines 451 to 471. *)
Definition functions_mysql_com_my_net_init : list declaration :=
  [declare [] "my_net_init" (Fn (Name "my_bool") [Pointer (Name "NET"); Pointer (Name "Vio")]);
   declare [] "my_net_local_init" (Fn Void [Pointer (Name "NET")]);
   declare [] "net_end" (Fn Void [Pointer (Name "NET")]);
   declare [] "net_clear" (Fn Void [Pointer (Name "NET"); Name "my_bool"]);
   declare [] "net_realloc" (Fn (Name "my_bool") [Pointer (Name "NET"); Name "size_t"]);
   declare [] "net_flush" (Fn (Name "my_bool") [Pointer (Name "NET")]);
   declare [] "my_net_write" (Fn (Name "my_bool") [Pointer (Name "NET"); Pointer (Const (Name "unsigned char")); Name "size_t"]);
   declare [] "net_write_command" (Fn (Name "my_bool") [Pointer (Name "NET"); Name "unsigned char"; Pointer (Const (Name "unsigned char")); Name "size_t"; Pointer (Const (Name "unsigned char")); Name "size_t"]);
   declare [] "net_real_write" (Fn (Name "int") [Pointer (Name "NET"); Pointer (Const (Name "unsigned char")); Name "size_t"]);
   declare [] "my_net_read" (Fn (Name "unsigned long") [Pointer (Name "NET")]);
   declare [] "my_net_set_write_timeout" (Fn Void [Pointer (Name "NET"); Name "uint"]);
   declare [] "my_net_set_read_timeout" (Fn Void [Pointer (Name "NET"); Name "uint"]);
   declare [] "my_connect" (Fn (Name "int") [Name "my_socket"; Pointer (Const (Name "struct sockaddr")); Name "unsigned int"; Name "unsigned int"])].

(** mysql_com.h, lines 530 to 564. *)
Definition functions_mysql_com_randominit : list declaration :=
  [declare [] "randominit" (Fn Void [Pointer (Name "struct rand_struct"); Name "unsigned long"; Name "unsigned long"]);
   declare [] "my_rnd" (Fn (Name "double") [Pointer (Name "struct rand_struct")]);
   declare [] "create_random_string" (Fn Void [Pointer (Name "char"); Name "unsigned int"; Pointer (Name "struct rand_struct")]);
   declare [] "hash_password" (Fn Void [Pointer (Name "unsigned long"); Pointer (Const (Name "char")); Name "unsigned int"]);
   declare [] "make_scrambled_password_323" (Fn Void [Pointer (Name "char"); Pointer (Const (Name "char"))]);
   declare [] "scramble_323" (Fn Void [Pointer (Name "char"); Pointer (Const (Name "char")); Pointer (Const (Name "char"))]);
   declare [] "check_scramble_323" (Fn (Name "my_bool") [Pointer (Const (Name "unsigned char")); Pointer (Const (Name "char")); Pointer (Name "unsigned long")]);
   declare [] "get_salt_from_password_323" (Fn Void [Pointer (Name "unsigned long"); Pointer (Const (Name "char"))]);
   declare [] "make_password_from_salt_323" (Fn Void [Pointer (Name "char"); Pointer (Const (Name "unsigned long"))]);
   declare [] "make_scrambled_password" (Fn Void [Pointer (Name "char"); Pointer (Const (Name "char"))]);
   declare [] "scramble" (Fn Void [Pointer (Name "char"); Pointer (Const (Name "char")); Pointer (Const (Name "char"))]);
   declare [] "check_scramble" (Fn (Name "my_bool") [Pointer (Const (Name "unsigned char")); Pointer (Const (Name "char")); Pointer (Const (Name "unsigned char"))]);
   declare [] "get_salt_from_password" (Fn Void [Pointer (Name "unsigned char"); Pointer (Const (Name "char"))]);
   declare [] "make_password_from_salt" (Fn Void [Pointer (Name "char"); Pointer (Const (Name "unsigned char"))]);
   declare [] "octet2hex" (Fn (Pointer (Name "char")) [Pointer (Name "char"); Pointer (Const (Name "char")); Name "unsigned int"]);
   declare [] "get_tty_password" (Fn (Pointer (Name "char")) [Pointer (Const (Name "char"))]);
   declare [] "mysql_errno_to_sqlstate" (Fn (Pointer (Const (Name "char"))) [Name "unsigned int"]);
   declare [] "my_thread_init" (Fn (Name "my_bool") []);
   declare [] "my_thread_end" (Fn Void []);
   declare [] "net_field_length" (Fn (Name "ulong") [Pointer (Pointer (Name "uchar"))]);
   declare [] "net_field_length_ll" (Fn (Name "my_ulonglong") [Pointer (Pointer (Name "uchar"))]);
   declare [] "net_store_length" (Fn (Pointer (Name "uchar")) [Pointer (Name "uchar"); Name "ulonglong"])].

(** mysql.h, lines 327 to 328. *)
Definition functions_mysql_mysql_server_init : list declaration :=
  [declare [] "mysql_server_init" (Fn (Name "int") [Name "int"; Pointer (Pointer (Name "char")); Pointer (Pointer (Name "char"))]);
   declare [] "mysql_server_end" (Fn Void [])].

(** mysql.h, lines 342 to 342. *)
Definition functions_mysql_mysql_get_parameters : list declaration :=
  [declare [] "mysql_get_parameters" (Fn (Pointer (Name "MYSQL_PARAMETERS")) [])].

(** mysql.h, lines 350 to 351. *)
Definition functions_mysql_mysql_thread_init : list declaration :=
  [declare [] "mysql_thread_init" (Fn (Name "my_bool") []);
   declare [] "mysql_thread_end" (Fn Void [])].

(** mysql.h, lines 358 to 403. *)
Definition functions_mysql_mysql_num_rows : list declaration :=
  [declare [] "mysql_num_rows" (Fn (Name "my_ulonglong") [Pointer (Name "MYSQL_RES")]);
   declare [] "mysql_num_fields" (Fn (Name "unsigned int") [Pointer (Name "MYSQL_RES")]);
   declare [] "mysql_eof" (Fn (Name "my_bool") [Pointer (Name "MYSQL_RES")]);
   declare [] "mysql_fetch_field_direct" (Fn (Pointer (Name "MYSQL_FIELD")) [Pointer (Name "MYSQL_RES"); Name "unsigned int"]);
   declare [] "mysql_fetch_fields" (Fn (Pointer (Name "MYSQL_FIELD")) [Pointer (Name "MYSQL_RES")]);
   declare [] "mysql_row_tell" (Fn (Name "MYSQL_ROW_OFFSET") [Pointer (Name "MYSQL_RES")]);
   declare [] "mysql_field_tell" (Fn (Name "MYSQL_FIELD_OFFSET") [Pointer (Name "MYSQL_RES")]);
   declare [] "mysql_field_count" (Fn (Name "unsigned int") [Pointer (Name "MYSQL")]);
   declare [] "mysql_affected_rows" (Fn (Name "my_ulonglong") [Pointer (Name "MYSQL")]);
   declare [] "mysql_insert_id" (Fn (Name "my_ulonglong") [Pointer (Name "MYSQL")]);
   declare [] "mysql_errno" (Fn (Name "unsigned int") [Pointer (Name "MYSQL")]);
   declare [] "mysql_error" (Fn (Pointer (Const (Name "char"))) [Pointer (Name "MYSQL")]);
   declare [] "mysql_sqlstate" (Fn (Pointer (Const (Name "char"))) [Pointer (Name "MYSQL")]);
   declare [] "mysql_warning_count" (Fn (Name "unsigned int") [Pointer (Name "MYSQL")]);
   declare [] "mysql_info" (Fn (Pointer (Const (Name "char"))) [Pointer (Name "MYSQL")]);
   declare [] "mysql_thread_id" (Fn (Name "unsigned long") [Pointer (Name "MYSQL")]);
   declare [] "mysql_character_set_name" (Fn (Pointer (Const (Name "char"))) [Pointer (Name "MYSQL")]);
   declare [] "mysql_set_character_set" (Fn (Name "int") [Pointer (Name "MYSQL"); Pointer (Const (Name "char"))]);
   declare [] "mysql_init" (Fn (Pointer (Name "MYSQL")) [Pointer (Name "MYSQL")]);
   declare [] "mysql_ssl_set" (Fn (Name "my_bool") [Pointer (Name "MYSQL"); Pointer (Const (Name "char")); Pointer (Const (Name "char")); Pointer (Const (Name "char")); Pointer (Const (Name "char")); Pointer (Const (Name "char"))]);
   declare [] "mysql_get_ssl_cipher" (Fn (Pointer (Const (Name "char"))) [Pointer (Name "MYSQL")]);
   declare [] "mysql_change_user" (Fn (Name "my_bool") [Pointer (Name "MYSQL"); Pointer (Const (Name "char")); Pointer (Const (Name "char")); Pointer (Const (Name "char"))]);
   declare [] "mysql_real_connect" (Fn (Pointer (Name "MYSQL")) [Pointer (Name "MYSQL"); Pointer (Const (Name "char")); Pointer (Const (Name "char")); Pointer (Const (Name "char")); Pointer (Const (Name "char")); Name "unsigned int"; Pointer (Const (Name "char")); Name "unsigned long"]);
   declare [] "mysql_select_db" (Fn (Name "int") [Pointer (Name "MYSQL"); Pointer (Const (Name "char"))]);
   declare [] "mysql_query" (Fn (Name "int") [Pointer (Name "MYSQL"); Pointer (Const (Name "char"))]);
   declare [] "mysql_send_query" (Fn (Name "int") [Pointer (Name "MYSQL"); Pointer (Const (Name "char")); Name "unsigned long"]);
   declare [] "mysql_real_query" (Fn (Name "int") [Pointer (Name "MYSQL"); Pointer (Const (Name "char")); Name "unsigned long"]);
   declare [] "mysql_store_result" (Fn (Pointer (Name "MYSQL_RES")) [Pointer (Name "MYSQL")]);
   declare [] "mysql_use_result" (Fn (Pointer (Name "MYSQL_RES")) [Pointer (Name "MYSQL")]);
   declare [] "mysql_get_character_set_info" (Fn Void [Pointer (Name "MYSQL"); Pointer (Name "MY_CHARSET_INFO")])].

(** mysql.h, lines 409 to 469. *)
Definition functions_mysql_mysql_set_local_infile_handler : list declaration :=
  [declare [] "mysql_set_local_infile_handler" (Fn Void [Pointer (Name "MYSQL"); Pointer (Fn (Name "int") [Pointer (Pointer Void); Pointer (Const (Name "char")); Pointer Void]); Pointer (Fn (Name "int") [Pointer Void; Pointer (Name "char"); Name "unsigned int"]); Pointer (Fn Void [Pointer Void]); Pointer (Fn (Name "int") [Pointer Void; Pointer (Name "char"); Name "unsigned int"]); Pointer Void]);
   declare [] "mysql_set_local_infile_default" (Fn Void [Pointer (Name "MYSQL")]);
   declare [] "mysql_shutdown" (Fn (Name "int") [Pointer (Name "MYSQL"); Name "enum mysql_enum_shutdown_level"]);
   declare [] "mysql_dump_debug_info" (Fn (Name "int") [Pointer (Name "MYSQL")]);
   declare [] "mysql_refresh" (Fn (Name "int") [Pointer (Name "MYSQL"); Name "unsigned int"]);
   declare [] "mysql_kill" (Fn (Name "int") [Pointer (Name "MYSQL"); Name "unsigned long"]);
   declare [] "mysql_set_server_option" (Fn (Name "int") [Pointer (Name "MYSQL"); Name "enum enum_mysql_set_option"]);
   declare [] "mysql_ping" (Fn (Name "int") [Pointer (Name "MYSQL")]);
   declare [] "mysql_stat" (Fn (Pointer (Const (Name "char"))) [Pointer (Name "MYSQL")]);
   declare [] "mysql_get_server_info" (Fn (Pointer (Const (Name "char"))) [Pointer (Name "MYSQL")]);
   declare [] "mysql_get_client_info" (Fn (Pointer (Const (Name "char"))) []);
   declare [] "mysql_get_client_version" (Fn (Name "unsigned long") []);
   declare [] "mysql_get_host_info" (Fn (Pointer (Const (Name "char"))) [Pointer (Name "MYSQL")]);
   declare [] "mysql_get_server_version" (Fn (Name "unsigned long") [Pointer (Name "MYSQL")]);
   declare [] "mysql_get_proto_info" (Fn (Name "unsigned int") [Pointer (Name "MYSQL")]);
   declare [] "mysql_list_dbs" (Fn (Pointer (Name "MYSQL_RES")) [Pointer (Name "MYSQL"); Pointer (Const (Name "char"))]);
   declare [] "mysql_list_tables" (Fn (Pointer (Name "MYSQL_RES")) [Pointer (Name "MYSQL"); Pointer (Const (Name "char"))]);
   declare [] "mysql_list_processes" (Fn (Pointer (Name "MYSQL_RES")) [Pointer (Name "MYSQL")]);
   declare [] "mysql_options" (Fn (Name "int") [Pointer (Name "MYSQL"); Name "enum mysql_option"; Pointer (Const Void)]);
   declare [] "mysql_free_result" (Fn Void [Pointer (Name "MYSQL_RES")]);
   declare [] "mysql_data_seek" (Fn Void [Pointer (Name "MYSQL_RES"); Name "my_ulonglong"]);
   declare [] "mysql_row_seek" (Fn (Name "MYSQL_ROW_OFFSET") [Pointer (Name "MYSQL_RES"); Name "MYSQL_ROW_OFFSET"]);
   declare [] "mysql_field_seek" (Fn (Name "MYSQL_FIELD_OFFSET") [Pointer (Name "MYSQL_RES"); Name "MYSQL_FIELD_OFFSET"]);
   declare [] "mysql_fetch_row" (Fn (Name "MYSQL_ROW") [Pointer (Name "MYSQL_RES")]);
   declare [] "mysql_fetch_lengths" (Fn (Pointer (Name "unsigned long")) [Pointer (Name "MYSQL_RES")]);
   declare [] "mysql_fetch_field" (Fn (Pointer (Name "MYSQL_FIELD")) [Pointer (Name "MYSQL_RES")]);
   declare [] "mysql_list_fields" (Fn (Pointer (Name "MYSQL_RES")) [Pointer (Name "MYSQL"); Pointer (Const (Name "char")); Pointer (Const (Name "char"))]);
   declare [] "mysql_escape_string" (Fn (Name "unsigned long") [Pointer (Name "char"); Pointer (Const (Name "char")); Name "unsigned long"]);
   declare [] "mysql_hex_string" (Fn (Name "unsigned long") [Pointer (Name "char"); Pointer (Const (Name "char")); Name "unsigned long"]);
   declare [] "mysql_real_escape_string" (Fn (Name "unsigned long") [Pointer (Name "MYSQL"); Pointer (Name "char"); Pointer (Const (Name "char")); Name "unsigned long"]);
   declare [] "mysql_debug" (Fn Void [Pointer (Const (Name "char"))]);
   declare [] "myodbc_remove_escape" (Fn Void [Pointer (Name "MYSQL"); Pointer (Name "char")]);
   declare [] "mysql_thread_safe" (Fn (Name "unsigned int") []);
   declare [] "mysql_embedded" (Fn (Name "my_bool") []);
   declare [] "mysql_read_query_result" (Fn (Name "my_bool") [Pointer (Name "MYSQL")])].

(** mysql.h, lines 649 to 694. *)
Definition functions_mysql_mysql_stmt_init : list declaration :=
  [declare [] "mysql_stmt_init" (Fn (Pointer (Name "MYSQL_STMT")) [Pointer (Name "MYSQL")]);
   declare [] "mysql_stmt_prepare" (Fn (Name "int") [Pointer (Name "MYSQL_STMT"); Pointer (Const (Name "char")); Name "unsigned long"]);
   declare [] "mysql_stmt_execute" (Fn (Name "int") [Pointer (Name "MYSQL_STMT")]);
   declare [] "mysql_stmt_fetch" (Fn (Name "int") [Pointer (Name "MYSQL_STMT")]);
   declare [] "mysql_stmt_fetch_column" (Fn (Name "int") [Pointer (Name "MYSQL_STMT"); Pointer (Name "MYSQL_BIND"); Name "unsigned int"; Name "unsigned long"]);
   declare [] "mysql_stmt_store_result" (Fn (Name "int") [Pointer (Name "MYSQL_STMT")]);
   declare [] "mysql_stmt_param_count" (Fn (Name "unsigned long") [Pointer (Name "MYSQL_STMT")]);
   declare [] "mysql_stmt_attr_set" (Fn (Name "my_bool") [Pointer (Name "MYSQL_STMT"); Name "enum enum_stmt_attr_type"; Pointer (Const Void)]);
   declare [] "mysql_stmt_attr_get" (Fn (Name "my_bool") [Pointer (Name "MYSQL_STMT"); Name "enum enum_stmt_attr_type"; Pointer Void]);
   declare [] "mysql_stmt_bind_param" (Fn (Name "my_bool") [Pointer (Name "MYSQL_STMT"); Pointer (Name "MYSQL_BIND")]);
   declare [] "mysql_stmt_bind_result" (Fn (Name "my_bool") [Pointer (Name "MYSQL_STMT"); Pointer (Name "MYSQL_BIND")]);
   declare [] "mysql_stmt_close" (Fn (Name "my_bool") [Pointer (Name "MYSQL_STMT")]);
   declare [] "mysql_stmt_reset" (Fn (Name "my_bool") [Pointer (Name "MYSQL_STMT")]);
   declare [] "mysql_stmt_free_result" (Fn (Name "my_bool") [Pointer (Name "MYSQL_STMT")]);
   declare [] "mysql_stmt_send_long_data" (Fn (Name "my_bool") [Pointer (Name "MYSQL_STMT"); Name "unsigned int"; Pointer (Const (Name "char")); Name "unsigned long"]);
   declare [] "mysql_stmt_result_metadata" (Fn (Pointer (Name "MYSQL_RES")) [Pointer (Name "MYSQL_STMT")]);
   declare [] "mysql_stmt_param_metadata" (Fn (Pointer (Name "MYSQL_RES")) [Pointer (Name "MYSQL_STMT")]);
   declare [] "mysql_stmt_errno" (Fn (Name "unsigned int") [Pointer (Name "MYSQL_STMT")]);
   declare [] "mysql_stmt_error" (Fn (Pointer (Const (Name "char"))) [Pointer (Name "MYSQL_STMT")]);
   declare [] "mysql_stmt_sqlstate" (Fn (Pointer (Const (Name "char"))) [Pointer (Name "MYSQL_STMT")]);
   declare [] "mysql_stmt_row_seek" (Fn (Name "MYSQL_ROW_OFFSET") [Pointer (Name "MYSQL_STMT"); Name "MYSQL_ROW_OFFSET"]);
   declare [] "mysql_stmt_row_tell" (Fn (Name "MYSQL_ROW_OFFSET") [Pointer (Name "MYSQL_STMT")]);
   declare [] "mysql_stmt_data_seek" (Fn Void [Pointer (Name "MYSQL_STMT"); Name "my_ulonglong"]);
   declare [] "mysql_stmt_num_rows" (Fn (Name "my_ulonglong") [Pointer (Name "MYSQL_STMT")]);
   declare [] "mysql_stmt_affected_rows" (Fn (Name "my_ulonglong") [Pointer (Name "MYSQL_STMT")]);
   declare [] "mysql_stmt_insert_id" (Fn (Name "my_ulonglong") [Pointer (Name "MYSQL_STMT")]);
   declare [] "mysql_stmt_field_count" (Fn (Name "unsigned int") [Pointer (Name "MYSQL_STMT")]);
   declare [] "mysql_commit" (Fn (Name "my_bool") [Pointer (Name "MYSQL")]);
   declare [] "mysql_rollback" (Fn (Name "my_bool") [Pointer (Name "MYSQL")]);
   declare [] "mysql_autocommit" (Fn (Name "my_bool") [Pointer (Name "MYSQL"); Name "my_bool"]);
   declare [] "mysql_more_results" (Fn (Name "my_bool") [Pointer (Name "MYSQL")]);
   declare [] "mysql_next_result" (Fn (Name "int") [Pointer (Name "MYSQL")]);
   declare [] "mysql_stmt_next_result" (Fn (Name "int") [Pointer (Name "MYSQL_STMT")]);
   declare [] "mysql_close" (Fn Void [Pointer (Name "MYSQL")])].

(** mysql.h, lines 704 to 707. *)
Definition functions_mysql_mysql_connect : list declaration :=
  [declare [(true, "defined(USE_OLD_FUNCTIONS)")] "mysql_connect" (Fn (Pointer (Name "MYSQL")) [Pointer (Name "MYSQL"); Pointer (Const (Name "char")); Pointer (Const (Name "char")); Pointer (Const (Name "char"))]);
   declare [(true, "defined(USE_OLD_FUNCTIONS)")] "mysql_create_db" (Fn (Name "int") [Pointer (Name "MYSQL"); Pointer (Const (Name "char"))]);
   declare [(true, "defined(USE_OLD_FUNCTIONS)")] "mysql_drop_db" (Fn (Name "int") [Pointer (Name "MYSQL"); Pointer (Const (Name "char"))])].

(** decimal.h, lines 39 to 70. *)
Definition functions_decimal_internal_str2dec : list declaration :=
  [declare [] "internal_str2dec" (Fn (Name "int") [Pointer (Const (Name "char")); Pointer (Name "decimal_t"); Pointer (Pointer (Name "char")); Name "my_bool"]);
   declare [] "decimal2string" (Fn (Name "int") [Pointer (Const (Name "decimal_t")); Pointer (Name "char"); Pointer (Name "int"); Name "int"; Name "int"; Name "char"]);
   declare [] "decimal2ulonglong" (Fn (Name "int") [Pointer (Name "decimal_t"); Pointer (Name "ulonglong")]);
   declare [] "ulonglong2decimal" (Fn (Name "int") [Name "ulonglong"; Pointer (Name "decimal_t")]);
   declare [] "decimal2longlong" (Fn (Name "int") [Pointer (Name "decimal_t"); Pointer (Name "longlong")]);
   declare [] "longlong2decimal" (Fn (Name "int") [Name "longlong"; Pointer (Name "decimal_t")]);
   declare [] "decimal2double" (Fn (Name "int") [Pointer (Const (Name "decimal_t")); Pointer (Name "double")]);
   declare [] "double2decimal" (Fn (Name "int") [Name "double"; Pointer (Name "decimal_t")]);
   declare [] "decimal_actual_fraction" (Fn (Name "int") [Pointer (Name "decimal_t")]);
   declare [] "decimal2bin" (Fn (Name "int") [Pointer (Name "decimal_t"); Pointer (Name "uchar"); Name "int"; Name "int"]);
   declare [] "bin2decimal" (Fn (Name "int") [Pointer (Const (Name "uchar")); Pointer (Name "decimal_t"); Name "int"; Name "int"]);
   declare [] "decimal_size" (Fn (Name "int") [Name "int"; Name "int"]);
   declare [] "decimal_bin_size" (Fn (Name "int") [Name "int"; Name "int"]);
   declare [] "decimal_result_size" (Fn (Name "int") [Pointer (Name "decimal_t"); Pointer (Name "decimal_t"); Name "char"; Name "int"]);
   declare [] "decimal_intg" (Fn (Name "int") [Pointer (Const (Name "decimal_t"))]);
   declare [] "decimal_add" (Fn (Name "int") [Pointer (Const (Name "decimal_t")); Pointer (Const (Name "decimal_t")); Pointer (Name "decimal_t")]);
   declare [] "decimal_sub" (Fn (Name "int") [Pointer (Const (Name "decimal_t")); Pointer (Const (Name "decimal_t")); Pointer (Name "decimal_t")]);
   declare [] "decimal_cmp" (Fn (Name "int") [Pointer (Const (Name "decimal_t")); Pointer (Const (Name "decimal_t"))]);
   declare [] "decimal_mul" (Fn (Name "int") [Pointer (Const (Name "decimal_t")); Pointer (Const (Name "decimal_t")); Pointer (Name "decimal_t")]);
   declare [] "decimal_div" (Fn (Name "int") [Pointer (Const (Name "decimal_t")); Pointer (Const (Name "decimal_t")); Pointer (Name "decimal_t"); Name "int"]);
   declare [] "decimal_mod" (Fn (Name "int") [Pointer (Const (Name "decimal_t")); Pointer (Const (Name "decimal_t")); Pointer (Name "decimal_t")]);
   declare [] "decimal_round" (Fn (Name "int") [Pointer (Const (Name "decimal_t")); Pointer (Name "decimal_t"); Name "int"; Name "decimal_round_mode"]);
   declare [] "decimal_is_zero" (Fn (Name "int") [Pointer (Const (Name "decimal_t"))]);
   declare [] "max_decimal" (Fn Void [Name "int"; Name "int"; Pointer (Name "decimal_t")])].

(** errmsg.h, lines 25 to 26. *)
Definition functions_errmsg_init_client_errs : list declaration :=
  [declare [] "init_client_errs" (Fn Void []);
   declare [] "finish_client_errs" (Fn Void [])].

(** keycache.h, lines 112 to 144. *)
Definition functions_keycache_init_key_cache : list declaration :=
  [declare [] "init_key_cache" (Fn (Name "int") [Pointer (Name "KEY_CACHE"); Name "uint"; Name "size_t"; Name "uint"; Name "uint"]);
   declare [] "resize_key_cache" (Fn (Name "int") [Pointer (Name "KEY_CACHE"); Name "uint"; Name "size_t"; Name "uint"; Name "uint"]);
   declare [] "change_key_cache_param" (Fn Void [Pointer (Name "KEY_CACHE"); Name "uint"; Name "uint"]);
   declare [] "key_cache_read" (Fn (Pointer (Name "uchar")) [Pointer (Name "KEY_CACHE"); Name "File"; Name "my_off_t"; Name "int"; Pointer (Name "uchar"); Name "uint"; Name "uint"; Name "int"]);
   declare [] "key_cache_insert" (Fn (Name "int") [Pointer (Name "KEY_CACHE"); Name "File"; Name "my_off_t"; Name "int"; Pointer (Name "uchar"); Name "uint"]);
   declare [] "key_cache_write" (Fn (Name "int") [Pointer (Name "KEY_CACHE"); Name "File"; Name "my_off_t"; Name "int"; Pointer (Name "uchar"); Name "uint"; Name "uint"; Name "int"]);
   declare [] "flush_key_blocks" (Fn (Name "int") [Pointer (Name "KEY_CACHE"); Name "int"; Name "enum flush_type"]);
   declare [] "end_key_cache" (Fn Void [Pointer (Name "KEY_CACHE"); Name "my_bool"]);
   declare [] "multi_keycache_init" (Fn (Name "my_bool") []);
   declare [] "multi_keycache_free" (Fn Void []);
   declare [] "multi_key_cache_search" (Fn (Pointer (Name "KEY_CACHE")) [Pointer (Name "uchar"); Name "uint"]);
   declare [] "multi_key_cache_set" (Fn (Name "my_bool") [Pointer (Const (Name "uchar")); Name "uint"; Pointer (Name "KEY_CACHE")]);
   declare [] "multi_key_cache_change" (Fn Void [Pointer (Name "KEY_CACHE"); Pointer (Name "KEY_CACHE")]);
   declare [] "reset_key_cache_counters" (Fn (Name "int") [Pointer (Const (Name "char")); Pointer (Name "KEY_CACHE")])].

(** sql_common.h, lines 75 to 103. *)
Definition functions_sql_common_unpack_fields : list declaration :=
  [declare [] "unpack_fields" (Fn (Pointer (Name "MYSQL_FIELD")) [Pointer (Name "MYSQL_DATA"); Pointer (Name "MEM_ROOT"); Name "uint"; Name "my_bool"; Name "uint"]);
   declare [] "free_rows" (Fn Void [Pointer (Name "MYSQL_DATA")]);
   declare [] "free_old_query" (Fn Void [Pointer (Name "MYSQL")]);
   declare [] "end_server" (Fn Void [Pointer (Name "MYSQL")]);
   declare [] "mysql_reconnect" (Fn (Name "my_bool") [Pointer (Name "MYSQL")]);
   declare [] "mysql_read_default_options" (Fn Void [Pointer (Name "struct st_mysql_options"); Pointer (Const (Name "char")); Pointer (Const (Name "char"))]);
   declare [] "cli_advanced_command" (Fn (Name "my_bool") [Pointer (Name "MYSQL"); Name "enum enum_server_command"; Pointer (Const (Name "unsigned char")); Name "ulong"; Pointer (Const (Name "unsigned char")); Name "ulong"; Name "my_bool"; Pointer (Name "MYSQL_STMT")]);
   declare [] "cli_safe_read" (Fn (Name "unsigned long") [Pointer (Name "MYSQL")]);
   declare [] "net_clear_error" (Fn Void [Pointer (Name "NET")]);
   declare [] "set_stmt_errmsg" (Fn Void [Pointer (Name "MYSQL_STMT"); Pointer (Name "NET")]);
   declare [] "set_stmt_error" (Fn Void [Pointer (Name "MYSQL_STMT"); Name "int"; Pointer (Const (Name "char")); Pointer (Const (Name "char"))]);
   declare [] "set_mysql_error" (Fn Void [Pointer (Name "MYSQL"); Name "int"; Pointer (Const (Name "char"))]);
   declare [] "set_mysql_extended_error" (FnVariadic Void [Pointer (Name "MYSQL"); Name "int"; Pointer (Const (Name "char")); Pointer (Const (Name "char"))]);
   declare [] "mpvio_info" (Fn Void [Pointer (Name "Vio"); Pointer (Name "struct st_plugin_vio_info")]);
   declare [] "run_plugin_auth" (Fn (Name "int") [Pointer (Name "MYSQL"); Pointer (Name "char"); Name "uint"; Pointer (Const (Name "char")); Pointer (Const (Name "char"))]);
   declare [] "mysql_client_plugin_init" (FnUnspecified (Name "int"));
   declare [] "mysql_client_plugin_deinit" (FnUnspecified Void)].

(** mysql/client_plugin.h, lines 92 to 94. *)
Definition functions_client_plugin_mysql_load_plugin : list declaration :=
  [declare [] "mysql_load_plugin" (FnVariadic (Pointer (Name "struct st_mysql_client_plugin")) [Pointer (Name "struct st_mysql"); Pointer (Const (Name "char")); Name "int"; Name "int"])].

(** mysql/client_plugin.h, lines 112 to 114. *)
Definition functions_client_plugin_mysql_load_plugin_v : list declaration :=
  [declare [] "mysql_load_plugin_v" (Fn (Pointer (Name "struct st_mysql_client_plugin")) [Pointer (Name "struct st_mysql"); Pointer (Const (Name "char")); Name "int"; Name "int"; Name "va_list"])].

(** mysql/client_plugin.h, lines 126 to 127. *)
Definition functions_client_plugin_mysql_client_find_plugin : list declaration :=
  [declare [] "mysql_client_find_plugin" (Fn (Pointer (Name "struct st_mysql_client_plugin")) [Pointer (Name "struct st_mysql"); Pointer (Const (Name "char")); Name "int"])].

(** mysql/client_plugin.h, lines 143 to 145. *)
Definition functions_client_plugin_mysql_client_register_plugin : list declaration :=
  [declare [] "mysql_client_register_plugin" (Fn (Pointer (Name "struct st_mysql_client_plugin")) [Pointer (Name "struct st_mysql"); Pointer (Name "struct st_mysql_client_plugin")])].

(** mysql/client_plugin.h, lines 159 to 160. *)
Definition functions_client_plugin_mysql_plugin_options : list declaration :=
  [declare [] "mysql_plugin_options" (Fn (Name "int") [Pointer (Name "struct st_mysql_client_plugin"); Pointer (Const (Name "char")); Pointer (Const Void)])].

(** mysql/service_thd_alloc.h, lines 87 to 103. *)
Definition functions_service_thd_alloc_thd_alloc : list declaration :=
  [declare [(false, "defined(MYSQL_DYNAMIC_PLUGIN)")] "thd_alloc" (Fn (Pointer Void) [Name "MYSQL_THD"; Name "unsigned int"]);
   declare [(false, "defined(MYSQL_DYNAMIC_PLUGIN)")] "thd_calloc" (Fn (Pointer Void) [Name "MYSQL_THD"; Name "unsigned int"]);
   declare [(false, "defined(MYSQL_DYNAMIC_PLUGIN)")] "thd_strdup" (Fn (Pointer (Name "char")) [Name "MYSQL_THD"; Pointer (Const (Name "char"))]);
   declare [(false, "defined(MYSQL_DYNAMIC_PLUGIN)")] "thd_strmake" (Fn (Pointer (Name "char")) [Name "MYSQL_THD"; Pointer (Const (Name "char")); Name "unsigned int"]);
   declare [(false, "defined(MYSQL_DYNAMIC_PLUGIN)")] "thd_memdup" (Fn (Pointer Void) [Name "MYSQL_THD"; Pointer (Const Void); Name "unsigned int"])].

(** mysql/service_thd_alloc.h, lines 118 to 120. *)
Definition functions_service_thd_alloc_thd_make_lex_string : list declaration :=
  [declare [(false, "defined(MYSQL_DYNAMIC_PLUGIN)")] "thd_make_lex_string" (Fn (Pointer (Name "MYSQL_LEX_STRING")) [Name "MYSQL_THD"; Pointer (Name "MYSQL_LEX_STRING"); Pointer (Const (Name "char")); Name "unsigned int"; Name "int"])].

(** mysql/service_thd_wait.h, lines 93 to 94. *)
Definition functions_service_thd_wait_thd_wait_begin : list declaration :=
  [declare [(false, "defined(MYSQL_DYNAMIC_PLUGIN)")] "thd_wait_begin" (Fn Void [Name "MYSQL_THD"; Name "int"]);
   declare [(false, "defined(MYSQL_DYNAMIC_PLUGIN)")] "thd_wait_end" (Fn Void [Name "MYSQL_THD"])].

(** mysql/service_thread_scheduler.h, lines 46 to 46. *)
Definition functions_service_thread_scheduler_my_thread_scheduler_set : list declaration :=
  [declare [(false, "defined(MYSQL_DYNAMIC_PLUGIN)")] "my_thread_scheduler_set" (Fn (Name "int") [Pointer (Name "struct scheduler_functions")])].

(** mysql/service_thread_scheduler.h, lines 57 to 57. *)
Definition functions_service_thread_scheduler_my_thread_scheduler_reset : list declaration :=
  [declare [(false, "defined(MYSQL_DYNAMIC_PLUGIN)")] "my_thread_scheduler_reset" (FnUnspecified (Name "int"))].

(** plugin.h, lines 535 to 546. *)
Definition functions_plugin_thd_in_lock_tables : list declaration :=
  [declare [] "thd_in_lock_tables" (Fn (Name "int") [Const (Name "MYSQL_THD")]);
   declare [] "thd_tablespace_op" (Fn (Name "int") [Const (Name "MYSQL_THD")]);
   declare [] "thd_test_options" (Fn (Name "long long") [Const (Name "MYSQL_THD"); Name "long long"]);
   declare [] "thd_sql_command" (Fn (Name "int") [Const (Name "MYSQL_THD")]);
   declare [] "thd_proc_info" (Fn (Pointer (Const (Name "char"))) [Name "MYSQL_THD"; Pointer (Const (Name "char"))]);
   declare [] "thd_ha_data" (Fn (Pointer (Pointer Void)) [Const (Name "MYSQL_THD"); Pointer (Const (Name "struct handlerton"))]);
   declare [] "thd_storage_lock_wait" (Fn Void [Name "MYSQL_THD"; Name "long long"]);
   declare [] "thd_tx_isolation" (Fn (Name "int") [Const (Name "MYSQL_THD")]);
   declare [] "thd_security_context" (Fn (Pointer (Name "char")) [Name "MYSQL_THD"; Pointer (Name "char"); Name "unsigned int"; Name "unsigned int"]);
   declare [] "thd_inc_row_count" (Fn Void [Name "MYSQL_THD"])].

(** plugin.h, lines 560 to 560. *)
Definition functions_plugin_mysql_tmpfile : list declaration :=
  [declare [] "mysql_tmpfile" (Fn (Name "int") [Pointer (Const (Name "char"))])].

(** plugin.h, lines 576 to 576. *)
Definition functions_plugin_thd_killed : list declaration :=
  [declare [] "thd_killed" (Fn (Name "int") [Const (Name "MYSQL_THD")])].

(** plugin.h, lines 585 to 585. *)
Definition functions_plugin_thd_get_thread_id : list declaration :=
  [declare [] "thd_get_thread_id" (Fn (Name "unsigned long") [Const (Name "MYSQL_THD")])].

(** plugin.h, lines 593 to 593. *)
Definition functions_plugin_thd_get_xid : list declaration :=
  [declare [] "thd_get_xid" (Fn Void [Const (Name "MYSQL_THD"); Pointer (Name "MYSQL_XID")])].

(** plugin.h, lines 603 to 605. *)
Definition functions_plugin_mysql_query_cache_invalidate4 : list declaration :=
  [declare [] "mysql_query_cache_invalidate4" (Fn Void [Name "MYSQL_THD"; Pointer (Const (Name "char")); Name "unsigned int"; Name "int"])].

(** plugin.h, lines 611 to 611. *)
Definition functions_plugin_thd_get_ha_data : list declaration :=
  [declare [] "thd_get_ha_data" (Fn (Pointer Void) [Const (Name "MYSQL_THD"); Pointer (Const (Name "struct handlerton"))])].

(** plugin.h, lines 635 to 636. *)
Definition functions_plugin_thd_set_ha_data : list declaration :=
  [declare [] "thd_set_ha_data" (Fn Void [Name "MYSQL_THD"; Pointer (Const (Name "struct handlerton")); Pointer (Const Void)])].

(** mysql/innodb_priv.h, lines 25 to 32. *)
Definition functions_innodb_priv_get_quote_char_for_identifier : list declaration :=
  [declare [] "get_quote_char_for_identifier" (Fn (Name "int") [Pointer (Name "THD"); Pointer (Const (Name "char")); Name "uint"]);
   declare [] "schema_table_store_record" (Fn (Name "bool") [Pointer (Name "THD"); Pointer (Name "TABLE")]);
   declare [] "localtime_to_TIME" (Fn Void [Pointer (Name "MYSQL_TIME"); Pointer (Name "struct tm")]);
   declare [] "check_global_access" (Fn (Name "bool") [Pointer (Name "THD"); Name "ulong"]);
   declare [] "strconvert" (Fn (Name "uint") [Pointer (Name "CHARSET_INFO"); Pointer (Const (Name "char")); Pointer (Name "CHARSET_INFO"); Pointer (Name "char"); Name "uint"; Pointer (Name "uint")]);
   declare [] "sql_print_error" (FnVariadic Void [Pointer (Const (Name "char"))])].

(** mysql/thread_pool_priv.h, lines 40 to 66. *)
Definition functions_thread_pool_priv_thd_get_scheduler_data : list declaration :=
  [declare [] "thd_get_scheduler_data" (Fn (Pointer Void) [Pointer (Name "THD")]);
   declare [] "thd_set_scheduler_data" (Fn Void [Pointer (Name "THD"); Pointer Void]);
   declare [] "thd_get_psi" (Fn (Pointer (Name "PSI_thread")) [Pointer (Name "THD")]);
   declare [] "thd_set_psi" (Fn Void [Pointer (Name "THD"); Pointer (Name "PSI_thread")]);
   declare [] "thd_set_killed" (Fn Void [Pointer (Name "THD")]);
   declare [] "thd_clear_errors" (Fn Void [Pointer (Name "THD")]);
   declare [] "thd_set_thread_stack" (Fn Void [Pointer (Name "THD"); Pointer (Name "char")]);
   declare [] "thd_lock_thread_count" (Fn Void [Pointer (Name "THD")]);
   declare [] "thd_unlock_thread_count" (Fn Void [Pointer (Name "THD")]);
   declare [] "thd_close_connection" (Fn Void [Pointer (Name "THD")]);
   declare [] "thd_get_current_thd" (FnUnspecified (Pointer (Name "THD")));
   declare [] "thd_new_connection_setup" (Fn Void [Pointer (Name "THD"); Pointer (Name "char")]);
   declare [] "thd_lock_data" (Fn Void [Pointer (Name "THD")]);
   declare [] "thd_unlock_data" (Fn Void [Pointer (Name "THD")]);
   declare [] "thd_is_transaction_active" (Fn (Name "bool") [Pointer (Name "THD")]);
   declare [] "thd_connection_has_data" (Fn (Name "int") [Pointer (Name "THD")]);
   declare [] "thd_set_net_read_write" (Fn Void [Pointer (Name "THD"); Name "uint"]);
   declare [] "thd_set_mysys_var" (Fn Void [Pointer (Name "THD"); Pointer (Name "st_my_thread_var")]);
   declare [] "thd_get_fd" (Fn (Name "my_socket") [Pointer (Name "THD")]);
   declare [] "sql_print_error" (FnVariadic Void [Pointer (Const (Name "char"))]);
   declare [] "schema_table_store_record" (Fn (Name "bool") [Pointer (Name "THD"); Pointer (Name "TABLE")])].

(** mysql/thread_pool_priv.h, lines 73 to 73. *)
Definition functions_thread_pool_priv_do_command : list declaration :=
  [declare [] "do_command" (Fn (Name "bool") [Pointer (Name "THD")])].

(** mysql/thread_pool_priv.h, lines 84 to 102. *)
Definition functions_thread_pool_priv_init_new_connection_handler_thread : list declaration :=
  [declare [] "init_new_connection_handler_thread" (FnUnspecified (Name "bool"));
   declare [] "setup_connection_thread_globals" (Fn (Name "bool") [Pointer (Name "THD")]);
   declare [] "thd_prepare_connection" (Fn (Name "bool") [Pointer (Name "THD")]);
   declare [] "mysql_audit_release" (Fn Void [Pointer (Name "THD")]);
   declare [] "thd_is_connection_alive" (Fn (Name "bool") [Pointer (Name "THD")]);
   declare [] "close_connection" (Fn Void [Pointer (Name "THD"); Name "uint"]);
   declare [] "end_connection" (Fn Void [Pointer (Name "THD")]);
   declare [] "thd_cleanup" (Fn Void [Pointer (Name "THD")]);
   declare [] "dec_connection_count" (FnUnspecified Void);
   declare [] "delete_thd" (Fn Void [Pointer (Name "THD")])].

(** mysql/thread_pool_priv.h, lines 118 to 120. *)
Definition functions_thread_pool_priv_inc_thread_created : list declaration :=
  [declare [] "inc_thread_created" (Fn Void []);
   declare [] "get_max_connections" (Fn (Name "ulong") []);
   declare [] "get_connection_attrib" (Fn (Pointer (Name "pthread_attr_t")) [])].

(** ** By header *)

Definition functions_of_my_global : list declaration :=
  functions_my_global_madvise ++ functions_my_global___cxa_pure_virtual.

Definition functions_of_my_pthread : list declaration :=
  functions_my_pthread_win_pthread_mutex_trylock ++ functions_my_pthread_sigwait ++ functions_my_pthread_my_sigwait ++
  functions_my_pthread_my_pthread_mutex_init ++ functions_my_pthread_sigwait_again ++ functions_my_pthread_my_pthread_cond_timedwait ++
  functions_my_pthread_my_pthread_getspecific_imp ++ functions_my_pthread_my_pthread_cond_timedwait_again ++ functions_my_pthread_my_pthread_attr_getstacksize ++
  functions_my_pthread_my_pthread_mutex_trylock ++ functions_my_pthread_safe_mutex_init ++ functions_my_pthread_fastmutex_global_init ++
  functions_my_pthread_rw_pr_init ++ functions_my_pthread_my_rw_init ++ functions_my_pthread_my_thread_global_init ++
  functions_my_pthread__my_thread_var.

Definition functions_of_m_ctype : list declaration :=
  functions_m_ctype_my_strnxfrm_simple ++ functions_m_ctype_my_well_formed_len_8bit.

Definition functions_of_typelib : list declaration :=
  functions_typelib_find_typeset ++ functions_typelib_find_type.

Definition functions_of_my_list : list declaration :=
  functions_my_list_list_add.

Definition functions_of_my_sys : list declaration :=
  functions_my_sys_my_malloc ++ functions_my_sys_my_get_large_page_size ++ functions_my_sys_my_b_copy_to_file ++
  functions_my_sys_my_copy ++ functions_my_sys_check_if_legal_filename ++ functions_my_sys_my_get_osfhandle ++
  functions_my_sys_init_tmpdir ++ functions_my_sys_init_dynamic_array2 ++ functions_my_sys_init_dynamic_string ++
  functions_my_sys_init_alloc_root ++ functions_my_sys_strmake_root ++ functions_my_sys_my_mmap ++
  functions_my_sys_my_getpagesize ++ functions_my_sys_my_security_attr_create ++ functions_my_sys_my_init_mysys_psi_keys.

Definition functions_of_m_string : list declaration :=
  functions_m_string_stpcpy ++ functions_m_string_bmove_upp ++ functions_m_string_my_strtod ++
  functions_m_string_llstr ++ functions_m_string_ll2str.

Definition functions_of_service_my_snprintf : list declaration :=
  functions_service_my_snprintf_my_snprintf.

Definition functions_of_my_dbug : list declaration :=
  functions_my_dbug__db_keyword_ ++ functions_my_dbug__db_suicide_ ++ functions_my_dbug_debug_sync_point.

Definition functions_of_my_dir : list declaration :=
  functions_my_dir_my_dir.

Definition functions_of_my_getopt : list declaration :=
  functions_my_getopt_handle_options.

Definition functions_of_my_xml : list declaration :=
  functions_my_xml_my_xml_parser_create.

Definition functions_of_mysql_com : list declaration :=
  functions_mysql_com_my_net_init ++ functions_mysql_com_randominit.

Definition functions_of_mysql : list declaration :=
  functions_mysql_mysql_server_init ++ functions_mysql_mysql_get_parameters ++ functions_mysql_mysql_thread_init ++
  functions_mysql_mysql_num_rows ++ functions_mysql_mysql_set_local_infile_handler ++ functions_mysql_mysql_stmt_init ++
  functions_mysql_mysql_connect.

Definition functions_of_decimal : list declaration :=
  functions_decimal_internal_str2dec.

Definition functions_of_errmsg : list declaration :=
  functions_errmsg_init_client_errs.

Definition functions_of_keycache : list declaration :=
  functions_keycache_init_key_cache.

Definition functions_of_sql_common : list declaration :=
  functions_sql_common_unpack_fields.

Definition functions_of_client_plugin : list declaration :=
  functions_client_plugin_mysql_load_plugin ++ functions_client_plugin_mysql_load_plugin_v ++ functions_client_plugin_mysql_client_find_plugin ++
  functions_client_plugin_mysql_client_register_plugin ++ functions_client_plugin_mysql_plugin_options.

Definition functions_of_service_thd_alloc : list declaration :=
  functions_service_thd_alloc_thd_alloc ++ functions_service_thd_alloc_thd_make_lex_string.

Definition functions_of_service_thd_wait : list declaration :=
  functions_service_thd_wait_thd_wait_begin.

Definition functions_of_service_thread_scheduler : list declaration :=
  functions_service_thread_scheduler_my_thread_scheduler_set ++ functions_service_thread_scheduler_my_thread_scheduler_reset.

Definition functions_of_plugin : list declaration :=
  functions_plugin_thd_in_lock_tables ++ functions_plugin_mysql_tmpfile ++ functions_plugin_thd_killed ++
  functions_plugin_thd_get_thread_id ++ functions_plugin_thd_get_xid ++ functions_plugin_mysql_query_cache_invalidate4 ++
  functions_plugin_thd_get_ha_data ++ functions_plugin_thd_set_ha_data.

Definition functions_of_innodb_priv : list declaration :=
  functions_innodb_priv_get_quote_char_for_identifier.

Definition functions_of_thread_pool_priv : list declaration :=
  functions_thread_pool_priv_thd_get_scheduler_data ++ functions_thread_pool_priv_do_command ++ functions_thread_pool_priv_init_new_connection_handler_thread ++
  functions_thread_pool_priv_inc_thread_created.

(** Each header with its functions. *)
Definition declared_functions : list (string * list declaration) :=
  [("my_global.h", functions_of_my_global);
   ("my_pthread.h", functions_of_my_pthread);
   ("m_ctype.h", functions_of_m_ctype);
   ("typelib.h", functions_of_typelib);
   ("my_list.h", functions_of_my_list);
   ("my_sys.h", functions_of_my_sys);
   ("m_string.h", functions_of_m_string);
   ("mysql/service_my_snprintf.h", functions_of_service_my_snprintf);
   ("my_dbug.h", functions_of_my_dbug);
   ("my_dir.h", functions_of_my_dir);
   ("my_getopt.h", functions_of_my_getopt);
   ("my_xml.h", functions_of_my_xml);
   ("mysql_com.h", functions_of_mysql_com);
   ("mysql.h", functions_of_mysql);
   ("decimal.h", functions_of_decimal);
   ("errmsg.h", functions_of_errmsg);
   ("keycache.h", functions_of_keycache);
   ("sql_common.h", functions_of_sql_common);
   ("mysql/client_plugin.h", functions_of_client_plugin);
   ("mysql/service_thd_alloc.h", functions_of_service_thd_alloc);
   ("mysql/service_thd_wait.h", functions_of_service_thd_wait);
   ("mysql/service_thread_scheduler.h", functions_of_service_thread_scheduler);
   ("plugin.h", functions_of_plugin);
   ("mysql/innodb_priv.h", functions_of_innodb_priv);
   ("mysql/thread_pool_priv.h", functions_of_thread_pool_priv)].
