(* ===== verification/Slots.v ===== *)
(** * Pointers to functions

    The structures of pointers through which the server, the character sets, the caches of files and the services
    of plugins are called, with the types of the pointers. *)
From S2P Require Import Prelude FunctionTypes DeclaredFunctions.
Open Scope string_scope.

(** The functions of struct my_collation_handler_st in m_ctype.h. *)
Definition collation_slots : list declaration :=
  [declare [] "init" (Pointer (Fn (Name "my_bool") [Pointer (Name "struct charset_info_st"); Pointer (Fn (Pointer Void) [Name "size_t"])]));
   declare [] "strnncoll" (Pointer (Fn (Name "int") [Pointer (Name "struct charset_info_st"); Pointer (Const (Name "uchar")); Name "size_t"; Pointer (Const (Name "uchar")); Name "size_t"; Name "my_bool"]));
   declare [] "strnncollsp" (Pointer (Fn (Name "int") [Pointer (Name "struct charset_info_st"); Pointer (Const (Name "uchar")); Name "size_t"; Pointer (Const (Name "uchar")); Name "size_t"; Name "my_bool"]));
   declare [] "strnxfrm" (Pointer (Fn (Name "size_t") [Pointer (Name "struct charset_info_st"); Pointer (Name "uchar"); Name "size_t"; Pointer (Const (Name "uchar")); Name "size_t"]));
   declare [] "strnxfrmlen" (Pointer (Fn (Name "size_t") [Pointer (Name "struct charset_info_st"); Name "size_t"]));
   declare [] "like_range" (Pointer (Fn (Name "my_bool") [Pointer (Name "struct charset_info_st"); Pointer (Const (Name "char")); Name "size_t"; Name "pchar"; Name "pchar"; Name "pchar"; Name "size_t"; Pointer (Name "char"); Pointer (Name "char"); Pointer (Name "size_t"); Pointer (Name "size_t")]));
   declare [] "wildcmp" (Pointer (Fn (Name "int") [Pointer (Name "struct charset_info_st"); Pointer (Const (Name "char")); Pointer (Const (Name "char")); Pointer (Const (Name "char")); Pointer (Const (Name "char")); Name "int"; Name "int"; Name "int"]));
   declare [] "strcasecmp" (Pointer (Fn (Name "int") [Pointer (Name "struct charset_info_st"); Pointer (Const (Name "char")); Pointer (Const (Name "char"))]));
   declare [] "instr" (Pointer (Fn (Name "uint") [Pointer (Name "struct charset_info_st"); Pointer (Const (Name "char")); Name "size_t"; Pointer (Const (Name "char")); Name "size_t"; Pointer (Name "my_match_t"); Name "uint"]));
   declare [] "hash_sort" (Pointer (Fn Void [Pointer (Name "struct charset_info_st"); Pointer (Const (Name "uchar")); Name "size_t"; Pointer (Name "ulong"); Pointer (Name "ulong")]));
   declare [] "propagate" (Pointer (Fn (Name "my_bool") [Pointer (Name "struct charset_info_st"); Pointer (Const (Name "uchar")); Name "size_t"]))].

(** The functions of struct my_charset_handler_st in m_ctype.h. *)
Definition charset_slots : list declaration :=
  [declare [] "init" (Pointer (Fn (Name "my_bool") [Pointer (Name "struct charset_info_st"); Pointer (Fn (Pointer Void) [Name "size_t"])]));
   declare [] "ismbchar" (Pointer (Fn (Name "uint") [Pointer (Name "struct charset_info_st"); Pointer (Const (Name "char")); Pointer (Const (Name "char"))]));
   declare [] "mbcharlen" (Pointer (Fn (Name "uint") [Pointer (Name "struct charset_info_st"); Name "uint"]));
   declare [] "numchars" (Pointer (Fn (Name "size_t") [Pointer (Name "struct charset_info_st"); Pointer (Const (Name "char")); Pointer (Const (Name "char"))]));
   declare [] "charpos" (Pointer (Fn (Name "size_t") [Pointer (Name "struct charset_info_st"); Pointer (Const (Name "char")); Pointer (Const (Name "char")); Name "size_t"]));
   declare [] "well_formed_len" (Pointer (Fn (Name "size_t") [Pointer (Name "struct charset_info_st"); Pointer (Const (Name "char")); Pointer (Const (Name "char")); Name "size_t"; Pointer (Name "int")]));
   declare [] "lengthsp" (Pointer (Fn (Name "size_t") [Pointer (Name "struct charset_info_st"); Pointer (Const (Name "char")); Name "size_t"]));
   declare [] "numcells" (Pointer (Fn (Name "size_t") [Pointer (Name "struct charset_info_st"); Pointer (Const (Name "char")); Pointer (Const (Name "char"))]));
   declare [] "mb_wc" (Name "my_charset_conv_mb_wc");
   declare [] "wc_mb" (Name "my_charset_conv_wc_mb");
   declare [] "ctype" (Pointer (Fn (Name "int") [Pointer (Name "struct charset_info_st"); Pointer (Name "int"); Pointer (Const (Name "uchar")); Pointer (Const (Name "uchar"))]));
   declare [] "caseup_str" (Pointer (Fn (Name "size_t") [Pointer (Name "struct charset_info_st"); Pointer (Name "char")]));
   declare [] "casedn_str" (Pointer (Fn (Name "size_t") [Pointer (Name "struct charset_info_st"); Pointer (Name "char")]));
   declare [] "caseup" (Name "my_charset_conv_case");
   declare [] "casedn" (Name "my_charset_conv_case");
   declare [] "snprintf" (Pointer (FnVariadic (Name "size_t") [Pointer (Name "struct charset_info_st"); Pointer (Name "char"); Name "size_t"; Pointer (Const (Name "char"))]));
   declare [] "long10_to_str" (Pointer (Fn (Name "size_t") [Pointer (Name "struct charset_info_st"); Pointer (Name "char"); Name "size_t"; Name "int"; Name "long"]));
   declare [] "longlong10_to_str" (Pointer (Fn (Name "size_t") [Pointer (Name "struct charset_info_st"); Pointer (Name "char"); Name "size_t"; Name "int"; Name "longlong"]));
   declare [] "fill" (Pointer (Fn Void [Pointer (Name "struct charset_info_st"); Pointer (Name "char"); Name "size_t"; Name "int"]));
   declare [] "strntol" (Pointer (Fn (Name "long") [Pointer (Name "struct charset_info_st"); Pointer (Const (Name "char")); Name "size_t"; Name "int"; Pointer (Pointer (Name "char")); Pointer (Name "int")]));
   declare [] "strntoul" (Pointer (Fn (Name "ulong") [Pointer (Name "struct charset_info_st"); Pointer (Const (Name "char")); Name "size_t"; Name "int"; Pointer (Pointer (Name "char")); Pointer (Name "int")]));
   declare [] "strntoll" (Pointer (Fn (Name "longlong") [Pointer (Name "struct charset_info_st"); Pointer (Const (Name "char")); Name "size_t"; Name "int"; Pointer (Pointer (Name "char")); Pointer (Name "int")]));
   declare [] "strntoull" (Pointer (Fn (Name "ulonglong") [Pointer (Name "struct charset_info_st"); Pointer (Const (Name "char")); Name "size_t"; Name "int"; Pointer (Pointer (Name "char")); Pointer (Name "int")]));
   declare [] "strntod" (Pointer (Fn (Name "double") [Pointer (Name "struct charset_info_st"); Pointer (Name "char"); Name "size_t"; Pointer (Pointer (Name "char")); Pointer (Name "int")]));
   declare [] "strtoll10" (Pointer (Fn (Name "longlong") [Pointer (Name "struct charset_info_st"); Pointer (Const (Name "char")); Pointer (Pointer (Name "char")); Pointer (Name "int")]));
   declare [] "strntoull10rnd" (Pointer (Fn (Name "ulonglong") [Pointer (Name "struct charset_info_st"); Pointer (Const (Name "char")); Name "size_t"; Name "int"; Pointer (Pointer (Name "char")); Pointer (Name "int")]));
   declare [] "scan" (Pointer (Fn (Name "size_t") [Pointer (Name "struct charset_info_st"); Pointer (Const (Name "char")); Pointer (Const (Name "char")); Name "int"]))].

(** The functions of struct st_io_cache in my_sys.h. *)
Definition io_cache_slots : list declaration :=
  [declare [] "read_function" (Pointer (Fn (Name "int") [Pointer (Name "struct st_io_cache"); Pointer (Name "uchar"); Name "size_t"]));
   declare [] "write_function" (Pointer (Fn (Name "int") [Pointer (Name "struct st_io_cache"); Pointer (Const (Name "uchar")); Name "size_t"]));
   declare [] "pre_read" (Name "IO_CACHE_CALLBACK");
   declare [] "post_read" (Name "IO_CACHE_CALLBACK");
   declare [] "pre_close" (Name "IO_CACHE_CALLBACK")].

(** The functions of struct st_mysql_methods in sql_common.h. *)
Definition method_slots : list declaration :=
  [declare [] "read_query_result" (Pointer (Fn (Name "my_bool") [Pointer (Name "MYSQL")]));
   declare [] "advanced_command" (Pointer (Fn (Name "my_bool") [Pointer (Name "MYSQL"); Name "enum enum_server_command"; Pointer (Const (Name "unsigned char")); Name "unsigned long"; Pointer (Const (Name "unsigned char")); Name "unsigned long"; Name "my_bool"; Pointer (Name "MYSQL_STMT")]));
   declare [] "read_rows" (Pointer (Fn (Pointer (Name "MYSQL_DATA")) [Pointer (Name "MYSQL"); Pointer (Name "MYSQL_FIELD"); Name "unsigned int"]));
   declare [] "use_result" (Pointer (Fn (Pointer (Name "MYSQL_RES")) [Pointer (Name "MYSQL")]));
   declare [] "fetch_lengths" (Pointer (Fn Void [Pointer (Name "unsigned long"); Name "MYSQL_ROW"; Name "unsigned int"]));
   declare [] "flush_use_result" (Pointer (Fn Void [Pointer (Name "MYSQL"); Name "my_bool"]));
   declare [] "read_change_user_result" (Pointer (Fn (Name "int") [Pointer (Name "MYSQL")]));
   declare [(true, "!defined(MYSQL_SERVER) || defined(EMBEDDED_LIBRARY)")] "list_fields" (Pointer (Fn (Pointer (Name "MYSQL_FIELD")) [Pointer (Name "MYSQL")]));
   declare [(true, "!defined(MYSQL_SERVER) || defined(EMBEDDED_LIBRARY)")] "read_prepare_result" (Pointer (Fn (Name "my_bool") [Pointer (Name "MYSQL"); Pointer (Name "MYSQL_STMT")]));
   declare [(true, "!defined(MYSQL_SERVER) || defined(EMBEDDED_LIBRARY)")] "stmt_execute" (Pointer (Fn (Name "int") [Pointer (Name "MYSQL_STMT")]));
   declare [(true, "!defined(MYSQL_SERVER) || defined(EMBEDDED_LIBRARY)")] "read_binary_rows" (Pointer (Fn (Name "int") [Pointer (Name "MYSQL_STMT")]));
   declare [(true, "!defined(MYSQL_SERVER) || defined(EMBEDDED_LIBRARY)")] "unbuffered_fetch" (Pointer (Fn (Name "int") [Pointer (Name "MYSQL"); Pointer (Pointer (Name "char"))]));
   declare [(true, "!defined(MYSQL_SERVER) || defined(EMBEDDED_LIBRARY)")] "free_embedded_thd" (Pointer (Fn Void [Pointer (Name "MYSQL")]));
   declare [(true, "!defined(MYSQL_SERVER) || defined(EMBEDDED_LIBRARY)")] "read_statistics" (Pointer (Fn (Pointer (Const (Name "char"))) [Pointer (Name "MYSQL")]));
   declare [(true, "!defined(MYSQL_SERVER) || defined(EMBEDDED_LIBRARY)")] "next_result" (Pointer (Fn (Name "my_bool") [Pointer (Name "MYSQL")]));
   declare [(true, "!defined(MYSQL_SERVER) || defined(EMBEDDED_LIBRARY)")] "read_rows_from_cursor" (Pointer (Fn (Name "int") [Pointer (Name "MYSQL_STMT")]))].

(** The functions of struct thd_alloc_service_st in mysql/service_thd_alloc.h. *)
Definition thd_alloc_slots : list declaration :=
  [declare [] "thd_alloc_func" (Pointer (Fn (Pointer Void) [Name "MYSQL_THD"; Name "unsigned int"]));
   declare [] "thd_calloc_func" (Pointer (Fn (Pointer Void) [Name "MYSQL_THD"; Name "unsigned int"]));
   declare [] "thd_strdup_func" (Pointer (Fn (Pointer (Name "char")) [Name "MYSQL_THD"; Pointer (Const (Name "char"))]));
   declare [] "thd_strmake_func" (Pointer (Fn (Pointer (Name "char")) [Name "MYSQL_THD"; Pointer (Const (Name "char")); Name "unsigned int"]));
   declare [] "thd_memdup_func" (Pointer (Fn (Pointer Void) [Name "MYSQL_THD"; Pointer (Const Void); Name "unsigned int"]));
   declare [] "thd_make_lex_string_func" (Pointer (Fn (Pointer (Name "MYSQL_LEX_STRING")) [Name "MYSQL_THD"; Pointer (Name "MYSQL_LEX_STRING"); Pointer (Const (Name "char")); Name "unsigned int"; Name "int"]))].

(** The functions of struct thd_wait_service_st in mysql/service_thd_wait.h. *)
Definition thd_wait_slots : list declaration :=
  [declare [] "thd_wait_begin_func" (Pointer (Fn Void [Name "MYSQL_THD"; Name "int"]));
   declare [] "thd_wait_end_func" (Pointer (Fn Void [Name "MYSQL_THD"]))].

(** The functions of struct my_snprintf_service_st in mysql/service_my_snprintf.h. *)
Definition my_snprintf_slots : list declaration :=
  [declare [] "my_snprintf_type" (Pointer (FnVariadic (Name "size_t") [Pointer (Name "char"); Name "size_t"; Pointer (Const (Name "char"))]));
   declare [] "my_vsnprintf_type" (Pointer (Fn (Name "size_t") [Pointer (Name "char"); Name "size_t"; Pointer (Const (Name "char")); Name "va_list"]))].

(** The functions of struct my_thread_scheduler_service in mysql/service_thread_scheduler.h. *)
Definition thread_scheduler_slots : list declaration :=
  [declare [] "set" (Pointer (Fn (Name "int") [Pointer (Name "struct scheduler_functions")]));
   declare [] "reset" (Pointer (FnUnspecified (Name "int")))].

(** Hooks of my_sys.h. *)
Definition hook_slots : list declaration :=
  [declare [] "error_handler_hook" (Pointer (Fn Void [Name "uint"; Pointer (Const (Name "char")); Name "myf"]));
   declare [] "fatal_error_handler_hook" (Pointer (Fn Void [Name "uint"; Pointer (Const (Name "char")); Name "myf"]))].
