(* ===== verification/Interfaces.v ===== *)
(** * Calls through pointers

    Which declared functions have the types of the pointers through which they are called, the macros that make
    such calls, and the services of plugins: a plugin that is compiled into the server calls their functions,
    one that is loaded calls through the tables of the server. *)
From stdpp Require Import strings.
From S2P Require Import Prelude FunctionTypes DeclaredTypes DeclaredFunctions Slots.

Definition table : list (string * ty) := table_of typedefs.
Definition all_functions : list declaration := flat_map snd declared_functions.
Definition find_declaration (n : string) (ds : list declaration) : option declaration :=
  find (fun d => String.eqb n (name d)) ds.

(** ** Character sets *)

(** The slot of a function of m_ctype.h by its name: my_<slot>_<character set>, the longest that fits;
    the functions for [ctype] are called my_mb_ctype. *)
Definition slot_prefix (s : declaration) : string :=
  if String.eqb (name s) "ctype" then "my_mb_ctype_" else "my_" +:+ name s +:+ "_".
Definition longer (s : declaration) (best : option declaration) : option declaration :=
  match best with
  | Some b => if (String.length (name b) <? String.length (name s))%nat then Some s else best
  | None => Some s
  end.
Definition slot_of (f : string) : option declaration :=
  foldr longer None (List.filter (fun s => String.prefix (slot_prefix s) f) (collation_slots ++ charset_slots)).

(** ** Macros that call through a pointer *)

Inductive argument := Arg (x : string) | Constant (z : Z).
#[export] Instance argument_eq_dec : EqDecision argument.
Proof. solve_decision. Defined.
Record dispatch := {
  macro : string;
  macro_parameters : option (list string);   (* none: the macro is only another name of the pointer *)
  slot : string;
  passed : list argument }.

Definition through (n : string) (xs : list string) (s : string) : dispatch :=
  {| macro := n; macro_parameters := Some xs; slot := s; passed := Arg <$> xs |}.

Definition charset_macros : list dispatch :=
  [through "my_strnxfrm" ["s"; "a"; "b"; "c"; "d"] "strnxfrm";
   {| macro := "my_strnncoll"; macro_parameters := Some ["s"; "a"; "b"; "c"; "d"]; slot := "strnncoll";
      passed := [Arg "s"; Arg "a"; Arg "b"; Arg "c"; Arg "d"; Constant 0] |};
   through "my_like_range" ["s"; "a"; "b"; "c"; "d"; "e"; "f"; "g"; "h"; "i"; "j"] "like_range";
   through "my_wildcmp" ["cs"; "s"; "se"; "w"; "we"; "e"; "o"; "m"] "wildcmp";
   through "my_strcasecmp" ["s"; "a"; "b"] "strcasecmp";
   through "my_charpos" ["cs"; "b"; "e"; "num"] "charpos";
   through "my_ismbchar" ["s"; "a"; "b"] "ismbchar";
   through "my_mbcharlen" ["s"; "a"] "mbcharlen";
   through "my_caseup_str" ["s"; "a"] "caseup_str";
   through "my_casedn_str" ["s"; "a"] "casedn_str";
   through "my_strntol" ["s"; "a"; "b"; "c"; "d"; "e"] "strntol";
   through "my_strntoul" ["s"; "a"; "b"; "c"; "d"; "e"] "strntoul";
   through "my_strntoll" ["s"; "a"; "b"; "c"; "d"; "e"] "strntoll";
   through "my_strntoull" ["s"; "a"; "b"; "c"; "d"; "e"] "strntoull";
   through "my_strntod" ["s"; "a"; "b"; "c"; "d"] "strntod"].

(** The commands of a client; [NULL] is 0. *)
Definition simple_command : dispatch :=
  {| macro := "simple_command"; macro_parameters := Some ["mysql"; "command"; "arg"; "length"; "skip_check"];
     slot := "advanced_command";
     passed := [Arg "mysql"; Arg "command"; Constant 0; Constant 0; Arg "arg"; Arg "length"; Arg "skip_check"; Constant 0] |}.
Definition stmt_command : dispatch :=
  {| macro := "stmt_command"; macro_parameters := Some ["mysql"; "command"; "arg"; "length"; "stmt"];
     slot := "advanced_command";
     passed := [Arg "mysql"; Arg "command"; Constant 0; Constant 0; Arg "arg"; Arg "length"; Constant 1; Arg "stmt"] |}.

(** The services, as a plugin sees them that is loaded into the server. *)
Definition thd_alloc_macros : list dispatch :=
  [through "thd_alloc" ["thd"; "size"] "thd_alloc_func";
   through "thd_calloc" ["thd"; "size"] "thd_calloc_func";
   through "thd_strdup" ["thd"; "str"] "thd_strdup_func";
   through "thd_strmake" ["thd"; "str"; "size"] "thd_strmake_func";
   through "thd_memdup" ["thd"; "str"; "size"] "thd_memdup_func";
   through "thd_make_lex_string" ["thd"; "lex_str"; "str"; "size"; "allocate_lex_string"] "thd_make_lex_string_func"].
Definition thd_wait_macros : list dispatch :=
  [through "thd_wait_begin" ["_THD"; "_WAIT_TYPE"] "thd_wait_begin_func";
   through "thd_wait_end" ["_THD"] "thd_wait_end_func"].
Definition thread_scheduler_macros : list dispatch :=
  [through "my_thread_scheduler_set" ["F"] "set"; through "my_thread_scheduler_reset" [] "reset"].
Definition my_snprintf_macros : list dispatch :=
  [{| macro := "my_vsnprintf"; macro_parameters := None; slot := "my_vsnprintf_type"; passed := [] |};
   {| macro := "my_snprintf"; macro_parameters := None; slot := "my_snprintf_type"; passed := [] |}].

(** Each table of a service with its macros and its functions. *)
Definition services : list (list declaration * list dispatch) :=
  [(thd_alloc_slots, thd_alloc_macros); (thd_wait_slots, thd_wait_macros);
   (thread_scheduler_slots, thread_scheduler_macros); (my_snprintf_slots, my_snprintf_macros)].

(** Functions of the library for the other pointers, by the names of both. *)
Definition implementations : list (list declaration * string * string) :=
  [(io_cache_slots, "read_function", "_my_b_read"); (io_cache_slots, "read_function", "_my_b_read_r");
   (io_cache_slots, "read_function", "_my_b_seq_read"); (io_cache_slots, "read_function", "_my_b_net_read");
   (io_cache_slots, "read_function", "_my_b_async_read");
   (io_cache_slots, "write_function", "_my_b_write"); (io_cache_slots, "write_function", "my_b_append");
   (method_slots, "advanced_command", "cli_advanced_command");
   (hook_slots, "error_handler_hook", "my_message"); (hook_slots, "error_handler_hook", "my_message_stderr");
   (hook_slots, "fatal_error_handler_hook", "my_message_stderr")].

(** ** Calls

    A platform gives signedness and width to its integer types; a value of another type is passed as it is.  [None]
    is a call that does not compile: too few or too many arguments. *)
Section Calls.
Context (v : string -> bool) (arithmetic : string -> option (bool * Z)).

Definition convert (t : ty) (z : Z) : Z :=
  match t with
  | Void => 0
  | Name n => match arithmetic n with Some (true, w) => swrap w z | Some (false, w) => uwrap w z | None => z end
  | _ => z
  end.
Fixpoint convert_arguments (ps : params) (zs : list Z) : option (list Z) :=
  match ps, zs with
  | NoMore, [] => Some []
  | Variadic, _ | Unspecified, _ => Some zs
  | Param t ps, z :: zs => cons (convert t z) <$> convert_arguments ps zs
  | _, _ => None
  end.

(** The calls so far with their results, and what a function returns next. *)
Definition history : Type := list (string * list Z * Z).
Definition behaviour : Type := history -> string -> list Z -> Z.

(** A call of the function [f] by an expression of type [t], a function or a pointer to one. *)
Definition call (server : behaviour) (h : history) (t : ty) (f : string) (zs : list Z) : option history :=
  match choose v (normal table t) with
  | Function ret ps | Pointer (Function ret ps) =>
    zs ← convert_arguments ps zs; Some (h ++ [(f, zs, convert ret (server h f zs))])%list
  | _ => None
  end.

(** A plugin in the server calls the functions. *)
Definition call_static (server : behaviour) (h : history) (f : string) (zs : list Z) : option history :=
  d ← find_declaration f all_functions; call server h (type d) f zs.

(** The expansion of a macro: the pointer and the arguments. *)
Definition value_of (env : list (string * Z)) (a : argument) : option Z :=
  match a with Constant z => Some z | Arg x => snd <$> find (fun p => String.eqb x p.1) env end.
Definition expand (d : dispatch) (zs : list Z) : option (list Z) :=
  match macro_parameters d with
  | None => Some zs
  | Some xs => if (length xs =? length zs)%nat then mapM (value_of (zip xs zs)) (passed d) else None
  end.
Definition find_service (f : string) : option (list declaration * dispatch) :=
  foldr (fun s r => match find (fun d => String.eqb f (macro d)) s.2 with Some d => Some (s.1, d) | None => r end) None services.

(** A plugin that is loaded calls the function that the server has put into the slot. *)
Definition call_dynamic (filled : string -> string) (server : behaviour) (h : history) (f : string) (zs : list Z) : option history :=
  '(slots, d) ← find_service f; s ← find_declaration (slot d) slots; zs ← expand d zs;
  call server h (type s) (filled (slot d)) zs.

(** A plugin chooses its next call by the results of the earlier ones, at most [n] times. *)
Definition plugin : Type := history -> option (string * list Z).
Fixpoint run (how : history -> string -> list Z -> option history) (p : plugin) (n : nat) (h : history) : option history :=
  match n, p h with
  | S n, Some (f, zs) => h ← how h f zs; run how p n h
  | _, _ => Some h
  end.
End Calls.

(** The names of the functions of services, and the server that puts each into the slot of its macro. *)
Definition service_functions : list string := flat_map (fun s => macro <$> s.2) services.
Definition fills (filled : string -> string) : bool :=
  forallb (fun f => match find_service f with Some (_, d) => String.eqb (filled (slot d)) f | None => false end) service_functions.

(** ** Lemmas *)

Definition fits (f s : declaration) : bool := ty_eqb (normal table (Pointer (type f))) (normal table (type s)).

Lemma typedefs_tabulated : tabulates typedefs (table_of typedefs) = true.
Proof. vm_compute. reflexivity. Qed.

Lemma same_chosen (v : string -> bool) (s t : ty) :
  same_type typedefs v s t <-> choose v (normal table s) = choose v (normal table t).
Proof. unfold table. exact (same_type_normal typedefs v s t typedefs_tabulated). Qed.

(** Nothing but the tables of the checks needs the typedefs themselves. *)
#[local] Opaque typedefs table.

Lemma fits_same (v : string -> bool) (f s : declaration) : fits f s = true -> same_type typedefs v (Pointer (type f)) (type s).
Proof. intros H%ty_eqb_eq. apply same_chosen. by f_equal. Qed.

Lemma find_declaration_some (n : string) (ds : list declaration) (d : declaration) :
  find_declaration n ds = Some d -> d ∈ ds /\ name d = n.
Proof. intros [Hin Hn]%find_some. apply String.eqb_eq in Hn. split; [by apply list_elem_of_In|done]. Qed.

Lemma alike_checked :
  forallb (fun d => match find_declaration (name d) all_functions with
                    | Some e => ty_eqb (normal table (type d)) (normal table (type e)) | None => false end) all_functions = true.
Proof. vm_compute. reflexivity. Qed.

(** The number of parameters of a pointer to a function. *)
Definition arity (t : ty) : option nat :=
  match normal table t with Pointer (Function _ ps) => Some (count ps) | _ => None end.

Lemma count_choose (v : string -> bool) (ps : params) : count (choose_params v ps) = count ps.
Proof. by induction ps; cbn; [..|f_equal]. Qed.

Lemma same_arity (v : string -> bool) (s t : ty) (m n : nat) :
  same_type typedefs v s t -> arity s = Some m -> arity t = Some n -> m = n.
Proof.
  intros H%same_chosen. revert H. unfold arity.
  destruct (normal table s) as [| | |[]| | |], (normal table t) as [| | |[]| | |]; try done.
  cbn. intros [= _ H] [= <-] [= <-]. by rewrite <- (count_choose v ps), H, count_choose.
Qed.

(** The type of the slot, or a different number of parameters. *)
Definition charset_function_check (f : declaration) : bool :=
  match slot_of (name f) with
  | None => true
  | Some s =>
    if String.eqb (name f) "my_wildcmp_unicode"
    then match arity (Pointer (type f)), arity (type s) with Some m, Some n => negb (m =? n)%nat | _, _ => false end
    else fits f s
  end.
Definition dispatch_check (slots : list declaration) (d : dispatch) : bool :=
  match find_declaration (slot d) slots, macro_parameters d with
  | Some s, Some xs =>
    match arity (type s) with Some n => (n =? length (passed d))%nat | None => false end &&
    forallb (fun x => (length (List.filter (fun a => match a with Arg y => String.eqb x y | _ => false end) (passed d)) =? 1)%nat) xs
  | _, _ => false
  end.

Lemma charset_functions_checked :
  forallb charset_function_check functions_of_m_ctype = true /\
  forallb (dispatch_check (collation_slots ++ charset_slots)) charset_macros = true /\
  forallb (dispatch_check method_slots) [simple_command; stmt_command] = true.
Proof. split_and!; vm_compute; reflexivity. Qed.

(** ** Theorems about declarations *)

(** Whatever the conditionals choose, two declarations of a function in any of the headers
    give it the same type. *)
Theorem declarations_alike (v : string -> bool) (f g : declaration) :
  f ∈ all_functions -> g ∈ all_functions -> name f = name g -> same_type typedefs v (type f) (type g).
Proof.
  intros Hf%list_elem_of_In Hg%list_elem_of_In Hn. pose proof alike_checked as Hc. rewrite forallb_forall in Hc.
  pose proof (Hc f Hf) as Cf. pose proof (Hc g Hg) as Cg. rewrite <- Hn in Cg.
  destruct (find_declaration (name f) all_functions) as [e|]; [|done].
  apply same_chosen. by rewrite (ty_eqb_eq _ _ Cf), (ty_eqb_eq _ _ Cg).
Qed.

Lemma dispatch_check_sound (slots : list declaration) (d : dispatch) : dispatch_check slots d = true ->
  exists s xs, find_declaration (slot d) slots = Some s /\ macro_parameters d = Some xs /\
    arity (type s) = Some (length (passed d)) /\
    Forall (fun x => length (List.filter (fun a => match a with Arg y => String.eqb x y | _ => false end) (passed d)) = 1%nat) xs.
Proof.
  unfold dispatch_check. destruct (find_declaration _ _) as [s|], (macro_parameters d) as [xs|]; try done.
  destruct (arity (type s)) as [n|] eqn:En; [|done]. rewrite andb_true_iff, Nat.eqb_eq, forallb_forall. intros [-> Hall].
  exists s, xs. split_and!; try done. apply Forall_forall. intros x Hx. apply Nat.eqb_eq, Hall, list_elem_of_In, Hx.
Qed.

(** C35.  Whatever the conditionals choose, every function of m_ctype.h that is named for a slot of the
    handlers of character sets has the type of the slot, with one exception: my_wildcmp_unicode has a parameter
    more.  Each macro that calls through a handler, and each of the two that send commands, passes as many
    arguments as the slot has parameters, each of its own arguments exactly once. *)
Theorem charset_calls (v : string -> bool) (f s : declaration) :
  f ∈ functions_of_m_ctype -> slot_of (name f) = Some s ->
  (same_type typedefs v (Pointer (type f)) (type s) <-> name f <> "my_wildcmp_unicode") /\
  Forall (fun p => exists s xs, find_declaration (slot p.2) p.1 = Some s /\ macro_parameters p.2 = Some xs /\
      arity (type s) = Some (length (passed p.2)) /\
      Forall (fun x => length (List.filter (fun a => match a with Arg y => String.eqb x y | _ => false end) (passed p.2)) = 1%nat) xs)
    (((fun d => (collation_slots ++ charset_slots, d)) <$> charset_macros) ++
     ((fun d => (method_slots, d)) <$> [simple_command; stmt_command]))%list.
Proof.
  destruct charset_functions_checked as (Hf & Hm & Hc). rewrite forallb_forall in Hf, Hm, Hc.
  intros Hin Hs. split.
  - specialize (Hf f (proj1 (list_elem_of_In _ _) Hin)). unfold charset_function_check in Hf. rewrite Hs in Hf.
    destruct (String.eqb_spec (name f) "my_wildcmp_unicode") as [E|E]; [|split; [done|intros _; by apply fits_same]].
    split; [|done]. intros Hsame. exfalso.
    destruct (arity (Pointer (type f))) as [m|] eqn:Em, (arity (type s)) as [n|] eqn:En; try done.
    rewrite (same_arity v _ _ _ _ Hsame Em En) in Hf. by rewrite Nat.eqb_refl in Hf.
  - apply Forall_app. split; apply Forall_fmap, Forall_forall; intros d Hd; apply dispatch_check_sound; cbn.
    + apply Hm, list_elem_of_In, Hd.
    + apply Hc, list_elem_of_In, Hd.
Qed.

(** The other pointers: those of caches and hooks are always right.  The command of the client is right where
    [ulong] is the one of my_global.h: the pointer is declared with unsigned long, the function with ulong. *)
Definition implementation_fits (x : list declaration * string * string) : bool :=
  match find_declaration x.1.2 x.1.1, find_declaration x.2 all_functions with
  | Some s, Some f => fits f s
  | _, _ => false
  end.
Lemma implementations_fit :
  forallb (fun x => eqb (implementation_fits x) (negb (String.eqb x.2 "cli_advanced_command"))) implementations = true.
Proof. vm_compute. reflexivity. Qed.

Lemma advanced_command_fits (v : string -> bool) (s f : declaration) :
  find_declaration "advanced_command" method_slots = Some s ->
  find_declaration "cli_advanced_command" all_functions = Some f ->
  v "!defined(HAVE_ULONG) && !defined(__USE_MISC)" = true -> same_type typedefs v (Pointer (type f)) (type s).
Proof.
  intros Hs Hf Hv. apply same_chosen. injection Hs as <-. injection Hf as <-.
  vm_compute in *. by rewrite Hv.
Qed.

Lemma declarations_alike_witness :
  exists f g, f ∈ functions_of_my_pthread /\ g ∈ functions_of_mysql_com /\ name f = "my_thread_init" /\
    same_type typedefs (fun _ => true) (type f) (type g).
Proof.
  exists (declare [] "my_thread_init" (Fn (Name "my_bool") [])), (declare [] "my_thread_init" (Fn (Name "my_bool") [])).
  assert (H : In (declare [] "my_thread_init" (Fn (Name "my_bool") [])) functions_of_my_pthread) by (cbn; tauto).
  assert (H' : In (declare [] "my_thread_init" (Fn (Name "my_bool") [])) functions_of_mysql_com) by (cbn; tauto).
  split; [by apply list_elem_of_In|]. split; [by apply list_elem_of_In|]. split; [reflexivity|].
  apply declarations_alike; [| |reflexivity]; apply list_elem_of_In, in_flat_map.
  - exists ("my_pthread.h", functions_of_my_pthread). split; [cbn; tauto|exact H].
  - exists ("mysql_com.h", functions_of_mysql_com). split; [cbn; tauto|exact H'].
Defined.

(** A function whose parameters have the promoted type pbool in a slot declared with pchar. *)
Lemma charset_calls_witness :
  exists f s, name f = "my_like_range_mb" /\ slot_of (name f) = Some s /\ name s = "like_range" /\
    same_type typedefs (fun _ => false) (Pointer (type f)) (type s).
Proof.
  destruct (find_declaration "my_like_range_mb" functions_of_m_ctype) as [f|] eqn:Ef; [|discriminate Ef].
  destruct (slot_of "my_like_range_mb") as [s|] eqn:Es; [|discriminate Es].
  apply find_declaration_some in Ef as [Hin Hn]. exists f, s. rewrite Hn.
  split; [reflexivity|]. split; [exact Es|]. split; [injection Es as <-; reflexivity|].
  apply (charset_calls (fun _ => false) f s); [exact Hin|rewrite Hn; exact Es|rewrite Hn; discriminate].
Defined.

(** ** Services *)

(** The arguments of a function with as many parameters. *)
Fixpoint exact_parameters (ps : params) : bool :=
  match ps with NoMore => true | Param _ ps => exact_parameters ps | _ => false end.
Definition parameters (t : ty) : option params :=
  match normal table t with Function _ ps => Some ps | _ => None end.

(** What the macros of services have in common: the function of the name has the type of the slot, and the
    macro passes its arguments as they are, as many as the function has parameters. *)
Definition service_check (f : string) : bool :=
  match find_service f, find_declaration f all_functions with
  | Some (slots, d), Some fd =>
    match find_declaration (slot d) slots, macro_parameters d, parameters (type fd) with
    | Some s, None, Some _ => fits fd s
    | Some s, Some xs, Some ps =>
      fits fd s && bool_decide (NoDup xs) && bool_decide (passed d = Arg <$> xs) &&
      ((exact_parameters ps && (count ps =? length xs)%nat) || (String.eqb f "my_thread_scheduler_reset" && (length xs =? 0)%nat))
    | _, _, _ => false
    end
  | _, _ => false
  end.
Lemma services_checked : forallb service_check service_functions = true.
Proof. vm_compute. reflexivity. Qed.

Lemma fits_normal (f s : declaration) : fits f s = true -> normal table (type s) = Pointer (normal table (type f)).
Proof. intros H%ty_eqb_eq. by rewrite <- H. Qed.

Lemma convert_arguments_exact (arithmetic : string -> option (bool * Z)) (v : string -> bool) (ps : params) (zs : list Z) :
  exact_parameters ps = true -> count ps <> length zs ->
  convert_arguments arithmetic (choose_params v ps) zs = None.
Proof.
  revert zs. induction ps as [| | |t ps IH]; intros [|z zs] He Hn; try done. cbn in *.
  rewrite IH; [done|done|lia].
Qed.

Lemma value_of_skip (env rest : list (string * Z)) (x : string) :
  x ∉ map fst env -> value_of (env ++ rest)%list (Arg x) = value_of rest (Arg x).
Proof.
  cbn. induction env as [|[y z] env IH]; cbn; [done|]. intros Hx. apply not_elem_of_cons in Hx as [Hy Hx].
  destruct (String.eqb_spec x y); [done|]. by apply IH.
Qed.

Lemma expand_passes (xs : list string) (zs : list Z) (env : list (string * Z)) : NoDup xs -> length xs = length zs ->
  (forall x, x ∈ xs -> x ∉ map fst env) -> mapM (value_of (env ++ zip xs zs)%list) (Arg <$> xs) = Some zs.
Proof.
  intros Hd. revert zs env. induction Hd as [|x xs Hx Hd IH]; intros [|z zs] env Hl He; try done.
  specialize (IH zs (env ++ [(x, z)])%list). rewrite <- app_assoc in IH.
  cbn [fmap list_fmap mapM zip zip_with mbind option_bind app] in *.
  rewrite IH; [|by injection Hl|].
  - rewrite value_of_skip by (apply He; left). cbn. by rewrite String.eqb_refl.
  - intros y Hy. rewrite map_app, not_elem_of_app. split; [apply He; by right|]. cbn. by intros ->%list_elem_of_singleton.
Qed.

(** A call of a function, of a pointer to it. *)
Lemma call_function (v : string -> bool) (arithmetic : string -> option (bool * Z)) (server : behaviour) (h : history)
    (fd s : declaration) (f : string) (zs : list Z) (ps : params) : parameters (type fd) = Some ps -> fits fd s = true ->
  call v arithmetic server h (type s) f zs = call v arithmetic server h (type fd) f zs /\
  (convert_arguments arithmetic (choose_params v ps) zs = None -> call v arithmetic server h (type fd) f zs = None).
Proof.
  intros Hps Hfit%fits_normal. unfold parameters, call in *. rewrite Hfit.
  destruct (normal table (type fd)); try done. injection Hps as ->. cbn. split; [done|]. by intros ->.
Qed.

(** One call of a service. *)
Lemma service_call_same (v : string -> bool) (arithmetic : string -> option (bool * Z)) (filled : string -> string)
    (server : behaviour) (h : history) (f : string) (zs : list Z) :
  fills filled = true -> f ∈ service_functions -> (f = "my_thread_scheduler_reset" -> zs = []) ->
  call_static v arithmetic server h f zs = call_dynamic v arithmetic filled server h f zs.
Proof.
  intros Hfill Hf%list_elem_of_In Hreset. pose proof services_checked as Hc. unfold fills in Hfill.
  rewrite forallb_forall in Hc, Hfill. specialize (Hc f Hf). specialize (Hfill f Hf). clear Hf.
  unfold service_check in Hc. unfold call_static, call_dynamic.
  destruct (find_service f) as [[slots d]|]; [|done]. apply String.eqb_eq in Hfill.
  destruct (find_declaration f all_functions) as [fd|]; [|done]. cbn [mbind option_bind].
  destruct (find_declaration (slot d) slots) as [s|]; [|done]. cbn [mbind option_bind]. rewrite Hfill.
  unfold expand. destruct (macro_parameters d) as [xs|]; destruct (parameters (type fd)) as [ps|] eqn:Eps; try done.
  - rewrite !andb_true_iff, orb_true_iff, !andb_true_iff, !bool_decide_eq_true, !Nat.eqb_eq, String.eqb_eq in Hc.
    destruct Hc as (((Hfit & Hnodup) & ->) & Hexact).
    destruct (call_function v arithmetic server h fd s f zs ps Eps Hfit) as [Hcall Hnone].
    destruct (Nat.eqb_spec (length xs) (length zs)) as [Hl|Hl].
    + pose proof (expand_passes xs zs [] Hnodup Hl) as He. cbn in He. rewrite He by (intros ?? []%not_elem_of_nil). by symmetry.
    + apply Hnone. destruct Hexact as [[Hx Hn]|[Hr Hn]]; [apply convert_arguments_exact; [done|lia]|].
      rewrite (Hreset Hr) in Hl. cbn in Hl. lia.
  - destruct (call_function v arithmetic server h fd s f zs ps Eps Hc) as [Hcall _]. by symmetry.
Qed.

(** C34.  A plugin that uses the services makes the same calls with the same converted arguments and
    gets the same results whether it is compiled into the server or loaded, whatever the functions do and on
    every platform, and it compiles in both ways or in none, provided the server puts each
    function into its slot; my_thread_scheduler_reset is declared without its parameters, so only the
    macro would reject arguments to it. *)
Theorem services_transparent (v : string -> bool) (arithmetic : string -> option (bool * Z)) (filled : string -> string)
    (server : behaviour) (p : plugin) (n : nat) (h : history) :
  fills filled = true ->
  (forall h f zs, p h = Some (f, zs) -> f ∈ service_functions /\ (f = "my_thread_scheduler_reset" -> zs = [])) ->
  run (call_static v arithmetic server) p n h = run (call_dynamic v arithmetic filled server) p n h.
Proof.
  intros Hfill Hp. revert h. induction n as [|n IH]; intros h; cbn [run]; [done|].
  destruct (p h) as [[f zs]|] eqn:E; [|done]. destruct (Hp h f zs E) as [Hf Hz].
  rewrite (service_call_same v arithmetic filled server h f zs Hfill Hf Hz).
  destruct (call_dynamic _ _ _ _ _ _ _); cbn [mbind option_bind]; [apply IH|done].
Qed.

(** A plugin that reports a wait and asks for a negative size, which the service gets as an unsigned int. *)
Definition waiting_plugin : plugin := fun h =>
  match h with
  | [] => Some ("thd_wait_begin", [1; 3])
  | [_] => Some ("thd_alloc", [1; -1])
  | _ => None
  end.
Definition server_slots (s : string) : string :=
  match find (fun p => String.eqb s p.1) (flat_map (fun x => (fun d => (slot d, macro d)) <$> x.2) services) with
  | Some p => p.2
  | None => ""
  end.
Definition ilp32 (n : string) : option (bool * Z) :=
  if String.eqb n "unsigned int" then Some (false, 32) else if String.eqb n "int" then Some (true, 32) else None.

Lemma services_transparent_witness :
  run (call_static (fun _ => true) ilp32 (fun _ _ _ => 4096)) waiting_plugin 3 [] =
    Some [("thd_wait_begin", [1; 3], 0); ("thd_alloc", [1; 4294967295], 4096)] /\
  run (call_static (fun _ => true) ilp32 (fun _ _ _ => 4096)) waiting_plugin 3 [] =
    run (call_dynamic (fun _ => true) ilp32 server_slots (fun _ _ _ => 4096)) waiting_plugin 3 [].
Proof.
  split; [vm_compute; reflexivity|].
  apply (services_transparent (fun _ => true) ilp32 server_slots (fun _ _ _ => 4096) waiting_plugin 3 []).
  - vm_compute. reflexivity.
  - intros [|x [|y h]] f zs E; try discriminate E; injection E as <- <-; (split; [|discriminate]);
      apply list_elem_of_In; vm_compute; tauto.
Defined.
