(* ===== verification/DeclaredVariables.v ===== *)
(** * The variables of the headers

    The variables that the headers declare, with their types and the conditionals around them. *)
From stdpp Require Import strings.
From S2P Require Import Prelude FunctionTypes DeclaredTypes DeclaredFunctions Interfaces.
Open Scope string_scope.

(** my_pthread.h, lines 228 to 228. *)
Definition variables_my_pthread_my_pthread_create_detached : list declaration :=
  [declare [(false, "defined(__WIN__)"); (true, "defined(PTHREAD_SCOPE_GLOBAL) && !defined(PTHREAD_SCOPE_SYSTEM)")] "my_pthread_create_detached" (Name "int")].

(** my_pthread.h, lines 789 to 789. *)
Definition variables_my_pthread_my_fast_mutexattr : list declaration :=
  [declare [(true, "defined(PTHREAD_ADAPTIVE_MUTEX_INITIALIZER_NP)")] "my_fast_mutexattr" (Name "pthread_mutexattr_t")].

(** my_pthread.h, lines 795 to 795. *)
Definition variables_my_pthread_my_errorcheck_mutexattr : list declaration :=
  [declare [(true, "defined(PTHREAD_ERRORCHECK_MUTEX_INITIALIZER_NP)")] "my_errorcheck_mutexattr" (Name "pthread_mutexattr_t")].

(** my_pthread.h, lines 859 to 859. *)
Definition variables_my_pthread_my_thread_end_wait_time : list declaration :=
  [declare [] "my_thread_end_wait_time" (Name "uint")].

(** my_pthread.h, lines 873 to 873. *)
Definition variables_my_pthread_thd_lib_detected : list declaration :=
  [declare [] "thd_lib_detected" (Name "uint")].

(** m_ctype.h, lines 67 to 69. *)
Definition variables_m_ctype_my_unicase_default : list declaration :=
  [declare [] "my_unicase_default" (Array (Pointer (Name "MY_UNICASE_INFO")) "256");
   declare [] "my_unicase_turkish" (Array (Pointer (Name "MY_UNICASE_INFO")) "256");
   declare [] "my_unicase_mysql500" (Array (Pointer (Name "MY_UNICASE_INFO")) "256")].

(** m_ctype.h, lines 78 to 78. *)
Definition variables_m_ctype_my_uni_ctype : list declaration :=
  [declare [] "my_uni_ctype" (Array (Name "MY_UNI_CTYPE") "256")].

(** m_ctype.h, lines 189 to 192. *)
Definition variables_m_ctype_my_collation_mb_bin_handler : list declaration :=
  [declare [] "my_collation_mb_bin_handler" (Name "MY_COLLATION_HANDLER");
   declare [] "my_collation_8bit_bin_handler" (Name "MY_COLLATION_HANDLER");
   declare [] "my_collation_8bit_simple_ci_handler" (Name "MY_COLLATION_HANDLER");
   declare [] "my_collation_ucs2_uca_handler" (Name "MY_COLLATION_HANDLER")].

(** m_ctype.h, lines 266 to 267. *)
Definition variables_m_ctype_my_charset_8bit_handler : list declaration :=
  [declare [] "my_charset_8bit_handler" (Name "MY_CHARSET_HANDLER");
   declare [] "my_charset_ucs2_handler" (Name "MY_CHARSET_HANDLER")].

(** m_ctype.h, lines 315 to 358. *)
Definition variables_m_ctype_my_charset_bin : list declaration :=
  [declare [] "my_charset_bin" (Name "CHARSET_INFO");
   declare [] "my_charset_latin1" (Name "CHARSET_INFO");
   declare [] "my_charset_filename" (Name "CHARSET_INFO");
   declare [] "my_charset_big5_chinese_ci" (Name "CHARSET_INFO");
   declare [] "my_charset_big5_bin" (Name "CHARSET_INFO");
   declare [] "my_charset_cp932_japanese_ci" (Name "CHARSET_INFO");
   declare [] "my_charset_cp932_bin" (Name "CHARSET_INFO");
   declare [] "my_charset_cp1250_czech_ci" (Name "CHARSET_INFO");
   declare [] "my_charset_eucjpms_japanese_ci" (Name "CHARSET_INFO");
   declare [] "my_charset_eucjpms_bin" (Name "CHARSET_INFO");
   declare [] "my_charset_euckr_korean_ci" (Name "CHARSET_INFO");
   declare [] "my_charset_euckr_bin" (Name "CHARSET_INFO");
   declare [] "my_charset_gb2312_chinese_ci" (Name "CHARSET_INFO");
   declare [] "my_charset_gb2312_bin" (Name "CHARSET_INFO");
   declare [] "my_charset_gbk_chinese_ci" (Name "CHARSET_INFO");
   declare [] "my_charset_gbk_bin" (Name "CHARSET_INFO");
   declare [] "my_charset_latin1_german2_ci" (Name "CHARSET_INFO");
   declare [] "my_charset_latin1_bin" (Name "CHARSET_INFO");
   declare [] "my_charset_latin2_czech_ci" (Name "CHARSET_INFO");
   declare [] "my_charset_sjis_japanese_ci" (Name "CHARSET_INFO");
   declare [] "my_charset_sjis_bin" (Name "CHARSET_INFO");
   declare [] "my_charset_tis620_thai_ci" (Name "CHARSET_INFO");
   declare [] "my_charset_tis620_bin" (Name "CHARSET_INFO");
   declare [] "my_charset_ucs2_general_ci" (Name "CHARSET_INFO");
   declare [] "my_charset_ucs2_bin" (Name "CHARSET_INFO");
   declare [] "my_charset_ucs2_unicode_ci" (Name "CHARSET_INFO");
   declare [] "my_charset_ucs2_general_mysql500_ci" (Name "CHARSET_INFO");
   declare [] "my_charset_ujis_japanese_ci" (Name "CHARSET_INFO");
   declare [] "my_charset_ujis_bin" (Name "CHARSET_INFO");
   declare [] "my_charset_utf16_bin" (Name "CHARSET_INFO");
   declare [] "my_charset_utf16_general_ci" (Name "CHARSET_INFO");
   declare [] "my_charset_utf16_unicode_ci" (Name "CHARSET_INFO");
   declare [] "my_charset_utf32_bin" (Name "CHARSET_INFO");
   declare [] "my_charset_utf32_general_ci" (Name "CHARSET_INFO");
   declare [] "my_charset_utf32_unicode_ci" (Name "CHARSET_INFO");
   declare [] "my_charset_utf8_general_ci" (Name "CHARSET_INFO");
   declare [] "my_charset_utf8_unicode_ci" (Name "CHARSET_INFO");
   declare [] "my_charset_utf8_bin" (Name "CHARSET_INFO");
   declare [] "my_charset_utf8_general_mysql500_ci" (Name "CHARSET_INFO");
   declare [] "my_charset_utf8mb4_bin" (Name "CHARSET_INFO");
   declare [] "my_charset_utf8mb4_general_ci" (Name "CHARSET_INFO");
   declare [] "my_charset_utf8mb4_unicode_ci" (Name "CHARSET_INFO")].

(** typelib.h, lines 47 to 47. *)
Definition variables_typelib_sql_protocol_typelib : list declaration :=
  [declare [] "sql_protocol_typelib" (Name "TYPELIB")].

(** my_sys.h, lines 163 to 163. *)
Definition variables_my_sys_debug_sync_C_callback_ptr : list declaration :=
  [declare [(true, "defined(ENABLED_DEBUG_SYNC)")] "debug_sync_C_callback_ptr" (Pointer (Fn Void [Pointer (Const (Name "char")); Name "size_t"]))].

(** my_sys.h, lines 204 to 221. *)
Definition variables_my_sys_errno : list declaration :=
  [declare [(false, "defined(errno)"); (false, "defined(HAVE_ERRNO_AS_DEFINE)")] "errno" (Name "int");
   declare [] "home_dir" (Pointer (Name "char"));
   declare [] "my_progname" (Pointer (Const (Name "char")));
   declare [] "curr_dir" (Array (Name "char") "");
   declare [] "error_handler_hook" (Pointer (Fn Void [Name "uint"; Pointer (Const (Name "char")); Name "myf"]));
   declare [] "fatal_error_handler_hook" (Pointer (Fn Void [Name "uint"; Pointer (Const (Name "char")); Name "myf"]));
   declare [] "my_file_limit" (Name "uint");
   declare [] "my_thread_stack_size" (Name "ulong");
   declare [] "proc_info_hook" (Pointer (Fn (Pointer (Const (Name "char"))) [Pointer Void; Pointer (Const (Name "char")); Pointer (Const (Name "char")); Pointer (Const (Name "char")); Const (Name "unsigned int")]));
   declare [(true, "defined(HAVE_LARGE_PAGES)")] "my_use_large_pages" (Name "my_bool");
   declare [(true, "defined(HAVE_LARGE_PAGES)")] "my_large_page_size" (Name "uint")].

(** my_sys.h, lines 226 to 259. *)
Definition variables_my_sys_default_charset_info : list declaration :=
  [declare [] "default_charset_info" (Pointer (Name "CHARSET_INFO"));
   declare [] "all_charsets" (Array (Pointer (Name "CHARSET_INFO")) "MY_ALL_CHARSETS_SIZE");
   declare [] "compiled_charsets" (Array (Name "CHARSET_INFO") "");
   declare [] "my_file_opened" (Name "ulong");
   declare [] "my_stream_opened" (Name "ulong");
   declare [] "my_tmp_file_created" (Name "ulong");
   declare [] "my_file_total_opened" (Name "ulong");
   declare [] "mysys_usage_id" (Name "uint");
   declare [] "my_init_done" (Name "my_bool");
   declare [] "my_sigtstp_cleanup" (Pointer (Fn Void []));
   declare [] "my_sigtstp_restart" (Pointer (Fn Void []));
   declare [] "my_abort_hook" (Pointer (Fn Void [Name "int"]));
   declare [] "my_umask" (Name "int");
   declare [] "my_umask_dir" (Name "int");
   declare [] "my_recived_signals" (Name "int");
   declare [] "my_safe_to_handle_signal" (Name "int");
   declare [] "my_dont_interrupt" (Name "int");
   declare [] "my_use_symdir" (Name "my_bool");
   declare [] "my_default_record_cache_size" (Name "ulong");
   declare [] "my_disable_locking" (Name "my_bool");
   declare [] "my_disable_async_io" (Name "my_bool");
   declare [] "my_disable_flush_key_blocks" (Name "my_bool");
   declare [] "my_disable_symlinks" (Name "my_bool");
   declare [] "wild_many" (Name "char");
   declare [] "wild_one" (Name "char");
   declare [] "wild_prefix" (Name "char");
   declare [] "charsets_dir" (Pointer (Const (Name "char")));
   declare [] "my_defaults_extra_file" (Pointer (Const (Name "char")));
   declare [] "my_defaults_group_suffix" (Pointer (Const (Name "char")));
   declare [] "my_defaults_file" (Pointer (Const (Name "char")));
   declare [] "timed_mutexes" (Name "my_bool")].

(** my_sys.h, lines 318 to 318. *)
Definition variables_my_sys_my_file_info : list declaration :=
  [declare [] "my_file_info" (Pointer (Name "struct st_my_file_info"))].

(** my_sys.h, lines 821 to 821. *)
Definition variables_my_sys_my_getopt_use_args_separator : list declaration :=
  [declare [] "my_getopt_use_args_separator" (Name "my_bool")].

(** my_sys.h, lines 936 to 936. *)
Definition variables_my_sys_have_tcpip : list declaration :=
  [declare [(true, "defined(__WIN__)")] "have_tcpip" (Name "my_bool")].

(** my_sys.h, lines 953 to 953. *)
Definition variables_my_sys_PSI_hook : list declaration :=
  [declare [(true, "defined(HAVE_PSI_INTERFACE)")] "PSI_hook" (Pointer (Name "struct PSI_bootstrap"))].

(** my_sys.h, lines 958 to 958. *)
Definition variables_my_sys_mysql_stdin : list declaration :=
  [declare [] "mysql_stdin" (Pointer (Name "struct st_mysql_file"))].

(** m_string.h, lines 77 to 78. *)
Definition variables_m_string_my_str_malloc : list declaration :=
  [declare [] "my_str_malloc" (Pointer (Fn (Pointer Void) [Name "size_t"]));
   declare [] "my_str_free" (Pointer (Fn Void [Pointer Void]))].

(** m_string.h, lines 90 to 91. *)
Definition variables_m_string__dig_vec_upper : list declaration :=
  [declare [] "_dig_vec_upper" (Array (Name "char") "");
   declare [] "_dig_vec_lower" (Array (Name "char") "")].

(** mysql/service_my_snprintf.h, lines 78 to 81. *)
Definition variables_service_my_snprintf_my_snprintf_service : list declaration :=
  [declare [] "my_snprintf_service" (Pointer (Name "struct my_snprintf_service_st"))].

(** my_dbug.h, lines 42 to 42. *)
Definition variables_my_dbug__dbug_on_ : list declaration :=
  [declare [(true, "!defined(DBUG_OFF) && !defined(_lint)")] "_dbug_on_" (Name "my_bool")].

(** my_getopt.h, lines 103 to 106. *)
Definition variables_my_getopt_disabled_my_option : list declaration :=
  [declare [] "disabled_my_option" (Pointer (Name "char"));
   declare [] "my_getopt_print_errors" (Name "my_bool");
   declare [] "my_getopt_skip_unknown" (Name "my_bool");
   declare [] "my_getopt_error_reporter" (Name "my_error_reporter")].

(** mysql.h, lines 77 to 78. *)
Definition variables_mysql_mysql_port : list declaration :=
  [declare [] "mysql_port" (Name "unsigned int");
   declare [] "mysql_unix_port" (Pointer (Name "char"))].

(** errmsg.h, lines 27 to 27. *)
Definition variables_errmsg_client_errors : list declaration :=
  [declare [] "client_errors" (Array (Pointer (Const (Name "char"))) "")].

(** keycache.h, lines 110 to 110. *)
Definition variables_keycache_dflt_key_cache_var : list declaration :=
  [declare [] "dflt_key_cache_var" (Name "KEY_CACHE");
   declare [] "dflt_key_cache" (Pointer (Name "KEY_CACHE"))].

(** sql_common.h, lines 27 to 29. *)
Definition variables_sql_common_unknown_sqlstate : list declaration :=
  [declare [] "unknown_sqlstate" (Pointer (Const (Name "char")));
   declare [] "cant_connect_sqlstate" (Pointer (Const (Name "char")));
   declare [] "not_error_sqlstate" (Pointer (Const (Name "char")))].

(** sql_common.h, lines 74 to 74. *)
Definition variables_sql_common_default_client_charset_info : list declaration :=
  [declare [] "default_client_charset_info" (Pointer (Name "CHARSET_INFO"))].

(** sql_common.h, lines 105 to 105. *)
Definition variables_sql_common_mysql_client_builtins : list declaration :=
  [declare [] "mysql_client_builtins" (Array (Pointer (Name "struct st_mysql_client_plugin")) "")].

(** mysql/service_thd_alloc.h, lines 45 to 53. *)
Definition variables_service_thd_alloc_thd_alloc_service : list declaration :=
  [declare [] "thd_alloc_service" (Pointer (Name "struct thd_alloc_service_st"))].

(** mysql/service_thd_wait.h, lines 80 to 83. *)
Definition variables_service_thd_wait_thd_wait_service : list declaration :=
  [declare [] "thd_wait_service" (Pointer (Name "struct thd_wait_service_st"))].

(** mysql/service_thread_scheduler.h, lines 27 to 30. *)
Definition variables_service_thread_scheduler_my_thread_scheduler_service : list declaration :=
  [declare [] "my_thread_scheduler_service" (Pointer (Name "struct my_thread_scheduler_service"))].

(** mysql/psi/psi.h, lines 1306 to 1306. *)
Definition variables_psi_PSI_server : list declaration :=
  [declare [] "PSI_server" (Pointer (Name "PSI"))].

Definition declared_variables : list declaration :=
  variables_my_pthread_my_pthread_create_detached ++ variables_my_pthread_my_fast_mutexattr ++ variables_my_pthread_my_errorcheck_mutexattr ++
  variables_my_pthread_my_thread_end_wait_time ++ variables_my_pthread_thd_lib_detected ++ variables_m_ctype_my_unicase_default ++
  variables_m_ctype_my_uni_ctype ++ variables_m_ctype_my_collation_mb_bin_handler ++ variables_m_ctype_my_charset_8bit_handler ++
  variables_m_ctype_my_charset_bin ++ variables_typelib_sql_protocol_typelib ++ variables_my_sys_debug_sync_C_callback_ptr ++
  variables_my_sys_errno ++ variables_my_sys_default_charset_info ++ variables_my_sys_my_file_info ++
  variables_my_sys_my_getopt_use_args_separator ++ variables_my_sys_have_tcpip ++ variables_my_sys_PSI_hook ++
  variables_my_sys_mysql_stdin ++ variables_m_string_my_str_malloc ++ variables_m_string__dig_vec_upper ++
  variables_service_my_snprintf_my_snprintf_service ++ variables_my_dbug__dbug_on_ ++ variables_my_getopt_disabled_my_option ++
  variables_mysql_mysql_port ++ variables_errmsg_client_errors ++ variables_keycache_dflt_key_cache_var ++
  variables_sql_common_unknown_sqlstate ++ variables_sql_common_default_client_charset_info ++ variables_sql_common_mysql_client_builtins ++
  variables_service_thd_alloc_thd_alloc_service ++ variables_service_thd_wait_thd_wait_service ++ variables_service_thread_scheduler_my_thread_scheduler_service ++
  variables_psi_PSI_server.

(** ** What the declarations have in common *)

(** A name is declared as a variable once, or as often under conditionals, and always with one type. *)
Definition alike (ds : list declaration) (d : declaration) : bool :=
  match find_declaration (name d) ds with Some e => ty_eqb (normal table (type d)) (normal table (type e)) | None => false end.

Lemma variables_checked :
  forallb (alike declared_variables) declared_variables = true /\
  forallb (fun d => match find_declaration (name d) all_functions with Some _ => false | None => true end) declared_variables = true.
Proof. split; by vm_compute. Qed.

(** Two declarations of a variable in any of the headers give it the same type, whatever the conditionals choose,
    and no variable has the name of a function. *)
Lemma variables_alike (v : string -> bool) (x y : declaration) : x ∈ declared_variables -> y ∈ declared_variables -> name x = name y ->
  same_type typedefs v (type x) (type y) /\ forall f, f ∈ all_functions -> name f <> name x.
Proof.
  intros Hx%list_elem_of_In Hy%list_elem_of_In Hn. destruct variables_checked as [C1 C2].
  rewrite forallb_forall in C1. pose proof (C1 x Hx) as Cx. pose proof (C1 y Hy) as Cy. unfold alike in Cx, Cy. rewrite <- Hn in Cy.
  split.
  - destruct (find_declaration (name x) declared_variables) as [e|]; [|done].
    apply same_chosen. by rewrite (ty_eqb_eq _ _ Cx), (ty_eqb_eq _ _ Cy).
  - intros f Hf Hfx. rewrite forallb_forall in C2. specialize (C2 x Hx). unfold find_declaration in C2.
    apply list_elem_of_In in Hf. destruct (find _ all_functions) eqn:E; [done|].
    apply (find_none _ _ E) in Hf. by rewrite Hfx, String.eqb_refl in Hf.
Qed.
