(* ===== verification/Plugins.v ===== *)
(** * Declarations of plugins (plugin.h, client_plugin.h)

    The types and licences of plugins, the versions of their interfaces, and the three objects that the declaration of
    a library of plugins defines.  (plugin.h is stored twice, byte for byte.) *)
From Stdlib Require Import Ascii.
From stdpp Require Import strings.
From S2P Require Import Prelude Layout Structs Protocol.

(** ** Numbers *)

Definition MYSQL_PLUGIN_INTERFACE_VERSION : Z := 0x0103.
Definition MYSQL_UDF_PLUGIN : Z := 0.
Definition MYSQL_STORAGE_ENGINE_PLUGIN : Z := 1.
Definition MYSQL_FTPARSER_PLUGIN : Z := 2.
Definition MYSQL_DAEMON_PLUGIN : Z := 3.
Definition MYSQL_INFORMATION_SCHEMA_PLUGIN : Z := 4.
Definition MYSQL_AUDIT_PLUGIN : Z := 5.
Definition MYSQL_REPLICATION_PLUGIN : Z := 6.
Definition MYSQL_AUTHENTICATION_PLUGIN : Z := 7.
Definition MYSQL_MAX_PLUGIN_TYPE_NUM : Z := 8.
Definition plugin_types : list Z :=
  [MYSQL_UDF_PLUGIN; MYSQL_STORAGE_ENGINE_PLUGIN; MYSQL_FTPARSER_PLUGIN; MYSQL_DAEMON_PLUGIN; MYSQL_INFORMATION_SCHEMA_PLUGIN;
   MYSQL_AUDIT_PLUGIN; MYSQL_REPLICATION_PLUGIN; MYSQL_AUTHENTICATION_PLUGIN].

Definition MYSQL_CLIENT_reserved1 : Z := 0.
Definition MYSQL_CLIENT_reserved2 : Z := 1.
Definition MYSQL_CLIENT_AUTHENTICATION_PLUGIN : Z := 2.
Definition MYSQL_CLIENT_MAX_PLUGINS : Z := 3.
Definition MYSQL_CLIENT_AUTHENTICATION_PLUGIN_INTERFACE_VERSION : Z := 0x0100.

Definition PLUGIN_LICENSE_PROPRIETARY : Z := 0.
Definition PLUGIN_LICENSE_GPL : Z := 1.
Definition PLUGIN_LICENSE_BSD : Z := 2.
Definition PLUGIN_LICENSE_PROPRIETARY_STRING : string := "PROPRIETARY".
Definition PLUGIN_LICENSE_GPL_STRING : string := "GPL".
Definition PLUGIN_LICENSE_BSD_STRING : string := "BSD".

(** ** The objects of a declaration *)

(** The compiler and what is compiled. *)
Record plugin_build := { msc_ver : bool; dynamic_plugin : bool; cplusplus : bool }.
Definition MYSQL_PLUGIN_EXPORT (b : plugin_build) : list string :=
  if msc_ver b then
    if dynamic_plugin b then (if cplusplus b then ["extern C"; "__declspec(dllexport)"] else ["__declspec(dllexport)"])
    else (if cplusplus b then ["extern C"] else [])
  else [].

(** The values of the fields of a plugin, and the objects by their names. *)
Abbreviation plugin_entry := (list Z).
Record plugin_objects := {
  linkage : list string; version_name : string; version_value : Z; size_name : string; size_value : Z;
  array_name : string; array_value : list plugin_entry }.

(** The entry after the last plugin. *)
Definition mysql_declare_plugin_end : plugin_entry := [0; 0; 0; 0; 0; 0; 0; 0; 0; 0; 0; 0; 0].

Section Declare.
Context `{Platform}.
(** [NAME] and the names are those of the macro; a library that is loaded has names of its own. *)
Definition __MYSQL_DECLARE_PLUGIN (b : plugin_build) (NAME VERSION PSIZE DECLS : string) (plugins : list plugin_entry) : plugin_objects :=
  {| linkage := MYSQL_PLUGIN_EXPORT b;
     version_name := if dynamic_plugin b then "_mysql_plugin_interface_version_" else VERSION;
     version_value := MYSQL_PLUGIN_INTERFACE_VERSION;
     size_name := if dynamic_plugin b then "_mysql_sizeof_struct_st_plugin_" else PSIZE;
     size_value := sizeof st_mysql_plugin;
     array_name := if dynamic_plugin b then "_mysql_plugin_declarations_" else DECLS;
     array_value := (plugins ++ [mysql_declare_plugin_end])%list |}.
Definition mysql_declare_plugin (b : plugin_build) (NAME : string) (plugins : list plugin_entry) : plugin_objects :=
  __MYSQL_DECLARE_PLUGIN b NAME ("builtin_" +:+ NAME +:+ "_plugin_interface_version") ("builtin_" +:+ NAME +:+ "_sizeof_struct_st_plugin")
    ("builtin_" +:+ NAME +:+ "_plugin") plugins.

Definition object_names (o : plugin_objects) : list string := [version_name o; size_name o; array_name o].
End Declare.

(** A plugin of a client: the structure, the object, and what its first two fields name. *)
Definition mysql_declare_client_plugin (X : string) : string * string * list string :=
  ("st_mysql_client_plugin_" +:+ X, "_mysql_client_plugin_declaration_",
   ["MYSQL_CLIENT_" +:+ X +:+ "_PLUGIN"; "MYSQL_CLIENT_" +:+ X +:+ "_PLUGIN_INTERFACE_VERSION"]).
(** The constants of client plugins by their names. *)
Definition client_plugin_constant (n : string) : option Z :=
  snd <$> find (fun p => String.eqb n p.1)
    [("MYSQL_CLIENT_AUTHENTICATION_PLUGIN", MYSQL_CLIENT_AUTHENTICATION_PLUGIN);
     ("MYSQL_CLIENT_AUTHENTICATION_PLUGIN_INTERFACE_VERSION", MYSQL_CLIENT_AUTHENTICATION_PLUGIN_INTERFACE_VERSION)].

(** ** Theorems *)

Definition fields_of (t : ctype) : list (string * ctype) := match t with Struct fs => fs | _ => [] end.

(** The types number the plugins, those of clients too, and the entry that ends a declaration has a zero for every field of
    the structure. *)
Lemma plugin_numbers `{Platform} :
  plugin_types = seqZ 0 MYSQL_MAX_PLUGIN_TYPE_NUM /\
  [MYSQL_CLIENT_reserved1; MYSQL_CLIENT_reserved2; MYSQL_CLIENT_AUTHENTICATION_PLUGIN] = seqZ 0 MYSQL_CLIENT_MAX_PLUGINS /\
  map client_plugin_constant (mysql_declare_client_plugin "AUTHENTICATION").2 = [Some 2; Some 256] /\
  (length mysql_declare_plugin_end = length (fields_of st_mysql_plugin) /\ Forall (fun z => z = 0) mysql_declare_plugin_end).
Proof. split_and!; by repeat constructor. Qed.

Lemma string_app_assoc (a b c : string) : (a +:+ b) +:+ c = a +:+ (b +:+ c).
Proof. induction a as [|x a IH]; [done|]. exact (f_equal (String x) IH). Qed.

Lemma string_app_length (a b : string) : String.length (a +:+ b) = (String.length a + String.length b)%nat.
Proof. induction a as [|x a IH]; [done|]. exact (f_equal S IH). Qed.

Lemma string_app_cancel (a b c : string) : c +:+ a = c +:+ b -> a = b.
Proof. induction c as [|x c IH]; [done|]. intros E. by injection E as E%IH. Qed.

(** Two strings with ends of the same length are the same when their ends and the rest are. *)
Lemma string_app_ends (a b c d : string) : String.length c = String.length d -> a +:+ c = b +:+ d -> a = b /\ c = d.
Proof.
  revert b. induction a as [|x a IH]; intros [|y b] Hl E; [done|..].
  - exfalso. apply (f_equal String.length) in E. change (String.length c = S (String.length (b +:+ d))) in E.
    rewrite string_app_length in E. lia.
  - exfalso. apply (f_equal String.length) in E. change (S (String.length (a +:+ c)) = String.length d) in E.
    rewrite string_app_length in E. lia.
  - change (String x (a +:+ c) = String y (b +:+ d)) in E. injection E as -> E. by destruct (IH b Hl E) as [-> ->].
Qed.

Definition static_build (b : plugin_build) : Prop := dynamic_plugin b = false.

(** The libraries that are compiled into the server define different objects: all six names of two declarations are
    different, unless one library is named like the other with _sizeof_struct_st at the end.  In a library that is
    loaded the names do not depend on its own, so that the server finds them. *)
Theorem plugin_names `{Platform} (b : plugin_build) (N1 N2 : string) (p1 p2 : list plugin_entry) :
  (static_build b -> N1 <> N2 -> N1 <> N2 +:+ "_sizeof_struct_st" -> N2 <> N1 +:+ "_sizeof_struct_st" ->
   NoDup (object_names (mysql_declare_plugin b N1 p1) ++ object_names (mysql_declare_plugin b N2 p2))) /\
  (~ static_build b -> object_names (mysql_declare_plugin b N1 p1) = object_names (mysql_declare_plugin b N2 p2)).
Proof.
  unfold object_names, mysql_declare_plugin, __MYSQL_DECLARE_PLUGIN, static_build. split; cbn [version_name size_name array_name].
  - intros -> Hn H12 H21.
    assert (V : forall N N', N +:+ "_plugin_interface_version" <> N' +:+ "_plugin").
    { intros N N' E. destruct (string_app_ends (N +:+ "_plugin_interface_ve") (N' +:+ "_p") "rsion" "lugin") as [_ E'];
        [done|by rewrite !string_app_assoc|done]. }
    assert (W : forall N N', N +:+ "_plugin_interface_version" <> N' +:+ "_sizeof_struct_st_plugin").
    { intros N N' E. apply (V N (N' +:+ "_sizeof_struct_st")). by rewrite string_app_assoc. }
    assert (S : forall N N', N +:+ "_sizeof_struct_st_plugin" = N' +:+ "_plugin" -> N' = N +:+ "_sizeof_struct_st").
    { intros N N' E. destruct (string_app_ends (N +:+ "_sizeof_struct_st") N' "_plugin" "_plugin") as [E' _];
        [done|by rewrite string_app_assoc|done]. }
    assert (I : forall N, N <> N +:+ "_sizeof_struct_st").
    { intros N E. apply (f_equal String.length) in E. rewrite string_app_length in E. cbn [String.length] in E. lia. }
    assert (C : forall e, N1 +:+ e <> N2 +:+ e) by (intros e E; by apply (string_app_ends N1 N2 e e eq_refl) in E as [E _]).
    repeat (apply NoDup_cons_2; [rewrite ?not_elem_of_cons; split_and?; try apply not_elem_of_nil; intros E%string_app_cancel|]);
      try apply NoDup_nil_2;
      first [by apply V in E|by symmetry in E; apply V in E|by apply W in E|by symmetry in E; apply W in E|by apply C in E|idtac];
      first [apply S in E|symmetry in E; apply S in E]; first [by apply I in E|done].
  - intros Hd. by destruct (dynamic_plugin b).
Qed.
