(* ===== verification/Enumerations.v ===== *)
(** * The enumerations of the headers

    Every enumeration but those of commands and field types, which are in Protocol.v, with the rule of C for
    the values of enumerators.  The numbers travel between programs (in packets, options and plugins), so each
    must stand for one name. *)
From stdpp Require Import strings.
From S2P Require Import Prelude Protocol.

(** An enumerator and the value that its declaration gives it. *)
Abbreviation enumerator := (string * option Z)%type.

(** Without a value it is one more than the enumerator before, 0 at first. *)
Fixpoint enum_values (next : Z) (es : list enumerator) : list (string * Z) :=
  match es with
  | [] => []
  | (n, v) :: es => let z := default next v in (n, z) :: enum_values (z + 1) es
  end.

(** ** The enumerations *)

Definition MYSQL_VERSION_ID : Z := 50525.
(** What may be killed at a shutdown: (unsigned char)(1 << n). *)
Definition MYSQL_SHUTDOWN_KILLABLE_CONNECT : Z := u8 (Z.shiftl 1 0).
Definition MYSQL_SHUTDOWN_KILLABLE_TRANS : Z := u8 (Z.shiftl 1 1).
Definition MYSQL_SHUTDOWN_KILLABLE_LOCK_TABLE : Z := u8 (Z.shiftl 1 2).
Definition MYSQL_SHUTDOWN_KILLABLE_UPDATE : Z := u8 (Z.shiftl 1 3).

(** decimal.h, line 19. *)
Definition decimal_round_mode : list enumerator :=
  [("TRUNCATE", Some 0); ("HALF_EVEN", None); ("HALF_UP", None); ("CEILING", None); ("FLOOR", None)].

(** m_ctype.h, line 133. *)
Definition my_lex_states : list enumerator :=
  [("MY_LEX_START", None); ("MY_LEX_CHAR", None); ("MY_LEX_IDENT", None); ("MY_LEX_IDENT_SEP", None);
    ("MY_LEX_IDENT_START", None); ("MY_LEX_REAL", None); ("MY_LEX_HEX_NUMBER", None);
    ("MY_LEX_BIN_NUMBER", None); ("MY_LEX_CMP_OP", None); ("MY_LEX_LONG_CMP_OP", None); ("MY_LEX_STRING", None);
    ("MY_LEX_COMMENT", None); ("MY_LEX_END", None); ("MY_LEX_OPERATOR_OR_IDENT", None);
    ("MY_LEX_NUMBER_IDENT", None); ("MY_LEX_INT_OR_REAL", None); ("MY_LEX_REAL_OR_POINT", None);
    ("MY_LEX_BOOL", None); ("MY_LEX_EOL", None); ("MY_LEX_ESCAPE", None); ("MY_LEX_LONG_COMMENT", None);
    ("MY_LEX_END_LONG_COMMENT", None); ("MY_LEX_SEMICOLON", None); ("MY_LEX_SET_VAR", None);
    ("MY_LEX_USER_END", None); ("MY_LEX_HOSTNAME", None); ("MY_LEX_SKIP", None);
    ("MY_LEX_USER_VARIABLE_DELIMITER", None); ("MY_LEX_SYSTEM_VAR", None); ("MY_LEX_IDENT_OR_KEYWORD", None);
    ("MY_LEX_IDENT_OR_HEX", None); ("MY_LEX_IDENT_OR_BIN", None); ("MY_LEX_IDENT_OR_NCHAR", None);
    ("MY_LEX_STRING_OR_DELIMITER", None)].

(** m_string.h, line 127. *)
Definition my_gcvt_arg_type : list enumerator :=
  [("MY_GCVT_ARG_FLOAT", None); ("MY_GCVT_ARG_DOUBLE", None)].

(** my_getopt.h, line 50. *)
Definition get_opt_arg_type : list enumerator :=
  [("NO_ARG", None); ("OPT_ARG", None); ("REQUIRED_ARG", None)].

(** my_pthread.h, line 66. *)
Definition win_cond_EVENTS : list enumerator :=
  [("SIGNAL", Some 0); ("BROADCAST", Some 1); ("MAX_EVENTS", Some 2)].

(** my_sys.h, line 261. *)
Definition loglevel : list enumerator :=
  [("ERROR_LEVEL", None); ("WARNING_LEVEL", None); ("INFORMATION_LEVEL", None)].

(** my_sys.h, line 267. *)
Definition cache_type : list enumerator :=
  [("TYPE_NOT_SET", Some 0); ("READ_CACHE", None); ("WRITE_CACHE", None); ("SEQ_READ_APPEND", None);
    ("READ_FIFO", None); ("READ_NET", None); ("WRITE_NET", None)].

(** my_sys.h, line 273. *)
Definition flush_type : list enumerator :=
  [("FLUSH_KEEP", None); ("FLUSH_RELEASE", None); ("FLUSH_IGNORE_CHANGED", None); ("FLUSH_FORCE_WRITE", None)].

(** my_sys.h, line 299. *)
Definition file_type : list enumerator :=
  [("UNOPEN", Some 0); ("FILE_BY_OPEN", None); ("FILE_BY_CREATE", None); ("STREAM_BY_FOPEN", None);
    ("STREAM_BY_FDOPEN", None); ("FILE_BY_MKSTEMP", None); ("FILE_BY_DUP", None)].

(** my_xml.h, line 42. *)
Definition my_xml_node_type : list enumerator :=
  [("MY_XML_NODE_TAG", None); ("MY_XML_NODE_ATTR", None); ("MY_XML_NODE_TEXT", None)].

(** mysql.h, line 159. *)
Definition mysql_option : list enumerator :=
  [("MYSQL_OPT_CONNECT_TIMEOUT", None); ("MYSQL_OPT_COMPRESS", None); ("MYSQL_OPT_NAMED_PIPE", None);
    ("MYSQL_INIT_COMMAND", None); ("MYSQL_READ_DEFAULT_FILE", None); ("MYSQL_READ_DEFAULT_GROUP", None);
    ("MYSQL_SET_CHARSET_DIR", None); ("MYSQL_SET_CHARSET_NAME", None); ("MYSQL_OPT_LOCAL_INFILE", None);
    ("MYSQL_OPT_PROTOCOL", None); ("MYSQL_SHARED_MEMORY_BASE_NAME", None); ("MYSQL_OPT_READ_TIMEOUT", None);
    ("MYSQL_OPT_WRITE_TIMEOUT", None); ("MYSQL_OPT_USE_RESULT", None); ("MYSQL_OPT_USE_REMOTE_CONNECTION", None);
    ("MYSQL_OPT_USE_EMBEDDED_CONNECTION", None); ("MYSQL_OPT_GUESS_CONNECTION", None);
    ("MYSQL_SET_CLIENT_IP", None); ("MYSQL_SECURE_AUTH", None); ("MYSQL_REPORT_DATA_TRUNCATION", None);
    ("MYSQL_OPT_RECONNECT", None); ("MYSQL_OPT_SSL_VERIFY_SERVER_CERT", None); ("MYSQL_PLUGIN_DIR", None);
    ("MYSQL_DEFAULT_AUTH", None)].

(** mysql.h, line 214. *)
Definition mysql_status : list enumerator :=
  [("MYSQL_STATUS_READY", None); ("MYSQL_STATUS_GET_RESULT", None); ("MYSQL_STATUS_USE_RESULT", None);
    ("MYSQL_STATUS_STATEMENT_GET_RESULT", None)].

(** mysql.h, line 220. *)
Definition mysql_protocol_type : list enumerator :=
  [("MYSQL_PROTOCOL_DEFAULT", None); ("MYSQL_PROTOCOL_TCP", None); ("MYSQL_PROTOCOL_SOCKET", None);
    ("MYSQL_PROTOCOL_PIPE", None); ("MYSQL_PROTOCOL_MEMORY", None)].

(** mysql.h, line 478. *)
Definition enum_mysql_stmt_state : list enumerator :=
  [("MYSQL_STMT_INIT_DONE", Some 1); ("MYSQL_STMT_PREPARE_DONE", None); ("MYSQL_STMT_EXECUTE_DONE", None);
    ("MYSQL_STMT_FETCH_DONE", None)].

(** mysql.h, line 626. *)
Definition enum_stmt_attr_type : list enumerator :=
  [("STMT_ATTR_UPDATE_MAX_LENGTH", None); ("STMT_ATTR_CURSOR_TYPE", None); ("STMT_ATTR_PREFETCH_ROWS", None)].

(** mysql_com.h, line 404. *)
Definition mysql_enum_shutdown_level : list enumerator :=
  ([("SHUTDOWN_DEFAULT", Some 0); ("SHUTDOWN_WAIT_CONNECTIONS", Some MYSQL_SHUTDOWN_KILLABLE_CONNECT);
    ("SHUTDOWN_WAIT_TRANSACTIONS", Some MYSQL_SHUTDOWN_KILLABLE_TRANS);
    ("SHUTDOWN_WAIT_UPDATES", Some MYSQL_SHUTDOWN_KILLABLE_UPDATE);
    ("SHUTDOWN_WAIT_ALL_BUFFERS", Some (Z.shiftl MYSQL_SHUTDOWN_KILLABLE_UPDATE 1));
    ("SHUTDOWN_WAIT_CRITICAL_BUFFERS", Some (Z.shiftl MYSQL_SHUTDOWN_KILLABLE_UPDATE 1 + 1))] ++
   (if 50000 <=? MYSQL_VERSION_ID then [("KILL_QUERY", Some 254)] else []) ++
   [("KILL_CONNECTION", Some 255)])%list.

(** mysql_com.h, line 429. *)
Definition enum_cursor_type : list enumerator :=
  [("CURSOR_TYPE_NO_CURSOR", Some 0); ("CURSOR_TYPE_READ_ONLY", Some 1); ("CURSOR_TYPE_FOR_UPDATE", Some 2);
    ("CURSOR_TYPE_SCROLLABLE", Some 4)].

(** mysql_com.h, line 439. *)
Definition enum_mysql_set_option : list enumerator :=
  [("MYSQL_OPTION_MULTI_STATEMENTS_ON", None); ("MYSQL_OPTION_MULTI_STATEMENTS_OFF", None)].

(** mysql_com.h, line 484. *)
Definition Item_result : list enumerator :=
  [("STRING_RESULT", Some 0); ("REAL_RESULT", None); ("INT_RESULT", None); ("ROW_RESULT", None);
    ("DECIMAL_RESULT", None)].

(** mysql_time.h, line 28. *)
Definition enum_mysql_timestamp_type : list enumerator :=
  [("MYSQL_TIMESTAMP_NONE", Some (-2)); ("MYSQL_TIMESTAMP_ERROR", Some (-1)); ("MYSQL_TIMESTAMP_DATE", Some 0);
    ("MYSQL_TIMESTAMP_DATETIME", Some 1); ("MYSQL_TIMESTAMP_TIME", Some 2)].

(** mysql/plugin_auth_common.h, line 67. *)
Definition vio_protocol : list enumerator :=
  [("MYSQL_VIO_INVALID", None); ("MYSQL_VIO_TCP", None); ("MYSQL_VIO_SOCKET", None); ("MYSQL_VIO_PIPE", None);
    ("MYSQL_VIO_MEMORY", None)].

(** mysql/service_thd_wait.h, line 66. *)
Definition thd_wait_type : list enumerator :=
  [("THD_WAIT_SLEEP", Some 1); ("THD_WAIT_DISKIO", Some 2); ("THD_WAIT_ROW_LOCK", Some 3);
    ("THD_WAIT_GLOBAL_LOCK", Some 4); ("THD_WAIT_META_DATA_LOCK", Some 5); ("THD_WAIT_TABLE_LOCK", Some 6);
    ("THD_WAIT_USER_LOCK", Some 7); ("THD_WAIT_BINLOG", Some 8); ("THD_WAIT_GROUP_COMMIT", Some 9);
    ("THD_WAIT_SYNC", Some 10); ("THD_WAIT_LAST", Some 11)].

(** plugin.h, line 128. *)
Definition enum_mysql_show_type : list enumerator :=
  [("SHOW_UNDEF", None); ("SHOW_BOOL", None); ("SHOW_INT", None); ("SHOW_LONG", None); ("SHOW_LONGLONG", None);
    ("SHOW_CHAR", None); ("SHOW_CHAR_PTR", None); ("SHOW_ARRAY", None); ("SHOW_FUNC", None);
    ("SHOW_DOUBLE", None); ("SHOW_always_last", None)].

(** plugin_ftparser.h, line 28. *)
Definition enum_ftparser_mode : list enumerator :=
  [("MYSQL_FTPARSER_SIMPLE_MODE", Some 0); ("MYSQL_FTPARSER_WITH_STOPWORDS", Some 1);
    ("MYSQL_FTPARSER_FULL_BOOLEAN_INFO", Some 2)].

(** plugin_ftparser.h, line 76. *)
Definition enum_ft_token_type : list enumerator :=
  [("FT_TOKEN_EOF", Some 0); ("FT_TOKEN_WORD", Some 1); ("FT_TOKEN_LEFT_PAREN", Some 2);
    ("FT_TOKEN_RIGHT_PAREN", Some 3); ("FT_TOKEN_STOPWORD", Some 4)].

(** mysql/psi/psi.h, line 157. *)
Definition PSI_mutex_operation : list enumerator :=
  [("PSI_MUTEX_LOCK", Some 0); ("PSI_MUTEX_TRYLOCK", Some 1)].

(** mysql/psi/psi.h, line 166. *)
Definition PSI_rwlock_operation : list enumerator :=
  [("PSI_RWLOCK_READLOCK", Some 0); ("PSI_RWLOCK_WRITELOCK", Some 1); ("PSI_RWLOCK_TRYREADLOCK", Some 2);
    ("PSI_RWLOCK_TRYWRITELOCK", Some 3)].

(** mysql/psi/psi.h, line 179. *)
Definition PSI_cond_operation : list enumerator :=
  [("PSI_COND_WAIT", Some 0); ("PSI_COND_TIMEDWAIT", Some 1)].

(** mysql/psi/psi.h, line 188. *)
Definition PSI_file_operation : list enumerator :=
  [("PSI_FILE_CREATE", Some 0); ("PSI_FILE_CREATE_TMP", Some 1); ("PSI_FILE_OPEN", Some 2);
    ("PSI_FILE_STREAM_OPEN", Some 3); ("PSI_FILE_CLOSE", Some 4); ("PSI_FILE_STREAM_CLOSE", Some 5);
    ("PSI_FILE_READ", Some 6); ("PSI_FILE_WRITE", Some 7); ("PSI_FILE_SEEK", Some 8); ("PSI_FILE_TELL", Some 9);
    ("PSI_FILE_FLUSH", Some 10); ("PSI_FILE_STAT", Some 11); ("PSI_FILE_FSTAT", Some 12);
    ("PSI_FILE_CHSIZE", Some 13); ("PSI_FILE_DELETE", Some 14); ("PSI_FILE_RENAME", Some 15);
    ("PSI_FILE_SYNC", Some 16)].

(** All of them by name. *)
Definition enumerations : list (string * list enumerator) :=
  [("decimal_round_mode", decimal_round_mode); ("my_lex_states", my_lex_states); ("my_gcvt_arg_type", my_gcvt_arg_type);
   ("get_opt_arg_type", get_opt_arg_type); ("win_cond_EVENTS", win_cond_EVENTS); ("loglevel", loglevel);
   ("cache_type", cache_type); ("flush_type", flush_type); ("file_type", file_type);
   ("my_xml_node_type", my_xml_node_type); ("mysql_option", mysql_option); ("mysql_status", mysql_status);
   ("mysql_protocol_type", mysql_protocol_type); ("enum_mysql_stmt_state", enum_mysql_stmt_state); ("enum_stmt_attr_type", enum_stmt_attr_type);
   ("mysql_enum_shutdown_level", mysql_enum_shutdown_level); ("enum_cursor_type", enum_cursor_type); ("enum_mysql_set_option", enum_mysql_set_option);
   ("Item_result", Item_result); ("enum_mysql_timestamp_type", enum_mysql_timestamp_type); ("vio_protocol", vio_protocol);
   ("thd_wait_type", thd_wait_type); ("enum_mysql_show_type", enum_mysql_show_type); ("enum_ftparser_mode", enum_ftparser_mode);
   ("enum_ft_token_type", enum_ft_token_type); ("PSI_mutex_operation", PSI_mutex_operation); ("PSI_rwlock_operation", PSI_rwlock_operation);
   ("PSI_cond_operation", PSI_cond_operation); ("PSI_file_operation", PSI_file_operation)].

(** The old names of field types. *)
Definition field_type_aliases : list (string * enum_field_types) :=
  [("FIELD_TYPE_DECIMAL", MYSQL_TYPE_DECIMAL); ("FIELD_TYPE_NEWDECIMAL", MYSQL_TYPE_NEWDECIMAL);
   ("FIELD_TYPE_TINY", MYSQL_TYPE_TINY); ("FIELD_TYPE_SHORT", MYSQL_TYPE_SHORT);
   ("FIELD_TYPE_LONG", MYSQL_TYPE_LONG); ("FIELD_TYPE_FLOAT", MYSQL_TYPE_FLOAT);
   ("FIELD_TYPE_DOUBLE", MYSQL_TYPE_DOUBLE); ("FIELD_TYPE_NULL", MYSQL_TYPE_NULL);
   ("FIELD_TYPE_TIMESTAMP", MYSQL_TYPE_TIMESTAMP); ("FIELD_TYPE_LONGLONG", MYSQL_TYPE_LONGLONG);
   ("FIELD_TYPE_INT24", MYSQL_TYPE_INT24); ("FIELD_TYPE_DATE", MYSQL_TYPE_DATE);
   ("FIELD_TYPE_TIME", MYSQL_TYPE_TIME); ("FIELD_TYPE_DATETIME", MYSQL_TYPE_DATETIME);
   ("FIELD_TYPE_YEAR", MYSQL_TYPE_YEAR); ("FIELD_TYPE_NEWDATE", MYSQL_TYPE_NEWDATE);
   ("FIELD_TYPE_ENUM", MYSQL_TYPE_ENUM); ("FIELD_TYPE_SET", MYSQL_TYPE_SET);
   ("FIELD_TYPE_TINY_BLOB", MYSQL_TYPE_TINY_BLOB); ("FIELD_TYPE_MEDIUM_BLOB", MYSQL_TYPE_MEDIUM_BLOB);
   ("FIELD_TYPE_LONG_BLOB", MYSQL_TYPE_LONG_BLOB); ("FIELD_TYPE_BLOB", MYSQL_TYPE_BLOB);
   ("FIELD_TYPE_VAR_STRING", MYSQL_TYPE_VAR_STRING); ("FIELD_TYPE_STRING", MYSQL_TYPE_STRING);
   ("FIELD_TYPE_CHAR", MYSQL_TYPE_TINY); ("FIELD_TYPE_INTERVAL", MYSQL_TYPE_ENUM);
   ("FIELD_TYPE_GEOMETRY", MYSQL_TYPE_GEOMETRY); ("FIELD_TYPE_BIT", MYSQL_TYPE_BIT)].

(** ** Names and numbers *)

Definition encode (es : list enumerator) (n : string) : option Z :=
  snd <$> find (fun p => String.eqb n p.1) (enum_values 0 es).
Definition decode (es : list enumerator) (z : Z) : option string :=
  fst <$> find (fun p => z =? p.2) (enum_values 0 es).

(** ** Lemmas *)

Lemma find_unique {A} (f : A -> bool) (l : list A) (x : A) :
  x ∈ l -> f x = true -> (forall y, y ∈ l -> f y = true -> y = x) -> find f l = Some x.
Proof.
  intros Hin Hf Hu. destruct (find f l) as [y|] eqn:E.
  - apply find_some in E as [Hy Ey]. f_equal. apply Hu; [by apply list_elem_of_In|done].
  - apply list_elem_of_In in Hin. pose proof (find_none _ _ E x Hin). congruence.
Qed.

Lemma NoDup_fmap_inj {A B} (f : A -> B) (l : list A) (x y : A) : NoDup (f <$> l) -> x ∈ l -> y ∈ l -> f x = f y -> x = y.
Proof.
  intros Hd [i Hi]%list_elem_of_lookup [j Hj]%list_elem_of_lookup Hf.
  assert (i = j) as ->; [|congruence].
  apply (NoDup_lookup _ i j (f x) Hd); rewrite list_lookup_fmap; [by rewrite Hi|rewrite Hj; cbn; by rewrite Hf].
Qed.

Definition distinct (es : list enumerator) : bool :=
  bool_decide (NoDup (fst <$> enum_values 0 es)) && bool_decide (NoDup (snd <$> enum_values 0 es)) &&
  forallb (fun p => (-2 <=? p.2) && (p.2 <? 256)) (enum_values 0 es).
Lemma enumerations_distinct : forallb (fun e => distinct e.2) enumerations = true.
Proof. vm_compute. reflexivity. Qed.

(** In every enumeration of the headers a name and its number determine each other, by
    the rule of C for the values, so that a number that is received decodes to the name that was sent; the
    numbers fit 16 bits, and all but the two negative ones of timestamps a byte. *)
Theorem enumerations_roundtrip (e : string) (es : list enumerator) (n : string) (z : Z) :
  (e, es) ∈ enumerations -> (n, z) ∈ enum_values 0 es ->
  encode es n = Some z /\ decode es z = Some n /\ -2 <= z < 256.
Proof.
  intros He Hn. pose proof enumerations_distinct as Hd. rewrite forallb_forall in Hd.
  specialize (Hd _ (proj1 (list_elem_of_In _ _) He)). unfold distinct in Hd. cbn [snd] in Hd.
  rewrite !andb_true_iff, !bool_decide_eq_true, forallb_forall in Hd. destruct Hd as ((Hnames & Hvalues) & Hrange).
  specialize (Hrange _ (proj1 (list_elem_of_In _ _) Hn)). cbn [snd] in Hrange. unfold encode, decode. split_and!; [| |lia|lia].
  - rewrite (find_unique _ _ (n, z) Hn); [done|apply String.eqb_refl|].
    intros [m y] Hy Ey%String.eqb_eq. by apply (NoDup_fmap_inj fst _ _ _ Hnames Hy Hn).
  - rewrite (find_unique _ _ (n, z) Hn); [done|apply Z.eqb_refl|].
    intros [m y] Hy Ey%Z.eqb_eq. by apply (NoDup_fmap_inj snd _ _ _ Hvalues Hy Hn).
Qed.

Lemma enumerations_roundtrip_witness :
  encode mysql_enum_shutdown_level "SHUTDOWN_WAIT_CRITICAL_BUFFERS" = Some 17 /\
  decode mysql_enum_shutdown_level 17 = Some "SHUTDOWN_WAIT_CRITICAL_BUFFERS" /\ -2 <= 17 < 256.
Proof.
  apply (enumerations_roundtrip "mysql_enum_shutdown_level").
  - apply list_elem_of_In. vm_compute. tauto.
  - apply list_elem_of_In. vm_compute. tauto.
Defined.

(** The old names of field types are those of the new ones with another prefix, but for two synonyms; every type
    but VARCHAR, which is no type of the protocol, has one. *)
Lemma field_type_aliases_complete :
  Forall (fun t => t = MYSQL_TYPE_VARCHAR \/ exists n, (n, t) ∈ field_type_aliases) enum_field_types_all.
Proof.
  assert (Hb : forallb (fun t => bool_decide (t = MYSQL_TYPE_VARCHAR) || existsb (fun p => bool_decide (p.2 = t)) field_type_aliases)
    enum_field_types_all = true) by (vm_compute; reflexivity).
  apply Forall_forall. intros t Ht. rewrite forallb_forall in Hb. specialize (Hb t (proj1 (list_elem_of_In _ _) Ht)).
  apply orb_true_iff in Hb as [Hv|Hx]; [left; by apply bool_decide_eq_true in Hv|right].
  apply existsb_exists in Hx as ([n u] & Hin & Hu). apply bool_decide_eq_true in Hu. cbn in Hu. subst.
  exists n. by apply list_elem_of_In.
Qed.

(** The transports of the authentication plugins have the numbers of the protocols of the client. *)
Lemma vio_protocols :
  snd <$> enum_values 0 vio_protocol = snd <$> enum_values 0 mysql_protocol_type.
Proof. reflexivity. Qed.
