(* ===== verification/Flags.v ===== *)
(** * Flags

    The flag words of the headers: what a caller puts into a word with [|] and a function takes out with [&].
    The same bit has many names, for different functions; the groups of this file say which names meet
    in one word. *)
From stdpp Require Import strings.
From S2P Require Import Prelude.

(** ** The constants *)

(** Bits for the functions of mysys (my_sys.h). *)
Definition MY_FFNF : Z := 1.
Definition MY_FNABP : Z := 2.
Definition MY_NABP : Z := 4.
Definition MY_FAE : Z := 8.
Definition MY_WME : Z := 16.
Definition MY_WAIT_IF_FULL : Z := 32.
Definition MY_IGNORE_BADFD : Z := 32.
Definition MY_SYNC_DIR : Z := 8192.
Definition MY_UNUSED : Z := 64.
Definition MY_FULL_IO : Z := 512.
Definition MY_DONT_CHECK_FILESIZE : Z := 128.
Definition MY_LINK_WARNING : Z := 32.
Definition MY_COPYTIME : Z := 64.
Definition MY_DELETE_OLD : Z := 256.
Definition MY_RESOLVE_LINK : Z := 128.
Definition MY_HOLD_ORIGINAL_MODES : Z := 128.
Definition MY_REDEL_MAKE_BACKUP : Z := 256.
Definition MY_SEEK_NOT_DONE : Z := 32.
Definition MY_DONT_WAIT : Z := 64.
Definition MY_ZEROFILL : Z := 32.
Definition MY_ALLOW_ZERO_PTR : Z := 64.
Definition MY_FREE_ON_ERROR : Z := 128.
Definition MY_HOLD_ON_ERROR : Z := 256.
Definition MY_DONT_OVERWRITE_FILE : Z := 1024.
Definition MY_THREADSAFE : Z := 2048.
Definition MY_SYNC : Z := 4096.

(** Arguments of my_end (my_sys.h). *)
Definition MY_CHECK_ERROR : Z := 1.
Definition MY_GIVE_INFO : Z := 2.
Definition MY_DONT_FREE_DBUG : Z := 4.

(** Arguments of messages (my_sys.h). *)
Definition ME_HIGHBYTE : Z := 8.
Definition ME_NOCUR : Z := 1.
Definition ME_OLDWIN : Z := 2.
Definition ME_BELL : Z := 4.
Definition ME_HOLDTANG : Z := 8.
Definition ME_WAITTOT : Z := 16.
Definition ME_WAITTANG : Z := 32.
Definition ME_NOREFRESH : Z := 64.
Definition ME_NOINPUT : Z := 128.
Definition ME_COLOUR1 : Z := Z.shiftl 1 ME_HIGHBYTE.
Definition ME_COLOUR2 : Z := Z.shiftl 2 ME_HIGHBYTE.
Definition ME_COLOUR3 : Z := Z.shiftl 3 ME_HIGHBYTE.
Definition ME_FATALERROR : Z := 1024.

(** The last argument of fn_format (my_sys.h). *)
Definition MY_REPLACE_DIR : Z := 1.
Definition MY_REPLACE_EXT : Z := 2.
Definition MY_UNPACK_FILENAME : Z := 4.
Definition MY_PACK_FILENAME : Z := 8.
Definition MY_RESOLVE_SYMLINKS : Z := 16.
Definition MY_RETURN_REAL_PATH : Z := 32.
Definition MY_SAFE_PATH : Z := 64.
Definition MY_RELATIVE_PATH : Z := 128.
Definition MY_APPEND_EXT : Z := 256.

(** free_root (my_sys.h). *)
Definition MY_KEEP_PREALLOC : Z := 1.
Definition MY_MARK_BLOCKS_FREE : Z := 2.

(** get_date (my_sys.h). *)
Definition GETDATE_DATE_TIME : Z := 1.
Definition GETDATE_SHORT_DATE : Z := 2.
Definition GETDATE_HHMMSSTIME : Z := 4.
Definition GETDATE_GMT : Z := 8.
Definition GETDATE_FIXEDLENGTH : Z := 16.

(** my_dir (my_dir.h). *)
Definition MY_DONT_SORT : Z := 512.
Definition MY_WANT_STAT : Z := 1024.

(** caseup and fill (m_ctype.h). *)
Definition MY_SEQ_INTTAIL : Z := 1.
Definition MY_SEQ_SPACES : Z := 2.

(** States of character sets (m_ctype.h). *)
Definition MY_CS_COMPILED : Z := 1.
Definition MY_CS_CONFIG : Z := 2.
Definition MY_CS_INDEX : Z := 4.
Definition MY_CS_LOADED : Z := 8.
Definition MY_CS_BINSORT : Z := 16.
Definition MY_CS_PRIMARY : Z := 32.
Definition MY_CS_STRNXFRM : Z := 64.
Definition MY_CS_UNICODE : Z := 128.
Definition MY_CS_READY : Z := 256.
Definition MY_CS_AVAILABLE : Z := 512.
Definition MY_CS_CSSORT : Z := 1024.
Definition MY_CS_HIDDEN : Z := 2048.
Definition MY_CS_PUREASCII : Z := 4096.
Definition MY_CS_NONASCII : Z := 8192.
Definition MY_CS_UNICODE_SUPPLEMENT : Z := 16384.

(** Repertoires (m_ctype.h). *)
Definition MY_REPERTOIRE_ASCII : Z := 1.
Definition MY_REPERTOIRE_EXTENDED : Z := 2.
Definition MY_REPERTOIRE_UNICODE30 : Z := 3.

(** find_type (typelib.h). *)
Definition FIND_TYPE_BASIC : Z := 0.
Definition FIND_TYPE_NO_PREFIX : Z := Z.shiftl 1 0.
Definition FIND_TYPE_NO_OVERWRITE : Z := Z.shiftl 1 1.
Definition FIND_TYPE_ALLOW_NUMBER : Z := Z.shiftl 1 2.
Definition FIND_TYPE_COMMA_TERM : Z := Z.shiftl 1 3.

(** Types of options (my_getopt.h). *)
Definition GET_NO_ARG : Z := 1.
Definition GET_BOOL : Z := 2.
Definition GET_INT : Z := 3.
Definition GET_UINT : Z := 4.
Definition GET_LONG : Z := 5.
Definition GET_ULONG : Z := 6.
Definition GET_LL : Z := 7.
Definition GET_ULL : Z := 8.
Definition GET_STR : Z := 9.
Definition GET_STR_ALLOC : Z := 10.
Definition GET_DISABLED : Z := 11.
Definition GET_ENUM : Z := 12.
Definition GET_SET : Z := 13.
Definition GET_DOUBLE : Z := 14.
Definition GET_FLAGSET : Z := 15.
Definition GET_ASK_ADDR : Z := 128.
Definition GET_TYPE_MASK : Z := 127.

(** Results of decimal operations (decimal.h). *)
Definition E_DEC_OK : Z := 0.
Definition E_DEC_TRUNCATED : Z := 1.
Definition E_DEC_OVERFLOW : Z := 2.
Definition E_DEC_DIV_ZERO : Z := 4.
Definition E_DEC_BAD_NUM : Z := 8.
Definition E_DEC_OOM : Z := 16.
Definition E_DEC_ERROR : Z := 31.
Definition E_DEC_FATAL_ERROR : Z := 30.

(** The XML parser (my_xml.h). *)
Definition MY_XML_FLAG_RELATIVE_NAMES : Z := 1.
Definition MY_XML_FLAG_SKIP_TEXT_NORMALIZATION : Z := 2.

(** Options of plugins (plugin.h). *)
Definition PLUGIN_OPT_NO_INSTALL : Z := 1.
Definition PLUGIN_OPT_NO_UNINSTALL : Z := 2.

(** Full-text parsers (plugin_ftparser.h). *)
Definition MYSQL_FTFLAGS_NEED_COPY : Z := 1.

(** Classes of audit events (plugin_audit.h). *)
Definition MYSQL_AUDIT_GENERAL_CLASS : Z := 0.
Definition MYSQL_AUDIT_GENERAL_CLASSMASK : Z := Z.shiftl 1 MYSQL_AUDIT_GENERAL_CLASS.
Definition MYSQL_AUDIT_CONNECTION_CLASS : Z := 1.
Definition MYSQL_AUDIT_CONNECTION_CLASSMASK : Z := Z.shiftl 1 MYSQL_AUDIT_CONNECTION_CLASS.

(** ** Words of flags *)

(** What the caller writes, and the test of the function. *)
Definition flags_word (fs : list Z) : Z := foldr Z.lor 0 fs.
Definition has (w f : Z) : bool := negb (Z.land w f =? 0).

(** The flags that meet in the argument of a function, by the comments of the headers. *)
Definition flag_groups : list (string * list Z) :=
  [("my_open", [MY_FFNF; MY_FAE; MY_WME]);
   ("my_read, my_write", [MY_FNABP; MY_NABP; MY_FAE; MY_WME; MY_WAIT_IF_FULL; MY_FULL_IO]);
   ("my_sync", [MY_FAE; MY_WME; MY_IGNORE_BADFD]);
   ("my_create, my_delete, my_rename", [MY_FAE; MY_WME; MY_SYNC_DIR]);
   ("my_redel", [MY_FAE; MY_WME; MY_LINK_WARNING; MY_COPYTIME; MY_REDEL_MAKE_BACKUP]);
   ("my_copy", [MY_FNABP; MY_NABP; MY_FAE; MY_WME; MY_COPYTIME; MY_HOLD_ORIGINAL_MODES; MY_DONT_OVERWRITE_FILE; MY_SYNC]);
   ("my_create_with_symlink", [MY_FAE; MY_WME; MY_DELETE_OLD; MY_SYNC_DIR]);
   ("my_realpath", [MY_FAE; MY_WME; MY_RESOLVE_LINK]);
   ("my_lock", [MY_FAE; MY_WME; MY_SEEK_NOT_DONE; MY_DONT_WAIT]);
   ("my_seek", [MY_FAE; MY_WME; MY_THREADSAFE]);
   ("my_malloc", [MY_FAE; MY_WME; MY_ZEROFILL]);
   ("my_realloc", [MY_FAE; MY_WME; MY_ZEROFILL; MY_ALLOW_ZERO_PTR; MY_FREE_ON_ERROR; MY_HOLD_ON_ERROR]);
   ("init_io_cache", [MY_FNABP; MY_NABP; MY_FAE; MY_WME; MY_WAIT_IF_FULL; MY_DONT_CHECK_FILESIZE]);
   ("my_dir", [MY_FAE; MY_WME; MY_DONT_SORT; MY_WANT_STAT]);
   ("my_end", [MY_CHECK_ERROR; MY_GIVE_INFO; MY_DONT_FREE_DBUG]);
   ("my_message", [ME_NOCUR; ME_OLDWIN; ME_BELL; ME_HOLDTANG; ME_WAITTOT; ME_WAITTANG; ME_NOREFRESH; ME_NOINPUT; ME_FATALERROR;
                   ME_COLOUR1; ME_COLOUR2]);
   ("fn_format", [MY_REPLACE_DIR; MY_REPLACE_EXT; MY_UNPACK_FILENAME; MY_PACK_FILENAME; MY_RESOLVE_SYMLINKS; MY_RETURN_REAL_PATH;
                  MY_SAFE_PATH; MY_RELATIVE_PATH; MY_APPEND_EXT]);
   ("free_root", [MY_KEEP_PREALLOC; MY_MARK_BLOCKS_FREE]);
   ("get_date", [GETDATE_DATE_TIME; GETDATE_SHORT_DATE; GETDATE_HHMMSSTIME; GETDATE_GMT; GETDATE_FIXEDLENGTH]);
   ("scan", [MY_SEQ_INTTAIL; MY_SEQ_SPACES]);
   ("state of CHARSET_INFO", [MY_CS_COMPILED; MY_CS_CONFIG; MY_CS_INDEX; MY_CS_LOADED; MY_CS_BINSORT; MY_CS_PRIMARY; MY_CS_STRNXFRM;
      MY_CS_UNICODE; MY_CS_READY; MY_CS_AVAILABLE; MY_CS_CSSORT; MY_CS_HIDDEN; MY_CS_PUREASCII; MY_CS_NONASCII;
      MY_CS_UNICODE_SUPPLEMENT]);
   ("repertoire", [MY_REPERTOIRE_ASCII; MY_REPERTOIRE_EXTENDED]);
   ("find_type", [FIND_TYPE_NO_PREFIX; FIND_TYPE_NO_OVERWRITE; FIND_TYPE_ALLOW_NUMBER; FIND_TYPE_COMMA_TERM]);
   ("result of a decimal operation", [E_DEC_TRUNCATED; E_DEC_OVERFLOW; E_DEC_DIV_ZERO; E_DEC_BAD_NUM; E_DEC_OOM]);
   ("XML parser", [MY_XML_FLAG_RELATIVE_NAMES; MY_XML_FLAG_SKIP_TEXT_NORMALIZATION]);
   ("plugin", [PLUGIN_OPT_NO_INSTALL; PLUGIN_OPT_NO_UNINSTALL]);
   ("class_mask of st_mysql_audit", [MYSQL_AUDIT_GENERAL_CLASSMASK; MYSQL_AUDIT_CONNECTION_CLASSMASK])].

(** The tests of m_ctype.h on the state of a character set. *)
Definition my_binary_compare (state : Z) : Z := Z.land state MY_CS_BINSORT.
Definition use_strnxfrm (state : Z) : Z := Z.land state MY_CS_STRNXFRM.

(** ** Lemmas *)

Lemma has_lor (a b f : Z) : has (Z.lor a b) f = has a f || has b f.
Proof.
  unfold has. rewrite Z.land_lor_distr_l.
  destruct (Z.eqb_spec (Z.land a f) 0) as [->|Ha], (Z.eqb_spec (Z.land b f) 0) as [->|Hb]; cbn [Z.lor orb negb]; try done.
  all: apply negb_true_iff, Z.eqb_neq; rewrite Z.lor_eq_0_iff; tauto.
Qed.

Lemma has_word (fs : list Z) (f : Z) : has (flags_word fs) f = existsb (fun g => has g f) fs.
Proof. induction fs as [|g fs IH]; [done|]. cbn [flags_word foldr existsb]. by rewrite has_lor, <- IH. Qed.

(** Each flag of the group is tested by itself only. *)
Definition independent (fs : list Z) : bool :=
  forallb (fun f => (0 <? f) && (f <? 2 ^ 31) && forallb (fun g => eqb (has g f) (g =? f)) fs) fs.
Lemma groups_independent : forallb (fun g => independent g.2) flag_groups = true.
Proof. vm_compute. reflexivity. Qed.

Lemma word_bound (fs : list Z) (n : Z) : 0 <= n -> Forall (fun f => 0 <= f < 2 ^ n) fs -> 0 <= flags_word fs < 2 ^ n.
Proof.
  intros Hn. induction 1 as [|f fs Hf _ IH]; cbn [flags_word foldr]; [lia|]. fold (flags_word fs). split.
  - apply Z.lor_nonneg; lia.
  - destruct (Z.eq_dec (Z.lor f (flags_word fs)) 0) as [->|Hz]; [lia|].
    assert (0 <= Z.lor f (flags_word fs)) by (apply Z.lor_nonneg; lia).
    assert (n <> 0) by (intros ->; apply Hz; replace f with 0 by lia; replace (flags_word fs) with 0 by lia; done).
    apply Z.log2_lt_pow2; [lia|]. rewrite Z.log2_lor by lia.
    assert (Hlog : forall x, 0 <= x < 2 ^ n -> Z.log2 x < n).
    { intros x Hx. destruct (Z.eq_dec x 0) as [->|]; [cbn; lia|apply Z.log2_lt_pow2; lia]. }
    apply Z.max_lub_lt; auto.
Qed.

(** For every function of the headers that takes flags: whichever flags of its group the caller
    combines, the function finds exactly those in the word, and the word is a positive int. *)
Theorem flags_roundtrip (g : string) (fs chosen : list Z) (f : Z) :
  (g, fs) ∈ flag_groups -> chosen ⊆ fs -> f ∈ fs ->
  has (flags_word chosen) f = bool_decide (f ∈ chosen) /\ 0 <= flags_word chosen < 2 ^ 31.
Proof.
  intros Hg Hc Hf. pose proof groups_independent as Hi. rewrite forallb_forall in Hi.
  specialize (Hi _ (proj1 (list_elem_of_In _ _) Hg)). unfold independent in Hi. cbn [snd] in Hi. rewrite forallb_forall in Hi.
  assert (Hall : forall x, x ∈ fs -> 0 < x < 2 ^ 31 /\ forall y, y ∈ fs -> has y x = (y =? x)).
  { intros x Hx%list_elem_of_In. specialize (Hi x Hx). rewrite !andb_true_iff, forallb_forall in Hi.
    destruct Hi as [Hr Hh]. split; [lia|]. intros y Hy%list_elem_of_In. by apply eqb_prop, Hh. }
  split.
  - rewrite has_word. apply eq_bool_prop_intro. rewrite !Is_true_true, existsb_exists, bool_decide_eq_true. split.
    + intros (y & Hy%list_elem_of_In & Hh). rewrite (proj2 (Hall f Hf) y (Hc y Hy)) in Hh. by apply Z.eqb_eq in Hh as ->.
    + intros Hin. exists f. split; [by apply list_elem_of_In|]. rewrite (proj2 (Hall f Hf) f Hf). apply Z.eqb_refl.
  - apply word_bound; [lia|]. apply Forall_forall. intros x Hx. pose proof (Hall x (Hc x Hx)). lia.
Qed.

Lemma flags_roundtrip_witness :
  has (flags_word [MY_WME; MY_ZEROFILL]) MY_ZEROFILL = true /\ has (flags_word [MY_WME]) MY_ZEROFILL = false.
Proof.
  assert (Hg : ("my_malloc", [MY_FAE; MY_WME; MY_ZEROFILL]) ∈ flag_groups) by (apply list_elem_of_In; vm_compute; tauto).
  assert (Hf : MY_ZEROFILL ∈ [MY_FAE; MY_WME; MY_ZEROFILL]) by (apply list_elem_of_In; vm_compute; tauto).
  assert (H1 : [MY_WME; MY_ZEROFILL] ⊆ [MY_FAE; MY_WME; MY_ZEROFILL]) by (intros x Hx; right; exact Hx).
  assert (H2 : [MY_WME] ⊆ [MY_FAE; MY_WME; MY_ZEROFILL]).
  { intros x Hx. right. apply list_elem_of_singleton in Hx as ->. left. }
  split.
  - rewrite (proj1 (flags_roundtrip _ _ _ _ Hg H1 Hf)). reflexivity.
  - rewrite (proj1 (flags_roundtrip _ _ _ _ Hg H2 Hf)). reflexivity.
Defined.

(** Bits that have several meanings: the groups cannot be mixed. *)
Lemma shared_bits :
  MY_WAIT_IF_FULL = MY_IGNORE_BADFD /\ MY_WAIT_IF_FULL = MY_ZEROFILL /\ MY_WAIT_IF_FULL = MY_LINK_WARNING /\
  MY_DONT_SORT = MY_FULL_IO /\ MY_WANT_STAT = MY_DONT_OVERWRITE_FILE.
Proof. done. Qed.

(** The combined constants are the combinations they stand for. *)
Lemma combined_flags :
  ME_COLOUR3 = flags_word [ME_COLOUR1; ME_COLOUR2] /\
  MY_REPERTOIRE_UNICODE30 = flags_word [MY_REPERTOIRE_ASCII; MY_REPERTOIRE_EXTENDED] /\
  E_DEC_ERROR = flags_word [E_DEC_TRUNCATED; E_DEC_OVERFLOW; E_DEC_DIV_ZERO; E_DEC_BAD_NUM; E_DEC_OOM] /\
  E_DEC_FATAL_ERROR = flags_word [E_DEC_OVERFLOW; E_DEC_DIV_ZERO; E_DEC_BAD_NUM; E_DEC_OOM].
Proof. vm_compute. done. Qed.

(** The type of an option and the question for the address of its variable share a word. *)
Definition option_types : list Z :=
  [GET_NO_ARG; GET_BOOL; GET_INT; GET_UINT; GET_LONG; GET_ULONG; GET_LL; GET_ULL; GET_STR; GET_STR_ALLOC; GET_DISABLED; GET_ENUM;
   GET_SET; GET_DOUBLE; GET_FLAGSET].
Lemma option_type_word (t : Z) : t ∈ option_types ->
  Z.land (Z.lor t GET_ASK_ADDR) GET_TYPE_MASK = t /\ Z.land t GET_TYPE_MASK = t /\
  has (Z.lor t GET_ASK_ADDR) GET_ASK_ADDR = true /\ has t GET_ASK_ADDR = false.
Proof.
  intros Ht. assert (Hb : forallb (fun t => (Z.land (Z.lor t GET_ASK_ADDR) GET_TYPE_MASK =? t) && (Z.land t GET_TYPE_MASK =? t) &&
    has (Z.lor t GET_ASK_ADDR) GET_ASK_ADDR && negb (has t GET_ASK_ADDR)) option_types = true) by (vm_compute; reflexivity).
  rewrite forallb_forall in Hb. specialize (Hb t (proj1 (list_elem_of_In _ _) Ht)).
  rewrite !andb_true_iff, negb_true_iff, !Z.eqb_eq in Hb. tauto.
Qed.
