(* ===== verification/Compiler.v ===== *)
(** * Compilers

    What my_compiler.h and my_attribute.h make of a compiler: version tests, alignment of types and storage,
    attributes.  The conditionals are functions of the macros that a compiler predefines. *)
From stdpp Require Import strings.
From S2P Require Import Prelude Layout Structs.

(** ** The macros that compilers define *)

Record compiler := {
  GNUC : option Z; GNUC_MINOR : option Z;
  MSC_VER : option Z;
  SUNPRO_C : option Z; SUNPRO_CC : option Z;
  xlC : option Z;
  HP_aCC : option Z; HP_cc : option Z;
  cplusplus : bool }.

Definition is_defined (m : option Z) : bool := if m is Some _ then true else false.
(** In an [#if] a macro that is not defined is 0. *)
Definition number (m : option Z) : Z := default 0 m.

(** ** my_compiler.h *)

Definition MY_GNUC_PREREQ (c : compiler) (maj min : Z) : Z :=
  if is_defined (GNUC c)
  then Z.b2z (Z.shiftl maj 16 + min <=? Z.shiftl (number (GNUC c)) 16 + number (GNUC_MINOR c))
  else 0.

(** Whether the compiler has the alignment extensions of GNU C. *)
Definition MY_ALIGN_EXT (c : compiler) : bool :=
  if is_defined (GNUC c) then true
  else if is_defined (MSC_VER c) then false
  else if is_defined (SUNPRO_C c) || is_defined (SUNPRO_CC c) then 0x590 <=? number (SUNPRO_C c)
  else if is_defined (xlC c) then 0x0600 <=? number (xlC c)
  else if is_defined (HP_aCC c) || is_defined (HP_cc c) then (60000 <=? number (HP_aCC c)) || (60000 <=? number (HP_cc c))
  else false.

Inductive unreachable := Builtin_unreachable | Assert_false.
Definition MY_ASSERT_UNREACHABLE (c : compiler) : unreachable :=
  if is_defined (GNUC c) && negb (MY_GNUC_PREREQ c 4 5 =? 0) then Builtin_unreachable else Assert_false.

(** How MY_ALIGNED asks for an alignment. *)
Inductive request := Declspec | Attribute | No_request.
Definition MY_ALIGNED (c : compiler) : request :=
  if negb (is_defined (GNUC c)) && is_defined (MSC_VER c) then Declspec else if MY_ALIGN_EXT c then Attribute else No_request.

(** ** my_attribute.h *)

Definition GCC_VERSION (c : compiler) : Z :=
  if is_defined (GNUC c) then number (GNUC c) * 1000 + number (GNUC_MINOR c) else 0.
(** Whether the header defines __attribute__ away. *)
Definition attribute_disabled (c : compiler) : bool :=
  if negb (is_defined (GNUC c)) then true
  else if GCC_VERSION c <? 2008 then true
  else cplusplus c && (GCC_VERSION c <? 3004).
(** Whether the formats of functions, and of pointers to functions, are checked. *)
Definition ATTRIBUTE_FORMAT (c : compiler) : bool := negb (attribute_disabled c).
Definition ATTRIBUTE_FORMAT_FPTR (c : compiler) : bool :=
  if 3001 <=? GCC_VERSION c then ATTRIBUTE_FORMAT c else false.

(** ** Alignment of types and storage *)

Section Alignment.
Context `{Platform}.
(** The operator of the compiler, [__alignof] or [__alignof__]. *)
Context (operator : ctype -> Z).

(** The structure of which the generic definition takes the offset of [m2]. *)
Definition my_alignof_helper (t : ctype) : ctype := Struct [("m1", Scalar Char); ("m2", t)].
Definition MY_ALIGNOF (c : compiler) (t : ctype) : Z :=
  if is_defined (GNUC c) then operator t
  else if is_defined (MSC_VER c) then operator t
  else if MY_ALIGN_EXT c then operator t
  else default 0 (offsetof (my_alignof_helper t) "m2").

(** The empty structure with an alignment; [attributes] tells whether the attribute is kept when the template is
    compiled, which my_attribute.h decides when it is included before. *)
Definition aligned_empty (alignment : Z) : scalar := Opaque ("my_alignment_imp<" +:+ pretty.pretty alignment +:+ ">").
Definition my_alignment_imp (c : compiler) (attributes : bool) (alignment : Z) : ctype :=
  match MY_ALIGNED c with
  | Declspec => Scalar (aligned_empty alignment)
  | Attribute => if attributes then Scalar (aligned_empty alignment) else Scalar Char
  | No_request => Struct [("m1", Scalar Double)]
  end.
Definition my_aligned_storage (c : compiler) (attributes : bool) (size alignment : Z) : ctype :=
  Struct [("", Union [("data", Array (Scalar Char) size); ("align", my_alignment_imp c attributes alignment)])].
End Alignment.

(** ** Lemmas *)

(** Versions are compared part by part, as long as the minor version fits its 16 bits. *)
Lemma prereq_lexicographic (c : compiler) (maj min g : Z) : GNUC c = Some g ->
  0 <= min < 2 ^ 16 -> 0 <= number (GNUC_MINOR c) < 2 ^ 16 ->
  MY_GNUC_PREREQ c maj min = 1 <-> maj < g \/ (maj = g /\ min <= number (GNUC_MINOR c)).
Proof.
  intros Hg Hm Hn. unfold MY_GNUC_PREREQ. rewrite Hg. cbn [is_defined]. change (number (Some g)) with g.
  set (n := number (GNUC_MINOR c)) in *.
  rewrite !Z.shiftl_mul_pow2 by lia. change (2 ^ 16) with 65536 in *.
  destruct (Z.leb_spec (maj * 65536 + min) (g * 65536 + n)); cbn [Z.b2z]; lia.
Qed.

(** After my_attribute.h only GNU C, and GNU C++ from 3.4, keep the requests that are made by an attribute. *)
Lemma attribute_kept (c : compiler) : attribute_disabled c = false ->
  is_defined (GNUC c) = true /\ (cplusplus c = true -> 3004 <= GCC_VERSION c).
Proof.
  unfold attribute_disabled. destruct (is_defined (GNUC c)); [|done]. cbn [negb].
  destruct (GCC_VERSION c <? 2008); [done|]. destruct (cplusplus c); cbn; [|done]. intros ?%Z.ltb_ge. done.
Qed.

(** So the requests of the other compilers with the extension are lost in every use after the header. *)
Lemma requests_lost (c : compiler) : MY_ALIGNED c = Attribute -> is_defined (GNUC c) = false -> attribute_disabled c = true.
Proof. unfold attribute_disabled. by intros _ ->. Qed.

Section Alignment.
Context `{PlatformLaws} (operator : ctype -> Z) (c : compiler).

Lemma alignof_generic (t : ctype) : size_of_scalar Char = 1 -> offsetof (my_alignof_helper t) "m2" = Some (alignof t).
Proof.
  intros Hc. unfold offsetof, my_alignof_helper. cbn. rewrite Hc. unfold align_up.
  assert (Ha : align_of_scalar Char = 1).
  { pose proof (align_divides Char) as Hd. rewrite Hc in Hd. destruct (align_power Char) as (k & Hk & Hp).
    apply Z.divide_1_r_nonneg in Hd; [done|]. rewrite Hp. lia. }
  rewrite Ha. pose proof (alignof_pos t).
  replace ((0 + 1 - 1) / 1 * 1 + 1 + alignof t - 1) with (1 * alignof t) by (rewrite Z.div_0_l by lia; lia).
  rewrite Z.div_mul, Z.mul_1_l by lia. reflexivity.
Qed.

Lemma sizeof_union (fs : list (string * ctype)) (f : string * ctype) : f ∈ fs -> sizeof f.2 <= sizeof (Union fs).
Proof.
  intros Hf. cbn [sizeof]. pose proof (max_size_member fs f Hf).
  pose proof (align_up_spec (max_size sizeof fs) (max_align alignof fs) (max_align_pos fs)). lia.
Qed.
Lemma sizeof_single (f : string) (t : ctype) : 0 <= sizeof t -> sizeof t <= sizeof (Struct [(f, t)]).
Proof.
  intros Ht. cbn [sizeof end_of snd].
  pose proof (align_up_spec 0 (alignof t) (alignof_pos t)).
  pose proof (align_up_spec (align_up 0 (alignof t) + sizeof t) (max_align alignof [(f, t)]) (max_align_pos _)). lia.
Qed.

Lemma storage_size (attributes : bool) (size alignment : Z) : size_of_scalar Char = 1 -> 0 < size ->
  size <= sizeof (my_aligned_storage c attributes size alignment).
Proof.
  intros Hc Hs. unfold my_aligned_storage.
  set (fs := [("data", Array (Scalar Char) size); ("align", my_alignment_imp c attributes alignment)]).
  assert (Hu : size <= sizeof (Union fs)).
  { pose proof (sizeof_union fs ("data", Array (Scalar Char) size) (list_elem_of_here _ _)) as Hu.
    cbn [snd] in Hu. change (sizeof (Array (Scalar Char) size)) with (size * size_of_scalar Char) in Hu. rewrite Hc in Hu. lia. }
  etransitivity; [exact Hu|]. apply sizeof_single. lia.
Qed.

Lemma storage_alignment (attributes : bool) (size alignment : Z) :
  (alignof (my_alignment_imp c attributes alignment) | alignof (my_aligned_storage c attributes size alignment)).
Proof.
  unfold my_aligned_storage.
  set (fs := [("data", Array (Scalar Char) size); ("align", my_alignment_imp c attributes alignment)]).
  etransitivity; [apply (align_member fs ("align", my_alignment_imp c attributes alignment)); right; left|].
  apply (align_member [("", Union fs)] ("", Union fs)). left.
Qed.

(** On every platform and with every compiler whose operator, if it has one, gives the
    alignment, MY_ALIGNOF is the alignment of every type; and my_aligned_storage is large enough, and
    aligned as asked for if the compiler has a way to ask and keeps attributes, otherwise, without a way, as a
    double. *)
Theorem compiler_alignment (attributes : bool) (size alignment : Z) :
  size_of_scalar Char = 1 -> 0 < size -> (forall t, operator t = alignof t) ->
  align_of_scalar (aligned_empty alignment) = alignment ->
  (forall t, MY_ALIGNOF operator c t = alignof t) /\
  size <= sizeof (my_aligned_storage c attributes size alignment) /\
  (MY_ALIGNED c = Declspec \/ MY_ALIGNED c = Attribute /\ attributes = true ->
   (alignment | alignof (my_aligned_storage c attributes size alignment))) /\
  (MY_ALIGNED c = No_request -> (align_of_scalar Double | alignof (my_aligned_storage c attributes size alignment))).
Proof.
  intros Hc Hs Hop Ha. pose proof (storage_alignment attributes size alignment) as Hal. split_and!.
  - intros t. unfold MY_ALIGNOF. rewrite Hop, (alignof_generic t Hc). by repeat case_match.
  - by apply storage_size.
  - intros Hreq. replace alignment with (alignof (my_alignment_imp c attributes alignment)) at 1; [done|].
    unfold my_alignment_imp. by destruct Hreq as [->|[-> ->]].
  - intros Hno. etransitivity; [|exact Hal]. unfold my_alignment_imp. rewrite Hno.
    apply (align_member [("m1", Scalar Double)] ("m1", Scalar Double)). left.
Qed.
End Alignment.

(** Visual C++ on a platform of 64 bits, and storage with the alignment of a pointer. *)
Definition msvc : compiler :=
  {| GNUC := None; GNUC_MINOR := None; MSC_VER := Some 1600; SUNPRO_C := None; SUNPRO_CC := None; xlC := None;
     HP_aCC := None; HP_cc := None; cplusplus := true |}.
Lemma compiler_alignment_witness :
  MY_ALIGNOF (H := linux64) (alignof (H := linux64)) msvc (Array (Scalar Int) 3) = 4 /\
  (8 | alignof (H := linux64) (my_aligned_storage msvc false 12 8)).
Proof.
  assert (Hlaws : PlatformLaws (H := linux64)) by (apply data_model_laws; right; left).
  destruct (@compiler_alignment linux64 Hlaws (alignof (H := linux64)) msvc false 12 8) as (H1 & H2 & H3 & H4).
  - reflexivity.
  - lia.
  - reflexivity.
  - reflexivity.
  - split; [apply H1|]. apply H3. left. reflexivity.
Defined.
