(* ===== verification/InlineFunctions.v ===== *)
(** * The parameters of the inline functions

    The inline functions of mysql_thread.h and mysql_file.h have parameters under conditionals, the place of the
    call in the source among them. *)
From S2P Require Import Prelude.

(** A parameter and the conditionals around it. *)
Record parameter := { when_declared : list (bool * string); parameter_name : string }.
Definition under (c : list (bool * string)) (ps : list string) : list parameter :=
  map (fun p => {| when_declared := c; parameter_name := p |}) ps.

(** mysql/psi/mysql_thread.h, line 551. *)
Definition parameters_inline_mysql_mutex_init : list parameter :=
  (under [(true, "defined(HAVE_PSI_INTERFACE)")] ["key"] ++ under [] ["that"; "attr"] ++ under [(true, "defined(SAFE_MUTEX)")] ["src_file"; "src_line"])%list.

(** mysql/psi/mysql_thread.h, line 575. *)
Definition parameters_inline_mysql_mutex_destroy : list parameter :=
  (under [] ["that"] ++ under [(true, "defined(SAFE_MUTEX)")] ["src_file"; "src_line"])%list.

(** mysql/psi/mysql_thread.h, line 596. *)
Definition parameters_inline_mysql_mutex_lock : list parameter :=
  (under [] ["that"] ++ under [(true, "defined(SAFE_MUTEX) || defined(HAVE_PSI_INTERFACE)")] ["src_file"; "src_line"])%list.

(** mysql/psi/mysql_thread.h, line 626. *)
Definition parameters_inline_mysql_mutex_trylock : list parameter :=
  (under [] ["that"] ++ under [(true, "defined(SAFE_MUTEX) || defined(HAVE_PSI_INTERFACE)")] ["src_file"; "src_line"])%list.

(** mysql/psi/mysql_thread.h, line 656. *)
Definition parameters_inline_mysql_mutex_unlock : list parameter :=
  (under [] ["that"] ++ under [(true, "defined(SAFE_MUTEX)")] ["src_file"; "src_line"])%list.

(** mysql/psi/mysql_thread.h, line 676. *)
Definition parameters_inline_mysql_rwlock_init : list parameter :=
  (under [(true, "defined(HAVE_PSI_INTERFACE)")] ["key"] ++ under [] ["that"])%list.

(** mysql/psi/mysql_thread.h, line 695. *)
Definition parameters_inline_mysql_prlock_init : list parameter :=
  (under [(true, "defined(HAVE_PSI_INTERFACE)")] ["key"] ++ under [] ["that"])%list.

(** mysql/psi/mysql_thread.h, line 711. *)
Definition parameters_inline_mysql_rwlock_destroy : list parameter :=
  (under [] ["that"])%list.

(** mysql/psi/mysql_thread.h, line 725. *)
Definition parameters_inline_mysql_prlock_destroy : list parameter :=
  (under [] ["that"])%list.

(** mysql/psi/mysql_thread.h, line 739. *)
Definition parameters_inline_mysql_rwlock_rdlock : list parameter :=
  (under [] ["that"] ++ under [(true, "defined(HAVE_PSI_INTERFACE)")] ["src_file"; "src_line"])%list.

(** mysql/psi/mysql_thread.h, line 767. *)
Definition parameters_inline_mysql_prlock_rdlock : list parameter :=
  (under [] ["that"] ++ under [(true, "defined(HAVE_PSI_INTERFACE)")] ["src_file"; "src_line"])%list.

(** mysql/psi/mysql_thread.h, line 795. *)
Definition parameters_inline_mysql_rwlock_wrlock : list parameter :=
  (under [] ["that"] ++ under [(true, "defined(HAVE_PSI_INTERFACE)")] ["src_file"; "src_line"])%list.

(** mysql/psi/mysql_thread.h, line 823. *)
Definition parameters_inline_mysql_prlock_wrlock : list parameter :=
  (under [] ["that"] ++ under [(true, "defined(HAVE_PSI_INTERFACE)")] ["src_file"; "src_line"])%list.

(** mysql/psi/mysql_thread.h, line 851. *)
Definition parameters_inline_mysql_rwlock_tryrdlock : list parameter :=
  (under [] ["that"] ++ under [(true, "defined(HAVE_PSI_INTERFACE)")] ["src_file"; "src_line"])%list.

(** mysql/psi/mysql_thread.h, line 878. *)
Definition parameters_inline_mysql_rwlock_trywrlock : list parameter :=
  (under [] ["that"] ++ under [(true, "defined(HAVE_PSI_INTERFACE)")] ["src_file"; "src_line"])%list.

(** mysql/psi/mysql_thread.h, line 905. *)
Definition parameters_inline_mysql_rwlock_unlock : list parameter :=
  (under [] ["that"])%list.

(** mysql/psi/mysql_thread.h, line 918. *)
Definition parameters_inline_mysql_prlock_unlock : list parameter :=
  (under [] ["that"])%list.

(** mysql/psi/mysql_thread.h, line 931. *)
Definition parameters_inline_mysql_cond_init : list parameter :=
  (under [(true, "defined(HAVE_PSI_INTERFACE)")] ["key"] ++ under [] ["that"; "attr"])%list.

(** mysql/psi/mysql_thread.h, line 947. *)
Definition parameters_inline_mysql_cond_destroy : list parameter :=
  (under [] ["that"])%list.

(** mysql/psi/mysql_thread.h, line 960. *)
Definition parameters_inline_mysql_cond_wait : list parameter :=
  (under [] ["that"; "mutex"] ++ under [(true, "defined(HAVE_PSI_INTERFACE)")] ["src_file"; "src_line"])%list.

(** mysql/psi/mysql_thread.h, line 988. *)
Definition parameters_inline_mysql_cond_timedwait : list parameter :=
  (under [] ["that"; "mutex"; "abstime"] ++ under [(true, "defined(HAVE_PSI_INTERFACE)")] ["src_file"; "src_line"])%list.

(** mysql/psi/mysql_thread.h, line 1017. *)
Definition parameters_inline_mysql_cond_signal : list parameter :=
  (under [] ["that"])%list.

(** mysql/psi/mysql_thread.h, line 1029. *)
Definition parameters_inline_mysql_cond_broadcast : list parameter :=
  (under [] ["that"])%list.

(** mysql/psi/mysql_thread.h, line 1042. *)
Definition parameters_inline_mysql_thread_create : list parameter :=
  (under [] ["key"; "thread"; "attr"; "start_routine"; "arg"])%list.

(** mysql/psi/mysql_thread.h, line 1055. *)
Definition parameters_inline_mysql_thread_set_psi_id : list parameter :=
  (under [] ["id"])%list.

(** mysql/psi/mysql_file.h, line 502. *)
Definition parameters_inline_mysql_file_fgets : list parameter :=
  (under [(true, "defined(HAVE_PSI_INTERFACE)")] ["src_file"; "src_line"] ++ under [] ["str"; "size"; "file"])%list.

(** mysql/psi/mysql_file.h, line 529. *)
Definition parameters_inline_mysql_file_fgetc : list parameter :=
  (under [(true, "defined(HAVE_PSI_INTERFACE)")] ["src_file"; "src_line"] ++ under [] ["file"])%list.

(** mysql/psi/mysql_file.h, line 556. *)
Definition parameters_inline_mysql_file_fputs : list parameter :=
  (under [(true, "defined(HAVE_PSI_INTERFACE)")] ["src_file"; "src_line"] ++ under [] ["str"; "file"])%list.

(** mysql/psi/mysql_file.h, line 587. *)
Definition parameters_inline_mysql_file_fputc : list parameter :=
  (under [(true, "defined(HAVE_PSI_INTERFACE)")] ["src_file"; "src_line"] ++ under [] ["c"; "file"])%list.

(** mysql/psi/mysql_file.h, line 614. *)
Definition parameters_inline_mysql_file_fprintf : list parameter :=
  (under [] ["file"; "format"; "..."])%list.

(** mysql/psi/mysql_file.h, line 643. *)
Definition parameters_inline_mysql_file_vfprintf : list parameter :=
  (under [(true, "defined(HAVE_PSI_INTERFACE)")] ["src_file"; "src_line"] ++ under [] ["file"; "format"; "args"])%list.

(** mysql/psi/mysql_file.h, line 670. *)
Definition parameters_inline_mysql_file_fflush : list parameter :=
  (under [(true, "defined(HAVE_PSI_INTERFACE)")] ["src_file"; "src_line"] ++ under [] ["file"])%list.

(** mysql/psi/mysql_file.h, line 696. *)
Definition parameters_inline_mysql_file_feof : list parameter :=
  (under [] ["file"])%list.

(** mysql/psi/mysql_file.h, line 703. *)
Definition parameters_inline_mysql_file_fstat : list parameter :=
  (under [(true, "defined(HAVE_PSI_INTERFACE)")] ["src_file"; "src_line"] ++ under [] ["filenr"; "stat_area"; "flags"])%list.

(** mysql/psi/mysql_file.h, line 730. *)
Definition parameters_inline_mysql_file_stat : list parameter :=
  (under [(true, "defined(HAVE_PSI_INTERFACE)")] ["key"; "src_file"; "src_line"] ++ under [] ["path"; "stat_area"; "flags"])%list.

(** mysql/psi/mysql_file.h, line 758. *)
Definition parameters_inline_mysql_file_chsize : list parameter :=
  (under [(true, "defined(HAVE_PSI_INTERFACE)")] ["src_file"; "src_line"] ++ under [] ["file"; "newlength"; "filler"; "flags"])%list.

(** mysql/psi/mysql_file.h, line 786. *)
Definition parameters_inline_mysql_file_fopen : list parameter :=
  (under [(true, "defined(HAVE_PSI_INTERFACE)")] ["key"; "src_file"; "src_line"] ++ under [] ["filename"; "flags"; "myFlags"])%list.

(** mysql/psi/mysql_file.h, line 826. *)
Definition parameters_inline_mysql_file_fclose : list parameter :=
  (under [(true, "defined(HAVE_PSI_INTERFACE)")] ["src_file"; "src_line"] ++ under [] ["file"; "flags"])%list.

(** mysql/psi/mysql_file.h, line 858. *)
Definition parameters_inline_mysql_file_fread : list parameter :=
  (under [(true, "defined(HAVE_PSI_INTERFACE)")] ["src_file"; "src_line"] ++ under [] ["file"; "buffer"; "count"; "flags"])%list.

(** mysql/psi/mysql_file.h, line 892. *)
Definition parameters_inline_mysql_file_fwrite : list parameter :=
  (under [(true, "defined(HAVE_PSI_INTERFACE)")] ["src_file"; "src_line"] ++ under [] ["file"; "buffer"; "count"; "flags"])%list.

(** mysql/psi/mysql_file.h, line 926. *)
Definition parameters_inline_mysql_file_fseek : list parameter :=
  (under [(true, "defined(HAVE_PSI_INTERFACE)")] ["src_file"; "src_line"] ++ under [] ["file"; "pos"; "whence"; "flags"])%list.

(** mysql/psi/mysql_file.h, line 953. *)
Definition parameters_inline_mysql_file_ftell : list parameter :=
  (under [(true, "defined(HAVE_PSI_INTERFACE)")] ["src_file"; "src_line"] ++ under [] ["file"; "flags"])%list.

(** mysql/psi/mysql_file.h, line 980. *)
Definition parameters_inline_mysql_file_create : list parameter :=
  (under [(true, "defined(HAVE_PSI_INTERFACE)")] ["key"; "src_file"; "src_line"] ++ under [] ["filename"; "create_flags"; "access_flags"; "myFlags"])%list.

(** mysql/psi/mysql_file.h, line 1007. *)
Definition parameters_inline_mysql_file_create_temp : list parameter :=
  (under [(true, "defined(HAVE_PSI_INTERFACE)")] ["key"] ++ under [] ["to"; "dir"; "pfx"; "mode"; "myFlags"])%list.

(** mysql/psi/mysql_file.h, line 1028. *)
Definition parameters_inline_mysql_file_open : list parameter :=
  (under [(true, "defined(HAVE_PSI_INTERFACE)")] ["key"; "src_file"; "src_line"] ++ under [] ["filename"; "flags"; "myFlags"])%list.

(** mysql/psi/mysql_file.h, line 1055. *)
Definition parameters_inline_mysql_file_close : list parameter :=
  (under [(true, "defined(HAVE_PSI_INTERFACE)")] ["src_file"; "src_line"] ++ under [] ["file"; "flags"])%list.

(** mysql/psi/mysql_file.h, line 1082. *)
Definition parameters_inline_mysql_file_read : list parameter :=
  (under [(true, "defined(HAVE_PSI_INTERFACE)")] ["src_file"; "src_line"] ++ under [] ["file"; "buffer"; "count"; "flags"])%list.

(** mysql/psi/mysql_file.h, line 1116. *)
Definition parameters_inline_mysql_file_write : list parameter :=
  (under [(true, "defined(HAVE_PSI_INTERFACE)")] ["src_file"; "src_line"] ++ under [] ["file"; "buffer"; "count"; "flags"])%list.

(** mysql/psi/mysql_file.h, line 1150. *)
Definition parameters_inline_mysql_file_pread : list parameter :=
  (under [(true, "defined(HAVE_PSI_INTERFACE)")] ["src_file"; "src_line"] ++ under [] ["file"; "buffer"; "count"; "offset"; "flags"])%list.

(** mysql/psi/mysql_file.h, line 1183. *)
Definition parameters_inline_mysql_file_pwrite : list parameter :=
  (under [(true, "defined(HAVE_PSI_INTERFACE)")] ["src_file"; "src_line"] ++ under [] ["file"; "buffer"; "count"; "offset"; "flags"])%list.

(** mysql/psi/mysql_file.h, line 1217. *)
Definition parameters_inline_mysql_file_seek : list parameter :=
  (under [(true, "defined(HAVE_PSI_INTERFACE)")] ["src_file"; "src_line"] ++ under [] ["file"; "pos"; "whence"; "flags"])%list.

(** mysql/psi/mysql_file.h, line 1243. *)
Definition parameters_inline_mysql_file_tell : list parameter :=
  (under [(true, "defined(HAVE_PSI_INTERFACE)")] ["src_file"; "src_line"] ++ under [] ["file"; "flags"])%list.

(** mysql/psi/mysql_file.h, line 1269. *)
Definition parameters_inline_mysql_file_delete : list parameter :=
  (under [(true, "defined(HAVE_PSI_INTERFACE)")] ["key"; "src_file"; "src_line"] ++ under [] ["name"; "flags"])%list.

(** mysql/psi/mysql_file.h, line 1296. *)
Definition parameters_inline_mysql_file_rename : list parameter :=
  (under [(true, "defined(HAVE_PSI_INTERFACE)")] ["key"; "src_file"; "src_line"] ++ under [] ["from"; "to"; "flags"])%list.

(** mysql/psi/mysql_file.h, line 1323. *)
Definition parameters_inline_mysql_file_create_with_symlink : list parameter :=
  (under [(true, "defined(HAVE_PSI_INTERFACE)")] ["key"; "src_file"; "src_line"] ++ under [] ["linkname"; "filename"; "create_flags"; "access_flags"; "flags"])%list.

(** mysql/psi/mysql_file.h, line 1352. *)
Definition parameters_inline_mysql_file_delete_with_symlink : list parameter :=
  (under [(true, "defined(HAVE_PSI_INTERFACE)")] ["key"; "src_file"; "src_line"] ++ under [] ["name"; "flags"])%list.

(** mysql/psi/mysql_file.h, line 1379. *)
Definition parameters_inline_mysql_file_rename_with_symlink : list parameter :=
  (under [(true, "defined(HAVE_PSI_INTERFACE)")] ["key"; "src_file"; "src_line"] ++ under [] ["from"; "to"; "flags"])%list.

(** mysql/psi/mysql_file.h, line 1406. *)
Definition parameters_inline_mysql_file_sync : list parameter :=
  (under [(true, "defined(HAVE_PSI_INTERFACE)")] ["src_file"; "src_line"] ++ under [] ["fd"; "flags"])%list.

Definition inline_functions_of_mysql_thread : list (string * list parameter) :=
  [("inline_mysql_mutex_init", parameters_inline_mysql_mutex_init);
   ("inline_mysql_mutex_destroy", parameters_inline_mysql_mutex_destroy);
   ("inline_mysql_mutex_lock", parameters_inline_mysql_mutex_lock);
   ("inline_mysql_mutex_trylock", parameters_inline_mysql_mutex_trylock);
   ("inline_mysql_mutex_unlock", parameters_inline_mysql_mutex_unlock);
   ("inline_mysql_rwlock_init", parameters_inline_mysql_rwlock_init);
   ("inline_mysql_prlock_init", parameters_inline_mysql_prlock_init);
   ("inline_mysql_rwlock_destroy", parameters_inline_mysql_rwlock_destroy);
   ("inline_mysql_prlock_destroy", parameters_inline_mysql_prlock_destroy);
   ("inline_mysql_rwlock_rdlock", parameters_inline_mysql_rwlock_rdlock);
   ("inline_mysql_prlock_rdlock", parameters_inline_mysql_prlock_rdlock);
   ("inline_mysql_rwlock_wrlock", parameters_inline_mysql_rwlock_wrlock);
   ("inline_mysql_prlock_wrlock", parameters_inline_mysql_prlock_wrlock);
   ("inline_mysql_rwlock_tryrdlock", parameters_inline_mysql_rwlock_tryrdlock);
   ("inline_mysql_rwlock_trywrlock", parameters_inline_mysql_rwlock_trywrlock);
   ("inline_mysql_rwlock_unlock", parameters_inline_mysql_rwlock_unlock);
   ("inline_mysql_prlock_unlock", parameters_inline_mysql_prlock_unlock);
   ("inline_mysql_cond_init", parameters_inline_mysql_cond_init);
   ("inline_mysql_cond_destroy", parameters_inline_mysql_cond_destroy);
   ("inline_mysql_cond_wait", parameters_inline_mysql_cond_wait);
   ("inline_mysql_cond_timedwait", parameters_inline_mysql_cond_timedwait);
   ("inline_mysql_cond_signal", parameters_inline_mysql_cond_signal);
   ("inline_mysql_cond_broadcast", parameters_inline_mysql_cond_broadcast);
   ("inline_mysql_thread_create", parameters_inline_mysql_thread_create);
   ("inline_mysql_thread_set_psi_id", parameters_inline_mysql_thread_set_psi_id)].

Definition inline_functions_of_mysql_file : list (string * list parameter) :=
  [("inline_mysql_file_fgets", parameters_inline_mysql_file_fgets);
   ("inline_mysql_file_fgetc", parameters_inline_mysql_file_fgetc);
   ("inline_mysql_file_fputs", parameters_inline_mysql_file_fputs);
   ("inline_mysql_file_fputc", parameters_inline_mysql_file_fputc);
   ("inline_mysql_file_fprintf", parameters_inline_mysql_file_fprintf);
   ("inline_mysql_file_vfprintf", parameters_inline_mysql_file_vfprintf);
   ("inline_mysql_file_fflush", parameters_inline_mysql_file_fflush);
   ("inline_mysql_file_feof", parameters_inline_mysql_file_feof);
   ("inline_mysql_file_fstat", parameters_inline_mysql_file_fstat);
   ("inline_mysql_file_stat", parameters_inline_mysql_file_stat);
   ("inline_mysql_file_chsize", parameters_inline_mysql_file_chsize);
   ("inline_mysql_file_fopen", parameters_inline_mysql_file_fopen);
   ("inline_mysql_file_fclose", parameters_inline_mysql_file_fclose);
   ("inline_mysql_file_fread", parameters_inline_mysql_file_fread);
   ("inline_mysql_file_fwrite", parameters_inline_mysql_file_fwrite);
   ("inline_mysql_file_fseek", parameters_inline_mysql_file_fseek);
   ("inline_mysql_file_ftell", parameters_inline_mysql_file_ftell);
   ("inline_mysql_file_create", parameters_inline_mysql_file_create);
   ("inline_mysql_file_create_temp", parameters_inline_mysql_file_create_temp);
   ("inline_mysql_file_open", parameters_inline_mysql_file_open);
   ("inline_mysql_file_close", parameters_inline_mysql_file_close);
   ("inline_mysql_file_read", parameters_inline_mysql_file_read);
   ("inline_mysql_file_write", parameters_inline_mysql_file_write);
   ("inline_mysql_file_pread", parameters_inline_mysql_file_pread);
   ("inline_mysql_file_pwrite", parameters_inline_mysql_file_pwrite);
   ("inline_mysql_file_seek", parameters_inline_mysql_file_seek);
   ("inline_mysql_file_tell", parameters_inline_mysql_file_tell);
   ("inline_mysql_file_delete", parameters_inline_mysql_file_delete);
   ("inline_mysql_file_rename", parameters_inline_mysql_file_rename);
   ("inline_mysql_file_create_with_symlink", parameters_inline_mysql_file_create_with_symlink);
   ("inline_mysql_file_delete_with_symlink", parameters_inline_mysql_file_delete_with_symlink);
   ("inline_mysql_file_rename_with_symlink", parameters_inline_mysql_file_rename_with_symlink);
   ("inline_mysql_file_sync", parameters_inline_mysql_file_sync)].

