(* ===== verification/MacroExpansion.v ===== *)
(** * Expansion of macros

    Replacement texts as terms, and their expansion by the rules of C: arguments first, then the replacement
    with the arguments in it, in which the name of the macro is not replaced again.  HeaderMacros.v has the
    macros of the headers, MacroCalls.v what their expansion calls. *)
From stdpp Require Import strings.
From S2P Require Import Prelude.

(** ** Terms

    Expressions and statements, with the operators, casts and keywords of C by their spelling, and the text of
    strings.  A name that is [painted] is one of a macro met in its own replacement, which stays as it is.
    [Verbatim] is for the operators # and ##, whose operands are not expanded. *)
Unset Elimination Schemes.
Inductive term :=
  | Var (painted : bool) (x : string)
  | Lit (s : string)
  | Text (s : string)
  | Call (painted : bool) (f : string) (ts : list term)
  | Op (o : string) (ts : list term)
  | Verbatim (o : string) (ts : list term).
Set Elimination Schemes.

Lemma term_nested_ind (P : term -> Prop) :
  (forall p x, P (Var p x)) -> (forall s, P (Lit s)) -> (forall s, P (Text s)) -> (forall p f ts, Forall P ts -> P (Call p f ts)) ->
  (forall o ts, Forall P ts -> P (Op o ts)) ->
  (forall o ts, Forall P ts -> P (Verbatim o ts)) -> forall t, P t.
Proof.
  intros Hv Hl Hs Hc Ho Hb. fix IH 1.
  intros [p x|s|s|p f ts|o ts|o ts]; [apply Hv|apply Hl|apply Hs|apply Hc|apply Ho|apply Hb];
    (induction ts as [|t ts IHts]; constructor; [apply IH|exact IHts]).
Qed.

(** The name of a variable, of a type or of a macro without parameters, and a call. *)
Abbreviation var := (Var false).
Abbreviation call := (Call false).

(** A macro, which may have no list of parameters. *)
Record macro_definition := { mname : string; mparameters : option (list string); replacement : term }.
Definition define (n : string) (ps : list string) (t : term) : macro_definition :=
  {| mname := n; mparameters := Some ps; replacement := t |}.
Definition constant (n : string) (t : term) : macro_definition :=
  {| mname := n; mparameters := None; replacement := t |}.

(** A macro under the conditionals around it, each with the branch it is in. *)
Record guarded_macro := { guards : list (bool * string); macro : macro_definition }.
Definition when (c : list (bool * string)) (ms : list macro_definition) : list guarded_macro :=
  map (fun m => {| guards := c; macro := m |}) ms.

(** The macros of a configuration, [v] with the outcomes of the conditionals. *)
Definition in_force (v : string -> bool) (gs : list guarded_macro) : list macro_definition :=
  map macro (List.filter (fun g => forallb (fun c => Bool.eqb c.1 (v c.2)) (guards g)) gs).

(** ** Expansion *)

(** The arguments in the replacement, [env] expanded and [raw] as they were written. *)
Fixpoint subst (raw env : list (string * term)) (t : term) : term :=
  match t with
  | Var _ x => default t (snd <$> find (fun p => String.eqb x p.1) env)
  | Lit _ | Text _ => t
  | Call p f ts => Call p f (map (subst raw env) ts)
  | Op o ts => Op o (map (subst raw env) ts)
  | Verbatim o ts => Verbatim o (map (subst raw raw) ts)
  end.

(** The result of an expansion: a call with the wrong number of arguments is an error. *)
Inductive outcome (A : Type) := OutOfFuel | Mismatch (f : string) | Done (a : A).
Arguments OutOfFuel {A}.
Arguments Mismatch {A} f.
Arguments Done {A} a.
Definition bind {A B} (r : outcome A) (k : A -> outcome B) : outcome B :=
  match r with OutOfFuel => OutOfFuel | Mismatch f => Mismatch f | Done a => k a end.
Fixpoint sequence {A B} (f : A -> outcome B) (xs : list A) : outcome (list B) :=
  match xs with
  | [] => Done []
  | x :: xs => bind (f x) (fun y => bind (sequence f xs) (fun ys => Done (y :: ys)))
  end.

(** How many arguments a function or macro takes. *)
Inductive arity := Exactly (n : nat) | AtLeast (n : nat).
#[export] Instance arity_eq_dec : EqDecision arity.
Proof. solve_decision. Defined.
Definition accepts (k : nat) (a : arity) : bool :=
  match a with Exactly n => (n =? k)%nat | AtLeast n => (n <=? k)%nat end.
Definition is_some_b {A} (o : option A) : bool := match o with Some _ => true | None => false end.

Lemma forallb_map_Forall {A} (p : A -> bool) (g : A -> A) (xs : list A) :
  Forall (fun x => p x = true -> p (g x) = true) xs -> forallb p xs = true -> forallb p (map g xs) = true.
Proof. induction 1 as [|x xs Hx _ IH]; cbn; [done|]. rewrite !andb_true_iff. intros [H1 H2]. eauto. Qed.

Section Expand.
Context (macros : list macro_definition).

Definition find_macro (f : string) : option macro_definition := find (fun m => String.eqb f (mname m)) macros.
Definition hidden (f : string) (hide : list string) : bool := existsb (String.eqb f) hide.

Fixpoint expand (fuel : nat) (hide : list string) (t : term) : outcome term :=
  match fuel with
  | O => OutOfFuel
  | S fuel =>
    match t with
    | Lit _ | Text _ | Verbatim _ _ => Done t
    | Var painted x =>
      match find_macro x with
      | Some {| mparameters := None; replacement := t |} =>
        if painted || hidden x hide then Done (Var true x) else expand fuel (x :: hide) t
      | _ => Done (Var painted x)
      end
    | Op o ts => bind (sequence (expand fuel hide) ts) (fun ts => Done (Op o ts))
    | Call painted f ts =>
      bind (sequence (expand fuel hide) ts) (fun us =>
      match find_macro f with
      | None => Done (Call painted f us)
      | Some m =>
        if painted || hidden f hide then Done (Call true f us)
        else match mparameters m, replacement m with
             | None, Var _ g => expand fuel (f :: hide) (Call false g us)
             | None, t => expand fuel (f :: hide) (Op "()" (t :: us))
             | Some ps, t =>
               if (length ps =? length us)%nat then expand fuel (f :: hide) (subst (zip ps ts) (zip ps us) t)
               else Mismatch f
             end
      end)
    end
  end.

(** ** Termination *)

(** The macros that are left to replace. *)
Definition left_over (hide : list string) : nat := length (List.filter (fun m => negb (hidden (mname m) hide)) macros).

Lemma filter_length_le {A} (p q : A -> bool) (xs : list A) :
  (forall x, p x = true -> q x = true) -> (length (List.filter p xs) <= length (List.filter q xs))%nat.
Proof.
  intros Hpq. induction xs as [|x xs IH]; cbn; [done|].
  destruct (p x) eqn:Ep; [rewrite (Hpq x Ep); cbn; lia|]. destruct (q x); cbn; lia.
Qed.

Lemma filter_length_lt {A} (p q : A -> bool) (y : A) (xs : list A) :
  (forall x, p x = true -> q x = true) -> In y xs -> p y = false -> q y = true ->
  (length (List.filter p xs) < length (List.filter q xs))%nat.
Proof.
  intros Hpq Hin Hp Hq. induction xs as [|x xs IH]; [done|]. destruct Hin as [->|Hin]; cbn.
  - rewrite Hp, Hq. pose proof (filter_length_le p q xs Hpq). cbn. lia.
  - specialize (IH Hin). destruct (p x) eqn:Ep; [rewrite (Hpq x Ep); cbn; lia|]. destruct (q x); cbn; lia.
Qed.

Lemma left_over_less (f : string) (hide : list string) (m : macro_definition) :
  find_macro f = Some m -> hidden f hide = false -> (left_over (f :: hide) < left_over hide)%nat.
Proof.
  unfold find_macro, left_over. intros Hf Hh. apply find_some in Hf as [Hin Hn]. apply String.eqb_eq in Hn. subst f.
  apply (filter_length_lt _ _ m); [|done| |by rewrite Hh].
  - intros x. unfold hidden. cbn [existsb]. rewrite !negb_true_iff, orb_false_iff. tauto.
  - unfold hidden. cbn [existsb]. by rewrite String.eqb_refl.
Qed.

(** From some fuel on the result is there and does not change. *)
Definition settles {A} (run : nat -> outcome A) : Prop :=
  exists r n, r <> OutOfFuel /\ forall fuel, (n <= fuel)%nat -> run fuel = r.

Lemma settles_done {A} (a : A) : settles (fun _ => Done a).
Proof. by exists (Done a), 0%nat. Qed.

Lemma settles_step {A} (run run' : nat -> outcome A) : (forall n, run' (S n) = run n) -> settles run -> settles run'.
Proof.
  intros Hs (r & n & Hr & Hrun). exists r, (S n). split; [done|]. intros [|fuel] Hf; [lia|]. rewrite Hs. apply Hrun. lia.
Qed.

Lemma settles_bind {A B} (run : nat -> outcome A) (k : nat -> A -> outcome B) :
  settles run -> (forall a, settles (fun n => k n a)) -> settles (fun n => bind (run n) (k n)).
Proof.
  intros (r & n & Hr & Hrun) Hk. destruct r as [|f|a]; [done| |].
  - exists (Mismatch f), n. split; [done|]. intros fuel Hf. by rewrite Hrun.
  - destruct (Hk a) as (r' & n' & Hr' & Hrun'). exists r', (n + n')%nat. split; [done|]. intros fuel Hf.
    rewrite Hrun by lia. apply Hrun'. lia.
Qed.

Lemma settles_sequence {A B} (run : nat -> A -> outcome B) (xs : list A) :
  Forall (fun x => settles (fun n => run n x)) xs -> settles (fun n => sequence (run n) xs).
Proof.
  induction 1 as [|x xs Hx _ IH]; cbn [sequence]; [apply settles_done|].
  apply settles_bind; [done|]. intros y. apply settles_bind; [done|]. intros ys. apply settles_done.
Qed.

Lemma expand_settles (hide : list string) (t : term) : settles (fun n => expand n hide t).
Proof.
  remember (left_over hide) as k eqn:Ek. revert hide t Ek.
  induction k as [k IH] using lt_wf_ind. intros hide t ->. induction t as [p x|s|s|p f ts Hts|o ts Hts|o ts Hts] using term_nested_ind.
  - eapply settles_step; [intros n; cbn [expand]; reflexivity|].
    destruct (find_macro x) as [[n [ps|] t]|] eqn:Ef; [apply settles_done| |apply settles_done].
    destruct (p || hidden x hide) eqn:Eh; [apply settles_done|]. apply orb_false_iff in Eh as [_ Eh].
    by eapply IH; [apply (left_over_less x hide _ Ef Eh)|].
  - apply (settles_step (fun _ => Done (Lit s))); [done|apply settles_done].
  - apply (settles_step (fun _ => Done (Text s))); [done|apply settles_done].
  - eapply settles_step; [intros n; cbn [expand]; reflexivity|]. apply settles_bind; [by apply settles_sequence|]. intros ts'.
    destruct (find_macro f) as [m|] eqn:Ef; [|apply settles_done].
    destruct (p || hidden f hide) eqn:Eh; [apply settles_done|]. apply orb_false_iff in Eh as [_ Eh].
    pose proof (left_over_less f hide m Ef Eh) as Hl.
    destruct (mparameters m) as [ps|].
    + destruct (length ps =? length ts')%nat; [by eapply IH|]. by exists (Mismatch f), 0%nat.
    + destruct (replacement m); by eapply IH.
  - eapply settles_step; [intros n; cbn [expand]; reflexivity|]. apply settles_bind; [by apply settles_sequence|]. intros ts'.
    apply settles_done.
  - apply (settles_step (fun _ => Done (Verbatim o ts))); [done|apply settles_done].
Qed.

(** ** Soundness

    [arities] has the number of arguments of every function and macro with parameters.  A term is well formed when
    every call in it has as many. *)
Context (arities : string -> option arity).

Fixpoint well_formed (t : term) : bool :=
  match t with
  | Var _ _ | Lit _ | Text _ => true
  | Op _ ts | Verbatim _ ts => forallb well_formed ts
  | Call _ f ts => from_option (accepts (length ts)) false (arities f) && forallb well_formed ts
  end.

Definition macro_ok (m : macro_definition) : bool :=
  match mparameters m, replacement m with
  | Some ps, t => bool_decide (arities (mname m) = Some (Exactly (length ps))) && well_formed t
  | None, Var _ g => bool_decide (arities (mname m) = arities g)
  | None, t => well_formed t
  end.

(** Nothing is left to replace: the calls are of functions and the other names of no macro without parameters,
    or they are painted. *)
Definition object_like (x : string) : bool := from_option (fun m => negb (is_some_b (mparameters m))) false (find_macro x).
Fixpoint replaced (t : term) : bool :=
  match t with
  | Var painted x => painted || negb (object_like x)
  | Lit _ | Text _ | Verbatim _ _ => true
  | Op _ ts => forallb replaced ts
  | Call painted f ts => (painted || negb (is_some_b (find_macro f))) && forallb replaced ts
  end.

Lemma well_formed_subst (raw env : list (string * term)) (t : term) :
  Forall (fun p => well_formed p.2 = true) raw -> Forall (fun p => well_formed p.2 = true) env ->
  well_formed t = true -> well_formed (subst raw env t) = true.
Proof.
  intros Hr. revert env. induction t as [p x|s|s|p f ts IH|o ts IH|o ts IH] using term_nested_ind;
    intros env He; cbn [well_formed subst]; try done.
  - intros _. destruct (find _ env) as [[y u]|] eqn:E; [|done]. apply find_some in E as [Hin _].
    rewrite Forall_forall in He. by apply (He (y, u)), list_elem_of_In.
  - rewrite !andb_true_iff, length_map. intros [-> H]. split; [done|].
    revert H. apply forallb_map_Forall. eapply Forall_impl; [exact IH|]. intros u Hu. by apply Hu.
  - apply forallb_map_Forall. eapply Forall_impl; [exact IH|]. intros u Hu. by apply Hu.
  - apply forallb_map_Forall. eapply Forall_impl; [exact IH|]. intros u Hu. by apply Hu.
Qed.

Lemma well_formed_zip (ps : list string) (ts : list term) :
  Forall (fun t => well_formed t = true) ts -> Forall (fun p => well_formed p.2 = true) (zip ps ts).
Proof.
  intros H. apply Forall_forall. intros [x u] Hx. apply elem_of_zip_r in Hx. rewrite Forall_forall in H. by apply H.
Qed.

(** The outcome of an expansion, if there is one. *)
Definition yields {A} (P : A -> Prop) (r : outcome A) : Prop :=
  match r with OutOfFuel => True | Mismatch _ => False | Done a => P a end.

Lemma yields_bind {A B} (P : A -> Prop) (Q : B -> Prop) (r : outcome A) (k : A -> outcome B) :
  yields P r -> (forall a, P a -> yields Q (k a)) -> yields Q (bind r k).
Proof. destruct r; cbn; eauto. Qed.

Lemma yields_sequence {A B} (P : B -> Prop) (f : A -> outcome B) (xs : list A) :
  Forall (fun x => yields P (f x)) xs -> yields (fun ys => length ys = length xs /\ Forall P ys) (sequence f xs).
Proof.
  induction 1 as [|x xs Hx _ IH]; cbn [sequence]; [by split; [|constructor]|].
  apply (yields_bind P _ _ _ Hx). intros y Hy. apply (yields_bind _ _ _ _ IH). intros ys [Hl Hys]. cbn.
  split; [by rewrite Hl|by constructor].
Qed.

Definition expanded (t : term) : Prop := well_formed t = true /\ replaced t = true.

Lemma expanded_all (ts : list term) :
  Forall expanded ts -> forallb well_formed ts = true /\ forallb replaced ts = true.
Proof. induction 1 as [|t ts [H1 H2] _ [IH1 IH2]]; cbn; [done|]. by rewrite H1, H2. Qed.

Lemma expand_yields (Hok : forallb macro_ok macros = true) (fuel : nat) (hide : list string) (t : term) :
  well_formed t = true -> yields expanded (expand fuel hide t).
Proof.
  revert hide t. induction fuel as [|fuel IH]; intros hide t Hw; [done|]. destruct t as [p x|s|s|p f ts|o ts|o ts]; cbn [expand]; try done.
  - destruct (find_macro x) as [m|] eqn:Ef; [|by split; cbn; unfold object_like; rewrite ?Ef, ?orb_true_r].
    destruct m as [n [ps|] u]; [by split; cbn; unfold object_like; rewrite ?Ef, ?orb_true_r|].
    destruct (p || hidden x hide); [done|]. apply IH.
    apply find_some in Ef as [Hin _]. rewrite forallb_forall in Hok. specialize (Hok _ Hin). cbn in Hok.
    by destruct u.
  - cbn in Hw. apply andb_true_iff in Hw as [Ha Hw].
    assert (Hargs : Forall (fun t => yields expanded (expand fuel hide t)) ts).
    { apply Forall_forall. intros t Ht. apply IH. rewrite forallb_forall in Hw. by apply Hw, list_elem_of_In. }
    apply (yields_bind _ _ _ _ (yields_sequence _ _ _ Hargs)). intros ts' [Hl Hts']. rewrite <- Hl in Ha.
    destruct (expanded_all ts' Hts') as [Hw' Hr'].
    destruct (find_macro f) as [m|] eqn:Ef.
    2: { split; cbn; [by rewrite Ha, Hw'|]. rewrite Ef, Hr'. by rewrite orb_true_r. }
    destruct (p || hidden f hide); [by split; cbn; [rewrite Ha, Hw'|rewrite Hr']|].
    pose proof (find_some _ _ Ef) as [Hin Hn]. apply String.eqb_eq in Hn. subst f.
    rewrite forallb_forall in Hok. specialize (Hok m Hin). unfold macro_ok in Hok.
    destruct (mparameters m) as [ps|].
    + apply andb_true_iff in Hok as [Hs Hb]. apply bool_decide_eq_true in Hs. rewrite Hs in Ha. cbn in Ha. rewrite Ha.
      apply IH, well_formed_subst; [apply well_formed_zip..|done].
      * apply Forall_forall. intros t Ht. rewrite forallb_forall in Hw. by apply Hw, list_elem_of_In.
      * eapply Forall_impl; [exact Hts'|]. by intros t [].
    + destruct (replacement m) as [q g|s|s|q g us|o us|o us] eqn:Er;
        [apply bool_decide_eq_true in Hok; apply IH; cbn; by rewrite <- Hok, Ha, Hw'|..];
        apply IH; cbn; cbn in Hok; by rewrite ?Hok, Hw'.
  - cbn in Hw. assert (Hargs : Forall (fun t => yields expanded (expand fuel hide t)) ts).
    { apply Forall_forall. intros t Ht. apply IH. rewrite forallb_forall in Hw. by apply Hw, list_elem_of_In. }
    apply (yields_bind _ _ _ _ (yields_sequence _ _ _ Hargs)). intros ts' [_ Hts']. by apply expanded_all.
Qed.

(** Fuel for all but the configurations with a call that does not match. *)
Lemma expand_sound (Hok : forallb macro_ok macros = true) (t : term) :
  well_formed t = true ->
  exists t' n, (forall fuel, (n <= fuel)%nat -> expand fuel [] t = Done t') /\ well_formed t' = true /\ replaced t' = true.
Proof.
  intros Hw. destruct (expand_settles [] t) as (r & n & Hr & Hrun).
  pose proof (expand_yields Hok n [] t Hw) as Hy. rewrite Hrun in Hy by done.
  destruct r as [|f|t']; [done..|]. by exists t', n.
Qed.
End Expand.

Lemma in_force_incl (v : string -> bool) (gs : list guarded_macro) (m : macro_definition) :
  In m (in_force v gs) -> In m (map macro gs).
Proof. unfold in_force. rewrite !in_map_iff. intros (g & <- & Hg). apply filter_In in Hg as [Hg _]. by exists g. Qed.
