(* ===== verification/MacrosGlobal.v ===== *)
(** * The macros of my_global.h

    Each [#define] of my_global.h: types, limits, arithmetic, storage formats, dynamic loading,
    as a term under the conditionals around it. *)
From S2P Require Import Prelude MacroExpansion.

(** my_global.h, lines 24 to 146. *)
Definition macros_my_global___WIN__ : list guarded_macro :=
  (when [(true, "!defined(__WIN__) && defined(_WIN32)")]
    [constant "__WIN__" (Op "" [])] ++
   when []
    [constant "INNODB_COMPATIBILITY_HOOKS" (Op "" [])] ++
   when [(true, "defined(__CYGWIN__)")]
    [constant "HAVE_ERRNO_AS_DEFINE" (Op "" [])] ++
   when [(true, "defined(USE_PRAGMA_IMPLEMENTATION)")]
    [constant "USE_PRAGMA_INTERFACE" (Op "" [])] ++
   when [(true, "defined(__OpenBSD__) && (OpenBSD >= 200411)")]
    [constant "HAVE_ERRNO_AS_DEFINE" (Op "" [])] ++
   when [(true, "defined(i386) && !defined(__i386__)")]
    [constant "__i386__" (Op "" [])] ++
   when [(false, "defined(__cplusplus)")]
    [constant "C_MODE_START" (Op "" []);
     constant "C_MODE_END" (Op "" [])] ++
   when [(true, "defined(WITH_PERFSCHEMA_STORAGE_ENGINE)")]
    [constant "HAVE_PSI_INTERFACE" (Op "" [])] ++
   when [(true, "defined(__WIN__)")]
    [define "IF_WIN" ["A"; "B"] (var "A")] ++
   when [(false, "defined(__WIN__)")]
    [define "IF_WIN" ["A"; "B"] (var "B")] ++
   when [(true, "defined(HAVE_purify)")]
    [define "IF_PURIFY" ["A"; "B"] (var "A")] ++
   when [(false, "defined(HAVE_purify)")]
    [define "IF_PURIFY" ["A"; "B"] (var "B")] ++
   when [(false, "defined(EMBEDDED_LIBRARY)"); (true, "defined(WITH_NDB_BINLOG)")]
    [constant "HAVE_NDB_BINLOG" (Lit "1")] ++
   when [(false, "defined(EMBEDDED_LIBRARY)")]
    [constant "HAVE_REPLICATION" (Op "" []);
     constant "HAVE_EXTERNAL_CLIENT" (Op "" [])] ++
   when [(true, "defined(_WIN32)")]
    [constant "SIZEOF_OFF_T" (Lit "8")] ++
   when [(true, "defined(_WIN32)"); (false, "defined(NOGDI)")]
    [constant "NOGDI" (Op "" [])] ++
   when [(true, "defined(_WIN32)")]
    [define "sleep" ["a"] (call "Sleep" [Op "*" [var "a"; Lit "1000"]]);
     constant "F_OK" (Lit "0");
     constant "W_OK" (Lit "2");
     constant "F_RDLCK" (Lit "1");
     constant "F_WRLCK" (Lit "2");
     constant "F_UNLCK" (Lit "3");
     constant "F_TO_EOF" (Lit "0x3FFFFFFF");
     constant "HAVE_SMEM" (Lit "1");
     constant "HAVE_NAMED_PIPE" (Lit "1");
     constant "shared_memory_buffer_length" (Lit "16000");
     constant "default_shared_memory_base_name" (Text "MYSQL")])%list.

(** my_global.h, lines 167 to 223. *)
Definition macros_my_global_SIZEOF_SHORT : list guarded_macro :=
  (when [(true, "defined(__APPLE__) && defined(__MACH__)")]
    [constant "SIZEOF_SHORT" (Lit "2");
     constant "SIZEOF_INT" (Lit "4");
     constant "SIZEOF_LONG_LONG" (Lit "8");
     constant "SIZEOF_OFF_T" (Lit "8")] ++
   when [(true, "defined(__APPLE__) && defined(__MACH__)"); (true, "defined(__i386__) || defined(__ppc__)")]
    [constant "SIZEOF_CHARP" (Lit "4");
     constant "SIZEOF_LONG" (Lit "4")] ++
   when [(true, "defined(__APPLE__) && defined(__MACH__)"); (false, "defined(__i386__) || defined(__ppc__)"); (true,
    "defined(__x86_64__) || defined(__ppc64__)")]
    [constant "SIZEOF_CHARP" (Lit "8");
     constant "SIZEOF_LONG" (Lit "8")] ++
   when [(true, "defined(__APPLE__) && defined(__MACH__)"); (true, "defined(__ppc__) || defined(__ppc64__)")]
    [constant "WORDS_BIGENDIAN" (Op "" [])] ++
   when [(true, "!defined(__GNUC__) || (__GNUC__ == 2 && __GNUC_MINOR__ < 96)")]
    [define "__builtin_expect" ["x"; "expected_value"] (var "x")] ++
   when []
    [define "likely" ["x"] (call "__builtin_expect" [var "x"; Lit "1"]);
     define "unlikely" ["x"] (call "__builtin_expect" [var "x"; Lit "0"])] ++
   when [(true, "defined(TARGET_OS_LINUX) || defined(__GLIBC__)")]
    [constant "_GNU_SOURCE" (Lit "1")] ++
   when []
    [constant "__EXTENSIONS__" (Lit "1")] ++
   when [(false, "defined(__STDC_EXT__)")]
    [constant "__STDC_EXT__" (Lit "1")])%list.

(** my_global.h, lines 252 to 267. *)
Definition macros_my_global__XOPEN_SOURCE : list guarded_macro :=
  (when [(true, "defined(__sun)"); (true, "__STDC_VERSION__ - 0 >= 199901L")]
    [constant "_XOPEN_SOURCE" (Lit "600")] ++
   when [(true, "defined(__sun)"); (false, "__STDC_VERSION__ - 0 >= 199901L")]
    [constant "_XOPEN_SOURCE" (Lit "500")] ++
   when [(true, "!defined(__WIN__)"); (false, "defined(_POSIX_PTHREAD_SEMANTICS)")]
    [constant "_POSIX_PTHREAD_SEMANTICS" (Op "" [])] ++
   when [(true, "!defined(__WIN__)"); (true, "!defined(SCO)")]
    [constant "_REENTRANT" (Lit "1")] ++
   when [(true, "!defined(__WIN__)"); (true, "!defined(_THREAD_SAFE) && !defined(_AIX)")]
    [constant "_THREAD_SAFE" (Op "" [])])%list.

(** my_global.h, lines 277 to 287. *)
Definition macros_my_global__REENTRANT : list guarded_macro :=
  (when [(true, "!defined(__WIN__)"); (true, "!defined(SCO) && !defined(_REENTRANT)")]
    [constant "_REENTRANT" (Lit "1")] ++
   when [(true, "defined(_AIX)")]
    [constant "_H_STRINGS" (Op "" []);
     define "ulonglong2double" ["A"] (call "my_ulonglong2double" [var "A"]);
     define "my_off_t2double" ["A"] (call "my_ulonglong2double" [var "A"])])%list.

(** my_global.h, lines 316 to 319. *)
Definition macros_my_global_lint : list guarded_macro :=
  (when [(true, "defined(_lint) && !defined(lint)")]
    [constant "lint" (Op "" [])] ++
   when [(true, "SIZEOF_LONG_LONG > 4 && !defined(_LONG_LONG)")]
    [constant "_LONG_LONG" (Lit "1")])%list.

(** my_global.h, lines 389 to 412. *)
Definition macros_my_global_compile_time_assert : list guarded_macro :=
  (when [(false, "defined(__GNUC__)")]
    [define "compile_time_assert" ["X"] (Op "do while" [Op "{}" []; Lit "0"])] ++
   when [(true, "defined(__GNUC__)")]
    [define "compile_time_assert" ["X"] (Op "do while" [Op "{}" [Op "declare typedef char compile_time_assert[]"
       [Op "?:" [var "X"; Lit "1"; Op "-" [Lit "1"]]]]; Lit "0"])] ++
   when [(true, "defined(HPUX11) && defined(_LARGEFILE_SOURCE)"); (false, "defined(_LARGEFILE64_SOURCE)")]
    [constant "_LARGEFILE64_SOURCE" (Op "" [])] ++
   when [(true, "defined(_HPUX_SOURCE) && defined(HAVE_SYS_STREAM_H)")]
    [constant "HAVE_ULONG" (Op "" [])] ++
   when [(true, "defined(HPUX10) && defined(_LARGEFILE64_SOURCE)")]
    [constant "setrlimit" (var "cma_setrlimit64")])%list.

(** my_global.h, lines 419 to 472. *)
Definition macros_my_global_QUOTE_ARG : list guarded_macro :=
  (when []
    [define "QUOTE_ARG" ["x"] (Verbatim "#" [var "x"]);
     define "STRINGIFY_ARG" ["x"] (call "QUOTE_ARG" [var "x"])] ++
   when [(true, "defined(I_AM_PARANOID)")]
    [constant "DONT_ALLOW_USER_CHANGE" (Lit "1");
     constant "DONT_USE_MYSQL_PWD" (Lit "1")] ++
   when [(true, "!defined(HAVE_BSD_SIGNALS) && !defined(HAVE_SIGACTION)")]
    [constant "SIGNAL_HANDLER_RESET_ON_DELIVERY" (Op "" [])] ++
   when [(true, "defined(_lint) || defined(FORCE_INIT_OF_VARS) || (defined(__GNUC__) && defined(__cplusplus))")]
    [define "LINT_INIT" ["var"] (Op "=" [var "var"; Lit "0"])] ++
   when [(false, "defined(_lint) || defined(FORCE_INIT_OF_VARS) || (defined(__GNUC__) && defined(__cplusplus))")]
    [define "LINT_INIT" ["var"] (Op "" [])] ++
   when [(false, "defined(SO_EXT)"); (true, "defined(_WIN32)")]
    [constant "SO_EXT" (Text ".dll")] ++
   when [(false, "defined(SO_EXT)"); (false, "defined(_WIN32)"); (true, "defined(__APPLE__)")]
    [constant "SO_EXT" (Text ".dylib")] ++
   when [(false, "defined(SO_EXT)"); (false, "defined(_WIN32)"); (false, "defined(__APPLE__)")]
    [constant "SO_EXT" (Text ".so")] ++
   when [(true, "defined(_lint) || defined(FORCE_INIT_OF_VARS) || defined(__cplusplus) || !defined(__GNUC__)")]
    [define "UNINIT_VAR" ["x"] (Op "=" [var "x"; Lit "0"])] ++
   when [(false, "defined(_lint) || defined(FORCE_INIT_OF_VARS) || defined(__cplusplus) || !defined(__GNUC__)")]
    [define "UNINIT_VAR" ["x"] (Op "=" [var "x"; var "x"])] ++
   when [(true, "!defined(HAVE_UINT)")]
    [constant "HAVE_UINT" (Op "" [])])%list.

(** my_global.h, lines 477 to 487. *)
Definition macros_my_global_swap_variables : list guarded_macro :=
  (when []
    [define "swap_variables" ["t"; "a"; "b"] (Op "{}" [Op "declare" [var "t"; var "dummy"]; Op "=" [var "dummy";
       var "a"]; Op "=" [var "a"; var "b"]; Op "=" [var "b"; var "dummy"]]);
     define "test" ["a"] (Op "?:" [var "a"; Lit "1"; Lit "0"]);
     define "set_if_bigger" ["a"; "b"] (Op "do while" [Op "{}" [Op "if" [Op "<" [var "a"; var "b"]; Op "=" [var
       "a"; var "b"]]]; Lit "0"]);
     define "set_if_smaller" ["a"; "b"] (Op "do while" [Op "{}" [Op "if" [Op ">" [var "a"; var "b"]; Op "=" [var
       "a"; var "b"]]]; Lit "0"]);
     define "test_all_bits" ["a"; "b"] (Op "==" [Op "&" [var "a"; var "b"]; var "b"]);
     define "array_elements" ["A"] (Op "(uint)" [Op "/" [Op "sizeof" [var "A"]; Op "sizeof" [Op "[]" [var "A"; Lit
       "0"]]]])] ++
   when [(false, "defined(TRUE)")]
    [constant "TRUE" (Lit "1");
     constant "FALSE" (Lit "0")])%list.

(** my_global.h, lines 510 to 510. *)
Definition macros_my_global_DBUG_OFF : list guarded_macro :=
  (when [(true, "(defined(FORCE_DBUG_OFF) || defined(_lint)) && !defined(DBUG_OFF)")]
    [constant "DBUG_OFF" (Op "" [])])%list.

(** my_global.h, lines 523 to 526. *)
Definition macros_my_global_INVALID_SOCKET : list guarded_macro :=
  (when [(false, "defined(_WIN32)")]
    [constant "INVALID_SOCKET" (Op "-" [Lit "1"])] ++
   when []
    [constant "sig_handler" (var "RETSIGTYPE")])%list.

(** my_global.h, lines 547 to 547. *)
Definition macros_my_global_qsort_t : list guarded_macro :=
  (when []
    [constant "qsort_t" (var "RETQSORTTYPE")])%list.

(** my_global.h, lines 554 to 678. *)
Definition macros_my_global_SOCKOPT_OPTLEN_TYPE : list guarded_macro :=
  (when [(false, "defined(SOCKOPT_OPTLEN_TYPE)")]
    [constant "SOCKOPT_OPTLEN_TYPE" (var "size_socket")] ++
   when [(false, "defined(O_SHARE)")]
    [constant "O_SHARE" (Lit "0")] ++
   when [(false, "defined(O_SHARE)"); (false, "defined(O_BINARY)")]
    [constant "O_BINARY" (Lit "0")] ++
   when [(false, "defined(O_SHARE)"); (false, "defined(FILE_BINARY)")]
    [constant "FILE_BINARY" (var "O_BINARY")] ++
   when [(false, "defined(O_SHARE)"); (true, "defined(HAVE_FCNTL)")]
    [constant "HAVE_FCNTL_LOCK" (Op "" []);
     constant "F_TO_EOF" (Lit "0L")] ++
   when [(false, "defined(O_TEMPORARY)")]
    [constant "O_TEMPORARY" (Lit "0")] ++
   when [(false, "defined(O_SHORT_LIVED)")]
    [constant "O_SHORT_LIVED" (Lit "0")] ++
   when [(false, "defined(O_NOFOLLOW)")]
    [constant "O_NOFOLLOW" (Lit "0")] ++
   when [(true, "defined(__WIN__)")]
    [constant "_SH_DENYRWD" (Lit "0x110");
     constant "_SH_DENYWRD" (Lit "0x120");
     constant "_SH_DENYRDD" (Lit "0x130");
     constant "_SH_DENYDEL" (Lit "0x140")] ++
   when []
    [constant "FN_LEN" (Lit "256");
     constant "FN_HEADLEN" (Lit "253");
     constant "FN_EXTLEN" (Lit "20");
     constant "FN_REFLEN" (Lit "512");
     constant "FN_EXTCHAR" (Lit "'.'");
     constant "FN_HOMELIB" (Lit "'~'");
     constant "FN_CURLIB" (Lit "'.'");
     constant "FN_PARENTDIR" (Text "..")] ++
   when [(true, "defined(_WIN32)")]
    [constant "FN_LIBCHAR" (Lit "'\\'");
     constant "FN_LIBCHAR2" (Lit "'/'");
     constant "FN_DIRSEP" (Text "/\\");
     constant "FN_EXEEXT" (Text ".exe");
     constant "FN_SOEXT" (Text ".dll");
     constant "FN_ROOTDIR" (Text "\\");
     constant "FN_DEVCHAR" (Lit "':'");
     constant "FN_NETWORK_DRIVES" (Op "" []);
     constant "FN_NO_CASE_SENCE" (Op "" [])] ++
   when [(false, "defined(_WIN32)")]
    [constant "FN_LIBCHAR" (Lit "'/'");
     constant "FN_LIBCHAR2" (Lit "'/'");
     constant "FN_DIRSEP" (Text "/");
     constant "FN_EXEEXT" (Text "");
     constant "FN_SOEXT" (Text ".so");
     constant "FN_ROOTDIR" (Text "/")] ++
   when [(true, "defined(_WIN32)")]
    [constant "MY_FILE_MIN" (Lit "2048")] ++
   when [(false, "defined(_WIN32)")]
    [constant "MY_FILE_MIN" (Lit "0")] ++
   when [(true, "defined(_WIN32)")]
    [constant "MY_NFILE" (Op "+" [Lit "16384"; var "MY_FILE_MIN"])] ++
   when [(false, "defined(_WIN32)")]
    [constant "MY_NFILE" (Lit "64")] ++
   when [(false, "defined(OS_FILE_LIMIT)")]
    [constant "OS_FILE_LIMIT" (var "UINT_MAX")] ++
   when []
    [constant "IO_SIZE" (Lit "4096");
     constant "MALLOC_OVERHEAD" (Lit "8");
     constant "ONCE_ALLOC_INIT" (Op "(uint)" [Op "-" [Lit "4096"; var "MALLOC_OVERHEAD"]]);
     constant "RECORD_CACHE_SIZE" (Op "(uint)" [Op "-" [Op "*" [Lit "64"; Lit "1024"]; var "MALLOC_OVERHEAD"]]);
     constant "KEY_CACHE_SIZE" (Op "(uint)" [Op "*" [Op "*" [Lit "8"; Lit "1024"]; Lit "1024"]]);
     constant "KEY_CACHE_BLOCK_SIZE" (Op "(uint)" [Lit "1024"])])%list.

(** my_global.h, lines 684 to 691. *)
Definition macros_my_global_NO_DIR_LIBRARY : list guarded_macro :=
  (when [(true, "defined(_WIN32)")]
    [constant "NO_DIR_LIBRARY" (Op "" [])] ++
   when [(false, "defined(__WIN__)")]
    [define "closesocket" ["A"] (call "close" [var "A"])])%list.

(** my_global.h, lines 703 to 704. *)
Definition macros_my_global_ulonglong2double : list guarded_macro :=
  (when [(true, "(_MSC_VER)"); (true, "!defined(_WIN64)")]
    [constant "ulonglong2double" (var "my_ulonglong2double");
     constant "my_off_t2double" (var "my_ulonglong2double")])%list.

(** my_global.h, lines 714 to 800. *)
Definition macros_my_global_double2ulonglong : list guarded_macro :=
  (when [(true, "(_MSC_VER)")]
    [constant "double2ulonglong" (var "my_double2ulonglong")] ++
   when [(false, "defined(ulonglong2double)")]
    [define "ulonglong2double" ["A"] (Op "(double)" [Op "(ulonglong)" [var "A"]]);
     define "my_off_t2double" ["A"] (Op "(double)" [Op "(my_off_t)" [var "A"]])] ++
   when [(false, "defined(double2ulonglong)")]
    [define "double2ulonglong" ["A"] (Op "(ulonglong)" [Op "(double)" [var "A"]])] ++
   when [(false, "defined(offsetof)")]
    [define "offsetof" ["TYPE"; "MEMBER"] (Op "(size_t)" [Op "&" [Op "->" [Op "cast" [Op "*" [var "TYPE"]; Lit
       "0"]; var "MEMBER"]]])] ++
   when []
    [define "ulong_to_double" ["X"] (Op "(double)" [Op "(ulong)" [var "X"]])] ++
   when [(true, "!defined(HAVE_STRTOK_R)")]
    [define "strtok_r" ["A"; "B"; "C"] (call "strtok" [var "A"; var "B"])] ++
   when [(true, "SIZEOF_LONG_LONG > 4")]
    [constant "HAVE_LONG_LONG" (Lit "1")] ++
   when [(true, "defined(HAVE_LONG_LONG) && !defined(LONGLONG_MIN)")]
    [constant "LONGLONG_MIN" (Op "(long long)" [Lit "0x8000000000000000LL"]);
     constant "LONGLONG_MAX" (Op "(long long)" [Lit "0x7FFFFFFFFFFFFFFFLL"])] ++
   when [(true, "defined(HAVE_LONG_LONG) && !defined(ULONGLONG_MAX)"); (true, "defined(ULLONG_MAX)")]
    [constant "ULONGLONG_MAX" (var "ULLONG_MAX")] ++
   when [(true, "defined(HAVE_LONG_LONG) && !defined(ULONGLONG_MAX)"); (false, "defined(ULLONG_MAX)")]
    [constant "ULONGLONG_MAX" (Op "(unsigned long long)" [Op "~" [Lit "0ULL"]])] ++
   when []
    [constant "INT_MIN64" (Op "~" [Lit "0x7FFFFFFFFFFFFFFFLL"]);
     constant "INT_MAX64" (Lit "0x7FFFFFFFFFFFFFFFLL");
     constant "INT_MIN32" (Op "~" [Lit "0x7FFFFFFFL"]);
     constant "INT_MAX32" (Lit "0x7FFFFFFFL");
     constant "UINT_MAX32" (Lit "0xFFFFFFFFL");
     constant "INT_MIN24" (Op "~" [Lit "0x007FFFFF"]);
     constant "INT_MAX24" (Lit "0x007FFFFF");
     constant "UINT_MAX24" (Lit "0x00FFFFFF");
     constant "INT_MIN16" (Op "~" [Lit "0x7FFF"]);
     constant "INT_MAX16" (Lit "0x7FFF");
     constant "UINT_MAX16" (Lit "0xFFFF");
     constant "INT_MIN8" (Op "~" [Lit "0x7F"]);
     constant "INT_MAX8" (Lit "0x7F");
     constant "UINT_MAX8" (Lit "0xFF")] ++
   when [(false, "defined(DBL_MIN)")]
    [constant "DBL_MIN" (Op "-" [Lit "4.94065645841246544e"; Lit "324"]);
     constant "FLT_MIN" (Op "-" [Op "(float)" [Lit "1.40129846432481707e"]; Lit "45"])] ++
   when [(false, "defined(DBL_MAX)")]
    [constant "DBL_MAX" (Op "+" [Lit "1.79769313486231470e"; Lit "308"]);
     constant "FLT_MAX" (Op "+" [Op "(float)" [Lit "3.40282346638528860e"]; Lit "38"])] ++
   when [(false, "defined(SIZE_T_MAX)")]
    [constant "SIZE_T_MAX" (Op "~" [Op "(size_t)" [Lit "0"]])] ++
   when [(false, "defined(isfinite)"); (true, "defined(HAVE_FINITE)")]
    [define "isfinite" ["x"] (call "finite" [var "x"])] ++
   when [(false, "defined(isfinite)"); (false, "defined(HAVE_FINITE)")]
    [define "finite" ["x"] (Op ">" [Op "/" [Lit "1.0"; call "fabs" [var "x"]]; Lit "0.0"])] ++
   when [(false, "defined(HAVE_ISNAN)")]
    [define "isnan" ["x"] (Op "!=" [var "x"; var "x"])])%list.

(** my_global.h, lines 814 to 828. *)
Definition macros_my_global_my_isinf : list guarded_macro :=
  (when [(true, "defined(HAVE_ISINF)"); (false, "!defined(__cplusplus) && defined(HAVE_BROKEN_ISINF)")]
    [define "my_isinf" ["X"] (call "isinf" [var "X"])] ++
   when [(false, "defined(HAVE_ISINF)")]
    [define "my_isinf" ["X"] (Op "&&" [Op "!" [call "finite" [var "X"]]; Op "!" [call "isnan" [var "X"]]])] ++
   when [(false, "defined(M_PI)")]
    [constant "M_PI" (Lit "3.14159265358979323846")] ++
   when [(false, "defined(M_E)")]
    [constant "M_E" (Lit "2.7182818284590452354")] ++
   when [(false, "defined(M_LN2)")]
    [constant "M_LN2" (Lit "0.69314718055994530942")])%list.

(** my_global.h, lines 841 to 871. *)
Definition macros_my_global_MY_ALIGN : list guarded_macro :=
  (when []
    [define "MY_ALIGN" ["A"; "L"] (Op "&" [Op "-" [Op "+" [var "A"; var "L"]; Lit "1"]; Op "~" [Op "-" [var "L";
       Lit "1"]]]);
     define "ALIGN_SIZE" ["A"] (call "MY_ALIGN" [var "A"; Op "sizeof double" []]);
     define "ADD_TO_PTR" ["ptr"; "size"; "type"] (Op "cast" [var "type"; Op "+" [Op "(uchar *)" [var "ptr"]; var
       "size"]]);
     define "PTR_BYTE_DIFF" ["A"; "B"] (Op "(my_ptrdiff_t)" [Op "-" [Op "(uchar *)" [var "A"]; Op "(uchar *)" [var
       "B"]]]);
     define "my_offsetof" ["TYPE"; "MEMBER"] (Op "(size_t)" [Op "-" [Op "(char *)" [Op "&" [Op "->" [Op "cast" [Op
       "*" [var "TYPE"]; Lit "0x10"]; var "MEMBER"]]]; Op "(char *)" [Lit "0x10"]]]);
     constant "NullS" (Op "(char *)" [Lit "0"])] ++
   when [(true, "defined(_WIN32)")]
    [constant "STDCALL" (var "__stdcall")] ++
   when [(false, "defined(_WIN32)")]
    [constant "STDCALL" (Op "" [])])%list.

(** my_global.h, lines 952 to 952. *)
Definition macros_my_global_MY_ERRPTR : list guarded_macro :=
  (when []
    [constant "MY_ERRPTR" (Op "(void *)" [Op "(intptr)" [Lit "1"]])])%list.

(** my_global.h, lines 965 to 965. *)
Definition macros_my_global_MY_FILEPOS_ERROR : list guarded_macro :=
  (when []
    [constant "MY_FILEPOS_ERROR" (Op "~" [Op "(my_off_t)" [Lit "0"]])])%list.

(** my_global.h, lines 974 to 991. *)
Definition macros_my_global_socket_errno : list guarded_macro :=
  (when [(true, "defined(__WIN__)")]
    [constant "socket_errno" (call "WSAGetLastError" []);
     constant "SOCKET_EINTR" (var "WSAEINTR");
     constant "SOCKET_EAGAIN" (var "WSAEINPROGRESS");
     constant "SOCKET_ETIMEDOUT" (var "WSAETIMEDOUT");
     constant "SOCKET_EWOULDBLOCK" (var "WSAEWOULDBLOCK");
     constant "SOCKET_EADDRINUSE" (var "WSAEADDRINUSE");
     constant "SOCKET_ENFILE" (var "ENFILE");
     constant "SOCKET_EMFILE" (var "EMFILE")] ++
   when [(false, "defined(__WIN__)")]
    [constant "socket_errno" (var "errno");
     define "closesocket" ["A"] (call "close" [var "A"]);
     constant "SOCKET_EINTR" (var "EINTR");
     constant "SOCKET_EAGAIN" (var "EAGAIN");
     constant "SOCKET_ETIMEDOUT" (var "SOCKET_EINTR");
     constant "SOCKET_EWOULDBLOCK" (var "EWOULDBLOCK");
     constant "SOCKET_EADDRINUSE" (var "EADDRINUSE");
     constant "SOCKET_ENFILE" (var "ENFILE");
     constant "SOCKET_EMFILE" (var "EMFILE")])%list.

(** my_global.h, lines 998 to 1110. *)
Definition macros_my_global_MYF : list guarded_macro :=
  (when []
    [define "MYF" ["v"] (Op "(myf)" [var "v"])] ++
   when [(false, "defined(LL)"); (true, "defined(HAVE_LONG_LONG)")]
    [define "LL" ["A"] (Verbatim "##" [var "A"; var "LL"])] ++
   when [(false, "defined(LL)"); (false, "defined(HAVE_LONG_LONG)")]
    [define "LL" ["A"] (Verbatim "##" [var "A"; var "L"])] ++
   when [(false, "defined(ULL)"); (true, "defined(HAVE_LONG_LONG)")]
    [define "ULL" ["A"] (Verbatim "##" [var "A"; var "ULL"])] ++
   when [(false, "defined(ULL)"); (false, "defined(HAVE_LONG_LONG)")]
    [define "ULL" ["A"] (Verbatim "##" [var "A"; var "UL"])] ++
   when [(false, "defined(USING_X)")]
    [constant "reg1" (Lit "register");
     constant "reg2" (Lit "register");
     constant "reg3" (Lit "register");
     constant "reg4" (Lit "register");
     constant "reg5" (Lit "register");
     constant "reg6" (Lit "register");
     constant "reg7" (Lit "register");
     constant "reg8" (Lit "register");
     constant "reg9" (Lit "register");
     constant "reg10" (Lit "register");
     constant "reg11" (Lit "register");
     constant "reg12" (Lit "register");
     constant "reg13" (Lit "register");
     constant "reg14" (Lit "register");
     constant "reg15" (Lit "register");
     constant "reg16" (Lit "register")] ++
   when []
    [define "YESNO" ["X"] (Op "?:" [var "X"; Text "yes"; Text "no"]);
     constant "MY_HOW_OFTEN_TO_ALARM" (Lit "2");
     constant "MY_HOW_OFTEN_TO_WRITE" (Lit "1000")] ++
   when [(true, "defined(__i386__) || defined(_WIN32)")]
    [define "sint2korr" ["A"] (Op "*" [Op "(int16 *)" [var "A"]]);
     define "sint3korr" ["A"] (Op "(int32)" [Op "?:" [Op "&" [Op "(uchar)" [Op "[]" [var "A"; Lit "2"]]; Lit
       "128"]; Op "|" [Op "|" [Op "|" [Op "<<" [Op "(uint32)" [Lit "255L"]; Lit "24"]; Op "<<" [Op "(uint32)" [Op
       "(uchar)" [Op "[]" [var "A"; Lit "2"]]]; Lit "16"]]; Op "<<" [Op "(uint32)" [Op "(uchar)" [Op "[]" [var "A";
       Lit "1"]]]; Lit "8"]]; Op "(uint32)" [Op "(uchar)" [Op "[]" [var "A"; Lit "0"]]]]; Op "|" [Op "|" [Op "<<"
       [Op "(uint32)" [Op "(uchar)" [Op "[]" [var "A"; Lit "2"]]]; Lit "16"]; Op "<<" [Op "(uint32)" [Op "(uchar)"
       [Op "[]" [var "A"; Lit "1"]]]; Lit "8"]]; Op "(uint32)" [Op "(uchar)" [Op "[]" [var "A"; Lit "0"]]]]]]);
     define "sint4korr" ["A"] (Op "*" [Op "(long *)" [var "A"]]);
     define "uint2korr" ["A"] (Op "*" [Op "(uint16 *)" [var "A"]])] ++
   when [(true, "defined(__i386__) || defined(_WIN32)"); (true, "defined(HAVE_purify) && !defined(_WIN32)")]
    [define "uint3korr" ["A"] (Op "(uint32)" [Op "+" [Op "+" [Op "(uint32)" [Op "(uchar)" [Op "[]" [var "A"; Lit
       "0"]]]; Op "<<" [Op "(uint32)" [Op "(uchar)" [Op "[]" [var "A"; Lit "1"]]]; Lit "8"]]; Op "<<" [Op "(uint32)"
       [Op "(uchar)" [Op "[]" [var "A"; Lit "2"]]]; Lit "16"]]])] ++
   when [(true, "defined(__i386__) || defined(_WIN32)"); (false, "defined(HAVE_purify) && !defined(_WIN32)")]
    [define "uint3korr" ["A"] (Op "(long)" [Op "&" [Op "*" [Op "(unsigned int *)" [var "A"]]; Lit "0xFFFFFF"]])] ++
   when [(true, "defined(__i386__) || defined(_WIN32)")]
    [define "uint4korr" ["A"] (Op "*" [Op "(uint32 *)" [var "A"]]);
     define "uint5korr" ["A"] (Op "+" [Op "(ulonglong)" [Op "+" [Op "+" [Op "+" [Op "(uint32)" [Op "(uchar)" [Op
       "[]" [var "A"; Lit "0"]]]; Op "<<" [Op "(uint32)" [Op "(uchar)" [Op "[]" [var "A"; Lit "1"]]]; Lit "8"]]; Op
       "<<" [Op "(uint32)" [Op "(uchar)" [Op "[]" [var "A"; Lit "2"]]]; Lit "16"]]; Op "<<" [Op "(uint32)" [Op
       "(uchar)" [Op "[]" [var "A"; Lit "3"]]]; Lit "24"]]]; Op "<<" [Op "(ulonglong)" [Op "(uchar)" [Op "[]" [var
       "A"; Lit "4"]]]; Lit "32"]]);
     define "uint6korr" ["A"] (Op "+" [Op "+" [Op "(ulonglong)" [Op "+" [Op "+" [Op "+" [Op "(uint32)" [Op
       "(uchar)" [Op "[]" [var "A"; Lit "0"]]]; Op "<<" [Op "(uint32)" [Op "(uchar)" [Op "[]" [var "A"; Lit "1"]]];
       Lit "8"]]; Op "<<" [Op "(uint32)" [Op "(uchar)" [Op "[]" [var "A"; Lit "2"]]]; Lit "16"]]; Op "<<" [Op
       "(uint32)" [Op "(uchar)" [Op "[]" [var "A"; Lit "3"]]]; Lit "24"]]]; Op "<<" [Op "(ulonglong)" [Op "(uchar)"
       [Op "[]" [var "A"; Lit "4"]]]; Lit "32"]]; Op "<<" [Op "(ulonglong)" [Op "(uchar)" [Op "[]" [var "A"; Lit
       "5"]]]; Lit "40"]]);
     define "uint8korr" ["A"] (Op "*" [Op "(ulonglong *)" [var "A"]]);
     define "sint8korr" ["A"] (Op "*" [Op "(longlong *)" [var "A"]]);
     define "int2store" ["T"; "A"] (Op "=" [Op "*" [Op "(uint16 *)" [var "T"]]; Op "(uint16)" [var "A"]]);
     define "int3store" ["T"; "A"] (Op "do while" [Op "{}" [Op "=" [Op "*" [var "T"]; Op "(uchar)" [var "A"]]; Op
       "=" [Op "*" [Op "+" [var "T"; Lit "1"]]; Op "(uchar)" [Op ">>" [Op "(uint)" [var "A"]; Lit "8"]]]; Op "=" [Op
       "*" [Op "+" [var "T"; Lit "2"]]; Op "(uchar)" [Op ">>" [var "A"; Lit "16"]]]]; Lit "0"]);
     define "int4store" ["T"; "A"] (Op "=" [Op "*" [Op "(long *)" [var "T"]]; Op "(long)" [var "A"]]);
     define "int5store" ["T"; "A"] (Op "do while" [Op "{}" [Op "=" [Op "*" [var "T"]; Op "(uchar)" [var "A"]]; Op
       "=" [Op "*" [Op "+" [var "T"; Lit "1"]]; Op "(uchar)" [Op ">>" [var "A"; Lit "8"]]]; Op "=" [Op "*" [Op "+"
       [var "T"; Lit "2"]]; Op "(uchar)" [Op ">>" [var "A"; Lit "16"]]]; Op "=" [Op "*" [Op "+" [var "T"; Lit "3"]];
       Op "(uchar)" [Op ">>" [var "A"; Lit "24"]]]; Op "=" [Op "*" [Op "+" [var "T"; Lit "4"]]; Op "(uchar)" [Op
       ">>" [var "A"; Lit "32"]]]]; Lit "0"]);
     define "int6store" ["T"; "A"] (Op "do while" [Op "{}" [Op "=" [Op "*" [var "T"]; Op "(uchar)" [var "A"]]; Op
       "=" [Op "*" [Op "+" [var "T"; Lit "1"]]; Op "(uchar)" [Op ">>" [var "A"; Lit "8"]]]; Op "=" [Op "*" [Op "+"
       [var "T"; Lit "2"]]; Op "(uchar)" [Op ">>" [var "A"; Lit "16"]]]; Op "=" [Op "*" [Op "+" [var "T"; Lit "3"]];
       Op "(uchar)" [Op ">>" [var "A"; Lit "24"]]]; Op "=" [Op "*" [Op "+" [var "T"; Lit "4"]]; Op "(uchar)" [Op
       ">>" [var "A"; Lit "32"]]]; Op "=" [Op "*" [Op "+" [var "T"; Lit "5"]]; Op "(uchar)" [Op ">>" [var "A"; Lit
       "40"]]]]; Lit "0"]);
     define "int8store" ["T"; "A"] (Op "=" [Op "*" [Op "(ulonglong *)" [var "T"]]; Op "(ulonglong)" [var "A"]])])%list.

(** my_global.h, lines 1116 to 1242. *)
Definition macros_my_global_doubleget : list guarded_macro :=
  (when [(true, "defined(__i386__) || defined(_WIN32)")]
    [define "doubleget" ["V"; "M"] (Op "do while" [Op "{}" [Op "declare doubleget_union _tmp" []; Op "=" [Op "[]"
       [Op ".m" [var "_tmp"]; Lit "0"]; Op "*" [Op "(long *)" [var "M"]]]; Op "=" [Op "[]" [Op ".m" [var "_tmp"];
       Lit "1"]; Op "*" [Op "+" [Op "(long *)" [var "M"]; Lit "1"]]]; Op "=" [var "V"; Op ".v" [var "_tmp"]]]; Lit
       "0"]);
     define "doublestore" ["T"; "V"] (Op "do while" [Op "{}" [Op "=" [Op "*" [Op "(long *)" [var "T"]]; Op "[]"
       [Op "->m" [Op "(doubleget_union *)" [Op "&" [var "V"]]]; Lit "0"]]; Op "=" [Op "*" [Op "+" [Op "(long *)"
       [var "T"]; Lit "1"]]; Op "[]" [Op "->m" [Op "(doubleget_union *)" [Op "&" [var "V"]]]; Lit "1"]]]; Lit "0"]);
     define "float4get" ["V"; "M"] (Op "do while" [Op "{}" [Op "=" [Op "*" [Op "(float *)" [Op "&" [var "V"]]]; Op
       "*" [Op "(float *)" [var "M"]]]]; Lit "0"]);
     define "float8get" ["V"; "M"] (call "doubleget" [var "V"; var "M"]);
     define "float4store" ["V"; "M"] (call "memcpy" [Op "(uchar *)" [var "V"]; Op "(uchar *)" [Op "&" [var "M"]];
       Op "sizeof float" []]);
     define "floatstore" ["T"; "V"] (call "memcpy" [Op "(uchar *)" [var "T"]; Op "(uchar *)" [Op "&" [var "V"]];
       Op "sizeof float" []]);
     define "floatget" ["V"; "M"] (call "memcpy" [Op "(uchar *)" [Op "&" [var "V"]]; Op "(uchar *)" [var "M"]; Op
       "sizeof float" []]);
     define "float8store" ["V"; "M"] (call "doublestore" [var "V"; var "M"])] ++
   when [(false, "defined(__i386__) || defined(_WIN32)")]
    [define "sint2korr" ["A"] (Op "(int16)" [Op "+" [Op "(int16)" [Op "(uchar)" [Op "[]" [var "A"; Lit "0"]]]; Op
       "<<" [Op "(int16)" [Op "(int16)" [Op "[]" [var "A"; Lit "1"]]]; Lit "8"]]]);
     define "sint3korr" ["A"] (Op "(int32)" [Op "?:" [Op "&" [Op "(uchar)" [Op "[]" [var "A"; Lit "2"]]; Lit
       "128"]; Op "|" [Op "|" [Op "|" [Op "<<" [Op "(uint32)" [Lit "255L"]; Lit "24"]; Op "<<" [Op "(uint32)" [Op
       "(uchar)" [Op "[]" [var "A"; Lit "2"]]]; Lit "16"]]; Op "<<" [Op "(uint32)" [Op "(uchar)" [Op "[]" [var "A";
       Lit "1"]]]; Lit "8"]]; Op "(uint32)" [Op "(uchar)" [Op "[]" [var "A"; Lit "0"]]]]; Op "|" [Op "|" [Op "<<"
       [Op "(uint32)" [Op "(uchar)" [Op "[]" [var "A"; Lit "2"]]]; Lit "16"]; Op "<<" [Op "(uint32)" [Op "(uchar)"
       [Op "[]" [var "A"; Lit "1"]]]; Lit "8"]]; Op "(uint32)" [Op "(uchar)" [Op "[]" [var "A"; Lit "0"]]]]]]);
     define "sint4korr" ["A"] (Op "(int32)" [Op "+" [Op "+" [Op "+" [Op "(int32)" [Op "(uchar)" [Op "[]" [var "A";
       Lit "0"]]]; Op "<<" [Op "(int32)" [Op "(uchar)" [Op "[]" [var "A"; Lit "1"]]]; Lit "8"]]; Op "<<" [Op
       "(int32)" [Op "(uchar)" [Op "[]" [var "A"; Lit "2"]]]; Lit "16"]]; Op "<<" [Op "(int32)" [Op "(int16)" [Op
       "[]" [var "A"; Lit "3"]]]; Lit "24"]]]);
     define "sint8korr" ["A"] (Op "(longlong)" [call "uint8korr" [var "A"]]);
     define "uint2korr" ["A"] (Op "(uint16)" [Op "+" [Op "(uint16)" [Op "(uchar)" [Op "[]" [var "A"; Lit "0"]]];
       Op "<<" [Op "(uint16)" [Op "(uchar)" [Op "[]" [var "A"; Lit "1"]]]; Lit "8"]]]);
     define "uint3korr" ["A"] (Op "(uint32)" [Op "+" [Op "+" [Op "(uint32)" [Op "(uchar)" [Op "[]" [var "A"; Lit
       "0"]]]; Op "<<" [Op "(uint32)" [Op "(uchar)" [Op "[]" [var "A"; Lit "1"]]]; Lit "8"]]; Op "<<" [Op "(uint32)"
       [Op "(uchar)" [Op "[]" [var "A"; Lit "2"]]]; Lit "16"]]]);
     define "uint4korr" ["A"] (Op "(uint32)" [Op "+" [Op "+" [Op "+" [Op "(uint32)" [Op "(uchar)" [Op "[]" [var
       "A"; Lit "0"]]]; Op "<<" [Op "(uint32)" [Op "(uchar)" [Op "[]" [var "A"; Lit "1"]]]; Lit "8"]]; Op "<<" [Op
       "(uint32)" [Op "(uchar)" [Op "[]" [var "A"; Lit "2"]]]; Lit "16"]]; Op "<<" [Op "(uint32)" [Op "(uchar)" [Op
       "[]" [var "A"; Lit "3"]]]; Lit "24"]]]);
     define "uint5korr" ["A"] (Op "+" [Op "(ulonglong)" [Op "+" [Op "+" [Op "+" [Op "(uint32)" [Op "(uchar)" [Op
       "[]" [var "A"; Lit "0"]]]; Op "<<" [Op "(uint32)" [Op "(uchar)" [Op "[]" [var "A"; Lit "1"]]]; Lit "8"]]; Op
       "<<" [Op "(uint32)" [Op "(uchar)" [Op "[]" [var "A"; Lit "2"]]]; Lit "16"]]; Op "<<" [Op "(uint32)" [Op
       "(uchar)" [Op "[]" [var "A"; Lit "3"]]]; Lit "24"]]]; Op "<<" [Op "(ulonglong)" [Op "(uchar)" [Op "[]" [var
       "A"; Lit "4"]]]; Lit "32"]]);
     define "uint6korr" ["A"] (Op "+" [Op "+" [Op "(ulonglong)" [Op "+" [Op "+" [Op "+" [Op "(uint32)" [Op
       "(uchar)" [Op "[]" [var "A"; Lit "0"]]]; Op "<<" [Op "(uint32)" [Op "(uchar)" [Op "[]" [var "A"; Lit "1"]]];
       Lit "8"]]; Op "<<" [Op "(uint32)" [Op "(uchar)" [Op "[]" [var "A"; Lit "2"]]]; Lit "16"]]; Op "<<" [Op
       "(uint32)" [Op "(uchar)" [Op "[]" [var "A"; Lit "3"]]]; Lit "24"]]]; Op "<<" [Op "(ulonglong)" [Op "(uchar)"
       [Op "[]" [var "A"; Lit "4"]]]; Lit "32"]]; Op "<<" [Op "(ulonglong)" [Op "(uchar)" [Op "[]" [var "A"; Lit
       "5"]]]; Lit "40"]]);
     define "uint8korr" ["A"] (Op "+" [Op "(ulonglong)" [Op "+" [Op "+" [Op "+" [Op "(uint32)" [Op "(uchar)" [Op
       "[]" [var "A"; Lit "0"]]]; Op "<<" [Op "(uint32)" [Op "(uchar)" [Op "[]" [var "A"; Lit "1"]]]; Lit "8"]]; Op
       "<<" [Op "(uint32)" [Op "(uchar)" [Op "[]" [var "A"; Lit "2"]]]; Lit "16"]]; Op "<<" [Op "(uint32)" [Op
       "(uchar)" [Op "[]" [var "A"; Lit "3"]]]; Lit "24"]]]; Op "<<" [Op "(ulonglong)" [Op "+" [Op "+" [Op "+" [Op
       "(uint32)" [Op "(uchar)" [Op "[]" [var "A"; Lit "4"]]]; Op "<<" [Op "(uint32)" [Op "(uchar)" [Op "[]" [var
       "A"; Lit "5"]]]; Lit "8"]]; Op "<<" [Op "(uint32)" [Op "(uchar)" [Op "[]" [var "A"; Lit "6"]]]; Lit "16"]];
       Op "<<" [Op "(uint32)" [Op "(uchar)" [Op "[]" [var "A"; Lit "7"]]]; Lit "24"]]]; Lit "32"]]);
     define "int2store" ["T"; "A"] (Op "do while" [Op "{}" [Op "declare uint def_temp=" [Op "(uint)" [var "A"]];
       Op "=" [Op "*" [Op "(uchar *)" [var "T"]]; Op "(uchar)" [var "def_temp"]]; Op "=" [Op "*" [Op "+" [Op
       "(uchar *)" [var "T"]; Lit "1"]]; Op "(uchar)" [Op ">>" [var "def_temp"; Lit "8"]]]]; Lit "0"]);
     define "int3store" ["T"; "A"] (Op "do while" [Op "{}" [Op "=" [Op "*" [Op "(uchar *)" [var "T"]]; Op
       "(uchar)" [var "A"]]; Op "=" [Op "*" [Op "+" [Op "(uchar *)" [var "T"]; Lit "1"]]; Op "(uchar)" [Op ">>" [var
       "A"; Lit "8"]]]; Op "=" [Op "*" [Op "+" [Op "(uchar *)" [var "T"]; Lit "2"]]; Op "(uchar)" [Op ">>" [var "A";
       Lit "16"]]]]; Lit "0"]);
     define "int4store" ["T"; "A"] (Op "do while" [Op "{}" [Op "=" [Op "*" [Op "(char *)" [var "T"]]; Op "(char)"
       [var "A"]]; Op "=" [Op "*" [Op "+" [Op "(char *)" [var "T"]; Lit "1"]]; Op "(char)" [Op ">>" [var "A"; Lit
       "8"]]]; Op "=" [Op "*" [Op "+" [Op "(char *)" [var "T"]; Lit "2"]]; Op "(char)" [Op ">>" [var "A"; Lit
       "16"]]]; Op "=" [Op "*" [Op "+" [Op "(char *)" [var "T"]; Lit "3"]]; Op "(char)" [Op ">>" [var "A"; Lit
       "24"]]]]; Lit "0"]);
     define "int5store" ["T"; "A"] (Op "do while" [Op "{}" [Op "=" [Op "*" [Op "(char *)" [var "T"]]; Op "(char)"
       [var "A"]]; Op "=" [Op "*" [Op "+" [Op "(char *)" [var "T"]; Lit "1"]]; Op "(char)" [Op ">>" [var "A"; Lit
       "8"]]]; Op "=" [Op "*" [Op "+" [Op "(char *)" [var "T"]; Lit "2"]]; Op "(char)" [Op ">>" [var "A"; Lit
       "16"]]]; Op "=" [Op "*" [Op "+" [Op "(char *)" [var "T"]; Lit "3"]]; Op "(char)" [Op ">>" [var "A"; Lit
       "24"]]]; Op "=" [Op "*" [Op "+" [Op "(char *)" [var "T"]; Lit "4"]]; Op "(char)" [Op ">>" [var "A"; Lit
       "32"]]]]; Lit "0"]);
     define "int6store" ["T"; "A"] (Op "do while" [Op "{}" [Op "=" [Op "*" [Op "(char *)" [var "T"]]; Op "(char)"
       [var "A"]]; Op "=" [Op "*" [Op "+" [Op "(char *)" [var "T"]; Lit "1"]]; Op "(char)" [Op ">>" [var "A"; Lit
       "8"]]]; Op "=" [Op "*" [Op "+" [Op "(char *)" [var "T"]; Lit "2"]]; Op "(char)" [Op ">>" [var "A"; Lit
       "16"]]]; Op "=" [Op "*" [Op "+" [Op "(char *)" [var "T"]; Lit "3"]]; Op "(char)" [Op ">>" [var "A"; Lit
       "24"]]]; Op "=" [Op "*" [Op "+" [Op "(char *)" [var "T"]; Lit "4"]]; Op "(char)" [Op ">>" [var "A"; Lit
       "32"]]]; Op "=" [Op "*" [Op "+" [Op "(char *)" [var "T"]; Lit "5"]]; Op "(char)" [Op ">>" [var "A"; Lit
       "40"]]]]; Lit "0"]);
     define "int8store" ["T"; "A"] (Op "do while" [Op "{}" [Op ";" [Op "declare uint def_temp=" [Op "(uint)" [var
       "A"]]; Op "declare uint def_temp2=" [Op "(uint)" [Op ">>" [var "A"; Lit "32"]]]]; call "int4store" [var "T";
       var "def_temp"]; call "int4store" [Op "+" [var "T"; Lit "4"]; var "def_temp2"]]; Lit "0"])] ++
   when [(false, "defined(__i386__) || defined(_WIN32)"); (true, "defined(WORDS_BIGENDIAN)")]
    [define "float4store" ["T"; "A"] (Op "do while" [Op "{}" [Op "=" [Op "*" [var "T"]; Op "[]" [Op "(uchar *)"
       [Op "&" [var "A"]]; Lit "3"]]; Op "=" [Op "*" [Op "+" [var "T"; Lit "1"]]; Op "(char)" [Op "[]" [Op
       "(uchar *)" [Op "&" [var "A"]]; Lit "2"]]]; Op "=" [Op "*" [Op "+" [var "T"; Lit "2"]]; Op "(char)" [Op "[]"
       [Op "(uchar *)" [Op "&" [var "A"]]; Lit "1"]]]; Op "=" [Op "*" [Op "+" [var "T"; Lit "3"]]; Op "(char)" [Op
       "[]" [Op "(uchar *)" [Op "&" [var "A"]]; Lit "0"]]]]; Lit "0"]);
     define "float4get" ["V"; "M"] (Op "do while" [Op "{}" [Op "declare float def_temp" []; Op "=" [Op "[]" [Op
       "(uchar *)" [Op "&" [var "def_temp"]]; Lit "0"]; Op "[]" [var "M"; Lit "3"]]; Op "=" [Op "[]" [Op "(uchar *)"
       [Op "&" [var "def_temp"]]; Lit "1"]; Op "[]" [var "M"; Lit "2"]]; Op "=" [Op "[]" [Op "(uchar *)" [Op "&"
       [var "def_temp"]]; Lit "2"]; Op "[]" [var "M"; Lit "1"]]; Op "=" [Op "[]" [Op "(uchar *)" [Op "&" [var
       "def_temp"]]; Lit "3"]; Op "[]" [var "M"; Lit "0"]]; Op "=" [var "V"; var "def_temp"]]; Lit "0"]);
     define "float8store" ["T"; "V"] (Op "do while" [Op "{}" [Op "=" [Op "*" [var "T"]; Op "[]" [Op "(uchar *)"
       [Op "&" [var "V"]]; Lit "7"]]; Op "=" [Op "*" [Op "+" [var "T"; Lit "1"]]; Op "(char)" [Op "[]" [Op
       "(uchar *)" [Op "&" [var "V"]]; Lit "6"]]]; Op "=" [Op "*" [Op "+" [var "T"; Lit "2"]]; Op "(char)" [Op "[]"
       [Op "(uchar *)" [Op "&" [var "V"]]; Lit "5"]]]; Op "=" [Op "*" [Op "+" [var "T"; Lit "3"]]; Op "(char)" [Op
       "[]" [Op "(uchar *)" [Op "&" [var "V"]]; Lit "4"]]]; Op "=" [Op "*" [Op "+" [var "T"; Lit "4"]]; Op "(char)"
       [Op "[]" [Op "(uchar *)" [Op "&" [var "V"]]; Lit "3"]]]; Op "=" [Op "*" [Op "+" [var "T"; Lit "5"]]; Op
       "(char)" [Op "[]" [Op "(uchar *)" [Op "&" [var "V"]]; Lit "2"]]]; Op "=" [Op "*" [Op "+" [var "T"; Lit "6"]];
       Op "(char)" [Op "[]" [Op "(uchar *)" [Op "&" [var "V"]]; Lit "1"]]]; Op "=" [Op "*" [Op "+" [var "T"; Lit
       "7"]]; Op "(char)" [Op "[]" [Op "(uchar *)" [Op "&" [var "V"]]; Lit "0"]]]]; Lit "0"]);
     define "float8get" ["V"; "M"] (Op "do while" [Op "{}" [Op "declare double def_temp" []; Op "=" [Op "[]" [Op
       "(uchar *)" [Op "&" [var "def_temp"]]; Lit "0"]; Op "[]" [var "M"; Lit "7"]]; Op "=" [Op "[]" [Op "(uchar *)"
       [Op "&" [var "def_temp"]]; Lit "1"]; Op "[]" [var "M"; Lit "6"]]; Op "=" [Op "[]" [Op "(uchar *)" [Op "&"
       [var "def_temp"]]; Lit "2"]; Op "[]" [var "M"; Lit "5"]]; Op "=" [Op "[]" [Op "(uchar *)" [Op "&" [var
       "def_temp"]]; Lit "3"]; Op "[]" [var "M"; Lit "4"]]; Op "=" [Op "[]" [Op "(uchar *)" [Op "&" [var
       "def_temp"]]; Lit "4"]; Op "[]" [var "M"; Lit "3"]]; Op "=" [Op "[]" [Op "(uchar *)" [Op "&" [var
       "def_temp"]]; Lit "5"]; Op "[]" [var "M"; Lit "2"]]; Op "=" [Op "[]" [Op "(uchar *)" [Op "&" [var
       "def_temp"]]; Lit "6"]; Op "[]" [var "M"; Lit "1"]]; Op "=" [Op "[]" [Op "(uchar *)" [Op "&" [var
       "def_temp"]]; Lit "7"]; Op "[]" [var "M"; Lit "0"]]; Op "=" [var "V"; var "def_temp"]]; Lit "0"])] ++
   when [(false, "defined(__i386__) || defined(_WIN32)"); (false, "defined(WORDS_BIGENDIAN)")]
    [define "float4get" ["V"; "M"] (call "memcpy" [Op "&" [var "V"]; var "M"; Op "sizeof float" []]);
     define "float4store" ["V"; "M"] (call "memcpy" [var "V"; Op "&" [var "M"]; Op "sizeof float" []])])%list.

(** my_global.h, lines 1245 to 1355. *)
Definition macros_my_global_doublestore : list guarded_macro :=
  (when [(false, "defined(__i386__) || defined(_WIN32)"); (false, "defined(WORDS_BIGENDIAN)"); (true,
    "defined(__FLOAT_WORD_ORDER) && (__FLOAT_WORD_ORDER == __BIG_ENDIAN)")]
    [define "doublestore" ["T"; "V"] (Op "do while" [Op "{}" [Op "=" [Op "*" [Op "+" [Op "(char *)" [var "T"]; Lit
       "0"]]; Op "(char)" [Op "[]" [Op "(uchar *)" [Op "&" [var "V"]]; Lit "4"]]]; Op "=" [Op "*" [Op "+" [Op
       "(char *)" [var "T"]; Lit "1"]]; Op "(char)" [Op "[]" [Op "(uchar *)" [Op "&" [var "V"]]; Lit "5"]]]; Op "="
       [Op "*" [Op "+" [Op "(char *)" [var "T"]; Lit "2"]]; Op "(char)" [Op "[]" [Op "(uchar *)" [Op "&" [var "V"]];
       Lit "6"]]]; Op "=" [Op "*" [Op "+" [Op "(char *)" [var "T"]; Lit "3"]]; Op "(char)" [Op "[]" [Op "(uchar *)"
       [Op "&" [var "V"]]; Lit "7"]]]; Op "=" [Op "*" [Op "+" [Op "(char *)" [var "T"]; Lit "4"]]; Op "(char)" [Op
       "[]" [Op "(uchar *)" [Op "&" [var "V"]]; Lit "0"]]]; Op "=" [Op "*" [Op "+" [Op "(char *)" [var "T"]; Lit
       "5"]]; Op "(char)" [Op "[]" [Op "(uchar *)" [Op "&" [var "V"]]; Lit "1"]]]; Op "=" [Op "*" [Op "+" [Op
       "(char *)" [var "T"]; Lit "6"]]; Op "(char)" [Op "[]" [Op "(uchar *)" [Op "&" [var "V"]]; Lit "2"]]]; Op "="
       [Op "*" [Op "+" [Op "(char *)" [var "T"]; Lit "7"]]; Op "(char)" [Op "[]" [Op "(uchar *)" [Op "&" [var "V"]];
       Lit "3"]]]]; Lit "0"]);
     define "doubleget" ["V"; "M"] (Op "do while" [Op "{}" [Op "declare double def_temp" []; Op "=" [Op "[]" [Op
       "(uchar *)" [Op "&" [var "def_temp"]]; Lit "0"]; Op "[]" [var "M"; Lit "4"]]; Op "=" [Op "[]" [Op "(uchar *)"
       [Op "&" [var "def_temp"]]; Lit "1"]; Op "[]" [var "M"; Lit "5"]]; Op "=" [Op "[]" [Op "(uchar *)" [Op "&"
       [var "def_temp"]]; Lit "2"]; Op "[]" [var "M"; Lit "6"]]; Op "=" [Op "[]" [Op "(uchar *)" [Op "&" [var
       "def_temp"]]; Lit "3"]; Op "[]" [var "M"; Lit "7"]]; Op "=" [Op "[]" [Op "(uchar *)" [Op "&" [var
       "def_temp"]]; Lit "4"]; Op "[]" [var "M"; Lit "0"]]; Op "=" [Op "[]" [Op "(uchar *)" [Op "&" [var
       "def_temp"]]; Lit "5"]; Op "[]" [var "M"; Lit "1"]]; Op "=" [Op "[]" [Op "(uchar *)" [Op "&" [var
       "def_temp"]]; Lit "6"]; Op "[]" [var "M"; Lit "2"]]; Op "=" [Op "[]" [Op "(uchar *)" [Op "&" [var
       "def_temp"]]; Lit "7"]; Op "[]" [var "M"; Lit "3"]]; Op "=" [var "V"; var "def_temp"]]; Lit "0"])] ++
   when [(false, "defined(__i386__) || defined(_WIN32)"); (false, "defined(WORDS_BIGENDIAN)")]
    [define "float8get" ["V"; "M"] (call "doubleget" [var "V"; var "M"]);
     define "float8store" ["V"; "M"] (call "doublestore" [var "V"; var "M"])] ++
   when []
    [define "int4net" ["A"] (Op "(int32)" [Op "|" [Op "|" [Op "|" [Op "(uint32)" [Op "(uchar)" [Op "[]" [var "A";
       Lit "3"]]]; Op "<<" [Op "(uint32)" [Op "(uchar)" [Op "[]" [var "A"; Lit "2"]]]; Lit "8"]]; Op "<<" [Op
       "(uint32)" [Op "(uchar)" [Op "[]" [var "A"; Lit "1"]]]; Lit "16"]]; Op "<<" [Op "(uint32)" [Op "(uchar)" [Op
       "[]" [var "A"; Lit "0"]]]; Lit "24"]]])] ++
   when [(true, "defined(WORDS_BIGENDIAN)")]
    [define "ushortget" ["V"; "M"] (Op "do while" [Op "{}" [Op "=" [var "V"; Op "(uint16)" [Op "+" [Op "(uint16)"
       [Op "(uchar)" [Op "[]" [var "M"; Lit "1"]]]; Op "<<" [Op "(uint16)" [Op "(uint16)" [Op "[]" [var "M"; Lit
       "0"]]]; Lit "8"]]]]]; Lit "0"]);
     define "shortget" ["V"; "M"] (Op "do while" [Op "{}" [Op "=" [var "V"; Op "(short)" [Op "+" [Op "(short)" [Op
       "(uchar)" [Op "[]" [var "M"; Lit "1"]]]; Op "<<" [Op "(short)" [Op "(short)" [Op "[]" [var "M"; Lit "0"]]];
       Lit "8"]]]]]; Lit "0"]);
     define "longget" ["V"; "M"] (Op "do while" [Op "{}" [Op "declare int32 def_temp" []; Op "=" [Op "[]" [Op
       "(uchar *)" [Op "&" [var "def_temp"]]; Lit "0"]; Op "[]" [var "M"; Lit "0"]]; Op "=" [Op "[]" [Op "(uchar *)"
       [Op "&" [var "def_temp"]]; Lit "1"]; Op "[]" [var "M"; Lit "1"]]; Op "=" [Op "[]" [Op "(uchar *)" [Op "&"
       [var "def_temp"]]; Lit "2"]; Op "[]" [var "M"; Lit "2"]]; Op "=" [Op "[]" [Op "(uchar *)" [Op "&" [var
       "def_temp"]]; Lit "3"]; Op "[]" [var "M"; Lit "3"]]; Op "=" [var "V"; var "def_temp"]]; Lit "0"]);
     define "ulongget" ["V"; "M"] (Op "do while" [Op "{}" [Op "declare uint32 def_temp" []; Op "=" [Op "[]" [Op
       "(uchar *)" [Op "&" [var "def_temp"]]; Lit "0"]; Op "[]" [var "M"; Lit "0"]]; Op "=" [Op "[]" [Op "(uchar *)"
       [Op "&" [var "def_temp"]]; Lit "1"]; Op "[]" [var "M"; Lit "1"]]; Op "=" [Op "[]" [Op "(uchar *)" [Op "&"
       [var "def_temp"]]; Lit "2"]; Op "[]" [var "M"; Lit "2"]]; Op "=" [Op "[]" [Op "(uchar *)" [Op "&" [var
       "def_temp"]]; Lit "3"]; Op "[]" [var "M"; Lit "3"]]; Op "=" [var "V"; var "def_temp"]]; Lit "0"]);
     define "shortstore" ["T"; "A"] (Op "do while" [Op "{}" [Op "declare uint def_temp=" [Op "(uint)" [var "A"]];
       Op "=" [Op "*" [Op "+" [Op "(char *)" [var "T"]; Lit "1"]]; Op "(char)" [var "def_temp"]]; Op "=" [Op "*" [Op
       "+" [Op "(char *)" [var "T"]; Lit "0"]]; Op "(char)" [Op ">>" [var "def_temp"; Lit "8"]]]]; Lit "0"]);
     define "longstore" ["T"; "A"] (Op "do while" [Op "{}" [Op "=" [Op "*" [Op "+" [Op "(char *)" [var "T"]; Lit
       "3"]]; var "A"]; Op "=" [Op "*" [Op "+" [Op "(char *)" [var "T"]; Lit "2"]]; Op ">>" [var "A"; Lit "8"]]; Op
       "=" [Op "*" [Op "+" [Op "(char *)" [var "T"]; Lit "1"]]; Op ">>" [var "A"; Lit "16"]]; Op "=" [Op "*" [Op "+"
       [Op "(char *)" [var "T"]; Lit "0"]]; Op ">>" [var "A"; Lit "24"]]]; Lit "0"]);
     define "floatget" ["V"; "M"] (call "memcpy" [Op "&" [var "V"]; var "M"; Op "sizeof float" []]);
     define "floatstore" ["T"; "V"] (call "memcpy" [var "T"; Op "(void *)" [Op "&" [var "V"]]; Op "sizeof float"
       []]);
     define "doubleget" ["V"; "M"] (call "memcpy" [Op "&" [var "V"]; var "M"; Op "sizeof double" []]);
     define "doublestore" ["T"; "V"] (call "memcpy" [var "T"; Op "(void *)" [Op "&" [var "V"]]; Op "sizeof double"
       []]);
     define "longlongget" ["V"; "M"] (call "memcpy" [Op "&" [var "V"]; var "M"; Op "sizeof ulonglong" []]);
     define "longlongstore" ["T"; "V"] (call "memcpy" [var "T"; Op "&" [var "V"]; Op "sizeof ulonglong" []])] ++
   when [(false, "defined(WORDS_BIGENDIAN)")]
    [define "ushortget" ["V"; "M"] (Op "do while" [Op "{}" [Op "=" [var "V"; call "uint2korr" [var "M"]]]; Lit
       "0"]);
     define "shortget" ["V"; "M"] (Op "do while" [Op "{}" [Op "=" [var "V"; call "sint2korr" [var "M"]]]; Lit
       "0"]);
     define "longget" ["V"; "M"] (Op "do while" [Op "{}" [Op "=" [var "V"; call "sint4korr" [var "M"]]]; Lit "0"]);
     define "ulongget" ["V"; "M"] (Op "do while" [Op "{}" [Op "=" [var "V"; call "uint4korr" [var "M"]]]; Lit
       "0"]);
     define "shortstore" ["T"; "V"] (call "int2store" [var "T"; var "V"]);
     define "longstore" ["T"; "V"] (call "int4store" [var "T"; var "V"])] ++
   when [(false, "defined(WORDS_BIGENDIAN)"); (false, "defined(floatstore)")]
    [define "floatstore" ["T"; "V"] (call "memcpy" [var "T"; Op "(void *)" [Op "&" [var "V"]]; Op "sizeof float"
       []]);
     define "floatget" ["V"; "M"] (call "memcpy" [Op "&" [var "V"]; var "M"; Op "sizeof float" []])] ++
   when [(false, "defined(WORDS_BIGENDIAN)"); (false, "defined(doubleget)")]
    [define "doubleget" ["V"; "M"] (call "memcpy" [Op "&" [var "V"]; var "M"; Op "sizeof double" []]);
     define "doublestore" ["T"; "V"] (call "memcpy" [var "T"; Op "(void *)" [Op "&" [var "V"]]; Op "sizeof double"
       []])] ++
   when [(false, "defined(WORDS_BIGENDIAN)")]
    [define "longlongget" ["V"; "M"] (call "memcpy" [Op "&" [var "V"]; var "M"; Op "sizeof ulonglong" []]);
     define "longlongstore" ["T"; "V"] (call "memcpy" [var "T"; Op "&" [var "V"]; Op "sizeof ulonglong" []])] ++
   when [(true, "defined(HAVE_CHARSET_utf8)")]
    [constant "MYSQL_UNIVERSAL_CLIENT_CHARSET" (Text "utf8")] ++
   when [(false, "defined(HAVE_CHARSET_utf8)")]
    [constant "MYSQL_UNIVERSAL_CLIENT_CHARSET" (var "MYSQL_DEFAULT_CHARSET_NAME")] ++
   when [(true, "defined(EMBEDDED_LIBRARY) && !defined(HAVE_EMBEDDED_PRIVILEGE_CONTROL)")]
    [constant "NO_EMBEDDED_ACCESS_CHECKS" (Op "" [])] ++
   when [(true, "defined(_WIN32)")]
    [define "dlsym" ["lib"; "name"] (Op "(void *)" [call "GetProcAddress" [Op "(HMODULE)" [var "lib"]; var
       "name"]]);
     define "dlopen" ["libname"; "unused"] (call "LoadLibraryEx" [var "libname"; var "NULL"; Lit "0"]);
     define "dlclose" ["lib"] (call "FreeLibrary" [Op "(HMODULE)" [var "lib"]])] ++
   when [(true, "defined(_WIN32)"); (false, "defined(HAVE_DLOPEN)")]
    [constant "HAVE_DLOPEN" (Op "" [])])%list.

(** my_global.h, lines 1367 to 1449. *)
Definition macros_my_global_DLERROR_GENERATE : list guarded_macro :=
  (when [(false, "defined(HAVE_DLERROR)"); (true, "defined(_WIN32)")]
    [define "DLERROR_GENERATE" ["errmsg"; "error_number"] (Op ";" [Op "declare char win_errormsg[]" [Lit "2048"];
       Op "if else" [call "FormatMessage" [var "FORMAT_MESSAGE_FROM_SYSTEM"; Lit "0"; var "error_number"; Lit "0";
       var "win_errormsg"; Lit "2048"; var "NULL"]; Op "{}" [Op "declare char * ptr" []; Op "for" [Op "=" [var
       "ptr"; Op "-" [Op "+" [Op "&" [Op "[]" [var "win_errormsg"; Lit "0"]]; call "strlen" [var "win_errormsg"]];
       Lit "1"]]; Op "&&" [Op ">=" [var "ptr"; Op "&" [Op "[]" [var "win_errormsg"; Lit "0"]]]; call "strchr" [Text
       "\r\n\t\0x20"; Op "*" [var "ptr"]]]; Op "post--" [var "ptr"]; Op "=" [Op "*" [var "ptr"]; Lit "0"]]; Op "="
       [var "errmsg"; var "win_errormsg"]]; Op "=" [var "errmsg"; Text ""]]]);
     define "dlerror" [] (Text "");
     constant "dlopen_errno" (call "GetLastError" [])] ++
   when [(false, "defined(HAVE_DLERROR)"); (false, "defined(_WIN32)")]
    [define "dlerror" [] (Text "No support for dynamic loading (static build?)");
     define "DLERROR_GENERATE" ["errmsg"; "error_number"] (Op "=" [var "errmsg"; call "dlerror" []]);
     constant "dlopen_errno" (var "errno")] ++
   when [(true, "defined(HAVE_DLERROR)")]
    [define "DLERROR_GENERATE" ["errmsg"; "error_number"] (Op "=" [var "errmsg"; call "dlerror" []]);
     constant "dlopen_errno" (var "errno")] ++
   when []
    [constant "MY_INT32_NUM_DECIMAL_DIGITS" (Lit "11");
     constant "MY_INT64_NUM_DECIMAL_DIGITS" (Lit "21")] ++
   when [(true, "!defined(max)")]
    [define "max" ["a"; "b"] (Op "?:" [Op ">" [var "a"; var "b"]; var "a"; var "b"]);
     define "min" ["a"; "b"] (Op "?:" [Op "<" [var "a"; var "b"]; var "a"; var "b"])] ++
   when [(true, "defined(TARGET_OS_LINUX)")]
    [constant "NEED_EXPLICIT_SYNC_DIR" (Lit "1")] ++
   when [(true, "!defined(__cplusplus) && !defined(bool)")]
    [constant "bool" (call "In_C_you_should_use_my_bool_instead" [])] ++
   when [(true, "__STDC_VERSION__ < 199901L"); (true, "__GNUC__ >= 2")]
    [constant "__func__" (var "__FUNCTION__")] ++
   when [(true, "__STDC_VERSION__ < 199901L"); (false, "__GNUC__ >= 2")]
    [constant "__func__" (Text "<unknown>")] ++
   when [(false, "__STDC_VERSION__ < 199901L"); (true, "defined(_MSC_VER)"); (true, "_MSC_VER < 1300")]
    [constant "__func__" (Text "<unknown>")] ++
   when [(false, "__STDC_VERSION__ < 199901L"); (true, "defined(_MSC_VER)"); (false, "_MSC_VER < 1300")]
    [constant "__func__" (var "__FUNCTION__")] ++
   when [(false, "__STDC_VERSION__ < 199901L"); (false, "defined(_MSC_VER)"); (true, "defined(__BORLANDC__)")]
    [constant "__func__" (var "__FUNC__")] ++
   when [(false, "__STDC_VERSION__ < 199901L"); (false, "defined(_MSC_VER)"); (false, "defined(__BORLANDC__)")]
    [constant "__func__" (Text "<unknown>")] ++
   when [(false, "defined(HAVE_RINT)")]
    [constant "MAX_EXACT_INTEGER" (Op "-" [Op "<<" [Lit "1LL"; var "DBL_MANT_DIG"]; Lit "1"])])%list.

(** my_global.h, lines 1486 to 1488. *)
Definition macros_my_global_MYSQL_PLUGIN_IMPORT : list guarded_macro :=
  (when [(false, "defined(MYSQL_PLUGIN_IMPORT)"); (true, "(defined(_WIN32) && defined(MYSQL_DYNAMIC_PLUGIN))")]
    [constant "MYSQL_PLUGIN_IMPORT" (call "__declspec" [var "dllimport"])] ++
   when [(false, "defined(MYSQL_PLUGIN_IMPORT)"); (false, "(defined(_WIN32) && defined(MYSQL_DYNAMIC_PLUGIN))")]
    [constant "MYSQL_PLUGIN_IMPORT" (Op "" [])])%list.

Definition macros_of_my_global : list guarded_macro :=
  (macros_my_global___WIN__ ++ macros_my_global_SIZEOF_SHORT ++ macros_my_global__XOPEN_SOURCE ++
   macros_my_global__REENTRANT ++ macros_my_global_lint ++ macros_my_global_compile_time_assert ++
   macros_my_global_QUOTE_ARG ++ macros_my_global_swap_variables ++ macros_my_global_DBUG_OFF ++
   macros_my_global_INVALID_SOCKET ++ macros_my_global_qsort_t ++ macros_my_global_SOCKOPT_OPTLEN_TYPE ++
   macros_my_global_NO_DIR_LIBRARY ++ macros_my_global_ulonglong2double ++ macros_my_global_double2ulonglong ++
   macros_my_global_my_isinf ++ macros_my_global_MY_ALIGN ++ macros_my_global_MY_ERRPTR ++
   macros_my_global_MY_FILEPOS_ERROR ++ macros_my_global_socket_errno ++ macros_my_global_MYF ++
   macros_my_global_doubleget ++ macros_my_global_doublestore ++ macros_my_global_DLERROR_GENERATE ++
   macros_my_global_MYSQL_PLUGIN_IMPORT)%list.
