(* ===== verification/MacrosThreads.v ===== *)
(** * The macros of threads and files

    Each [#define] of threads, locks, counters and the instrumented calls,
    as a term under the conditionals around it. *)
From S2P Require Import Prelude MacroExpansion.

(** my_pthread.h, lines 24 to 24. *)
Definition macros_my_pthread_ETIME : list guarded_macro :=
  (when [(false, "defined(ETIME)")]
    [constant "ETIME" (var "ETIMEDOUT")])%list.

(** my_pthread.h, lines 31 to 31. *)
Definition macros_my_pthread_EXTERNC : list guarded_macro :=
  (when [(false, "defined(__cplusplus)")]
    [constant "EXTERNC" (Op "" [])])%list.

(** my_pthread.h, lines 79 to 79. *)
Definition macros_my_pthread_pthread_self : list guarded_macro :=
  (when [(true, "defined(__WIN__)")]
    [define "pthread_self" [] (call "GetCurrentThreadId" [])])%list.

(** my_pthread.h, lines 84 to 86. *)
Definition macros_my_pthread_MY_PTHREAD_ONCE_INIT : list guarded_macro :=
  (when [(true, "defined(__WIN__)")]
    [constant "MY_PTHREAD_ONCE_INIT" (Lit "0");
     constant "MY_PTHREAD_ONCE_INPROGRESS" (Lit "1");
     constant "MY_PTHREAD_ONCE_DONE" (Lit "2")])%list.

(** my_pthread.h, lines 107 to 129. *)
Definition macros_my_pthread_set_timespec : list guarded_macro :=
  (when [(true, "defined(__WIN__)")]
    [define "set_timespec" ["ABSTIME"; "SEC"] (Op "{}" [call "GetSystemTimeAsFileTime" [Op "&" [Op ".ft" [Op ".tv"
       [var "ABSTIME"]]]]; Op "+=" [Op ".i64" [Op ".tv" [var "ABSTIME"]]; Op "*" [Op "(__int64)" [var "SEC"]; Lit
       "10000000"]]; Op "=" [Op ".max_timeout_msec" [var "ABSTIME"]; Op "(long)" [Op "*" [var "SEC"; Lit "1000"]]]]);
     define "set_timespec_nsec" ["ABSTIME"; "NSEC"] (Op "{}" [call "GetSystemTimeAsFileTime" [Op "&" [Op ".ft" [Op
       ".tv" [var "ABSTIME"]]]]; Op "+=" [Op ".i64" [Op ".tv" [var "ABSTIME"]]; Op "/" [Op "(__int64)" [var "NSEC"];
       Lit "100"]]; Op "=" [Op ".max_timeout_msec" [var "ABSTIME"]; Op "(long)" [Op "/" [var "NSEC"; Lit
       "1000000"]]]]);
     define "cmp_timespec" ["TS1"; "TS2"] (Op "?:" [Op ">" [Op ".i64" [Op ".tv" [var "TS1"]]; Op ".i64" [Op ".tv"
       [var "TS2"]]]; Lit "1"; Op "?:" [Op "<" [Op ".i64" [Op ".tv" [var "TS1"]]; Op ".i64" [Op ".tv" [var "TS2"]]];
       Op "-" [Lit "1"]; Lit "0"]])])%list.

(** my_pthread.h, lines 153 to 212. *)
Definition macros_my_pthread_ETIMEDOUT : list guarded_macro :=
  (when [(true, "defined(__WIN__)"); (false, "defined(ETIMEDOUT)")]
    [constant "ETIMEDOUT" (Lit "145")] ++
   when [(true, "defined(__WIN__)")]
    [constant "HAVE_LOCALTIME_R" (Lit "1");
     constant "_REENTRANT" (Lit "1");
     constant "HAVE_PTHREAD_ATTR_SETSTACKSIZE" (Lit "1");
     define "pthread_key" ["T"; "V"] (Op "declare DWORD" [var "V"]);
     define "pthread_key_create" ["A"; "B"] (Op "==" [Op "=" [Op "*" [var "A"]; call "TlsAlloc" []]; Lit
       "0xFFFFFFFF"]);
     define "pthread_key_delete" ["A"] (call "TlsFree" [var "A"]);
     define "my_pthread_setspecific_ptr" ["T"; "V"] (Op "!" [call "TlsSetValue" [var "T"; var "V"]]);
     define "pthread_setspecific" ["A"; "B"] (Op "!" [call "TlsSetValue" [var "A"; var "B"]]);
     define "pthread_getspecific" ["A"] (call "TlsGetValue" [var "A"]);
     define "my_pthread_getspecific" ["T"; "A"] (Op "cast" [var "T"; call "TlsGetValue" [var "A"]]);
     define "my_pthread_getspecific_ptr" ["T"; "V"] (Op "cast" [var "T"; call "TlsGetValue" [var "V"]]);
     define "pthread_equal" ["A"; "B"] (Op "==" [var "A"; var "B"]);
     define "pthread_mutex_init" ["A"; "B"] (Op "," [call "InitializeCriticalSection" [var "A"]; Lit "0"]);
     define "pthread_mutex_lock" ["A"] (Op "," [call "EnterCriticalSection" [var "A"]; Lit "0"]);
     define "pthread_mutex_trylock" ["A"] (call "win_pthread_mutex_trylock" [var "A"]);
     define "pthread_mutex_unlock" ["A"] (Op "," [call "LeaveCriticalSection" [var "A"]; Lit "0"]);
     define "pthread_mutex_destroy" ["A"] (Op "," [call "DeleteCriticalSection" [var "A"]; Lit "0"]);
     define "pthread_kill" ["A"; "B"] (call "pthread_dummy" [Op "?:" [var "A"; Lit "0"; var "ESRCH"]]);
     define "pthread_attr_setdetachstate" ["A"; "B"] (call "pthread_dummy" [Lit "0"]);
     define "pthread_attr_setscope" ["A"; "B"] (Op "" []);
     define "pthread_detach_this_thread" [] (Op "" []);
     define "pthread_condattr_init" ["A"] (Op "" []);
     define "pthread_condattr_destroy" ["A"] (Op "" []);
     define "pthread_yield" [] (call "SwitchToThread" []);
     define "my_sigset" ["A"; "B"] (call "signal" [var "A"; var "B"])] ++
   when [(false, "defined(__WIN__)"); (true, "defined(HAVE_rts_threads)")]
    [constant "sigwait" (var "org_sigwait")] ++
   when [(false, "defined(__WIN__)"); (false, "defined(_REENTRANT)")]
    [constant "_REENTRANT" (Op "" [])] ++
   when [(false, "defined(__WIN__)")]
    [define "pthread_key" ["T"; "V"] (Op "declare pthread_key_t" [var "V"]);
     define "my_pthread_getspecific_ptr" ["T"; "V"] (call "my_pthread_getspecific" [var "T"; var "V"]);
     define "my_pthread_setspecific_ptr" ["T"; "V"] (call "pthread_setspecific" [var "T"; Op "(void *)" [var
       "V"]]);
     define "pthread_detach_this_thread" [] (Op "" [])])%list.

(** my_pthread.h, lines 216 to 227. *)
Definition macros_my_pthread_my_pthread_once_t : list guarded_macro :=
  (when [(false, "defined(__WIN__)")]
    [constant "my_pthread_once_t" (var "pthread_once_t")] ++
   when [(false, "defined(__WIN__)"); (true, "defined(PTHREAD_ONCE_INITIALIZER)")]
    [constant "MY_PTHREAD_ONCE_INIT" (var "PTHREAD_ONCE_INITIALIZER")] ++
   when [(false, "defined(__WIN__)"); (false, "defined(PTHREAD_ONCE_INITIALIZER)")]
    [constant "MY_PTHREAD_ONCE_INIT" (var "PTHREAD_ONCE_INIT")] ++
   when [(false, "defined(__WIN__)")]
    [define "my_pthread_once" ["C"; "F"] (call "pthread_once" [var "C"; var "F"])] ++
   when [(false, "defined(__WIN__)"); (true, "defined(PTHREAD_SCOPE_GLOBAL) && !defined(PTHREAD_SCOPE_SYSTEM)")]
    [constant "HAVE_rts_threads" (Op "" [])])%list.

(** my_pthread.h, lines 229 to 233. *)
Definition macros_my_pthread_pthread_sigmask : list guarded_macro :=
  (when [(false, "defined(__WIN__)"); (true, "defined(PTHREAD_SCOPE_GLOBAL) && !defined(PTHREAD_SCOPE_SYSTEM)")]
    [define "pthread_sigmask" ["A"; "B"; "C"] (call "sigprocmask" [var "A"; var "B"; var "C"]);
     constant "PTHREAD_CREATE_DETACHED" (Op "&" [var "my_pthread_create_detached"]);
     constant "PTHREAD_SCOPE_SYSTEM" (var "PTHREAD_SCOPE_GLOBAL");
     constant "PTHREAD_SCOPE_PROCESS" (var "PTHREAD_SCOPE_LOCAL");
     constant "USE_ALARM_THREAD" (Op "" [])])%list.

(** my_pthread.h, lines 241 to 241. *)
Definition macros_my_pthread_my_sigwait : list guarded_macro :=
  (when [(false, "defined(__WIN__)"); (false, "defined(HAVE_NONPOSIX_SIGWAIT)")]
    [define "my_sigwait" ["A"; "B"] (call "sigwait" [var "A"; var "B"])])%list.

(** my_pthread.h, lines 248 to 248. *)
Definition macros_my_pthread_pthread_mutex_init : list guarded_macro :=
  (when [(false, "defined(__WIN__)"); (true, "defined(HAVE_NONPOSIX_PTHREAD_MUTEX_INIT)"); (false,
    "defined(SAFE_MUTEX)")]
    [define "pthread_mutex_init" ["a"; "b"] (call "my_pthread_mutex_init" [var "a"; var "b"])])%list.

(** my_pthread.h, lines 252 to 252. *)
Definition macros_my_pthread_pthread_cond_init : list guarded_macro :=
  (when [(false, "defined(__WIN__)"); (true, "defined(HAVE_NONPOSIX_PTHREAD_MUTEX_INIT)")]
    [define "pthread_cond_init" ["a"; "b"] (call "my_pthread_cond_init" [var "a"; var "b"])])%list.

(** my_pthread.h, lines 258 to 258. *)
Definition macros_my_pthread_pthread_sigmask_again : list guarded_macro :=
  (when [(false, "defined(__WIN__)"); (true, "defined(HAVE_SIGTHREADMASK) && !defined(HAVE_PTHREAD_SIGMASK)")]
    [define "pthread_sigmask" ["A"; "B"; "C"] (call "sigthreadmask" [var "A"; var "B"; var "C"])])%list.

(** my_pthread.h, lines 273 to 288. *)
Definition macros_my_pthread_my_sigset : list guarded_macro :=
  (when [(false, "defined(__WIN__)"); (true, "defined(HAVE_SIGACTION) && !defined(my_sigset)")]
    [define "my_sigset" ["A"; "B"] (Op "do while" [Op "{}" [Op "declare struct sigaction l_s" []; Op
       "declare sigset_t l_set" []; call "DBUG_ASSERT" [Op "!=" [var "A"; Lit "0"]]; call "sigemptyset" [Op "&" [var
       "l_set"]]; Op "=" [Op ".sa_handler" [var "l_s"]; var "B"]; Op "=" [Op ".sa_mask" [var "l_s"]; var "l_set"];
       Op "=" [Op ".sa_flags" [var "l_s"]; Lit "0"]; call "sigaction" [var "A"; Op "&" [var "l_s"]; var "NULL"]];
       Lit "0"])] ++
   when [(false, "defined(__WIN__)"); (false, "defined(HAVE_SIGACTION) && !defined(my_sigset)"); (true,
    "defined(HAVE_SIGSET) && !defined(my_sigset)")]
    [define "my_sigset" ["A"; "B"] (call "sigset" [var "A"; var "B"])] ++
   when [(false, "defined(__WIN__)"); (false, "defined(HAVE_SIGACTION) && !defined(my_sigset)"); (false,
    "defined(HAVE_SIGSET) && !defined(my_sigset)"); (true, "!defined(my_sigset)")]
    [define "my_sigset" ["A"; "B"] (call "signal" [var "A"; var "B"])] ++
   when [(false, "defined(__WIN__)"); (true, "!defined(HAVE_PTHREAD_ATTR_SETSCOPE) || defined(HAVE_DEC_3_2_THREADS)")]
    [define "pthread_attr_setscope" ["A"; "B"] (Op "" [])])%list.

(** my_pthread.h, lines 296 to 302. *)
Definition macros_my_pthread_pthread_cond_timedwait : list guarded_macro :=
  (when [(false, "defined(__WIN__)"); (true, "defined(HAVE_BROKEN_PTHREAD_COND_TIMEDWAIT) && !defined(SAFE_MUTEX)")]
    [define "pthread_cond_timedwait" ["A"; "B"; "C"] (call "my_pthread_cond_timedwait" [var "A"; var "B"; var
       "C"])] ++
   when [(false, "defined(__WIN__)"); (true, "!defined(HAVE_NONPOSIX_PTHREAD_GETSPECIFIC)")]
    [define "my_pthread_getspecific" ["A"; "B"] (Op "cast" [var "A"; call "pthread_getspecific" [var "B"]])] ++
   when [(false, "defined(__WIN__)"); (false, "!defined(HAVE_NONPOSIX_PTHREAD_GETSPECIFIC)")]
    [define "my_pthread_getspecific" ["A"; "B"] (Op "cast" [var "A"; call "my_pthread_getspecific_imp" [var "B"]])])%list.

(** my_pthread.h, lines 316 to 376. *)
Definition macros_my_pthread_pthread_condattr_init : list guarded_macro :=
  (when [(false, "defined(__WIN__)"); (true, "defined(HAVE_PTHREAD_CONDATTR_CREATE)")]
    [constant "pthread_condattr_init" (var "pthread_condattr_create");
     constant "pthread_condattr_destroy" (var "pthread_condattr_delete")] ++
   when [(false, "defined(__WIN__)"); (true, "!defined(HAVE_PTHREAD_KEY_DELETE) && !defined(pthread_key_delete)")]
    [define "pthread_key_delete" ["A"] (call "pthread_dummy" [Lit "0"])] ++
   when [(false, "defined(__WIN__)"); (true, "defined(HAVE_CTHREADS_WRAPPER)")]
    [define "pthread_cond_destroy" ["A"] (call "pthread_dummy" [Lit "0"]);
     define "pthread_mutex_destroy" ["A"] (call "pthread_dummy" [Lit "0"]);
     define "pthread_attr_delete" ["A"] (call "pthread_dummy" [Lit "0"]);
     define "pthread_condattr_delete" ["A"] (call "pthread_dummy" [Lit "0"]);
     define "pthread_attr_setstacksize" ["A"; "B"] (call "pthread_dummy" [Lit "0"]);
     define "pthread_equal" ["A"; "B"] (Op "==" [var "A"; var "B"]);
     define "pthread_cond_timedwait" ["a"; "b"; "c"] (call "pthread_cond_wait" [var "a"; var "b"]);
     define "pthread_attr_init" ["A"] (call "pthread_attr_create" [var "A"]);
     define "pthread_attr_destroy" ["A"] (call "pthread_attr_delete" [var "A"]);
     define "pthread_attr_setdetachstate" ["A"; "B"] (call "pthread_dummy" [Lit "0"]);
     define "pthread_create" ["A"; "B"; "C"; "D"] (call "pthread_create" [var "A"; Op "*" [var "B"]; var "C"; var
       "D"]);
     define "pthread_sigmask" ["A"; "B"; "C"] (call "sigprocmask" [var "A"; var "B"; var "C"]);
     define "pthread_kill" ["A"; "B"] (call "pthread_dummy" [Op "?:" [var "A"; Lit "0"; var "ESRCH"]]);
     define "pthread_detach_this_thread" [] (Op "{}" [Op "declare pthread_t tmp=" [call "pthread_self" []]; call
       "pthread_detach" [Op "&" [var "tmp"]]])] ++
   when [(false, "defined(__WIN__)"); (true, "defined(HAVE_DARWIN5_THREADS)")]
    [define "pthread_sigmask" ["A"; "B"; "C"] (call "sigprocmask" [var "A"; var "B"; var "C"]);
     define "pthread_kill" ["A"; "B"] (call "pthread_dummy" [Op "?:" [var "A"; Lit "0"; var "ESRCH"]]);
     define "pthread_condattr_init" ["A"] (call "pthread_dummy" [Lit "0"]);
     define "pthread_condattr_destroy" ["A"] (call "pthread_dummy" [Lit "0"]);
     define "pthread_detach_this_thread" [] (Op "{}" [Op "declare pthread_t tmp=" [call "pthread_self" []]; call
       "pthread_detach" [var "tmp"]])] ++
   when [(false, "defined(__WIN__)"); (true,
    "((defined(HAVE_PTHREAD_ATTR_CREATE) && !defined(HAVE_SIGWAIT)) || defined(HAVE_DEC_3_2_THREADS)) && !defined(HAVE_CTHREADS_WRAPPER)")]
    [define "pthread_key_create" ["A"; "B"] (call "pthread_keycreate" [var "A"; Op "?:" [var "B"; Op
       "(pthread_destructor_t)" [var "B"]; Op "(pthread_destructor_t)" [var "pthread_dummy"]]]);
     define "pthread_attr_init" ["A"] (call "pthread_attr_create" [var "A"]);
     define "pthread_attr_destroy" ["A"] (call "pthread_attr_delete" [var "A"]);
     define "pthread_attr_setdetachstate" ["A"; "B"] (call "pthread_dummy" [Lit "0"]);
     define "pthread_create" ["A"; "B"; "C"; "D"] (call "pthread_create" [var "A"; Op "*" [var "B"]; var "C"; var
       "D"])] ++
   when [(false, "defined(__WIN__)"); (true,
    "((defined(HAVE_PTHREAD_ATTR_CREATE) && !defined(HAVE_SIGWAIT)) || defined(HAVE_DEC_3_2_THREADS)) && !defined(HAVE_CTHREADS_WRAPPER)");
    (false, "defined(pthread_sigmask)")]
    [define "pthread_sigmask" ["A"; "B"; "C"] (call "sigprocmask" [var "A"; var "B"; var "C"])] ++
   when [(false, "defined(__WIN__)"); (true,
    "((defined(HAVE_PTHREAD_ATTR_CREATE) && !defined(HAVE_SIGWAIT)) || defined(HAVE_DEC_3_2_THREADS)) && !defined(HAVE_CTHREADS_WRAPPER)")]
    [define "pthread_kill" ["A"; "B"] (call "pthread_dummy" [Op "?:" [var "A"; Lit "0"; var "ESRCH"]]);
     define "pthread_detach_this_thread" [] (Op "{}" [Op "declare pthread_t tmp=" [call "pthread_self" []]; call
       "pthread_detach" [Op "&" [var "tmp"]]])] ++
   when [(false, "defined(__WIN__)"); (false,
    "((defined(HAVE_PTHREAD_ATTR_CREATE) && !defined(HAVE_SIGWAIT)) || defined(HAVE_DEC_3_2_THREADS)) && !defined(HAVE_CTHREADS_WRAPPER)")]
    [constant "HAVE_PTHREAD_KILL" (Op "" [])] ++
   when [(true, "defined(HPUX10) && !defined(DONT_REMAP_PTHREAD_FUNCTIONS)")]
    [define "pthread_cond_timedwait" ["a"; "b"; "c"] (call "my_pthread_cond_timedwait" [var "a"; var "b"; var
       "c"])])%list.

(** my_pthread.h, lines 382 to 382. *)
Definition macros_my_pthread_pthread_attr_getstacksize : list guarded_macro :=
  (when [(true, "defined(HPUX10)")]
    [define "pthread_attr_getstacksize" ["A"; "B"] (call "my_pthread_attr_getstacksize" [var "A"; var "B"])])%list.

(** my_pthread.h, lines 388 to 388. *)
Definition macros_my_pthread_pthread_mutex_trylock : list guarded_macro :=
  (when [(true, "defined(HAVE_POSIX1003_4a_MUTEX) && !defined(DONT_REMAP_PTHREAD_FUNCTIONS)")]
    [define "pthread_mutex_trylock" ["a"] (call "my_pthread_mutex_trylock" [var "a"])])%list.

(** my_pthread.h, lines 395 to 467. *)
Definition macros_my_pthread_pthread_yield : list guarded_macro :=
  (when [(true, "!defined(HAVE_PTHREAD_YIELD_ONE_ARG) && !defined(HAVE_PTHREAD_YIELD_ZERO_ARG)"); (true,
    "defined(HAVE_SCHED_YIELD)")]
    [define "pthread_yield" [] (call "sched_yield" [])] ++
   when [(true, "!defined(HAVE_PTHREAD_YIELD_ONE_ARG) && !defined(HAVE_PTHREAD_YIELD_ZERO_ARG)"); (false,
    "defined(HAVE_SCHED_YIELD)"); (true, "defined(HAVE_PTHREAD_YIELD_NP)")]
    [define "pthread_yield" [] (call "pthread_yield_np" [])] ++
   when [(true, "!defined(HAVE_PTHREAD_YIELD_ONE_ARG) && !defined(HAVE_PTHREAD_YIELD_ZERO_ARG)"); (false,
    "defined(HAVE_SCHED_YIELD)"); (false, "defined(HAVE_PTHREAD_YIELD_NP)"); (true, "defined(HAVE_THR_YIELD)")]
    [define "pthread_yield" [] (call "thr_yield" [])] ++
   when [(true, "defined(HAVE_TIMESPEC_TS_SEC)"); (false, "defined(set_timespec)")]
    [define "set_timespec" ["ABSTIME"; "SEC"] (Op "{}" [Op "=" [Op ".ts_sec" [var "ABSTIME"]; Op "+" [call "time"
       [Lit "0"]; Op "(time_t)" [var "SEC"]]]; Op "=" [Op ".ts_nsec" [var "ABSTIME"]; Lit "0"]])] ++
   when [(true, "defined(HAVE_TIMESPEC_TS_SEC)"); (false, "defined(set_timespec_nsec)")]
    [define "set_timespec_nsec" ["ABSTIME"; "NSEC"] (Op "{}" [Op "declare ulonglong now=" [Op "+" [call
       "my_getsystime" []; Op "/" [var "NSEC"; Lit "100"]]]; Op "=" [Op ".ts_sec" [var "ABSTIME"]; Op "/" [var
       "now"; call "ULL" [Lit "10000000"]]]; Op "=" [Op ".ts_nsec" [var "ABSTIME"]; Op "+" [Op "*" [Op "%" [var
       "now"; call "ULL" [Lit "10000000"]]; Lit "100"]; Op "%" [var "NSEC"; Lit "100"]]]])] ++
   when [(false, "defined(HAVE_TIMESPEC_TS_SEC)"); (false, "defined(set_timespec)")]
    [define "set_timespec" ["ABSTIME"; "SEC"] (Op "{}" [Op "declare struct timeval tv" []; call "gettimeofday" [Op
       "&" [var "tv"]; Lit "0"]; Op "=" [Op ".tv_sec" [var "ABSTIME"]; Op "+" [Op ".tv_sec" [var "tv"]; Op
       "(time_t)" [var "SEC"]]]; Op "=" [Op ".tv_nsec" [var "ABSTIME"]; Op "*" [Op ".tv_usec" [var "tv"]; Lit
       "1000"]]])] ++
   when [(false, "defined(HAVE_TIMESPEC_TS_SEC)"); (false, "defined(set_timespec_nsec)")]
    [define "set_timespec_nsec" ["ABSTIME"; "NSEC"] (Op "{}" [Op "declare ulonglong now=" [Op "+" [call
       "my_getsystime" []; Op "/" [var "NSEC"; Lit "100"]]]; Op "=" [Op ".tv_sec" [var "ABSTIME"]; Op "(time_t)" [Op
       "/" [var "now"; call "ULL" [Lit "10000000"]]]]; Op "=" [Op ".tv_nsec" [var "ABSTIME"]; Op "(long)" [Op "+"
       [Op "*" [Op "%" [var "now"; call "ULL" [Lit "10000000"]]; Lit "100"]; Op "%" [var "NSEC"; Lit "100"]]]]])] ++
   when [(true, "defined(HAVE_TIMESPEC_TS_SEC)"); (false, "defined(cmp_timespec)")]
    [define "cmp_timespec" ["TS1"; "TS2"] (Op "?:" [Op "||" [Op ">" [Op ".ts_sec" [var "TS1"]; Op ".ts_sec" [var
       "TS2"]]; Op "&&" [Op "==" [Op ".ts_sec" [var "TS1"]; Op ".ts_sec" [var "TS2"]]; Op ">" [Op ".ts_nsec" [var
       "TS1"]; Op ".ts_nsec" [var "TS2"]]]]; Lit "1"; Op "?:" [Op "||" [Op "<" [Op ".ts_sec" [var "TS1"]; Op
       ".ts_sec" [var "TS2"]]; Op "&&" [Op "==" [Op ".ts_sec" [var "TS1"]; Op ".ts_sec" [var "TS2"]]; Op "<" [Op
       ".ts_nsec" [var "TS1"]; Op ".ts_nsec" [var "TS2"]]]]; Op "-" [Lit "1"]; Lit "0"]])] ++
   when [(false, "defined(HAVE_TIMESPEC_TS_SEC)"); (false, "defined(cmp_timespec)")]
    [define "cmp_timespec" ["TS1"; "TS2"] (Op "?:" [Op "||" [Op ">" [Op ".tv_sec" [var "TS1"]; Op ".tv_sec" [var
       "TS2"]]; Op "&&" [Op "==" [Op ".tv_sec" [var "TS1"]; Op ".tv_sec" [var "TS2"]]; Op ">" [Op ".tv_nsec" [var
       "TS1"]; Op ".tv_nsec" [var "TS2"]]]]; Lit "1"; Op "?:" [Op "||" [Op "<" [Op ".tv_sec" [var "TS1"]; Op
       ".tv_sec" [var "TS2"]]; Op "&&" [Op "==" [Op ".tv_sec" [var "TS1"]; Op ".tv_sec" [var "TS2"]]; Op "<" [Op
       ".tv_nsec" [var "TS1"]; Op ".tv_nsec" [var "TS2"]]]]; Op "-" [Lit "1"]; Lit "0"]])])%list.

(** my_pthread.h, lines 525 to 541. *)
Definition macros_my_pthread_pthread_mutex_init_again : list guarded_macro :=
  (when [(true, "defined(SAFE_MUTEX)")]
    [define "pthread_mutex_init" ["A"; "B"] (call "safe_mutex_init" [var "A"; var "B"; var "__FILE__"; var
       "__LINE__"]);
     define "pthread_mutex_lock" ["A"] (call "safe_mutex_lock" [var "A"; var "FALSE"; var "__FILE__"; var
       "__LINE__"]);
     define "pthread_mutex_unlock" ["A"] (call "safe_mutex_unlock" [var "A"; var "__FILE__"; var "__LINE__"]);
     define "pthread_mutex_destroy" ["A"] (call "safe_mutex_destroy" [var "A"; var "__FILE__"; var "__LINE__"]);
     define "pthread_cond_wait" ["A"; "B"] (call "safe_cond_wait" [var "A"; var "B"; var "__FILE__"; var
       "__LINE__"]);
     define "pthread_cond_timedwait" ["A"; "B"; "C"] (call "safe_cond_timedwait" [var "A"; var "B"; var "C"; var
       "__FILE__"; var "__LINE__"]);
     define "pthread_mutex_trylock" ["A"] (call "safe_mutex_lock" [var "A"; var "TRUE"; var "__FILE__"; var
       "__LINE__"]);
     constant "pthread_mutex_t" (var "safe_mutex_t");
     define "safe_mutex_assert_owner" ["mp"] (call "DBUG_ASSERT" [Op "&&" [Op ">" [Op "->count" [var "mp"]; Lit
       "0"]; call "pthread_equal" [call "pthread_self" []; Op "->thread" [var "mp"]]]]);
     define "safe_mutex_assert_not_owner" ["mp"] (call "DBUG_ASSERT" [Op "||" [Op "!" [Op "->count" [var "mp"]];
       Op "!" [call "pthread_equal" [call "pthread_self" []; Op "->thread" [var "mp"]]]]])] ++
   when [(false, "defined(SAFE_MUTEX)")]
    [define "safe_mutex_assert_owner" ["mp"] (Op "" []);
     define "safe_mutex_assert_not_owner" ["mp"] (Op "" [])])%list.

(** my_pthread.h, lines 567 to 621. *)
Definition macros_my_pthread_pthread_mutex_init_again_again : list guarded_macro :=
  (when [(true, "defined(MY_PTHREAD_FASTMUTEX) && !defined(SAFE_MUTEX)")]
    [define "pthread_mutex_init" ["A"; "B"] (call "my_pthread_fastmutex_init" [var "A"; var "B"]);
     define "pthread_mutex_lock" ["A"] (call "my_pthread_fastmutex_lock" [var "A"]);
     define "pthread_mutex_unlock" ["A"] (call "pthread_mutex_unlock" [Op "&" [Op "->mutex" [var "A"]]]);
     define "pthread_mutex_destroy" ["A"] (call "pthread_mutex_destroy" [Op "&" [Op "->mutex" [var "A"]]]);
     define "pthread_cond_wait" ["A"; "B"] (call "pthread_cond_wait" [var "A"; Op "&" [Op "->mutex" [var "B"]]]);
     define "pthread_cond_timedwait" ["A"; "B"; "C"] (call "pthread_cond_timedwait" [var "A"; Op "&" [Op "->mutex"
       [var "B"]]; var "C"]);
     define "pthread_mutex_trylock" ["A"] (call "pthread_mutex_trylock" [Op "&" [Op "->mutex" [var "A"]]]);
     constant "pthread_mutex_t" (var "my_pthread_fastmutex_t")] ++
   when [(true, "defined(USE_MUTEX_INSTEAD_OF_RW_LOCKS)")]
    [constant "rw_lock_t" (var "pthread_mutex_t");
     define "my_rwlock_init" ["A"; "B"] (call "pthread_mutex_init" [var "A"; var "B"]);
     define "rw_rdlock" ["A"] (call "pthread_mutex_lock" [var "A"]);
     define "rw_wrlock" ["A"] (call "pthread_mutex_lock" [var "A"]);
     define "rw_tryrdlock" ["A"] (call "pthread_mutex_trylock" [var "A"]);
     define "rw_trywrlock" ["A"] (call "pthread_mutex_trylock" [var "A"]);
     define "rw_unlock" ["A"] (call "pthread_mutex_unlock" [var "A"]);
     define "rwlock_destroy" ["A"] (call "pthread_mutex_destroy" [var "A"])] ++
   when [(false, "defined(USE_MUTEX_INSTEAD_OF_RW_LOCKS)"); (true, "defined(HAVE_PTHREAD_RWLOCK_RDLOCK)")]
    [constant "rw_lock_t" (var "pthread_rwlock_t");
     define "my_rwlock_init" ["A"; "B"] (call "pthread_rwlock_init" [var "A"; var "B"]);
     define "rw_rdlock" ["A"] (call "pthread_rwlock_rdlock" [var "A"]);
     define "rw_wrlock" ["A"] (call "pthread_rwlock_wrlock" [var "A"]);
     define "rw_tryrdlock" ["A"] (call "pthread_rwlock_tryrdlock" [var "A"]);
     define "rw_trywrlock" ["A"] (call "pthread_rwlock_trywrlock" [var "A"]);
     define "rw_unlock" ["A"] (call "pthread_rwlock_unlock" [var "A"]);
     define "rwlock_destroy" ["A"] (call "pthread_rwlock_destroy" [var "A"])] ++
   when [(false, "defined(USE_MUTEX_INSTEAD_OF_RW_LOCKS)"); (false, "defined(HAVE_PTHREAD_RWLOCK_RDLOCK)"); (true,
    "defined(HAVE_RWLOCK_INIT)"); (true, "defined(HAVE_RWLOCK_T)")]
    [constant "rw_lock_t" (var "rwlock_t")] ++
   when [(false, "defined(USE_MUTEX_INSTEAD_OF_RW_LOCKS)"); (false, "defined(HAVE_PTHREAD_RWLOCK_RDLOCK)"); (true,
    "defined(HAVE_RWLOCK_INIT)")]
    [define "my_rwlock_init" ["A"; "B"] (call "rwlock_init" [var "A"; var "USYNC_THREAD"; Lit "0"])] ++
   when [(false, "defined(USE_MUTEX_INSTEAD_OF_RW_LOCKS)"); (false, "defined(HAVE_PTHREAD_RWLOCK_RDLOCK)"); (false,
    "defined(HAVE_RWLOCK_INIT)")]
    [constant "NEED_MY_RW_LOCK" (Lit "1");
     constant "rw_lock_t" (var "my_rw_lock_t");
     define "my_rwlock_init" ["A"; "B"] (call "my_rw_init" [var "A"]);
     define "rw_rdlock" ["A"] (call "my_rw_rdlock" [var "A"]);
     define "rw_wrlock" ["A"] (call "my_rw_wrlock" [var "A"]);
     define "rw_tryrdlock" ["A"] (call "my_rw_tryrdlock" [var "A"]);
     define "rw_trywrlock" ["A"] (call "my_rw_trywrlock" [var "A"]);
     define "rw_unlock" ["A"] (call "my_rw_unlock" [var "A"]);
     define "rwlock_destroy" ["A"] (call "my_rw_destroy" [var "A"]);
     define "rw_lock_assert_write_owner" ["A"] (call "my_rw_lock_assert_write_owner" [var "A"]);
     define "rw_lock_assert_not_write_owner" ["A"] (call "my_rw_lock_assert_not_write_owner" [var "A"])])%list.

(** my_pthread.h, lines 685 to 693. *)
Definition macros_my_pthread_rw_pr_lock_assert_write_owner : list guarded_macro :=
  (when [(true, "defined(SAFE_MUTEX)")]
    [define "rw_pr_lock_assert_write_owner" ["A"] (call "DBUG_ASSERT" [Op "&&" [Op "->active_writer" [var "A"];
       call "pthread_equal" [call "pthread_self" []; Op "->writer_thread" [var "A"]]]]);
     define "rw_pr_lock_assert_not_write_owner" ["A"] (call "DBUG_ASSERT" [Op "||" [Op "!" [Op "->active_writer"
       [var "A"]]; Op "!" [call "pthread_equal" [call "pthread_self" []; Op "->writer_thread" [var "A"]]]]])] ++
   when [(false, "defined(SAFE_MUTEX)")]
    [define "rw_pr_lock_assert_write_owner" ["A"] (Op "" []);
     define "rw_pr_lock_assert_not_write_owner" ["A"] (Op "" [])])%list.

(** my_pthread.h, lines 764 to 787. *)
Definition macros_my_pthread_my_rw_lock_assert_write_owner : list guarded_macro :=
  (when [(true, "defined(NEED_MY_RW_LOCK)"); (true, "defined(SAFE_MUTEX)")]
    [define "my_rw_lock_assert_write_owner" ["A"] (call "DBUG_ASSERT" [Op "&&" [Op "==" [Op "->state" [var "A"];
       Op "-" [Lit "1"]]; call "pthread_equal" [call "pthread_self" []; Op "->write_thread" [var "A"]]]]);
     define "my_rw_lock_assert_not_write_owner" ["A"] (call "DBUG_ASSERT" [Op "||" [Op ">=" [Op "->state" [var
       "A"]; Lit "0"]; Op "!" [call "pthread_equal" [call "pthread_self" []; Op "->write_thread" [var "A"]]]]])] ++
   when [(true, "defined(NEED_MY_RW_LOCK)"); (false, "defined(SAFE_MUTEX)")]
    [define "my_rw_lock_assert_write_owner" ["A"] (Op "" []);
     define "my_rw_lock_assert_not_write_owner" ["A"] (Op "" [])] ++
   when []
    [constant "GETHOSTBYADDR_BUFF_SIZE" (Lit "2048")] ++
   when [(false, "defined(HAVE_THR_SETCONCURRENCY)")]
    [define "thr_setconcurrency" ["A"] (call "pthread_dummy" [Lit "0"])] ++
   when [(true, "!defined(HAVE_PTHREAD_ATTR_SETSTACKSIZE) && ! defined(pthread_attr_setstacksize)")]
    [define "pthread_attr_setstacksize" ["A"; "B"] (call "pthread_dummy" [Lit "0"])] ++
   when []
    [constant "MY_MUTEX_INIT_SLOW" (var "NULL")])%list.

(** my_pthread.h, lines 790 to 792. *)
Definition macros_my_pthread_MY_MUTEX_INIT_FAST : list guarded_macro :=
  (when [(true, "defined(PTHREAD_ADAPTIVE_MUTEX_INITIALIZER_NP)")]
    [constant "MY_MUTEX_INIT_FAST" (Op "&" [var "my_fast_mutexattr"])] ++
   when [(false, "defined(PTHREAD_ADAPTIVE_MUTEX_INITIALIZER_NP)")]
    [constant "MY_MUTEX_INIT_FAST" (var "NULL")])%list.

(** my_pthread.h, lines 796 to 803. *)
Definition macros_my_pthread_MY_MUTEX_INIT_ERRCHK : list guarded_macro :=
  (when [(true, "defined(PTHREAD_ERRORCHECK_MUTEX_INITIALIZER_NP)")]
    [constant "MY_MUTEX_INIT_ERRCHK" (Op "&" [var "my_errorcheck_mutexattr"])] ++
   when [(false, "defined(PTHREAD_ERRORCHECK_MUTEX_INITIALIZER_NP)")]
    [constant "MY_MUTEX_INIT_ERRCHK" (var "NULL")] ++
   when [(false, "defined(ESRCH)")]
    [constant "ESRCH" (Lit "1")])%list.

(** my_pthread.h, lines 819 to 834. *)
Definition macros_my_pthread_THREAD_NAME_SIZE : list guarded_macro :=
  (when []
    [constant "THREAD_NAME_SIZE" (Lit "10")] ++
   when [(false, "defined(DEFAULT_THREAD_STACK)"); (true, "SIZEOF_CHARP > 4")]
    [constant "DEFAULT_THREAD_STACK" (Op "*" [Lit "256"; Lit "1024L"])] ++
   when [(false, "defined(DEFAULT_THREAD_STACK)"); (false, "SIZEOF_CHARP > 4")]
    [constant "DEFAULT_THREAD_STACK" (Op "*" [Lit "192"; Lit "1024"])] ++
   when []
    [constant "INSTRUMENT_ME" (Lit "0")])%list.

(** my_pthread.h, lines 860 to 871. *)
Definition macros_my_pthread_my_thread_var : list guarded_macro :=
  (when []
    [constant "my_thread_var" (call "_my_thread_var" []);
     constant "my_errno" (Op "->thr_errno" [var "my_thread_var"]);
     constant "THD_LIB_OTHER" (Lit "1");
     constant "THD_LIB_NPTL" (Lit "2");
     constant "THD_LIB_LT" (Lit "4")])%list.

(** my_pthread.h, lines 885 to 937. *)
Definition macros_my_pthread_thread_safe_increment : list guarded_macro :=
  (when [(false, "defined(thread_safe_increment)"); (true, "defined(_WIN32)")]
    [define "thread_safe_increment" ["V"; "L"] (call "InterlockedIncrement" [Op "(long *)" [Op "&" [var "V"]]]);
     define "thread_safe_decrement" ["V"; "L"] (call "InterlockedDecrement" [Op "(long *)" [Op "&" [var "V"]]])] ++
   when [(false, "defined(thread_safe_increment)"); (false, "defined(_WIN32)")]
    [define "thread_safe_increment" ["V"; "L"] (Op "," [call "mysql_mutex_lock" [var "L"]; Op "post++" [var "V"];
       call "mysql_mutex_unlock" [var "L"]]);
     define "thread_safe_decrement" ["V"; "L"] (Op "," [call "mysql_mutex_lock" [var "L"]; Op "post--" [var "V"];
       call "mysql_mutex_unlock" [var "L"]])] ++
   when [(false, "defined(thread_safe_add)"); (true, "defined(_WIN32)")]
    [define "thread_safe_add" ["V"; "C"; "L"] (call "InterlockedExchangeAdd" [Op "(long *)" [Op "&" [var "V"]];
       var "C"]);
     define "thread_safe_sub" ["V"; "C"; "L"] (call "InterlockedExchangeAdd" [Op "(long *)" [Op "&" [var "V"]]; Op
       "-" [Op "(long)" [var "C"]]])] ++
   when [(false, "defined(thread_safe_add)"); (false, "defined(_WIN32)")]
    [define "thread_safe_add" ["V"; "C"; "L"] (Op "," [call "mysql_mutex_lock" [var "L"]; Op "+=" [var "V"; var
       "C"]; call "mysql_mutex_unlock" [var "L"]]);
     define "thread_safe_sub" ["V"; "C"; "L"] (Op "," [call "mysql_mutex_lock" [var "L"]; Op "-=" [var "V"; var
       "C"]; call "mysql_mutex_unlock" [var "L"]])] ++
   when [(true, "defined(SAFE_STATISTICS)")]
    [define "statistic_increment" ["V"; "L"] (call "thread_safe_increment" [var "V"; var "L"]);
     define "statistic_decrement" ["V"; "L"] (call "thread_safe_decrement" [var "V"; var "L"]);
     define "statistic_add" ["V"; "C"; "L"] (call "thread_safe_add" [var "V"; var "C"; var "L"]);
     define "statistic_sub" ["V"; "C"; "L"] (call "thread_safe_sub" [var "V"; var "C"; var "L"])] ++
   when [(false, "defined(SAFE_STATISTICS)")]
    [define "statistic_decrement" ["V"; "L"] (Op "post--" [var "V"]);
     define "statistic_increment" ["V"; "L"] (Op "post++" [var "V"]);
     define "statistic_add" ["V"; "C"; "L"] (Op "+=" [var "V"; var "C"]);
     define "statistic_sub" ["V"; "C"; "L"] (Op "-=" [var "V"; var "C"])] ++
   when []
    [define "status_var_increment" ["V"] (Op "post++" [var "V"]);
     define "status_var_decrement" ["V"] (Op "post--" [var "V"]);
     define "status_var_add" ["V"; "C"] (Op "+=" [var "V"; var "C"]);
     define "status_var_sub" ["V"; "C"] (Op "-=" [var "V"; var "C"])])%list.

Definition macros_of_my_pthread : list guarded_macro :=
  (macros_my_pthread_ETIME ++ macros_my_pthread_EXTERNC ++ macros_my_pthread_pthread_self ++
   macros_my_pthread_MY_PTHREAD_ONCE_INIT ++ macros_my_pthread_set_timespec ++ macros_my_pthread_ETIMEDOUT ++
   macros_my_pthread_my_pthread_once_t ++ macros_my_pthread_pthread_sigmask ++ macros_my_pthread_my_sigwait ++
   macros_my_pthread_pthread_mutex_init ++ macros_my_pthread_pthread_cond_init ++
   macros_my_pthread_pthread_sigmask_again ++ macros_my_pthread_my_sigset ++
   macros_my_pthread_pthread_cond_timedwait ++ macros_my_pthread_pthread_condattr_init ++
   macros_my_pthread_pthread_attr_getstacksize ++ macros_my_pthread_pthread_mutex_trylock ++
   macros_my_pthread_pthread_yield ++ macros_my_pthread_pthread_mutex_init_again ++
   macros_my_pthread_pthread_mutex_init_again_again ++ macros_my_pthread_rw_pr_lock_assert_write_owner ++
   macros_my_pthread_my_rw_lock_assert_write_owner ++ macros_my_pthread_MY_MUTEX_INIT_FAST ++
   macros_my_pthread_MY_MUTEX_INIT_ERRCHK ++ macros_my_pthread_THREAD_NAME_SIZE ++ macros_my_pthread_my_thread_var
   ++ macros_my_pthread_thread_safe_increment)%list.

(** mysql/psi/mysql_thread.h, lines 204 to 332. *)
Definition macros_mysql_thread_mysql_mutex_assert_owner : list guarded_macro :=
  (when []
    [define "mysql_mutex_assert_owner" ["M"] (call "safe_mutex_assert_owner" [Op "&" [Op "->m_mutex" [var "M"]]]);
     define "mysql_mutex_assert_not_owner" ["M"] (call "safe_mutex_assert_not_owner" [Op "&" [Op "->m_mutex" [var
       "M"]]]);
     define "mysql_prlock_assert_write_owner" ["M"] (call "rw_pr_lock_assert_write_owner" [Op "&" [Op "->m_prlock"
       [var "M"]]]);
     define "mysql_prlock_assert_not_write_owner" ["M"] (call "rw_pr_lock_assert_not_write_owner" [Op "&" [Op
       "->m_prlock" [var "M"]]])] ++
   when [(true, "defined(HAVE_PSI_INTERFACE)"); (true, "defined(SAFE_MUTEX)")]
    [define "mysql_mutex_init" ["K"; "M"; "A"] (call "inline_mysql_mutex_init" [var "K"; var "M"; var "A"; var
       "__FILE__"; var "__LINE__"])] ++
   when [(true, "defined(HAVE_PSI_INTERFACE)"); (false, "defined(SAFE_MUTEX)")]
    [define "mysql_mutex_init" ["K"; "M"; "A"] (call "inline_mysql_mutex_init" [var "K"; var "M"; var "A"])] ++
   when [(false, "defined(HAVE_PSI_INTERFACE)"); (true, "defined(SAFE_MUTEX)")]
    [define "mysql_mutex_init" ["K"; "M"; "A"] (call "inline_mysql_mutex_init" [var "M"; var "A"; var "__FILE__";
       var "__LINE__"])] ++
   when [(false, "defined(HAVE_PSI_INTERFACE)"); (false, "defined(SAFE_MUTEX)")]
    [define "mysql_mutex_init" ["K"; "M"; "A"] (call "inline_mysql_mutex_init" [var "M"; var "A"])] ++
   when [(true, "defined(SAFE_MUTEX)")]
    [define "mysql_mutex_destroy" ["M"] (call "inline_mysql_mutex_destroy" [var "M"; var "__FILE__"; var
       "__LINE__"])] ++
   when [(false, "defined(SAFE_MUTEX)")]
    [define "mysql_mutex_destroy" ["M"] (call "inline_mysql_mutex_destroy" [var "M"])] ++
   when [(true, "defined(SAFE_MUTEX) || defined(HAVE_PSI_INTERFACE)")]
    [define "mysql_mutex_lock" ["M"] (call "inline_mysql_mutex_lock" [var "M"; var "__FILE__"; var "__LINE__"])] ++
   when [(false, "defined(SAFE_MUTEX) || defined(HAVE_PSI_INTERFACE)")]
    [define "mysql_mutex_lock" ["M"] (call "inline_mysql_mutex_lock" [var "M"])] ++
   when [(true, "defined(SAFE_MUTEX) || defined(HAVE_PSI_INTERFACE)")]
    [define "mysql_mutex_trylock" ["M"] (call "inline_mysql_mutex_trylock" [var "M"; var "__FILE__"; var
       "__LINE__"])] ++
   when [(false, "defined(SAFE_MUTEX) || defined(HAVE_PSI_INTERFACE)")]
    [define "mysql_mutex_trylock" ["M"] (call "inline_mysql_mutex_trylock" [var "M"])] ++
   when [(true, "defined(SAFE_MUTEX)")]
    [define "mysql_mutex_unlock" ["M"] (call "inline_mysql_mutex_unlock" [var "M"; var "__FILE__"; var
       "__LINE__"])] ++
   when [(false, "defined(SAFE_MUTEX)")]
    [define "mysql_mutex_unlock" ["M"] (call "inline_mysql_mutex_unlock" [var "M"])] ++
   when [(true, "defined(HAVE_PSI_INTERFACE)")]
    [define "mysql_rwlock_init" ["K"; "RW"] (call "inline_mysql_rwlock_init" [var "K"; var "RW"])] ++
   when [(false, "defined(HAVE_PSI_INTERFACE)")]
    [define "mysql_rwlock_init" ["K"; "RW"] (call "inline_mysql_rwlock_init" [var "RW"])] ++
   when [(true, "defined(HAVE_PSI_INTERFACE)")]
    [define "mysql_prlock_init" ["K"; "RW"] (call "inline_mysql_prlock_init" [var "K"; var "RW"])] ++
   when [(false, "defined(HAVE_PSI_INTERFACE)")]
    [define "mysql_prlock_init" ["K"; "RW"] (call "inline_mysql_prlock_init" [var "RW"])])%list.

(** mysql/psi/mysql_thread.h, lines 341 to 470. *)
Definition macros_mysql_thread_mysql_rwlock_destroy : list guarded_macro :=
  (when []
    [define "mysql_rwlock_destroy" ["RW"] (call "inline_mysql_rwlock_destroy" [var "RW"]);
     define "mysql_prlock_destroy" ["RW"] (call "inline_mysql_prlock_destroy" [var "RW"])] ++
   when [(true, "defined(HAVE_PSI_INTERFACE)")]
    [define "mysql_rwlock_rdlock" ["RW"] (call "inline_mysql_rwlock_rdlock" [var "RW"; var "__FILE__"; var
       "__LINE__"])] ++
   when [(false, "defined(HAVE_PSI_INTERFACE)")]
    [define "mysql_rwlock_rdlock" ["RW"] (call "inline_mysql_rwlock_rdlock" [var "RW"])] ++
   when [(true, "defined(HAVE_PSI_INTERFACE)")]
    [define "mysql_prlock_rdlock" ["RW"] (call "inline_mysql_prlock_rdlock" [var "RW"; var "__FILE__"; var
       "__LINE__"])] ++
   when [(false, "defined(HAVE_PSI_INTERFACE)")]
    [define "mysql_prlock_rdlock" ["RW"] (call "inline_mysql_prlock_rdlock" [var "RW"])] ++
   when [(true, "defined(HAVE_PSI_INTERFACE)")]
    [define "mysql_rwlock_wrlock" ["RW"] (call "inline_mysql_rwlock_wrlock" [var "RW"; var "__FILE__"; var
       "__LINE__"])] ++
   when [(false, "defined(HAVE_PSI_INTERFACE)")]
    [define "mysql_rwlock_wrlock" ["RW"] (call "inline_mysql_rwlock_wrlock" [var "RW"])] ++
   when [(true, "defined(HAVE_PSI_INTERFACE)")]
    [define "mysql_prlock_wrlock" ["RW"] (call "inline_mysql_prlock_wrlock" [var "RW"; var "__FILE__"; var
       "__LINE__"])] ++
   when [(false, "defined(HAVE_PSI_INTERFACE)")]
    [define "mysql_prlock_wrlock" ["RW"] (call "inline_mysql_prlock_wrlock" [var "RW"])] ++
   when [(true, "defined(HAVE_PSI_INTERFACE)")]
    [define "mysql_rwlock_tryrdlock" ["RW"] (call "inline_mysql_rwlock_tryrdlock" [var "RW"; var "__FILE__"; var
       "__LINE__"])] ++
   when [(false, "defined(HAVE_PSI_INTERFACE)")]
    [define "mysql_rwlock_tryrdlock" ["RW"] (call "inline_mysql_rwlock_tryrdlock" [var "RW"])] ++
   when [(true, "defined(HAVE_PSI_INTERFACE)")]
    [define "mysql_rwlock_trywrlock" ["RW"] (call "inline_mysql_rwlock_trywrlock" [var "RW"; var "__FILE__"; var
       "__LINE__"])] ++
   when [(false, "defined(HAVE_PSI_INTERFACE)")]
    [define "mysql_rwlock_trywrlock" ["RW"] (call "inline_mysql_rwlock_trywrlock" [var "RW"])] ++
   when []
    [define "mysql_rwlock_unlock" ["RW"] (call "inline_mysql_rwlock_unlock" [var "RW"]);
     define "mysql_prlock_unlock" ["RW"] (call "inline_mysql_prlock_unlock" [var "RW"])] ++
   when [(true, "defined(HAVE_PSI_INTERFACE)")]
    [define "mysql_cond_init" ["K"; "C"; "A"] (call "inline_mysql_cond_init" [var "K"; var "C"; var "A"])] ++
   when [(false, "defined(HAVE_PSI_INTERFACE)")]
    [define "mysql_cond_init" ["K"; "C"; "A"] (call "inline_mysql_cond_init" [var "C"; var "A"])] ++
   when []
    [define "mysql_cond_destroy" ["C"] (call "inline_mysql_cond_destroy" [var "C"])])%list.

(** mysql/psi/mysql_thread.h, lines 478 to 548. *)
Definition macros_mysql_thread_mysql_cond_wait : list guarded_macro :=
  (when [(true, "defined(HAVE_PSI_INTERFACE)")]
    [define "mysql_cond_wait" ["C"; "M"] (call "inline_mysql_cond_wait" [var "C"; var "M"; var "__FILE__"; var
       "__LINE__"])] ++
   when [(false, "defined(HAVE_PSI_INTERFACE)")]
    [define "mysql_cond_wait" ["C"; "M"] (call "inline_mysql_cond_wait" [var "C"; var "M"])] ++
   when [(true, "defined(HAVE_PSI_INTERFACE)")]
    [define "mysql_cond_timedwait" ["C"; "M"; "W"] (call "inline_mysql_cond_timedwait" [var "C"; var "M"; var "W";
       var "__FILE__"; var "__LINE__"])] ++
   when [(false, "defined(HAVE_PSI_INTERFACE)")]
    [define "mysql_cond_timedwait" ["C"; "M"; "W"] (call "inline_mysql_cond_timedwait" [var "C"; var "M"; var
       "W"])] ++
   when []
    [define "mysql_cond_signal" ["C"] (call "inline_mysql_cond_signal" [var "C"]);
     define "mysql_cond_broadcast" ["C"] (call "inline_mysql_cond_broadcast" [var "C"])] ++
   when [(true, "defined(HAVE_PSI_INTERFACE)")]
    [define "mysql_thread_create" ["K"; "P1"; "P2"; "P3"; "P4"] (call "inline_mysql_thread_create" [var "K"; var
       "P1"; var "P2"; var "P3"; var "P4"])] ++
   when [(false, "defined(HAVE_PSI_INTERFACE)")]
    [define "mysql_thread_create" ["K"; "P1"; "P2"; "P3"; "P4"] (call "pthread_create" [var "P1"; var "P2"; var
       "P3"; var "P4"])] ++
   when [(true, "defined(HAVE_PSI_INTERFACE)")]
    [define "mysql_thread_set_psi_id" ["I"] (call "inline_mysql_thread_set_psi_id" [var "I"])] ++
   when [(false, "defined(HAVE_PSI_INTERFACE)")]
    [define "mysql_thread_set_psi_id" ["I"] (Op "do while" [Op "{}" []; Lit "0"])])%list.

Definition macros_of_mysql_thread : list guarded_macro :=
  (macros_mysql_thread_mysql_mutex_assert_owner ++ macros_mysql_thread_mysql_rwlock_destroy ++
   macros_mysql_thread_mysql_cond_wait)%list.

(** mysql/psi/mysql_file.h, lines 58 to 178. *)
Definition macros_mysql_file_mysql_file_fgets : list guarded_macro :=
  (when [(true, "defined(HAVE_PSI_INTERFACE)")]
    [define "mysql_file_fgets" ["P1"; "P2"; "F"] (call "inline_mysql_file_fgets" [var "__FILE__"; var "__LINE__";
       var "P1"; var "P2"; var "F"])] ++
   when [(false, "defined(HAVE_PSI_INTERFACE)")]
    [define "mysql_file_fgets" ["P1"; "P2"; "F"] (call "inline_mysql_file_fgets" [var "P1"; var "P2"; var "F"])] ++
   when [(true, "defined(HAVE_PSI_INTERFACE)")]
    [define "mysql_file_fgetc" ["F"] (call "inline_mysql_file_fgetc" [var "__FILE__"; var "__LINE__"; var "F"])] ++
   when [(false, "defined(HAVE_PSI_INTERFACE)")]
    [define "mysql_file_fgetc" ["F"] (call "inline_mysql_file_fgetc" [var "F"])] ++
   when [(true, "defined(HAVE_PSI_INTERFACE)")]
    [define "mysql_file_fputs" ["P1"; "F"] (call "inline_mysql_file_fputs" [var "__FILE__"; var "__LINE__"; var
       "P1"; var "F"])] ++
   when [(false, "defined(HAVE_PSI_INTERFACE)")]
    [define "mysql_file_fputs" ["P1"; "F"] (call "inline_mysql_file_fputs" [var "P1"; var "F"])] ++
   when [(true, "defined(HAVE_PSI_INTERFACE)")]
    [define "mysql_file_fputc" ["P1"; "F"] (call "inline_mysql_file_fputc" [var "__FILE__"; var "__LINE__"; var
       "P1"; var "F"])] ++
   when [(false, "defined(HAVE_PSI_INTERFACE)")]
    [define "mysql_file_fputc" ["P1"; "F"] (call "inline_mysql_file_fputc" [var "P1"; var "F"])] ++
   when []
    [constant "mysql_file_fprintf" (var "inline_mysql_file_fprintf")] ++
   when [(true, "defined(HAVE_PSI_INTERFACE)")]
    [define "mysql_file_vfprintf" ["F"; "P1"; "P2"] (call "inline_mysql_file_vfprintf" [var "__FILE__"; var
       "__LINE__"; var "F"; var "P1"; var "P2"])] ++
   when [(false, "defined(HAVE_PSI_INTERFACE)")]
    [define "mysql_file_vfprintf" ["F"; "P1"; "P2"] (call "inline_mysql_file_vfprintf" [var "F"; var "P1"; var
       "P2"])] ++
   when [(true, "defined(HAVE_PSI_INTERFACE)")]
    [define "mysql_file_fflush" ["F"] (call "inline_mysql_file_fflush" [var "__FILE__"; var "__LINE__"; var "F"])] ++
   when [(false, "defined(HAVE_PSI_INTERFACE)")]
    [define "mysql_file_fflush" ["F"] (call "inline_mysql_file_fflush" [var "F"])] ++
   when []
    [define "mysql_file_feof" ["F"] (call "inline_mysql_file_feof" [var "F"])] ++
   when [(true, "defined(HAVE_PSI_INTERFACE)")]
    [define "mysql_file_fstat" ["FN"; "S"; "FL"] (call "inline_mysql_file_fstat" [var "__FILE__"; var "__LINE__";
       var "FN"; var "S"; var "FL"])] ++
   when [(false, "defined(HAVE_PSI_INTERFACE)")]
    [define "mysql_file_fstat" ["FN"; "S"; "FL"] (call "inline_mysql_file_fstat" [var "FN"; var "S"; var "FL"])] ++
   when [(true, "defined(HAVE_PSI_INTERFACE)")]
    [define "mysql_file_stat" ["K"; "FN"; "S"; "FL"] (call "inline_mysql_file_stat" [var "K"; var "__FILE__"; var
       "__LINE__"; var "FN"; var "S"; var "FL"])] ++
   when [(false, "defined(HAVE_PSI_INTERFACE)")]
    [define "mysql_file_stat" ["K"; "FN"; "S"; "FL"] (call "inline_mysql_file_stat" [var "FN"; var "S"; var "FL"])] ++
   when [(true, "defined(HAVE_PSI_INTERFACE)")]
    [define "mysql_file_chsize" ["F"; "P1"; "P2"; "P3"] (call "inline_mysql_file_chsize" [var "__FILE__"; var
       "__LINE__"; var "F"; var "P1"; var "P2"; var "P3"])] ++
   when [(false, "defined(HAVE_PSI_INTERFACE)")]
    [define "mysql_file_chsize" ["F"; "P1"; "P2"; "P3"] (call "inline_mysql_file_chsize" [var "F"; var "P1"; var
       "P2"; var "P3"])])%list.

(** mysql/psi/mysql_file.h, lines 187 to 315. *)
Definition macros_mysql_file_mysql_file_fopen : list guarded_macro :=
  (when [(true, "defined(HAVE_PSI_INTERFACE)")]
    [define "mysql_file_fopen" ["K"; "N"; "F1"; "F2"] (call "inline_mysql_file_fopen" [var "K"; var "__FILE__";
       var "__LINE__"; var "N"; var "F1"; var "F2"])] ++
   when [(false, "defined(HAVE_PSI_INTERFACE)")]
    [define "mysql_file_fopen" ["K"; "N"; "F1"; "F2"] (call "inline_mysql_file_fopen" [var "N"; var "F1"; var
       "F2"])] ++
   when [(true, "defined(HAVE_PSI_INTERFACE)")]
    [define "mysql_file_fclose" ["FD"; "FL"] (call "inline_mysql_file_fclose" [var "__FILE__"; var "__LINE__"; var
       "FD"; var "FL"])] ++
   when [(false, "defined(HAVE_PSI_INTERFACE)")]
    [define "mysql_file_fclose" ["FD"; "FL"] (call "inline_mysql_file_fclose" [var "FD"; var "FL"])] ++
   when [(true, "defined(HAVE_PSI_INTERFACE)")]
    [define "mysql_file_fread" ["FD"; "P1"; "P2"; "P3"] (call "inline_mysql_file_fread" [var "__FILE__"; var
       "__LINE__"; var "FD"; var "P1"; var "P2"; var "P3"])] ++
   when [(false, "defined(HAVE_PSI_INTERFACE)")]
    [define "mysql_file_fread" ["FD"; "P1"; "P2"; "P3"] (call "inline_mysql_file_fread" [var "FD"; var "P1"; var
       "P2"; var "P3"])] ++
   when [(true, "defined(HAVE_PSI_INTERFACE)")]
    [define "mysql_file_fwrite" ["FD"; "P1"; "P2"; "P3"] (call "inline_mysql_file_fwrite" [var "__FILE__"; var
       "__LINE__"; var "FD"; var "P1"; var "P2"; var "P3"])] ++
   when [(false, "defined(HAVE_PSI_INTERFACE)")]
    [define "mysql_file_fwrite" ["FD"; "P1"; "P2"; "P3"] (call "inline_mysql_file_fwrite" [var "FD"; var "P1"; var
       "P2"; var "P3"])] ++
   when [(true, "defined(HAVE_PSI_INTERFACE)")]
    [define "mysql_file_fseek" ["FD"; "P"; "W"; "F"] (call "inline_mysql_file_fseek" [var "__FILE__"; var
       "__LINE__"; var "FD"; var "P"; var "W"; var "F"])] ++
   when [(false, "defined(HAVE_PSI_INTERFACE)")]
    [define "mysql_file_fseek" ["FD"; "P"; "W"; "F"] (call "inline_mysql_file_fseek" [var "FD"; var "P"; var "W";
       var "F"])] ++
   when [(true, "defined(HAVE_PSI_INTERFACE)")]
    [define "mysql_file_ftell" ["FD"; "F"] (call "inline_mysql_file_ftell" [var "__FILE__"; var "__LINE__"; var
       "FD"; var "F"])] ++
   when [(false, "defined(HAVE_PSI_INTERFACE)")]
    [define "mysql_file_ftell" ["FD"; "F"] (call "inline_mysql_file_ftell" [var "FD"; var "F"])] ++
   when [(true, "defined(HAVE_PSI_INTERFACE)")]
    [define "mysql_file_create" ["K"; "N"; "F1"; "F2"; "F3"] (call "inline_mysql_file_create" [var "K"; var
       "__FILE__"; var "__LINE__"; var "N"; var "F1"; var "F2"; var "F3"])] ++
   when [(false, "defined(HAVE_PSI_INTERFACE)")]
    [define "mysql_file_create" ["K"; "N"; "F1"; "F2"; "F3"] (call "inline_mysql_file_create" [var "N"; var "F1";
       var "F2"; var "F3"])] ++
   when [(true, "defined(HAVE_PSI_INTERFACE)")]
    [define "mysql_file_create_temp" ["K"; "T"; "D"; "P"; "M"; "F"] (call "inline_mysql_file_create_temp" [var
       "K"; var "T"; var "D"; var "P"; var "M"; var "F"])] ++
   when [(false, "defined(HAVE_PSI_INTERFACE)")]
    [define "mysql_file_create_temp" ["K"; "T"; "D"; "P"; "M"; "F"] (call "inline_mysql_file_create_temp" [var
       "T"; var "D"; var "P"; var "M"; var "F"])] ++
   when [(true, "defined(HAVE_PSI_INTERFACE)")]
    [define "mysql_file_open" ["K"; "N"; "F1"; "F2"] (call "inline_mysql_file_open" [var "K"; var "__FILE__"; var
       "__LINE__"; var "N"; var "F1"; var "F2"])] ++
   when [(false, "defined(HAVE_PSI_INTERFACE)")]
    [define "mysql_file_open" ["K"; "N"; "F1"; "F2"] (call "inline_mysql_file_open" [var "N"; var "F1"; var "F2"])] ++
   when [(true, "defined(HAVE_PSI_INTERFACE)")]
    [define "mysql_file_close" ["FD"; "F"] (call "inline_mysql_file_close" [var "__FILE__"; var "__LINE__"; var
       "FD"; var "F"])] ++
   when [(false, "defined(HAVE_PSI_INTERFACE)")]
    [define "mysql_file_close" ["FD"; "F"] (call "inline_mysql_file_close" [var "FD"; var "F"])])%list.

(** mysql/psi/mysql_file.h, lines 324 to 448. *)
Definition macros_mysql_file_mysql_file_read : list guarded_macro :=
  (when [(true, "defined(HAVE_PSI_INTERFACE)")]
    [define "mysql_file_read" ["FD"; "B"; "S"; "F"] (call "inline_mysql_file_read" [var "__FILE__"; var
       "__LINE__"; var "FD"; var "B"; var "S"; var "F"])] ++
   when [(false, "defined(HAVE_PSI_INTERFACE)")]
    [define "mysql_file_read" ["FD"; "B"; "S"; "F"] (call "inline_mysql_file_read" [var "FD"; var "B"; var "S";
       var "F"])] ++
   when [(true, "defined(HAVE_PSI_INTERFACE)")]
    [define "mysql_file_write" ["FD"; "B"; "S"; "F"] (call "inline_mysql_file_write" [var "__FILE__"; var
       "__LINE__"; var "FD"; var "B"; var "S"; var "F"])] ++
   when [(false, "defined(HAVE_PSI_INTERFACE)")]
    [define "mysql_file_write" ["FD"; "B"; "S"; "F"] (call "inline_mysql_file_write" [var "FD"; var "B"; var "S";
       var "F"])] ++
   when [(true, "defined(HAVE_PSI_INTERFACE)")]
    [define "mysql_file_pread" ["FD"; "B"; "S"; "O"; "F"] (call "inline_mysql_file_pread" [var "__FILE__"; var
       "__LINE__"; var "FD"; var "B"; var "S"; var "O"; var "F"])] ++
   when [(false, "defined(HAVE_PSI_INTERFACE)")]
    [define "mysql_file_pread" ["FD"; "B"; "S"; "O"; "F"] (call "inline_mysql_file_pread" [var "FD"; var "B"; var
       "S"; var "O"; var "F"])] ++
   when [(true, "defined(HAVE_PSI_INTERFACE)")]
    [define "mysql_file_pwrite" ["FD"; "B"; "S"; "O"; "F"] (call "inline_mysql_file_pwrite" [var "__FILE__"; var
       "__LINE__"; var "FD"; var "B"; var "S"; var "O"; var "F"])] ++
   when [(false, "defined(HAVE_PSI_INTERFACE)")]
    [define "mysql_file_pwrite" ["FD"; "B"; "S"; "O"; "F"] (call "inline_mysql_file_pwrite" [var "FD"; var "B";
       var "S"; var "O"; var "F"])] ++
   when [(true, "defined(HAVE_PSI_INTERFACE)")]
    [define "mysql_file_seek" ["FD"; "P"; "W"; "F"] (call "inline_mysql_file_seek" [var "__FILE__"; var
       "__LINE__"; var "FD"; var "P"; var "W"; var "F"])] ++
   when [(false, "defined(HAVE_PSI_INTERFACE)")]
    [define "mysql_file_seek" ["FD"; "P"; "W"; "F"] (call "inline_mysql_file_seek" [var "FD"; var "P"; var "W";
       var "F"])] ++
   when [(true, "defined(HAVE_PSI_INTERFACE)")]
    [define "mysql_file_tell" ["FD"; "F"] (call "inline_mysql_file_tell" [var "__FILE__"; var "__LINE__"; var
       "FD"; var "F"])] ++
   when [(false, "defined(HAVE_PSI_INTERFACE)")]
    [define "mysql_file_tell" ["FD"; "F"] (call "inline_mysql_file_tell" [var "FD"; var "F"])] ++
   when [(true, "defined(HAVE_PSI_INTERFACE)")]
    [define "mysql_file_delete" ["K"; "P1"; "P2"] (call "inline_mysql_file_delete" [var "K"; var "__FILE__"; var
       "__LINE__"; var "P1"; var "P2"])] ++
   when [(false, "defined(HAVE_PSI_INTERFACE)")]
    [define "mysql_file_delete" ["K"; "P1"; "P2"] (call "inline_mysql_file_delete" [var "P1"; var "P2"])] ++
   when [(true, "defined(HAVE_PSI_INTERFACE)")]
    [define "mysql_file_rename" ["K"; "P1"; "P2"; "P3"] (call "inline_mysql_file_rename" [var "K"; var "__FILE__";
       var "__LINE__"; var "P1"; var "P2"; var "P3"])] ++
   when [(false, "defined(HAVE_PSI_INTERFACE)")]
    [define "mysql_file_rename" ["K"; "P1"; "P2"; "P3"] (call "inline_mysql_file_rename" [var "P1"; var "P2"; var
       "P3"])] ++
   when [(true, "defined(HAVE_PSI_INTERFACE)")]
    [define "mysql_file_create_with_symlink" ["K"; "P1"; "P2"; "P3"; "P4"; "P5"] (call
       "inline_mysql_file_create_with_symlink" [var "K"; var "__FILE__"; var "__LINE__"; var "P1"; var "P2"; var
       "P3"; var "P4"; var "P5"])] ++
   when [(false, "defined(HAVE_PSI_INTERFACE)")]
    [define "mysql_file_create_with_symlink" ["K"; "P1"; "P2"; "P3"; "P4"; "P5"] (call
       "inline_mysql_file_create_with_symlink" [var "P1"; var "P2"; var "P3"; var "P4"; var "P5"])] ++
   when [(true, "defined(HAVE_PSI_INTERFACE)")]
    [define "mysql_file_delete_with_symlink" ["K"; "P1"; "P2"] (call "inline_mysql_file_delete_with_symlink" [var
       "K"; var "__FILE__"; var "__LINE__"; var "P1"; var "P2"])] ++
   when [(false, "defined(HAVE_PSI_INTERFACE)")]
    [define "mysql_file_delete_with_symlink" ["K"; "P1"; "P2"] (call "inline_mysql_file_delete_with_symlink" [var
       "P1"; var "P2"])])%list.

(** mysql/psi/mysql_file.h, lines 458 to 475. *)
Definition macros_mysql_file_mysql_file_rename_with_symlink : list guarded_macro :=
  (when [(true, "defined(HAVE_PSI_INTERFACE)")]
    [define "mysql_file_rename_with_symlink" ["K"; "P1"; "P2"; "P3"] (call "inline_mysql_file_rename_with_symlink"
       [var "K"; var "__FILE__"; var "__LINE__"; var "P1"; var "P2"; var "P3"])] ++
   when [(false, "defined(HAVE_PSI_INTERFACE)")]
    [define "mysql_file_rename_with_symlink" ["K"; "P1"; "P2"; "P3"] (call "inline_mysql_file_rename_with_symlink"
       [var "P1"; var "P2"; var "P3"])] ++
   when [(true, "defined(HAVE_PSI_INTERFACE)")]
    [define "mysql_file_sync" ["P1"; "P2"] (call "inline_mysql_file_sync" [var "__FILE__"; var "__LINE__"; var
       "P1"; var "P2"])] ++
   when [(false, "defined(HAVE_PSI_INTERFACE)")]
    [define "mysql_file_sync" ["P1"; "P2"] (call "inline_mysql_file_sync" [var "P1"; var "P2"])])%list.

Definition macros_of_mysql_file : list guarded_macro :=
  (macros_mysql_file_mysql_file_fgets ++ macros_mysql_file_mysql_file_fopen ++ macros_mysql_file_mysql_file_read ++
   macros_mysql_file_mysql_file_rename_with_symlink)%list.

(** mysql/service_thd_wait.h, lines 87 to 89. *)
Definition macros_service_thd_wait_thd_wait_begin : list guarded_macro :=
  (when [(true, "defined(MYSQL_DYNAMIC_PLUGIN)")]
    [define "thd_wait_begin" ["_THD"; "_WAIT_TYPE"] (Op "()" [Op "->thd_wait_begin_func" [var "thd_wait_service"];
       var "_THD"; var "_WAIT_TYPE"]);
     define "thd_wait_end" ["_THD"] (Op "()" [Op "->thd_wait_end_func" [var "thd_wait_service"]; var "_THD"])])%list.

Definition macros_of_service_thd_wait : list guarded_macro :=
  (macros_service_thd_wait_thd_wait_begin)%list.

(** mysql/service_thread_scheduler.h, lines 34 to 35. *)
Definition macros_service_thread_scheduler_my_thread_scheduler_set : list guarded_macro :=
  (when [(true, "defined(MYSQL_DYNAMIC_PLUGIN)")]
    [define "my_thread_scheduler_set" ["F"] (Op "()" [Op "->set" [var "my_thread_scheduler_service"]; var "F"]);
     define "my_thread_scheduler_reset" [] (Op "()" [Op "->reset" [var "my_thread_scheduler_service"]])])%list.

Definition macros_of_service_thread_scheduler : list guarded_macro :=
  (macros_service_thread_scheduler_my_thread_scheduler_set)%list.
