(* ===== verification/MacrosLibrary.v ===== *)
(** * The macros of the libraries

    Each [#define] of the base library, strings, character sets, the debug package, the protocol and the client library,
    as a term under the conditionals around it. *)
From S2P Require Import Prelude MacroExpansion.

(** my_sys.h, lines 33 to 150. *)
Definition macros_my_sys_MEM_UNDEFINED : list guarded_macro :=
  (when [(true, "defined(HAVE_VALGRIND)")]
    [define "MEM_UNDEFINED" ["a"; "len"] (call "VALGRIND_MAKE_MEM_UNDEFINED" [var "a"; var "len"]);
     define "MEM_NOACCESS" ["a"; "len"] (call "VALGRIND_MAKE_MEM_NOACCESS" [var "a"; var "len"]);
     define "MEM_CHECK_ADDRESSABLE" ["a"; "len"] (call "VALGRIND_CHECK_MEM_IS_ADDRESSABLE" [var "a"; var "len"]);
     define "MEM_CHECK_DEFINED" ["a"; "len"] (call "VALGRIND_CHECK_MEM_IS_DEFINED" [var "a"; var "len"])] ++
   when [(false, "defined(HAVE_VALGRIND)")]
    [define "MEM_UNDEFINED" ["a"; "len"] (Op "(void)" [Lit "0"]);
     define "MEM_NOACCESS" ["a"; "len"] (Op "(void)" [Lit "0"]);
     define "MEM_CHECK_ADDRESSABLE" ["a"; "len"] (Op "(void)" [Lit "0"]);
     define "MEM_CHECK_DEFINED" ["a"; "len"] (Op "(void)" [Lit "0"])] ++
   when []
    [define "MY_INIT" ["name"] (Op "{}" [Op "=" [var "my_progname"; var "name"]; call "my_init" []]);
     constant "MYSYS_ERRMSG_SIZE" (Lit "512");
     constant "MY_FILE_ERROR" (Op "(size_t)" [Op "-" [Lit "1"]]);
     constant "MY_FFNF" (Lit "1");
     constant "MY_FNABP" (Lit "2");
     constant "MY_NABP" (Lit "4");
     constant "MY_FAE" (Lit "8");
     constant "MY_WME" (Lit "16");
     constant "MY_WAIT_IF_FULL" (Lit "32");
     constant "MY_IGNORE_BADFD" (Lit "32");
     constant "MY_SYNC_DIR" (Lit "8192");
     constant "MY_UNUSED" (Lit "64");
     constant "MY_FULL_IO" (Lit "512");
     constant "MY_DONT_CHECK_FILESIZE" (Lit "128");
     constant "MY_LINK_WARNING" (Lit "32");
     constant "MY_COPYTIME" (Lit "64");
     constant "MY_DELETE_OLD" (Lit "256");
     constant "MY_RESOLVE_LINK" (Lit "128");
     constant "MY_HOLD_ORIGINAL_MODES" (Lit "128");
     constant "MY_REDEL_MAKE_BACKUP" (Lit "256");
     constant "MY_SEEK_NOT_DONE" (Lit "32");
     constant "MY_DONT_WAIT" (Lit "64");
     constant "MY_ZEROFILL" (Lit "32");
     constant "MY_ALLOW_ZERO_PTR" (Lit "64");
     constant "MY_FREE_ON_ERROR" (Lit "128");
     constant "MY_HOLD_ON_ERROR" (Lit "256");
     constant "MY_DONT_OVERWRITE_FILE" (Lit "1024");
     constant "MY_THREADSAFE" (Lit "2048");
     constant "MY_SYNC" (Lit "4096");
     constant "MY_CHECK_ERROR" (Lit "1");
     constant "MY_GIVE_INFO" (Lit "2");
     constant "MY_DONT_FREE_DBUG" (Lit "4");
     constant "ME_HIGHBYTE" (Lit "8");
     constant "ME_NOCUR" (Lit "1");
     constant "ME_OLDWIN" (Lit "2");
     constant "ME_BELL" (Lit "4");
     constant "ME_HOLDTANG" (Lit "8");
     constant "ME_WAITTOT" (Lit "16");
     constant "ME_WAITTANG" (Lit "32");
     constant "ME_NOREFRESH" (Lit "64");
     constant "ME_NOINPUT" (Lit "128");
     constant "ME_COLOUR1" (Op "<<" [Lit "1"; var "ME_HIGHBYTE"]);
     constant "ME_COLOUR2" (Op "<<" [Lit "2"; var "ME_HIGHBYTE"]);
     constant "ME_COLOUR3" (Op "<<" [Lit "3"; var "ME_HIGHBYTE"]);
     constant "ME_FATALERROR" (Lit "1024");
     constant "MY_REPLACE_DIR" (Lit "1");
     constant "MY_REPLACE_EXT" (Lit "2");
     constant "MY_UNPACK_FILENAME" (Lit "4");
     constant "MY_PACK_FILENAME" (Lit "8");
     constant "MY_RESOLVE_SYMLINKS" (Lit "16");
     constant "MY_RETURN_REAL_PATH" (Lit "32");
     constant "MY_SAFE_PATH" (Lit "64");
     constant "MY_RELATIVE_PATH" (Lit "128");
     constant "MY_APPEND_EXT" (Lit "256");
     constant "MY_SEEK_SET" (Lit "0");
     constant "MY_SEEK_CUR" (Lit "1");
     constant "MY_SEEK_END" (Lit "2");
     constant "MY_WAIT_FOR_USER_TO_FIX_PANIC" (Lit "60");
     constant "MY_WAIT_GIVE_USER_A_MESSAGE" (Lit "10");
     constant "MIN_COMPRESS_LENGTH" (Lit "50");
     constant "DFLT_INIT_HITS" (Lit "3");
     constant "MY_KEEP_PREALLOC" (Lit "1");
     constant "MY_MARK_BLOCKS_FREE" (Lit "2");
     constant "MY_ERRNO_EDOM" (Lit "33");
     constant "MY_ERRNO_ERANGE" (Lit "34");
     constant "GETDATE_DATE_TIME" (Lit "1");
     constant "GETDATE_SHORT_DATE" (Lit "2");
     constant "GETDATE_HHMMSSTIME" (Lit "4");
     constant "GETDATE_GMT" (Lit "8");
     constant "GETDATE_FIXEDLENGTH" (Lit "16")])%list.

(** my_sys.h, lines 161 to 161. *)
Definition macros_my_sys_TRASH : list guarded_macro :=
  (when []
    [define "TRASH" ["A"; "B"] (Op "do while" [Op "{}" [call "MEM_CHECK_ADDRESSABLE" [var "A"; var "B"]; call
       "MEM_UNDEFINED" [var "A"; var "B"]]; Lit "0"])])%list.

(** my_sys.h, lines 164 to 169. *)
Definition macros_my_sys_DEBUG_SYNC_C : list guarded_macro :=
  (when [(true, "defined(ENABLED_DEBUG_SYNC)")]
    [define "DEBUG_SYNC_C" ["_sync_point_name_"] (Op "do while" [Op "{}" [Op "if" [Op "!=" [var
       "debug_sync_C_callback_ptr"; var "NULL"]; Op "()" [Op "*" [var "debug_sync_C_callback_ptr"]; call
       "STRING_WITH_LEN" [var "_sync_point_name_"]]]]; Lit "0"])] ++
   when [(false, "defined(ENABLED_DEBUG_SYNC)")]
    [define "DEBUG_SYNC_C" ["_sync_point_name_"] (Op "" [])])%list.

(** my_sys.h, lines 177 to 197. *)
Definition macros_my_sys_my_get_large_page_size : list guarded_macro :=
  (when [(false, "defined(HAVE_LARGE_PAGES)")]
    [define "my_get_large_page_size" [] (Lit "0");
     define "my_large_malloc" ["A"; "B"] (call "my_malloc_lock" [var "A"; var "B"]);
     define "my_large_free" ["A"] (call "my_free_lock" [var "A"])] ++
   when [(true, "defined(HAVE_ALLOCA)"); (true, "defined(__MWERKS__)")]
    [constant "alloca" (var "_alloca")] ++
   when [(true, "defined(HAVE_ALLOCA)"); (true, "defined(__GNUC__) && !defined(HAVE_ALLOCA_H) && ! defined(alloca)")]
    [constant "alloca" (var "__builtin_alloca")] ++
   when [(true, "defined(HAVE_ALLOCA)")]
    [define "my_alloca" ["SZ"] (call "alloca" [Op "(size_t)" [var "SZ"]]);
     define "my_afree" ["PTR"] (Op "{}" [])] ++
   when [(false, "defined(HAVE_ALLOCA)")]
    [define "my_alloca" ["SZ"] (call "my_malloc" [var "SZ"; call "MYF" [var "MY_FAE"]]);
     define "my_afree" ["PTR"] (call "my_free" [var "PTR"])])%list.

(** my_sys.h, lines 225 to 225. *)
Definition macros_my_sys_MY_ALL_CHARSETS_SIZE : list guarded_macro :=
  (when []
    [constant "MY_ALL_CHARSETS_SIZE" (Lit "2048")])%list.

(** my_sys.h, lines 495 to 531. *)
Definition macros_my_sys_my_b_clear : list guarded_macro :=
  (when []
    [define "my_b_clear" ["info"] (Op "=" [Op "->buffer" [var "info"]; Lit "0"]);
     define "my_b_inited" ["info"] (Op "->buffer" [var "info"]);
     constant "my_b_EOF" (var "INT_MIN");
     define "my_b_read" ["info"; "Buffer"; "Count"] (Op "?:" [Op "<=" [Op "+" [Op "->read_pos" [var "info"]; var
       "Count"]; Op "->read_end" [var "info"]]; Op "," [call "memcpy" [var "Buffer"; Op "->read_pos" [var "info"];
       Op "(size_t)" [var "Count"]]; Op "+=" [Op "->read_pos" [var "info"]; var "Count"]; Lit "0"]; Op "()" [Op "*"
       [Op "->read_function" [var "info"]]; var "info"; var "Buffer"; var "Count"]]);
     define "my_b_write" ["info"; "Buffer"; "Count"] (Op "?:" [Op "<=" [Op "+" [Op "->write_pos" [var "info"]; var
       "Count"]; Op "->write_end" [var "info"]]; Op "," [call "memcpy" [Op "->write_pos" [var "info"]; var "Buffer";
       Op "(size_t)" [var "Count"]]; Op "+=" [Op "->write_pos" [var "info"]; var "Count"]; Lit "0"]; Op "()" [Op "*"
       [Op "->write_function" [var "info"]]; var "info"; Op "(uchar *)" [var "Buffer"]; var "Count"]]);
     define "my_b_get" ["info"] (Op "?:" [Op "!=" [Op "->read_pos" [var "info"]; Op "->read_end" [var "info"]]; Op
       "," [Op "post++" [Op "->read_pos" [var "info"]]; Op "(int)" [Op "(uchar)" [Op "[]" [Op "->read_pos" [var
       "info"]; Op "-" [Lit "1"]]]]]; call "_my_b_get" [var "info"]]);
     define "my_b_write_byte" ["info"; "chr"] (Op "?:" [Op "<" [Op "->write_pos" [var "info"]; Op "->write_end"
       [var "info"]]; Op "=" [Op "*" [Op "post++" [Op "->write_pos" [var "info"]]]; var "chr"]; Op "," [call
       "_my_b_write" [var "info"; Lit "0"; Lit "0"]; Op "=" [Op "*" [Op "post++" [Op "->write_pos" [var "info"]]];
       var "chr"]]]);
     define "my_b_fill_cache" ["info"] (Op "," [Op "=" [Op "->read_end" [var "info"]; Op "->read_pos" [var
       "info"]]; Op "()" [Op "*" [Op "->read_function" [var "info"]]; var "info"; Lit "0"; Lit "0"]]);
     define "my_b_tell" ["info"] (Op "+" [Op "->pos_in_file" [var "info"]; Op "(size_t)" [Op "-" [Op "*" [Op
       "->current_pos" [var "info"]]; Op "->request_pos" [var "info"]]]]);
     define "my_b_get_buffer_start" ["info"] (Op "->request_pos" [var "info"]);
     define "my_b_get_bytes_in_buffer" ["info"] (Op "-" [Op "(char *)" [Op "->read_end" [var "info"]]; Op
       "(char *)" [call "my_b_get_buffer_start" [var "info"]]]);
     define "my_b_get_pos_in_file" ["info"] (Op "->pos_in_file" [var "info"])])%list.

(** my_sys.h, lines 538 to 539. *)
Definition macros_my_sys_my_b_bytes_in_cache : list guarded_macro :=
  (when []
    [define "my_b_bytes_in_cache" ["info"] (Op "(size_t)" [Op "-" [Op "*" [Op "->current_end" [var "info"]]; Op
       "*" [Op "->current_pos" [var "info"]]]])])%list.

(** my_sys.h, lines 602 to 602. *)
Definition macros_my_sys_my_access : list guarded_macro :=
  (when [(false, "defined(_WIN32)")]
    [constant "my_access" (var "access")])%list.

(** my_sys.h, lines 610 to 612. *)
Definition macros_my_sys_my_delete_allow_opened : list guarded_macro :=
  (when [(true, "defined(_WIN32)")]
    [define "my_delete_allow_opened" ["fname"; "flags"] (call "nt_share_delete" [var "fname"; var "flags"])] ++
   when [(false, "defined(_WIN32)")]
    [define "my_delete_allow_opened" ["fname"; "flags"] (call "my_delete" [var "fname"; var "flags"])])%list.

(** my_sys.h, lines 655 to 655. *)
Definition macros_my_sys_my_print_open_files : list guarded_macro :=
  (when [(false, "defined(EXTRA_DEBUG)")]
    [define "my_print_open_files" [] (Op "" [])])%list.

(** my_sys.h, lines 665 to 665. *)
Definition macros_my_sys_base_name : list guarded_macro :=
  (when []
    [define "base_name" ["A"] (Op "+" [var "A"; call "dirname_length" [var "A"]])])%list.

(** my_sys.h, lines 740 to 740. *)
Definition macros_my_sys_flush_io_cache : list guarded_macro :=
  (when []
    [define "flush_io_cache" ["info"] (call "my_b_flush_io_cache" [var "info"; Lit "1"])])%list.

(** my_sys.h, lines 756 to 759. *)
Definition macros_my_sys_my_init_dynamic_array : list guarded_macro :=
  (when []
    [define "my_init_dynamic_array" ["A"; "B"; "C"; "D"] (call "init_dynamic_array2" [var "A"; var "B"; var
       "NULL"; var "C"; var "D"]);
     define "my_init_dynamic_array_ci" ["A"; "B"; "C"; "D"] (call "init_dynamic_array2" [var "A"; var "B"; var
       "NULL"; var "C"; var "D"]);
     define "my_init_dynamic_array2" ["A"; "B"; "C"; "D"; "E"] (call "init_dynamic_array2" [var "A"; var "B"; var
       "C"; var "D"; var "E"]);
     define "my_init_dynamic_array2_ci" ["A"; "B"; "C"; "D"; "E"] (call "init_dynamic_array2" [var "A"; var "B";
       var "C"; var "D"; var "E"])])%list.

(** my_sys.h, lines 776 to 780. *)
Definition macros_my_sys_dynamic_array_ptr : list guarded_macro :=
  (when []
    [define "dynamic_array_ptr" ["array"; "array_index"] (Op "+" [Op "->buffer" [var "array"]; Op "*" [var
       "array_index"; Op "->size_of_element" [var "array"]]]);
     define "dynamic_element" ["array"; "array_index"; "type"] (Op "+" [Op "cast" [var "type"; Op "->buffer" [var
       "array"]]; var "array_index"]);
     define "push_dynamic" ["A"; "B"] (call "insert_dynamic" [var "A"; var "B"]);
     define "reset_dynamic" ["array"] (Op "=" [Op "->elements" [var "array"]; Lit "0"]);
     define "sort_dynamic" ["A"; "cmp"] (call "my_qsort" [Op "->buffer" [var "A"]; Op "->elements" [var "A"]; Op
       "->size_of_element" [var "A"]; var "cmp"])])%list.

(** my_sys.h, lines 797 to 802. *)
Definition macros_my_sys_my_malloc_lock : list guarded_macro :=
  (when [(false, "defined(HAVE_MLOCK)")]
    [define "my_malloc_lock" ["A"; "B"] (call "my_malloc" [var "A"; var "B"]);
     define "my_free_lock" ["A"] (call "my_free" [var "A"])] ++
   when []
    [define "alloc_root_inited" ["A"] (Op "!=" [Op "->min_malloc" [var "A"]; Lit "0"]);
     constant "ALLOC_ROOT_MIN_BLOCK_SIZE" (Op "+" [Op "+" [var "MALLOC_OVERHEAD"; Op "sizeof" [var "USED_MEM"]];
       Lit "8"]);
     define "clear_alloc_root" ["A"] (Op "do while" [Op "{}" [Op "=" [Op "->free" [var "A"]; Op "=" [Op "->used"
       [var "A"]; Op "=" [Op "->pre_alloc" [var "A"]; Lit "0"]]]; Op "=" [Op "->min_malloc" [var "A"]; Lit "0"]];
       Lit "0"])])%list.

(** my_sys.h, lines 860 to 884. *)
Definition macros_my_sys_MAP_NOSYNC : list guarded_macro :=
  (when [(false, "defined(MAP_NOSYNC)")]
    [constant "MAP_NOSYNC" (Lit "0")] ++
   when [(false, "defined(MAP_NORESERVE)")]
    [constant "MAP_NORESERVE" (Lit "0")] ++
   when [(true, "defined(HAVE_MMAP64)")]
    [define "my_mmap" ["a"; "b"; "c"; "d"; "e"; "f"] (call "mmap64" [var "a"; var "b"; var "c"; var "d"; var "e";
       var "f"])] ++
   when [(false, "defined(HAVE_MMAP64)")]
    [define "my_mmap" ["a"; "b"; "c"; "d"; "e"; "f"] (call "mmap" [var "a"; var "b"; var "c"; var "d"; var "e";
       var "f"])] ++
   when []
    [define "my_munmap" ["a"; "b"] (call "munmap" [var "a"; var "b"]);
     constant "PROT_READ" (Lit "1");
     constant "PROT_WRITE" (Lit "2");
     constant "MAP_NORESERVE" (Lit "0");
     constant "MAP_SHARED" (Lit "0x0001");
     constant "MAP_PRIVATE" (Lit "0x0002");
     constant "MAP_NOSYNC" (Lit "0x0800");
     constant "MAP_FAILED" (Op "(void *)" [Op "-" [Lit "1"]]);
     constant "MS_SYNC" (Lit "0x0000");
     constant "HAVE_MMAP" (Op "" [])])%list.

(** my_sys.h, lines 891 to 891. *)
Definition macros_my_sys_my_getpagesize : list guarded_macro :=
  (when [(true, "defined(HAVE_GETPAGESIZE)")]
    [define "my_getpagesize" [] (call "getpagesize" [])])%list.

(** my_sys.h, lines 923 to 923. *)
Definition macros_my_sys_BACKSLASH_MBTAIL : list guarded_macro :=
  (when [(true, "defined(__WIN__)")]
    [constant "BACKSLASH_MBTAIL" (Op "" [])])%list.

Definition macros_of_my_sys : list guarded_macro :=
  (macros_my_sys_MEM_UNDEFINED ++ macros_my_sys_TRASH ++ macros_my_sys_DEBUG_SYNC_C ++
   macros_my_sys_my_get_large_page_size ++ macros_my_sys_MY_ALL_CHARSETS_SIZE ++ macros_my_sys_my_b_clear ++
   macros_my_sys_my_b_bytes_in_cache ++ macros_my_sys_my_access ++ macros_my_sys_my_delete_allow_opened ++
   macros_my_sys_my_print_open_files ++ macros_my_sys_base_name ++ macros_my_sys_flush_io_cache ++
   macros_my_sys_my_init_dynamic_array ++ macros_my_sys_dynamic_array_ptr ++ macros_my_sys_my_malloc_lock ++
   macros_my_sys_MAP_NOSYNC ++ macros_my_sys_my_getpagesize ++ macros_my_sys_BACKSLASH_MBTAIL)%list.

(** m_string.h, lines 28 to 66. *)
Definition macros_m_string___USE_GNU : list guarded_macro :=
  (when [(false, "defined(__USE_GNU)")]
    [constant "__USE_GNU" (Op "" [])] ++
   when [(true, "!defined(HAVE_MEMCPY) && !defined(HAVE_MEMMOVE)")]
    [define "memcpy" ["d"; "s"; "n"] (call "bcopy" [var "s"; var "d"; var "n"]);
     define "memset" ["A"; "C"; "B"] (call "bfill" [var "A"; var "B"; var "C"]);
     define "memmove" ["d"; "s"; "n"] (call "bmove" [var "d"; var "s"; var "n"])] ++
   when [(false, "!defined(HAVE_MEMCPY) && !defined(HAVE_MEMMOVE)"); (true, "defined(HAVE_MEMMOVE)")]
    [define "bmove" ["d"; "s"; "n"] (call "memmove" [var "d"; var "s"; var "n"])] ++
   when [(true, "!defined(HAVE_BFILL)")]
    [define "bfill" ["A"; "B"; "C"] (call "memset" [var "A"; var "C"; var "B"])] ++
   when [(true, "!defined(bzero) && (!defined(HAVE_BZERO) || !HAVE_DECL_BZERO || defined(_AIX))")]
    [define "bzero" ["A"; "B"] (call "memset" [var "A"; Lit "0"; var "B"])])%list.

(** m_string.h, lines 81 to 83. *)
Definition macros_m_string_strmov : list guarded_macro :=
  (when [(true, "defined(HAVE_STPCPY) && MY_GNUC_PREREQ(3, 4) && !defined(__INTEL_COMPILER)")]
    [define "strmov" ["A"; "B"] (call "__builtin_stpcpy" [var "A"; var "B"])] ++
   when [(false, "defined(HAVE_STPCPY) && MY_GNUC_PREREQ(3, 4) && !defined(__INTEL_COMPILER)"); (true,
    "defined(HAVE_STPCPY)")]
    [define "strmov" ["A"; "B"] (call "stpcpy" [var "A"; var "B"])])%list.

(** m_string.h, lines 94 to 95. *)
Definition macros_m_string_strmov_overlapp : list guarded_macro :=
  (when [(false, "defined(strmov)")]
    [define "strmov_overlapp" ["A"; "B"] (call "strmov" [var "A"; var "B"]);
     define "strmake_overlapp" ["A"; "B"; "C"] (call "strmake" [var "A"; var "B"; var "C"])])%list.

(** m_string.h, lines 138 to 163. *)
Definition macros_m_string_NOT_FIXED_DEC : list guarded_macro :=
  (when []
    [constant "NOT_FIXED_DEC" (Lit "31");
     constant "FLOATING_POINT_BUFFER" (Op "+" [Lit "311"; var "NOT_FIXED_DEC"]);
     constant "MAX_DECPT_FOR_F_FORMAT" (var "DBL_DIG");
     constant "MY_GCVT_MAX_FIELD_WIDTH" (Op "+" [Op "+" [var "DBL_DIG"; Lit "4"]; call "max" [Lit "5"; var
       "MAX_DECPT_FOR_F_FORMAT"]])])%list.

(** m_string.h, lines 177 to 186. *)
Definition macros_m_string_ll2str : list guarded_macro :=
  (when [(true, "SIZEOF_LONG == SIZEOF_LONG_LONG")]
    [define "ll2str" ["A"; "B"; "C"; "D"] (call "int2str" [var "A"; var "B"; var "C"; var "D"]);
     define "longlong10_to_str" ["A"; "B"; "C"] (call "int10_to_str" [var "A"; var "B"; var "C"]);
     define "strtoll" ["A"; "B"; "C"] (call "strtol" [var "A"; var "B"; var "C"]);
     define "strtoull" ["A"; "B"; "C"] (call "strtoul" [var "A"; var "B"; var "C"])] ++
   when [(true, "SIZEOF_LONG == SIZEOF_LONG_LONG"); (false, "defined(HAVE_STRTOULL)")]
    [constant "HAVE_STRTOULL" (Op "" [])] ++
   when [(true, "SIZEOF_LONG == SIZEOF_LONG_LONG"); (false, "defined(HAVE_STRTOLL)")]
    [constant "HAVE_STRTOLL" (Op "" [])])%list.

(** m_string.h, lines 198 to 198. *)
Definition macros_m_string_longlong2str : list guarded_macro :=
  (when []
    [define "longlong2str" ["A"; "B"; "C"] (call "ll2str" [var "A"; var "B"; var "C"; Lit "1"])])%list.

(** m_string.h, lines 212 to 214. *)
Definition macros_m_string_STRING_WITH_LEN : list guarded_macro :=
  (when []
    [define "STRING_WITH_LEN" ["X"] (Op "," [var "X"; Op "(size_t)" [Op "-" [Op "sizeof" [var "X"]; Lit "1"]]]);
     define "USTRING_WITH_LEN" ["X"] (Op "," [Op "(uchar *)" [var "X"]; Op "(size_t)" [Op "-" [Op "sizeof" [var
       "X"]; Lit "1"]]]);
     define "C_STRING_WITH_LEN" ["X"] (Op "," [Op "(char *)" [var "X"]; Op "(size_t)" [Op "-" [Op "sizeof" [var
       "X"]; Lit "1"]]])])%list.

(** m_string.h, lines 225 to 227. *)
Definition macros_m_string_SPACE_INT : list guarded_macro :=
  (when [(true, "SIZEOF_INT == 4")]
    [constant "SPACE_INT" (Lit "0x20202020")] ++
   when [(false, "SIZEOF_INT == 4"); (true, "SIZEOF_INT == 8")]
    [constant "SPACE_INT" (Lit "0x2020202020202020")])%list.

Definition macros_of_m_string : list guarded_macro :=
  (macros_m_string___USE_GNU ++ macros_m_string_strmov ++ macros_m_string_strmov_overlapp ++
   macros_m_string_NOT_FIXED_DEC ++ macros_m_string_ll2str ++ macros_m_string_longlong2str ++
   macros_m_string_STRING_WITH_LEN ++ macros_m_string_SPACE_INT)%list.

(** m_ctype.h, lines 30 to 54. *)
Definition macros_m_ctype_MY_CS_NAME_SIZE : list guarded_macro :=
  (when []
    [constant "MY_CS_NAME_SIZE" (Lit "32");
     constant "MY_CS_CTYPE_TABLE_SIZE" (Lit "257");
     constant "MY_CS_TO_LOWER_TABLE_SIZE" (Lit "256");
     constant "MY_CS_TO_UPPER_TABLE_SIZE" (Lit "256");
     constant "MY_CS_SORT_ORDER_TABLE_SIZE" (Lit "256");
     constant "MY_CS_TO_UNI_TABLE_SIZE" (Lit "256");
     constant "CHARSET_DIR" (Text "charsets/");
     constant "my_wc_t" (Lit "ulong");
     constant "MY_CS_REPLACEMENT_CHARACTER" (Lit "0xFFFD")] ++
   when [(true, "defined(__i386__)")]
    [define "MB2" ["x"] (Op "+" [Op ">>" [var "x"; Lit "8"]; Op "<<" [Op "&" [var "x"; Lit "0xFF"]; Lit "8"]]);
     define "MY_PUT_MB2" ["s"; "code"] (Op "{}" [Op "=" [Op "*" [Op "(uint16 *)" [var "s"]]; var "code"]])] ++
   when [(false, "defined(__i386__)")]
    [define "MB2" ["x"] (var "x");
     define "MY_PUT_MB2" ["s"; "code"] (Op "{}" [Op "=" [Op "[]" [var "s"; Lit "0"]; Op ">>" [var "code"; Lit
       "8"]]; Op "=" [Op "[]" [var "s"; Lit "1"]; Op "&" [var "code"; Lit "0xFF"]]])])%list.

(** m_ctype.h, lines 81 to 117. *)
Definition macros_m_ctype_MY_CS_ILSEQ : list guarded_macro :=
  (when []
    [constant "MY_CS_ILSEQ" (Lit "0");
     constant "MY_CS_ILUNI" (Lit "0");
     constant "MY_CS_TOOSMALL" (Op "-" [Lit "101"]);
     constant "MY_CS_TOOSMALL2" (Op "-" [Lit "102"]);
     constant "MY_CS_TOOSMALL3" (Op "-" [Lit "103"]);
     constant "MY_CS_TOOSMALL4" (Op "-" [Lit "104"]);
     constant "MY_CS_TOOSMALL5" (Op "-" [Lit "105"]);
     constant "MY_CS_TOOSMALL6" (Op "-" [Lit "106"]);
     define "MY_CS_TOOSMALLN" ["n"] (Op "-" [Op "-" [Lit "100"]; var "n"]);
     constant "MY_SEQ_INTTAIL" (Lit "1");
     constant "MY_SEQ_SPACES" (Lit "2");
     constant "MY_CS_COMPILED" (Lit "1");
     constant "MY_CS_CONFIG" (Lit "2");
     constant "MY_CS_INDEX" (Lit "4");
     constant "MY_CS_LOADED" (Lit "8");
     constant "MY_CS_BINSORT" (Lit "16");
     constant "MY_CS_PRIMARY" (Lit "32");
     constant "MY_CS_STRNXFRM" (Lit "64");
     constant "MY_CS_UNICODE" (Lit "128");
     constant "MY_CS_READY" (Lit "256");
     constant "MY_CS_AVAILABLE" (Lit "512");
     constant "MY_CS_CSSORT" (Lit "1024");
     constant "MY_CS_HIDDEN" (Lit "2048");
     constant "MY_CS_PUREASCII" (Lit "4096");
     constant "MY_CS_NONASCII" (Lit "8192");
     constant "MY_CS_UNICODE_SUPPLEMENT" (Lit "16384");
     constant "MY_CHARSET_UNDEFINED" (Lit "0");
     constant "MY_REPERTOIRE_ASCII" (Lit "1");
     constant "MY_REPERTOIRE_EXTENDED" (Lit "2");
     constant "MY_REPERTOIRE_UNICODE30" (Lit "3")])%list.

(** m_ctype.h, lines 274 to 274. *)
Definition macros_m_ctype_CHARSET_INFO_DEFINED : list guarded_macro :=
  (when []
    [constant "CHARSET_INFO_DEFINED" (Op "" [])])%list.

(** m_ctype.h, lines 312 to 312. *)
Definition macros_m_ctype_ILLEGAL_CHARSET_INFO_NUMBER : list guarded_macro :=
  (when []
    [constant "ILLEGAL_CHARSET_INFO_NUMBER" (Op "~" [Lit "0U"])])%list.

(** m_ctype.h, lines 359 to 360. *)
Definition macros_m_ctype_MY_UTF8MB3 : list guarded_macro :=
  (when []
    [constant "MY_UTF8MB3" (Text "utf8");
     constant "MY_UTF8MB4" (Text "utf8mb4")])%list.

(** m_ctype.h, lines 593 to 656. *)
Definition macros_m_ctype__MY_U : list guarded_macro :=
  (when []
    [constant "_MY_U" (Lit "01");
     constant "_MY_L" (Lit "02");
     constant "_MY_NMR" (Lit "04");
     constant "_MY_SPC" (Lit "010");
     constant "_MY_PNT" (Lit "020");
     constant "_MY_CTR" (Lit "040");
     constant "_MY_B" (Lit "0100");
     constant "_MY_X" (Lit "0200");
     define "my_isascii" ["c"] (Op "!" [Op "&" [var "c"; Op "~" [Lit "0177"]]]);
     define "my_toascii" ["c"] (Op "&" [var "c"; Lit "0177"]);
     define "my_tocntrl" ["c"] (Op "&" [var "c"; Lit "31"]);
     define "my_toprint" ["c"] (Op "|" [var "c"; Lit "64"]);
     define "my_toupper" ["s"; "c"] (Op "(char)" [Op "[]" [Op "->to_upper" [var "s"]; Op "(uchar)" [var "c"]]]);
     define "my_tolower" ["s"; "c"] (Op "(char)" [Op "[]" [Op "->to_lower" [var "s"]; Op "(uchar)" [var "c"]]]);
     define "my_isalpha" ["s"; "c"] (Op "&" [Op "[]" [Op "+" [Op "->ctype" [var "s"]; Lit "1"]; Op "(uchar)" [var
       "c"]]; Op "|" [var "_MY_U"; var "_MY_L"]]);
     define "my_isupper" ["s"; "c"] (Op "&" [Op "[]" [Op "+" [Op "->ctype" [var "s"]; Lit "1"]; Op "(uchar)" [var
       "c"]]; var "_MY_U"]);
     define "my_islower" ["s"; "c"] (Op "&" [Op "[]" [Op "+" [Op "->ctype" [var "s"]; Lit "1"]; Op "(uchar)" [var
       "c"]]; var "_MY_L"]);
     define "my_isdigit" ["s"; "c"] (Op "&" [Op "[]" [Op "+" [Op "->ctype" [var "s"]; Lit "1"]; Op "(uchar)" [var
       "c"]]; var "_MY_NMR"]);
     define "my_isxdigit" ["s"; "c"] (Op "&" [Op "[]" [Op "+" [Op "->ctype" [var "s"]; Lit "1"]; Op "(uchar)" [var
       "c"]]; var "_MY_X"]);
     define "my_isalnum" ["s"; "c"] (Op "&" [Op "[]" [Op "+" [Op "->ctype" [var "s"]; Lit "1"]; Op "(uchar)" [var
       "c"]]; Op "|" [Op "|" [var "_MY_U"; var "_MY_L"]; var "_MY_NMR"]]);
     define "my_isspace" ["s"; "c"] (Op "&" [Op "[]" [Op "+" [Op "->ctype" [var "s"]; Lit "1"]; Op "(uchar)" [var
       "c"]]; var "_MY_SPC"]);
     define "my_ispunct" ["s"; "c"] (Op "&" [Op "[]" [Op "+" [Op "->ctype" [var "s"]; Lit "1"]; Op "(uchar)" [var
       "c"]]; var "_MY_PNT"]);
     define "my_isprint" ["s"; "c"] (Op "&" [Op "[]" [Op "+" [Op "->ctype" [var "s"]; Lit "1"]; Op "(uchar)" [var
       "c"]]; Op "|" [Op "|" [Op "|" [Op "|" [var "_MY_PNT"; var "_MY_U"]; var "_MY_L"]; var "_MY_NMR"]; var
       "_MY_B"]]);
     define "my_isgraph" ["s"; "c"] (Op "&" [Op "[]" [Op "+" [Op "->ctype" [var "s"]; Lit "1"]; Op "(uchar)" [var
       "c"]]; Op "|" [Op "|" [Op "|" [var "_MY_PNT"; var "_MY_U"]; var "_MY_L"]; var "_MY_NMR"]]);
     define "my_iscntrl" ["s"; "c"] (Op "&" [Op "[]" [Op "+" [Op "->ctype" [var "s"]; Lit "1"]; Op "(uchar)" [var
       "c"]]; var "_MY_CTR"]);
     define "my_isvar" ["s"; "c"] (Op "||" [call "my_isalnum" [var "s"; var "c"]; Op "==" [var "c"; Lit "'_'"]]);
     define "my_isvar_start" ["s"; "c"] (Op "||" [call "my_isalpha" [var "s"; var "c"]; Op "==" [var "c"; Lit
       "'_'"]]);
     define "my_binary_compare" ["s"] (Op "&" [Op "->state" [var "s"]; var "MY_CS_BINSORT"]);
     define "use_strnxfrm" ["s"] (Op "&" [Op "->state" [var "s"]; var "MY_CS_STRNXFRM"]);
     define "my_strnxfrm" ["s"; "a"; "b"; "c"; "d"] (Op "()" [Op "->strnxfrm" [Op "->coll" [var "s"]]; var "s";
       var "a"; var "b"; var "c"; var "d"]);
     define "my_strnncoll" ["s"; "a"; "b"; "c"; "d"] (Op "()" [Op "->strnncoll" [Op "->coll" [var "s"]]; var "s";
       var "a"; var "b"; var "c"; var "d"; Lit "0"]);
     define "my_like_range" ["s"; "a"; "b"; "c"; "d"; "e"; "f"; "g"; "h"; "i"; "j"] (Op "()" [Op "->like_range"
       [Op "->coll" [var "s"]]; var "s"; var "a"; var "b"; var "c"; var "d"; var "e"; var "f"; var "g"; var "h"; var
       "i"; var "j"]);
     define "my_wildcmp" ["cs"; "s"; "se"; "w"; "we"; "e"; "o"; "m"] (Op "()" [Op "->wildcmp" [Op "->coll" [var
       "cs"]]; var "cs"; var "s"; var "se"; var "w"; var "we"; var "e"; var "o"; var "m"]);
     define "my_strcasecmp" ["s"; "a"; "b"] (Op "()" [Op "->strcasecmp" [Op "->coll" [var "s"]]; var "s"; var "a";
       var "b"]);
     define "my_charpos" ["cs"; "b"; "e"; "num"] (Op "()" [Op "->charpos" [Op "->cset" [var "cs"]]; var "cs"; Op
       "(const char *)" [var "b"]; Op "(const char *)" [var "e"]; var "num"]);
     define "use_mb" ["s"] (Op "!=" [Op "->ismbchar" [Op "->cset" [var "s"]]; var "NULL"]);
     define "my_ismbchar" ["s"; "a"; "b"] (Op "()" [Op "->ismbchar" [Op "->cset" [var "s"]]; var "s"; var "a"; var
       "b"])] ++
   when [(true, "defined(USE_MB)")]
    [define "my_mbcharlen" ["s"; "a"] (Op "()" [Op "->mbcharlen" [Op "->cset" [var "s"]]; var "s"; var "a"])] ++
   when [(false, "defined(USE_MB)")]
    [define "my_mbcharlen" ["s"; "a"] (Lit "1")] ++
   when []
    [define "my_caseup_str" ["s"; "a"] (Op "()" [Op "->caseup_str" [Op "->cset" [var "s"]]; var "s"; var "a"]);
     define "my_casedn_str" ["s"; "a"] (Op "()" [Op "->casedn_str" [Op "->cset" [var "s"]]; var "s"; var "a"]);
     define "my_strntol" ["s"; "a"; "b"; "c"; "d"; "e"] (Op "()" [Op "->strntol" [Op "->cset" [var "s"]]; var "s";
       var "a"; var "b"; var "c"; var "d"; var "e"]);
     define "my_strntoul" ["s"; "a"; "b"; "c"; "d"; "e"] (Op "()" [Op "->strntoul" [Op "->cset" [var "s"]]; var
       "s"; var "a"; var "b"; var "c"; var "d"; var "e"]);
     define "my_strntoll" ["s"; "a"; "b"; "c"; "d"; "e"] (Op "()" [Op "->strntoll" [Op "->cset" [var "s"]]; var
       "s"; var "a"; var "b"; var "c"; var "d"; var "e"]);
     define "my_strntoull" ["s"; "a"; "b"; "c"; "d"; "e"] (Op "()" [Op "->strntoull" [Op "->cset" [var "s"]]; var
       "s"; var "a"; var "b"; var "c"; var "d"; var "e"]);
     define "my_strntod" ["s"; "a"; "b"; "c"; "d"] (Op "()" [Op "->strntod" [Op "->cset" [var "s"]]; var "s"; var
       "a"; var "b"; var "c"; var "d"])] ++
   when [(true, "defined(MY_CHARSET_TIS620)")]
    [constant "USE_TIS620" (Op "" [])])%list.

Definition macros_of_m_ctype : list guarded_macro :=
  (macros_m_ctype_MY_CS_NAME_SIZE ++ macros_m_ctype_MY_CS_ILSEQ ++ macros_m_ctype_CHARSET_INFO_DEFINED ++
   macros_m_ctype_ILLEGAL_CHARSET_INFO_NUMBER ++ macros_m_ctype_MY_UTF8MB3 ++ macros_m_ctype__MY_U)%list.

(** my_dbug.h, lines 69 to 133. *)
Definition macros_my_dbug_DBUG_ENTER : list guarded_macro :=
  (when [(true, "!defined(DBUG_OFF) && !defined(_lint)")]
    [define "DBUG_ENTER" ["a"] (Op ";" [Op "declare struct _db_stack_frame_ _db_stack_frame_" []; call
       "_db_enter_" [var "a"; var "__FILE__"; var "__LINE__"; Op "&" [var "_db_stack_frame_"]]]);
     constant "DBUG_LEAVE" (call "_db_return_" [var "__LINE__"; Op "&" [var "_db_stack_frame_"]]);
     define "DBUG_RETURN" ["a1"] (Op "do while" [Op "{}" [var "DBUG_LEAVE"; Op "return" [var "a1"]]; Lit "0"]);
     constant "DBUG_VOID_RETURN" (Op "do while" [Op "{}" [var "DBUG_LEAVE"; Op "return" []]; Lit "0"]);
     define "DBUG_EXECUTE" ["keyword"; "a1"] (Op "do while" [Op "{}" [Op "if" [call "_db_keyword_" [Lit "0"; var
       "keyword"; Lit "0"]; Op "{}" [var "a1"]]]; Lit "0"]);
     define "DBUG_EXECUTE_IF" ["keyword"; "a1"] (Op "do while" [Op "{}" [Op "if" [call "_db_keyword_" [Lit "0";
       var "keyword"; Lit "1"]; Op "{}" [var "a1"]]]; Lit "0"]);
     define "DBUG_EVALUATE" ["keyword"; "a1"; "a2"] (Op "?:" [call "_db_keyword_" [Lit "0"; var "keyword"; Lit
       "0"]; var "a1"; var "a2"]);
     define "DBUG_EVALUATE_IF" ["keyword"; "a1"; "a2"] (Op "?:" [call "_db_keyword_" [Lit "0"; var "keyword"; Lit
       "1"]; var "a1"; var "a2"]);
     define "DBUG_PRINT" ["keyword"; "arglist"] (Op "do while" [Op "{}" [call "_db_pargs_" [var "__LINE__"; var
       "keyword"]; Op "apply" [var "_db_doprnt_"; var "arglist"]]; Lit "0"]);
     define "DBUG_PUSH" ["a1"] (call "_db_push_" [var "a1"]);
     define "DBUG_POP" [] (call "_db_pop_" []);
     define "DBUG_SET" ["a1"] (call "_db_set_" [var "a1"]);
     define "DBUG_SET_INITIAL" ["a1"] (call "_db_set_init_" [var "a1"]);
     define "DBUG_PROCESS" ["a1"] (call "_db_process_" [var "a1"]);
     constant "DBUG_FILE" (call "_db_fp_" []);
     define "DBUG_SETJMP" ["a1"] (Op "," [call "_db_setjmp_" []; call "setjmp" [var "a1"]]);
     define "DBUG_LONGJMP" ["a1"; "a2"] (Op "," [call "_db_longjmp_" []; call "longjmp" [var "a1"; var "a2"]]);
     define "DBUG_DUMP" ["keyword"; "a1"; "a2"] (call "_db_dump_" [var "__LINE__"; var "keyword"; var "a1"; var
       "a2"]);
     define "DBUG_END" [] (call "_db_end_" []);
     constant "DBUG_LOCK_FILE" (call "_db_lock_file_" []);
     constant "DBUG_UNLOCK_FILE" (call "_db_unlock_file_" []);
     define "DBUG_ASSERT" ["A"] (call "assert" [var "A"]);
     define "DBUG_EXPLAIN" ["buf"; "len"] (call "_db_explain_" [Lit "0"; var "buf"; var "len"]);
     define "DBUG_EXPLAIN_INITIAL" ["buf"; "len"] (call "_db_explain_init_" [var "buf"; var "len"]);
     constant "DEBUGGER_OFF" (Op "do while" [Op "{}" [Op "=" [var "_dbug_on_"; Lit "0"]]; Lit "0"]);
     constant "DEBUGGER_ON" (Op "do while" [Op "{}" [Op "=" [var "_dbug_on_"; Lit "1"]]; Lit "0"])] ++
   when [(true, "!defined(DBUG_OFF) && !defined(_lint)"); (false, "defined(__WIN__)")]
    [define "DBUG_ABORT" [] (Op "," [call "_db_flush_" []; call "abort" []])] ++
   when [(true, "!defined(DBUG_OFF) && !defined(_lint)"); (true, "defined(__WIN__)")]
    [define "DBUG_ABORT" [] (Op "," [call "_db_flush_" []; Op "(void)" [call "_CrtSetReportMode" [var
       "_CRT_ERROR"; var "_CRTDBG_MODE_FILE"]]; Op "(void)" [call "_CrtSetReportFile" [var "_CRT_ERROR"; var
       "_CRTDBG_FILE_STDERR"]]; call "_exit" [Lit "3"]])] ++
   when [(true, "!defined(DBUG_OFF) && !defined(_lint)")]
    [define "DBUG_CHECK_CRASH" ["func"; "op"] (Op "do while" [Op "{}" [Op "declare char _dbuf_[]" [Lit "255"];
       call "strxnmov" [var "_dbuf_"; Op "-" [Op "sizeof" [var "_dbuf_"]; Lit "1"]; var "func"; var "op"]; call
       "DBUG_EXECUTE_IF" [var "_dbuf_"; call "DBUG_ABORT" []]]; Lit "0"]);
     define "DBUG_CRASH_ENTER" ["func"] (Op ";" [call "DBUG_ENTER" [var "func"]; call "DBUG_CHECK_CRASH" [var
       "func"; Text "_crash_enter"]]);
     define "DBUG_CRASH_RETURN" ["val"] (call "DBUG_CHECK_CRASH" [call "_db_get_func_" []; Text "_crash_return"]);
     constant "DBUG_CRASH_VOID_RETURN" (call "DBUG_CHECK_CRASH" [call "_db_get_func_" []; Text "_crash_return"])] ++
   when [(true, "!defined(DBUG_OFF) && !defined(_lint)"); (true, "defined(__WIN__)")]
    [define "DBUG_SUICIDE" [] (call "DBUG_ABORT" [])])%list.

(** my_dbug.h, lines 136 to 184. *)
Definition macros_my_dbug_DBUG_SUICIDE : list guarded_macro :=
  (when [(true, "!defined(DBUG_OFF) && !defined(_lint)"); (false, "defined(__WIN__)")]
    [define "DBUG_SUICIDE" [] (Op "," [call "_db_flush_" []; call "_db_suicide_" []])] ++
   when [(false, "!defined(DBUG_OFF) && !defined(_lint)")]
    [define "DBUG_ENTER" ["a1"] (Op "" []);
     constant "DBUG_LEAVE" (Op "" []);
     define "DBUG_RETURN" ["a1"] (Op "do while" [Op "{}" [Op "return" [var "a1"]]; Lit "0"]);
     constant "DBUG_VOID_RETURN" (Op "do while" [Op "{}" [Op "return" []]; Lit "0"]);
     define "DBUG_EXECUTE" ["keyword"; "a1"] (Op "do while" [Op "{}" []; Lit "0"]);
     define "DBUG_EXECUTE_IF" ["keyword"; "a1"] (Op "do while" [Op "{}" []; Lit "0"]);
     define "DBUG_EVALUATE" ["keyword"; "a1"; "a2"] (var "a2");
     define "DBUG_EVALUATE_IF" ["keyword"; "a1"; "a2"] (var "a2");
     define "DBUG_PRINT" ["keyword"; "arglist"] (Op "do while" [Op "{}" []; Lit "0"]);
     define "DBUG_PUSH" ["a1"] (Op "do while" [Op "{}" []; Lit "0"]);
     define "DBUG_SET" ["a1"] (Op "do while" [Op "{}" []; Lit "0"]);
     define "DBUG_SET_INITIAL" ["a1"] (Op "do while" [Op "{}" []; Lit "0"]);
     define "DBUG_POP" [] (Op "do while" [Op "{}" []; Lit "0"]);
     define "DBUG_PROCESS" ["a1"] (Op "do while" [Op "{}" []; Lit "0"]);
     define "DBUG_SETJMP" ["a1"] (call "setjmp" [var "a1"]);
     define "DBUG_LONGJMP" ["a1"] (call "longjmp" [var "a1"]);
     define "DBUG_DUMP" ["keyword"; "a1"; "a2"] (Op "do while" [Op "{}" []; Lit "0"]);
     define "DBUG_END" [] (Op "do while" [Op "{}" []; Lit "0"]);
     define "DBUG_ASSERT" ["A"] (Op "do while" [Op "{}" []; Lit "0"]);
     constant "DBUG_LOCK_FILE" (Op "do while" [Op "{}" []; Lit "0"]);
     constant "DBUG_FILE" (var "stderr");
     constant "DBUG_UNLOCK_FILE" (Op "do while" [Op "{}" []; Lit "0"]);
     define "DBUG_EXPLAIN" ["buf"; "len"] (Op "" []);
     define "DBUG_EXPLAIN_INITIAL" ["buf"; "len"] (Op "" []);
     constant "DEBUGGER_OFF" (Op "do while" [Op "{}" []; Lit "0"]);
     constant "DEBUGGER_ON" (Op "do while" [Op "{}" []; Lit "0"]);
     define "DBUG_ABORT" [] (Op "do while" [Op "{}" []; Lit "0"]);
     define "DBUG_CRASH_ENTER" ["func"] (Op "" []);
     define "DBUG_CRASH_RETURN" ["val"] (Op "do while" [Op "{}" [Op "return" [var "val"]]; Lit "0"]);
     constant "DBUG_CRASH_VOID_RETURN" (Op "do while" [Op "{}" [Op "return" []]; Lit "0"]);
     define "DBUG_SUICIDE" [] (Op "do while" [Op "{}" []; Lit "0"])] ++
   when [(true, "defined(EXTRA_DEBUG)")]
    [define "DBUG_SYNC_POINT" ["lock_name"; "lock_timeout"] (call "debug_sync_point" [var "lock_name"; var
       "lock_timeout"])])%list.

(** my_dbug.h, lines 187 to 187. *)
Definition macros_my_dbug_DBUG_SYNC_POINT : list guarded_macro :=
  (when [(false, "defined(EXTRA_DEBUG)")]
    [define "DBUG_SYNC_POINT" ["lock_name"; "lock_timeout"] (Op "" [])])%list.

Definition macros_of_my_dbug : list guarded_macro :=
  (macros_my_dbug_DBUG_ENTER ++ macros_my_dbug_DBUG_SUICIDE ++ macros_my_dbug_DBUG_SYNC_POINT)%list.

(** my_list.h, lines 17 to 17. *)
Definition macros_my_list__list_h_ : list guarded_macro :=
  (when [(false, "defined(_list_h_)")]
    [constant "_list_h_" (Op "" [])])%list.

(** my_list.h, lines 38 to 40. *)
Definition macros_my_list_list_rest : list guarded_macro :=
  (when [(false, "defined(_list_h_)")]
    [define "list_rest" ["a"] (Op "->next" [var "a"]);
     define "list_push" ["a"; "b"] (Op "=" [var "a"; call "list_cons" [var "b"; var "a"]]);
     define "list_pop" ["A"] (Op "{}" [Op "=" [Op "*" [var "LIST"; var "old"]; var "A"]; Op "=" [var "A"; call
       "list_delete" [var "old"; var "old"]]; call "my_free" [var "old"]])])%list.

Definition macros_of_my_list : list guarded_macro :=
  (macros_my_list__list_h_ ++ macros_my_list_list_rest)%list.

(** my_dir.h, lines 29 to 49. *)
Definition macros_my_dir_MY_S_IFMT : list guarded_macro :=
  (when []
    [constant "MY_S_IFMT" (var "S_IFMT");
     constant "MY_S_IFDIR" (var "S_IFDIR");
     constant "MY_S_IFCHR" (var "S_IFCHR");
     constant "MY_S_IFBLK" (var "S_IFBLK");
     constant "MY_S_IFREG" (var "S_IFREG");
     constant "MY_S_IFIFO" (var "S_IFIFO");
     constant "MY_S_ISUID" (var "S_ISUID");
     constant "MY_S_ISGID" (var "S_ISGID");
     constant "MY_S_ISVTX" (var "S_ISVTX");
     constant "MY_S_IREAD" (var "S_IREAD");
     constant "MY_S_IWRITE" (var "S_IWRITE");
     constant "MY_S_IEXEC" (var "S_IEXEC");
     define "MY_S_ISDIR" ["m"] (Op "==" [Op "&" [var "m"; var "MY_S_IFMT"]; var "MY_S_IFDIR"]);
     define "MY_S_ISCHR" ["m"] (Op "==" [Op "&" [var "m"; var "MY_S_IFMT"]; var "MY_S_IFCHR"]);
     define "MY_S_ISBLK" ["m"] (Op "==" [Op "&" [var "m"; var "MY_S_IFMT"]; var "MY_S_IFBLK"]);
     define "MY_S_ISREG" ["m"] (Op "==" [Op "&" [var "m"; var "MY_S_IFMT"]; var "MY_S_IFREG"]);
     define "MY_S_ISFIFO" ["m"] (Op "==" [Op "&" [var "m"; var "MY_S_IFMT"]; var "MY_S_IFIFO"]);
     constant "MY_DONT_SORT" (Lit "512");
     constant "MY_WANT_STAT" (Lit "1024")])%list.

(** my_dir.h, lines 73 to 75. *)
Definition macros_my_dir_MY_STAT : list guarded_macro :=
  (when [(false, "defined(USE_MY_STAT_STRUCT)"); (true, "(_MSC_VER)")]
    [constant "MY_STAT" (Lit "struct _stati64")] ++
   when [(false, "defined(USE_MY_STAT_STRUCT)"); (false, "(_MSC_VER)")]
    [constant "MY_STAT" (Lit "struct stat")])%list.

Definition macros_of_my_dir : list guarded_macro :=
  (macros_my_dir_MY_S_IFMT ++ macros_my_dir_MY_STAT)%list.

(** my_alloc.h, lines 23 to 24. *)
Definition macros_my_alloc_ALLOC_MAX_BLOCK_TO_DROP : list guarded_macro :=
  (when []
    [constant "ALLOC_MAX_BLOCK_TO_DROP" (Lit "4096");
     constant "ALLOC_MAX_BLOCK_USAGE_BEFORE_DROP" (Lit "10")])%list.

Definition macros_of_my_alloc : list guarded_macro :=
  (macros_my_alloc_ALLOC_MAX_BLOCK_TO_DROP)%list.

(** keycache.h, lines 40 to 40. *)
Definition macros_keycache_CHANGED_BLOCKS_HASH : list guarded_macro :=
  (when []
    [constant "CHANGED_BLOCKS_HASH" (Lit "128")])%list.

Definition macros_of_keycache : list guarded_macro :=
  (macros_keycache_CHANGED_BLOCKS_HASH)%list.

(** my_getopt.h, lines 24 to 41. *)
Definition macros_my_getopt_GET_NO_ARG : list guarded_macro :=
  (when []
    [constant "GET_NO_ARG" (Lit "1");
     constant "GET_BOOL" (Lit "2");
     constant "GET_INT" (Lit "3");
     constant "GET_UINT" (Lit "4");
     constant "GET_LONG" (Lit "5");
     constant "GET_ULONG" (Lit "6");
     constant "GET_LL" (Lit "7");
     constant "GET_ULL" (Lit "8");
     constant "GET_STR" (Lit "9");
     constant "GET_STR_ALLOC" (Lit "10");
     constant "GET_DISABLED" (Lit "11");
     constant "GET_ENUM" (Lit "12");
     constant "GET_SET" (Lit "13");
     constant "GET_DOUBLE" (Lit "14");
     constant "GET_FLAGSET" (Lit "15");
     constant "GET_ASK_ADDR" (Lit "128");
     constant "GET_TYPE_MASK" (Lit "127")])%list.

Definition macros_of_my_getopt : list guarded_macro :=
  (macros_my_getopt_GET_NO_ARG)%list.

(** decimal.h, lines 72 to 113. *)
Definition macros_decimal_string2decimal : list guarded_macro :=
  (when []
    [define "string2decimal" ["A"; "B"; "C"] (call "internal_str2dec" [var "A"; var "B"; var "C"; Lit "0"]);
     define "string2decimal_fixed" ["A"; "B"; "C"] (call "internal_str2dec" [var "A"; var "B"; var "C"; Lit "1"]);
     define "decimal_make_zero" ["dec"] (Op "do while" [Op "{}" [Op "=" [Op "[]" [Op "->buf" [var "dec"]; Lit
       "0"]; Lit "0"]; Op "=" [Op "->intg" [var "dec"]; Lit "1"]; Op "=" [Op "->frac" [var "dec"]; Lit "0"]; Op "="
       [Op "->sign" [var "dec"]; Lit "0"]]; Lit "0"]);
     define "decimal_string_size" ["dec"] (Op "+" [Op "+" [Op "+" [Op "?:" [Op "->intg" [var "dec"]; Op "->intg"
       [var "dec"]; Lit "1"]; Op "->frac" [var "dec"]]; Op ">" [Op "->frac" [var "dec"]; Lit "0"]]; Lit "2"]);
     define "decimal_neg" ["dec"] (Op "do while" [Op "{}" [Op "^=" [Op "->sign" [var "dec"]; Lit "1"]]; Lit "0"]);
     constant "E_DEC_OK" (Lit "0");
     constant "E_DEC_TRUNCATED" (Lit "1");
     constant "E_DEC_OVERFLOW" (Lit "2");
     constant "E_DEC_DIV_ZERO" (Lit "4");
     constant "E_DEC_BAD_NUM" (Lit "8");
     constant "E_DEC_OOM" (Lit "16");
     constant "E_DEC_ERROR" (Lit "31");
     constant "E_DEC_FATAL_ERROR" (Lit "30")])%list.

Definition macros_of_decimal : list guarded_macro :=
  (macros_decimal_string2decimal)%list.

(** mysql_com.h, lines 23 to 57. *)
Definition macros_mysql_com_HOSTNAME_LENGTH : list guarded_macro :=
  (when []
    [constant "HOSTNAME_LENGTH" (Lit "60");
     constant "SYSTEM_CHARSET_MBMAXLEN" (Lit "3");
     constant "NAME_CHAR_LEN" (Lit "64");
     constant "USERNAME_CHAR_LENGTH" (Lit "16");
     constant "NAME_LEN" (Op "*" [var "NAME_CHAR_LEN"; var "SYSTEM_CHARSET_MBMAXLEN"]);
     constant "USERNAME_LENGTH" (Op "*" [var "USERNAME_CHAR_LENGTH"; var "SYSTEM_CHARSET_MBMAXLEN"]);
     constant "MYSQL_AUTODETECT_CHARSET_NAME" (Text "auto");
     constant "SERVER_VERSION_LENGTH" (Lit "60");
     constant "SQLSTATE_LENGTH" (Lit "5");
     constant "TABLE_COMMENT_INLINE_MAXLEN" (Lit "180");
     constant "TABLE_COMMENT_MAXLEN" (Lit "2048");
     constant "COLUMN_COMMENT_MAXLEN" (Lit "1024");
     constant "INDEX_COMMENT_MAXLEN" (Lit "1024");
     constant "USER_HOST_BUFF_SIZE" (Op "+" [Op "+" [var "HOSTNAME_LENGTH"; var "USERNAME_LENGTH"]; Lit "2"]);
     constant "LOCAL_HOST" (Text "localhost");
     constant "LOCAL_HOST_NAMEDPIPE" (Text ".")] ++
   when [(true, "defined(__WIN__) && !defined(_CUSTOMCONFIG_)")]
    [constant "MYSQL_NAMEDPIPE" (Text "MySQL");
     constant "MYSQL_SERVICENAME" (Text "MySQL")])%list.

(** mysql_com.h, lines 85 to 211. *)
Definition macros_mysql_com_SCRAMBLE_LENGTH : list guarded_macro :=
  (when []
    [constant "SCRAMBLE_LENGTH" (Lit "20");
     constant "SCRAMBLE_LENGTH_323" (Lit "8");
     constant "SCRAMBLED_PASSWORD_CHAR_LENGTH" (Op "+" [Op "*" [var "SCRAMBLE_LENGTH"; Lit "2"]; Lit "1"]);
     constant "SCRAMBLED_PASSWORD_CHAR_LENGTH_323" (Op "*" [var "SCRAMBLE_LENGTH_323"; Lit "2"]);
     constant "NOT_NULL_FLAG" (Lit "1");
     constant "PRI_KEY_FLAG" (Lit "2");
     constant "UNIQUE_KEY_FLAG" (Lit "4");
     constant "MULTIPLE_KEY_FLAG" (Lit "8");
     constant "BLOB_FLAG" (Lit "16");
     constant "UNSIGNED_FLAG" (Lit "32");
     constant "ZEROFILL_FLAG" (Lit "64");
     constant "BINARY_FLAG" (Lit "128");
     constant "ENUM_FLAG" (Lit "256");
     constant "AUTO_INCREMENT_FLAG" (Lit "512");
     constant "TIMESTAMP_FLAG" (Lit "1024");
     constant "SET_FLAG" (Lit "2048");
     constant "NO_DEFAULT_VALUE_FLAG" (Lit "4096");
     constant "ON_UPDATE_NOW_FLAG" (Lit "8192");
     constant "NUM_FLAG" (Lit "32768");
     constant "PART_KEY_FLAG" (Lit "16384");
     constant "GROUP_FLAG" (Lit "32768");
     constant "UNIQUE_FLAG" (Lit "65536");
     constant "BINCMP_FLAG" (Lit "131072");
     constant "GET_FIXED_FIELDS_FLAG" (Op "<<" [Lit "1"; Lit "18"]);
     constant "FIELD_IN_PART_FUNC_FLAG" (Op "<<" [Lit "1"; Lit "19"]);
     constant "FIELD_IN_ADD_INDEX" (Op "<<" [Lit "1"; Lit "20"]);
     constant "FIELD_IS_RENAMED" (Op "<<" [Lit "1"; Lit "21"]);
     constant "FIELD_FLAGS_STORAGE_MEDIA" (Lit "22");
     constant "FIELD_FLAGS_COLUMN_FORMAT" (Lit "24");
     constant "REFRESH_GRANT" (Lit "1");
     constant "REFRESH_LOG" (Lit "2");
     constant "REFRESH_TABLES" (Lit "4");
     constant "REFRESH_HOSTS" (Lit "8");
     constant "REFRESH_STATUS" (Lit "16");
     constant "REFRESH_THREADS" (Lit "32");
     constant "REFRESH_SLAVE" (Lit "64");
     constant "REFRESH_MASTER" (Lit "128");
     constant "REFRESH_ERROR_LOG" (Lit "256");
     constant "REFRESH_ENGINE_LOG" (Lit "512");
     constant "REFRESH_BINARY_LOG" (Lit "1024");
     constant "REFRESH_RELAY_LOG" (Lit "2048");
     constant "REFRESH_GENERAL_LOG" (Lit "4096");
     constant "REFRESH_SLOW_LOG" (Lit "8192");
     constant "REFRESH_READ_LOCK" (Lit "16384");
     constant "REFRESH_FAST" (Lit "32768");
     constant "REFRESH_QUERY_CACHE" (Lit "65536");
     constant "REFRESH_QUERY_CACHE_FREE" (Lit "0x20000L");
     constant "REFRESH_DES_KEY_FILE" (Lit "0x40000L");
     constant "REFRESH_USER_RESOURCES" (Lit "0x80000L");
     constant "CLIENT_LONG_PASSWORD" (Lit "1");
     constant "CLIENT_FOUND_ROWS" (Lit "2");
     constant "CLIENT_LONG_FLAG" (Lit "4");
     constant "CLIENT_CONNECT_WITH_DB" (Lit "8");
     constant "CLIENT_NO_SCHEMA" (Lit "16");
     constant "CLIENT_COMPRESS" (Lit "32");
     constant "CLIENT_ODBC" (Lit "64");
     constant "CLIENT_LOCAL_FILES" (Lit "128");
     constant "CLIENT_IGNORE_SPACE" (Lit "256");
     constant "CLIENT_PROTOCOL_41" (Lit "512");
     constant "CLIENT_INTERACTIVE" (Lit "1024");
     constant "CLIENT_SSL" (Lit "2048");
     constant "CLIENT_IGNORE_SIGPIPE" (Lit "4096");
     constant "CLIENT_TRANSACTIONS" (Lit "8192");
     constant "CLIENT_RESERVED" (Lit "16384");
     constant "CLIENT_SECURE_CONNECTION" (Lit "32768");
     constant "CLIENT_MULTI_STATEMENTS" (Op "<<" [Lit "1UL"; Lit "16"]);
     constant "CLIENT_MULTI_RESULTS" (Op "<<" [Lit "1UL"; Lit "17"]);
     constant "CLIENT_PS_MULTI_RESULTS" (Op "<<" [Lit "1UL"; Lit "18"]);
     constant "CLIENT_PLUGIN_AUTH" (Op "<<" [Lit "1UL"; Lit "19"]);
     constant "CLIENT_SSL_VERIFY_SERVER_CERT" (Op "<<" [Lit "1UL"; Lit "30"]);
     constant "CLIENT_REMEMBER_OPTIONS" (Op "<<" [Lit "1UL"; Lit "31"])] ++
   when [(true, "defined(HAVE_COMPRESS)")]
    [constant "CAN_CLIENT_COMPRESS" (var "CLIENT_COMPRESS")] ++
   when [(false, "defined(HAVE_COMPRESS)")]
    [constant "CAN_CLIENT_COMPRESS" (Lit "0")] ++
   when []
    [constant "CLIENT_ALL_FLAGS" (Op "|" [Op "|" [Op "|" [Op "|" [Op "|" [Op "|" [Op "|" [Op "|" [Op "|" [Op "|"
       [Op "|" [Op "|" [Op "|" [Op "|" [Op "|" [Op "|" [Op "|" [Op "|" [Op "|" [Op "|" [Op "|" [var
       "CLIENT_LONG_PASSWORD"; var "CLIENT_FOUND_ROWS"]; var "CLIENT_LONG_FLAG"]; var "CLIENT_CONNECT_WITH_DB"]; var
       "CLIENT_NO_SCHEMA"]; var "CLIENT_COMPRESS"]; var "CLIENT_ODBC"]; var "CLIENT_LOCAL_FILES"]; var
       "CLIENT_IGNORE_SPACE"]; var "CLIENT_PROTOCOL_41"]; var "CLIENT_INTERACTIVE"]; var "CLIENT_SSL"]; var
       "CLIENT_IGNORE_SIGPIPE"]; var "CLIENT_TRANSACTIONS"]; var "CLIENT_RESERVED"]; var
       "CLIENT_SECURE_CONNECTION"]; var "CLIENT_MULTI_STATEMENTS"]; var "CLIENT_MULTI_RESULTS"]; var
       "CLIENT_PS_MULTI_RESULTS"]; var "CLIENT_SSL_VERIFY_SERVER_CERT"]; var "CLIENT_REMEMBER_OPTIONS"]; var
       "CLIENT_PLUGIN_AUTH"]);
     constant "CLIENT_BASIC_FLAGS" (Op "&" [Op "&" [Op "&" [var "CLIENT_ALL_FLAGS"; Op "~" [var "CLIENT_SSL"]]; Op
       "~" [var "CLIENT_COMPRESS"]]; Op "~" [var "CLIENT_SSL_VERIFY_SERVER_CERT"]])])%list.

(** mysql_com.h, lines 220 to 273. *)
Definition macros_mysql_com_SERVER_STATUS_IN_TRANS : list guarded_macro :=
  (when []
    [constant "SERVER_STATUS_IN_TRANS" (Lit "1");
     constant "SERVER_STATUS_AUTOCOMMIT" (Lit "2");
     constant "SERVER_MORE_RESULTS_EXISTS" (Lit "8");
     constant "SERVER_QUERY_NO_GOOD_INDEX_USED" (Lit "16");
     constant "SERVER_QUERY_NO_INDEX_USED" (Lit "32");
     constant "SERVER_STATUS_CURSOR_EXISTS" (Lit "64");
     constant "SERVER_STATUS_LAST_ROW_SENT" (Lit "128");
     constant "SERVER_STATUS_DB_DROPPED" (Lit "256");
     constant "SERVER_STATUS_NO_BACKSLASH_ESCAPES" (Lit "512");
     constant "SERVER_STATUS_METADATA_CHANGED" (Lit "1024");
     constant "SERVER_QUERY_WAS_SLOW" (Lit "2048");
     constant "SERVER_PS_OUT_PARAMS" (Lit "4096");
     constant "SERVER_STATUS_CLEAR_SET" (Op "|" [Op "|" [Op "|" [Op "|" [Op "|" [Op "|" [Op "|" [var
       "SERVER_QUERY_NO_GOOD_INDEX_USED"; var "SERVER_QUERY_NO_INDEX_USED"]; var "SERVER_MORE_RESULTS_EXISTS"]; var
       "SERVER_STATUS_METADATA_CHANGED"]; var "SERVER_QUERY_WAS_SLOW"]; var "SERVER_STATUS_DB_DROPPED"]; var
       "SERVER_STATUS_CURSOR_EXISTS"]; var "SERVER_STATUS_LAST_ROW_SENT"]);
     constant "MYSQL_ERRMSG_SIZE" (Lit "512");
     constant "NET_READ_TIMEOUT" (Lit "30");
     constant "NET_WRITE_TIMEOUT" (Lit "60");
     constant "NET_WAIT_TIMEOUT" (Op "*" [Op "*" [Lit "8"; Lit "60"]; Lit "60"]);
     constant "ONLY_KILL_QUERY" (Lit "1")])%list.

(** mysql_com.h, lines 279 to 285. *)
Definition macros_mysql_com_MAX_TINYINT_WIDTH : list guarded_macro :=
  (when []
    [constant "MAX_TINYINT_WIDTH" (Lit "3");
     constant "MAX_SMALLINT_WIDTH" (Lit "5");
     constant "MAX_MEDIUMINT_WIDTH" (Lit "8");
     constant "MAX_INT_WIDTH" (Lit "10");
     constant "MAX_BIGINT_WIDTH" (Lit "20");
     constant "MAX_CHAR_WIDTH" (Lit "255");
     constant "MAX_BLOB_WIDTH" (Lit "16777216")])%list.

(** mysql_com.h, lines 340 to 340. *)
Definition macros_mysql_com_packet_error : list guarded_macro :=
  (when []
    [constant "packet_error" (Op "~" [Op "(unsigned long)" [Lit "0"]])])%list.

(** mysql_com.h, lines 365 to 402. *)
Definition macros_mysql_com_CLIENT_MULTI_QUERIES : list guarded_macro :=
  (when []
    [constant "CLIENT_MULTI_QUERIES" (var "CLIENT_MULTI_STATEMENTS");
     constant "FIELD_TYPE_DECIMAL" (var "MYSQL_TYPE_DECIMAL");
     constant "FIELD_TYPE_NEWDECIMAL" (var "MYSQL_TYPE_NEWDECIMAL");
     constant "FIELD_TYPE_TINY" (var "MYSQL_TYPE_TINY");
     constant "FIELD_TYPE_SHORT" (var "MYSQL_TYPE_SHORT");
     constant "FIELD_TYPE_LONG" (var "MYSQL_TYPE_LONG");
     constant "FIELD_TYPE_FLOAT" (var "MYSQL_TYPE_FLOAT");
     constant "FIELD_TYPE_DOUBLE" (var "MYSQL_TYPE_DOUBLE");
     constant "FIELD_TYPE_NULL" (var "MYSQL_TYPE_NULL");
     constant "FIELD_TYPE_TIMESTAMP" (var "MYSQL_TYPE_TIMESTAMP");
     constant "FIELD_TYPE_LONGLONG" (var "MYSQL_TYPE_LONGLONG");
     constant "FIELD_TYPE_INT24" (var "MYSQL_TYPE_INT24");
     constant "FIELD_TYPE_DATE" (var "MYSQL_TYPE_DATE");
     constant "FIELD_TYPE_TIME" (var "MYSQL_TYPE_TIME");
     constant "FIELD_TYPE_DATETIME" (var "MYSQL_TYPE_DATETIME");
     constant "FIELD_TYPE_YEAR" (var "MYSQL_TYPE_YEAR");
     constant "FIELD_TYPE_NEWDATE" (var "MYSQL_TYPE_NEWDATE");
     constant "FIELD_TYPE_ENUM" (var "MYSQL_TYPE_ENUM");
     constant "FIELD_TYPE_SET" (var "MYSQL_TYPE_SET");
     constant "FIELD_TYPE_TINY_BLOB" (var "MYSQL_TYPE_TINY_BLOB");
     constant "FIELD_TYPE_MEDIUM_BLOB" (var "MYSQL_TYPE_MEDIUM_BLOB");
     constant "FIELD_TYPE_LONG_BLOB" (var "MYSQL_TYPE_LONG_BLOB");
     constant "FIELD_TYPE_BLOB" (var "MYSQL_TYPE_BLOB");
     constant "FIELD_TYPE_VAR_STRING" (var "MYSQL_TYPE_VAR_STRING");
     constant "FIELD_TYPE_STRING" (var "MYSQL_TYPE_STRING");
     constant "FIELD_TYPE_CHAR" (var "MYSQL_TYPE_TINY");
     constant "FIELD_TYPE_INTERVAL" (var "MYSQL_TYPE_ENUM");
     constant "FIELD_TYPE_GEOMETRY" (var "MYSQL_TYPE_GEOMETRY");
     constant "FIELD_TYPE_BIT" (var "MYSQL_TYPE_BIT");
     constant "MYSQL_SHUTDOWN_KILLABLE_CONNECT" (Op "(unsigned char)" [Op "<<" [Lit "1"; Lit "0"]]);
     constant "MYSQL_SHUTDOWN_KILLABLE_TRANS" (Op "(unsigned char)" [Op "<<" [Lit "1"; Lit "1"]]);
     constant "MYSQL_SHUTDOWN_KILLABLE_LOCK_TABLE" (Op "(unsigned char)" [Op "<<" [Lit "1"; Lit "2"]]);
     constant "MYSQL_SHUTDOWN_KILLABLE_UPDATE" (Op "(unsigned char)" [Op "<<" [Lit "1"; Lit "3"]])])%list.

(** mysql_com.h, lines 445 to 445. *)
Definition macros_mysql_com_net_new_transaction : list guarded_macro :=
  (when []
    [define "net_new_transaction" ["net"] (Op "=" [Op "->pkt_nr" [var "net"]; Lit "0"])])%list.

(** mysql_com.h, lines 516 to 517. *)
Definition macros_mysql_com_NET_HEADER_SIZE : list guarded_macro :=
  (when []
    [constant "NET_HEADER_SIZE" (Lit "4");
     constant "COMP_HEADER_SIZE" (Lit "3")])%list.

(** mysql_com.h, lines 571 to 575. *)
Definition macros_mysql_com_NULL_LENGTH : list guarded_macro :=
  (when []
    [constant "NULL_LENGTH" (Op "(unsigned long)" [Op "~" [Lit "0"]]);
     constant "MYSQL_STMT_HEADER" (Lit "4");
     constant "MYSQL_LONG_DATA_HEADER" (Lit "6");
     constant "NOT_FIXED_DEC" (Lit "31")])%list.

Definition macros_of_mysql_com : list guarded_macro :=
  (macros_mysql_com_HOSTNAME_LENGTH ++ macros_mysql_com_SCRAMBLE_LENGTH ++ macros_mysql_com_SERVER_STATUS_IN_TRANS
   ++ macros_mysql_com_MAX_TINYINT_WIDTH ++ macros_mysql_com_packet_error ++ macros_mysql_com_CLIENT_MULTI_QUERIES
   ++ macros_mysql_com_net_new_transaction ++ macros_mysql_com_NET_HEADER_SIZE ++ macros_mysql_com_NULL_LENGTH)%list.

(** mysql.h, lines 54 to 64. *)
Definition macros_mysql___WIN__ : list guarded_macro :=
  (when [(true, "(defined(_WIN32) || defined(_WIN64)) && !defined(__WIN__)")]
    [constant "__WIN__" (Op "" [])] ++
   when [(true, "!defined(__WIN__)")]
    [constant "STDCALL" (Op "" [])] ++
   when [(false, "!defined(__WIN__)")]
    [constant "STDCALL" (var "__stdcall")] ++
   when [(false, "defined(my_socket_defined)"); (true, "defined(__WIN__)")]
    [constant "my_socket" (var "SOCKET")])%list.

(** mysql.h, lines 80 to 91. *)
Definition macros_mysql_CLIENT_NET_READ_TIMEOUT : list guarded_macro :=
  (when []
    [constant "CLIENT_NET_READ_TIMEOUT" (Op "*" [Op "*" [Lit "365"; Lit "24"]; Lit "3600"]);
     constant "CLIENT_NET_WRITE_TIMEOUT" (Op "*" [Op "*" [Lit "365"; Lit "24"]; Lit "3600"]);
     define "IS_PRI_KEY" ["n"] (Op "&" [var "n"; var "PRI_KEY_FLAG"]);
     define "IS_NOT_NULL" ["n"] (Op "&" [var "n"; var "NOT_NULL_FLAG"]);
     define "IS_BLOB" ["n"] (Op "&" [var "n"; var "BLOB_FLAG"]);
     define "IS_NUM" ["t"] (Op "||" [Op "||" [Op "&&" [Op "<=" [var "t"; var "MYSQL_TYPE_INT24"]; Op "!=" [var
       "t"; var "MYSQL_TYPE_TIMESTAMP"]]; Op "==" [var "t"; var "MYSQL_TYPE_YEAR"]]; Op "==" [var "t"; var
       "MYSQL_TYPE_NEWDECIMAL"]]);
     define "IS_LONGDATA" ["t"] (Op "&&" [Op ">=" [var "t"; var "MYSQL_TYPE_TINY_BLOB"]; Op "<=" [var "t"; var
       "MYSQL_TYPE_STRING"]])])%list.

(** mysql.h, lines 133 to 136. *)
Definition macros_mysql_MYSQL_COUNT_ERROR : list guarded_macro :=
  (when []
    [constant "MYSQL_COUNT_ERROR" (Op "~" [Op "(my_ulonglong)" [Lit "0"]]);
     constant "ER_WARN_DATA_TRUNCATED" (var "WARN_DATA_TRUNCATED")])%list.

(** mysql.h, lines 306 to 306. *)
Definition macros_mysql_MYSQL_CLIENT : list guarded_macro :=
  (when [(true, "!defined(MYSQL_SERVER) && !defined(MYSQL_CLIENT)")]
    [constant "MYSQL_CLIENT" (Op "" [])])%list.

(** mysql.h, lines 318 to 319. *)
Definition macros_mysql_max_allowed_packet : list guarded_macro :=
  (when [(true, "!defined(MYSQL_SERVER) && !defined(EMBEDDED_LIBRARY)")]
    [constant "max_allowed_packet" (Op "*" [Op "->p_max_allowed_packet" [call "mysql_get_parameters" []]]);
     constant "net_buffer_length" (Op "*" [Op "->p_net_buffer_length" [call "mysql_get_parameters" []]])])%list.

(** mysql.h, lines 339 to 340. *)
Definition macros_mysql_mysql_library_init : list guarded_macro :=
  (when []
    [constant "mysql_library_init" (var "mysql_server_init");
     constant "mysql_library_end" (var "mysql_server_end")])%list.

(** mysql.h, lines 407 to 407. *)
Definition macros_mysql_LOCAL_INFILE_ERROR_LEN : list guarded_macro :=
  (when []
    [constant "LOCAL_INFILE_ERROR_LEN" (Lit "512")])%list.

(** mysql.h, lines 698 to 701. *)
Definition macros_mysql_MYSQL_NO_DATA : list guarded_macro :=
  (when []
    [constant "MYSQL_NO_DATA" (Lit "100");
     constant "MYSQL_DATA_TRUNCATED" (Lit "101");
     define "mysql_reload" ["mysql"] (call "mysql_refresh" [var "mysql"; var "REFRESH_GRANT"])])%list.

(** mysql.h, lines 709 to 709. *)
Definition macros_mysql_HAVE_MYSQL_REAL_CONNECT : list guarded_macro :=
  (when []
    [constant "HAVE_MYSQL_REAL_CONNECT" (Op "" [])])%list.

Definition macros_of_mysql : list guarded_macro :=
  (macros_mysql___WIN__ ++ macros_mysql_CLIENT_NET_READ_TIMEOUT ++ macros_mysql_MYSQL_COUNT_ERROR ++
   macros_mysql_MYSQL_CLIENT ++ macros_mysql_max_allowed_packet ++ macros_mysql_mysql_library_init ++
   macros_mysql_LOCAL_INFILE_ERROR_LEN ++ macros_mysql_MYSQL_NO_DATA ++ macros_mysql_HAVE_MYSQL_REAL_CONNECT)%list.

(** errmsg.h, lines 32 to 105. *)
Definition macros_errmsg_CR_MIN_ERROR : list guarded_macro :=
  (when []
    [constant "CR_MIN_ERROR" (Lit "2000");
     constant "CR_MAX_ERROR" (Lit "2999")] ++
   when [(true, "!defined(ER)")]
    [define "ER" ["X"] (Op "[]" [var "client_errors"; Op "-" [var "X"; var "CR_MIN_ERROR"]])] ++
   when []
    [constant "CLIENT_ERRMAP" (Lit "2");
     constant "CR_ERROR_FIRST" (Lit "2000");
     constant "CR_UNKNOWN_ERROR" (Lit "2000");
     constant "CR_SOCKET_CREATE_ERROR" (Lit "2001");
     constant "CR_CONNECTION_ERROR" (Lit "2002");
     constant "CR_CONN_HOST_ERROR" (Lit "2003");
     constant "CR_IPSOCK_ERROR" (Lit "2004");
     constant "CR_UNKNOWN_HOST" (Lit "2005");
     constant "CR_SERVER_GONE_ERROR" (Lit "2006");
     constant "CR_VERSION_ERROR" (Lit "2007");
     constant "CR_OUT_OF_MEMORY" (Lit "2008");
     constant "CR_WRONG_HOST_INFO" (Lit "2009");
     constant "CR_LOCALHOST_CONNECTION" (Lit "2010");
     constant "CR_TCP_CONNECTION" (Lit "2011");
     constant "CR_SERVER_HANDSHAKE_ERR" (Lit "2012");
     constant "CR_SERVER_LOST" (Lit "2013");
     constant "CR_COMMANDS_OUT_OF_SYNC" (Lit "2014");
     constant "CR_NAMEDPIPE_CONNECTION" (Lit "2015");
     constant "CR_NAMEDPIPEWAIT_ERROR" (Lit "2016");
     constant "CR_NAMEDPIPEOPEN_ERROR" (Lit "2017");
     constant "CR_NAMEDPIPESETSTATE_ERROR" (Lit "2018");
     constant "CR_CANT_READ_CHARSET" (Lit "2019");
     constant "CR_NET_PACKET_TOO_LARGE" (Lit "2020");
     constant "CR_EMBEDDED_CONNECTION" (Lit "2021");
     constant "CR_PROBE_SLAVE_STATUS" (Lit "2022");
     constant "CR_PROBE_SLAVE_HOSTS" (Lit "2023");
     constant "CR_PROBE_SLAVE_CONNECT" (Lit "2024");
     constant "CR_PROBE_MASTER_CONNECT" (Lit "2025");
     constant "CR_SSL_CONNECTION_ERROR" (Lit "2026");
     constant "CR_MALFORMED_PACKET" (Lit "2027");
     constant "CR_WRONG_LICENSE" (Lit "2028");
     constant "CR_NULL_POINTER" (Lit "2029");
     constant "CR_NO_PREPARE_STMT" (Lit "2030");
     constant "CR_PARAMS_NOT_BOUND" (Lit "2031");
     constant "CR_DATA_TRUNCATED" (Lit "2032");
     constant "CR_NO_PARAMETERS_EXISTS" (Lit "2033");
     constant "CR_INVALID_PARAMETER_NO" (Lit "2034");
     constant "CR_INVALID_BUFFER_USE" (Lit "2035");
     constant "CR_UNSUPPORTED_PARAM_TYPE" (Lit "2036");
     constant "CR_SHARED_MEMORY_CONNECTION" (Lit "2037");
     constant "CR_SHARED_MEMORY_CONNECT_REQUEST_ERROR" (Lit "2038");
     constant "CR_SHARED_MEMORY_CONNECT_ANSWER_ERROR" (Lit "2039");
     constant "CR_SHARED_MEMORY_CONNECT_FILE_MAP_ERROR" (Lit "2040");
     constant "CR_SHARED_MEMORY_CONNECT_MAP_ERROR" (Lit "2041");
     constant "CR_SHARED_MEMORY_FILE_MAP_ERROR" (Lit "2042");
     constant "CR_SHARED_MEMORY_MAP_ERROR" (Lit "2043");
     constant "CR_SHARED_MEMORY_EVENT_ERROR" (Lit "2044");
     constant "CR_SHARED_MEMORY_CONNECT_ABANDONED_ERROR" (Lit "2045");
     constant "CR_SHARED_MEMORY_CONNECT_SET_ERROR" (Lit "2046");
     constant "CR_CONN_UNKNOW_PROTOCOL" (Lit "2047");
     constant "CR_INVALID_CONN_HANDLE" (Lit "2048");
     constant "CR_SECURE_AUTH" (Lit "2049");
     constant "CR_FETCH_CANCELED" (Lit "2050");
     constant "CR_NO_DATA" (Lit "2051");
     constant "CR_NO_STMT_METADATA" (Lit "2052");
     constant "CR_NO_RESULT_SET" (Lit "2053");
     constant "CR_NOT_IMPLEMENTED" (Lit "2054");
     constant "CR_SERVER_LOST_EXTENDED" (Lit "2055");
     constant "CR_STMT_CLOSED" (Lit "2056");
     constant "CR_NEW_STMT_METADATA" (Lit "2057");
     constant "CR_ALREADY_CONNECTED" (Lit "2058");
     constant "CR_AUTH_PLUGIN_CANNOT_LOAD" (Lit "2059");
     constant "CR_ERROR_LAST" (Lit "2059")])%list.

Definition macros_of_errmsg : list guarded_macro :=
  (macros_errmsg_CR_MIN_ERROR)%list.

(** sql_common.h, lines 67 to 72. *)
Definition macros_sql_common_simple_command : list guarded_macro :=
  (when []
    [define "simple_command" ["mysql"; "command"; "arg"; "length"; "skip_check"] (Op "()" [Op "*" [Op
       "->advanced_command" [Op "->methods" [var "mysql"]]]; var "mysql"; var "command"; Lit "0"; Lit "0"; var
       "arg"; var "length"; var "skip_check"; var "NULL"]);
     define "stmt_command" ["mysql"; "command"; "arg"; "length"; "stmt"] (Op "()" [Op "*" [Op "->advanced_command"
       [Op "->methods" [var "mysql"]]]; var "mysql"; var "command"; Lit "0"; Lit "0"; var "arg"; var "length"; Lit
       "1"; var "stmt"])])%list.

(** sql_common.h, lines 111 to 111. *)
Definition macros_sql_common_protocol_41 : list guarded_macro :=
  (when []
    [define "protocol_41" ["A"] (Op "&" [Op "->server_capabilities" [var "A"]; var "CLIENT_PROTOCOL_41"])])%list.

Definition macros_of_sql_common : list guarded_macro :=
  (macros_sql_common_simple_command ++ macros_sql_common_protocol_41)%list.

(** typelib.h, lines 32 to 40. *)
Definition macros_typelib_FIND_TYPE_BASIC : list guarded_macro :=
  (when []
    [constant "FIND_TYPE_BASIC" (Lit "0");
     constant "FIND_TYPE_NO_PREFIX" (Op "<<" [Lit "1"; Lit "0"]);
     constant "FIND_TYPE_NO_OVERWRITE" (Op "<<" [Lit "1"; Lit "1"]);
     constant "FIND_TYPE_ALLOW_NUMBER" (Op "<<" [Lit "1"; Lit "2"]);
     constant "FIND_TYPE_COMMA_TERM" (Op "<<" [Lit "1"; Lit "3"])])%list.

Definition macros_of_typelib : list guarded_macro :=
  (macros_typelib_FIND_TYPE_BASIC)%list.

(** mysql/service_thd_alloc.h, lines 57 to 71. *)
Definition macros_service_thd_alloc_thd_alloc : list guarded_macro :=
  (when [(true, "defined(MYSQL_DYNAMIC_PLUGIN)")]
    [define "thd_alloc" ["thd"; "size"] (Op "()" [Op "->thd_alloc_func" [var "thd_alloc_service"]; var "thd"; var
       "size"]);
     define "thd_calloc" ["thd"; "size"] (Op "()" [Op "->thd_calloc_func" [var "thd_alloc_service"]; var "thd";
       var "size"]);
     define "thd_strdup" ["thd"; "str"] (Op "()" [Op "->thd_strdup_func" [var "thd_alloc_service"]; var "thd"; var
       "str"]);
     define "thd_strmake" ["thd"; "str"; "size"] (Op "()" [Op "->thd_strmake_func" [var "thd_alloc_service"]; var
       "thd"; var "str"; var "size"]);
     define "thd_memdup" ["thd"; "str"; "size"] (Op "()" [Op "->thd_memdup_func" [var "thd_alloc_service"]; var
       "thd"; var "str"; var "size"]);
     define "thd_make_lex_string" ["thd"; "lex_str"; "str"; "size"; "allocate_lex_string"] (Op "()" [Op
       "->thd_make_lex_string_func" [var "thd_alloc_service"]; var "thd"; var "lex_str"; var "str"; var "size"; var
       "allocate_lex_string"])])%list.

Definition macros_of_service_thd_alloc : list guarded_macro :=
  (macros_service_thd_alloc_thd_alloc)%list.

(** mysql/service_my_snprintf.h, lines 85 to 86. *)
Definition macros_service_my_snprintf_my_vsnprintf : list guarded_macro :=
  (when [(true, "defined(MYSQL_DYNAMIC_PLUGIN)")]
    [constant "my_vsnprintf" (Op "->my_vsnprintf_type" [var "my_snprintf_service"]);
     constant "my_snprintf" (Op "->my_snprintf_type" [var "my_snprintf_service"])])%list.

Definition macros_of_service_my_snprintf : list guarded_macro :=
  (macros_service_my_snprintf_my_vsnprintf)%list.
