(* ===== verification/MacroCalls.v ===== *)
(** * What the macros call

    The macros of the headers, the number of arguments of everything they call, and that their expansion fits:
    in every configuration it ends, with each call passing as many arguments as are expected. *)
From Stdlib Require Import Ascii.
From stdpp Require Import strings.
From S2P Require Import Prelude FunctionTypes DeclaredFunctions InlineFunctions MacroExpansion MacrosGlobal MacrosThreads MacrosLibrary.

Definition header_macros : list guarded_macro :=
  (macros_of_my_global ++ macros_of_my_pthread ++ macros_of_mysql_thread ++ macros_of_mysql_file ++
   macros_of_service_thd_wait ++ macros_of_service_thread_scheduler ++ macros_of_my_sys ++ macros_of_m_string ++
   macros_of_m_ctype ++ macros_of_my_dbug ++ macros_of_my_list ++ macros_of_my_dir ++ macros_of_my_alloc ++
   macros_of_keycache ++ macros_of_my_getopt ++ macros_of_decimal ++ macros_of_mysql_com ++ macros_of_mysql ++
   macros_of_errmsg ++ macros_of_sql_common ++ macros_of_service_thd_alloc ++
   macros_of_service_my_snprintf)%list.

(** ** Tables of numbers of arguments *)

(** A table by the characters of the names. *)
Unset Elimination Schemes.
Inductive trie := Node (here : option arity) (below : list (Ascii.ascii * trie)).
Set Elimination Schemes.
Fixpoint trie_find (s : string) (t : trie) : option arity :=
  let '(Node here below) := t in
  match s with
  | EmptyString => here
  | String c s => (fix go b := match b with [] => None | (d, t) :: b => if Ascii.eqb c d then trie_find s t else go b end) below
  end.
Fixpoint singleton (s : string) (a : arity) : trie :=
  match s with EmptyString => Node (Some a) [] | String c s => Node None [(c, singleton s a)] end.
Fixpoint trie_add (s : string) (a : arity) (t : trie) : trie :=
  let '(Node here below) := t in
  match s with
  | EmptyString => Node (Some a) below
  | String c s =>
    Node here ((fix go b := match b with
                            | [] => [(c, singleton s a)]
                            | (d, t) :: b => if Ascii.eqb c d then (d, trie_add s a t) :: b else (d, t) :: go b
                            end) below)
  end.
(** The first of the entries of a name counts. *)
Definition trie_of (l : list (string * arity)) : trie := foldr (fun p => trie_add p.1 p.2) (Node None []) l.

(** The number of arguments that a declaration allows. *)
Definition declared_arity (d : declaration) : list (string * arity) :=
  let fix last ps := match ps with NoMore => Exactly | Variadic => AtLeast | Unspecified => fun _ => AtLeast 0 | Param _ ps => last ps end in
  match type d with
  | Function _ ps => [(name d, last ps (count ps))]
  | _ => []
  end.

Definition macro_arity (m : macro_definition) : list (string * arity) :=
  match mparameters m with Some ps => [(mname m, Exactly (length ps))] | None => [] end.

(** An inline function, in the configuration [v]. *)
Definition inline_arity (v : string -> bool) (f : string * list parameter) : string * arity :=
  let ps := List.filter (fun p => forallb (fun c => Bool.eqb c.1 (v c.2)) (when_declared p)) f.2 in
  let named := List.filter (fun p => negb (String.eqb (parameter_name p) "...")) ps in
  (f.1, if (length named =? length ps)%nat then Exactly (length ps) else AtLeast (length named)).

(** The functions of the C library, of POSIX and other threads, of Windows, of the compilers and of
    Valgrind that the macros call. *)
Definition system_functions : list (string * arity) :=
  (map (fun f => (f, Exactly 0))
     ["GetCurrentThreadId"; "TlsAlloc"; "SwitchToThread"; "sched_yield"; "pthread_yield_np"; "thr_yield"; "getpagesize";
      "abort"; "__builtin_unreachable"; "GetLastError"; "WSAGetLastError"] ++
   map (fun f => (f, Exactly 1))
     ["Sleep"; "close"; "fabs"; "isinf"; "GetSystemTimeAsFileTime"; "time"; "TlsFree"; "TlsGetValue";
      "InitializeCriticalSection"; "EnterCriticalSection"; "LeaveCriticalSection"; "DeleteCriticalSection"; "pthread_detach";
      "sigemptyset"; "pthread_attr_create"; "pthread_rwlock_rdlock"; "pthread_rwlock_wrlock"; "pthread_rwlock_tryrdlock";
      "pthread_rwlock_trywrlock"; "pthread_rwlock_unlock"; "pthread_rwlock_destroy"; "InterlockedIncrement";
      "InterlockedDecrement"; "setjmp"; "assert"; "_exit"; "FreeLibrary"; "strlen";
      "alloca"; "_alloca"; "__builtin_alloca"; "__declspec"; "pthread_condattr_create"; "pthread_condattr_delete"] ++
   map (fun f => (f, Exactly 2))
     ["strtok"; "gettimeofday"; "pthread_keycreate"; "TlsSetValue"; "signal"; "sigset"; "pthread_once"; "pthread_rwlock_init";
      "InterlockedExchangeAdd"; "VALGRIND_MAKE_MEM_UNDEFINED"; "VALGRIND_MAKE_MEM_NOACCESS";
      "VALGRIND_CHECK_MEM_IS_ADDRESSABLE"; "VALGRIND_CHECK_MEM_IS_DEFINED"; "munmap"; "__builtin_stpcpy"; "longjmp";
      "_CrtSetReportMode"; "_CrtSetReportFile"; "GetProcAddress"; "strchr"; "access"] ++
   map (fun f => (f, Exactly 3))
     ["LoadLibraryEx"; "sigaction"; "sigprocmask"; "sigthreadmask"; "rwlock_init"; "bcopy"; "memcpy"] ++
   map (fun f => (f, Exactly 6)) ["mmap64"; "mmap"] ++
   [("FormatMessage", Exactly 7)])%list.

Definition all_macros : list macro_definition := map macro header_macros.

(** The functions that the headers define, but those whose parameters depend on the configuration. *)
Definition defined_functions : list (string * arity) :=
  [("my_ulonglong2double", Exactly 1); ("my_double2ulonglong", Exactly 1); ("safe_strdup_root", Exactly 2)].

Definition fixed_arities : list (string * arity) :=
  (flat_map macro_arity all_macros ++ flat_map (fun h => flat_map declared_arity h.2) declared_functions ++
   defined_functions ++ system_functions)%list.
Definition fixed_table : trie := Eval vm_compute in trie_of fixed_arities.

Definition inline_functions : list (string * list parameter) :=
  (inline_functions_of_mysql_thread ++ inline_functions_of_mysql_file)%list.

(** Macros without parameters that are other names of functions: the number of arguments of the function. *)
Definition other_names : list (string * string) :=
  flat_map (fun m => match m with {| mname := n; mparameters := None; replacement := Var _ g |} => [(n, g)] | _ => [] end)
           all_macros.

Definition function_arity (v : string -> bool) (f : string) : option arity :=
  match trie_find f fixed_table with
  | Some a => Some a
  | None => (fun g => (inline_arity v g).2) <$> find (fun g => String.eqb f g.1) inline_functions
  end.
Definition function_names : list (string * string) :=
  Eval vm_compute in List.filter (fun p => bool_decide (is_Some (function_arity (fun _ => true) p.2))) other_names.
Definition arities (v : string -> bool) (f : string) : option arity :=
  match function_arity v f with
  | Some a => Some a
  | None => match find (fun p => String.eqb f p.1) function_names with Some (_, g) => function_arity v g | None => None end
  end.

(** Macros that do not fit: longjmp has two arguments in the headers of C, what bool stands for is there to be
    an error, and sigwait is renamed only while a header of the system is read. *)
Definition misfit (m : macro_definition) : bool :=
  match m with
  | {| mname := n; mparameters := Some [_] |} => String.eqb n "DBUG_LONGJMP"
  | {| mname := n; mparameters := None |} => String.eqb n "bool" || String.eqb n "sigwait"
  | _ => false
  end.

(** ** Configurations

    The parameters of the inline functions depend on three conditionals. *)
Definition psi_on : string := "defined(HAVE_PSI_INTERFACE)".
Definition safe_on : string := "defined(SAFE_MUTEX)".
Definition place_on : string := "defined(SAFE_MUTEX) || defined(HAVE_PSI_INTERFACE)".
Definition configuration (psi safe place : bool) (c : string) : bool :=
  if String.eqb c psi_on then psi else if String.eqb c safe_on then safe else if String.eqb c place_on then place else false.
Definition relevant (c : string) : bool := existsb (String.eqb c) [psi_on; safe_on; place_on].

(** The configuration of three outcomes that those of [v] are. *)
Definition restrict (v : string -> bool) : string -> bool := configuration (v psi_on) (v safe_on) (v place_on).

Lemma restrict_eq (v : string -> bool) (c : string) : relevant c = true -> restrict v c = v c.
Proof.
  unfold relevant, restrict, configuration. cbn [existsb]. rewrite !orb_true_iff.
  intros [E|[E|[E|?]]]; [apply String.eqb_eq in E as ->; reflexivity..|done].
Qed.

Lemma forallb_ext_in {A} (p q : A -> bool) (xs : list A) :
  (forall x, In x xs -> p x = q x) -> forallb p xs = forallb q xs.
Proof. induction xs as [|x xs IH]; intros H; [done|]. cbn. rewrite H, IH; [done| |by left]. intros y Hy. apply H. by right. Qed.

Lemma inline_functions_relevant :
  forallb (fun f => forallb (fun p => forallb (fun c => relevant c.2) (when_declared p)) f.2) inline_functions = true.
Proof. by vm_compute. Qed.

Lemma inline_arity_restrict (v : string -> bool) (f : string * list parameter) :
  In f inline_functions -> inline_arity v f = inline_arity (restrict v) f.
Proof.
  intros Hf. pose proof inline_functions_relevant as H. rewrite forallb_forall in H. specialize (H f Hf).
  unfold inline_arity. rewrite (List.filter_ext_in (fun p => forallb (fun c => Bool.eqb c.1 (v c.2)) (when_declared p))
    (fun p => forallb (fun c => Bool.eqb c.1 (restrict v c.2)) (when_declared p))); [reflexivity|].
  intros p Hp. rewrite forallb_forall in H. specialize (H p Hp). apply forallb_ext_in. intros c Hc.
  rewrite forallb_forall in H. by rewrite (restrict_eq v c.2 (H c Hc)).
Qed.

Lemma arities_restrict (v : string -> bool) (f : string) : arities v f = arities (restrict v) f.
Proof.
  assert (H : forall g, function_arity v g = function_arity (restrict v) g).
  { intros g. unfold function_arity. destruct (trie_find g fixed_table); [done|].
    destruct (find _ inline_functions) as [h|] eqn:E; [|done]. apply find_some in E as [Hin _].
    change (Some (inline_arity v h).2 = Some (inline_arity (restrict v) h).2). by rewrite (inline_arity_restrict v h Hin). }
  unfold arities. rewrite H. destruct (function_arity _ f); [done|]. by destruct (find _ function_names) as [[? ?]|].
Qed.

#[local] Opaque arities.

Lemma macro_ok_restrict (v : string -> bool) (m : macro_definition) :
  macro_ok (arities v) m = macro_ok (arities (restrict v)) m.
Proof.
  assert (H : forall t, well_formed (arities v) t = well_formed (arities (restrict v)) t).
  { induction t as [p x|s|s|p f ts IH|o ts IH|o ts IH] using term_nested_ind; cbn [well_formed]; [done..| | |];
      rewrite Forall_forall in IH; [rewrite (arities_restrict v f); f_equal|..];
      apply forallb_ext_in; intros t Ht; by apply IH, list_elem_of_In. }
  unfold macro_ok. destruct (mparameters m); [by rewrite H, (arities_restrict v)|].
  destruct (replacement m) as [q x|s|s|q f ts|o ts|o ts]; [|apply H..].
  by rewrite (arities_restrict v x), (arities_restrict v (mname m)).
Qed.

(** Every macro fits in each configuration that has it. *)
Definition possible (v : string -> bool) (g : guarded_macro) : bool :=
  forallb (fun c => negb (relevant c.2) || Bool.eqb c.1 (v c.2)) (guards g).
Definition all_fit (v : string -> bool) : bool :=
  forallb (fun g => negb (possible v g) || misfit (macro g) || macro_ok (arities v) (macro g)) header_macros.

Lemma all_fit_everywhere (psi safe place : bool) : all_fit (configuration psi safe place) = true.
Proof. destruct psi, safe, place; by vm_compute. Qed.

#[local] Opaque header_macros.

Lemma in_force_ok (v : string -> bool) (m : macro_definition) :
  In m (in_force v header_macros) -> misfit m = false -> macro_ok (arities v) m = true.
Proof.
  unfold in_force. intros Hm Hmis. apply in_map_iff in Hm as (g & <- & Hg). apply filter_In in Hg as [Hg Hv].
  pose proof (all_fit_everywhere (v psi_on) (v safe_on) (v place_on)) as H. fold (restrict v) in H.
  unfold all_fit in H. rewrite forallb_forall in H. specialize (H g Hg). rewrite Hmis, orb_false_r, <- macro_ok_restrict in H.
  apply orb_true_iff in H as [H|H]; [|done]. exfalso. apply negb_true_iff in H. apply not_true_iff_false in H. apply H.
  unfold possible. apply forallb_forall. intros c Hc. rewrite forallb_forall in Hv. specialize (Hv c Hc).
  destruct (relevant c.2) eqn:Er; [|done]. by rewrite (restrict_eq v _ Er).
Qed.

(** ** Expansion fits *)

(** C36.  In every configuration, the expansion of a call of the macros of the headers ends: for some
    number of steps on, it gives a term in which nothing is left to replace and every call has as many arguments
    as the function it calls takes.  Nested calls and recursive definitions are included, and any part of the
    macros of the configuration, as some are undefined again.  The exception are the misfits. *)
Theorem expansion_fits (v : string -> bool) (ms : list macro_definition) (t : term)
  (Hms : forall m, In m ms -> In m (in_force v header_macros) /\ misfit m = false)
  (Ht : well_formed (arities v) t = true) :
  exists t' n, (forall fuel, (n <= fuel)%nat -> expand ms fuel [] t = Done t') /\
               well_formed (arities v) t' = true /\ replaced ms t' = true.
Proof.
  apply expand_sound; [|done]. apply forallb_forall. intros m Hm. destruct (Hms m Hm). by apply in_force_ok.
Qed.

(** What a program gets that uses all of them. *)
Definition usable (v : string -> bool) : list macro_definition :=
  List.filter (fun m => negb (misfit m)) (in_force v header_macros).

Lemma expansion_fits_witness :
  let v := configuration true false true in
  let t := call "mysql_mutex_lock" [call "my_b_tell" [var "cache"]] in
  well_formed (arities v) t = true /\
  exists t' n, (forall fuel, (n <= fuel)%nat -> expand (usable v) fuel [] t = Done t') /\
               well_formed (arities v) t' = true /\ replaced (usable v) t' = true.
Proof.
  split; [by vm_compute|]. apply (expansion_fits (configuration true false true)); [|by vm_compute].
  intros m Hm. apply filter_In in Hm as [Hm Hmis]. split; [done|by apply negb_true_iff].
Defined.
