(* ===== verification/MacroUses.v ===== *)
(** * What expansions come to

    The memory functions of m_string.h, which stand in for each other in some configurations, and the debug
    package of a release build. *)
From stdpp Require Import strings.
From S2P Require Import Prelude MacroExpansion MacrosLibrary.

(** ** Copies and fills

    What a call of a memory function asks for; bcopy has the source first, and bfill the length before the byte. *)
Inductive request := Copy (dst src len : term) | Fill (dst len byte : term).
Definition request_of (t : term) : option request :=
  match t with
  | Call _ f [a; b; c] =>
    if existsb (String.eqb f) ["memcpy"; "memmove"; "bmove"] then Some (Copy a b c)
    else if String.eqb f "bcopy" then Some (Copy b a c)
    else if String.eqb f "memset" then Some (Fill a c b)
    else if String.eqb f "bfill" then Some (Fill a b c)
    else None
  | Call _ f [a; b] => if String.eqb f "bzero" then Some (Fill a b (Lit "0")) else None
  | _ => None
  end.
Definition memory_calls : list term :=
  (map (fun f => call f [var "x"; var "y"; var "z"]) ["memcpy"; "memmove"; "bmove"; "bcopy"; "memset"; "bfill"] ++
   [call "bzero" [var "x"; var "y"]])%list.

(** The outcomes of some conditionals. *)
Definition outcomes (l : list (string * bool)) (c : string) : bool :=
  from_option snd false (find (fun p => String.eqb c p.1) l).
Definition memory_conditions : list string :=
  ["defined(__USE_GNU)"; "!defined(HAVE_MEMCPY) && !defined(HAVE_MEMMOVE)"; "defined(HAVE_MEMMOVE)"; "!defined(HAVE_BFILL)";
   "!defined(bzero) && (!defined(HAVE_BZERO) || !HAVE_DECL_BZERO || defined(_AIX))"].

Lemma in_force_outcomes (cs : list string) (v : string -> bool) (gs : list guarded_macro) :
  forallb (fun g => forallb (fun c => existsb (String.eqb c.2) cs) (guards g)) gs = true ->
  in_force v gs = in_force (outcomes (map (fun c => (c, v c)) cs)) gs.
Proof.
  intros Hcs. unfold in_force. f_equal. apply List.filter_ext_in. intros g Hg. rewrite forallb_forall in Hcs.
  specialize (Hcs g Hg). induction (guards g) as [|[b c] l IH]; [done|]. cbn in Hcs |- *.
  apply andb_true_iff in Hcs as [Hc Hcs]. rewrite (IH Hcs). f_equal. f_equal. unfold outcomes.
  clear -Hc. induction cs as [|d cs IH]; [done|]. cbn in Hc |- *. destruct (String.eqb c d) eqn:E; [|by apply IH].
  by apply String.eqb_eq in E as ->.
Qed.

(** In every configuration a call of memcpy, memmove, bmove, bcopy, memset, bfill or
    bzero expands to a call that asks for the same copy or the same fill, with the arguments in the order of the
    function called, although memset and bfill may stand for each other. *)
Theorem memory_requests_kept (v : string -> bool) (t : term) (Ht : In t memory_calls) :
  exists t', expand (in_force v macros_m_string___USE_GNU) 8 [] t = Done t' /\ request_of t' = request_of t.
Proof.
  rewrite (in_force_outcomes memory_conditions) by reflexivity. cbn [map memory_conditions].
  repeat match goal with |- context [v ?c] => destruct (v c) end;
    repeat (destruct Ht as [<-|Ht]; [eexists; split; vm_compute; reflexivity|]); done.
Qed.

Lemma memory_requests_kept_witness :
  exists t', expand (in_force (fun _ => true) macros_m_string___USE_GNU) 8 [] (call "memset" [var "x"; var "y"; var "z"]) = Done t' /\
             request_of t' = Some (Fill (var "x") (var "z") (var "y")).
Proof. apply (memory_requests_kept (fun _ => true)). do 4 right. by left. Defined.

(** ** The debug package *)

Fixpoint calls_of (t : term) : list string :=
  match t with
  | Call _ f ts => f :: flat_map calls_of ts
  | Op _ ts | Verbatim _ ts => flat_map calls_of ts
  | _ => []
  end.

(** The macros of my_dbug.h with and without the debug package. *)
Definition debug_macros (enabled : bool) : list macro_definition :=
  map macro (List.filter (fun g => existsb (fun c => Bool.eqb enabled c.1 && String.eqb c.2 "!defined(DBUG_OFF) && !defined(_lint)")
                                           (guards g)) macros_of_my_dbug).
Definition used_as (m : macro_definition) : string * option nat := (mname m, length <$> mparameters m).

(** The macros that can only be used with the debug package. *)
Definition debug_only : list (string * option nat) := [("DBUG_LONGJMP", Some 2%nat); ("DBUG_CHECK_CRASH", Some 2%nat)].

(** Without the debug package nothing of it is called, and a program that uses its macros compiles all the same:
    each is there, with as many parameters, but for DBUG_LONGJMP and DBUG_CHECK_CRASH. *)
Lemma release_build :
  (forall m f, In m (debug_macros false) -> In f (calls_of (replacement m)) -> String.prefix "_db_" f = false) /\
  (forall m, In m (debug_macros true) -> ~ In (used_as m) debug_only -> In (used_as m) (map used_as (debug_macros false))).
Proof.
  split.
  - assert (H : forallb (fun m => forallb (fun f => negb (String.prefix "_db_" f)) (calls_of (replacement m))) (debug_macros false) = true)
      by (by vm_compute).
    intros m f Hm Hf. rewrite forallb_forall in H. specialize (H m Hm). rewrite forallb_forall in H. by apply negb_true_iff, H.
  - assert (H : forallb (fun m => bool_decide (used_as m ∈ debug_only) || bool_decide (used_as m ∈ map used_as (debug_macros false)))
                        (debug_macros true) = true) by (by vm_compute).
    intros m Hm Ho. rewrite forallb_forall in H. specialize (H m Hm). rewrite orb_true_iff, !bool_decide_eq_true, !list_elem_of_In in H.
    by destruct H.
Qed.

(** ** Memory

    The allocator a call asks for memory, and the one a call gives it back to; what alloca gives is released by the
    return of the function, so nothing is to be done. *)
Inductive allocator := Heap | Locked | Large | Stack.
#[export] Instance allocator_eq_dec : EqDecision allocator.
Proof. solve_decision. Defined.
Definition acquired_from (t : term) : option allocator :=
  match t with
  | Call _ f _ =>
    if String.eqb f "my_malloc" then Some Heap else if String.eqb f "my_malloc_lock" then Some Locked
    else if String.eqb f "my_large_malloc" then Some Large
    else if existsb (String.eqb f) ["alloca"; "_alloca"; "__builtin_alloca"] then Some Stack else None
  | _ => None
  end.
Definition released_to (t : term) : option allocator :=
  match t with
  | Call _ f _ =>
    if String.eqb f "my_free" then Some Heap else if String.eqb f "my_free_lock" then Some Locked
    else if String.eqb f "my_large_free" then Some Large else None
  | Op _ [] => Some Stack
  | _ => None
  end.

Definition allocation_pairs : list (term * term) :=
  [(call "my_alloca" [var "n"], call "my_afree" [var "p"]);
   (call "my_malloc_lock" [var "n"; var "flags"], call "my_free_lock" [var "p"]);
   (call "my_large_malloc" [var "n"; var "flags"], call "my_large_free" [var "p"])].
Definition allocation_macros : list guarded_macro := (macros_my_sys_my_get_large_page_size ++ macros_my_sys_my_malloc_lock)%list.
Definition allocation_conditions : list string :=
  ["defined(HAVE_LARGE_PAGES)"; "defined(HAVE_ALLOCA)"; "defined(__MWERKS__)";
   "defined(__GNUC__) && !defined(HAVE_ALLOCA_H) && ! defined(alloca)"; "defined(HAVE_MLOCK)"].

(** In every configuration, what is taken with my_alloca, my_malloc_lock or my_large_malloc is given back by
    my_afree, my_free_lock and my_large_free to the allocator it is from. *)
Theorem allocations_paired (v : string -> bool) (p : term * term) (Hp : In p allocation_pairs) :
  exists a t u, expand (in_force v allocation_macros) 10 [] p.1 = Done t /\ acquired_from t = Some a /\
                expand (in_force v allocation_macros) 10 [] p.2 = Done u /\ released_to u = Some a.
Proof.
  rewrite (in_force_outcomes allocation_conditions) by reflexivity. cbn [map allocation_conditions].
  repeat match goal with |- context [v ?c] => destruct (v c) end;
    repeat (destruct Hp as [<-|Hp]; [do 3 eexists; split_and!; vm_compute; reflexivity|]); done.
Qed.

Lemma allocations_paired_witness :
  exists a t u, expand (in_force (fun _ => false) allocation_macros) 10 [] (call "my_large_malloc" [var "n"; var "flags"]) = Done t /\
                acquired_from t = Some a /\
                expand (in_force (fun _ => false) allocation_macros) 10 [] (call "my_large_free" [var "p"]) = Done u /\ released_to u = Some a.
Proof.
  apply (allocations_paired (fun _ => false) (call "my_large_malloc" [var "n"; var "flags"], call "my_large_free" [var "p"])).
  right. right. by left.
Defined.
