(* ===== verification/DynamicArrays.v ===== *)
(** * Dynamic arrays (my_sys.h)

    The macros on DYNAMIC_ARRAY.  [init_dynamic_array2], [insert_dynamic] and [my_qsort] are not in the sources and
    are an interface with laws; on top of it the macros are proved to be a list, and the two ways to an element
    to agree up to the width of an unsigned int. *)
From stdpp Require Import sorting.
From S2P Require Import Prelude Mem.

(** ** The structure and its macros *)

Record DYNAMIC_ARRAY := { buffer : Z; elements : Z; max_element : Z; alloc_increment : Z; size_of_element : Z }.

(** An element is the bytes a pointer to it points to. *)
Abbreviation element := (list Z).
Abbreviation comparison := (element -> element -> Z).

(** The product of two unsigned int is an unsigned int. *)
Definition dynamic_array_ptr (array : DYNAMIC_ARRAY) (array_index : Z) : Z :=
  buffer array + u32 (array_index * size_of_element array).
(** [type] is a pointer to objects of [size] bytes, and the sum one of pointers. *)
Definition dynamic_element (array : DYNAMIC_ARRAY) (array_index size : Z) : Z := buffer array + array_index * size.
Definition reset_dynamic (array : DYNAMIC_ARRAY) : DYNAMIC_ARRAY :=
  {| buffer := buffer array; elements := 0; max_element := max_element array;
     alloc_increment := alloc_increment array; size_of_element := size_of_element array |}.

(** The functions of array.c and mf_qsort.c. *)
Class ArrayFunctions := {
  init_dynamic_array2 : Z -> Z -> Z -> Z -> mem -> option (Z * DYNAMIC_ARRAY * mem);
  insert_dynamic : DYNAMIC_ARRAY -> element -> mem -> option (Z * DYNAMIC_ARRAY * mem);
  my_qsort : Z -> Z -> Z -> comparison -> mem -> option mem }.

Section Macros.
Context `{ArrayFunctions}.
Definition my_init_dynamic_array (B C D : Z) (m : mem) : option (Z * DYNAMIC_ARRAY * mem) := init_dynamic_array2 B 0 C D m.
Definition my_init_dynamic_array2 (B C D E : Z) (m : mem) : option (Z * DYNAMIC_ARRAY * mem) := init_dynamic_array2 B C D E m.
Definition push_dynamic (A : DYNAMIC_ARRAY) (B : element) (m : mem) : option (Z * DYNAMIC_ARRAY * mem) := insert_dynamic A B m.
Definition sort_dynamic (A : DYNAMIC_ARRAY) (cmp : comparison) (m : mem) : option mem :=
  my_qsort (buffer A) (elements A) (size_of_element A) cmp m.
End Macros.

(** ** What an array holds *)

Definition elem_ok (size : Z) (x : element) : Prop := Z.of_nat (length x) = size /\ Forall is_byte x.

Definition bytes_of (xs : list element) (size : Z) : nat := length xs * Z.to_nat size.
Record holds (a : DYNAMIC_ARRAY) (m : mem) (xs : list element) : Prop := {
  holds_size : 0 < size_of_element a;
  holds_elements : elements a = Z.of_nat (length xs) /\ elements a <= max_element a;
  holds_mapped : mapped m (buffer a) (max_element a * size_of_element a);
  holds_ok : Forall (elem_ok (size_of_element a)) xs;
  holds_bytes : load_bytes (bytes_of xs (size_of_element a)) m (buffer a) = Some (concat xs) }.

Definition below (cmp : comparison) (x y : element) : Prop := cmp x y <= 0.
(** A comparison that sorts: it decides between any two elements. *)
Definition compares (cmp : comparison) : Prop := forall x y, below cmp x y \/ below cmp y x.

(** The documented behaviour: an array begins empty, or there is no memory; an element is added after the others,
    or there is no memory; the elements are sorted. *)
Class ArrayLaws `{ArrayFunctions} := {
  init_dynamic_array2_spec : forall size init_alloc increment m, 0 < size -> 0 <= init_alloc ->
    exists r a m', init_dynamic_array2 size 0 init_alloc increment m = Some (r, a, m') /\
                   (r = 0 -> size_of_element a = size /\ holds a m' []);
  insert_dynamic_spec : forall a m xs x, holds a m xs -> elem_ok (size_of_element a) x ->
    exists r a' m', insert_dynamic a x m = Some (r, a', m') /\ size_of_element a' = size_of_element a /\
                    (r = 0 /\ holds a' m' (xs ++ [x])%list \/ r = 1 /\ holds a' m' xs);
  my_qsort_spec : forall a m xs cmp, holds a m xs -> compares cmp ->
    exists m' ys, my_qsort (buffer a) (elements a) (size_of_element a) cmp m = Some m' /\ holds a m' ys /\
                  Permutation ys xs /\ Sorted (below cmp) ys }.

(** ** Clients

    The operations a client does on one array, and what they do to a list. *)
Inductive array_op := PushDynamic (x : element) | ResetDynamic | SortDynamic.

Definition array_step `{ArrayFunctions} (cmp : comparison) (op : array_op) (a : DYNAMIC_ARRAY) (m : mem) : option (Z * DYNAMIC_ARRAY * mem) :=
  match op with
  | PushDynamic x => push_dynamic a x m
  | ResetDynamic => Some (0, reset_dynamic a, m)
  | SortDynamic => m ← sort_dynamic a cmp m; Some (0, a, m)
  end.
Fixpoint array_run `{ArrayFunctions} (cmp : comparison) (ops : list array_op) (a : DYNAMIC_ARRAY) (m : mem) : option (list Z * DYNAMIC_ARRAY * mem) :=
  match ops with
  | [] => Some ([], a, m)
  | op :: ops =>
    '(r, a, m) ← array_step cmp op a m; '(rs, a, m) ← array_run cmp ops a m; Some (r :: rs, a, m)
  end.

(** The specification: [r] is what the operation returns. *)
Inductive list_step (cmp : comparison) : array_op -> list element -> Z -> list element -> Prop :=
  | step_push x xs : list_step cmp (PushDynamic x) xs 0 (xs ++ [x])%list
  | step_full x xs : list_step cmp (PushDynamic x) xs 1 xs
  | step_reset xs : list_step cmp ResetDynamic xs 0 []
  | step_sort xs ys : Permutation ys xs -> Sorted (below cmp) ys -> list_step cmp SortDynamic xs 0 ys.
Inductive list_run (cmp : comparison) : list array_op -> list element -> list Z -> list element -> Prop :=
  | run_end xs : list_run cmp [] xs [] xs
  | run_step op ops xs r ys rs zs : list_step cmp op xs r ys -> list_run cmp ops ys rs zs -> list_run cmp (op :: ops) xs (r :: rs) zs.

Definition op_ok (size : Z) (op : array_op) : Prop := match op with PushDynamic x => elem_ok size x | _ => True end.

(** ** Lemmas *)

(** The bytes of several elements are the bytes of each. *)
Lemma load_element (size : Z) (xs : list element) (m : mem) (p : Z) (i : nat) (y : element) :
  0 < size -> Forall (elem_ok size) xs -> load_bytes (bytes_of xs size) m p = Some (concat xs) -> xs !! i = Some y ->
  load_bytes (Z.to_nat size) m (p + Z.of_nat i * size) = Some y.
Proof.
  intros Hs Hok. revert p i. induction Hok as [|x xs [Hx _] _ IH]; intros p i Hl Hi; [done|].
  unfold bytes_of in Hl. cbn [length concat] in Hl. rewrite Nat.mul_succ_l, Nat.add_comm, load_bytes_app in Hl.
  destruct (load_bytes (Z.to_nat size) m p) as [l|] eqn:E1; [|done]. cbn in Hl.
  destruct (load_bytes (length xs * Z.to_nat size) m (p + Z.of_nat (Z.to_nat size))) as [l'|] eqn:E2; [|done]. cbn in Hl.
  injection Hl as Hl. apply app_inj_1 in Hl as [-> ->]; [|rewrite (load_bytes_length _ _ _ _ E1); lia].
  destruct i as [|i].
  - injection Hi as <-. by rewrite Z.mul_0_l, Z.add_0_r.
  - rewrite Z2Nat.id in E2 by lia. specialize (IH _ _ E2 Hi).
    by replace (p + Z.of_nat (S i) * size) with (p + size + Z.of_nat i * size) by lia.
Qed.

Lemma concat_length (size : Z) (xs : list element) : Forall (elem_ok size) xs -> length (concat xs) = bytes_of xs size.
Proof. unfold bytes_of. induction 1 as [|x xs [Hx _] _ IH]; [done|]. cbn. rewrite length_app, IH. lia. Qed.

Lemma concat_bytes (size : Z) (xs : list element) : Forall (elem_ok size) xs -> Forall is_byte (concat xs).
Proof. induction 1 as [|x xs [_ Hx] _ IH]; [constructor|]. by apply Forall_app. Qed.

Lemma u8_bytes (l : list Z) : Forall is_byte l -> uwrap 8 <$> l = l.
Proof. induction 1 as [|b l Hb _ IH]; [done|]. cbn. by rewrite IH, u8_byte. Qed.

Lemma bytes_of_app (xs : list element) (x : element) (size : Z) : bytes_of (xs ++ [x]) size = (bytes_of xs size + Z.to_nat size)%nat.
Proof. unfold bytes_of. rewrite length_app. cbn. lia. Qed.

Lemma bytes_of_Z (xs : list element) (size : Z) : 0 < size -> Z.of_nat (bytes_of xs size) = Z.of_nat (length xs) * size.
Proof. unfold bytes_of. lia. Qed.

Lemma holds_reset (a : DYNAMIC_ARRAY) (m : mem) (xs : list element) : holds a m xs -> holds (reset_dynamic a) m [].
Proof. intros [Hs [He Hm] Hma _ _]. constructor; cbn; [done|split; [done|lia]|done|constructor|done]. Qed.

Lemma array_step_refines `{ArrayLaws} (cmp : comparison) (op : array_op) (a : DYNAMIC_ARRAY) (m : mem) (xs : list element) :
  holds a m xs -> compares cmp -> op_ok (size_of_element a) op ->
  exists r a' m' ys, array_step cmp op a m = Some (r, a', m') /\ size_of_element a' = size_of_element a /\
                     list_step cmp op xs r ys /\ holds a' m' ys.
Proof.
  intros Hh Hc Hop. destruct op as [x| |]; cbn [array_step op_ok] in *; unfold push_dynamic, sort_dynamic.
  - destruct (insert_dynamic_spec a m xs x Hh Hop) as (r & a' & m' & Hi & Hsz & [[-> Hh']|[-> Hh']]).
    + exists 0, a', m', (xs ++ [x])%list. split_and!; [done..|apply step_push|done].
    + exists 1, a', m', xs. split_and!; [done..|apply step_full|done].
  - exists 0, (reset_dynamic a), m, []. split_and!; [done..|constructor|by eapply holds_reset].
  - destruct (my_qsort_spec a m xs cmp Hh Hc) as (m' & ys & Hq & Hh' & Hp & Hsort).
    exists 0, a, m', ys. rewrite Hq. split_and!; [done..|by constructor|done].
Qed.

Lemma array_run_refines `{ArrayLaws} (cmp : comparison) (ops : list array_op) (a : DYNAMIC_ARRAY) (m : mem) (xs : list element) :
  holds a m xs -> compares cmp -> Forall (op_ok (size_of_element a)) ops ->
  exists rs a' m' ys, array_run cmp ops a m = Some (rs, a', m') /\ list_run cmp ops xs rs ys /\ holds a' m' ys.
Proof.
  intros Hh Hc Hops. revert a m xs Hh Hops. induction ops as [|op ops IH]; intros a m xs Hh Hops.
  - exists [], a, m, xs. split_and!; [done|apply run_end|done].
  - apply Forall_cons in Hops as [Hop Hops].
    destruct (array_step_refines cmp op a m xs Hh Hc Hop) as (r & a1 & m1 & ys & Hs & Hsz & Hl & Hh1).
    rewrite <- Hsz in Hops. destruct (IH a1 m1 ys Hh1 Hops) as (rs & a2 & m2 & zs & Hr & Hlr & Hh2).
    exists (r :: rs), a2, m2, zs. cbn [array_run]. rewrite Hs. cbn. rewrite Hr. cbn. split_and!; [done| |done].
    by econstructor.
Qed.

(** ** An implementation

    It takes memory after all there is, never moves an array and sorts by merging. *)
Definition next_address (m : mem) : Z := 1 + foldr Z.max 0 (map_to_list m).*1.

Lemma next_address_fresh (m : mem) (p : Z) : next_address m <= p -> m !! p = None.
Proof.
  intros Hp. destruct (m !! p) as [b|] eqn:E; [exfalso|done].
  apply elem_of_map_to_list, (list_elem_of_fmap_2 fst) in E. unfold next_address in Hp. cbn in E.
  revert E Hp. generalize ((map_to_list m).*1). intros l Hin. revert Hin.
  induction l as [|q l IH]; [by intros ?%not_elem_of_nil|]. intros [->|Hin]%elem_of_cons; cbn; [lia|]. specialize (IH Hin). lia.
Qed.

Definition merge_elements (cmp : comparison) (xs : list element) : list element :=
  @merge_sort element (below cmp) (fun x y => decide (cmp x y <= 0)) xs.

Fixpoint cut (n : nat) (size : nat) (l : list Z) : list element :=
  match n with O => [] | S n => take size l :: cut n size (drop size l) end.

#[export] Instance simple_arrays : ArrayFunctions := {|
  init_dynamic_array2 size init_buffer init_alloc increment m :=
    let p := next_address m in
    Some (0, {| buffer := p; elements := 0; max_element := init_alloc; alloc_increment := increment; size_of_element := size |},
          zeroed p (Z.to_nat (init_alloc * size)) ∪ m);
  insert_dynamic a x m :=
    if elements a <? max_element a then
      m ← store_bytes m (buffer a + elements a * size_of_element a) x;
      Some (0, {| buffer := buffer a; elements := elements a + 1; max_element := max_element a;
                  alloc_increment := alloc_increment a; size_of_element := size_of_element a |}, m)
    else Some (1, a, m);
  my_qsort base n size cmp m :=
    l ← load_bytes (Z.to_nat (n * size)) m base;
    store_bytes m base (concat (merge_elements cmp (cut (Z.to_nat n) (Z.to_nat size) l))) |}.

Lemma cut_concat (size : Z) (xs : list element) : Forall (elem_ok size) xs -> cut (length xs) (Z.to_nat size) (concat xs) = xs.
Proof.
  induction 1 as [|x xs [Hx _] _ IH]; [done|]. cbn. rewrite take_app_length', drop_app_length' by lia. by rewrite IH.
Qed.

Lemma insert_holds (a : DYNAMIC_ARRAY) (m : mem) (xs : list element) (x : element) :
  holds a m xs -> elem_ok (size_of_element a) x -> elements a < max_element a ->
  exists m', store_bytes m (buffer a + elements a * size_of_element a) x = Some m' /\
    holds {| buffer := buffer a; elements := elements a + 1; max_element := max_element a;
             alloc_increment := alloc_increment a; size_of_element := size_of_element a |} m' (xs ++ [x]).
Proof.
  intros [Hs [He Hm] Hma Hok Hld] Hx Hroom. destruct (Hx) as [Hlen Hb].
  pose proof (bytes_of_Z xs _ Hs) as Hbz. rewrite <- He in Hbz.
  destruct (store_bytes_spec x m (buffer a + elements a * size_of_element a)) as (m' & Hst & Hl' & Hoc & Hmp & _).
  { intros i Hi. rewrite <- Z.add_assoc. apply Hma. nia. }
  exists m'. split; [done|]. constructor; cbn [size_of_element elements max_element buffer].
  - done.
  - rewrite length_app. cbn. lia.
  - by apply Hmp.
  - apply Forall_app; split; [done|by constructor].
  - assert (Hold : load_bytes (bytes_of xs (size_of_element a)) m' (buffer a) = Some (concat xs)).
    { rewrite <- Hld. apply load_bytes_agree. intros q Hq. apply Hoc. lia. }
    rewrite bytes_of_app, load_bytes_app, concat_app, Hold, Hbz.
    cbn. replace (Z.to_nat (size_of_element a)) with (length x) by lia.
    rewrite Hl', u8_bytes by done. cbn. by rewrite app_nil_r.
Qed.

Lemma qsort_holds (a : DYNAMIC_ARRAY) (m : mem) (xs ys : list element) :
  holds a m xs -> Permutation ys xs -> exists m', store_bytes m (buffer a) (concat ys) = Some m' /\ holds a m' ys.
Proof.
  intros [Hs [He Hm] Hma Hok Hld] Hp. assert (Hok' : Forall (elem_ok (size_of_element a)) ys) by (by rewrite Hp).
  assert (Hlen : length ys = length xs) by (by apply Permutation_length).
  assert (Hbytes : bytes_of ys (size_of_element a) = bytes_of xs (size_of_element a)) by (unfold bytes_of; by rewrite Hlen).
  pose proof (bytes_of_Z xs _ Hs) as Hbz. rewrite <- He in Hbz.
  destruct (store_bytes_spec (concat ys) m (buffer a)) as (m' & Hst & Hl' & _ & Hmp & _).
  { rewrite (concat_length _ _ Hok'), Hbytes, Hbz. eapply mapped_le; [done|nia]. }
  exists m'. split; [done|]. constructor; [done|by rewrite Hlen|by apply Hmp|done|].
  rewrite <- (concat_length _ _ Hok'), Hl'. f_equal. apply u8_bytes. by eapply concat_bytes.
Qed.

#[export] Instance simple_array_laws : ArrayLaws.
Proof.
  constructor; cbn [init_dynamic_array2 insert_dynamic my_qsort simple_arrays].
  - intros size n increment m Hs Hn. do 3 eexists. split; [done|]. intros _. split; [done|].
    constructor; cbn; [done|lia| |constructor|done].
    intros i Hi. rewrite lookup_union_l' by (apply mapped_zeroed with (n := n * size); lia).
    apply mapped_zeroed with (n := n * size); lia.
  - intros a m xs x Hh Hx. destruct (elements a <? max_element a) eqn:E.
    + apply Z.ltb_lt in E. destruct (insert_holds a m xs x Hh Hx E) as (m' & Hst & Hh'). rewrite Hst.
      do 3 eexists. split; [done|]. split; [done|]. by left.
    + do 3 eexists. split; [done|]. split; [done|]. by right.
  - intros a m xs cmp Hh Hc. pose proof Hh as [Hs [He Hm] Hma Hok Hld].
    replace (Z.to_nat (elements a * size_of_element a)) with (bytes_of xs (size_of_element a))
      by (unfold bytes_of; rewrite He, Z2Nat.inj_mul, Nat2Z.id; lia).
    rewrite Hld. cbn [mbind option_bind]. rewrite He, Nat2Z.id, cut_concat by done.
    assert (Hp : Permutation (merge_elements cmp xs) xs) by apply merge_sort_Permutation.
    destruct (qsort_holds a m xs _ Hh Hp) as (m' & Hst & Hh'). exists m', (merge_elements cmp xs).
    split_and!; [done..|]. apply Sorted_merge_sort. exact Hc.
Qed.

(** ** Theorems *)

(** A client that pushes, resets and sorts gets what the operations are on lists, whatever
    order the sort gives to equal elements and wherever memory runs out, without fault; and of the result every
    element is found by dynamic_array_ptr and by dynamic_element at the same address, as long as its
    offset is less than 4 GiB. *)
Theorem dynamic_arrays_are_lists `{ArrayLaws} (cmp : comparison) (ops : list array_op) (a : DYNAMIC_ARRAY) (m : mem) (xs : list element)
  (Ha : holds a m xs) (Hcmp : compares cmp) (Hops : Forall (op_ok (size_of_element a)) ops) :
  exists rs a' m' ys, array_run cmp ops a m = Some (rs, a', m') /\ list_run cmp ops xs rs ys /\
    elements a' = Z.of_nat (length ys) /\
    forall i y, ys !! i = Some y -> Z.of_nat i * size_of_element a' < 2 ^ 32 ->
      load_bytes (Z.to_nat (size_of_element a')) m' (dynamic_array_ptr a' (Z.of_nat i)) = Some y /\
      dynamic_element a' (Z.of_nat i) (size_of_element a') = dynamic_array_ptr a' (Z.of_nat i).
Proof.
  destruct (array_run_refines cmp ops a m xs Ha Hcmp Hops) as (rs & a' & m' & ys & Hr & Hl & Hh).
  exists rs, a', m', ys. split_and!; [done..|apply Hh|]. intros i y Hi Hb. destruct Hh as [Hs _ _ Hok Hld].
  unfold dynamic_array_ptr, dynamic_element. rewrite uwrap_small by lia. split; [|done].
  by eapply load_element.
Qed.

Lemma dynamic_arrays_are_lists_witness :
  exists a m, my_init_dynamic_array 1 2 1 ∅ = Some (0, a, m) /\
  exists rs a' m' ys, array_run (fun x y => default 0 (head x) - default 0 (head y)) [PushDynamic [7]; PushDynamic [3]; SortDynamic] a m = Some (rs, a', m') /\
    list_run (fun x y => default 0 (head x) - default 0 (head y)) [PushDynamic [7]; PushDynamic [3]; SortDynamic] [] rs ys /\
    elements a' = Z.of_nat (length ys) /\
    forall i y, ys !! i = Some y -> Z.of_nat i * size_of_element a' < 2 ^ 32 ->
      load_bytes (Z.to_nat (size_of_element a')) m' (dynamic_array_ptr a' (Z.of_nat i)) = Some y /\
      dynamic_element a' (Z.of_nat i) (size_of_element a') = dynamic_array_ptr a' (Z.of_nat i).
Proof.
  destruct (init_dynamic_array2_spec 1 2 1 ∅) as (r & a & m & Hi & Hh); [lia..|].
  assert (Hr : r = 0) by (cbn in Hi; by injection Hi).
  destruct (Hh Hr) as [Hs Ha]. subst r. exists a, m. split; [exact Hi|].
  apply (dynamic_arrays_are_lists _ _ a m []); [exact Ha| |].
  - intros x y. unfold below. lia.
  - rewrite Hs. repeat constructor; unfold is_byte; lia.
Defined.

(** At 4 GiB dynamic_array_ptr begins again, and dynamic_element goes on. *)
Lemma dynamic_array_ptr_wraps (a : DYNAMIC_ARRAY) (i : Z) : 0 < size_of_element a -> 0 <= i ->
  dynamic_array_ptr a i = dynamic_element a i (size_of_element a) <-> i * size_of_element a < 2 ^ 32.
Proof.
  intros Hs Hi. unfold dynamic_array_ptr, dynamic_element. split.
  - intros E. assert (E' : u32 (i * size_of_element a) = i * size_of_element a) by lia.
    pose proof (uwrap_range 32 (i * size_of_element a)). lia.
  - intros Hb. rewrite uwrap_small by lia. done.
Qed.
