(* ===== verification/Decimals.v ===== *)
(** * Decimal numbers (decimal.h)

    The macros on decimal_t and the codes of errors.  The functions are not in the sources; the
    string of a number is what the comment of [decimal_string_size] describes. *)
From Stdlib Require Import Ascii.
From S2P Require Import Prelude Flags.

Record decimal_t := { intg : Z; frac : Z; len : Z; sign : Z; buf : list Z }.

(** A store into the first word, which an empty buffer does not have. *)
Definition decimal_make_zero (dec : decimal_t) : option decimal_t :=
  match buf dec with
  | [] => None
  | _ :: r => Some {| intg := 1; frac := 0; len := len dec; sign := 0; buf := 0 :: r |}
  end.
(** The sign is a char. *)
Definition decimal_neg (dec : decimal_t) : decimal_t :=
  {| intg := intg dec; frac := frac dec; len := len dec; sign := s8 (Z.lxor (sign dec) 1); buf := buf dec |}.
Definition decimal_string_size (dec : decimal_t) : Z :=
  (if intg dec =? 0 then 1 else intg dec) + frac dec + (if 0 <? frac dec then 1 else 0) + 2.

(** ** The string of a number

    Its digits before and after the point are given; without the former there is a zero. *)
Definition representation (dec : decimal_t) (before after : list ascii) : list ascii :=
  ((if sign dec =? 0 then [] else ["-"%char]) ++
   (if intg dec =? 0 then ["0"%char] else before) ++
   (if 0 <? frac dec then "."%char :: after else []))%list.

Definition has_digits (dec : decimal_t) (before after : list ascii) : Prop :=
  Z.of_nat (length before) = intg dec /\ Z.of_nat (length after) = frac dec.

(** ** Theorems *)

(** The buffer has room for the string and the NUL at its end, and for nothing more when the
    number is negative. *)
Theorem decimal_string_fits (dec : decimal_t) (before after : list ascii) (Hd : has_digits dec before after) :
  let n := Z.of_nat (length (representation dec before after)) in
  n + 1 <= decimal_string_size dec /\ (n + 1 = decimal_string_size dec <-> sign dec <> 0).
Proof.
  destruct Hd as [Hb Ha]. unfold representation, decimal_string_size. rewrite !length_app.
  destruct (Z.eqb_spec (sign dec) 0), (Z.eqb_spec (intg dec) 0), (Z.ltb_spec 0 (frac dec)); cbn [length]; lia.
Qed.

Lemma decimal_string_fits_witness :
  let dec := {| intg := 0; frac := 2; len := 1; sign := 1; buf := [250000000] |} in
  Z.of_nat (length (representation dec [] ["2"; "5"]%char)) + 1 <= decimal_string_size dec /\
  (Z.of_nat (length (representation dec [] ["2"; "5"]%char)) + 1 = decimal_string_size dec <-> sign dec <> 0).
Proof. apply (decimal_string_fits {| intg := 0; frac := 2; len := 1; sign := 1; buf := [250000000] |}). by split. Defined.

(** The size is an int: it does not overflow when the digits do not by far. *)
Lemma decimal_string_size_int (dec : decimal_t) :
  0 <= intg dec < 2 ^ 30 - 1 -> 0 <= frac dec < 2 ^ 30 - 1 -> 2 < decimal_string_size dec < 2 ^ 31.
Proof. unfold decimal_string_size. intros. destruct (Z.eqb_spec (intg dec) 0), (Z.ltb_spec 0 (frac dec)); lia. Qed.

(** Negation is its own inverse and changes nothing but the sign. *)
Lemma decimal_neg_involutive (dec : decimal_t) : -128 <= sign dec < 128 -> decimal_neg (decimal_neg dec) = dec.
Proof.
  intros H. destruct dec as [i f l s b]. unfold decimal_neg. cbn in *. f_equal.
  assert (Hx : forallb (fun s => s8 (Z.lxor (s8 (Z.lxor s 1)) 1) =? s) (seqZ (-128) 256) = true) by (by vm_compute).
  rewrite forallb_forall in Hx. apply Z.eqb_eq, Hx, list_elem_of_In, elem_of_seqZ. lia.
Qed.

(** The conventions of the codes: up to 1 a result is usable, from 2 on it may not be, and E_DEC_FATAL_ERROR is the
    test for it. *)
Lemma decimal_errors (r : Z) : 0 <= r <= E_DEC_ERROR -> Z.land r E_DEC_FATAL_ERROR = 0 <-> r <= E_DEC_TRUNCATED.
Proof.
  intros H. assert (Hx : forallb (fun r => bool_decide (Z.land r E_DEC_FATAL_ERROR = 0 <-> r <= E_DEC_TRUNCATED)) (seqZ 0 32) = true).
  { by vm_compute. }
  rewrite forallb_forall in Hx. specialize (Hx r). apply bool_decide_eq_true in Hx; [done|].
  apply list_elem_of_In, elem_of_seqZ. change E_DEC_ERROR with 31 in H. lia.
Qed.
