(* ===== verification/SslOptions.v ===== *)
(** * Options for encrypted connections (sslopt-vars.h, sslopt-longopts.h, sslopt-case.h)

    The fragments that each client includes: variables, entries of its table of options and cases of its
    my_get_one_option.  handle_options, the loop over the arguments, is not in the sources: it is an interface with a
    law, that a given option is found by its name, stores its argument and is passed to the cases. *)
From stdpp Require Import strings.
From S2P Require Import Prelude.

(** What the preprocessor knows. *)
Record ssl_build := { HAVE_OPENSSL : bool; EMBEDDED_LIBRARY : bool; MYSQL_CLIENT : bool }.
Definition ssl_included (b : ssl_build) : bool := HAVE_OPENSSL b && negb (EMBEDDED_LIBRARY b).

(** ** The variables *)
Inductive ssl_string := opt_ssl_ca | opt_ssl_capath | opt_ssl_cert | opt_ssl_cipher | opt_ssl_key.
#[export] Instance ssl_string_eq_dec : EqDecision ssl_string.
Proof. solve_decision. Defined.

Record ssl_vars := { opt_use_ssl : bool; ssl_strings : ssl_string -> option string; opt_ssl_verify_server_cert : bool }.
Definition initial_ssl_vars : ssl_vars :=
  {| opt_use_ssl := false; ssl_strings := fun _ => None; opt_ssl_verify_server_cert := false |}.

(** ** The table of options *)
Inductive ssl_id := OPT_SSL_SSL | OPT_SSL_CA | OPT_SSL_CAPATH | OPT_SSL_CERT | OPT_SSL_CIPHER | OPT_SSL_KEY | OPT_SSL_VERIFY_SERVER_CERT.
#[export] Instance ssl_id_eq_dec : EqDecision ssl_id.
Proof. solve_decision. Defined.

(** GET_BOOL with OPT_ARG, and GET_STR with REQUIRED_ARG, and the address of the variable.  (The comments are without
    the quotes around Common Name.) *)
Inductive ssl_value := UseSsl | VerifyServerCert | StringOf (v : ssl_string).
Record ssl_option := { option_name : string; option_id : ssl_id; option_comment : string; option_value : ssl_value }.
Definition ssl_entry (n : string) (id : ssl_id) (c : string) (v : ssl_value) : ssl_option :=
  {| option_name := n; option_id := id; option_comment := c; option_value := v |}.

Definition ssl_longopts (b : ssl_build) : list ssl_option :=
  (if ssl_included b then
     [ssl_entry "ssl" OPT_SSL_SSL "Enable SSL for connection (automatically enabled with other flags)." UseSsl;
      ssl_entry "ssl-ca" OPT_SSL_CA "CA file in PEM format (check OpenSSL docs, implies --ssl)." (StringOf opt_ssl_ca);
      ssl_entry "ssl-capath" OPT_SSL_CAPATH "CA directory (check OpenSSL docs, implies --ssl)." (StringOf opt_ssl_capath);
      ssl_entry "ssl-cert" OPT_SSL_CERT "X509 cert in PEM format (implies --ssl)." (StringOf opt_ssl_cert);
      ssl_entry "ssl-cipher" OPT_SSL_CIPHER "SSL cipher to use (implies --ssl)." (StringOf opt_ssl_cipher);
      ssl_entry "ssl-key" OPT_SSL_KEY "X509 key in PEM format (implies --ssl)." (StringOf opt_ssl_key)] ++
     (if MYSQL_CLIENT b then
        [ssl_entry "ssl-verify-server-cert" OPT_SSL_VERIFY_SERVER_CERT
           "Verify server's Common Name in its cert against hostname used when connecting. This option is disabled by default."
           VerifyServerCert]
      else [])
   else [])%list.

(** ** The cases *)
Definition use_ssl (s : ssl_vars) : ssl_vars :=
  {| opt_use_ssl := true; ssl_strings := ssl_strings s; opt_ssl_verify_server_cert := opt_ssl_verify_server_cert s |}.
Definition ssl_case (b : ssl_build) (id : ssl_id) (s : ssl_vars) : ssl_vars :=
  if ssl_included b then
    match id with
    | OPT_SSL_KEY | OPT_SSL_CERT | OPT_SSL_CA | OPT_SSL_CAPATH | OPT_SSL_CIPHER => use_ssl s
    | _ => s
    end
  else s.

(** ** A command line

    A string given to its option, or a truth value to the two others ([--ssl], [--ssl=0], [--skip-ssl]). *)
Inductive ssl_argument := GivenString (a : string) | GivenBool (b : bool).

Definition store_argument (v : ssl_value) (a : ssl_argument) (s : ssl_vars) : option ssl_vars :=
  match v, a with
  | UseSsl, GivenBool x => Some {| opt_use_ssl := x; ssl_strings := ssl_strings s; opt_ssl_verify_server_cert := opt_ssl_verify_server_cert s |}
  | VerifyServerCert, GivenBool x => Some {| opt_use_ssl := opt_use_ssl s; ssl_strings := ssl_strings s; opt_ssl_verify_server_cert := x |}
  | StringOf v, GivenString x =>
    Some {| opt_use_ssl := opt_use_ssl s; ssl_strings := fun w => if decide (w = v) then Some x else ssl_strings s w;
            opt_ssl_verify_server_cert := opt_ssl_verify_server_cert s |}
  | _, _ => None
  end.

(** handle_options of my_getopt.c, with the arguments taken apart. *)
Abbreviation ssl_arguments := (list (string * ssl_argument)).
Class OptionParser := handle_options : list ssl_option -> (ssl_id -> ssl_vars -> ssl_vars) -> ssl_arguments -> ssl_vars -> option ssl_vars.
Class OptionParserLaws `{OptionParser} := {
  handle_end : forall table get_one_option s s', handle_options table get_one_option [] s = Some s' -> s' = s;
  handle_next : forall table get_one_option n a args s s', handle_options table get_one_option ((n, a) :: args) s = Some s' ->
    exists o s1, find (fun o => String.eqb n (option_name o)) table = Some o /\ store_argument (option_value o) a s = Some s1 /\
                 handle_options table get_one_option args (get_one_option (option_id o) s1) = Some s' }.

Definition ssl_command_line `{OptionParser} (b : ssl_build) (args : ssl_arguments) (s : ssl_vars) : option ssl_vars :=
  handle_options (ssl_longopts b) (ssl_case b) args s.

(** A loop that does that, and stops at what it does not know. *)
Fixpoint simple_loop (table : list ssl_option) (get_one_option : ssl_id -> ssl_vars -> ssl_vars) (args : ssl_arguments) (s : ssl_vars) : option ssl_vars :=
  match args with
  | [] => Some s
  | (n, a) :: args =>
    o ← find (fun o => String.eqb n (option_name o)) table;
    s ← store_argument (option_value o) a s;
    simple_loop table get_one_option args (get_one_option (option_id o) s)
  end.
#[export] Instance simple_parser : OptionParser := simple_loop.
#[export] Instance simple_parser_laws : OptionParserLaws.
Proof.
  constructor; unfold handle_options, simple_parser; cbn [simple_loop].
  - intros table f s s' E. by injection E.
  - intros table f n a args s s'. destruct (find _ table) as [o|]; [|done]. cbn.
    destruct (store_argument (option_value o) a s) as [s1|] eqn:E; [|done]. cbn. eauto.
Qed.

(** ** Theorems *)

(** What a use of an option says about the use of SSL. *)
Definition says (arg : string * ssl_argument) : option bool :=
  match arg with
  | (_, GivenString _) => Some true
  | (n, GivenBool x) => if String.eqb n "ssl" then Some x else None
  end.
Definition last_word (args : ssl_arguments) (before : bool) : bool :=
  fold_left (fun u arg => default u (says arg)) args before.

Lemma ssl_option_step (b : ssl_build) (n : string) (a : ssl_argument) (o : ssl_option) (s s' : ssl_vars) :
  find (fun o => String.eqb n (option_name o)) (ssl_longopts b) = Some o -> store_argument (option_value o) a s = Some s' ->
  opt_use_ssl (ssl_case b (option_id o) s') = default (opt_use_ssl s) (says (n, a)).
Proof.
  intros Hf Hs. apply find_some in Hf as [Hin Hn]. apply String.eqb_eq in Hn as ->. unfold ssl_longopts in Hin.
  unfold ssl_case. destruct (ssl_included b); [|done]. destruct (MYSQL_CLIENT b); cbn in Hin;
    repeat (destruct Hin as [<-|Hin]; [destruct a; cbn in Hs; injection Hs as <- || discriminate; reflexivity|]); done.
Qed.

(** SSL is used exactly when the last of the options that say something about it says so: a file, directory or
    cipher implies --ssl, --ssl=0 and --skip-ssl later on the line disable it, and an option that verifies the
    certificate of the server says nothing. *)
Theorem ssl_last_word `{OptionParserLaws} (b : ssl_build) (args : ssl_arguments) (s s' : ssl_vars)
  (Hrun : ssl_command_line b args s = Some s') : opt_use_ssl s' = last_word args (opt_use_ssl s).
Proof.
  unfold ssl_command_line in Hrun. revert s Hrun. induction args as [|[n a] args IH]; intros s Hrun; cbn [last_word fold_left].
  - by apply handle_end in Hrun as ->.
  - apply handle_next in Hrun as (o & s1 & Hf & Hs & Hrun). rewrite (IH _ Hrun). unfold last_word. cbn [fold_left].
    by rewrite (ssl_option_step b n a o s s1 Hf Hs).
Qed.

Lemma ssl_last_word_witness :
  let b := {| HAVE_OPENSSL := true; EMBEDDED_LIBRARY := false; MYSQL_CLIENT := true |} in
  let args := [("ssl", GivenBool false); ("ssl-ca", GivenString "ca.pem"); ("ssl-verify-server-cert", GivenBool true)] in
  exists s', ssl_command_line b args initial_ssl_vars = Some s' /\ opt_use_ssl s' = last_word args false.
Proof.
  eexists. split; [reflexivity|].
  apply (ssl_last_word {| HAVE_OPENSSL := true; EMBEDDED_LIBRARY := false; MYSQL_CLIENT := true |}
           [("ssl", GivenBool false); ("ssl-ca", GivenString "ca.pem"); ("ssl-verify-server-cert", GivenBool true)] initial_ssl_vars).
  reflexivity.
Defined.

(** An entry whose comment says that it implies --ssl is one of the cases. *)
Lemma implied_by_comment (b : ssl_build) (o : ssl_option) (s : ssl_vars) : In o (ssl_longopts b) ->
  opt_use_ssl s = false ->
  opt_use_ssl (ssl_case b (option_id o) s) = bool_decide (is_Some (String.index 0 "implies --ssl" (option_comment o))).
Proof.
  unfold ssl_longopts, ssl_case. intros Hin Hs. destruct (ssl_included b); [|done].
  destruct (MYSQL_CLIENT b); cbn [app In] in Hin; repeat (destruct Hin as [<-|Hin]; [by vm_compute|]); done.
Qed.

(** Verifying the certificate of the server alone does not enable SSL. *)
Lemma verification_alone :
  let b := {| HAVE_OPENSSL := true; EMBEDDED_LIBRARY := false; MYSQL_CLIENT := true |} in
  opt_use_ssl <$> ssl_command_line b [("ssl-verify-server-cert", GivenBool true)] initial_ssl_vars = Some false.
Proof. reflexivity. Qed.
