(* ===== verification/FileModes.v ===== *)
(** * Types of files (my_dir.h)

    The predicates on st_mode.  The bits are of the system, whose documented rule is that the types of files
    are different values inside of a mask. *)
From S2P Require Import Prelude.

(** The constants of sys/stat.h. *)
Class StatBits := { S_IFMT : Z; S_IFDIR : Z; S_IFCHR : Z; S_IFBLK : Z; S_IFREG : Z; S_IFIFO : Z;
                    S_ISUID : Z; S_ISGID : Z; S_ISVTX : Z; S_IREAD : Z; S_IWRITE : Z; S_IEXEC : Z }.

Section FileModes.
Context `{StatBits}.
Definition MY_S_IFMT : Z := S_IFMT.
Definition MY_S_IFDIR : Z := S_IFDIR.
Definition MY_S_IFCHR : Z := S_IFCHR.
Definition MY_S_IFBLK : Z := S_IFBLK.
Definition MY_S_IFREG : Z := S_IFREG.
Definition MY_S_IFIFO : Z := S_IFIFO.
Definition MY_S_ISUID : Z := S_ISUID.
Definition MY_S_ISGID : Z := S_ISGID.
Definition MY_S_ISVTX : Z := S_ISVTX.
Definition MY_S_IREAD : Z := S_IREAD.
Definition MY_S_IWRITE : Z := S_IWRITE.
Definition MY_S_IEXEC : Z := S_IEXEC.

Definition MY_S_ISDIR (m : Z) : bool := Z.land m MY_S_IFMT =? MY_S_IFDIR.
Definition MY_S_ISCHR (m : Z) : bool := Z.land m MY_S_IFMT =? MY_S_IFCHR.
Definition MY_S_ISBLK (m : Z) : bool := Z.land m MY_S_IFMT =? MY_S_IFBLK.
Definition MY_S_ISREG (m : Z) : bool := Z.land m MY_S_IFMT =? MY_S_IFREG.
Definition MY_S_ISFIFO (m : Z) : bool := Z.land m MY_S_IFMT =? MY_S_IFIFO.

Definition file_types : list Z := [MY_S_IFDIR; MY_S_IFCHR; MY_S_IFBLK; MY_S_IFREG; MY_S_IFIFO].
Definition file_predicates : list (Z -> bool) := [MY_S_ISDIR; MY_S_ISCHR; MY_S_ISBLK; MY_S_ISREG; MY_S_ISFIFO].
Definition mode_bits : list Z := [MY_S_ISUID; MY_S_ISGID; MY_S_ISVTX; MY_S_IREAD; MY_S_IWRITE; MY_S_IEXEC].
End FileModes.

(** The rule of sys/stat.h. *)
Class StatLaws `{StatBits} := {
  types_distinct : NoDup file_types;
  types_masked : Forall (fun t => Z.land t MY_S_IFMT = t) file_types;
  bits_outside : Forall (fun b => Z.land b MY_S_IFMT = 0) mode_bits }.

#[export] Instance unix_stat_bits : StatBits := {|
  S_IFMT := 0xF000; S_IFDIR := 0x4000; S_IFCHR := 0x2000; S_IFBLK := 0x6000; S_IFREG := 0x8000; S_IFIFO := 0x1000;
  S_ISUID := 0x800; S_ISGID := 0x400; S_ISVTX := 0x200; S_IREAD := 0x100; S_IWRITE := 0x80; S_IEXEC := 0x40 |}.
#[export] Instance unix_stat_laws : StatLaws.
Proof. split; [|repeat constructor..]. by apply (bool_decide_eq_true_1 (NoDup file_types)). Qed.

(** A mode with the type [t] and any of the other bits. *)
Definition mode_of (t : Z) (bits : list Z) : Z := fold_right Z.lor t bits.

Lemma mode_of_type `{StatLaws} (t : Z) (bits : list Z) : In t file_types -> Forall (fun b => b ∈ mode_bits) bits ->
  Z.land (mode_of t bits) MY_S_IFMT = t.
Proof.
  intros Ht. pose proof types_masked as Hm. rewrite Forall_forall in Hm. apply list_elem_of_In in Ht.
  pose proof bits_outside as Hb. rewrite Forall_forall in Hb.
  induction 1 as [|b bits Hbit _ IH]; [by apply Hm|]. cbn [mode_of fold_right]. fold (mode_of t bits).
  by rewrite Z.land_lor_distr_l, IH, (Hb b Hbit), Z.lor_0_l.
Qed.

(** Whatever its other bits are, a mode with the type of the i-th predicate satisfies that predicate and no other. *)
Theorem file_type_recognised `{StatLaws} (i j : nat) (t : Z) (bits : list Z) (P : Z -> bool)
  (Hi : file_types !! i = Some t) (Hbits : Forall (fun b => b ∈ mode_bits) bits) (Hj : file_predicates !! j = Some P) :
  P (mode_of t bits) = true <-> i = j.
Proof.
  assert (Hp : exists u, file_types !! j = Some u /\ P (mode_of t bits) = (Z.land (mode_of t bits) MY_S_IFMT =? u)).
  { do 5 (destruct j as [|j]; [injection Hj as <-; by eexists|]). done. }
  destruct Hp as (u & Hu & ->). rewrite (mode_of_type t bits); [|by apply list_elem_of_In, (list_elem_of_lookup_2 _ i)|done].
  rewrite Z.eqb_eq. split; [|intros ->; congruence].
  intros ->. by eapply NoDup_lookup; [apply types_distinct|..].
Qed.

Lemma file_type_recognised_witness : MY_S_ISREG (mode_of S_IFREG [S_IREAD; S_IWRITE]) = true /\ (3 = 3)%nat.
Proof.
  pose proof (file_type_recognised 3 3 S_IFREG [S_IREAD; S_IWRITE] MY_S_ISREG) as H. split; [|done].
  apply H; [done| |done|done]. by apply (bool_decide_eq_true_1 (Forall (fun b => b ∈ mode_bits) [S_IREAD; S_IWRITE])).
Defined.
