(* ===== verification/MemoryRoots.v ===== *)
(** * Memory roots (my_alloc.h, my_sys.h)

    The macros on MEM_ROOT and safe_strdup_root.  init_alloc_root and strdup_root are not in the sources and are an
    interface. *)
From S2P Require Import Prelude.

Record MEM_ROOT := { free : Z; used : Z; pre_alloc : Z; min_malloc : Z; block_size : Z; block_num : Z; first_block_usage : Z;
                     error_handler : Z }.

Definition alloc_root_inited (A : MEM_ROOT) : bool := negb (min_malloc A =? 0).
Definition clear_alloc_root (A : MEM_ROOT) : MEM_ROOT :=
  {| free := 0; used := 0; pre_alloc := 0; min_malloc := 0; block_size := block_size A; block_num := block_num A;
     first_block_usage := first_block_usage A; error_handler := error_handler A |}.
(** ALLOC_ROOT_MIN_BLOCK_SIZE, with the overhead of malloc and the size of USED_MEM. *)
Definition ALLOC_ROOT_MIN_BLOCK_SIZE (malloc_overhead sizeof_used_mem : Z) : Z := malloc_overhead + sizeof_used_mem + 8.

(** strdup_root of the heap [St]: the copy of a string, or NULL. *)
Class RootFunctions (St : Type) := { strdup_root : MEM_ROOT -> Z -> St -> option (Z * MEM_ROOT * St) }.
Definition safe_strdup_root {St} `{!RootFunctions St} (root : MEM_ROOT) (str : Z) (s : St) : option (Z * MEM_ROOT * St) :=
  if negb (str =? 0) then strdup_root root str s else Some (0, root, s).

(** A cleared root is one that is not in use, it has no blocks, and clearing again changes nothing. *)
Lemma clear_alloc_root_spec (A : MEM_ROOT) :
  alloc_root_inited (clear_alloc_root A) = false /\
  (free (clear_alloc_root A), used (clear_alloc_root A), pre_alloc (clear_alloc_root A)) = (0, 0, 0) /\
  clear_alloc_root (clear_alloc_root A) = clear_alloc_root A.
Proof. done. Qed.

(** With a function that only copies strings that are there, safe_strdup_root has no fault for any argument,
    and gives NULL for NULL without a call. *)
Lemma safe_strdup_root_total {St} `{!RootFunctions St} (valid : Z -> St -> Prop) (root : MEM_ROOT) (str : Z) (s : St) :
  (forall p, p <> 0 -> valid p s -> is_Some (strdup_root root p s)) -> (str = 0 \/ valid str s) ->
  is_Some (safe_strdup_root root str s) /\ (str = 0 -> safe_strdup_root root str s = Some (0, root, s)).
Proof.
  intros Hf Hv. unfold safe_strdup_root. destruct (Z.eqb_spec str 0) as [->|Hn]; cbn; [by split|].
  split; [|done]. destruct Hv as [->|Hv]; [done|by apply Hf].
Qed.
